(* ===== verification/_CoqProject ===== *)
-Q . S2P
Prelude.v
Machine.v
Cstring.v
Spinlock.v
Boot.v
Kalloc.v
Cprintf.v
Sched.v
Vm.v
Vmspec.v
Aspace.v
Vmcopy.v
Userspace.v
Sleeplock.v
Layout.v
Bio.v
Bcache.v
Log.v
Crash.v
Fs.v
Txn.v
Balloc.v
Inodes.v
Files.v
Fsdemo.v
Dirs.v
Pipe.v
File.v
Durable.v
Mkfs.v
Mkfsspec.v
Mkimage.v
Proc.v
Procspec.v
Procmem.v
Fork.v
Userinit.v
Exec.v
Args.v
Sysfile.v
Kbd.v
Console.v
Syscall.v
Invariant.v
Devices.v
Mp.v
Bootmain.v
Main.v
User.v
Ulib.v
Uprogs.v
Grep.v
Umalloc.v
Sh.v
Usertests.v
Testrun.v
