(* ===== verification/Prelude.v ===== *)
(** * Verification of the xv6 system of SWE3004_Operating_systems

    The program is xv6 for the 32-bit x86 (src/xv6-public), with the course's additions: the
    structure cfsstate in proc.h and the system calls setnice, getnice and ps.  It has three
    layers.  The kernel runs on the bare machine: it multiplexes the processors among the
    processes of a table, gives each an address space by two-level page tables, and offers
    files through a buffer cache, a write-ahead log and inodes.  The system call interface
    joins it to the user programs, which are the shell, a small C library and the usual
    tools.  mkfs, a program of the host, makes the disk image the kernel starts from.

    ** How the code is modelled

    The kernel's static data is one record, [world] (Machine.v), with a field per table or
    variable; an index stands for a pointer into a static table, a 32-bit address for a
    pointer to memory from kalloc, and memory is a map from word addresses to words.  Integers
    are [Z], with the wrap-around of their C type written out ([u32], [s32], [u16], [u8]).

    A kernel routine is a function of the monad [K] of this file: it takes the state and a
    schedule, the list of what the other processors, processes and devices do to the state
    each time the routine gives up control, and returns ([Ret]), panics ([Panic]), or is still
    off the processor when the schedule ends ([Off]).  A spin loop, a sleep and a context
    switch consume the schedule, so that a theorem for every schedule is one about every
    interleaving at these points.  [triple] and [keeps] are the logic of invariants over this
    monad.  Loops without a bound of their own take a number of turns: [kwait] as many as the
    schedule has elements, since each turn but the last gives up control; [kcount] and the
    scans of the tables one more than the length of the table.  Running out of turns is [Off],
    and the theorems that give a routine's result show that it does not happen.

    A user program is an interaction tree over the system calls of user.h (User.v); the kernel
    it runs on is a class with the laws the program relies on, and every theorem that assumes
    such laws has an example kernel that satisfies them.

    Code outside src/xv6-public is an interface: the hardware behind the ports and the device
    registers (Devices.v, Bootmain.v), the image the linker and the BIOS provide (Kalloc.v, Mp.v)
    and the host's files (Mkfs.v).  What the program relies on of it is a class, with an
    instance for each theorem that assumes one.

    ** The files

    The machine and the kernel's base
    - Prelude: machine integers, the kernel monad, its logic, searches, tactics.
    - Machine: the structures of the headers and [world]; param.h, mmu.h, memlayout.h, fs.h.
    - Cstring: string.c.  Layout: the encodings of fs.h (dinode, dirent, superblock, log header).
    - Spinlock: spinlock.c, with mycpu and myproc.  Sleeplock: sleeplock.c and [kctx], the
      state in which a process runs kernel code that may sleep.  Boot: a state for examples.
    - Cprintf, Console, Kbd: console.c, uart.c and kbd.c.  Devices: lapic.c, ioapic.c, picirq.c
      and the set-up of the other devices.  Mp: mp.c.  Bootmain: bootmain.c.  Main: main.c.

    Memory and processes
    - Kalloc: kalloc.c.  Vm: vm.c; Vmspec: what its routines do to the page tables; Aspace,
      Vmcopy, Userspace: address spaces as a whole, every page accounted for.
    - Sched: sleep, wakeup, sched, yield and the scheduler of proc.c.  Proc: the rest of proc.c
      with setnice, getnice and ps; Procspec: the calls on processes; Procmem, Fork, Userinit:
      growproc, fork and userinit with the memory they give a process.  Exec: exec.c.

    Files
    - Bio: bio.c, memide.c, ide.c; Bcache: the cache is a copy of the disk.
    - Log: log.c; Crash: the log makes transactions atomic under crashes.
    - Fs: fs.c.  Txn: blocks inside a transaction; Balloc, Inodes, Files, Dirs: the bitmap, the
      blocks, the contents of files and directories over it; Durable: the same under crashes;
      Fsdemo: a small disk for examples.  File: file.c.  Pipe: pipe.c.
    - Mkfs: mkfs.c; Mkfsspec, Mkimage: the image it makes is a file system of Fs.

    The system calls
    - Args, Sysfile, Syscall: syscall.c, sysfile.c, sysproc.c and trap.c.
    - Invariant: what every entry into the kernel keeps.

    The user programs
    - User: user.h and usys.S.  Ulib: ulib.c and printf.c.  Umalloc: umalloc.c.
    - Uprogs: cat, echo, wc, kill, ln, mkdir, rm, zombie, ls and init.  Grep: grep.c.  Sh: sh.c.
    - Usertests: usertests.c, forktest.c, stressfs.c and udevtests.c.  Testrun: a process on the
      kernel whose calls are traps, and the tests it runs.

    ** What the theorems show

    - Crash, Durable: transactions are atomic and durable, whatever writes a crash loses and
      however often recovery is interrupted; a write to a file is such a transaction, it puts the
      bytes at their place and nothing else in use changes, and reading gives them back.
    - Durable, Dirs: balloc, bfree, dirlookup and dirlink in terms of sets of blocks and
      lists of entries; a piece of a write as filewrite cuts it fits into the log.
    - Mkimage: mkfs makes a well-formed file system with the files it is given.
    - Bootmain, Main, Userinit: the boot loader puts the kernel into memory; main reaches the
      scheduler with every component's invariant in place and the first process ready to run.
    - Userspace, Procmem, Fork: the memory of a process is in order after growproc; fork copies
      it; what is freed is what was taken, and no page is lost when memory runs out.
    - Invariant.trap_keeps_tables: every trap keeps the process table, the pids and the
      console queue well formed, against every schedule that does.
    - Sched, Procspec: no wakeup is lost between the test and the sleep; the scheduler runs
      every runnable process; the life cycle of a process through allocproc, exit and wait;
      kill; setnice and getnice; ps.
    - Pipe: a pipe refines a queue of bytes.  Devices: the date read from the clock is one that
      the clock showed.  Mp: the scan of the processor tables.
    - Grep, Sh, Umalloc: the language of grep's patterns, the shell's parser as the inverse of a
      printer, the plumbing of pipelines, and malloc and free as operations on a set of free
      addresses.
    - Testrun: the components together.  The kernel runs ten of its own tests on the image that
      mkfs makes.  A run is bounded by STEPS events; that the bound is enough is part of the
      theorem, which says that the run ends.

    ** Not modelled

    - Assembly: the boot loader's bootasm.S, entry.S, entryother.S, swtch.S, trapasm.S,
      initcode.S and the generated vectors.S; of x86.h the operations that the drivers use.
      Their effect (the switch of contexts, the trap frame) is part of the routines that use
      them.
    - Two processes at once as programs: another process is what the schedule does to the state
      at the points where a kernel routine gives up control, so the tests that fork are
      programs (Usertests) without a theorem about their run.
    - main on several processors: startothers is modelled, and the theorem about main is for a
      machine with one.
    - The course's separate exercises (src/homework, src/project), which are measurements of the
      host and drafts, and not part of the system. *)

From Stdlib Require Import ZArith Lia.
From stdpp Require Import base list gmap strings numbers.
Local Open Scope Z_scope.

(** ** Machine integers: [uint] and [int] of C on a 32-bit x86 *)

Definition u32 (z : Z) : Z := z mod 2 ^ 32.
Definition s32 (z : Z) : Z := (z + 2 ^ 31) mod 2 ^ 32 - 2 ^ 31.
Definition INT_MAX : Z := 2 ^ 31 - 1.
Definition u16 (z : Z) : Z := z mod 2 ^ 16.
Definition u8 (z : Z) : Z := z mod 2 ^ 8.
Definition s16 (z : Z) : Z := (z + 2 ^ 15) mod 2 ^ 16 - 2 ^ 15.

Lemma u32_small z : 0 <= z < 2 ^ 32 -> u32 z = z.
Proof. apply Z.mod_small. Qed.

Lemma u32_bound z : 0 <= u32 z < 2 ^ 32.
Proof. apply Z.mod_pos_bound. lia. Qed.

Lemma s32_small z : - 2 ^ 31 <= z < 2 ^ 31 -> s32 z = z.
Proof. unfold s32. intros. rewrite Z.mod_small; lia. Qed.

Lemma u32_idemp z : u32 (u32 z) = u32 z.
Proof. apply Z.mod_mod. lia. Qed.

Lemma u32_add_l a b : u32 (u32 a + b) = u32 (a + b).
Proof. apply Zplus_mod_idemp_l. Qed.

Lemma u32_sub_l a b : u32 (u32 a - b) = u32 (a - b).
Proof. apply Zminus_mod_idemp_l. Qed.

Lemma u32_sub_r a b : u32 (a - u32 b) = u32 (a - b).
Proof. apply Zminus_mod_idemp_r. Qed.

Lemma u32_pred a : 0 < u32 a -> u32 (a - 1) = u32 a - 1.
Proof.
  intros H. rewrite <-u32_sub_l. apply u32_small. pose proof (u32_bound a). lia.
Qed.

Lemma u32_succ a : u32 a < 2 ^ 32 - 1 -> u32 (a + 1) = u32 a + 1.
Proof.
  intros H. rewrite <-u32_add_l. apply u32_small. pose proof (u32_bound a). lia.
Qed.

Lemma u32_sub_inj a b r :
  0 <= a < 2 ^ 32 -> 0 <= b < 2 ^ 32 -> u32 (a - r) = u32 (b - r) -> a = b.
Proof.
  unfold u32. intros Ha Hb E.
  pose proof (Z.div_mod (a - r) (2 ^ 32)). pose proof (Z.div_mod (b - r) (2 ^ 32)). lia.
Qed.

(** Case analysis on the comparisons of [Z] in the goal and the hypotheses. *)
Ltac zcase_step :=
  match goal with
  | |- context [?a <=? ?b] => destruct (Z.leb_spec a b)
  | |- context [?a <? ?b] => destruct (Z.ltb_spec a b)
  | |- context [?a =? ?b] => destruct (Z.eqb_spec a b)
  | |- context [?a >=? ?b] => rewrite (Z.geb_leb a b)
  | |- context [?a >? ?b] => rewrite (Z.gtb_ltb a b)
  | H : context [?a <=? ?b] |- _ => destruct (Z.leb_spec a b)
  | H : context [?a <? ?b] |- _ => destruct (Z.ltb_spec a b)
  | H : context [?a =? ?b] |- _ => destruct (Z.eqb_spec a b)
  | H : context [?a >=? ?b] |- _ => rewrite (Z.geb_leb a b) in H
  | H : context [?a >? ?b] |- _ => rewrite (Z.gtb_ltb a b) in H
  end.
Ltac zcases := repeat (zcase_step; cbn [andb orb negb] in *; try lia); try done; try lia.

(** ** Outcomes and the kernel monad

    A kernel routine runs on a state [S] and against a schedule: the list of
    what the rest of the system (other processes, other CPUs, the devices) does
    to the state each time the routine gives up control.  It consumes one
    element of the schedule per turn of a spin loop and per context switch.
    - [Ret a w e] : it returned [a]; [e] is the unused rest of the schedule;
    - [Panic m w] : it called [panic(m)], which never returns;
    - [Off w]     : it gave up control and the schedule ends before it resumes. *)
Definition sched_env (S : Type) : Type := list (S -> S).

Inductive outcome (S A : Type) : Type :=
| Ret (a : A) (w : S) (e : sched_env S)
| Panic (m : string) (w : S)
| Off (w : S).
Arguments Ret {S A} a w e.
Arguments Panic {S A} m w.
Arguments Off {S A} w.

Definition K (S A : Type) : Type := S -> sched_env S -> outcome S A.

Definition kret {S A} (a : A) : K S A := fun w e => Ret a w e.
Definition kbind {S A B} (m : K S A) (f : A -> K S B) : K S B :=
  fun w e => match m w e with
             | Ret a w' e' => f a w' e'
             | Panic s w' => Panic s w'
             | Off w' => Off w'
             end.
Definition kpanic {S A} (m : string) : K S A := fun w _ => Panic m w.
Definition kget {S A} (f : S -> A) : K S A := fun w e => Ret (f w) w e.
Definition kmod {S} (f : S -> S) : K S unit := fun w e => Ret tt (f w) e.
(** The routine gives up control for one element of the schedule. *)
Definition kyield {S} : K S unit :=
  fun w e => match e with [] => Off w | f :: e' => Ret tt (f w) e' end.

(** The routine is still running when the observation ends: a loop that does not end, or
    one that has used up the turns a definition allows it. *)
Definition kout {S A} : K S A := fun w _ => Off w.

Arguments kret {S A} a w e /.
Arguments kout {S A} w e /.
Arguments kbind {S A B} m f w e /.
Arguments kpanic {S A} m w e /.
Arguments kget {S A} f w e /.
Arguments kmod {S} f w e /.
Arguments kyield {S} w !e /.

Declare Scope kern_scope.
Delimit Scope kern_scope with kern.
Notation "x <- m ; k" := (kbind m (fun x => k))
  (at level 100, m at next level, k at level 200, right associativity) : kern_scope.
Notation "m >>; k" := (kbind m (fun _ => k))
  (at level 100, k at level 200, right associativity) : kern_scope.

Definition kwhen {S} (b : bool) (m : K S unit) : K S unit := if b then m else kret tt.

(** [for(x in l) body(x)] *)
Fixpoint kfor {S A} (l : list A) (body : A -> K S unit) : K S unit :=
  match l with
  | [] => kret tt
  | x :: l' => kbind (body x) (fun _ => kfor l' body)
  end.

(** [for(; i < bound(); i++) body(i)], the bound being read again at every turn; [n] bounds
    the turns. *)
Fixpoint kcount {S} (n : nat) (i : Z) (bound : K S Z) (body : Z -> K S unit) : K S unit :=
  match n with
  | O => kout
  | S n' => kbind bound (fun b =>
      if i <? b then kbind (body i) (fun _ => kcount n' (i + 1) bound body) else kret tt)
  end.

(** A counting loop whose bound does not change: [I k] holds after [k] turns. *)
Lemma kcount_rule {S} (I : nat -> S -> Prop) n turns bound body w (e : sched_env S) :
  (forall k w, I k w -> bound w e = Ret (Z.of_nat n) w e) ->
  (forall k w, (k < n)%nat -> I k w -> exists w', body (Z.of_nat k) w e = Ret tt w' e /\ I (Datatypes.S k) w') ->
  (n < turns)%nat -> I 0%nat w ->
  exists w', kcount turns 0 bound body w e = Ret tt w' e /\ I n w'.
Proof.
  intros Hbound Hbody. change 0 with (Z.of_nat 0).
  assert (forall m k w, (n - k = m)%nat -> (k <= n)%nat -> (m < turns)%nat -> I k w ->
    exists w', kcount turns (Z.of_nat k) bound body w e = Ret tt w' e /\ I n w') as H.
  2:{ intros Hn H0. by apply (H n 0%nat); [lia|lia| |]. }
  clear w. induction turns as [|t IH]; intros m k w Hm Hk Ht HI; [lia|]. cbn [kcount]. unfold kbind.
  rewrite (Hbound k w HI). destruct (Z.ltb_spec (Z.of_nat k) (Z.of_nat n)) as [Hlt|Hge].
  - destruct (Hbody k w ltac:(lia) HI) as (w' & -> & HI'). replace (Z.of_nat k + 1) with (Z.of_nat (Datatypes.S k)) by lia.
    by apply (IH (m - 1)%nat); [lia|lia|lia|].
  - assert (k = n) as -> by lia. eauto.
Qed.

(** [for(;;) body], left with a value by [Some]; [n] bounds the turns. *)
Fixpoint kloop {S A} (n : nat) (body : K S (option A)) : K S A :=
  match n with
  | O => kout
  | S n' => kbind body (fun r => match r with Some a => kret a | None => kloop n' body end)
  end.

(** A loop each turn of which either leaves it or gives up control: the schedule bounds
    the turns. *)
Definition kwait {S A} (body : K S (option A)) : K S A :=
  fun w e => kloop (Datatypes.S (length e)) body w e.
Arguments kwait {S A} body w e : simpl never.

Definition consumes {S A} (body : K S (option A)) : Prop :=
  forall w e w' e', body w e = Ret None w' e' -> (length e' < length e)%nat.

Lemma kloop_enough {S A} (body : K S (option A)) n w e :
  consumes body -> (length e < n)%nat -> kloop n body w e = kwait body w e.
Proof.
  intros Hc. unfold kwait. revert w e.
  assert (forall n m w e, (length e < n)%nat -> (length e < m)%nat ->
    kloop n body w e = kloop m body w e) as H; [|intros w e Hn; apply H; lia].
  clear n. induction n as [|n IH]; intros [|m] w e Hn Hm; try lia. simpl.
  destruct (body w e) as [[a|] w' e'| |] eqn:E; try done.
  apply Hc in E. apply IH; lia.
Qed.

Lemma kwait_some {S A} (body : K S (option A)) w e a w' e' :
  body w e = Ret (Some a) w' e' -> kwait body w e = Ret a w' e'.
Proof. intros H. unfold kwait. simpl. by rewrite H. Qed.

Lemma kwait_off {S A} (body : K S (option A)) w e w' :
  body w e = Off w' -> kwait body w e = Off w'.
Proof. intros H. unfold kwait. simpl. by rewrite H. Qed.

Lemma kwait_again {S A} (body : K S (option A)) w e w' e' :
  consumes body -> body w e = Ret None w' e' -> kwait body w e = kwait body w' e'.
Proof.
  intros Hc H. unfold kwait at 1. simpl. rewrite H. apply kloop_enough; [done|].
  by apply Hc in H.
Qed.

Lemma kbind_ret {S A B} (m : K S A) (f : A -> K S B) w e a w' e' :
  m w e = Ret a w' e' -> kbind m f w e = f a w' e'.
Proof. intros H. simpl. by rewrite H. Qed.

(** ** Invariants of routines

    [triple I P m Q]: run from a state with [P] against a schedule whose every element keeps
    [I], the routine returns with [Q], and [I] holds when it panics or gives up control for
    good.  [keeps I m] is the case where both conditions are [I]. *)

Definition stable {S} (I : S -> Prop) (e : sched_env S) : Prop :=
  Forall (fun f => forall w, I w -> I (f w)) e.

Definition triple {S A} (I P : S -> Prop) (m : K S A) (Q : A -> S -> Prop) : Prop :=
  forall w e, P w -> stable I e ->
    match m w e with
    | Ret a w' e' => Q a w' /\ stable I e'
    | Panic _ w' | Off w' => I w'
    end.

Definition keeps {S A} (I : S -> Prop) (m : K S A) : Prop := triple I I m (fun _ => I).
Arguments keeps {S A} I m : simpl never.

Section triple.
Context {S : Type} (I : S -> Prop).

Lemma triple_bind {A B} P Q R (m : K S A) (f : A -> K S B) :
  triple I P m Q -> (forall a, triple I (Q a) (f a) R) -> triple I P (kbind m f) R.
Proof.
  intros Hm Hf w e Hw He. specialize (Hm w e Hw He). unfold kbind.
  destruct (m w e); [|done|done]. destruct Hm. by apply Hf.
Qed.

Lemma triple_conseq {A} (P P' : S -> Prop) (Q Q' : A -> S -> Prop) m :
  triple I P' m Q' -> (forall w, P w -> P' w) -> (forall a w, Q' a w -> Q a w) -> triple I P m Q.
Proof.
  intros Hm HP HQ w e Hw He. specialize (Hm w e (HP w Hw) He).
  destruct (m w e); [|done|done]. destruct Hm. auto.
Qed.

Lemma triple_ret {A} (P : S -> Prop) (Q : A -> S -> Prop) a :
  (forall w, P w -> Q a w) -> triple I P (kret a) Q.
Proof. intros H w e Hw He. split; auto. Qed.

Lemma triple_get {A} (P : S -> Prop) (f : S -> A) :
  triple I P (kget f) (fun a w => P w /\ a = f w).
Proof. intros w e Hw He. by repeat split. Qed.

Lemma triple_mod (P : S -> Prop) (Q : unit -> S -> Prop) g :
  (forall w, P w -> Q tt (g w)) -> triple I P (kmod g) Q.
Proof. intros H w e Hw He. split; [by apply H|done]. Qed.

Lemma triple_panic {A} (P : S -> Prop) (Q : A -> S -> Prop) s :
  (forall w, P w -> I w) -> triple I P (kpanic s) Q.
Proof. intros H w e Hw He. by apply H. Qed.

Lemma triple_out {A} (P : S -> Prop) (Q : A -> S -> Prop) :
  (forall w, P w -> I w) -> triple I P kout Q.
Proof. intros H w e Hw He. by apply H. Qed.

Lemma triple_loop {A} n (body : K S (option A)) (Q : A -> S -> Prop) :
  triple I I body (fun r w => match r with Some a => Q a w | None => I w end) ->
  triple I I (kloop n body) Q.
Proof.
  intros Hb. induction n as [|n IH]; [by apply triple_out|].
  cbn [kloop]. eapply triple_bind; [apply Hb|]. intros [a|]; [by apply triple_ret|exact IH].
Qed.

Lemma triple_wait {A} (body : K S (option A)) (Q : A -> S -> Prop) :
  triple I I body (fun r w => match r with Some a => Q a w | None => I w end) ->
  triple I I (kwait body) Q.
Proof. intros Hb w e Hw He. by apply triple_loop. Qed.

Lemma triple_weaken {A} (P : S -> Prop) (m : K S A) :
  keeps I m -> (forall w, P w -> I w) -> triple I P m (fun _ => I).
Proof. intros Hm HP. by eapply triple_conseq. Qed.

Lemma keeps_ret {A} (a : A) : keeps I (kret a).
Proof. by apply triple_ret. Qed.
Lemma keeps_bind {A B} (m : K S A) (f : A -> K S B) :
  keeps I m -> (forall a, keeps I (f a)) -> keeps I (kbind m f).
Proof. intros. by eapply triple_bind. Qed.
Lemma keeps_panic {A} s : keeps I (kpanic (A := A) s).
Proof. by apply triple_panic. Qed.
Lemma keeps_out {A} : keeps I (kout (A := A)).
Proof. by apply triple_out. Qed.
Lemma keeps_get {A} (f : S -> A) : keeps I (kget f).
Proof. eapply triple_conseq; [apply (triple_get I)|done|]. by intros a w [? _]. Qed.
Lemma keeps_mod g : (forall w, I w -> I (g w)) -> keeps I (kmod g).
Proof. intros. by apply triple_mod. Qed.
Lemma keeps_yield : keeps I kyield.
Proof. intros w [|f e] Hw He; [done|]. inversion_clear He as [|? ? Hf He']. split; [by apply Hf|done]. Qed.
Lemma keeps_when b m : keeps I m -> keeps I (kwhen b m).
Proof. destruct b; [done|]. intros. apply keeps_ret. Qed.
Lemma keeps_for {A} (l : list A) body : (forall x, keeps I (body x)) -> keeps I (kfor l body).
Proof. intros H. induction l; [apply keeps_ret|]. by apply keeps_bind. Qed.
Lemma keeps_count n i bound body :
  keeps I bound -> (forall x, keeps I (body x)) -> keeps I (kcount n i bound body).
Proof.
  intros Hb H. revert i. induction n as [|n IH]; intros i; [apply keeps_out|].
  cbn [kcount]. apply keeps_bind; [done|]. intros b. destruct (i <? b); [|apply keeps_ret].
  by apply keeps_bind.
Qed.
Lemma keeps_loop {A} n (body : K S (option A)) : keeps I body -> keeps I (kloop n body).
Proof. intros. apply triple_loop. eapply triple_conseq; [done|done|]. by intros [|]. Qed.
Lemma keeps_wait {A} (body : K S (option A)) : keeps I body -> keeps I (kwait body).
Proof. intros H w e. by apply keeps_loop. Qed.
End triple.

(** [keeps_tac] takes a routine apart and leaves the assignments that [auto] cannot show to
    keep the invariant; what is known of the routines it calls is in the database [keeps]. *)
Create HintDb keeps discriminated.
#[export] Hint Constants Opaque : keeps.
Ltac keeps_step :=
  lazymatch goal with
  | |- keeps _ (kret _) => apply keeps_ret
  | |- keeps _ (kpanic _) => apply keeps_panic
  | |- keeps _ kout => apply keeps_out
  | |- keeps _ (kget _) => apply keeps_get
  | |- keeps _ kyield => apply keeps_yield
  | |- keeps _ (kbind _ _) => apply keeps_bind; [|intros ?]
  | |- keeps _ (kwhen _ _) => apply keeps_when
  | |- keeps _ (kfor _ _) => apply keeps_for; intros ?
  | |- keeps _ (kcount _ _ _ _) => apply keeps_count; [|intros ?]
  | |- keeps _ (kloop _ _) => apply keeps_loop
  | |- keeps _ (kwait _) => apply keeps_wait
  | |- keeps _ (kmod _) => apply keeps_mod; intros ? ?; try assumption
  | |- keeps _ (match ?x with _ => _ end) => destruct x eqn:?
  | |- keeps _ (let _ := _ in _) => cbv zeta
  end.
Ltac keeps_tac := repeat first [solve [auto 3 with keeps nocore] | keeps_step].

(** ** Linear search: [for(i = 0; i < n; i++) if(P(a[i])) ...] *)
Fixpoint find_idx {A} (P : A -> bool) (l : list A) : option nat :=
  match l with
  | [] => None
  | x :: l' => if P x then Some 0%nat else S <$> find_idx P l'
  end.

Section find_idx.
Context {A : Type}.
Implicit Types (P Q : A -> bool) (l : list A).

Lemma find_idx_Some P l i :
  find_idx P l = Some i <->
  exists x, l !! i = Some x /\ P x = true /\
    forall j y, (j < i)%nat -> l !! j = Some y -> P y = false.
Proof.
  revert i. induction l as [|z l IH]; intros i; simpl.
  - split; [done|]. intros (x & H & _). by rewrite lookup_nil in H.
  - destruct (P z) eqn:Pz.
    + split.
      * intros [= <-]. exists z. repeat split; [done|]. intros j y Hj. lia.
      * intros (x & Hx & Px & Hlt). destruct i as [|i]; [done|].
        specialize (Hlt 0%nat z). rewrite Hlt in Pz; [done|lia|done].
    + rewrite fmap_Some. split.
      * intros (k & Hk & ->). apply IH in Hk as (x & Hx & Px & Hlt).
        exists x. repeat split; [done|done|]. intros [|j] y Hj Hy.
        { by simplify_eq/=. } { apply (Hlt j); [lia|done]. }
      * intros (x & Hx & Px & Hlt). destruct i as [|i]; [simplify_eq/=; congruence|].
        exists i. split; [|done]. apply IH. exists x. repeat split; [done|done|].
        intros j y Hj Hy. apply (Hlt (S j)); [lia|done].
Qed.

Lemma find_idx_None P l :
  find_idx P l = None <-> forall x, x ∈ l -> P x = false.
Proof.
  induction l as [|z l IH]; simpl.
  - split; [intros _ x Hx; by apply not_elem_of_nil in Hx | done].
  - destruct (P z) eqn:Pz.
    + split; [done|]. intros H. rewrite H in Pz; [done|]. by constructor.
    + rewrite fmap_None, IH. split.
      * intros H x [->|Hx]%elem_of_cons; auto.
      * intros H x Hx. apply H. by constructor.
Qed.

Lemma find_idx_ext P Q l1 l2 :
  Forall2 (fun x y => P x = Q y) l1 l2 -> find_idx P l1 = find_idx Q l2.
Proof. induction 1 as [|x y l1 l2 Hxy _ IH]; simpl; [done|]. by rewrite Hxy, IH. Qed.

Lemma find_idx_lt P l i : find_idx P l = Some i -> (i < length l)%nat.
Proof. intros (x & Hx & _)%find_idx_Some. by eapply lookup_lt_Some. Qed.

(** Updating one element in a way the test cannot see leaves the search alone. *)
Lemma find_idx_alter P f i l :
  (forall x, l !! i = Some x -> P (f x) = P x) -> find_idx P (alter f i l) = find_idx P l.
Proof.
  revert i. induction l as [|z l IH]; intros [|i] H; simpl; try done.
  - by rewrite (H z).
  - change (list_alter f i l) with (alter f i l).
    rewrite IH; [done|]. intros x Hx. by apply H.
Qed.
End find_idx.

Lemma list_alter_id' {A} (f : A -> A) (l : list A) i :
  (forall x, l !! i = Some x -> f x = x) -> alter f i l = l.
Proof.
  intros H. apply list_eq. intros j.
  destruct (decide (i = j)) as [<-|Hne].
  - rewrite list_lookup_alter_eq. destruct (l !! i) eqn:E; simpl; [|done]. by rewrite H.
  - by rewrite list_lookup_alter_ne.
Qed.

Lemma list_alter_ext' {A} (f g : A -> A) (l : list A) i :
  (forall x, l !! i = Some x -> f x = g x) -> alter f i l = alter g i l.
Proof.
  intros H. apply list_eq. intros j.
  destruct (decide (i = j)) as [<-|Hne].
  - rewrite !list_lookup_alter_eq. destruct (l !! i) eqn:E; simpl; [|done]. by rewrite H.
  - by rewrite !list_lookup_alter_ne.
Qed.
