(* ===== verification/Machine.v ===== *)
(** * The kernel's data: the structures of the xv6 headers and the kernel state

    One record per C structure, with the fields the code uses, a setter
    [set_<field>] per field, and the record [world] of everything the kernel
    routines read and write.  A pointer into a static table ([ptable.proc],
    [ftable.file], [icache.inode], [bcache.buf], [cpus]) is an index into the
    corresponding list, a null pointer is [None]; a pointer to memory obtained
    from [kalloc] is its 32-bit address. *)

From Stdlib Require Import ZArith Lia.
From stdpp Require Import base list gmap strings numbers countable.
From S2P Require Import Prelude.
Local Open Scope Z_scope.

(** ** Constants of param.h, mmu.h, memlayout.h, fs.h *)

Definition NPROC : nat := 64.
Arguments NPROC : simpl never.
Definition KSTACKSIZE : Z := 4096.
Definition NCPU : nat := 8.
Definition NOFILE : nat := 16.
Arguments NOFILE : simpl never.
Definition NFILE : nat := 100.
Arguments NFILE : simpl never.
Definition NINODE : nat := 50.
Arguments NINODE : simpl never.
Definition NDEV : Z := 10.
Definition ROOTDEV : Z := 1.
Definition MAXARG : Z := 32.
Definition MAXOPBLOCKS : Z := 10.
Definition LOGSIZE : Z := MAXOPBLOCKS * 3.
Definition NBUF : nat := 30.
Arguments NBUF : simpl never.
Definition FSSIZE : Z := 1000.

Definition FL_IF : Z := 0x200.
Definition PGSIZE : Z := 4096.
Definition EXTMEM : Z := 0x100000.
Definition PHYSTOP : Z := 0xE000000.
Definition DEVSPACE : Z := 0xFE000000.
Definition KERNBASE : Z := 0x80000000.
Definition KERNLINK : Z := KERNBASE + EXTMEM.
Definition V2P (a : Z) : Z := u32 (a - KERNBASE).
Definition P2V (a : Z) : Z := u32 (a + KERNBASE).
Definition PGROUNDUP (sz : Z) : Z := Z.land (u32 (sz + PGSIZE - 1)) (u32 (Z.lnot (PGSIZE - 1))).
Definition PGROUNDDOWN (a : Z) : Z := Z.land a (u32 (Z.lnot (PGSIZE - 1))).

Definition ROOTINO : Z := 1.
Definition BSIZE : Z := 512.
Definition NDIRECT : Z := 12.
Definition NINDIRECT : Z := BSIZE / 4.
Definition MAXFILE : Z := NDIRECT + NINDIRECT.
Definition DIRSIZ : Z := 14.
Definition T_DIR : Z := 1.
Definition T_FILE : Z := 2.
Definition T_DEV : Z := 3.
Definition B_VALID : Z := 0x2.
Definition B_DIRTY : Z := 0x4.

(** fcntl.h *)
Definition O_RDONLY : Z := 0x000.
Definition O_WRONLY : Z := 0x001.
Definition O_RDWR : Z := 0x002.
Definition O_CREATE : Z := 0x200.

(** ** Symbols the linker defines *)

(** [end] and [data] of kernel.ld, the addresses of [trapret] and [forkret], and
    the image of initcode.S that the build embeds. *)
Class KernelImage := {
  k_end : Z;
  k_data : Z;
  k_trapret : Z;
  k_forkret : Z;
  k_initcode : list Z
}.

(** ** Names of locks, of sleep locks and of sleep channels *)

Inductive slid : Type := SlInode (i : nat) | SlBuf (b : nat).

Inductive lockid : Type :=
| PtableLock | TicksLock | FtableLock | KmemLock | IcacheLock | BcacheLock
| LogLock | ConsLock | IdeLock
| PipeLock (p : Z)      (* &pipe->lock *)
| SleepLk (s : slid).   (* &sleeplock->lk *)

(** The addresses the kernel sleeps on. *)
Inductive chan : Type :=
| ChProc (p : nat)      (* a struct proc, slept on by wait() *)
| ChTicks               (* &ticks *)
| ChLog                 (* &log *)
| ChInput               (* &input.r *)
| ChPipeR (p : Z)       (* &pipe->nread *)
| ChPipeW (p : Z)       (* &pipe->nwrite *)
| ChBuf (b : nat)       (* a struct buf *)
| ChSleep (s : slid).   (* a struct sleeplock *)

#[export] Instance slid_eq_dec : EqDecision slid.
Proof. solve_decision. Defined.
#[export] Instance lockid_eq_dec : EqDecision lockid.
Proof. solve_decision. Defined.
#[export] Instance chan_eq_dec : EqDecision chan.
Proof. solve_decision. Defined.

Definition slid_code (s : slid) : Z * Z :=
  match s with SlInode i => (0, Z.of_nat i) | SlBuf b => (1, Z.of_nat b) end.
Definition slid_decode (c : Z * Z) : slid :=
  match c with (0, i) => SlInode (Z.to_nat i) | (_, b) => SlBuf (Z.to_nat b) end.
Lemma slid_decode_code s : slid_decode (slid_code s) = s.
Proof. destruct s; simpl; by rewrite Nat2Z.id. Qed.
#[export] Instance slid_countable : Countable slid :=
  inj_countable' slid_code slid_decode slid_decode_code.

Definition lockid_code (l : lockid) : Z + (Z + slid) :=
  match l with
  | PtableLock => inl 0 | TicksLock => inl 1 | FtableLock => inl 2 | KmemLock => inl 3
  | IcacheLock => inl 4 | BcacheLock => inl 5 | LogLock => inl 6 | ConsLock => inl 7
  | IdeLock => inl 8 | PipeLock p => inr (inl p) | SleepLk s => inr (inr s)
  end.
Definition lockid_decode (c : Z + (Z + slid)) : lockid :=
  match c with
  | inl 0 => PtableLock | inl 1 => TicksLock | inl 2 => FtableLock | inl 3 => KmemLock
  | inl 4 => IcacheLock | inl 5 => BcacheLock | inl 6 => LogLock | inl 7 => ConsLock
  | inl _ => IdeLock | inr (inl p) => PipeLock p | inr (inr s) => SleepLk s
  end.
Lemma lockid_decode_code l : lockid_decode (lockid_code l) = l.
Proof. by destruct l. Qed.
#[export] Instance lockid_countable : Countable lockid :=
  inj_countable' lockid_code lockid_decode lockid_decode_code.

(** ** Structures *)

(** [struct spinlock] of spinlock.h, without the debugging array [pcs]. *)
Record spinlock : Type := mkLock {
  lk_locked : Z;  (* is the lock held? *)
  lk_name : string;
  lk_cpu : option nat  (* the cpu holding the lock *)
}.

Definition set_lk_locked (g : Z -> Z) (r : spinlock) : spinlock :=
    mkLock (g (lk_locked r)) (lk_name r) (lk_cpu r).
Definition set_lk_name (g : string -> string) (r : spinlock) : spinlock :=
    mkLock (lk_locked r) (g (lk_name r)) (lk_cpu r).
Definition set_lk_cpu (g : (option nat) -> (option nat)) (r : spinlock) : spinlock :=
    mkLock (lk_locked r) (lk_name r) (g (lk_cpu r)).

(** [struct sleeplock] of sleeplock.h; its spinlock [lk] is the lock [SleepLk]. *)
Record sleeplock : Type := mkSleeplock {
  sl_locked : Z;
  sl_name : string;
  sl_pid : Z  (* process holding the lock *)
}.

Definition set_sl_locked (g : Z -> Z) (r : sleeplock) : sleeplock :=
    mkSleeplock (g (sl_locked r)) (sl_name r) (sl_pid r).
Definition set_sl_name (g : string -> string) (r : sleeplock) : sleeplock :=
    mkSleeplock (sl_locked r) (g (sl_name r)) (sl_pid r).
Definition set_sl_pid (g : Z -> Z) (r : sleeplock) : sleeplock :=
    mkSleeplock (sl_locked r) (sl_name r) (g (sl_pid r)).

(** The base address of a segment: a number, or the task state segment of cpu [i]. *)
Inductive segbase : Type := BaseAt (a : Z) | BaseTss (i : nat).

(** [struct segdesc] of mmu.h, each split field as one number. *)
Record segdesc : Type := mkSegdesc {
  sd_lim : Z;  (* lim_15_0 and lim_19_16 *)
  sd_base : segbase;  (* base_15_0, base_23_16, base_31_24 *)
  sd_type : Z;  (* segment type (STS_ constants) *)
  sd_s : Z;  (* 0 = system, 1 = application *)
  sd_dpl : Z;  (* descriptor privilege level *)
  sd_p : Z;  (* present *)
  sd_db : Z;  (* 0 = 16-bit segment, 1 = 32-bit segment *)
  sd_g : Z  (* granularity: limit scaled by 4K when set *)
}.

Definition set_sd_lim (g : Z -> Z) (r : segdesc) : segdesc :=
    mkSegdesc (g (sd_lim r)) (sd_base r) (sd_type r) (sd_s r) (sd_dpl r) (sd_p r) (sd_db r) (sd_g
    r).
Definition set_sd_base (g : segbase -> segbase) (r : segdesc) : segdesc :=
    mkSegdesc (sd_lim r) (g (sd_base r)) (sd_type r) (sd_s r) (sd_dpl r) (sd_p r) (sd_db r) (sd_g
    r).
Definition set_sd_type (g : Z -> Z) (r : segdesc) : segdesc :=
    mkSegdesc (sd_lim r) (sd_base r) (g (sd_type r)) (sd_s r) (sd_dpl r) (sd_p r) (sd_db r) (sd_g
    r).
Definition set_sd_s (g : Z -> Z) (r : segdesc) : segdesc :=
    mkSegdesc (sd_lim r) (sd_base r) (sd_type r) (g (sd_s r)) (sd_dpl r) (sd_p r) (sd_db r) (sd_g
    r).
Definition set_sd_dpl (g : Z -> Z) (r : segdesc) : segdesc :=
    mkSegdesc (sd_lim r) (sd_base r) (sd_type r) (sd_s r) (g (sd_dpl r)) (sd_p r) (sd_db r) (sd_g
    r).
Definition set_sd_p (g : Z -> Z) (r : segdesc) : segdesc :=
    mkSegdesc (sd_lim r) (sd_base r) (sd_type r) (sd_s r) (sd_dpl r) (g (sd_p r)) (sd_db r) (sd_g
    r).
Definition set_sd_db (g : Z -> Z) (r : segdesc) : segdesc :=
    mkSegdesc (sd_lim r) (sd_base r) (sd_type r) (sd_s r) (sd_dpl r) (sd_p r) (g (sd_db r)) (sd_g
    r).
Definition set_sd_g (g : Z -> Z) (r : segdesc) : segdesc :=
    mkSegdesc (sd_lim r) (sd_base r) (sd_type r) (sd_s r) (sd_dpl r) (sd_p r) (sd_db r) (g (sd_g
    r)).

(** [struct gatedesc] of mmu.h. *)
Record gatedesc : Type := mkGatedesc {
  g_off_15_0 : Z;  (* low 16 bits of offset in segment *)
  g_cs : Z;  (* code segment selector *)
  g_args : Z;
  g_rsv1 : Z;
  g_type : Z;  (* STS_IG32 or STS_TG32 *)
  g_s : Z;  (* must be 0 (system) *)
  g_dpl : Z;  (* descriptor privilege level *)
  g_p : Z;  (* present *)
  g_off_31_16 : Z  (* high bits of offset in segment *)
}.

(** [struct cpu] of proc.h, of [ts] the fields the code sets. *)
Record cpu : Type := mkCpu {
  c_apicid : Z;  (* Local APIC ID *)
  c_esp0 : Z;  (* ts.esp0: kernel stack for interrupts *)
  c_ss0 : Z;  (* ts.ss0 *)
  c_iomb : Z;  (* ts.iomb *)
  c_gdt : list segdesc;  (* x86 global descriptor table *)
  c_started : Z;  (* has the CPU started? *)
  c_ncli : Z;  (* depth of pushcli nesting *)
  c_intena : Z;  (* were interrupts enabled before pushcli? *)
  c_proc : option nat  (* the process running on this cpu or null *)
}.

Definition set_c_apicid (g : Z -> Z) (r : cpu) : cpu :=
    mkCpu (g (c_apicid r)) (c_esp0 r) (c_ss0 r) (c_iomb r) (c_gdt r) (c_started r) (c_ncli r)
    (c_intena r) (c_proc r).
Definition set_c_esp0 (g : Z -> Z) (r : cpu) : cpu :=
    mkCpu (c_apicid r) (g (c_esp0 r)) (c_ss0 r) (c_iomb r) (c_gdt r) (c_started r) (c_ncli r)
    (c_intena r) (c_proc r).
Definition set_c_ss0 (g : Z -> Z) (r : cpu) : cpu :=
    mkCpu (c_apicid r) (c_esp0 r) (g (c_ss0 r)) (c_iomb r) (c_gdt r) (c_started r) (c_ncli r)
    (c_intena r) (c_proc r).
Definition set_c_iomb (g : Z -> Z) (r : cpu) : cpu :=
    mkCpu (c_apicid r) (c_esp0 r) (c_ss0 r) (g (c_iomb r)) (c_gdt r) (c_started r) (c_ncli r)
    (c_intena r) (c_proc r).
Definition set_c_gdt (g : (list segdesc) -> (list segdesc)) (r : cpu) : cpu :=
    mkCpu (c_apicid r) (c_esp0 r) (c_ss0 r) (c_iomb r) (g (c_gdt r)) (c_started r) (c_ncli r)
    (c_intena r) (c_proc r).
Definition set_c_started (g : Z -> Z) (r : cpu) : cpu :=
    mkCpu (c_apicid r) (c_esp0 r) (c_ss0 r) (c_iomb r) (c_gdt r) (g (c_started r)) (c_ncli r)
    (c_intena r) (c_proc r).
Definition set_c_ncli (g : Z -> Z) (r : cpu) : cpu :=
    mkCpu (c_apicid r) (c_esp0 r) (c_ss0 r) (c_iomb r) (c_gdt r) (c_started r) (g (c_ncli r))
    (c_intena r) (c_proc r).
Definition set_c_intena (g : Z -> Z) (r : cpu) : cpu :=
    mkCpu (c_apicid r) (c_esp0 r) (c_ss0 r) (c_iomb r) (c_gdt r) (c_started r) (c_ncli r) (g
    (c_intena r)) (c_proc r).
Definition set_c_proc (g : (option nat) -> (option nat)) (r : cpu) : cpu :=
    mkCpu (c_apicid r) (c_esp0 r) (c_ss0 r) (c_iomb r) (c_gdt r) (c_started r) (c_ncli r) (c_intena
    r) (g (c_proc r)).

(** [enum procstate] of proc.h. *)
Inductive procstate : Type := UNUSED | EMBRYO | SLEEPING | RUNNABLE | RUNNING | ZOMBIE.

#[export] Instance procstate_eq_dec : EqDecision procstate.
Proof. solve_decision. Defined.

Definition is_state (s t : procstate) : bool := bool_decide (s = t).

(** [struct cfsstate] of proc.h. *)
Record cfsstate : Type := mkCfs {
  nice : Z;  (* niceness of process (range 0-39, default 20) *)
  timeslice : Z;
  runtime : Z;
  vruntime : Z
}.

Definition set_nice (g : Z -> Z) (r : cfsstate) : cfsstate :=
    mkCfs (g (nice r)) (timeslice r) (runtime r) (vruntime r).
Definition set_timeslice (g : Z -> Z) (r : cfsstate) : cfsstate :=
    mkCfs (nice r) (g (timeslice r)) (runtime r) (vruntime r).
Definition set_runtime (g : Z -> Z) (r : cfsstate) : cfsstate :=
    mkCfs (nice r) (timeslice r) (g (runtime r)) (vruntime r).
Definition set_vruntime (g : Z -> Z) (r : cfsstate) : cfsstate :=
    mkCfs (nice r) (timeslice r) (runtime r) (g (vruntime r)).

(** [struct proc] of proc.h. *)
Record proc : Type := mkProc {
  p_sz : Z;  (* size of process memory (bytes) *)
  p_pgdir : Z;  (* page table *)
  p_kstack : Z;  (* bottom of kernel stack *)
  p_state : procstate;
  p_pid : Z;
  p_schedstate : cfsstate;
  p_parent : option nat;
  p_tf : Z;  (* address of the trap frame *)
  p_context : Z;  (* address of the saved context *)
  p_chan : option chan;  (* if non-null, sleeping on chan *)
  p_killed : Z;
  p_ofile : list (option nat);  (* open files *)
  p_cwd : option nat;  (* current directory *)
  p_name : list Z  (* process name, 16 bytes *)
}.

Definition set_p_sz (g : Z -> Z) (r : proc) : proc :=
    mkProc (g (p_sz r)) (p_pgdir r) (p_kstack r) (p_state r) (p_pid r) (p_schedstate r) (p_parent r)
    (p_tf r) (p_context r) (p_chan r) (p_killed r) (p_ofile r) (p_cwd r) (p_name r).
Definition set_p_pgdir (g : Z -> Z) (r : proc) : proc :=
    mkProc (p_sz r) (g (p_pgdir r)) (p_kstack r) (p_state r) (p_pid r) (p_schedstate r) (p_parent r)
    (p_tf r) (p_context r) (p_chan r) (p_killed r) (p_ofile r) (p_cwd r) (p_name r).
Definition set_p_kstack (g : Z -> Z) (r : proc) : proc :=
    mkProc (p_sz r) (p_pgdir r) (g (p_kstack r)) (p_state r) (p_pid r) (p_schedstate r) (p_parent r)
    (p_tf r) (p_context r) (p_chan r) (p_killed r) (p_ofile r) (p_cwd r) (p_name r).
Definition set_p_state (g : procstate -> procstate) (r : proc) : proc :=
    mkProc (p_sz r) (p_pgdir r) (p_kstack r) (g (p_state r)) (p_pid r) (p_schedstate r) (p_parent r)
    (p_tf r) (p_context r) (p_chan r) (p_killed r) (p_ofile r) (p_cwd r) (p_name r).
Definition set_p_pid (g : Z -> Z) (r : proc) : proc :=
    mkProc (p_sz r) (p_pgdir r) (p_kstack r) (p_state r) (g (p_pid r)) (p_schedstate r) (p_parent r)
    (p_tf r) (p_context r) (p_chan r) (p_killed r) (p_ofile r) (p_cwd r) (p_name r).
Definition set_p_schedstate (g : cfsstate -> cfsstate) (r : proc) : proc :=
    mkProc (p_sz r) (p_pgdir r) (p_kstack r) (p_state r) (p_pid r) (g (p_schedstate r)) (p_parent r)
    (p_tf r) (p_context r) (p_chan r) (p_killed r) (p_ofile r) (p_cwd r) (p_name r).
Definition set_p_parent (g : (option nat) -> (option nat)) (r : proc) : proc :=
    mkProc (p_sz r) (p_pgdir r) (p_kstack r) (p_state r) (p_pid r) (p_schedstate r) (g (p_parent r))
    (p_tf r) (p_context r) (p_chan r) (p_killed r) (p_ofile r) (p_cwd r) (p_name r).
Definition set_p_tf (g : Z -> Z) (r : proc) : proc :=
    mkProc (p_sz r) (p_pgdir r) (p_kstack r) (p_state r) (p_pid r) (p_schedstate r) (p_parent r) (g
    (p_tf r)) (p_context r) (p_chan r) (p_killed r) (p_ofile r) (p_cwd r) (p_name r).
Definition set_p_context (g : Z -> Z) (r : proc) : proc :=
    mkProc (p_sz r) (p_pgdir r) (p_kstack r) (p_state r) (p_pid r) (p_schedstate r) (p_parent r)
    (p_tf r) (g (p_context r)) (p_chan r) (p_killed r) (p_ofile r) (p_cwd r) (p_name r).
Definition set_p_chan (g : (option chan) -> (option chan)) (r : proc) : proc :=
    mkProc (p_sz r) (p_pgdir r) (p_kstack r) (p_state r) (p_pid r) (p_schedstate r) (p_parent r)
    (p_tf r) (p_context r) (g (p_chan r)) (p_killed r) (p_ofile r) (p_cwd r) (p_name r).
Definition set_p_killed (g : Z -> Z) (r : proc) : proc :=
    mkProc (p_sz r) (p_pgdir r) (p_kstack r) (p_state r) (p_pid r) (p_schedstate r) (p_parent r)
    (p_tf r) (p_context r) (p_chan r) (g (p_killed r)) (p_ofile r) (p_cwd r) (p_name r).
Definition set_p_ofile (g : (list (option nat)) -> (list (option nat))) (r : proc) : proc :=
    mkProc (p_sz r) (p_pgdir r) (p_kstack r) (p_state r) (p_pid r) (p_schedstate r) (p_parent r)
    (p_tf r) (p_context r) (p_chan r) (p_killed r) (g (p_ofile r)) (p_cwd r) (p_name r).
Definition set_p_cwd (g : (option nat) -> (option nat)) (r : proc) : proc :=
    mkProc (p_sz r) (p_pgdir r) (p_kstack r) (p_state r) (p_pid r) (p_schedstate r) (p_parent r)
    (p_tf r) (p_context r) (p_chan r) (p_killed r) (p_ofile r) (g (p_cwd r)) (p_name r).
Definition set_p_name (g : (list Z) -> (list Z)) (r : proc) : proc :=
    mkProc (p_sz r) (p_pgdir r) (p_kstack r) (p_state r) (p_pid r) (p_schedstate r) (p_parent r)
    (p_tf r) (p_context r) (p_chan r) (p_killed r) (p_ofile r) (p_cwd r) (g (p_name r)).

(** [enum] of struct file in file.h. *)
Inductive filetype : Type := FD_NONE | FD_PIPE | FD_INODE.

#[export] Instance filetype_eq_dec : EqDecision filetype.
Proof. solve_decision. Defined.

(** [struct file] of file.h. *)
Record file : Type := mkFile {
  f_type : filetype;
  f_ref : Z;  (* reference count *)
  f_readable : Z;
  f_writable : Z;
  f_pipe : Z;  (* address of the pipe, 0 when null *)
  f_ip : option nat;
  f_off : Z
}.

Definition set_f_type (g : filetype -> filetype) (r : file) : file :=
    mkFile (g (f_type r)) (f_ref r) (f_readable r) (f_writable r) (f_pipe r) (f_ip r) (f_off r).
Definition set_f_ref (g : Z -> Z) (r : file) : file :=
    mkFile (f_type r) (g (f_ref r)) (f_readable r) (f_writable r) (f_pipe r) (f_ip r) (f_off r).
Definition set_f_readable (g : Z -> Z) (r : file) : file :=
    mkFile (f_type r) (f_ref r) (g (f_readable r)) (f_writable r) (f_pipe r) (f_ip r) (f_off r).
Definition set_f_writable (g : Z -> Z) (r : file) : file :=
    mkFile (f_type r) (f_ref r) (f_readable r) (g (f_writable r)) (f_pipe r) (f_ip r) (f_off r).
Definition set_f_pipe (g : Z -> Z) (r : file) : file :=
    mkFile (f_type r) (f_ref r) (f_readable r) (f_writable r) (g (f_pipe r)) (f_ip r) (f_off r).
Definition set_f_ip (g : (option nat) -> (option nat)) (r : file) : file :=
    mkFile (f_type r) (f_ref r) (f_readable r) (f_writable r) (f_pipe r) (g (f_ip r)) (f_off r).
Definition set_f_off (g : Z -> Z) (r : file) : file :=
    mkFile (f_type r) (f_ref r) (f_readable r) (f_writable r) (f_pipe r) (f_ip r) (g (f_off r)).

(** [struct pipe] of pipe.c; its lock is [PipeLock]. *)
Record pipe : Type := mkPipe {
  pi_data : list Z;  (* PIPESIZE bytes *)
  pi_nread : Z;  (* number of bytes read *)
  pi_nwrite : Z;  (* number of bytes written *)
  pi_readopen : Z;
  pi_writeopen : Z
}.

Definition set_pi_data (g : (list Z) -> (list Z)) (r : pipe) : pipe :=
    mkPipe (g (pi_data r)) (pi_nread r) (pi_nwrite r) (pi_readopen r) (pi_writeopen r).
Definition set_pi_nread (g : Z -> Z) (r : pipe) : pipe :=
    mkPipe (pi_data r) (g (pi_nread r)) (pi_nwrite r) (pi_readopen r) (pi_writeopen r).
Definition set_pi_nwrite (g : Z -> Z) (r : pipe) : pipe :=
    mkPipe (pi_data r) (pi_nread r) (g (pi_nwrite r)) (pi_readopen r) (pi_writeopen r).
Definition set_pi_readopen (g : Z -> Z) (r : pipe) : pipe :=
    mkPipe (pi_data r) (pi_nread r) (pi_nwrite r) (g (pi_readopen r)) (pi_writeopen r).
Definition set_pi_writeopen (g : Z -> Z) (r : pipe) : pipe :=
    mkPipe (pi_data r) (pi_nread r) (pi_nwrite r) (pi_readopen r) (g (pi_writeopen r)).

(** [struct inode] of file.h; its sleep lock is [SlInode]. *)
Record inode : Type := mkInode {
  i_dev : Z;
  i_inum : Z;
  i_ref : Z;  (* reference count *)
  i_valid : Z;  (* inode has been read from disk? *)
  i_type : Z;
  i_major : Z;
  i_minor : Z;
  i_nlink : Z;
  i_size : Z;
  i_addrs : list Z  (* NDIRECT+1 block numbers *)
}.

Definition set_i_dev (g : Z -> Z) (r : inode) : inode :=
    mkInode (g (i_dev r)) (i_inum r) (i_ref r) (i_valid r) (i_type r) (i_major r) (i_minor r)
    (i_nlink r) (i_size r) (i_addrs r).
Definition set_i_inum (g : Z -> Z) (r : inode) : inode :=
    mkInode (i_dev r) (g (i_inum r)) (i_ref r) (i_valid r) (i_type r) (i_major r) (i_minor r)
    (i_nlink r) (i_size r) (i_addrs r).
Definition set_i_ref (g : Z -> Z) (r : inode) : inode :=
    mkInode (i_dev r) (i_inum r) (g (i_ref r)) (i_valid r) (i_type r) (i_major r) (i_minor r)
    (i_nlink r) (i_size r) (i_addrs r).
Definition set_i_valid (g : Z -> Z) (r : inode) : inode :=
    mkInode (i_dev r) (i_inum r) (i_ref r) (g (i_valid r)) (i_type r) (i_major r) (i_minor r)
    (i_nlink r) (i_size r) (i_addrs r).
Definition set_i_type (g : Z -> Z) (r : inode) : inode :=
    mkInode (i_dev r) (i_inum r) (i_ref r) (i_valid r) (g (i_type r)) (i_major r) (i_minor r)
    (i_nlink r) (i_size r) (i_addrs r).
Definition set_i_major (g : Z -> Z) (r : inode) : inode :=
    mkInode (i_dev r) (i_inum r) (i_ref r) (i_valid r) (i_type r) (g (i_major r)) (i_minor r)
    (i_nlink r) (i_size r) (i_addrs r).
Definition set_i_minor (g : Z -> Z) (r : inode) : inode :=
    mkInode (i_dev r) (i_inum r) (i_ref r) (i_valid r) (i_type r) (i_major r) (g (i_minor r))
    (i_nlink r) (i_size r) (i_addrs r).
Definition set_i_nlink (g : Z -> Z) (r : inode) : inode :=
    mkInode (i_dev r) (i_inum r) (i_ref r) (i_valid r) (i_type r) (i_major r) (i_minor r) (g
    (i_nlink r)) (i_size r) (i_addrs r).
Definition set_i_size (g : Z -> Z) (r : inode) : inode :=
    mkInode (i_dev r) (i_inum r) (i_ref r) (i_valid r) (i_type r) (i_major r) (i_minor r) (i_nlink
    r) (g (i_size r)) (i_addrs r).
Definition set_i_addrs (g : (list Z) -> (list Z)) (r : inode) : inode :=
    mkInode (i_dev r) (i_inum r) (i_ref r) (i_valid r) (i_type r) (i_major r) (i_minor r) (i_nlink
    r) (i_size r) (g (i_addrs r)).

(** [struct buf] of buf.h; its sleep lock is [SlBuf].  The list head [bcache.head] is
    the entry at index [NBUF]. *)
Record buf : Type := mkBuf {
  b_flags : Z;
  b_dev : Z;
  b_blockno : Z;
  b_refcnt : Z;
  b_prev : nat;  (* LRU cache list *)
  b_next : nat;
  b_qnext : option nat;  (* disk queue *)
  b_data : list Z  (* BSIZE bytes *)
}.

Definition set_b_flags (g : Z -> Z) (r : buf) : buf :=
    mkBuf (g (b_flags r)) (b_dev r) (b_blockno r) (b_refcnt r) (b_prev r) (b_next r) (b_qnext r)
    (b_data r).
Definition set_b_dev (g : Z -> Z) (r : buf) : buf :=
    mkBuf (b_flags r) (g (b_dev r)) (b_blockno r) (b_refcnt r) (b_prev r) (b_next r) (b_qnext r)
    (b_data r).
Definition set_b_blockno (g : Z -> Z) (r : buf) : buf :=
    mkBuf (b_flags r) (b_dev r) (g (b_blockno r)) (b_refcnt r) (b_prev r) (b_next r) (b_qnext r)
    (b_data r).
Definition set_b_refcnt (g : Z -> Z) (r : buf) : buf :=
    mkBuf (b_flags r) (b_dev r) (b_blockno r) (g (b_refcnt r)) (b_prev r) (b_next r) (b_qnext r)
    (b_data r).
Definition set_b_prev (g : nat -> nat) (r : buf) : buf :=
    mkBuf (b_flags r) (b_dev r) (b_blockno r) (b_refcnt r) (g (b_prev r)) (b_next r) (b_qnext r)
    (b_data r).
Definition set_b_next (g : nat -> nat) (r : buf) : buf :=
    mkBuf (b_flags r) (b_dev r) (b_blockno r) (b_refcnt r) (b_prev r) (g (b_next r)) (b_qnext r)
    (b_data r).
Definition set_b_qnext (g : (option nat) -> (option nat)) (r : buf) : buf :=
    mkBuf (b_flags r) (b_dev r) (b_blockno r) (b_refcnt r) (b_prev r) (b_next r) (g (b_qnext r))
    (b_data r).
Definition set_b_data (g : (list Z) -> (list Z)) (r : buf) : buf :=
    mkBuf (b_flags r) (b_dev r) (b_blockno r) (b_refcnt r) (b_prev r) (b_next r) (b_qnext r) (g
    (b_data r)).

(** [struct superblock] of fs.h. *)
Record superblock : Type := mkSuperblock {
  sb_size : Z;
  sb_nblocks : Z;
  sb_ninodes : Z;
  sb_nlog : Z;
  sb_logstart : Z;
  sb_inodestart : Z;
  sb_bmapstart : Z
}.

(** [struct log] of log.c with its [struct logheader]. *)
Record logstate : Type := mkLog {
  lg_start : Z;
  lg_size : Z;
  lg_outstanding : Z;  (* how many FS sys calls are executing *)
  lg_committing : Z;
  lg_dev : Z;
  lh_n : Z;  (* log.lh.n *)
  lh_block : list Z  (* log.lh.block, LOGSIZE entries *)
}.

Definition set_lg_start (g : Z -> Z) (r : logstate) : logstate :=
    mkLog (g (lg_start r)) (lg_size r) (lg_outstanding r) (lg_committing r) (lg_dev r) (lh_n r)
    (lh_block r).
Definition set_lg_size (g : Z -> Z) (r : logstate) : logstate :=
    mkLog (lg_start r) (g (lg_size r)) (lg_outstanding r) (lg_committing r) (lg_dev r) (lh_n r)
    (lh_block r).
Definition set_lg_outstanding (g : Z -> Z) (r : logstate) : logstate :=
    mkLog (lg_start r) (lg_size r) (g (lg_outstanding r)) (lg_committing r) (lg_dev r) (lh_n r)
    (lh_block r).
Definition set_lg_committing (g : Z -> Z) (r : logstate) : logstate :=
    mkLog (lg_start r) (lg_size r) (lg_outstanding r) (g (lg_committing r)) (lg_dev r) (lh_n r)
    (lh_block r).
Definition set_lg_dev (g : Z -> Z) (r : logstate) : logstate :=
    mkLog (lg_start r) (lg_size r) (lg_outstanding r) (lg_committing r) (g (lg_dev r)) (lh_n r)
    (lh_block r).
Definition set_lh_n (g : Z -> Z) (r : logstate) : logstate :=
    mkLog (lg_start r) (lg_size r) (lg_outstanding r) (lg_committing r) (lg_dev r) (g (lh_n r))
    (lh_block r).
Definition set_lh_block (g : (list Z) -> (list Z)) (r : logstate) : logstate :=
    mkLog (lg_start r) (lg_size r) (lg_outstanding r) (lg_committing r) (lg_dev r) (lh_n r) (g
    (lh_block r)).

(** The console: [cons], [panicked], [uart] and the two output devices. *)
Record console : Type := mkConsole {
  cn_locking : Z;  (* cons.locking *)
  cn_panicked : Z;
  cn_uart : Z;  (* is there a uart? *)
  cn_serial : list Z;  (* bytes sent to the serial port, oldest first *)
  cn_pos : Z;  (* CGA cursor position *)
  cn_crt : list Z  (* CGA memory, 25*80 cells *)
}.

Definition set_cn_locking (g : Z -> Z) (r : console) : console :=
    mkConsole (g (cn_locking r)) (cn_panicked r) (cn_uart r) (cn_serial r) (cn_pos r) (cn_crt r).
Definition set_cn_panicked (g : Z -> Z) (r : console) : console :=
    mkConsole (cn_locking r) (g (cn_panicked r)) (cn_uart r) (cn_serial r) (cn_pos r) (cn_crt r).
Definition set_cn_uart (g : Z -> Z) (r : console) : console :=
    mkConsole (cn_locking r) (cn_panicked r) (g (cn_uart r)) (cn_serial r) (cn_pos r) (cn_crt r).
Definition set_cn_serial (g : (list Z) -> (list Z)) (r : console) : console :=
    mkConsole (cn_locking r) (cn_panicked r) (cn_uart r) (g (cn_serial r)) (cn_pos r) (cn_crt r).
Definition set_cn_pos (g : Z -> Z) (r : console) : console :=
    mkConsole (cn_locking r) (cn_panicked r) (cn_uart r) (cn_serial r) (g (cn_pos r)) (cn_crt r).
Definition set_cn_crt (g : (list Z) -> (list Z)) (r : console) : console :=
    mkConsole (cn_locking r) (cn_panicked r) (cn_uart r) (cn_serial r) (cn_pos r) (g (cn_crt r)).

(** [input] of console.c. *)
Record inputbuf : Type := mkInput {
  in_buf : list Z;  (* INPUT_BUF bytes *)
  in_r : Z;  (* read index *)
  in_w : Z;  (* write index *)
  in_e : Z  (* edit index *)
}.

Definition set_in_buf (g : (list Z) -> (list Z)) (r : inputbuf) : inputbuf :=
    mkInput (g (in_buf r)) (in_r r) (in_w r) (in_e r).
Definition set_in_r (g : Z -> Z) (r : inputbuf) : inputbuf :=
    mkInput (in_buf r) (g (in_r r)) (in_w r) (in_e r).
Definition set_in_w (g : Z -> Z) (r : inputbuf) : inputbuf :=
    mkInput (in_buf r) (in_r r) (g (in_w r)) (in_e r).
Definition set_in_e (g : Z -> Z) (r : inputbuf) : inputbuf :=
    mkInput (in_buf r) (in_r r) (in_w r) (g (in_e r)).

(** The disk drivers' variables (ide.c, memide.c) and the controller's registers. *)
Record idestate : Type := mkIde {
  ide_queue : option nat;  (* idequeue *)
  ide_havedisk1 : Z;  (* havedisk1 *)
  ide_status : Z;  (* status register 0x1f7 *)
  ide_sector : Z;  (* sector of the command the controller executes *)
  ide_disksize : Z  (* disksize of memide.c *)
}.

Definition set_ide_queue (g : (option nat) -> (option nat)) (r : idestate) : idestate :=
    mkIde (g (ide_queue r)) (ide_havedisk1 r) (ide_status r) (ide_sector r) (ide_disksize r).
Definition set_ide_havedisk1 (g : Z -> Z) (r : idestate) : idestate :=
    mkIde (ide_queue r) (g (ide_havedisk1 r)) (ide_status r) (ide_sector r) (ide_disksize r).
Definition set_ide_status (g : Z -> Z) (r : idestate) : idestate :=
    mkIde (ide_queue r) (ide_havedisk1 r) (g (ide_status r)) (ide_sector r) (ide_disksize r).
Definition set_ide_sector (g : Z -> Z) (r : idestate) : idestate :=
    mkIde (ide_queue r) (ide_havedisk1 r) (ide_status r) (g (ide_sector r)) (ide_disksize r).
Definition set_ide_disksize (g : Z -> Z) (r : idestate) : idestate :=
    mkIde (ide_queue r) (ide_havedisk1 r) (ide_status r) (ide_sector r) (g (ide_disksize r)).

(** ** The kernel state *)

(** Everything the kernel routines read and write. *)
Record world : Type := mkWorld {
  w_apic : Z;  (* local APIC id of the executing cpu *)
  w_if : bool;  (* FL_IF of its eflags *)
  w_cr3 : Z;  (* its page-table register *)
  w_tr : Z;  (* its task register *)
  w_cpus : list cpu;  (* cpus[0..ncpu) *)
  w_locks : gmap lockid spinlock;
  w_slocks : gmap slid sleeplock;
  w_mem : gmap Z Z;  (* physical memory as kernel virtual 32-bit words *)
  w_uselock : Z;  (* kmem.use_lock *)
  w_freelist : Z;  (* kmem.freelist *)
  w_kpgdir : Z;  (* kernel page table *)
  w_procs : list proc;  (* ptable.proc *)
  w_nextpid : Z;
  w_initproc : option nat;
  w_ticks : Z;
  w_first : Z;  (* forkret's static first *)
  w_files : list file;  (* ftable.file *)
  w_pipes : gmap Z pipe;  (* pipes by address *)
  w_inodes : list inode;  (* icache.inode *)
  w_sb : superblock;
  w_bufs : list buf;  (* bcache.buf and bcache.head *)
  w_log : logstate;
  w_disk : gmap Z (list Z);  (* contents of the disk by block number *)
  w_dtrace : list (Z * list Z);  (* writes the disk has carried out, newest first *)
  w_ide : idestate;
  w_con : console;
  w_input : inputbuf;
  w_shift : Z;  (* kbdgetc's static shift *)
  w_kbdq : list Z;  (* scan codes waiting in the keyboard controller *)
  w_rxq : list Z;  (* bytes waiting in the serial port *)
  w_cr2 : Z;  (* faulting address *)
  w_idt : list gatedesc  (* interrupt descriptor table *)
}.

Definition set_w_apic (g : Z -> Z) (r : world) : world :=
    mkWorld (g (w_apic r)) (w_if r) (w_cr3 r) (w_tr r) (w_cpus r) (w_locks r) (w_slocks r) (w_mem r)
    (w_uselock r) (w_freelist r) (w_kpgdir r) (w_procs r) (w_nextpid r) (w_initproc r) (w_ticks r)
    (w_first r) (w_files r) (w_pipes r) (w_inodes r) (w_sb r) (w_bufs r) (w_log r) (w_disk r)
    (w_dtrace r) (w_ide r) (w_con r) (w_input r) (w_shift r) (w_kbdq r) (w_rxq r) (w_cr2 r) (w_idt
    r).
Definition set_w_if (g : bool -> bool) (r : world) : world :=
    mkWorld (w_apic r) (g (w_if r)) (w_cr3 r) (w_tr r) (w_cpus r) (w_locks r) (w_slocks r) (w_mem r)
    (w_uselock r) (w_freelist r) (w_kpgdir r) (w_procs r) (w_nextpid r) (w_initproc r) (w_ticks r)
    (w_first r) (w_files r) (w_pipes r) (w_inodes r) (w_sb r) (w_bufs r) (w_log r) (w_disk r)
    (w_dtrace r) (w_ide r) (w_con r) (w_input r) (w_shift r) (w_kbdq r) (w_rxq r) (w_cr2 r) (w_idt
    r).
Definition set_w_cr3 (g : Z -> Z) (r : world) : world :=
    mkWorld (w_apic r) (w_if r) (g (w_cr3 r)) (w_tr r) (w_cpus r) (w_locks r) (w_slocks r) (w_mem r)
    (w_uselock r) (w_freelist r) (w_kpgdir r) (w_procs r) (w_nextpid r) (w_initproc r) (w_ticks r)
    (w_first r) (w_files r) (w_pipes r) (w_inodes r) (w_sb r) (w_bufs r) (w_log r) (w_disk r)
    (w_dtrace r) (w_ide r) (w_con r) (w_input r) (w_shift r) (w_kbdq r) (w_rxq r) (w_cr2 r) (w_idt
    r).
Definition set_w_tr (g : Z -> Z) (r : world) : world :=
    mkWorld (w_apic r) (w_if r) (w_cr3 r) (g (w_tr r)) (w_cpus r) (w_locks r) (w_slocks r) (w_mem r)
    (w_uselock r) (w_freelist r) (w_kpgdir r) (w_procs r) (w_nextpid r) (w_initproc r) (w_ticks r)
    (w_first r) (w_files r) (w_pipes r) (w_inodes r) (w_sb r) (w_bufs r) (w_log r) (w_disk r)
    (w_dtrace r) (w_ide r) (w_con r) (w_input r) (w_shift r) (w_kbdq r) (w_rxq r) (w_cr2 r) (w_idt
    r).
Definition set_w_cpus (g : (list cpu) -> (list cpu)) (r : world) : world :=
    mkWorld (w_apic r) (w_if r) (w_cr3 r) (w_tr r) (g (w_cpus r)) (w_locks r) (w_slocks r) (w_mem r)
    (w_uselock r) (w_freelist r) (w_kpgdir r) (w_procs r) (w_nextpid r) (w_initproc r) (w_ticks r)
    (w_first r) (w_files r) (w_pipes r) (w_inodes r) (w_sb r) (w_bufs r) (w_log r) (w_disk r)
    (w_dtrace r) (w_ide r) (w_con r) (w_input r) (w_shift r) (w_kbdq r) (w_rxq r) (w_cr2 r) (w_idt
    r).
Definition set_w_locks (g : (gmap lockid spinlock) -> (gmap lockid spinlock)) (r : world) : world :=
    mkWorld (w_apic r) (w_if r) (w_cr3 r) (w_tr r) (w_cpus r) (g (w_locks r)) (w_slocks r) (w_mem r)
    (w_uselock r) (w_freelist r) (w_kpgdir r) (w_procs r) (w_nextpid r) (w_initproc r) (w_ticks r)
    (w_first r) (w_files r) (w_pipes r) (w_inodes r) (w_sb r) (w_bufs r) (w_log r) (w_disk r)
    (w_dtrace r) (w_ide r) (w_con r) (w_input r) (w_shift r) (w_kbdq r) (w_rxq r) (w_cr2 r) (w_idt
    r).
Definition set_w_slocks (g : (gmap slid sleeplock) -> (gmap slid sleeplock)) (r : world) : world :=
    mkWorld (w_apic r) (w_if r) (w_cr3 r) (w_tr r) (w_cpus r) (w_locks r) (g (w_slocks r)) (w_mem r)
    (w_uselock r) (w_freelist r) (w_kpgdir r) (w_procs r) (w_nextpid r) (w_initproc r) (w_ticks r)
    (w_first r) (w_files r) (w_pipes r) (w_inodes r) (w_sb r) (w_bufs r) (w_log r) (w_disk r)
    (w_dtrace r) (w_ide r) (w_con r) (w_input r) (w_shift r) (w_kbdq r) (w_rxq r) (w_cr2 r) (w_idt
    r).
Definition set_w_mem (g : (gmap Z Z) -> (gmap Z Z)) (r : world) : world :=
    mkWorld (w_apic r) (w_if r) (w_cr3 r) (w_tr r) (w_cpus r) (w_locks r) (w_slocks r) (g (w_mem r))
    (w_uselock r) (w_freelist r) (w_kpgdir r) (w_procs r) (w_nextpid r) (w_initproc r) (w_ticks r)
    (w_first r) (w_files r) (w_pipes r) (w_inodes r) (w_sb r) (w_bufs r) (w_log r) (w_disk r)
    (w_dtrace r) (w_ide r) (w_con r) (w_input r) (w_shift r) (w_kbdq r) (w_rxq r) (w_cr2 r) (w_idt
    r).
Definition set_w_uselock (g : Z -> Z) (r : world) : world :=
    mkWorld (w_apic r) (w_if r) (w_cr3 r) (w_tr r) (w_cpus r) (w_locks r) (w_slocks r) (w_mem r) (g
    (w_uselock r)) (w_freelist r) (w_kpgdir r) (w_procs r) (w_nextpid r) (w_initproc r) (w_ticks r)
    (w_first r) (w_files r) (w_pipes r) (w_inodes r) (w_sb r) (w_bufs r) (w_log r) (w_disk r)
    (w_dtrace r) (w_ide r) (w_con r) (w_input r) (w_shift r) (w_kbdq r) (w_rxq r) (w_cr2 r) (w_idt
    r).
Definition set_w_freelist (g : Z -> Z) (r : world) : world :=
    mkWorld (w_apic r) (w_if r) (w_cr3 r) (w_tr r) (w_cpus r) (w_locks r) (w_slocks r) (w_mem r)
    (w_uselock r) (g (w_freelist r)) (w_kpgdir r) (w_procs r) (w_nextpid r) (w_initproc r) (w_ticks
    r) (w_first r) (w_files r) (w_pipes r) (w_inodes r) (w_sb r) (w_bufs r) (w_log r) (w_disk r)
    (w_dtrace r) (w_ide r) (w_con r) (w_input r) (w_shift r) (w_kbdq r) (w_rxq r) (w_cr2 r) (w_idt
    r).
Definition set_w_kpgdir (g : Z -> Z) (r : world) : world :=
    mkWorld (w_apic r) (w_if r) (w_cr3 r) (w_tr r) (w_cpus r) (w_locks r) (w_slocks r) (w_mem r)
    (w_uselock r) (w_freelist r) (g (w_kpgdir r)) (w_procs r) (w_nextpid r) (w_initproc r) (w_ticks
    r) (w_first r) (w_files r) (w_pipes r) (w_inodes r) (w_sb r) (w_bufs r) (w_log r) (w_disk r)
    (w_dtrace r) (w_ide r) (w_con r) (w_input r) (w_shift r) (w_kbdq r) (w_rxq r) (w_cr2 r) (w_idt
    r).
Definition set_w_procs (g : (list proc) -> (list proc)) (r : world) : world :=
    mkWorld (w_apic r) (w_if r) (w_cr3 r) (w_tr r) (w_cpus r) (w_locks r) (w_slocks r) (w_mem r)
    (w_uselock r) (w_freelist r) (w_kpgdir r) (g (w_procs r)) (w_nextpid r) (w_initproc r) (w_ticks
    r) (w_first r) (w_files r) (w_pipes r) (w_inodes r) (w_sb r) (w_bufs r) (w_log r) (w_disk r)
    (w_dtrace r) (w_ide r) (w_con r) (w_input r) (w_shift r) (w_kbdq r) (w_rxq r) (w_cr2 r) (w_idt
    r).
Definition set_w_nextpid (g : Z -> Z) (r : world) : world :=
    mkWorld (w_apic r) (w_if r) (w_cr3 r) (w_tr r) (w_cpus r) (w_locks r) (w_slocks r) (w_mem r)
    (w_uselock r) (w_freelist r) (w_kpgdir r) (w_procs r) (g (w_nextpid r)) (w_initproc r) (w_ticks
    r) (w_first r) (w_files r) (w_pipes r) (w_inodes r) (w_sb r) (w_bufs r) (w_log r) (w_disk r)
    (w_dtrace r) (w_ide r) (w_con r) (w_input r) (w_shift r) (w_kbdq r) (w_rxq r) (w_cr2 r) (w_idt
    r).
Definition set_w_initproc (g : (option nat) -> (option nat)) (r : world) : world :=
    mkWorld (w_apic r) (w_if r) (w_cr3 r) (w_tr r) (w_cpus r) (w_locks r) (w_slocks r) (w_mem r)
    (w_uselock r) (w_freelist r) (w_kpgdir r) (w_procs r) (w_nextpid r) (g (w_initproc r)) (w_ticks
    r) (w_first r) (w_files r) (w_pipes r) (w_inodes r) (w_sb r) (w_bufs r) (w_log r) (w_disk r)
    (w_dtrace r) (w_ide r) (w_con r) (w_input r) (w_shift r) (w_kbdq r) (w_rxq r) (w_cr2 r) (w_idt
    r).
Definition set_w_ticks (g : Z -> Z) (r : world) : world :=
    mkWorld (w_apic r) (w_if r) (w_cr3 r) (w_tr r) (w_cpus r) (w_locks r) (w_slocks r) (w_mem r)
    (w_uselock r) (w_freelist r) (w_kpgdir r) (w_procs r) (w_nextpid r) (w_initproc r) (g (w_ticks
    r)) (w_first r) (w_files r) (w_pipes r) (w_inodes r) (w_sb r) (w_bufs r) (w_log r) (w_disk r)
    (w_dtrace r) (w_ide r) (w_con r) (w_input r) (w_shift r) (w_kbdq r) (w_rxq r) (w_cr2 r) (w_idt
    r).
Definition set_w_first (g : Z -> Z) (r : world) : world :=
    mkWorld (w_apic r) (w_if r) (w_cr3 r) (w_tr r) (w_cpus r) (w_locks r) (w_slocks r) (w_mem r)
    (w_uselock r) (w_freelist r) (w_kpgdir r) (w_procs r) (w_nextpid r) (w_initproc r) (w_ticks r)
    (g (w_first r)) (w_files r) (w_pipes r) (w_inodes r) (w_sb r) (w_bufs r) (w_log r) (w_disk r)
    (w_dtrace r) (w_ide r) (w_con r) (w_input r) (w_shift r) (w_kbdq r) (w_rxq r) (w_cr2 r) (w_idt
    r).
Definition set_w_files (g : (list file) -> (list file)) (r : world) : world :=
    mkWorld (w_apic r) (w_if r) (w_cr3 r) (w_tr r) (w_cpus r) (w_locks r) (w_slocks r) (w_mem r)
    (w_uselock r) (w_freelist r) (w_kpgdir r) (w_procs r) (w_nextpid r) (w_initproc r) (w_ticks r)
    (w_first r) (g (w_files r)) (w_pipes r) (w_inodes r) (w_sb r) (w_bufs r) (w_log r) (w_disk r)
    (w_dtrace r) (w_ide r) (w_con r) (w_input r) (w_shift r) (w_kbdq r) (w_rxq r) (w_cr2 r) (w_idt
    r).
Definition set_w_pipes (g : (gmap Z pipe) -> (gmap Z pipe)) (r : world) : world :=
    mkWorld (w_apic r) (w_if r) (w_cr3 r) (w_tr r) (w_cpus r) (w_locks r) (w_slocks r) (w_mem r)
    (w_uselock r) (w_freelist r) (w_kpgdir r) (w_procs r) (w_nextpid r) (w_initproc r) (w_ticks r)
    (w_first r) (w_files r) (g (w_pipes r)) (w_inodes r) (w_sb r) (w_bufs r) (w_log r) (w_disk r)
    (w_dtrace r) (w_ide r) (w_con r) (w_input r) (w_shift r) (w_kbdq r) (w_rxq r) (w_cr2 r) (w_idt
    r).
Definition set_w_inodes (g : (list inode) -> (list inode)) (r : world) : world :=
    mkWorld (w_apic r) (w_if r) (w_cr3 r) (w_tr r) (w_cpus r) (w_locks r) (w_slocks r) (w_mem r)
    (w_uselock r) (w_freelist r) (w_kpgdir r) (w_procs r) (w_nextpid r) (w_initproc r) (w_ticks r)
    (w_first r) (w_files r) (w_pipes r) (g (w_inodes r)) (w_sb r) (w_bufs r) (w_log r) (w_disk r)
    (w_dtrace r) (w_ide r) (w_con r) (w_input r) (w_shift r) (w_kbdq r) (w_rxq r) (w_cr2 r) (w_idt
    r).
Definition set_w_sb (g : superblock -> superblock) (r : world) : world :=
    mkWorld (w_apic r) (w_if r) (w_cr3 r) (w_tr r) (w_cpus r) (w_locks r) (w_slocks r) (w_mem r)
    (w_uselock r) (w_freelist r) (w_kpgdir r) (w_procs r) (w_nextpid r) (w_initproc r) (w_ticks r)
    (w_first r) (w_files r) (w_pipes r) (w_inodes r) (g (w_sb r)) (w_bufs r) (w_log r) (w_disk r)
    (w_dtrace r) (w_ide r) (w_con r) (w_input r) (w_shift r) (w_kbdq r) (w_rxq r) (w_cr2 r) (w_idt
    r).
Definition set_w_bufs (g : (list buf) -> (list buf)) (r : world) : world :=
    mkWorld (w_apic r) (w_if r) (w_cr3 r) (w_tr r) (w_cpus r) (w_locks r) (w_slocks r) (w_mem r)
    (w_uselock r) (w_freelist r) (w_kpgdir r) (w_procs r) (w_nextpid r) (w_initproc r) (w_ticks r)
    (w_first r) (w_files r) (w_pipes r) (w_inodes r) (w_sb r) (g (w_bufs r)) (w_log r) (w_disk r)
    (w_dtrace r) (w_ide r) (w_con r) (w_input r) (w_shift r) (w_kbdq r) (w_rxq r) (w_cr2 r) (w_idt
    r).
Definition set_w_log (g : logstate -> logstate) (r : world) : world :=
    mkWorld (w_apic r) (w_if r) (w_cr3 r) (w_tr r) (w_cpus r) (w_locks r) (w_slocks r) (w_mem r)
    (w_uselock r) (w_freelist r) (w_kpgdir r) (w_procs r) (w_nextpid r) (w_initproc r) (w_ticks r)
    (w_first r) (w_files r) (w_pipes r) (w_inodes r) (w_sb r) (w_bufs r) (g (w_log r)) (w_disk r)
    (w_dtrace r) (w_ide r) (w_con r) (w_input r) (w_shift r) (w_kbdq r) (w_rxq r) (w_cr2 r) (w_idt
    r).
Definition set_w_disk (g : (gmap Z (list Z)) -> (gmap Z (list Z))) (r : world) : world :=
    mkWorld (w_apic r) (w_if r) (w_cr3 r) (w_tr r) (w_cpus r) (w_locks r) (w_slocks r) (w_mem r)
    (w_uselock r) (w_freelist r) (w_kpgdir r) (w_procs r) (w_nextpid r) (w_initproc r) (w_ticks r)
    (w_first r) (w_files r) (w_pipes r) (w_inodes r) (w_sb r) (w_bufs r) (w_log r) (g (w_disk r))
    (w_dtrace r) (w_ide r) (w_con r) (w_input r) (w_shift r) (w_kbdq r) (w_rxq r) (w_cr2 r) (w_idt
    r).
Definition set_w_dtrace (g : (list (Z * list Z)) -> (list (Z * list Z))) (r : world) : world :=
    mkWorld (w_apic r) (w_if r) (w_cr3 r) (w_tr r) (w_cpus r) (w_locks r) (w_slocks r) (w_mem r)
    (w_uselock r) (w_freelist r) (w_kpgdir r) (w_procs r) (w_nextpid r) (w_initproc r) (w_ticks r)
    (w_first r) (w_files r) (w_pipes r) (w_inodes r) (w_sb r) (w_bufs r) (w_log r) (w_disk r) (g
    (w_dtrace r)) (w_ide r) (w_con r) (w_input r) (w_shift r) (w_kbdq r) (w_rxq r) (w_cr2 r) (w_idt
    r).
Definition set_w_ide (g : idestate -> idestate) (r : world) : world :=
    mkWorld (w_apic r) (w_if r) (w_cr3 r) (w_tr r) (w_cpus r) (w_locks r) (w_slocks r) (w_mem r)
    (w_uselock r) (w_freelist r) (w_kpgdir r) (w_procs r) (w_nextpid r) (w_initproc r) (w_ticks r)
    (w_first r) (w_files r) (w_pipes r) (w_inodes r) (w_sb r) (w_bufs r) (w_log r) (w_disk r)
    (w_dtrace r) (g (w_ide r)) (w_con r) (w_input r) (w_shift r) (w_kbdq r) (w_rxq r) (w_cr2 r)
    (w_idt r).
Definition set_w_con (g : console -> console) (r : world) : world :=
    mkWorld (w_apic r) (w_if r) (w_cr3 r) (w_tr r) (w_cpus r) (w_locks r) (w_slocks r) (w_mem r)
    (w_uselock r) (w_freelist r) (w_kpgdir r) (w_procs r) (w_nextpid r) (w_initproc r) (w_ticks r)
    (w_first r) (w_files r) (w_pipes r) (w_inodes r) (w_sb r) (w_bufs r) (w_log r) (w_disk r)
    (w_dtrace r) (w_ide r) (g (w_con r)) (w_input r) (w_shift r) (w_kbdq r) (w_rxq r) (w_cr2 r)
    (w_idt r).
Definition set_w_input (g : inputbuf -> inputbuf) (r : world) : world :=
    mkWorld (w_apic r) (w_if r) (w_cr3 r) (w_tr r) (w_cpus r) (w_locks r) (w_slocks r) (w_mem r)
    (w_uselock r) (w_freelist r) (w_kpgdir r) (w_procs r) (w_nextpid r) (w_initproc r) (w_ticks r)
    (w_first r) (w_files r) (w_pipes r) (w_inodes r) (w_sb r) (w_bufs r) (w_log r) (w_disk r)
    (w_dtrace r) (w_ide r) (w_con r) (g (w_input r)) (w_shift r) (w_kbdq r) (w_rxq r) (w_cr2 r)
    (w_idt r).
Definition set_w_shift (g : Z -> Z) (r : world) : world :=
    mkWorld (w_apic r) (w_if r) (w_cr3 r) (w_tr r) (w_cpus r) (w_locks r) (w_slocks r) (w_mem r)
    (w_uselock r) (w_freelist r) (w_kpgdir r) (w_procs r) (w_nextpid r) (w_initproc r) (w_ticks r)
    (w_first r) (w_files r) (w_pipes r) (w_inodes r) (w_sb r) (w_bufs r) (w_log r) (w_disk r)
    (w_dtrace r) (w_ide r) (w_con r) (w_input r) (g (w_shift r)) (w_kbdq r) (w_rxq r) (w_cr2 r)
    (w_idt r).
Definition set_w_kbdq (g : (list Z) -> (list Z)) (r : world) : world :=
    mkWorld (w_apic r) (w_if r) (w_cr3 r) (w_tr r) (w_cpus r) (w_locks r) (w_slocks r) (w_mem r)
    (w_uselock r) (w_freelist r) (w_kpgdir r) (w_procs r) (w_nextpid r) (w_initproc r) (w_ticks r)
    (w_first r) (w_files r) (w_pipes r) (w_inodes r) (w_sb r) (w_bufs r) (w_log r) (w_disk r)
    (w_dtrace r) (w_ide r) (w_con r) (w_input r) (w_shift r) (g (w_kbdq r)) (w_rxq r) (w_cr2 r)
    (w_idt r).
Definition set_w_rxq (g : (list Z) -> (list Z)) (r : world) : world :=
    mkWorld (w_apic r) (w_if r) (w_cr3 r) (w_tr r) (w_cpus r) (w_locks r) (w_slocks r) (w_mem r)
    (w_uselock r) (w_freelist r) (w_kpgdir r) (w_procs r) (w_nextpid r) (w_initproc r) (w_ticks r)
    (w_first r) (w_files r) (w_pipes r) (w_inodes r) (w_sb r) (w_bufs r) (w_log r) (w_disk r)
    (w_dtrace r) (w_ide r) (w_con r) (w_input r) (w_shift r) (w_kbdq r) (g (w_rxq r)) (w_cr2 r)
    (w_idt r).
Definition set_w_cr2 (g : Z -> Z) (r : world) : world :=
    mkWorld (w_apic r) (w_if r) (w_cr3 r) (w_tr r) (w_cpus r) (w_locks r) (w_slocks r) (w_mem r)
    (w_uselock r) (w_freelist r) (w_kpgdir r) (w_procs r) (w_nextpid r) (w_initproc r) (w_ticks r)
    (w_first r) (w_files r) (w_pipes r) (w_inodes r) (w_sb r) (w_bufs r) (w_log r) (w_disk r)
    (w_dtrace r) (w_ide r) (w_con r) (w_input r) (w_shift r) (w_kbdq r) (w_rxq r) (g (w_cr2 r))
    (w_idt r).
Definition set_w_idt (g : (list gatedesc) -> (list gatedesc)) (r : world) : world :=
    mkWorld (w_apic r) (w_if r) (w_cr3 r) (w_tr r) (w_cpus r) (w_locks r) (w_slocks r) (w_mem r)
    (w_uselock r) (w_freelist r) (w_kpgdir r) (w_procs r) (w_nextpid r) (w_initproc r) (w_ticks r)
    (w_first r) (w_files r) (w_pipes r) (w_inodes r) (w_sb r) (w_bufs r) (w_log r) (w_disk r)
    (w_dtrace r) (w_ide r) (w_con r) (w_input r) (w_shift r) (w_kbdq r) (w_rxq r) (w_cr2 r) (g
    (w_idt r)).

Abbreviation KM := (K world).

(** A pointer that the C code dereferences without a test: a null pointer or an index
    out of the table stops the routine. *)
Definition kderef {A} (o : option A) : KM A :=
  match o with Some a => kret a | None => kpanic "invalid pointer" end.

(** ** Access to the tables *)

Definition upd_cpu (i : nat) (g : cpu -> cpu) (w : world) : world := set_w_cpus (alter g i) w.
Definition upd_proc (p : nat) (g : proc -> proc) (w : world) : world := set_w_procs (alter g p) w.
Definition upd_file (f : nat) (g : file -> file) (w : world) : world := set_w_files (alter g f) w.
Definition upd_inode (i : nat) (g : inode -> inode) (w : world) : world := set_w_inodes (alter g i) w.
Definition upd_buf (b : nat) (g : buf -> buf) (w : world) : world := set_w_bufs (alter g b) w.
Definition upd_pipe (a : Z) (g : pipe -> pipe) (w : world) : world := set_w_pipes (alter g a) w.

Definition zero_lock : spinlock := mkLock 0 "" None.
Definition lock_of (w : world) (lk : lockid) : spinlock := default zero_lock (w_locks w !! lk).
Definition put_lock (lk : lockid) (s : spinlock) (w : world) : world := set_w_locks (insert lk s) w.

(** [*(uint* )a] at a word-aligned address. *)
Definition ld (w : world) (a : Z) : Z := default 0 (w_mem w !! a).
Definition st (a v : Z) (w : world) : world := set_w_mem (insert a (u32 v)) w.

(** [p->...] of the process at index [p]. *)
Definition get_proc (p : nat) : KM proc := kbind (kget w_procs) (fun ps => kderef (ps !! p)).
