(* ===== verification/Cstring.v ===== *)
(** * Memory and strings (string.c)

    [memset] and [memmove] work on the memory of the machine, a map from word
    addresses to 32-bit words; the string routines work on byte lists.  A
    [char *] that the code reads as a NUL-terminated string is the list of the
    bytes from the pointer on; past its end the list reads as NUL. *)

From Stdlib Require Import ZArith Lia.
From stdpp Require Import base list gmap strings numbers.
From S2P Require Import Prelude Machine.
Local Open Scope Z_scope.

(** ** Byte-addressed memory *)

(** What [memmove] and the byte stores need of a memory. *)
Class ByteMem (M : Type) := {
  bget : M -> Z -> Z;
  bset : Z -> Z -> M -> M;
  bget_bset_eq : forall m a v, bget (bset a v m) a = u8 v;
  bget_bset_ne : forall m a b v, a <> b -> bget (bset a v m) b = bget m b;
  bget_u8 : forall m a, u8 (bget m a) = bget m a
}.

Abbreviation memory := (gmap Z Z).

Definition ldm (m : memory) (a : Z) : Z := default 0 (m !! a).
Definition stm (a v : Z) (m : memory) : memory := <[a := u32 v]> m.

(** The byte at [a] of the little-endian word that holds it. *)
Definition wordaddr (a : Z) : Z := a - a mod 4.
Definition ldb (m : memory) (a : Z) : Z := u8 (Z.shiftr (ldm m (wordaddr a)) (8 * (a mod 4))).
Definition stb (a v : Z) (m : memory) : memory :=
  let sh := 8 * (a mod 4) in
  stm (wordaddr a)
    (Z.lor (Z.ldiff (ldm m (wordaddr a)) (Z.shiftl 255 sh)) (Z.shiftl (u8 v) sh)) m.

Lemma u8_testbit z n : 0 <= n -> Z.testbit (u8 z) n = (n <? 8) && Z.testbit z n.
Proof.
  intros Hn. unfold u8. destruct (Z.ltb_spec n 8); simpl.
  - by apply Z.mod_pow2_bits_low.
  - apply Z.mod_pow2_bits_high. lia.
Qed.

Lemma u32_testbit z n : 0 <= n -> Z.testbit (u32 z) n = (n <? 32) && Z.testbit z n.
Proof.
  intros Hn. unfold u32. destruct (Z.ltb_spec n 32); simpl.
  - by apply Z.mod_pow2_bits_low.
  - apply Z.mod_pow2_bits_high. lia.
Qed.

Lemma byte_mask_testbit n : 0 <= n -> Z.testbit 255 n = (n <? 8).
Proof.
  intros Hn. change 255 with (Z.ones 8). destruct (Z.ltb_spec n 8).
  - apply Z.ones_spec_low. lia.
  - apply Z.ones_spec_high. lia.
Qed.

Lemma stb_bit sh x v n :
  0 <= n -> 0 <= sh -> sh + 8 <= 32 ->
  Z.testbit (u32 (Z.lor (Z.ldiff x (Z.shiftl 255 sh)) (Z.shiftl (u8 v) sh))) n
  = (n <? 32) && if (sh <=? n) && (n <? sh + 8) then Z.testbit v (n - sh) else Z.testbit x n.
Proof.
  intros Hn Hs H32. rewrite u32_testbit by done. destruct (Z.ltb_spec n 32); [|done]. simpl.
  rewrite Z.lor_spec, Z.ldiff_spec, !Z.shiftl_spec by lia.
  destruct (Z.leb_spec sh n); simpl.
  - rewrite byte_mask_testbit, u8_testbit by lia.
    replace (n - sh <? 8) with (n <? sh + 8) by lia.
    destruct (n <? sh + 8); simpl; [by rewrite andb_false_r|]. by rewrite andb_true_r, orb_false_r.
  - rewrite (Z.testbit_neg_r 255), (Z.testbit_neg_r (u8 v)) by lia. by rewrite andb_true_r, orb_false_r.
Qed.

Lemma ldb_stb_eq m a v : ldb (stb a v m) a = u8 v.
Proof.
  unfold ldb, stb, stm, ldm. rewrite lookup_insert_eq. simpl.
  apply Z.bits_inj'. intros n Hn. rewrite !u8_testbit by done.
  destruct (Z.ltb_spec n 8); [|done]. simpl.
  pose proof (Z.mod_pos_bound a 4). rewrite Z.shiftr_spec, stb_bit by lia.
  replace ((_ <=? _) && (_ <? _)) with true by lia.
  replace (_ <? 32) with true by lia. simpl. f_equal. lia.
Qed.

Lemma ldb_stb_ne m a b v : a <> b -> ldb (stb a v m) b = ldb m b.
Proof.
  intros Hab. unfold ldb. destruct (decide (wordaddr a = wordaddr b)) as [Heq|Hne].
  - unfold stb, stm, ldm. rewrite Heq, lookup_insert_eq. simpl.
    apply Z.bits_inj'. intros n Hn. rewrite !u8_testbit by done.
    destruct (Z.ltb_spec n 8); [|done]. simpl. unfold wordaddr in Heq.
    pose proof (Z.mod_pos_bound a 4). pose proof (Z.mod_pos_bound b 4).
    rewrite !Z.shiftr_spec, stb_bit by lia.
    replace (_ <? 32) with true by lia.
    replace ((_ <=? _) && (_ <? _)) with false by lia. done.
  - unfold stb, stm, ldm. by rewrite lookup_insert_ne.
Qed.

Lemma ldb_u8 m a : u8 (ldb m a) = ldb m a.
Proof. apply Z.mod_mod. lia. Qed.

#[export] Instance memory_bytemem : ByteMem memory := {|
  bget := ldb; bset := stb;
  bget_bset_eq := ldb_stb_eq; bget_bset_ne := ldb_stb_ne; bget_u8 := ldb_u8
|}.

(** ** memset *)

(** [rep stosl] and [rep stosb] of x86.h. *)
Fixpoint stosl (a v : Z) (cnt : nat) (m : memory) : memory :=
  match cnt with O => m | S n => stosl (a + 4) v n (stm a v m) end.
Fixpoint stosb (a v : Z) (cnt : nat) (m : memory) : memory :=
  match cnt with O => m | S n => stosb (a + 1) v n (stb a v m) end.

Definition memset (dst c n : Z) (m : memory) : memory :=
  if (dst mod 4 =? 0) && (n mod 4 =? 0) then
    let c := Z.land c 0xFF in
    stosl dst (Z.lor (Z.lor (Z.lor (Z.shiftl c 24) (Z.shiftl c 16)) (Z.shiftl c 8)) c)
      (Z.to_nat (n / 4)) m
  else stosb dst c (Z.to_nat n) m.

Lemma stosl_outside a v n m b :
  b < a \/ a + 4 * Z.of_nat n <= b -> stosl a v n m !! b = m !! b.
Proof.
  revert a m. induction n as [|n IH]; intros a m H; simpl; [done|].
  rewrite IH by lia. unfold stm. rewrite lookup_insert_ne; [done|lia].
Qed.

Lemma stosl_inside a v n m k :
  (k < n)%nat -> stosl a v n m !! (a + 4 * Z.of_nat k) = Some (u32 v).
Proof.
  revert a m k. induction n as [|n IH]; intros a m k H; simpl; [lia|].
  destruct k as [|k].
  - rewrite stosl_outside by lia. replace (a + 4 * Z.of_nat 0) with a by lia.
    apply lookup_insert_eq.
  - replace (a + 4 * Z.of_nat (S k)) with (a + 4 + 4 * Z.of_nat k) by lia. apply IH. lia.
Qed.

Arguments stosl : simpl never.
Arguments stosb : simpl never.
Arguments memset : simpl never.

(** ** memmove *)

Section memmove.
Context {M : Type} `{ByteMem M}.

(** [while(n-- > 0) *d++ = *s++;] and [while(n-- > 0) *--d = *--s;] *)
Fixpoint copy_up (d s : Z) (n : nat) (m : M) : M :=
  match n with O => m | S k => copy_up (d + 1) (s + 1) k (bset d (bget m s) m) end.
Fixpoint copy_down (d s : Z) (n : nat) (m : M) : M :=
  match n with O => m | S k => copy_down (d - 1) (s - 1) k (bset (d - 1) (bget m (s - 1)) m) end.

Definition memmove (dst src n : Z) (m : M) : M :=
  if (src <? dst) && (src + n >? dst)
  then copy_down (dst + n) (src + n) (Z.to_nat n) m
  else copy_up dst src (Z.to_nat n) m.

Lemma copy_up_get d s n m b :
  ~ (s < d < s + Z.of_nat n) ->
  bget (copy_up d s n m) b
  = if (d <=? b) && (b <? d + Z.of_nat n) then bget m (s + (b - d)) else bget m b.
Proof.
  revert d s m. induction n as [|n IH]; intros d s m Hd; cbn [copy_up]; [zcases|].
  rewrite IH by lia. rewrite Nat2Z.inj_succ in *. destruct (decide (b = d)) as [->|Hbd].
  - rewrite bget_bset_eq, bget_u8. zcases. f_equal. lia.
  - zcases; rewrite ?bget_bset_ne by lia; f_equal; lia.
Qed.

Lemma copy_down_get d s n m b :
  ~ (d < s < d + Z.of_nat n) ->
  bget (copy_down d s n m) b
  = if (d - Z.of_nat n <=? b) && (b <? d) then bget m (s + (b - d)) else bget m b.
Proof.
  revert d s m. induction n as [|n IH]; intros d s m Hd; cbn [copy_down]; [zcases|].
  rewrite IH by lia. rewrite Nat2Z.inj_succ in *. destruct (decide (b = d - 1)) as [->|Hbd].
  - rewrite bget_bset_eq, bget_u8. zcases. f_equal. lia.
  - zcases; rewrite ?bget_bset_ne by lia; f_equal; lia.
Qed.

(** [memmove] copies the block as it was before the call, overlapping or not, and
    touches nothing else. *)
Lemma memmove_get dst src n m b :
  0 <= n ->
  bget (memmove dst src n m) b
  = if (dst <=? b) && (b <? dst + n) then bget m (src + (b - dst)) else bget m b.
Proof.
  intros Hn. unfold memmove. destruct ((src <? dst) && (src + n >? dst)) eqn:E.
  - rewrite copy_down_get; rewrite Z2Nat.id by lia; zcases. f_equal. lia.
  - rewrite copy_up_get; rewrite Z2Nat.id by lia; zcases.
Qed.
End memmove.

(** ** Comparing bytes and strings *)

Fixpoint memcmp (s1 s2 : list Z) (n : nat) : Z :=
  match n with
  | O => 0
  | S n' =>
      let a := default 0 (head s1) in
      let b := default 0 (head s2) in
      if negb (a =? b) then a - b else memcmp (tail s1) (tail s2) n'
  end.

Fixpoint strncmp (p q : list Z) (n : nat) : Z :=
  match n with
  | O => 0
  | S n' =>
      let a := default 0 (head p) in
      let b := default 0 (head q) in
      if negb (a =? 0) && (a =? b) then strncmp (tail p) (tail q) n' else u8 a - u8 b
  end.

Fixpoint strlen (s : list Z) : nat :=
  match s with
  | [] => 0
  | c :: s' => if c =? 0 then 0%nat else S (strlen s')
  end.

(** The string a pointer designates: the bytes before the NUL. *)
Definition cstr (s : list Z) : list Z := take (strlen s) s.

(** The bytes of a string literal, without the terminating NUL. *)
Definition str (s : string) : list Z :=
  (fun a => Z.of_nat (Ascii.nat_of_ascii a)) <$> String.list_ascii_of_string s.

(** ** Copying strings into an array [s] *)

(** [while(n-- > 0) *s++ = 0;] *)
Fixpoint zero_fill (s : list Z) (n : nat) {struct n} : list Z :=
  match n, s with
  | S n', _ :: s' => 0 :: zero_fill s' n'
  | _, _ => s
  end.

(** [while(n-- > 0 && ( *s++ = *t++) != 0) ;] followed by the fill. *)
Fixpoint strncpy_loop (s t : list Z) (n : nat) {struct n} : list Z :=
  match n, s with
  | S n', _ :: s' =>
      let c := default 0 (head t) in
      c :: (if c =? 0 then zero_fill s' n' else strncpy_loop s' (tail t) n')
  | _, _ => s
  end.
Definition strncpy (s t : list Z) (n : Z) : list Z := strncpy_loop s t (Z.to_nat n).

(** [while(--n > 0 && ( *s++ = *t++) != 0) ; *s = 0;] with [n-1] still to count. *)
Fixpoint safestrcpy_loop (s t : list Z) (n : nat) {struct n} : list Z :=
  match n, s with
  | S n', _ :: s' =>
      let c := default 0 (head t) in
      c :: (if c =? 0 then zero_fill s' 1 else safestrcpy_loop s' (tail t) n')
  | _, _ => zero_fill s 1
  end.
Definition safestrcpy (s t : list Z) (n : Z) : list Z :=
  if n <=? 0 then s else safestrcpy_loop s t (Z.to_nat (n - 1)).

Lemma zero_fill_length s n : length (zero_fill s n) = length s.
Proof. revert s. induction n; intros [|x s]; simpl; auto. Qed.

Lemma strncpy_loop_length s t n : length (strncpy_loop s t n) = length s.
Proof.
  revert s t. induction n as [|n IH]; intros [|x s] t; simpl; auto. f_equal.
  destruct (_ =? 0); [apply zero_fill_length|apply IH].
Qed.

Lemma safestrcpy_loop_length s t n : length (safestrcpy_loop s t n) = length s.
Proof.
  revert s t. induction n as [|n IH]; intros s t; destruct s as [|x s]; simpl; auto. f_equal.
  destruct (_ =? 0); [by destruct s|apply IH].
Qed.

(** The string left in the array is the longest prefix of [t]'s string that fits with
    its NUL. *)
Lemma safestrcpy_loop_cstr s t n :
  (n < length s)%nat -> cstr (safestrcpy_loop s t n) = take n (cstr t).
Proof.
  unfold cstr. revert s t. induction n as [|n IH]; intros [|x s] t Hn; simpl in *; try lia; [done|].
  destruct t as [|c t]; simpl; [done|].
  destruct (c =? 0) eqn:Hc; simpl; rewrite ?Hc; simpl; [done|].
  f_equal. apply IH. lia.
Qed.

(** Bytes past the first [n] of the destination keep their value. *)
Lemma safestrcpy_loop_drop s t n : drop (S n) (safestrcpy_loop s t n) = drop (S n) s.
Proof.
  revert s t. induction n as [|n IH]; intros [|x s] t; simpl; try done.
  destruct (_ =? 0); [|apply IH]. by destruct s.
Qed.

(** The comparison of the two strings up to [n] bytes. *)
Definition bytes (s : list Z) : Prop := Forall (fun c => 0 <= c < 256) s.

Lemma bytes_head s : bytes s -> 0 <= default 0 (head s) < 256.
Proof. intros H. destruct s; simpl; [lia|]. by inversion H. Qed.
Lemma bytes_tail s : bytes s -> bytes (tail s).
Proof. intros H. destruct s; simpl; [done|]. by inversion H. Qed.

Lemma strncmp_eq0 p q n :
  bytes p -> bytes q -> strncmp p q n = 0 <-> take n (cstr p) = take n (cstr q).
Proof.
  unfold cstr. revert p q. induction n as [|n IH]; intros p q Hp Hq; [done|].
  cbn [strncmp]. pose proof (bytes_head _ Hp) as Ha. pose proof (bytes_head _ Hq) as Hb.
  unfold u8. rewrite !Z.mod_small by lia.
  specialize (IH _ _ (bytes_tail _ Hp) (bytes_tail _ Hq)).
  destruct p as [|a p], q as [|b q]; simpl in *; [done| | |].
  - destruct (Z.eqb_spec b 0) as [->|]; [done|]. simpl. split; [lia|done].
  - destruct (Z.eqb_spec a 0) as [->|]; [done|]. simpl.
    destruct (Z.eqb_spec a 0); [done|]. simpl. split; [lia|done].
  - destruct (Z.eqb_spec a 0) as [->|]; simpl.
    + destruct (Z.eqb_spec b 0) as [->|]; simpl; [done|]. split; [lia|done].
    + destruct (Z.eqb_spec a b) as [->|]; simpl.
      * destruct (Z.eqb_spec b 0); [done|]. simpl. rewrite IH. split; congruence.
      * destruct (Z.eqb_spec b 0) as [->|]; simpl; (split; [lia|congruence]).
Qed.
