(* ===== verification/Spinlock.v ===== *)
(** * Interrupt masking and spin locks (spinlock.c, and mycpu/myproc of proc.c)

    [pushcli]/[popcli], [holding], [acquire], [release] on the executing CPU,
    with their panics.  The equations at the end describe what each does in a
    well-formed state; every other component rewrites with them. *)

From Stdlib Require Import ZArith Lia.
From stdpp Require Import base list gmap strings numbers.
From S2P Require Import Prelude Machine.
Local Open Scope Z_scope.
Local Open Scope kern_scope.

(** ** The executing CPU *)

Definition cpu_index (apicid : Z) (cs : list cpu) : option nat :=
  find_idx (fun c => c_apicid c =? apicid) cs.
Arguments cpu_index : simpl never.

Definition mycpu : KM nat :=
  fl <- kget w_if;
  if (fl : bool) then kpanic "mycpu called with interrupts enabled" else
  r <- kget (fun w => cpu_index (w_apic w) (w_cpus w));
  match r with
  | Some i => kret i
  | None => kpanic "unknown apicid"
  end.

(** [&cpus[i]->...] *)
Definition get_cpu (i : nat) : KM cpu := cs <- kget w_cpus; kderef (cs !! i).

Definition cpuid : KM Z := i <- mycpu; kret (Z.of_nat i).

(** ** Nested interrupt masking *)

Definition pushcli : KM unit :=
  eflags <- kget w_if;
  kmod (set_w_if (fun _ => false)) >>;
  i <- mycpu;
  c <- get_cpu i;
  kwhen (c_ncli c =? 0)
    (j <- mycpu; kmod (upd_cpu j (set_c_intena (fun _ => if (eflags : bool) then FL_IF else 0)))) >>;
  j <- mycpu;
  kmod (upd_cpu j (set_c_ncli (fun n => n + 1))).

Definition popcli : KM unit :=
  fl <- kget w_if;
  if (fl : bool) then kpanic "popcli - interruptible" else
  i <- mycpu;
  kmod (upd_cpu i (set_c_ncli (fun n => n - 1))) >>;
  c <- get_cpu i;
  if c_ncli c <? 0 then kpanic "popcli" else
  j <- mycpu;
  c <- get_cpu j;
  if (c_ncli c =? 0) && negb (c_intena c =? 0)
  then kmod (set_w_if (fun _ => true)) else kret tt.

Definition myproc : KM (option nat) :=
  pushcli >>;
  i <- mycpu;
  c <- get_cpu i;
  popcli >>;
  kret (c_proc c).

(** ** Spin locks *)

Definition initlock (lk : lockid) (name : string) : KM unit :=
  kmod (put_lock lk (mkLock 0 name None)).

Definition holding (lk : lockid) : KM bool :=
  pushcli >>;
  s <- kget (fun w => lock_of w lk);
  i <- mycpu;
  let r := negb (lk_locked s =? 0) && bool_decide (lk_cpu s = Some i) in
  popcli >>;
  kret r.

(** [while(xchg(&lk->locked, 1) != 0) ;] : each failed exchange lets the rest of the
    system take a turn. *)
Fixpoint spin (lk : lockid) (w : world) (e : sched_env world) : outcome world unit :=
  let old := lk_locked (lock_of w lk) in
  let w' := put_lock lk (set_lk_locked (fun _ => 1) (lock_of w lk)) w in
  if old =? 0 then Ret tt w' e
  else match e with
       | [] => Off w'
       | f :: e' => spin lk (f w') e'
       end.

Definition acquire (lk : lockid) : KM unit :=
  pushcli >>;
  h <- holding lk;
  if (h : bool) then kpanic "acquire" else
  spin lk >>;
  i <- mycpu;
  kmod (fun w => put_lock lk (set_lk_cpu (fun _ => Some i) (lock_of w lk)) w).

Definition release (lk : lockid) : KM unit :=
  h <- holding lk;
  if negb h then kpanic "release" else
  kmod (fun w => put_lock lk (set_lk_cpu (fun _ => None) (lock_of w lk)) w) >>;
  kmod (fun w => put_lock lk (set_lk_locked (fun _ => 0) (lock_of w lk)) w) >>;
  popcli.

(** ** The state between and after these calls *)

(** The executing CPU is [cpus[i]], whose structure is [c]. *)
Definition on_cpu (w : world) (i : nat) (c : cpu) : Prop :=
  cpu_index (w_apic w) (w_cpus w) = Some i /\ w_cpus w !! i = Some c.

(** What [pushcli] promises about the executing CPU: a positive depth means
    interrupts are off. *)
Definition cpu_ok (w : world) (i : nat) (c : cpu) : Prop :=
  on_cpu w i c /\ 0 <= c_ncli c /\ (0 < c_ncli c -> w_if w = false).

Definition saved_if (fl : bool) : Z := if fl then FL_IF else 0.

(** [pushcli] on the cpu structure. *)
Definition cpu_push (fl : bool) (c : cpu) : cpu :=
  set_c_ncli (fun n => n + 1)
    (set_c_intena (fun v => if c_ncli c =? 0 then saved_if fl else v) c).
Definition cpu_pop (c : cpu) : cpu := set_c_ncli (fun n => n - 1) c.
(** A balanced [pushcli] ... [popcli]: only [intena] is left changed, at depth 0. *)
Definition cpu_settle (fl : bool) (c : cpu) : cpu :=
  set_c_intena (fun v => if c_ncli c =? 0 then saved_if fl else v) c.

Definition pushed (i : nat) (w : world) : world :=
  set_w_if (fun _ => false) (upd_cpu i (cpu_push (w_if w)) w).
Definition settled (i : nat) (w : world) : world := upd_cpu i (cpu_settle (w_if w)) w.
Definition popped (i : nat) (c : cpu) (w : world) : world :=
  set_w_if (fun fl => if (c_ncli c =? 1) && negb (c_intena c =? 0) then true else fl)
    (upd_cpu i cpu_pop w).

(** The state after [acquire lk] by CPU [i], and what [release] does to the lock. *)
Definition locked_by (i : nat) (lk : lockid) (w : world) : world :=
  put_lock lk (mkLock 1 (lk_name (lock_of w lk)) (Some i)) w.
Definition unlocked (lk : lockid) (w : world) : world :=
  put_lock lk (mkLock 0 (lk_name (lock_of w lk)) None) w.

Definition lock_free (w : world) (lk : lockid) : Prop :=
  exists name, w_locks w !! lk = Some (mkLock 0 name None).
Definition lock_held (w : world) (lk : lockid) (i : nat) : Prop :=
  exists name, w_locks w !! lk = Some (mkLock 1 name (Some i)).

(** ** Equations *)

Lemma upd_cpu_on w i c g :
  on_cpu w i c -> (forall c', c_apicid (g c') = c_apicid c') ->
  on_cpu (upd_cpu i g w) i (g c).
Proof.
  intros [Hi Hc] Hg. split; simpl.
  - unfold cpu_index. rewrite find_idx_alter; [done|]. intros x _. by rewrite Hg.
  - by rewrite list_lookup_alter_eq, Hc.
Qed.

Lemma mycpu_eq w i c e :
  on_cpu w i c -> w_if w = false -> mycpu w e = Ret i w e.
Proof. intros [Hi _] Hif. unfold mycpu. simpl. rewrite Hif. simpl. by rewrite Hi. Qed.

Lemma get_cpu_eq w i c e : on_cpu w i c -> get_cpu i w e = Ret c w e.
Proof. intros [_ Hc]. unfold get_cpu. simpl. by rewrite Hc. Qed.

Lemma upd_cpu_ext w i c f g :
  w_cpus w !! i = Some c -> f c = g c -> upd_cpu i f w = upd_cpu i g w.
Proof.
  intros Hc Hfg. unfold upd_cpu, set_w_cpus. f_equal. apply list_alter_ext'.
  intros x Hx. by simplify_eq.
Qed.

Lemma upd_cpu_upd w i f g : upd_cpu i f (upd_cpu i g w) = upd_cpu i (f ∘ g) w.
Proof. unfold upd_cpu, set_w_cpus. simpl. by rewrite list_alter_alter_eq. Qed.

Lemma upd_cpu_id w i c f : w_cpus w !! i = Some c -> f c = c -> upd_cpu i f w = w.
Proof.
  intros Hc Hf. rewrite (upd_cpu_ext w i c f id) by done.
  unfold upd_cpu, set_w_cpus. rewrite list_alter_id by done. by destruct w.
Qed.

Lemma pushcli_eq w i c e :
  on_cpu w i c -> pushcli w e = Ret tt (pushed i w) e.
Proof.
  intros Hon. unfold pushcli.
  set (w1 := set_w_if (fun _ => false) w).
  assert (on_cpu w1 i c) as H1 by exact Hon. assert (w_cpus w !! i = Some c) as Hc by apply Hon.
  assert (forall g, g c = cpu_push (w_if w) c -> upd_cpu i g w1 = pushed i w) as Hg.
  { intros g Hgc. unfold w1, pushed. change (upd_cpu i g (set_w_if _ w))
      with (set_w_if (fun _ => false) (upd_cpu i g w)). by rewrite (upd_cpu_ext w i c _ _ Hc Hgc). }
  simpl. fold w1. rewrite (mycpu_eq w1 i c) by done. rewrite (get_cpu_eq w1 i c) by done.
  destruct (c_ncli c =? 0) eqn:Hn; simpl; rewrite (mycpu_eq w1 i c) by done; simpl.
  - erewrite (mycpu_eq _ i); [|by apply upd_cpu_on|done]. simpl. f_equal.
    rewrite upd_cpu_upd. apply Hg. unfold cpu_push. by rewrite Hn.
  - f_equal. apply Hg. unfold cpu_push. rewrite Hn. by destruct c.
Qed.

Lemma popcli_eq w i c e :
  on_cpu w i c -> w_if w = false -> 1 <= c_ncli c ->
  popcli w e = Ret tt (popped i c w) e.
Proof.
  intros Hon Hif Hn. unfold popcli. simpl. rewrite Hif. simpl.
  rewrite (mycpu_eq w i c) by done. simpl.
  assert (on_cpu (upd_cpu i cpu_pop w) i (cpu_pop c)) as H1 by by apply upd_cpu_on.
  change (upd_cpu i (set_c_ncli _) w) with (upd_cpu i cpu_pop w).
  rewrite (get_cpu_eq _ i (cpu_pop c)) by done. simpl.
  destruct (Z.ltb_spec (c_ncli c - 1) 0); [lia|]. simpl.
  rewrite (mycpu_eq _ i (cpu_pop c)) by done. simpl.
  rewrite (get_cpu_eq _ i (cpu_pop c)) by done. simpl. unfold popped.
  replace (c_ncli c - 1 =? 0) with (c_ncli c =? 1) by lia.
  by destruct ((c_ncli c =? 1) && negb (c_intena c =? 0)).
Qed.

Lemma pushed_on w i c : on_cpu w i c -> on_cpu (pushed i w) i (cpu_push (w_if w) c).
Proof. intros H. unfold pushed. by apply (upd_cpu_on w i c (cpu_push (w_if w))). Qed.

Lemma cpu_push_ncli fl c : c_ncli (cpu_push fl c) = c_ncli c + 1.
Proof. done. Qed.

(** [pushcli] then [popcli] is [settled]; below the outermost level it does nothing. *)
Lemma popped_pushed w i c :
  cpu_ok w i c -> popped i (cpu_push (w_if w) c) (pushed i w) = settled i w.
Proof.
  intros ([Hi Hc] & Hn & Hif).
  assert (upd_cpu i cpu_pop (upd_cpu i (cpu_push (w_if w)) w) = settled i w) as Hs.
  { rewrite upd_cpu_upd. apply (upd_cpu_ext w i c); [done|].
    unfold compose, cpu_pop, cpu_push, cpu_settle, set_c_ncli, set_c_intena. simpl. f_equal. lia. }
  rewrite <-Hs. unfold popped, pushed. simpl.
  unfold upd_cpu, set_w_if, set_w_cpus; simpl. f_equal.
  destruct (Z.eqb_spec (c_ncli c) 0) as [->|].
  - by destruct (w_if w).
  - rewrite Hif by lia. by replace (c_ncli c + 1 =? 1) with false by lia.
Qed.

Lemma settled_id w i c : on_cpu w i c -> 1 <= c_ncli c -> settled i w = w.
Proof.
  intros [_ Hc] Hn. apply (upd_cpu_id w i c); [done|].
  unfold cpu_settle. replace (c_ncli c =? 0) with false by lia. by destruct c.
Qed.

Lemma cpu_ok_masked w i c : on_cpu w i c -> w_if w = false -> 0 <= c_ncli c -> cpu_ok w i c.
Proof. intros. by split. Qed.

Lemma myproc_eq w i c e :
  cpu_ok w i c -> myproc w e = Ret (c_proc c) (settled i w) e.
Proof.
  intros Hok. pose proof Hok as (Hon & Hn & Hif). unfold myproc. simpl.
  rewrite (pushcli_eq w i c) by done.
  pose proof (pushed_on _ _ _ Hon) as Hp. rewrite (mycpu_eq _ i _) with (1 := Hp) by done.
  rewrite (get_cpu_eq _ i _) with (1 := Hp).
  erewrite popcli_eq; [|exact Hp|done|rewrite cpu_push_ncli; lia].
  by rewrite popped_pushed.
Qed.

Definition holds (w : world) (lk : lockid) (i : nat) : bool :=
  negb (lk_locked (lock_of w lk) =? 0) && bool_decide (lk_cpu (lock_of w lk) = Some i).

Lemma holding_eq w i c lk e :
  cpu_ok w i c -> holding lk w e = Ret (holds w lk i) (settled i w) e.
Proof.
  intros Hok. pose proof Hok as (Hon & Hn & Hif). unfold holding. simpl.
  rewrite (pushcli_eq w i c) by done.
  pose proof (pushed_on _ _ _ Hon) as Hp. rewrite (mycpu_eq _ i _) with (1 := Hp) by done.
  erewrite popcli_eq; [|exact Hp|done|rewrite cpu_push_ncli; lia].
  by rewrite popped_pushed.
Qed.

(** ** Critical sections *)

(** The state in which CPU [i] runs the body of a critical section of [lk]. *)
Definition entered (i : nat) (lk : lockid) (w : world) : world := locked_by i lk (pushed i w).

Lemma lock_of_free w lk name : w_locks w !! lk = Some (mkLock 0 name None) ->
  lock_of w lk = mkLock 0 name None.
Proof. intros H. unfold lock_of. by rewrite H. Qed.

Lemma acquire_eq w i c lk e :
  cpu_ok w i c -> lock_free w lk -> acquire lk w e = Ret tt (entered i lk w) e.
Proof.
  intros Hok [name Hl]. pose proof Hok as (Hon & Hn & Hif). unfold acquire. simpl.
  rewrite (pushcli_eq w i c) by done. pose proof (pushed_on _ _ _ Hon) as Hp.
  set (w1 := pushed i w) in *. assert (w_locks w1 !! lk = Some (mkLock 0 name None)) as Hl1 by done.
  rewrite (holding_eq w1 i (cpu_push (w_if w) c)) by
    (apply cpu_ok_masked; [done|done|rewrite cpu_push_ncli; lia]).
  rewrite (settled_id w1 i _ Hp) by (rewrite cpu_push_ncli; lia).
  unfold holds. rewrite (lock_of_free _ _ _ Hl1). simpl.
  assert (forall e, spin lk w1 e = Ret tt (put_lock lk (mkLock 1 name None) w1) e) as ->.
  { intros [|? ?]; simpl; by rewrite (lock_of_free _ _ _ Hl1). }
  simpl. rewrite (mycpu_eq _ i (cpu_push (w_if w) c)) by done. f_equal.
  unfold entered, locked_by. fold w1. rewrite (lock_of_free _ _ _ Hl1).
  unfold put_lock, set_w_locks, lock_of; simpl. rewrite lookup_insert_eq. simpl.
  by rewrite insert_insert_eq.
Qed.

Lemma release_eq w i c lk e :
  on_cpu w i c -> w_if w = false -> 1 <= c_ncli c -> lock_held w lk i ->
  release lk w e = Ret tt (popped i c (unlocked lk w)) e.
Proof.
  intros Hon Hif Hn [name Hl].
  assert (cpu_ok w i c) as Hok by (apply cpu_ok_masked; [done|done|lia]).
  unfold release. simpl. rewrite (holding_eq w i c) by done.
  rewrite (settled_id w i c) by done. unfold holds.
  assert (lock_of w lk = mkLock 1 name (Some i)) as Hlk by (unfold lock_of; by rewrite Hl).
  rewrite Hlk. simpl. rewrite bool_decide_eq_true_2 by done. simpl.
  rewrite (popcli_eq _ i c) by done. f_equal.
  unfold unlocked. rewrite Hlk. unfold put_lock, set_w_locks, lock_of; simpl.
  rewrite lookup_insert_eq. simpl. by rewrite insert_insert_eq.
Qed.

(** A state change that leaves the CPU, its interrupt flag and the locks alone. *)
Class Framed (F : world -> world) : Prop := {
  framed_cpus : forall g w, F (set_w_cpus g w) = set_w_cpus g (F w);
  framed_if : forall g w, F (set_w_if g w) = set_w_if g (F w);
  framed_locks : forall g w, F (set_w_locks g w) = set_w_locks g (F w);
  framed_apic : forall w, w_apic (F w) = w_apic w
}.
#[export] Hint Extern 0 (Framed _) => (split; intros; reflexivity) : typeclass_instances.

Section framed.
Context (F : world -> world) `{!Framed F}.

Lemma framed_locks_of w : w_locks (F w) = w_locks w.
Proof.
  assert (set_w_locks (fun _ => w_locks w) w = w) as E by by destruct w.
  rewrite <-E at 1. by rewrite framed_locks.
Qed.

Lemma framed_cpus_of w : w_cpus (F w) = w_cpus w.
Proof.
  assert (set_w_cpus (fun _ => w_cpus w) w = w) as E by by destruct w.
  rewrite <-E at 1. by rewrite framed_cpus.
Qed.

Lemma framed_if_of w : w_if (F w) = w_if w.
Proof.
  assert (set_w_if (fun _ => w_if w) w = w) as E by by destruct w.
  rewrite <-E at 1. by rewrite framed_if.
Qed.

Lemma framed_on_cpu w i c : on_cpu w i c -> on_cpu (F w) i c.
Proof. unfold on_cpu. by rewrite framed_cpus_of, framed_apic. Qed.

Lemma framed_cpu_ok w i c : cpu_ok w i c -> cpu_ok (F w) i c.
Proof. intros (? & ? & ?). split; [by apply framed_on_cpu|]. by rewrite framed_if_of. Qed.

Lemma framed_lock_free w lk : lock_free w lk -> lock_free (F w) lk.
Proof. unfold lock_free. by rewrite framed_locks_of. Qed.

Lemma framed_lock_held w lk i : lock_held w lk i -> lock_held (F w) lk i.
Proof. unfold lock_held. by rewrite framed_locks_of. Qed.
End framed.

Lemma set_w_locks_id w lk s : w_locks w !! lk = Some s -> set_w_locks (insert lk s) w = w.
Proof. intros H. unfold set_w_locks. rewrite insert_id by done. by destruct w. Qed.

Section entered.
Context (w : world) (i : nat) (c : cpu) (lk : lockid) (Hok : cpu_ok w i c).

Lemma entered_on : on_cpu (entered i lk w) i (cpu_push (w_if w) c).
Proof. apply pushed_on, Hok. Qed.

Lemma entered_held : lock_held (entered i lk w) lk i.
Proof.
  eexists. unfold entered, locked_by, put_lock. simpl. by rewrite lookup_insert_eq.
Qed.

Lemma entered_other lk' : lk' <> lk -> lock_free w lk' -> lock_free (entered i lk w) lk'.
Proof. intros Hne [n Hn]. exists n. simpl. by rewrite lookup_insert_ne. Qed.

Lemma entered_ok : cpu_ok (entered i lk w) i (cpu_push (w_if w) c).
Proof. apply cpu_ok_masked; [apply entered_on|done|]. destruct Hok as (_ & ? & _). simpl. lia. Qed.

Lemma entered_settled : settled i (entered i lk w) = entered i lk w.
Proof. eapply settled_id; [apply entered_on|]. destruct Hok as (_ & ? & _). simpl. lia. Qed.

(** Leaving a critical section whose body did [F]. *)
Lemma release_section F `{!Framed F} e :
  lock_free w lk -> release lk (F (entered i lk w)) e = Ret tt (F (settled i w)) e.
Proof.
  intros [name Hl]. destruct Hok as (Hon & Hn & Hif).
  rewrite (release_eq _ i (cpu_push (w_if w) c)).
  - f_equal. rewrite <-(popped_pushed w i c) by done.
    unfold entered, locked_by, unlocked, put_lock, lock_of.
    rewrite (framed_locks (F := F)). simpl. rewrite lookup_insert_eq. simpl. rewrite Hl. simpl.
    unfold popped, upd_cpu. rewrite (framed_if (F := F)), (framed_cpus (F := F)).
    assert (w_locks (F (pushed i w)) !! lk = Some (mkLock 0 name None)) as HF
      by by rewrite framed_locks_of.
    rewrite <-(set_w_locks_id (F (pushed i w)) lk _ HF) at 2.
    unfold set_w_if, set_w_cpus, set_w_locks. simpl. by rewrite insert_insert_eq.
  - apply framed_on_cpu; [done|]. apply entered_on.
  - by rewrite framed_if_of.
  - rewrite cpu_push_ncli. lia.
  - apply framed_lock_held; [done|]. apply entered_held.
Qed.
End entered.
