(* ===== verification/Boot.v ===== *)
(** * The initial state

    [boot_world] is the kernel's static data after the initialisation calls of
    main() that set up locks and tables: one CPU, every table empty, every lock
    initialised and free.  The examples and witnesses of the development start
    from it. *)

From Stdlib Require Import ZArith Lia.
From stdpp Require Import base list gmap strings numbers.
From S2P Require Import Prelude Machine Cstring Spinlock.
Local Open Scope Z_scope.

(** Zero-initialised structures, as C's static storage leaves them. *)
Definition zero_proc : proc :=
  mkProc 0 0 0 UNUSED 0 (mkCfs 0 0 0 0) None 0 0 None 0 (replicate NOFILE None) None (replicate 16 0).
Definition zero_file : file := mkFile FD_NONE 0 0 0 0 None 0.
Definition zero_inode : inode := mkInode 0 0 0 0 0 0 0 0 0 (replicate 13 0).
Definition zero_buf : buf := mkBuf 0 0 0 0 0 0 None (replicate 512 0).
Definition zero_sb : superblock := mkSuperblock 0 0 0 0 0 0 0.

Definition zero_seg : segdesc := mkSegdesc 0 (BaseAt 0) 0 0 0 0 0 0.
Definition zero_gate : gatedesc := mkGatedesc 0 0 0 0 0 0 0 0 0.
Definition boot_cpu : cpu := mkCpu 0 0 0 0 (replicate 6 zero_seg) 0 0 0 None.

Definition boot_locks : gmap lockid spinlock :=
  list_to_map
    ([(PtableLock, mkLock 0 "ptable" None); (TicksLock, mkLock 0 "time" None);
      (FtableLock, mkLock 0 "ftable" None); (KmemLock, mkLock 0 "kmem" None);
      (IcacheLock, mkLock 0 "icache" None); (BcacheLock, mkLock 0 "bcache" None);
      (LogLock, mkLock 0 "log" None); (ConsLock, mkLock 0 "console" None);
      (IdeLock, mkLock 0 "ide" None)] ++
     ((fun i => (SleepLk (SlInode i), mkLock 0 "sleep lock" None)) <$> seq 0 NINODE) ++
     ((fun b => (SleepLk (SlBuf b), mkLock 0 "sleep lock" None)) <$> seq 0 NBUF)).

Definition boot_slocks : gmap slid sleeplock :=
  list_to_map
    (((fun i => (SlInode i, mkSleeplock 0 "inode" 0)) <$> seq 0 NINODE) ++
     ((fun b => (SlBuf b, mkSleeplock 0 "buffer" 0)) <$> seq 0 NBUF)).

Definition boot_world : world :=
  mkWorld 0 true 0 0 [boot_cpu] boot_locks boot_slocks ∅ 1 0 0
    (replicate NPROC zero_proc) 1 None 0 1
    (replicate NFILE zero_file) ∅ (replicate NINODE zero_inode) zero_sb
    (replicate (S NBUF) zero_buf) (mkLog 0 0 0 0 0 0 (replicate 30 0)) ∅ []
    (mkIde None 1 64 0 1000)
    (mkConsole 1 0 0 [] 0 (replicate 2000 0)) (mkInput (replicate 128 0) 0 0 0) 0 [] [] 0
    (replicate 256 zero_gate).

(** A kernel image for the examples. *)
Definition demo_image : KernelImage := {|
  k_end := KERNBASE + 0x115000;
  k_data := KERNBASE + 0x108000;
  k_trapret := KERNBASE + 0x105000;
  k_forkret := KERNBASE + 0x103000;
  k_initcode := [0xCC]
|}.

Lemma boot_cpu_ok : cpu_ok boot_world 0 boot_cpu.
Proof. split; [split; reflexivity|]. simpl. lia. Qed.
