(* ===== verification/Kalloc.v ===== *)
(** * The physical page allocator (kalloc.c)

    The free list is a linked list threaded through the free pages: the first
    word of a free page is the address of the next one.  [is_freelist] says
    which pages it holds; [kfree], [kalloc] and [freerange] are proved to push,
    pop and fill it. *)

From Stdlib Require Import ZArith Lia.
From stdpp Require Import base list gmap strings numbers.
From S2P Require Import Prelude Machine Cstring Spinlock Boot.
Local Open Scope Z_scope.
Local Open Scope kern_scope.

(** Rounding to pages. *)
Lemma PGROUNDDOWN_eq a : 0 <= a < 2 ^ 32 -> PGROUNDDOWN a = a - a mod PGSIZE.
Proof.
  intros Ha. unfold PGROUNDDOWN, PGSIZE.
  change (u32 (Z.lnot (4096 - 1))) with (Z.shiftl (Z.ones 20) 12).
  rewrite Z.mod_eq by lia. replace (a - (a - 4096 * (a / 4096))) with (a / 4096 * 4096) by lia.
  change 4096 with (2 ^ 12).
  rewrite <-Z.shiftr_div_pow2, <-Z.shiftl_mul_pow2 by lia.
  apply Z.bits_inj'. intros n Hn. rewrite Z.land_spec, !Z.shiftl_spec by lia.
  destruct (Z.ltb_spec n 12); [rewrite !(Z.testbit_neg_r _ (n - 12)) by lia; by rewrite andb_false_r|].
  rewrite Z.shiftr_spec by lia. replace (n - 12 + 12) with n by lia.
  destruct (Z.ltb_spec n 32).
  - rewrite Z.ones_spec_low by lia. by rewrite andb_true_r.
  - rewrite Z.ones_spec_high by lia. rewrite andb_false_r. symmetry.
    replace a with (a mod 2 ^ 32) by (apply Z.mod_small; lia). apply Z.mod_pow2_bits_high. lia.
Qed.

Lemma PGROUNDUP_eq a : 0 <= a <= 2 ^ 32 - PGSIZE ->
  PGROUNDUP a = (a + (PGSIZE - 1)) - (a + (PGSIZE - 1)) mod PGSIZE.
Proof.
  intros Ha. rewrite <-PGROUNDDOWN_eq by (unfold PGSIZE in *; lia).
  unfold PGROUNDUP, PGROUNDDOWN, PGSIZE in *. rewrite u32_small by lia. f_equal. lia.
Qed.

Lemma PGROUNDUP_bounds a : 0 <= a <= 2 ^ 32 - PGSIZE ->
  PGROUNDUP a mod PGSIZE = 0 /\ a <= PGROUNDUP a < a + PGSIZE.
Proof.
  intros Ha. rewrite PGROUNDUP_eq by done. unfold PGSIZE in *.
  pose proof (Z.mod_pos_bound (a + (4096 - 1)) 4096). split; [|lia].
  rewrite Zminus_mod_idemp_r, Z.sub_diag. done.
Qed.

Section kalloc.
Context `{KernelImage}.

(** [if(kmem.use_lock) acquire(&kmem.lock);] and its release *)
Definition kmem_acquire : KM unit := u <- kget w_uselock; kwhen (negb (u =? 0)) (acquire KmemLock).
Definition kmem_release : KM unit := u <- kget w_uselock; kwhen (negb (u =? 0)) (release KmemLock).

Definition kfree (v : Z) : KM unit :=
  if negb (v mod PGSIZE =? 0) || (v <? k_end) || (V2P v >=? PHYSTOP) then kpanic "kfree" else
  kmod (set_w_mem (memset v 1 PGSIZE)) >>;
  kmem_acquire >>;
  kmod (fun w => st v (w_freelist w) w) >>;       (* r->next = kmem.freelist *)
  kmod (set_w_freelist (fun _ => v)) >>;
  kmem_release.

Definition kalloc : KM Z :=
  kmem_acquire >>;
  r <- kget w_freelist;
  kwhen (negb (r =? 0)) (kmod (fun w => set_w_freelist (fun _ => ld w r) w)) >>;
  kmem_release >>;
  kret r.

(** [for(; p + PGSIZE <= vend; p += PGSIZE) kfree(p);], [n] bounding the turns. *)
Fixpoint freerange_loop (n : nat) (p vend : Z) : KM unit :=
  match n with
  | O => kout
  | S n' => if u32 (p + PGSIZE) <=? vend
            then kfree p >>; freerange_loop n' (u32 (p + PGSIZE)) vend
            else kret tt
  end.
Definition freerange (vstart vend : Z) : KM unit :=
  let p := PGROUNDUP vstart in
  freerange_loop (Z.to_nat (vend / PGSIZE) + 1) p vend.

Definition kinit1 (vstart vend : Z) : KM unit :=
  initlock KmemLock "kmem" >>;
  kmod (set_w_uselock (fun _ => 0)) >>;
  freerange vstart vend.

Definition kinit2 (vstart vend : Z) : KM unit :=
  freerange vstart vend >>;
  kmod (set_w_uselock (fun _ => 1)).

(** ** The free list *)

(** A page [kfree] accepts. *)
Definition page_ok (v : Z) : Prop :=
  v mod PGSIZE = 0 /\ k_end <= v /\ KERNBASE <= v < KERNBASE + PHYSTOP.

(** The pages reachable from [p] through their first words are [l]. *)
Fixpoint chain (m : memory) (p : Z) (l : list Z) : Prop :=
  match l with
  | [] => p = 0
  | q :: l' => p = q /\ page_ok q /\ chain m (ldm m q) l'
  end.

Definition is_freelist (w : world) (l : list Z) : Prop :=
  chain (w_mem w) (w_freelist w) l /\ NoDup l.

(** The state in which the allocator may be called: its lock is not in use yet, or CPU [i] can
    take it, for it is free. *)
Definition kmem_ok (w : world) (i : nat) (c : cpu) : Prop :=
  w_uselock w <> 0 -> cpu_ok w i c /\ lock_free w KmemLock.

(** What the calls to [acquire] and [release] leave behind. *)
Definition kmem_settled (i : nat) (w : world) : world :=
  if w_uselock w =? 0 then w else settled i w.

Lemma chain_ext m m' p l :
  (forall q, q ∈ l -> ldm m' q = ldm m q) -> chain m p l -> chain m' p l.
Proof.
  revert p. induction l as [|q l IH]; intros p Hm; simpl; [done|].
  intros (-> & Hq & Hc). split_and!; [done|done|]. rewrite Hm by by constructor.
  apply IH; [|done]. intros r Hr. apply Hm. by constructor.
Qed.

Lemma chain_pages m p l q : chain m p l -> q ∈ l -> page_ok q.
Proof.
  revert p. induction l as [|r l IH]; intros p; simpl; [by intros _ ?%not_elem_of_nil|].
  intros (-> & Hr & Hc) [->|Hq]%elem_of_cons; eauto.
Qed.

Lemma memset_page v m b : v mod PGSIZE = 0 -> b < v \/ v + PGSIZE <= b ->
  ldm (memset v 1 PGSIZE m) b = ldm m b.
Proof.
  intros Hv Hb. unfold memset, ldm. change (PGSIZE mod 4 =? 0) with true.
  assert ((v mod 4 =? 0) = true) as ->.
  { apply Z.eqb_eq. unfold PGSIZE in Hv.
    apply Z.mod_divide in Hv as [k ->]; [|lia]. replace (k * 4096) with (k * 1024 * 4) by lia.
    apply Z.mod_mul. lia. }
  cbn [andb]. rewrite stosl_outside; [done|].
  change (Z.of_nat (Z.to_nat (PGSIZE / 4))) with 1024. unfold PGSIZE in *. lia.
Qed.

Lemma page_apart p q : p mod PGSIZE = 0 -> q mod PGSIZE = 0 -> p <> q ->
  q < p \/ p + PGSIZE <= q.
Proof.
  unfold PGSIZE. intros Hp Hq Hne.
  apply Z.mod_divide in Hp as [a ->]; [|lia]. apply Z.mod_divide in Hq as [b ->]; lia.
Qed.

Lemma page_ok_guard v : page_ok v ->
  negb (v mod PGSIZE =? 0) || (v <? k_end) || (V2P v >=? PHYSTOP) = false.
Proof.
  intros (Hm & He & Hk). rewrite Hm. simpl. unfold V2P, KERNBASE, PHYSTOP in *.
  rewrite u32_small by lia. zcases.
Qed.

Definition kmem_entered (i : nat) (w : world) : world :=
  if w_uselock w =? 0 then w else entered i KmemLock w.

Lemma kmem_acquire_eq w i c e :
  kmem_ok w i c -> kmem_acquire w e = Ret tt (kmem_entered i w) e.
Proof.
  intros Hok. unfold kmem_acquire, kmem_entered. simpl.
  destruct (w_uselock w =? 0) eqn:Hu; simpl; [done|].
  destruct Hok as [Hok Hl]; [lia|]. by apply (acquire_eq w i c).
Qed.

Lemma kmem_release_eq w i c F `{!Framed F} e :
  kmem_ok w i c -> (forall w, w_uselock (F w) = w_uselock w) ->
  kmem_release (F (kmem_entered i w)) e = Ret tt (F (kmem_settled i w)) e.
Proof.
  intros Hok HF. unfold kmem_release, kmem_entered, kmem_settled. simpl. rewrite HF.
  destruct (w_uselock w =? 0) eqn:Hu; simpl; rewrite Hu; simpl; [done|].
  destruct Hok as [Hok Hl]; [lia|]. by apply (release_section w i c KmemLock).
Qed.

(** ** What the operations do *)

(** The state [kfree v] leaves: the page is filled with junk and pushed. *)
Definition freed (v : Z) (w : world) : world :=
  set_w_freelist (fun _ => v) (st v (w_freelist w) (set_w_mem (memset v 1 PGSIZE) w)).

Lemma kfree_eq w i c v e :
  kmem_ok w i c -> page_ok v -> kfree v w e = Ret tt (freed v (kmem_settled i w)) e.
Proof.
  intros Hok Hv. unfold kfree. rewrite page_ok_guard by done. simpl.
  rewrite (kmem_acquire_eq _ i c) by exact Hok. simpl.
  set (w1 := set_w_mem (memset v 1 PGSIZE) w).
  pose (F := fun w => set_w_freelist (fun _ => v) (st v (w_freelist w) w)).
  change (kmem_release (F (kmem_entered i w1)) e = Ret tt (freed v (kmem_settled i w)) e).
  rewrite (kmem_release_eq w1 i c F) by done. unfold kmem_settled. simpl.
  by destruct (w_uselock w =? 0).
Qed.

Lemma freed_freelist w v l :
  page_ok v -> is_freelist w l -> v ∉ l -> is_freelist (freed v w) (v :: l).
Proof.
  intros Hv [Hc Hnd] Hvl. split; [|by constructor]. simpl. split_and!; [done|done|].
  unfold ldm at 1. rewrite lookup_insert_eq. simpl.
  assert (u32 (w_freelist w) = w_freelist w) as ->.
  { apply u32_small. destruct l as [|q l]; simpl in Hc; [lia|].
    destruct Hc as (-> & (_ & _ & ?) & _). unfold KERNBASE, PHYSTOP in *. lia. }
  apply chain_ext with (w_mem w); [|done]. intros q Hq.
  assert (v <> q) by by intros ->. unfold ldm at 1. rewrite lookup_insert_ne by done.
  apply memset_page; [apply Hv|].
  apply page_apart; [apply Hv| |done]. by apply (chain_pages _ _ _ q Hc).
Qed.

(** The state [kalloc] leaves and the page it returns. *)
Definition alloced (w : world) : world :=
  if w_freelist w =? 0 then w else set_w_freelist (fun p => ld w p) w.

Lemma kalloc_eq w i c e :
  kmem_ok w i c -> kalloc w e = Ret (w_freelist w) (alloced (kmem_settled i w)) e.
Proof.
  intros Hok. unfold kalloc. simpl. rewrite (kmem_acquire_eq _ i c) by exact Hok. simpl.
  assert (w_freelist (kmem_entered i w) = w_freelist w) as ->
    by (unfold kmem_entered; by case_match).
  assert (w_freelist (kmem_settled i w) = w_freelist w) as Hfl
    by (unfold kmem_settled; by case_match).
  unfold alloced. rewrite Hfl. destruct (w_freelist w =? 0) eqn:E; simpl.
  - change (kmem_entered i w) with (id (kmem_entered i w)).
    by rewrite (kmem_release_eq w i c id) by done.
  - assert (forall w', w_freelist w' = w_freelist w ->
      set_w_freelist (fun _ => ld w' (w_freelist w)) w' = set_w_freelist (fun p => ld w' p) w') as Hst.
    { intros w' Hw'. unfold set_w_freelist. by rewrite Hw'. }
    rewrite Hst by (unfold kmem_entered; by case_match).
    by rewrite (kmem_release_eq w i c (fun w => set_w_freelist (fun p => ld w p) w)) by done.
Qed.

Lemma alloced_freelist w p l :
  is_freelist w (p :: l) -> w_freelist w = p /\ is_freelist (alloced w) l /\ p ∉ l /\ page_ok p.
Proof.
  intros [(Hp & Hpg & Hc) Hnd]. pose proof (NoDup_cons_1_1 _ _ Hnd) as Hpl.
  apply NoDup_cons_1_2 in Hnd.
  split_and!; try done. unfold alloced. rewrite Hp.
  destruct Hpg as (_ & _ & ?). unfold KERNBASE in *. replace (p =? 0) with false by lia.
  split; [|done]. simpl. by rewrite Hp.
Qed.

Lemma alloced_empty w : is_freelist w [] -> w_freelist w = 0 /\ alloced w = w.
Proof. intros [Hc _]. simpl in Hc. unfold alloced. by rewrite Hc. Qed.

Lemma kmem_settled_freelist w i l : is_freelist (kmem_settled i w) l <-> is_freelist w l.
Proof. unfold kmem_settled. by case_match. Qed.

Lemma freed_kmem_ok w i c v :
  kmem_ok w i c -> exists c', kmem_ok (freed v (kmem_settled i w)) i c'.
Proof.
  intros Hok. unfold kmem_settled. destruct (w_uselock w =? 0) eqn:Hu.
  - by exists c.
  - destruct Hok as [(Hon & Hn & Hif) Hl]; [lia|]. exists (cpu_settle (w_if w) c). intros _. split; [|done].
    split; [|done]. by apply (upd_cpu_on w i c (cpu_settle (w_if w))).
Qed.

Definition page_range (p : Z) (n : nat) : list Z := (fun k => p + PGSIZE * Z.of_nat k) <$> seq 0 n.

Lemma page_range_S p n : page_range p (S n) = p :: page_range (p + PGSIZE) n.
Proof.
  unfold page_range. simpl. f_equal; [lia|]. rewrite <-seq_shift, <-list_fmap_compose.
  apply list_fmap_ext. intros k x _. unfold compose. lia.
Qed.

Lemma page_range_bounds p n q : q ∈ page_range p n -> p <= q <= p + PGSIZE * (Z.of_nat n - 1).
Proof.
  intros (k & -> & Hk)%list_elem_of_fmap. apply elem_of_seq in Hk. unfold PGSIZE. lia.
Qed.

(** Nothing but the memory and the head of the list differs. *)
Definition only_mem (w w' : world) : Prop := exists m f, w' = set_w_mem (fun _ => m) (set_w_freelist (fun _ => f) w).

Lemma freed_outside w i v b : page_ok v -> b < v \/ v + PGSIZE <= b ->
  ldm (w_mem (freed v (kmem_settled i w))) b = ldm (w_mem w) b.
Proof.
  intros (Hv & _ & ?) Hb. unfold freed, kmem_settled. simpl. unfold ldm at 1. rewrite lookup_insert_ne by (unfold PGSIZE in Hb; lia).
  case_match; simpl; by apply memset_page.
Qed.

Lemma freerange_loop_fills n k w i c e p vend l :
  kmem_ok w i c -> is_freelist w l ->
  p mod PGSIZE = 0 -> k_end <= p -> KERNBASE <= p -> vend <= KERNBASE + PHYSTOP ->
  p + PGSIZE * Z.of_nat n <= vend < p + PGSIZE * (Z.of_nat n + 1) ->
  (forall q, q ∈ l -> q < p \/ vend < q + PGSIZE) -> (n < k)%nat ->
  exists w' c', freerange_loop k p vend w e = Ret tt w' e /\ kmem_ok w' i c' /\
    w_uselock w' = w_uselock w /\ is_freelist w' (reverse (page_range p n) ++ l) /\
    (w_uselock w = 0 -> only_mem w w') /\
    (forall b, b < p \/ vend <= b -> ldm (w_mem w') b = ldm (w_mem w) b).
Proof.
  revert k w c p l. induction n as [|n IH]; intros [|k] w c p l Hok Hfl Hp He Hk Hv Hn Hl Hkn;
    try lia; unfold PGSIZE, KERNBASE, PHYSTOP in *; cbn [freerange_loop]; unfold PGSIZE;
    rewrite u32_small by lia.
  - replace (p + 4096 <=? vend) with false by lia. exists w, c. split_and!; try done.
    intros _. exists (w_mem w), (w_freelist w). by destruct w.
  - replace (p + 4096 <=? vend) with true by lia.
    assert (page_ok p) as Hpg by (split_and!; unfold PGSIZE, KERNBASE, PHYSTOP; lia).
    rewrite (kbind_ret _ _ _ _ _ _ _ (kfree_eq w i c p e Hok Hpg)).
    destruct (freed_kmem_ok w i c p Hok) as [c' Hok'].
    assert (p ∉ l) as Hpl by (intros Hin; apply Hl in Hin; lia).
    destruct (IH k (freed p (kmem_settled i w)) c' (p + 4096) (p :: l))
      as (w' & c'' & Hw' & Hok'' & Hu' & Hfl' & Hon & Hm);
      try done; try lia.
    + apply freed_freelist; [done|by apply kmem_settled_freelist|done].
    + by rewrite Zplus_mod, Hp.
    + intros q [->|Hq]%elem_of_cons; [lia|]. apply Hl in Hq. lia.
    + exists w', c''. split_and!; [done|done| | | |].
      * rewrite Hu'. unfold kmem_settled. by case_match.
      * by rewrite page_range_S, reverse_cons, <-app_assoc.
      * intros Hu. unfold kmem_settled in Hon. rewrite Hu in Hon. destruct (Hon Hu) as (m & f & ->). by exists m, f.
      * intros b Hb. rewrite Hm by lia. apply freed_outside; [done|unfold PGSIZE; lia].
Qed.

Lemma freerange_fills w i c e vstart vend l :
  kmem_ok w i c -> is_freelist w l ->
  KERNBASE <= vstart -> k_end <= vstart -> PGROUNDUP vstart <= vend -> vstart <= vend ->
  vend <= KERNBASE + PHYSTOP ->
  (forall q, q ∈ l -> q < vstart \/ vend < q + PGSIZE) ->
  exists w' c', freerange vstart vend w e = Ret tt w' e /\ kmem_ok w' i c' /\
    w_uselock w' = w_uselock w /\
    is_freelist w'
      (reverse (page_range (PGROUNDUP vstart) (Z.to_nat ((vend - PGROUNDUP vstart) / PGSIZE))) ++ l) /\
    (w_uselock w = 0 -> only_mem w w') /\
    (forall b, b < PGROUNDUP vstart \/ vend <= b -> ldm (w_mem w') b = ldm (w_mem w) b).
Proof.
  intros Hok Hfl Hk He Hv Hs Hp Hl. unfold freerange.
  pose proof (PGROUNDUP_bounds vstart) as [Hp1 Hp2];
    [unfold KERNBASE, PHYSTOP, PGSIZE in *; lia|].
  set (p := PGROUNDUP vstart) in *. set (n := (vend - p) / PGSIZE).
  assert (PGSIZE * n <= vend - p < PGSIZE * (n + 1)) as Hn.
  { pose proof (Z.mul_div_le (vend - p) PGSIZE ltac:(done)).
    pose proof (Z.mul_succ_div_gt (vend - p) PGSIZE ltac:(done)). unfold n. lia. }
  assert (0 <= n) as Hn0 by (unfold PGSIZE in Hn; lia).
  assert (n <= vend / PGSIZE) as Hnv
    by (apply Z.div_le_mono; [done|unfold KERNBASE in *; lia]).
  apply freerange_loop_fills with c; try done; rewrite ?Z2Nat.id by done; try lia.
  intros q Hq. apply Hl in Hq. lia.
Qed.
End kalloc.

(** ** The allocator's contract *)

Section properties.
Context `{KernelImage}.

(** [kalloc] pops the free list: it returns the first page, which is a page the
    allocator may own, is no longer on the list, and leaves memory untouched; on an
    empty list it returns 0 and changes nothing. *)
Theorem kalloc_pops w i c l e :
  kmem_ok w i c -> is_freelist w l ->
  exists w', kalloc w e = Ret (default 0 (head l)) w' e /\
    is_freelist w' (tail l) /\ w_mem w' = w_mem w /\
    Forall (fun p => page_ok p /\ p ∉ tail l) (take 1 l).
Proof.
  intros Hok Hfl. eexists. rewrite (kalloc_eq w i c) by done.
  apply (kmem_settled_freelist w i) in Hfl.
  assert (w_freelist (kmem_settled i w) = w_freelist w) as E by (unfold kmem_settled; by case_match).
  assert (w_mem (alloced (kmem_settled i w)) = w_mem w) as Hm
    by (unfold alloced, kmem_settled; repeat case_match; done).
  destruct l as [|p l]; simpl.
  - pose proof (alloced_empty _ Hfl) as [H0 Ha]. rewrite <-E, H0. split_and!; try done.
    by rewrite Ha.
  - pose proof (alloced_freelist _ _ _ Hfl) as (H0 & H1 & H2 & H3).
    rewrite <-E, H0. split_and!; try done. rewrite take_0. auto.
Qed.

(** [kfree] pushes: freeing a page the list does not hold puts it at the front, and
    the next [kalloc] returns it and gives the old list back. *)
Theorem kfree_kalloc w i c v l e :
  kmem_ok w i c -> page_ok v -> is_freelist w l -> v ∉ l ->
  exists w1 w2, kfree v w e = Ret tt w1 e /\ is_freelist w1 (v :: l) /\
    kalloc w1 e = Ret v w2 e /\ is_freelist w2 l.
Proof.
  intros Hok Hv Hfl Hvl. set (w1 := freed v (kmem_settled i w)).
  assert (is_freelist w1 (v :: l)) as Hfl1
    by (apply freed_freelist; [done|by apply kmem_settled_freelist|done]).
  destruct (freed_kmem_ok w i c v Hok) as [c' Hok'].
  exists w1, (alloced (kmem_settled i w1)). split_and!; [by rewrite (kfree_eq w i c)|done| |].
  - by rewrite (kalloc_eq w1 i c').
  - apply (kmem_settled_freelist w1 i) in Hfl1.
    apply (alloced_freelist _ _ _ Hfl1).
Qed.

(** [kfree] refuses every address that is not a page between [end] and the top of
    physical memory, without touching memory. *)
Theorem kfree_panics w v e :
  0 <= v < 2 ^ 32 -> KERNBASE <= k_end -> ~ page_ok v -> kfree v w e = Panic "kfree" w.
Proof.
  intros Hr Hke Hv. unfold kfree.
  destruct (_ || _ || _) eqn:E; [done|]. exfalso. apply Hv.
  apply orb_false_iff in E as [[E1 E2]%orb_false_iff E3]. apply negb_false_iff in E1.
  unfold page_ok, V2P, KERNBASE, PHYSTOP in *. rewrite Z.geb_leb in E3.
  assert (k_end <= v) by lia. rewrite u32_small in E3 by lia. lia.
Qed.

(** The two phases of initialisation in main(), [kinit1] on the memory below 4 MB and
    [kinit2] on the rest, put every whole page between [end] and [PHYSTOP] on the free
    list exactly once and switch locking on. *)
Theorem kinit_fills w i c e vmid :
  cpu_ok w i c -> w_freelist w = 0 ->
  KERNBASE <= k_end <= vmid -> vmid mod PGSIZE = 0 -> vmid <= KERNBASE + PHYSTOP ->
  exists w', (kinit1 k_end vmid >>; kinit2 vmid (KERNBASE + PHYSTOP)) w e = Ret tt w' e /\
    w_uselock w' = 1 /\
    is_freelist w'
      (reverse (page_range vmid (Z.to_nat ((KERNBASE + PHYSTOP - vmid) / PGSIZE))) ++
       reverse (page_range (PGROUNDUP k_end) (Z.to_nat ((vmid - PGROUNDUP k_end) / PGSIZE)))).
Proof.
  intros Hok Hfl Hk Hmod Hmid. unfold PGSIZE, KERNBASE, PHYSTOP in *.
  pose proof (PGROUNDUP_bounds k_end) as [Hp1 Hp2]; [unfold PGSIZE in *; lia|].
  pose proof (PGROUNDUP_bounds vmid) as [Hq1 Hq2]; [unfold PGSIZE in *; lia|].
  unfold PGSIZE in *.
  assert (PGROUNDUP vmid = vmid) as Hmm.
  { apply Z.mod_divide in Hmod as [a ->]; [|lia]. apply Z.mod_divide in Hq1 as [b Hb]; lia. }
  assert (PGROUNDUP k_end <= vmid) as Hle.
  { apply Z.mod_divide in Hmod as [a ->]; [|lia]. apply Z.mod_divide in Hp1 as [b Hb]; lia. }
  unfold kinit1, kinit2. simpl.
  set (w1 := set_w_uselock (fun _ => 0) (put_lock KmemLock (mkLock 0 "kmem" None) w)).
  destruct (freerange_fills w1 i c e k_end vmid []) as (w2 & c2 & Hr2 & Hok2 & Hu2 & Hf2 & _ & _);
    try done; try (unfold KERNBASE, PHYSTOP; lia).
  { split; [exact Hfl|constructor]. }
  { by intros q ?%not_elem_of_nil. }
  rewrite Hr2. rewrite app_nil_r in Hf2.
  set (l := reverse (page_range _ _)) in Hf2.
  destruct (freerange_fills w2 i c2 e vmid (KERNBASE + PHYSTOP) l)
    as (w3 & c3 & Hr3 & _ & _ & Hf3 & _ & _); try done; try (unfold KERNBASE, PHYSTOP; lia).
  { intros q Hq. left. unfold l in Hq. apply elem_of_reverse, page_range_bounds in Hq.
    unfold PGSIZE in Hq. pose proof (Z.mul_div_le (vmid - PGROUNDUP k_end) 4096). lia. }
  unfold KERNBASE, PHYSTOP, PGSIZE in Hr3, Hf3. rewrite Hr3. eexists.
  split_and!; [done|done|]. rewrite Hmm in Hf3. exact Hf3.
Qed.
End properties.

(** ** Examples *)

#[local] Existing Instance demo_image.

(** The page at physical address 4 MB is the only free one. *)
Definition demo_page : Z := KERNBASE + 0x400000.
Definition demo_heap : world :=
  set_w_mem (insert demo_page 0) (set_w_freelist (fun _ => demo_page) boot_world).

Lemma demo_heap_ok : kmem_ok demo_heap 0 boot_cpu.
Proof. intros _. split; [apply boot_cpu_ok|]. by eexists. Qed.

Lemma demo_page_ok : page_ok demo_page.
Proof. by vm_compute. Qed.

Lemma demo_heap_list : is_freelist demo_heap [demo_page].
Proof. split; [|apply NoDup_singleton]. split_and!; [done|apply demo_page_ok|done]. Qed.

Lemma kalloc_pops_witness : exists w', kalloc demo_heap [] = Ret demo_page w' [].
Proof.
  destruct (kalloc_pops demo_heap 0 boot_cpu [demo_page] []) as (w' & E & _);
    [apply demo_heap_ok|apply demo_heap_list|]. by exists w'.
Defined.

Lemma kfree_kalloc_witness :
  exists w1 w2, kfree (demo_page + PGSIZE) demo_heap [] = Ret tt w1 [] /\
    kalloc w1 [] = Ret (demo_page + PGSIZE) w2 [].
Proof.
  destruct (kfree_kalloc demo_heap 0 boot_cpu (demo_page + PGSIZE) [demo_page] [])
    as (w1 & w2 & E1 & _ & E2 & _).
  - apply demo_heap_ok.
  - by vm_compute.
  - apply demo_heap_list.
  - by intros [=]%list_elem_of_singleton.
  - by exists w1, w2.
Defined.

Lemma kfree_panics_witness : kfree (demo_page + 1) demo_heap [] = Panic "kfree" demo_heap.
Proof.
  apply (kfree_panics demo_heap (demo_page + 1) []).
  - by vm_compute.
  - by vm_compute.
  - intros [H _]. vm_compute in H. done.
Defined.

Lemma kinit_fills_witness :
  exists w', (kinit1 k_end (P2V (4 * 1024 * 1024)) >>;
              kinit2 (P2V (4 * 1024 * 1024)) (KERNBASE + PHYSTOP)) boot_world [] = Ret tt w' [].
Proof.
  destruct (kinit_fills boot_world 0 boot_cpu [] (P2V (4 * 1024 * 1024))) as (w' & E & _).
  - apply boot_cpu_ok.
  - reflexivity.
  - by vm_compute.
  - reflexivity.
  - by vm_compute.
  - exists w'. exact E.
Defined.
