(* ===== verification/Cprintf.v ===== *)
(** * Console output (console.c, uart.c)

    [uartputc], [cgaputc], [consputc], [printint] and [cprintf], on the console
    state of [Machine.console]: the bytes sent to the serial port, the cursor and
    the 25x80 cells of CGA memory. *)

From Stdlib Require Import ZArith Lia.
From stdpp Require Import base list gmap strings numbers.
From S2P Require Import Prelude Machine Cstring Spinlock Boot.
Local Open Scope Z_scope.
Local Open Scope kern_scope.

(** ** Digits *)

(** [do{ buf[i++] = digits[x % base]; } while((x /= base) != 0);] as the values
    [x % base] in the order they are stored; [n] bounds the turns. *)
Fixpoint digit_loop (n : nat) (x base : Z) : list Z :=
  match n with
  | O => []
  | S n' => x mod base :: (if x / base =? 0 then [] else digit_loop n' (x / base) base)
  end.

(** [x] of printint and whether the sign is printed. *)
Definition print_abs (xx sign : Z) : Z * bool :=
  if negb (sign =? 0) && (xx <? 0) then (u32 (- xx), true) else (u32 xx, false).

(** The characters printint prints, in order, for an alphabet [digits]. *)
Definition print_chars (digits : list Z) (xx base sign : Z) : list Z :=
  let '(x, neg) := print_abs xx sign in
  let buf := (fun d => default 0 (digits !! Z.to_nat d)) <$> digit_loop 32 x base in
  reverse (buf ++ if neg : bool then [45] else []).

(** The value of a digit string, least significant digit first. *)
Fixpoint value (base : Z) (ds : list Z) : Z :=
  match ds with [] => 0 | d :: ds' => d + base * value base ds' end.

Lemma digit_loop_value n x base :
  1 < base -> 0 <= x < base ^ Z.of_nat n -> (0 < n)%nat ->
  value base (digit_loop n x base) = x /\
  Forall (fun d => 0 <= d < base) (digit_loop n x base) /\
  (length (digit_loop n x base) <= n)%nat.
Proof.
  intros Hb. revert x. induction n as [|n IH]; intros x Hx Hn; [lia|].
  cbn [digit_loop]. pose proof (Z.mod_pos_bound x base). pose proof (Z.div_mod x base).
  pose proof (Z.div_pos x base).
  destruct (Z.eqb_spec (x / base) 0) as [E|E].
  - cbn [value]. rewrite E in *. split_and!; [lia|repeat constructor; lia|simpl; lia].
  - rewrite Nat2Z.inj_succ, Z.pow_succ_r in Hx by lia.
    assert (x / base < base ^ Z.of_nat n) by (apply Z.div_lt_upper_bound; lia).
    destruct n as [|n]; [change (base ^ Z.of_nat 0) with 1 in *; lia|].
    destruct (IH (x / base)) as (IH1 & IH2 & IH3); [lia|lia|].
    cbn [value]. rewrite IH1. split_and!; [lia| |simpl length in *; lia].
    constructor; [lia|done].
Qed.

(** Ten decimal digits hold a 32-bit number, so [buf] of 16 characters is enough. *)
Lemma digit_loop_short base n x :
  1 < base -> (0 < n)%nat -> 0 <= x < base ^ Z.of_nat n ->
  forall m, (n <= m)%nat -> digit_loop m x base = digit_loop n x base.
Proof.
  intros Hb. revert x. induction n as [|n IH]; intros x Hn Hx m Hm; [lia|].
  destruct m as [|m]; [lia|]. cbn [digit_loop]. f_equal.
  destruct (Z.eqb_spec (x / base) 0) as [E|E]; [done|].
  pose proof (Z.div_pos x base).
  rewrite Nat2Z.inj_succ, Z.pow_succ_r in Hx by lia.
  assert (x / base < base ^ Z.of_nat n) by (apply Z.div_lt_upper_bound; lia).
  destruct n as [|n]; [change (base ^ Z.of_nat 0) with 1 in *; lia|].
  apply IH; lia.
Qed.

Arguments digit_loop : simpl never.

(** ** Devices *)

Definition upd_con (g : console -> console) : KM unit := kmod (set_w_con g).

(** The serial port accepts the byte within the polling loop or after it. *)
Definition uartputc (c : Z) : KM unit :=
  u <- kget (fun w => cn_uart (w_con w));
  if u =? 0 then kret tt else upd_con (set_cn_serial (fun s => s ++ [u8 c])).

Definition BACKSPACE : Z := 0x100.

(** The cursor and the cells after the character, before scrolling. *)
Definition cga_char (c pos : Z) (crt : list Z) : Z * list Z :=
  if c =? 10 then (pos + (80 - pos mod 80), crt)
  else if c =? BACKSPACE then (if pos >? 0 then pos - 1 else pos, crt)
  else (pos + 1, <[Z.to_nat pos := Z.lor (Z.land c 0xff) 0x0700]> crt).

Definition cga_scroll (pos : Z) (crt : list Z) : Z * list Z :=
  if pos / 80 >=? 24 then
    let crt := take (23 * 80) (drop 80 crt) ++ drop (23 * 80) crt in
    let pos := pos - 80 in
    (pos, take (Z.to_nat pos) crt ++ replicate (Z.to_nat (24 * 80 - pos)) 0
          ++ drop (Z.to_nat pos + Z.to_nat (24 * 80 - pos)) crt)
  else (pos, crt).

Definition cgaputc (c : Z) : KM unit :=
  con <- kget w_con;
  let '(pos, crt) := cga_char c (cn_pos con) (cn_crt con) in
  if (pos <? 0) || (pos >? 25 * 80) then kpanic "pos under/overflow" else
  let '(pos, crt) := cga_scroll pos crt in
  upd_con (fun con => set_cn_pos (fun _ => u16 pos)
    (set_cn_crt (fun _ => <[Z.to_nat pos := Z.lor 32 0x0700]> crt) con)).

Definition consputc (c : Z) : KM unit :=
  p <- kget (fun w => cn_panicked (w_con w));
  if negb (p =? 0) then kmod (set_w_if (fun _ => false)) >>; kout else
  (if c =? BACKSPACE then uartputc 8 >>; uartputc 32 >>; uartputc 8 else uartputc c) >>;
  cgaputc c.

(** ** cprintf *)

Definition printint (xx base sign : Z) : KM unit :=
  kfor (print_chars (str "0123456789abcdef") xx base sign) consputc.

(** An argument of a call of cprintf: a word, or a string (null when [None]). *)
Inductive parg : Type := AInt (z : Z) | AStr (s : option (list Z)).

Definition arg_int (args : list parg) : KM (Z * list parg) :=
  match args with AInt z :: rest => kret (z, rest) | _ => kpanic "invalid pointer" end.
Definition arg_str (args : list parg) : KM (option (list Z) * list parg) :=
  match args with AStr s :: rest => kret (s, rest) | _ => kpanic "invalid pointer" end.

(** The loop over the format, from [fmt+i] on. *)
Fixpoint cprintf_loop (fmt : list Z) (args : list parg) : KM unit :=
  match fmt with
  | [] => kret tt
  | c :: fmt1 =>
    if c =? 0 then kret tt else
    if negb (c =? 37) then consputc c >>; cprintf_loop fmt1 args else
    match fmt1 with
    | [] => kret tt
    | c :: fmt2 =>
      if c =? 0 then kret tt else
      if c =? 100 (* d *) then
        r <- arg_int args; printint (s32 (fst r)) 10 1 >>; cprintf_loop fmt2 (snd r)
      else if (c =? 120) || (c =? 112) (* x p *) then
        r <- arg_int args; printint (s32 (fst r)) 16 0 >>; cprintf_loop fmt2 (snd r)
      else if c =? 115 (* s *) then
        r <- arg_str args;
        kfor (cstr (default (str "(null)") (fst r))) consputc >>; cprintf_loop fmt2 (snd r)
      else if c =? 37 then consputc 37 >>; cprintf_loop fmt2 args
      else consputc 37 >>; consputc c >>; cprintf_loop fmt2 args
    end
  end.

Definition cprintf (fmt : option (list Z)) (args : list parg) : KM unit :=
  locking <- kget (fun w => cn_locking (w_con w));
  kwhen (negb (locking =? 0)) (acquire ConsLock) >>;
  match fmt with
  | None => kpanic "null fmt"
  | Some fmt => cprintf_loop fmt args >>; kwhen (negb (locking =? 0)) (release ConsLock)
  end.

(** A call with a literal format. *)
Definition printk (fmt : string) (args : list parg) : KM unit := cprintf (Some (str fmt)) args.
(** ... that ends in a newline. *)
Definition printkn (fmt : string) (args : list parg) : KM unit :=
  cprintf (Some (str fmt ++ [10])) args.

(** ** What the calls do *)

(** A console on which output goes through: no panic, the cursor on the first 24 rows. *)
Definition con_ok (con : console) : Prop :=
  cn_panicked con = 0 /\ 0 <= cn_pos con < 24 * 80 /\ length (cn_crt con) = 2000%nat.

Definition uart_out (cs : list Z) (con : console) : console :=
  if cn_uart con =? 0 then con else set_cn_serial (fun s => s ++ (u8 <$> cs)) con.
Definition cga_out (c : Z) (con : console) : console :=
  let '(pos, crt) := cga_char c (cn_pos con) (cn_crt con) in
  let '(pos, crt) := cga_scroll pos crt in
  set_cn_pos (fun _ => u16 pos) (set_cn_crt (fun _ => <[Z.to_nat pos := Z.lor 32 0x0700]> crt) con).
(** The effect of [consputc c]. *)
Definition put_con (c : Z) (con : console) : console :=
  cga_out c (uart_out (if c =? BACKSPACE then [8; 32; 8] else [c]) con).
Definition put_cons (cs : list Z) (con : console) : console := foldl (fun k c => put_con c k) con cs.

Arguments cga_char : simpl never.
Arguments cga_scroll : simpl never.

Lemma uartputc_eq c w e : uartputc c w e = Ret tt (set_w_con (uart_out [c]) w) e.
Proof.
  unfold uartputc, uart_out, upd_con. simpl. destruct (cn_uart (w_con w) =? 0) eqn:E; simpl.
  - f_equal. unfold set_w_con. rewrite E. by destruct w.
  - f_equal. unfold set_w_con. by rewrite E.
Qed.

Lemma uart_out_app cs cs' con : uart_out cs' (uart_out cs con) = uart_out (cs ++ cs') con.
Proof.
  unfold uart_out. destruct (cn_uart con =? 0) eqn:E; [by rewrite E|]. simpl. rewrite E.
  unfold set_cn_serial. simpl. by rewrite fmap_app, (assoc_L (++)).
Qed.

(** Writing a character keeps the cursor on the first 24 rows and within CGA memory. *)
Lemma cga_in_range c pos crt :
  0 <= pos < 24 * 80 -> length crt = 2000%nat ->
  let '(pos1, crt1) := cga_char c pos crt in
  0 <= pos1 <= 24 * 80 /\ length crt1 = 2000%nat /\
  let '(pos2, crt2) := cga_scroll pos1 crt1 in
  0 <= pos2 < 24 * 80 /\ length crt2 = 2000%nat.
Proof.
  intros Hp Hl.
  assert (let '(pos1, crt1) := cga_char c pos crt in 0 <= pos1 <= 24 * 80 /\ length crt1 = 2000%nat) as H.
  { unfold cga_char. destruct (c =? 10); [|destruct (c =? BACKSPACE)].
    - split; [|done]. pose proof (Z.div_mod pos 80). pose proof (Z.mod_pos_bound pos 80). lia.
    - split; [|done]. zcases.
    - rewrite length_insert. split; [lia|done]. }
  destruct (cga_char c pos crt) as [pos1 crt1]. destruct H as [H1 H2]. split_and!; [lia|lia|done|].
  unfold cga_scroll. destruct (Z.leb_spec 24 (pos1 / 80)) as [H|H].
  - rewrite Z.geb_leb, (proj2 (Z.leb_le _ _)) by done.
    assert (pos1 = 24 * 80) as ->.
    { pose proof (Z.div_mod pos1 80). pose proof (Z.mod_pos_bound pos1 80). lia. }
    split; [lia|]. rewrite !length_app, length_take, !length_drop, length_app, length_take,
      length_replicate, !length_drop, H2. lia.
  - rewrite Z.geb_leb, (proj2 (Z.leb_gt _ _)) by done. split; [|done].
    pose proof (Z.div_mod pos1 80). pose proof (Z.mod_pos_bound pos1 80). lia.
Qed.

Lemma uart_out_ok cs con : con_ok con -> con_ok (uart_out cs con).
Proof. unfold uart_out. by destruct (cn_uart con =? 0). Qed.

Lemma cga_out_ok c con : con_ok con -> con_ok (cga_out c con).
Proof.
  intros (H1 & H2 & H3). unfold cga_out. pose proof (cga_in_range c _ _ H2 H3) as H.
  destruct (cga_char c _ _) as [pos1 crt1]. destruct H as (_ & _ & H).
  destruct (cga_scroll pos1 crt1) as [pos2 crt2]. destruct H as [H4 H5].
  split_and!; simpl; [done|unfold u16; rewrite Z.mod_small; lia|unfold u16; rewrite Z.mod_small; lia|].
  by rewrite length_insert.
Qed.

Lemma put_con_ok c con : con_ok con -> con_ok (put_con c con).
Proof. intros H. by apply cga_out_ok, uart_out_ok. Qed.

Lemma set_w_con_con f g w : set_w_con f (set_w_con g w) = set_w_con (f ∘ g) w.
Proof. done. Qed.

Lemma cgaputc_eq c w e :
  con_ok (w_con w) -> cgaputc c w e = Ret tt (set_w_con (cga_out c) w) e.
Proof.
  intros (H1 & H2 & H3). unfold cgaputc, cga_out, upd_con. simpl.
  pose proof (cga_in_range c _ _ H2 H3) as H. unfold set_w_con.
  destruct (cga_char c _ _) as [pos1 crt1]. destruct H as (H4 & _ & _).
  replace ((pos1 <? 0) || (pos1 >? 25 * 80)) with false by (symmetry; zcases).
  cbn [orb]. destruct (cga_scroll pos1 crt1) as [pos2 crt2]. reflexivity.
Qed.

Lemma consputc_eq c w e :
  con_ok (w_con w) -> consputc c w e = Ret tt (set_w_con (put_con c) w) e.
Proof.
  intros Hok. pose proof Hok as (H1 & _ & _). unfold consputc. simpl. rewrite H1. simpl.
  unfold put_con. destruct (c =? BACKSPACE).
  - simpl. rewrite uartputc_eq. simpl. rewrite uartputc_eq. simpl. rewrite uartputc_eq, cgaputc_eq
      by (simpl; by repeat apply uart_out_ok).
    f_equal. unfold set_w_con. simpl. by rewrite !uart_out_app.
  - rewrite uartputc_eq, cgaputc_eq by (simpl; by apply uart_out_ok). done.
Qed.

Lemma put_cons_ok cs con : con_ok con -> con_ok (put_cons cs con).
Proof. revert con. induction cs as [|c cs IH]; intros con H; [done|]. by apply IH, put_con_ok. Qed.

Lemma consputs_eq cs w e :
  con_ok (w_con w) -> kfor cs consputc w e = Ret tt (set_w_con (put_cons cs) w) e.
Proof.
  revert w. induction cs as [|c cs IH]; intros w H; simpl.
  - f_equal. by destruct w.
  - rewrite consputc_eq by done. rewrite IH by by apply put_con_ok. done.
Qed.

(** The characters a call of cprintf prints; [None] when an argument is missing or of the
    wrong kind. *)
Fixpoint format_chars (fmt : list Z) (args : list parg) : option (list Z) :=
  match fmt with
  | [] => Some []
  | c :: fmt1 =>
    if c =? 0 then Some [] else
    if negb (c =? 37) then cons c <$> format_chars fmt1 args else
    match fmt1 with
    | [] => Some []
    | c :: fmt2 =>
      if c =? 0 then Some [] else
      if c =? 100 then
        match args with
        | AInt z :: rest =>
          app (print_chars (str "0123456789abcdef") (s32 z) 10 1) <$> format_chars fmt2 rest
        | _ => None
        end
      else if (c =? 120) || (c =? 112) then
        match args with
        | AInt z :: rest =>
          app (print_chars (str "0123456789abcdef") (s32 z) 16 0) <$> format_chars fmt2 rest
        | _ => None
        end
      else if c =? 115 then
        match args with
        | AStr s :: rest => app (cstr (default (str "(null)") s)) <$> format_chars fmt2 rest
        | _ => None
        end
      else if c =? 37 then cons 37 <$> format_chars fmt2 args
      else app [37; c] <$> format_chars fmt2 args
    end
  end.

Lemma put_cons_app cs cs' con : put_cons (cs ++ cs') con = put_cons cs' (put_cons cs con).
Proof. apply foldl_app. Qed.

Lemma cprintf_loop_eq n fmt args cs w e :
  (length fmt <= n)%nat -> con_ok (w_con w) -> format_chars fmt args = Some cs ->
  cprintf_loop fmt args w e = Ret tt (set_w_con (put_cons cs) w) e.
Proof.
  assert (forall v, set_w_con (put_cons []) v = v) as Hnil by by intros [].
  assert (forall cs1 cs2 v, set_w_con (put_cons cs2) (set_w_con (put_cons cs1) v)
    = set_w_con (put_cons (cs1 ++ cs2)) v) as Happ.
  { intros. rewrite set_w_con_con. unfold set_w_con. by rewrite put_cons_app. }
  revert fmt args cs w. induction n as [|n IH]; intros [|c fmt] args cs w Hn Hok; simpl in Hn;
    try lia; try (simpl; intros [= <-]; by rewrite Hnil).
  cbn [cprintf_loop format_chars]. destruct (c =? 0); [intros [= <-]; simpl; by rewrite Hnil|].
  assert (forall m cs1 fmt' args', (length fmt' <= n)%nat ->
    m w e = Ret tt (set_w_con (put_cons cs1) w) e ->
    app cs1 <$> format_chars fmt' args' = Some cs ->
    (m >>; cprintf_loop fmt' args') w e = Ret tt (set_w_con (put_cons cs) w) e) as Hstep.
  { intros m cs1 fmt' args' Hl Hm. destruct (format_chars fmt' args') as [cs2|] eqn:E; [|done].
    intros [= <-]. simpl. rewrite Hm, (IH _ _ cs2), Happ by (done || by apply put_cons_ok). done. }
  assert (forall c', consputc c' w e = Ret tt (set_w_con (put_cons [c']) w) e) as Hputc.
  { intros. by rewrite consputc_eq. }
  destruct (negb (c =? 37)). { apply (Hstep _ [c]); [lia|apply Hputc]. }
  destruct fmt as [|c2 fmt]; [intros [= <-]; simpl; by rewrite Hnil|]. simpl in Hn.
  destruct (c2 =? 0); [intros [= <-]; simpl; by rewrite Hnil|].
  destruct (c2 =? 100); [|destruct ((c2 =? 120) || (c2 =? 112)); [|destruct (c2 =? 115)]].
  - destruct args as [|[z|] args]; try done. apply (Hstep (printint (s32 z) 10 1)); [lia|].
    by apply consputs_eq.
  - destruct args as [|[z|] args]; try done. apply (Hstep (printint (s32 z) 16 0)); [lia|].
    by apply consputs_eq.
  - destruct args as [|[|s] args]; try done.
    apply (Hstep (kfor (cstr (default (str "(null)") s)) consputc)); [lia|]. by apply consputs_eq.
  - destruct (c2 =? 37); [apply (Hstep _ [37]); [lia|apply Hputc]|].
    intros Hf. rewrite <-(Hstep (consputc 37 >>; consputc c2) [37; c2] fmt args); [|lia| |done].
    + simpl. by destruct (consputc 37 w e).
    + simpl. rewrite Hputc, consputc_eq; [done|]. by apply put_con_ok.
Qed.

(** [cprintf] in a state in which its lock can be taken. *)
Definition con_free (w : world) : Prop := cn_locking (w_con w) <> 0 -> lock_free w ConsLock.
Definition con_settled (i : nat) (w : world) : world :=
  if cn_locking (w_con w) =? 0 then w else settled i w.

Lemma cprintf_eq fmt args cs w i c e :
  cpu_ok w i c -> con_ok (w_con w) -> con_free w -> format_chars fmt args = Some cs ->
  cprintf (Some fmt) args w e = Ret tt (set_w_con (put_cons cs) (con_settled i w)) e.
Proof.
  intros Hok Hcon Hfree Hf. unfold cprintf, con_settled. simpl.
  destruct (Z.eqb_spec (cn_locking (w_con w)) 0) as [E|E]; simpl.
  - by rewrite (cprintf_loop_eq (length fmt) _ _ cs).
  - rewrite (acquire_eq w i c) by auto. rewrite (cprintf_loop_eq (length fmt) _ _ cs) by done.
    apply (release_section w i c ConsLock); [done|apply _|auto].
Qed.

(** ** Reading back a printed number *)

Definition digit_val (c : Z) : Z := if c <? 58 then c - 48 else c - 87.
Definition read_digits (base : Z) (cs : list Z) : Z := foldl (fun a c => base * a + digit_val c) 0 cs.
Definition read_int (base : Z) (cs : list Z) : Z :=
  match cs with
  | c :: cs' => if c =? 45 then - read_digits base cs' else read_digits base cs
  | [] => 0
  end.

Definition hexdigits : list Z := str "0123456789abcdef".

Lemma digit_val_char d :
  0 <= d < 16 -> digit_val (default 0 (hexdigits !! Z.to_nat d)) = d /\
  default 0 (hexdigits !! Z.to_nat d) <> 45.
Proof.
  intros Hd. assert (exists n : nat, d = Z.of_nat n /\ (n < 16)%nat) as (n & -> & Hn)
    by (exists (Z.to_nat d); lia).
  rewrite Nat2Z.id. do 16 (destruct n as [|n]; [by vm_compute|]). lia.
Qed.

Lemma read_digits_value base ds :
  Forall (fun d => 0 <= d < 16) ds ->
  read_digits base (reverse ((fun d => default 0 (hexdigits !! Z.to_nat d)) <$> ds)) = value base ds.
Proof.
  unfold read_digits. induction 1 as [|d ds Hd Hds IH]; [done|].
  rewrite fmap_cons, reverse_cons, foldl_app, IH. simpl.
  destruct (digit_val_char d Hd) as [-> _]. lia.
Qed.

Lemma digits_head ds :
  Forall (fun d => 0 <= d < 16) ds -> ds <> [] ->
  forall cs, reverse ((fun d => default 0 (hexdigits !! Z.to_nat d)) <$> ds) <> 45 :: cs.
Proof.
  intros Hds Hne cs E.
  assert (45 ∈ (fun d => default 0 (hexdigits !! Z.to_nat d)) <$> ds) as Hin.
  { apply elem_of_reverse. rewrite E. by left. }
  apply list_elem_of_fmap in Hin as (d & E' & Hd). rewrite Forall_forall in Hds.
  apply list_elem_of_In in Hd. destruct (digit_val_char d (Hds d Hd)) as [_ Hn]. congruence.
Qed.

Lemma print_chars_read base xx sign :
  1 < base <= 16 -> - 2 ^ 31 <= xx < 2 ^ 31 ->
  read_int base (print_chars hexdigits xx base sign)
  = if sign =? 0 then u32 xx else xx.
Proof.
  intros Hb Hx. unfold print_chars, print_abs.
  assert (forall x, 0 <= x < 2 ^ 32 -> value base (digit_loop 32 x base) = x /\
    Forall (fun d => 0 <= d < 16) (digit_loop 32 x base)) as Hdig.
  { intros x Hxr. destruct (digit_loop_value 32 x base) as (H1 & H2 & _); [lia| |lia|].
    - split; [lia|]. change (Z.of_nat 32) with 32.
      assert (2 ^ 32 <= base ^ 32) by (apply Z.pow_le_mono_l; lia). lia.
    - split; [done|]. revert H2. apply Forall_impl. lia. }
  destruct (negb (sign =? 0) && (xx <? 0)) eqn:E.
  - apply andb_true_iff in E as [E1 E2]. apply negb_true_iff in E1. rewrite E1.
    apply Z.ltb_lt in E2. rewrite reverse_app. cbn [reverse rev_append app read_int].
    destruct (Hdig (u32 (- xx)) (u32_bound _)) as [Hv Hf].
    change (reverse [45] ++ ?l) with (45 :: l). cbn [read_int]. change (45 =? 45) with true.
    rewrite read_digits_value, Hv by done. unfold u32. rewrite Z.mod_small; lia.
  - rewrite app_nil_r. destruct (Hdig (u32 xx) (u32_bound _)) as [Hv Hf].
    pose proof (digits_head _ Hf ltac:(done)) as Hh.
    assert (forall x, read_digits base (reverse ((fun d => default 0 (hexdigits !! Z.to_nat d)) <$>
      digit_loop 32 (u32 xx) base)) = x -> x = if sign =? 0 then u32 xx else xx) as Hr.
    { intros x <-. rewrite read_digits_value, Hv by done.
      destruct (sign =? 0); [done|]. simpl in E. apply Z.ltb_ge in E. apply u32_small. lia. }
    unfold read_int. destruct (reverse _) as [|z cs] eqn:Er; [by apply Hr|].
    destruct (Z.eqb_spec z 45) as [->|Hz]; [by destruct (Hh cs)|by apply Hr].
Qed.

Lemma print_digits_range base x :
  1 < base <= 16 -> 0 <= x < 2 ^ 32 ->
  Forall (fun d => 0 <= d < 16) (digit_loop 32 x base).
Proof.
  intros Hb Hx. destruct (digit_loop_value 32 x base) as (_ & H & _); [lia| |lia|].
  - split; [lia|]. change (Z.of_nat 32) with 32.
    assert (2 ^ 32 <= base ^ 32) by (apply Z.pow_le_mono_l; lia). lia.
  - revert H. apply Forall_impl. lia.
Qed.

(** Every character printed is a byte other than BACKSPACE. *)
Lemma print_chars_bytes base xx sign :
  1 < base <= 16 -> - 2 ^ 31 <= xx < 2 ^ 31 -> bytes (print_chars hexdigits xx base sign).
Proof.
  intros Hb Hx. unfold print_chars, bytes.
  assert (forall x, 0 <= x < 2 ^ 32 -> Forall (fun c => 0 <= c < 256)
    ((fun d => default 0 (hexdigits !! Z.to_nat d)) <$> digit_loop 32 x base)) as H.
  { intros x Hxr. apply Forall_fmap. generalize (print_digits_range base x Hb Hxr).
    apply Forall_impl. intros d Hd. simpl.
    assert (exists n : nat, d = Z.of_nat n /\ (n < 16)%nat) as (n & -> & Hn)
      by (exists (Z.to_nat d); lia).
    rewrite Nat2Z.id. do 16 (destruct n as [|n]; [vm_compute; split; congruence|]). lia. }
  unfold print_abs. destruct (_ && _); apply Forall_reverse, Forall_app; split;
    try apply H, u32_bound; repeat constructor; lia.
Qed.

Lemma print_chars_length base xx sign :
  10 <= base <= 16 -> - 2 ^ 31 <= xx < 2 ^ 31 ->
  (length (print_chars hexdigits xx base sign) <= 11)%nat.
Proof.
  intros Hb Hx. unfold print_chars.
  assert (forall x, 0 <= x < 2 ^ 32 -> (length (digit_loop 32 x base) <= 10)%nat) as H.
  { intros x Hxr. assert (2 ^ 32 <= base ^ 10).
    { transitivity (10 ^ 10); [lia|]. apply Z.pow_le_mono_l. lia. }
    rewrite (digit_loop_short base 10) by (change (Z.of_nat 10) with 10; lia).
    apply digit_loop_value; change (Z.of_nat 10) with 10; lia. }
  unfold print_abs. destruct (_ && _); rewrite length_reverse, length_app, length_fmap;
    pose proof (H (u32 (- xx)) (u32_bound _)); pose proof (H (u32 xx) (u32_bound _)); cbn [length]; lia.
Qed.

Lemma put_con_serial c con :
  cn_uart con <> 0 -> 0 <= c < 256 ->
  cn_serial (put_con c con) = cn_serial con ++ [c] /\ cn_uart (put_con c con) <> 0.
Proof.
  intros Hu Hc. unfold put_con, uart_out.
  rewrite (proj2 (Z.eqb_neq c BACKSPACE)) by (unfold BACKSPACE; lia).
  rewrite (proj2 (Z.eqb_neq _ _) Hu). unfold cga_out. simpl.
  destruct (cga_char _ _ _) as [p1 c1]. destruct (cga_scroll p1 c1) as [p2 c2]. simpl.
  unfold u8. by rewrite Z.mod_small by lia.
Qed.

Lemma put_cons_serial cs con :
  cn_uart con <> 0 -> bytes cs -> cn_serial (put_cons cs con) = cn_serial con ++ cs.
Proof.
  intros Hu Hcs. revert con Hu. induction Hcs as [|c cs Hc Hcs IH]; intros con Hu; simpl.
  - by rewrite app_nil_r.
  - destruct (put_con_serial c con Hu Hc) as [E Hu']. change (foldl _ ?k cs) with (put_cons cs k).
    rewrite IH by done. by rewrite E, <-(assoc_L (++)).
Qed.

(** ** Properties *)

(** [printint] prints a number that reads back as its argument: in base 10 with a sign
    the [int] itself, in base 16 the word; it never needs more than the 16 characters of its
    buffer, and on a console whose cursor is on the screen it neither panics nor writes
    outside CGA memory, sending the same characters to the serial port. *)
Theorem printint_prints w e xx base sign :
  con_ok (w_con w) -> cn_uart (w_con w) <> 0 -> - 2 ^ 31 <= xx < 2 ^ 31 ->
  (base = 10 \/ base = 16) ->
  exists w' cs, printint xx base sign w e = Ret tt w' e /\
    cn_serial (w_con w') = cn_serial (w_con w) ++ cs /\ con_ok (w_con w') /\
    read_int base cs = (if sign =? 0 then u32 xx else xx) /\ (length cs <= 11)%nat.
Proof.
  intros Hok Hu Hx Hb. eexists _, (print_chars hexdigits xx base sign).
  unfold printint. rewrite consputs_eq by done. split_and!; [done| |by apply put_cons_ok| |].
  - apply put_cons_serial; [done|]. apply print_chars_bytes; [lia|done].
  - apply print_chars_read; [lia|done].
  - apply print_chars_length; [lia|done].
Qed.

Lemma printint_prints_witness :
  exists w' cs, printint (- 2147483648) 10 1
      (set_w_con (set_cn_uart (fun _ => 1)) boot_world) [] = Ret tt w' [] /\
    cn_serial (w_con w') = [] ++ cs /\ read_int 10 cs = - 2147483648.
Proof.
  destruct (printint_prints (set_w_con (set_cn_uart (fun _ => 1)) boot_world) [] (- 2147483648) 10 1)
    as (w' & cs & E & Hs & _ & Hr & _).
  - by vm_compute.
  - by vm_compute.
  - lia.
  - by left.
  - exists w', cs. split; [exact E|]. split; [exact Hs|exact Hr].
Defined.
