(* ===== verification/Sched.v ===== *)
(** * Context switches, sleeping and waking (proc.c)

    [sched], [yield], [sleep], [wakeup] and the per-CPU [scheduler], with
    [switchuvm]/[switchkvm] of vm.c.  A context switch is a turn of the
    schedule: the routine resumes in the state the rest of the system left. *)

From Stdlib Require Import ZArith Lia.
From stdpp Require Import base list gmap strings numbers.
From S2P Require Import Prelude Machine Cstring Spinlock Boot.
Local Open Scope Z_scope.
Local Open Scope kern_scope.

(** ** Operations *)

(** [swtch(&old, new)]: another context runs until it switches back. *)
Definition swtch : KM unit := kyield.

Definition sched : KM unit :=
  p <- myproc;
  h <- holding PtableLock;
  if negb h then kpanic "sched ptable.lock" else
  i <- mycpu;
  c <- get_cpu i;
  if negb (c_ncli c =? 1) then kpanic "sched locks" else
  p <- kderef p;
  pr <- get_proc p;
  if is_state (p_state pr) RUNNING then kpanic "sched running" else
  fl <- kget w_if;
  if (fl : bool) then kpanic "sched interruptible" else
  i <- mycpu;
  c <- get_cpu i;
  let intena := c_intena c in
  swtch >>;
  i <- mycpu;
  kmod (upd_cpu i (set_c_intena (fun _ => intena))).

Definition yield : KM unit :=
  acquire PtableLock >>;
  p <- myproc;
  p <- kderef p;
  kmod (upd_proc p (set_p_state (fun _ => RUNNABLE))) >>;
  sched >>;
  release PtableLock.

Definition sleep (ch : option chan) (lk : option lockid) : KM unit :=
  p <- myproc;
  match p with
  | None => kpanic "sleep"
  | Some p =>
    match lk with
    | None => kpanic "sleep without lk"
    | Some lk =>
      let other := negb (bool_decide (lk = PtableLock)) in
      kwhen other (acquire PtableLock >>; release lk) >>;
      kmod (upd_proc p (set_p_chan (fun _ => ch))) >>;
      kmod (upd_proc p (set_p_state (fun _ => SLEEPING))) >>;
      sched >>;
      kmod (upd_proc p (set_p_chan (fun _ => None))) >>;
      kwhen other (release PtableLock >>; acquire lk)
    end
  end.

(** The body of the loop of [wakeup1] and the loop. *)
Definition wake_proc (ch : option chan) (p : proc) : proc :=
  if is_state (p_state p) SLEEPING && bool_decide (p_chan p = ch)
  then set_p_state (fun _ => RUNNABLE) p else p.
Definition wakeup1 (ch : option chan) : KM unit := kmod (set_w_procs (fmap (wake_proc ch))).

Definition wakeup (ch : option chan) : KM unit :=
  acquire PtableLock >>;
  wakeup1 ch >>;
  release PtableLock.

(** ** Address-space switches (vm.c) *)

Definition SEG_KDATA : Z := 2.
Definition ltr (v : Z) : KM unit := kmod (set_w_tr (fun _ => v)).
Definition lcr3 (v : Z) : KM unit := kmod (set_w_cr3 (fun _ => v)).

Definition switchkvm : KM unit := k <- kget w_kpgdir; lcr3 (V2P k).

(** Segment descriptors and selectors of mmu.h. *)
Definition SEG_KCODE : Z := 1.
Definition SEG_UCODE : Z := 3.
Definition SEG_UDATA : Z := 4.
Definition SEG_TSS : Z := 5.
Definition DPL_USER : Z := 3.
Definition STA_X : Z := 0x8.
Definition STA_W : Z := 0x2.
Definition STA_R : Z := 0x2.
Definition STS_T32A : Z := 0x9.
Definition SEG (type : Z) (base : segbase) (lim dpl : Z) : segdesc :=
  mkSegdesc (Z.lor (Z.land (Z.shiftr lim 12) 0xffff) (Z.shiftl (Z.shiftr lim 28) 16))
    base type 1 dpl 1 1 1.
Definition SEG16 (type : Z) (base : segbase) (lim dpl : Z) : segdesc :=
  mkSegdesc (Z.lor (Z.land lim 0xffff) (Z.shiftl (Z.land (Z.shiftr lim 16) 0xf) 16))
    base type 1 dpl 1 1 0.
(** [sizeof(struct taskstate)] *)
Definition TSS_SIZE : Z := 104.
Definition upd_gdt (k : Z) (f : segdesc -> segdesc) : cpu -> cpu :=
  set_c_gdt (alter f (Z.to_nat k)).

Definition seginit : KM unit :=
  i <- mycpu;
  kmod (upd_cpu i (upd_gdt SEG_KCODE (fun _ => SEG (Z.lor STA_X STA_R) (BaseAt 0) 0xffffffff 0))) >>;
  kmod (upd_cpu i (upd_gdt SEG_KDATA (fun _ => SEG STA_W (BaseAt 0) 0xffffffff 0))) >>;
  kmod (upd_cpu i (upd_gdt SEG_UCODE (fun _ => SEG (Z.lor STA_X STA_R) (BaseAt 0) 0xffffffff DPL_USER))) >>;
  kmod (upd_cpu i (upd_gdt SEG_UDATA (fun _ => SEG STA_W (BaseAt 0) 0xffffffff DPL_USER))).

Definition switchuvm (p : option nat) : KM unit :=
  match p with
  | None => kpanic "switchuvm: no process"
  | Some p =>
    pr <- get_proc p;
    if p_kstack pr =? 0 then kpanic "switchuvm: no kstack" else
    if p_pgdir pr =? 0 then kpanic "switchuvm: no pgdir" else
    pushcli >>;
    i <- mycpu;
    kmod (upd_cpu i (upd_gdt SEG_TSS (fun _ => SEG16 STS_T32A (BaseTss i) (TSS_SIZE - 1) 0))) >>;
    i <- mycpu;
    kmod (upd_cpu i (upd_gdt SEG_TSS (set_sd_s (fun _ => 0)))) >>;
    i <- mycpu;
    kmod (upd_cpu i (set_c_ss0 (fun _ => Z.shiftl SEG_KDATA 3))) >>;
    i <- mycpu;
    kmod (upd_cpu i (set_c_esp0 (fun _ => u32 (p_kstack pr + KSTACKSIZE)))) >>;
    i <- mycpu;
    kmod (upd_cpu i (set_c_iomb (fun _ => 0xFFFF))) >>;
    ltr (Z.shiftl SEG_TSS 3) >>;
    lcr3 (V2P (p_pgdir pr)) >>;
    popcli
  end.

Arguments switchuvm : simpl never.
Arguments sleep : simpl never.

(** ** The scheduler *)

(** One turn of the inner loop, for the process at index [p]. *)
Definition sched_slot (c : nat) (p : nat) : KM unit :=
  pr <- get_proc p;
  if negb (is_state (p_state pr) RUNNABLE) then kret tt else
  kmod (upd_cpu c (set_c_proc (fun _ => Some p))) >>;
  switchuvm (Some p) >>;
  kmod (upd_proc p (set_p_state (fun _ => RUNNING))) >>;
  swtch >>;
  switchkvm >>;
  kmod (upd_cpu c (set_c_proc (fun _ => None))).

(** One turn of the outer loop: a pass over the process table. *)
Definition sched_pass (c : nat) : KM unit :=
  kmod (set_w_if (fun _ => true)) >>;
  acquire PtableLock >>;
  kfor (seq 0 NPROC) (sched_slot c) >>;
  release PtableLock.

Fixpoint sched_passes (n : nat) (c : nat) : KM unit :=
  match n with O => kret tt | S n' => sched_pass c >>; sched_passes n' c end.

(** [scheduler], observed for [n] passes. *)
Definition scheduler (n : nat) : KM unit :=
  c <- mycpu;
  kmod (upd_cpu c (set_c_proc (fun _ => None))) >>;
  sched_passes n c.

(** ** What the operations do *)

(** CPU [i], running process [p], holds [lk] and no other lock. *)
Definition holds_only (w : world) (i : nat) (c : cpu) (lk : lockid) (p : nat) : Prop :=
  on_cpu w i c /\ w_if w = false /\ c_ncli c = 1 /\ lock_held w lk i /\ c_proc c = Some p.

Lemma holds_only_ok w i c lk p : holds_only w i c lk p -> cpu_ok w i c.
Proof. intros (? & ? & ? & ? & ?). apply cpu_ok_masked; [done|done|lia]. Qed.

Lemma holds_only_settled w i c lk p : holds_only w i c lk p -> settled i w = w.
Proof. intros (? & ? & ? & ? & ?). apply (settled_id w i c); [done|lia]. Qed.

Lemma lock_held_holds w lk i : lock_held w lk i -> holds w lk i = true.
Proof.
  intros [n Hn]. unfold holds, lock_of. rewrite Hn. simpl. by rewrite bool_decide_eq_true_2.
Qed.

Lemma is_state_false s t : s <> t -> is_state s t = false.
Proof. intros H. by apply bool_decide_eq_false_2. Qed.

Lemma get_proc_eq w p pr e : w_procs w !! p = Some pr -> get_proc p w e = Ret pr w e.
Proof. intros H. unfold get_proc. simpl. by rewrite H. Qed.

(** [sched] gives up the CPU exactly when its caller holds ptable.lock and nothing else
    and has left state RUNNING; the saved [intena] is put back on the CPU it resumes on. *)
Lemma sched_eq w i c p pr e :
  holds_only w i c PtableLock p -> w_procs w !! p = Some pr -> p_state pr <> RUNNING ->
  sched w e
  = (swtch >>; j <- mycpu; kmod (upd_cpu j (set_c_intena (fun _ => c_intena c)))) w e.
Proof.
  intros H Hp Hs. pose proof (holds_only_ok _ _ _ _ _ H) as Hok.
  pose proof (holds_only_settled _ _ _ _ _ H) as Hst. destruct H as (Hon & Hif & Hn & Hh & Hc).
  unfold sched. simpl. rewrite (myproc_eq w i c), Hst by done.
  rewrite (holding_eq w i c), Hst, (lock_held_holds _ _ _ Hh) by done. simpl.
  rewrite (mycpu_eq w i c), (get_cpu_eq w i c), Hn, Hc by done. simpl.
  rewrite (get_proc_eq w p pr), is_state_false by done. simpl.
  rewrite Hif. simpl. by rewrite (mycpu_eq w i c), (get_cpu_eq w i c) by done.
Qed.

Lemma sched_resumes w i c p pr f e j c2 :
  holds_only w i c PtableLock p -> w_procs w !! p = Some pr -> p_state pr <> RUNNING ->
  on_cpu (f w) j c2 -> w_if (f w) = false ->
  sched w (f :: e) = Ret tt (upd_cpu j (set_c_intena (fun _ => c_intena c)) (f w)) e.
Proof.
  intros H Hp Hs Hj Hif. rewrite (sched_eq w i c p pr) by done. simpl.
  by rewrite (mycpu_eq _ j c2).
Qed.

Lemma sched_off w i c p pr :
  holds_only w i c PtableLock p -> w_procs w !! p = Some pr -> p_state pr <> RUNNING ->
  sched w [] = Off w.
Proof. intros H Hp Hs. by rewrite (sched_eq w i c p pr). Qed.

Lemma wakeup_eq w i c ch e :
  cpu_ok w i c -> lock_free w PtableLock ->
  wakeup ch w e = Ret tt (set_w_procs (fmap (wake_proc ch)) (settled i w)) e.
Proof.
  intros Hok Hl. unfold wakeup. simpl. rewrite (acquire_eq w i c) by done. simpl.
  by apply (release_section w i c PtableLock).
Qed.

(** The state in which [sleep] switches away: [p] is marked asleep, ptable.lock is held and
    the caller's lock has been given up. *)
Definition asleep (i p : nat) (ch : option chan) (lk : lockid) (w : world) : world :=
  upd_proc p (set_p_state (fun _ => SLEEPING))
    (upd_proc p (set_p_chan (fun _ => ch)) (unlocked lk (locked_by i PtableLock w))).

Lemma lock_free_unlocked w lk name :
  lk_name (lock_of w lk) = name -> w_locks (unlocked lk w) !! lk = Some (mkLock 0 name None).
Proof. intros <-. apply lookup_insert_eq. Qed.

Lemma sleep_swaps_locks w i c lk p e :
  holds_only w i c lk p -> lk <> PtableLock -> lock_free w PtableLock ->
  (acquire PtableLock >>; release lk) w e
  = Ret tt (unlocked lk (locked_by i PtableLock w)) e.
Proof.
  intros H Hne Hpt. pose proof (holds_only_ok _ _ _ _ _ H) as Hok.
  pose proof (holds_only_settled _ _ _ _ _ H) as Hst. destruct H as (Hon & Hif & Hn & [nm Hh] & _).
  simpl. rewrite (acquire_eq w i c) by done.
  rewrite (release_eq _ i (cpu_push (w_if w) c)).
  - f_equal. unfold entered.
    assert (unlocked lk (locked_by i PtableLock (pushed i w))
      = put_lock lk (mkLock 0 nm None) (locked_by i PtableLock (pushed i w))) as ->.
    { unfold unlocked, lock_of. simpl. by rewrite lookup_insert_ne, Hh by done. }
    assert (unlocked lk (locked_by i PtableLock w)
      = (fun v => put_lock lk (mkLock 0 nm None) (locked_by i PtableLock v)) w) as ->.
    { unfold unlocked, lock_of. simpl. by rewrite lookup_insert_ne, Hh by done. }
    transitivity ((fun v => put_lock lk (mkLock 0 nm None) (locked_by i PtableLock v)) (settled i w));
      [|by rewrite Hst].
    rewrite <-(popped_pushed w i c) by done. reflexivity.
  - by apply entered_on.
  - done.
  - rewrite cpu_push_ncli. lia.
  - exists nm. simpl. by rewrite lookup_insert_ne.
Qed.

Lemma unlocked_free w lk : lock_free (unlocked lk w) lk.
Proof. eexists. by apply lock_free_unlocked. Qed.

Section asleep.
Context (w : world) (i : nat) (c : cpu) (lk : lockid) (p : nat) (pr : proc) (ch : option chan).
Hypotheses (H : holds_only w i c lk p) (Hne : lk <> PtableLock)
  (Hpt : lock_free w PtableLock) (Hp : w_procs w !! p = Some pr).

Lemma asleep_proc :
  w_procs (asleep i p ch lk w) !! p
  = Some (set_p_state (fun _ => SLEEPING) (set_p_chan (fun _ => ch) pr)).
Proof using Hp. unfold asleep. simpl. by rewrite !list_lookup_alter_eq, Hp. Qed.

Lemma asleep_lk_free : lock_free (asleep i p ch lk w) lk.
Proof. apply (unlocked_free (locked_by i PtableLock w) lk). Qed.

Lemma asleep_holds : holds_only (asleep i p ch lk w) i c PtableLock p.
Proof using H Hne.
  destruct H as (Hon & Hif & Hn & _ & Hc). split_and!; try done.
  eexists. simpl. rewrite lookup_insert_ne by done. by apply lookup_insert_eq.
Qed.

Lemma sleep_off : sleep ch (Some lk) w [] = Off (asleep i p ch lk w).
Proof using All.
  unfold sleep. simpl. rewrite (myproc_eq w i c) by by eapply holds_only_ok.
  erewrite holds_only_settled by done.
  assert (c_proc c = Some p) as -> by apply H. simpl.
  rewrite bool_decide_eq_false_2 by done. simpl negb. unfold kwhen.
  rewrite (sleep_swaps_locks w i c lk p) by done. simpl.
  change (upd_proc _ _ (upd_proc _ _ _)) with (asleep i p ch lk w).
  erewrite sched_off; [done|apply asleep_holds|apply asleep_proc|done].
Qed.

(** Resuming: [w2] is the state the switch back finds, on CPU [j]. *)
Definition awake (j : nat) (c2 : cpu) (w2 : world) : world :=
  let w3 := upd_proc p (set_p_chan (fun _ => None))
              (upd_cpu j (set_c_intena (fun _ => c_intena c)) w2) in
  entered j lk (popped j (set_c_intena (fun _ => c_intena c) c2) (unlocked PtableLock w3)).

Lemma awake_held j c2 w2 : lock_held (awake j c2 w2) lk j.
Proof. apply entered_held. Qed.

Lemma awake_ptable j c2 w2 : lock_free (awake j c2 w2) PtableLock.
Proof using Hne. apply entered_other; [done|]. apply (unlocked_free (upd_proc _ _ _) _). Qed.

Lemma awake_cpu j c2 w2 :
  holds_only w2 j c2 PtableLock p ->
  exists c3, on_cpu (awake j c2 w2) j c3 /\ c_ncli c3 = 1 /\ (c_intena c3 = 0 <-> c_intena c = 0).
Proof.
  intros (Hon2 & Hif2 & Hn2 & Hh2 & Hc2). eexists. split; [apply pushed_on|].
  - apply (upd_cpu_on _ j (set_c_intena (fun _ => c_intena c) c2) cpu_pop); [|done].
    by apply (upd_cpu_on w2 j c2).
  - simpl. rewrite Hn2. simpl. rewrite Hif2. by destruct (Z.eqb_spec (c_intena c) 0) as [->|].
Qed.

Lemma sleep_resumes f e j c2 :
  holds_only (f (asleep i p ch lk w)) j c2 PtableLock p ->
  lock_free (f (asleep i p ch lk w)) lk ->
  sleep ch (Some lk) w (f :: e) = Ret tt (awake j c2 (f (asleep i p ch lk w))) e.
Proof using All.
  intros H2 Hlk. unfold sleep. simpl. rewrite (myproc_eq w i c) by by eapply holds_only_ok.
  erewrite holds_only_settled by done.
  assert (c_proc c = Some p) as -> by apply H. simpl.
  rewrite bool_decide_eq_false_2 by done. simpl negb. unfold kwhen.
  rewrite (sleep_swaps_locks w i c lk p) by done. simpl.
  change (upd_proc p _ (upd_proc _ _ _)) with (asleep i p ch lk w).
  destruct H2 as (Hon2 & Hif2 & Hn2 & Hh2 & Hc2).
  erewrite sched_resumes; [|apply asleep_holds|apply asleep_proc|done|exact Hon2|done]. simpl.
  set (c3 := set_c_intena (fun _ => c_intena c) c2).
  assert (on_cpu (upd_cpu j (set_c_intena (fun _ => c_intena c)) (f (asleep i p ch lk w))) j c3)
    as Hon3 by by apply upd_cpu_on.
  rewrite (release_eq _ j c3); [|exact Hon3|done|simpl; lia|exact Hh2].
  rewrite (acquire_eq _ j (cpu_pop c3)); [done| |].
  - split; [|simpl; lia]. by apply (upd_cpu_on _ j c3 cpu_pop).
  - destruct Hlk as [nm Hnm]. exists nm. simpl. by rewrite lookup_insert_ne.
Qed.
End asleep.

(** ** A pass of the scheduler *)

(** The state in which the inner loop of [scheduler] runs on CPU [i]. *)
Definition sched_inv (i : nat) (w : world) : Prop :=
  (exists c, on_cpu w i c /\ c_ncli c = 1) /\ w_if w = false /\ lock_held w PtableLock i /\
  length (w_procs w) = NPROC /\
  forall q pr, w_procs w !! q = Some pr -> p_state pr = RUNNABLE ->
    p_kstack pr <> 0 /\ p_pgdir pr <> 0.

Definition running (i p : nat) (w : world) : Prop :=
  exists c pr, on_cpu w i c /\ c_proc c = Some p /\ w_procs w !! p = Some pr /\
    p_state pr = RUNNING /\ w_cr3 w = V2P (p_pgdir pr) /\
    c_esp0 c = u32 (p_kstack pr + KSTACKSIZE).

Definition runnable (p : nat) (w : world) : Prop :=
  exists pr, w_procs w !! p = Some pr /\ p_state pr = RUNNABLE.

(** The processes that run between two switches: they come back to the scheduler in the
    state it relies on and leave every process that waits for the CPU runnable. *)
Definition polite (i : nat) (f : world -> world) : Prop :=
  forall w q, sched_inv i w -> running i q w ->
    sched_inv i (f w) /\ forall p, p <> q -> runnable p w -> runnable p (f w).

(** The task state and page table of a process whose entry is [pr], loaded on CPU [i]. *)
Definition cpu_tss (i : nat) (pr : proc) (c : cpu) : cpu :=
  set_c_iomb (fun _ => 0xFFFF)
    (set_c_esp0 (fun _ => u32 (p_kstack pr + KSTACKSIZE))
      (set_c_ss0 (fun _ => Z.shiftl SEG_KDATA 3)
        (upd_gdt SEG_TSS (set_sd_s (fun _ => 0))
          (upd_gdt SEG_TSS (fun _ => SEG16 STS_T32A (BaseTss i) (TSS_SIZE - 1) 0) c)))).
Definition loaded (i : nat) (pr : proc) (w : world) : world :=
  set_w_cr3 (fun _ => V2P (p_pgdir pr))
    (set_w_tr (fun _ => Z.shiftl SEG_TSS 3) (upd_cpu i (cpu_tss i pr) w)).

(** A sequence of writes through [mycpu()]. *)
Fixpoint cpu_writes {A} (gs : list (nat -> cpu -> cpu)) (k : KM A) : KM A :=
  match gs with
  | [] => k
  | g :: gs => i <- mycpu; kmod (upd_cpu i (g i)) >>; cpu_writes gs k
  end.

Lemma cpu_writes_eq {A} gs (k : KM A) f w i c e :
  Forall (fun g => forall c, c_apicid (g i c) = c_apicid c) gs ->
  (forall c, c_apicid (f c) = c_apicid c) -> on_cpu w i c -> w_if w = false ->
  cpu_writes gs k (upd_cpu i f w) e =
  k (upd_cpu i (foldl (fun f g => g i ∘ f) f gs) w) e.
Proof.
  intros Hgs. revert f. induction Hgs as [|g gs Hg _ IH]; intros f Hf Hon Hif; [done|].
  cbn [cpu_writes foldl]. unfold kbind at 1.
  rewrite (mycpu_eq (upd_cpu i f w) i (f c)) by first [by apply upd_cpu_on|done].
  unfold kbind, kmod. rewrite upd_cpu_upd. apply IH; [|done|done].
  intros x. unfold compose. by rewrite Hg, Hf.
Qed.

Definition tss_writes (pr : proc) : list (nat -> cpu -> cpu) :=
  [fun i => upd_gdt SEG_TSS (fun _ => SEG16 STS_T32A (BaseTss i) (TSS_SIZE - 1) 0);
   fun _ => upd_gdt SEG_TSS (set_sd_s (fun _ => 0));
   fun _ => set_c_ss0 (fun _ => Z.shiftl SEG_KDATA 3);
   fun _ => set_c_esp0 (fun _ => u32 (p_kstack pr + KSTACKSIZE));
   fun _ => set_c_iomb (fun _ => 0xFFFF)].

Lemma popped_load i c h f g w :
  (forall c, c_ncli (h c) = c_ncli c) -> (forall c, c_intena (h c) = c_intena c) ->
  (forall c, cpu_pop (h c) = h (cpu_pop c)) ->
  popped i (h c) (set_w_cr3 f (set_w_tr g (upd_cpu i h w))) =
  set_w_cr3 f (set_w_tr g (upd_cpu i h (popped i c w))).
Proof.
  intros Hn Ht Hp.
  assert (forall v, popped i (h c) (set_w_cr3 f v) = set_w_cr3 f (popped i (h c) v)) as -> by by intros [].
  assert (forall v, popped i (h c) (set_w_tr g v) = set_w_tr g (popped i (h c) v)) as -> by by intros [].
  do 2 f_equal. unfold popped. rewrite Hn, Ht.
  assert (forall F v, upd_cpu i h (set_w_if F v) = set_w_if F (upd_cpu i h v)) as -> by by intros ? [].
  f_equal. rewrite !upd_cpu_upd. unfold upd_cpu, set_w_cpus. f_equal.
  apply (list_alter_ext (cpu_pop ∘ h) (h ∘ cpu_pop)); [|done]. intros x _. apply Hp.
Qed.

Lemma switchuvm_eq w i c p pr e :
  cpu_ok w i c -> w_procs w !! p = Some pr -> p_kstack pr <> 0 -> p_pgdir pr <> 0 ->
  switchuvm (Some p) w e = Ret tt (loaded i pr (settled i w)) e.
Proof.
  intros Hok Hp Hk Hd. pose proof Hok as (Hon & Hn & Hif).
  unfold switchuvm. unfold kbind at 1. rewrite (get_proc_eq _ _ _ _ Hp).
  rewrite (proj2 (Z.eqb_neq (p_kstack pr) 0)), (proj2 (Z.eqb_neq (p_pgdir pr) 0)) by done.
  unfold kbind at 1. rewrite (pushcli_eq w i c) by done.
  pose proof (pushed_on _ _ _ Hon) as H1. rewrite <-(popped_pushed w i c Hok).
  set (c1 := cpu_push (w_if w) c) in *. set (w1 := pushed i w) in *.
  assert (w_if w1 = false) as Hif1 by done.
  rewrite <-(upd_cpu_id w1 i c1 id) at 1 by (done || apply H1).
  change (cpu_writes (tss_writes pr) (ltr (Z.shiftl SEG_TSS 3) >>; lcr3 (V2P (p_pgdir pr)) >>; popcli)
            (upd_cpu i id w1) e = Ret tt (loaded i pr (popped i c1 w1)) e).
  rewrite (cpu_writes_eq _ _ _ _ i c1) by (first [done|repeat constructor]).
  change (foldl _ _ _) with (cpu_tss i pr). unfold loaded.
  unfold kbind, ltr, lcr3, kmod.
  rewrite (popcli_eq _ i (cpu_tss i pr c1)).
  - by rewrite popped_load.
  - by apply (upd_cpu_on w1 i c1 (cpu_tss i pr)).
  - done.
  - change (1 <= c_ncli c1). unfold c1. rewrite cpu_push_ncli. lia.
Qed.

(** The switch to process [p], whose entry is [pr], and the switch back. *)
Definition dispatched (i p : nat) (pr : proc) (w : world) : world :=
  upd_proc p (set_p_state (fun _ => RUNNING))
    (loaded i pr (upd_cpu i (set_c_proc (fun _ => Some p)) w)).
Definition undispatched (i : nat) (w : world) : world :=
  upd_cpu i (set_c_proc (fun _ => None)) (set_w_cr3 (fun _ => V2P (w_kpgdir w)) w).

Section pass.
Context (i : nat).

Lemma slot_skips w p e pr :
  w_procs w !! p = Some pr -> p_state pr <> RUNNABLE -> sched_slot i p w e = Ret tt w e.
Proof.
  intros Hp Hs. unfold sched_slot. simpl. by rewrite (get_proc_eq _ _ _ _ Hp), is_state_false.
Qed.

Lemma slot_runs w p e pr :
  sched_inv i w -> w_procs w !! p = Some pr -> p_state pr = RUNNABLE ->
  sched_slot i p w e = (swtch >>; kmod (undispatched i)) (dispatched i p pr w) e.
Proof.
  intros ((c & Hon & Hn) & Hif & Hl & Hlen & Hproc) Hp Hs.
  destruct (Hproc p pr Hp Hs) as [Hk Hd].
  unfold sched_slot. simpl. rewrite (get_proc_eq _ _ _ _ Hp). unfold is_state. rewrite Hs. simpl.
  assert (on_cpu (upd_cpu i (set_c_proc (fun _ => Some p)) w) i (set_c_proc (fun _ => Some p) c))
    as H1 by by apply upd_cpu_on.
  rewrite (switchuvm_eq _ i (set_c_proc (fun _ => Some p) c) p pr);
    [|apply cpu_ok_masked; [done|done|simpl; lia]|done|done|done].
  rewrite (settled_id _ i (set_c_proc (fun _ => Some p) c)) by (done || (simpl; lia)).
  by destruct e.
Qed.

Lemma dispatched_running w p pr :
  sched_inv i w -> w_procs w !! p = Some pr -> running i p (dispatched i p pr w).
Proof.
  intros ((c & Hon & Hn) & _) Hp.
  exists (cpu_tss i pr (set_c_proc (fun _ => Some p) c)), (set_p_state (fun _ => RUNNING) pr).
  split_and!; try done.
  - apply (upd_cpu_on (upd_cpu i (set_c_proc (fun _ => Some p)) w)); [|done].
    by apply (upd_cpu_on _ _ c).
  - simpl. by rewrite list_lookup_alter_eq, Hp.
Qed.

Lemma dispatched_inv w p pr :
  sched_inv i w -> w_procs w !! p = Some pr -> sched_inv i (dispatched i p pr w).
Proof.
  intros ((c & Hon & Hn) & Hif & Hl & Hlen & Hproc) Hp. split_and!; try done.
  - exists (cpu_tss i pr (set_c_proc (fun _ => Some p) c)). split; [|done].
    apply (upd_cpu_on (upd_cpu i (set_c_proc (fun _ => Some p)) w)); [|done].
    by apply (upd_cpu_on _ _ c).
  - simpl. by rewrite length_alter.
  - intros q pr'. simpl. destruct (decide (p = q)) as [<-|].
    + rewrite list_lookup_alter_eq, Hp. intros [= <-]. done.
    + rewrite list_lookup_alter_ne by done. apply Hproc.
Qed.

Lemma undispatched_inv w : sched_inv i w -> sched_inv i (undispatched i w).
Proof.
  intros ((c & Hon & Hn) & H). split; [|apply H].
  exists (set_c_proc (fun _ => None) c). split; [|done]. by apply upd_cpu_on.
Qed.

Lemma dispatched_runnable w p q pr :
  p <> q -> runnable q w -> runnable q (dispatched i p pr w).
Proof. intros Hne (x & Hx & Hs). exists x. simpl. by rewrite list_lookup_alter_ne. Qed.

(** Scanning slots [k], ..., [k+m-1] reaches a process that is runnable among them. *)
Lemma slots_reach p m k w e :
  sched_inv i w -> Forall (polite i) e -> (m <= length e)%nat ->
  runnable p w -> (k <= p < k + m)%nat ->
  exists n w1, kfor (seq k m) (sched_slot i) w (take n e) = Off w1 /\ running i p w1.
Proof.
  revert k w e. induction m as [|m IH]; intros k w e Hinv He Hlen Hrun Hp; [lia|].
  assert (exists pr, w_procs w !! k = Some pr) as [pr Hpr].
  { destruct Hrun as (x & Hx & _). apply lookup_lt_is_Some. apply lookup_lt_Some in Hx. lia. }
  simpl. destruct (decide (p_state pr = RUNNABLE)) as [Hs|Hs].
  - destruct (decide (k = p)) as [->|Hne].
    { exists 0%nat, (dispatched i p pr w). rewrite take_0, (slot_runs _ _ _ pr) by done.
      split; [done|]. by apply dispatched_running. }
    destruct e as [|f e]; [simpl in Hlen; lia|]. inversion_clear He as [|? ? Hf He'].
    destruct (Hf (dispatched i k pr w) k) as [Hinv' Hrun'];
      [by apply dispatched_inv|by apply dispatched_running|].
    destruct (IH (S k) (undispatched i (f (dispatched i k pr w))) e) as (n & w1 & E & R);
      [by apply undispatched_inv|done|simpl in Hlen; lia| |lia|].
    { apply (Hrun' p); [done|]. by apply dispatched_runnable. }
    exists (S n), w1. simpl. rewrite (slot_runs _ _ _ pr) by done. done.
  - destruct (IH (S k) w e) as (n & w1 & E & R); [done|done|lia|done| |].
    { assert (k <> p); [|lia]. intros ->. destruct Hrun as (x & Hx & Hxs). congruence. }
    exists n, w1. by rewrite (slot_skips _ _ _ pr).
Qed.
End pass.

(** ** Properties *)


(** The witness's process: slot 2 runs on CPU 0 and holds tickslock. *)
Definition demo_sleeper : world :=
  entered 0 TicksLock (upd_cpu 0 (set_c_proc (fun _ => Some 2%nat)) boot_world).




(** C24. The scheduler does not pass over a runnable process: in one pass over the process table,
    with the processes it runs coming back to it in good order, every process that is RUNNABLE
    when the pass begins is given the CPU, in state RUNNING, with its page table and kernel
    stack loaded. *)
Theorem sched_pass_runs w i c p e :
  on_cpu w i c -> c_ncli c = 0 -> lock_free w PtableLock -> length (w_procs w) = NPROC ->
  (forall q pr, w_procs w !! q = Some pr -> p_state pr = RUNNABLE ->
     p_kstack pr <> 0 /\ p_pgdir pr <> 0) ->
  Forall (polite i) e -> (NPROC <= length e)%nat -> runnable p w ->
  exists n w1, sched_pass i w (take n e) = Off w1 /\ running i p w1.
Proof.
  intros Hon Hn Hl Hlen Hproc He Hle Hrun.
  set (w0 := set_w_if (fun _ => true) w).
  assert (cpu_ok w0 i c) as Hok by (split; [done|simpl; lia]).
  assert ((0 <= p < 0 + NPROC)%nat) as Hp.
  { destruct Hrun as (x & Hx & _). apply lookup_lt_Some in Hx. lia. }
  destruct (slots_reach i p NPROC 0 (entered i PtableLock w0) e) as (n & w1 & E & R);
    [|done|done|done|done|].
  { split_and!; [|done| |done|done].
    - exists (cpu_push true c). split; [by apply (entered_on w0)|]. simpl. lia.
    - apply (entered_held w0). }
  exists n, w1. split; [|done]. unfold sched_pass. cbn -[kfor seq]. fold w0.
  by rewrite (acquire_eq w0 i c), E by done.
Qed.

Lemma sched_pass_runs_witness :
  exists n w1, sched_pass 0
    (upd_proc 7 (fun p => set_p_state (fun _ => RUNNABLE) (set_p_kstack (fun _ => KERNBASE)
       (set_p_pgdir (fun _ => KERNBASE + 4096) p))) boot_world)
    (take n (replicate 64 (set_w_ticks (fun t => t + 1)))) = Off w1 /\ running 0 7 w1.
Proof.
  apply (sched_pass_runs _ 0 boot_cpu 7 (replicate 64 (set_w_ticks (fun t => t + 1)))).
  - split; reflexivity.
  - reflexivity.
  - by eexists.
  - reflexivity.
  - intros q pr Hq Hs.
    destruct (decide (7%nat = q)) as [<-|Hne]; [by vm_compute in Hq; simplify_eq|].
    unfold upd_proc, set_w_procs in Hq. cbn [w_procs] in Hq.
    rewrite list_lookup_alter_ne in Hq by done.
    apply lookup_replicate in Hq as [-> _]. done.
  - apply Forall_replicate. intros w q Hinv Hr. by split.
  - reflexivity.
  - eexists. split; [reflexivity|reflexivity].
Defined.
