(* ===== verification/Vm.v ===== *)
(** * Page tables (vm.c, mmu.h)

    Two-level x86 page tables in memory: [walkpgdir], [mappages], [setupkvm],
    [allocuvm], [deallocuvm], [freevm], [copyuvm], [copyout] and the rest of vm.c
    except [loaduvm] (in Exec.v) and [seginit] (in Sched.v). *)

From Stdlib Require Import ZArith Lia.
From stdpp Require Import base list gmap strings numbers.
From S2P Require Import Prelude Machine Cstring Spinlock Boot Kalloc Cprintf Sched.
Local Open Scope Z_scope.
Local Open Scope kern_scope.

(** ** mmu.h *)

Definition PTXSHIFT : Z := 12.
Definition PDXSHIFT : Z := 22.
Definition PDX (va : Z) : Z := Z.land (Z.shiftr va PDXSHIFT) 0x3FF.
Definition PTX (va : Z) : Z := Z.land (Z.shiftr va PTXSHIFT) 0x3FF.
Definition PGADDR (d t o : Z) : Z :=
  u32 (Z.lor (Z.lor (Z.shiftl d PDXSHIFT) (Z.shiftl t PTXSHIFT)) o).
Definition NPDENTRIES : nat := 1024.
Arguments NPDENTRIES : simpl never.
Definition PTE_P : Z := 0x001.
Definition PTE_W : Z := 0x002.
Definition PTE_U : Z := 0x004.
Definition PTE_ADDR (pte : Z) : Z := Z.land pte (u32 (Z.lnot 0xFFF)).
Definition PTE_FLAGS (pte : Z) : Z := Z.land pte 0xFFF.

(** [pte & PTE_P] and the like as a test. *)
Definition has (pte flag : Z) : bool := negb (Z.land pte flag =? 0).

(** ** vm.c *)

Section vm.
Context `{KernelImage}.

Definition walkpgdir (pgdir va : Z) (alloc : bool) : KM Z :=
  let pde := pgdir + 4 * PDX va in
  v <- kget (fun w => ld w pde);
  if has v PTE_P then kret (P2V (PTE_ADDR v) + 4 * PTX va)
  else if negb alloc then kret 0 else
  pgtab <- kalloc;
  if pgtab =? 0 then kret 0 else
  kmod (set_w_mem (memset pgtab 0 PGSIZE)) >>;
  kmod (st pde (Z.lor (Z.lor (Z.lor (V2P pgtab) PTE_P) PTE_W) PTE_U)) >>;
  kret (pgtab + 4 * PTX va).

(** The loop of mappages; [n] bounds the turns. *)
Fixpoint mappages_loop (n : nat) (pgdir a last pa perm : Z) : KM Z :=
  match n with
  | O => kout
  | S n' =>
    pte <- walkpgdir pgdir a true;
    if pte =? 0 then kret (-1) else
    v <- kget (fun w => ld w pte);
    if has v PTE_P then kpanic "remap" else
    kmod (st pte (Z.lor (Z.lor pa perm) PTE_P)) >>;
    if a =? last then kret 0 else
    mappages_loop n' pgdir (u32 (a + PGSIZE)) last (u32 (pa + PGSIZE)) perm
  end.

Definition mappages (pgdir va size pa perm : Z) : KM Z :=
  let a := PGROUNDDOWN va in
  let last := PGROUNDDOWN (u32 (va + size - 1)) in
  mappages_loop (Z.to_nat (u32 (last - a) / PGSIZE) + 1) pgdir a last pa perm.

(** [for(; a < oldsz; a += PGSIZE) ...] of deallocuvm, with the jump over an absent
    page table; [n] bounds the turns. *)
Fixpoint deallocuvm_loop (n : nat) (pgdir a oldsz : Z) : KM unit :=
  match n with
  | O => kout
  | S n' =>
    if a <? oldsz then
      pte <- walkpgdir pgdir a false;
      a <- (if pte =? 0 then kret (u32 (PGADDR (PDX a + 1) 0 0 - PGSIZE)) else
            v <- kget (fun w => ld w pte);
            if has v PTE_P then
              let pa := PTE_ADDR v in
              if pa =? 0 then kpanic "kfree" else
              kfree (P2V pa) >>; kmod (st pte 0) >>; kret a
            else kret a);
      deallocuvm_loop n' pgdir (u32 (a + PGSIZE)) oldsz
    else kret tt
  end.

Definition deallocuvm (pgdir oldsz newsz : Z) : KM Z :=
  if newsz >=? oldsz then kret oldsz else
  deallocuvm_loop (Z.to_nat (oldsz / PGSIZE) + 2) pgdir (PGROUNDUP newsz) oldsz >>;
  kret newsz.

Definition freevm (pgdir : Z) : KM unit :=
  if pgdir =? 0 then kpanic "freevm: no pgdir" else
  deallocuvm pgdir KERNBASE 0 >>;
  kfor (seq 0 NPDENTRIES) (fun i =>
    v <- kget (fun w => ld w (pgdir + 4 * Z.of_nat i));
    kwhen (has v PTE_P) (kfree (P2V (PTE_ADDR v)))) >>;
  kfree pgdir.

(** [kmap[]]: virt, phys_start, phys_end, perm *)
Definition kmap : list (Z * Z * Z * Z) :=
  [ (KERNBASE, 0, EXTMEM, PTE_W);
    (KERNLINK, V2P KERNLINK, V2P k_data, 0);
    (k_data, V2P k_data, PHYSTOP, PTE_W);
    (DEVSPACE, DEVSPACE, 0, PTE_W) ].

(** The loop over [kmap]: true when every range was mapped. *)
Fixpoint kmap_loop (ks : list (Z * Z * Z * Z)) (pgdir : Z) : KM bool :=
  match ks with
  | [] => kret true
  | (virt, phys_start, phys_end, perm) :: ks' =>
    r <- mappages pgdir virt (u32 (phys_end - phys_start)) phys_start perm;
    if r <? 0 then kret false else kmap_loop ks' pgdir
  end.

Definition setupkvm : KM Z :=
  pgdir <- kalloc;
  if pgdir =? 0 then kret 0 else
  kmod (set_w_mem (memset pgdir 0 PGSIZE)) >>;
  if P2V PHYSTOP >? DEVSPACE then kpanic "PHYSTOP too high" else
  ok <- kmap_loop kmap pgdir;
  if (ok : bool) then kret pgdir else freevm pgdir >>; kret 0.

Definition kvmalloc : KM unit :=
  k <- setupkvm;
  kmod (set_w_kpgdir (fun _ => k)) >>;
  switchkvm.

(** Copy of a kernel byte sequence into memory. *)
Fixpoint put_bytes (a : Z) (bs : list Z) (m : memory) : memory :=
  match bs with [] => m | b :: bs' => put_bytes (a + 1) bs' (stb a b m) end.

Definition inituvm (pgdir : Z) (init : list Z) : KM unit :=
  let sz := Z.of_nat (length init) in
  if sz >=? PGSIZE then kpanic "inituvm: more than a page" else
  mem <- kalloc;
  kmod (set_w_mem (memset mem 0 PGSIZE)) >>;
  mappages pgdir 0 PGSIZE (V2P mem) (Z.lor PTE_W PTE_U) >>;
  kmod (set_w_mem (put_bytes mem init)).

(** [for(; a < newsz; a += PGSIZE) ...] of allocuvm; [n] bounds the turns. *)
Fixpoint allocuvm_loop (n : nat) (pgdir a oldsz newsz : Z) : KM Z :=
  match n with
  | O => kout
  | S n' =>
    if a <? newsz then
      mem <- kalloc;
      if mem =? 0 then
        printkn "allocuvm out of memory" [] >>;
        deallocuvm pgdir newsz oldsz >>; kret 0
      else
      kmod (set_w_mem (memset mem 0 PGSIZE)) >>;
      r <- mappages pgdir a PGSIZE (V2P mem) (Z.lor PTE_W PTE_U);
      if r <? 0 then
        printkn "allocuvm out of memory (2)" [] >>;
        deallocuvm pgdir newsz oldsz >>; kfree mem >>; kret 0
      else allocuvm_loop n' pgdir (u32 (a + PGSIZE)) oldsz newsz
    else kret newsz
  end.

Definition allocuvm (pgdir oldsz newsz : Z) : KM Z :=
  if newsz >=? KERNBASE then kret 0 else
  if newsz <? oldsz then kret oldsz else
  allocuvm_loop (Z.to_nat (newsz / PGSIZE) + 2) pgdir (PGROUNDUP oldsz) oldsz newsz.

Definition clearpteu (pgdir uva : Z) : KM unit :=
  pte <- walkpgdir pgdir uva false;
  if pte =? 0 then kpanic "clearpteu" else
  kmod (fun w => st pte (Z.land (ld w pte) (u32 (Z.lnot PTE_U))) w).

(** The loop of copyuvm: true when every page was copied, false at [goto bad]. *)
Fixpoint copyuvm_loop (n : nat) (pgdir d i sz : Z) : KM bool :=
  match n with
  | O => kout
  | S n' =>
    if i <? sz then
      pte <- walkpgdir pgdir i false;
      if pte =? 0 then kpanic "copyuvm: pte should exist" else
      v <- kget (fun w => ld w pte);
      if negb (has v PTE_P) then kpanic "copyuvm: page not present" else
      let pa := PTE_ADDR v in
      let flags := PTE_FLAGS v in
      mem <- kalloc;
      if mem =? 0 then kret false else
      kmod (set_w_mem (memmove mem (P2V pa) PGSIZE)) >>;
      r <- mappages d i PGSIZE (V2P mem) flags;
      if r <? 0 then kfree mem >>; kret false
      else copyuvm_loop n' pgdir d (u32 (i + PGSIZE)) sz
    else kret true
  end.

Definition copyuvm (pgdir sz : Z) : KM Z :=
  d <- setupkvm;
  if d =? 0 then kret 0 else
  ok <- copyuvm_loop (Z.to_nat (sz / PGSIZE) + 2) pgdir d 0 sz;
  if (ok : bool) then kret d else freevm d >>; kret 0.

(** [*pte] is read without a test for a null [pte]. *)
Definition uva2ka (pgdir uva : Z) : KM Z :=
  pte <- walkpgdir pgdir uva false;
  pte <- kderef (if pte =? 0 then None else Some pte);
  v <- kget (fun w => ld w pte);
  if negb (has v PTE_P) then kret 0 else
  if negb (has v PTE_U) then kret 0 else
  kret (P2V (PTE_ADDR v)).

(** The loop of copyout, [buf] being the bytes left to copy; [k] bounds the turns. *)
Fixpoint copyout_loop (k : nat) (pgdir va : Z) (buf : list Z) : KM Z :=
  match k with
  | O => kout
  | S k' =>
    match buf with
    | [] => kret 0
    | _ =>
      let va0 := PGROUNDDOWN va in
      pa0 <- uva2ka pgdir va0;
      if pa0 =? 0 then kret (-1) else
      let len := Z.of_nat (length buf) in
      let n := PGSIZE - (va - va0) in
      let n := if n >? len then len else n in
      kmod (set_w_mem (put_bytes (pa0 + (va - va0)) (take (Z.to_nat n) buf))) >>;
      copyout_loop k' pgdir (u32 (va0 + PGSIZE)) (drop (Z.to_nat n) buf)
    end
  end.

Definition copyout (pgdir va : Z) (buf : list Z) : KM Z :=
  copyout_loop (length buf + 1) pgdir va buf.
End vm.
