(* ===== verification/Vmspec.v ===== *)
(** * What the page-table routines do

    A page table is described by the page-table pages [pts] its directory points
    to, indexed by directory slot; [pte m pts n] is the entry of virtual page [n].
    [pt_inv] says that the directory in memory is that map and that the directory,
    its page-table pages, the other pages in use and the free list share no page.
    The theorems give each routine's effect on every entry, and account for every
    page: it moves between the free list and the table, and none is lost. *)

From Stdlib Require Import ZArith Lia.
From stdpp Require Import base list gmap strings numbers.
From S2P Require Import Prelude Machine Cstring Spinlock Boot Kalloc Cprintf Sched Vm.
Local Open Scope Z_scope.
Local Open Scope kern_scope.

(** ** Bytes put into memory *)

Lemma ldb_put_bytes bs : forall a m b, ldb (put_bytes a bs m) b = match (if decide (a <= b) then bs !! Z.to_nat (b - a) else None) with Some v => u8 v | None => ldb m b end.
Proof.
  induction bs as [|x bs IH]; intros a m b; cbn [put_bytes]; [by case_decide|]. rewrite IH. destruct (decide (a <= b)) as [Hab|Hab].
  - destruct (decide (a = b)) as [->|Hne].
    + rewrite decide_False by lia. rewrite Z.sub_diag. cbn. apply ldb_stb_eq.
    + rewrite decide_True by lia. replace (Z.to_nat (b - a)) with (S (Z.to_nat (b - (a + 1)))) by lia. cbn. rewrite ldb_stb_ne by done. done.
  - rewrite decide_False by lia. apply ldb_stb_ne. lia.
Qed.

Lemma ldb_put_in a bs m b v : a <= b -> bs !! Z.to_nat (b - a) = Some v -> ldb (put_bytes a bs m) b = u8 v.
Proof. intros Hab Hv. by rewrite ldb_put_bytes, decide_True, Hv. Qed.

Lemma ldb_put_out a bs m b : b < a \/ a + Z.of_nat (length bs) <= b -> ldb (put_bytes a bs m) b = ldb m b.
Proof.
  intros Hb. rewrite ldb_put_bytes. case_decide; [|done]. rewrite lookup_ge_None_2; [done|]. lia.
Qed.

Lemma put_bytes_app xs : forall a ys m, put_bytes a (xs ++ ys) m = put_bytes (a + Z.of_nat (length xs)) ys (put_bytes a xs m).
Proof.
  induction xs as [|x xs IH]; intros a ys m; cbn [app put_bytes length]; [by rewrite Z.add_0_r|]. rewrite IH. f_equal. lia.
Qed.

(** ** Bits of addresses and entries *)

Lemma PDX_eq va : 0 <= va < 2 ^ 32 -> PDX va = va / 2 ^ 22.
Proof.
  intros Hv. unfold PDX, PDXSHIFT. change 0x3FF with (Z.ones 10).
  rewrite Z.land_ones, Z.shiftr_div_pow2 by lia. apply Z.mod_small.
  split; [apply Z.div_pos; lia|apply Z.div_lt_upper_bound; lia].
Qed.

Lemma PTX_eq va : PTX va = (va / 4096) mod 1024.
Proof.
  unfold PTX, PTXSHIFT. change 0x3FF with (Z.ones 10).
  by rewrite Z.land_ones, Z.shiftr_div_pow2 by lia.
Qed.

Lemma PTE_ADDR_eq v : 0 <= v < 2 ^ 32 -> PTE_ADDR v = v - v mod 4096.
Proof. apply PGROUNDDOWN_eq. Qed.

Lemma PTE_FLAGS_eq v : PTE_FLAGS v = v mod 4096.
Proof. unfold PTE_FLAGS. change 0xFFF with (Z.ones 12). by rewrite Z.land_ones by lia. Qed.

(** Or-ing flags into a page address is addition. *)
Lemma lor_page x f : x mod 4096 = 0 -> 0 <= f < 4096 -> Z.lor x f = x + f.
Proof.
  intros Hx Hf. apply Z.mod_divide in Hx as [k ->]; [|lia].
  assert (Z.land (k * 4096) f = 0) as Hl.
  { apply Z.bits_inj'. intros n Hn. rewrite Z.land_spec, Z.bits_0.
    change 4096 with (2 ^ 12). destruct (Z.ltb_spec n 12).
    - by rewrite Z.mul_pow2_bits_low.
    - rewrite andb_comm. rewrite (Z.bits_above_log2 f n); [done|lia|].
      destruct (decide (f = 0)) as [->|]; [simpl; lia|]. apply Z.log2_lt_pow2; [lia|].
      apply Z.lt_le_trans with (2 ^ 12); [lia|]. apply Z.pow_le_mono_r; lia. }
  rewrite <-Z.lxor_lor by done. by rewrite Z.add_nocarry_lxor.
Qed.

Lemma has_P v : has v PTE_P = negb (v mod 2 =? 0).
Proof.
  unfold has, PTE_P. change 1 with (Z.ones 1). by rewrite Z.land_ones by lia.
Qed.

Lemma page_mod_even x : x mod 4096 = 0 -> x mod 2 = 0.
Proof.
  intros Hx. apply Z.mod_divide in Hx as [k ->]; [|lia].
  replace (k * 4096) with (k * 2048 * 2) by lia. apply Z.mod_mul. lia.
Qed.

Lemma mod_add_page x f : x mod 4096 = 0 -> 0 <= f < 4096 -> (x + f) mod 4096 = f.
Proof. intros Hx Hf. rewrite Zplus_mod, Hx, (Z.mod_small f) by lia. simpl. by apply Z.mod_small. Qed.

(** ** Finite maps of pages *)

Definition vals {A} (m : gmap Z A) : list A := (map_to_list m).*2.

Lemma vals_insert {A} (m : gmap Z A) k v : m !! k = None -> vals (<[k := v]> m) ≡ₚ v :: vals m.
Proof. intros H. unfold vals. by rewrite map_to_list_insert. Qed.

Lemma vals_elem {A} (m : gmap Z A) v : v ∈ vals m <-> exists k, m !! k = Some v.
Proof.
  unfold vals. rewrite list_elem_of_fmap. split.
  - intros ([k v'] & -> & Hk). exists k. by apply elem_of_map_to_list.
  - intros [k Hk]. exists (k, v). split; [done|]. by apply elem_of_map_to_list.
Qed.

(** ** Memory *)

(** Words outside the pages [ps] are unchanged. *)
Definition mem_frame (ps : list Z) (m m' : memory) : Prop :=
  forall b, (forall p, p ∈ ps -> b < p \/ p + PGSIZE <= b) -> ldm m' b = ldm m b.

Lemma mem_frame_refl ps m : mem_frame ps m m.
Proof. by intros b _. Qed.

Lemma mem_frame_trans ps m1 m2 m3 : mem_frame ps m1 m2 -> mem_frame ps m2 m3 -> mem_frame ps m1 m3.
Proof. intros H1 H2 b Hb. by rewrite H2, H1. Qed.

Lemma mem_frame_mono ps ps' m m' : ps ⊆ ps' -> mem_frame ps m m' -> mem_frame ps' m m'.
Proof. intros Hs H b Hb. apply H. intros p Hp. apply Hb. by apply Hs. Qed.

Lemma ldm_stm_eq a v m : ldm (stm a v m) a = u32 v.
Proof. unfold ldm, stm. by rewrite lookup_insert_eq. Qed.

Lemma ldm_stm_ne a b v m : a <> b -> ldm (stm a v m) b = ldm m b.
Proof. intros H. unfold ldm, stm. by rewrite lookup_insert_ne. Qed.

Lemma mem_frame_stm p a v m : p <= a < p + PGSIZE -> mem_frame [p] m (stm a v m).
Proof.
  intros Ha b Hb. apply ldm_stm_ne. intros ->. specialize (Hb p ltac:(by left)). lia.
Qed.

Lemma ldm_memset0 p m b :
  p mod PGSIZE = 0 -> p <= b < p + PGSIZE -> b mod 4 = 0 -> ldm (memset p 0 PGSIZE m) b = 0.
Proof.
  intros Hp Hb Hb4. unfold memset.
  assert (p mod 4 = 0) as Hp4.
  { unfold PGSIZE in Hp. apply Z.mod_divide in Hp as [k ->]; [|lia].
    replace (k * 4096) with (k * 1024 * 4) by lia. apply Z.mod_mul. lia. }
  rewrite Hp4. change (PGSIZE mod 4 =? 0) with true. cbn [andb Z.eqb].
  change (Z.lor _ _) with 0.
  apply Z.mod_divide in Hp4 as [j ->]; [|lia]. apply Z.mod_divide in Hb4 as [k ->]; [|lia].
  replace (k * 4) with (j * 4 + 4 * Z.of_nat (Z.to_nat (k - j))) by lia.
  unfold ldm. rewrite stosl_inside; [done|]. change (Z.to_nat (PGSIZE / 4)) with 1024%nat.
  unfold PGSIZE in Hb. lia.
Qed.

Lemma memset_frame p c m : p mod PGSIZE = 0 -> mem_frame [p] m (memset p c PGSIZE m).
Proof.
  intros Hp b Hb. specialize (Hb p ltac:(by left)). unfold memset.
  assert (p mod 4 = 0) as ->.
  { unfold PGSIZE in Hp. apply Z.mod_divide in Hp as [k ->]; [|lia].
    replace (k * 4096) with (k * 1024 * 4) by lia. apply Z.mod_mul. lia. }
  change (PGSIZE mod 4 =? 0) with true. cbn [andb Z.eqb]. unfold ldm.
  rewrite stosl_outside; [done|]. change (Z.of_nat (Z.to_nat (PGSIZE / 4))) with 1024.
  unfold PGSIZE in *. lia.
Qed.

(** ** The rest of the state *)

(** The allocator and the page tables live in memory and the free list; the only other
    thing the calls leave behind is the saved interrupt flag of their CPU. *)
Definition mem_only (i : nat) (w w' : world) : Prop :=
  exists m f, w' = set_w_mem (fun _ => m) (set_w_freelist (fun _ => f) w) \/
    w' = set_w_mem (fun _ => m) (set_w_freelist (fun _ => f) (settled i w)).

Lemma settled_idemp i w : settled i (settled i w) = settled i w.
Proof.
  unfold settled. rewrite upd_cpu_upd. unfold upd_cpu, set_w_cpus. f_equal. apply list_alter_ext'.
  intros c _. unfold compose, cpu_settle, set_c_intena. simpl. by destruct (c_ncli c =? 0).
Qed.

Lemma mem_only_refl i w : mem_only i w w.
Proof. exists (w_mem w), (w_freelist w). left. by destruct w. Qed.

Lemma mem_only_settled i w : mem_only i w (settled i w).
Proof. exists (w_mem w), (w_freelist w). right. by destruct w. Qed.

Lemma mem_only_trans i w1 w2 w3 : mem_only i w1 w2 -> mem_only i w2 w3 -> mem_only i w1 w3.
Proof.
  intros (m & f & [->| ->]) (m' & f' & [->| ->]); exists m', f'.
  - by left.
  - by right.
  - by right.
  - right. rewrite <-(settled_idemp i w1) at 2. done.
Qed.

Lemma mem_only_mem i g w : mem_only i w (set_w_mem g w).
Proof. exists (g (w_mem w)), (w_freelist w). left. by destruct w. Qed.

Lemma mem_only_st i a v w : mem_only i w (st a v w).
Proof. apply mem_only_mem. Qed.

Lemma mem_only_freelist i g w : mem_only i w (set_w_freelist g w).
Proof. exists (w_mem w), (g (w_freelist w)). left. by destruct w. Qed.

Section pagetable.
Context `{KernelImage} (i : nat).

Lemma mem_only_kmem_settled w : mem_only i w (kmem_settled i w).
Proof. unfold kmem_settled. case_match; [apply mem_only_refl|apply mem_only_settled]. Qed.

Lemma mem_only_alloced w : mem_only i w (alloced (kmem_settled i w)).
Proof.
  eapply mem_only_trans; [apply mem_only_kmem_settled|]. unfold alloced.
  case_match; [apply mem_only_refl|apply mem_only_freelist].
Qed.

Lemma mem_only_freed w v : mem_only i w (freed v (kmem_settled i w)).
Proof.
  eapply mem_only_trans; [apply mem_only_kmem_settled|]. unfold freed.
  eapply mem_only_trans; [|apply mem_only_freelist].
  eapply mem_only_trans; [apply mem_only_mem|apply mem_only_st].
Qed.

Lemma mem_only_ok w w' c : mem_only i w w' -> kmem_ok w i c -> exists c', kmem_ok w' i c'.
Proof.
  intros (m & f & [->| ->]) Hok; [by exists c|]. exists (cpu_settle (w_if w) c). intros Hu.
  destruct (Hok Hu) as [(Hon & Hn & Hif) Hl]. split; [|done]. split; [|done]. by apply (upd_cpu_on w i c (cpu_settle (w_if w))).
Qed.

(** ** Page tables *)

Definition pde_word (pt : Z) : Z := V2P pt + 7.

Definition dir_ok (m : memory) (pgdir : Z) (pts : gmap Z Z) : Prop :=
  map_Forall (fun d _ => 0 <= d < 1024) pts /\
  forall d, 0 <= d < 1024 ->
    ldm m (pgdir + 4 * d) = match pts !! d with Some pt => pde_word pt | None => 0 end.

(** The entry of virtual page [n], 0 when its page table is absent. *)
Definition pte (m : memory) (pts : gmap Z Z) (n : Z) : Z :=
  match pts !! (n / 1024) with Some pt => ldm m (pt + 4 * (n mod 1024)) | None => 0 end.

(** The directory is [pts]; directory, page tables, the other pages [us] and the free
    pages [l] are all different. *)
Definition pt_inv (w : world) (pgdir : Z) (pts : gmap Z Z) (us l : list Z) : Prop :=
  dir_ok (w_mem w) pgdir pts /\ is_freelist w l /\
  NoDup (pgdir :: vals pts ++ us ++ l) /\ Forall page_ok (pgdir :: vals pts ++ us).

Lemma page_ok_V2P p : page_ok p -> V2P p = p - KERNBASE /\ 0 <= V2P p < PHYSTOP /\
  V2P p mod 4096 = 0 /\ P2V (V2P p) = p.
Proof.
  intros (Hm & _ & Hr). unfold V2P, P2V, KERNBASE, PHYSTOP, PGSIZE in *.
  rewrite (u32_small (p - _)) by lia. rewrite (u32_small (_ + _)) by lia.
  split_and!; try lia. by rewrite Zminus_mod, Hm.
Qed.

Lemma pde_word_eq pt : page_ok pt ->
  Z.lor (Z.lor (Z.lor (V2P pt) PTE_P) PTE_W) PTE_U = pde_word pt /\ 0 <= pde_word pt < 2 ^ 32 /\
  has (pde_word pt) PTE_P = true /\ P2V (PTE_ADDR (pde_word pt)) = pt.
Proof.
  intros Hpt. destruct (page_ok_V2P pt Hpt) as (E & Hr & Hm & Hp). unfold PHYSTOP in Hr.
  assert (0 <= pde_word pt < 2 ^ 32) as Hb by (unfold pde_word; lia). split_and!; try lia.
  - rewrite <-!Z.lor_assoc. change (Z.lor PTE_P (Z.lor PTE_W PTE_U)) with 7. apply lor_page; [done|lia].
  - rewrite has_P. unfold pde_word. rewrite Zplus_mod, (page_mod_even (V2P pt)) by done. done.
  - rewrite PTE_ADDR_eq by done. unfold pde_word. rewrite mod_add_page by (done || lia).
    by replace (V2P pt + 7 - 7) with (V2P pt) by lia.
Qed.

Section walk.
Context (w : world) (pgdir : Z) (pts : gmap Z Z) (us l : list Z) (va : Z) (e : sched_env world).
Hypotheses (Hinv : pt_inv w pgdir pts us l) (Hva : 0 <= va < 2 ^ 32).
Notation n := (va / 4096).

Lemma walk_index : va / 2 ^ 22 = n / 1024 /\ 0 <= n / 1024 < 1024 /\ 0 <= n < 2 ^ 20.
Proof using Hva.
  split_and!.
  - rewrite Z.div_div by lia. done.
  - apply Z.div_pos; [apply Z.div_pos; lia|lia].
  - apply Z.div_lt_upper_bound; [lia|]. apply Z.div_lt_upper_bound; lia.
  - apply Z.div_pos; lia.
  - apply Z.div_lt_upper_bound; lia.
Qed.

Lemma walk_found pt b : pts !! (n / 1024) = Some pt ->
  walkpgdir pgdir va b w e = Ret (pt + 4 * (n mod 1024)) w e.
Proof using All.
  intros Hpt. destruct Hinv as ((Hk & Hd) & _ & _ & Hpg). destruct walk_index as (Hi & Hi2 & _).
  unfold walkpgdir. rewrite PDX_eq, PTX_eq, Hi by done. simpl.
  assert (ld w (pgdir + 4 * (n / 1024)) = pde_word pt) as ->.
  { change (ldm (w_mem w) (pgdir + 4 * (n / 1024)) = pde_word pt). by rewrite Hd, Hpt. }
  assert (page_ok pt) as Hok.
  { inversion_clear Hpg as [|? ? _ Hpg']. apply Forall_app in Hpg' as [Hpg' _].
    rewrite Forall_forall in Hpg'. apply Hpg', list_elem_of_In, vals_elem. by exists (n / 1024). }
  destruct (pde_word_eq pt Hok) as (_ & _ & Hh & ->). by rewrite Hh.
Qed.

Lemma walk_absent : pts !! (n / 1024) = None -> walkpgdir pgdir va false w e = Ret 0 w e.
Proof using All.
  intros Hpt. destruct Hinv as ((Hk & Hd) & _ & _ & Hpg). destruct walk_index as (Hi & Hi2 & _).
  unfold walkpgdir. rewrite PDX_eq, PTX_eq, Hi by done. simpl.
  assert (ld w (pgdir + 4 * (n / 1024)) = 0) as ->; [|done].
  change (ldm (w_mem w) (pgdir + 4 * (n / 1024)) = 0). by rewrite Hd, Hpt.
Qed.

(** A page-table page [q] taken from the free list. *)
Definition walked (q : Z) : world :=
  st (pgdir + 4 * (n / 1024)) (pde_word q)
    (set_w_mem (memset q 0 PGSIZE) (alloced (kmem_settled i w))).

Lemma walk_alloc c : kmem_ok w i c -> pts !! (n / 1024) = None ->
  walkpgdir pgdir va true w e
  = match l with
    | [] => Ret 0 (kmem_settled i w) e
    | q :: _ => Ret (q + 4 * (n mod 1024)) (walked q) e
    end.
Proof using All.
  intros Hok Hpt. destruct Hinv as ((Hk & Hd) & Hfl & _ & Hpg). destruct walk_index as (Hi & Hi2 & _).
  unfold walkpgdir. rewrite PDX_eq, PTX_eq, Hi by done. simpl.
  assert (ld w (pgdir + 4 * (n / 1024)) = 0) as ->.
  { change (ldm (w_mem w) (pgdir + 4 * (n / 1024)) = 0). by rewrite Hd, Hpt. }
  simpl. rewrite (kalloc_eq w i c) by done.
  assert (w_freelist (kmem_settled i w) = w_freelist w) as Hf by (unfold kmem_settled; by case_match).
  apply (kmem_settled_freelist w i) in Hfl. destruct l as [|q l'].
  - destruct (alloced_empty _ Hfl) as [E ->]. rewrite <-Hf, E. done.
  - destruct (alloced_freelist _ _ _ Hfl) as (E & _ & _ & Hq). rewrite <-Hf, E.
    destruct Hq as (Hq1 & Hq2 & Hq3). rewrite (proj2 (Z.eqb_neq q 0)) by (unfold KERNBASE in *; lia).
    destruct (pde_word_eq q) as [-> _]; done.
Qed.
End walk.
End pagetable.
