(* ===== verification/Aspace.v ===== *)
(** * Address spaces (vm.c)

    What mappages, allocuvm, deallocuvm, freevm, setupkvm and copyuvm do to a page table and to the
    memory of its process, on every path.  An address space has the page-table pages [pts] and the
    user pages [um], which gives for a virtual page number the page it is mapped to and the flags.
    Every page of the machine is in the directory, in [pts], in [um], free or in use elsewhere;
    each routine moves pages between these and loses none. *)

From Stdlib Require Import ZArith Lia.
From stdpp Require Import base list gmap strings numbers.
From S2P Require Import Prelude Machine Cstring Spinlock Boot Kalloc Cprintf Sched Vm Vmspec.
From stdpp Require Import list.
Local Open Scope Z_scope.
Local Open Scope kern_scope.

(** ** Pages and entries *)

(** The pages with no address of the page in common are apart. *)
Lemma mem_frame_page ps m m' p b : mem_frame ps m m' -> Forall (fun q => q mod PGSIZE = 0) ps -> p mod PGSIZE = 0 -> p ∉ ps ->
  p <= b < p + PGSIZE -> ldm m' b = ldm m b.
Proof.
  intros Hf Hps Hp Hin Hb. apply Hf. intros q Hq. rewrite Forall_forall in Hps. assert (p <> q) as Hne by (by intros ->).
  pose proof (page_apart p q Hp (Hps q Hq) Hne). pose proof (page_apart q p (Hps q Hq) Hp ltac:(congruence)). lia.
Qed.

Lemma mem_frame_perm ps ps' m m' : ps ≡ₚ ps' -> mem_frame ps m m' -> mem_frame ps' m m'.
Proof. intros Hp. apply mem_frame_mono. intros x. by rewrite Hp. Qed.

Lemma mem_frame_two p q m m1 m2 : mem_frame [q] m m1 -> mem_frame [p] m1 m2 -> mem_frame [p; q] m m2.
Proof. intros H1 H2. apply (mem_frame_trans _ _ m1); (eapply mem_frame_mono; [|done]); set_solver. Qed.

Lemma slot_in pt n : pt <= pt + 4 * (n mod 1024) < pt + PGSIZE.
Proof. pose proof (Z.mod_pos_bound n 1024 ltac:(lia)). unfold PGSIZE. lia. Qed.

Lemma page_4 p : p mod PGSIZE = 0 -> p mod 4 = 0.
Proof. unfold PGSIZE. intros Hp. apply Z.mod_divide in Hp as [k ->]; [|lia]. replace (k * 4096) with (k * 1024 * 4) by lia. apply Z.mod_mul. lia. Qed.

Lemma slot_4 pt n : pt mod PGSIZE = 0 -> (pt + 4 * (n mod 1024)) mod 4 = 0.
Proof. intros Hp. apply page_4 in Hp. rewrite Zplus_mod, Hp, Z.mul_comm, Z_mod_mult. done. Qed.

Section aspace.
Context `{KernelImage} (i : nat).
Implicit Types (w : world) (pts : gmap Z Z) (us l : list Z) (n : Z).

Lemma page_ok_mod p : page_ok p -> p mod PGSIZE = 0.
Proof. by intros (? & _). Qed.
Lemma page_ok_all ps : Forall page_ok ps -> Forall (fun q => q mod PGSIZE = 0) ps.
Proof. intros Hp. eapply Forall_impl; [done|]. apply page_ok_mod. Qed.

(** The pages of a page table and the free ones. *)
Definition table_pages (pgdir : Z) pts l : list Z := pgdir :: vals pts ++ l.

(** What a step on the page table does besides its entries: pages go from the free list to the
    table, and only these pages and the directory are written. *)
Record moved (pgdir : Z) w pts l w' pts' l' : Prop := mkMoved {
  mv_only : mem_only i w w';
  mv_pages : vals pts' ++ l' ≡ₚ vals pts ++ l;
  mv_frame : mem_frame (table_pages pgdir pts l) (w_mem w) (w_mem w')
}.

Lemma moved_trans pgdir w1 pts1 l1 w2 pts2 l2 w3 pts3 l3 :
  moved pgdir w1 pts1 l1 w2 pts2 l2 -> moved pgdir w2 pts2 l2 w3 pts3 l3 -> moved pgdir w1 pts1 l1 w3 pts3 l3.
Proof.
  intros [A1 A2 A3] [B1 B2 B3]. split; [by eapply mem_only_trans|by rewrite B2|].
  eapply mem_frame_trans; [done|]. eapply mem_frame_perm; [|done]. unfold table_pages. by rewrite A2.
Qed.

Lemma moved_refl pgdir w pts l w' : mem_only i w w' -> w_mem w' = w_mem w -> moved pgdir w pts l w' pts l.
Proof. intros Ho Hm. split; [done|done|]. rewrite Hm. apply mem_frame_refl. Qed.

Lemma kmem_settled_mem w : w_mem (kmem_settled i w) = w_mem w.
Proof. unfold kmem_settled. by case_match. Qed.
Lemma alloced_mem w : w_mem (alloced w) = w_mem w.
Proof. unfold alloced. by case_match. Qed.

(** The free list after pages outside it were written. *)
Lemma freelist_frame w w' l ps : is_freelist w l -> w_freelist w' = w_freelist w -> mem_frame ps (w_mem w) (w_mem w') ->
  Forall (fun q => q mod PGSIZE = 0) ps -> (forall p, p ∈ ps -> p ∉ l) -> is_freelist w' l.
Proof.
  intros [Hc Hnd] Hf Hm Hps Hd. split; [|done]. rewrite Hf. eapply chain_ext; [|done]. intros q Hq.
  assert (page_ok q) as Hok by by eapply chain_pages. eapply mem_frame_page; [done..|by apply page_ok_mod| |].
  - intros Hin. by eapply Hd.
  - unfold PGSIZE. lia.
Qed.

(** *** Looking at [pt_inv] *)

Lemma pt_inv_page w pgdir pts us l n pt : pt_inv w pgdir pts us l -> pts !! n = Some pt -> page_ok pt /\ pt <> pgdir /\ pt ∉ us /\ pt ∉ l.
Proof.
  intros (_ & _ & Hnd & Hok) Hpt. assert (pt ∈ vals pts) as Hin by (apply vals_elem; by exists n).
  apply NoDup_cons in Hnd as [Hp Hnd]. apply NoDup_app in Hnd as (_ & Hd & _). apply Forall_cons in Hok as [_ Hok]. apply Forall_app in Hok as [Hok _].
  rewrite Forall_forall in Hok. specialize (Hd pt Hin). set_solver.
Qed.

Lemma used_not_table w pgdir pts us l p : pt_inv w pgdir pts us l -> p ∈ us -> page_ok p /\ p ∉ table_pages pgdir pts l.
Proof.
  intros (_ & _ & Hnd & Hok) Hp. apply NoDup_cons in Hnd as [Hn1 Hnd]. apply NoDup_app in Hnd as (_ & Hn2 & Hn3). apply NoDup_app in Hn3 as (_ & Hn3 & _). split.
  - rewrite Forall_forall in Hok. apply Hok. right. apply elem_of_app. by right.
  - unfold table_pages. rewrite elem_of_cons, elem_of_app. intros [->|[Hv|Hl]].
    + apply Hn1. rewrite !elem_of_app. auto.
    + apply (Hn2 p Hv). rewrite elem_of_app. auto.
    + by apply (Hn3 p Hp).
Qed.

Lemma table_pages_ok w pgdir pts us l : pt_inv w pgdir pts us l -> Forall (fun q => q mod PGSIZE = 0) (table_pages pgdir pts l).
Proof.
  intros (_ & [Hch _] & _ & Hpg). apply page_ok_all. unfold table_pages. rewrite !Forall_cons, !Forall_app in *. split_and!; [tauto|tauto|].
  apply Forall_forall. intros x Hx. by eapply chain_pages.
Qed.

Lemma vals_inj pts j k p : NoDup (vals pts) -> pts !! j = Some p -> pts !! k = Some p -> j = k.
Proof.
  intros Hnd Hj Hk. destruct (decide (j = k)) as [|Hne]; [done|]. exfalso. assert (delete j pts !! k = Some p) as Hk' by by rewrite lookup_delete_ne.
  rewrite <-(insert_delete_id pts j p Hj) in Hnd. rewrite vals_insert in Hnd by apply lookup_delete_eq. apply NoDup_cons in Hnd as [Hnin _].
  apply Hnin. apply vals_elem. by exists k.
Qed.

Lemma pt_inv_inj w pgdir pts us l j k p : pt_inv w pgdir pts us l -> pts !! j = Some p -> pts !! k = Some p -> j = k.
Proof. intros (_ & _ & Hnd & _). apply vals_inj. apply NoDup_cons in Hnd as [_ Hnd]. by apply NoDup_app in Hnd as (? & _). Qed.

(** A write to a page of the table other than the directory: the invariant stays. *)
Lemma pt_inv_entry w pgdir pts us l n pt v : pt_inv w pgdir pts us l -> 0 <= n -> pts !! (n / 1024) = Some pt ->
  let w' := st (pt + 4 * (n mod 1024)) v w in
  pt_inv w' pgdir pts us l /\ moved pgdir w pts l w' pts l /\ pte (w_mem w') pts n = u32 v /\
  (forall n', 0 <= n' -> n' <> n -> pte (w_mem w') pts n' = pte (w_mem w) pts n').
Proof.
  intros Hinv Hn Hpt w'. destruct (pt_inv_page _ _ _ _ _ _ _ Hinv Hpt) as (Hok & Hnp & Hus & Hl). pose proof Hinv as ([Hk Hd] & Hfl & Hnd & Hpg).
  assert (mem_frame [pt] (w_mem w) (w_mem w')) as Hf by apply mem_frame_stm, slot_in.
  assert (Forall (fun q => q mod PGSIZE = 0) [pt]) as Hpa by (apply page_ok_all; by constructor).
  assert (page_ok pgdir) as Hpd by by apply Forall_cons in Hpg as [? _].
  assert (forall pt' b, page_ok pt' -> pt' <> pt -> pt' <= b < pt' + PGSIZE -> ldm (w_mem w') b = ldm (w_mem w) b) as Hother.
  { intros pt' b Hok' Hne Hb. apply (mem_frame_page [pt] _ _ pt' b Hf Hpa (page_ok_mod _ Hok')); [|done]. intros Hin. apply list_elem_of_singleton in Hin. done. }
  split; [|split; [|split]].
  - split; [split; [done|]|split; [|done]].
    + intros d Hdr. rewrite <-Hd by done. apply (Hother pgdir); [done|done|]. unfold PGSIZE. lia.
    + apply (freelist_frame w w' l [pt] Hfl eq_refl Hf Hpa). intros p Hp. apply list_elem_of_singleton in Hp as ->. done.
  - split; [apply mem_only_st|done|]. eapply mem_frame_mono; [|exact Hf]. intros p Hp. apply list_elem_of_singleton in Hp as ->.
    unfold table_pages. right. apply elem_of_app. left. apply vals_elem. eauto.
  - unfold pte. rewrite Hpt. apply ldm_stm_eq.
  - intros n' Hn' Hne. unfold pte. destruct (pts !! (n' / 1024)) as [pt'|] eqn:Hpt'; [|done]. destruct (decide (pt' = pt)) as [->|Hp].
    + apply ldm_stm_ne. pose proof (pt_inv_inj _ _ _ _ _ _ _ _ Hinv Hpt Hpt') as He.
      pose proof (Z.div_mod n 1024 ltac:(lia)). pose proof (Z.div_mod n' 1024 ltac:(lia)). lia.
    + destruct (pt_inv_page _ _ _ _ _ _ _ Hinv Hpt') as (Hok' & _). apply (Hother pt'); [done|done|apply slot_in].
Qed.

(** A page-table page is added for directory slot [n / 1024]. *)
Lemma pt_inv_walked w pgdir pts us q l n : pt_inv w pgdir pts us (q :: l) -> 0 <= n < 2 ^ 20 -> pts !! (n / 1024) = None ->
  let w' := st (pgdir + 4 * (n / 1024)) (pde_word q) (set_w_mem (memset q 0 PGSIZE) (alloced (kmem_settled i w))) in
  let pts' := <[n / 1024 := q]> pts in
  pt_inv w' pgdir pts' us l /\ moved pgdir w pts (q :: l) w' pts' l /\
  (forall n', 0 <= n' -> pte (w_mem w') pts' n' = pte (w_mem w) pts n').
Proof.
  intros ([Hk Hd] & Hfl & Hnd & Hpg) Hn Hpt w' pts'. apply (kmem_settled_freelist w i) in Hfl.
  destruct (alloced_freelist _ _ _ Hfl) as (_ & Hfl' & Hql & Hqok). pose proof (page_ok_mod _ Hqok) as Hqm.
  assert (0 <= n / 1024 < 1024) as Hslot by (split; [apply Z.div_pos; lia|apply Z.div_lt_upper_bound; lia]).
  pose proof Hpg as [Hpd Hpg']%Forall_cons. apply Forall_app in Hpg' as [Hpgp Hpgu]. pose proof (page_ok_mod _ Hpd) as Hpm.
  apply NoDup_cons in Hnd as [Hdn Hnd]. pose proof Hnd as Hnd0. apply NoDup_app in Hnd as (Hn1 & Hn2 & Hn3). apply NoDup_app in Hn3 as (Hn3 & Hn4 & Hn5).
  assert (q <> pgdir /\ pgdir ∉ vals pts /\ pgdir ∉ us /\ pgdir ∉ l) as (Hqd & Hdv & Hdu & Hdl) by (clear -Hdn; set_solver).
  assert (q ∉ vals pts /\ q ∉ us) as [Hqv Hqu] by (clear -Hn2 Hn4; set_solver). clear Hn1 Hn2 Hn3 Hn4 Hn5 Hdn.
  assert (pgdir <= pgdir + 4 * (n / 1024) < pgdir + PGSIZE) as Hpde by (unfold PGSIZE; lia).
  set (m1 := memset q 0 PGSIZE (w_mem w)). assert (w_mem w' = stm (pgdir + 4 * (n / 1024)) (pde_word q) m1) as Hm.
  { unfold w'. cbn. by rewrite alloced_mem, kmem_settled_mem. }
  assert (mem_frame [q] (w_mem w) m1) as Hf1 by by apply memset_frame.
  assert (mem_frame [pgdir] m1 (w_mem w')) as Hf2 by (rewrite Hm; by apply mem_frame_stm).
  pose proof (mem_frame_two _ _ _ _ _ Hf1 Hf2) as Hf.
  assert (Forall (fun q => q mod PGSIZE = 0) [pgdir; q]) as Hpa by by repeat constructor.
  assert (vals pts' ≡ₚ q :: vals pts) as Hvals by by apply vals_insert.
  split; [|split].
  - split; [split|split; [|split]].
    + apply map_Forall_insert_2; done.
    + intros d Hdr. rewrite Hm. destruct (decide (d = n / 1024)) as [->|Hne].
      * rewrite ldm_stm_eq. unfold pts'. rewrite lookup_insert_eq. apply u32_small. apply (pde_word_eq q Hqok).
      * rewrite ldm_stm_ne by lia. unfold pts'. rewrite lookup_insert_ne by done. rewrite <-Hd by done.
        apply (mem_frame_page [q] _ _ pgdir); [done|by constructor|done|clear -Hqd; set_solver|unfold PGSIZE; lia].
    + apply (freelist_frame (alloced (kmem_settled i w)) w' l [pgdir; q] Hfl' eq_refl); [by rewrite alloced_mem, kmem_settled_mem|done|]. clear -Hdl Hql. set_solver.
    + rewrite Hvals. cbn [app]. apply NoDup_cons. split; [clear -Hqd Hdv Hdu Hdl; set_solver|]. clear -Hnd0. rewrite app_assoc in Hnd0 |- *. by rewrite Permutation_middle.
    + rewrite Hvals. cbn [app]. apply Forall_cons. split; [done|]. apply Forall_cons. split; [done|]. apply Forall_app. split; assumption.
  - split.
    + eapply mem_only_trans; [apply mem_only_alloced|]. eapply mem_only_trans; [apply mem_only_mem|apply mem_only_st].
    + rewrite Hvals. cbn [app]. apply Permutation_middle.
    + eapply mem_frame_mono; [|exact Hf]. unfold table_pages. clear. set_solver.
  - intros n' Hn'. unfold pte, pts'. destruct (decide (n' / 1024 = n / 1024)) as [He|Hne].
    + rewrite He, lookup_insert_eq, Hpt. rewrite Hm, ldm_stm_ne.
      * apply ldm_memset0; [done|apply slot_in|by apply slot_4].
      * pose proof (slot_in q n'). intros Hx. pose proof (page_apart q pgdir Hqm Hpm Hqd). pose proof (page_apart pgdir q Hpm Hqm ltac:(done)). lia.
    + rewrite lookup_insert_ne by done. destruct (pts !! (n' / 1024)) as [pt'|] eqn:Hpt'; [|done].
      assert (pt' ∈ vals pts) as Hin by (apply vals_elem; eauto).
      apply (mem_frame_page [pgdir; q] _ _ pt'); [done|done| |clear -Hin Hqv Hdv; set_solver|apply slot_in].
      rewrite Forall_forall in Hpgp. apply page_ok_mod. by apply Hpgp.
Qed.

Lemma kmem_settled_inv w pgdir pts us l : pt_inv w pgdir pts us l -> pt_inv (kmem_settled i w) pgdir pts us l.
Proof. intros (Hd & Hfl & Hr). split; [by rewrite kmem_settled_mem|]. split; [by apply kmem_settled_freelist|done]. Qed.

(** The tables that are new are for page [n] or pages above it. *)
Definition new_from (n : Z) pts pts' : Prop := forall d, is_Some (pts' !! d) -> is_Some (pts !! d) \/ n / 1024 <= d.

Lemma new_from_refl n pts : new_from n pts pts.
Proof. intros d Hd. by left. Qed.

Lemma new_from_trans n n' pts1 pts2 pts3 : n <= n' -> new_from n pts1 pts2 -> new_from n' pts2 pts3 -> new_from n pts1 pts3.
Proof.
  intros Hn H1 H2 d Hd. destruct (H2 d Hd) as [Hd2|Hd2]; [by apply H1|]. right. pose proof (Z.div_le_mono n n' 1024 ltac:(lia) Hn). lia.
Qed.

Lemma new_from_insert n pts q : new_from n pts (<[n / 1024 := q]> pts).
Proof. intros d Hd. destruct (decide (n / 1024 = d)) as [->|Hne]; [by right|]. left. by rewrite lookup_insert_ne in Hd. Qed.

(** walkpgdir finds the slot of page [n] or makes room for it. *)
Lemma walk_spec w pgdir pts us l n c e : pt_inv w pgdir pts us l -> kmem_ok w i c -> 0 <= n < 2 ^ 20 ->
  exists a w' pts' l', walkpgdir pgdir (4096 * n) true w e = Ret a w' e /\ pt_inv w' pgdir pts' us l' /\ moved pgdir w pts l w' pts' l' /\ new_from n pts pts' /\
    (forall n', 0 <= n' -> pte (w_mem w') pts' n' = pte (w_mem w) pts n') /\
    ((a = 0 /\ l' = []) \/ exists pt, pts' !! (n / 1024) = Some pt /\ a = pt + 4 * (n mod 1024) /\ a <> 0).
Proof.
  intros Hinv Hok Hn. assert (0 <= 4096 * n < 2 ^ 32) as Hva by lia. assert (4096 * n / 4096 = n) as Hdiv by (rewrite Z.mul_comm; apply Z_div_mult_full; lia).
  assert (forall pt, page_ok pt -> pt + 4 * (n mod 1024) <> 0) as Hnz.
  { intros pt (_ & _ & Hk). pose proof (Z.mod_pos_bound n 1024 ltac:(lia)). unfold KERNBASE in Hk. lia. }
  destruct (pts !! (n / 1024)) as [pt|] eqn:Hpt.
  - exists (pt + 4 * (n mod 1024)), w, pts, l. split_and!; [|done|by apply moved_refl; [apply mem_only_refl|]|apply new_from_refl|done|].
    + rewrite (walk_found i w pgdir pts us l (4096 * n) e Hinv Hva pt true) by by rewrite Hdiv. by rewrite Hdiv.
    + right. exists pt. split_and!; [done|done|]. apply Hnz. by destruct (pt_inv_page _ _ _ _ _ _ _ Hinv Hpt).
  - pose proof (walk_alloc i w pgdir pts us l (4096 * n) e Hinv Hva c Hok) as Hw. rewrite Hdiv in Hw. specialize (Hw Hpt). destruct l as [|q l].
    + exists 0, (kmem_settled i w), pts, []. split_and!; [done|by apply kmem_settled_inv| |apply new_from_refl|by rewrite kmem_settled_mem|by left].
      apply moved_refl; [apply mem_only_kmem_settled|apply kmem_settled_mem].
    + destruct (pt_inv_walked w pgdir pts us q l n Hinv Hn Hpt) as (Hinv' & Hmv & Hp).
      eexists _, _, (<[n / 1024 := q]> pts), l. split_and!; [rewrite Hw; unfold walked; by rewrite Hdiv|exact Hinv'|exact Hmv|apply new_from_insert|exact Hp|].
      right. exists q. rewrite lookup_insert_eq. split_and!; [done|done|]. apply Hnz. destruct Hinv as (_ & [(_ & ? & _) _] & _). done.
Qed.

(** ** mappages *)

Definition pte_word (pa perm : Z) : Z := pa + Z.lor perm PTE_P.

Lemma lor_small a b : 0 <= a < 4096 -> 0 <= b < 4096 -> 0 <= Z.lor a b < 4096.
Proof.
  intros Ha Hb. split; [apply Z.lor_nonneg; lia|]. destruct (decide (Z.lor a b = 0)) as [->|Hne]; [lia|].
  assert (0 <= Z.lor a b) by (apply Z.lor_nonneg; lia). change 4096 with (2 ^ 12). apply Z.log2_lt_pow2; [lia|]. rewrite Z.log2_lor by lia.
  assert (forall x, 0 <= x < 4096 -> Z.log2 x < 12) as Hl.
  { intros x Hx. destruct (decide (x = 0)) as [->|]; [done|]. apply Z.log2_lt_pow2; lia. }
  pose proof (Hl a Ha). pose proof (Hl b Hb). lia.
Qed.

Lemma pte_word_eq pa perm : pa mod 4096 = 0 -> 0 <= pa < 2 ^ 32 -> 0 <= perm < 4096 ->
  Z.lor (Z.lor pa perm) PTE_P = pte_word pa perm /\ 0 <= pte_word pa perm < 2 ^ 32 /\ has (pte_word pa perm) PTE_P = true.
Proof.
  intros Hm Hr Hp. pose proof (lor_small perm PTE_P Hp ltac:(unfold PTE_P; lia)) as Hl. unfold pte_word. split_and!; try lia.
  - rewrite <-Z.lor_assoc. by apply lor_page.
  - apply Z.mod_divide in Hm as [k ->]; lia.
  - rewrite has_P, Zplus_mod, (page_mod_even pa), Z.add_0_l, Zmod_mod by done.
    rewrite <-Z.bit0_mod, Z.lor_spec. change (Z.testbit PTE_P 0) with true. by rewrite orb_true_r.
Qed.

(** One turn of the loop of mappages. *)
Lemma map_turn k last pgdir us perm e w pts l c n pa :
  0 <= perm < 4096 -> pt_inv w pgdir pts us l -> kmem_ok w i c -> 0 <= n < 2 ^ 20 -> pa mod 4096 = 0 -> 0 <= pa < 2 ^ 32 ->
  has (pte (w_mem w) pts n) PTE_P = false ->
  exists w' pts' l', pt_inv w' pgdir pts' us l' /\ moved pgdir w pts l w' pts' l' /\ new_from n pts pts' /\
    let turn := mappages_loop (S k) pgdir (4096 * n) last pa perm w e in
    ((turn = Ret (-1) w' e /\ l' = [] /\ forall n', 0 <= n' -> pte (w_mem w') pts' n' = pte (w_mem w) pts n') \/
     (turn = (if 4096 * n =? last then kret 0 else mappages_loop k pgdir (u32 (4096 * n + PGSIZE)) last (u32 (pa + PGSIZE)) perm) w' e /\
      forall n', 0 <= n' -> pte (w_mem w') pts' n' = if decide (n' = n) then pte_word pa perm else pte (w_mem w) pts n')).
Proof.
  intros Hperm Hinv Hok Hn Hpm Hp Hno.
  destruct (walk_spec w pgdir pts us l n c e Hinv Hok ltac:(lia)) as (a & w1 & pts1 & l1 & E1 & Hinv1 & Hmv1 & Hnf & Hp1 & [[-> ->]|(pt & Hpt & -> & Hne)]).
  - exists w1, pts1, []. split_and!; [done|done|done|]. left. cbn [mappages_loop]. rewrite (kbind_ret _ _ _ _ _ _ _ E1). split_and!; done.
  - destruct (pte_word_eq pa perm Hpm ltac:(lia) Hperm) as (Hword & Hwr & Hwp).
    destruct (pt_inv_entry w1 pgdir pts1 us l1 n pt (pte_word pa perm) Hinv1 ltac:(lia) Hpt) as (Hinv2 & Hmv2 & Hpn & Hpo); set (w2 := st _ _ w1) in *.
    assert (ld w1 (pt + 4 * (n mod 1024)) = pte (w_mem w) pts n) as Hld by (rewrite <-Hp1 by lia; unfold pte; by rewrite Hpt).
    exists w2, pts1, l1. split_and!; [done|by eapply moved_trans|done|]. right. split.
    + cbn [mappages_loop]. rewrite (kbind_ret _ _ _ _ _ _ _ E1). rewrite (proj2 (Z.eqb_neq _ _) Hne). cbn [kbind kget]. rewrite Hld, Hno.
      cbn [kbind kmod]. by rewrite Hword.
    + intros n' Hn'. destruct (decide (n' = n)) as [->|Hnn]; [rewrite Hpn; by apply u32_small|]. rewrite Hpo by done. by apply Hp1.
Qed.

Lemma mappages_loop_spec pgdir us perm e : 0 <= perm < 4096 -> forall k w pts l c n pa,
  pt_inv w pgdir pts us l -> kmem_ok w i c -> 0 <= n -> n + Z.of_nat k < 2 ^ 20 -> pa mod 4096 = 0 -> 0 <= pa -> pa + 4096 * Z.of_nat k < 2 ^ 32 ->
  (forall n', n <= n' <= n + Z.of_nat k -> has (pte (w_mem w) pts n') PTE_P = false) ->
  exists r j w' pts' l', mappages_loop (S k) pgdir (4096 * n) (4096 * (n + Z.of_nat k)) pa perm w e = Ret r w' e /\
    pt_inv w' pgdir pts' us l' /\ moved pgdir w pts l w' pts' l' /\ new_from n pts pts' /\
    (forall n', 0 <= n' -> pte (w_mem w') pts' n' = if decide (n <= n' < n + j) then pte_word (pa + 4096 * (n' - n)) perm else pte (w_mem w) pts n') /\
    ((r = 0 /\ j = Z.of_nat k + 1) \/ (r = -1 /\ 0 <= j <= Z.of_nat k /\ l' = [])).
Proof.
  intros Hperm. induction k as [|k IH]; intros w pts l c n pa Hinv Hok Hn Hnk Hpm Hp0 Hpk Hno;
    (match goal with |- context [mappages_loop (S ?k) _ _ ?last] =>
       destruct (map_turn k last pgdir us perm e w pts l c n pa Hperm Hinv Hok ltac:(lia) Hpm ltac:(lia) ltac:(apply Hno; lia))
         as (w1 & pts1 & l1 & Hinv1 & Hmv1 & Hnf1 & [(E1 & -> & Hp1)|(E1 & Hp1)]) end).
  1,3: exists (-1), 0, w1, pts1, []; split_and!; [exact E1|done|done|done|intros n' Hn'; rewrite decide_False by lia; by apply Hp1|right; split_and!; lia || done].
  - exists 0, 1, w1, pts1, l1. split_and!; [rewrite E1, Z.add_0_r, Z.eqb_refl; done|done|done|done| |left; split; [done|lia]].
    intros n' Hn'. rewrite Hp1 by done. destruct (decide (n' = n)) as [->|Hne]; [rewrite decide_True by lia; f_equal; lia|by rewrite decide_False by lia].
  - destruct (mem_only_ok i _ _ c (mv_only _ _ _ _ _ _ _ Hmv1) Hok) as [c1 Hok1].
    destruct (IH w1 pts1 l1 c1 (n + 1) (pa + 4096) Hinv1 Hok1) as (r & j & w2 & pts2 & l2 & E2 & Hinv2 & Hmv2 & Hnf2 & Hp2 & Hr); try lia.
    { rewrite Zplus_mod, Hpm. done. }
    { intros n' Hn'. rewrite Hp1 by lia. rewrite decide_False by lia. apply Hno. lia. }
    exists r, (j + 1), w2, pts2, l2. split_and!; [|done|by eapply moved_trans|eapply (new_from_trans n (n + 1)); [lia|done|done]| |].
    + rewrite E1. rewrite (proj2 (Z.eqb_neq _ _)) by lia. unfold PGSIZE. rewrite !u32_small by lia.
      replace (4096 * n + 4096) with (4096 * (n + 1)) by lia. by replace (4096 * (n + Z.of_nat (S k))) with (4096 * (n + 1 + Z.of_nat k)) by lia.
    + intros n' Hn'. rewrite Hp2 by done. destruct (decide (n + 1 <= n' < n + 1 + j)) as [Hin|Hout].
      * rewrite decide_True by lia. f_equal. lia.
      * rewrite Hp1 by done. destruct (decide (n' = n)) as [->|Hne]; [rewrite decide_True by lia; f_equal; lia|by rewrite decide_False by lia].
    + destruct Hr as [[-> ->]|(-> & ? & ->)]; [left|right]; split_and!; lia || done.
Qed.

Lemma page_last n k : 0 <= n -> n + k < 2 ^ 20 -> 0 <= k -> PGROUNDDOWN (u32 (4096 * n + 4096 * (k + 1) - 1)) = 4096 * (n + k).
Proof.
  intros Hn Hk Hk0. rewrite u32_small by lia. rewrite PGROUNDDOWN_eq by lia. unfold PGSIZE.
  replace (4096 * n + 4096 * (k + 1) - 1) with (4095 + (n + k) * 4096) at 2 by lia. rewrite Z_mod_plus_full, Z.mod_small by lia. lia.
Qed.

Lemma page_first n : 0 <= n < 2 ^ 20 -> PGROUNDDOWN (4096 * n) = 4096 * n.
Proof. intros Hn. rewrite PGROUNDDOWN_eq by lia. unfold PGSIZE. rewrite Z.mul_comm, Z_mod_mult. lia. Qed.

(** mappages of whole pages: the pages are mapped, or there is no free page for a page table and the
    first [j] are. *)
Lemma mappages_spec pgdir us perm e k w pts l c n pa :
  0 <= perm < 4096 -> pt_inv w pgdir pts us l -> kmem_ok w i c -> 0 <= n -> n + Z.of_nat k < 2 ^ 20 -> pa mod 4096 = 0 -> 0 <= pa ->
  pa + 4096 * Z.of_nat k < 2 ^ 32 ->
  (forall n', n <= n' <= n + Z.of_nat k -> has (pte (w_mem w) pts n') PTE_P = false) ->
  exists r j w' pts' l', mappages pgdir (4096 * n) (4096 * (Z.of_nat k + 1)) pa perm w e = Ret r w' e /\
    pt_inv w' pgdir pts' us l' /\ moved pgdir w pts l w' pts' l' /\ new_from n pts pts' /\
    (forall n', 0 <= n' -> pte (w_mem w') pts' n' = if decide (n <= n' < n + j) then pte_word (pa + 4096 * (n' - n)) perm else pte (w_mem w) pts n') /\
    ((r = 0 /\ j = Z.of_nat k + 1) \/ (r = -1 /\ 0 <= j <= Z.of_nat k /\ l' = [])).
Proof.
  intros Hperm Hinv Hok Hn Hnk Hpm Hp0 Hpk Hno. unfold mappages. rewrite page_last, page_first by lia.
  assert (Z.to_nat (u32 (4096 * (n + Z.of_nat k) - 4096 * n) / PGSIZE) + 1 = S k)%nat as ->.
  { rewrite u32_small by lia. unfold PGSIZE. replace (4096 * (n + Z.of_nat k) - 4096 * n) with (Z.of_nat k * 4096) by lia. rewrite Z_div_mult_full by lia. lia. }
  by apply (mappages_loop_spec pgdir us perm e Hperm k w pts l c n pa).
Qed.

(** ** The user part of an address space *)

(** A user page: where it is, and the flags of its entry. *)
Definition uword (x : Z * Z) : Z := V2P x.1 + x.2.
Definition uent (um : gmap Z (Z * Z)) (n : Z) : Z := match um !! n with Some x => uword x | None => 0 end.
Definition pages (um : gmap Z (Z * Z)) : list Z := (vals um).*1.
Definition ucell (n : Z) (x : Z * Z) : Prop := 0 <= n < 2 ^ 19 /\ 0 <= x.2 < 4096 /\ x.2 mod 2 = 1.

Record aspace w (pgdir : Z) pts (um : gmap Z (Z * Z)) us l : Prop := mkAspace {
  as_inv : pt_inv w pgdir pts (pages um ++ us) l;
  as_um : map_Forall ucell um;
  as_ent : forall n, 0 <= n < 2 ^ 19 -> pte (w_mem w) pts n = uent um n
}.

(** The kernel's entries are the same. *)
Definition kern_same w pts w' pts' : Prop := forall n, 2 ^ 19 <= n < 2 ^ 20 -> pte (w_mem w') pts' n = pte (w_mem w) pts n.

Lemma kern_same_trans w1 pts1 w2 pts2 w3 pts3 : kern_same w1 pts1 w2 pts2 -> kern_same w2 pts2 w3 pts3 -> kern_same w1 pts1 w3 pts3.
Proof. intros H1 H2 n Hn. rewrite H2 by done. by apply H1. Qed.

Lemma pages_insert um n p f : um !! n = None -> pages (<[n := (p, f)]> um) ≡ₚ p :: pages um.
Proof. intros Hn. unfold pages. by rewrite vals_insert. Qed.

Lemma pages_delete um n p f : um !! n = Some (p, f) -> pages um ≡ₚ p :: pages (delete n um).
Proof. intros Hn. rewrite <-(insert_delete_id um n (p, f) Hn) at 1. apply pages_insert, lookup_delete_eq. Qed.

Lemma pages_elem um p : p ∈ pages um <-> exists n f, um !! n = Some (p, f).
Proof.
  unfold pages. rewrite list_elem_of_fmap. split.
  - intros ([p' f] & -> & Hx). apply vals_elem in Hx as [n Hn]. eauto.
  - intros (n & f & Hn). exists (p, f). split; [done|]. apply vals_elem. eauto.
Qed.

Lemma pt_inv_perm w pgdir pts us us' l : us ≡ₚ us' -> pt_inv w pgdir pts us l -> pt_inv w pgdir pts us' l.
Proof. intros Hp (H1 & H2 & H3 & H4). split; [done|]. split; [done|]. by rewrite <-Hp. Qed.

Lemma aspace_page w pgdir pts um us l n p f : aspace w pgdir pts um us l -> um !! n = Some (p, f) ->
  page_ok p /\ uword (p, f) = V2P p + f /\ 0 <= uword (p, f) < 2 ^ 32 /\ has (uword (p, f)) PTE_P = true /\
  PTE_ADDR (uword (p, f)) = V2P p /\ PTE_FLAGS (uword (p, f)) = f /\ 0 <= n < 2 ^ 19 /\ 0 <= f < 4096 /\ f mod 2 = 1.
Proof.
  intros [(_ & _ & _ & Hpg) Hum _] Hn. destruct (Hum n (p, f) Hn) as (Hnr & Hf & Hodd). cbn [fst snd] in *.
  assert (page_ok p) as Hok.
  { apply Forall_cons in Hpg as [_ Hpg]. rewrite Forall_forall in Hpg. apply Hpg. apply elem_of_app. right. apply elem_of_app. left. apply pages_elem. eauto. }
  destruct (page_ok_V2P p Hok) as (_ & Hr & Hm & _). unfold PHYSTOP in Hr. unfold uword. cbn [fst snd].
  split_and!; try (done || lia).
  - rewrite has_P, Zplus_mod, (page_mod_even (V2P p)), Z.add_0_l, Zmod_mod, Hodd by done. done.
  - rewrite PTE_ADDR_eq by lia. rewrite mod_add_page by (done || lia). lia.
  - rewrite PTE_FLAGS_eq. by apply mod_add_page.
Qed.

(** The entries when pages outside the table were written. *)
Lemma pte_frame w pgdir pts us l m' ps n : pt_inv w pgdir pts us l -> mem_frame ps (w_mem w) m' -> Forall (fun q => q mod PGSIZE = 0) ps ->
  (forall p, p ∈ vals pts -> p ∉ ps) -> pte m' pts n = pte (w_mem w) pts n.
Proof.
  intros Hinv Hf Hps Hd. unfold pte. destruct (pts !! (n / 1024)) as [pt|] eqn:Hpt; [|done]. destruct (pt_inv_page _ _ _ _ _ _ _ Hinv Hpt) as (Hok & _).
  apply (mem_frame_page ps _ _ pt); [done|done|by apply page_ok_mod| |apply slot_in]. apply Hd. apply vals_elem. eauto.
Qed.

Lemma dir_frame w pgdir pts us l m' ps : pt_inv w pgdir pts us l -> mem_frame ps (w_mem w) m' -> Forall (fun q => q mod PGSIZE = 0) ps ->
  pgdir ∉ ps -> dir_ok m' pgdir pts.
Proof.
  intros ([Hk Hd] & _ & _ & Hpg) Hf Hps Hp. split; [done|]. intros d Hdr. rewrite <-Hd by done. apply Forall_cons in Hpg as [Hok _].
  apply (mem_frame_page ps _ _ pgdir); [done|done|by apply page_ok_mod|done|unfold PGSIZE; lia].
Qed.

(** A page in use elsewhere is written. *)
Lemma pt_inv_page_write w pgdir pts us l p g : pt_inv w pgdir pts us l -> p ∈ us -> mem_frame [p] (w_mem w) (g (w_mem w)) ->
  pt_inv (set_w_mem g w) pgdir pts us l /\ forall n, pte (g (w_mem w)) pts n = pte (w_mem w) pts n.
Proof.
  intros Hinv Hp Hf. pose proof Hinv as (Hd & Hfl & Hnd & Hpg).
  assert (page_ok p) as Hok by (apply Forall_cons in Hpg as [_ Hpg]; rewrite Forall_forall in Hpg; apply Hpg, elem_of_app; by right).
  assert (Forall (fun q => q mod PGSIZE = 0) [p]) as Hps by (apply page_ok_all; by constructor).
  apply NoDup_cons in Hnd as [Hn1 Hnd']. apply NoDup_app in Hnd' as (_ & Hn2 & Hn3). apply NoDup_app in Hn3 as (_ & Hn3 & _).
  split; [split; [|split; [|split]]|].
  - apply (dir_frame w pgdir pts us l _ [p] Hinv Hf Hps). intros ->%list_elem_of_singleton. apply Hn1. set_solver.
  - apply (freelist_frame w (set_w_mem g w) l [p] Hfl eq_refl Hf Hps). intros q ->%list_elem_of_singleton. by apply Hn3.
  - apply Hinv.
  - apply Hinv.
  - intros n. apply (pte_frame w pgdir pts us l _ [p] n Hinv Hf Hps). intros q Hq ->%list_elem_of_singleton. apply (Hn2 p Hq). set_solver.
Qed.

(** A page is allocated, and freed. *)
Lemma freed_frame w p : page_ok p -> mem_frame [p] (w_mem w) (w_mem (freed p (kmem_settled i w))).
Proof.
  intros Hp. unfold freed. cbn. rewrite kmem_settled_mem.
  eapply mem_frame_trans; [apply (memset_frame p 1); by apply page_ok_mod|apply mem_frame_stm; unfold PGSIZE; lia].
Qed.

Lemma pt_inv_alloc w pgdir pts us q l : pt_inv w pgdir pts us (q :: l) -> pt_inv (alloced (kmem_settled i w)) pgdir pts (q :: us) l.
Proof.
  intros (Hd & Hfl & Hnd & Hpg). apply (kmem_settled_freelist w i) in Hfl. destruct (alloced_freelist _ _ _ Hfl) as (_ & Hfl' & Hql & Hqok).
  split; [by rewrite alloced_mem, kmem_settled_mem|]. split; [done|]. split.
  - rewrite app_assoc in Hnd |- *. rewrite (Permutation_app_comm (vals pts) (q :: us)). cbn [app]. rewrite (Permutation_app_comm us). by rewrite Permutation_middle.
  - apply Forall_cons in Hpg as [Hp Hpg]. apply Forall_app in Hpg as [Hp1 Hp2]. apply Forall_cons. split; [done|]. apply Forall_app. split; [done|]. by constructor.
Qed.

Lemma pt_inv_free w pgdir pts us p l : pt_inv w pgdir pts (p :: us) l ->
  let w' := freed p (kmem_settled i w) in
  pt_inv w' pgdir pts us (p :: l) /\ mem_only i w w' /\ mem_frame [p] (w_mem w) (w_mem w') /\ forall n, pte (w_mem w') pts n = pte (w_mem w) pts n.
Proof.
  intros Hinv w'. pose proof Hinv as (Hd & Hfl & Hnd & Hpg).
  assert (page_ok p) as Hok by (apply Forall_cons in Hpg as [_ Hpg]; apply Forall_app in Hpg as [_ Hpg]; by apply Forall_cons in Hpg as [? _]).
  pose proof (page_ok_mod p Hok) as Hpm. assert (Forall (fun q => q mod PGSIZE = 0) [p]) as Hps by by constructor.
  pose proof Hnd as Hnd0. apply NoDup_cons in Hnd as [Hn1 Hnd']. apply NoDup_app in Hnd' as (_ & Hn2 & Hn3). cbn [app] in Hn3. apply NoDup_cons in Hn3 as [Hn3 _].
  pose proof (freed_frame w p Hok) as Hf. fold w' in Hf.
  split_and!; [|apply mem_only_freed|done|].
  - split; [|split; [|split]].
    + apply (dir_frame w pgdir pts _ l _ [p] Hinv Hf Hps). intros ->%list_elem_of_singleton. apply Hn1. set_solver.
    + apply freed_freelist; [done|by apply kmem_settled_freelist|]. intros Hin. apply Hn3. set_solver.
    + rewrite app_assoc in Hnd0 |- *. rewrite <-Permutation_middle. rewrite (Permutation_app_comm (vals pts) (p :: us)) in Hnd0. cbn [app] in Hnd0.
      by rewrite (Permutation_app_comm us) in Hnd0.
    + apply Forall_cons in Hpg as [Hp Hpg]. apply Forall_app in Hpg as [Hp1 Hp2]. apply Forall_cons in Hp2 as [_ Hp2]. apply Forall_cons. split; [done|]. by apply Forall_app.
  - intros n. apply (pte_frame w pgdir pts _ l _ [p] n Hinv Hf Hps). intros q Hq ->%list_elem_of_singleton. apply (Hn2 p Hq). set_solver.
Qed.

Lemma odd_lor f : Z.lor f PTE_P mod 2 = 1.
Proof. rewrite <-Z.bit0_mod, Z.lor_spec. change (Z.testbit PTE_P 0) with true. by rewrite orb_true_r. Qed.

(** mappages of one user page, which is in use for it already. *)
Lemma map_user w pgdir pts um us l c n p f e :
  aspace w pgdir pts um (p :: us) l -> kmem_ok w i c -> 0 <= n < 2 ^ 19 -> um !! n = None -> 0 <= f < 4096 ->
  exists r w' pts' l', mappages pgdir (4096 * n) PGSIZE (V2P p) f w e = Ret r w' e /\ moved pgdir w pts l w' pts' l' /\ kern_same w pts w' pts' /\
    ((r = 0 /\ aspace w' pgdir pts' (<[n := (p, Z.lor f PTE_P)]> um) us l') \/ (r = -1 /\ aspace w' pgdir pts' um (p :: us) l' /\ l' = [])).
Proof.
  intros [Hinv Hum Hent] Hok Hn Hnone Hf.
  assert (page_ok p) as Hp.
  { destruct Hinv as (_ & _ & _ & Hpg). apply Forall_cons in Hpg as [_ Hpg]. rewrite Forall_forall in Hpg. apply Hpg. rewrite !elem_of_app, elem_of_cons. auto. }
  destruct (page_ok_V2P p Hp) as (_ & Hr & Hm & _). unfold PHYSTOP in Hr.
  destruct (mappages_spec pgdir _ f e 0 w pts l c n (V2P p) Hf Hinv Hok) as (r & j & w' & pts' & l' & E & Hinv' & Hmv & _ & Hpte & Hres); [lia|lia|done|lia|lia| |].
  { intros n' Hn'. assert (n' = n) as -> by lia. rewrite Hent by done. unfold uent. by rewrite Hnone. }
  exists r, w', pts', l'. split_and!; [exact E|done| |].
  { intros n' Hn'. rewrite Hpte by lia. rewrite decide_False by lia. done. }
  destruct Hres as [[-> ->]|(-> & Hj & ->)]; [left|right]; (split; [done|]).
  - split.
    + eapply pt_inv_perm; [|exact Hinv']. rewrite pages_insert by done. cbn [app]. by rewrite Permutation_middle.
    + apply map_Forall_insert_2; [|done]. split; [done|]. cbn [snd]. split; [apply lor_small; [done|unfold PTE_P; lia]|apply odd_lor].
    + intros n' Hn'. rewrite Hpte by lia. unfold uent. destruct (decide (n' = n)) as [->|Hne].
      * rewrite decide_True by lia. rewrite lookup_insert_eq. unfold pte_word, uword. cbn [fst snd]. lia.
      * rewrite decide_False by lia. rewrite lookup_insert_ne by done. by apply Hent.
  - split; [|done]. split; [done|done|]. intros n' Hn'. rewrite Hpte by lia. rewrite decide_False by lia. by apply Hent.
Qed.

(** A user page is freed and its entry cleared. *)
Lemma unmap_user w pgdir pts um us l n p f pt : aspace w pgdir pts um us l -> um !! n = Some (p, f) -> pts !! (n / 1024) = Some pt ->
  let w' := st (pt + 4 * (n mod 1024)) 0 (freed p (kmem_settled i w)) in
  aspace w' pgdir pts (delete n um) us (p :: l) /\ mem_only i w w' /\ mem_frame [pt; p] (w_mem w) (w_mem w') /\ kern_same w pts w' pts.
Proof.
  intros Has Hn Hpt w'. destruct (aspace_page _ _ _ _ _ _ _ _ _ Has Hn) as (Hp & _ & _ & _ & _ & _ & Hnr & _). destruct Has as [Hinv Hum Hent].
  assert (pt_inv w pgdir pts (p :: pages (delete n um) ++ us) l) as Hinv1.
  { eapply pt_inv_perm; [|exact Hinv]. by rewrite (pages_delete um n p f Hn). }
  destruct (pt_inv_free w pgdir pts _ p l Hinv1) as (Hinv2 & Ho2 & Hf2 & Hp2). set (w2 := freed p _) in *.
  destruct (pt_inv_entry w2 pgdir pts _ _ n pt 0 Hinv2 ltac:(lia) Hpt) as (Hinv3 & Hmv3 & Hpn & Hpo). fold w' in Hinv3, Hmv3, Hpn, Hpo.
  split_and!.
  - split; [done|by apply map_Forall_delete|]. intros n' Hn'. unfold uent. destruct (decide (n' = n)) as [->|Hne].
    + rewrite Hpn, lookup_delete_eq. done.
    + rewrite Hpo, Hp2, lookup_delete_ne by (done || lia). by apply Hent.
  - eapply mem_only_trans; [exact Ho2|apply mem_only_st].
  - eapply mem_frame_two; [exact Hf2|]. apply mem_frame_stm, slot_in.
  - intros n' Hn'. rewrite Hpo by lia. apply Hp2.
Qed.

(** ** deallocuvm *)

(** The pages from [a] on that start below the byte [b], and the others. *)
Definition dropped (a b : Z) (um : gmap Z (Z * Z)) : gmap Z (Z * Z) := filter (fun x => a <= x.1 /\ 4096 * x.1 < b) um.
Definition cut (a b : Z) (um : gmap Z (Z * Z)) : gmap Z (Z * Z) := filter (fun x => ~ (a <= x.1 /\ 4096 * x.1 < b)) um.

Lemma dropped_lookup a b um n : dropped a b um !! n = if decide (a <= n /\ 4096 * n < b) then um !! n else None.
Proof.
  unfold dropped. rewrite map_lookup_filter. destruct (um !! n) as [x|]; cbn; [|by destruct (decide _)].
  destruct (decide (a <= n /\ 4096 * n < b)); [by rewrite option_guard_True|by rewrite option_guard_False].
Qed.

Lemma cut_lookup a b um n : cut a b um !! n = if decide (a <= n /\ 4096 * n < b) then None else um !! n.
Proof.
  unfold cut. rewrite map_lookup_filter. destruct (um !! n) as [x|]; cbn; [|by destruct (decide _)].
  destruct (decide (a <= n /\ 4096 * n < b)); [rewrite option_guard_False; tauto|rewrite option_guard_True; tauto].
Qed.

Lemma dropped_none a b um : (forall n, a <= n -> 4096 * n < b -> um !! n = None) -> dropped a b um = ∅ /\ cut a b um = um.
Proof.
  intros Hn. split; apply map_eq; intros n; [rewrite dropped_lookup, lookup_empty|rewrite cut_lookup]; destruct (decide _) as [[? ?]|]; try done; [by apply Hn|].
  symmetry. by apply Hn.
Qed.

(** Skipping pages that are not mapped. *)
Lemma dropped_skip a a' b um : a <= a' -> (forall n, a <= n < a' -> um !! n = None) -> dropped a b um = dropped a' b um /\ cut a b um = cut a' b um.
Proof.
  intros Ha Hn. split; apply map_eq; intros n; rewrite ?dropped_lookup, ?cut_lookup; destruct (decide (a <= n /\ _)), (decide (a' <= n /\ _)); try (done || lia);
    [apply Hn; lia|symmetry; apply Hn; lia].
Qed.

Lemma dropped_first a b um x : um !! a = Some x -> 4096 * a < b ->
  dropped a b um = <[a := x]> (dropped (a + 1) b (delete a um)) /\ cut a b um = cut (a + 1) b (delete a um).
Proof.
  intros Hx Ha. split; apply map_eq; intros n; destruct (decide (n = a)) as [->|Hne].
  - rewrite dropped_lookup, lookup_insert_eq, decide_True by lia. done.
  - rewrite lookup_insert_ne, !dropped_lookup, lookup_delete_ne by done. destruct (decide (a <= n /\ _)), (decide (a + 1 <= n /\ _)); done || lia.
  - rewrite !cut_lookup, lookup_delete_eq. rewrite decide_True by lia. by destruct (decide _).
  - rewrite !cut_lookup, lookup_delete_ne by done. destruct (decide (a <= n /\ _)), (decide (a + 1 <= n /\ _)); done || lia.
Qed.

(** One turn of the loop of deallocuvm. *)
Record dealloced w pgdir pts um us l a b w' l' : Prop := mkDealloced {
  dl_space : aspace w' pgdir pts (cut a b um) us l';
  dl_only : mem_only i w w';
  dl_pages : l' ≡ₚ pages (dropped a b um) ++ l;
  dl_frame : mem_frame (vals pts ++ pages (dropped a b um)) (w_mem w) (w_mem w');
  dl_kern : kern_same w pts w' pts
}.

Lemma dealloced_none w pgdir pts um us l a b : aspace w pgdir pts um us l -> (forall n, a <= n -> 4096 * n < b -> um !! n = None) ->
  dealloced w pgdir pts um us l a b w l.
Proof. intros Has Hn. destruct (dropped_none a b um Hn) as [E1 E2]. split; rewrite ?E1, ?E2; [done|apply mem_only_refl|done|apply mem_frame_refl|done]. Qed.

Lemma next_table n : 0 <= n < 2 ^ 19 -> u32 (u32 (PGADDR (PDX (4096 * n) + 1) 0 0 - PGSIZE) + PGSIZE) = 4096 * ((n / 1024 + 1) * 1024).
Proof.
  intros Hn. rewrite PDX_eq by lia. assert (4096 * n / 2 ^ 22 = n / 1024) as ->.
  { change (2 ^ 22) with (4096 * 1024). rewrite <-Z.div_div by lia. by rewrite Z.mul_comm, Z_div_mult_full by lia. }
  assert (0 <= n / 1024 < 512) as Hd by (split; [apply Z.div_pos; lia|apply Z.div_lt_upper_bound; lia]).
  unfold PGADDR, PDXSHIFT. rewrite Z.shiftl_0_l, !Z.lor_0_r, Z.shiftl_mul_pow2 by lia. unfold PGSIZE. rewrite (u32_small ((_ + 1) * _)) by lia.
  rewrite (u32_small (_ - _)) by lia. rewrite u32_small by lia. lia.
Qed.

Lemma absent_none w pgdir pts um us l n n' : aspace w pgdir pts um us l -> pts !! (n / 1024) = None -> 0 <= n <= n' -> n' < (n / 1024 + 1) * 1024 -> um !! n' = None.
Proof.
  intros Has Hpt Hn Hn'. destruct (um !! n') as [[p f]|] eqn:Hx; [|done]. exfalso.
  destruct (aspace_page _ _ _ _ _ _ _ _ _ Has Hx) as (Hp & _ & _ & Hh & _ & _ & Hr & _). pose proof (as_ent _ _ _ _ _ _ Has n' Hr) as He.
  unfold uent in He. rewrite Hx in He. unfold pte in He. assert (n' / 1024 = n / 1024) as Heq.
  { symmetry. apply (Z.div_unique _ _ _ (n' - 1024 * (n / 1024))); [|lia]. pose proof (Z.div_mod n 1024 ltac:(lia)). pose proof (Z.mod_pos_bound n 1024 ltac:(lia)). lia. }
  rewrite Heq, Hpt in He. rewrite <-He in Hh. done.
Qed.

(** deallocuvm frees the pages in its range and clears their entries. *)
Lemma dealloced_skip w pgdir pts um us l a a' b w' l' : a <= a' -> (forall n, a <= n < a' -> um !! n = None) ->
  dealloced w pgdir pts um us l a' b w' l' -> dealloced w pgdir pts um us l a b w' l'.
Proof. intros Ha Hn [D1 D2 D3 D4 D5]. destruct (dropped_skip a a' b um Ha Hn) as [E1 E2]. split; rewrite ?E1, ?E2; done. Qed.

Lemma dealloced_first w pgdir pts um us l a b n p f w1 w' l' pt : um !! a = Some (p, f) -> 4096 * a < b -> pts !! n = Some pt ->
  mem_only i w w1 -> mem_frame [pt; p] (w_mem w) (w_mem w1) -> kern_same w pts w1 pts ->
  dealloced w1 pgdir pts (delete a um) us (p :: l) (a + 1) b w' l' -> dealloced w pgdir pts um us l a b w' l'.
Proof.
  intros Hx Ha Hpt Ho Hf Hk [D1 D2 D3 D4 D5]. destruct (dropped_first a b um (p, f) Hx Ha) as [E1 E2].
  assert (pages (dropped a b um) ≡ₚ p :: pages (dropped (a + 1) b (delete a um))) as Hp.
  { rewrite E1. apply pages_insert. rewrite dropped_lookup. by rewrite decide_False by lia. }
  split.
  - by rewrite E2.
  - by eapply mem_only_trans.
  - rewrite D3, Hp. symmetry. apply Permutation_middle.
  - eapply mem_frame_trans; (eapply mem_frame_mono; [|done]); intros q; rewrite elem_of_app, Hp.
    + rewrite elem_of_cons, list_elem_of_singleton. intros [->| ->]; [left; apply vals_elem; eauto|right; by left].
    + rewrite elem_of_app, elem_of_cons. tauto.
  - by eapply kern_same_trans.
Qed.

Lemma deallocuvm_loop_spec pgdir pts us b e : KERNBASE < k_end -> b <= KERNBASE -> forall k w um l c n,
  aspace w pgdir pts um us l -> kmem_ok w i c -> 0 <= n -> b <= 4096 * (n + Z.of_nat k) ->
  exists w' l', deallocuvm_loop (S k) pgdir (4096 * n) b w e = Ret tt w' e /\ dealloced w pgdir pts um us l n b w' l'.
Proof.
  intros Hend Hb. induction k as [|k IH]; intros w um l c n Has Hok Hn Hk.
  { exists w, l. cbn [deallocuvm_loop]. rewrite (proj2 (Z.ltb_ge _ _)) by lia. split; [done|]. apply dealloced_none; [done|]. lia. }
  set (k1 := S k) in *. destruct (Z.ltb_spec (4096 * n) b) as [Hlt|Hge].
  2:{ exists w, l. unfold k1. cbn [deallocuvm_loop]. rewrite (proj2 (Z.ltb_ge _ _)) by lia. split; [done|]. apply dealloced_none; [done|]. lia. }
  unfold KERNBASE in Hb. assert (0 <= n < 2 ^ 19) as Hnr by lia. assert (0 <= 4096 * n < 2 ^ 32) as Hva by lia.
  assert (4096 * n / 4096 = n) as Hdiv by (rewrite Z.mul_comm; apply Z_div_mult_full; lia).
  assert (u32 (4096 * n + PGSIZE) = 4096 * (n + 1)) as Hnext by (unfold PGSIZE; rewrite u32_small; lia).
  cbn [deallocuvm_loop]. rewrite (proj2 (Z.ltb_lt _ _)) by lia. destruct (pts !! (n / 1024)) as [pt|] eqn:Hpt.
  - rewrite (kbind_ret _ _ _ _ _ _ _ (walk_found i w pgdir pts _ l (4096 * n) e (as_inv _ _ _ _ _ _ Has) Hva pt false ltac:(by rewrite Hdiv))). rewrite Hdiv.
    destruct (pt_inv_page _ _ _ _ _ _ _ (as_inv _ _ _ _ _ _ Has) Hpt) as ((_ & _ & Hpr) & _). unfold KERNBASE in Hpr.
    pose proof (Z.mod_pos_bound n 1024 ltac:(lia)). rewrite (proj2 (Z.eqb_neq _ _)) by lia. cbn [kbind kget].
    assert (ld w (pt + 4 * (n mod 1024)) = uent um n) as -> by (rewrite <-(as_ent _ _ _ _ _ _ Has n Hnr); unfold pte; by rewrite Hpt).
    unfold uent. destruct (um !! n) as [[p f]|] eqn:Hx.
    + destruct (aspace_page _ _ _ _ _ _ _ _ _ Has Hx) as (Hp & _ & _ & -> & -> & _). destruct (page_ok_V2P p Hp) as (Hv & _ & _ & ->).
      destruct Hp as (Hp1 & Hp2 & Hp3). rewrite (proj2 (Z.eqb_neq (V2P p) 0)) by lia.
      destruct (unmap_user w pgdir pts um us l n p f pt Has Hx Hpt) as (Has1 & Ho1 & Hf1 & Hk1). set (w1 := st _ _ _) in *.
      destruct (mem_only_ok i _ _ c Ho1 Hok) as [c1 Hok1].
      destruct (IH w1 _ _ c1 (n + 1) Has1 Hok1) as (w' & l' & E & Hd); [lia|lia|]. exists w', l'. split; [|by eapply dealloced_first].
      cbn [kbind]. rewrite (kfree_eq w i c p e Hok) by done. cbn [kmod kret]. fold w1. by rewrite Hnext.
    + destruct (IH w um l c (n + 1) Has Hok) as (w' & l' & E & Hd); [lia|lia|]. exists w', l'.
      split; [|apply (dealloced_skip _ _ _ _ _ _ n (n + 1)); [lia| |done]; intros n' Hn'; by assert (n' = n) as -> by lia].
      cbn [has negb kret kbind]. change (has 0 PTE_P) with false. cbn [kret]. by rewrite Hnext.
  - rewrite (kbind_ret _ _ _ _ _ _ _ (walk_absent i w pgdir pts _ l (4096 * n) e (as_inv _ _ _ _ _ _ Has) Hva ltac:(by rewrite Hdiv))).
    set (n1 := (n / 1024 + 1) * 1024). assert (n + 1 <= n1) as Hn1.
    { unfold n1. pose proof (Z.div_mod n 1024 ltac:(lia)). pose proof (Z.mod_pos_bound n 1024 ltac:(lia)). lia. }
    destruct (IH w um l c n1 Has Hok) as (w' & l' & E & Hd); [lia|lia|]. exists w', l'.
    split; [|apply (dealloced_skip _ _ _ _ _ _ n n1); [lia| |done]; intros n' Hn'; apply (absent_none w pgdir pts um us l n n' Has Hpt); unfold n1 in *; lia].
    cbn [Z.eqb kbind kret]. by rewrite next_table by done.
Qed.

(** The number of pages that [sz] bytes take. *)
Definition npages (sz : Z) : Z := (sz + 4095) / 4096.

Lemma npages_bounds sz : 4096 * (npages sz - 1) < sz <= 4096 * npages sz.
Proof. unfold npages. pose proof (Z.div_mod (sz + 4095) 4096 ltac:(lia)). pose proof (Z.mod_pos_bound (sz + 4095) 4096 ltac:(lia)). lia. Qed.

Lemma roundup_npages sz : 0 <= sz <= KERNBASE -> PGROUNDUP sz = 4096 * npages sz.
Proof.
  unfold KERNBASE. intros Hs. rewrite PGROUNDUP_eq by (unfold PGSIZE; lia). unfold npages, PGSIZE. change (4096 - 1) with 4095.
  pose proof (Z.div_mod (sz + 4095) 4096 ltac:(lia)). lia.
Qed.

Lemma deallocuvm_spec pgdir pts us e w um l c oldsz newsz : KERNBASE < k_end -> aspace w pgdir pts um us l -> kmem_ok w i c ->
  0 <= newsz < oldsz -> oldsz <= KERNBASE ->
  exists w' l', deallocuvm pgdir oldsz newsz w e = Ret newsz w' e /\ dealloced w pgdir pts um us l (npages newsz) oldsz w' l'.
Proof.
  intros Hend Has Hok Hs Ho. pose proof (npages_bounds newsz) as Hnp. unfold deallocuvm. rewrite Z.geb_leb, (proj2 (Z.leb_gt _ _)) by lia. rewrite roundup_npages by lia.
  replace (Z.to_nat (oldsz / PGSIZE) + 2)%nat with (S (S (Z.to_nat (oldsz / PGSIZE)))) by lia.
  destruct (deallocuvm_loop_spec pgdir pts us oldsz e Hend Ho (S (Z.to_nat (oldsz / PGSIZE))) w um l c (npages newsz) Has Hok) as (w' & l' & E & Hd); [lia| |].
  { unfold PGSIZE. pose proof (Z.div_mod oldsz 4096 ltac:(lia)). pose proof (Z.mod_pos_bound oldsz 4096 ltac:(lia)). pose proof (Z.div_pos oldsz 4096 ltac:(lia) ltac:(lia)). lia. }
  exists w', l'. split; [|done]. by rewrite (kbind_ret _ _ _ _ _ _ _ E).
Qed.

(** ** freevm *)

(** The page tables from slot [d] on. *)
Definition tables_from (d : Z) pts : gmap Z Z := filter (fun x => d <= x.1) pts.

Lemma tables_lookup d pts k : tables_from d pts !! k = if decide (d <= k) then pts !! k else None.
Proof.
  unfold tables_from. rewrite map_lookup_filter. destruct (pts !! k) as [x|]; cbn; [|by destruct (decide _)].
  destruct (decide (d <= k)); [by rewrite option_guard_True|by rewrite option_guard_False].
Qed.

Lemma tables_step d pts : tables_from d pts = match pts !! d with Some pt => <[d := pt]> (tables_from (d + 1) pts) | None => tables_from (d + 1) pts end.
Proof.
  apply map_eq. intros k. destruct (pts !! d) as [pt|] eqn:Hd; [destruct (decide (k = d)) as [->|Hne]|].
  - by rewrite lookup_insert_eq, tables_lookup, decide_True by lia.
  - rewrite lookup_insert_ne, !tables_lookup by done. destruct (decide (d <= k)), (decide (d + 1 <= k)); done || lia.
  - rewrite !tables_lookup. destruct (decide (d <= k)), (decide (d + 1 <= k)); try (done || lia). by assert (k = d) as -> by lia.
Qed.

Lemma free_tables pgdir pts us e : page_ok pgdir -> map_Forall (fun _ => page_ok) pts -> forall k d w l c,
  d + Z.of_nat k = 1024 -> 0 <= d -> dir_ok (w_mem w) pgdir pts -> is_freelist w l -> kmem_ok w i c ->
  NoDup (pgdir :: vals (tables_from d pts) ++ us ++ l) ->
  exists w' l', kfor (seq (Z.to_nat d) k) (fun j => v <- kget (fun w => ld w (pgdir + 4 * Z.of_nat j)); kwhen (has v PTE_P) (kfree (P2V (PTE_ADDR v)))) w e = Ret tt w' e /\
    is_freelist w' l' /\ l' ≡ₚ vals (tables_from d pts) ++ l /\ mem_only i w w' /\ mem_frame (vals (tables_from d pts)) (w_mem w) (w_mem w').
Proof.
  intros Hpd Hpts. induction k as [|k IH]; intros d w l c Hk Hd [Hdk Hdir] Hfl Hok Hnd.
  - exists w, l. assert (tables_from d pts = ∅) as ->.
    { apply map_eq. intros j. rewrite tables_lookup, lookup_empty. destruct (decide (d <= j)); [|done]. destruct (pts !! j) as [pt|] eqn:Hj; [|done]. assert (0 <= j < 1024) by exact (Hdk j pt Hj). lia. }
    split_and!; [done|done|done|apply mem_only_refl|apply mem_frame_refl].
  - cbn [seq kfor kbind kget]. rewrite Z2Nat.id by lia. replace (S (Z.to_nat d)) with (Z.to_nat (d + 1)) by lia.
    change (ld w (pgdir + 4 * d)) with (ldm (w_mem w) (pgdir + 4 * d)). rewrite Hdir by lia. rewrite (tables_step d pts) in Hnd |- *.
    destruct (pts !! d) as [pt|] eqn:Hpt.
    + pose proof (Hpts d pt Hpt) as Hp. destruct (pde_word_eq pt Hp) as (_ & _ & -> & ->). cbn [kwhen].
      assert (tables_from (d + 1) pts !! d = None) as Hnone by (rewrite tables_lookup; by rewrite decide_False by lia).
      rewrite (kfree_eq w i c pt e Hok Hp). set (w1 := freed pt (kmem_settled i w)).
      pose proof (vals_insert _ _ pt Hnone) as Hv. rewrite Hv in Hnd. cbn [app] in Hnd.
      pose proof (freed_frame w pt Hp) as Hf. fold w1 in Hf.
      pose proof Hnd as [Hnd1 Hnd2]%NoDup_cons. apply NoDup_cons in Hnd2 as [Hnd2 _].
      destruct (mem_only_ok i _ _ c (mem_only_freed i w pt) Hok) as [c1 Hok1].
      destruct (IH (d + 1) w1 (pt :: l) c1) as (w' & l' & E & Hfl' & Hl' & Ho' & Hf'); [lia|lia| | |done| |].
      * split; [done|]. intros j Hj. rewrite <-Hdir by done. apply (mem_frame_page [pt] _ _ pgdir); [done|apply page_ok_all; by constructor|by apply page_ok_mod|set_solver|unfold PGSIZE; lia].
      * apply freed_freelist; [done|by apply kmem_settled_freelist|]. clear -Hnd2. set_solver.
      * rewrite app_assoc, <-Permutation_middle, <-app_assoc. done.
      * exists w', l'. split; [exact E|]. split; [exact Hfl'|]. split; [|split; [exact (mem_only_trans i _ _ _ (mem_only_freed i w pt) Ho')|]].
        -- rewrite Hl', Hv. cbn [app]. symmetry. apply Permutation_middle.
        -- eapply mem_frame_trans; (eapply mem_frame_mono; [|done]); intros q; rewrite Hv; clear; set_solver.
    + change (has 0 PTE_P) with false. cbn [kwhen kret]. apply (IH (d + 1) w l c); [lia|lia|done|done|done|done].
Qed.

Lemma tables_all pts : map_Forall (fun d _ => 0 <= d < 1024) pts -> tables_from 0 pts = pts.
Proof.
  intros Hp. apply map_eq. intros k. rewrite tables_lookup. destruct (decide (0 <= k)); [done|]. destruct (pts !! k) as [pt|] eqn:Hk; [|done].
  assert (0 <= k < 1024) by exact (Hp k pt Hk). lia.
Qed.

(** Every page of the address space is free afterwards. *)
Lemma freevm_spec pgdir pts us e w um l c : KERNBASE < k_end -> aspace w pgdir pts um us l -> kmem_ok w i c ->
  exists w' l', freevm pgdir w e = Ret tt w' e /\ is_freelist w' l' /\ l' ≡ₚ pgdir :: vals pts ++ pages um ++ l /\ mem_only i w w' /\
    mem_frame (pgdir :: vals pts ++ pages um) (w_mem w) (w_mem w').
Proof.
  intros Hend Has Hok. pose proof (as_inv _ _ _ _ _ _ Has) as ([Hdk _] & _ & _ & Hpg). pose proof Hpg as [Hpd Hpg']%Forall_cons. apply Forall_app in Hpg' as [Hpt _].
  assert (map_Forall (fun _ => page_ok) pts) as Hpts.
  { intros d pt Hd. rewrite Forall_forall in Hpt. apply Hpt. apply vals_elem. eauto. }
  unfold freevm. rewrite (proj2 (Z.eqb_neq pgdir 0)) by (destruct Hpd as (_ & _ & ?); unfold KERNBASE in *; lia).
  destruct (deallocuvm_spec pgdir pts us e w um l c KERNBASE 0 Hend Has Hok) as (w1 & l1 & E1 & [D1 D2 D3 D4 D5]); [unfold KERNBASE; lia|done|].
  change (npages 0) with 0 in *. assert (cut 0 KERNBASE um = ∅ /\ dropped 0 KERNBASE um = um) as [Hc Hdr].
  { split; apply map_eq; intros n; rewrite ?cut_lookup, ?dropped_lookup, ?lookup_empty; destruct (decide (0 <= n /\ 4096 * n < KERNBASE)) as [|Hno]; try done;
      (destruct (um !! n) as [x|] eqn:Hx; [|done]); destruct (as_um _ _ _ _ _ _ Has n x Hx) as [Hr _]; unfold KERNBASE in *; lia. }
  rewrite Hc in D1. rewrite Hdr in D3, D4. destruct (mem_only_ok i _ _ c D2 Hok) as [c1 Hok1].
  destruct (as_inv _ _ _ _ _ _ D1) as (Hdir1 & Hfl1 & Hnd1 & _). change (pages ∅ ++ us) with us in Hnd1. rewrite <-(tables_all pts Hdk) in Hnd1.
  destruct (free_tables pgdir pts us e Hpd Hpts 1024 0 w1 l1 c1 eq_refl ltac:(lia) Hdir1 Hfl1 Hok1 Hnd1) as (w2 & l2 & E2 & Hfl2 & Hl2 & Ho2 & Hf2).
  rewrite (tables_all pts Hdk) in *. destruct (mem_only_ok i _ _ c1 Ho2 Hok1) as [c2 Hok2].
  assert (pgdir ∉ l2) as Hnin. { rewrite Hl2. apply NoDup_cons in Hnd1 as [Hnd1 _]. clear -Hnd1. set_solver. }
  exists (freed pgdir (kmem_settled i w2)), (pgdir :: l2). split; [|split; [|split; [|split]]].
  - rewrite (kbind_ret _ _ _ _ _ _ _ E1). rewrite (kbind_ret _ _ _ _ _ _ _ E2). by apply (kfree_eq w2 i c2).
  - apply freed_freelist; [done|by apply kmem_settled_freelist|done].
  - by rewrite Hl2, D3.
  - eapply mem_only_trans; [exact D2|]. eapply mem_only_trans; [exact Ho2|apply mem_only_freed].
  - pose proof (freed_frame w2 pgdir Hpd) as Hf3.
    apply (mem_frame_trans _ _ (w_mem w1)); [|apply (mem_frame_trans _ _ (w_mem w2))]; (eapply mem_frame_mono; [|eassumption]); clear; set_solver.
Qed.

(** ** allocuvm *)

Lemma aspace_ext w w' pgdir pts um us l : w_mem w' = w_mem w -> w_freelist w' = w_freelist w -> aspace w pgdir pts um us l -> aspace w' pgdir pts um us l.
Proof. intros Hm Hf [([Hd1 Hd2] & [Hc Hn] & Hr) Hu He]. split; [split; [split|split; [split|]]|..]; rewrite ?Hm, ?Hf; done. Qed.

(** A step that also prints. *)
Definition mem_con (w w' : world) : Prop := exists g, mem_only i (set_w_con g w) w'.

Lemma mem_only_con w w' : mem_only i w w' -> mem_con w w'.
Proof. intros Ho. exists id. by destruct w. Qed.

Lemma mem_con_trans w1 w2 w3 : mem_only i w1 w2 -> mem_con w2 w3 -> mem_con w1 w3.
Proof.
  intros Ho [g Hg]. exists g. eapply mem_only_trans; [|exact Hg]. destruct Ho as (m & f & [->| ->]); exists m, f; [left|right]; done.
Qed.

Lemma mem_con_only w1 w2 w3 : mem_con w1 w2 -> mem_only i w2 w3 -> mem_con w1 w3.
Proof. intros [g Hg] Ho. exists g. by eapply mem_only_trans. Qed.

(** CPU [i] can write to the console. *)
Definition printable w : Prop := con_ok (w_con w) /\ con_free w /\ exists c, cpu_ok w i c.

Lemma settled_ok w c : cpu_ok w i c -> cpu_ok (settled i w) i (cpu_settle (w_if w) c).
Proof. intros (Hon & Hn & Hif). split; [|done]. by apply (upd_cpu_on w i c (cpu_settle (w_if w))). Qed.

Lemma mem_only_printable w w' : mem_only i w w' -> printable w -> printable w'.
Proof.
  intros (m & f & [->| ->]) (H1 & H2 & c & H3); (split; [exact H1|]); (split; [exact H2|]); [by exists c|].
  exists (cpu_settle (w_if w) c). by apply settled_ok.
Qed.

Lemma printkn_step w c s e cs : kmem_ok w i c -> printable w -> format_chars (str s ++ [10]) [] = Some cs ->
  exists w', printkn s [] w e = Ret tt w' e /\ mem_con w w' /\ w_mem w' = w_mem w /\ w_freelist w' = w_freelist w /\ exists c', kmem_ok w' i c'.
Proof.
  intros Hok (Hcon & Hfree & c0 & Hcpu) Hf. eexists. split; [by apply (cprintf_eq _ _ cs w i c0)|]. unfold con_settled. destruct (cn_locking (w_con w) =? 0).
  - split; [by exists (put_cons cs); apply mem_only_refl|]. split; [done|]. split; [done|]. by exists c.
  - split; [by exists (put_cons cs); apply (mem_only_settled i (set_w_con (put_cons cs) w))|]. split; [done|]. split; [done|].
    destruct (mem_only_ok i w (settled i w) c (mem_only_settled i w) Hok) as [c' Hok']. by exists c'.
Qed.

Definition zero_page (m : memory) (p : Z) : Prop := forall b, p <= b < p + PGSIZE -> b mod 4 = 0 -> ldm m b = 0.

(** A page from the free list, cleared. *)
Lemma take_page w pgdir pts um us q l c e (g : memory -> memory) : aspace w pgdir pts um us (q :: l) -> kmem_ok w i c ->
  (forall m, mem_frame [q] m (g m)) ->
  exists w', kalloc w e = Ret q w' e /\ w_mem w' = w_mem w /\ mem_only i w (set_w_mem g w') /\ aspace (set_w_mem g w') pgdir pts um (q :: us) l /\
    page_ok q /\ q ∉ pgdir :: vals pts ++ pages um ++ us ++ l /\ kern_same w pts (set_w_mem g w') pts.
Proof.
  intros [Hinv Hum Hent] Hok Hg. pose proof (pt_inv_alloc w pgdir pts _ q l Hinv) as Hinv1. set (w1 := alloced (kmem_settled i w)) in *.
  assert (w_mem w1 = w_mem w) as Hm by (unfold w1; by rewrite alloced_mem, kmem_settled_mem).
  assert (pt_inv w1 pgdir pts (pages um ++ q :: us) l) as Hinv2 by (eapply pt_inv_perm; [|exact Hinv1]; apply Permutation_middle).
  destruct (pt_inv_page_write w1 pgdir pts _ l q g Hinv2) as [Hinv3 Hp3]; [rewrite elem_of_app, elem_of_cons; auto|apply Hg|].
  destruct Hinv as (_ & Hfl & Hnd & _). destruct (proj1 Hfl) as (Hhead & Hq & _). exists w1.
  split; [rewrite (kalloc_eq w i c e Hok), Hhead; reflexivity|]. split; [done|]. split; [|split; [|split; [done|split]]].
  - eapply mem_only_trans; [apply mem_only_alloced|apply mem_only_mem].
  - split; [done|done|]. intros n Hn. change (w_mem (set_w_mem g w1)) with (g (w_mem w1)). rewrite Hp3, Hm. by apply Hent.
  - rewrite !app_assoc, <-Permutation_middle, perm_swap, <-!app_assoc in Hnd. by apply NoDup_cons in Hnd as [? _].
  - intros n Hn. change (w_mem (set_w_mem g w1)) with (g (w_mem w1)). by rewrite Hp3, Hm.
Qed.

(** What allocuvm has done when the pages [a] to [n - 1] are new. *)
Record grown w0 pgdir pts0 um0 us l0 a n w pts l (new : gmap Z (Z * Z)) : Prop := mkGrown {
  gr_space : aspace w pgdir pts (new ∪ um0) us l;
  gr_dom : forall k x, new !! k = Some x -> a <= k < n /\ x.2 = 7 /\ zero_page (w_mem w) x.1;
  gr_all : forall k, a <= k < n -> is_Some (new !! k);
  gr_pages : pages new ++ vals pts ++ l ≡ₚ vals pts0 ++ l0;
  gr_frame : mem_frame (pgdir :: vals pts0 ++ l0) (w_mem w0) (w_mem w);
  gr_kern : kern_same w0 pts0 w pts;
  gr_only : mem_only i w0 w
}.

Lemma grown_refl w pgdir pts um us l a : aspace w pgdir pts um us l -> grown w pgdir pts um us l a a w pts l ∅.
Proof.
  intros Has. split; [by rewrite map_empty_union|by intros k x Hk; rewrite lookup_empty in Hk|lia|done|apply mem_frame_refl|done|apply mem_only_refl].
Qed.

(** A turn that finds a page, and for which there is room in the tables. *)
Lemma grown_turn w0 pgdir pts0 um0 us l0 a n w pts q l new w2 pts' l' :
  grown w0 pgdir pts0 um0 us l0 a n w pts (q :: l) new -> a <= n ->
  q ∉ pgdir :: vals pts ++ pages (new ∪ um0) ++ us ++ l -> page_ok q ->
  mem_only i w w2 -> w_mem w2 = memset q 0 PGSIZE (w_mem w) -> kern_same w pts w2 pts ->
  forall w', moved pgdir w2 pts l w' pts' l' -> kern_same w2 pts w' pts' -> new !! n = None ->
  aspace w' pgdir pts' (<[n := (q, 7)]> (new ∪ um0)) us l' ->
  grown w0 pgdir pts0 um0 us l0 a (n + 1) w' pts' l' (<[n := (q, 7)]> new).
Proof.
  intros [G1 G2 G3 G4 G5 G6 G7] Han Hq Hqok Ho Hm Hk w' [M1 M2 M3] Hk' Hnone Has.
  assert (Forall (fun q => q mod PGSIZE = 0) (table_pages pgdir pts l)) as Htp.
  { pose proof (table_pages_ok _ _ _ _ _ (as_inv _ _ _ _ _ _ G1)) as Ht. unfold table_pages in *. rewrite !Forall_cons, !Forall_app, !Forall_cons in *. tauto. }
  assert (forall p b, page_ok p -> p ∉ table_pages pgdir pts l -> p <= b < p + PGSIZE -> ldm (w_mem w') b = ldm (w_mem w2) b) as Hkeep.
  { intros p b Hp Hnin Hb. apply (mem_frame_page _ _ _ p b M3 Htp (page_ok_mod p Hp) Hnin Hb). }
  assert (q ∉ table_pages pgdir pts l) as Hqt by (unfold table_pages; clear -Hq; set_solver).
  split.
  - by rewrite <-insert_union_l.
  - intros k x Hx. destruct (decide (k = n)) as [->|Hne].
    + rewrite lookup_insert_eq in Hx. injection Hx as <-. split; [lia|]. split; [done|]. intros b Hb Hb4. cbn [fst] in Hb. rewrite (Hkeep q) by done.
      rewrite Hm. apply ldm_memset0; [by apply page_ok_mod|done|done].
    + rewrite lookup_insert_ne in Hx by done. destruct (G2 k x Hx) as (H1 & H2 & H3). split; [lia|]. split; [done|]. destruct x as [p f]. cbn [fst snd] in *.
      assert ((new ∪ um0) !! k = Some (p, f)) as Hx' by by apply lookup_union_Some_l.
      destruct (aspace_page _ _ _ _ _ _ _ _ _ G1 Hx') as (Hp & _).
      assert (p ∈ pages (new ∪ um0)) as Hpp by (apply pages_elem; eauto).
      assert (p <> q) as Hpq by (intros ->; apply Hq; clear -Hpp; set_solver).
      assert (p ∉ table_pages pgdir pts l) as Hpt.
      { destruct (used_not_table _ _ _ _ _ p (as_inv _ _ _ _ _ _ G1)) as [_ Hnt]; [apply elem_of_app; by left|].
        unfold table_pages in *. rewrite !elem_of_cons, !elem_of_app, ?elem_of_cons in *. tauto. }
      intros b Hb Hb4. rewrite (Hkeep p) by done. rewrite Hm.
      rewrite (mem_frame_page [q] (w_mem w) _ p b (memset_frame q 0 _ (page_ok_mod q Hqok))); [by apply H3|by apply page_ok_all; constructor|by apply page_ok_mod|set_solver|done].
  - intros k Hk0. destruct (decide (k = n)) as [->|Hne]; [rewrite lookup_insert_eq; eauto|]. rewrite lookup_insert_ne by done. apply G3. lia.
  - rewrite pages_insert by done. cbn [app]. rewrite M2, <-G4. rewrite !app_assoc. apply Permutation_middle.
  - apply (mem_frame_trans _ _ (w_mem w)); [done|]. apply (mem_frame_trans _ _ (w_mem w2)); [rewrite Hm|].
    + eapply mem_frame_mono; [|apply memset_frame; by apply page_ok_mod]. intros p Hp%list_elem_of_singleton. subst p. right. rewrite <-G4. clear. set_solver.
    + eapply mem_frame_mono; [|exact M3]. unfold table_pages. intros p. rewrite !elem_of_cons, <-G4. clear. set_solver.
  - eapply kern_same_trans; [done|]. by eapply kern_same_trans.
  - eapply mem_only_trans; [done|]. by eapply mem_only_trans.
Qed.

Lemma split_new a b new um0 : (forall k x, new !! k = Some x -> a <= k /\ 4096 * k < b) -> (forall k, a <= k -> um0 !! k = None) ->
  dropped a b (new ∪ um0) = new /\ cut a b (new ∪ um0) = um0.
Proof.
  intros Hn Hu. split; apply map_eq; intros k; rewrite ?dropped_lookup, ?cut_lookup; destruct (new !! k) as [x|] eqn:Hx.
  - rewrite decide_True by by apply (Hn k x). by apply lookup_union_Some_l.
  - destruct (decide _) as [[Ha Hb]|]; [|done]. rewrite lookup_union_r by done. by apply Hu.
  - rewrite decide_True by by apply (Hn k x). symmetry. apply Hu. by apply (Hn k x).
  - rewrite lookup_union_r by done. destruct (decide _) as [[Ha Hb]|]; [|done]. symmetry. by apply Hu.
Qed.

(** allocuvm gives up: it says so and frees what it has added. *)
Lemma give_back w pgdir pts um0 us l c new oldsz newsz s cs e :
  KERNBASE < k_end -> aspace w pgdir pts (new ∪ um0) us l -> kmem_ok w i c -> printable w -> format_chars (str s ++ [10]) [] = Some cs ->
  0 <= oldsz < newsz -> newsz <= KERNBASE ->
  (forall k x, new !! k = Some x -> npages oldsz <= k /\ 4096 * k < newsz) -> (forall k, npages oldsz <= k -> um0 !! k = None) ->
  exists w1 w2 l' c', printkn s [] w e = Ret tt w1 e /\ deallocuvm pgdir newsz oldsz w1 e = Ret oldsz w2 e /\
    aspace w2 pgdir pts um0 us l' /\ l' ≡ₚ pages new ++ l /\ mem_con w w2 /\ mem_frame (vals pts ++ pages new) (w_mem w) (w_mem w2) /\
    kern_same w pts w2 pts /\ kmem_ok w2 i c'.
Proof.
  intros Hend Has Hok Hpr Hfmt Hs Hs' Hnew Hum. destruct (printkn_step w c s e cs Hok Hpr Hfmt) as (w1 & E1 & Hc1 & Hm1 & Hf1 & c1 & Hok1).
  pose proof (aspace_ext w w1 pgdir pts _ us l Hm1 Hf1 Has) as Has1.
  destruct (deallocuvm_spec pgdir pts us e w1 _ l c1 newsz oldsz Hend Has1 Hok1 Hs Hs') as (w2 & l' & E2 & [D1 D2 D3 D4 D5]).
  destruct (split_new (npages oldsz) newsz new um0 Hnew Hum) as [Hd Hcut]. rewrite Hcut in D1. rewrite Hd in D3, D4. rewrite Hm1 in D4.
  destruct (mem_only_ok i _ _ c1 D2 Hok1) as [c2 Hok2].
  exists w1, w2, l', c2. do 4 (split; [done|]). split; [by eapply mem_con_only|]. split; [done|]. split; [|done].
  intros n Hn. rewrite (D5 n Hn). by rewrite Hm1.
Qed.

(** The result of allocuvm. *)
Definition alloc_result w pgdir pts um us l oldsz newsz (r : Z) w' : Prop :=
  exists pts' l', mem_con w w' /\ mem_frame (pgdir :: vals pts ++ l) (w_mem w) (w_mem w') /\ kern_same w pts w' pts' /\
  ((exists new, r = newsz /\ grown w pgdir pts um us l (npages oldsz) (npages newsz) w' pts' l' new) \/
   (r = 0 /\ aspace w' pgdir pts' um us l' /\ vals pts' ++ l' ≡ₚ vals pts ++ l /\
    Z.of_nat (length l) <= npages newsz - npages oldsz + 1024)).

Lemma tables_few pts : map_Forall (fun d _ => 0 <= d < 1024) pts -> (length (vals pts) <= 1024)%nat.
Proof.
  intros Hp. unfold vals. rewrite length_fmap. rewrite <-(length_fmap fst). change 1024%nat with (length (seqZ 0 1024)).
  apply submseteq_length, NoDup_submseteq; [apply NoDup_fst_map_to_list|]. intros d (x & -> & Hx)%list_elem_of_fmap. destruct x as [d pt].
  apply elem_of_map_to_list in Hx. apply elem_of_seqZ. assert (0 <= d < 1024) by exact (Hp d pt Hx). cbn. lia.
Qed.

Lemma pages_few (new : gmap Z (Z * Z)) a n : a <= n -> (forall k x, new !! k = Some x -> a <= k < n) -> Z.of_nat (length (pages new)) <= n - a.
Proof.
  intros Han Hn. unfold pages, vals. rewrite !length_fmap, <-(length_fmap fst).
  assert (length (map_to_list new).*1 <= length (seqZ a (n - a)))%nat as Hl; [|rewrite length_seqZ in Hl; lia].
  apply submseteq_length, NoDup_submseteq; [apply NoDup_fst_map_to_list|]. intros d (x & -> & Hx)%list_elem_of_fmap. destruct x as [d y].
  apply elem_of_map_to_list in Hx. apply elem_of_seqZ. specialize (Hn d y Hx). cbn. lia.
Qed.

(** A page in use elsewhere is freed. *)
Lemma aspace_free w pgdir pts um us l p c e : aspace w pgdir pts um (p :: us) l -> kmem_ok w i c ->
  exists w', kfree p w e = Ret tt w' e /\ aspace w' pgdir pts um us (p :: l) /\ mem_only i w w' /\ mem_frame [p] (w_mem w) (w_mem w') /\ kern_same w pts w' pts.
Proof.
  intros [Hinv Hum Hent] Hok. assert (pt_inv w pgdir pts (p :: pages um ++ us) l) as Hinv1 by (eapply pt_inv_perm; [|exact Hinv]; symmetry; apply Permutation_middle).
  destruct (pt_inv_free w pgdir pts _ p l Hinv1) as (Hinv2 & Ho & Hf & Hp). exists (freed p (kmem_settled i w)).
  assert (page_ok p) as Hpok by (destruct Hinv1 as (_ & _ & _ & Hpg); apply Forall_cons in Hpg as [_ Hpg]; apply Forall_app in Hpg as [_ Hpg]; by apply Forall_cons in Hpg as [? _]).
  split; [by apply (kfree_eq w i c)|]. split; [|split; [done|split; [done|]]].
  - split; [done|done|]. intros n Hn. rewrite Hp. by apply Hent.
  - intros n Hn. apply Hp.
Qed.

Section alloc.
Context (w0 : world) (pgdir : Z) (pts0 : gmap Z Z) (um0 : gmap Z (Z * Z)) (us l0 : list Z) (oldsz newsz : Z) (e : sched_env world).
Hypotheses (Hend : KERNBASE < k_end) (Hold : 0 <= oldsz <= newsz) (Hsz : newsz < KERNBASE)
  (Hum : forall k, npages oldsz <= k -> um0 !! k = None) (Hpr : printable w0).
Notation grown_to n w pts l new := (grown w0 pgdir pts0 um0 us l0 (npages oldsz) n w pts l new).

Lemma new_range n w pts l new : grown_to n w pts l new -> n <= npages newsz ->
  forall k x, new !! k = Some x -> npages oldsz <= k /\ 4096 * k < newsz.
Proof using. intros Hg Hn k x Hk. destruct (gr_dom _ _ _ _ _ _ _ _ _ _ _ _ Hg k x Hk) as [Hr _]. pose proof (npages_bounds newsz). lia. Qed.

Lemma short_memory n w pts new q : grown_to n w pts q new -> npages oldsz <= n -> n < npages newsz -> (length q <= 1)%nat ->
  Z.of_nat (length l0) <= npages newsz - npages oldsz + 1024.
Proof using.
  intros Hg Hn Hn' Hq. pose proof (Permutation_length (gr_pages _ _ _ _ _ _ _ _ _ _ _ _ Hg)) as Hl. rewrite !length_app in Hl.
  destruct (as_inv _ _ _ _ _ _ (gr_space _ _ _ _ _ _ _ _ _ _ _ _ Hg)) as ([Hk _] & _). pose proof (tables_few pts Hk).
  pose proof (pages_few new (npages oldsz) n Hn) as Hp. specialize (Hp ltac:(intros k x Hx; by apply (gr_dom _ _ _ _ _ _ _ _ _ _ _ _ Hg k x))). lia.
Qed.

(** No page is left. *)
Lemma alloc_empty n w pts new c w1 : grown_to n w pts [] new -> kmem_ok w i c -> npages oldsz <= n < npages newsz -> w1 = kmem_settled i w ->
  exists w2 w', printkn "allocuvm out of memory" [] w1 e = Ret tt w2 e /\ deallocuvm pgdir newsz oldsz w2 e = Ret oldsz w' e /\
    alloc_result w0 pgdir pts0 um0 us l0 oldsz newsz 0 w'.
Proof using All.
  intros Hg Hok Hn ->. pose proof (npages_bounds newsz). pose proof (npages_bounds oldsz).
  pose proof (aspace_ext _ (kmem_settled i w) _ _ _ _ _ (kmem_settled_mem w) ltac:(unfold kmem_settled; by case_match) (gr_space _ _ _ _ _ _ _ _ _ _ _ _ Hg)) as Has.
  destruct (mem_only_ok i _ _ c (mem_only_kmem_settled i w) Hok) as [c1 Hok1].
  pose proof (mem_only_trans _ _ _ _ (gr_only _ _ _ _ _ _ _ _ _ _ _ _ Hg) (mem_only_kmem_settled i w)) as Ho.
  destruct (give_back _ pgdir pts um0 us [] c1 new oldsz newsz "allocuvm out of memory" (str "allocuvm out of memory" ++ [10]) e Hend Has Hok1
    (mem_only_printable _ _ Ho Hpr) eq_refl ltac:(lia) ltac:(lia) (new_range n w pts [] new Hg ltac:(lia)) Hum)
    as (w1 & w2 & l' & c' & E1 & E2 & Has2 & Hl' & Hc2 & Hf2 & Hk2 & _).
  exists w1, w2. split; [done|]. split; [done|]. exists pts, l'. pose proof (gr_pages _ _ _ _ _ _ _ _ _ _ _ _ Hg) as Hpg. rewrite app_nil_r in Hpg, Hl'.
  split; [by eapply mem_con_trans|]. split; [|split].
  - eapply mem_frame_trans; [exact (gr_frame _ _ _ _ _ _ _ _ _ _ _ _ Hg)|]. eapply mem_frame_mono; [|rewrite <-(kmem_settled_mem w); exact Hf2].
    intros p. rewrite elem_of_cons, <-Hpg. clear. set_solver.
  - intros k Hk. rewrite (Hk2 k Hk), kmem_settled_mem. by apply (gr_kern _ _ _ _ _ _ _ _ _ _ _ _ Hg).
  - right. split; [done|]. split; [done|]. split; [rewrite Hl'; etransitivity; [apply Permutation_app_comm|done]|].
    apply (short_memory n w pts new [] Hg); [lia|lia|cbn; lia].
Qed.

(** No page is left for a page table. *)
Lemma alloc_no_table n w pts l new q w2 w3 pts3 c3 : grown_to n w pts (q :: l) new -> npages oldsz <= n < npages newsz ->
  mem_only i w w2 -> mem_frame [q] (w_mem w) (w_mem w2) -> kern_same w pts w2 pts -> moved pgdir w2 pts l w3 pts3 [] -> kern_same w2 pts w3 pts3 ->
  aspace w3 pgdir pts3 (new ∪ um0) (q :: us) [] -> kmem_ok w3 i c3 ->
  exists w4 w5 w', printkn "allocuvm out of memory (2)" [] w3 e = Ret tt w4 e /\ deallocuvm pgdir newsz oldsz w4 e = Ret oldsz w5 e /\
    kfree q w5 e = Ret tt w' e /\ alloc_result w0 pgdir pts0 um0 us l0 oldsz newsz 0 w'.
Proof using All.
  intros Hg Hn Ho2 Hf2 Hk2 [M1 M2 M3] Hk3 Has Hok. pose proof (npages_bounds newsz). pose proof (npages_bounds oldsz).
  assert (mem_only i w0 w3) as Ho by (eapply mem_only_trans; [exact (gr_only _ _ _ _ _ _ _ _ _ _ _ _ Hg)|]; by eapply mem_only_trans).
  destruct (give_back w3 pgdir pts3 um0 (q :: us) [] c3 new oldsz newsz "allocuvm out of memory (2)" (str "allocuvm out of memory (2)" ++ [10]) e Hend Has Hok
    (mem_only_printable _ _ Ho Hpr) eq_refl ltac:(lia) ltac:(lia) (new_range n w pts _ new Hg ltac:(lia)) Hum)
    as (w4 & w5 & l' & c' & E1 & E2 & Has5 & Hl' & Hc5 & Hf5 & Hk5 & Hok5).
  destruct (aspace_free w5 pgdir pts3 um0 us l' q c' e Has5 Hok5) as (w6 & E3 & Has6 & Ho6 & Hf6 & Hk6).
  pose proof (gr_pages _ _ _ _ _ _ _ _ _ _ _ _ Hg) as Hpg. rewrite app_nil_r in M2, Hl'.
  assert (q :: pages new ++ vals pts3 ≡ₚ vals pts0 ++ l0) as Hall by (rewrite M2, <-Hpg, !app_assoc; apply Permutation_middle).
  exists w4, w5, w6. split; [done|]. split; [done|]. split; [done|]. exists pts3, (q :: l').
  split; [eapply mem_con_trans; [exact Ho|]; by eapply mem_con_only|]. split; [|split].
  - eapply mem_frame_trans; [exact (gr_frame _ _ _ _ _ _ _ _ _ _ _ _ Hg)|]. eapply mem_frame_trans; [eapply mem_frame_mono; [|exact Hf2]|].
    { intros p. rewrite elem_of_cons, <-Hall. clear. set_solver. }
    eapply mem_frame_trans; [eapply mem_frame_mono; [|exact M3]|eapply mem_frame_trans; [eapply mem_frame_mono; [|exact Hf5]|eapply mem_frame_mono; [|exact Hf6]]].
    + unfold table_pages. intros p. rewrite !elem_of_cons, <-Hpg. clear. set_solver.
    + intros p. rewrite elem_of_cons, <-Hall. clear. set_solver.
    + intros p. rewrite elem_of_cons, <-Hall. clear. set_solver.
  - eapply kern_same_trans; [exact (gr_kern _ _ _ _ _ _ _ _ _ _ _ _ Hg)|]. eapply kern_same_trans; [exact Hk2|]. eapply kern_same_trans; [exact Hk3|]. by eapply kern_same_trans.
  - right. split; [done|]. split; [done|]. split.
    + rewrite Hl'. rewrite <-Permutation_middle, (Permutation_app_comm (vals pts3)). exact Hall.
    + pose proof (Permutation_length Hall) as Hl. cbn [length] in Hl. rewrite !length_app in Hl.
      destruct (as_inv _ _ _ _ _ _ Has) as ([Hk _] & _). pose proof (tables_few pts3 Hk).
      pose proof (pages_few new (npages oldsz) n ltac:(lia)) as Hp. specialize (Hp ltac:(intros k x Hx; by apply (gr_dom _ _ _ _ _ _ _ _ _ _ _ _ Hg k x))). lia.
Qed.

Lemma allocuvm_loop_spec : forall k w pts l new c n, grown_to n w pts l new -> kmem_ok w i c -> npages oldsz <= n <= npages newsz ->
  newsz <= 4096 * (n + Z.of_nat k) ->
  exists r w', allocuvm_loop (S k) pgdir (4096 * n) oldsz newsz w e = Ret r w' e /\ alloc_result w0 pgdir pts0 um0 us l0 oldsz newsz r w'.
Proof using All.
  pose proof (npages_bounds newsz) as Hnb. pose proof (npages_bounds oldsz) as Hob. induction k as [|k IH]; intros w pts l new c n Hg Hok Hn Hk.
  { assert (n = npages newsz) as -> by lia. cbn [allocuvm_loop]. rewrite (proj2 (Z.ltb_ge _ _)) by lia. exists newsz, w. split; [done|]. exists pts, l.
    split; [apply mem_only_con, Hg|]. split; [apply Hg|]. split; [apply Hg|]. left. by exists new. }
  destruct (Z.ltb_spec (4096 * n) newsz) as [Hlt|Hge]; cbn [allocuvm_loop].
  2:{ assert (n = npages newsz) as -> by lia. rewrite (proj2 (Z.ltb_ge _ _)) by lia. exists newsz, w. split; [done|]. exists pts, l.
    split; [apply mem_only_con, Hg|]. split; [apply Hg|]. split; [apply Hg|]. left. by exists new. }
  rewrite (proj2 (Z.ltb_lt _ _)) by lia. unfold KERNBASE in Hsz. assert (0 <= n < 2 ^ 19) as Hnr by lia. pose proof (gr_space _ _ _ _ _ _ _ _ _ _ _ _ Hg) as Has.
  destruct l as [|q l].
  - destruct (alloc_empty n w pts new c _ Hg Hok ltac:(lia) eq_refl) as (w2 & w' & E1 & E2 & Hres). exists 0, w'. split; [|done].
    cbn [kbind]. rewrite (kalloc_eq w i c e Hok). destruct (as_inv _ _ _ _ _ _ Has) as (_ & Hfl & _).
    destruct (alloced_empty w Hfl) as [Hf0 _]. apply (kmem_settled_freelist w i) in Hfl. destruct (alloced_empty _ Hfl) as [_ ->].
    rewrite Hf0. cbn [Z.eqb kbind]. rewrite E1. rewrite E2. done.
  - destruct (take_page w pgdir pts _ us q l c e (memset q 0 PGSIZE) Has Hok) as (w1 & E1 & Hm1 & Ho1 & Has1 & Hq & Hnin & Hk1).
    { intros m. apply memset_frame. destruct (as_inv _ _ _ _ _ _ Has) as (_ & [(_ & [Hq _] & _) _] & _). done. }
    set (w2 := set_w_mem _ w1) in *. destruct (mem_only_ok i _ _ c Ho1 Hok) as [c2 Hok2].
    assert ((new ∪ um0) !! n = None) as Hnone.
    { apply lookup_union_None. split; [|apply Hum; lia]. destruct (new !! n) as [x|] eqn:Hx; [|done]. destruct (gr_dom _ _ _ _ _ _ _ _ _ _ _ _ Hg n x Hx) as [? _]. lia. }
    destruct (map_user w2 pgdir pts _ us l c2 n q 6 e Has1 Hok2 Hnr Hnone ltac:(lia)) as (r & w3 & pts3 & l3 & E3 & Hmv & Hk3 & Hr).
    destruct (mem_only_ok i _ _ c2 (mv_only _ _ _ _ _ _ _ Hmv) Hok2) as [c3 Hok3].
    assert (w_mem w2 = memset q 0 PGSIZE (w_mem w)) as Hm2 by (unfold w2; cbn; by rewrite Hm1).
    assert (q <> 0) as Hq0 by (destruct Hq as (_ & _ & ?); unfold KERNBASE in *; lia).
    cbn [kbind]. rewrite E1, (proj2 (Z.eqb_neq q 0) Hq0). cbn [kbind kmod]. fold w2. change (Z.lor PTE_W PTE_U) with 6. rewrite E3.
    destruct Hr as [[-> Has3]|(-> & Has3 & ->)]; cbn [Z.ltb Z.compare].
    + destruct (IH w3 pts3 l3 (<[n := (q, 7)]> new) c3 (n + 1)) as (r & w' & E4 & Hres); [|done|lia|lia|].
      * eapply (grown_turn w0 pgdir pts0 um0 us l0 _ n w pts q l new w2); try done; [lia|]. apply lookup_union_None in Hnone. apply Hnone.
      * exists r, w'. split; [|done]. unfold PGSIZE. rewrite u32_small by lia. by replace (4096 * n + 4096) with (4096 * (n + 1)) by lia.
    + destruct (alloc_no_table n w pts l new q w2 w3 pts3 c3 Hg ltac:(lia) Ho1 ltac:(rewrite Hm2; apply memset_frame; by apply page_ok_mod) Hk1 Hmv Hk3 Has3 Hok3)
        as (w4 & w5 & w' & E4 & E5 & E6 & Hres).
      exists 0, w'. split; [|done]. cbn [kbind]. rewrite E4, E5, E6. done.
Qed.
End alloc.

(** allocuvm adds the pages, cleared, or leaves the address space as it was. *)
Lemma allocuvm_spec w pgdir pts um us l oldsz newsz c e : KERNBASE < k_end -> aspace w pgdir pts um us l -> kmem_ok w i c -> printable w ->
  0 <= oldsz <= newsz -> newsz < KERNBASE -> (forall n, npages oldsz <= n -> um !! n = None) ->
  exists r w', allocuvm pgdir oldsz newsz w e = Ret r w' e /\ alloc_result w pgdir pts um us l oldsz newsz r w'.
Proof.
  intros Hend Has Hok Hpr Hold Hsz Hum. unfold allocuvm. rewrite Z.geb_leb, (proj2 (Z.leb_gt _ _)) by lia. rewrite (proj2 (Z.ltb_ge _ _)) by lia.
  rewrite roundup_npages by lia. replace (Z.to_nat (newsz / PGSIZE) + 2)%nat with (S (S (Z.to_nat (newsz / PGSIZE)))) by lia.
  pose proof (npages_bounds newsz). pose proof (npages_bounds oldsz).
  eapply (allocuvm_loop_spec w pgdir pts um us l oldsz newsz e Hend Hold Hsz Hum Hpr); [by apply grown_refl|done|lia|].
  unfold PGSIZE. pose proof (Z.div_mod newsz 4096 ltac:(lia)). pose proof (Z.mod_pos_bound newsz 4096 ltac:(lia)). pose proof (Z.div_pos newsz 4096 ltac:(lia) ltac:(lia)). lia.
Qed.
End aspace.
