(* ===== verification/Vmcopy.v ===== *)
(** * New address spaces (vm.c setupkvm, copyuvm)

    The page table setupkvm makes has the kernel's mappings and no user page; copyuvm makes one whose
    user pages hold what the pages of the parent hold.  When memory runs out both give back every
    page they took. *)

From Stdlib Require Import ZArith Lia.
From stdpp Require Import base list gmap strings numbers.
From S2P Require Import Prelude Machine Cstring Spinlock Boot Kalloc Cprintf Sched Vm Vmspec Aspace.
From stdpp Require Import list.
Local Open Scope Z_scope.
Local Open Scope kern_scope.

Section kvm.
Context `{KernelImage} (i : nat).
Implicit Types (w : world) (pts : gmap Z Z) (us l : list Z) (n : Z).

(** ** The kernel's part *)

(** A range of pages: the first, the number of the others, where they are mapped to, the flags. *)
Record krange : Type := mkRange { kr_n : Z; kr_k : nat; kr_pa : Z; kr_perm : Z }.

Definition kr_row (r : krange) : Z * Z * Z * Z :=
  (4096 * kr_n r, kr_pa r, u32 (kr_pa r + 4096 * (Z.of_nat (kr_k r) + 1)), kr_perm r).
Definition kr_in (r : krange) (n : Z) : Prop := kr_n r <= n < kr_n r + (Z.of_nat (kr_k r) + 1).
Instance kr_in_dec r n : Decision (kr_in r n) := _.
Definition kr_ok (r : krange) : Prop :=
  2 ^ 19 <= kr_n r /\ kr_n r + Z.of_nat (kr_k r) < 2 ^ 20 /\ kr_pa r mod 4096 = 0 /\ 0 <= kr_pa r /\ kr_pa r + 4096 * (Z.of_nat (kr_k r) + 1) <= 2 ^ 32 /\
  0 <= kr_perm r < 4096 /\ 4096 * (Z.of_nat (kr_k r) + 1) < 2 ^ 32.
(** The entry of page [n] in the table of these ranges. *)
Fixpoint kent (rs : list krange) (n : Z) : Z :=
  match rs with
  | [] => 0
  | r :: rs' => if decide (kr_in r n) then pte_word (kr_pa r + 4096 * (n - kr_n r)) (kr_perm r) else kent rs' n
  end.

Definition kr_apart (r r' : krange) : Prop := forall n, kr_in r n -> ~ kr_in r' n.

Lemma kmap_loop_spec pgdir us e rs : Forall kr_ok rs -> forall w pts l c (old : list krange),
  pt_inv w pgdir pts us l -> kmem_ok w i c -> (forall n, 0 <= n -> pte (w_mem w) pts n = kent old n) ->
  (forall r r' , r ∈ rs -> r' ∈ old -> kr_apart r r') -> ForallOrdPairs kr_apart rs ->
  exists ok w' pts' l', kmap_loop (kr_row <$> rs) pgdir w e = Ret ok w' e /\ pt_inv w' pgdir pts' us l' /\ moved i pgdir w pts l w' pts' l' /\ new_from (2 ^ 19) pts pts' /\
    (forall n, 0 <= n < 2 ^ 19 -> pte (w_mem w') pts' n = kent old n) /\
    if (ok : bool) then forall n, 0 <= n -> pte (w_mem w') pts' n = kent (reverse rs ++ old) n else l' = [].
Proof.
  intros Hrs. induction Hrs as [|r rs (R1 & R2 & R3 & R4 & R5 & R6 & R7) _ IH]; intros w pts l c old Hinv Hok Hpte Hap Hpw.
  - exists true, w, pts, l. split_and!; [done|done|apply moved_refl; [apply mem_only_refl|done]|apply new_from_refl|intros; apply Hpte; lia|done].
  - cbn [fmap list_fmap kmap_loop kr_row].
    assert (u32 (u32 (kr_pa r + 4096 * (Z.of_nat (kr_k r) + 1)) - kr_pa r) = 4096 * (Z.of_nat (kr_k r) + 1)) as ->.
    { unfold u32. rewrite Zminus_mod_idemp_l. rewrite Z.mod_small; lia. }
    destruct (mappages_spec i pgdir us (kr_perm r) e (kr_k r) w pts l c (kr_n r) (kr_pa r) R6 Hinv Hok) as (x & j & w1 & pts1 & l1 & E1 & Hinv1 & Hmv1 & Hnf1 & Hp1 & Hx); [lia|lia|done|lia|lia| |].
    { intros n Hn. rewrite Hpte by lia. assert (kr_in r n) as Hin by (unfold kr_in; lia). assert (kent old n = 0) as ->; [|done].
      clear -Hap Hin. induction old as [|r' old IHo]; [done|]. cbn [kent]. rewrite decide_False; [apply IHo; set_solver|]. apply (Hap r r'); [left|left|done]. }
    apply (new_from_trans (2 ^ 19) (kr_n r) pts pts) in Hnf1; [|lia|apply new_from_refl].
    cbn [kbind]. rewrite E1. destruct Hx as [[-> ->]|(-> & Hj & ->)]; cbn [Z.ltb Z.compare].
    + assert (Hnew : forall n, 0 <= n -> pte (w_mem w1) pts1 n = kent (r :: old) n).
      { intros n Hn. rewrite Hp1 by done. cbn [kent]. unfold kr_in. destruct (decide (kr_n r <= n < kr_n r + (Z.of_nat (kr_k r) + 1))); [done|by apply Hpte]. }
      destruct (mem_only_ok i _ _ c (mv_only _ _ _ _ _ _ _ _ Hmv1) Hok) as [c1 Hok1]. inversion Hpw as [|? ? Hpw1 Hpw2]; subst.
      destruct (IH w1 pts1 l1 c1 (r :: old) Hinv1 Hok1 Hnew) as (ok & w2 & pts2 & l2 & E2 & Hinv2 & Hmv2 & Hnf2 & Hu2 & Hres); [|done|].
      * intros r1 r2 Hr1 Hr2. apply elem_of_cons in Hr2 as [->|Hr2]; [|apply Hap; [by right|done]]. rewrite Forall_forall in Hpw1.
        intros n Hn1 Hn2. by apply (Hpw1 r1 Hr1 n).
      * exists ok, w2, pts2, l2. split; [exact E2|]. split; [done|]. split; [by eapply moved_trans|]. split; [by apply (new_from_trans (2 ^ 19) (2 ^ 19) pts pts1)|]. split.
        -- intros n Hn. rewrite Hu2 by done. cbn [kent]. rewrite decide_False by (unfold kr_in; lia). done.
        -- destruct ok; [|done]. intros n Hn. rewrite Hres by done. by rewrite reverse_cons, <-app_assoc.
    + exists false, w1, pts1, []. split_and!; [done|done|done|done| |done]. intros n Hn. rewrite Hp1 by lia. rewrite decide_False by lia. apply Hpte. lia.
Qed.

(** The kernel starts at the end of the first megabyte, its writable data at a page boundary and the
    free memory after it (kernel.ld). *)
Definition image_ok : Prop := k_data mod 4096 = 0 /\ KERNLINK < k_data < KERNBASE + PHYSTOP /\ KERNBASE < k_end.

Definition kranges : list krange :=
  [ mkRange (2 ^ 19) 255 0 PTE_W;
    mkRange (2 ^ 19 + 256) (Z.to_nat ((k_data - KERNLINK) / 4096 - 1)) EXTMEM 0;
    mkRange (k_data / 4096) (Z.to_nat ((KERNBASE + PHYSTOP - k_data) / 4096 - 1)) (V2P k_data) PTE_W;
    mkRange (DEVSPACE / 4096) (Z.to_nat 8191) DEVSPACE PTE_W ].

(** Where page [n] of the kernel's part is mapped to. *)
Definition kernel_entry (n : Z) : Z := kent (reverse kranges) n.

Lemma data_page : image_ok -> exists d, k_data = 4096 * d /\ 2 ^ 19 + 256 < d < 2 ^ 19 + 57344.
Proof.
  unfold KERNLINK, KERNBASE, EXTMEM, PHYSTOP. intros (Hm & Hd & _). apply Z.mod_divide in Hm as [d Hk]; [|lia]. exists d. unfold KERNLINK, KERNBASE, EXTMEM, PHYSTOP in *. lia.
Qed.

Lemma kranges_eq : image_ok -> exists a b : nat, let d := 2 ^ 19 + 257 + Z.of_nat a in
  kranges = [mkRange (2 ^ 19) 255 0 2; mkRange (2 ^ 19 + 256) a 0x100000 0; mkRange d b (4096 * (d - 2 ^ 19)) 2; mkRange 0xFE000 (Z.to_nat 8191) 0xFE000000 2] /\
  k_data = 4096 * d /\ Z.of_nat a + Z.of_nat b = 57344 - 258.
Proof.
  intros Hi. destruct (data_page Hi) as (d & Hk & Hd). exists (Z.to_nat (d - (2 ^ 19 + 257))), (Z.to_nat (2 ^ 19 + 57344 - d - 1)). cbv zeta.
  replace (2 ^ 19 + 257 + Z.of_nat (Z.to_nat (d - (2 ^ 19 + 257)))) with d by lia. split; [|lia].
  unfold kranges, KERNLINK, KERNBASE, EXTMEM, PHYSTOP, DEVSPACE, V2P, KERNBASE, PTE_W. rewrite Hk.
  assert (u32 (4096 * d - 2147483648) = 4096 * (d - 2 ^ 19)) as -> by (rewrite u32_small; lia).
  replace (4096 * d - (2147483648 + 1048576)) with ((d - 524544) * 4096) by lia.
  replace (2147483648 + 234881024 - 4096 * d) with ((581632 - d) * 4096) by lia.
  rewrite (Z.mul_comm 4096 d), !Z_div_mult_full by lia. change (4261412864 / 4096) with 0xFE000.
  replace (d - 524544 - 1) with (d - (2 ^ 19 + 257)) by lia. by replace (581632 - d - 1) with (2 ^ 19 + 57344 - d - 1) by lia.
Qed.

Lemma kmap_rows : image_ok -> kmap = kr_row <$> kranges.
Proof.
  intros Hi. destruct (kranges_eq Hi) as (a & b & -> & Hk & Hab). unfold kmap, kr_row. cbn [fmap list_fmap kr_n kr_k kr_pa kr_perm].
  unfold V2P. rewrite Hk. unfold KERNLINK, KERNBASE, EXTMEM, PHYSTOP, DEVSPACE, PTE_W. change (u32 (0 + 4096 * (Z.of_nat 255 + 1))) with 1048576.
  change (u32 (4261412864 + 4096 * (Z.of_nat (Z.to_nat 8191) + 1))) with 0.
  change (u32 (2147483648 + 1048576 - 2147483648)) with 1048576. set (d := 2 ^ 19 + 257 + Z.of_nat a).
  assert (u32 (4096 * d - 2147483648) = 4096 * (d - 2 ^ 19)) as -> by (rewrite u32_small; lia).
  assert (u32 (1048576 + 4096 * (Z.of_nat a + 1)) = 4096 * (d - 2 ^ 19)) as -> by (rewrite u32_small; lia).
  assert (u32 (4096 * (d - 2 ^ 19) + 4096 * (Z.of_nat b + 1)) = 234881024) as -> by (rewrite u32_small; lia). done.
Qed.

Lemma kranges_ok : image_ok -> Forall kr_ok kranges /\ ForallOrdPairs kr_apart kranges.
Proof.
  intros Hi. destruct (kranges_eq Hi) as (a & b & -> & Hk & Hab). split.
  - repeat constructor; cbn [kr_n kr_k kr_pa kr_perm]; try lia; try done. rewrite Z.mul_comm. apply Z_mod_mult.
  - repeat constructor; intros n; unfold kr_in; cbn [kr_n kr_k]; lia.
Qed.

Lemma kernel_entry_user n : image_ok -> 0 <= n < 2 ^ 19 -> kernel_entry n = 0.
Proof.
  intros Hi Hn. unfold kernel_entry. destruct (kranges_ok Hi) as [Hok _]. assert (Forall kr_ok (reverse kranges)) as Hok' by by apply Forall_reverse.
  induction Hok' as [|r rs (R1 & _) _ IH]; [done|]. cbn [kent]. rewrite decide_False by (unfold kr_in; lia). done.
Qed.

(** ** setupkvm *)

(** The pages in use and the free ones. *)
Definition held w us l : Prop := is_freelist w l /\ NoDup (us ++ l) /\ Forall page_ok us.

Lemma new_table w us q l c e : held w us (q :: l) -> kmem_ok w i c ->
  exists w1, kalloc w e = Ret q w1 e /\ let w2 := set_w_mem (memset q 0 PGSIZE) w1 in
    pt_inv w2 q ∅ us l /\ mem_only i w w2 /\ mem_frame [q] (w_mem w) (w_mem w2) /\ page_ok q.
Proof.
  intros (Hfl & Hnd & Hpg) Hok. destruct (proj1 Hfl) as (Hhead & Hq & _). pose proof Hfl as Hfl1. apply (kmem_settled_freelist w i) in Hfl1.
  destruct (alloced_freelist _ _ _ Hfl1) as (_ & Hfl2 & Hql & _). set (w1 := alloced (kmem_settled i w)) in *. exists w1.
  split; [rewrite (kalloc_eq w i c e Hok), Hhead; reflexivity|]. cbv zeta. set (w2 := set_w_mem _ w1).
  assert (w_mem w1 = w_mem w) as Hm by (unfold w1; by rewrite alloced_mem, kmem_settled_mem).
  assert (mem_frame [q] (w_mem w1) (w_mem w2)) as Hf by (apply memset_frame; by apply page_ok_mod).
  assert (Forall (fun p => p mod PGSIZE = 0) [q]) as Hqm by (apply page_ok_all; by constructor).
  split; [split; [split|split; [|split]]|split; [|split; [by rewrite <-Hm|done]]].
  - by intros d x Hd.
  - intros d Hd. rewrite lookup_empty. apply ldm_memset0; [by apply page_ok_mod|unfold PGSIZE; lia|]. destruct Hq as [Hq _]. apply page_4 in Hq. by rewrite Zplus_mod, Hq, Z.mul_comm, Z_mod_mult.
  - apply (freelist_frame w1 w2 l [q] Hfl2 eq_refl Hf Hqm). by intros p ->%list_elem_of_singleton.
  - rewrite <-Permutation_middle in Hnd. done.
  - by constructor.
  - eapply mem_only_trans; [apply mem_only_alloced|apply mem_only_mem].
Qed.

(** The tables of the kernel's half. *)
Lemma kernel_tables pts : map_Forall (fun d _ => 0 <= d < 1024) pts -> new_from (2 ^ 19) ∅ pts -> (length (vals pts) <= 512)%nat.
Proof.
  intros Hp Hn. unfold vals. rewrite length_fmap. rewrite <-(length_fmap fst). change 512%nat with (length (seqZ 512 512)).
  apply submseteq_length, NoDup_submseteq; [apply NoDup_fst_map_to_list|]. intros d (x & -> & Hx)%list_elem_of_fmap. destruct x as [d pt].
  apply elem_of_map_to_list in Hx. apply elem_of_seqZ. assert (0 <= d < 1024) by exact (Hp d pt Hx). cbn [fst].
  destruct (Hn d) as [[? He]|Hd]; [by rewrite Hx|by rewrite lookup_empty in He|]. change (2 ^ 19 / 1024) with 512 in Hd. lia.
Qed.

(** The result of setupkvm: the new directory, or 0 when fewer than 514 pages were free. *)
Definition setup_result w us l (r : Z) w' : Prop :=
  mem_only i w w' /\ mem_frame l (w_mem w) (w_mem w') /\
  ((exists pts l', r <> 0 /\ aspace w' r pts ∅ us l' /\ r :: vals pts ++ l' ≡ₚ l /\ forall n, 0 <= n < 2 ^ 20 -> pte (w_mem w') pts n = kernel_entry n) \/
   (r = 0 /\ exists l', is_freelist w' l' /\ l' ≡ₚ l /\ (length l <= 513)%nat)).

Lemma setupkvm_spec w us l c e : image_ok -> held w us l -> kmem_ok w i c ->
  exists r w', setupkvm w e = Ret r w' e /\ setup_result w us l r w'.
Proof.
  intros Hi Hh Hok. unfold setupkvm. destruct l as [|q l].
  - exists 0, (alloced (kmem_settled i w)). destruct Hh as (Hfl & _). cbn [kbind]. rewrite (kalloc_eq w i c e Hok). destruct (alloced_empty w Hfl) as [-> _].
    split; [done|]. split; [apply mem_only_alloced|]. split; [rewrite alloced_mem, kmem_settled_mem; apply mem_frame_refl|]. right. split; [done|]. exists [].
    apply (kmem_settled_freelist w i) in Hfl. destruct (alloced_empty _ Hfl) as [_ ->]. split; [done|]. split; [done|cbn; lia].
  - destruct (new_table w us q l c e Hh Hok) as (w1 & E1 & Hinv & Ho & Hf & Hq). set (w2 := set_w_mem _ w1) in *. destruct (mem_only_ok i _ _ c Ho Hok) as [c2 Hok2].
    destruct (kranges_ok Hi) as [Hr1 Hr2].
    destruct (kmap_loop_spec q us e kranges Hr1 w2 ∅ l c2 [] Hinv Hok2) as (ok & w3 & pts & l3 & E3 & Hinv3 & [M1 M2 M3] & Hnf & Hu3 & Hres);
      [intros n Hn; unfold pte; by rewrite lookup_empty|by intros r r' _ ?%not_elem_of_nil|done|].
    rewrite <-(kmap_rows Hi) in E3. assert (q <> 0) as Hq0 by (destruct Hq as (_ & _ & ?); unfold KERNBASE in *; lia).
    change (vals (∅ : gmap Z Z) ++ l) with l in M2. unfold table_pages in M3. change (vals (∅ : gmap Z Z) ++ l) with l in M3.
    assert (aspace w3 q pts ∅ us l3) as Has.
    { split; [done|by intros n x Hn|]. intros n Hn. rewrite Hu3 by done. unfold uent. by rewrite lookup_empty. }
    assert (mem_frame (q :: l) (w_mem w) (w_mem w3)) as Hf3.
    { eapply mem_frame_trans; [eapply mem_frame_mono; [|exact Hf]|exact M3]. intros p ->%list_elem_of_singleton. by left. }
    cbn [kbind]. rewrite E1, (proj2 (Z.eqb_neq q 0) Hq0). cbn [kbind kmod]. fold w2. change (P2V PHYSTOP >? DEVSPACE) with false. cbn [kbind]. rewrite E3. destruct ok.
    + exists q, w3. split; [done|]. split; [by eapply mem_only_trans|]. split; [done|]. left. exists pts, l3. split; [done|]. split; [done|]. split; [by rewrite M2|].
      intros n Hn. rewrite Hres by lia. by rewrite app_nil_r.
    + subst l3. destruct (mem_only_ok i _ _ c2 M1 Hok2) as [c3 Hok3]. destruct Hi as (_ & _ & Hend).
      destruct (freevm_spec i q pts us e w3 ∅ [] c3 Hend Has Hok3) as (w4 & l4 & E4 & Hfl4 & Hl4 & Ho4 & Hf4). change (pages ∅) with (@nil Z) in *. rewrite app_nil_r in M2, Hl4, Hf4.
      exists 0, w4. cbn [kbind]. rewrite E4. split; [done|]. split; [eapply mem_only_trans; [exact Ho|]; by eapply mem_only_trans|]. split.
      * eapply mem_frame_trans; [exact Hf3|]. eapply mem_frame_mono; [|exact Hf4]. intros p. by rewrite M2.
      * right. split; [done|]. exists l4. split; [done|]. split; [by rewrite Hl4, M2|]. pose proof (Permutation_length M2) as Hl. cbn [length]. rewrite <-Hl.
        destruct Hinv3 as ([Hk _] & _). pose proof (kernel_tables pts Hk Hnf). lia.
Qed.

(** ** copyuvm *)

(** Page [q] of [m] holds the bytes of page [p] of [m0]. *)
Definition page_copy (m : memory) (q : Z) (m0 : memory) (p : Z) : Prop := forall o, 0 <= o < PGSIZE -> ldb m (q + o) = ldb m0 (p + o).

Lemma wordaddr_page p o : p mod PGSIZE = 0 -> 0 <= o < PGSIZE -> p <= wordaddr (p + o) < p + PGSIZE.
Proof.
  unfold wordaddr. intros Hp Ho. apply page_4 in Hp. rewrite Zplus_mod, Hp, Z.add_0_l, Zmod_mod. pose proof (Z.mod_pos_bound o 4 ltac:(lia)).
  pose proof (Z.mod_le o 4 ltac:(lia) ltac:(lia)). lia.
Qed.

Lemma ldb_same m m' p o : p mod PGSIZE = 0 -> 0 <= o < PGSIZE -> (forall b, p <= b < p + PGSIZE -> ldm m' b = ldm m b) -> ldb m' (p + o) = ldb m (p + o).
Proof. intros Hp Ho Hm. unfold ldb. rewrite Hm by by apply wordaddr_page. done. Qed.

Lemma copy_up_ldm d sr k b : forall m : memory, (forall a, d <= a < d + Z.of_nat k -> wordaddr a <> b) -> ldm (copy_up d sr k m) b = ldm m b.
Proof.
  revert d sr. induction k as [|k IH]; intros d sr m Ha; [done|]. cbn [copy_up]. rewrite IH by (intros a Hr; apply Ha; lia).
  apply ldm_stm_ne. apply Ha. lia.
Qed.

Lemma memmove_page q p m : q mod PGSIZE = 0 -> p mod PGSIZE = 0 -> q <> p ->
  mem_frame [q] m (memmove q p PGSIZE m) /\ page_copy (memmove q p PGSIZE m) q m p.
Proof.
  intros Hq Hp Hne. pose proof (page_apart p q Hp Hq ltac:(done)) as H1. pose proof (page_apart q p Hq Hp Hne) as H2. split.
  - intros b Hb. specialize (Hb q ltac:(by left)). unfold memmove. rewrite (proj2 (andb_false_iff _ _)) by (destruct (Z.ltb_spec p q); [right; rewrite Z.gtb_ltb; apply Z.ltb_ge; lia|by left]).
    apply copy_up_ldm. change (Z.of_nat (Z.to_nat PGSIZE)) with PGSIZE. intros a Ha He. pose proof (wordaddr_page q (a - q) Hq ltac:(lia)) as Hw.
    replace (q + (a - q)) with a in Hw by lia. lia.
  - intros o Ho. pose proof (memmove_get q p PGSIZE m (q + o) ltac:(unfold PGSIZE; lia)) as Hg. change (bget (memmove q p PGSIZE m) (q + o)) with (ldb (memmove q p PGSIZE m) (q + o)) in Hg.
    rewrite Hg. rewrite (proj2 (Z.leb_le _ _)), (proj2 (Z.ltb_lt _ _)) by lia. cbn [andb]. by replace (p + (q + o - q)) with (p + o) by lia.
Qed.

(** An address space when others took pages [X] from the free list and wrote only to them. *)
Lemma aspace_others w0 w pgdir pts um us l0 l X : aspace w0 pgdir pts um us l0 -> mem_frame l0 (w_mem w0) (w_mem w) -> is_freelist w l -> l0 ≡ₚ X ++ l ->
  aspace w pgdir pts um (us ++ X) l.
Proof.
  intros [Hinv Hum Hent] Hf Hfl Hl. pose proof Hinv as (Hd & [Hc0 Hnd0] & Hnd & Hpg).
  assert (Forall page_ok l0) as Hl0 by (apply Forall_forall; intros p Hp; by eapply chain_pages).
  pose proof (page_ok_all l0 Hl0) as Hl0m. apply NoDup_cons in Hnd as [Hn1 Hnd']. pose proof Hnd' as Hnd''. apply NoDup_app in Hnd' as (_ & Hn2 & _).
  split; [split; [|split; [done|split]]|done|].
  - apply (dir_frame w0 pgdir pts _ l0 _ l0 Hinv Hf Hl0m). clear -Hn1. set_solver.
  - rewrite Hl in Hnd''. apply NoDup_cons. split; [rewrite Hl in Hn1; clear -Hn1; set_solver|]. rewrite <-!app_assoc. rewrite <-!app_assoc in Hnd''. exact Hnd''.
  - rewrite Hl in Hl0. rewrite !Forall_cons, !Forall_app in *. tauto.
  - intros n Hn. rewrite (pte_frame w0 pgdir pts _ l0 _ l0 n Hinv Hf Hl0m); [by apply Hent|]. clear -Hn2. set_solver.
Qed.

Definition all_pages (pgdir : Z) pts (um : gmap Z (Z * Z)) us : list Z := pgdir :: vals pts ++ pages um ++ us.

(** What copyuvm has done when the pages below [n] are copied. *)
Record copied w0 pgdir pts um us l0 d n w dpts l (dum : gmap Z (Z * Z)) : Prop := mkCopied {
  cp_space : aspace w d dpts dum (all_pages pgdir pts um us) l;
  cp_pages : d :: vals dpts ++ pages dum ++ l ≡ₚ l0;
  cp_frame : mem_frame l0 (w_mem w0) (w_mem w);
  cp_data : forall k p f, 0 <= k < n -> um !! k = Some (p, f) -> exists q, dum !! k = Some (q, f) /\ page_copy (w_mem w) q (w_mem w0) p;
  cp_dom : forall k x, dum !! k = Some x -> 0 <= k < n;
  cp_kern : forall k, 2 ^ 19 <= k < 2 ^ 20 -> pte (w_mem w) dpts k = kernel_entry k;
  cp_only : mem_only i w0 w
}.

Section copy.
Context (w0 : world) (pgdir : Z) (pts : gmap Z Z) (um : gmap Z (Z * Z)) (us l0 : list Z) (d sz : Z) (e : sched_env world).
Hypotheses (Hpar : aspace w0 pgdir pts um us l0) (Hdom : forall n, is_Some (um !! n) <-> 0 <= n < npages sz).
Notation copied_to n w dpts l dum := (copied w0 pgdir pts um us l0 d n w dpts l dum).

(** The pages of the table and the free ones were written; the pages copied before are the same. *)
Lemma copied_data n w dpts l dum m' : copied_to n w dpts l dum -> mem_frame (table_pages d dpts l) (w_mem w) m' ->
  forall k p f, 0 <= k < n -> um !! k = Some (p, f) -> exists q, dum !! k = Some (q, f) /\ page_copy m' q (w_mem w0) p.
Proof using.
  intros Hc Hf k p f Hk Hp. destruct (cp_data _ _ _ _ _ _ _ _ _ _ _ _ Hc k p f Hk Hp) as (q & Hq & Hcp). exists q. split; [done|].
  pose proof (cp_space _ _ _ _ _ _ _ _ _ _ _ _ Hc) as Has. destruct (aspace_page _ _ _ _ _ _ _ _ _ Has Hq) as (Hqok & _).
  pose proof (as_inv _ _ _ _ _ _ Has) as Hinv. pose proof (table_pages_ok _ _ _ _ _ Hinv) as Htp.
  destruct (used_not_table _ _ _ _ _ q Hinv) as [_ Hqt]; [apply elem_of_app; left; apply pages_elem; eauto|].
  intros o Ho. rewrite <-Hcp by done. apply ldb_same; [by apply page_ok_mod|done|]. intros b Hb.
  by apply (mem_frame_page _ _ _ q b Hf Htp (page_ok_mod q Hqok) Hqt Hb).
Qed.

Lemma copied_frame n w dpts l dum w' dpts' l' : copied_to n w dpts l dum -> aspace w' d dpts' dum (all_pages pgdir pts um us) l' -> mem_only i w w' ->
  kern_same w dpts w' dpts' -> vals dpts' ++ l' ≡ₚ vals dpts ++ l -> mem_frame (table_pages d dpts l) (w_mem w) (w_mem w') -> copied_to n w' dpts' l' dum.
Proof using.
  intros Hc Has Ho Hk Hp Hf. split; [done| | |by eapply copied_data|apply Hc| |].
  - rewrite <-(cp_pages _ _ _ _ _ _ _ _ _ _ _ _ Hc). apply Permutation_skip. rewrite !(Permutation_app_comm (pages dum)), !app_assoc. by rewrite Hp.
  - eapply mem_frame_trans; [apply Hc|]. eapply mem_frame_mono; [|exact Hf]. unfold table_pages. intros x. rewrite <-(cp_pages _ _ _ _ _ _ _ _ _ _ _ _ Hc). clear. set_solver.
  - intros k Hkr. rewrite (Hk k Hkr). by apply Hc.
  - eapply mem_only_trans; [apply Hc|done].
Qed.

Lemma copied_insert n w dpts q l dum w' dpts' l' p f : copied_to n w dpts (q :: l) dum -> 0 <= n -> um !! n = Some (p, f) -> dum !! n = None ->
  aspace w' d dpts' (<[n := (q, f)]> dum) (all_pages pgdir pts um us) l' -> page_copy (w_mem w') q (w_mem w0) p -> mem_only i w w' -> kern_same w dpts w' dpts' ->
  vals dpts' ++ l' ≡ₚ vals dpts ++ l -> mem_frame (table_pages d dpts (q :: l)) (w_mem w) (w_mem w') -> copied_to (n + 1) w' dpts' l' (<[n := (q, f)]> dum).
Proof using.
  intros Hc Hn Hx Hnone Has Hq Ho Hk Hp Hf. split; [done| | | | | |].
  - rewrite <-(cp_pages _ _ _ _ _ _ _ _ _ _ _ _ Hc). apply Permutation_skip. rewrite pages_insert by done. cbn [app].
    rewrite <-Permutation_middle. rewrite (app_assoc (vals dpts)), <-(Permutation_middle (vals dpts ++ pages dum)), <-app_assoc. apply Permutation_skip.
    rewrite !(Permutation_app_comm (pages dum)), !app_assoc. by rewrite Hp.
  - eapply mem_frame_trans; [apply Hc|]. eapply mem_frame_mono; [|exact Hf]. unfold table_pages. intros x. rewrite <-(cp_pages _ _ _ _ _ _ _ _ _ _ _ _ Hc). clear. set_solver.
  - intros k p' f' Hkr Hp'. destruct (decide (k = n)) as [->|Hne].
    + rewrite Hx in Hp'. injection Hp' as <- <-. exists q. by rewrite lookup_insert_eq.
    + rewrite lookup_insert_ne by done. apply (copied_data n w dpts (q :: l) dum _ Hc Hf k p' f'); [lia|done].
  - intros k x Hkx. destruct (decide (k = n)) as [->|Hne]; [lia|]. rewrite lookup_insert_ne in Hkx by done. apply (cp_dom _ _ _ _ _ _ _ _ _ _ _ _ Hc) in Hkx. lia.
  - intros k Hkr. rewrite (Hk k Hkr). by apply Hc.
  - eapply mem_only_trans; [apply Hc|done].
Qed.

Lemma lor_odd f : f mod 2 = 1 -> Z.lor f PTE_P = f.
Proof.
  intros Hf. apply Z.bits_inj'. intros k Hk. rewrite Z.lor_spec. destruct (decide (k = 0)) as [->|Hne].
  - rewrite <-Z.bit0_mod in Hf. destruct (Z.testbit f 0); [done|discriminate].
  - assert (Z.testbit PTE_P k = false) as -> by (change PTE_P with (2 ^ 0); apply Z.pow2_bits_false; lia). by rewrite orb_false_r.
Qed.

(** The parent as it is while its pages are copied. *)
Lemma copied_parent n w dpts l dum : copied_to n w dpts l dum -> aspace w pgdir pts um (us ++ d :: vals dpts ++ pages dum) l.
Proof using Hpar.
  intros Hc. apply (aspace_others w0 w pgdir pts um us l0 l); [done|apply Hc|apply Hc|].
  rewrite <-(cp_pages _ _ _ _ _ _ _ _ _ _ _ _ Hc). cbn [app]. by rewrite <-app_assoc.
Qed.

(** The parent's entry of page [n]. *)
Lemma parent_walk n w dpts l dum p f : copied_to n w dpts l dum -> um !! n = Some (p, f) -> exists pt,
  walkpgdir pgdir (4096 * n) false w e = Ret (pt + 4 * (n mod 1024)) w e /\ pt + 4 * (n mod 1024) <> 0 /\ ld w (pt + 4 * (n mod 1024)) = uword (p, f).
Proof using Hpar.
  intros Hc Hx. pose proof (copied_parent n w dpts l dum Hc) as Has. destruct (aspace_page _ _ _ _ _ _ _ _ _ Has Hx) as (_ & _ & _ & Hh & _ & _ & Hr & _).
  pose proof (as_ent _ _ _ _ _ _ Has n Hr) as He. unfold uent in He. rewrite Hx in He. unfold pte in He.
  destruct (pts !! (n / 1024)) as [pt|] eqn:Hpt; [|rewrite <-He in Hh; done]. exists pt.
  assert (4096 * n / 4096 = n) as Hdiv by (rewrite Z.mul_comm; apply Z_div_mult_full; lia).
  split; [rewrite (walk_found i w pgdir pts _ l (4096 * n) e (as_inv _ _ _ _ _ _ Has) ltac:(lia) pt false ltac:(by rewrite Hdiv)); by rewrite Hdiv|].
  destruct (pt_inv_page _ _ _ _ _ _ _ (as_inv _ _ _ _ _ _ Has) Hpt) as ((_ & _ & Hk) & _). pose proof (Z.mod_pos_bound n 1024 ltac:(lia)).
  split; [unfold KERNBASE in Hk; lia|exact He].
Qed.

(** Page [p] of the parent has been copied to [q] and [q] mapped. *)
Lemma copied_page n w dpts q l dum p f w2 w3 dpts3 l3 : copied_to n w dpts (q :: l) dum -> um !! n = Some (p, f) -> page_ok q -> q <> p ->
  q ∉ d :: vals dpts ++ pages dum ++ all_pages pgdir pts um us ++ l -> w_mem w2 = memmove q p PGSIZE (w_mem w) -> moved i d w2 dpts l w3 dpts3 l3 ->
  page_copy (w_mem w3) q (w_mem w0) p.
Proof using Hpar.
  intros Hc Hx Hq Hqp Hnin Hm [_ _ Hf] o Ho. destruct (aspace_page _ _ _ _ _ _ _ _ _ Hpar Hx) as (Hp & _).
  pose proof (page_ok_mod q Hq) as Hqm. pose proof (page_ok_mod p Hp) as Hpm.
  pose proof (table_pages_ok _ _ _ _ _ (as_inv _ _ _ _ _ _ (cp_space _ _ _ _ _ _ _ _ _ _ _ _ Hc))) as Htp.
  pose proof (table_pages_ok _ _ _ _ _ (as_inv _ _ _ _ _ _ Hpar)) as Htp0.
  destruct (used_not_table _ _ _ _ _ p (as_inv _ _ _ _ _ _ Hpar)) as [_ Hp0]; [apply elem_of_app; left; apply pages_elem; eauto|].
  unfold table_pages in *. rewrite !Forall_cons, !Forall_app, ?Forall_cons in *. rewrite !elem_of_cons, !elem_of_app in Hp0. rewrite !elem_of_cons, !elem_of_app in Hnin.
  transitivity (ldb (w_mem w2) (q + o)); [apply ldb_same; [done|done|]; intros b Hb; apply (mem_frame_page _ _ _ q b Hf); [|done| |done]|].
  { rewrite !Forall_cons, !Forall_app. tauto. }
  { rewrite !elem_of_cons, !elem_of_app. tauto. }
  rewrite Hm. destruct (memmove_page q p (w_mem w) Hqm Hpm Hqp) as [_ Hcp]. rewrite Hcp by done.
  apply ldb_same; [done|done|]. intros b Hb. apply (mem_frame_page _ _ _ p b (cp_frame _ _ _ _ _ _ _ _ _ _ _ _ Hc)); [tauto|done|tauto|done].
Qed.

Lemma copied_settled n w dpts l dum : copied_to n w dpts l dum -> copied_to n (kmem_settled i w) dpts l dum.
Proof using.
  intros Hc. apply (copied_frame n w dpts l dum); [done| |apply mem_only_kmem_settled| |done|rewrite kmem_settled_mem; apply mem_frame_refl].
  - apply (aspace_ext w); [apply kmem_settled_mem|unfold kmem_settled; by case_match|apply Hc].
  - intros j Hj. by rewrite kmem_settled_mem.
Qed.

(** One page is copied, or there is no memory for it. *)
Lemma copy_turn k w dpts l dum c n p f : copied_to n w dpts l dum -> kmem_ok w i c -> 0 <= n -> 4096 * n < sz -> um !! n = Some (p, f) ->
  exists w' dpts' l' c', kmem_ok w' i c' /\ let turn := copyuvm_loop (S k) pgdir d (4096 * n) sz w e in
    ((turn = Ret false w' e /\ copied_to n w' dpts' l' dum /\ (length l' <= 1)%nat) \/
     (exists q, turn = copyuvm_loop k pgdir d (4096 * (n + 1)) sz w' e /\ copied_to (n + 1) w' dpts' l' (<[n := (q, f)]> dum))).
Proof using Hpar.
  intros Hc Hok Hn Hlt Hx. destruct (parent_walk n w dpts l dum p f Hc Hx) as (pt & Ew & Hne & Hld). pose proof (copied_parent n w dpts l dum Hc) as Hp.
  destruct (aspace_page _ _ _ _ _ _ _ _ _ Hp Hx) as (Hpok & _ & _ & Hh & Ha & Hf & Hr & Hfr & Hodd). destruct (page_ok_V2P p Hpok) as (_ & _ & _ & Hpv).
  cbn [copyuvm_loop]. rewrite (proj2 (Z.ltb_lt _ _)) by done. cbn [kbind]. rewrite Ew, (proj2 (Z.eqb_neq _ _) Hne). cbn [kbind kget]. rewrite Hld, Hh, Ha, Hf, Hpv. cbn [negb].
  pose proof (cp_space _ _ _ _ _ _ _ _ _ _ _ _ Hc) as Has. destruct l as [|q l].
  - destruct (as_inv _ _ _ _ _ _ Has) as (_ & Hfl & _). destruct (alloced_empty w Hfl) as [Hf0 _]. pose proof Hfl as Hfl'. apply (kmem_settled_freelist w i) in Hfl'.
    destruct (alloced_empty _ Hfl') as [_ Ha0]. destruct (mem_only_ok i _ _ c (mem_only_kmem_settled i w) Hok) as [c1 Hok1].
    exists (kmem_settled i w), dpts, [], c1. split; [done|]. left. cbn [kbind]. rewrite (kalloc_eq w i c e Hok), Hf0, Ha0. split; [done|].
    split; [by apply copied_settled|cbn; lia].
  - assert (q mod PGSIZE = 0 /\ q <> 0) as [Hqm Hq0].
    { destruct (as_inv _ _ _ _ _ _ Has) as (_ & [(_ & (Hq1 & _ & Hq2) & _) _] & _). unfold KERNBASE in *. split; [done|lia]. }
    assert (q <> p) as Hqp.
    { destruct (as_inv _ _ _ _ _ _ Hp) as (_ & _ & Hnd & _). intros ->. apply NoDup_cons in Hnd as [_ Hnd]. apply NoDup_app in Hnd as (_ & _ & Hnd). rewrite <-app_assoc in Hnd.
      apply NoDup_app in Hnd as (_ & Hnd & _). apply (Hnd p); [apply pages_elem; eauto|]. rewrite elem_of_app, elem_of_cons. auto. }
    assert (forall m, mem_frame [q] m (memmove q p PGSIZE m)) as Hmm by (intros m; apply memmove_page; [done|by apply page_ok_mod|done]).
    destruct (take_page i w d dpts dum _ q l c e (memmove q p PGSIZE) Has Hok Hmm) as (w1 & E1 & Hm1 & Ho1 & Has1 & Hq & Hnin & Hk1).
    set (w2 := set_w_mem _ w1) in *. destruct (mem_only_ok i _ _ c Ho1 Hok) as [c2 Hok2].
    assert (dum !! n = None) as Hnone. { destruct (dum !! n) as [x|] eqn:Hy; [|done]. apply (cp_dom _ _ _ _ _ _ _ _ _ _ _ _ Hc) in Hy. lia. }
    destruct (map_user i w2 d dpts dum _ l c2 n q f e Has1 Hok2 Hr Hnone Hfr) as (r & w3 & dpts3 & l3 & E3 & Hmv & Hk3 & Hres). rewrite lor_odd in Hres by done.
    assert (mem_frame [q] (w_mem w) (w_mem w2)) as Hf2 by (unfold w2; cbn; rewrite Hm1; apply Hmm).
    assert (mem_frame (table_pages d dpts (q :: l)) (w_mem w) (w_mem w3)) as Hf3.
    { eapply mem_frame_trans; [eapply mem_frame_mono; [|exact Hf2]|eapply mem_frame_mono; [|exact (mv_frame _ _ _ _ _ _ _ _ Hmv)]]; unfold table_pages; clear; set_solver. }
    assert (mem_only i w w3) as Ho3 by (eapply mem_only_trans; [exact Ho1|apply Hmv]). destruct (mem_only_ok i _ _ c Ho3 Hok) as [c3 Hok3].
    assert (kern_same w dpts w3 dpts3) as Hk by by eapply kern_same_trans. pose proof (mv_pages _ _ _ _ _ _ _ _ Hmv) as Hpg.
    cbn [kbind]. rewrite E1, (proj2 (Z.eqb_neq q 0) Hq0). cbn [kbind kmod]. fold w2. rewrite E3. destruct Hres as [[-> Has3]|(-> & Has3 & ->)]; cbn [Z.ltb Z.compare].
    + exists w3, dpts3, l3, c3. split; [done|]. right. exists q. split; [unfold PGSIZE; rewrite u32_small by lia; by replace (4096 * n + 4096) with (4096 * (n + 1)) by lia|].
      apply (copied_insert n w dpts q l dum w3 dpts3 l3 p f Hc Hn Hx Hnone Has3); [|exact Ho3|exact Hk|exact Hpg|exact Hf3].
      apply (copied_page n w dpts q l dum p f w2 w3 dpts3 l3 Hc Hx Hq Hqp Hnin); [|exact Hmv]. unfold w2. cbn. by rewrite Hm1.
    + destruct (aspace_free i w3 d dpts3 dum _ [] q c3 e Has3 Hok3) as (w4 & E4 & Has4 & Ho4 & Hf4 & Hk4). destruct (mem_only_ok i _ _ c3 Ho4 Hok3) as [c4 Hok4].
      exists w4, dpts3, [q], c4. split; [done|]. left. cbn [kbind]. rewrite E4. split; [done|]. split; [|cbn; lia].
      apply (copied_frame n w dpts (q :: l) dum); [done|done|by eapply mem_only_trans|by eapply kern_same_trans| |].
      * rewrite app_nil_r in Hpg. rewrite Hpg, <-!Permutation_middle, app_nil_r. done.
      * eapply mem_frame_trans; [exact Hf3|]. eapply mem_frame_mono; [|exact Hf4]. unfold table_pages. clear. set_solver.
Qed.

Lemma copyuvm_loop_spec : forall k w dpts l dum c n, copied_to n w dpts l dum -> kmem_ok w i c -> 0 <= n <= npages sz -> sz <= 4096 * (n + Z.of_nat k) ->
  exists ok w' dpts' l' dum' n' c', copyuvm_loop (S k) pgdir d (4096 * n) sz w e = Ret ok w' e /\ kmem_ok w' i c' /\
    copied_to n' w' dpts' l' dum' /\ n' <= npages sz /\ if (ok : bool) then n' = npages sz else (length l' <= 1)%nat.
Proof using Hpar Hdom.
  pose proof (npages_bounds sz) as Hnb. induction k as [|k IH]; intros w dpts l dum c n Hc Hok Hn Hk.
  { assert (n = npages sz) as -> by lia. exists true, w, dpts, l, dum, (npages sz), c. cbn [copyuvm_loop]. rewrite (proj2 (Z.ltb_ge _ _)) by lia. done. }
  destruct (Z.ltb_spec (4096 * n) sz) as [Hlt|Hge].
  2:{ assert (n = npages sz) as -> by lia. exists true, w, dpts, l, dum, (npages sz), c. cbn [copyuvm_loop]. rewrite (proj2 (Z.ltb_ge _ _)) by lia. done. }
  destruct (proj2 (Hdom n)) as [[p f] Hx]; [lia|].
  destruct (copy_turn (S k) w dpts l dum c n p f Hc Hok ltac:(lia) Hlt Hx) as (w1 & dpts1 & l1 & c1 & Hok1 & [(E & Hc1 & Hl)|(q & E & Hc1)]).
  - exists false, w1, dpts1, l1, dum, n, c1. split; [exact E|]. split; [done|]. split; [done|]. split; [lia|done].
  - rewrite E. apply (IH w1 dpts1 l1 _ c1 (n + 1) Hc1 Hok1); lia.
Qed.
End copy.

(** The result of copyuvm: a directory whose pages are a copy, or 0 with every page given back when
    there is not enough memory. *)
Definition copy_result w pgdir pts um us l sz (r : Z) w' : Prop :=
  mem_only i w w' /\ mem_frame l (w_mem w) (w_mem w') /\
  ((r <> 0 /\ exists dpts dum l', copied w pgdir pts um us l r (npages sz) w' dpts l' dum) \/
   (r = 0 /\ exists l', is_freelist w' l' /\ l' ≡ₚ l /\ Z.of_nat (length l) <= npages sz + 1026)).

Lemma aspace_held w pgdir pts um us l : aspace w pgdir pts um us l -> held w (all_pages pgdir pts um us) l.
Proof. intros [(_ & Hfl & Hnd & Hpg) _ _]. unfold held, all_pages. split; [done|]. split; [|done]. cbn [app]. rewrite <-!app_assoc. rewrite <-!app_assoc in Hnd. exact Hnd. Qed.

Lemma copyuvm_spec w pgdir pts um us l sz c e : image_ok -> aspace w pgdir pts um us l -> kmem_ok w i c -> 0 <= sz <= KERNBASE ->
  (forall n, is_Some (um !! n) <-> 0 <= n < npages sz) ->
  exists r w', copyuvm pgdir sz w e = Ret r w' e /\ copy_result w pgdir pts um us l sz r w'.
Proof.
  intros Hi Has Hok Hsz Hdom. pose proof (npages_bounds sz) as Hnb.
  destruct (setupkvm_spec w _ l c e Hi (aspace_held w pgdir pts um us l Has) Hok) as (d & w1 & E1 & Ho1 & Hf1 & [(dpts & l1 & Hd & Has1 & Hl1 & Hk1)|(-> & l1 & Hfl1 & Hl1 & Hlen)]).
  2:{ exists 0, w1. unfold copyuvm. cbn [kbind]. rewrite E1. split; [done|]. split; [done|]. split; [done|]. right. split; [done|]. exists l1. split; [done|]. split; [done|lia]. }
  destruct (mem_only_ok i _ _ c Ho1 Hok) as [c1 Hok1].
  assert (copied w pgdir pts um us l d 0 w1 dpts l1 ∅) as Hc.
  { split; [done|done|done|lia|by intros k x Hx; rewrite lookup_empty in Hx|intros k Hk; apply Hk1; lia|done]. }
  replace (Z.to_nat (sz / PGSIZE) + 2)%nat with (S (S (Z.to_nat (sz / PGSIZE)))) by lia.
  destruct (copyuvm_loop_spec w pgdir pts um us l d sz e Has Hdom (S (Z.to_nat (sz / PGSIZE))) w1 dpts l1 ∅ c1 0 Hc Hok1) as (ok & w2 & dpts2 & l2 & dum & n & c2 & E2 & Hok2 & Hc2 & Hn & Hres); [lia| |].
  { unfold PGSIZE. pose proof (Z.div_mod sz 4096 ltac:(lia)). pose proof (Z.mod_pos_bound sz 4096 ltac:(lia)). pose proof (Z.div_pos sz 4096 ltac:(lia) ltac:(lia)). lia. }
  unfold copyuvm. replace (Z.to_nat (sz / PGSIZE) + 2)%nat with (S (S (Z.to_nat (sz / PGSIZE)))) by lia. change (4096 * 0) with 0 in E2.
  cbn [kbind]. rewrite E1, (proj2 (Z.eqb_neq d 0) Hd). cbn [kbind]. rewrite E2. destruct ok.
  - subst n. exists d, w2. split; [done|]. split; [apply Hc2|]. split; [apply Hc2|]. left. split; [done|]. by exists dpts2, dum, l2.
  - pose proof (cp_space _ _ _ _ _ _ _ _ _ _ _ _ Hc2) as Has2. pose proof (cp_pages _ _ _ _ _ _ _ _ _ _ _ _ Hc2) as Hp2.
    destruct (freevm_spec i d dpts2 _ e w2 dum l2 c2 (proj2 (proj2 Hi)) Has2 Hok2) as (w3 & l3 & E3 & Hfl3 & Hl3 & Ho3 & Hf3).
    exists 0, w3. cbn [kbind]. rewrite E3. split; [done|]. split; [eapply mem_only_trans; [apply Hc2|done]|]. split.
    + eapply mem_frame_trans; [apply Hc2|]. eapply mem_frame_mono; [|exact Hf3]. intros x. rewrite <-Hp2. clear. set_solver.
    + right. split; [done|]. exists l3. split; [done|]. split; [by rewrite Hl3|].
      pose proof (Permutation_length Hp2) as Hl. cbn [length] in Hl. rewrite !length_app in Hl. destruct (as_inv _ _ _ _ _ _ Has2) as ([Hk _] & _).
      pose proof (tables_few dpts2 Hk). destruct (Z_le_gt_dec 0 n) as [Hn0|Hn0].
      * pose proof (pages_few dum 0 n Hn0 (cp_dom _ _ _ _ _ _ _ _ _ _ _ _ Hc2)). lia.
      * pose proof (pages_few dum 0 0 ltac:(lia)) as Hp. specialize (Hp ltac:(intros j x Hx; apply (cp_dom _ _ _ _ _ _ _ _ _ _ _ _ Hc2) in Hx; lia)). lia.
Qed.
End kvm.
