(* ===== verification/Userspace.v ===== *)
(** * Address spaces as a whole (vm.c copyuvm, allocuvm, freevm)

    What the routines of vm.c promise about a whole address space, and a small address space with
    three thousand free pages on which the statements are evaluated. *)

From Stdlib Require Import ZArith Lia.
From stdpp Require Import base list gmap strings numbers.
From S2P Require Import Prelude Machine Cstring Spinlock Boot Kalloc Cprintf Sched Vm Vmspec Aspace Vmcopy.
From stdpp Require Import list.
Local Open Scope Z_scope.
Local Open Scope kern_scope.

(** ** An address space of one page *)

(** [n] free pages from [p] up, each linked to the next. *)
Fixpoint linked (p : Z) (n : nat) : memory :=
  match n with
  | O => ∅
  | S n' => <[p := match n' with O => 0 | S _ => p + PGSIZE end]> (linked (p + PGSIZE) n')
  end.

Lemma linked_below p n a : a < p -> ldm (linked p n) a = 0.
Proof.
  revert p. induction n as [|n IH]; intros p Ha; [done|]. unfold ldm. cbn [linked]. rewrite lookup_insert_ne by lia.
  apply IH. unfold PGSIZE. lia.
Qed.

Lemma linked_chain `{KernelImage} p n m : Forall page_ok (page_range p n) -> (forall a, p <= a -> ldm m a = ldm (linked p n) a) ->
  chain m (match n with O => 0 | S _ => p end) (page_range p n).
Proof.
  revert p. induction n as [|n IH]; intros p Hp Hm; [done|]. rewrite page_range_S in Hp |- *. apply Forall_cons in Hp as [Hp Hps].
  split; [done|]. split; [done|]. replace (ldm m p) with (match n with O => 0 | S _ => p + PGSIZE end).
  - apply IH; [done|]. intros a Ha. rewrite Hm by (unfold PGSIZE in *; lia). unfold ldm. cbn [linked]. by rewrite lookup_insert_ne by (unfold PGSIZE in *; lia).
  - rewrite Hm by lia. unfold ldm. cbn [linked]. by rewrite lookup_insert_eq.
Qed.

Lemma page_range_NoDup p n : NoDup (page_range p n).
Proof. apply NoDup_fmap_2; [|apply NoDup_seq]. intros a b Hab. unfold PGSIZE in Hab. lia. Qed.

(** Page directory, page table, the page of the program, the kernel stack, and the free pages. *)
Definition sp_dir : Z := 0x80400000.
Definition sp_table : Z := 0x80401000.
Definition sp_page : Z := 0x80402000.
Definition sp_kstack : Z := 0x80403000.
Definition sp_free : Z := 0x80404000.
Definition sp_count : nat := Z.to_nat 3000.
Definition sp_mem : memory :=
  <[sp_dir := pde_word sp_table]> (<[sp_table := uword (sp_page, 7)]> (<[sp_page := 42]> (linked sp_free sp_count))).
Definition sp_world (w : world) : world := set_w_mem (fun _ => sp_mem) (set_w_freelist (fun _ => sp_free) w).
Definition sp_pts : gmap Z Z := {[0 := sp_table]}.
Definition sp_um : gmap Z (Z * Z) := {[0 := (sp_page, 7)]}.

#[local] Opaque sp_count.

Lemma sp_range : Forall (@page_ok demo_image) (page_range sp_free sp_count).
Proof.
  apply Forall_forall. intros q (j & -> & Hj%elem_of_seq)%list_elem_of_fmap. unfold page_ok, PGSIZE, KERNBASE, PHYSTOP, sp_free. cbn [k_end demo_image].
  change sp_count with (Z.to_nat 3000) in Hj. split; [|unfold KERNBASE; lia]. rewrite Z.mul_comm, Z_mod_plus_full. done.
Qed.

Lemma sp_low a : sp_dir <= a < sp_free -> a <> sp_dir -> a <> sp_table -> a <> sp_page -> ldm sp_mem a = 0.
Proof. intros Ha H1 H2 H3. unfold ldm, sp_mem. rewrite !lookup_insert_ne by done. apply (linked_below sp_free sp_count a). unfold sp_free in *. lia. Qed.

Lemma sp_word : ldm sp_mem sp_page = 42.
Proof. unfold ldm, sp_mem. rewrite (lookup_insert_ne _ sp_dir), (lookup_insert_ne _ sp_table), lookup_insert_eq by done. done. Qed.

Lemma sp_pages : page_range sp_free sp_count = sp_free :: page_range (sp_free + PGSIZE) (Z.to_nat 2999).
Proof. rewrite <-page_range_S. f_equal. Qed.

Lemma sp_freelist w : @is_freelist demo_image (sp_world w) (page_range sp_free sp_count).
Proof.
  split; [|apply page_range_NoDup]. cbn [w_freelist w_mem sp_world set_w_mem set_w_freelist].
  apply (@linked_chain demo_image sp_free sp_count sp_mem sp_range). intros a Ha. unfold ldm, sp_mem.
  rewrite !lookup_insert_ne by (unfold sp_free, sp_dir, sp_table, sp_page in *; lia). done.
Qed.

Lemma sp_aspace w : @aspace demo_image (sp_world w) sp_dir sp_pts sp_um [sp_kstack] (page_range sp_free sp_count).
Proof.
  split; [|by apply map_Forall_singleton|].
  - split; [split; [by apply map_Forall_singleton|]|split; [apply sp_freelist|split]].
    + intros d Hd. unfold sp_pts. destruct (decide (d = 0)) as [->|Hne]; [reflexivity|]. rewrite lookup_singleton_ne by done.
      apply sp_low; unfold sp_dir, sp_free, sp_table, sp_page; lia.
    + change (vals sp_pts) with [sp_table]. change (pages sp_um) with [sp_page]. change ([sp_table] ++ ([sp_page] ++ [sp_kstack]) ++ ?l) with ([sp_table; sp_page; sp_kstack] ++ l).
      change (sp_dir :: [sp_table; sp_page; sp_kstack] ++ ?l) with ([sp_dir; sp_table; sp_page; sp_kstack] ++ l). apply NoDup_app. split; [by apply (bool_decide_unpack _)|].
      split; [|apply page_range_NoDup]. intros a Ha Hin. apply page_range_bounds in Hin as [Hin _].
      assert (Forall (fun a => a < sp_free) [sp_dir; sp_table; sp_page; sp_kstack]) as HF by (repeat constructor). rewrite Forall_forall in HF. apply HF in Ha. lia.
    + change (Forall (@page_ok demo_image) [sp_dir; sp_table; sp_page; sp_kstack]). repeat constructor; done.
  - intros n Hn. cbn [w_mem sp_world set_w_mem set_w_freelist]. unfold pte, uent, sp_pts, sp_um. destruct (decide (n = 0)) as [->|Hne]; [reflexivity|]. rewrite (lookup_singleton_ne 0 n) by done.
    destruct (decide (n / 1024 = 0)) as [E|E]; [rewrite E, lookup_singleton_eq|by rewrite lookup_singleton_ne].
    rewrite Z.mod_small by (apply Z.div_small_iff in E; lia). apply sp_low; unfold sp_dir, sp_free, sp_table, sp_page; apply Z.div_small_iff in E; lia.
Qed.

Lemma sp_dom n : is_Some (sp_um !! n) <-> 0 <= n < npages 4096.
Proof.
  change (npages 4096) with 1. unfold sp_um. destruct (decide (n = 0)) as [->|Hne].
  - rewrite lookup_singleton_eq. split; [lia|done].
  - rewrite lookup_singleton_ne by done. split; [by intros []|lia].
Qed.

(** ** Copying, growing and freeing *)

Section spaces.
Context `{KernelImage} (i : nat).
Implicit Types (w : world) (pts : gmap Z Z) (um : gmap Z (Z * Z)) (us l : list Z).

(** What copyuvm copied is a space of its own, with the same pages present. *)
Lemma copied_same w pgdir pts um us l d sz w' dpts l' dum : (forall n, is_Some (um !! n) <-> 0 <= n < npages sz) ->
  copied i w pgdir pts um us l d (npages sz) w' dpts l' dum -> forall n, is_Some (dum !! n) <-> is_Some (um !! n).
Proof.
  intros Hdom Hc n. rewrite Hdom. split; [intros [y Hy]; by apply (cp_dom _ _ _ _ _ _ _ _ _ _ _ _ _ Hc n y)|]. intros Hn.
  destruct (proj2 (Hdom n) Hn) as [[a f] Ha]. destruct (cp_data _ _ _ _ _ _ _ _ _ _ _ _ _ Hc n a f Hn Ha) as (b & Hb & _). by rewrite Hb.
Qed.

(** C13. copyuvm of an address space in order whose pages below [sz] are mapped and no others makes a
    new address space, on pages that were free, in which the same virtual pages are mapped with the
    same permissions and hold the same bytes, the kernel part is the kernel's, and nothing but free
    pages was written.  It fails only when free memory is too small, and then every page it took is
    free again. *)
Theorem copyuvm_copies w pgdir pts um us l sz c e : image_ok -> aspace w pgdir pts um us l -> kmem_ok w i c -> 0 <= sz <= KERNBASE ->
  (forall n, is_Some (um !! n) <-> 0 <= n < npages sz) ->
  exists r w', copyuvm pgdir sz w e = Ret r w' e /\ mem_frame l (w_mem w) (w_mem w') /\
  ((r <> 0 /\ exists dpts dum l', aspace w' r dpts dum (pgdir :: vals pts ++ pages um ++ us) l' /\
      (forall n, is_Some (dum !! n) <-> is_Some (um !! n)) /\
      (forall n p f, um !! n = Some (p, f) -> exists q, dum !! n = Some (q, f) /\ page_copy (w_mem w') q (w_mem w) p) /\
      (forall n, 2 ^ 19 <= n < 2 ^ 20 -> pte (w_mem w') dpts n = kernel_entry n)) \/
   (r = 0 /\ Z.of_nat (length l) <= npages sz + 1026 /\ exists l', is_freelist w' l' /\ l' ≡ₚ l)).
Proof.
  intros Hi Has Hok Hsz Hdom. destruct (copyuvm_spec i w pgdir pts um us l sz c e Hi Has Hok Hsz Hdom) as (r & w' & E & _ & Hf & Hr). exists r, w'. split; [done|]. split; [done|].
  destruct Hr as [(Hr & dpts & dum & l' & Hc)|(Hr & l' & Hfl & Hl & Hlen)]; [left|right; eauto 6]. split; [done|]. exists dpts, dum, l'. split; [apply Hc|].
  split; [by apply (copied_same w pgdir pts um us l r sz w' dpts l')|]. split; [|apply Hc]. intros n p f Hn. apply (cp_data _ _ _ _ _ _ _ _ _ _ _ _ _ Hc); [apply Hdom; by rewrite Hn|done].
Qed.

(** C14. Freeing the copy gives back exactly the pages the copy took: after copyuvm and freevm of its
    result the free pages are those there were, in some order, and the parent's address space is as
    it was. *)
Theorem copyuvm_freevm w pgdir pts um us l sz c e : image_ok -> aspace w pgdir pts um us l -> kmem_ok w i c -> 0 <= sz <= KERNBASE ->
  (forall n, is_Some (um !! n) <-> 0 <= n < npages sz) -> npages sz + 1026 < Z.of_nat (length l) ->
  exists w' l', (d <- copyuvm pgdir sz; freevm d) w e = Ret tt w' e /\ l' ≡ₚ l /\ aspace w' pgdir pts um us l' /\ mem_frame l (w_mem w) (w_mem w').
Proof.
  intros Hi Has Hok Hsz Hdom Hlen. destruct (copyuvm_spec i w pgdir pts um us l sz c e Hi Has Hok Hsz Hdom) as (r & w1 & E & Ho & Hf & [(Hr & dpts & dum & l1 & Hc)|(_ & _ & _ & _ & ?)]); [|lia].
  destruct (mem_only_ok i _ _ c Ho Hok) as [c1 Hok1]. pose proof (cp_space _ _ _ _ _ _ _ _ _ _ _ _ _ Hc) as Hd. pose proof (cp_pages _ _ _ _ _ _ _ _ _ _ _ _ _ Hc) as Hp.
  destruct (freevm_spec i r dpts _ e w1 dum l1 c1 ltac:(apply Hi) Hd Hok1) as (w2 & l2 & E2 & Hfl2 & Hl2 & _ & Hf2).
  assert (l2 ≡ₚ l) as Hll by (by rewrite Hl2, <-Hp). cbn [kbind]. rewrite E. exists w2, l2. split; [exact E2|]. split; [done|].
  assert (mem_frame l (w_mem w) (w_mem w2)) as Hfr.
  { intros b Hb. rewrite Hf2; [by apply Hf|]. intros q Hq. apply Hb. rewrite <-Hp. clear -Hq. rewrite elem_of_cons, elem_of_app in Hq. rewrite elem_of_cons, !elem_of_app. tauto. }
  split; [|done]. rewrite <-(app_nil_r us). by apply (aspace_others w w2 pgdir pts um us l l2 []).
Qed.

(** allocuvm from [oldsz] to [newsz] below KERNBASE maps every page of the new part, each on a
    page that was free, cleared, for the user to read and write, and changes neither the pages mapped
    before nor the kernel's part; or, when free memory is too small, it returns 0 and the pages
    mapped and the free pages and page tables are what they were. *)
Theorem allocuvm_grows w pgdir pts um us l oldsz newsz c e : KERNBASE < k_end -> aspace w pgdir pts um us l -> kmem_ok w i c -> printable i w ->
  0 <= oldsz <= newsz -> newsz < KERNBASE -> (forall n, npages oldsz <= n -> um !! n = None) ->
  exists r w' pts' l', allocuvm pgdir oldsz newsz w e = Ret r w' e /\ kern_same w pts w' pts' /\
  (forall n p f o, um !! n = Some (p, f) -> 0 <= o < PGSIZE -> ldm (w_mem w') (p + o) = ldm (w_mem w) (p + o)) /\
  ((r = newsz /\ exists new, aspace w' pgdir pts' (new ∪ um) us l' /\ (forall n, is_Some (new !! n) <-> npages oldsz <= n < npages newsz) /\
      (forall n p f, new !! n = Some (p, f) -> f = 7 /\ zero_page (w_mem w') p) /\ pages new ++ vals pts' ++ l' ≡ₚ vals pts ++ l) \/
   (r = 0 /\ Z.of_nat (length l) <= npages newsz - npages oldsz + 1024 /\ aspace w' pgdir pts' um us l' /\ vals pts' ++ l' ≡ₚ vals pts ++ l)).
Proof.
  intros Hend Has Hok Hpr Hold Hnew Hum. destruct (allocuvm_spec i w pgdir pts um us l oldsz newsz c e Hend Has Hok Hpr Hold Hnew Hum) as (r & w' & E & pts' & l' & _ & Hf & Hk & Hr).
  exists r, w', pts', l'. split; [done|]. split; [done|]. split.
  { intros n p f o Hn Ho. destruct (used_not_table _ _ _ _ _ p (as_inv _ _ _ _ _ _ Has)) as [Hp Hpt]; [apply elem_of_app; left; apply pages_elem; eauto|].
    apply (mem_frame_page _ _ _ p _ Hf); [apply (table_pages_ok w pgdir pts (pages um ++ us) l), Has|by apply page_ok_mod|exact Hpt|lia]. }
  destruct Hr as [(new & -> & [G1 G2 G3 G4 _ _ _])|(-> & H1 & H2 & H3)]; [left|by right]. split; [done|]. exists new. split; [done|]. split; [|split; [|done]].
  - intros n. split; [intros [x Hx]; by apply (G2 n x)|apply G3].
  - intros n p f Hn. by destruct (G2 n (p, f) Hn) as (_ & ? & ?).
Qed.
End spaces.

Lemma sp_kmem : kmem_ok (sp_world boot_world) 0 boot_cpu.
Proof. intros _. split; [exact boot_cpu_ok|]. eexists. vm_compute. reflexivity. Qed.

Lemma sp_image : @image_ok demo_image.
Proof. split; [reflexivity|]. split; [done|reflexivity]. Qed.

Lemma sp_length : Z.of_nat (length (page_range sp_free sp_count)) = 3000.
Proof. unfold page_range. rewrite length_fmap, length_seq. change sp_count with (Z.to_nat 3000). lia. Qed.

Lemma copyuvm_copies_witness :
  exists r w' q, @copyuvm demo_image sp_dir 4096 (sp_world boot_world) [] = Ret r w' [] /\ r <> 0 /\ ldb (w_mem w') q = 42.
Proof.
  destruct (@copyuvm_copies demo_image 0 (sp_world boot_world) sp_dir sp_pts sp_um [sp_kstack] (page_range sp_free sp_count) 4096 boot_cpu [])
    as (r & w' & E & _ & [(Hr & dpts & dum & l' & _ & _ & Hcp & _)|(_ & Hlen & _)]).
  - exact sp_image.
  - exact (sp_aspace boot_world).
  - exact sp_kmem.
  - unfold KERNBASE. lia.
  - exact sp_dom.
  - destruct (Hcp 0 sp_page 7) as (q & _ & Hq); [reflexivity|]. exists r, w', (q + 0). split; [exact E|]. split; [exact Hr|].
    rewrite Hq by (unfold PGSIZE; lia). change (ldb sp_mem (sp_page + 0) = 42). unfold ldb. change (wordaddr (sp_page + 0)) with sp_page. rewrite sp_word. reflexivity.
  - rewrite sp_length in Hlen. change (npages 4096) with 1 in Hlen. lia.
Defined.

Lemma copyuvm_freevm_witness :
  exists w', (d <- @copyuvm demo_image sp_dir 4096; @freevm demo_image d) (sp_world boot_world) [] = Ret tt w' [].
Proof.
  destruct (@copyuvm_freevm demo_image 0 (sp_world boot_world) sp_dir sp_pts sp_um [sp_kstack] (page_range sp_free sp_count) 4096 boot_cpu []) as (w' & l' & E & _).
  - exact sp_image.
  - exact (sp_aspace boot_world).
  - exact sp_kmem.
  - unfold KERNBASE. lia.
  - exact sp_dom.
  - rewrite sp_length. change (npages 4096) with 1. lia.
  - exists w'. exact E.
Defined.

Lemma allocuvm_grows_witness :
  exists w', @allocuvm demo_image sp_dir 4096 10000 (sp_world boot_world) [] = Ret 10000 w' [].
Proof.
  destruct (@allocuvm_grows demo_image 0 (sp_world boot_world) sp_dir sp_pts sp_um [sp_kstack] (page_range sp_free sp_count) 4096 10000 boot_cpu [])
    as (r & w' & pts' & l' & E & _ & _ & [(-> & _)|(_ & Hlen & _)]).
  - reflexivity.
  - exact (sp_aspace boot_world).
  - exact sp_kmem.
  - split; [by vm_compute|]. split; [intros _; eexists; vm_compute; reflexivity|]. exists boot_cpu. exact boot_cpu_ok.
  - lia.
  - unfold KERNBASE. lia.
  - intros n Hn. apply eq_None_not_Some. rewrite sp_dom. lia.
  - exists w'. exact E.
  - rewrite sp_length in Hlen. change (npages 4096) with 1 in Hlen. change (npages 10000) with 3 in Hlen. lia.
Defined.
