(* ===== verification/Sleeplock.v ===== *)
(** * Sleep locks (sleeplock.c)

    [acquiresleep] waits for the lock without spinning; [kctx] is the state in which
    a process runs kernel code that may sleep: no spin lock is held. *)

From Stdlib Require Import ZArith Lia.
From stdpp Require Import base list gmap strings numbers.
From S2P Require Import Prelude Machine Cstring Spinlock Boot Sched.
Local Open Scope Z_scope.
Local Open Scope kern_scope.

Definition slock_of (w : world) (s : slid) : sleeplock := default (mkSleeplock 0 "" 0) (w_slocks w !! s).
Definition put_slock (s : slid) (v : sleeplock) (w : world) : world := set_w_slocks (insert s v) w.
Definition upd_slock (s : slid) (g : sleeplock -> sleeplock) (w : world) : world :=
  put_slock s (g (slock_of w s)) w.

Definition initsleeplock (s : slid) (name : string) : KM unit :=
  initlock (SleepLk s) "sleep lock" >>;
  kmod (put_slock s (mkSleeplock 0 name 0)).

(** [myproc()->pid] *)
Definition mypid : KM Z := p <- myproc; p <- kderef p; pr <- get_proc p; kret (p_pid pr).

Definition acquiresleep (s : slid) : KM unit :=
  acquire (SleepLk s) >>;
  kwait (l <- kget (fun w => sl_locked (slock_of w s));
         if l =? 0 then kret (Some tt)
         else sleep (Some (ChSleep s)) (Some (SleepLk s)) >>; kret None) >>;
  kmod (upd_slock s (set_sl_locked (fun _ => 1))) >>;
  pid <- mypid;
  kmod (upd_slock s (set_sl_pid (fun _ => pid))) >>;
  release (SleepLk s).

Definition releasesleep (s : slid) : KM unit :=
  acquire (SleepLk s) >>;
  kmod (upd_slock s (set_sl_locked (fun _ => 0))) >>;
  kmod (upd_slock s (set_sl_pid (fun _ => 0))) >>;
  wakeup (Some (ChSleep s)) >>;
  release (SleepLk s).

Definition holdingsleep (s : slid) : KM bool :=
  acquire (SleepLk s) >>;
  l <- kget (fun w => slock_of w s);
  r <- (if sl_locked l =? 0 then kret false else pid <- mypid; kret (sl_pid l =? pid));
  release (SleepLk s) >>;
  kret r.

(** ** Process context *)

(** The locks of the static tables. *)
Definition static_lock (lk : lockid) : bool :=
  match lk with
  | PipeLock _ => false
  | SleepLk (SlInode i) => bool_decide (i < NINODE)%nat
  | SleepLk (SlBuf b) => bool_decide (b < NBUF)%nat
  | _ => true
  end.

(** CPU [i] is outside every critical section and no lock of the kernel is held. *)
Record kcpu (w : world) (i : nat) (c : cpu) : Prop := {
  kcpu_ok : cpu_ok w i c;
  kcpu_settled : settled i w = w;
  kcpu_free : forall lk, static_lock lk = true -> lock_free w lk
}.

(** CPU [i] runs process [p], entry [pr], outside every critical section. *)
Record kctx (w : world) (i : nat) (c : cpu) (p : nat) (pr : proc) : Prop := {
  kctx_ok : cpu_ok w i c;
  kctx_settled : settled i w = w;
  kctx_cur : c_proc c = Some p;
  kctx_proc : w_procs w !! p = Some pr;
  kctx_free : forall lk, static_lock lk = true -> lock_free w lk
}.

Lemma framed_settled w i F `{!Framed F} : settled i (F w) = F (settled i w).
Proof. unfold settled, upd_cpu. by rewrite framed_cpus, framed_if_of. Qed.

Section kcpu.
Context (w : world) (i : nat) (c : cpu) (H : kcpu w i c).

Lemma kcpu_frame F `{!Framed F} : kcpu (F w) i c.
Proof using H.
  destruct H as [H1 H2 H3]. split; [by apply framed_cpu_ok|rewrite framed_settled by done; by rewrite H2|].
  intros lk Hlk. apply framed_lock_free; [done|]. by apply H3.
Qed.

Lemma kcpu_acquire lk e : static_lock lk = true -> acquire lk w e = Ret tt (entered i lk w) e.
Proof using H. intros Hlk. destruct H as [H1 H2 H3]. apply (acquire_eq w i c); auto. Qed.

(** The end of a critical section. *)
Lemma kcpu_release lk F `{!Framed F} e : static_lock lk = true -> release lk (F (entered i lk w)) e = Ret tt (F w) e.
Proof using H. intros Hlk. destruct H as [H1 H2 H3]. rewrite (release_section w i c lk H1 F) by auto. by rewrite H2. Qed.
End kcpu.

Section kctx.
Context (w : world) (i : nat) (c : cpu) (p : nat) (pr : proc) (H : kctx w i c p pr).

(** A change that leaves the CPU, the locks and the process's entry alone keeps the context. *)
Lemma kctx_frame F `{!Framed F} pr' :
  w_procs (F w) !! p = Some pr' -> kctx (F w) i c p pr'.
Proof using H.
  destruct H as [H1 H2 H3 H4 H5]. intros Hp. split; try done.
  - by apply framed_cpu_ok.
  - rewrite framed_settled by done. by rewrite H2.
  - intros lk Hlk. apply framed_lock_free; [done|]. by apply H5.
Qed.

Lemma kctx_kcpu : kcpu w i c.
Proof using H. by destruct H. Qed.

Lemma mypid_eq e : mypid w e = Ret (p_pid pr) w e.
Proof using H.
  destruct H as [H1 H2 H3 H4 H5]. unfold mypid. simpl.
  rewrite (myproc_eq w i c), H2, H3 by done. simpl. by rewrite (get_proc_eq w p pr).
Qed.

(** The same inside a critical section. *)
Lemma mypid_entered lk F `{!Framed F} e :
  w_procs (F w) = w_procs w -> (forall v, w_procs (F v) = w_procs v) ->
  mypid (F (entered i lk w)) e = Ret (p_pid pr) (F (entered i lk w)) e.
Proof using H.
  destruct H as [H1 H2 H3 H4 H5]. intros _ HF. unfold mypid. simpl.
  assert (cpu_ok (F (entered i lk w)) i (cpu_push (w_if w) c)) as Hok.
  { apply framed_cpu_ok; [done|]. by apply entered_ok. }
  rewrite (myproc_eq _ i _ e Hok). simpl. rewrite H3. simpl.
  assert (settled i (F (entered i lk w)) = F (entered i lk w)) as ->.
  { eapply settled_id; [apply Hok|]. destruct H1 as (_ & ? & _). simpl. lia. }
  rewrite (get_proc_eq _ p pr); [done|]. by rewrite HF.
Qed.

(** [acquire lk]; body; [release lk], in a context where [lk] is free. *)
Lemma section_eq lk F `{!Framed F} {A} (body : KM A) a e :
  static_lock lk = true ->
  body (entered i lk w) e = Ret a (F (entered i lk w)) e ->
  (acquire lk >>; r <- body; release lk >>; kret r) w e = Ret a (F w) e.
Proof using H.
  destruct H as [H1 H2 H3 H4 H5]. intros Hlk Hb. simpl.
  rewrite (acquire_eq w i c) by auto. rewrite Hb, (release_section w i c) by auto. by rewrite H2.
Qed.
End kctx.

(** ** What the operations do *)

(** Writing the same lock twice. *)
Lemma put_slock_put s v v' w : put_slock s v (put_slock s v' w) = put_slock s v w.
Proof. unfold put_slock, set_w_slocks. simpl. by rewrite insert_insert_eq. Qed.

Lemma slock_of_put s v w : slock_of (put_slock s v w) s = v.
Proof. unfold slock_of, put_slock. simpl. by rewrite lookup_insert_eq. Qed.

Lemma slock_of_put_ne s s' v w : s <> s' -> slock_of (put_slock s v w) s' = slock_of w s'.
Proof. intros Hne. unfold slock_of, put_slock. simpl. by rewrite lookup_insert_ne. Qed.

Lemma upd_slock_put s g v w : upd_slock s g (put_slock s v w) = put_slock s (g v) w.
Proof. unfold upd_slock. by rewrite slock_of_put, put_slock_put. Qed.

(** The effect of a wakeup on the process table. *)
Definition woken (ch : chan) (w : world) : world := set_w_procs (fmap (wake_proc (Some ch))) w.

Section ops.
Context (w : world) (i : nat) (c : cpu) (p : nat) (pr : proc) (H : kctx w i c p pr) (s : slid)
  (Hs : static_lock (SleepLk s) = true).

Lemma acquiresleep_eq e :
  sl_locked (slock_of w s) = 0 ->
  acquiresleep s w e
  = Ret tt (put_slock s (mkSleeplock 1 (sl_name (slock_of w s)) (p_pid pr)) w) e.
Proof using H Hs.
  intros Hf. pose proof H as [H1 H2 H3 H4 H5]. unfold acquiresleep. simpl.
  rewrite (acquire_eq w i c) by auto. simpl.
  erewrite kwait_some; [|simpl; change (slock_of (entered i (SleepLk s) w) s) with (slock_of w s);
    rewrite Hf; reflexivity].
  set (v := slock_of w s).
  change (upd_slock s (set_sl_locked (fun _ => 1)) (entered i (SleepLk s) w))
    with (put_slock s (set_sl_locked (fun _ => 1) v) (entered i (SleepLk s) w)).
  rewrite (mypid_entered w i c p pr H (SleepLk s) (put_slock s (set_sl_locked (fun _ => 1) v))) by done.
  rewrite upd_slock_put.
  rewrite (release_section w i c (SleepLk s) H1
    (put_slock s (mkSleeplock 1 (sl_name v) (p_pid pr)))) by auto.
  by rewrite H2.
Qed.

Lemma wakeup_entered lk ch F `{!Framed F} e :
  lk <> PtableLock ->
  wakeup (Some ch) (F (entered i lk w)) e = Ret tt (woken ch (F (entered i lk w))) e.
Proof using H.
  destruct H as [H1 H2 H3 H4 H5]. intros Hne.
  assert (cpu_ok (F (entered i lk w)) i (cpu_push (w_if w) c)) as Hok.
  { apply framed_cpu_ok; [done|]. by apply entered_ok. }
  rewrite (wakeup_eq _ i _ _ _ Hok).
  - assert (settled i (F (entered i lk w)) = F (entered i lk w)) as ->; [|done].
    eapply settled_id; [apply Hok|]. destruct H1 as (_ & ? & _). simpl. lia.
  - apply framed_lock_free; [done|]. apply entered_other; [done|]. by apply H5.
Qed.

Lemma releasesleep_eq e :
  releasesleep s w e
  = Ret tt (woken (ChSleep s) (put_slock s (mkSleeplock 0 (sl_name (slock_of w s)) 0) w)) e.
Proof using H Hs.
  pose proof H as [H1 H2 H3 H4 H5]. unfold releasesleep. simpl.
  rewrite (acquire_eq w i c) by auto. simpl.
  set (v := slock_of w s).
  change (upd_slock s (set_sl_locked (fun _ => 0)) (entered i (SleepLk s) w))
    with (put_slock s (set_sl_locked (fun _ => 0) v) (entered i (SleepLk s) w)).
  rewrite upd_slock_put.
  rewrite (wakeup_entered _ _ (put_slock s (mkSleeplock 0 (sl_name v) 0))) by done.
  rewrite (release_section w i c (SleepLk s) H1
    (fun w => woken (ChSleep s) (put_slock s (mkSleeplock 0 (sl_name v) 0) w))) by auto.
  by rewrite H2.
Qed.

Lemma holdingsleep_eq e :
  holdingsleep s w e
  = Ret (negb (sl_locked (slock_of w s) =? 0) && (sl_pid (slock_of w s) =? p_pid pr)) w e.
Proof using H Hs.
  pose proof H as [H1 H2 H3 H4 H5]. unfold holdingsleep. simpl.
  rewrite (acquire_eq w i c) by auto. simpl.
  change (slock_of (entered i (SleepLk s) w) s) with (slock_of w s).
  assert (release (SleepLk s) (entered i (SleepLk s) w) e = Ret tt w e) as Hr.
  { rewrite (release_section w i c (SleepLk s) H1 (fun v => v)) by auto. by rewrite H2. }
  destruct (sl_locked (slock_of w s) =? 0); simpl.
  - by rewrite Hr.
  - rewrite (mypid_entered w i c p pr H (SleepLk s) (fun v => v)) by done. by rewrite Hr.
Qed.
End ops.

(** A context for examples: process 1 runs on CPU 0. *)
Definition ctx_cpu : cpu := mkCpu 0 0 0 0 (replicate 6 zero_seg) 0 0 FL_IF (Some 1%nat).
Definition ctx_proc : proc := set_p_pid (fun _ => 1) (set_p_state (fun _ => RUNNING) zero_proc).
Definition ctx_world : world :=
  upd_proc 1 (fun _ => ctx_proc) (set_w_cpus (fun _ => [ctx_cpu]) boot_world).

Lemma boot_static lk : static_lock lk = true -> lock_free boot_world lk.
Proof.
  intros Hlk. unfold lock_free.
  destruct lk as [| | | | | | | | |a|[n|n]]; try (eexists; vm_compute; reflexivity); [done| |];
    simpl in Hlk; apply bool_decide_eq_true in Hlk; unfold NINODE, NBUF in Hlk.
  - do 50 (destruct n as [|n]; [eexists; vm_compute; reflexivity|]). lia.
  - do 30 (destruct n as [|n]; [eexists; vm_compute; reflexivity|]). lia.
Qed.

Lemma ctx_kctx : kctx ctx_world 0 ctx_cpu 1 ctx_proc.
Proof.
  split; [split; [by split|simpl; lia]|done|done|done|].
  intros lk Hlk. apply boot_static in Hlk. exact Hlk.
Qed.
