(* ===== verification/Layout.v ===== *)
(** * Structures inside disk blocks (fs.h, log.c)

    A block is a list of bytes.  [get n l off] reads an [n]-byte little-endian number at
    byte [off], [put n off v l] writes it.  The on-disk structures [dinode], [dirent],
    [superblock] and [logheader] are read and written with them, and reading back what was
    written is the identity. *)

From Stdlib Require Import ZArith Lia.
From stdpp Require Import base list gmap strings numbers.
From S2P Require Import Prelude Machine.
Local Open Scope Z_scope.

(** ** Ranges of lists *)

(** [memmove(l + off, bs, |bs|)] *)
Definition splice (off : nat) (bs l : list Z) : list Z :=
  take off l ++ bs ++ drop (off + length bs) l.
(** The [n] bytes from [off] on. *)
Definition range (off n : nat) (l : list Z) : list Z := take n (drop off l).

Section splice.
Implicit Types (l bs : list Z) (off n : nat).

Lemma splice_length off bs l :
  (off + length bs <= length l)%nat -> length (splice off bs l) = length l.
Proof. intros H. unfold splice. rewrite !length_app, length_take, length_drop. lia. Qed.

Lemma range_length off n l : (off + n <= length l)%nat -> length (range off n l) = n.
Proof. intros H. unfold range. rewrite length_take, length_drop. lia. Qed.

Lemma splice_lookup off bs l k :
  (off + length bs <= length l)%nat ->
  splice off bs l !! k
  = if decide (off <= k < off + length bs)%nat then bs !! (k - off)%nat else l !! k.
Proof.
  intros H. unfold splice. destruct (decide _) as [Hk|Hk].
  - rewrite lookup_app_r by (rewrite length_take; lia). rewrite length_take, Nat.min_l by lia.
    apply lookup_app_l. lia.
  - destruct (decide (k < off)%nat).
    + rewrite lookup_app_l by (rewrite length_take; lia). apply lookup_take_lt. lia.
    + rewrite lookup_app_r by (rewrite length_take; lia). rewrite length_take, Nat.min_l by lia.
      rewrite lookup_app_r by lia. rewrite lookup_drop. f_equal. lia.
Qed.

Lemma range_lookup off n l k :
  (k < n)%nat -> range off n l !! k = l !! (off + k)%nat.
Proof. intros H. unfold range. by rewrite lookup_take_lt, lookup_drop. Qed.

Lemma range_splice_eq off bs l :
  (off + length bs <= length l)%nat -> range off (length bs) (splice off bs l) = bs.
Proof.
  intros H. unfold range, splice.
  rewrite drop_app_length' by (rewrite length_take; lia). by rewrite take_app_length.
Qed.

Lemma range_splice_ne off bs l off' n :
  (off + length bs <= length l)%nat -> (off' + n <= off \/ off + length bs <= off')%nat ->
  range off' n (splice off bs l) = range off' n l.
Proof.
  intros H Hd. apply list_eq. intros k. destruct (decide (k < n)%nat).
  - rewrite !range_lookup, splice_lookup by done. by rewrite decide_False by lia.
  - unfold range. by rewrite !lookup_take_ge by lia.
Qed.

Lemma splice_Forall (P : Z -> Prop) off bs l :
  Forall P bs -> Forall P l -> Forall P (splice off bs l).
Proof.
  intros Hb Hl. unfold splice. rewrite !Forall_app. split_and!; [|done|].
  - by apply Forall_take.
  - by apply Forall_drop.
Qed.
End splice.

(** ** Little-endian numbers *)

Fixpoint le (n : nat) (z : Z) : list Z :=
  match n with O => [] | S n' => z mod 256 :: le n' (z / 256) end.
Fixpoint le_val (l : list Z) : Z :=
  match l with [] => 0 | b :: l' => b + 256 * le_val l' end.

Definition get (n : nat) (l : list Z) (off : nat) : Z := le_val (range off n l).
Definition put (n off : nat) (v : Z) (l : list Z) : list Z := splice off (le n v) l.

Lemma le_length n z : length (le n z) = n.
Proof. revert z. induction n as [|n IH]; intros z; simpl; [done|]. by rewrite IH. Qed.

Lemma le_bytes n z : Forall (fun b => 0 <= b < 256) (le n z).
Proof.
  revert z. induction n as [|n IH]; intros z; simpl; constructor; [|done].
  apply Z.mod_pos_bound. lia.
Qed.

Lemma le_val_le n z : le_val (le n z) = z mod 256 ^ Z.of_nat n.
Proof.
  revert z. induction n as [|n IH]; intros z.
  - cbn [le le_val]. change (256 ^ Z.of_nat 0) with 1. by rewrite Z.mod_1_r.
  - cbn [le le_val]. rewrite IH, Nat2Z.inj_succ, Z.pow_succ_r by lia.
    rewrite Z.rem_mul_r; lia.
Qed.

Lemma le_val_bound l : Forall (fun b => 0 <= b < 256) l -> 0 <= le_val l < 256 ^ Z.of_nat (length l).
Proof.
  induction 1 as [|b l Hb _ IH]; [simpl; lia|]. cbn [le_val length].
  rewrite Nat2Z.inj_succ, Z.pow_succ_r by lia. lia.
Qed.

Lemma put_length n off v l : (off + n <= length l)%nat -> length (put n off v l) = length l.
Proof. intros H. apply splice_length. by rewrite le_length. Qed.

Lemma put_length_min n off v l :
  length (put n off v l) = (off `min` length l + (n + (length l - (off + n))))%nat.
Proof. unfold put, splice. by rewrite !length_app, length_take, length_drop, le_length. Qed.

(** Lengths of blocks under nested writes. *)
Ltac len := rewrite ?put_length_min; lia.

Lemma get_put_eq n off v l :
  (off + n <= length l)%nat -> get n (put n off v l) off = v mod 256 ^ Z.of_nat n.
Proof.
  intros H. unfold get, put. rewrite <-(le_length n v) at 1.
  rewrite range_splice_eq by by rewrite le_length. apply le_val_le.
Qed.

Lemma get_put_ne n off v l n' off' :
  (off + n <= length l)%nat -> (off' + n' <= off \/ off + n <= off')%nat ->
  get n' (put n off v l) off' = get n' l off'.
Proof.
  intros H Hd. unfold get, put. by rewrite range_splice_ne by (rewrite le_length; lia).
Qed.

Lemma get_splice_ne off bs l n' off' :
  (off + length bs <= length l)%nat -> (off' + n' <= off \/ off + length bs <= off')%nat ->
  get n' (splice off bs l) off' = get n' l off'.
Proof. intros H Hd. unfold get. by rewrite range_splice_ne. Qed.

Lemma get_bound n l off :
  Forall (fun b => 0 <= b < 256) l -> 0 <= get n l off < 256 ^ Z.of_nat n.
Proof.
  intros Hl. unfold get. pose proof (le_val_bound (range off n l)) as Hb.
  assert (Forall (fun b => 0 <= b < 256) (range off n l)) as Hr
    by (apply Forall_take, Forall_drop, Hl).
  specialize (Hb Hr). assert (length (range off n l) <= n)%nat
    by (unfold range; rewrite length_take; lia).
  assert (256 ^ Z.of_nat (length (range off n l)) <= 256 ^ Z.of_nat n)
    by (apply Z.pow_le_mono_r; lia). lia.
Qed.

Arguments get : simpl never.
Arguments put : simpl never.
Arguments splice : simpl never.
Arguments range : simpl never.

(** ** On-disk inodes *)

Definition IPB : Z := BSIZE / 64.
Definition BPB : Z := BSIZE * 8.
Definition IBLOCK (i : Z) (sb : superblock) : Z := u32 (i / IPB + sb_inodestart sb).
Definition BBLOCK (b : Z) (sb : superblock) : Z := u32 (b / BPB + sb_bmapstart sb).

(** [struct dinode] *)
Record dinode : Type := mkDinode {
  d_type : Z; d_major : Z; d_minor : Z; d_nlink : Z; d_size : Z;
  d_addrs : list Z  (* NDIRECT+1 block numbers *)
}.

(** The byte at which inode [inum] starts in its block: [(struct dinode* )data + inum%IPB]. *)
Definition dinode_off (inum : Z) : nat := Z.to_nat (64 * (inum mod IPB)).

Definition read_dinode (l : list Z) (off : nat) : dinode :=
  mkDinode (s16 (get 2 l off)) (s16 (get 2 l (off + 2))) (s16 (get 2 l (off + 4)))
    (s16 (get 2 l (off + 6))) (get 4 l (off + 8))
    ((fun k => get 4 l (off + 12 + 4 * k)) <$> seq 0 13).

(** [memmove(a, addrs, 4*|addrs|)] of an array of uints *)
Fixpoint put_words (off : nat) (ws : list Z) (l : list Z) : list Z :=
  match ws with [] => l | v :: ws' => put_words (off + 4) ws' (put 4 off v l) end.

Definition write_dinode (off : nat) (d : dinode) (l : list Z) : list Z :=
  put_words (off + 12) (d_addrs d)
    (put 4 (off + 8) (d_size d)
      (put 2 (off + 6) (d_nlink d)
        (put 2 (off + 4) (d_minor d)
          (put 2 (off + 2) (d_major d) (put 2 off (d_type d) l))))).

Definition dinode_ok (d : dinode) : Prop :=
  let short z := - 2 ^ 15 <= z < 2 ^ 15 in
  short (d_type d) /\ short (d_major d) /\ short (d_minor d) /\ short (d_nlink d) /\
  0 <= d_size d < 2 ^ 32 /\ length (d_addrs d) = 13%nat /\
  Forall (fun a => 0 <= a < 2 ^ 32) (d_addrs d).

Lemma put_words_length off ws l :
  (off + 4 * length ws <= length l)%nat -> length (put_words off ws l) = length l.
Proof.
  revert off l. induction ws as [|v ws IH]; intros off l H; cbn [put_words length] in *; [done|].
  rewrite IH by (rewrite put_length; lia). apply put_length. lia.
Qed.

Lemma put_words_snoc off ws v l : put_words off (ws ++ [v]) l = put 4 (off + 4 * length ws) v (put_words off ws l).
Proof.
  revert off l. induction ws as [|x ws IH]; intros off l; cbn [app put_words length].
  - by rewrite Nat.mul_0_r, Nat.add_0_r.
  - rewrite IH. f_equal. lia.
Qed.

Lemma get_put_words_ne n off ws l off' :
  (off + 4 * length ws <= length l)%nat -> (off' + n <= off \/ off + 4 * length ws <= off')%nat ->
  get n (put_words off ws l) off' = get n l off'.
Proof.
  revert off l. induction ws as [|v ws IH]; intros off l H Hd; cbn [put_words length] in *; [done|].
  rewrite IH by (rewrite ?put_length; lia). apply get_put_ne; lia.
Qed.

Lemma get_put_words_eq off ws l k v :
  (off + 4 * length ws <= length l)%nat -> ws !! k = Some v ->
  get 4 (put_words off ws l) (off + 4 * k) = u32 v.
Proof.
  revert off l k. induction ws as [|x ws IH]; intros off l k H Hk; [done|].
  cbn [put_words length] in *. destruct k as [|k]; simpl in Hk.
  - simplify_eq. rewrite get_put_words_ne by (rewrite ?put_length; lia).
    rewrite Nat.mul_0_r, Nat.add_0_r, get_put_eq by lia. done.
  - replace (off + 4 * S k)%nat with (off + 4 + 4 * k)%nat by lia.
    apply IH; [rewrite put_length; lia|done].
Qed.

Lemma s16_mod z : - 2 ^ 15 <= z < 2 ^ 15 -> s16 (z mod 256 ^ Z.of_nat 2) = z.
Proof.
  intros Hz. unfold s16. change (256 ^ Z.of_nat 2) with (2 ^ 16).
  rewrite Zplus_mod_idemp_l, Z.mod_small; lia.
Qed.

Lemma write_dinode_length off d l :
  (off + 64 <= length l)%nat -> length (d_addrs d) = 13%nat ->
  length (write_dinode off d l) = length l.
Proof.
  intros H Ha. unfold write_dinode. rewrite put_words_length; len.
Qed.

(** Reading back an inode that was written gives it back. *)
Lemma read_write_dinode off d l :
  (off + 64 <= length l)%nat -> dinode_ok d -> read_dinode (write_dinode off d l) off = d.
Proof.
  intros H (Ht & Hmj & Hmn & Hnl & Hsz & Hlen & Ha). unfold read_dinode, write_dinode.
  repeat (rewrite (get_put_words_ne _ (off + 12)) by len).
  assert (((fun k => get 4 (put_words (off + 12) (d_addrs d)
      (put 4 (off + 8) (d_size d) (put 2 (off + 6) (d_nlink d) (put 2 (off + 4) (d_minor d)
        (put 2 (off + 2) (d_major d) (put 2 off (d_type d) l)))))) (off + 12 + 4 * k)) <$> seq 0 13)
    = d_addrs d) as ->.
  { apply list_eq. intros k. rewrite list_lookup_fmap. destruct (decide (k < 13)%nat) as [Hk|Hk].
    - rewrite lookup_seq_lt by done. cbn [fmap option_fmap option_map]. rewrite Nat.add_0_l.
      destruct (d_addrs d !! k) as [v|] eqn:Hv; [|apply lookup_ge_None in Hv; lia].
      f_equal. rewrite (get_put_words_eq _ _ _ _ v) by (len || done).
      apply u32_small. rewrite Forall_forall in Ha. apply Ha, list_elem_of_In.
      by eapply list_elem_of_lookup_2.
    - rewrite lookup_seq_ge by lia. symmetry. apply lookup_ge_None. lia. }
  repeat first [rewrite get_put_eq by len | rewrite get_put_ne by len].
  rewrite !s16_mod by done. change (256 ^ Z.of_nat 4) with (2 ^ 32).
  rewrite Z.mod_small by done. by destruct d.
Qed.

(** ... and leaves the other inodes of the block alone. *)
Lemma read_write_dinode_ne off off' d l :
  (off + 64 <= length l)%nat -> length (d_addrs d) = 13%nat ->
  (off' + 64 <= off \/ off + 64 <= off')%nat ->
  read_dinode (write_dinode off d l) off' = read_dinode l off'.
Proof.
  intros H Hlen Hd. unfold read_dinode, write_dinode.
  assert (forall n o, (o + n <= off \/ off + 64 <= o)%nat ->
    get n (put_words (off + 12) (d_addrs d)
      (put 4 (off + 8) (d_size d) (put 2 (off + 6) (d_nlink d) (put 2 (off + 4) (d_minor d)
        (put 2 (off + 2) (d_major d) (put 2 off (d_type d) l)))))) o = get n l o) as Hg.
  { intros n o Ho. rewrite get_put_words_ne by len.
    repeat (rewrite get_put_ne by len). done. }
  rewrite !Hg by lia. f_equal. apply list_fmap_ext. intros k x Hk.
  apply lookup_seq in Hk as [-> Hk]. apply Hg. lia.
Qed.

(** ** The superblock, the log header and directory entries *)

Definition read_sb (l : list Z) : superblock :=
  mkSuperblock (get 4 l 0) (get 4 l 4) (get 4 l 8) (get 4 l 12) (get 4 l 16) (get 4 l 20) (get 4 l 24).

(** [lh->n] and [lh->block[i]] of a header block. *)
Definition lh_get_n (l : list Z) : Z := s32 (get 4 l 0).
Definition lh_get_block (l : list Z) (i : nat) : Z := s32 (get 4 l (4 + 4 * i)).

(** [struct dirent]: an inode number and a name of DIRSIZ bytes. *)
Definition de_inum (de : list Z) : Z := get 2 de 0.
Definition de_name (de : list Z) : list Z := range 2 14 de.
Definition mk_dirent (inum : Z) (name : list Z) : list Z := le 2 inum ++ name.

Lemma mk_dirent_inum inum name : 0 <= inum < 2 ^ 16 -> de_inum (mk_dirent inum name) = inum.
Proof.
  intros H. unfold de_inum, get, range, mk_dirent. rewrite drop_0.
  rewrite take_app_length' by by rewrite le_length. rewrite le_val_le. by apply Z.mod_small.
Qed.

Lemma mk_dirent_name inum name : length name = 14%nat -> de_name (mk_dirent inum name) = name.
Proof.
  intros H. unfold de_name, range, mk_dirent.
  rewrite drop_app_length' by by rewrite le_length. rewrite <-H. apply take_ge. lia.
Qed.
