(* ===== verification/Bio.v ===== *)
(** * The buffer cache and the disk drivers (bio.c, memide.c, ide.c)

    Buffers are entries of [w_bufs]; the list head [bcache.head] is entry [NBUF] and the
    LRU list runs through the indices [b_prev] and [b_next].  The driver is an interface
    with two implementations, the memory disk of memide.c and the IDE disk of ide.c. *)

From Stdlib Require Import ZArith Lia.
From stdpp Require Import base list gmap strings numbers.
From S2P Require Import Prelude Machine Cstring Spinlock Boot Sched Sleeplock.
Local Open Scope Z_scope.
Local Open Scope kern_scope.

Definition get_buf (b : nat) : KM buf := bs <- kget w_bufs; kderef (bs !! b).
(** &bcache.head *)
Definition bhead : nat := NBUF.
Arguments bhead : simpl never.

Definition flag (v f : Z) : bool := negb (Z.land v f =? 0).

(** What a disk driver offers the buffer cache. *)
Class DiskDriver := iderw : nat -> KM unit.

(** ** The memory disk (memide.c) *)

(** The bytes of a block on the disk. *)
Definition disk_block (w : world) (n : Z) : list Z := default (replicate 512 0) (w_disk w !! n).
(** A write the disk carries out. *)
Definition disk_write (n : Z) (d : list Z) (w : world) : world :=
  set_w_dtrace (fun t => (n, d) :: t) (set_w_disk (insert n d) w).

Definition iderw_mem (b : nat) : KM unit :=
  h <- holdingsleep (SlBuf b);
  if negb h then kpanic "iderw: buf not locked" else
  bf <- get_buf b;
  if Z.land (b_flags bf) (Z.lor B_VALID B_DIRTY) =? B_VALID then kpanic "iderw: nothing to do" else
  if negb (b_dev bf =? 1) then kpanic "iderw: request not for disk 1" else
  sz <- kget (fun w => ide_disksize (w_ide w));
  if b_blockno bf >=? u32 sz then kpanic "iderw: block out of range" else
  (if flag (b_flags bf) B_DIRTY then
     kmod (upd_buf b (set_b_flags (fun f => Z.land f (u32 (Z.lnot B_DIRTY))))) >>;
     kmod (disk_write (b_blockno bf) (b_data bf))
   else
     kmod (fun w => upd_buf b (set_b_data (fun _ => disk_block w (b_blockno bf))) w)) >>;
  kmod (upd_buf b (set_b_flags (fun f => Z.lor f B_VALID))).

Definition memide : DiskDriver := iderw_mem.

(** ** The IDE disk (ide.c) *)

Definition IDE_BSY : Z := 0x80.
Definition IDE_DRDY : Z := 0x40.
Definition IDE_DF : Z := 0x20.
Definition IDE_ERR : Z := 0x01.

Definition upd_ide (g : idestate -> idestate) : KM unit := kmod (set_w_ide g).

(** Each poll of the status port that finds the disk busy lets the disk go on. *)
Definition idewait (checkerr : Z) : KM Z :=
  r <- kwait (r <- kget (fun w => ide_status (w_ide w));
              if Z.land r (Z.lor IDE_BSY IDE_DRDY) =? IDE_DRDY then kret (Some r)
              else kyield >>; kret None);
  if negb (checkerr =? 0) && negb (Z.land r (Z.lor IDE_DF IDE_ERR) =? 0) then kret (-1) else kret 0.

(** The sector number as the controller assembles it from the four bytes it is sent. *)
Definition ide_bytes (sector : Z) : Z :=
  Z.lor (Z.land sector 0xff)
   (Z.lor (Z.shiftl (Z.land (Z.shiftr sector 8) 0xff) 8)
    (Z.lor (Z.shiftl (Z.land (Z.shiftr sector 16) 0xff) 16)
           (Z.shiftl (Z.land (Z.shiftr sector 24) 0x0f) 24))).

Definition idestart (b : option nat) : KM unit :=
  match b with
  | None => kpanic "idestart"
  | Some b =>
    bf <- get_buf b;
    if b_blockno bf >=? FSSIZE then kpanic "incorrect blockno" else
    let sector := b_blockno bf in
    idewait 0 >>;
    upd_ide (set_ide_sector (fun _ => ide_bytes sector)) >>;
    kwhen (flag (b_flags bf) B_DIRTY)
      (kmod (fun w => disk_write (ide_sector (w_ide w)) (b_data bf) w))
  end.

Definition ideintr : KM unit :=
  acquire IdeLock >>;
  q <- kget (fun w => ide_queue (w_ide w));
  match q with
  | None => release IdeLock
  | Some b =>
    bf <- get_buf b;
    upd_ide (set_ide_queue (fun _ => b_qnext bf)) >>;
    (if flag (b_flags bf) B_DIRTY then kret tt else
       r <- idewait 1;
       kwhen (r >=? 0)
         (kmod (fun w => upd_buf b (set_b_data (fun _ => disk_block w (ide_sector (w_ide w)))) w))) >>;
    kmod (upd_buf b (set_b_flags (fun f => Z.lor f B_VALID))) >>;
    kmod (upd_buf b (set_b_flags (fun f => Z.land f (u32 (Z.lnot B_DIRTY))))) >>;
    wakeup (Some (ChBuf b)) >>;
    q <- kget (fun w => ide_queue (w_ide w));
    (match q with Some _ => idestart q | None => kret tt end) >>;
    release IdeLock
  end.

(** The walk along qnext that looks for the end of the queue, from the queued buffer [q]
    on: the last buffer; [n] bounds the turns. *)
Fixpoint ide_last (n : nat) (q : nat) : KM nat :=
  match n with
  | O => kout
  | S n' => bf <- get_buf q;
            match b_qnext bf with None => kret q | Some q' => ide_last n' q' end
  end.

Definition iderw_ide (b : nat) : KM unit :=
  h <- holdingsleep (SlBuf b);
  if negb h then kpanic "iderw: buf not locked" else
  bf <- get_buf b;
  if Z.land (b_flags bf) (Z.lor B_VALID B_DIRTY) =? B_VALID then kpanic "iderw: nothing to do" else
  hd <- kget (fun w => ide_havedisk1 (w_ide w));
  if negb (b_dev bf =? 0) && (hd =? 0) then kpanic "iderw: ide disk 1 not present" else
  acquire IdeLock >>;
  kmod (upd_buf b (set_b_qnext (fun _ => None))) >>;
  q <- kget (fun w => ide_queue (w_ide w));
  (match q with
   | None => upd_ide (set_ide_queue (fun _ => Some b))
   | Some q => l <- ide_last (NBUF + 1) q; kmod (upd_buf l (set_b_qnext (fun _ => Some b)))
   end) >>;
  q <- kget (fun w => ide_queue (w_ide w));
  kwhen (bool_decide (q = Some b)) (idestart (Some b)) >>;
  kwait (bf <- get_buf b;
         if Z.land (b_flags bf) (Z.lor B_VALID B_DIRTY) =? B_VALID then kret (Some tt)
         else sleep (Some (ChBuf b)) (Some IdeLock) >>; kret None) >>;
  release IdeLock.

Definition ide : DiskDriver := iderw_ide.

(** ** The buffer cache (bio.c) *)

Section bio.
Context `{DiskDriver}.

Definition binit : KM unit :=
  initlock BcacheLock "bcache" >>;
  kmod (upd_buf bhead (set_b_prev (fun _ => bhead))) >>;
  kmod (upd_buf bhead (set_b_next (fun _ => bhead))) >>;
  kfor (seq 0 NBUF) (fun b =>
    h <- get_buf bhead;
    kmod (upd_buf b (set_b_next (fun _ => b_next h))) >>;
    kmod (upd_buf b (set_b_prev (fun _ => bhead))) >>;
    initsleeplock (SlBuf b) "buffer" >>;
    h <- get_buf bhead;
    kmod (upd_buf (b_next h) (set_b_prev (fun _ => b))) >>;
    kmod (upd_buf bhead (set_b_next (fun _ => b)))).

(** [for(; b != &bcache.head; b = b->next) if(P(b)) ...]; [n] bounds the turns. *)
Fixpoint bscan (n : nat) (next : buf -> nat) (P : buf -> bool) (b : nat) : KM (option nat) :=
  match n with
  | O => kout
  | S n' =>
    if bool_decide (b = bhead) then kret None else
    bf <- get_buf b;
    if P bf then kret (Some b) else bscan n' next P (next bf)
  end.

Definition bget (dev blockno : Z) : KM nat :=
  acquire BcacheLock >>;
  h <- get_buf bhead;
  r <- bscan (NBUF + 1) b_next (fun bf => (b_dev bf =? dev) && (b_blockno bf =? blockno)) (b_next h);
  match r with
  | Some b =>
    kmod (upd_buf b (set_b_refcnt (fun n => u32 (n + 1)))) >>;
    release BcacheLock >>;
    acquiresleep (SlBuf b) >>;
    kret b
  | None =>
    h <- get_buf bhead;
    r <- bscan (NBUF + 1) b_prev (fun bf => (b_refcnt bf =? 0) && negb (flag (b_flags bf) B_DIRTY))
           (b_prev h);
    match r with
    | Some b =>
      kmod (upd_buf b (set_b_dev (fun _ => dev))) >>;
      kmod (upd_buf b (set_b_blockno (fun _ => blockno))) >>;
      kmod (upd_buf b (set_b_flags (fun _ => 0))) >>;
      kmod (upd_buf b (set_b_refcnt (fun _ => 1))) >>;
      release BcacheLock >>;
      acquiresleep (SlBuf b) >>;
      kret b
    | None => kpanic "bget: no buffers"
    end
  end.

Definition bread (dev blockno : Z) : KM nat :=
  b <- bget dev blockno;
  bf <- get_buf b;
  kwhen (negb (flag (b_flags bf) B_VALID)) (iderw b) >>;
  kret b.

Definition bwrite (b : nat) : KM unit :=
  h <- holdingsleep (SlBuf b);
  if negb h then kpanic "bwrite" else
  kmod (upd_buf b (set_b_flags (fun f => Z.lor f B_DIRTY))) >>;
  iderw b.

(** Unlink [b] and put it at the front of the list, write by write. *)
Definition bmove (b : nat) : KM unit :=
  bf <- get_buf b;
  kmod (upd_buf (b_next bf) (set_b_prev (fun _ => b_prev bf))) >>;
  bf <- get_buf b;
  kmod (upd_buf (b_prev bf) (set_b_next (fun _ => b_next bf))) >>;
  h <- get_buf bhead;
  kmod (upd_buf b (set_b_next (fun _ => b_next h))) >>;
  kmod (upd_buf b (set_b_prev (fun _ => bhead))) >>;
  h <- get_buf bhead;
  kmod (upd_buf (b_next h) (set_b_prev (fun _ => b))) >>;
  kmod (upd_buf bhead (set_b_next (fun _ => b))).

Definition brelse (b : nat) : KM unit :=
  h <- holdingsleep (SlBuf b);
  if negb h then kpanic "brelse" else
  releasesleep (SlBuf b) >>;
  acquire BcacheLock >>;
  kmod (upd_buf b (set_b_refcnt (fun n => u32 (n - 1)))) >>;
  bf <- get_buf b;
  kwhen (b_refcnt bf =? 0) (bmove b) >>;
  release BcacheLock.
End bio.
