(* ===== verification/Bcache.v ===== *)
(** * The buffer cache is a copy of the disk (bio.c)

    The list of buffers in order of use is a ring of links in both directions; the cache holds
    at most one buffer per block, each clean buffer with the bytes of its block on the disk and
    each dirty one with what has been written to it.  bread, bwrite and brelse keep this, and
    what they return, write and give back is stated in terms of the blocks. *)

From Stdlib Require Import ZArith Lia.
From stdpp Require Import base list gmap strings numbers.
From S2P Require Import Prelude Machine Cstring Spinlock Boot Sched Sleeplock Layout Bio.
From stdpp Require Import list.
Local Open Scope Z_scope.
Local Open Scope kern_scope.

(** ** The ring of buffers *)

Section links.
Implicit Types (bs : list buf) (a b : nat) (l : list nat).

(** The last element of the path that starts at [a] and goes on through [l]. *)
Definition lastn a l : nat := default a (last l).

(** [next] and [prev] agree along the path. *)
Fixpoint links bs a l : Prop :=
  match l with
  | [] => True
  | b :: l' => b_next <$> bs !! a = Some b /\ b_prev <$> bs !! b = Some a /\ links bs b l'
  end.

Lemma lastn_cons a b l : lastn a (b :: l) = lastn b l.
Proof. unfold lastn. rewrite last_cons. by destruct (last l). Qed.

Lemma lastn_in a l : lastn a l ∈ a :: l.
Proof.
  revert a. induction l as [|b l IH]; intros a; [unfold lastn; cbn; by constructor|].
  rewrite lastn_cons. constructor. apply IH.
Qed.

Lemma links_app bs a l1 l2 : links bs a (l1 ++ l2) <-> links bs a l1 /\ links bs (lastn a l1) l2.
Proof.
  revert a. induction l1 as [|b l1 IH]; intros a; [unfold lastn; cbn; tauto|].
  cbn [app links]. rewrite lastn_cons, IH. tauto.
Qed.

Lemma links_ext bs bs' a l :
  NoDup (a :: l) -> links bs a l ->
  (forall b, b ∈ a :: l -> b <> lastn a l -> b_next <$> bs' !! b = b_next <$> bs !! b) ->
  (forall b, b ∈ l -> b_prev <$> bs' !! b = b_prev <$> bs !! b) -> links bs' a l.
Proof.
  revert a. induction l as [|b l IH]; intros a Hnd; [done|].
  apply NoDup_cons in Hnd as [Hna Hnd]. rewrite lastn_cons. cbn [links]. intros (H1 & H2 & H3) Hn Hp.
  assert (a <> lastn b l) as Hal by (intros ->; apply Hna, lastn_in).
  rewrite Hn, Hp; [|by constructor|by constructor|done]. split_and!; [done|done|].
  apply IH; [done|done| |].
  - intros c Hc. apply Hn. by constructor.
  - intros c Hc. apply Hp. by constructor.
Qed.

Definition set_next a v bs : list buf := alter (set_b_next (fun _ => v)) a bs.
Definition set_prev a v bs : list buf := alter (set_b_prev (fun _ => v)) a bs.

Lemma next_set_next bs a v b : (b < length bs)%nat ->
  b_next <$> set_next a v bs !! b = if decide (a = b) then Some v else b_next <$> bs !! b.
Proof.
  intros Hb. unfold set_next. destruct (decide (a = b)) as [->|Hne].
  - rewrite list_lookup_alter_eq. by destruct (lookup_lt_is_Some_2 bs b Hb) as [x ->].
  - by rewrite list_lookup_alter_ne.
Qed.
Lemma prev_set_prev bs a v b : (b < length bs)%nat ->
  b_prev <$> set_prev a v bs !! b = if decide (a = b) then Some v else b_prev <$> bs !! b.
Proof.
  intros Hb. unfold set_prev. destruct (decide (a = b)) as [->|Hne].
  - rewrite list_lookup_alter_eq. by destruct (lookup_lt_is_Some_2 bs b Hb) as [x ->].
  - by rewrite list_lookup_alter_ne.
Qed.
Lemma next_set_prev bs a v b : b_next <$> set_prev a v bs !! b = b_next <$> bs !! b.
Proof.
  unfold set_prev. destruct (decide (a = b)) as [->|Hne]; [|by rewrite list_lookup_alter_ne].
  rewrite list_lookup_alter_eq. by destruct (bs !! b).
Qed.
Lemma prev_set_next bs a v b : b_prev <$> set_next a v bs !! b = b_prev <$> bs !! b.
Proof.
  unfold set_next. destruct (decide (a = b)) as [->|Hne]; [|by rewrite list_lookup_alter_ne].
  rewrite list_lookup_alter_eq. by destruct (bs !! b).
Qed.
Lemma length_set_next bs a v : length (set_next a v bs) = length bs.
Proof. apply length_alter. Qed.
Lemma length_set_prev bs a v : length (set_prev a v bs) = length bs.
Proof. apply length_alter. Qed.

(** Taking [b] out of the ring. *)
Lemma unlink_links bs hd l1 b l2 bf :
  NoDup (hd :: l1 ++ b :: l2) -> Forall (fun a => a < length bs)%nat (hd :: l1 ++ b :: l2) ->
  links bs hd (l1 ++ b :: l2 ++ [hd]) -> bs !! b = Some bf ->
  links (set_next (b_prev bf) (b_next bf) (set_prev (b_next bf) (b_prev bf) bs)) hd (l1 ++ l2 ++ [hd]).
Proof.
  intros Hnd Hlt Hl Hb. apply links_app in Hl as [Hl1 Hl2]. cbn [links] in Hl2. rewrite Hb in Hl2.
  set (x := lastn hd l1) in *. destruct Hl2 as (Hx & [= Hbp] & Hl2).
  destruct (l2 ++ [hd]) as [|y R] eqn:Ey; [by destruct l2|]. cbn [links] in Hl2. rewrite Hb in Hl2.
  destruct Hl2 as ([= Hbn] & Hy & HR). rewrite Hbp, Hbn.
  assert (x ∈ hd :: l1) as Hxin by apply lastn_in.
  assert (NoDup (l1 ++ b :: y :: R)) as Hnd2.
  { apply NoDup_Permutation_proper with (l1 ++ b :: l2 ++ [hd]); [by rewrite Ey|].
    rewrite <-(Permutation_middle l1 l2 b) in Hnd. rewrite <-Permutation_middle.
    rewrite (Permutation_app_comm l2 [hd]). cbn [app].
    rewrite <-(Permutation_middle l1 l2 hd). rewrite perm_swap. done. }
  assert (forall a, a ∈ hd :: l1 ++ y :: R -> (a < length bs)%nat) as Hin.
  { intros a Ha. eapply (proj1 (Forall_forall _ _) Hlt). rewrite <-Ey in Ha. revert Ha. clear. set_solver. }
  apply NoDup_app in Hnd2 as (Hnd1 & Hd & Hnd2). apply NoDup_cons in Hnd2 as [_ HndR].
  apply links_app. fold x. split.
  - apply (links_ext bs); [|done| |].
    + apply NoDup_cons in Hnd as [Hh Hnd]. apply NoDup_app in Hnd as (H1 & _ & _). apply NoDup_cons. set_solver.
    + fold x. intros a Ha Hne. rewrite next_set_next by (rewrite length_set_prev; apply Hin; set_solver).
      rewrite decide_False by done. apply next_set_prev.
    + intros a Ha. rewrite prev_set_next, prev_set_prev by (apply Hin; set_solver).
      rewrite decide_False; [done|]. intros ->. apply (Hd a Ha). set_solver.
  - cbn [links]. rewrite next_set_next, prev_set_next, prev_set_prev;
      [|apply Hin; set_solver|rewrite length_set_prev; apply Hin; set_solver].
    rewrite !decide_True by done. split_and!; [done|done|]. apply (links_ext bs); [done|done| |].
    + intros a Ha Hne. rewrite next_set_next by (rewrite length_set_prev; apply Hin; set_solver).
      rewrite decide_False; [apply next_set_prev|]. intros <-.
      assert (lastn y R = hd) as Hlast.
      { unfold lastn. assert (last (y :: R) = Some hd) as HL by by rewrite <-Ey, last_snoc. rewrite last_cons in HL.
        destruct (last R); by simplify_eq/=. }
      apply elem_of_cons in Hxin as [Hxh|Hx1]; [congruence|]. apply (Hd x Hx1). set_solver.
    + intros a Ha. rewrite prev_set_next, prev_set_prev by (apply Hin; set_solver).
      rewrite decide_False; [done|]. intros ->. by apply NoDup_cons in HndR as [? _].
Qed.

(** Putting [b] at its front. *)
Lemma push_links bs hd l b z :
  NoDup (hd :: b :: l) -> Forall (fun a => a < length bs)%nat (hd :: b :: l) ->
  links bs hd (l ++ [hd]) -> b_next <$> bs !! hd = Some z ->
  links (set_next hd b (set_prev z b (set_prev b hd (set_next b z bs)))) hd (b :: l ++ [hd]).
Proof.
  intros Hnd Hlt Hl Hz. destruct (l ++ [hd]) as [|z' R] eqn:Ez; [by destruct l|]. cbn [links] in Hl.
  destruct Hl as (Hz' & _ & HR). rewrite Hz in Hz'. injection Hz' as <-.
  assert (forall a, a ∈ hd :: b :: z :: R -> (a < length bs)%nat) as Hin.
  { intros a Ha. eapply (proj1 (Forall_forall _ _) Hlt). rewrite <-Ez in Ha. revert Ha. clear. set_solver. }
  assert (NoDup (b :: z :: R)) as Hnd2.
  { rewrite <-Ez. rewrite <-(Permutation_cons_append l hd). by rewrite perm_swap. }
  apply NoDup_cons in Hnd as [Hhb _]. rewrite not_elem_of_cons in Hhb. destruct Hhb as [Hhb _].
  apply NoDup_cons in Hnd2 as [Hbz HndR]. pose proof HndR as [HzR _]%NoDup_cons.
  assert (b <> z) as Hbz' by (intros ->; apply Hbz; by constructor).
  assert (lastn z R = hd) as Hlast.
  { unfold lastn. assert (last (z :: R) = Some hd) as HL by by rewrite <-Ez, last_snoc. rewrite last_cons in HL.
    destruct (last R); by simplify_eq/=. }
  set (bs' := set_next hd b _).
  assert (forall a, a ∈ hd :: b :: z :: R -> b_next <$> bs' !! a
    = if decide (hd = a) then Some b else if decide (b = a) then Some z else b_next <$> bs !! a) as Hn.
  { intros a Ha. unfold bs'. rewrite next_set_next by (rewrite !length_set_prev, length_set_next; auto).
    by rewrite !next_set_prev, next_set_next by auto. }
  assert (forall a, a ∈ hd :: b :: z :: R -> b_prev <$> bs' !! a
    = if decide (z = a) then Some b else if decide (b = a) then Some hd else b_prev <$> bs !! a) as Hp.
  { intros a Ha. unfold bs'. rewrite prev_set_next, prev_set_prev by (rewrite !length_set_prev, length_set_next; auto).
    by rewrite prev_set_prev, prev_set_next by (rewrite length_set_next; auto). }
  cbn [links]. rewrite !Hn, !Hp by set_solver. rewrite (decide_False (P := z = b)) by done.
  rewrite !(decide_True (P := b = b)), (decide_True (P := hd = hd)), (decide_True (P := z = z)) by done.
  rewrite (decide_False (P := hd = b)) by done. split_and!; [done..|].
  apply (links_ext bs); [done|done| |].
  - intros a Ha Hne. rewrite Hn by set_solver. rewrite decide_False by congruence. rewrite decide_False; [done|].
    by intros ->.
  - intros a Ha. rewrite Hp by set_solver. rewrite decide_False by (by intros ->). rewrite decide_False; [done|].
    intros ->. apply Hbz. by constructor.
Qed.

(** The paths of the two directions. *)
Fixpoint along (nx : buf -> nat) bs a l : Prop :=
  match l with
  | [] => True
  | b :: l' => nx <$> bs !! a = Some b /\ along nx bs b l'
  end.

Lemma along_app nx bs a l1 l2 : along nx bs a (l1 ++ l2) <-> along nx bs a l1 /\ along nx bs (lastn a l1) l2.
Proof.
  revert a. induction l1 as [|b l1 IH]; intros a; [unfold lastn; cbn; tauto|].
  cbn [app along]. rewrite lastn_cons, IH. tauto.
Qed.

Lemma links_along bs a l : links bs a l -> along b_next bs a l.
Proof. revert a. induction l as [|b l IH]; intros a; [done|]. intros (H1 & _ & H2). split; auto. Qed.

Lemma links_back bs a l b : links bs a (l ++ [b]) -> along b_prev bs b (reverse l ++ [a]).
Proof.
  revert a. induction l as [|c l IH]; intros a; cbn [app links].
  - by intros (_ & H & _).
  - intros (_ & H & Hl). rewrite reverse_cons. apply along_app. split; [by apply IH|].
    assert (lastn b (reverse l ++ [c]) = c) as -> by (unfold lastn; by rewrite last_snoc). done.
Qed.
End links.

(** ** Searching the ring *)

Lemma get_buf_eq w b bf e : w_bufs w !! b = Some bf -> get_buf b w e = Ret bf w e.
Proof. intros H. unfold get_buf. simpl. by rewrite H. Qed.

(** The first buffer of the path with [P], as the loops of bget find it. *)
Fixpoint first_buf (bs : list buf) (P : buf -> bool) (l : list nat) : option nat :=
  match l with
  | [] => None
  | b :: l' => if from_option P false (bs !! b) then Some b else first_buf bs P l'
  end.

Lemma bscan_eq n nx P a l w e bf :
  w_bufs w !! a = Some bf -> along nx (w_bufs w) a (l ++ [bhead]) -> bhead ∉ l -> (length l < n)%nat ->
  bscan n nx P (nx bf) w e = Ret (first_buf (w_bufs w) P l) w e.
Proof.
  revert a bf n. induction l as [|b l IH]; intros a bf [|n] Ha Hl Hh Hn; try (cbn in Hn; lia);
    cbn [app along] in Hl; rewrite Ha in Hl; destruct Hl as [[= Hb] Hl]; cbn [bscan first_buf]; rewrite Hb.
  - by rewrite bool_decide_true.
  - rewrite not_elem_of_cons in Hh. destruct Hh as [Hb0 Hh]. rewrite bool_decide_false by done.
    assert (exists x, w_bufs w !! b = Some x) as [x Hx].
    { destruct l; cbn in Hl; destruct (w_bufs w !! b); try (by eexists); by destruct Hl. }
    unfold kbind. rewrite (get_buf_eq w b x), Hx by done. cbn [from_option]. destruct (P x); [done|].
    apply (IH b x); [done|done|done|cbn in Hn; lia].
Qed.

Lemma first_buf_Some bs P l b : first_buf bs P l = Some b -> b ∈ l /\ exists bf, bs !! b = Some bf /\ P bf = true.
Proof.
  induction l as [|c l IH]; cbn [first_buf]; [done|]. destruct (bs !! c) as [x|] eqn:E; cbn [from_option].
  - destruct (P x) eqn:EP; [|set_solver]. intros [= <-]. split; [by constructor|eauto].
  - set_solver.
Qed.
Lemma first_buf_None bs P l : first_buf bs P l = None -> forall b bf, b ∈ l -> bs !! b = Some bf -> P bf = false.
Proof.
  induction l as [|c l IH]; cbn [first_buf]; [by intros _ b bf Hb%elem_of_nil|].
  destruct (from_option P false (bs !! c)) eqn:E; [done|]. intros Hl b bf [->|Hb]%elem_of_cons Hbf; [|by eapply IH].
  by rewrite Hbf in E.
Qed.

(** The list of buffers: each of them once, the most recently used first. *)
Definition ring (bs : list buf) (l : list nat) : Prop :=
  length bs = S NBUF /\ l ≡ₚ seq 0 NBUF /\ links bs bhead (l ++ [bhead]).

(** What a buffer holds, apart from its place in the list. *)
Definition core (bf : buf) : Z * Z * Z * Z * list Z :=
  (b_flags bf, b_dev bf, b_blockno bf, b_refcnt bf, b_data bf).
Definition same_core (bs bs' : list buf) : Prop := forall a, core <$> bs' !! a = core <$> bs !! a.

Lemma same_core_next a v bs : same_core bs (set_next a v bs).
Proof.
  intros b. unfold set_next. destruct (decide (a = b)) as [->|Hne]; [|by rewrite list_lookup_alter_ne].
  rewrite list_lookup_alter_eq. by destruct (bs !! b).
Qed.
Lemma same_core_prev a v bs : same_core bs (set_prev a v bs).
Proof.
  intros b. unfold set_prev. destruct (decide (a = b)) as [->|Hne]; [|by rewrite list_lookup_alter_ne].
  rewrite list_lookup_alter_eq. by destruct (bs !! b).
Qed.
Lemma same_core_trans bs1 bs2 bs3 : same_core bs1 bs2 -> same_core bs2 bs3 -> same_core bs1 bs3.
Proof. intros H1 H2 a. by rewrite H2, H1. Qed.

Lemma ring_in bs l b : ring bs l -> b ∈ l <-> (b < NBUF)%nat.
Proof. intros (_ & Hl & _). rewrite Hl, elem_of_seq. lia. Qed.
Lemma ring_lt bs l : ring bs l -> Forall (fun a => a < length bs)%nat (bhead :: l).
Proof.
  intros Hr. pose proof Hr as (Hlen & _). apply Forall_forall. intros a Ha. rewrite Hlen.
  apply elem_of_cons in Ha as [->|Ha]; [unfold bhead; lia|]. apply (ring_in bs l a Hr) in Ha. lia.
Qed.
Lemma bufs_nodup bs l : ring bs l -> NoDup (bhead :: l).
Proof.
  intros Hr. pose proof Hr as (_ & Hl & _). apply NoDup_cons. split.
  - rewrite (ring_in bs l _ Hr). unfold bhead. lia.
  - rewrite Hl. apply NoDup_seq.
Qed.
Lemma ring_ext bs bs' l :
  ring bs l -> length bs' = length bs -> (forall a, b_next <$> bs' !! a = b_next <$> bs !! a) ->
  (forall a, b_prev <$> bs' !! a = b_prev <$> bs !! a) -> ring bs' l.
Proof.
  intros (H1 & H2 & H3) Hlen Hn Hp. split_and!; [congruence|done|].
  clear -H3 Hn Hp. revert H3. generalize bhead at 1 3. induction (l ++ [bhead]) as [|b l' IH]; intros a; [done|].
  cbn [links]. rewrite Hn, Hp. naive_solver.
Qed.

Lemma links_next_ne bs hd l1 b l2 bf :
  NoDup (hd :: l1 ++ b :: l2) -> links bs hd (l1 ++ b :: l2 ++ [hd]) -> bs !! b = Some bf -> b_next bf <> b.
Proof.
  intros Hnd Hl Hbf. apply links_app in Hl as [_ Hl]. cbn [links] in Hl. destruct Hl as (_ & _ & Hl).
  destruct (l2 ++ [hd]) as [|y R] eqn:Ey; [by destruct l2|]. cbn [links] in Hl. rewrite Hbf in Hl.
  destruct Hl as ([= ->] & _). intros <-. assert (y ∈ l2 ++ [hd]) as Hy by (rewrite Ey; by constructor).
  apply NoDup_cons in Hnd as [Hh Hnd]. apply NoDup_app in Hnd as (_ & _ & Hnd).
  apply NoDup_cons in Hnd as [Hnd _]. set_solver.
Qed.

Definition put_bufs (bs : list buf) (w : world) : world := set_w_bufs (fun _ => bs) w.

(** bmove puts the buffer at the front of the ring. *)
Lemma bmove_eq w l b e :
  ring (w_bufs w) l -> (b < NBUF)%nat ->
  exists bs', bmove b w e = Ret tt (put_bufs bs' w) e /\ (exists l', ring bs' (b :: l')) /\ same_core (w_bufs w) bs'.
Proof.
  intros Hr Hb. pose proof Hr as (Hlen & Hperm & Hl). apply (ring_in _ _ _ Hr) in Hb as Hin.
  apply list_elem_of_split in Hin as (l1 & l2 & ->). rewrite <-app_assoc in Hl. cbn [app] in Hl.
  destruct (lookup_lt_is_Some_2 (w_bufs w) b ltac:(lia)) as [bf Hbf].
  pose proof (bufs_nodup _ _ Hr) as Hnd. pose proof (ring_lt _ _ Hr) as Hlt.
  pose proof (unlink_links _ _ _ _ _ _ Hnd Hlt Hl Hbf) as Hu.
  set (bs1 := set_next (b_prev bf) (b_next bf) (set_prev (b_next bf) (b_prev bf) (w_bufs w))) in *.
  assert (length bs1 = S NBUF) as Hlen1 by (unfold bs1; by rewrite length_set_next, length_set_prev).
  assert (NoDup (bhead :: b :: l1 ++ l2)) as Hnd1 by (by rewrite (Permutation_middle l1 l2 b)).
  assert (Forall (fun a => a < length bs1)%nat (bhead :: b :: l1 ++ l2)) as Hlt1.
  { rewrite (Permutation_middle l1 l2 b), Hlen1, <-Hlen. exact Hlt. }
  destruct (lookup_lt_is_Some_2 bs1 bhead ltac:(rewrite Hlen1; unfold bhead; lia)) as [hd Hhd].
  rewrite app_assoc in Hu.
  pose proof (push_links bs1 bhead (l1 ++ l2) b (b_next hd) Hnd1 Hlt1 Hu ltac:(by rewrite Hhd)) as Hp.
  set (bs2 := set_prev b bhead (set_next b (b_next hd) bs1)) in *.
  assert (b <> bhead) as Hbh by (unfold bhead; lia).
  eexists. split; [|split; [exists (l1 ++ l2); split_and!; [|by rewrite (Permutation_middle l1 l2 b)|exact Hp]|]].
  - unfold bmove, kbind. rewrite (get_buf_eq w b bf) by done. cbn [kmod].
    rewrite (get_buf_eq _ b (if decide (b_next bf = b) then set_b_prev (fun _ => b_prev bf) bf else bf)).
    2:{ cbn [upd_buf set_w_bufs w_bufs]. destruct (decide (b_next bf = b)) as [->|Hne].
        - by rewrite list_lookup_alter_eq, Hbf.
        - by rewrite list_lookup_alter_ne. }
    assert (forall g, b_next (if decide (b_next bf = b) then set_b_prev g bf else bf) = b_next bf) as -> by (intros; by case_decide).
    assert (b_next bf <> b) as Hnb by by eapply links_next_ne.
    rewrite (decide_False (P := b_next bf = b)) by done. cbn [kmod].
    change (upd_buf (b_prev bf) _ (upd_buf (b_next bf) _ w)) with (put_bufs bs1 w).
    rewrite (get_buf_eq _ bhead hd) by exact Hhd. cbn [kmod].
    change (upd_buf b _ (upd_buf b _ (put_bufs bs1 w))) with (put_bufs bs2 w).
    rewrite (get_buf_eq _ bhead hd).
    2:{ cbn [put_bufs set_w_bufs w_bufs]. unfold bs2, set_prev, set_next. by rewrite !list_lookup_alter_ne. }
    reflexivity.
  - unfold bs2. by rewrite length_set_next, !length_set_prev, length_set_next.
  - unfold bs2, bs1. repeat (eapply same_core_trans; [|first [apply same_core_next|apply same_core_prev]]). by intros a.
Qed.

(** ** The start *)

(** What binit changes besides the links. *)
Definition with_bufs (L : gmap lockid spinlock) (K : gmap slid sleeplock) (bs : list buf) (w : world) : world :=
  set_w_locks (fun _ => L) (set_w_slocks (fun _ => K) (put_bufs bs w)).
Definition keeps_free (L L' : gmap lockid spinlock) : Prop :=
  forall lk name, L !! lk = Some (mkLock 0 name None) -> exists name', L' !! lk = Some (mkLock 0 name' None).

Lemma keeps_free_init lk name L : keeps_free L (<[lk := mkLock 0 name None]> L).
Proof. intros lk' n Hl. destruct (decide (lk = lk')) as [->|Hne]; [rewrite lookup_insert_eq; eauto|rewrite lookup_insert_ne by done; eauto]. Qed.

Lemma keeps_free_trans L1 L2 L3 : keeps_free L1 L2 -> keeps_free L2 L3 -> keeps_free L1 L3.
Proof. intros H1 H2 lk n Hl. destruct (H1 _ _ Hl) as [n' Hl']. by eapply H2. Qed.

(** One turn of the loop of binit puts buffer [b] at the front. *)
Lemma binit_turns k n L K bs w e : length bs = S NBUF -> (k + n = NBUF)%nat -> links bs bhead (reverse (seq 0 k) ++ [bhead]) ->
  exists L' K' bs', kfor (seq k n) (fun b =>
    h <- get_buf bhead;
    kmod (upd_buf b (set_b_next (fun _ => b_next h))) >>;
    kmod (upd_buf b (set_b_prev (fun _ => bhead))) >>;
    initsleeplock (SlBuf b) "buffer" >>;
    h <- get_buf bhead;
    kmod (upd_buf (b_next h) (set_b_prev (fun _ => b))) >>;
    kmod (upd_buf bhead (set_b_next (fun _ => b)))) (with_bufs L K bs w) e = Ret tt (with_bufs L' K' bs' w) e /\
    keeps_free L L' /\ ring bs' (reverse (seq 0 NBUF)) /\ same_core bs bs'.
Proof.
  revert k L K bs. induction n as [|n IH]; intros k L K bs Hlen Hk Hl.
  { exists L, K, bs. assert (k = NBUF) as -> by lia. split; [done|]. split; [by intros lk m Hm; eauto|]. split; [|done]. split; [done|]. split; [by rewrite reverse_Permutation|done]. }
  assert (exists h, bs !! bhead = Some h) as [h Hh] by (apply lookup_lt_is_Some_2; rewrite Hlen; unfold bhead; lia).
  set (bs1 := set_prev k bhead (set_next k (b_next h) bs)).
  assert (exists h1, bs1 !! bhead = Some h1 /\ b_next h1 = b_next h) as (h1 & Hh1 & Hn1).
  { unfold bs1, set_prev, set_next. exists h. rewrite !list_lookup_alter_ne by (unfold bhead; lia). done. }
  set (bs2 := set_next bhead k (set_prev (b_next h) k bs1)). set (L1 := <[SleepLk (SlBuf k) := mkLock 0 "sleep lock" None]> L). set (K1 := <[SlBuf k := mkSleeplock 0 "buffer" 0]> K).
  destruct (IH (S k) L1 K1 bs2) as (L' & K' & bs' & E & HL & Hr & Hc); [by unfold bs2, bs1; rewrite length_set_next, !length_set_prev, length_set_next|lia| |].
  { unfold bs2, bs1. rewrite seq_S, reverse_app. cbn [reverse app]. change (reverse [(0 + k)%nat]) with [k]. cbn [app].
    apply push_links; [| |done|by rewrite Hh]; rewrite ?Hlen.
    - constructor; [|constructor]; [|rewrite elem_of_reverse, elem_of_seq; lia|rewrite reverse_Permutation; apply NoDup_seq]. rewrite elem_of_cons, elem_of_reverse, elem_of_seq. unfold bhead. lia.
    - apply Forall_forall. intros a. rewrite !elem_of_cons, elem_of_reverse, elem_of_seq. unfold bhead. lia. }
  exists L', K', bs'. split; [|split; [|split; [done|]]].
  - cbn [seq kfor]. unfold kbind at 1. unfold kbind at 1. rewrite (get_buf_eq _ bhead h) by exact Hh. unfold initsleeplock, initlock. cbn [kbind kmod].
    rewrite (get_buf_eq _ bhead h1) by exact Hh1. rewrite Hn1. exact E.
  - eapply keeps_free_trans; [apply keeps_free_init|exact HL].
  - intros a. rewrite Hc. unfold bs2, bs1. rewrite same_core_next, same_core_prev, same_core_prev, same_core_next. done.
Qed.

(** binit makes the ring of all the buffers, and leaves what they hold and the free locks. *)
Lemma binit_ring w e : length (w_bufs w) = S NBUF -> exists L' K' bs', binit w e = Ret tt (with_bufs L' K' bs' w) e /\
  keeps_free (w_locks w) L' /\ ring bs' (reverse (seq 0 NBUF)) /\ same_core (w_bufs w) bs'.
Proof.
  intros Hlen. set (bs1 := set_next bhead bhead (set_prev bhead bhead (w_bufs w))). set (L1 := <[BcacheLock := mkLock 0 "bcache" None]> (w_locks w)).
  destruct (binit_turns 0 NBUF L1 (w_slocks w) bs1 w e) as (L' & K' & bs' & E & HL & Hr & Hc); [by unfold bs1; rewrite length_set_next, length_set_prev|lia| |].
  { change (links bs1 bhead [bhead]). cbn [links]. unfold bs1. rewrite next_set_next, prev_set_next, prev_set_prev by (rewrite ?length_set_prev, Hlen; unfold bhead; lia). rewrite !decide_True by done. done. }
  exists L', K', bs'. split; [|split; [|split; [done|]]].
  - unfold binit, initlock. cbn [kbind kmod]. rewrite <-E. reflexivity.
  - eapply keeps_free_trans; [apply keeps_free_init|exact HL].
  - intros a. rewrite Hc. unfold bs1. by rewrite same_core_next, same_core_prev.
Qed.

(** ** The invariant *)

(** The dirty blocks with what has been written to them. *)
Notation pinned := (gmap Z (list Z)).
(** What a reader of block [n] sees. *)
Definition view (w : world) (D : pinned) (n : Z) : list Z := default (disk_block w n) (D !! n).

Section cache.
Context (i : nat) (c : cpu) (p : nat) (pr : proc) (Hrun : p_state pr <> SLEEPING).

(** Buffer [b] is in use by this process or by nobody. *)
Definition buf_lock (w : world) (held : list nat) (b : nat) (bf : buf) : Prop :=
  if decide (b ∈ held)
  then b_refcnt bf = 1 /\ sl_locked (slock_of w (SlBuf b)) = 1 /\ sl_pid (slock_of w (SlBuf b)) = p_pid pr
  else b_refcnt bf = 0 /\ sl_locked (slock_of w (SlBuf b)) = 0.

(** What a buffer that nobody uses holds: nothing, its block of the disk, or a dirty block. *)
Definition buf_data (w : world) (D : pinned) (bf : buf) : Prop :=
  b_flags bf = 0 \/
  b_dev bf = 1 /\ length (b_data bf) = 512%nat /\
    (b_flags bf = 2 /\ D !! b_blockno bf = None /\ b_data bf = disk_block w (b_blockno bf) \/
     b_flags bf = 6 /\ D !! b_blockno bf = Some (b_data bf)).

Record cache (w : world) (held : list nat) (D : pinned) : Prop := mkCache {
  ca_ctx : kctx w i c p pr;
  ca_ring : exists l, ring (w_bufs w) l;
  ca_held : NoDup held /\ Forall (fun b => b < NBUF)%nat held;
  ca_disk : forall n, length (disk_block w n) = 512%nat;
  ca_lock : forall b bf, (b < NBUF)%nat -> w_bufs w !! b = Some bf -> buf_lock w held b bf;
  ca_data : forall b bf, (b < NBUF)%nat -> w_bufs w !! b = Some bf -> b ∉ held -> buf_data w D bf;
  ca_uniq : forall b b' bf bf', (b < NBUF)%nat -> (b' < NBUF)%nat ->
    w_bufs w !! b = Some bf -> w_bufs w !! b' = Some bf' -> b_dev bf = 1 -> b_dev bf' = 1 ->
    b_blockno bf = b_blockno bf' -> b = b';
  ca_pins : forall n d, D !! n = Some d -> exists b bf, (b < NBUF)%nat /\ w_bufs w !! b = Some bf /\
    b_dev bf = 1 /\ b_blockno bf = n /\ b_flags bf = 6
}.

(** Buffer [b], in use, holds block [n] with the bytes [d]. *)
Definition has (w : world) (D : pinned) (b : nat) (n : Z) (d : list Z) : Prop :=
  exists bf, w_bufs w !! b = Some bf /\ b_dev bf = 1 /\ b_blockno bf = n /\ b_data bf = d /\
    b_flags bf = (if D !! n is Some _ then 6 else 2).

(** What the cache's operations leave alone. *)
Definition same_disk (w w' : world) : Prop :=
  w_disk w' = w_disk w /\ w_dtrace w' = w_dtrace w /\ w_log w' = w_log w /\ w_ide w' = w_ide w /\
  w_sb w' = w_sb w /\ w_inodes w' = w_inodes w.
Definition same_bufs (bs : list nat) (w w' : world) : Prop := forall b, b ∈ bs -> w_bufs w' !! b = w_bufs w !! b.

Lemma cache_buf w held D b : cache w held D -> (b <= NBUF)%nat -> exists bf, w_bufs w !! b = Some bf.
Proof.
  intros [_ [l (Hlen & _)] _ _ _ _ _ _] Hb. apply lookup_lt_is_Some_2. lia.
Qed.

(** Some buffer can be recycled when not too many are dirty or in use. *)
Lemma cache_avail w held D :
  cache w held D -> (size D + length held < NBUF)%nat ->
  exists b bf, (b < NBUF)%nat /\ b ∉ held /\ w_bufs w !! b = Some bf /\ b_flags bf <> 6.
Proof.
  intros Hc Hsz. set (l := filter (fun b => b ∉ held) (seq 0 NBUF)).
  assert (NBUF <= length l + length held)%nat as Hlen.
  { destruct Hc as [_ _ [Hnd Hlt] _ _ _ _ _].
    assert (seq 0 NBUF ⊆ l ++ held) as Hsub.
    { intros b Hb. apply elem_of_app. destruct (decide (b ∈ held)); [by right|left]. by apply list_elem_of_filter. }
    pose proof (submseteq_length (seq 0 NBUF) (l ++ held)) as Hs. rewrite length_seq, length_app in Hs. apply Hs.
    apply NoDup_submseteq; [apply NoDup_seq|done]. }
  destruct (decide (Exists (fun b => from_option b_flags 6 (w_bufs w !! b) <> 6) l)) as [Hex|Hno].
  - apply Exists_exists in Hex as (b & Hb & Hf). apply list_elem_of_filter in Hb as [Hh Hb%elem_of_seq].
    destruct (w_bufs w !! b) as [bf|] eqn:E; [|done]. exists b, bf. cbn in Hf. split_and!; [lia|done|done|done].
  - exfalso. assert (forall b, b ∈ l -> exists bf, (b < NBUF)%nat /\ w_bufs w !! b = Some bf /\ b_dev bf = 1 /\
      is_Some (D !! b_blockno bf)) as Hall.
    { intros b Hb. pose proof Hb as [Hh Hb'%elem_of_seq]%list_elem_of_filter.
      destruct (cache_buf w held D b Hc ltac:(lia)) as [bf Hbf]. exists bf. split_and!; [lia|done|..].
      all: destruct (ca_data _ _ _ Hc b bf ltac:(lia) Hbf Hh) as [H0|(H1 & _ & [(H2 & _)|(_ & H2)])]; try done.
      all: exfalso; apply Hno, Exists_exists; exists b; split; [done|]; rewrite Hbf; cbn; lia. }
    set (g := fun b => from_option b_blockno 0 (w_bufs w !! b)).
    assert (NoDup (g <$> l)) as Hnd.
    { apply NoDup_fmap_2_strong; [|apply NoDup_filter, NoDup_seq].
      intros x y Hx Hy Hg. destruct (Hall x Hx) as (bx & Hx1 & Hx2 & Hx3 & _), (Hall y Hy) as (bY & Hy1 & Hy2 & Hy3 & _).
      unfold g in Hg. rewrite Hx2, Hy2 in Hg. by eapply (ca_uniq _ _ _ Hc). }
    assert (length (g <$> l) <= size (dom D : gset Z))%nat as Hle.
    { rewrite <-(size_list_to_set (C := gset Z)) by done. apply subseteq_size. intros n Hn.
      apply elem_of_list_to_set, list_elem_of_fmap in Hn as (b & -> & Hb). destruct (Hall b Hb) as (bf & _ & Hbf & _ & Hd).
      apply elem_of_dom. unfold g. by rewrite Hbf. }
    rewrite length_fmap, size_dom in Hle. lia.
Qed.

(** ** bread *)

(** The state in which this process has taken buffer [b], now [bf]. *)
Definition grab (b : nat) (bf : buf) (w : world) : world :=
  put_slock (SlBuf b) (mkSleeplock 1 (sl_name (slock_of w (SlBuf b))) (p_pid pr)) (upd_buf b (fun _ => bf) w).

Lemma grab_ctx w b bf : kctx w i c p pr -> kctx (grab b bf w) i c p pr.
Proof. intros H. apply (kctx_frame w i c p pr H (grab b bf)). apply H. Qed.

Lemma upd_buf_eq w b bf g : w_bufs w !! b = Some bf -> upd_buf b g w = upd_buf b (fun _ => g bf) w.
Proof.
  intros Hb. unfold upd_buf, set_w_bufs. f_equal. apply list_alter_ext'. intros x Hx. by simplify_eq.
Qed.

Lemma upd_buf_upd w b f g : upd_buf b f (upd_buf b g w) = upd_buf b (f ∘ g) w.
Proof. unfold upd_buf, set_w_bufs. simpl. by rewrite list_alter_alter_eq. Qed.

Lemma disk_write_upd w b g n d : upd_buf b g (disk_write n d w) = disk_write n d (upd_buf b g w).
Proof. done. Qed.

Lemma grab_buf w b bf : (b < length (w_bufs w))%nat -> w_bufs (grab b bf w) !! b = Some bf.
Proof.
  intros Hb. cbn. rewrite list_lookup_alter_eq. by destruct (lookup_lt_is_Some_2 _ _ Hb) as [x ->].
Qed.

Lemma upd_grab w b bf g : (b < length (w_bufs w))%nat -> upd_buf b g (grab b bf w) = grab b (g bf) w.
Proof.
  intros Hb. rewrite (upd_buf_eq (grab b bf w) b bf) by by apply grab_buf.
  unfold grab, upd_buf, put_slock, set_w_bufs, set_w_slocks. cbn. f_equal.
  rewrite list_alter_alter_eq. by apply list_alter_ext'.
Qed.

(** Entering the cache, changing buffer [b] there and locking it. *)
Lemma take_buf_eq w b bf bf' e :
  kctx w i c p pr -> (b < NBUF)%nat -> w_bufs w !! b = Some bf -> sl_locked (slock_of w (SlBuf b)) = 0 ->
  (release BcacheLock >>; acquiresleep (SlBuf b) >>; kret b) (upd_buf b (fun _ => bf') (entered i BcacheLock w)) e
  = Ret b (grab b bf' w) e.
Proof.
  intros H Hb Hbf Hl. pose proof H as [H1 H2 H3 H4 H5]. unfold kbind.
  rewrite (release_section w i c BcacheLock H1 (upd_buf b (fun _ => bf'))) by auto. rewrite H2.
  assert (kctx (upd_buf b (fun _ => bf') w) i c p pr) as H' by by apply (kctx_frame w i c p pr H (upd_buf b _)).
  rewrite (acquiresleep_eq _ i c p pr H' (SlBuf b)) by (try exact Hl; cbn; by apply bool_decide_eq_true). done.
Qed.

Definition finds (n : Z) (bf : buf) : bool := (b_dev bf =? 1) && (b_blockno bf =? n).
Lemma finds_spec n bf : finds n bf = true <-> b_dev bf = 1 /\ b_blockno bf = n.
Proof. unfold finds. rewrite andb_true_iff, !Z.eqb_eq. done. Qed.

Definition recyclable (bf : buf) : bool := (b_refcnt bf =? 0) && negb (flag (b_flags bf) B_DIRTY).

Lemma unused_buf w held D b bf : cache w held D -> (b < NBUF)%nat -> b ∉ held -> w_bufs w !! b = Some bf ->
  b_refcnt bf = 0 /\ sl_locked (slock_of w (SlBuf b)) = 0.
Proof.
  intros Hc Hb Hh Hbf. pose proof (ca_lock _ _ _ Hc b bf Hb Hbf) as Hlock. unfold buf_lock in Hlock.
  by rewrite decide_False in Hlock.
Qed.

Lemma find_recyclable w held D l :
  cache w held D -> ring (w_bufs w) l -> (size D + length held < NBUF)%nat ->
  exists b bf, first_buf (w_bufs w) recyclable (reverse l) = Some b /\ (b < NBUF)%nat /\ b ∉ held /\
    w_bufs w !! b = Some bf /\ b_flags bf <> 6.
Proof.
  intros Hc Hr Hsz. destruct (first_buf (w_bufs w) recyclable (reverse l)) as [b|] eqn:Eb.
  - apply first_buf_Some in Eb as (Hin & bf & Hbf & Hrec). rewrite elem_of_reverse in Hin.
    apply (ring_in _ _ _ Hr) in Hin as Hb. unfold recyclable in Hrec. apply andb_prop in Hrec as [Hrc%Z.eqb_eq Hfl].
    exists b, bf. split_and!; try done.
    + intros Hh. pose proof (ca_lock _ _ _ Hc b bf Hb Hbf) as Hlock. unfold buf_lock in Hlock.
      rewrite decide_True in Hlock by done. lia.
    + intros Hf. by rewrite Hf in Hfl.
  - exfalso. destruct (cache_avail w held D Hc Hsz) as (b & bf & Hb & Hh & Hbf & Hf6).
    destruct (unused_buf w held D b bf Hc Hb Hh Hbf) as [Hrc _].
    assert (recyclable bf = false) as Hno.
    { apply (first_buf_None _ _ _ Eb b); [|done]. rewrite elem_of_reverse. by apply (ring_in _ _ _ Hr). }
    unfold recyclable in Hno. rewrite Hrc in Hno.
    destruct (ca_data _ _ _ Hc b bf Hb Hbf Hh) as [H0|(_ & _ & [(H0 & _)|(H0 & _)])]; by rewrite H0 in *.
Qed.

(** bget finds the buffer of the block or recycles one that is neither dirty nor in use. *)
Lemma bget_eq w held D n e :
  cache w held D ->
  (forall b bf, b ∈ held -> w_bufs w !! b = Some bf -> b_dev bf = 1 -> b_blockno bf <> n) ->
  is_Some (D !! n) \/ (size D + length held < NBUF)%nat ->
  exists b bf bf', (b < NBUF)%nat /\ b ∉ held /\ w_bufs w !! b = Some bf /\
    bget 1 n w e = Ret b (grab b bf' w) e /\ b_prev bf' = b_prev bf /\ b_next bf' = b_next bf /\
    b_dev bf' = 1 /\ b_blockno bf' = n /\ b_refcnt bf' = 1 /\
    (finds n bf = true /\ b_flags bf' = b_flags bf /\ b_data bf' = b_data bf \/
     (forall a x, (a < NBUF)%nat -> w_bufs w !! a = Some x -> finds n x = false) /\ b_flags bf <> 6 /\ b_flags bf' = 0).
Proof.
  intros Hc Hfree Hav. pose proof Hc as [Hctx [l Hr] _ _ Hlock _ _ Hpin]. pose proof Hctx as [H1 H2 H3 H4 H5].
  pose proof Hr as (Hlen & Hperm & Hl).
  destruct (cache_buf w held D bhead Hc ltac:(done)) as [hd Hhd].
  assert (bhead ∉ l) as Hnh by (rewrite (ring_in _ _ _ Hr); unfold bhead; lia).
  assert (length l < NBUF + 1)%nat as Hll by (rewrite Hperm, length_seq; lia).
  set (w1 := entered i BcacheLock w).
  assert (forall e, bscan (NBUF + 1) b_next (finds n) (b_next hd) w1 e = Ret (first_buf (w_bufs w) (finds n) l) w1 e) as Hs1.
  { intros e'. apply (bscan_eq (NBUF + 1) b_next (finds n) bhead l w1 e' hd); [exact Hhd|by apply links_along|done|lia]. }
  assert (forall e, bscan (NBUF + 1) b_prev recyclable (b_prev hd) w1 e
    = Ret (first_buf (w_bufs w) recyclable (reverse l)) w1 e) as Hs2.
  { intros e'. apply (bscan_eq (NBUF + 1) b_prev recyclable bhead (reverse l) w1 e' hd); [exact Hhd|by apply links_back| |by rewrite length_reverse].
    by rewrite elem_of_reverse. }
  unfold bget. unfold kbind at 1. rewrite (acquire_eq w i c) by auto. fold w1. unfold kbind at 1.
  rewrite (get_buf_eq w1 bhead hd) by exact Hhd. unfold kbind at 1. unfold finds in Hs1. rewrite Hs1. fold (finds n).
  destruct (first_buf (w_bufs w) (finds n) l) as [b|] eqn:Ef.
  - apply first_buf_Some in Ef as (Hin & bf & Hbf & Hfb). apply (ring_in _ _ _ Hr) in Hin as Hb.
    pose proof (proj1 (finds_spec n bf) Hfb) as [Hdev Hblk].
    assert (b ∉ held) as Hh by (intros Hh; by apply (Hfree b bf)).
    destruct (unused_buf w held D b bf Hc Hb Hh Hbf) as [Hrc Hsl].
    exists b, bf, (set_b_refcnt (fun n => u32 (n + 1)) bf). split_and!; try done.
    + unfold kbind at 1. cbn [kmod]. rewrite (upd_buf_eq w1 b bf) by done. by apply (take_buf_eq w b bf).
    + cbn. by rewrite Hrc.
    + by left.
  - assert (forall a x, (a < NBUF)%nat -> w_bufs w !! a = Some x -> finds n x = false) as Hnone.
    { intros a x Ha Hx. by apply (first_buf_None _ _ _ Ef a); [apply (ring_in _ _ _ Hr)|]. }
    assert (size D + length held < NBUF)%nat as Hsz.
    { destruct Hav as [[d Hd]|?]; [|done]. destruct (Hpin n d Hd) as (b & bf & Hb & Hbf & Hdev & Hblk & _).
      specialize (Hnone b bf Hb Hbf). by rewrite (proj2 (finds_spec n bf)) in Hnone. }
    unfold kbind at 1. rewrite (get_buf_eq w1 bhead hd) by exact Hhd. unfold kbind at 1. unfold recyclable in Hs2.
    rewrite Hs2. fold recyclable. destruct (find_recyclable w held D l Hc Hr Hsz) as (b & bf & -> & Hb & Hh & Hbf & Hf6).
    destruct (unused_buf w held D b bf Hc Hb Hh Hbf) as [_ Hsl].
    exists b, bf, (mkBuf 0 1 n 1 (b_prev bf) (b_next bf) (b_qnext bf) (b_data bf)). split_and!; try done; [|by right].
    unfold kbind at 1 2 3 4. cbn [kmod]. rewrite <-(take_buf_eq w b bf _ e Hctx Hb Hbf Hsl). f_equal.
    fold w1. rewrite !upd_buf_upd. by rewrite (upd_buf_eq w1 b bf).
Qed.

(** The block is one of the disk. *)
Definition in_range (w : world) (n : Z) : Prop := 0 <= n < u32 (ide_disksize (w_ide w)).

(** The driver reads the block of a buffer that holds nothing yet. *)
Lemma iderw_read w b bf n e :
  kctx w i c p pr -> (b < NBUF)%nat -> (b < length (w_bufs w))%nat -> in_range w n ->
  b_flags bf = 0 -> b_dev bf = 1 -> b_blockno bf = n ->
  iderw_mem b (grab b bf w) e = Ret tt (grab b (set_b_flags (fun _ => 2) (set_b_data (fun _ => disk_block w n) bf)) w) e.
Proof.
  intros H Hb Hlen Hn Hf Hdev Hblk. unfold iderw_mem. unfold kbind at 1.
  rewrite (holdingsleep_eq _ i c p pr (grab_ctx w b bf H) (SlBuf b)) by (cbn; by apply bool_decide_eq_true).
  unfold grab at 1 2. rewrite slock_of_put. cbn [sl_locked sl_pid]. rewrite Z.eqb_refl. cbn [negb Z.eqb andb].
  unfold kbind at 1. rewrite (get_buf_eq _ b bf) by by apply grab_buf. rewrite Hf, Hdev, Hblk.
  change (Z.land 0 (Z.lor B_VALID B_DIRTY) =? B_VALID) with false. change (1 =? 1) with true. cbn [negb].
  unfold kbind at 1. cbn [kget].
  change (w_ide (grab b bf w)) with (w_ide w). destruct Hn as [Hn0 Hn1]. rewrite Z.geb_leb, (proj2 (Z.leb_gt _ _)) by done.
  change (flag 0 B_DIRTY) with false. unfold kbind, kmod. rewrite !upd_grab by done. do 2 f_equal.
  unfold set_b_flags, set_b_data. cbn. by rewrite Hf.
Qed.

(** The cache once buffer [b], which was not in use, holds block [n]. *)
Lemma grab_cache w held D n b bf bf' :
  cache w held D -> (b < NBUF)%nat -> b ∉ held -> w_bufs w !! b = Some bf ->
  b_prev bf' = b_prev bf -> b_next bf' = b_next bf -> b_dev bf' = 1 -> b_blockno bf' = n -> b_refcnt bf' = 1 ->
  b_flags bf' = (if D !! n is Some _ then 6 else 2) ->
  (forall a x, (a < NBUF)%nat -> a <> b -> w_bufs w !! a = Some x -> finds n x = false) ->
  (finds n bf = true \/ b_flags bf <> 6) ->
  cache (grab b bf' w) (b :: held) D.
Proof.
  intros [Hctx [l Hr] [Hnd Hlt] Hdisk Hlock Hdata Huniq Hpin] Hb Hh Hbf Hp Hn Hdev Hblk Href Hfl Hother Hold.
  assert (w_bufs (grab b bf' w) !! b = Some bf') as Hnew.
  { apply grab_buf. by eapply lookup_lt_Some. }
  assert (forall a, a <> b -> w_bufs (grab b bf' w) !! a = w_bufs w !! a) as Hne.
  { intros a Ha. cbn. by rewrite list_lookup_alter_ne. }
  assert (forall a x, w_bufs (grab b bf' w) !! a = Some x -> a = b /\ x = bf' \/ a <> b /\ w_bufs w !! a = Some x) as Hcase.
  { intros a x Hx. destruct (decide (a = b)) as [->|Hab]; [left; split; congruence|right]. by rewrite <-Hne. }
  split.
  - by apply grab_ctx.
  - exists l. eapply ring_ext; [exact Hr|apply length_alter| |].
    + intros a. destruct (decide (a = b)) as [->|Hab]; [by rewrite Hnew, Hbf; cbn; rewrite Hn|by rewrite Hne].
    + intros a. destruct (decide (a = b)) as [->|Hab]; [by rewrite Hnew, Hbf; cbn; rewrite Hp|by rewrite Hne].
  - split; by constructor.
  - exact Hdisk.
  - intros a x Ha [[-> ->]|[Hab Hx]]%Hcase; unfold buf_lock.
    + rewrite decide_True by by constructor. unfold grab. rewrite slock_of_put. done.
    + unfold grab. rewrite slock_of_put_ne by congruence. specialize (Hlock a x Ha Hx). unfold buf_lock in Hlock.
      destruct (decide (a ∈ held)); [rewrite decide_True by (by constructor)|rewrite decide_False by set_solver]; exact Hlock.
  - intros a x Ha [[-> ->]|[Hab Hx]]%Hcase Hnin; [set_solver|]. by apply (Hdata a); [| |set_solver].
  - intros a a' x x' Ha Ha' [[-> ->]|[Hab Hx]]%Hcase [[-> ->]|[Hab' Hx']]%Hcase Hd Hd' Heq; [done| | |by eapply Huniq].
    + specialize (Hother a' x' Ha' Hab' Hx'). rewrite (proj2 (finds_spec n x')) in Hother; [done|]. split; congruence.
    + specialize (Hother a x Ha Hab Hx). rewrite (proj2 (finds_spec n x)) in Hother; [done|]. split; congruence.
  - intros m d Hm. destruct (Hpin m d Hm) as (a & x & Ha & Hx & Hd & Hbk & Hf).
    destruct (decide (a = b)) as [->|Hab].
    + assert (x = bf) as -> by congruence. destruct Hold as [[_ Hbn]%finds_spec|]; [|done].
      exists b, bf'. split_and!; try done; [congruence|]. rewrite Hfl. assert (n = m) as -> by congruence. by rewrite Hm.
    + exists a, x. rewrite Hne by done. done.
Qed.

#[local] Instance mem_driver : DiskDriver := memide.

(** What buffer [b] holds when bget gives it out, [bf] being what it held before: nothing yet of
    a block that is not dirty, or the block. *)
Lemma got_buf w held D n b bf bf1 :
  cache w held D -> (b < NBUF)%nat -> b ∉ held -> w_bufs w !! b = Some bf ->
  (finds n bf = true /\ b_flags bf1 = b_flags bf /\ b_data bf1 = b_data bf \/
   (forall a x, (a < NBUF)%nat -> w_bufs w !! a = Some x -> finds n x = false) /\ b_flags bf <> 6 /\ b_flags bf1 = 0) ->
  (forall a x, (a < NBUF)%nat -> a <> b -> w_bufs w !! a = Some x -> finds n x = false) /\
  (b_flags bf1 = 0 /\ D !! n = None \/
   b_flags bf1 = (if D !! n is Some _ then 6 else 2) /\ b_data bf1 = view w D n).
Proof.
  intros Hc Hb Hh Hbf Hcase. split.
  { intros a x Ha Hab Hxa. destruct Hcase as [(Hf & _)|(Hnone & _)]; [|by eapply Hnone].
    apply not_true_iff_false. intros [Hd1 Hd2]%finds_spec. apply finds_spec in Hf as [Hf1 Hf2]. apply Hab.
    eapply (ca_uniq _ _ _ Hc); [done|done|exact Hxa|exact Hbf|done..|congruence]. }
  unfold view. destruct Hcase as [(Hf & -> & ->)|(Hnone & _ & H0)].
  - apply finds_spec in Hf as [Hf1 Hf2].
    destruct (ca_data _ _ _ Hc b bf Hb Hbf Hh) as [H0|(_ & _ & [(H2 & HD & Hd)|(H6 & HD)])].
    + left. split; [done|]. destruct (D !! n) as [d|] eqn:HD; [|done].
      destruct (ca_pins _ _ _ Hc n d HD) as (a & x & Ha & Hxa & Hd1 & Hd2 & Hd3).
      assert (a = b) as -> by (eapply (ca_uniq _ _ _ Hc); [done|done|exact Hxa|exact Hbf|done..|congruence]).
      simplify_eq. lia.
    + right. rewrite Hf2 in HD, Hd. by rewrite HD.
    + right. rewrite Hf2 in HD. by rewrite HD.
  - left. split; [done|]. destruct (D !! n) as [d|] eqn:HD; [|done].
    destruct (ca_pins _ _ _ Hc n d HD) as (a & x & Ha & Hxa & Hd1 & Hd2 & _).
    specialize (Hnone a x Ha Hxa). by rewrite (proj2 (finds_spec n x)) in Hnone.
Qed.

(** bread returns a buffer with what a reader of the block is to see. *)
Lemma bread_spec w held D n e :
  cache w held D ->
  (forall b bf, b ∈ held -> w_bufs w !! b = Some bf -> b_dev bf = 1 -> b_blockno bf <> n) ->
  is_Some (D !! n) \/ (size D + length held < NBUF)%nat -> in_range w n ->
  exists b w', bread 1 n w e = Ret b w' e /\ cache w' (b :: held) D /\ has w' D b n (view w D n) /\
    same_disk w w' /\ same_bufs held w w'.
Proof.
  intros Hc Hfree Hav Hn. destruct (bget_eq w held D n e Hc Hfree Hav)
    as (b & bf & bf1 & Hb & Hh & Hbf & Eg & Hp & Hx & Hdev & Hblk & Href & Hcase).
  assert (b < length (w_bufs w))%nat as Hlen by by eapply lookup_lt_Some.
  destruct (got_buf w held D n b bf bf1 Hc Hb Hh Hbf Hcase) as [Hother Hgot].
  assert (exists bf2, bread 1 n w e = Ret b (grab b bf2 w) e /\ b_prev bf2 = b_prev bf /\ b_next bf2 = b_next bf /\
    b_dev bf2 = 1 /\ b_blockno bf2 = n /\ b_refcnt bf2 = 1 /\ b_data bf2 = view w D n /\
    b_flags bf2 = (if D !! n is Some _ then 6 else 2)) as (bf2 & Er & Q1 & Q2 & Q3 & Q4 & Q5 & Q6 & Q7).
  { unfold bread. unfold kbind at 1. rewrite Eg. unfold kbind at 1. rewrite (get_buf_eq _ b bf1) by by apply grab_buf.
    destruct Hgot as [[H0 HD]|[Hfl Hda]].
    - exists (set_b_flags (fun _ => 2) (set_b_data (fun _ => disk_block w n) bf1)).
      rewrite H0. change (negb (flag 0 B_VALID)) with true. cbn [kwhen]. unfold kbind, iderw, mem_driver, memide.
      rewrite (iderw_read w b bf1 n) by (try done; by apply Hc). unfold view. rewrite HD. split_and!; done.
    - exists bf1. rewrite Hfl. destruct (D !! n); cbn [kwhen flag negb]; (split_and!; [reflexivity|done..]). }
  exists b, (grab b bf2 w). split_and!; [done| | |by repeat split|].
  - eapply (grab_cache w held D n b bf bf2); try done. destruct Hcase as [(Hf & _)|(_ & Hf & _)]; auto.
  - exists bf2. rewrite grab_buf by done. done.
  - intros a Ha. cbn. rewrite list_lookup_alter_ne; [done|]. by intros ->.
Qed.

(** ** put_data, bwrite and brelse on a buffer in use *)

Lemma held_lock w held D b bf :
  cache w held D -> b ∈ held -> w_bufs w !! b = Some bf ->
  (b < NBUF)%nat /\ b_refcnt bf = 1 /\ sl_locked (slock_of w (SlBuf b)) = 1 /\ sl_pid (slock_of w (SlBuf b)) = p_pid pr.
Proof.
  intros Hc Hb Hbf. assert (b < NBUF)%nat as Hlt by (by apply (proj1 (Forall_forall _ _) (proj2 (ca_held _ _ _ Hc)))).
  split; [done|]. pose proof (ca_lock _ _ _ Hc b bf Hlt Hbf) as Hl. unfold buf_lock in Hl. by rewrite decide_True in Hl.
Qed.

(** Changing the flags and the data of a buffer in use, and perhaps its block on the disk. *)
Lemma held_cache w w' held D D' b bf bf' n :
  cache w held D -> b ∈ held -> w_bufs w !! b = Some bf -> b_dev bf = 1 -> b_blockno bf = n ->
  w_bufs w' = alter (fun _ => bf') b (w_bufs w) -> w_slocks w' = w_slocks w -> kctx w' i c p pr ->
  b_prev bf' = b_prev bf -> b_next bf' = b_next bf -> b_dev bf' = 1 -> b_blockno bf' = n -> b_refcnt bf' = b_refcnt bf ->
  (forall m, length (disk_block w' m) = 512%nat) ->
  (forall m, m <> n -> disk_block w' m = disk_block w m /\ D' !! m = D !! m) ->
  (is_Some (D' !! n) -> b_flags bf' = 6) -> cache w' held D'.
Proof.
  intros [Hctx [l Hr] Hheld Hdisk Hlock Hdata Huniq Hpin] Hb Hbf Hdev Hblk Ew Es Hctx' Hp Hn Hdev' Hblk' Href Hdisk' Hm Hfl.
  assert (w_bufs w' !! b = Some bf') as Hnew by (by rewrite Ew, list_lookup_alter_eq, Hbf).
  assert (forall a, a <> b -> w_bufs w' !! a = w_bufs w !! a) as Hne.
  { intros a Ha. by rewrite Ew, list_lookup_alter_ne. }
  assert (forall a x, w_bufs w' !! a = Some x -> a = b /\ x = bf' \/ a <> b /\ w_bufs w !! a = Some x) as Hcase.
  { intros a x Hx. destruct (decide (a = b)) as [->|Hab]; [left; split; congruence|right]. by rewrite <-Hne. }
  assert (b < NBUF)%nat as Hlt by by apply (proj1 (Forall_forall _ _) (proj2 Hheld)).
  assert (forall a, slock_of w' a = slock_of w a) as Hsl by (intros a; unfold slock_of; by rewrite Es).
  split; [done| |done|done| | | |].
  - exists l. eapply ring_ext; [exact Hr|by rewrite Ew, length_alter| |];
      intros a; (destruct (decide (a = b)) as [->|Hab]; [rewrite Hnew, Hbf; cbn; congruence|by rewrite Hne]).
  - intros a x Ha [[-> ->]|[Hab Hx]]%Hcase; unfold buf_lock; rewrite Hsl, ?Href; [by apply (Hlock b bf)|by apply Hlock].
  - intros a x Ha [[-> ->]|[Hab Hx]]%Hcase Hnin; [done|].
    destruct (Hdata a x Ha Hx Hnin) as [H0|(H1 & H2 & H3)]; [by left|right].
    assert (b_blockno x <> n) as Hxn by (intros Hxn; apply Hab; eapply (Huniq a b x bf); eauto; congruence).
    destruct (Hm _ Hxn) as [-> ->]. done.
  - intros a a' x x' Ha Ha' [[-> ->]|[Hab Hx]]%Hcase [[-> ->]|[Hab' Hx']]%Hcase Hd Hd' Heq; [done| | |by eapply Huniq].
    + eapply (Huniq b a' bf x'); eauto; congruence.
    + eapply (Huniq a b x bf); eauto; congruence.
  - intros m d Hd. destruct (decide (m = n)) as [->|Hmn].
    + exists b, bf'. eauto 10.
    + destruct (Hm m Hmn) as [_ E]. rewrite E in Hd. destruct (Hpin m d Hd) as (a & x & Ha & Hx & H1 & H2 & H3).
      exists a, x. rewrite Hne; [done|]. intros ->. congruence.
Qed.

Lemma put_data_spec w held D b n d d' e :
  cache w held D -> b ∈ held -> has w D b n d ->
  exists w', kmod (upd_buf b (set_b_data (fun _ => d'))) w e = Ret tt w' e /\ cache w' held D /\ has w' D b n d' /\
    same_disk w w' /\ (forall a, a <> b -> w_bufs w' !! a = w_bufs w !! a).
Proof.
  intros Hc Hb (bf & Hbf & H1 & H2 & H3 & H4). exists (upd_buf b (set_b_data (fun _ => d')) w).
  split; [done|]. rewrite (upd_buf_eq w b bf) by done. set (bf' := set_b_data _ bf).
  split_and!.
  - apply (held_cache w _ held D D b bf bf' n); try done.
    + apply (kctx_frame w i c p pr (ca_ctx _ _ _ Hc) (upd_buf b (fun _ => bf'))). apply Hc.
    + intros m. apply Hc.
    + intros [x Hx]. cbn. by rewrite H4, Hx.
  - exists bf'. cbn. rewrite list_lookup_alter_eq, Hbf. done.
  - by repeat split.
  - intros a Ha. cbn. by rewrite list_lookup_alter_ne.
Qed.

Lemma bwrite_eq w b bf n d e :
  kctx w i c p pr -> (b < NBUF)%nat -> w_bufs w !! b = Some bf -> b_dev bf = 1 -> b_blockno bf = n -> b_data bf = d ->
  b_flags bf = 2 \/ b_flags bf = 6 -> in_range w n ->
  sl_locked (slock_of w (SlBuf b)) = 1 -> sl_pid (slock_of w (SlBuf b)) = p_pid pr ->
  bwrite b w e = Ret tt (disk_write n d (upd_buf b (fun _ => set_b_flags (fun _ => 2) bf) w)) e.
Proof.
  intros Hctx Hlt Hbf H1 H2 H3 H4 [Hn0 Hn1] Hsl Hpid.
  assert (static_lock (SleepLk (SlBuf b)) = true) as Hst by (cbn; by apply bool_decide_eq_true).
  set (bf1 := set_b_flags (fun _ => 6) bf). set (w1 := upd_buf b (fun _ => bf1) w).
  assert (kctx w1 i c p pr) as Hctx1 by (apply (kctx_frame w i c p pr Hctx (upd_buf b (fun _ => bf1))); apply Hctx).
  assert (w_bufs w1 !! b = Some bf1) as Hb1 by (cbn; by rewrite list_lookup_alter_eq, Hbf).
  unfold bwrite. unfold kbind at 1. rewrite (holdingsleep_eq w i c p pr Hctx (SlBuf b)) by done.
  rewrite Hsl, Hpid, Z.eqb_refl. cbn [negb Z.eqb andb]. unfold kbind at 1. cbn [kmod].
  rewrite (upd_buf_eq w b bf) by done.
  assert (set_b_flags (fun f => Z.lor f B_DIRTY) bf = bf1) as ->.
  { unfold bf1, set_b_flags. by destruct H4 as [-> | ->]. }
  fold w1. unfold iderw, mem_driver, memide, iderw_mem. unfold kbind at 1.
  rewrite (holdingsleep_eq w1 i c p pr Hctx1 (SlBuf b)) by done.
  change (slock_of w1 (SlBuf b)) with (slock_of w (SlBuf b)). rewrite Hsl, Hpid, Z.eqb_refl. cbn [negb Z.eqb andb].
  unfold kbind at 1. rewrite (get_buf_eq w1 b bf1) by done. cbn [bf1 set_b_flags b_flags b_dev b_blockno b_data].
  rewrite H1, H2, H3. change (Z.land 6 (Z.lor B_VALID B_DIRTY) =? B_VALID) with false. change (1 =? 1) with true.
  cbn [negb]. unfold kbind at 1. cbn [kget]. change (w_ide w1) with (w_ide w).
  rewrite Z.geb_leb, (proj2 (Z.leb_gt _ _)) by done.
  change (flag 6 B_DIRTY) with true. unfold kbind, kmod. f_equal.
  rewrite disk_write_upd. unfold w1. f_equal. rewrite !upd_buf_upd. by rewrite (upd_buf_eq w b bf) by done.
Qed.

(** bwrite writes the block through to the disk, which makes it clean. *)
Lemma bwrite_spec w held D b n d e :
  cache w held D -> b ∈ held -> has w D b n d -> length d = 512%nat -> in_range w n ->
  exists w', bwrite b w e = Ret tt w' e /\ cache w' held (delete n D) /\ has w' (delete n D) b n d /\
    w_disk w' = <[n := d]> (w_disk w) /\ w_dtrace w' = (n, d) :: w_dtrace w /\ w_log w' = w_log w /\
    w_ide w' = w_ide w /\ w_sb w' = w_sb w /\ w_inodes w' = w_inodes w /\ (forall a, a <> b -> w_bufs w' !! a = w_bufs w !! a).
Proof.
  intros Hc Hb (bf & Hbf & H1 & H2 & H3 & H4) Hlen Hn.
  destruct (held_lock w held D b bf Hc Hb Hbf) as (Hlt & Hrc & Hsl & Hpid).
  set (bf' := set_b_flags (fun _ => 2) bf). pose proof (ca_ctx _ _ _ Hc) as Hctx.
  set (w' := disk_write n d (upd_buf b (fun _ => bf') w)). exists w'. split.
  { apply (bwrite_eq w b bf n d); try done. rewrite H4. destruct (D !! n); auto. }
  split_and!; try done.
  - apply (held_cache w w' held D (delete n D) b bf bf' n); try done.
    + apply (kctx_frame w i c p pr Hctx (fun w => disk_write n d (upd_buf b (fun _ => bf') w))). apply Hctx.
    + intros m. unfold disk_block. cbn. destruct (decide (n = m)) as [->|Hne]; [by rewrite lookup_insert_eq|].
      rewrite lookup_insert_ne by done. apply Hc.
    + intros m Hm. rewrite lookup_delete_ne by done. split; [|done]. unfold disk_block. cbn. by rewrite lookup_insert_ne.
    + rewrite lookup_delete_eq. by intros [].
  - exists bf'. cbn. rewrite list_lookup_alter_eq, Hbf, lookup_delete_eq. done.
  - intros a Ha. cbn. by rewrite list_lookup_alter_ne.
Qed.

(** The state in which buffer [b] has been unlocked. *)
Definition drop_lock (b : nat) (w : world) : world :=
  woken (ChSleep (SlBuf b)) (put_slock (SlBuf b) (mkSleeplock 0 (sl_name (slock_of w (SlBuf b))) 0) w).

Lemma drop_ctx w b : kctx w i c p pr -> kctx (drop_lock b w) i c p pr.
Proof using Hrun.
  intros H. apply (kctx_frame w i c p pr H (drop_lock b)). cbn. rewrite list_lookup_fmap, (kctx_proc _ _ _ _ _ H). cbn.
  unfold wake_proc. destruct (p_state pr) eqn:E; try done.
Qed.

Lemma brelse_eq w held D b bf e :
  cache w held D -> b ∈ held -> w_bufs w !! b = Some bf ->
  exists bs' l, brelse b w e = Ret tt (put_bufs bs' (drop_lock b w)) e /\ ring bs' l /\
    same_core (alter (set_b_refcnt (fun _ => 0)) b (w_bufs w)) bs'.
Proof using Hrun.
  intros Hc Hb Hbf. destruct (held_lock w held D b bf Hc Hb Hbf) as (Hlt & Hrc & Hsl & Hpid).
  pose proof Hc as [Hctx [l Hr] _ _ _ _ _ _].
  assert (static_lock (SleepLk (SlBuf b)) = true) as Hst by (cbn; by apply bool_decide_eq_true).
  unfold brelse. unfold kbind at 1. rewrite (holdingsleep_eq w i c p pr Hctx (SlBuf b)) by done.
  rewrite Hsl, Hpid, Z.eqb_refl. cbn [negb Z.eqb andb]. unfold kbind at 1.
  rewrite (releasesleep_eq w i c p pr Hctx (SlBuf b)) by done. fold (drop_lock b w).
  pose proof (drop_ctx w b Hctx) as Hctx1. set (w1 := drop_lock b w) in *. pose proof Hctx1 as [H1 H2 H3 H4 H5].
  unfold kbind at 1. rewrite (acquire_eq w1 i c) by auto. set (w2 := entered i BcacheLock w1). unfold kbind at 1. cbn [kmod].
  rewrite (upd_buf_eq w2 b bf) by done. set (bf' := set_b_refcnt _ bf).
  assert (bf' = set_b_refcnt (fun _ => 0) bf) as -> by (unfold bf', set_b_refcnt; by rewrite Hrc).
  unfold kbind at 1. rewrite (get_buf_eq _ b (set_b_refcnt (fun _ => 0) bf)) by (cbn; by rewrite list_lookup_alter_eq, Hbf).
  cbn [set_b_refcnt b_refcnt Z.eqb kwhen]. set (w3 := upd_buf b _ w2).
  assert (w_bufs w3 = alter (set_b_refcnt (fun _ => 0)) b (w_bufs w)) as E3.
  { cbn. apply list_alter_ext'. intros x Hx. by simplify_eq. }
  destruct (bmove_eq w3 l b e) as (bs' & Eb & (l' & Hr') & Hcore).
  { eapply ring_ext; [exact Hr|by rewrite E3, length_alter| |]; intros a; rewrite E3;
      (destruct (decide (b = a)) as [->|Hne]; [rewrite list_lookup_alter_eq, Hbf; done|by rewrite list_lookup_alter_ne]). }
  { done. }
  exists bs', (b :: l'). split_and!; [|done|by rewrite <-E3]. unfold kbind. rewrite Eb.
  change (put_bufs bs' w3) with (put_bufs bs' w2).
  rewrite (release_section w1 i c BcacheLock H1 (put_bufs bs')) by auto. by rewrite H2.
Qed.

Lemma has_core w w' D D' b n d :
  core <$> w_bufs w' !! b = core <$> w_bufs w !! b -> D' !! n = D !! n -> has w D b n d -> has w' D' b n d.
Proof.
  intros E HD (bf & Hbf & H1 & H2 & H3 & H4). rewrite Hbf in E. destruct (w_bufs w' !! b) as [bf'|] eqn:Hb'; [|done].
  cbn in E. injection E as E1 E2 E3 E4 E5. exists bf'. rewrite Hb', HD. split_and!; congruence.
Qed.

(** Lookups on either side of a change of links and of one reference count. *)
Lemma unref_core bs bs' b a :
  same_core (alter (set_b_refcnt (fun _ => 0)) b bs) bs' ->
  core <$> bs' !! a = (fun y => core (if decide (a = b) then set_b_refcnt (fun _ => 0) y else y)) <$> bs !! a.
Proof.
  intros Hcore. rewrite (Hcore a). destruct (decide (a = b)) as [->|Hne].
  - rewrite list_lookup_alter_eq. by destruct (bs !! b).
  - by rewrite list_lookup_alter_ne.
Qed.

Lemma fmap_eq_Some {A B C} (f : A -> C) (g : B -> C) (o : option A) (o' : option B) x :
  f <$> o = g <$> o' -> o = Some x -> exists y, o' = Some y /\ f x = g y.
Proof. intros H ->. destruct o' as [y|]; [|done]. exists y. split; [done|]. apply (inj Some). exact H. Qed.

Lemma drop_slock w b a : slock_of (drop_lock b w) (SlBuf a) =
  if decide (a = b) then mkSleeplock 0 (sl_name (slock_of w (SlBuf b))) 0 else slock_of w (SlBuf a).
Proof.
  change (slock_of (drop_lock b w) (SlBuf a))
    with (slock_of (put_slock (SlBuf b) (mkSleeplock 0 (sl_name (slock_of w (SlBuf b))) 0) w) (SlBuf a)).
  destruct (decide (a = b)) as [->|Hne]; [apply slock_of_put|]. apply slock_of_put_ne. congruence.
Qed.

Lemma drop_cache w held D b n d bs' l :
  cache w (b :: held) D -> has w D b n d -> view w D n = d -> length d = 512%nat -> ring bs' l ->
  same_core (alter (set_b_refcnt (fun _ => 0)) b (w_bufs w)) bs' -> cache (put_bufs bs' (drop_lock b w)) held D.
Proof using Hrun.
  intros [Hctx _ [Hnd Hlt] Hdisk Hlock Hdata Huniq Hpin] (bf & Hbf & H1 & H2 & H3 & H4) Hd Hlen Hr Hcore.
  pose proof (fun a => unref_core _ _ _ a Hcore) as Hall.
  apply NoDup_cons in Hnd as [Hbh Hnd]. inversion_clear Hlt as [|? ? Hb Hlt'].
  assert (forall a x, bs' !! a = Some x -> exists y, w_bufs w !! a = Some y /\ b_flags x = b_flags y /\
    b_dev x = b_dev y /\ b_blockno x = b_blockno y /\ b_data x = b_data y /\
    b_refcnt x = if decide (a = b) then 0 else b_refcnt y) as Hback.
  { intros a x Hx. destruct (fmap_eq_Some _ _ _ _ x (Hall a) Hx) as (y & Hy & E). exists y.
    injection E as E1 E2 E3 E4 E5. repeat split; try done; case_decide; done. }
  split; [|by eauto|done|exact Hdisk| | | |].
  - apply (kctx_frame _ i c p pr (drop_ctx w b Hctx) (put_bufs bs')). apply (drop_ctx w b Hctx).
  - intros a x Ha (y & Hy & E1 & E2 & E3 & E4 & E5)%Hback. specialize (Hlock a y Ha Hy). unfold buf_lock in *.
    change (slock_of (put_bufs _ ?v) ?s) with (slock_of v s). rewrite E5, drop_slock. destruct (decide (a = b)) as [->|Hne].
    + by rewrite decide_False.
    + destruct (decide (a ∈ held)); [by rewrite decide_True in Hlock by set_solver|by rewrite decide_False in Hlock by set_solver].
  - intros a x Ha (y & Hy & E1 & E2 & E3 & E4 & E5)%Hback Hnin. unfold buf_data. rewrite E1, E2, E3, E4.
    destruct (decide (a = b)) as [->|Hne]; [|apply (Hdata a y Ha Hy); set_solver].
    assert (y = bf) as -> by congruence. right. rewrite H1, H2, H3, H4.
    unfold view in Hd. change (disk_block (put_bufs bs' (drop_lock b w)) n) with (disk_block w n).
    destruct (D !! n); cbn in Hd; split_and!; try done; [right|left]; split_and!; congruence.
  - intros a a' x x' Ha Ha' (y & Hy & _ & -> & -> & _)%Hback (y' & Hy' & _ & -> & -> & _)%Hback. by eapply Huniq.
  - intros m x Hm. destruct (Hpin m x Hm) as (a & y & Ha & Hy & G1 & G2 & G3).
    destruct (fmap_eq_Some _ _ _ _ y (eq_sym (Hall a)) Hy) as (z & Hz & _).
    destruct (Hback a z Hz) as (y' & Hy' & E1 & E2 & E3 & _). exists a, z. assert (y' = y) as -> by congruence.
    split_and!; first [done|congruence].
Qed.

(** brelse gives back a buffer that is clean or pinned. *)
Lemma brelse_spec w held D b n d e :
  cache w (b :: held) D -> has w D b n d -> view w D n = d -> length d = 512%nat ->
  exists w', brelse b w e = Ret tt w' e /\ cache w' held D /\ same_disk w w' /\
    (forall a, a <> b -> core <$> w_bufs w' !! a = core <$> w_bufs w !! a).
Proof using Hrun.
  intros Hc Hhas Hd Hlen. pose proof Hhas as (bf & Hbf & _).
  destruct (brelse_eq w (b :: held) D b bf e Hc ltac:(by constructor) Hbf) as (bs' & l & Eb & Hr & Hcore).
  exists (put_bufs bs' (drop_lock b w)). split_and!; [done|by eapply drop_cache|by repeat split|].
  intros a Hne. specialize (Hcore a). by rewrite list_lookup_alter_ne in Hcore.
Qed.
End cache.
