(* ===== verification/Log.v ===== *)
(** * The write-ahead log (log.c)

    A transaction's blocks stay in the buffer cache, pinned by B_DIRTY, until [commit]
    copies them to the log, writes the header, installs them and clears the header. *)

From Stdlib Require Import ZArith Lia.
From stdpp Require Import base list gmap strings numbers.
From S2P Require Import Prelude Machine Cstring Spinlock Boot Sched Sleeplock Layout Bio.
Local Open Scope Z_scope.
Local Open Scope kern_scope.

Definition upd_log (g : logstate -> logstate) : KM unit := kmod (set_w_log g).
Definition get_log : KM logstate := kget w_log.

(** [log.lh.block[i]], an array of LOGSIZE entries. *)
Definition get_lh_block (i : Z) : KM Z :=
  lg <- get_log; kderef (if i <? 0 then None else lh_block lg !! Z.to_nat i).
Definition put_lh_block (i v : Z) : KM unit :=
  if (i <? 0) || (i >=? LOGSIZE) then kpanic "invalid pointer"
  else upd_log (set_lh_block (insert (Z.to_nat i) v)).

(** Turns of a loop over the log header. *)
Definition log_turns : nat := Z.to_nat LOGSIZE + 1.
Arguments log_turns : simpl never.

(** [b->data] *)
Definition put_data (b : nat) (d : list Z) : KM unit := kmod (upd_buf b (set_b_data (fun _ => d))).

Section log.
Context `{DiskDriver}.

Definition readsb (dev : Z) : KM superblock :=
  bp <- bread dev 1;
  bf <- get_buf bp;
  brelse bp >>;
  kret (read_sb (b_data bf)).

Definition install_trans : KM unit :=
  kcount log_turns 0 (lg <- get_log; kret (lh_n lg)) (fun tail =>
    lg <- get_log;
    lbuf <- bread (lg_dev lg) (u32 (lg_start lg + tail + 1));
    lg <- get_log;
    dst <- get_lh_block tail;
    dbuf <- bread (lg_dev lg) (u32 dst);
    bf <- get_buf lbuf;
    put_data dbuf (b_data bf) >>;
    bwrite dbuf >>;
    brelse lbuf >>;
    brelse dbuf).

Definition read_head : KM unit :=
  lg <- get_log;
  b <- bread (lg_dev lg) (u32 (lg_start lg));
  bf <- get_buf b;
  upd_log (set_lh_n (fun _ => lh_get_n (b_data bf))) >>;
  kcount log_turns 0 (lg <- get_log; kret (lh_n lg))
    (fun i => put_lh_block i (lh_get_block (b_data bf) (Z.to_nat i))) >>;
  brelse b.

Definition write_head : KM unit :=
  lg <- get_log;
  b <- bread (lg_dev lg) (u32 (lg_start lg));
  lg <- get_log;
  bf <- get_buf b;
  put_data b (put 4 0 (lh_n lg) (b_data bf)) >>;
  kcount log_turns 0 (lg <- get_log; kret (lh_n lg)) (fun i =>
    v <- get_lh_block i;
    bf <- get_buf b;
    put_data b (put 4 (4 + 4 * Z.to_nat i) v (b_data bf))) >>;
  bwrite b >>;
  brelse b.

Definition recover_from_log : KM unit :=
  read_head >>;
  install_trans >>;
  upd_log (set_lh_n (fun _ => 0)) >>;
  write_head.

Definition initlog (dev : Z) : KM unit :=
  if 4 + 4 * LOGSIZE >=? BSIZE then kpanic "initlog: too big logheader" else
  initlock LogLock "log" >>;
  sb <- readsb dev;
  upd_log (set_lg_start (fun _ => s32 (sb_logstart sb))) >>;
  upd_log (set_lg_size (fun _ => s32 (sb_nlog sb))) >>;
  upd_log (set_lg_dev (fun _ => dev)) >>;
  recover_from_log.

Definition begin_op : KM unit :=
  acquire LogLock >>;
  kwait (lg <- get_log;
         if negb (lg_committing lg =? 0) then sleep (Some ChLog) (Some LogLock) >>; kret None
         else if lh_n lg + (lg_outstanding lg + 1) * MAXOPBLOCKS >? LOGSIZE
         then sleep (Some ChLog) (Some LogLock) >>; kret None
         else
           upd_log (set_lg_outstanding (fun n => n + 1)) >>;
           release LogLock >>;
           kret (Some tt)).

Definition write_log : KM unit :=
  kcount log_turns 0 (lg <- get_log; kret (lh_n lg)) (fun tail =>
    lg <- get_log;
    to <- bread (lg_dev lg) (u32 (lg_start lg + tail + 1));
    lg <- get_log;
    src <- get_lh_block tail;
    from <- bread (lg_dev lg) (u32 src);
    bf <- get_buf from;
    put_data to (b_data bf) >>;
    bwrite to >>;
    brelse from >>;
    brelse to).

Definition commit : KM unit :=
  lg <- get_log;
  if lh_n lg >? 0 then
    write_log >>;
    write_head >>;
    install_trans >>;
    upd_log (set_lh_n (fun _ => 0)) >>;
    write_head
  else kret tt.

Definition end_op : KM unit :=
  acquire LogLock >>;
  upd_log (set_lg_outstanding (fun n => n - 1)) >>;
  lg <- get_log;
  if negb (lg_committing lg =? 0) then kpanic "log.committing" else
  let do_commit := lg_outstanding lg =? 0 in
  (if do_commit then upd_log (set_lg_committing (fun _ => 1)) else wakeup (Some ChLog)) >>;
  release LogLock >>;
  kwhen do_commit
    (commit >>;
     acquire LogLock >>;
     upd_log (set_lg_committing (fun _ => 0)) >>;
     wakeup (Some ChLog) >>;
     release LogLock).

(** The index at which [log_write] puts block [blockno]: where it is already, or [lh.n]. *)
Definition log_slot (lg : logstate) (blockno : Z) : nat :=
  default (Z.to_nat (lh_n lg)) (find_idx (fun x => u32 x =? blockno) (take (Z.to_nat (lh_n lg)) (lh_block lg))).

Definition log_write (b : nat) : KM unit :=
  lg <- get_log;
  if (lh_n lg >=? LOGSIZE) || (lh_n lg >=? lg_size lg - 1) then kpanic "too big a transaction" else
  if lg_outstanding lg <? 1 then kpanic "log_write outside of trans" else
  acquire LogLock >>;
  bf <- get_buf b;
  lg <- get_log;
  let i := log_slot lg (b_blockno bf) in
  put_lh_block (Z.of_nat i) (s32 (b_blockno bf)) >>;
  kwhen (Z.of_nat i =? lh_n lg) (upd_log (set_lh_n (fun n => n + 1))) >>;
  kmod (upd_buf b (set_b_flags (fun f => Z.lor f B_DIRTY))) >>;
  release LogLock.
End log.
