(* ===== verification/Crash.v ===== *)
(** * The log makes transactions atomic under crashes (log.c)

    The machine may stop between any two writes to the disk.  What commit writes, and what
    recovery writes when the machine starts again, is given exactly; whatever prefix of these
    writes a crash leaves on the disk, and however often recovery itself is interrupted, the
    disk after a recovery that ends holds either every block of the transaction or none. *)

From Stdlib Require Import ZArith Lia.
From stdpp Require Import base list gmap strings numbers.
From S2P Require Import Prelude Machine Cstring Spinlock Boot Sched Sleeplock Layout Bio Log Bcache.
From stdpp Require Import list.
Local Open Scope Z_scope.
Local Open Scope kern_scope.

(** ** Disks *)

Notation disk := (gmap Z (list Z)).
Definition blk (dk : disk) (n : Z) : list Z := default (replicate 512 0) (dk !! n).
(** The writes [ws], the oldest first. *)
Definition apply_writes (ws : list (Z * list Z)) (dk : disk) : disk :=
  foldl (fun dk '(n, d) => <[n := d]> dk) dk ws.

Lemma blk_insert dk n d m : blk (<[n := d]> dk) m = if decide (n = m) then d else blk dk m.
Proof.
  unfold blk. destruct (decide (n = m)) as [->|Hne]; [by rewrite lookup_insert_eq|by rewrite lookup_insert_ne].
Qed.

Lemma apply_app ws1 ws2 dk : apply_writes (ws1 ++ ws2) dk = apply_writes ws2 (apply_writes ws1 dk).
Proof. apply foldl_app. Qed.

Lemma apply_blk ws dk m : m ∉ ws.*1 -> blk (apply_writes ws dk) m = blk dk m.
Proof.
  unfold apply_writes. revert dk. induction ws as [|[n d] ws IH]; intros dk; [done|]. cbn [fmap list_fmap fst foldl].
  rewrite not_elem_of_cons. intros [Hne Hm]. rewrite IH by done. rewrite blk_insert. by rewrite decide_False.
Qed.

(** The last write to a block is what it holds. *)
Lemma apply_blk_in ws dk k n d : ws !! k = Some (n, d) -> n ∉ (drop (S k) ws).*1 -> blk (apply_writes ws dk) n = d.
Proof.
  intros Hk Hn. rewrite <-(take_drop_middle ws k (n, d) Hk), apply_app.
  change (apply_writes ((n, d) :: drop (S k) ws) ?x) with (apply_writes (drop (S k) ws) (<[n := d]> x)).
  rewrite apply_blk by done. rewrite blk_insert. by rewrite decide_True.
Qed.

Lemma apply_blk_all ws dk m v : (forall x, (m, x) ∈ ws -> x = v) -> m ∈ ws.*1 -> blk (apply_writes ws dk) m = v.
Proof.
  intros Hall. induction ws as [|[n d] ws IH] using rev_ind; [by intros H%elem_of_nil|]. intros Hm.
  rewrite apply_app. cbn. rewrite blk_insert. destruct (decide (n = m)) as [->|Hne].
  - apply Hall, elem_of_app. right. by constructor.
  - apply IH; [intros x Hx; apply Hall, elem_of_app; by left|]. rewrite fmap_app in Hm. set_solver.
Qed.

(** ** Copying a block through the cache *)

Section code.
Context (i : nat) (c : cpu) (p : nat) (pr : proc) (Hrun : p_state pr <> SLEEPING).
#[local] Existing Instance mem_driver.
Notation cache := (cache i c p pr).

Lemma cache_perm w held held' D : held ≡ₚ held' -> cache w held D -> cache w held' D.
Proof.
  intros Hp [H1 H2 [H3 H3'] H4 H5 H6 H7 H8]. split; try done.
  - by rewrite <-Hp.
  - intros b bf Hb Hbf. specialize (H5 b bf Hb Hbf). unfold buf_lock in *.
    destruct (decide (b ∈ held)) as [Hin|Hin]; [rewrite decide_True by (by rewrite <-Hp)|rewrite decide_False by (by rewrite <-Hp)]; done.
  - intros b bf Hb Hbf. rewrite <-Hp. by apply H6.
Qed.

(** The cache is idle: nobody uses a buffer. *)
Record idle (w : world) (D : pinned) (dk : disk) (tr : list (Z * list Z)) (lg : logstate) (sz : Z) : Prop := mkIdle {
  id_cache : cache w [] D;
  id_disk : w_disk w = dk;
  id_trace : w_dtrace w = tr;
  id_log : w_log w = lg;
  id_size : u32 (ide_disksize (w_ide w)) = sz
}.

Definition sees (dk : disk) (D : pinned) (n : Z) : list Z := default (blk dk n) (D !! n).

Lemma view_sees w D dk n : w_disk w = dk -> view w D n = sees dk D n.
Proof. by intros <-. Qed.

Lemma sees_length w D dk tr lg sz n : idle w D dk tr lg sz -> length (sees dk D n) = 512%nat.
Proof.
  intros [Hc <- _ _ _]. unfold sees. destruct (D !! n) as [d|] eqn:Hd; cbn; [|apply (ca_disk _ _ _ _ _ _ _ Hc)].
  destruct (ca_pins _ _ _ _ _ _ _ Hc n d Hd) as (b & bf & Hb & Hbf & H1 & H2 & H3).
  destruct (ca_data _ _ _ _ _ _ _ Hc b bf Hb Hbf ltac:(apply not_elem_of_nil)) as [H0|(_ & Hl & [(H0 & _)|(_ & HD)])]; [lia|lia|].
  congruence.
Qed.

Lemma copy_finish w D src dst A B s d0 e :
  cache w [src; dst] D -> has w D src B s -> has w D dst A d0 -> A <> B -> view w D B = s ->
  length s = 512%nat -> in_range w A ->
  exists w', (bf <- get_buf src; put_data dst (b_data bf) >>; bwrite dst >>; brelse src >>; brelse dst) w e = Ret tt w' e /\
    cache w' [] (delete A D) /\ w_disk w' = <[A := s]> (w_disk w) /\ w_dtrace w' = (A, s) :: w_dtrace w /\
    w_log w' = w_log w /\ w_ide w' = w_ide w.
Proof using Hrun.
  intros Hc Hs Hd Hne Hv Hlen HA.
  assert (src <> dst) as Hsd.
  { pose proof (proj1 (ca_held _ _ _ _ _ _ _ Hc)) as Hnd. apply NoDup_cons in Hnd as [Hnd _]. set_solver. }
  pose proof Hs as (bf & Hbf & _ & _ & Hbs & _). unfold kbind at 1. rewrite (get_buf_eq w src bf), Hbs by done.
  destruct (put_data_spec i c p pr w [src; dst] D dst A d0 s e Hc ltac:(set_solver) Hd)
    as (w1 & E1 & Hc1 & Hd1 & (S1 & S2 & S3 & S4 & _) & F1).
  unfold kbind at 1. unfold put_data. rewrite E1.
  destruct (bwrite_spec i c p pr w1 [src; dst] D dst A s e Hc1 ltac:(set_solver) Hd1 Hlen ltac:(unfold in_range in *; by rewrite S4))
    as (w2 & E2 & Hc2 & Hd2 & T1 & T2 & T3 & T4 & _ & _ & F2).
  unfold kbind at 1. rewrite E2.
  assert (has w2 (delete A D) src B s) as Hs2.
  { eapply has_core; [| |exact Hs]; [by rewrite F2, F1|by rewrite lookup_delete_ne]. }
  destruct (brelse_spec i c p pr Hrun w2 [dst] (delete A D) src B s e Hc2 Hs2) as (w3 & E3 & Hc3 & (U1 & U2 & U3 & U4 & _) & F3); [|done|].
  { rewrite <-Hv. unfold view. rewrite lookup_delete_ne by done. unfold disk_block. by rewrite T1, S1, lookup_insert_ne. }
  unfold kbind. rewrite E3.
  assert (has w3 (delete A D) dst A s) as Hd3 by (eapply has_core; [| |exact Hd2]; [apply F3; congruence|done]).
  destruct (brelse_spec i c p pr Hrun w3 [] (delete A D) dst A s e Hc3 Hd3) as (w4 & E4 & Hc4 & (V1 & V2 & V3 & V4 & _) & _); [|done|].
  { unfold view. rewrite lookup_delete_eq. cbn. unfold disk_block. by rewrite U1, T1, lookup_insert_eq. }
  exists w4. rewrite E4. split_and!; [done|done|..]; congruence.
Qed.

Lemma two_breads w D dk tr lg sz A B e :
  idle w D dk tr lg sz -> 0 <= A < sz -> 0 <= B < sz -> A <> B ->
  (size D < NBUF)%nat -> is_Some (D !! B) \/ (size D + 1 < NBUF)%nat ->
  exists x w1 y w2, bread 1 A w e = Ret x w1 e /\ w_log w1 = lg /\ bread 1 B w1 e = Ret y w2 e /\
    cache w2 [y; x] D /\ has w2 D x A (sees dk D A) /\ has w2 D y B (sees dk D B) /\ same_disk w w2.
Proof.
  intros [Hc Hdk Htr Hlg Hsz] HA HB Hne Hr1 Hr2.
  destruct (bread_spec i c p pr Hrun w [] D A e Hc) as (x & w1 & E1 & Hc1 & Hx & Hs1 & _).
  { intros b bf Hb. by apply elem_of_nil in Hb. } { right. cbn. lia. } { unfold in_range. by rewrite Hsz. }
  pose proof Hs1 as (S1 & S2 & S3 & S4 & S5 & S6). pose proof Hx as (bx & Hbx & Hx1 & Hx2 & _).
  destruct (bread_spec i c p pr Hrun w1 [x] D B e Hc1) as (y & w2 & E2 & Hc2 & Hy & Hs2 & Hb2).
  { intros b bf Hb Hbf. apply list_elem_of_singleton in Hb as ->. congruence. }
  { destruct Hr2 as [?|?]; [by left|right; cbn; lia]. } { unfold in_range. by rewrite S4, Hsz. }
  pose proof Hs2 as (T1 & T2 & T3 & T4 & T5 & T6).
  exists x, w1, y, w2. split_and!; try done; [congruence| | |repeat split; congruence].
  - rewrite <-(view_sees w D dk A Hdk). eapply has_core; [| |exact Hx]; [|done]. by rewrite (Hb2 x) by by constructor.
  - rewrite <-(view_sees w1 D dk B) by congruence. exact Hy.
Qed.

(** ** The loops of commit and recovery *)

Variables (start sz : Z).
Hypothesis Hstart : 1 < start /\ start + LOGSIZE < sz /\ sz < 2 ^ 31.

(** The blocks of the log: its header and the copies. *)
Definition in_log (n : Z) : Prop := start <= n < start + LOGSIZE.
#[local] Instance in_log_dec n : Decision (in_log n).
Proof. apply _. Defined.

(** The log in memory: [bs] are the blocks of the transaction. *)
Definition log_holds (lg : logstate) (bs : list Z) : Prop :=
  lg_dev lg = 1 /\ lg_start lg = start /\ lh_n lg = Z.of_nat (length bs) /\ take (length bs) (lh_block lg) = bs /\
  length (lh_block lg) = Z.to_nat LOGSIZE /\ (length bs < Z.to_nat LOGSIZE)%nat.
(** Blocks that a transaction may contain. *)
Definition homes (bs : list Z) : Prop := Forall (fun b => 1 < b < sz /\ ~ in_log b) bs.

Lemma log_holds_len lg bs : log_holds lg bs -> (length bs < Z.to_nat LOGSIZE)%nat.
Proof. by intros (_ & _ & _ & _ & _ & H). Qed.

Lemma lh_block_at w lg bs k b e :
  w_log w = lg -> log_holds lg bs -> bs !! k = Some b -> get_lh_block (Z.of_nat k) w e = Ret b w e.
Proof.
  intros Hlg (_ & _ & _ & Ht & _) Hk. unfold get_lh_block, get_log, kbind, kget. rewrite Hlg.
  rewrite (proj2 (Z.ltb_ge _ _)), Nat2Z.id by lia. rewrite <-Ht in Hk. apply lookup_take_Some in Hk as [-> _]. done.
Qed.

Lemma home_at bs k b : homes bs -> bs !! k = Some b -> 1 < b < sz /\ ~ in_log b /\ u32 b = b.
Proof using Hstart.
  intros Hh Hk. destruct (Forall_lookup_1 _ _ _ _ Hh Hk) as [H1 H2]. split_and!; [lia|lia|done|]. apply u32_small. lia.
Qed.

(** The copy of the [k]th block in the log. *)
Definition slot (k : nat) : Z := start + 1 + Z.of_nat k.
Lemma slot_at lg bs k : log_holds lg bs -> (k < length bs)%nat ->
  u32 (lg_start lg + Z.of_nat k + 1) = slot k /\ 0 <= slot k < sz /\ in_log (slot k) /\ slot k <> start.
Proof using Hstart.
  intros Hl Hk. pose proof (log_holds_len lg bs Hl). destruct Hl as (_ & -> & _). unfold slot, in_log, LOGSIZE, MAXOPBLOCKS in *.
  split_and!; try lia. rewrite u32_small; lia.
Qed.

(** write_log copies the pinned blocks to the log. *)
Definition log_writes (D : pinned) (bs : list Z) : list (Z * list Z) := imap (fun k b => (slot k, default [] (D !! b))) bs.

Lemma idle_bound w D dk tr lg bs e : idle w D dk tr lg sz -> log_holds lg bs ->
  (lg <- get_log; kret (lh_n lg)) w e = Ret (Z.of_nat (length bs)) w e.
Proof. intros [_ _ _ Hlg _] (_ & _ & Hn & _). unfold kbind, get_log, kget, kret. by rewrite Hlg, Hn. Qed.

Lemma imap_take_S {A B} (f : nat -> A -> B) l k x :
  l !! k = Some x -> imap f (take (S k) l) = imap f (take k l) ++ [f k x].
Proof.
  intros Hk. rewrite (take_S_r l k x Hk), imap_app. cbn. rewrite length_take.
  pose proof (lookup_lt_Some _ _ _ Hk). by replace (k `min` length l + 0)%nat with k by lia.
Qed.

Lemma write_log_spec w D dk tr lg bs e :
  idle w D dk tr lg sz -> log_holds lg bs -> homes bs -> (size D < NBUF)%nat ->
  Forall (fun b => is_Some (D !! b)) bs -> (forall n, in_log n -> D !! n = None) ->
  exists w', write_log w e = Ret tt w' e /\
    idle w' D (apply_writes (log_writes D bs) dk) (reverse (log_writes D bs) ++ tr) lg sz.
Proof using Hstart Hrun.
  intros Hid Hlg Hh Hsz Hpin Hnone. pose proof (log_holds_len lg bs Hlg) as Hlen.
  destruct (kcount_rule (fun k w => idle w D (apply_writes (log_writes D (take k bs)) dk)
    (reverse (log_writes D (take k bs)) ++ tr) lg sz) (length bs) log_turns (lg <- get_log; kret (lh_n lg))
    (fun tail => lg <- get_log; to <- bread (lg_dev lg) (u32 (lg_start lg + tail + 1)); lg <- get_log;
      src <- get_lh_block tail; from <- bread (lg_dev lg) (u32 src); bf <- get_buf from;
      put_data to (b_data bf) >>; bwrite to >>; brelse from >>; brelse to) w e) as (w' & E & Hid').
  - intros k v Hv. by eapply idle_bound.
  - intros k v Hk Hv. destruct (lookup_lt_is_Some_2 bs k Hk) as [b Hb].
    destruct (home_at bs k b Hh Hb) as (Hb1 & Hb2 & Hb3). destruct (slot_at lg bs k Hlg Hk) as (Es & Hs1 & Hs2 & _).
    pose proof (Forall_lookup_1 _ _ _ _ Hpin Hb) as [d Hd]. assert (slot k <> b) as Hne by congruence.
    destruct (two_breads v D _ _ lg sz (slot k) b e Hv ltac:(lia) ltac:(lia) Hne Hsz ltac:(eauto))
      as (x & w1 & y & w2 & E1 & L1 & E2 & Hc2 & Hx & Hy & (S1 & S2 & S3 & S4 & _)).
    pose proof Hv as [_ V1 V2 V3 V4]. pose proof Hlg as (G1 & G2 & _).
    destruct (copy_finish w2 D y x (slot k) b (sees (apply_writes (log_writes D (take k bs)) dk) D b) _ e Hc2 Hy Hx Hne)
      as (w3 & E3 & Hc3 & T1 & T2 & T3 & T4).
    { apply view_sees. congruence. } { by eapply sees_length. } { unfold in_range. rewrite S4, V4. lia. }
    exists w3. unfold kbind at 1, get_log at 1, kget at 1. rewrite V3, G1, Es. unfold kbind at 1. rewrite E1.
    unfold kbind at 1, get_log at 1, kget at 1. rewrite L1, G1. unfold kbind at 1.
    rewrite (lh_block_at w1 lg bs k b e L1 Hlg Hb), Hb3. unfold kbind at 1. rewrite E2, E3. split; [done|].
    rewrite (delete_id D) in Hc3 by by apply Hnone.
    assert (log_writes D (take (S k) bs) = log_writes D (take k bs) ++ [(slot k, d)]) as ->.
    { unfold log_writes. rewrite (imap_take_S _ _ _ _ Hb). by rewrite Hd. }
    unfold sees in T1, T2. rewrite Hd in T1, T2. cbn [from_option id] in T1, T2. split; try done; [|..].
    + rewrite apply_app. cbn. congruence.
    + rewrite reverse_app. cbn. congruence.
    + congruence.
    + congruence.
  - unfold log_turns. lia.
  - exact Hid.
  - exists w'. split; [exact E|]. by rewrite take_ge in Hid' by lia.
Qed.

(** install_trans copies the log to the blocks' homes. *)
Definition inst_writes (dk : disk) (bs : list Z) : list (Z * list Z) := imap (fun k b => (b, blk dk (slot k))) bs.
(** The pinned blocks once [bs] have been written. *)
Definition unpin (bs : list Z) (D : pinned) : pinned := foldl (fun D b => delete b D) D bs.

Lemma unpin_None bs D n : D !! n = None -> unpin bs D !! n = None.
Proof.
  unfold unpin. revert D. induction bs as [|b bs IH]; intros D HD; [done|]. cbn. apply IH. by rewrite lookup_delete_None; right.
Qed.
Lemma unpin_size bs D : (size (unpin bs D) <= size D)%nat.
Proof.
  unfold unpin. revert D. induction bs as [|b bs IH]; intros D; [done|]. cbn. etrans; [apply IH|].
  rewrite map_size_delete. destruct (D !! b); cbn; lia.
Qed.
Lemma unpin_lookup bs D n : unpin bs D !! n = if decide (n ∈ bs) then None else D !! n.
Proof.
  unfold unpin. revert D. induction bs as [|b bs IH]; intros D; [by rewrite decide_False by apply not_elem_of_nil|]. cbn.
  rewrite IH. destruct (decide (n ∈ bs)); [by rewrite decide_True by by constructor|].
  destruct (decide (n = b)) as [->|Hne]; [by rewrite lookup_delete_eq, decide_True by constructor|].
  rewrite lookup_delete_ne by done. by rewrite decide_False by set_solver.
Qed.

(** Room for two buffers while the blocks are installed. *)
Definition room (D : pinned) (bs : list Z) : Prop :=
  (size D + 1 < NBUF)%nat \/ (size D < NBUF)%nat /\ forall b, head bs = Some b -> is_Some (D !! b).

Lemma room_at D bs k b : room D bs -> bs !! k = Some b ->
  (size (unpin (take k bs) D) < NBUF)%nat /\
  (is_Some (unpin (take k bs) D !! b) \/ (size (unpin (take k bs) D) + 1 < NBUF)%nat).
Proof.
  pose proof (unpin_size (take k bs) D) as Hle. intros [Hr|[Hr Hh]] Hk; [split; [|right]; lia|]. split; [lia|].
  destruct bs as [|b0 bs]; [done|]. destruct k as [|k]; [left; simplify_eq/=; by apply Hh|right].
  destruct (Hh b0 eq_refl) as [d Hd]. cbn [take]. unfold unpin. cbn [foldl].
  pose proof (unpin_size (take k bs) (delete b0 D)) as Hle2. unfold unpin in Hle2.
  rewrite map_size_delete, Hd in Hle2. cbn in Hle2.
  assert (size D <> 0)%nat by (intros H0%map_size_empty_inv; by subst). lia.
Qed.

Lemma inst_blk dk bs k n : homes bs -> in_log n -> blk (apply_writes (inst_writes dk (take k bs)) dk) n = blk dk n.
Proof.
  intros Hh Hn. apply apply_blk. intros Hin. apply list_elem_of_fmap in Hin as ([m d] & -> & Hin). cbn in Hn.
  apply elem_of_lookup_imap_1 in Hin as (j & b & [= -> _] & Hj). apply lookup_take_Some in Hj as [Hj _].
  by apply (Forall_lookup_1 _ _ _ _ Hh) in Hj as [_ ?].
Qed.

Lemma install_trans_spec w D dk tr lg bs e :
  idle w D dk tr lg sz -> log_holds lg bs -> homes bs -> room D bs -> (forall n, in_log n -> D !! n = None) ->
  exists w', install_trans w e = Ret tt w' e /\
    idle w' (unpin bs D) (apply_writes (inst_writes dk bs) dk) (reverse (inst_writes dk bs) ++ tr) lg sz.
Proof using Hstart Hrun.
  intros Hid Hlg Hh Hroom Hnone. pose proof (log_holds_len lg bs Hlg) as Hlen.
  destruct (kcount_rule (fun k w => idle w (unpin (take k bs) D) (apply_writes (inst_writes dk (take k bs)) dk)
    (reverse (inst_writes dk (take k bs)) ++ tr) lg sz) (length bs) log_turns (lg <- get_log; kret (lh_n lg))
    (fun tail => lg <- get_log; lbuf <- bread (lg_dev lg) (u32 (lg_start lg + tail + 1)); lg <- get_log;
      dst <- get_lh_block tail; dbuf <- bread (lg_dev lg) (u32 dst); bf <- get_buf lbuf;
      put_data dbuf (b_data bf) >>; bwrite dbuf >>; brelse lbuf >>; brelse dbuf) w e) as (w' & E & Hid').
  - intros k v Hv. by eapply idle_bound.
  - intros k v Hk Hv. destruct (lookup_lt_is_Some_2 bs k Hk) as [b Hb].
    destruct (home_at bs k b Hh Hb) as (Hb1 & Hb2 & Hb3). destruct (slot_at lg bs k Hlg Hk) as (Es & Hs1 & Hs2 & _).
    assert (slot k <> b) as Hne by congruence. destruct (room_at D bs k b Hroom Hb) as [R1 R2].
    destruct (two_breads v _ _ _ lg sz (slot k) b e Hv ltac:(lia) ltac:(lia) Hne R1 R2)
      as (x & w1 & y & w2 & E1 & L1 & E2 & Hc2 & Hx & Hy & (S1 & S2 & S3 & S4 & _)).
    pose proof Hv as [_ V1 V2 V3 V4]. pose proof Hlg as (G1 & G2 & _).
    apply (cache_perm _ _ [x; y]) in Hc2; [|apply perm_swap].
    destruct (copy_finish w2 _ x y b (slot k) _ _ e Hc2 Hx Hy ltac:(done))
      as (w3 & E3 & Hc3 & T1 & T2 & T3 & T4).
    { apply view_sees. congruence. } { by eapply sees_length. } { unfold in_range. rewrite S4, V4. lia. }
    exists w3. unfold kbind at 1, get_log at 1, kget at 1. rewrite V3, G1, Es. unfold kbind at 1. rewrite E1.
    unfold kbind at 1, get_log at 1, kget at 1. rewrite L1, G1. unfold kbind at 1.
    rewrite (lh_block_at w1 lg bs k b e L1 Hlg Hb), Hb3. unfold kbind at 1. rewrite E2, E3. split; [done|].
    unfold sees in T1, T2. rewrite unpin_None in T1, T2 by (by apply Hnone). cbn [from_option] in T1, T2.
    rewrite inst_blk in T1, T2 by done.
    assert (inst_writes dk (take (S k) bs) = inst_writes dk (take k bs) ++ [(b, blk dk (slot k))]) as ->.
    { unfold inst_writes. by rewrite (imap_take_S _ _ _ _ Hb). }
    split; [..|congruence|congruence].
    + rewrite (take_S_r bs k b Hb). unfold unpin. by rewrite foldl_app.
    + rewrite apply_app. cbn. congruence.
    + rewrite reverse_app. cbn. congruence.
  - unfold log_turns. lia.
  - exact Hid.
  - exists w'. split; [exact E|]. by rewrite take_ge in Hid' by lia.
Qed.

(** The header block for the blocks [bs], over the bytes [old]. *)
Definition header_bytes (bs : list Z) (old : list Z) : list Z := put_words 4 bs (put 4 0 (Z.of_nat (length bs)) old).

Lemma header_length bs old : (length bs < Z.to_nat LOGSIZE)%nat -> length old = 512%nat ->
  length (header_bytes bs old) = 512%nat.
Proof.
  unfold LOGSIZE, MAXOPBLOCKS. intros Hb Hl. unfold header_bytes. rewrite put_words_length; rewrite put_length; lia.
Qed.

Lemma header_n bs old : (length bs < Z.to_nat LOGSIZE)%nat -> length old = 512%nat ->
  lh_get_n (header_bytes bs old) = Z.of_nat (length bs).
Proof.
  unfold LOGSIZE, MAXOPBLOCKS. intros Hb Hl. unfold lh_get_n, header_bytes.
  rewrite get_put_words_ne by (rewrite ?put_length; lia). rewrite get_put_eq by lia. rewrite Z.mod_small by lia.
  apply s32_small. lia.
Qed.

Lemma header_block bs old k b : homes bs -> (length bs < Z.to_nat LOGSIZE)%nat -> length old = 512%nat ->
  bs !! k = Some b -> lh_get_block (header_bytes bs old) k = b.
Proof using Hstart.
  intros Hh Hb Hl Hk. destruct (home_at bs k b Hh Hk) as (H1 & _ & H2). unfold lh_get_block, header_bytes.
  unfold LOGSIZE, MAXOPBLOCKS in Hb. rewrite (get_put_words_eq _ _ _ _ b) by (rewrite ?put_length; done || lia).
  rewrite H2. apply s32_small. lia.
Qed.

(** One buffer in use, with block [n]. *)
Definition in_use (w0 w : world) (D : pinned) (b : nat) (n : Z) (d : list Z) : Prop :=
  cache w [b] D /\ has w D b n d /\ same_disk w0 w.

Lemma read_one w D dk tr lg n e :
  idle w D dk tr lg sz -> 0 <= n < sz -> (size D < NBUF)%nat ->
  exists b w', bread 1 n w e = Ret b w' e /\ in_use w w' D b n (sees dk D n).
Proof.
  intros [Hc Hdk Htr Hlg Hsz] Hn Hr.
  destruct (bread_spec i c p pr Hrun w [] D n e Hc) as (x & w1 & E1 & Hc1 & Hx & Hs1 & _).
  { intros b bf Hb. by apply elem_of_nil in Hb. } { right. cbn. lia. } { unfold in_range. by rewrite Hsz. }
  exists x, w1. split; [done|]. split_and!; [done| |done]. by rewrite <-(view_sees w).
Qed.

Lemma use_put w0 w D b n d d' e :
  in_use w0 w D b n d -> exists w', put_data b d' w e = Ret tt w' e /\ in_use w0 w' D b n d'.
Proof.
  intros (Hc & Hh & (S1 & S2 & S3 & S4 & S5 & S6)).
  destruct (put_data_spec i c p pr w [b] D b n d d' e Hc ltac:(by constructor) Hh) as (w1 & E1 & Hc1 & Hh1 & (T1 & T2 & T3 & T4 & T5 & T6) & _).
  exists w1. split; [exact E1|]. split_and!; [done|done|]. repeat split; congruence.
Qed.

Lemma use_write w0 w D dk tr lg b n d e :
  idle w0 D dk tr lg sz -> in_use w0 w D b n d -> 0 <= n < sz -> D !! n = None -> length d = 512%nat ->
  exists w', (bwrite b >>; brelse b) w e = Ret tt w' e /\ idle w' D (<[n := d]> dk) ((n, d) :: tr) lg sz.
Proof using Hrun.
  intros [_ I1 I2 I3 I4] (Hc & Hh & (S1 & S2 & S3 & S4 & S5 & S6)) Hn HD Hlen.
  destruct (bwrite_spec i c p pr w [b] D b n d e Hc ltac:(by constructor) Hh Hlen ltac:(unfold in_range; by rewrite S4, I4))
    as (w1 & E1 & Hc1 & Hh1 & T1 & T2 & T3 & T4 & T5 & _). rewrite delete_id in Hc1, Hh1 by done.
  destruct (brelse_spec i c p pr Hrun w1 [] D b n d e Hc1 Hh1) as (w2 & E2 & Hc2 & (U1 & U2 & U3 & U4 & _) & _); [|done|].
  { unfold view. rewrite HD. cbn. unfold disk_block. by rewrite T1, lookup_insert_eq. }
  exists w2. unfold kbind. rewrite E1, E2. split; [done|]. split; [done|congruence..].
Qed.

Lemma use_release w0 w D dk tr lg b n e :
  idle w0 D dk tr lg sz -> in_use w0 w D b n (sees dk D n) ->
  exists w', brelse b w e = Ret tt w' e /\ idle w' D dk tr lg sz.
Proof using Hrun.
  intros Hid (Hc & Hh & (S1 & S2 & S3 & S4 & S5 & S6)). pose proof Hid as [_ I1 I2 I3 I4].
  destruct (brelse_spec i c p pr Hrun w [] D b n (sees dk D n) e Hc Hh) as (w2 & E2 & Hc2 & (U1 & U2 & U3 & U4 & _) & _).
  { apply view_sees. congruence. } { by eapply sees_length. }
  exists w2. rewrite E2. split; [done|]. split; [done|congruence..].
Qed.

Lemma write_head_spec w D dk tr lg bs e :
  idle w D dk tr lg sz -> log_holds lg bs -> D !! start = None -> (size D < NBUF)%nat ->
  let h := header_bytes bs (blk dk start) in
  exists w', write_head w e = Ret tt w' e /\ idle w' D (<[start := h]> dk) ((start, h) :: tr) lg sz.
Proof using Hstart Hrun.
  intros Hid Hlg HD Hsz h. pose proof (log_holds_len lg bs Hlg) as Hlen. pose proof Hid as [_ _ _ I3 _].
  pose proof Hlg as (G1 & G2 & G3 & G4 & _).
  destruct (read_one w D dk tr lg start e Hid ltac:(unfold LOGSIZE, MAXOPBLOCKS in *; lia) Hsz) as (b & w1 & E1 & Hu1).
  pose proof (sees_length w D dk tr lg sz start Hid) as Hl. unfold sees in Hu1, Hl. rewrite HD in Hu1, Hl. cbn [from_option] in Hu1, Hl.
  assert (forall v d, in_use w v D b start d -> w_log v = lg) as Hlog by (intros v d (_ & _ & (_ & _ & L & _)); congruence).
  unfold write_head. unfold kbind at 1, get_log at 1, kget at 1. rewrite I3, G1, G2, u32_small by (unfold LOGSIZE, MAXOPBLOCKS in *; lia).
  unfold kbind at 1. rewrite E1. unfold kbind at 1, get_log at 1, kget at 1. rewrite (Hlog _ _ Hu1), G3.
  pose proof Hu1 as (_ & (bf & Hbf & _ & _ & Hd & _) & _). unfold kbind at 1. rewrite (get_buf_eq w1 b bf), Hd by done.
  destruct (use_put w w1 D b start _ (put 4 0 (Z.of_nat (length bs)) (blk dk start)) e Hu1) as (w2 & E2 & Hu2).
  unfold kbind at 1. rewrite E2.
  destruct (kcount_rule (fun k v => in_use w v D b start (put_words 4 (take k bs) (put 4 0 (Z.of_nat (length bs)) (blk dk start))))
    (length bs) log_turns (lg <- get_log; kret (lh_n lg)) (fun i => v <- get_lh_block i; bf <- get_buf b;
      put_data b (put 4 (4 + 4 * Z.to_nat i) v (b_data bf))) w2 e) as (w3 & E3 & Hu3).
  - intros k v Hv. unfold kbind, get_log, kget, kret. by rewrite (Hlog _ _ Hv), G3.
  - intros k v Hk Hv. destruct (lookup_lt_is_Some_2 bs k Hk) as [x Hx]. unfold kbind at 1.
    rewrite (lh_block_at v lg bs k x e (Hlog _ _ Hv) Hlg Hx). pose proof Hv as (_ & (bv & Hbv & _ & _ & Hdv & _) & _).
    unfold kbind at 1. rewrite (get_buf_eq v b bv), Hdv, Nat2Z.id by done.
    rewrite (take_S_r bs k x Hx), put_words_snoc, length_take, Nat.min_l by lia. by eapply use_put.
  - unfold log_turns. lia.
  - exact Hu2.
  - unfold kbind at 1. rewrite E3. rewrite take_ge in Hu3 by lia.
    apply (use_write w w3 D dk tr lg b start h e Hid Hu3); [unfold LOGSIZE, MAXOPBLOCKS in *; lia|done|by apply header_length].
Qed.

(** Changes of the log in memory. *)
Lemma cache_log w held D g : cache w held D -> cache (set_w_log g w) held D.
Proof.
  intros [H1 H2 H3 H4 H5 H6 H7 H8]. split; try done.
  apply (kctx_frame w i c p pr H1 (set_w_log g)). apply H1.
Qed.
Lemma idle_log w D dk tr lg g : idle w D dk tr lg sz -> idle (set_w_log g w) D dk tr (g lg) sz.
Proof. intros [H1 H2 H3 H4 H5]. split; [by apply cache_log|done|done|cbn; by rewrite H4|done]. Qed.
Lemma in_use_log w0 w D b n d g : in_use w0 w D b n d -> in_use (set_w_log g w0) (set_w_log g w) D b n d.
Proof.
  intros (H1 & H2 & (S1 & S2 & S3 & S4 & S5 & S6)). split_and!; [by apply cache_log|done|]. repeat split; try done.
  cbn. by rewrite S3.
Qed.

(** The blocks the header on the disk lists. *)
Definition head_n (dk : disk) : Z := lh_get_n (blk dk start).
Definition head_blocks (dk : disk) : list Z := lh_get_block (blk dk start) <$> seq 0 (Z.to_nat (head_n dk)).
(** The log in memory with the first [k] entries read. *)
Definition head_read (lg : logstate) (bs : list Z) (k : nat) : logstate :=
  set_lh_block (fun l => take k bs ++ drop k l) (set_lh_n (fun _ => Z.of_nat (length bs)) lg).

Lemma head_read_S lg bs k b : bs !! k = Some b -> (k < length (lh_block lg))%nat ->
  set_lh_block (insert k b) (head_read lg bs k) = head_read lg bs (S k).
Proof.
  intros Hk Hl. unfold head_read, set_lh_block, set_lh_n. cbn. f_equal.
  destruct (lookup_lt_is_Some_2 _ _ Hl) as [x Hx]. rewrite (drop_S _ x k Hx), (take_S_r bs k b Hk).
  pose proof (lookup_lt_Some _ _ _ Hk). rewrite <-app_assoc. cbn.
  rewrite <-(Nat.add_0_r k) at 1. assert (k = length (take k bs)) as E by (rewrite length_take; lia).
  rewrite E at 1. rewrite insert_app_r. done.
Qed.

Lemma read_head_spec w dk tr lg bs e :
  idle w ∅ dk tr lg sz -> lg_dev lg = 1 -> lg_start lg = start -> length (lh_block lg) = Z.to_nat LOGSIZE ->
  0 <= head_n dk < LOGSIZE -> bs = head_blocks dk ->
  exists w' lg', read_head w e = Ret tt w' e /\ idle w' ∅ dk tr lg' sz /\ log_holds lg' bs.
Proof using Hstart Hrun.
  intros Hid G1 G2 G3 Hn Hbs. pose proof Hid as [_ _ _ I3 _].
  assert (length bs = Z.to_nat (head_n dk)) as Hlen by (subst bs; unfold head_blocks; by rewrite length_fmap, length_seq).
  assert (0 <= start < sz) as Hst by (unfold LOGSIZE, MAXOPBLOCKS in *; lia).
  destruct (read_one w ∅ dk tr lg start e Hid Hst ltac:(rewrite map_size_empty; unfold NBUF; lia)) as (b & w1 & E1 & Hu1).
  unfold sees in Hu1. rewrite lookup_empty in Hu1. cbn [from_option] in Hu1.
  unfold read_head. unfold kbind at 1, get_log at 1, kget at 1. rewrite I3, G1, G2, u32_small by lia.
  unfold kbind at 1. rewrite E1. pose proof Hu1 as (_ & (bf & Hbf & _ & _ & Hd & _) & _).
  unfold kbind at 1. rewrite (get_buf_eq w1 b bf), Hd by done. unfold kbind at 1, upd_log at 1, kmod at 1.
  change (lh_get_n (blk dk start)) with (head_n dk).
  destruct (kcount_rule (fun k v => in_use (set_w_log (fun _ => head_read lg bs k) w) v ∅ b start (blk dk start))
    (length bs) log_turns (lg <- get_log; kret (lh_n lg))
    (fun i => put_lh_block i (lh_get_block (blk dk start) (Z.to_nat i))) (set_w_log (set_lh_n (fun _ => head_n dk)) w1) e)
    as (w3 & E3 & Hu3).
  - intros k v (_ & _ & (_ & _ & L & _)). unfold kbind, get_log, kget, kret. by rewrite L.
  - intros k v Hk Hv. destruct (lookup_lt_is_Some_2 bs k Hk) as [x Hx]. unfold put_lh_block.
    rewrite (proj2 (Z.ltb_ge _ _)), Z.geb_leb, (proj2 (Z.leb_gt _ _)) by lia. cbn [orb]. unfold upd_log, kmod. rewrite Nat2Z.id.
    assert (lh_get_block (blk dk start) k = x) as ->.
    { subst bs. unfold head_blocks in Hx. rewrite list_lookup_fmap in Hx. apply fmap_Some in Hx as (j & Hj & ->).
      by apply lookup_seq in Hj as [-> _]. }
    eexists. split; [done|]. rewrite <-(head_read_S lg bs k x) by (done || lia).
    apply (in_use_log _ _ _ _ _ _ (set_lh_block (insert k x)) Hv).
  - unfold log_turns. lia.
  - apply (in_use_log _ _ _ _ _ _ (set_lh_n (fun _ => head_n dk))) in Hu1. destruct Hu1 as (U1 & U2 & (U3 & U4 & U5 & U6 & U7 & U8)).
    split_and!; [done|done|]. repeat split; try done. rewrite U5. cbn. rewrite I3. unfold head_read, set_lh_block, set_lh_n. cbn.
    f_equal. lia.
  - unfold kbind at 1. rewrite E3. apply (idle_log _ _ _ _ _ (fun _ => head_read lg bs (length bs))) in Hid.
    pose proof (use_release _ w3 ∅ dk tr _ b start e Hid) as Hr. unfold sees in Hr. rewrite lookup_empty in Hr. cbn [from_option] in Hr.
    destruct (Hr Hu3) as (w4 & E4 & Hid4). exists w4, (head_read lg bs (length bs)). split_and!; [done|done|].
    unfold log_holds, head_read. cbn. rewrite (take_ge bs) by lia. rewrite take_app_length, length_app, length_drop.
    split_and!; try done; lia.
Qed.

(** ** Recovery *)

(** A disk recovery can deal with: the header lists blocks that are not the log's own. *)
Definition sane (dk : disk) : Prop := 0 <= head_n dk < LOGSIZE /\ homes (head_blocks dk).
Definition recover_writes (dk : disk) : list (Z * list Z) :=
  inst_writes dk (head_blocks dk) ++ [(start, header_bytes [] (blk dk start))].

Lemma log_holds_nil lg : lg_dev lg = 1 -> lg_start lg = start -> length (lh_block lg) = Z.to_nat LOGSIZE ->
  log_holds (set_lh_n (fun _ => 0) lg) [].
Proof. intros H1 H2 H3. split_and!; try done. unfold LOGSIZE, MAXOPBLOCKS. cbn. lia. Qed.

Lemma size_empty : (size (∅ : pinned) + 1 < NBUF)%nat.
Proof. rewrite map_size_empty. unfold NBUF. lia. Qed.

(** The end of commit and of recovery: the blocks are installed and the header is cleared. *)
Lemma finish_spec w D dk tr lg bs e :
  idle w D dk tr lg sz -> log_holds lg bs -> homes bs -> room D bs -> (forall n, in_log n -> D !! n = None) ->
  let ws := inst_writes dk bs ++ [(start, header_bytes [] (blk dk start))] in
  exists w', (install_trans >>; upd_log (set_lh_n (fun _ => 0)) >>; write_head) w e = Ret tt w' e /\
    idle w' (unpin bs D) (apply_writes ws dk) (reverse ws ++ tr) (set_lh_n (fun _ => 0) lg) sz.
Proof using Hstart Hrun.
  intros Hid Hlg Hh Hr HD ws. pose proof Hlg as (G1 & G2 & _ & _ & G3 & _).
  assert (in_log start) as Hst by (unfold in_log, LOGSIZE, MAXOPBLOCKS; lia).
  destruct (install_trans_spec w D dk tr lg bs e Hid Hlg Hh Hr HD) as (w1 & E1 & Hid1).
  unfold kbind at 1. rewrite E1. unfold kbind at 1, upd_log at 1, kmod at 1.
  apply (idle_log _ _ _ _ _ (set_lh_n (fun _ => 0))) in Hid1.
  destruct (write_head_spec _ _ _ _ _ [] e Hid1) as (w2 & E2 & Hid2).
  { by apply log_holds_nil. } { by apply unpin_None, HD. }
  { pose proof (unpin_size bs D). destruct Hr as [?|[? _]]; lia. }
  exists w2. split; [exact E2|].
  assert (blk (apply_writes (inst_writes dk bs) dk) start = blk dk start) as Eb.
  { rewrite <-(take_ge bs (length bs)) by lia. by apply inst_blk. }
  rewrite Eb in Hid2. unfold ws. by rewrite apply_app, reverse_app.
Qed.

Lemma recover_spec w dk tr lg e :
  idle w ∅ dk tr lg sz -> lg_dev lg = 1 -> lg_start lg = start -> length (lh_block lg) = Z.to_nat LOGSIZE -> sane dk ->
  exists w' lg', recover_from_log w e = Ret tt w' e /\
    idle w' ∅ (apply_writes (recover_writes dk) dk) (reverse (recover_writes dk) ++ tr) lg' sz /\ lh_n lg' = 0.
Proof using Hstart Hrun.
  intros Hid G1 G2 G3 [Hn Hh].
  destruct (read_head_spec w dk tr lg _ e Hid G1 G2 G3 Hn eq_refl) as (w1 & lg1 & E1 & Hid1 & Hlg1).
  unfold recover_from_log. unfold kbind at 1. rewrite E1.
  destruct (finish_spec w1 ∅ dk tr lg1 (head_blocks dk) e Hid1 Hlg1 Hh) as (w2 & E2 & Hid2).
  { left. apply size_empty. } { intros n _. apply lookup_empty. }
  exists w2, (set_lh_n (fun _ => 0) lg1). split_and!; [exact E2| |done].
  assert (unpin (head_blocks dk) ∅ = ∅) as Eu; [|by rewrite Eu in Hid2].
  apply map_eq. intros n. rewrite unpin_lookup, lookup_empty. by case_decide.
Qed.

Lemma idle_initlock w D dk tr lg name : idle w D dk tr lg sz -> idle (put_lock LogLock (mkLock 0 name None) w) D dk tr lg sz.
Proof.
  intros [[H1 H2 H3 H4 H5 H6 H7 H8] I1 I2 I3 I4]. split; try done. split; try done.
  destruct H1 as [K1 K2 K3 K4 K5]. split; try done.
  - by apply (f_equal (put_lock LogLock (mkLock 0 name None))) in K2.
  - intros lk Hlk. destruct (decide (lk = LogLock)) as [->|Hne]; [exists name; cbn; by rewrite lookup_insert_eq|].
    destruct (K5 lk Hlk) as [nm Hnm]. exists nm. cbn. by rewrite lookup_insert_ne.
Qed.

Lemma readsb_spec w dk tr lg e : idle w ∅ dk tr lg sz ->
  exists w', readsb 1 w e = Ret (read_sb (blk dk 1)) w' e /\ idle w' ∅ dk tr lg sz.
Proof using Hstart Hrun.
  intros Hid. destruct (read_one w ∅ dk tr lg 1 e Hid ltac:(unfold LOGSIZE, MAXOPBLOCKS in *; lia)
    ltac:(pose proof size_empty; lia)) as (b & w1 & E1 & Hu1).
  pose proof Hu1 as (_ & (bf & Hbf & _ & _ & Hd & _) & _). unfold sees in Hd. rewrite lookup_empty in Hd. cbn [from_option] in Hd.
  destruct (use_release w w1 ∅ dk tr lg b 1 e Hid Hu1) as (w2 & E2 & Hid2).
  exists w2. unfold readsb, kbind. rewrite E1, (get_buf_eq w1 b bf), E2, Hd by done. done.
Qed.

(** initlog, as the first process runs it. *)
Lemma initlog_spec w dk tr lg e :
  idle w ∅ dk tr lg sz -> length (lh_block lg) = Z.to_nat LOGSIZE -> s32 (sb_logstart (read_sb (blk dk 1))) = start -> sane dk ->
  exists w' lg', initlog 1 w e = Ret tt w' e /\
    idle w' ∅ (apply_writes (recover_writes dk) dk) (reverse (recover_writes dk) ++ tr) lg' sz /\ lh_n lg' = 0.
Proof using Hstart Hrun.
  intros Hid G3 Hsb Hs. unfold initlog. change (4 + 4 * LOGSIZE >=? BSIZE) with false. cbn iota.
  unfold kbind at 1, initlock, kmod at 1. apply (idle_initlock _ _ _ _ _ "log") in Hid.
  destruct (readsb_spec _ dk tr lg e Hid) as (w1 & E1 & Hid1). unfold kbind at 1. rewrite E1.
  unfold kbind at 1 2 3, upd_log at 1 2 3, kmod at 1 2 3.
  apply (idle_log _ _ _ _ _ (set_lg_start (fun _ => s32 (sb_logstart (read_sb (blk dk 1)))))) in Hid1.
  apply (idle_log _ _ _ _ _ (set_lg_size (fun _ => s32 (sb_nlog (read_sb (blk dk 1)))))) in Hid1.
  apply (idle_log _ _ _ _ _ (set_lg_dev (fun _ => 1))) in Hid1.
  eapply recover_spec; [exact Hid1|done|done|done|done].
Qed.

(** ** Commit *)

Definition home_writes (D : pinned) (bs : list Z) : list (Z * list Z) := (fun b => (b, default [] (D !! b))) <$> bs.
(** Everything commit writes, in order. *)
Definition commit_writes (dk : disk) (D : pinned) (bs : list Z) : list (Z * list Z) :=
  let h := header_bytes bs (blk dk start) in
  log_writes D bs ++ [(start, h)] ++ home_writes D bs ++ [(start, header_bytes [] h)].

Lemma slots_out n bs D : ~ in_log n -> (length bs < Z.to_nat LOGSIZE)%nat -> n ∉ (log_writes D bs).*1.
Proof.
  intros Hn Hl Hin. apply list_elem_of_fmap in Hin as ([m d] & -> & Hin). apply elem_of_lookup_imap_1 in Hin as (k & b & [= -> ->] & Hk).
  apply Hn. apply lookup_lt_Some in Hk. unfold in_log, slot. cbn. unfold LOGSIZE, MAXOPBLOCKS in *. lia.
Qed.

Lemma log_writes_blk D bs dk k b : bs !! k = Some b -> blk (apply_writes (log_writes D bs) dk) (slot k) = default [] (D !! b).
Proof.
  intros Hk. apply (apply_blk_in _ _ k).
  - unfold log_writes. by rewrite list_lookup_imap, Hk.
  - intros Hin. apply list_elem_of_fmap in Hin as ([m d] & Em & Hin). cbn in Em. subst m.
    apply list_elem_of_lookup in Hin as [j Hj]. rewrite lookup_drop in Hj. unfold log_writes in Hj.
    rewrite list_lookup_imap in Hj. apply fmap_Some in Hj as (b' & _ & [= Hs _]). unfold slot in Hs. lia.
Qed.

Lemma log_writes_start D bs : start ∉ (log_writes D bs).*1.
Proof.
  intros Hin. apply list_elem_of_fmap in Hin as ([m d] & Em & Hin). apply elem_of_lookup_imap_1 in Hin as (k & b & [= -> ->] & Hk).
  unfold slot in Em. cbn in Em. lia.
Qed.

Lemma commit_spec w D dk tr lg bs e :
  idle w D dk tr lg sz -> log_holds lg bs -> bs <> [] -> homes bs -> (size D < NBUF)%nat ->
  Forall (fun b => is_Some (D !! b)) bs -> (forall n, in_log n -> D !! n = None) ->
  let ws := commit_writes dk D bs in
  exists w', commit w e = Ret tt w' e /\
    idle w' (unpin bs D) (apply_writes ws dk) (reverse ws ++ tr) (set_lh_n (fun _ => 0) lg) sz.
Proof using Hstart Hrun.
  intros Hid Hlg Hne Hh Hsz Hpin HD ws. pose proof Hid as [_ _ _ I3 _]. pose proof Hlg as (G1 & G2 & Gn & _ & G3).
  assert (in_log start) as Hst by (unfold in_log, LOGSIZE, MAXOPBLOCKS; lia).
  destruct (write_log_spec w D dk tr lg bs e Hid Hlg Hh Hsz Hpin HD) as (w1 & E1 & Hid1).
  destruct (write_head_spec w1 D _ _ lg bs e Hid1 Hlg ltac:(by apply HD) Hsz) as (w2 & E2 & Hid2).
  rewrite apply_blk in Hid2 by apply log_writes_start. set (h := header_bytes bs (blk dk start)) in *.
  set (dk2 := <[start := h]> _) in *.
  destruct (finish_spec w2 D dk2 _ lg bs e Hid2 Hlg Hh) as (w3 & E3 & Hid3); [|done|].
  { right. split; [done|]. intros b Hb. destruct bs as [|b' bs]; [done|]. simplify_eq/=. by inversion Hpin. }
  exists w3. split.
  { unfold commit. unfold kbind at 1, get_log at 1, kget at 1. rewrite I3, Gn.
    destruct bs as [|b bs]; [done|]. rewrite Z.gtb_ltb, (proj2 (Z.ltb_lt _ _)) by (cbn; lia).
    unfold kbind at 1. rewrite E1. unfold kbind at 1. rewrite E2. exact E3. }
  assert (inst_writes dk2 bs = home_writes D bs) as Ei.
  { unfold inst_writes, home_writes. apply list_eq. intros k. rewrite list_lookup_imap, list_lookup_fmap.
    destruct (bs !! k) as [b|] eqn:Hk; [|done]. cbn. do 2 f_equal. unfold dk2. rewrite blk_insert.
    rewrite decide_False by (unfold slot; lia). by apply log_writes_blk. }
  assert (blk dk2 start = h) as Eh by (unfold dk2; rewrite blk_insert; by rewrite decide_True).
  rewrite Ei, Eh in Hid3. unfold ws, commit_writes. fold h.
  rewrite !apply_app, !reverse_app, <-!app_assoc. rewrite apply_app, reverse_app, <-!app_assoc in Hid3. exact Hid3.
Qed.

(** end_op by the last operation of a transaction. *)
Lemma idle_woken w D dk tr lg ch : idle w D dk tr lg sz -> idle (woken ch w) D dk tr lg sz.
Proof using Hrun.
  intros [[H1 H2 H3 H4 H5 H6 H7 H8] I1 I2 I3 I4]. split; try done. split; try done.
  apply (kctx_frame w i c p pr H1 (woken ch)). cbn. rewrite list_lookup_fmap, (kctx_proc _ _ _ _ _ H1). cbn.
  unfold wake_proc. by destruct (p_state pr).
Qed.

Lemma end_op_spec w D dk tr lg bs e :
  idle w D dk tr lg sz -> log_holds lg bs -> lg_outstanding lg = 1 -> lg_committing lg = 0 ->
  bs <> [] -> homes bs -> (size D < NBUF)%nat ->
  Forall (fun b => is_Some (D !! b)) bs -> (forall n, in_log n -> D !! n = None) ->
  let ws := commit_writes dk D bs in
  exists w' lg', end_op w e = Ret tt w' e /\ idle w' (unpin bs D) (apply_writes ws dk) (reverse ws ++ tr) lg' sz.
Proof using Hstart Hrun.
  intros Hid Hlg Ho Hcm Hne Hh Hsz Hpin HD ws. pose proof (ca_ctx _ _ _ _ _ _ _ (id_cache _ _ _ _ _ _ Hid)) as Hctx.
  pose proof Hctx as [H1 H2 H3 H4 H5]. pose proof Hid as [_ _ _ I3 _].
  set (g1 := fun l => set_lg_committing (fun _ => 1) (set_lg_outstanding (fun n => n - 1) l)).
  pose proof (idle_log _ _ _ _ _ g1 Hid) as Hid1. set (w1 := set_w_log g1 w) in *.
  destruct (commit_spec w1 D dk tr (g1 lg) bs e Hid1 Hlg Hne Hh Hsz Hpin HD) as (w2 & E2 & Hid2).
  pose proof (ca_ctx _ _ _ _ _ _ _ (id_cache _ _ _ _ _ _ Hid2)) as Hctx2. pose proof Hctx2 as [K1 K2 K3 K4 K5].
  pose proof (idle_woken _ _ _ _ _ ChLog (idle_log _ _ _ _ _ (set_lg_committing (fun _ => 0)) Hid2)) as Hid3.
  do 2 eexists. split; [|exact Hid3]. unfold end_op. unfold kbind at 1. rewrite (acquire_eq w i c) by auto.
  unfold kbind at 1 2, upd_log at 1, kmod at 1, get_log at 1, kget at 1.
  cbn [w_log set_w_log entered locked_by put_lock set_w_locks pushed set_w_if upd_cpu set_w_cpus]. rewrite I3.
  cbn [set_lg_outstanding lg_committing lg_outstanding]. rewrite Hcm, Ho. change (1 - 1 =? 0) with true. cbn [negb Z.eqb].
  unfold kbind at 1, upd_log at 1, kmod at 1. unfold kbind at 1.
  change (set_w_log _ (set_w_log _ (entered i LogLock w))) with (set_w_log g1 (entered i LogLock w)).
  rewrite (release_section w i c LogLock H1 (set_w_log g1)) by auto. rewrite H2. fold w1. cbn [kwhen].
  unfold kbind at 1. rewrite E2. unfold kbind at 1. rewrite (acquire_eq w2 i c) by auto.
  unfold kbind at 1, upd_log at 1, kmod at 1. unfold kbind.
  rewrite (wakeup_entered w2 i c p pr Hctx2 LogLock ChLog (set_w_log (set_lg_committing (fun _ => 0)))) by done.
  rewrite (release_section w2 i c LogLock K1 (fun w => woken ChLog (set_w_log (set_lg_committing (fun _ => 0)) w))) by auto.
  by rewrite K2.
Qed.

(** ** What a crash leaves *)

Section phases.
Variables (dk : disk) (D : pinned) (bs : list Z).
Hypothesis Hh : homes bs.
Hypothesis Hlen : (length bs < Z.to_nat LOGSIZE)%nat.
Hypothesis Hpin : forall n, is_Some (D !! n) <-> n ∈ bs.

Definition clear (d : disk) : Prop := length (blk d start) = 512%nat /\ head_n d = 0.
(** The transaction has not happened, is in the log, or has happened. *)
Definition before (d : disk) : Prop := clear d /\ forall m, ~ in_log m -> blk d m = blk dk m.
Definition during (d : disk) : Prop :=
  length (blk d start) = 512%nat /\ head_n d = Z.of_nat (length bs) /\ head_blocks d = bs /\
  (forall k b, bs !! k = Some b -> blk d (slot k) = default [] (D !! b)) /\
  forall m, ~ in_log m -> blk d m = sees dk D m \/ m ∈ bs /\ blk d m = blk dk m.
Definition after (d : disk) : Prop := clear d /\ forall m, ~ in_log m -> blk d m = sees dk D m.

Lemma header_clear d : length (blk d start) = 512%nat -> clear (<[start := header_bytes [] (blk d start)]> d).
Proof.
  intros Hl. unfold clear, head_n. rewrite blk_insert, decide_True by done.
  split; [apply header_length|apply header_n]; cbn; done || lia.
Qed.

Lemma start_in_log : in_log start.
Proof. unfold in_log, LOGSIZE, MAXOPBLOCKS. lia. Qed.

Lemma blk_start d x m : ~ in_log m -> blk (<[start := x]> d) m = blk d m.
Proof. intros Hm. rewrite blk_insert, decide_False; [done|]. intros <-. apply Hm, start_in_log. Qed.

(** Writing blocks of the transaction to their homes. *)
Lemma home_during d j : during d -> during (apply_writes (take j (home_writes D bs)) d).
Proof using Hh Hlen Hpin.
  intros (H1 & H2 & H3 & H4 & H5).
  assert (forall m, in_log m -> blk (apply_writes (take j (home_writes D bs)) d) m = blk d m) as Hin.
  { intros m Hm. apply apply_blk. intros Hx. apply list_elem_of_fmap in Hx as ([b x] & -> & Hx).
    apply elem_of_take in Hx as (k & Hk & _). unfold home_writes in Hk. rewrite list_lookup_fmap in Hk.
    apply fmap_Some in Hk as (b' & Hb & [= -> ->]). by apply (Forall_lookup_1 _ _ _ _ Hh Hb). }
  pose proof (Hin start start_in_log) as Es. unfold during, head_blocks, head_n. rewrite !Es. split_and!; [done|done|done|..].
  - intros k b Hk. rewrite Hin; [by apply H4|]. apply lookup_lt_Some in Hk. unfold in_log, slot, LOGSIZE, MAXOPBLOCKS in *. lia.
  - intros m Hm. destruct (decide (m ∈ (take j (home_writes D bs)).*1)) as [Hx|Hx]; [left|rewrite apply_blk by done; by apply H5].
    assert (forall x, (m, x) ∈ take j (home_writes D bs) -> x = sees dk D m) as Hall; [|by apply apply_blk_all].
    intros x Hmx. apply elem_of_take in Hmx as (k & Hk & _). unfold home_writes in Hk. rewrite list_lookup_fmap in Hk.
    apply fmap_Some in Hk as (b & Hb & [= -> ->]). unfold sees.
    destruct (proj2 (Hpin b)) as [d' ->]; [by eapply list_elem_of_lookup_2|done].
Qed.

Lemma home_all d : during d -> forall m, ~ in_log m -> blk (apply_writes (home_writes D bs) d) m = sees dk D m.
Proof using Hpin.
  intros (_ & _ & _ & _ & H5) m Hm. destruct (decide (m ∈ bs)) as [Hin|Hin].
  - apply apply_blk_all.
    + intros x Hmx. unfold home_writes in Hmx. apply list_elem_of_fmap in Hmx as (b & [= -> ->] & Hb). unfold sees.
      by destruct (proj2 (Hpin b) Hb) as [d' ->].
    + apply list_elem_of_fmap. exists (m, default [] (D !! m)). split; [done|]. apply list_elem_of_fmap. eauto.
  - rewrite apply_blk; [by destruct (H5 m Hm) as [?|[? _]]|]. intros Hx. apply Hin.
    apply list_elem_of_fmap in Hx as ([b x] & -> & Hx). apply list_elem_of_fmap in Hx as (b' & [= -> ->] & Hb). done.
Qed.

(** Installing the blocks and clearing the header, cut short or not. *)
Lemma finish_phase d j : during d ->
  let ws := home_writes D bs ++ [(start, header_bytes [] (blk d start))] in
  (during (apply_writes (take j ws) d) \/ after (apply_writes (take j ws) d)) /\ after (apply_writes ws d).
Proof using Hh Hlen Hpin Hstart.
  intros Hd ws.
  assert (after (apply_writes ws d)) as Hend.
  { unfold ws. rewrite apply_app. cbn. pose proof (home_during d (length (home_writes D bs)) Hd) as Hd'.
    rewrite take_ge in Hd' by lia.
    assert (blk (apply_writes (home_writes D bs) d) start = blk d start) as Es.
    { apply apply_blk. intros Hx. apply list_elem_of_fmap in Hx as ([b x] & E & Hx). apply list_elem_of_fmap in Hx as (b' & [= -> ->] & Hb).
      cbn in E. subst b'. apply (proj1 (Forall_forall _ _) Hh) in Hb as [_ Hb]. apply Hb, start_in_log. }
    rewrite <-Es. split; [apply header_clear; apply Hd'|]. intros m Hm. rewrite blk_start by done. by apply home_all. }
  split; [|done]. unfold ws. destruct (decide (j <= length (home_writes D bs))%nat) as [Hj|Hj].
  - left. rewrite take_app_le by done. by apply home_during.
  - right. rewrite take_ge; [done|]. rewrite length_app. cbn. lia.
Qed.

(** Recovery from any of the three. *)
Lemma clear_recover d j : clear d ->
  let ws := recover_writes d in
  clear (apply_writes (take j ws) d) /\ forall m, ~ in_log m -> blk (apply_writes (take j ws) d) m = blk d m.
Proof.
  intros [Hl Hn] ws. assert (ws = [(start, header_bytes [] (blk d start))]) as ->.
  { unfold ws, recover_writes, head_blocks. by rewrite Hn. }
  destruct j as [|j]; [done|]. cbn [take]. rewrite take_nil. cbn. split; [by apply header_clear|]. intros m Hm. by apply blk_start.
Qed.

Lemma during_writes d : during d -> recover_writes d = home_writes D bs ++ [(start, header_bytes [] (blk d start))].
Proof.
  intros (_ & _ & Hb & Hs & _). unfold recover_writes. rewrite Hb. f_equal. unfold inst_writes, home_writes.
  apply list_eq. intros k. rewrite list_lookup_imap, list_lookup_fmap. destruct (bs !! k) as [b|] eqn:Hk; [|done].
  cbn. do 2 f_equal. by apply Hs.
Qed.

Lemma clear_sane d : clear d -> sane d.
Proof.
  intros [_ Hn]. unfold sane, head_blocks. rewrite Hn. split; [unfold LOGSIZE, MAXOPBLOCKS; lia|constructor].
Qed.

Lemma before_recover d j : before d -> before (apply_writes (take j (recover_writes d)) d).
Proof.
  intros [Hc Hd]. destruct (clear_recover d j Hc) as [Hc1 Hb1]. split; [done|]. intros m Hm. rewrite Hb1 by done. by apply Hd.
Qed.
Lemma after_recover d j : after d -> after (apply_writes (take j (recover_writes d)) d).
Proof.
  intros [Hc Hd]. destruct (clear_recover d j Hc) as [Hc1 Hb1]. split; [done|]. intros m Hm. rewrite Hb1 by done. by apply Hd.
Qed.

Lemma phase_recover d j : before d \/ during d \/ after d ->
  sane d /\
  (let d' := apply_writes (take j (recover_writes d)) d in before d' \/ during d' \/ after d') /\
  (let d' := apply_writes (recover_writes d) d in before d' \/ after d').
Proof using Hh Hlen Hpin Hstart.
  cbv zeta. assert (take (length (recover_writes d)) (recover_writes d) = recover_writes d) as Eall by (apply take_ge; lia).
  intros [Hd|[Hd|Hd]].
  - split_and!; [apply clear_sane, Hd|left; by apply before_recover|left]. rewrite <-Eall at 1. by apply before_recover.
  - pose proof Hd as (_ & Hn & Hb & _). split.
    { unfold sane. rewrite Hn, Hb. split; [|done]. unfold LOGSIZE, MAXOPBLOCKS in *. lia. }
    rewrite (during_writes d Hd). destruct (finish_phase d j Hd) as [H1 H2]. tauto.
  - split_and!; [apply clear_sane, Hd|right; right; by apply after_recover|right]. rewrite <-Eall at 1. by apply after_recover.
Qed.

(** The header write is the point of commitment. *)
Lemma log_prefix j : clear dk -> before (apply_writes (take j (log_writes D bs)) dk).
Proof using Hlen.
  intros [Hl Hn].
  assert (forall n, n ∉ (log_writes D bs).*1 -> blk (apply_writes (take j (log_writes D bs)) dk) n = blk dk n) as Hout.
  { intros n Hn'. apply apply_blk. intros Hin. apply Hn'. apply list_elem_of_fmap in Hin as (x & -> & Hx).
    apply list_elem_of_fmap. exists x. split; [done|]. by apply elem_of_take in Hx as (k & Hk & _); eapply list_elem_of_lookup_2. }
  pose proof (Hout start (log_writes_start D bs)) as Es. split; [unfold clear, head_n; by rewrite Es|].
  intros m Hm. apply Hout. by apply slots_out.
Qed.

Lemma header_during : clear dk ->
  during (<[start := header_bytes bs (blk dk start)]> (apply_writes (log_writes D bs) dk)).
Proof using Hh Hlen Hpin Hstart.
  intros [Hl Hn]. set (h := header_bytes bs (blk dk start)). unfold during, head_blocks, head_n.
  rewrite !blk_insert, !decide_True by done.
  assert (lh_get_n h = Z.of_nat (length bs)) as En by by apply header_n. rewrite En. split_and!; [by apply header_length|done|..].
  - rewrite Nat2Z.id. apply list_eq. intros k. rewrite list_lookup_fmap. destruct (decide (k < length bs)%nat) as [Hk|Hk].
    + rewrite lookup_seq_lt by done. destruct (lookup_lt_is_Some_2 bs k Hk) as [b Hb]. rewrite Hb. cbn. f_equal.
      by apply header_block.
    + rewrite lookup_seq_ge by lia. symmetry. apply lookup_ge_None. lia.
  - intros k b Hk. rewrite blk_insert, decide_False by (unfold slot; lia). by apply log_writes_blk.
  - intros m Hm. rewrite blk_start by done. rewrite apply_blk by (by apply slots_out). unfold sees.
    destruct (D !! m) as [x|] eqn:Hx; [right|by left]. split; [|done]. apply Hpin. by eexists.
Qed.

Lemma commit_phase j : clear dk ->
  let ws := commit_writes dk D bs in let d := apply_writes (take j ws) dk in
  (before d \/ during d \/ after d) /\ ((length ws <= j)%nat -> after d).
Proof using Hh Hlen Hpin Hstart.
  intros Hc. cbv zeta. unfold commit_writes. set (h := header_bytes bs (blk dk start)).
  set (L := log_writes D bs). set (R := home_writes D bs ++ [(start, header_bytes [] h)]).
  destruct (decide (j <= length L)%nat) as [Hj|Hj].
  { rewrite take_app_le by done. split; [left; by apply log_prefix|]. rewrite length_app. cbn. lia. }
  pose proof (header_during Hc) as Hd. fold h L in Hd. set (d2 := <[start := h]> _) in *.
  assert (blk d2 start = h) as Es by (unfold d2; rewrite blk_insert; by rewrite decide_True).
  assert (apply_writes (take j (L ++ [(start, h)] ++ R)) dk = apply_writes (take (j - length L - 1) R) d2) as ->.
  { rewrite take_app_ge by lia. rewrite apply_app. destruct (j - length L)%nat as [|k] eqn:Ek; [lia|].
    cbn [app take]. replace (S k - 1)%nat with k by lia. done. }
  destruct (finish_phase d2 (j - length L - 1) Hd) as [H1 H2]. rewrite Es in H1, H2. fold R in H1, H2.
  split; [tauto|]. rewrite !length_app. cbn [length]. intros Hge. by rewrite take_ge by lia.
Qed.
End phases.
End code.

(** ** The theorem *)

(** The disks that can be found when the machine has stopped with [dk] on its disk and has since
    stopped again, any number of times, while it was recovering. *)
Inductive crashed (sz : Z) (dk : disk) : disk -> Prop :=
| crashed_now : crashed sz dk dk
| crashed_again d i c p pr w tr lg e w' e' ws j :
    crashed sz dk d -> p_state pr <> SLEEPING -> idle i c p pr w ∅ d tr lg sz ->
    length (lh_block lg) = Z.to_nat LOGSIZE -> initlog (H := mem_driver) 1 w e = Ret tt w' e' ->
    w_dtrace w' = reverse ws ++ tr -> crashed sz dk (apply_writes (take j ws) d).

(** A transaction that is about to end: the blocks [bs] are dirty in the cache, with the bytes
    [D], and listed in the log in memory; the log on the disk is empty. *)
Record ending (start sz : Z) (w : world) (D : pinned) (bs : list Z) : Prop := mkEnding {
  en_geom : 1 < start /\ start + LOGSIZE < sz /\ sz < 2 ^ 31;
  en_log : log_holds start (w_log w) bs;
  en_last : lg_outstanding (w_log w) = 1 /\ lg_committing (w_log w) = 0;
  en_blocks : bs <> [] /\ homes start sz bs /\ (length bs < NBUF)%nat;
  en_pins : forall n, is_Some (D !! n) <-> n ∈ bs;
  en_clear : clear start (w_disk w);
  en_sb : s32 (sb_logstart (read_sb (blk (w_disk w) 1))) = start
}.

Lemma pins_size (D : pinned) bs : (forall n, is_Some (D !! n) <-> n ∈ bs) -> (size D <= length bs)%nat.
Proof.
  intros H. rewrite <-size_dom. apply submseteq_length, NoDup_submseteq; [apply NoDup_elements|].
  intros n Hn. apply H. by apply elem_of_dom, elem_of_elements.
Qed.

Section atomic.
Context (start sz : Z) (w : world) (D : pinned) (bs : list Z) (He : ending start sz w D bs).
Notation before := (before start (w_disk w)).
Notation during := (during start (w_disk w) D bs).
Notation after := (after start (w_disk w) D).

Lemma ending_len : (length bs < Z.to_nat LOGSIZE)%nat.
Proof using He. apply (log_holds_len start (w_log w)), He. Qed.

Lemma ending_unpinned n : n = 1 \/ in_log start n -> D !! n = None.
Proof using He.
  intros Hn. destruct (D !! n) as [x|] eqn:Hx; [|done].
  assert (n ∈ bs) as Hin by (apply He; by eexists). pose proof (proj1 (proj2 (en_blocks _ _ _ _ _ He))) as Hh.
  apply (proj1 (Forall_forall _ _) Hh) in Hin. destruct Hn as [->|Hn]; [lia|tauto].
Qed.

Lemma phase_sb d : before d \/ during d \/ after d -> s32 (sb_logstart (read_sb (blk d 1))) = start.
Proof using He.
  assert (~ in_log start 1) as H1 by (unfold in_log; pose proof (en_geom _ _ _ _ _ He); lia).
  assert (sees (w_disk w) D 1 = blk (w_disk w) 1) as Es by (unfold sees; by rewrite ending_unpinned by by left).
  assert (before d \/ during d \/ after d -> blk d 1 = blk (w_disk w) 1) as Hb; [|intros H; rewrite (Hb H); apply He].
  intros [[_ H]|[(_ & _ & _ & _ & H)|[_ H]]]; [by apply H| |by rewrite H]. destruct (H 1 H1) as [->|[_ ->]]; done.
Qed.

(** What initlog does to a disk a crash has left. *)
Lemma phase_initlog d i c p pr wb tr lg e :
  before d \/ during d \/ after d -> p_state pr <> SLEEPING -> idle i c p pr wb ∅ d tr lg sz ->
  length (lh_block lg) = Z.to_nat LOGSIZE ->
  exists wr, initlog (H := mem_driver) 1 wb e = Ret tt wr e /\ w_disk wr = apply_writes (recover_writes start d) d /\
    w_dtrace wr = reverse (recover_writes start d) ++ tr.
Proof using He.
  intros Hph Hrun Hid Hl. pose proof He as [Hg _ _ (_ & Hh & _) Hp _ _].
  destruct (phase_recover start sz Hg (w_disk w) D bs Hh ending_len Hp d 0 Hph) as (Hs & _).
  destruct (initlog_spec i c p pr Hrun start sz Hg wb d tr lg e Hid Hl (phase_sb d Hph) Hs) as (wr & lg' & E & Hidr & _).
  exists wr. split; [exact E|]. by destruct Hidr.
Qed.

Lemma crashed_phase dk1 d :
  (before dk1 \/ during dk1 \/ after dk1) -> crashed sz dk1 d ->
  (before d \/ during d \/ after d) /\ (after dk1 -> after d).
Proof using He.
  intros Hph. induction 1 as [|d i c p pr wb tr lg e w' e' ws j _ IH Hrun Hid Hl E Htr]; [done|]. destruct IH as [IH1 IH2].
  destruct (phase_initlog d i c p pr wb tr lg e IH1 Hrun Hid Hl) as (wr & E' & _ & Htr').
  assert (ws = recover_writes start d) as ->.
  { rewrite E in E'. injection E' as -> _. rewrite Htr in Htr'. apply (inj (.++ tr)) in Htr'.
    by apply (inj reverse) in Htr'. }
  pose proof He as [Hg _ _ (_ & Hh & _) Hp _ _].
  destruct (phase_recover start sz Hg (w_disk w) D bs Hh ending_len Hp d j IH1) as (_ & H1 & _).
  split; [exact H1|]. intros Ha. by apply (after_recover start (w_disk w) D bs ending_len), IH2.
Qed.
End atomic.

Lemma commit_atomic i c p pr start sz w D bs e :
  p_state pr <> SLEEPING -> cache i c p pr w [] D -> u32 (ide_disksize (w_ide w)) = sz -> ending start sz w D bs ->
  exists w' ws, end_op (H := mem_driver) w e = Ret tt w' e /\
    w_dtrace w' = reverse ws ++ w_dtrace w /\ w_disk w' = apply_writes ws (w_disk w) /\
    forall j d i' c' p' pr' wb tr lg e',
      crashed sz (apply_writes (take j ws) (w_disk w)) d ->
      p_state pr' <> SLEEPING -> idle i' c' p' pr' wb ∅ d tr lg sz -> length (lh_block lg) = Z.to_nat LOGSIZE ->
      exists wr, initlog (H := mem_driver) 1 wb e' = Ret tt wr e' /\
        ((forall m, ~ in_log start m -> disk_block wr m = disk_block w m) \/
         (forall m, ~ in_log start m -> disk_block wr m = view w D m)) /\
        ((length ws <= j)%nat -> forall m, ~ in_log start m -> disk_block wr m = view w D m).
Proof.
  intros Hrun Hc Hsz He. pose proof He as [Hg Hlg [Ho Hcm] (Hne & Hh & Hlen) Hp Hcl _].
  assert (idle i c p pr w D (w_disk w) (w_dtrace w) (w_log w) sz) as Hid by by split.
  destruct (end_op_spec i c p pr Hrun start sz Hg w D _ _ _ bs e Hid Hlg Ho Hcm Hne Hh) as (w' & lg' & E & Hid').
  { pose proof (pins_size D bs Hp). lia. } { apply Forall_forall. intros b Hb. by apply Hp. }
  { intros n Hn. eapply ending_unpinned; eauto. }
  exists w', (commit_writes start (w_disk w) D bs). pose proof Hid' as [_ V1 V2 _ _]. split_and!; [done|done|done|].
  intros j d i' c' p' pr' wb tr lg e' Hcr Hrun' Hidb Hl.
  destruct (commit_phase start sz Hg (w_disk w) D bs Hh (ending_len start sz w D bs He) Hp j Hcl) as [H1 H2].
  destruct (crashed_phase start sz w D bs He _ d H1 Hcr) as [H3 H4].
  destruct (phase_initlog start sz w D bs He d i' c' p' pr' wb tr lg e' H3 Hrun' Hidb Hl) as (wr & Er & Ed & _).
  exists wr. split; [done|]. unfold disk_block. rewrite Ed.
  destruct (phase_recover start sz Hg (w_disk w) D bs Hh (ending_len start sz w D bs He) Hp d 0 H3) as (_ & _ & H5).
  split.
  - destruct H5 as [[_ H5]|[_ H5]]; auto.
  - intros Hj. pose proof (after_recover start (w_disk w) D bs (ending_len start sz w D bs He) d (length (recover_writes start d)) (H4 (H2 Hj))) as [_ Ha].
    by rewrite take_ge in Ha by lia.
Qed.

(** C1. Transactions are atomic and durable.  end_op of the last operation of a transaction
    returns, having carried out the writes [ws].  If the machine stops after any number [j] of
    them, and stops again any number of times while it recovers, then initlog at the next start
    ends, and outside the log every block is as it was before the transaction or every block is
    as the transaction left it; the latter, if end_op had returned. *)
Theorem log_atomic i c p pr start sz w D bs e :
  p_state pr <> SLEEPING -> cache i c p pr w [] D -> u32 (ide_disksize (w_ide w)) = sz -> ending start sz w D bs ->
  exists w' ws, end_op (H := mem_driver) w e = Ret tt w' e /\
    w_dtrace w' = reverse ws ++ w_dtrace w /\ w_disk w' = apply_writes ws (w_disk w) /\
    forall j d i' c' p' pr' wb tr lg e',
      crashed sz (apply_writes (take j ws) (w_disk w)) d ->
      p_state pr' <> SLEEPING -> idle i' c' p' pr' wb ∅ d tr lg sz -> length (lh_block lg) = Z.to_nat LOGSIZE ->
      exists wr, initlog (H := mem_driver) 1 wb e' = Ret tt wr e' /\
        ((forall m, ~ in_log start m -> disk_block wr m = disk_block w m) \/
         (forall m, ~ in_log start m -> disk_block wr m = view w D m)) /\
        ((length ws <= j)%nat -> forall m, ~ in_log start m -> disk_block wr m = view w D m).
Proof. apply commit_atomic. Qed.

(** ** An example: the block 100 is written by a transaction of its own *)

Definition demo_sb : list Z := put 4 16 2 (replicate 512 0).
Definition demo_disk : disk := {[1 := demo_sb]}.
Definition demo_log (n : Z) (b : Z) (out : Z) : logstate := mkLog 2 30 out 0 1 n (b :: replicate 29 0).
(** Buffer 0 holds a block, the others nothing. *)
Definition demo_bufs (fl dev n : Z) (d : list Z) : list buf :=
  ((fun k => if bool_decide (k = 0)%nat then mkBuf fl dev n 0 30 1 None d
             else mkBuf 0 0 0 0 (k - 1) (k + 1) None (replicate 512 0)) <$> seq 0 30) ++
  [mkBuf 0 0 0 0 29 0 None (replicate 512 0)].
Definition demo_world (dk : disk) (fl dev n : Z) (d : list Z) (lg : logstate) : world :=
  set_w_log (fun _ => lg) (set_w_disk (fun _ => dk) (set_w_bufs (fun _ => demo_bufs fl dev n d) ctx_world)).

Lemma demo_blk m : length (blk demo_disk m) = 512%nat.
Proof.
  unfold blk, demo_disk. destruct (decide (1 = m)) as [<-|Hne].
  - rewrite lookup_singleton_eq. reflexivity.
  - by rewrite lookup_singleton_ne.
Qed.

Lemma demo_lookup fl dev n d b bf : (b < NBUF)%nat -> demo_bufs fl dev n d !! b = Some bf ->
  b = 0%nat /\ bf = mkBuf fl dev n 0 30 1 None d \/ b_flags bf = 0 /\ b_dev bf = 0 /\ b_refcnt bf = 0.
Proof.
  unfold NBUF, demo_bufs. intros Hb. rewrite lookup_app_l by (rewrite length_fmap, length_seq; lia).
  rewrite list_lookup_fmap, lookup_seq_lt by done. cbn. intros [= <-]. case_bool_decide as H; [left|right]; done.
Qed.

Lemma demo_ring fl dev n d : ring (demo_bufs fl dev n d) (seq 0 NBUF).
Proof. split_and!; [reflexivity|done|]. unfold NBUF. cbn. repeat split. Qed.

Lemma demo_slocks : Forall (fun b => sl_locked (slock_of ctx_world (SlBuf b)) = 0) (seq 0 NBUF).
Proof. apply (bool_decide_unpack _). vm_compute. exact I. Qed.

Lemma demo_cache dk fl dev n d lg (D : pinned) :
  (forall m, length (blk dk m) = 512%nat) ->
  fl = 0 /\ dev = 0 /\ D = ∅ \/ fl = 6 /\ dev = 1 /\ length d = 512%nat /\ D = {[n := d]} ->
  cache 0 ctx_cpu 1 ctx_proc (demo_world dk fl dev n d lg) [] D.
Proof.
  intros Hdk Hcase. set (w := demo_world dk fl dev n d lg). split.
  - apply (kctx_frame ctx_world 0 ctx_cpu 1 ctx_proc ctx_kctx
      (fun w => set_w_log (fun _ => lg) (set_w_disk (fun _ => dk) (set_w_bufs (fun _ => demo_bufs fl dev n d) w)))).
    apply ctx_kctx.
  - exists (seq 0 NBUF). apply demo_ring.
  - split; constructor.
  - exact Hdk.
  - intros b bf Hb Hbf. unfold buf_lock. rewrite decide_False by apply not_elem_of_nil. split.
    + by destruct (demo_lookup _ _ _ _ _ _ Hb Hbf) as [[-> ->]|(_ & _ & ?)].
    + change (slock_of w (SlBuf b)) with (slock_of ctx_world (SlBuf b)).
      apply (Forall_lookup_1 _ _ b b demo_slocks). by apply lookup_seq_lt.
  - intros b bf Hb Hbf _. destruct (demo_lookup _ _ _ _ _ _ Hb Hbf) as [[-> ->]|(H0 & _ & _)]; [|by left].
    destruct Hcase as [(-> & _)|(-> & -> & Hl & ->)]; [by left|right]. cbn. split_and!; [done|done|right].
    by rewrite lookup_singleton_eq.
  - intros b b' bf bf' Hb Hb' Hbf Hbf' H1 H2 _.
    destruct (demo_lookup _ _ _ _ _ _ Hb Hbf) as [[-> _]|(_ & H0 & _)]; [|congruence].
    by destruct (demo_lookup _ _ _ _ _ _ Hb' Hbf') as [[-> _]|(_ & H0 & _)]; [|congruence].
  - intros m x Hm. destruct Hcase as [(_ & _ & ->)|(-> & -> & Hl & ->)]; [by rewrite lookup_empty in Hm|].
    apply lookup_singleton_Some in Hm as [<- <-]. exists 0%nat. eexists. split_and!; [unfold NBUF; lia|reflexivity|done..].
Qed.

Definition demo_data : list Z := replicate 512 7.

Lemma demo_ending : ending 2 1000 (demo_world demo_disk 6 1 100 demo_data (demo_log 1 100 1)) {[100 := demo_data]} [100].
Proof.
  split; cbn [demo_world set_w_log set_w_disk set_w_bufs w_log w_disk].
  - unfold LOGSIZE, MAXOPBLOCKS. lia.
  - split_and!; try done. unfold LOGSIZE, MAXOPBLOCKS. cbn. lia.
  - done.
  - split_and!; [done| |unfold NBUF; cbn; lia]. repeat constructor; try lia. unfold in_log, LOGSIZE, MAXOPBLOCKS. lia.
  - intros n. rewrite list_elem_of_singleton. split; [|intros ->; rewrite lookup_singleton_eq; eauto].
    intros [x [Hx _]%lookup_singleton_Some]. done.
  - split; [apply demo_blk|vm_compute; reflexivity].
  - vm_compute. reflexivity.
Qed.

(** The machine stops in the middle of the transaction and starts again. *)
Lemma log_atomic_witness :
  exists w' ws, end_op (H := mem_driver) (demo_world demo_disk 6 1 100 demo_data (demo_log 1 100 1)) [] = Ret tt w' [] /\
    w_disk w' = apply_writes ws demo_disk /\
    exists wr, initlog (H := mem_driver) 1 (demo_world demo_disk 0 0 0 [] (demo_log 0 0 0)) [] = Ret tt wr [].
Proof.
  destruct (log_atomic 0 ctx_cpu 1 ctx_proc 2 1000 (demo_world demo_disk 6 1 100 demo_data (demo_log 1 100 1)) {[100 := demo_data]} [100] [])
    as (w' & ws & E & _ & Ed & H).
  - discriminate.
  - apply demo_cache; [exact demo_blk|]. right. repeat split.
  - reflexivity.
  - exact demo_ending.
  - exists w', ws. split; [exact E|]. split; [exact Ed|].
    destruct (H 0%nat demo_disk 0%nat ctx_cpu 1%nat ctx_proc (demo_world demo_disk 0 0 0 [] (demo_log 0 0 0)) [] (demo_log 0 0 0) [])
      as (wr & Er & _).
    + apply crashed_now.
    + discriminate.
    + split; [apply demo_cache; [exact demo_blk|]; left; repeat split|reflexivity..].
    + reflexivity.
    + exists wr. exact Er.
Defined.
