(* ===== verification/Fs.v ===== *)
(** * The file system (fs.c)

    Block allocation, inodes, file contents, directories and path names over the log and
    the buffer cache.  [readi] returns the bytes it copies to its destination and [writei]
    takes the bytes of its source; the device switch is an interface. *)

From Stdlib Require Import ZArith Lia.
From stdpp Require Import base list gmap strings numbers.
From S2P Require Import Prelude Machine Cstring Spinlock Boot Cprintf Sched Sleeplock Layout Bio Log.
Local Open Scope Z_scope.
Local Open Scope kern_scope.

(** [devsw[major].read] and [.write]; [None] is a null function pointer. *)
Class DevSwitch := {
  dev_read : Z -> option (nat -> Z -> KM (Z * list Z));
  dev_write : Z -> option (nat -> list Z -> KM Z)
}.

Definition get_inode (ip : nat) : KM inode := ips <- kget w_inodes; kderef (ips !! ip).
Definition get_sb : KM superblock := kget w_sb.
(** [b->data] after an update of its bytes. *)
Definition upd_data (b : nat) (g : list Z -> list Z) : KM unit := kmod (upd_buf b (set_b_data g)).

(** ** Bits of a bitmap block *)

Definition bit_mask (bi : Z) : Z := Z.shiftl 1 (bi mod 8).
Definition bit_byte (l : list Z) (bi : Z) : Z := default 0 (l !! Z.to_nat (bi / 8)).
Definition bit_used (l : list Z) (bi : Z) : bool := negb (Z.land (bit_byte l bi) (bit_mask bi) =? 0).
(** [data[bi/8] |= m] and [data[bi/8] &= ~m] *)
Definition bit_set (bi : Z) (l : list Z) : list Z :=
  alter (fun x => u8 (Z.lor x (bit_mask bi))) (Z.to_nat (bi / 8)) l.
Definition bit_clear (bi : Z) (l : list Z) : list Z :=
  alter (fun x => u8 (Z.land x (Z.lnot (bit_mask bi)))) (Z.to_nat (bi / 8)) l.

(** The inner loop of balloc: the first free bit from [bi] on, [n] bits being left. *)
Fixpoint bit_scan (n : nat) (l : list Z) (b bi size : Z) : option Z :=
  match n with
  | O => None
  | S n' => if (bi <? BPB) && (u32 (b + bi) <? size)
            then if bit_used l bi then bit_scan n' l b (bi + 1) size else Some bi
            else None
  end.

(** ** Path elements *)

(** The path after its leading slashes. *)
Fixpoint skip_slash (path : list Z) : list Z :=
  match path with
  | c :: path' => if c =? 47 then skip_slash path' else path
  | [] => []
  end.

(** The element at the start of [path] and what follows it. *)
Fixpoint take_elem (path : list Z) : list Z * list Z :=
  match path with
  | c :: path' => if (c =? 47) || (c =? 0) then ([], path)
                  else let '(s, r) := take_elem path' in (c :: s, r)
  | [] => ([], [])
  end.

(** [path] is a C string; [name] the DIRSIZ bytes the element is copied to.  [None] is
    the null pointer. *)
Definition skipelem (path name : list Z) : option (list Z * list Z) :=
  let path := skip_slash path in
  if default 0 (head path) =? 0 then None else
  let '(s, path) := take_elem path in
  let len := Z.of_nat (length s) in
  let name := if len >=? DIRSIZ then splice 0 (take (Z.to_nat DIRSIZ) s) name
              else splice 0 (s ++ [0]) name in
  Some (skip_slash path, name).

Definition namecmp (s t : list Z) : Z := strncmp s t (Z.to_nat DIRSIZ).

(** [struct stat] of stat.h *)
Record stat : Type := mkStat { st_type : Z; st_dev : Z; st_ino : Z; st_nlink : Z; st_size : Z }.

Section fs.
Context `{DiskDriver} `{DevSwitch}.

Definition bzero (dev bno : Z) : KM unit :=
  bp <- bread dev (u32 bno);
  upd_data bp (fun _ => replicate (Z.to_nat BSIZE) 0) >>;
  log_write bp >>;
  brelse bp.

(** The outer loop of balloc; [n] bounds the turns. *)
Fixpoint balloc_loop (n : nat) (dev b : Z) : KM Z :=
  match n with
  | O => kout
  | S n' =>
    sb <- get_sb;
    if u32 b <? sb_size sb then
      bp <- bread dev (BBLOCK b sb);
      bf <- get_buf bp;
      match bit_scan (Z.to_nat BPB) (b_data bf) b 0 (sb_size sb) with
      | Some bi =>
        upd_data bp (bit_set bi) >>;
        log_write bp >>;
        brelse bp >>;
        bzero dev (b + bi) >>;
        kret (u32 (b + bi))
      | None => brelse bp >>; balloc_loop n' dev (b + BPB)
      end
    else kpanic "balloc: out of blocks"
  end.

Definition balloc (dev : Z) : KM Z :=
  sb <- get_sb; balloc_loop (Z.to_nat (sb_size sb / BPB) + 2) dev 0.

Definition bfree (dev b : Z) : KM unit :=
  sb <- get_sb;
  bp <- bread dev (BBLOCK b sb);
  let bi := b mod BPB in
  bf <- get_buf bp;
  if negb (bit_used (b_data bf) bi) then kpanic "freeing free block" else
  upd_data bp (bit_clear bi) >>;
  log_write bp >>;
  brelse bp.

Definition iinit (dev : Z) : KM unit :=
  initlock IcacheLock "icache" >>;
  kfor (seq 0 NINODE) (fun i => initsleeplock (SlInode i) "inode") >>;
  sb <- readsb dev;
  kmod (set_w_sb (fun _ => sb)) >>;
  printkn "sb: size %d nblocks %d ninodes %d nlog %d logstart %d inodestart %d bmap start %d"
    (AInt <$> [sb_size sb; sb_nblocks sb; sb_ninodes sb; sb_nlog sb; sb_logstart sb;
               sb_inodestart sb; sb_bmapstart sb]).

(** One pass over the inode cache: the entry of (dev, inum), or the first free entry. *)
Definition iget (dev inum : Z) : KM nat :=
  acquire IcacheLock >>;
  ips <- kget w_inodes;
  match find_idx (fun ip => (i_ref ip >? 0) && (i_dev ip =? dev) && (i_inum ip =? inum)) ips with
  | Some ip =>
    kmod (upd_inode ip (set_i_ref (fun r => r + 1))) >>;
    release IcacheLock >>;
    kret ip
  | None =>
    match find_idx (fun ip => i_ref ip =? 0) ips with
    | None => kpanic "iget: no inodes"
    | Some ip =>
      kmod (upd_inode ip (set_i_dev (fun _ => dev))) >>;
      kmod (upd_inode ip (set_i_inum (fun _ => inum))) >>;
      kmod (upd_inode ip (set_i_ref (fun _ => 1))) >>;
      kmod (upd_inode ip (set_i_valid (fun _ => 0))) >>;
      release IcacheLock >>;
      kret ip
    end
  end.

(** The loop of ialloc; [n] bounds the turns. *)
Fixpoint ialloc_loop (n : nat) (dev type inum : Z) : KM nat :=
  match n with
  | O => kout
  | S n' =>
    sb <- get_sb;
    if inum <? sb_ninodes sb then
      bp <- bread dev (IBLOCK inum sb);
      bf <- get_buf bp;
      let off := dinode_off inum in
      if d_type (read_dinode (b_data bf) off) =? 0 then
        upd_data bp (splice off (replicate 64 0)) >>;
        upd_data bp (put 2 off type) >>;
        log_write bp >>;
        brelse bp >>;
        iget dev inum
      else brelse bp >>; ialloc_loop n' dev type (inum + 1)
    else kpanic "ialloc: no inodes"
  end.

Definition ialloc (dev type : Z) : KM nat :=
  sb <- get_sb; ialloc_loop (Z.to_nat (sb_ninodes sb) + 1) dev type 1.

(** The part of an in-memory inode that lives on disk. *)
Definition inode_dinode (ip : inode) : dinode :=
  mkDinode (i_type ip) (i_major ip) (i_minor ip) (i_nlink ip) (i_size ip) (i_addrs ip).

Definition iupdate (ip : nat) : KM unit :=
  i <- get_inode ip;
  sb <- get_sb;
  bp <- bread (i_dev i) (IBLOCK (i_inum i) sb);
  i <- get_inode ip;
  upd_data bp (write_dinode (dinode_off (i_inum i)) (inode_dinode i)) >>;
  log_write bp >>;
  brelse bp.

Definition idup (ip : nat) : KM nat :=
  acquire IcacheLock >>;
  kmod (upd_inode ip (set_i_ref (fun r => r + 1))) >>;
  release IcacheLock >>;
  kret ip.

(** The fields ilock copies from the disk inode. *)
Definition load_dinode (d : dinode) (i : inode) : inode :=
  mkInode (i_dev i) (i_inum i) (i_ref i) (i_valid i)
    (d_type d) (d_major d) (d_minor d) (d_nlink d) (d_size d) (d_addrs d).

Definition ilock (ip : option nat) : KM unit :=
  match ip with
  | None => kpanic "ilock"
  | Some ip =>
    i <- get_inode ip;
    if i_ref i <? 1 then kpanic "ilock" else
    acquiresleep (SlInode ip) >>;
    i <- get_inode ip;
    if i_valid i =? 0 then
      sb <- get_sb;
      bp <- bread (i_dev i) (IBLOCK (i_inum i) sb);
      bf <- get_buf bp;
      kmod (upd_inode ip (load_dinode (read_dinode (b_data bf) (dinode_off (i_inum i))))) >>;
      brelse bp >>;
      kmod (upd_inode ip (set_i_valid (fun _ => 1))) >>;
      i <- get_inode ip;
      if i_type i =? 0 then kpanic "ilock: no type" else kret tt
    else kret tt
  end.

Definition iunlock (ip : option nat) : KM unit :=
  match ip with
  | None => kpanic "iunlock"
  | Some ip =>
    h <- holdingsleep (SlInode ip);
    if negb h then kpanic "iunlock" else
    i <- get_inode ip;
    if i_ref i <? 1 then kpanic "iunlock" else
    releasesleep (SlInode ip)
  end.

(** [ip->addrs[k] = v] *)
Definition put_addr (ip : nat) (k : nat) (v : Z) : KM unit :=
  kmod (upd_inode ip (set_i_addrs (insert k v))).

Definition itrunc (ip : nat) : KM unit :=
  kfor (seq 0 (Z.to_nat NDIRECT)) (fun k =>
    i <- get_inode ip;
    let a := default 0 (i_addrs i !! k) in
    kwhen (negb (a =? 0)) (bfree (i_dev i) a >>; put_addr ip k 0)) >>;
  i <- get_inode ip;
  let a := default 0 (i_addrs i !! Z.to_nat NDIRECT) in
  kwhen (negb (a =? 0))
    (bp <- bread (i_dev i) a;
     kfor (seq 0 (Z.to_nat NINDIRECT)) (fun j =>
       bf <- get_buf bp;
       let x := get 4 (b_data bf) (4 * j) in
       i <- get_inode ip;
       kwhen (negb (x =? 0)) (bfree (i_dev i) x)) >>;
     brelse bp >>;
     i <- get_inode ip;
     bfree (i_dev i) (default 0 (i_addrs i !! Z.to_nat NDIRECT)) >>;
     put_addr ip (Z.to_nat NDIRECT) 0) >>;
  kmod (upd_inode ip (set_i_size (fun _ => 0))) >>;
  iupdate ip.

Definition iput (ip : nat) : KM unit :=
  acquiresleep (SlInode ip) >>;
  i <- get_inode ip;
  kwhen (negb (i_valid i =? 0) && (i_nlink i =? 0))
    (acquire IcacheLock >>;
     i <- get_inode ip;
     let r := i_ref i in
     release IcacheLock >>;
     kwhen (r =? 1)
       (itrunc ip >>;
        kmod (upd_inode ip (set_i_type (fun _ => 0))) >>;
        iupdate ip >>;
        kmod (upd_inode ip (set_i_valid (fun _ => 0))))) >>;
  releasesleep (SlInode ip) >>;
  acquire IcacheLock >>;
  kmod (upd_inode ip (set_i_ref (fun r => r - 1))) >>;
  release IcacheLock.

Definition iunlockput (ip : nat) : KM unit := iunlock (Some ip) >>; iput ip.

Definition bmap (ip : nat) (bn : Z) : KM Z :=
  if bn <? NDIRECT then
    i <- get_inode ip;
    let addr := default 0 (i_addrs i !! Z.to_nat bn) in
    if addr =? 0 then
      addr <- balloc (i_dev i);
      put_addr ip (Z.to_nat bn) addr >>;
      kret addr
    else kret addr
  else
  let bn := bn - NDIRECT in
  if bn <? NINDIRECT then
    i <- get_inode ip;
    let addr := default 0 (i_addrs i !! Z.to_nat NDIRECT) in
    addr <- (if addr =? 0 then
               addr <- balloc (i_dev i);
               put_addr ip (Z.to_nat NDIRECT) addr >>;
               kret addr
             else kret addr);
    i <- get_inode ip;
    bp <- bread (i_dev i) addr;
    bf <- get_buf bp;
    let addr := get 4 (b_data bf) (4 * Z.to_nat bn) in
    addr <- (if addr =? 0 then
               addr <- balloc (i_dev i);
               upd_data bp (put 4 (4 * Z.to_nat bn) addr) >>;
               log_write bp >>;
               kret addr
             else kret addr);
    brelse bp >>;
    kret addr
  else kpanic "bmap: out of range".

Definition stati (ip : nat) : KM stat :=
  i <- get_inode ip;
  kret (mkStat (i_type i) (i_dev i) (i_inum i) (i_nlink i) (i_size i)).

(** [min(n - tot, BSIZE - off%BSIZE)] *)
Definition chunk (left off : Z) : Z := Z.min left (BSIZE - off mod BSIZE).

(** The loop of readi: [left] is [n - tot], the result the bytes copied to dst; [k] bounds
    the turns. *)
Fixpoint readi_loop (k : nat) (ip : nat) (off left : Z) : KM (list Z) :=
  match k with
  | O => kout
  | S k' =>
    if left >? 0 then
      addr <- bmap ip (off / BSIZE);
      i <- get_inode ip;
      bp <- bread (i_dev i) addr;
      let m := chunk left off in
      bf <- get_buf bp;
      let piece := range (Z.to_nat (off mod BSIZE)) (Z.to_nat m) (b_data bf) in
      brelse bp >>;
      rest <- readi_loop k' ip (u32 (off + m)) (left - m);
      kret (piece ++ rest)
    else kret []
  end.

Definition readi (ip : nat) (off n : Z) : KM (Z * list Z) :=
  i <- get_inode ip;
  if i_type i =? T_DEV then
    if (i_major i <? 0) || (i_major i >=? NDEV) then kret (-1, []) else
    match dev_read (i_major i) with
    | None => kret (-1, [])
    | Some f => f ip (s32 n)
    end
  else
  if (off >? i_size i) || (u32 (off + n) <? off) then kret (-1, []) else
  let n := if u32 (off + n) >? i_size i then u32 (i_size i - off) else n in
  bs <- readi_loop (Z.to_nat (n / BSIZE) + 3) ip off n;
  kret (s32 n, bs).

(** The loop of writei, [src] being the bytes left; the result is the final offset. *)
Fixpoint writei_loop (k : nat) (ip : nat) (src : list Z) (off left : Z) : KM Z :=
  match k with
  | O => kout
  | S k' =>
    if left >? 0 then
      addr <- bmap ip (off / BSIZE);
      i <- get_inode ip;
      bp <- bread (i_dev i) addr;
      let m := chunk left off in
      upd_data bp (splice (Z.to_nat (off mod BSIZE)) (take (Z.to_nat m) src)) >>;
      log_write bp >>;
      brelse bp >>;
      writei_loop k' ip (drop (Z.to_nat m) src) (u32 (off + m)) (left - m)
    else kret off
  end.

Definition writei (ip : nat) (src : list Z) (off : Z) : KM Z :=
  let n := Z.of_nat (length src) in
  i <- get_inode ip;
  if i_type i =? T_DEV then
    if (i_major i <? 0) || (i_major i >=? NDEV) then kret (-1) else
    match dev_write (i_major i) with
    | None => kret (-1)
    | Some f => f ip src
    end
  else
  if (off >? i_size i) || (u32 (off + n) <? off) then kret (-1) else
  if u32 (off + n) >? MAXFILE * BSIZE then kret (-1) else
  off <- writei_loop (Z.to_nat (n / BSIZE) + 3) ip src off n;
  i <- get_inode ip;
  kwhen ((n >? 0) && (off >? i_size i))
    (kmod (upd_inode ip (set_i_size (fun _ => off))) >>; iupdate ip) >>;
  kret n.

Definition DIRENT : Z := 16.

(** The loop of dirlookup; [k] bounds the turns. *)
Fixpoint dirlookup_loop (k : nat) (dp : nat) (name : list Z) (off : Z) : KM (option (nat * Z)) :=
  match k with
  | O => kout
  | S k' =>
    i <- get_inode dp;
    if off <? i_size i then
      r <- readi dp off DIRENT;
      let '(n, de) := r in
      if negb (n =? DIRENT) then kpanic "dirlookup read" else
      if de_inum de =? 0 then dirlookup_loop k' dp name (u32 (off + DIRENT)) else
      if namecmp name (de_name de) =? 0 then
        i <- get_inode dp;
        ip <- iget (i_dev i) (de_inum de);
        kret (Some (ip, off))
      else dirlookup_loop k' dp name (u32 (off + DIRENT))
    else kret None
  end.

(** The inode found and the offset stored through [poff]; [None] is the null pointer. *)
Definition dirlookup (dp : nat) (name : list Z) : KM (option (nat * Z)) :=
  i <- get_inode dp;
  if negb (i_type i =? T_DIR) then kpanic "dirlookup not DIR" else
  dirlookup_loop (Z.to_nat (i_size i / DIRENT) + 2) dp name 0.

(** The search for an empty entry in dirlink; [k] bounds the turns. *)
Fixpoint dirlink_loop (k : nat) (dp : nat) (off : Z) : KM Z :=
  match k with
  | O => kout
  | S k' =>
    i <- get_inode dp;
    if u32 off <? i_size i then
      r <- readi dp (u32 off) DIRENT;
      let '(n, de) := r in
      if negb (n =? DIRENT) then kpanic "dirlink read" else
      if de_inum de =? 0 then kret off else dirlink_loop k' dp (s32 (off + DIRENT))
    else kret off
  end.

Definition dirlink (dp : nat) (name : list Z) (inum : Z) : KM Z :=
  r <- dirlookup dp name;
  match r with
  | Some (ip, _) => iput ip >>; kret (-1)
  | None =>
    i <- get_inode dp;
    off <- dirlink_loop (Z.to_nat (i_size i / DIRENT) + 2) dp 0;
    let de := mk_dirent (u16 inum) (strncpy (replicate (Z.to_nat DIRSIZ) 0) name DIRSIZ) in
    r <- writei dp de (u32 off);
    if negb (r =? DIRENT) then kpanic "dirlink" else kret 0
  end.

(** The loop of namex from inode [ip] on; [k] bounds the turns. *)
Fixpoint namex_loop (k : nat) (ip : nat) (path : list Z) (parent : bool) (name : list Z)
  : KM (option nat * list Z) :=
  match k with
  | O => kout
  | S k' =>
    match skipelem path name with
    | Some (path, name) =>
      ilock (Some ip) >>;
      i <- get_inode ip;
      if negb (i_type i =? T_DIR) then iunlockput ip >>; kret (None, name) else
      if parent && (default 0 (head path) =? 0) then iunlock (Some ip) >>; kret (Some ip, name) else
      next <- dirlookup ip name;
      match next with
      | None => iunlockput ip >>; kret (None, name)
      | Some (next, _) => iunlockput ip >>; namex_loop k' next path parent name
      end
    | None => if parent then iput ip >>; kret (None, name) else kret (Some ip, name)
    end
  end.

(** The inode, null when [None], and the bytes left in [name]. *)
Definition namex (path : list Z) (parent : bool) (name : list Z) : KM (option nat * list Z) :=
  ip <- (if default 0 (head path) =? 47 then iget ROOTDEV ROOTINO
         else p <- myproc; p <- kderef p; pr <- get_proc p; cwd <- kderef (p_cwd pr); idup cwd);
  namex_loop (length path + 1) ip path parent name.

Definition namei (path : list Z) : KM (option nat) :=
  r <- namex path false (replicate (Z.to_nat DIRSIZ) 0); kret (fst r).

Definition nameiparent (path name : list Z) : KM (option nat * list Z) := namex path true name.
End fs.
