(* ===== verification/Txn.v ===== *)
(** * Blocks inside a transaction (bio.c, log.c)

    Between begin_op and end_op the file system sees the disk as a function from block numbers
    to bytes: bread returns what the function says, log_write changes it at one block and puts
    the block on the list the transaction will commit, and nothing reaches the disk.  The
    buffers in use are a stack, each with its block and the bytes it holds. *)

From Stdlib Require Import ZArith Lia.
From stdpp Require Import base list gmap strings numbers.
From S2P Require Import Prelude Machine Cstring Spinlock Boot Sched Sleeplock Layout Bio Log Bcache Crash Fs.
From stdpp Require Import list.
Local Open Scope Z_scope.
Local Open Scope kern_scope.

(** What a transaction does not change: the log's first block, the size of the disk,
    the number of open operations, the disk and the writes made to it, the superblock. *)
Record txenv : Type := mkTxenv {
  te_start : Z; te_sz : Z; te_out : Z;
  te_disk : disk; te_trace : list (Z * list Z); te_sb : superblock
}.

(** The blocks as the transaction sees them. *)
Notation blocks := (Z -> list Z).
Definition vput (V : blocks) (n : Z) (d : list Z) : blocks := fun m => if decide (m = n) then d else V m.
(** The list of blocks to commit after log_write of block [n]. *)
Definition logged (n : Z) (bs : list Z) : list Z := if decide (n ∈ bs) then bs else bs ++ [n].

Lemma vput_eq V n d : vput V n d n = d.
Proof. unfold vput. by rewrite decide_True. Qed.
Lemma vput_ne V n d m : m <> n -> vput V n d m = V m.
Proof. intros. unfold vput. by rewrite decide_False. Qed.

Lemma elem_of_logged n bs m : m ∈ logged n bs <-> m = n \/ m ∈ bs.
Proof. unfold logged. case_decide; set_solver. Qed.
Lemma logged_NoDup n bs : NoDup bs -> NoDup (logged n bs).
Proof. intros H. unfold logged. case_decide as Hn; [done|]. apply NoDup_app. split_and!; [done|set_solver|by apply NoDup_singleton]. Qed.
Lemma logged_length n bs : (length bs <= length (logged n bs) <= S (length bs))%nat.
Proof. unfold logged. case_decide; rewrite ?length_app; cbn; lia. Qed.

Section txn.
Context (i : nat) (c : cpu) (p : nat) (pr : proc) (Hrun : p_state pr <> SLEEPING).
#[local] Existing Instance mem_driver.
Notation cache := (cache i c p pr).
Context (E : txenv).

(** Buffer [b] holds block [n] with the bytes [d]; it is dirty if the block is to be committed. *)
Definition uses (w : world) (bs : list Z) (x : nat * Z * list Z) : Prop :=
  let '(b, n, d) := x in
  exists bf, w_bufs w !! b = Some bf /\ b_dev bf = 1 /\ b_blockno bf = n /\ b_data bf = d /\
    b_flags bf = (if decide (n ∈ bs) then 6 else 2).
Notation held := (list (nat * Z * list Z)).
Definition bufs_of (h : held) : list nat := h.*1.*1.

(** The process is inside a transaction in which it uses the buffers [h], sees the blocks [V] and
    is to commit the blocks [bs]; the inode cache is [ino]. *)
Record tx (w : world) (h : held) (V : blocks) (bs : list Z) (ino : list inode) : Prop := mkTx {
  tx_pins : exists D : pinned, cache w (bufs_of h) D /\ (forall n, view w D n = V n) /\
    (forall n, is_Some (D !! n) <-> n ∈ bs);
  tx_held : Forall (uses w bs) h;
  tx_len : forall n, length (V n) = 512%nat;
  tx_log : log_holds (te_start E) (w_log w) bs;
  tx_bs : NoDup bs /\ homes (te_start E) (te_sz E) bs;
  tx_open : lg_outstanding (w_log w) = te_out E /\ lg_committing (w_log w) = 0 /\ lg_size (w_log w) = LOGSIZE;
  tx_fix : w_disk w = te_disk E /\ w_dtrace w = te_trace E /\ u32 (ide_disksize (w_ide w)) = te_sz E /\ w_sb w = te_sb E;
  tx_ino : w_inodes w = ino
}.

Lemma has_uses w D bs b n d : (forall n, is_Some (D !! n) <-> n ∈ bs) -> has w D b n d <-> uses w bs (b, n, d).
Proof.
  intros H. assert ((if D !! n is Some _ then 6 else 2) = if decide (n ∈ bs) then 6 else 2) as Hf.
  { specialize (H n). destruct (D !! n); case_decide as Hn; try done.
    - exfalso. apply Hn, H. eauto.
    - apply H in Hn as [? ?]. done. }
  unfold has, uses. by rewrite Hf.
Qed.

Lemma uses_core w w' bs bs' x :
  core <$> w_bufs w' !! x.1.1 = core <$> w_bufs w !! x.1.1 -> (x.1.2 ∈ bs' <-> x.1.2 ∈ bs) -> uses w bs x -> uses w' bs' x.
Proof.
  destruct x as [[b n] d]. cbn [fst snd uses]. intros Ec Hb (bf & Hbf & H1 & H2 & H3 & H4). rewrite Hbf in Ec.
  destruct (w_bufs w' !! b) as [bf'|] eqn:Hb'; [|done]. cbn in Ec. injection Ec as E1 E2 E3 E4 E5. exists bf'.
  rewrite (decide_ext _ _ _ _ Hb). split_and!; congruence.
Qed.

Lemma size_pins (D : pinned) bs : (forall n, is_Some (D !! n) <-> n ∈ bs) -> (size D <= length bs)%nat.
Proof. apply pins_size. Qed.

(** ** bread *)

Lemma tx_bread w h V bs ino n e :
  tx w h V bs ino -> Forall (fun x => x.1.2 <> n) h ->
  n ∈ bs \/ (length bs + length h < NBUF)%nat -> 0 <= n < te_sz E ->
  exists b w', bread 1 n w e = Ret b w' e /\ tx w' ((b, n, V n) :: h) V bs ino.
Proof using Hrun.
  intros [(D & Hc & HV & HD) Hh Hl Hlg Hbs Ho (F1 & F2 & F3 & F4) Hi] Hn Hroom Hr.
  destruct (bread_spec i c p pr Hrun w (bufs_of h) D n e Hc) as (b & w' & Eb & Hc' & Hhas & (S1 & S2 & S3 & S4 & S5 & S6) & Hsb).
  - intros b bf Hb Hbf _. unfold bufs_of in Hb. apply list_elem_of_fmap in Hb as ([b' m] & -> & Hb).
    apply list_elem_of_fmap in Hb as ([[b'' m'] d] & [= -> ->] & Hb). pose proof (proj1 (Forall_forall _ _) Hh _ Hb) as (bf' & Hbf' & _ & <- & _).
    pose proof (proj1 (Forall_forall _ _) Hn _ Hb) as Hne. cbn in *. congruence.
  - destruct Hroom as [Hin|Hlen]; [left; by apply HD|right]. unfold bufs_of. rewrite !length_fmap. pose proof (size_pins D bs HD). lia.
  - unfold in_range. by rewrite F3.
  - exists b, w'. split; [done|]. split; try (done || by rewrite ?S3, ?S6).
    + exists D. split_and!; [done| |done]. intros m. rewrite <-HV. unfold view, disk_block. by rewrite S1.
    + constructor; [rewrite <-HV; by apply (has_uses w' D bs)|].
      apply Forall_forall. intros x Hx. eapply uses_core; [| |exact (proj1 (Forall_forall _ _) Hh _ Hx)]; [|done].
      rewrite Hsb; [done|]. unfold bufs_of. apply list_elem_of_fmap. exists x.1. split; [done|]. apply list_elem_of_fmap. eauto.
    + by rewrite S1, S2, S4, S5.
Qed.

(** ** The buffer in use *)

Lemma tx_get w b n d h V bs ino e :
  tx w ((b, n, d) :: h) V bs ino -> exists bf, get_buf b w e = Ret bf w e /\ b_data bf = d /\ b_blockno bf = n /\ w_bufs w !! b = Some bf.
Proof.
  intros H. pose proof (tx_held _ _ _ _ _ H) as [(bf & Hbf & _ & H2 & H3 & _) _]%Forall_cons. exists bf.
  split_and!; try done. by apply get_buf_eq.
Qed.

Lemma tx_others w w' b n d h V bs bs' ino :
  tx w ((b, n, d) :: h) V bs ino -> (forall a, a <> b -> core <$> w_bufs w' !! a = core <$> w_bufs w !! a) ->
  (forall m, m <> n -> m ∈ bs' <-> m ∈ bs) -> Forall (uses w' bs') h.
Proof.
  intros [(D & Hc & _) Hh _ _ _ _ _ _] Hb Hm. apply Forall_cons in Hh as [(bf & Hbf & Hd & Hn & _) Hh].
  pose proof (proj1 (ca_held _ _ _ _ _ _ _ Hc)) as Hnd. cbn in Hnd. apply NoDup_cons in Hnd as [Hnd _].
  pose proof (proj2 (ca_held _ _ _ _ _ _ _ Hc)) as Hlt. cbn in Hlt. apply Forall_cons in Hlt as [Hlb Hlt].
  apply Forall_forall. intros x Hx. pose proof (proj1 (Forall_forall _ _) Hh _ Hx) as Hu.
  assert (x.1.1 ∈ bufs_of h) as Hin by (apply list_elem_of_fmap; exists x.1; split; [done|]; apply list_elem_of_fmap; eauto).
  assert (x.1.1 <> b) as Hne by (intros Heq; rewrite Heq in Hin; done).
  eapply uses_core; [by apply Hb| |exact Hu]. apply Hm. destruct x as [[b' m] d']. destruct Hu as (bf' & Hbf' & Hd' & Hn' & _).
  cbn in *. intros ->. apply Hne. eapply (ca_uniq _ _ _ _ _ _ _ Hc); try eassumption; [|congruence].
  by apply (proj1 (Forall_forall _ _) Hlt).
Qed.

Lemma tx_upd w b n d h V bs ino g e :
  tx w ((b, n, d) :: h) V bs ino ->
  exists w', upd_data b g w e = Ret tt w' e /\ tx w' ((b, n, g d) :: h) V bs ino.
Proof.
  intros H. pose proof H as [(D & Hc & HV & HD) Hh Hl Hlg Hbs Ho (F1 & F2 & F3 & F4) Hi].
  apply Forall_cons in Hh as [Hu Hh]. pose proof (proj2 (has_uses w D bs b n d HD) Hu) as Hhas.
  destruct (put_data_spec i c p pr w (bufs_of ((b, n, d) :: h)) D b n d (g d) e Hc ltac:(by constructor) Hhas)
    as (w' & Ew & Hc' & Hhas' & (S1 & S2 & S3 & S4 & S5 & S6) & Hb).
  exists w'. split.
  - unfold upd_data. destruct Hhas as (bf & Hbf & _ & _ & Hd & _). rewrite <-Ew. unfold kmod. f_equal.
    rewrite (upd_buf_eq w b bf (set_b_data g)), (upd_buf_eq w b bf (set_b_data (fun _ => g d))) by done.
    unfold set_b_data. by rewrite Hd.
  - split; try (done || by rewrite ?S3, ?S6).
    + exists D. split_and!; [done| |done]. intros m. rewrite <-HV. unfold view, disk_block. by rewrite S1.
    + constructor; [by apply (has_uses w' D bs)|]. eapply tx_others; [exact H| |done]. intros a Ha. by rewrite Hb.
    + by rewrite S1, S2, S4, S5.
Qed.

(** ** log_write *)

Definition log_put (k : nat) (n : Z) (lg : logstate) : logstate :=
  let lg := set_lh_block (insert k n) lg in
  if decide (Z.of_nat k = lh_n lg) then set_lh_n (fun x => x + 1) lg else lg.

Lemma log_write_eq w b bf k e :
  kctx w i c p pr -> w_bufs w !! b = Some bf -> 0 <= b_blockno bf < 2 ^ 31 ->
  lh_n (w_log w) < LOGSIZE -> lh_n (w_log w) < lg_size (w_log w) - 1 -> 1 <= lg_outstanding (w_log w) ->
  log_slot (w_log w) (b_blockno bf) = k -> (k < Z.to_nat LOGSIZE)%nat ->
  log_write b w e = Ret tt (upd_buf b (set_b_flags (fun f => Z.lor f B_DIRTY)) (set_w_log (log_put k (b_blockno bf)) w)) e.
Proof.
  intros Hctx Hbf Hn H1 H2 H3 Hk Hlt. pose proof Hctx as [K1 K2 K3 K4 K5]. unfold log_write.
  unfold kbind at 1, get_log at 1, kget at 1.
  rewrite !Z.geb_leb, !(proj2 (Z.leb_gt _ _)), (proj2 (Z.ltb_ge _ _)) by lia. cbn [orb].
  unfold kbind at 1. rewrite (acquire_eq w i c) by auto. unfold kbind at 1.
  rewrite (get_buf_eq _ b bf) by exact Hbf. unfold kbind at 1, get_log at 1, kget at 1.
  change (w_log (entered i LogLock w)) with (w_log w). rewrite Hk.
  unfold put_lh_block. rewrite (proj2 (Z.ltb_ge _ _)), Z.geb_leb, (proj2 (Z.leb_gt _ _)), Nat2Z.id by lia. cbn [orb].
  unfold upd_log, kbind, kmod, kwhen.
  assert (s32 (b_blockno bf) = b_blockno bf) as -> by (apply s32_small; lia).
  destruct (Z.eqb_spec (Z.of_nat k) (lh_n (w_log w))) as [Heq|Hne]; cbn [kret].
  - rewrite (release_section w i c LogLock K1 (fun w => upd_buf b (set_b_flags (fun f => Z.lor f B_DIRTY))
      (set_w_log (set_lh_n (fun n => n + 1)) (set_w_log (set_lh_block (insert k (b_blockno bf))) w)))) by auto.
    rewrite K2. f_equal. unfold upd_buf, set_w_bufs, set_w_log. cbn. f_equal. unfold log_put. cbn. by rewrite decide_True.
  - rewrite (release_section w i c LogLock K1 (fun w => upd_buf b (set_b_flags (fun f => Z.lor f B_DIRTY))
      (set_w_log (set_lh_block (insert k (b_blockno bf))) w))) by auto.
    rewrite K2. f_equal. unfold upd_buf, set_w_bufs, set_w_log. cbn. f_equal. unfold log_put. cbn. by rewrite decide_False.
Qed.

Lemma log_slot_eq lg bs n :
  log_holds (te_start E) lg bs -> homes (te_start E) (te_sz E) bs -> te_sz E < 2 ^ 31 -> (length bs + 1 < Z.to_nat LOGSIZE)%nat ->
  let k := log_slot lg n in
  (k < Z.to_nat LOGSIZE)%nat /\ log_holds (te_start E) (log_put k n lg) (logged n bs) /\
  lg_outstanding (log_put k n lg) = lg_outstanding lg /\ lg_committing (log_put k n lg) = lg_committing lg /\
  lg_size (log_put k n lg) = lg_size lg.
Proof.
  intros (L1 & L2 & L3 & L4 & L5 & _) Hh Hs Hl k.
  assert (forall x, x ∈ bs -> u32 x = x) as Hu.
  { intros x Hx. apply (proj1 (Forall_forall _ _) Hh) in Hx. apply u32_small. lia. }
  assert (k = default (length bs) (find_idx (fun x => u32 x =? n) bs)) as Hk.
  { unfold k, log_slot. by rewrite L3, Nat2Z.id, L4. }
  destruct (find_idx (fun x => u32 x =? n) bs) as [j|] eqn:Hj; cbn in Hk; rewrite Hk; clear k Hk.
  - apply find_idx_Some in Hj as (x & Hx & Hxn & _). cbn in Hxn. rewrite Hu in Hxn by by eapply list_elem_of_lookup_2.
    apply Z.eqb_eq in Hxn as ->. pose proof (lookup_lt_Some _ _ _ Hx) as Hjl.
    assert (lh_block lg !! j = Some n) as Hlj by (rewrite <-L4 in Hx; by apply lookup_take_Some in Hx as [? _]).
    unfold log_put, set_lh_block. cbn [lh_n lh_block]. rewrite decide_False by lia. unfold logged.
    rewrite decide_True by by eapply list_elem_of_lookup_2. split; [lia|]. split; [|done].
    split_and!; try done; cbn [lh_block]; [by rewrite list_insert_id|by rewrite length_insert|lia].
  - assert (n ∉ bs) as Hn.
    { intros Hin. pose proof (proj1 (find_idx_None _ _) Hj n Hin) as Hf. cbn in Hf. rewrite Hu in Hf by done. lia. }
    unfold log_put, set_lh_block. cbn [lh_n lh_block]. rewrite decide_True by lia. unfold logged. rewrite decide_False by done.
    split; [lia|]. split; [|done]. unfold set_lh_n. split_and!; try done; cbn [lh_n lh_block].
    + rewrite L3, length_app. cbn. lia.
    + rewrite length_app. cbn [length]. rewrite Nat.add_1_r, (take_S_r _ _ n) by (rewrite list_lookup_insert_eq; [done|lia]).
      rewrite take_insert_ge by lia. by rewrite L4.
    + by rewrite length_insert.
    + rewrite length_app. cbn. lia.
Qed.

Lemma tx_log_write w b n d h V bs ino e :
  tx w ((b, n, d) :: h) V bs ino -> length d = 512%nat -> 1 < n < te_sz E -> ~ in_log (te_start E) n -> te_sz E < 2 ^ 31 ->
  (length bs + 1 < Z.to_nat LOGSIZE)%nat -> 1 <= te_out E ->
  exists w', log_write b w e = Ret tt w' e /\ tx w' ((b, n, d) :: h) (vput V n d) (logged n bs) ino.
Proof.
  intros H Hd Hn Hnl Hsz Hroom Hout. pose proof H as [(D & Hc & HV & HD) Hh Hl Hlg [Hnd Hho] (O1 & O2 & O3) (F1 & F2 & F3 & F4) Hi].
  pose proof Hh as [(bf & Hbf & B1 & B2 & B3 & B4) _]%Forall_cons. pose proof (ca_ctx _ _ _ _ _ _ _ Hc) as Hctx.
  destruct (log_slot_eq (w_log w) bs n Hlg Hho Hsz Hroom) as (Hk & Hlg' & G1 & G2 & G3).
  pose proof Hlg as (_ & _ & Ln & _).
  eexists. split; [apply (log_write_eq w b bf (log_slot (w_log w) n) e Hctx Hbf); rewrite ?B2, ?Ln, ?O1, ?O3; [lia|lia|lia|lia|done|done]|].
  rewrite B2. set (k := log_slot (w_log w) n) in *. set (bf' := set_b_flags (fun _ => 6) bf).
  assert (upd_buf b (set_b_flags (fun f => Z.lor f B_DIRTY)) (set_w_log (log_put k n) w) = upd_buf b (fun _ => bf') (set_w_log (log_put k n) w)) as ->.
  { rewrite (upd_buf_eq _ b bf) by done. f_equal. unfold bf', set_b_flags. rewrite B4. by case_decide. }
  set (w' := upd_buf _ _ _).
  assert (w_bufs w' !! b = Some bf') as Hb' by (cbn; by rewrite list_lookup_alter_eq, Hbf).
  split; try done.
  - exists (<[n := d]> D). split_and!.
    + apply (held_cache i c p pr w w' _ D (<[n := d]> D) b bf bf' n); try done; [by constructor|..].
      * apply (kctx_frame w i c p pr Hctx (fun w => upd_buf b (fun _ => bf') (set_w_log (log_put k n) w))). apply Hctx.
      * intros m. apply (ca_disk _ _ _ _ _ _ _ Hc).
      * intros m Hm. by rewrite lookup_insert_ne.
    + intros m. destruct (decide (m = n)) as [->|Hm]; [unfold view; by rewrite lookup_insert_eq, vput_eq|].
      rewrite vput_ne by done. unfold view. rewrite lookup_insert_ne by done. rewrite <-HV. done.
    + intros m. rewrite elem_of_logged, <-HD. destruct (decide (m = n)) as [->|Hm]; [rewrite lookup_insert_eq; split; eauto|].
      rewrite lookup_insert_ne by done. tauto.
  - constructor.
    + exists bf'. rewrite decide_True by (apply elem_of_logged; by left). done.
    + eapply tx_others; [exact H| |intros m Hm; rewrite elem_of_logged; tauto].
      intros a Ha. cbn. by rewrite list_lookup_alter_ne.
  - intros m. unfold vput. by destruct (decide (m = n)).
  - split; [by apply logged_NoDup|]. apply Forall_forall. intros m [->|Hm]%elem_of_logged; [done|].
    by apply (proj1 (Forall_forall _ _) Hho).
  - cbn [w' upd_buf set_w_bufs set_w_log w_log]. by rewrite G1, G2, G3.
Qed.

(** ** brelse *)

Lemma tx_brelse w b n h V bs ino e :
  tx w ((b, n, V n) :: h) V bs ino -> exists w', brelse b w e = Ret tt w' e /\ tx w' h V bs ino.
Proof using Hrun.
  intros H. pose proof H as [(D & Hc & HV & HD) Hh Hl Hlg Hbs Ho (F1 & F2 & F3 & F4) Hi].
  apply Forall_cons in Hh as [Hu Hh]. pose proof (proj2 (has_uses w D bs b n (V n) HD) Hu) as Hhas.
  destruct (brelse_spec i c p pr Hrun w (bufs_of h) D b n (V n) e Hc Hhas (HV n) (Hl n))
    as (w' & Ew & Hc' & (S1 & S2 & S3 & S4 & S5 & S6) & Hb).
  exists w'. split; [done|]. split; try (done || by rewrite ?S3, ?S6).
  - exists D. split_and!; [done| |done]. intros m. rewrite <-HV. unfold view, disk_block. by rewrite S1.
  - by eapply tx_others.
  - by rewrite S1, S2, S4, S5.
Qed.

(** ** The inode cache *)

Lemma tx_inode w h V bs ino ip nd e : tx w h V bs ino -> ino !! ip = Some nd -> get_inode ip w e = Ret nd w e.
Proof. intros H Hn. unfold get_inode, kbind, kget. rewrite (tx_ino _ _ _ _ _ H), Hn. done. Qed.

Lemma tx_sb w h V bs ino e : tx w h V bs ino -> get_sb w e = Ret (te_sb E) w e.
Proof. intros H. unfold get_sb, kget. by rewrite (proj2 (proj2 (proj2 (tx_fix _ _ _ _ _ H)))). Qed.

Lemma alter_insert {A} (l : list A) k x g : l !! k = Some x -> alter g k l = <[k := g x]> l.
Proof.
  intros Hx. apply list_eq. intros j. destruct (decide (k = j)) as [<-|Hne].
  - rewrite list_lookup_alter_eq, Hx, list_lookup_insert_eq by by eapply lookup_lt_Some. done.
  - by rewrite list_lookup_alter_ne, list_lookup_insert_ne.
Qed.

Lemma tx_upd_inode w h V bs ino ip nd g :
  tx w h V bs ino -> ino !! ip = Some nd -> tx (upd_inode ip g w) h V bs (<[ip := g nd]> ino).
Proof.
  intros [(D & Hc & HV & HD) Hh Hl Hlg Hbs Ho Hf Hi] Hn. split; try done.
  - exists D. split_and!; [|done|done]. pose proof Hc as [H1 H2 H3 H4 H5 H6 H7 H8]. split; try done.
    apply (kctx_frame w i c p pr H1 (upd_inode ip g)). apply H1.
  - cbn. by rewrite Hi, (alter_insert ino ip nd).
Qed.
End txn.
