(* ===== verification/Balloc.v ===== *)
(** * Block allocation (fs.c: bzero, balloc, bfree)

    The bitmap is a set of block numbers.  balloc returns the least block that is not in it,
    puts it there and fills it with zeros; bfree takes a block out.  Nothing else changes. *)

From Stdlib Require Import ZArith Lia.
From stdpp Require Import base list gmap strings numbers.
From S2P Require Import Prelude Machine Cstring Spinlock Boot Sched Sleeplock Layout Bio Log Bcache Crash Fs Txn.
From stdpp Require Import list.
Local Open Scope Z_scope.
Local Open Scope kern_scope.

(** Counting with one element less. *)
Lemma filter_agree {A} (P Q : A -> Prop) `{!forall x, Decision (P x), !forall x, Decision (Q x)} (l : list A) :
  (forall x, x ∈ l -> P x <-> Q x) -> filter P l = filter Q l.
Proof.
  induction l as [|x l IH]; intros Hpq; [done|]. assert (filter P l = filter Q l) as El by (apply IH; intros y Hy; apply Hpq; by constructor).
  destruct (decide (P x)) as [HP|HP].
  - rewrite !filter_cons_True; [by rewrite El|apply Hpq; [by constructor|done]|done].
  - rewrite !filter_cons_False; [done| |done]. rewrite <-Hpq; [done|by constructor].
Qed.

Lemma filter_one {A} (P Q : A -> Prop) `{!forall x, Decision (P x), !forall x, Decision (Q x)} (l : list A) f :
  NoDup l -> f ∈ l -> P f -> (forall x, x ∈ l -> Q x <-> P x /\ x <> f) -> length (filter P l) = S (length (filter Q l)).
Proof.
  intros Hnd Hf HP HQ. apply list_elem_of_split in Hf as (l1 & l2 & ->). apply NoDup_app in Hnd as (_ & H1 & Hnd).
  apply NoDup_cons in Hnd as [H2 _]. rewrite !filter_app, !length_app, filter_cons_True by done.
  rewrite (filter_cons_False Q) by (rewrite HQ by set_solver; tauto). cbn [length].
  assert (forall x, x ∈ l1 ++ l2 -> P x <-> Q x) as Hpq.
  { intros x Hx. rewrite HQ by set_solver. assert (x <> f) by (intros ->; set_solver). tauto. }
  rewrite (filter_agree P Q l1), (filter_agree P Q l2) by set_solver. lia.
Qed.

(** ** Bits of a block *)

Section bits.
Implicit Types (l : list Z) (bi bj : Z).

Lemma bit_used_spec l bi : bit_used l bi = Z.testbit (bit_byte l bi) (bi mod 8).
Proof.
  unfold bit_used, bit_mask. pose proof (Z.mod_pos_bound bi 8 ltac:(lia)) as Hb.
  destruct (Z.testbit (bit_byte l bi) (bi mod 8)) eqn:Ht.
  - apply negb_true_iff, Z.eqb_neq. intros H0. assert (Z.testbit (Z.land (bit_byte l bi) (Z.shiftl 1 (bi mod 8))) (bi mod 8) = false) as H1
      by (rewrite H0; apply Z.testbit_0_l).
    rewrite Z.land_spec, Ht, Z.shiftl_spec, Z.sub_diag in H1 by lia. done.
  - apply negb_false_iff, Z.eqb_eq. apply Z.bits_inj'. intros k Hk. rewrite Z.land_spec, Z.shiftl_spec, Z.testbit_0_l by lia.
    destruct (decide (k = bi mod 8)) as [->|Hne]; [by rewrite Ht|].
    destruct (decide (k < bi mod 8)); [rewrite (Z.testbit_neg_r 1) by lia; apply andb_false_r|].
    rewrite (Z.bits_above_log2 1) by (rewrite ?Z.log2_1; lia). apply andb_false_r.
Qed.

Lemma mask_bit bi k : 0 <= k < 8 -> Z.testbit (bit_mask bi) k = bool_decide (k = bi mod 8).
Proof.
  intros Hk. unfold bit_mask. pose proof (Z.mod_pos_bound bi 8 ltac:(lia)) as Hb. rewrite Z.shiftl_spec by lia.
  case_bool_decide as He; [by rewrite He, Z.sub_diag|].
  destruct (decide (k < bi mod 8)); [by rewrite Z.testbit_neg_r by lia|]. apply Z.bits_above_log2; rewrite ?Z.log2_1; lia.
Qed.

Lemma u8_bit z k : 0 <= k < 8 -> Z.testbit (u8 z) k = Z.testbit z k.
Proof. intros Hk. unfold u8. change 256 with (2 ^ 8). apply Z.mod_pow2_bits_low. lia. Qed.

(** The bits of a block in which one byte has been changed. *)
Lemma bit_alter f (v : bool) l bi bj :
  0 <= bi -> 0 <= bj -> (Z.to_nat (bi / 8) < length l)%nat ->
  (forall x k, 0 <= k < 8 -> Z.testbit (f x) k = if bool_decide (k = bi mod 8) then v else Z.testbit x k) ->
  bit_used (alter f (Z.to_nat (bi / 8)) l) bj = if decide (bj = bi) then v else bit_used l bj.
Proof.
  intros Hi Hj Hlen Hf. rewrite !bit_used_spec. unfold bit_byte.
  pose proof (Z.mod_pos_bound bj 8 ltac:(lia)) as Hm. pose proof (Z.div_pos bi 8 Hi ltac:(lia)). pose proof (Z.div_pos bj 8 Hj ltac:(lia)).
  destruct (decide (bj / 8 = bi / 8)) as [He|He].
  - rewrite He. destruct (lookup_lt_is_Some_2 l _ Hlen) as [x Hx]. rewrite list_lookup_alter_eq, Hx. cbn. rewrite Hf by lia.
    case_bool_decide as Hb; [rewrite decide_True; [done|]|rewrite decide_False; [done|congruence]].
    rewrite (Z_div_mod_eq_full bj 8), (Z_div_mod_eq_full bi 8). lia.
  - rewrite list_lookup_alter_ne by lia. rewrite decide_False; [done|congruence].
Qed.

Lemma bit_set_used l bi bj : 0 <= bi -> 0 <= bj -> (Z.to_nat (bi / 8) < length l)%nat ->
  bit_used (bit_set bi l) bj = if decide (bj = bi) then true else bit_used l bj.
Proof.
  intros. apply bit_alter; try done. intros x k Hk. rewrite u8_bit, Z.lor_spec, mask_bit by done.
  case_bool_decide; [apply orb_true_r|apply orb_false_r].
Qed.

Lemma bit_clear_used l bi bj : 0 <= bi -> 0 <= bj -> (Z.to_nat (bi / 8) < length l)%nat ->
  bit_used (bit_clear bi l) bj = if decide (bj = bi) then false else bit_used l bj.
Proof.
  intros. apply bit_alter; try done. intros x k Hk. rewrite u8_bit, Z.land_spec, Z.lnot_spec, mask_bit by lia.
  case_bool_decide; [apply andb_false_r|apply andb_true_r].
Qed.

Lemma bit_set_length l bi : length (bit_set bi l) = length l.
Proof. apply length_alter. Qed.
Lemma bit_clear_length l bi : length (bit_clear bi l) = length l.
Proof. apply length_alter. Qed.

(** The scan finds the first free bit, or there is none below the end. *)
Lemma bit_scan_spec n l b bi size :
  0 <= b -> 0 <= bi -> b + BPB < 2 ^ 32 -> bi + Z.of_nat n = BPB ->
  match bit_scan n l b bi size with
  | Some x => bi <= x < BPB /\ b + x < size /\ bit_used l x = false /\ forall y, bi <= y < x -> bit_used l y = true
  | None => forall y, bi <= y < BPB -> b + y < size -> bit_used l y = true
  end.
Proof.
  intros Hb. revert bi. induction n as [|n IH]; intros bi Hbi Hlt Hn; cbn [bit_scan]; [lia|].
  rewrite (proj2 (Z.ltb_lt _ _)), u32_small by lia. cbn [andb]. destruct (Z.ltb_spec (b + bi) size) as [Hs|Hs]; [|lia].
  destruct (bit_used l bi) eqn:Hu; [|split_and!; [lia|lia|lia|done|lia]].
  specialize (IH (bi + 1) ltac:(lia) Hlt ltac:(lia)). destruct (bit_scan n l b (bi + 1) size) as [x|].
  - destruct IH as (H1 & H2 & H3 & H4). split_and!; [lia|lia|done|done|]. intros y Hy.
    destruct (decide (y = bi)) as [->|Hne]; [done|apply H4; lia].
  - intros y Hy Hys. destruct (decide (y = bi)) as [->|Hne]; [done|apply IH; lia].
Qed.
End bits.

(** ** The bitmap *)

Section balloc.
Context (i : nat) (c : cpu) (p : nat) (pr : proc) (Hrun : p_state pr <> SLEEPING).
#[local] Existing Instance mem_driver.
Context (E : txenv).
Notation tx := (tx i c p pr E).
Notation sb := (te_sb E).
Implicit Types (V : blocks) (b f x n : Z) (bs : list Z).

(** The first block of data. *)
Definition dstart : Z := sb_bmapstart sb + sb_size sb / BPB + 1.

(** The parts of the disk in the order in which mkfs lays them out: boot block, superblock, log,
    inodes, bitmap, data. *)
Record layout : Prop := mkLayout {
  ly_size : 0 < sb_size sb <= te_sz E /\ te_sz E < 2 ^ 31 - BPB;
  ly_start : 1 < te_start E /\ te_start E + LOGSIZE <= sb_inodestart sb;
  ly_inodes : 0 < sb_ninodes sb /\ sb_inodestart sb + sb_ninodes sb / IPB < sb_bmapstart sb;
  ly_data : dstart <= sb_size sb;
  ly_out : 1 <= te_out E
}.
Context (L : layout).

(** Block [b] is marked as in use. *)
Definition used V b : bool := bit_used (V (BBLOCK b sb)) (b mod BPB).
Definition bitmap_block n : Prop := sb_bmapstart sb <= n < dstart.
(** A block of the data, or of another part that a transaction may write. *)
Definition home n : Prop := 1 < n < te_sz E /\ ~ in_log (te_start E) n.
(** The blocks before the data are not free. *)
Definition meta_used V : Prop := forall b, 0 <= b < dstart -> used V b = true.

Lemma ly_facts : 0 < BPB /\ 0 <= sb_size sb / BPB /\ 0 <= sb_ninodes sb / IPB /\ 0 < IPB.
Proof using L.
  destruct L as [H1 H2 H3 H4 H5]. assert (0 < BPB) by (unfold BPB, BSIZE; lia). assert (0 < IPB) by by vm_compute.
  split_and!; [done|apply Z.div_pos; lia|apply Z.div_pos; lia|done].
Qed.

Lemma bblock_eq b : 0 <= b < sb_size sb -> BBLOCK b sb = b / BPB + sb_bmapstart sb /\ bitmap_block (BBLOCK b sb).
Proof using L.
  intros Hb. pose proof ly_facts as (F1 & F2 & F3 & F4). destruct L as [H1 H2 H3 H4 H5].
  assert (0 <= b / BPB <= sb_size sb / BPB) as Hd by (split; [apply Z.div_pos; lia|apply Z.div_le_mono; lia]).
  unfold BBLOCK, bitmap_block, dstart in *. unfold LOGSIZE, MAXOPBLOCKS in *. rewrite u32_small by lia. lia.
Qed.

Lemma bitmap_home n : bitmap_block n -> home n.
Proof using L.
  intros Hn. pose proof ly_facts as (F1 & F2 & F3 & F4). destruct L as [H1 H2 H3 H4 H5].
  unfold bitmap_block, dstart, home, in_log, LOGSIZE, MAXOPBLOCKS in *. lia.
Qed.

Lemma data_home n : dstart <= n < sb_size sb -> home n.
Proof using L.
  intros Hn. pose proof ly_facts as (F1 & F2 & F3 & F4). destruct L as [H1 H2 H3 H4 H5].
  unfold dstart, home, in_log, LOGSIZE, MAXOPBLOCKS in *. lia.
Qed.

Lemma home_range n : home n -> 0 <= n < te_sz E.
Proof. unfold home. lia. Qed.

(** The bitmap does not change with blocks that are not its own. *)
Lemma used_vput V n d b : 0 <= b < sb_size sb -> ~ bitmap_block n -> used (vput V n d) b = used V b.
Proof using L.
  intros Hb Hn. unfold used. rewrite vput_ne; [done|]. intros He. apply Hn. rewrite <-He. by apply bblock_eq.
Qed.

(** Setting or clearing one bit. *)
Lemma used_bit (g : Z -> list Z -> list Z) (v : bool) V b x :
  (forall l bi bj, 0 <= bi -> 0 <= bj -> (Z.to_nat (bi / 8) < length l)%nat ->
    bit_used (g bi l) bj = if decide (bj = bi) then v else bit_used l bj) ->
  (forall n, length (V n) = 512%nat) -> 0 <= b < sb_size sb -> 0 <= x < sb_size sb ->
  used (vput V (BBLOCK b sb) (g (b mod BPB) (V (BBLOCK b sb)))) x = if decide (x = b) then v else used V x.
Proof using L.
  intros Hg Hlen Hb Hx. pose proof ly_facts as (F1 & _). unfold used.
  destruct (bblock_eq b Hb) as [Eb _], (bblock_eq x Hx) as [Ex _].
  pose proof (Z.mod_pos_bound b BPB F1) as Mb. pose proof (Z.mod_pos_bound x BPB F1) as Mx.
  destruct (decide (BBLOCK x sb = BBLOCK b sb)) as [He|He].
  - rewrite He, vput_eq, Hg; [|lia|lia|].
    + destruct (decide (x = b)) as [->|Hne]; [by rewrite decide_True|]. rewrite decide_False; [done|]. intros Hm. apply Hne.
      rewrite (Z_div_mod_eq_full x BPB), (Z_div_mod_eq_full b BPB). lia.
    + rewrite Hlen. assert (b mod BPB / 8 < 512) by (apply Z.div_lt_upper_bound; unfold BPB, BSIZE in *; lia).
      pose proof (Z.div_pos (b mod BPB) 8 ltac:(lia) ltac:(lia)). lia.
  - rewrite vput_ne by done. rewrite decide_False; [done|congruence].
Qed.

(** ** bzero *)

Definition zeros : list Z := replicate (Z.to_nat BSIZE) 0.

(** Room for one more block in the log and for one more buffer. *)
Definition fits (k : nat) (bs : list Z) (h : list (nat * Z * list Z)) : Prop := (length bs + k + length h < NBUF)%nat.
Definition apart (n : Z) (h : list (nat * Z * list Z)) : Prop := Forall (fun y => y.1.2 <> n) h.

(** Reading a block, changing it and logging it. *)
Lemma tx_put w (b : nat) n d h V bs ino e g :
  tx w ((b, n, d) :: h) V bs ino -> home n -> length (g d) = 512%nat -> fits 1 bs h ->
  exists w', (upd_data b g >>; log_write b >>; brelse b) w e = Ret tt w' e /\
    (forall A (k : KM A), (upd_data b g >>; log_write b >>; brelse b >>; k) w e = k w' e) /\
    tx w' h (vput V n (g d)) (logged n bs) ino.
Proof using L Hrun.
  intros Ht [Hn Hnl] Hlen Hf. destruct (tx_upd i c p pr E w b n d h V bs ino g e Ht) as (w1 & E1 & Ht1).
  destruct L as [L1 _ _ _ L5]. unfold fits, NBUF in Hf.
  destruct (tx_log_write i c p pr E w1 b n (g d) h V bs ino e Ht1) as (w2 & E2 & Ht2); try done; [unfold BPB, BSIZE in *; lia| |].
  { unfold LOGSIZE, MAXOPBLOCKS. lia. }
  destruct (tx_brelse i c p pr Hrun E w2 b n h (vput V n (g d)) (logged n bs) ino e) as (w3 & E3 & Ht3); [by rewrite vput_eq|].
  exists w3. split_and!; [|intros A k|done]; unfold kbind; by rewrite E1, E2, E3.
Qed.

Lemma bzero_spec w h V bs ino n e :
  tx w h V bs ino -> home n -> apart n h -> fits 1 bs h ->
  exists w', bzero 1 n w e = Ret tt w' e /\ tx w' h (vput V n zeros) (logged n bs) ino.
Proof using L Hrun.
  intros Ht Hn Ha Hf. pose proof (home_range n Hn). pose proof (ly_size L).
  destruct (tx_bread i c p pr Hrun E w h V bs ino n e Ht Ha) as (b & w1 & E1 & Ht1); [right; unfold fits in Hf; lia|done|].
  unfold bzero. rewrite u32_small by (unfold BPB, BSIZE in *; lia). unfold kbind at 1. rewrite E1.
  destruct (tx_put w1 b n (V n) h V bs ino e (fun _ => zeros) Ht1 Hn eq_refl Hf) as (w2 & E2 & _ & Ht2). by exists w2.
Qed.

(** ** balloc *)

(** [f] is the first free block from [b] on. *)
Definition first_free V b f : Prop :=
  b <= f < sb_size sb /\ used V f = false /\ forall x, b <= x < f -> used V x = true.

(** What balloc does to the blocks when [f] is free. *)
Definition mark_block V f : blocks :=
  vput (vput V (BBLOCK f sb) (bit_set (f mod BPB) (V (BBLOCK f sb)))) f zeros.

Lemma used_in V q y : 0 <= q -> 0 <= y < BPB -> used V (q * BPB + y) = bit_used (V (BBLOCK (q * BPB) sb)) y.
Proof.
  intros Hq Hy. unfold used, BBLOCK. rewrite Z.div_add_l, Z.div_small, Z.add_0_r, Z_div_mult_full by lia.
  rewrite (Z.add_comm (q * BPB) y), Z_mod_plus_full, Z.mod_small by lia. done.
Qed.

Lemma balloc_loop_spec k w h V bs ino q f e :
  tx w h V bs ino -> 0 <= q -> first_free V (q * BPB) f -> f / BPB - q < Z.of_nat k -> dstart <= f ->
  (forall n, bitmap_block n -> apart n h) -> apart f h -> fits 2 bs h ->
  exists w', balloc_loop k 1 (q * BPB) w e = Ret f w' e /\ tx w' h (mark_block V f) (logged f (logged (BBLOCK f sb) bs)) ino.
Proof using L Hrun.
  revert w q. pose proof ly_facts as (F1 & _). pose proof (ly_size L) as Hls.
  induction k as [|k IH]; intros w q Ht Hq (Hf1 & Hf2 & Hf3) Hk Hdf Hbm Ha Hfit.
  { assert (q <= f / BPB) by (apply Z.div_le_lower_bound; lia). lia. }
  cbn [balloc_loop]. unfold kbind at 1, get_sb at 1, kget at 1. rewrite (proj2 (proj2 (proj2 (tx_fix _ _ _ _ _ _ _ _ _ _ Ht)))).
  assert (0 <= q * BPB) as Hqb by lia. rewrite u32_small, (proj2 (Z.ltb_lt _ _)) by lia.
  destruct (bblock_eq (q * BPB) ltac:(lia)) as [Eb Hb]. pose proof (home_range _ (bitmap_home _ Hb)) as Hbr.
  destruct (tx_bread i c p pr Hrun E w h V bs ino _ e Ht (Hbm _ Hb)) as (b & w1 & E1 & Ht1); [right; unfold fits in Hfit; lia|done|].
  unfold kbind at 1. rewrite E1. destruct (tx_get i c p pr E w1 b _ _ h V bs ino e Ht1) as (bf & Eg & Hbf & _).
  unfold kbind at 1. rewrite Eg, Hbf.
  pose proof (bit_scan_spec (Z.to_nat BPB) (V (BBLOCK (q * BPB) sb)) (q * BPB) 0 (sb_size sb) Hqb ltac:(lia) ltac:(lia) ltac:(lia)) as Hs.
  destruct (bit_scan _ _ _ _ _) as [x|].
  - destruct Hs as (Hx1 & Hx2 & Hx3 & Hx4).
    assert (q * BPB + x = f) as Hxf.
    { destruct (Z.lt_trichotomy (q * BPB + x) f) as [Hlt|[Heq|Hgt]]; [|done|].
      - specialize (Hf3 (q * BPB + x) ltac:(lia)). rewrite used_in in Hf3 by lia. congruence.
      - specialize (Hx4 (f - q * BPB) ltac:(lia)). rewrite <-used_in in Hx4 by lia.
        replace (q * BPB + (f - q * BPB)) with f in Hx4 by lia. congruence. }
    assert (f mod BPB = x) as Hmod by (rewrite <-Hxf, (Z.add_comm (q * BPB)), Z_mod_plus_full, Z.mod_small; lia).
    assert (BBLOCK f sb = BBLOCK (q * BPB) sb) as Ef.
    { unfold BBLOCK. by rewrite <-Hxf, Z.div_add_l, Z.div_small, Z.add_0_r, Z_div_mult_full by lia. }
    destruct (tx_put w1 b _ _ h V bs ino e (bit_set x) Ht1 (bitmap_home _ Hb)) as (w2 & _ & E2 & Ht2).
    { rewrite bit_set_length. apply (tx_len _ _ _ _ _ _ _ _ _ _ Ht). } { unfold fits in *. lia. }
    rewrite E2, Hxf. destruct (bzero_spec w2 h _ _ ino f e Ht2 (data_home f ltac:(lia)) Ha) as (w3 & E3 & Ht3).
    { unfold fits in *. pose proof (logged_length (BBLOCK (q * BPB) sb) bs). lia. }
    exists w3. unfold kbind. rewrite E3. unfold kret. rewrite u32_small by lia. split; [done|].
    unfold mark_block. by rewrite Ef, Hmod.
  - destruct (tx_brelse i c p pr Hrun E w1 b _ h V bs ino e Ht1) as (w2 & E2 & Ht2). unfold kbind. rewrite E2.
    replace (q * BPB + BPB) with ((q + 1) * BPB) by lia.
    assert ((q + 1) * BPB <= f) as Hge.
    { destruct (Z.le_gt_cases ((q + 1) * BPB) f) as [?|Hlt]; [done|]. specialize (Hs (f - q * BPB) ltac:(lia) ltac:(lia)).
      rewrite <-used_in in Hs by lia. replace (q * BPB + (f - q * BPB)) with f in Hs by lia. congruence. }
    apply (IH w2 (q + 1)); try done; [lia| |lia]. split_and!; [lia|lia|done|]. intros y Hy. apply Hf3. lia.
Qed.

Lemma balloc_spec w h V bs ino f e :
  tx w h V bs ino -> first_free V 0 f -> meta_used V ->
  (forall n, bitmap_block n -> apart n h) -> apart f h -> fits 2 bs h ->
  exists w', balloc 1 w e = Ret f w' e /\ tx w' h (mark_block V f) (logged f (logged (BBLOCK f sb) bs)) ino.
Proof using L Hrun.
  intros Ht Hf Hm Hb Ha Hfit. pose proof ly_facts as (F1 & F2 & _). unfold balloc. unfold kbind at 1, get_sb at 1, kget at 1.
  rewrite (proj2 (proj2 (proj2 (tx_fix _ _ _ _ _ _ _ _ _ _ Ht)))).
  apply (balloc_loop_spec _ w h V bs ino 0 f e Ht); try done.
  - assert (f / BPB <= sb_size sb / BPB) by (destruct Hf; apply Z.div_le_mono; lia). lia.
  - destruct Hf as (H1 & H2 & _). destruct (Z.le_gt_cases dstart f) as [?|Hlt]; [done|]. rewrite Hm in H2 by lia. done.
Qed.

Lemma used_take V f x : (forall n, length (V n) = 512%nat) -> dstart <= f < sb_size sb -> 0 <= x < sb_size sb ->
  used (mark_block V f) x = if decide (x = f) then true else used V x.
Proof using L.
  intros Hl Hf Hx. pose proof ly_facts as (F1 & F2 & F3 & F4). pose proof L as [H1 H2 H3 H4 H5]. unfold mark_block. rewrite used_vput; [|done|].
  - apply used_bit; try done; [intros; by apply bit_set_used|]. unfold dstart, LOGSIZE, MAXOPBLOCKS in *. lia.
  - unfold bitmap_block. lia.
Qed.

Lemma take_ne V f n : dstart <= f < sb_size sb -> n <> f -> ~ bitmap_block n -> mark_block V f n = V n.
Proof using L.
  intros Hf Hn Hb. unfold mark_block. rewrite !vput_ne; [done| |done]. intros ->. apply Hb. apply bblock_eq.
  pose proof ly_facts as (F1 & F2 & F3 & F4). pose proof L as [H1 H2 H3 H4 H5]. unfold dstart, LOGSIZE, MAXOPBLOCKS in *. lia.
Qed.
Lemma take_eq V f : mark_block V f f = zeros.
Proof. apply vput_eq. Qed.

(** The number of free blocks. *)
Definition nfree V : nat := length (filter (fun x => used V x = false) (seqZ 0 (sb_size sb))).

Lemma nfree_take V f : (forall n, length (V n) = 512%nat) -> dstart <= f < sb_size sb -> used V f = false ->
  nfree V = S (nfree (mark_block V f)).
Proof using L.
  intros Hl Hf Hu. pose proof ly_facts as (F1 & F2 & F3 & F4). pose proof L as [H1 H2 H3 H4 H5].
  apply (filter_one _ _ _ f); [apply NoDup_seqZ| |done|].
  - apply elem_of_seqZ. unfold dstart, LOGSIZE, MAXOPBLOCKS in *. lia.
  - intros x Hx%elem_of_seqZ. rewrite used_take by (done || lia). destruct (decide (x = f)) as [->|Hne]; [split; [done|by intros [_ ?]]|tauto].
Qed.

Lemma nfree_first V : (0 < nfree V)%nat -> exists f, first_free V 0 f.
Proof.
  unfold nfree. intros Hn.
  destruct (find_idx (fun x => negb (used V x)) (seqZ 0 (sb_size sb))) as [k|] eqn:Hk.
  - apply find_idx_Some in Hk as (f & Hf & Hu & Hlt). apply lookup_seqZ in Hf as [-> Hf]. exists (0 + Z.of_nat k).
    split_and!; [lia|lia|by apply negb_true_iff|]. intros x Hx. apply negb_false_iff.
    apply (Hlt (Z.to_nat x)); [lia|]. apply lookup_seqZ. lia.
  - exfalso. destruct (filter _ _) as [|x l] eqn:Hfl; [cbn in Hn; lia|].
    assert (x ∈ filter (fun x => used V x = false) (seqZ 0 (sb_size sb))) as [Hu Hx]%list_elem_of_filter by (rewrite Hfl; by constructor).
    pose proof (proj1 (find_idx_None _ _) Hk x Hx) as Hb. cbn in Hb. by rewrite Hu in Hb.
Qed.

(** ** bfree *)

Lemma bfree_spec w h V bs ino b e :
  tx w h V bs ino -> 0 <= b < sb_size sb -> used V b = true ->
  (forall n, bitmap_block n -> apart n h) -> fits 1 bs h ->
  exists w', bfree 1 b w e = Ret tt w' e /\
    tx w' h (vput V (BBLOCK b sb) (bit_clear (b mod BPB) (V (BBLOCK b sb)))) (logged (BBLOCK b sb) bs) ino.
Proof using L Hrun.
  intros Ht Hb Hu Hbm Hf. unfold bfree. unfold kbind at 1, get_sb at 1, kget at 1.
  rewrite (proj2 (proj2 (proj2 (tx_fix _ _ _ _ _ _ _ _ _ _ Ht)))). destruct (bblock_eq b Hb) as [_ Hbb].
  destruct (tx_bread i c p pr Hrun E w h V bs ino _ e Ht (Hbm _ Hbb)) as (x & w1 & E1 & Ht1);
    [right; unfold fits in Hf; lia|by apply home_range, bitmap_home|].
  unfold kbind at 1. rewrite E1. destruct (tx_get i c p pr E w1 x _ _ h V bs ino e Ht1) as (bf & Eg & Hbf & _).
  unfold kbind at 1. rewrite Eg, Hbf. unfold used in Hu. rewrite Hu. cbn [negb].
  destruct (tx_put w1 x _ _ h V bs ino e (bit_clear (b mod BPB)) Ht1 (bitmap_home _ Hbb)) as (w2 & E2 & _ & Ht2); [|done|by exists w2].
  rewrite bit_clear_length. apply (tx_len _ _ _ _ _ _ _ _ _ _ Ht).
Qed.
End balloc.
