(* ===== verification/Inodes.v ===== *)
(** * The blocks of a file (fs.c: bmap)

    An inode lists the blocks of its file, the first twelve itself and the others in a block of
    their own.  In a well-formed file these blocks are distinct blocks of the data that the
    bitmap marks as used.  bmap finds the block of a given number, allocating it and the block
    of indirect entries when they are missing, and keeps the file well-formed. *)

From Stdlib Require Import ZArith Lia.
From stdpp Require Import base list gmap strings numbers.
From S2P Require Import Prelude Machine Cstring Spinlock Boot Sched Sleeplock Layout Bio Log Bcache Crash Fs Txn Balloc.
From stdpp Require Import list.
Local Open Scope Z_scope.
Local Open Scope kern_scope.

(** The block of indirect entries, 0 when there is none. *)
Definition ind (nd : inode) : Z := default 0 (i_addrs nd !! Z.to_nat NDIRECT).
(** Block [k] of the file, 0 when there is none. *)
Definition faddr (V : blocks) (nd : inode) (k : Z) : Z :=
  if k <? NDIRECT then default 0 (i_addrs nd !! Z.to_nat k)
  else if ind nd =? 0 then 0 else get 4 (V (ind nd)) (4 * Z.to_nat (k - NDIRECT)).

Lemma block_index x : 0 <= x < MAXFILE * BSIZE -> 0 <= x / BSIZE < MAXFILE.
Proof. intros Hx. split; [apply Z.div_pos; unfold BSIZE; lia|apply Z.div_lt_upper_bound; unfold BSIZE in *; lia]. Qed.

Lemma le_val_zeros n : le_val (replicate n 0) = 0.
Proof. induction n as [|n IH]; [done|]. cbn. by rewrite IH. Qed.
Lemma get_zeros n off m : get n (replicate m 0) off = 0.
Proof. unfold get, range. rewrite drop_replicate, take_replicate. apply le_val_zeros. Qed.

Section inodes.
Context (E : txenv) (L : layout E).
Notation sb := (te_sb E).
Notation used := (used E).
Notation dstart := (dstart E).
Notation bitmap_block := (bitmap_block E).
Notation mark_block := (mark_block E).
Implicit Types (V : blocks) (nd : inode) (b f k : Z) (bs : list Z).

Record file_ok V nd : Prop := mkFileOk {
  fo_addrs : length (i_addrs nd) = 13%nat;
  fo_dev : i_dev nd = 1;
  fo_ind : ind nd <> 0 -> dstart <= ind nd < sb_size sb /\ used V (ind nd) = true;
  fo_data : forall k, 0 <= k < MAXFILE -> faddr V nd k <> 0 ->
    dstart <= faddr V nd k < sb_size sb /\ used V (faddr V nd k) = true /\ faddr V nd k <> ind nd;
  fo_inj : forall k k', 0 <= k < MAXFILE -> 0 <= k' < MAXFILE -> faddr V nd k <> 0 -> faddr V nd k = faddr V nd k' -> k = k';
  fo_size : 0 <= i_size nd <= MAXFILE * BSIZE /\ forall x, 0 <= x < i_size nd -> faddr V nd (x / BSIZE) <> 0
}.

(** The file may have got more blocks, free ones before, the bytes of its blocks [k] with [W k]
    may have changed, and nothing else has. *)
Record grows (W : Z -> Prop) V nd V' nd' : Prop := mkGrows {
  g_same : nd' = set_i_addrs (fun _ => i_addrs nd') nd;
  g_addr : forall k, 0 <= k < MAXFILE -> faddr V nd k <> 0 -> faddr V' nd' k = faddr V nd k;
  g_new : forall k, 0 <= k < MAXFILE -> faddr V nd k = 0 -> faddr V' nd' k <> 0 -> used V (faddr V' nd' k) = false;
  g_ind : ind nd <> 0 -> ind nd' = ind nd;
  g_newind : ind nd = 0 -> ind nd' <> 0 -> used V (ind nd') = false;
  g_used : forall b, 0 <= b < sb_size sb -> used V b = true -> used V' b = true;
  g_frame : forall b, 0 <= b < sb_size sb -> used V b = true -> ~ bitmap_block b -> (ind nd <> 0 -> b <> ind nd) ->
    (forall k, W k -> 0 <= k < MAXFILE -> faddr V nd k <> 0 -> b <> faddr V nd k) -> V' b = V b
}.

Lemma grows_refl W V nd : grows W V nd V nd.
Proof. split; try done. by destruct nd. Qed.

Lemma dstart_pos : 0 < dstart.
Proof using L.
  pose proof (ly_facts E L) as (F1 & F2 & F3 & F4). destruct L as [H1 H2 H3 H4 H5].
  unfold Balloc.dstart, LOGSIZE, MAXOPBLOCKS in *. lia.
Qed.

Lemma grows_mono (W W' : Z -> Prop) V nd V' nd' : (forall k, W k -> W' k) -> grows W V nd V' nd' -> grows W' V nd V' nd'.
Proof. intros Hw [H1 H2 H3 H4 H5 H6 H7]. split; try done. intros b Hb Hu Hbm Hi Hf. apply H7; auto. Qed.

Lemma grows_trans W V1 nd1 V2 nd2 V3 nd3 :
  file_ok V2 nd2 -> file_ok V3 nd3 -> grows W V1 nd1 V2 nd2 -> grows W V2 nd2 V3 nd3 -> grows W V1 nd1 V3 nd3.
Proof using L.
  intros Hok2 Hok3 G H. pose proof dstart_pos as Hd.
  assert (forall b, 0 <= b < sb_size sb -> used V2 b = false -> used V1 b = false) as Hback.
  { intros b Hr H2. destruct (used V1 b) eqn:H1; [|done]. by rewrite (g_used _ _ _ _ _ G b Hr H1) in H2. }
  split.
  - rewrite (g_same _ _ _ _ _ H), (g_same _ _ _ _ _ G). done.
  - intros k Hk Hne. rewrite <-(g_addr _ _ _ _ _ G) by done. apply (g_addr _ _ _ _ _ H); [done|]. by rewrite (g_addr _ _ _ _ _ G).
  - intros k Hk H0 Hne. destruct (decide (faddr V2 nd2 k = 0)) as [H2|H2].
    + destruct (fo_data _ _ Hok3 k Hk Hne) as (Hr & _). apply Hback; [lia|by apply (g_new _ _ _ _ _ H)].
    + rewrite (g_addr _ _ _ _ _ H) by done. by apply (g_new _ _ _ _ _ G).
  - intros Hi. rewrite (g_ind _ _ _ _ _ H); rewrite (g_ind _ _ _ _ _ G); done.
  - intros H0 Hne. destruct (decide (ind nd2 = 0)) as [H2|H2].
    + destruct (fo_ind _ _ Hok3 Hne) as (Hr & _). apply Hback; [lia|by apply (g_newind _ _ _ _ _ H)].
    + rewrite (g_ind _ _ _ _ _ H) by done. by apply (g_newind _ _ _ _ _ G).
  - intros b Hr Hb. apply (g_used _ _ _ _ _ H); [done|]. by apply (g_used _ _ _ _ _ G).
  - intros b Hr Hb Hbm Hi Hw. rewrite (g_frame _ _ _ _ _ H); [by apply (g_frame _ _ _ _ _ G)|done|by apply (g_used _ _ _ _ _ G)|done|..].
    + intros H2 ->. destruct (decide (ind nd1 = 0)) as [H1|H1]; [by rewrite (g_newind _ _ _ _ _ G) in Hb|].
      rewrite (g_ind _ _ _ _ _ G) in Hi by done. by apply Hi.
    + intros k Hk Hkr H2 ->. destruct (decide (faddr V1 nd1 k = 0)) as [H1|H1]; [by rewrite (g_new _ _ _ _ _ G) in Hb|].
      apply (Hw k Hk Hkr H1). exact (g_addr _ _ _ _ _ G k Hkr H1).
Qed.

(** The file has block [f] as its block [k]. *)
Lemma add_block W V nd V' nd' k f :
  file_ok V nd -> 0 <= k < MAXFILE -> faddr V nd k = 0 -> dstart <= f < sb_size sb -> used V f = false ->
  nd' = set_i_addrs (fun _ => i_addrs nd') nd -> length (i_addrs nd') = 13%nat -> ind nd' = ind nd ->
  (forall j, 0 <= j < MAXFILE -> faddr V' nd' j = if decide (j = k) then f else faddr V nd j) ->
  (forall x, 0 <= x < sb_size sb -> used V' x = if decide (x = f) then true else used V x) ->
  (forall b, b <> f -> ~ bitmap_block b -> (ind nd <> 0 -> b <> ind nd) -> V' b = V b) ->
  file_ok V' nd' /\ grows W V nd V' nd'.
Proof using L.
  intros Hok Hk H0 Hf Hu Hnd Hlen Hi Ha Hus Hfr. pose proof dstart_pos as Hd.
  assert (forall x, 0 <= x < sb_size sb -> used V x = true -> used V' x = true) as Hmono by (intros x Hx Hxu; rewrite Hus by done; by case_decide).
  assert (forall j, 0 <= j < MAXFILE -> faddr V nd j <> f) as Hnf.
  { intros j Hj He. destruct (decide (faddr V nd j = 0)) as [?|Hne]; [lia|]. destruct (fo_data _ _ Hok j Hj Hne) as (_ & Hju & _). congruence. }
  assert (ind nd <> f) as Hif.
  { intros He. destruct (fo_ind _ _ Hok ltac:(lia)) as [_ ?]. congruence. }
  split; split; try done.
  - rewrite Hnd. cbn. apply Hok.
  - rewrite Hi. intros Hne. destruct (fo_ind _ _ Hok Hne) as [Hr ?]. split; [done|]. apply Hmono; [lia|done].
  - intros j Hj. rewrite Ha, Hi by done. destruct (decide (j = k)) as [->|Hne].
    + intros _. rewrite Hus, decide_True by (done || lia). split_and!; [lia|lia|done|congruence].
    + intros Hj0. destruct (fo_data _ _ Hok j Hj Hj0) as (Hr & Hju & Hji). split_and!; [lia|lia|apply Hmono; [lia|done]|done].
  - intros j j' Hj Hj'. rewrite !Ha by done. destruct (decide (j = k)) as [->|Hne], (decide (j' = k)) as [->|Hne']; try done.
    + intros _ He. by destruct (Hnf j' Hj').
    + intros _ He. by destruct (Hnf j Hj).
    + by apply Hok.
  - assert (i_size nd' = i_size nd) as -> by (rewrite Hnd; done). split; [apply Hok|]. intros x Hx.
    rewrite Ha by (apply block_index; pose proof (proj1 (fo_size _ _ Hok)); lia). case_decide; [lia|by apply Hok].
  - intros j Hj Hne. rewrite Ha by done. rewrite decide_False; [done|]. congruence.
  - intros j Hj Hj0 Hne. rewrite Ha in * by done. destruct (decide (j = k)) as [->|?]; done.
  - congruence.
  - intros b Hb Hbu Hbm Hbi _. apply Hfr; [congruence|done|done].
Qed.

(** The file has block [f] for its indirect entries. *)
Lemma add_indirect W V nd V' nd' f :
  file_ok V nd -> ind nd = 0 -> dstart <= f < sb_size sb -> used V f = false ->
  nd' = set_i_addrs (fun _ => i_addrs nd') nd -> length (i_addrs nd') = 13%nat -> ind nd' = f ->
  (forall j, 0 <= j < MAXFILE -> faddr V' nd' j = faddr V nd j) ->
  (forall x, 0 <= x < sb_size sb -> used V' x = if decide (x = f) then true else used V x) ->
  (forall b, b <> f -> ~ bitmap_block b -> V' b = V b) ->
  file_ok V' nd' /\ grows W V nd V' nd'.
Proof using L.
  intros Hok H0 Hf Hu Hnd Hlen Hi Ha Hus Hfr. pose proof dstart_pos as Hd.
  assert (forall x, 0 <= x < sb_size sb -> used V x = true -> used V' x = true) as Hmono by (intros x Hx Hxu; rewrite Hus by done; by case_decide).
  split; split; try done.
  - rewrite Hnd. cbn. apply Hok.
  - rewrite Hi. intros Hne. split; [done|]. rewrite Hus, decide_True; [done|done|lia].
  - intros j Hj. rewrite Ha, Hi by done. intros Hj0. destruct (fo_data _ _ Hok j Hj Hj0) as (Hr & Hju & Hji).
    split_and!; [lia|lia|apply Hmono; [lia|done]|congruence].
  - intros j j' Hj Hj'. rewrite !Ha by done. by apply Hok.
  - assert (i_size nd' = i_size nd) as -> by (rewrite Hnd; done). split; [apply Hok|]. intros x Hx.
    rewrite Ha by (apply block_index; pose proof (proj1 (fo_size _ _ Hok)); lia). by apply Hok.
  - intros j Hj. by rewrite Ha.
  - intros j Hj Hj0. by rewrite Ha.
  - by rewrite Hi.
  - intros b Hb Hbu Hbm Hbi _. apply Hfr; [congruence|done].
Qed.

(** ** The three ways in which bmap adds a block *)

Lemma ind_insert nd (k : nat) f : (k < Z.to_nat NDIRECT)%nat -> ind (set_i_addrs (insert k f) nd) = ind nd.
Proof. intros Hk. unfold ind. cbn. rewrite list_lookup_insert_ne by lia. done. Qed.

Lemma take_direct W V nd k f :
  file_ok V nd -> (forall n, length (V n) = 512%nat) -> 0 <= k < NDIRECT -> faddr V nd k = 0 ->
  dstart <= f < sb_size sb -> used V f = false ->
  let nd' := set_i_addrs (insert (Z.to_nat k) f) nd in
  file_ok (mark_block V f) nd' /\ grows W V nd (mark_block V f) nd' /\ faddr (mark_block V f) nd' k = f /\
  (forall j, 0 <= j < MAXFILE -> faddr (mark_block V f) nd' j = if decide (j = k) then f else faddr V nd j) /\ ind nd' = ind nd.
Proof using L.
  intros Hok Hl Hk H0 Hf Hu nd'. assert (ind nd' = ind nd) as Hi by (apply ind_insert; unfold NDIRECT in *; lia).
  assert (forall j, 0 <= j < MAXFILE -> faddr (mark_block V f) nd' j = if decide (j = k) then f else faddr V nd j) as Ha.
  { intros j Hj. unfold faddr. rewrite Hi. destruct (Z.ltb_spec j NDIRECT) as [Hjd|Hjd].
    - unfold nd'. cbn. destruct (decide (j = k)) as [->|Hne].
      + rewrite list_lookup_insert_eq; [done|]. rewrite (fo_addrs _ _ Hok). unfold NDIRECT in *. lia.
      + rewrite list_lookup_insert_ne by lia. done.
    - rewrite decide_False by lia. destruct (Z.eqb_spec (ind nd) 0) as [?|Hne]; [done|].
      destruct (fo_ind _ _ Hok Hne) as [Hr Hiu]. rewrite take_ne; [done|done|done|congruence|unfold Balloc.bitmap_block; lia]. }
  assert (0 <= k < MAXFILE) as Hk' by (change MAXFILE with 140 in *; unfold NDIRECT in *; lia).
  assert (file_ok (mark_block V f) nd' /\ grows W V nd (mark_block V f) nd') as [H1 H2].
  { apply (add_block W V nd _ nd' k f); try done.
    - unfold nd'. cbn. by rewrite length_insert, (fo_addrs _ _ Hok).
    - intros x Hx. by apply used_take.
    - intros b Hb Hbm _. by apply take_ne. }
  split_and!; [done|done| |done|done]. by rewrite Ha, decide_True.
Qed.

Lemma take_indirect W V nd f :
  file_ok V nd -> (forall n, length (V n) = 512%nat) -> ind nd = 0 ->
  dstart <= f < sb_size sb -> used V f = false ->
  let nd' := set_i_addrs (insert (Z.to_nat NDIRECT) f) nd in
  file_ok (mark_block V f) nd' /\ grows W V nd (mark_block V f) nd' /\ ind nd' = f /\
  (forall j, 0 <= j < MAXFILE -> faddr (mark_block V f) nd' j = faddr V nd j).
Proof using L.
  intros Hok Hl H0 Hf Hu nd'.
  assert (ind nd' = f) as Hi by (unfold ind, nd'; cbn; rewrite list_lookup_insert_eq; [done|rewrite (fo_addrs _ _ Hok); unfold NDIRECT; lia]).
  assert (forall j, 0 <= j < MAXFILE -> faddr (mark_block V f) nd' j = faddr V nd j) as Ha.
  { intros j Hj. unfold faddr. rewrite Hi, H0. destruct (Z.ltb_spec j NDIRECT) as [Hjd|Hjd].
    - unfold nd'. cbn. rewrite list_lookup_insert_ne by lia. done.
    - cbn [Z.eqb]. destruct (Z.eqb_spec f 0); [done|]. rewrite take_eq. apply get_zeros. }
  assert (file_ok (mark_block V f) nd' /\ grows W V nd (mark_block V f) nd') as [H1 H2]; [|done].
  apply (add_indirect W V nd _ nd' f); try done.
  - unfold nd'. cbn. by rewrite length_insert, (fo_addrs _ _ Hok).
  - intros x Hx. by apply used_take.
  - intros b Hb Hbm. by apply take_ne.
Qed.

Lemma take_entry W V nd k f :
  file_ok V nd -> (forall n, length (V n) = 512%nat) -> NDIRECT <= k < MAXFILE -> faddr V nd k = 0 -> ind nd <> 0 ->
  dstart <= f < sb_size sb -> used V f = false ->
  let V' := vput (mark_block V f) (ind nd) (put 4 (4 * Z.to_nat (k - NDIRECT)) f (V (ind nd))) in
  file_ok V' nd /\ grows W V nd V' nd /\ faddr V' nd k = f /\ mark_block V f (ind nd) = V (ind nd) /\
  (forall j, 0 <= j < MAXFILE -> faddr V' nd j = if decide (j = k) then f else faddr V nd j).
Proof using L.
  intros Hok Hl Hk H0 Hi Hf Hu V'. destruct (fo_ind _ _ Hok Hi) as [Hr Hiu]. pose proof (ly_size E L) as Hls. pose proof dstart_pos.
  assert (mark_block V f (ind nd) = V (ind nd)) as Et by (apply take_ne; [done|done|congruence|unfold Balloc.bitmap_block; lia]).
  assert (forall j, 0 <= j < MAXFILE -> faddr V' nd j = if decide (j = k) then f else faddr V nd j) as Ha.
  { intros j Hj. unfold faddr. destruct (Z.ltb_spec j NDIRECT) as [Hjd|Hjd]; [by rewrite decide_False by lia|].
    destruct (Z.eqb_spec (ind nd) 0) as [?|_]; [done|]. unfold V'. rewrite vput_eq.
    change MAXFILE with 140 in *; unfold NDIRECT, BPB, BSIZE in *. destruct (decide (j = k)) as [->|Hne].
    - rewrite get_put_eq by (rewrite Hl; lia). apply Z.mod_small. change (256 ^ Z.of_nat 4) with (2 ^ 32). lia.
    - apply get_put_ne; [rewrite Hl|]; lia. }
  assert (0 <= k < MAXFILE) as Hk' by (unfold NDIRECT in *; lia).
  assert (file_ok V' nd /\ grows W V nd V' nd) as [H1 H2].
  { apply (add_block W V nd _ nd k f); try done; [by destruct nd|apply Hok| |].
    - intros x Hx. unfold V'. rewrite used_vput; [by apply used_take|done|done|unfold Balloc.bitmap_block; lia].
    - intros b Hb Hbm Hbi. unfold V'. rewrite vput_ne by (by apply Hbi). by apply take_ne. }
  split_and!; [done|done| |done|done]. by rewrite Ha, decide_True.
Qed.

(** ** How many blocks a transaction may come to commit *)

Definition bitmap_set : gset Z := list_to_set (seqZ (sb_bmapstart sb) (sb_size sb / BPB + 1)).
Definition ind_set nd : gset Z := if decide (ind nd = 0) then ∅ else {[ind nd]}.
(** The blocks to commit, the bitmap and the block of indirect entries, which may not exist yet. *)
Definition cost bs nd : nat :=
  size ((list_to_set bs : gset Z) ∪ bitmap_set ∪ ind_set nd) + (if decide (ind nd = 0) then 1 else 0).

Lemma elem_of_bitmap n : n ∈ bitmap_set <-> bitmap_block n.
Proof. unfold bitmap_set, Balloc.bitmap_block, Balloc.dstart. rewrite elem_of_list_to_set, elem_of_seqZ. lia. Qed.

Lemma cost_length bs nd : NoDup bs -> (length bs <= cost bs nd)%nat.
Proof.
  intros Hnd. unfold cost. rewrite <-(size_list_to_set (C := gset Z) bs) by done.
  etrans; [|apply Nat.le_add_r]. apply subseteq_size. set_solver.
Qed.

Lemma cost_grows bs nd bs' nd' (X : gset Z) :
  (ind nd <> 0 -> ind nd' = ind nd) ->
  (forall n, n ∈ bs' -> n ∈ bs \/ bitmap_block n \/ (ind nd' <> 0 /\ n = ind nd') \/ n ∈ X) ->
  (cost bs' nd' <= cost bs nd + size X)%nat.
Proof.
  intros Hi Hb. unfold cost. set (S := (list_to_set bs : gset Z) ∪ bitmap_set ∪ ind_set nd).
  assert ((list_to_set bs' : gset Z) ∪ bitmap_set ∪ ind_set nd' ⊆ S ∪ ind_set nd' ∪ X) as Hsub.
  { intros n [[Hn%elem_of_list_to_set|Hn]%elem_of_union|Hn]%elem_of_union; [|set_solver|set_solver].
    destruct (Hb n Hn) as [Hin|[Hin%elem_of_bitmap|[[Hne ->]|Hin]]]; [set_solver|set_solver| |set_solver].
    apply elem_of_union. left. apply elem_of_union. right. unfold ind_set. rewrite decide_False by done. by apply elem_of_singleton. }
  apply subseteq_size in Hsub. pose proof (size_union_alt (S ∪ ind_set nd') X) as H1. pose proof (size_union_alt S (ind_set nd')) as H2.
  assert (size (X ∖ (S ∪ ind_set nd')) <= size X)%nat by (apply subseteq_size; set_solver).
  destruct (decide (ind nd = 0)) as [H0|H0].
  - assert (size (ind_set nd' ∖ S) <= size (ind_set nd'))%nat by (apply subseteq_size; set_solver).
    unfold ind_set in *. destruct (decide (ind nd' = 0)); rewrite ?fin_sets.size_empty, ?size_singleton in *; lia.
  - rewrite (Hi H0) in *. rewrite decide_False by done.
    assert (ind_set nd' ∖ S = ∅) as Hem.
    { unfold S, ind_set. rewrite (Hi H0). set_solver. }
    rewrite Hem, fin_sets.size_empty in H2. lia.
Qed.
(** What a step of a file operation may have done. *)
Record step W V bs nd V' bs' nd' (X : gset Z) (m : nat) : Prop := mkStep {
  sp_ok : file_ok V' nd';
  sp_grows : grows W V nd V' nd';
  sp_meta : meta_used E V -> meta_used E V';
  sp_free : (nfree E V <= nfree E V' + m)%nat;
  sp_log : forall n, n ∈ bs' -> n ∈ bs \/ bitmap_block n \/ (ind nd' <> 0 /\ n = ind nd') \/ n ∈ X;
  sp_sub : bs ⊆ bs'
}.

Lemma step_refl W V bs nd : file_ok V nd -> step W V bs nd V bs nd ∅ 0.
Proof. intros H. split; [done|apply grows_refl|done|lia|by left|done]. Qed.

Lemma step_more W V bs nd V' bs' nd' X m n : (m <= n)%nat -> step W V bs nd V' bs' nd' X m -> step W V bs nd V' bs' nd' X n.
Proof. intros Hmn [H1 H2 H3 H4 H5 H6]. split; [done|done|done|lia|done|done]. Qed.

Lemma step_mono (W W' : Z -> Prop) V bs nd V' bs' nd' X m :
  (forall k, W k -> W' k) -> step W V bs nd V' bs' nd' X m -> step W' V bs nd V' bs' nd' X m.
Proof. intros Hw [H1 H2 H3 H4 H5 H6]. split; try done. by apply (grows_mono W). Qed.

Lemma step_cost W V bs nd V' bs' nd' X m : step W V bs nd V' bs' nd' X m -> (cost bs' nd' <= cost bs nd + size X)%nat.
Proof using L. intros [H1 H2 H3 H4 H5 H6]. apply cost_grows; [apply H2|done]. Qed.

Lemma step_trans W V1 bs1 nd1 V2 bs2 nd2 V3 bs3 nd3 X Y m n :
  step W V1 bs1 nd1 V2 bs2 nd2 X m -> step W V2 bs2 nd2 V3 bs3 nd3 Y n ->
  step W V1 bs1 nd1 V3 bs3 nd3 (X ∪ Y) (m + n).
Proof using L.
  intros [H1 H2 H3 H4 H5 H6] [G1 G2 G3 G4 G5 G6]. split; [done|exact (grows_trans _ _ _ _ _ _ _ H1 G1 H2 G2)|auto|lia| |by etrans].
  intros x Hx. destruct (G5 x Hx) as [Hx2|[?|[?|?]]]; [|tauto|tauto|set_solver].
  destruct (H5 x Hx2) as [?|[?|[[Hne ->]|?]]]; [tauto|tauto| |set_solver]. right. right. left.
  by rewrite (g_ind _ _ _ _ _ G2).
Qed.

End inodes.

(** ** bmap *)

Section bmap.
Context (i : nat) (c : cpu) (p : nat) (pr : proc) (Hrun : p_state pr <> SLEEPING).
#[local] Existing Instance mem_driver.
Context (E : txenv) (L : layout E).
Notation sb := (te_sb E).
Notation tx := (tx i c p pr E).
Implicit Types (V : blocks) (nd : inode) (k : Z) (bs : list Z).

(** balloc returns a free block of the data when there is one. *)
Lemma balloc_gets w h V bs ino e :
  tx w h V bs ino -> meta_used E V -> (0 < nfree E V)%nat -> (forall n, bitmap_block E n -> apart n h) ->
  (forall n, used E V n = false -> apart n h) -> fits 2 bs h ->
  exists f w', balloc 1 w e = Ret f w' e /\ dstart E <= f < sb_size sb /\ used E V f = false /\
    tx w' h (mark_block E V f) (logged f (logged (BBLOCK f sb) bs)) ino /\
    meta_used E (mark_block E V f) /\ (nfree E V <= nfree E (mark_block E V f) + 1)%nat /\ bitmap_block E (BBLOCK f sb).
Proof using L Hrun.
  intros Ht Hm Hn Hb Ha Hf. destruct (nfree_first E V Hn) as [f Hff]. pose proof Hff as (Hr & Hu & _).
  destruct (balloc_spec i c p pr Hrun E L w h V bs ino f e Ht Hff Hm Hb (Ha f Hu) Hf) as (w' & Eb & Ht').
  assert (dstart E <= f) as Hd by (destruct (Z.le_gt_cases (dstart E) f); [done|]; rewrite Hm in Hu by lia; done).
  pose proof (tx_len _ _ _ _ _ _ _ _ _ _ Ht) as Hl. pose proof (dstart_pos E L). pose proof (ly_data E L).
  exists f, w'. split_and!; try done; [lia| |rewrite (nfree_take E L V f) by (done || lia); lia|by apply bblock_eq].
  intros x Hx. rewrite used_take by (done || lia). case_decide; [done|by apply Hm].
Qed.

Lemma logged_two n f m bs : n ∈ logged f (logged m bs) -> n = f \/ n = m \/ n ∈ bs.
Proof. by rewrite !elem_of_logged. Qed.

(** The entry of block [k] in the block of indirect entries, made if it is missing. *)
Definition entry_code ip addr k : KM Z :=
  i <- get_inode ip;
  bp <- bread (i_dev i) addr;
  bf <- get_buf bp;
  let addr := get 4 (b_data bf) (4 * Z.to_nat k) in
  addr <- (if addr =? 0 then
             addr <- balloc (i_dev i);
             upd_data bp (put 4 (4 * Z.to_nat k) addr) >>;
             log_write bp >>;
             kret addr
           else kret addr);
  brelse bp >>;
  kret addr.

Lemma entry_spec W w V bs ino ip nd k e :
  tx w [] V bs ino -> ino !! ip = Some nd -> file_ok E V nd -> meta_used E V -> faddr V nd k <> 0 \/ (0 < nfree E V)%nat ->
  NDIRECT <= k < MAXFILE -> ind nd <> 0 -> fits 3 bs [] ->
  exists w' V' bs', entry_code ip (ind nd) (k - NDIRECT) w e = Ret (faddr V' nd k) w' e /\ tx w' [] V' bs' ino /\
    step E W V bs nd V' bs' nd {[faddr V' nd k]} 1 /\ faddr V' nd k <> 0 /\ (faddr V nd k <> 0 -> V' = V /\ bs' = bs).
Proof using L Hrun.
  intros Ht Hip Hok Hm Hn Hk Hi Hf. destruct (fo_ind _ _ _ Hok Hi) as [Hir Hiu]. unfold fits in Hf. cbn in Hf.
  pose proof (data_home E L _ Hir) as Hih. pose proof (home_range E _ Hih) as Hr0.
  assert (faddr V nd k = get 4 (V (ind nd)) (4 * Z.to_nat (k - NDIRECT))) as Ea.
  { unfold faddr. rewrite (proj2 (Z.ltb_ge _ _)) by lia. by rewrite (proj2 (Z.eqb_neq _ _)). }
  destruct (tx_bread i c p pr Hrun E w [] V bs ino (ind nd) e Ht ltac:(constructor)) as (b & w1 & E1 & Ht1); [right; cbn; lia|done|].
  destruct (tx_get i c p pr E w1 b _ _ [] V bs ino e Ht1) as (bf & Eg & Hbf & _).
  unfold entry_code. unfold kbind at 1. rewrite (tx_inode _ _ _ _ _ _ _ _ _ _ _ _ e Ht Hip), (fo_dev _ _ _ Hok).
  unfold kbind at 1. rewrite E1. unfold kbind at 1. rewrite Eg, Hbf, <-Ea. cbv zeta.
  destruct (Z.eqb_spec (faddr V nd k) 0) as [H0|Hne].
  - destruct (balloc_gets w1 [(b, ind nd, V (ind nd))] V bs ino e Ht1 Hm ltac:(by destruct Hn)) as (f & w2 & E2 & Hfr & Hfu & Ht2 & Hm2 & Hn2 & Hbb).
    { intros n Hbn. constructor; [|done]. cbn. unfold bitmap_block in Hbn. lia. }
    { intros n Hun. constructor; [|done]. cbn. congruence. } { unfold fits. cbn. lia. }
    destruct (take_entry E L W V nd k f Hok (tx_len _ _ _ _ _ _ _ _ _ _ Ht) Hk H0 Hi Hfr Hfu) as (Hok' & Hg' & Ef & Et & _).
    set (d := put 4 (4 * Z.to_nat (k - NDIRECT)) f (V (ind nd))) in *. set (V' := vput _ _ d) in *.
    destruct (tx_upd i c p pr E w2 b _ _ [] _ _ ino (put 4 (4 * Z.to_nat (k - NDIRECT)) f) e Ht2) as (w3 & E3 & Ht3). fold d in Ht3.
    assert (length d = 512%nat) as Hd.
    { unfold d. rewrite put_length; rewrite (tx_len _ _ _ _ _ _ _ _ _ _ Ht); [done|]. change MAXFILE with 140 in *. unfold NDIRECT in *. lia. }
    pose proof (logged_length f (logged (BBLOCK f sb) bs)). pose proof (logged_length (BBLOCK f sb) bs). pose proof (ly_size E L).
    destruct (tx_log_write i c p pr E w3 b _ d [] _ _ ino e Ht3 Hd) as (w4 & E4 & Ht4);
      [apply Hih|apply Hih|unfold BPB, BSIZE in *; lia|unfold LOGSIZE, MAXOPBLOCKS, NBUF in *; lia|apply L|]. fold V' in Ht4.
    destruct (tx_brelse i c p pr Hrun E w4 b (ind nd) [] V' (logged (ind nd) (logged f (logged (BBLOCK f sb) bs))) ino e) as (w5 & E5 & Ht5); [unfold V' at 1; by rewrite vput_eq|].
    exists w5, V', (logged (ind nd) (logged f (logged (BBLOCK f sb) bs))). split_and!.
    + unfold kbind. rewrite E2. rewrite E3, E4. unfold kret. by rewrite E5, Ef.
    + done.
    + split; [done|done| | | |intros n Hn'; rewrite !elem_of_logged; tauto].
      * intros _ x Hx. unfold V'. rewrite used_vput; [by apply Hm2|done| |unfold bitmap_block; lia].
        pose proof (ly_data E L). lia.
      * assert (nfree E V' = nfree E (mark_block E V f)) as ->; [|done]. unfold nfree. f_equal. apply filter_agree.
        intros x Hx%elem_of_seqZ. unfold V'. rewrite used_vput; [done|done|lia|unfold bitmap_block; lia].
      * intros n [->|Hn']%elem_of_logged; [tauto|]. apply logged_two in Hn' as [->|[->|?]]; [|tauto|tauto].
        right. right. right. apply elem_of_singleton. done.
    + rewrite Ef. pose proof (dstart_pos E L). lia.
    + done.
  - destruct (tx_brelse i c p pr Hrun E w1 b _ [] V bs ino e Ht1) as (w2 & E2 & Ht2). exists w2, V, bs. split_and!; try done.
    + unfold kbind, kret. by rewrite E2.
    + split; [done|apply grows_refl|done|lia|by left|done].
Qed.

(** bmap returns the block of the file, which exists afterwards. *)
Lemma bmap_spec W w V bs ino ip nd k e :
  tx w [] V bs ino -> ino !! ip = Some nd -> file_ok E V nd -> meta_used E V ->
  0 <= k < MAXFILE -> faddr V nd k <> 0 \/ (1 < nfree E V)%nat -> (cost E bs nd + 3 < NBUF)%nat ->
  exists w' V' bs' nd', bmap ip k w e = Ret (faddr V' nd' k) w' e /\ tx w' [] V' bs' (<[ip := nd']> ino) /\
    step E W V bs nd V' bs' nd' {[faddr V' nd' k]} 2 /\ faddr V' nd' k <> 0 /\
    (faddr V nd k <> 0 -> V' = V /\ bs' = bs /\ nd' = nd).
Proof using L Hrun.
  intros Ht Hip Hok Hm Hk Hn Hc. pose proof (tx_len _ _ _ _ _ _ _ _ _ _ Ht) as Hl. pose proof (dstart_pos E L) as Hd0.
  pose proof (cost_length E L bs nd (proj1 (tx_bs _ _ _ _ _ _ _ _ _ _ Ht))) as Hcl. unfold bmap.
  assert (<[ip := nd]> ino = ino) as Hid by by apply list_insert_id.
  destruct (Z.ltb_spec k NDIRECT) as [Hkd|Hkd].
  - unfold kbind at 1. rewrite (tx_inode _ _ _ _ _ _ _ _ _ _ _ _ e Ht Hip), (fo_dev _ _ _ Hok).
    assert (default 0 (i_addrs nd !! Z.to_nat k) = faddr V nd k) as -> by (unfold faddr; by rewrite (proj2 (Z.ltb_lt _ _))).
    destruct (Z.eqb_spec (faddr V nd k) 0) as [H0|Hne].
    + destruct (balloc_gets w [] V bs ino e Ht Hm) as (f & w1 & E1 & Hfr & Hfu & Ht1 & Hm1 & Hn1 & Hbb);
        [destruct Hn; [done|lia]|constructor|constructor|unfold fits; cbn; lia|].
      destruct (take_direct E L W V nd k f Hok Hl ltac:(lia) H0 Hfr Hfu) as (Hok' & Hg' & Ef & _ & _).
      set (nd' := set_i_addrs _ nd) in *. exists (upd_inode ip (set_i_addrs (insert (Z.to_nat k) f)) w1).
      exists (mark_block E V f), (logged f (logged (BBLOCK f sb) bs)), nd'. rewrite Ef. split_and!; try done; [|by apply (tx_upd_inode i c p pr E w1 _ _ _ _ ip nd)| |lia].
      * unfold kbind. rewrite E1. done.
      * split; [done|done|done|lia| |intros n Hn'; rewrite !elem_of_logged; tauto]. intros n [->|[->|?]]%logged_two; [|tauto|tauto]. right. right. right. by apply elem_of_singleton.
    + exists w, V, bs, nd. rewrite Hid. split_and!; try done. split; [done|apply grows_refl|done|lia|by left|done].
  - cbv zeta. rewrite (proj2 (Z.ltb_lt _ _)) by (unfold MAXFILE in Hk; lia).
    unfold kbind at 1. rewrite (tx_inode _ _ _ _ _ _ _ _ _ _ _ _ e Ht Hip), (fo_dev _ _ _ Hok). fold (ind nd).
    destruct (Z.eqb_spec (ind nd) 0) as [H0|Hne].
    + assert (faddr V nd k = 0) as Ha0 by (unfold faddr; rewrite (proj2 (Z.ltb_ge _ _)) by lia; by rewrite H0).
      destruct Hn as [Hn|Hn]; [done|].
      destruct (balloc_gets w [] V bs ino e Ht Hm) as (f & w1 & E1 & Hfr & Hfu & Ht1 & Hm1 & Hn1 & Hbb);
        [lia|constructor|constructor|unfold fits; cbn; lia|].
      destruct (take_indirect E L W V nd f Hok Hl H0 Hfr Hfu) as (Hok' & Hg' & Ef & _). set (nd' := set_i_addrs _ nd) in *.
      pose proof (tx_upd_inode i c p pr E w1 _ _ _ _ ip nd (set_i_addrs (insert (Z.to_nat NDIRECT) f)) Ht1 Hip) as Ht2. fold nd' in Ht2.
      set (bs1 := logged f _) in *. set (w2 := upd_inode _ _ w1) in *.
      assert (step E W V bs nd (mark_block E V f) bs1 nd' ∅ 1) as Hs1.
      { split; [done|done|done|lia| |intros n Hn'; unfold bs1; rewrite !elem_of_logged; tauto]. rewrite Ef. intros n [->|[->|?]]%logged_two; [|tauto|tauto]. right. right. left. split; [lia|done]. }
      assert (cost E bs1 nd' <= cost E bs nd)%nat as Hcc.
      { pose proof (cost_grows E L bs nd bs1 nd' ∅ ltac:(done) (sp_log _ _ _ _ _ _ _ _ _ _ Hs1)). rewrite fin_sets.size_empty in *. lia. }
      pose proof (cost_length E L bs1 nd' (proj1 (tx_bs _ _ _ _ _ _ _ _ _ _ Ht2))) as Hcl1.
      destruct (entry_spec W w2 (mark_block E V f) bs1 (<[ip := nd']> ino) ip nd' k e Ht2) as (w3 & V3 & bs3 & E3 & Ht3 & Hs3 & Hne3 & _);
        try done; [apply list_lookup_insert_eq; by eapply lookup_lt_Some|right; lia|lia|rewrite Ef; lia|unfold fits; cbn; lia|].
      exists w3, V3, bs3, nd'. split_and!; try done.
      * unfold kbind at 1 2. rewrite E1. unfold kbind at 1, put_addr at 1, kmod at 1. unfold kret at 1. fold w2.
        change (entry_code ip f (k - NDIRECT) w2 e = Ret (faddr V3 nd' k) w3 e). by rewrite <-Ef.
      * rewrite <-(union_empty_l_L {[faddr V3 nd' k]}). exact (step_trans E L _ _ _ _ _ _ _ _ _ _ _ _ 1 1 Hs1 Hs3).
    + destruct (entry_spec W w V bs ino ip nd k e Ht Hip Hok Hm) as (w3 & V3 & bs3 & E3 & Ht3 & Hs3 & Hne3 & Hsame);
        [destruct Hn; [by left|right; lia]|lia|done|unfold fits; cbn; lia|].
      exists w3, V3, bs3, nd. rewrite Hid. split_and!; try done; [by apply (step_more E _ _ _ _ _ _ _ _ 1 2); [lia|]|].
      intros Ha. by destruct (Hsame Ha) as [-> ->].
Qed.
End bmap.
