(* ===== verification/Files.v ===== *)
(** * Reading and writing files (fs.c: readi, writei, iupdate)

    A file is a sequence of bytes, found through the blocks of its inode.  readi returns the
    bytes asked for, up to the end of the file.  writei puts the bytes it is given at their place,
    extends the file when they go beyond its end, keeps the inode on the disk up to date, and
    changes nothing else that is in use. *)

From Stdlib Require Import ZArith Lia.
From stdpp Require Import base list gmap strings numbers.
From S2P Require Import Prelude Machine Cstring Spinlock Boot Sched Sleeplock Layout Bio Log Bcache Crash Fs Txn Balloc Inodes.
From stdpp Require Import list.
Local Open Scope Z_scope.
Local Open Scope kern_scope.

(** Byte [x] of the file. *)
Definition byte_at (V : blocks) (nd : inode) (x : Z) : Z :=
  default 0 (V (faddr V nd (x / BSIZE)) !! Z.to_nat (x mod BSIZE)).
(** The [n] bytes from [off] on, and all of them. *)
Definition bytes (V : blocks) (nd : inode) (off n : Z) : list Z := byte_at V nd <$> seqZ off n.
Definition contents (V : blocks) (nd : inode) : list Z := bytes V nd 0 (i_size nd).

Lemma bytes_app V nd off n m : 0 <= n -> 0 <= m -> bytes V nd off (n + m) = bytes V nd off n ++ bytes V nd (off + n) m.
Proof. intros. unfold bytes. by rewrite seqZ_app, fmap_app by lia. Qed.

Lemma bytes_length V nd off n : length (bytes V nd off n) = Z.to_nat n.
Proof. unfold bytes. by rewrite length_fmap, length_seqZ. Qed.

Lemma bytes_ext V nd V' nd' off n :
  (forall x, off <= x < off + n -> byte_at V' nd' x = byte_at V nd x) -> bytes V' nd' off n = bytes V nd off n.
Proof. intros H. apply list_fmap_ext. intros k x Hx. apply lookup_seqZ in Hx as [-> Hk]. apply H. lia. Qed.

(** The bytes of a file after [src] has been put at [off]. *)
Lemma bytes_splice V nd V' nd' sz sz' off src :
  0 <= off <= sz -> sz' = Z.max sz (off + Z.of_nat (length src)) ->
  (forall j x, src !! j = Some x -> byte_at V' nd' (off + Z.of_nat j) = x) ->
  (forall x, 0 <= x < sz -> x < off \/ off + Z.of_nat (length src) <= x -> byte_at V' nd' x = byte_at V nd x) ->
  bytes V' nd' 0 sz' = splice (Z.to_nat off) src (bytes V nd 0 sz).
Proof.
  intros Ho Hs Hin Hout. set (n := Z.of_nat (length src)) in *.
  replace sz' with (off + (n + (sz' - off - n))) by lia. rewrite !bytes_app by lia. rewrite !Z.add_0_l. unfold splice.
  f_equal; [|f_equal].
  - replace sz with (off + (sz - off)) by lia. rewrite bytes_app by lia. rewrite take_app_length' by (by rewrite bytes_length).
    apply bytes_ext. intros x Hx. apply Hout; lia.
  - apply list_eq. intros j. unfold bytes. rewrite list_lookup_fmap. destruct (src !! j) as [x|] eqn:Hj.
    + pose proof (lookup_lt_Some _ _ _ Hj). rewrite lookup_seqZ_lt by lia. cbn. f_equal. by apply Hin.
    + apply lookup_ge_None in Hj. by rewrite lookup_seqZ_ge by lia.
  - destruct (decide (off + n <= sz)) as [Hle|Hgt].
    + assert (bytes V nd 0 sz = bytes V nd 0 (off + n) ++ bytes V nd (0 + (off + n)) (sz - off - n)) as ->
        by (rewrite <-bytes_app by lia; f_equal; lia).
      rewrite drop_app_length' by (rewrite bytes_length; lia).
      rewrite Z.add_0_l. replace (sz' - off - n) with (sz - off - n) by lia. apply bytes_ext. intros x Hx. apply Hout; lia.
    + replace (sz' - off - n) with 0 by lia. rewrite drop_ge; [done|]. rewrite bytes_length. lia.
Qed.

(** The bytes asked for are part of the contents. *)
Lemma bytes_range V nd off n : 0 <= off -> 0 <= n -> off + n <= i_size nd -> bytes V nd off n = range (Z.to_nat off) (Z.to_nat n) (contents V nd).
Proof.
  intros Ho Hn Hs. unfold range, contents.
  assert (bytes V nd 0 (i_size nd) = bytes V nd 0 off ++ (bytes V nd (0 + off) n ++ bytes V nd (0 + off + n) (i_size nd - off - n))) as ->.
  { rewrite <-!bytes_app by lia. f_equal. lia. }
  rewrite drop_app_length' by (by rewrite bytes_length). rewrite take_app_length' by (by rewrite bytes_length). done.
Qed.

Lemma chunk_bound left off : 0 < left -> 0 < chunk left off <= left /\ off mod BSIZE + chunk left off <= BSIZE.
Proof. intros Hl. unfold chunk, BSIZE. pose proof (Z.mod_pos_bound off 512 ltac:(lia)). lia. Qed.

(** Bytes that lie in one block. *)
Lemma in_block off x : 0 <= x -> off mod BSIZE + x < BSIZE -> (off + x) / BSIZE = off / BSIZE /\ (off + x) mod BSIZE = off mod BSIZE + x.
Proof.
  intros Hx Hb. unfold BSIZE in *. pose proof (Z.mod_pos_bound off 512 ltac:(lia)). pose proof (Z.div_mod off 512 ltac:(lia)).
  split; symmetry; [apply (Z.div_unique_pos _ _ _ (off mod 512 + x))|apply (Z.mod_unique_pos _ _ (off / 512))]; lia.
Qed.

Lemma bytes_block V nd off m :
  (forall n, length (V n) = 512%nat) -> 0 <= m -> off mod BSIZE + m <= BSIZE ->
  bytes V nd off m = range (Z.to_nat (off mod BSIZE)) (Z.to_nat m) (V (faddr V nd (off / BSIZE))).
Proof.
  intros Hl Hm Hb. pose proof (Z.mod_pos_bound off BSIZE ltac:(unfold BSIZE; lia)) as Ho. apply list_eq. intros k.
  unfold bytes. rewrite list_lookup_fmap. destruct (decide (k < Z.to_nat m)%nat) as [Hk|Hk].
  - rewrite range_lookup, lookup_seqZ_lt by lia. cbn. unfold byte_at.
    destruct (in_block off (Z.of_nat k)) as [-> ->]; [lia|lia|].
    replace (Z.to_nat (off mod BSIZE + Z.of_nat k)) with (Z.to_nat (off mod BSIZE) + k)%nat by lia.
    set (l := V _). destruct (lookup_lt_is_Some_2 l (Z.to_nat (off mod BSIZE) + k)) as [y ->]; [|done].
    unfold l. rewrite Hl. unfold BSIZE in *. lia.
  - rewrite lookup_seqZ_ge by lia. symmetry. apply lookup_ge_None. unfold range. rewrite length_take. lia.
Qed.

(** Turns of the loops: [left] bytes from [off] on lie in at most [T] blocks. *)
Definition spans (off left : Z) (T : nat) : Prop := left = 0 \/ off mod BSIZE + left <= BSIZE * Z.of_nat T.

Lemma spans_next off left T : 0 < left -> spans off left T ->
  exists T', T = S T' /\ spans (off + chunk left off) (left - chunk left off) T'.
Proof.
  intros Hl [?|Hs]; [lia|]. unfold spans, chunk, BSIZE in *. pose proof (Z.mod_pos_bound off 512 ltac:(lia)) as Ho.
  destruct T as [|T]; [lia|]. exists T. split; [done|].
  destruct (Z.min_spec left (512 - off mod 512)) as [[Hlt ->]|[Hge ->]]; [left; lia|right].
  assert ((off + (512 - off mod 512)) mod 512 = 0) as ->; [|lia].
  pose proof (Z.div_mod off 512 ltac:(lia)). symmetry. apply (Z.mod_unique_pos _ _ (off / 512 + 1)); lia.
Qed.

Lemma spans_start off n : 0 <= n -> spans off n (Z.to_nat (n / BSIZE) + 2).
Proof.
  intros Hn. right. unfold BSIZE. pose proof (Z.mod_pos_bound off 512 ltac:(lia)).
  pose proof (Z.div_mod n 512 ltac:(lia)). pose proof (Z.mod_pos_bound n 512 ltac:(lia)). pose proof (Z.div_pos n 512 Hn ltac:(lia)). lia.
Qed.

(** ** What writing does to the bytes *)

Section written.
Context (E : txenv) (L : layout E).
Notation sb := (te_sb E).
Implicit Types (V : blocks) (nd : inode) (k : Z) (src : list Z).

Record written V nd V' nd' (off : Z) src : Prop := mkWritten {
  wr_in : forall j x, src !! j = Some x ->
    faddr V' nd' ((off + Z.of_nat j) / BSIZE) <> 0 /\ byte_at V' nd' (off + Z.of_nat j) = x;
  wr_out : forall x, 0 <= x < MAXFILE * BSIZE -> faddr V nd (x / BSIZE) <> 0 ->
    x < off \/ off + Z.of_nat (length src) <= x -> byte_at V' nd' x = byte_at V nd x
}.

(** The blocks that [n] bytes from [off] on touch. *)
Definition touched (off n k : Z) : Prop := k * BSIZE < off + n /\ off < (k + 1) * BSIZE.

Lemma written_app W V1 nd1 V2 nd2 V3 nd3 off s1 s2 :
  0 <= off -> off + Z.of_nat (length (s1 ++ s2)) <= MAXFILE * BSIZE ->
  grows E W V1 nd1 V2 nd2 -> grows E W V2 nd2 V3 nd3 ->
  written V1 nd1 V2 nd2 off s1 -> written V2 nd2 V3 nd3 (off + Z.of_nat (length s1)) s2 -> written V1 nd1 V3 nd3 off (s1 ++ s2).
Proof.
  intros Ho Hlen G1 G2 H1 H2. rewrite length_app in Hlen. split.
  - intros j x Hj. apply lookup_app_Some in Hj as [Hj|[Hge Hj]].
    + pose proof (lookup_lt_Some _ _ _ Hj) as Hlt. destruct (wr_in _ _ _ _ _ _ H1 j x Hj) as [Hne Hb].
      pose proof (block_index (off + Z.of_nat j) ltac:(lia)) as Hk. rewrite (g_addr _ _ _ _ _ _ G2) by done.
      split; [done|]. rewrite (wr_out _ _ _ _ _ _ H2); [done|lia|done|lia].
    + pose proof (wr_in _ _ _ _ _ _ H2 _ x Hj) as Hx. by replace (off + Z.of_nat (length s1) + Z.of_nat (j - length s1)) with (off + Z.of_nat j) in Hx by lia.
  - intros x Hx Hne Hout. rewrite length_app in Hout. pose proof (block_index x Hx) as Hk.
    rewrite (wr_out _ _ _ _ _ _ H2); [|done|by rewrite (g_addr _ _ _ _ _ _ G1)|lia]. apply (wr_out _ _ _ _ _ _ H1); [done|done|lia].
Qed.

(** Getting blocks does not change the bytes there are. *)
Lemma grows_byte V nd V' nd' x :
  file_ok E V nd -> grows E (fun _ => False) V nd V' nd' -> 0 <= x < MAXFILE * BSIZE -> faddr V nd (x / BSIZE) <> 0 ->
  byte_at V' nd' x = byte_at V nd x.
Proof.
  intros Hok G Hx Hne. pose proof (block_index x Hx) as Hk. unfold byte_at. rewrite (g_addr _ _ _ _ _ _ G) by done.
  destruct (fo_data _ _ _ Hok _ Hk Hne) as (Hr & Hu & Hi). rewrite (g_frame _ _ _ _ _ _ G); [done| |done| |done|done].
  - pose proof (dstart_pos E L). lia.
  - unfold bitmap_block. lia.
Qed.

(** Bytes put into one block of the file. *)
Definition put_block V nd (off : Z) src : blocks :=
  let a := faddr V nd (off / BSIZE) in vput V a (splice (Z.to_nat (off mod BSIZE)) src (V a)).

Lemma put_block_ok V nd off src :
  file_ok E V nd -> (forall n, length (V n) = 512%nat) -> 0 <= off < MAXFILE * BSIZE -> faddr V nd (off / BSIZE) <> 0 ->
  src <> [] -> off mod BSIZE + Z.of_nat (length src) <= BSIZE ->
  let V' := put_block V nd off src in
  file_ok E V' nd /\ grows E (touched off (Z.of_nat (length src))) V nd V' nd /\ written V nd V' nd off src /\
  (forall b, 0 <= b < sb_size sb -> used E V' b = used E V b) /\ (forall k, faddr V' nd k = faddr V nd k).
Proof.
  intros Hok Hl Ho Hne Hsrc Hb V'. set (a := faddr V nd (off / BSIZE)) in *. pose proof (block_index off Ho) as Hk.
  destruct (fo_data _ _ _ Hok _ Hk Hne) as (Hr & Hu & Hi). fold a in Hr, Hu, Hi.
  assert (forall k, faddr V' nd k = faddr V nd k) as Ha.
  { intros k. unfold faddr, V', put_block. fold a. by rewrite vput_ne by congruence. }
  assert (~ bitmap_block E a) as Hbm by (unfold bitmap_block; lia).
  assert (forall b, 0 <= b < sb_size sb -> used E V' b = used E V b) as Hus by (intros b Hbr; by apply used_vput).
  assert (0 < dstart E) as Hd by by apply dstart_pos.
  assert (0 < Z.of_nat (length src)) as Hpos by (destruct src; [done|cbn; lia]).
  pose proof (Z.mod_pos_bound off BSIZE ltac:(unfold BSIZE; lia)) as Hmo. pose proof (Z.div_mod off BSIZE ltac:(unfold BSIZE; lia)) as Hdm.
  split_and!; [| | |done|done].
  - split; try apply Hok.
    + intros Hin. destruct (fo_ind _ _ _ Hok Hin) as [? ?]. rewrite Hus by lia. done.
    + intros k Hkr. rewrite Ha. intros Hk0. destruct (fo_data _ _ _ Hok k Hkr Hk0) as (? & ? & ?). rewrite Hus by lia. done.
    + intros k k' Hkr Hkr'. rewrite !Ha. by apply Hok.
    + split; [apply Hok|]. intros x Hx. rewrite Ha. by apply Hok.
  - split; try done; [by destruct nd|intros k _ H0; by rewrite Ha|intros b Hbr; by rewrite Hus|].
    intros b Hbr Hbu Hbb Hbi Hw. unfold V', put_block. fold a. apply vput_ne. apply Hw; [|done|done]. unfold touched, BSIZE in *. lia.
  - split.
    + intros j x Hj. pose proof (lookup_lt_Some _ _ _ Hj) as Hlt. destruct (in_block off (Z.of_nat j)) as [Ed Em]; [lia|lia|].
      unfold byte_at. rewrite Ha, Ed, Em. split; [done|]. fold a. unfold V', put_block. fold a. rewrite vput_eq.
      rewrite splice_lookup by (rewrite Hl; unfold BSIZE in *; lia). rewrite decide_True by lia.
      replace (Z.to_nat (off mod BSIZE + Z.of_nat j) - Z.to_nat (off mod BSIZE))%nat with j by lia. by rewrite Hj.
    + intros x Hx Hxne Hout. unfold byte_at. rewrite Ha. unfold V', put_block. fold a.
      pose proof (Z.mod_pos_bound x BSIZE ltac:(unfold BSIZE; lia)) as Hmx. pose proof (Z.div_mod x BSIZE ltac:(unfold BSIZE; lia)) as Hdx.
      destruct (decide (faddr V nd (x / BSIZE) = a)) as [He|He]; [|by rewrite vput_ne].
      assert (x / BSIZE = off / BSIZE) as Hq by (eapply (fo_inj _ _ _ Hok); [by apply block_index|done|done|done]).
      rewrite He, vput_eq, splice_lookup by (rewrite Hl; unfold BSIZE in *; lia). rewrite decide_False; [done|].
      unfold BSIZE in *. lia.
Qed.

(** ** Other files *)

(** Block [b] belongs to the file. *)
Definition owns V nd (b : Z) : Prop := b <> 0 /\ (b = ind nd \/ exists k, 0 <= k < MAXFILE /\ b = faddr V nd k).
Definition apart_files V nd nd2 : Prop := forall b, owns V nd b -> owns V nd2 b -> False.

Lemma owns_used V nd b : file_ok E V nd -> owns V nd b -> dstart E <= b < sb_size sb /\ used E V b = true.
Proof.
  intros Hok [Hb [->|(k & Hk & ->)]]; [by apply (fo_ind _ _ _ Hok)|]. by destruct (fo_data _ _ _ Hok k Hk Hb) as (? & ? & _).
Qed.

(** A file that shares no block with one that grows keeps its blocks and its bytes. *)
Lemma grows_other W V nd V' nd' nd2 :
  file_ok E V nd -> file_ok E V nd2 -> grows E W V nd V' nd' -> apart_files V nd nd2 ->
  file_ok E V' nd2 /\ (forall k, 0 <= k < MAXFILE -> faddr V' nd2 k = faddr V nd2 k) /\ contents V' nd2 = contents V nd2 /\
  apart_files V' nd' nd2 /\
  (forall x, 0 <= x < MAXFILE * BSIZE -> faddr V nd2 (x / BSIZE) <> 0 -> byte_at V' nd2 x = byte_at V nd2 x).
Proof.
  intros Hok Hok2 Hg Hap. pose proof (dstart_pos E L) as Hd.
  assert (forall b, owns V nd2 b -> V' b = V b) as Hsame.
  { intros b Hb. destruct (owns_used V nd2 b Hok2 Hb) as [Hr Hu]. apply (g_frame _ _ _ _ _ _ Hg); [lia|done|unfold bitmap_block; lia|..].
    - intros Hi ->. apply (Hap (ind nd)); [by split; [|left]|done].
    - intros k _ Hk Hne ->. apply (Hap (faddr V nd k)); [split; [done|right; eauto]|done]. }
  assert (forall k, 0 <= k < MAXFILE -> faddr V' nd2 k = faddr V nd2 k) as Ha.
  { intros k Hk. unfold faddr. destruct (k <? NDIRECT); [done|]. destruct (Z.eqb_spec (ind nd2) 0) as [?|Hne]; [done|].
    by rewrite Hsame by (by split; [|left]). }
  assert (forall b, 0 <= b < sb_size sb -> used E V b = true -> used E V' b = true) as Hus by apply Hg.
  assert (forall x, 0 <= x < MAXFILE * BSIZE -> faddr V nd2 (x / BSIZE) <> 0 -> byte_at V' nd2 x = byte_at V nd2 x) as Hby.
  { intros x Hx Hne. pose proof (block_index x Hx) as Hk. unfold byte_at. rewrite Ha by done. rewrite Hsame; [done|]. split; [done|right; eauto]. }
  pose proof (fo_size _ _ _ Hok2) as [Hs1 Hs2]. split_and!; [|done| | |done].
  - split; try apply Hok2.
    + intros Hin. destruct (fo_ind _ _ _ Hok2 Hin) as [? ?]. split; [done|]. apply Hus; [lia|done].
    + intros k Hk. rewrite Ha by done. intros Hk0. destruct (fo_data _ _ _ Hok2 k Hk Hk0) as (? & ? & ?). split_and!; [lia|lia| |done]. apply Hus; [lia|done].
    + intros k k' Hk Hk'. rewrite !Ha by done. by apply Hok2.
    + split; [done|]. intros x Hx. rewrite Ha by (apply block_index; lia). by apply Hs2.
  - apply bytes_ext. intros x Hx. apply Hby; [lia|apply Hs2; lia].
  - intros b [Hb0 Hb1] Hb2. assert (owns V nd2 b) as Hb2'.
    { destruct Hb2 as [_ [->|(k & Hk & ->)]]; (split; [done|]); [by left|right]. exists k. by rewrite Ha. }
    destruct (owns_used V nd2 b Hok2 Hb2') as [Hr Hu]. destruct Hb1 as [->|(k & Hk & ->)].
    + destruct (decide (ind nd = 0)) as [H0|H0]; [by rewrite (g_newind _ _ _ _ _ _ Hg) in Hu|].
      rewrite (g_ind _ _ _ _ _ _ Hg) in Hb2' by done. apply (Hap (ind nd)); [by split; [|left]|done].
    + destruct (decide (faddr V nd k = 0)) as [H0|H0]; [by rewrite (g_new _ _ _ _ _ _ Hg) in Hu|].
      rewrite (g_addr _ _ _ _ _ _ Hg) in Hb2' by done. apply (Hap (faddr V nd k)); [split; [done|right; eauto]|done].
Qed.

(** ** Inodes on the disk *)

Definition dinode_at V (inum : Z) : dinode := read_dinode (V (IBLOCK inum sb)) (dinode_off inum).
(** The inode is on the disk as it is in memory. *)
Definition synced V nd : Prop := dinode_at V (i_inum nd) = inode_dinode nd.
(** The numbers of the inode fit the fields of the disk inode. *)
Definition inode_fits nd : Prop :=
  let short z := - 2 ^ 15 <= z < 2 ^ 15 in
  0 <= i_inum nd < sb_ninodes sb /\ short (i_type nd) /\ short (i_major nd) /\ short (i_minor nd) /\ short (i_nlink nd).
(** What iupdate does to the blocks. *)
Definition save V nd : blocks :=
  let a := IBLOCK (i_inum nd) sb in vput V a (write_dinode (dinode_off (i_inum nd)) (inode_dinode nd) (V a)).

Lemma iblock_eq inum : 0 <= inum < sb_ninodes sb ->
  IBLOCK inum sb = inum / IPB + sb_inodestart sb /\ sb_inodestart sb <= IBLOCK inum sb < sb_bmapstart sb.
Proof using L.
  intros Hi. pose proof (ly_facts E L) as (F1 & F2 & F3 & F4). pose proof L as [L1 L2 L3 L4 L5]. unfold dstart, LOGSIZE, MAXOPBLOCKS in *.
  assert (0 <= inum / IPB <= sb_ninodes sb / IPB) by (split; [apply Z.div_pos; lia|apply Z.div_le_mono; lia]).
  assert (BPB = 4096) by done. unfold IBLOCK. rewrite u32_small by lia. lia.
Qed.

Lemma iblock_facts inum : 0 <= inum < sb_ninodes sb ->
  home E (IBLOCK inum sb) /\ ~ bitmap_block E (IBLOCK inum sb) /\ 0 <= IBLOCK inum sb < dstart E.
Proof using L.
  intros Hi. destruct (iblock_eq inum Hi) as [_ Hr]. pose proof (ly_facts E L) as (F1 & F2 & F3 & F4).
  pose proof L as [L1 L2 L3 L4 L5]. unfold home, bitmap_block, in_log, dstart, LOGSIZE, MAXOPBLOCKS in *. lia.
Qed.

Lemma dinode_off_bound inum : 0 <= inum -> (dinode_off inum + 64 <= 512)%nat.
Proof. intros Hi. unfold dinode_off. change IPB with 8. pose proof (Z.mod_pos_bound inum 8 ltac:(lia)). lia. Qed.

Lemma inode_dinode_ok V nd : file_ok E V nd -> inode_fits nd -> dinode_ok (inode_dinode nd).
Proof.
  intros Hok (H0 & H1 & H2 & H3 & H4). unfold dinode_ok, inode_dinode. cbn. pose proof (fo_size _ _ _ Hok) as [Hs _].
  change MAXFILE with 140 in *. unfold BSIZE in Hs. split_and!; try (done || lia); [apply Hok|].
  apply Forall_lookup. intros k x Hx. pose proof (lookup_lt_Some _ _ _ Hx) as Hlt. rewrite (fo_addrs _ _ _ Hok) in Hlt.
  pose proof (dstart_pos E L) as Hd. pose proof (ly_size E L) as Hls. unfold BPB, BSIZE in Hls.
  destruct (decide (x = 0)) as [->|Hne]; [lia|]. destruct (decide (k = 12)%nat) as [->|Hk].
  - assert (ind nd = x) as Hi by (unfold ind; change (Z.to_nat NDIRECT) with 12%nat; by rewrite Hx).
    destruct (fo_ind _ _ _ Hok) as [Hr _]; lia.
  - assert (faddr V nd (Z.of_nat k) = x) as Hi.
    { unfold faddr. rewrite (proj2 (Z.ltb_lt _ _)) by (unfold NDIRECT; lia). by rewrite Nat2Z.id, Hx. }
    destruct (fo_data _ _ _ Hok (Z.of_nat k)) as (Hr & _); [change MAXFILE with 140; lia|congruence|lia].
Qed.

(** Blocks of inodes do not change when a file gets blocks or bytes. *)
Lemma grows_iblock W V nd V' nd' : file_ok E V nd -> meta_used E V -> grows E W V nd V' nd' ->
  forall inum, 0 <= inum < sb_ninodes sb -> V' (IBLOCK inum sb) = V (IBLOCK inum sb).
Proof.
  intros Hok Hm Hg inum Hi. destruct (iblock_facts inum Hi) as (_ & Hb & Hr). pose proof (ly_data E L).
  apply (g_frame _ _ _ _ _ _ Hg); [lia|by apply Hm|done|..].
  - intros Hin. destruct (fo_ind _ _ _ Hok Hin). lia.
  - intros k _ Hk Hne. destruct (fo_data _ _ _ Hok k Hk Hne). lia.
Qed.

(** A change of a block that is not the file's own nor the bitmap's. *)
Lemma file_ok_put V nd a d : file_ok E V nd -> 0 <= a < dstart E -> ~ bitmap_block E a ->
  let V' := vput V a d in
  file_ok E V' nd /\ (forall k, faddr V' nd k = faddr V nd k) /\
  (forall x, faddr V nd (x / BSIZE) <> 0 -> 0 <= x < MAXFILE * BSIZE -> byte_at V' nd x = byte_at V nd x) /\
  (forall b, 0 <= b < sb_size sb -> used E V' b = used E V b).
Proof.
  intros Hok Har Hbm V'. assert (0 < dstart E) as Hd by by apply dstart_pos.
  assert (forall b, 0 <= b < sb_size sb -> used E V' b = used E V b) as Hus by (intros b Hbr; by apply used_vput).
  assert (forall k, faddr V' nd k = faddr V nd k) as Ha.
  { intros k. unfold faddr. destruct (Z.ltb_spec k NDIRECT); [done|]. destruct (Z.eqb_spec (ind nd) 0) as [?|Hne]; [done|].
    destruct (fo_ind _ _ _ Hok Hne) as [Hr _]. unfold V'. by rewrite vput_ne by lia. }
  split_and!; [|done| |done].
  - split; try apply Hok.
    + intros Hin. destruct (fo_ind _ _ _ Hok Hin) as [? ?]. rewrite Hus by lia. done.
    + intros k Hkr. rewrite Ha. intros Hk0. destruct (fo_data _ _ _ Hok k Hkr Hk0) as (? & ? & ?). rewrite Hus by lia. done.
    + intros k k' Hkr Hkr'. rewrite !Ha. by apply Hok.
    + split; [apply Hok|]. intros x Hx. rewrite Ha. by apply Hok.
  - intros x Hne Hx. unfold byte_at. rewrite Ha. destruct (fo_data _ _ _ Hok _ (block_index x Hx) Hne) as (Hr & _).
    unfold V'. by rewrite vput_ne by lia.
Qed.

Lemma save_synced V nd : file_ok E V nd -> inode_fits nd -> (forall n, length (V n) = 512%nat) -> synced (save V nd) nd.
Proof.
  intros Hok Hf Hl. unfold synced, dinode_at, save. rewrite vput_eq. apply read_write_dinode; [|by eapply inode_dinode_ok].
  rewrite Hl. apply dinode_off_bound. apply Hf.
Qed.

Lemma save_other V nd inum : file_ok E V nd -> inode_fits nd -> (forall n, length (V n) = 512%nat) ->
  0 <= inum < sb_ninodes sb -> inum <> i_inum nd -> dinode_at (save V nd) inum = dinode_at V inum.
Proof.
  intros Hok Hf Hl Hi Hne. unfold dinode_at, save. set (a := IBLOCK (i_inum nd) sb). destruct Hf as [Hn _].
  destruct (decide (IBLOCK inum sb = a)) as [He|He]; [|by rewrite vput_ne]. rewrite He, vput_eq.
  apply read_write_dinode_ne; [rewrite Hl; apply dinode_off_bound; lia|apply Hok|].
  destruct (iblock_eq inum Hi) as [E1 _], (iblock_eq (i_inum nd) Hn) as [E2 _]. unfold dinode_off. change IPB with 8 in *.
  pose proof (Z.div_mod inum 8 ltac:(lia)). pose proof (Z.div_mod (i_inum nd) 8 ltac:(lia)).
  pose proof (Z.mod_pos_bound inum 8 ltac:(lia)). pose proof (Z.mod_pos_bound (i_inum nd) 8 ltac:(lia)). lia.
Qed.
End written.

(** The number of blocks that [n] bytes from [off] on touch. *)
Definition turns (off n : Z) : nat := Z.to_nat ((off mod BSIZE + n + BSIZE - 1) / BSIZE).

Lemma spans_turns off n : 0 <= n -> spans off n (turns off n).
Proof.
  intros Hn. right. unfold turns, BSIZE. pose proof (Z.mod_pos_bound off 512 ltac:(lia)).
  set (a := off mod 512 + n + 512 - 1). pose proof (Z.div_mod a 512 ltac:(lia)). pose proof (Z.mod_pos_bound a 512 ltac:(lia)).
  pose proof (Z.div_pos a 512 ltac:(lia) ltac:(lia)). lia.
Qed.

Lemma turns_bound off n : 0 <= n -> (turns off n <= Z.to_nat (n / BSIZE) + 2)%nat.
Proof.
  intros Hn. unfold turns, BSIZE. pose proof (Z.mod_pos_bound off 512 ltac:(lia)).
  pose proof (Z.div_mod n 512 ltac:(lia)). pose proof (Z.mod_pos_bound n 512 ltac:(lia)). pose proof (Z.div_pos n 512 Hn ltac:(lia)).
  assert ((off mod 512 + n + 512 - 1) / 512 < n / 512 + 3) by (apply Z.div_lt_upper_bound; lia). lia.
Qed.

Section files.
Context (i : nat) (c : cpu) (p : nat) (pr : proc) (Hrun : p_state pr <> SLEEPING).
#[local] Existing Instance mem_driver.
Context `{DevSwitch}.
Context (E : txenv) (L : layout E).
Notation sb := (te_sb E).
Notation tx := (tx i c p pr E).
Implicit Types (V : blocks) (nd : inode) (k : Z) (bs : list Z).

(** ** readi *)

Lemma bmap_mapped w V bs ino ip nd k e :
  tx w [] V bs ino -> ino !! ip = Some nd -> file_ok E V nd -> 0 <= k < MAXFILE -> faddr V nd k <> 0 -> (length bs < NBUF)%nat ->
  exists w', bmap ip k w e = Ret (faddr V nd k) w' e /\ tx w' [] V bs ino.
Proof using L Hrun.
  intros Ht Hip Hok Hk Hne Hlen. unfold bmap. destruct (Z.ltb_spec k NDIRECT) as [Hkd|Hkd].
  - unfold kbind at 1. rewrite (tx_inode _ _ _ _ _ _ _ _ _ _ _ _ e Ht Hip).
    assert (default 0 (i_addrs nd !! Z.to_nat k) = faddr V nd k) as -> by (unfold faddr; by rewrite (proj2 (Z.ltb_lt _ _))).
    rewrite (proj2 (Z.eqb_neq _ _)) by done. by exists w.
  - cbv zeta. rewrite (proj2 (Z.ltb_lt _ _)) by (unfold MAXFILE in Hk; lia).
    assert (ind nd <> 0) as Hi by (intros H0; apply Hne; unfold faddr; rewrite (proj2 (Z.ltb_ge _ _)) by lia; by rewrite H0).
    assert (faddr V nd k = get 4 (V (ind nd)) (4 * Z.to_nat (k - NDIRECT))) as Ea.
    { unfold faddr. rewrite (proj2 (Z.ltb_ge _ _)) by lia. by rewrite (proj2 (Z.eqb_neq _ _)). }
    destruct (fo_ind _ _ _ Hok Hi) as [Hir Hiu]. pose proof (home_range E _ (data_home E L _ Hir)) as Hr0.
    destruct (tx_bread i c p pr Hrun E w [] V bs ino (ind nd) e Ht ltac:(constructor)) as (b & w1 & E1 & Ht1); [right; cbn; lia|done|].
    destruct (tx_get i c p pr E w1 b _ _ [] V bs ino e Ht1) as (bf & Eg & Hbf & _).
    destruct (tx_brelse i c p pr Hrun E w1 b _ [] V bs ino e Ht1) as (w2 & E2 & Ht2). exists w2. split; [|done].
    unfold kbind at 1. rewrite (tx_inode _ _ _ _ _ _ _ _ _ _ _ _ e Ht Hip). fold (ind nd). rewrite (proj2 (Z.eqb_neq (ind nd) 0)) by done.
    unfold kbind at 1. unfold kret at 1. unfold kbind at 1. rewrite (tx_inode _ _ _ _ _ _ _ _ _ _ _ _ e Ht Hip), (fo_dev _ _ _ Hok).
    unfold kbind at 1. rewrite E1. unfold kbind at 1. rewrite Eg, Hbf, <-Ea. rewrite (proj2 (Z.eqb_neq _ _)) by done.
    unfold kbind, kret. by rewrite E2.
Qed.

Lemma readi_loop_spec f T w V bs ino ip nd off left e :
  tx w [] V bs ino -> ino !! ip = Some nd -> file_ok E V nd -> (length bs < NBUF)%nat ->
  0 <= off -> 0 <= left -> off + left <= i_size nd -> spans off left T -> (T < f)%nat ->
  exists w', readi_loop f ip off left w e = Ret (bytes V nd off left) w' e /\ tx w' [] V bs ino.
Proof using L Hrun.
  revert T w off left. induction f as [|f IH]; intros T w off left Ht Hip Hok Hlen Ho Hl Hsz Hsp Hf; [lia|]. cbn [readi_loop].
  rewrite Z.gtb_ltb. destruct (Z.ltb_spec 0 left) as [Hlt|Hge]; [|exists w; split; [assert (left = 0) as -> by lia; done|done]].
  destruct (spans_next off left T Hlt Hsp) as (T' & -> & Hsp').
  destruct (chunk_bound left off Hlt) as [Hm1 Hm2]. set (m := chunk left off) in *.
  pose proof (fo_size _ _ _ Hok) as [Hs1 Hs2]. assert (faddr V nd (off / BSIZE) <> 0) as Hne by (apply Hs2; lia).
  destruct (bmap_mapped w V bs ino ip nd (off / BSIZE) e Ht Hip Hok (block_index off ltac:(lia)) Hne Hlen) as (w1 & E1 & Ht1).
  unfold kbind at 1. rewrite E1. unfold kbind at 1. rewrite (tx_inode _ _ _ _ _ _ _ _ _ _ _ _ e Ht1 Hip), (fo_dev _ _ _ Hok).
  destruct (fo_data _ _ _ Hok _ (block_index off ltac:(lia)) Hne) as (Hr & _ & _).
  destruct (tx_bread i c p pr Hrun E w1 [] V bs ino (faddr V nd (off / BSIZE)) e Ht1 ltac:(constructor)) as (b & w2 & E2 & Ht2);
    [right; cbn; lia|apply (home_range E), (data_home E L), Hr|].
  destruct (tx_get i c p pr E w2 b _ _ [] V bs ino e Ht2) as (bf & Eg & Hbf & _).
  destruct (tx_brelse i c p pr Hrun E w2 b _ [] V bs ino e Ht2) as (w3 & E3 & Ht3).
  unfold kbind at 1. rewrite E2. fold m. unfold kbind at 1. rewrite Eg, Hbf. unfold kbind at 1. rewrite E3.
  destruct (IH T' w3 (off + m) (left - m) Ht3 Hip Hok Hlen ltac:(lia) ltac:(lia) ltac:(lia) Hsp' ltac:(lia)) as (w4 & E4 & Ht4).
  exists w4. split; [|done]. change MAXFILE with 140 in *. unfold BSIZE in Hs1. rewrite u32_small by lia. unfold kbind at 1. rewrite E4. unfold kret.
  rewrite <-(bytes_block V nd off m), <-bytes_app by (lia || apply (tx_len _ _ _ _ _ _ _ _ _ _ Ht)). by replace (m + (left - m)) with left by lia.
Qed.

Lemma readi_spec w V bs ino ip nd off n e :
  tx w [] V bs ino -> ino !! ip = Some nd -> file_ok E V nd -> i_type nd <> T_DEV -> (length bs < NBUF)%nat ->
  0 <= off < 2 ^ 32 -> 0 <= n < 2 ^ 32 ->
  if decide (off <= i_size nd /\ off + n < 2 ^ 32) then
    let n' := Z.min n (i_size nd - off) in
    exists w', readi ip off n w e = Ret (n', bytes V nd off n') w' e /\ tx w' [] V bs ino
  else readi ip off n w e = Ret (-1, []) w e.
Proof using L Hrun.
  intros Ht Hip Hok Hty Hlen Ho Hn. pose proof (fo_size _ _ _ Hok) as [Hs _]. change MAXFILE with 140 in Hs. unfold BSIZE in Hs.
  destruct (decide _) as [[H1 H2]|Hno]; unfold readi; unfold kbind at 1;
    rewrite (tx_inode _ _ _ _ _ _ _ _ _ _ _ _ e Ht Hip), (proj2 (Z.eqb_neq _ _)) by done; rewrite !Z.gtb_ltb.
  - rewrite u32_small, (proj2 (Z.ltb_ge _ _)), (proj2 (Z.ltb_ge _ off)) by lia. cbn [orb]. cbv zeta.
    set (n' := Z.min n (i_size nd - off)).
    assert ((if i_size nd <? off + n then u32 (i_size nd - off) else n) = n') as ->.
    { unfold n'. destruct (Z.ltb_spec (i_size nd) (off + n)); [rewrite u32_small|]; lia. }
    destruct (readi_loop_spec (Z.to_nat (n' / BSIZE) + 3) (Z.to_nat (n' / BSIZE) + 2) w V bs ino ip nd off n' e Ht Hip Hok Hlen) as (w1 & E1 & Ht1);
      [lia|lia|lia|apply spans_start; lia|lia|].
    exists w1. split; [|done]. unfold kbind. rewrite E1. unfold kret. by rewrite s32_small by lia.
  - assert ((i_size nd <? off) || (u32 (off + n) <? off) = true) as ->; [|done]. apply orb_true_iff.
    destruct (Z.ltb_spec (i_size nd) off) as [?|Hle]; [by left|right]. apply Z.ltb_lt. unfold u32.
    rewrite <-(Z.mod_unique_pos (off + n) (2 ^ 32) 1 (off + n - 2 ^ 32)); lia.
Qed.

(** ** writei *)

(** One turn of the loop: [piece] goes into one block. *)
Lemma turn_spec w V bs ino ip nd off piece e :
  tx w [] V bs ino -> ino !! ip = Some nd -> file_ok E V nd -> meta_used E V ->
  0 <= off < MAXFILE * BSIZE -> piece <> [] -> off mod BSIZE + Z.of_nat (length piece) <= BSIZE ->
  faddr V nd (off / BSIZE) <> 0 \/ (1 < nfree E V)%nat -> (cost E bs nd + 3 < NBUF)%nat ->
  exists w' V' bs' nd',
    (forall A (K : KM A), (addr <- bmap ip (off / BSIZE); i <- get_inode ip; bp <- bread (i_dev i) addr;
      upd_data bp (splice (Z.to_nat (off mod BSIZE)) piece) >>; log_write bp >>; brelse bp >>; K) w e = K w' e) /\
    tx w' [] V' bs' (<[ip := nd']> ino) /\
    step E (touched off (Z.of_nat (length piece))) V bs nd V' bs' nd' {[faddr V' nd' (off / BSIZE)]} 2 /\
    written V nd V' nd' off piece /\ (faddr V nd (off / BSIZE) <> 0 -> nd' = nd) /\ bs' <> [].
Proof using L Hrun.
  intros Ht Hip Hok Hm Ho Hp Hb Hn Hc. pose proof (block_index off Ho) as Hk.
  destruct (bmap_spec i c p pr Hrun E L (fun _ => False) w V bs ino ip nd _ e Ht Hip Hok Hm Hk Hn Hc)
    as (w1 & V1 & bs1 & nd1 & E1 & Ht1 & Hs1 & Hne & Hsame).
  assert (<[ip := nd1]> ino !! ip = Some nd1) as Hip1 by (apply list_lookup_insert_eq; by eapply lookup_lt_Some).
  set (a := faddr V1 nd1 (off / BSIZE)) in *. pose proof (sp_ok _ _ _ _ _ _ _ _ _ _ Hs1) as Hok1.
  pose proof (step_cost E L _ _ _ _ _ _ _ _ _ Hs1) as Hc1. rewrite size_singleton in Hc1.
  pose proof (cost_length E L bs1 nd1 (proj1 (tx_bs _ _ _ _ _ _ _ _ _ _ Ht1))) as Hcl1.
  destruct (fo_data _ _ _ Hok1 _ Hk Hne) as (Hr & _). fold a in Hr. pose proof (data_home E L a Hr) as Hh.
  pose proof (tx_len _ _ _ _ _ _ _ _ _ _ Ht1) as Hl1.
  destruct (put_block_ok E L V1 nd1 off piece Hok1 Hl1 Ho Hne Hp Hb) as (Hok2 & Hg2 & Hw2 & Hu2 & _).
  destruct (tx_bread i c p pr Hrun E w1 [] V1 bs1 _ a e Ht1 ltac:(constructor)) as (b & w2 & E2 & Ht2); [right; cbn; lia|by apply (home_range E)|].
  destruct (tx_put i c p pr Hrun E L w2 b a (V1 a) [] V1 bs1 _ e (splice (Z.to_nat (off mod BSIZE)) piece) Ht2 Hh) as (w3 & _ & E3 & Ht3).
  { rewrite splice_length; [apply Hl1|]. rewrite Hl1. pose proof (Z.mod_pos_bound off BSIZE ltac:(unfold BSIZE; lia)). unfold BSIZE in *. lia. }
  { unfold fits. cbn. lia. }
  exists w3, (put_block V1 nd1 off piece), (logged a bs1), nd1.
  assert (faddr (put_block V1 nd1 off piece) nd1 (off / BSIZE) = a) as Ea by (by rewrite (g_addr _ _ _ _ _ _ Hg2)).
  rewrite Ea. split_and!.
  - intros A K. unfold kbind at 1. rewrite E1. unfold kbind at 1. rewrite (tx_inode _ _ _ _ _ _ _ _ _ _ _ _ e Ht1 Hip1), (fo_dev _ _ _ Hok1).
    unfold kbind at 1. rewrite E2. apply E3.
  - exact Ht3.
  - rewrite <-(union_idemp_L {[a]}). refine (step_trans E L _ _ _ _ V1 bs1 nd1 _ _ _ _ _ 2 0 (step_mono E _ _ _ _ _ _ _ _ _ _ _ Hs1) _); [done|].
    split; [done|done| | | |intros n Hn'; rewrite elem_of_logged; tauto].
    + intros Hm1 x Hx. rewrite Hu2; [by apply Hm1|]. pose proof (ly_data E L). lia.
    + assert (nfree E (put_block V1 nd1 off piece) = nfree E V1) as ->; [|lia]. unfold nfree. f_equal. apply filter_agree.
      intros x Hx%elem_of_seqZ. by rewrite Hu2 by lia.
    + intros n [->|?]%elem_of_logged; [|by left]. right. right. right. by apply elem_of_singleton.
  - split; [apply Hw2|]. intros x Hx Hxne Hout. rewrite (wr_out _ _ _ _ _ _ Hw2); [|done| |done].
    + eapply (grows_byte E L); [done|apply Hs1|done|done].
    + rewrite (g_addr _ _ _ _ _ _ (sp_grows _ _ _ _ _ _ _ _ _ _ Hs1)); [done|by apply block_index|done].
  - intros Ha. by destruct (Hsame Ha) as (_ & _ & ->).
  - intros Hnil. assert (a ∈ logged a bs1) as Hin by (apply elem_of_logged; by left). rewrite Hnil in Hin. by apply not_elem_of_nil in Hin.
Qed.

(** The blocks for the bytes are there, or enough blocks are free. *)
Definition mapped V nd (off n : Z) : Prop := forall x, off <= x < off + n -> faddr V nd (x / BSIZE) <> 0.

Lemma touched_sub off n m k : 0 <= m <= n -> touched off m k \/ touched (off + m) (n - m) k -> touched off n k.
Proof. unfold touched. lia. Qed.

Lemma writei_loop_spec f T w V bs ino ip nd src off e :
  tx w [] V bs ino -> ino !! ip = Some nd -> file_ok E V nd -> meta_used E V -> 0 <= off ->
  off + Z.of_nat (length src) <= MAXFILE * BSIZE -> spans off (Z.of_nat (length src)) T -> (T < f)%nat ->
  mapped V nd off (Z.of_nat (length src)) \/ (2 * T <= nfree E V)%nat -> (cost E bs nd + T + 2 < NBUF)%nat ->
  exists w' V' bs' nd' (X : gset Z),
    writei_loop f ip src off (Z.of_nat (length src)) w e = Ret (off + Z.of_nat (length src)) w' e /\
    tx w' [] V' bs' (<[ip := nd']> ino) /\ (size X <= T)%nat /\
    step E (touched off (Z.of_nat (length src))) V bs nd V' bs' nd' X (2 * T) /\
    written V nd V' nd' off src /\ (mapped V nd off (Z.of_nat (length src)) -> nd' = nd) /\
    (src <> [] -> bs' <> []).
Proof using L Hrun.
  revert T w V bs ino nd src off. induction f as [|f IH]; intros T w V bs ino nd src off Ht Hip Hok Hm Ho Hmax Hsp Hf Hn Hc; [lia|].
  cbn [writei_loop]. rewrite Z.gtb_ltb. destruct (Z.ltb_spec 0 (Z.of_nat (length src))) as [Hlt|Hge].
  2:{ assert (src = []) as -> by (destruct src; [done|cbn in Hge; lia]). exists w, V, bs, nd, ∅. cbn. rewrite Z.add_0_r.
      rewrite list_insert_id by done. split_and!; try done; [rewrite fin_sets.size_empty; lia|].
      apply (step_more E _ _ _ _ _ _ _ _ 0); [lia|by apply step_refl]. }
  set (left := Z.of_nat (length src)) in *. destruct (spans_next off left T Hlt Hsp) as (T' & -> & Hsp').
  destruct (chunk_bound left off Hlt) as [Hm1 Hm2]. set (m := chunk left off) in *.
  set (piece := take (Z.to_nat m) src). assert (Z.of_nat (length piece) = m) as Hpl by (unfold piece; rewrite length_take; lia).
  assert (Z.of_nat (length (drop (Z.to_nat m) src)) = left - m) as Hdl by (rewrite length_drop; lia).
  destruct (turn_spec w V bs ino ip nd off piece e Ht Hip Hok Hm) as (w1 & V1 & bs1 & nd1 & E1 & Ht1 & Hs1 & Hw1 & Hsame1 & Hbs1).
  { lia. } { intros Hp. rewrite Hp in Hpl. cbn in Hpl. lia. } { lia. }
  { destruct Hn as [Hn|Hn]; [left; apply Hn; lia|right; lia]. } { lia. }
  rewrite Hpl in Hs1. pose proof (step_cost E L _ _ _ _ _ _ _ _ _ Hs1) as Hc1. rewrite size_singleton in Hc1.
  pose proof (sp_grows _ _ _ _ _ _ _ _ _ _ Hs1) as Hg1. pose proof (sp_free _ _ _ _ _ _ _ _ _ _ Hs1) as Hn1.
  assert (mapped V nd off left -> mapped V1 nd1 (off + m) (left - m)) as Hmap.
  { intros Hmp x Hx. rewrite (g_addr _ _ _ _ _ _ Hg1); [apply Hmp; lia|apply block_index; lia|apply Hmp; lia]. }
  destruct (IH T' w1 V1 bs1 (<[ip := nd1]> ino) nd1 (drop (Z.to_nat m) src) (off + m) Ht1) as (w2 & V2 & bs2 & nd2 & X & E2 & Ht2 & HX & Hs2 & Hw2 & Hsame2 & _).
  { apply list_lookup_insert_eq. by eapply lookup_lt_Some. } { apply Hs1. } { by apply Hs1. } { lia. } { lia. } { by rewrite Hdl. } { lia. }
  { rewrite Hdl. destruct Hn as [Hn|Hn]; [left; by apply Hmap|right; lia]. } { lia. }
  rewrite Hdl in E2, Hs2, Hsame2. rewrite list_insert_insert_eq in Ht2. fold left.
  exists w2, V2, bs2, nd2, ({[faddr V1 nd1 (off / BSIZE)]} ∪ X). split_and!.
  - change MAXFILE with 140 in *. unfold BSIZE in Hmax. rewrite u32_small by lia. etrans; [apply E1|]. rewrite E2. f_equal. lia.
  - done.
  - pose proof (size_union_alt {[faddr V1 nd1 (off / BSIZE)]} X) as Hu. rewrite size_singleton in Hu.
    assert (size (X ∖ {[faddr V1 nd1 (off / BSIZE)]}) <= size X)%nat by (apply subseteq_size; set_solver). lia.
  - replace (2 * S T')%nat with (2 + 2 * T')%nat by lia.
    refine (step_trans E L _ _ _ _ V1 bs1 nd1 _ _ _ _ _ _ _ (step_mono E _ _ _ _ _ _ _ _ _ _ _ Hs1) (step_mono E _ _ _ _ _ _ _ _ _ _ _ Hs2));
      intros k Hk; eapply touched_sub; eauto; lia.
  - rewrite <-(take_drop (Z.to_nat m) src). fold piece.
    apply (written_app E (touched off left) V nd V1 nd1 V2 nd2); [done|by rewrite length_app; lia| | |done|by rewrite Hpl].
    + apply (grows_mono E (touched off m)); [|done]. intros k Hk. eapply touched_sub; eauto. lia.
    + apply (grows_mono E (touched (off + m) (left - m))); [|apply Hs2]. intros k Hk. eapply touched_sub; eauto. lia.
  - intros Hmp. rewrite Hsame2 by by apply Hmap. apply Hsame1, Hmp. lia.
  - intros _ Hnil. apply Hbs1. apply list_nil_subseteq. rewrite <-Hnil. apply Hs2.
Qed.

Lemma iupdate_spec w V bs ino ip nd e :
  tx w [] V bs ino -> ino !! ip = Some nd -> file_ok E V nd -> inode_fits E nd -> fits 1 bs [] ->
  exists w', iupdate ip w e = Ret tt w' e /\ tx w' [] (save E V nd) (logged (IBLOCK (i_inum nd) sb) bs) ino.
Proof using L Hrun.
  intros Ht Hip Hok Hf Hfit. destruct (iblock_facts E L _ (proj1 Hf)) as (Hh & _). pose proof (tx_len _ _ _ _ _ _ _ _ _ _ Ht) as Hl.
  destruct (tx_bread i c p pr Hrun E w [] V bs ino (IBLOCK (i_inum nd) sb) e Ht ltac:(constructor)) as (b & w1 & E1 & Ht1);
    [right; unfold fits in Hfit; cbn in *; lia|exact (home_range E _ Hh)|].
  unfold iupdate. unfold kbind at 1. rewrite (tx_inode _ _ _ _ _ _ _ _ _ _ _ _ e Ht Hip). unfold kbind at 1.
  rewrite (tx_sb _ _ _ _ _ _ _ _ _ _ e Ht), (fo_dev _ _ _ Hok). unfold kbind at 1. rewrite E1. unfold kbind at 1.
  rewrite (tx_inode _ _ _ _ _ _ _ _ _ _ _ _ e Ht1 Hip).
  destruct (tx_put i c p pr Hrun E L w1 b _ _ [] V bs ino e (write_dinode (dinode_off (i_inum nd)) (inode_dinode nd)) Ht1 Hh) as (w2 & E2 & _ & Ht2);
    [|done|by exists w2].
  rewrite write_dinode_length; [apply Hl|rewrite Hl; apply dinode_off_bound, Hf|apply Hok].
Qed.

(** What a successful writei does to the blocks, the inode and the list of blocks to commit. *)
Record wrote V bs nd V' bs' nd' (off : Z) (src : list Z) (T : nat) : Prop := mkWrote {
  wf_ok : file_ok E V' nd';
  wf_meta : meta_used E V';
  wf_inode : nd' = set_i_size (fun _ => i_size nd') (set_i_addrs (fun _ => i_addrs nd') nd);
  wf_size : i_size nd' = Z.max (i_size nd) (off + Z.of_nat (length src));
  wf_contents : contents V' nd' = splice (Z.to_nat off) src (contents V nd);
  wf_sync : synced E V nd -> synced E V' nd';
  wf_others : forall inum, 0 <= inum < sb_ninodes sb -> inum <> i_inum nd -> dinode_at E V' inum = dinode_at E V inum;
  wf_used : forall b, 0 <= b < sb_size sb -> used E V b = true -> used E V' b = true;
  wf_frame : forall b, 0 <= b < sb_size sb -> used E V b = true -> ~ bitmap_block E b -> b <> IBLOCK (i_inum nd) sb ->
    b <> ind nd -> (forall k, 0 <= k < MAXFILE -> b <> faddr V nd k) -> V' b = V b;
  wf_files : forall nd2, file_ok E V nd2 -> apart_files V nd nd2 -> file_ok E V' nd2 /\ contents V' nd2 = contents V nd2;
  wf_log : (length bs' <= cost E bs nd + T + 1)%nat;
  wf_some : src <> [] -> bs' <> []
}.

(** The loop has written up to the end of the file or inside it: the inode stays. *)
Lemma wrote_inside V bs nd V' bs' (X : gset Z) off src T m :
  0 <= off -> off + Z.of_nat (length src) <= i_size nd -> file_ok E V nd -> meta_used E V -> inode_fits E nd -> NoDup bs' -> (size X <= T)%nat -> (src <> [] -> bs' <> []) ->
  step E (touched off (Z.of_nat (length src))) V bs nd V' bs' nd X m -> written V nd V' nd off src ->
  wrote V bs nd V' bs' nd off src T.
Proof using L.
  intros Ho Hs Hok Hm Hf Hnd HX Hbs Hst Hw. pose proof (sp_grows _ _ _ _ _ _ _ _ _ _ Hst) as Hg. pose proof (fo_size _ _ _ Hok) as [Hs1 Hs2].
  pose proof (grows_iblock E L _ V nd V' _ Hok Hm Hg) as Hib.
  split.
  - apply Hst.
  - by apply Hst.
  - by destruct nd.
  - lia.
  - apply bytes_splice; [lia|lia|intros j x Hj; by apply Hw|]. intros x Hx Hout. apply Hw; [lia|by apply Hs2|done].
  - unfold synced, dinode_at. by rewrite Hib by apply Hf.
  - intros inum Hi _. unfold dinode_at. by rewrite Hib.
  - apply Hg.
  - intros b Hb Hu Hbm _ Hbi Hbd. apply (g_frame _ _ _ _ _ _ Hg); auto.
  - intros nd2 Hok2 Hap. by destruct (grows_other E L _ V nd V' nd nd2 Hok Hok2 Hg Hap) as (? & _ & ? & _).
  - pose proof (step_cost E L _ _ _ _ _ _ _ _ _ Hst). pose proof (cost_length E L bs' nd Hnd). lia.
  - done.
Qed.

(** The loop has written beyond the end of the file: the size is set and the inode saved. *)
Lemma wrote_beyond V bs nd V1 bs1 nd1 (X : gset Z) off src T m :
  let nd' := set_i_size (fun _ => off + Z.of_nat (length src)) nd1 in
  0 <= off <= i_size nd -> i_size nd < off + Z.of_nat (length src) -> off + Z.of_nat (length src) <= MAXFILE * BSIZE ->
  file_ok E V nd -> meta_used E V -> inode_fits E nd -> NoDup bs1 -> (size X <= T)%nat -> (src <> [] -> bs1 <> []) -> (forall n, length (V1 n) = 512%nat) ->
  step E (touched off (Z.of_nat (length src))) V bs nd V1 bs1 nd1 X m -> written V nd V1 nd1 off src ->
  file_ok E V1 nd' /\ inode_fits E nd' /\ wrote V bs nd (save E V1 nd') (logged (IBLOCK (i_inum nd') sb) bs1) nd' off src T.
Proof using L.
  intros nd' Ho Hs Hmax Hok Hm Hf Hnd HX Hbs Hl Hst Hw. pose proof (sp_grows _ _ _ _ _ _ _ _ _ _ Hst) as Hg. pose proof (fo_size _ _ _ Hok) as [Hs1 Hs2].
  pose proof (sp_ok _ _ _ _ _ _ _ _ _ _ Hst) as Hok1. pose proof (g_same _ _ _ _ _ _ Hg) as Hsame.
  assert (file_ok E V1 nd') as Hok'.
  { split; try apply Hok1. split; [cbn; lia|]. cbn [nd' i_size set_i_size]. intros x Hx. change (faddr V1 nd' (x / BSIZE)) with (faddr V1 nd1 (x / BSIZE)).
    destruct (decide (x < i_size nd)) as [Hlt|Hge].
    - rewrite (g_addr _ _ _ _ _ _ Hg); [by apply Hs2; lia|apply block_index; lia|apply Hs2; lia].
    - destruct (lookup_lt_is_Some_2 src (Z.to_nat (x - off))) as [y Hy]; [lia|].
      destruct (wr_in _ _ _ _ _ _ Hw _ y Hy) as [Hne _]. by replace (off + Z.of_nat (Z.to_nat (x - off))) with x in Hne by lia. }
  assert (inode_fits E nd') as Hf' by (unfold nd'; rewrite Hsame; exact Hf).
  assert (i_inum nd' = i_inum nd) as Hin by (unfold nd'; rewrite Hsame; done).
  destruct (iblock_facts E L _ (proj1 Hf')) as (_ & Hb & Hr).
  destruct (file_ok_put E L V1 nd' (IBLOCK (i_inum nd') sb) (write_dinode (dinode_off (i_inum nd')) (inode_dinode nd') (V1 (IBLOCK (i_inum nd') sb))) Hok' Hr Hb)
    as (Hok2 & Ha2 & Hb2 & Hu2). fold (save E V1 nd') in *.
  pose proof (grows_iblock E L _ V nd V1 _ Hok Hm Hg) as Hib.
  split_and!; [done|done|]. split.
  - done.
  - intros b Hbr. rewrite Hu2; [exact (sp_meta _ _ _ _ _ _ _ _ _ _ Hst Hm b Hbr)|]. pose proof (ly_data E L). lia.
  - unfold nd'. rewrite Hsame. done.
  - cbn. lia.
  - apply bytes_splice; [lia|cbn; lia| |].
    + intros j x Hj. pose proof (lookup_lt_Some _ _ _ Hj). destruct (wr_in _ _ _ _ _ _ Hw j x Hj) as [Hne Hx]. rewrite Hb2; [done|done|lia].
    + intros x Hx Hout. rewrite Hb2; [by apply Hw; [lia|apply Hs2|]| |lia].
      change (faddr V1 nd1 (x / BSIZE) <> 0). rewrite (g_addr _ _ _ _ _ _ Hg); [by apply Hs2|apply block_index; lia|by apply Hs2].
  - intros _. by apply save_synced.
  - intros inum Hi Hne. rewrite save_other; try done; [|by rewrite Hin]. unfold dinode_at. by rewrite Hib.
  - intros b Hbr Hu. rewrite Hu2 by done. by apply Hg.
  - intros b Hbr Hu Hbm Hbi Hbn Hbd. unfold save. rewrite vput_ne by (by rewrite Hin). apply (g_frame _ _ _ _ _ _ Hg); auto.
  - intros nd2 Hok3 Hap. destruct (grows_other E L _ V nd V1 nd1 nd2 Hok Hok3 Hg Hap) as (Hok4 & _ & <- & _).
    destruct (file_ok_put E L V1 nd2 (IBLOCK (i_inum nd') sb) (write_dinode (dinode_off (i_inum nd')) (inode_dinode nd') (V1 (IBLOCK (i_inum nd') sb))) Hok4 Hr Hb)
      as (Hok5 & _ & Hb5 & _). split; [exact Hok5|]. pose proof (fo_size _ _ _ Hok4) as [Hs3 Hs4].
    apply bytes_ext. intros x Hx. apply Hb5; [apply Hs4; lia|lia].
  - pose proof (step_cost E L _ _ _ _ _ _ _ _ _ Hst). pose proof (cost_length E L bs1 nd1 Hnd). pose proof (logged_length (IBLOCK (i_inum nd') sb) bs1). lia.
  - intros Hsrc Hnil. apply (Hbs Hsrc), list_nil_subseteq. rewrite <-Hnil. intros n Hn. rewrite elem_of_logged. by right.
Qed.

Lemma writei_spec w V bs ino ip nd src off e :
  let n := Z.of_nat (length src) in
  tx w [] V bs ino -> ino !! ip = Some nd -> file_ok E V nd -> meta_used E V -> inode_fits E nd -> i_type nd <> T_DEV ->
  0 <= off < 2 ^ 32 -> n < 2 ^ 32 ->
  mapped V nd off n \/ (2 * turns off n <= nfree E V)%nat -> (cost E bs nd + turns off n + 2 < NBUF)%nat ->
  if decide (off <= i_size nd /\ off + n <= MAXFILE * BSIZE) then
    exists w' V' bs' nd', writei ip src off w e = Ret n w' e /\ tx w' [] V' bs' (<[ip := nd']> ino) /\
      wrote V bs nd V' bs' nd' off src (turns off n)
  else writei ip src off w e = Ret (-1) w e.
Proof using L Hrun.
  intros n Ht Hip Hok Hm Hf Hty Ho Hn Hfree Hc. pose proof (fo_size _ _ _ Hok) as [Hs Hs2]. change (MAXFILE * BSIZE) with 71680 in *.
  destruct (decide _) as [[H1 H2]|Hno]; unfold writei; unfold kbind at 1;
    rewrite (tx_inode _ _ _ _ _ _ _ _ _ _ _ _ e Ht Hip), (proj2 (Z.eqb_neq _ _)) by done; rewrite !Z.gtb_ltb; fold n;
    change (MAXFILE * BSIZE) with 71680.
  - rewrite u32_small, (proj2 (Z.ltb_ge _ _)), (proj2 (Z.ltb_ge _ off)), (proj2 (Z.ltb_ge 71680 _)) by lia. cbn [orb].
    pose proof (spans_turns off n ltac:(lia)) as Hsp. pose proof (turns_bound off n ltac:(lia)) as Htb.
    destruct (writei_loop_spec (Z.to_nat (n / BSIZE) + 3) (turns off n) w V bs ino ip nd src off e Ht Hip Hok Hm)
      as (w1 & V1 & bs1 & nd1 & X & E1 & Ht1 & HX & Hs1 & Hw1 & Hsame1 & Hbs1); try done; [lia|lia|].
    fold n in E1, Hs1, Hsame1. unfold kbind at 1. rewrite E1. unfold kbind at 1.
    assert (<[ip := nd1]> ino !! ip = Some nd1) as Hip1 by (apply list_lookup_insert_eq; by eapply lookup_lt_Some).
    rewrite (tx_inode _ _ _ _ _ _ _ _ _ _ _ _ e Ht1 Hip1). rewrite !Z.gtb_ltb.
    assert (i_size nd1 = i_size nd) as Hsz by (rewrite (g_same _ _ _ _ _ _ (sp_grows _ _ _ _ _ _ _ _ _ _ Hs1)); done).
    pose proof (proj1 (tx_bs _ _ _ _ _ _ _ _ _ _ Ht1)) as Hnd1. rewrite Hsz.
    destruct (Z.ltb_spec (i_size nd) (off + n)) as [Hgt|Hle].
    + rewrite (proj2 (Z.ltb_lt 0 n)) by lia. cbn [andb kwhen].
      destruct (wrote_beyond V bs nd V1 bs1 nd1 X off src (turns off n) _ ltac:(lia) Hgt H2 Hok Hm Hf Hnd1 HX Hbs1 (tx_len _ _ _ _ _ _ _ _ _ _ Ht1) Hs1 Hw1) as (Hok' & Hf' & Hwr).
      fold n in Hok', Hf', Hwr. set (nd' := set_i_size _ nd1) in *.
      pose proof (tx_upd_inode i c p pr E w1 _ _ _ _ ip nd1 (set_i_size (fun _ => off + n)) Ht1 Hip1) as Ht2. fold nd' in Ht2. rewrite list_insert_insert_eq in Ht2.
      pose proof (step_cost E L _ _ _ _ _ _ _ _ _ Hs1). pose proof (cost_length E L bs1 nd1 Hnd1).
      destruct (iupdate_spec _ V1 bs1 _ ip nd' e Ht2) as (w3 & E3 & Ht3); try done.
      { apply list_lookup_insert_eq. by eapply lookup_lt_Some. } { unfold fits. cbn. lia. }
      exists w3, (save E V1 nd'), (logged (IBLOCK (i_inum nd') sb) bs1), nd'. split_and!; [|done|done].
      unfold kbind, kmod. by rewrite E3.
    + rewrite andb_false_r. cbn [kwhen]. assert (nd1 = nd) as ->.
      { apply Hsame1. intros x Hx. apply Hs2. lia. }
      exists w1, V1, bs1, nd. split_and!; [done|done|]. eapply (wrote_inside V bs nd V1 bs1 X); eauto. lia.
  - destruct (Z.ltb_spec (i_size nd) off) as [?|Hle]; [done|]. cbn [orb]. destruct (decide (off + n < 2 ^ 32)) as [Hlt|Hge].
    + rewrite u32_small, (proj2 (Z.ltb_ge _ _)), (proj2 (Z.ltb_lt 71680 _)) by lia. done.
    + assert (u32 (off + n) <? off = true) as ->; [|done]. apply Z.ltb_lt. unfold u32.
      rewrite <-(Z.mod_unique_pos (off + n) (2 ^ 32) 1 (off + n - 2 ^ 32)); lia.
Qed.
End files.
