(* ===== verification/Fsdemo.v ===== *)
(** * A small file system

    A disk as mkfs lays it out with one file and one directory, and the machine at the start of
    a transaction on it: concrete states in which the hypotheses about file systems hold. *)

From Stdlib Require Import ZArith Lia.
From stdpp Require Import base list gmap strings numbers.
From S2P Require Import Prelude Machine Cstring Spinlock Boot Sched Sleeplock Layout Bio Log Bcache Crash Fs Txn Balloc Inodes Files.
From stdpp Require Import list.
Local Open Scope Z_scope.
Local Open Scope kern_scope.

(** The cache does not depend on the superblock and on the inodes. *)
Lemma cache_inodes i c p pr w held D f g :
  cache i c p pr w held D -> cache i c p pr (set_w_sb f (set_w_inodes g w)) held D.
Proof.
  intros [H1 H2 H3 H4 H5 H6 H7 H8]. split; try done.
  apply (kctx_frame w i c p pr H1 (fun w => set_w_sb f (set_w_inodes g w))). apply H1.
Qed.

(** ** An example: a disk as mkfs makes it, with a file and a directory *)

Module FsDemo.
#[local] Existing Instance mem_driver.
Definition sb : superblock := mkSuperblock 1000 941 200 30 2 32 58.
Definition words (ws : list Z) : list Z := put_words 0 ws (replicate 512 0).
Definition bitmap : list Z := foldr bit_set (replicate 512 0) (seqZ 0 61).
(** Inode 5: a file of three bytes in block 59. *)
Definition afile : inode := mkInode 1 5 1 1 2 0 0 1 3 (59 :: replicate 12 0).
(** Inode 1: a directory with itself as its parent, in block 60. *)
Definition dir : inode := mkInode 1 1 1 1 1 0 0 1 32 (60 :: replicate 12 0).
Definition dot (n : nat) : list Z := mk_dirent 1 (replicate n 46 ++ replicate (14 - n) 0).
Definition fs_disk : disk := list_to_map
  [(1, words [1000; 941; 200; 30; 2; 32; 58]);
   (32, write_dinode (dinode_off 1) (inode_dinode dir) (write_dinode (dinode_off 5) (inode_dinode afile) (replicate 512 0)));
   (58, bitmap);
   (59, [104; 105; 33] ++ replicate 509 0);
   (60, dot 1 ++ dot 2 ++ replicate 480 0)].
Definition env : txenv := mkTxenv 2 1000 1 fs_disk [] sb.
Definition ino : list inode := afile :: dir :: replicate 48 (mkInode 0 0 0 0 0 0 0 0 0 (replicate 13 0)).
Definition fs_world (lg : logstate) : world :=
  set_w_sb (fun _ => sb) (set_w_inodes (fun _ => ino) (demo_world fs_disk 0 0 0 [] lg)).
Definition start : world := fs_world (demo_log 0 0 1).
Definition view0 : blocks := blk fs_disk.
#[local] Instance no_devs : DevSwitch := {| dev_read _ := None; dev_write _ := None |}.

Lemma fs_blk m : length (view0 m) = 512%nat.
Proof.
  assert (map_Forall (fun _ d => length d = 512%nat) fs_disk) as H by (apply (bool_decide_unpack _); vm_compute; exact I).
  unfold view0, blk. destruct (fs_disk !! m) as [d|] eqn:Hd; [exact (H m d Hd)|apply length_replicate].
Qed.

Lemma fs_layout : layout env.
Proof. split; vm_compute; intuition discriminate. Qed.

Lemma fs_cache lg : cache 0 ctx_cpu 1 ctx_proc (fs_world lg) [] ∅.
Proof.
  unfold fs_world. apply cache_inodes, demo_cache; [exact fs_blk|]. left. repeat split.
Qed.

Lemma fs_tx : tx 0 ctx_cpu 1 ctx_proc env start [] view0 [] ino.
Proof.
  split.
  - exists ∅. split_and!; [apply fs_cache|reflexivity|]. intros n. rewrite lookup_empty. split; [by intros [? ?]|by intros ?%not_elem_of_nil].
  - constructor.
  - exact fs_blk.
  - split_and!; try reflexivity. unfold LOGSIZE, MAXOPBLOCKS. cbn. lia.
  - split; constructor.
  - split_and!; reflexivity.
  - split_and!; reflexivity.
  - reflexivity.
Qed.

Lemma fs_meta : meta_used env view0.
Proof.
  assert (Forall (fun b => used env view0 b = true) (seqZ 0 59)) as H by (apply (bool_decide_unpack _); vm_compute; exact I).
  intros b Hb. apply (proj1 (Forall_forall _ _) H), elem_of_seqZ. exact Hb.
Qed.

(** A file of one block. *)
Lemma one_block nd b :
  length (i_addrs nd) = 13%nat -> i_dev nd = 1 -> ind nd = 0 -> i_addrs nd !! 0%nat = Some b -> b <> 0 ->
  Forall (fun k => faddr view0 nd k = 0) (seqZ 1 139) -> dstart env <= b < sb_size sb -> used env view0 b = true -> 0 <= i_size nd <= 512 ->
  file_ok env view0 nd.
Proof.
  intros Hlen Hdev Hi Hb Hb0 Hall Hr Hu Hs. assert (faddr view0 nd 0 = b) as H0 by (unfold faddr; change (0 <? NDIRECT) with true; change (Z.to_nat 0) with 0%nat; by rewrite Hb).
  assert (forall k, 0 <= k < MAXFILE -> faddr view0 nd k <> 0 -> k = 0) as Hz.
  { intros k Hk Hne. change MAXFILE with 140 in Hk. destruct (decide (k = 0)) as [?|Hk0]; [done|]. exfalso. apply Hne.
    apply (proj1 (Forall_forall _ _) Hall), elem_of_seqZ. lia. }
  split; [done|done|by rewrite Hi|..].
  - intros k Hk Hne. rewrite (Hz k Hk Hne), H0, Hi. done.
  - intros k k' Hk Hk' Hne He. rewrite (Hz k Hk Hne). symmetry. apply Hz; [done|congruence].
  - split; [change (MAXFILE * BSIZE) with 71680; lia|]. intros x Hx. unfold BSIZE. rewrite Z.div_small by lia. by rewrite H0.
Qed.

Lemma fs_file : file_ok env view0 afile.
Proof.
  apply (one_block afile 59); try reflexivity; [discriminate| |vm_compute; intuition discriminate..].
  apply (bool_decide_unpack _). vm_compute. exact I.
Qed.
Lemma fs_dir : file_ok env view0 dir.
Proof.
  apply (one_block dir 60); try reflexivity; [discriminate| |vm_compute; intuition discriminate..].
  apply (bool_decide_unpack _). vm_compute. exact I.
Qed.

Lemma fs_fits : inode_fits env afile.
Proof. vm_compute. intuition discriminate. Qed.

Lemma fs_dir_fits : inode_fits env dir.
Proof. vm_compute. intuition discriminate. Qed.

Lemma fs_synced : synced env view0 afile.
Proof. vm_compute. reflexivity. Qed.

Lemma fs_clear : clear 2 fs_disk.
Proof. split; [apply fs_blk|vm_compute; reflexivity]. Qed.

(** Seven hundred bytes from the end of the file on: a block more is needed. *)
Definition data : list Z := replicate 700 97.
Lemma fs_room : (2 * turns 3 700 <= nfree env view0)%nat.
Proof. apply Nat.leb_le. vm_compute. reflexivity. Qed.
Lemma fs_cost : (cost env [] afile + turns 3 700 + 2 < NBUF)%nat.
Proof. apply Nat.ltb_lt. vm_compute. reflexivity. Qed.
End FsDemo.

