(* ===== verification/Dirs.v ===== *)
(** * Directories (fs.c: iget, dirlookup, dirlink)

    A directory is a file of entries of sixteen bytes.  dirlookup finds the first entry that is in
    use and has the name; dirlink writes a new entry over the first one that is not in use, or at
    the end.  A name that has been linked is found. *)

From Stdlib Require Import ZArith Lia.
From stdpp Require Import base list gmap strings numbers.
From S2P Require Import Prelude Machine Cstring Spinlock Boot Sched Sleeplock Layout Bio Log Bcache Crash Fs Txn Balloc Inodes Files Fsdemo.
From stdpp Require Import list.
Local Open Scope Z_scope.
Local Open Scope kern_scope.

(** The [k]th entry, and all of them. *)
Definition dirent_at (V : blocks) (nd : inode) (k : nat) : list Z := bytes V nd (DIRENT * Z.of_nat k) DIRENT.
Definition ndirents (nd : inode) : nat := Z.to_nat (i_size nd / DIRENT).
Definition dirents (V : blocks) (nd : inode) : list (list Z) := dirent_at V nd <$> seq 0 (ndirents nd).
(** An entry that is in use and has the name. *)
Definition matches (name de : list Z) : bool := negb (de_inum de =? 0) && (namecmp name (de_name de) =? 0).
Definition empty (de : list Z) : bool := de_inum de =? 0.

Lemma dirents_lookup V nd k : (k < ndirents nd)%nat -> dirents V nd !! k = Some (dirent_at V nd k).
Proof. intros Hk. unfold dirents. by rewrite list_lookup_fmap, lookup_seq_lt. Qed.

Lemma dirents_length V nd : length (dirents V nd) = ndirents nd.
Proof. unfold dirents. by rewrite length_fmap, length_seq. Qed.

(** Copying a name and comparing it with the copy. *)
Lemma strncmp_strncpy s t n : (n <= length s)%nat -> strncmp t (strncpy_loop s t n) n = 0.
Proof.
  revert s t. induction n as [|n IH]; intros [|x s] t Hn; cbn in Hn |- *; try (done || lia).
  destruct (Z.eqb_spec (default 0 (head t)) 0) as [->|Hne]; [done|]. rewrite Z.eqb_refl. cbn. apply IH. lia.
Qed.

Section dirs.
Context (i : nat) (c : cpu) (p : nat) (pr : proc) (Hrun : p_state pr <> SLEEPING).
#[local] Existing Instance mem_driver.
Context `{DevSwitch}.
Context (E : txenv) (L : layout E).
Notation sb := (te_sb E).
Notation tx := (tx i c p pr E).
Implicit Types (V : blocks) (nd : inode) (bs : list Z).

(** ** iget *)

Definition cached (dev inum : Z) (ip : inode) : bool := (i_ref ip >? 0) && (i_dev ip =? dev) && (i_inum ip =? inum).

(** iget of an inode that is in the cache takes another reference to it. *)
Lemma iget_hit w h V bs ino dev inum ip nd e :
  tx w h V bs ino -> find_idx (cached dev inum) ino = Some ip -> ino !! ip = Some nd ->
  exists w', iget dev inum w e = Ret ip w' e /\ tx w' h V bs (<[ip := set_i_ref (fun r => r + 1) nd]> ino).
Proof.
  intros Ht Hf Hip. pose proof Ht as [(D & Hc & _) _ _ _ _ _ _ Hi]. pose proof (ca_ctx _ _ _ _ _ _ _ Hc) as Hctx.
  pose proof Hctx as [K1 K2 K3 K4 K5]. exists (upd_inode ip (set_i_ref (fun r => r + 1)) w). split; [|by apply tx_upd_inode].
  unfold iget. unfold kbind at 1. rewrite (acquire_eq w i c) by auto. unfold kbind at 1, kget at 1.
  change (w_inodes (entered i IcacheLock w)) with (w_inodes w). rewrite Hi. fold (cached dev inum). rewrite Hf.
  unfold kbind, kmod. rewrite (release_section w i c IcacheLock K1 (upd_inode ip (set_i_ref (fun r => r + 1)))) by auto.
  by rewrite K2.
Qed.

(** ** dirlookup *)

Lemma read_dirent w V bs ino dp nd k e :
  tx w [] V bs ino -> ino !! dp = Some nd -> file_ok E V nd -> i_type nd <> T_DEV -> (length bs < NBUF)%nat -> (k < ndirents nd)%nat ->
  exists w', readi dp (DIRENT * Z.of_nat k) DIRENT w e = Ret (DIRENT, dirent_at V nd k) w' e /\ tx w' [] V bs ino.
Proof using L Hrun.
  intros Ht Hip Hok Hty Hlen Hk. pose proof (fo_size _ _ _ Hok) as [Hs _]. change (MAXFILE * BSIZE) with 71680 in Hs. unfold ndirents, DIRENT in *.
  pose proof (Z.div_mod (i_size nd) 16 ltac:(lia)). pose proof (Z.mod_pos_bound (i_size nd) 16 ltac:(lia)).
  pose proof (readi_spec i c p pr Hrun E L w V bs ino dp nd (16 * Z.of_nat k) 16 e Ht Hip Hok Hty Hlen ltac:(lia) ltac:(lia)) as Hr.
  rewrite decide_True in Hr by lia. cbv zeta in Hr. destruct Hr as (w' & Er & Ht'). exists w'. split; [|done].
  rewrite Er. by replace (Z.min 16 (i_size nd - 16 * Z.of_nat k)) with 16 by lia.
Qed.

Lemma dirlookup_loop_spec f w V bs ino dp nd name k e :
  tx w [] V bs ino -> ino !! dp = Some nd -> file_ok E V nd -> i_type nd <> T_DEV -> (length bs < NBUF)%nat -> i_size nd mod DIRENT = 0 ->
  (k <= ndirents nd)%nat -> (ndirents nd - k < f)%nat ->
  exists w', tx w' [] V bs ino /\
    dirlookup_loop f dp name (DIRENT * Z.of_nat k) w e =
    match find_idx (matches name) (drop k (dirents V nd)) with
    | Some j => (ip <- iget 1 (de_inum (dirent_at V nd (k + j))); kret (Some (ip, DIRENT * Z.of_nat (k + j)))) w' e
    | None => Ret None w' e
    end.
Proof using L Hrun.
  revert w k. induction f as [|f IH]; intros w k Ht Hip Hok Hty Hlen Hmod Hk Hf; [lia|]. cbn [dirlookup_loop].
  unfold kbind at 1. rewrite (tx_inode _ _ _ _ _ _ _ _ _ _ _ _ e Ht Hip). pose proof (fo_size _ _ _ Hok) as [Hs _]. change (MAXFILE * BSIZE) with 71680 in Hs.
  assert (i_size nd = 16 * Z.of_nat (ndirents nd)) as Hsz.
  { unfold ndirents, DIRENT in *. pose proof (Z.div_mod (i_size nd) 16 ltac:(lia)). pose proof (Z.div_pos (i_size nd) 16 ltac:(lia) ltac:(lia)). lia. }
  destruct (decide (k < ndirents nd)%nat) as [Hlt|Hge].
  2:{ unfold DIRENT. rewrite (proj2 (Z.ltb_ge _ _)) by lia. rewrite drop_ge by (rewrite dirents_length; lia). by exists w. }
  unfold DIRENT at 1. rewrite (proj2 (Z.ltb_lt _ _)) by lia.
  destruct (read_dirent w V bs ino dp nd k e Ht Hip Hok Hty Hlen Hlt) as (w1 & E1 & Ht1). unfold kbind at 1. rewrite E1.
  change (negb (DIRENT =? DIRENT)) with false. cbn iota.
  assert (dirents V nd !! k = Some (dirent_at V nd k)) as Hd by by apply dirents_lookup.
  rewrite (drop_S _ _ _ Hd). cbn [find_idx]. unfold matches at 1.
  destruct (IH w1 (S k) Ht1 Hip Hok Hty Hlen Hmod ltac:(lia) ltac:(lia)) as (w2 & Ht2 & E2).
  assert (u32 (DIRENT * Z.of_nat k + DIRENT) = DIRENT * Z.of_nat (S k)) as Hnext by (unfold DIRENT in *; rewrite u32_small; lia).
  assert (forall o : option nat, match S <$> o with
      | Some j => (ip <- iget 1 (de_inum (dirent_at V nd (k + j))); kret (Some (ip, DIRENT * Z.of_nat (k + j)))) w2 e
      | None => Ret None w2 e end = match o with
      | Some j => (ip <- iget 1 (de_inum (dirent_at V nd (S k + j))); kret (Some (ip, DIRENT * Z.of_nat (S k + j)))) w2 e
      | None => Ret None w2 e end) as Hshift.
  { intros [j|]; [|done]. cbn. by replace (k + S j)%nat with (S (k + j)) by lia. }
  destruct (Z.eqb_spec (de_inum (dirent_at V nd k)) 0) as [H0|Hne]; cbn [negb andb].
  { rewrite Hnext. exists w2. split; [done|]. by rewrite Hshift. }
  destruct (Z.eqb_spec (namecmp name (de_name (dirent_at V nd k))) 0) as [Hn|Hn].
  - exists w1. split; [done|]. unfold kbind at 1. rewrite (tx_inode _ _ _ _ _ _ _ _ _ _ _ _ e Ht1 Hip), (fo_dev _ _ _ Hok), Nat.add_0_r. done.
  - rewrite Hnext. exists w2. split; [done|]. by rewrite Hshift.
Qed.

Lemma dirlookup_spec w V bs ino dp nd name e :
  tx w [] V bs ino -> ino !! dp = Some nd -> file_ok E V nd -> i_type nd = T_DIR -> (length bs < NBUF)%nat -> i_size nd mod DIRENT = 0 ->
  exists w', tx w' [] V bs ino /\
    dirlookup dp name w e =
    match find_idx (matches name) (dirents V nd) with
    | Some j => (ip <- iget 1 (de_inum (dirent_at V nd j)); kret (Some (ip, DIRENT * Z.of_nat j))) w' e
    | None => Ret None w' e
    end.
Proof using L Hrun.
  intros Ht Hip Hok Hty Hlen Hmod. unfold dirlookup. unfold kbind at 1. rewrite (tx_inode _ _ _ _ _ _ _ _ _ _ _ _ e Ht Hip), Hty.
  change (negb (T_DIR =? T_DIR)) with false. cbn iota.
  apply (dirlookup_loop_spec _ w V bs ino dp nd name 0 e); try done; [rewrite Hty; done|lia|]. unfold ndirents. lia.
Qed.

(** ** dirlink *)

Lemma dir_size V nd : file_ok E V nd -> i_size nd mod DIRENT = 0 -> i_size nd = 16 * Z.of_nat (ndirents nd) /\ 0 <= i_size nd <= 71680.
Proof.
  intros Hok Hmod. pose proof (fo_size _ _ _ Hok) as [Hs _]. change (MAXFILE * BSIZE) with 71680 in Hs. unfold ndirents, DIRENT in *.
  pose proof (Z.div_mod (i_size nd) 16 ltac:(lia)). pose proof (Z.div_pos (i_size nd) 16 ltac:(lia) ltac:(lia)). lia.
Qed.

(** The search ends at the first entry not in use, or at the end. *)
Lemma dirlink_loop_spec f w V bs ino dp nd k e :
  tx w [] V bs ino -> ino !! dp = Some nd -> file_ok E V nd -> i_type nd <> T_DEV -> (length bs < NBUF)%nat -> i_size nd mod DIRENT = 0 ->
  (k <= ndirents nd)%nat -> (ndirents nd - k < f)%nat ->
  exists w', tx w' [] V bs ino /\
    dirlink_loop f dp (DIRENT * Z.of_nat k) w e =
    Ret (DIRENT * Z.of_nat (k + default (ndirents nd - k)%nat (find_idx empty (drop k (dirents V nd))))) w' e.
Proof using L Hrun.
  revert w k. induction f as [|f IH]; intros w k Ht Hip Hok Hty Hlen Hmod Hk Hf; [lia|]. cbn [dirlink_loop].
  unfold kbind at 1. rewrite (tx_inode _ _ _ _ _ _ _ _ _ _ _ _ e Ht Hip). destruct (dir_size V nd Hok Hmod) as [Hsz Hs].
  assert (u32 (DIRENT * Z.of_nat k) = DIRENT * Z.of_nat k) as Hu by (unfold DIRENT; rewrite u32_small; lia). rewrite Hu.
  destruct (decide (k < ndirents nd)%nat) as [Hlt|Hge].
  2:{ unfold DIRENT. rewrite (proj2 (Z.ltb_ge _ _)) by lia. rewrite drop_ge by (rewrite dirents_length; lia). exists w. split; [done|].
      cbn. by replace (k + (ndirents nd - k))%nat with k by lia. }
  unfold DIRENT at 1. rewrite (proj2 (Z.ltb_lt _ _)) by lia.
  destruct (read_dirent w V bs ino dp nd k e Ht Hip Hok Hty Hlen Hlt) as (w1 & E1 & Ht1). unfold kbind at 1. rewrite E1.
  change (negb (DIRENT =? DIRENT)) with false. cbn iota.
  assert (dirents V nd !! k = Some (dirent_at V nd k)) as Hd by by apply dirents_lookup.
  rewrite (drop_S _ _ _ Hd). cbn [find_idx]. unfold empty at 1.
  destruct (de_inum (dirent_at V nd k) =? 0); [exists w1; split; [done|]; cbn; by rewrite Nat.add_0_r|].
  destruct (IH w1 (S k) Ht1 Hip Hok Hty Hlen Hmod ltac:(lia) ltac:(lia)) as (w2 & Ht2 & E2). exists w2. split; [done|].
  assert (s32 (DIRENT * Z.of_nat k + DIRENT) = DIRENT * Z.of_nat (S k)) as -> by (unfold DIRENT in *; rewrite s32_small; lia).
  rewrite E2. do 3 f_equal. destruct (find_idx empty _) as [j|]; cbn; lia.
Qed.

(** The entry for a name. *)
Definition new_dirent (name : list Z) (inum : Z) : list Z :=
  mk_dirent (u16 inum) (strncpy (replicate (Z.to_nat DIRSIZ) 0) name DIRSIZ).
Definition free_dirent V nd : nat := default (ndirents nd) (find_idx empty (dirents V nd)).

Lemma new_dirent_length name inum : length (new_dirent name inum) = 16%nat.
Proof. unfold new_dirent, mk_dirent, strncpy. by rewrite length_app, le_length, strncpy_loop_length. Qed.

Lemma new_dirent_matches name inum : 0 < inum < 2 ^ 16 -> matches name (new_dirent name inum) = true /\ de_inum (new_dirent name inum) = inum.
Proof.
  intros Hi. assert (de_inum (new_dirent name inum) = inum) as Hd.
  { unfold new_dirent. assert (u16 inum = inum) as -> by (unfold u16; rewrite Z.mod_small; lia). apply mk_dirent_inum. lia. }
  split; [|done]. unfold matches. rewrite Hd, (proj2 (Z.eqb_neq _ _)) by lia. cbn [negb andb]. apply Z.eqb_eq.
  unfold namecmp, new_dirent. rewrite mk_dirent_name by (unfold strncpy; by rewrite strncpy_loop_length). by apply strncmp_strncpy.
Qed.

Lemma free_dirent_le V nd : (free_dirent V nd <= ndirents nd)%nat.
Proof.
  unfold free_dirent. destruct (find_idx empty (dirents V nd)) as [j|] eqn:Hj; cbn; [|done].
  apply find_idx_lt in Hj. rewrite dirents_length in Hj. lia.
Qed.

(** The entries after one has been written. *)
Lemma dirent_splice (l d : list Z) N k j :
  length l = (16 * N)%nat -> length d = 16%nat -> (k <= N)%nat -> (j < N `max` S k)%nat ->
  range (16 * j) 16 (splice (16 * k) d l) = if decide (j = k) then d else range (16 * j) 16 l.
Proof.
  intros Hc Hd Hk Hj. destruct (decide (k = N)) as [->|Hne].
  - assert (splice (16 * N) d l = l ++ d) as -> by (unfold splice; rewrite take_ge, drop_ge, app_nil_r by lia; done).
    unfold range. destruct (decide (j = N)) as [->|Hjn].
    + rewrite drop_app_length' by lia. by rewrite take_ge by lia.
    + rewrite drop_app_le by lia. by rewrite take_app_le by (rewrite length_drop; lia).
  - destruct (decide (j = k)) as [->|Hjk].
    + rewrite <-Hd at 2. apply range_splice_eq. lia.
    + apply range_splice_ne; lia.
Qed.

Lemma dirent_range V nd k : (k < ndirents nd)%nat -> file_ok E V nd -> i_size nd mod DIRENT = 0 ->
  dirent_at V nd k = range (16 * k) 16 (contents V nd).
Proof.
  intros Hk Hok Hmod. destruct (dir_size V nd Hok Hmod) as [Hsz Hs]. unfold dirent_at, DIRENT. rewrite bytes_range by lia. f_equal. lia.
Qed.

(** The list of entries with [de] as the [k]th, at its end or before. *)
Definition put_dirent (k : nat) (de : list Z) (ds : list (list Z)) : list (list Z) :=
  if decide (k < length ds)%nat then <[k := de]> ds else ds ++ [de].

Lemma wrote_dirents V bs nd V' bs' nd' de k T :
  file_ok E V nd -> i_size nd mod DIRENT = 0 -> (k <= ndirents nd)%nat -> length de = 16%nat ->
  wrote E V bs nd V' bs' nd' (DIRENT * Z.of_nat k) de T -> dirents V' nd' = put_dirent k de (dirents V nd) /\ i_size nd' mod DIRENT = 0.
Proof.
  intros Hok Hmod Hk Hde Hw. destruct (dir_size V nd Hok Hmod) as [Hsz Hs]. pose proof (wf_size _ _ _ _ _ _ _ _ _ _ Hw) as Hsz'. rewrite Hde in Hsz'.
  assert (i_size nd' = 16 * Z.of_nat (ndirents nd `max` S k)) as Hs2 by (unfold DIRENT in *; lia).
  assert (i_size nd' mod DIRENT = 0) as Hmod' by (rewrite Hs2; unfold DIRENT; rewrite Z.mul_comm; apply Z_mod_mult).
  assert (ndirents nd' = ndirents nd `max` S k)%nat as Hn'.
  { unfold ndirents at 1. rewrite Hs2. unfold DIRENT. rewrite Z.mul_comm, Z_div_mult_full by lia. lia. }
  split; [|done]. apply list_eq. intros j. destruct (decide (j < ndirents nd')%nat) as [Hj|Hj].
  - rewrite dirents_lookup by done. rewrite (dirent_range V' nd' j Hj (wf_ok _ _ _ _ _ _ _ _ _ _ Hw) Hmod').
    rewrite (wf_contents _ _ _ _ _ _ _ _ _ _ Hw). replace (Z.to_nat (DIRENT * Z.of_nat k)) with (16 * k)%nat by (unfold DIRENT; lia).
    rewrite (dirent_splice _ _ (ndirents nd)); [|unfold contents; rewrite bytes_length; lia|done|done|lia].
    unfold put_dirent. rewrite dirents_length. destruct (decide (k < ndirents nd)%nat) as [Hlt|Hge], (decide (j = k)) as [->|Hne].
    + rewrite list_lookup_insert_eq; [done|]. by rewrite dirents_length.
    + rewrite list_lookup_insert_ne by done. rewrite dirents_lookup by lia. by rewrite (dirent_range V nd) by (done || lia).
    + rewrite lookup_app_r by (rewrite dirents_length; lia). rewrite dirents_length. by replace (k - ndirents nd)%nat with 0%nat by lia.
    + rewrite lookup_app_l by (rewrite dirents_length; lia). rewrite dirents_lookup by lia. by rewrite (dirent_range V nd) by (done || lia).
  - rewrite (lookup_ge_None_2 (dirents V' nd')) by (rewrite dirents_length; lia). symmetry. apply lookup_ge_None.
    unfold put_dirent. rewrite dirents_length. case_decide; rewrite ?length_insert, ?length_app, dirents_length; cbn; lia.
Qed.

(** A name that is not there is found where it has been put. *)
Lemma find_put_dirent name de ds k :
  (k <= length ds)%nat -> find_idx (matches name) ds = None -> matches name de = true ->
  find_idx (matches name) (put_dirent k de ds) = Some k.
Proof.
  intros Hk Hnone Hm. assert (forall j x, ds !! j = Some x -> matches name x = false) as Hall.
  { intros j x Hx. apply (proj1 (find_idx_None _ _) Hnone). by eapply list_elem_of_lookup_2. }
  apply find_idx_Some. exists de. unfold put_dirent. case_decide as Hlt.
  - rewrite list_lookup_insert_eq by done. split_and!; [done|done|]. intros j x Hj. rewrite list_lookup_insert_ne by lia. apply Hall.
  - assert (k = length ds) as -> by lia. rewrite lookup_app_r, Nat.sub_diag by lia. split_and!; [done|done|].
    intros j x Hj. rewrite lookup_app_l by lia. apply Hall.
Qed.

Lemma turns_dirent k : (turns (DIRENT * Z.of_nat k) 16 <= 1)%nat.
Proof.
  unfold turns, DIRENT, BSIZE. set (r := (16 * Z.of_nat k) mod 512).
  assert (r <= 496) as Hr.
  { pose proof (Z.mod_pos_bound (16 * Z.of_nat k) 512 ltac:(lia)) as Hb. pose proof (Z.div_mod (16 * Z.of_nat k) 512 ltac:(lia)). unfold r. lia. }
  assert ((r + 16 + 512 - 1) / 512 < 2) by (apply Z.div_lt_upper_bound; lia). lia.
Qed.

Lemma dirlink_spec w V bs ino dp nd name inum e :
  let k := free_dirent V nd in
  tx w [] V bs ino -> ino !! dp = Some nd -> file_ok E V nd -> meta_used E V -> inode_fits E nd -> i_type nd = T_DIR ->
  i_size nd mod DIRENT = 0 -> i_size nd + DIRENT <= MAXFILE * BSIZE -> find_idx (matches name) (dirents V nd) = None ->
  (2 <= nfree E V)%nat -> (cost E bs nd + 3 < NBUF)%nat ->
  exists w' V' bs' nd', dirlink dp name inum w e = Ret 0 w' e /\ tx w' [] V' bs' (<[dp := nd']> ino) /\
    wrote E V bs nd V' bs' nd' (DIRENT * Z.of_nat k) (new_dirent name inum) 1.
Proof using L Hrun.
  intros k Ht Hip Hok Hm Hf Hty Hmod Hmax Hnone Hfree Hc. destruct (dir_size V nd Hok Hmod) as [Hsz Hs]. change (MAXFILE * BSIZE) with 71680 in Hmax.
  pose proof (cost_length E L bs nd (proj1 (tx_bs _ _ _ _ _ _ _ _ _ _ Ht))) as Hcl. pose proof (free_dirent_le V nd) as Hk. fold k in Hk.
  assert (i_type nd <> T_DEV) as Hnd by (rewrite Hty; done).
  destruct (dirlookup_spec w V bs ino dp nd name e Ht Hip Hok Hty ltac:(lia) Hmod) as (w1 & Ht1 & E1). rewrite Hnone in E1.
  destruct (dirlink_loop_spec (Z.to_nat (i_size nd / DIRENT) + 2) w1 V bs ino dp nd 0 e Ht1 Hip Hok Hnd ltac:(lia) Hmod ltac:(lia)
    ltac:(unfold ndirents; lia)) as (w2 & Ht2 & E2).
  rewrite Nat.sub_0_r, Nat.add_0_l, drop_0 in E2. fold (free_dirent V nd) k in E2.
  pose proof (turns_dirent k) as Htd. pose proof (new_dirent_length name inum) as Hdl.
  pose proof (writei_spec i c p pr Hrun E L w2 V bs ino dp nd (new_dirent name inum) (DIRENT * Z.of_nat k) e Ht2 Hip Hok Hm Hf Hnd) as Hw.
  cbv zeta in Hw. rewrite Hdl in Hw. change (Z.of_nat 16) with 16 in Hw. unfold DIRENT in Hmax.
  rewrite decide_True in Hw by (change (MAXFILE * BSIZE) with 71680; unfold DIRENT; lia).
  destruct Hw as (w3 & V3 & bs3 & nd3 & E3 & Ht3 & Hw3); [unfold DIRENT; lia|lia|right; lia|lia|].
  exists w3, V3, bs3, nd3. split_and!; [|done|].
  - unfold dirlink. unfold kbind at 1. rewrite E1. unfold kbind at 1. rewrite (tx_inode _ _ _ _ _ _ _ _ _ _ _ _ e Ht1 Hip).
    unfold kbind at 1. rewrite Z.mul_0_r in E2. rewrite E2. fold (new_dirent name inum). unfold kbind at 1.
    rewrite u32_small by (unfold DIRENT; lia). rewrite E3. done.
  - destruct Hw3 as [W1 W2 W3 W4 W5 W6 W7 W8 W9 W10 W11 W12]. split; try done. lia.
Qed.

(** A change of an inode that is not one of its identity. *)
Lemma find_cached ino dp nd nd' dev inum :
  ino !! dp = Some nd -> i_ref nd' = i_ref nd -> i_dev nd' = i_dev nd -> i_inum nd' = i_inum nd ->
  find_idx (cached dev inum) (<[dp := nd']> ino) = find_idx (cached dev inum) ino.
Proof.
  intros Hdp H1 H2 H3. assert (<[dp := nd']> ino = alter (fun _ => nd') dp ino) as -> by (symmetry; exact (alter_insert ino dp nd (fun _ => nd') Hdp)).
  apply find_idx_alter. intros x Hx. assert (x = nd) as -> by congruence. unfold cached. by rewrite H1, H2, H3.
Qed.
End dirs.

(** C6. A name that has been linked is found.  dirlink of a name that the directory does not have
    returns 0; the entries are then the ones there were, with the new one in the place of the
    first that was not in use or at the end, so that no other name is affected; and dirlookup of
    the name returns the inode with the number given and the place of the entry. *)
Theorem dirlink_dirlookup `{DevSwitch} i c p pr E w V bs ino dp nd name inum ip e :
  let k := free_dirent V nd in
  p_state pr <> SLEEPING -> layout E -> tx i c p pr E w [] V bs ino -> ino !! dp = Some nd ->
  file_ok E V nd -> meta_used E V -> inode_fits E nd -> i_type nd = T_DIR ->
  i_size nd mod DIRENT = 0 -> i_size nd + DIRENT <= MAXFILE * BSIZE -> find_idx (matches name) (dirents V nd) = None ->
  (2 <= nfree E V)%nat -> (cost E bs nd + 3 < NBUF)%nat -> 0 < inum < 2 ^ 16 ->
  find_idx (cached 1 inum) ino = Some ip ->
  exists w1 V1 bs1 nd1 w2, dirlink (H := mem_driver) dp name inum w e = Ret 0 w1 e /\
    tx i c p pr E w1 [] V1 bs1 (<[dp := nd1]> ino) /\ file_ok E V1 nd1 /\
    dirents V1 nd1 = put_dirent k (new_dirent name inum) (dirents V nd) /\
    dirlookup (H := mem_driver) dp name w1 e = Ret (Some (ip, DIRENT * Z.of_nat k)) w2 e.
Proof.
  intros k Hrun L Ht Hip Hok Hm Hf Hty Hmod Hmax Hnone Hfree Hc Hi Hcache.
  destruct (dirlink_spec i c p pr Hrun E L w V bs ino dp nd name inum e Ht Hip Hok Hm Hf Hty Hmod Hmax Hnone Hfree Hc)
    as (w1 & V1 & bs1 & nd1 & E1 & Ht1 & Hw). fold k in Hw.
  destruct (wrote_dirents E V bs nd V1 bs1 nd1 (new_dirent name inum) k 1 Hok Hmod (free_dirent_le V nd) (new_dirent_length name inum) Hw) as [Hd1 Hmod1].
  pose proof (wf_inode _ _ _ _ _ _ _ _ _ _ Hw) as Hnd1. pose proof (wf_log _ _ _ _ _ _ _ _ _ _ Hw) as Hlog.
  destruct (new_dirent_matches name inum Hi) as [Hnew Hnum].
  assert (<[dp := nd1]> ino !! dp = Some nd1) as Hip1 by (apply list_lookup_insert_eq; by eapply lookup_lt_Some).
  destruct (dirlookup_spec i c p pr Hrun E L w1 V1 bs1 _ dp nd1 name e Ht1 Hip1 (wf_ok _ _ _ _ _ _ _ _ _ _ Hw)) as (w2 & Ht2 & E2).
  { by rewrite Hnd1. } { unfold NBUF in *. lia. } { done. }
  pose proof (find_put_dirent name (new_dirent name inum) (dirents V nd) k) as Hfind. rewrite dirents_length in Hfind.
  specialize (Hfind (free_dirent_le V nd) Hnone Hnew). rewrite Hd1, Hfind in E2.
  assert (find_idx (cached 1 inum) (<[dp := nd1]> ino) = Some ip) as Hc1.
  { rewrite (find_cached ino dp nd nd1); [done|done|..]; rewrite Hnd1; done. }
  destruct (lookup_lt_is_Some_2 (<[dp := nd1]> ino) ip) as [x Hx]; [by eapply find_idx_lt|].
  destruct (iget_hit i c p pr E w2 [] V1 bs1 _ 1 inum ip x e Ht2 Hc1 Hx) as (w3 & E3 & _).
  exists w1, V1, bs1, nd1, w3. split_and!; [done|done|apply Hw|done|]. rewrite E2.
  assert (dirent_at V1 nd1 k = new_dirent name inum) as ->.
  { assert (dirents V1 nd1 !! k = Some (new_dirent name inum)) as Hk.
    { rewrite Hd1. unfold put_dirent. pose proof (free_dirent_le V nd) as Hle. fold k in Hle. rewrite <-(dirents_length V nd) in Hle.
      case_decide as Hlt; [by apply list_lookup_insert_eq|]. assert (k = length (dirents V nd)) as -> by lia.
      by rewrite lookup_app_r, Nat.sub_diag by lia. }
    pose proof (lookup_lt_Some _ _ _ Hk) as Hlt. rewrite dirents_length in Hlt. rewrite dirents_lookup in Hk by done. congruence. }
  unfold kbind. by rewrite Hnum, E3.
Qed.

Lemma dirlink_dirlookup_witness :
  exists w1 w2, dirlink (H := mem_driver) (H0 := FsDemo.no_devs) 1 [97; 98; 0] 5 FsDemo.start [] = Ret 0 w1 [] /\
    dirlookup (H := mem_driver) (H0 := FsDemo.no_devs) 1 [97; 98; 0] w1 [] = Ret (Some (0%nat, 32)) w2 [].
Proof.
  destruct (dirlink_dirlookup (H := FsDemo.no_devs) 0 ctx_cpu 1 ctx_proc FsDemo.env FsDemo.start FsDemo.view0 [] FsDemo.ino 1 FsDemo.dir [97; 98; 0] 5 0 [])
    as (w1 & V1 & bs1 & nd1 & w2 & E1 & _ & _ & _ & E2).
  - discriminate.
  - exact FsDemo.fs_layout.
  - exact FsDemo.fs_tx.
  - reflexivity.
  - exact FsDemo.fs_dir.
  - exact FsDemo.fs_meta.
  - exact FsDemo.fs_dir_fits.
  - reflexivity.
  - reflexivity.
  - vm_compute. discriminate.
  - vm_compute. reflexivity.
  - apply Nat.leb_le. vm_compute. reflexivity.
  - apply Nat.ltb_lt. vm_compute. reflexivity.
  - lia.
  - vm_compute. reflexivity.
  - exists w1, w2. split; [exact E1|]. replace (DIRENT * Z.of_nat (free_dirent FsDemo.view0 FsDemo.dir)) with 32 in E2 by (vm_compute; reflexivity).
    exact E2.
Defined.
