(* ===== verification/Pipe.v ===== *)
(** * Pipes (pipe.c)

    A pipe is a ring buffer of PIPESIZE bytes with 32-bit counters of the bytes ever read and
    written.  [queue] is the byte sequence it holds; reading and writing refine the
    operations of a bounded FIFO queue, across the wrap-around of the counters. *)

From Stdlib Require Import ZArith Lia.
From stdpp Require Import base list gmap strings numbers.
From S2P Require Import Prelude Machine Cstring Spinlock Boot Kalloc Sched Sleeplock.
Local Open Scope Z_scope.
Local Open Scope kern_scope.

Definition PIPESIZE : Z := 512.

Definition get_pipe (p : Z) : KM pipe := ps <- kget w_pipes; kderef (ps !! p).

(** [myproc()->killed] *)
Definition mykilled : KM bool :=
  p <- myproc; p <- kderef p; pr <- get_proc p; kret (negb (p_killed pr =? 0)).

Definition pipe_full (pi : pipe) : bool := pi_nwrite pi =? u32 (pi_nread pi + PIPESIZE).
Definition pipe_empty (pi : pipe) : bool := pi_nread pi =? pi_nwrite pi.

(** [p->data[p->nwrite++ % PIPESIZE] = c] *)
Definition pipe_put (c : Z) (pi : pipe) : pipe :=
  set_pi_nwrite (fun n => u32 (n + 1))
    (set_pi_data (insert (Z.to_nat (pi_nwrite pi mod PIPESIZE)) c) pi).
(** [p->data[p->nread % PIPESIZE]] *)
Definition pipe_peek (pi : pipe) : Z := default 0 (pi_data pi !! Z.to_nat (pi_nread pi mod PIPESIZE)).

(** The inner loop of pipewrite: wait for room.  False is the early return. *)
Definition pipe_room (p : Z) : KM bool :=
  kwait (pi <- get_pipe p;
         if pipe_full pi then
           stop <- (if pi_readopen pi =? 0 then kret true else mykilled);
           if (stop : bool) then release (PipeLock p) >>; kret (Some false)
           else
             wakeup (Some (ChPipeR p)) >>;
             sleep (Some (ChPipeW p)) (Some (PipeLock p)) >>;
             kret None
         else kret (Some true)).

Fixpoint pipewrite_loop (p : Z) (addr : list Z) : KM bool :=
  match addr with
  | [] => kret true
  | c :: addr' =>
    ok <- pipe_room p;
    if (ok : bool) then kmod (upd_pipe p (pipe_put c)) >>; pipewrite_loop p addr' else kret false
  end.

Definition pipewrite (p : Z) (addr : list Z) : KM Z :=
  acquire (PipeLock p) >>;
  ok <- pipewrite_loop p addr;
  if (ok : bool) then
    wakeup (Some (ChPipeR p)) >>;
    release (PipeLock p) >>;
    kret (Z.of_nat (length addr))
  else kret (-1).

(** The wait of piperead: false is the early return. *)
Definition pipe_avail (p : Z) : KM bool :=
  kwait (pi <- get_pipe p;
         if pipe_empty pi && negb (pi_writeopen pi =? 0) then
           k <- mykilled;
           if (k : bool) then release (PipeLock p) >>; kret (Some false)
           else sleep (Some (ChPipeR p)) (Some (PipeLock p)) >>; kret None
         else kret (Some true)).

Fixpoint piperead_loop (n : nat) (p : Z) : KM (list Z) :=
  match n with
  | O => kret []
  | S n' =>
    pi <- get_pipe p;
    if pipe_empty pi then kret [] else
    kmod (upd_pipe p (set_pi_nread (fun n => u32 (n + 1)))) >>;
    rest <- piperead_loop n' p;
    kret (pipe_peek pi :: rest)
  end.

(** The return value and the bytes stored at addr. *)
Definition piperead (p n : Z) : KM (Z * list Z) :=
  acquire (PipeLock p) >>;
  ok <- pipe_avail p;
  if (ok : bool) then
    bs <- piperead_loop (Z.to_nat n) p;
    wakeup (Some (ChPipeW p)) >>;
    release (PipeLock p) >>;
    kret (Z.of_nat (length bs), bs)
  else kret (-1, []).

Section pipeclose.
Context `{KernelImage}.

Definition pipeclose (p writable : Z) : KM unit :=
  acquire (PipeLock p) >>;
  (if negb (writable =? 0) then
     kmod (upd_pipe p (set_pi_writeopen (fun _ => 0))) >>;
     wakeup (Some (ChPipeR p))
   else
     kmod (upd_pipe p (set_pi_readopen (fun _ => 0))) >>;
     wakeup (Some (ChPipeW p))) >>;
  pi <- get_pipe p;
  if (pi_readopen pi =? 0) && (pi_writeopen pi =? 0) then
    release (PipeLock p) >>;
    kmod (set_w_pipes (delete p)) >>;      (* its page is no longer a pipe *)
    kfree p
  else release (PipeLock p).
End pipeclose.

(** ** The queue a pipe holds *)

Definition pipe_len (pi : pipe) : Z := u32 (pi_nwrite pi - pi_nread pi).
Definition pipe_at (pi : pipe) (k : Z) : Z :=
  default 0 (pi_data pi !! Z.to_nat (u32 (pi_nread pi + k) mod PIPESIZE)).
Definition queue (pi : pipe) : list Z :=
  (fun k => pipe_at pi (Z.of_nat k)) <$> seq 0 (Z.to_nat (pipe_len pi)).

Definition pipe_ok (pi : pipe) : Prop :=
  length (pi_data pi) = 512%nat /\ 0 <= pi_nread pi < 2 ^ 32 /\ 0 <= pi_nwrite pi < 2 ^ 32 /\
  pipe_len pi <= PIPESIZE.

Lemma queue_length pi : length (queue pi) = Z.to_nat (pipe_len pi).
Proof. unfold queue. by rewrite length_fmap, length_seq. Qed.

Lemma pipe_len_nonneg pi : 0 <= pipe_len pi.
Proof. apply u32_bound. Qed.

Lemma pipe_full_len pi : pipe_ok pi -> pipe_full pi = (pipe_len pi =? PIPESIZE).
Proof.
  intros (_ & Hr & Hw & _). unfold pipe_full, pipe_len, PIPESIZE.
  destruct (Z.eqb_spec (pi_nwrite pi) (u32 (pi_nread pi + 512))) as [->|Hne]; symmetry.
  - apply Z.eqb_eq. rewrite u32_sub_l. replace (_ + 512 - _) with 512 by lia. done.
  - apply Z.eqb_neq. intros E. apply Hne. rewrite <-E. unfold u32 in *.
    rewrite Zplus_mod_idemp_r. replace (_ + (_ - _)) with (pi_nwrite pi) by lia.
    by rewrite Z.mod_small.
Qed.

Lemma pipe_empty_len pi : pipe_ok pi -> pipe_empty pi = (pipe_len pi =? 0).
Proof.
  intros (_ & Hr & Hw & _). unfold pipe_empty, pipe_len.
  destruct (Z.eqb_spec (pi_nread pi) (pi_nwrite pi)) as [->|Hne]; symmetry.
  - apply Z.eqb_eq. by rewrite Z.sub_diag.
  - apply Z.eqb_neq. intros E. apply Hne. unfold u32 in *.
    apply Z.mod_divide in E as [k E]; [|lia]. nia.
Qed.

(** Writing a byte when there is room appends it. *)
Lemma pipe_put_queue pi c :
  pipe_ok pi -> pipe_len pi < PIPESIZE ->
  pipe_ok (pipe_put c pi) /\ queue (pipe_put c pi) = queue pi ++ [c].
Proof.
  intros (Hl & Hr & Hw & Hn) Hlt. pose proof (pipe_len_nonneg pi) as H0.
  assert (pipe_len (pipe_put c pi) = pipe_len pi + 1) as Hlen.
  { unfold pipe_len in *. simpl. rewrite u32_sub_l.
    replace (pi_nwrite pi + 1 - pi_nread pi) with (pi_nwrite pi - pi_nread pi + 1) by lia.
    rewrite <-u32_add_l. apply u32_small. unfold PIPESIZE in *. lia. }
  split.
  - split_and!; simpl; [by rewrite length_insert|lia|lia|apply u32_bound|apply u32_bound|].
    rewrite Hlen. lia.
  - unfold queue. rewrite Hlen. replace (Z.to_nat (pipe_len pi + 1)) with (Z.to_nat (pipe_len pi) + 1)%nat by lia.
    rewrite seq_app, fmap_app. f_equal.
    + apply list_fmap_ext. intros k x Hk. apply lookup_seq in Hk as [-> Hk]. unfold pipe_at. simpl.
      rewrite list_lookup_insert_ne; [done|]. unfold PIPESIZE, pipe_len, u32 in *.
      rewrite Z.mod_mod_divide by by exists (2 ^ 23).
      intros E. apply Z2Nat.inj in E; [|apply Z.mod_pos_bound; lia|apply Z.mod_pos_bound; lia].
      pose proof (Z.div_mod (pi_nwrite pi - pi_nread pi) (2 ^ 32)).
      pose proof (Z.div_mod (pi_nwrite pi) 512).
      pose proof (Z.div_mod (pi_nread pi + Z.of_nat k) 512). lia.
    + simpl. unfold pipe_at. simpl. f_equal.
      rewrite Z2Nat.id by lia. unfold pipe_len, PIPESIZE in *.
      assert (u32 (pi_nread pi + u32 (pi_nwrite pi - pi_nread pi)) = pi_nwrite pi) as ->.
      { unfold u32. rewrite Zplus_mod_idemp_r. replace (_ + (_ - _)) with (pi_nwrite pi) by lia.
        by apply Z.mod_small. }
      rewrite list_lookup_insert_eq; [done|]. rewrite Hl.
      pose proof (Z.mod_pos_bound (pi_nwrite pi) 512). lia.
Qed.

(** Reading a byte takes the oldest. *)
Lemma pipe_get_queue pi :
  pipe_ok pi -> 0 < pipe_len pi ->
  pipe_ok (set_pi_nread (fun n => u32 (n + 1)) pi) /\
  queue pi = pipe_peek pi :: queue (set_pi_nread (fun n => u32 (n + 1)) pi).
Proof.
  intros (Hl & Hr & Hw & Hn) Hlt. set (pi' := set_pi_nread _ pi).
  assert (pipe_len pi' = pipe_len pi - 1) as Hlen.
  { unfold pipe_len in *. simpl. rewrite u32_sub_r.
    replace (pi_nwrite pi - (pi_nread pi + 1)) with (pi_nwrite pi - pi_nread pi - 1) by lia.
    rewrite <-u32_sub_l. apply u32_small. unfold PIPESIZE in *. lia. }
  split.
  - split_and!; simpl; [done|apply u32_bound|apply u32_bound|lia|lia|]. rewrite Hlen. lia.
  - unfold queue. rewrite Hlen.
    replace (Z.to_nat (pipe_len pi)) with (S (Z.to_nat (pipe_len pi - 1))) by lia.
    rewrite <-cons_seq. rewrite fmap_cons. f_equal.
    + unfold pipe_at, pipe_peek. by rewrite Z.add_0_r, u32_small.
    + rewrite <-seq_shift, <-list_fmap_compose. apply list_fmap_ext. intros k x _.
      unfold compose, pipe_at. simpl. rewrite u32_add_l.
      by replace (pi_nread pi + Z.of_nat (S x)) with (pi_nread pi + 1 + Z.of_nat x) by lia.
Qed.

(** ** What the operations do *)

Definition put_all (bs : list Z) (pi : pipe) : pipe := foldl (fun q c => pipe_put c q) pi bs.
Definition skip_all (n : nat) (pi : pipe) : pipe :=
  Nat.iter n (set_pi_nread (fun k => u32 (k + 1))) pi.

Lemma put_all_queue bs pi :
  pipe_ok pi -> pipe_len pi + Z.of_nat (length bs) <= PIPESIZE ->
  pipe_ok (put_all bs pi) /\ queue (put_all bs pi) = queue pi ++ bs.
Proof.
  revert pi. induction bs as [|c bs IH]; intros pi Hok Hn.
  - by rewrite app_nil_r.
  - rewrite length_cons in Hn. pose proof (pipe_len_nonneg pi).
    destruct (pipe_put_queue pi c) as [Hok' Hq]; [done|lia|].
    assert (pipe_len (pipe_put c pi) = pipe_len pi + 1) as Hl.
    { pose proof (queue_length (pipe_put c pi)) as E. rewrite Hq, length_app, queue_length in E.
      simpl in E. pose proof (pipe_len_nonneg (pipe_put c pi)). lia. }
    destruct (IH (pipe_put c pi)) as [H1 H2]; [done|lia|].
    split; [done|]. change (put_all (c :: bs) pi) with (put_all bs (pipe_put c pi)).
    by rewrite H2, Hq, <-app_assoc.
Qed.

Lemma upd_pipe_upd a f g w : upd_pipe a f (upd_pipe a g w) = upd_pipe a (f ∘ g) w.
Proof. unfold upd_pipe, set_w_pipes. simpl. by rewrite alter_alter_eq. Qed.

Lemma upd_pipe_ext a f g w pi : w_pipes w !! a = Some pi -> f pi = g pi ->
  upd_pipe a f w = upd_pipe a g w.
Proof.
  intros Ha E. unfold upd_pipe, set_w_pipes. f_equal. apply alter_ext. intros x Hx. by simplify_eq.
Qed.

Lemma upd_pipe_id a w : upd_pipe a (fun q => q) w = w.
Proof. unfold upd_pipe, set_w_pipes. rewrite alter_id by done. by destruct w. Qed.

Lemma get_pipe_eq a pi w e : w_pipes w !! a = Some pi -> get_pipe a w e = Ret pi w e.
Proof. intros H. unfold get_pipe. simpl. by rewrite H. Qed.

Lemma pipewrite_loop_eq a bs w e pi :
  w_pipes w !! a = Some pi -> pipe_ok pi -> pipe_len pi + Z.of_nat (length bs) <= PIPESIZE ->
  pipewrite_loop a bs w e = Ret true (upd_pipe a (put_all bs) w) e.
Proof.
  revert w pi. induction bs as [|c bs IH]; intros w pi Ha Hok Hn.
  - simpl. by rewrite upd_pipe_id.
  - rewrite length_cons in Hn. pose proof (pipe_len_nonneg pi). cbn [pipewrite_loop].
    unfold pipe_room. simpl. erewrite kwait_some.
    2:{ simpl. rewrite (get_pipe_eq a pi) by done. rewrite pipe_full_len by done.
        rewrite (proj2 (Z.eqb_neq _ _)) by (unfold PIPESIZE in *; lia). reflexivity. }
    simpl. destruct (put_all_queue [c] pi) as [Hok' Hq]; [done|simpl; lia|].
    assert (pipe_len (pipe_put c pi) = pipe_len pi + 1) as Hl.
    { pose proof (queue_length (put_all [c] pi)) as E. rewrite Hq, length_app, queue_length in E.
      simpl in E. pose proof (pipe_len_nonneg (pipe_put c pi)). lia. }
    rewrite (IH _ (pipe_put c pi)); [|by simpl; rewrite lookup_alter_eq, Ha|done|lia].
    by rewrite upd_pipe_upd.
Qed.

Lemma piperead_loop_eq n a w e pi :
  w_pipes w !! a = Some pi -> pipe_ok pi ->
  piperead_loop n a w e
  = Ret (take n (queue pi)) (upd_pipe a (skip_all (n `min` length (queue pi))) w) e /\
  pipe_ok (skip_all (n `min` length (queue pi)) pi) /\
  queue (skip_all (n `min` length (queue pi)) pi) = drop n (queue pi).
Proof.
  revert w pi. induction n as [|n IH]; intros w pi Ha Hok.
  - simpl. by rewrite upd_pipe_id.
  - remember (S n `min` length (queue pi))%nat as m eqn:Hm. cbn [piperead_loop kbind].
    rewrite (get_pipe_eq a pi), pipe_empty_len by done.
    pose proof (pipe_len_nonneg pi). destruct (Z.eqb_spec (pipe_len pi) 0) as [E|E].
    + assert (queue pi = []) as Hq by (apply nil_length_inv; rewrite queue_length, E; done).
      rewrite Hq in *. subst m. simpl. rewrite upd_pipe_id. split_and!; done.
    + destruct (pipe_get_queue pi) as [Hok' Hq]; [done|lia|].
      set (pi' := set_pi_nread _ pi) in *. cbn [kbind kmod].
      destruct (IH (upd_pipe a (set_pi_nread (fun k => u32 (k + 1))) w) pi') as (H1 & H2 & H3);
        [by simpl; rewrite lookup_alter_eq, Ha|done|].
      rewrite H1. rewrite Hq, length_cons, <-Nat.succ_min_distr in Hm. subst m. rewrite Hq.
      assert (forall m q, skip_all (S m) q = skip_all m (set_pi_nread (fun k => u32 (k + 1)) q)) as Hs.
      { intros m q. unfold skip_all. by rewrite Nat.iter_succ_r. }
      split_and!; [|by rewrite Hs|rewrite Hs; exact H3].
      cbn [kret take]. f_equal. rewrite upd_pipe_upd. unfold upd_pipe, set_w_pipes. f_equal.
      apply alter_ext. intros x _. by rewrite Hs.
Qed.

Section ops.
Context (w : world) (i : nat) (c : cpu) (p : nat) (pr : proc) (H : kctx w i c p pr).
Context (a : Z) (pi : pipe) (Hl : lock_free w (PipeLock a)) (Ha : w_pipes w !! a = Some pi)
  (Hok : pipe_ok pi).

Lemma pipewrite_eq bs e :
  pipe_len pi + Z.of_nat (length bs) <= PIPESIZE ->
  pipewrite a bs w e
  = Ret (Z.of_nat (length bs)) (woken (ChPipeR a) (upd_pipe a (put_all bs) w)) e.
Proof using All.
  intros Hn. pose proof H as [H1 H2 H3 H4 H5]. unfold pipewrite. simpl.
  rewrite (acquire_eq w i c) by done. simpl.
  rewrite (pipewrite_loop_eq a bs _ e pi) by done. simpl.
  rewrite (wakeup_entered w i c p pr H (PipeLock a) (ChPipeR a) (upd_pipe a (put_all bs))) by done.
  rewrite (release_section w i c (PipeLock a) H1
    (fun w => woken (ChPipeR a) (upd_pipe a (put_all bs) w))) by done.
  by rewrite H2.
Qed.

Lemma piperead_eq n e :
  0 < pipe_len pi \/ pi_writeopen pi = 0 ->
  piperead a n w e
  = Ret (Z.of_nat (length (take (Z.to_nat n) (queue pi))), take (Z.to_nat n) (queue pi))
      (woken (ChPipeW a) (upd_pipe a (skip_all (Z.to_nat n `min` length (queue pi))) w)) e.
Proof using All.
  intros Hav. pose proof H as [H1 H2 H3 H4 H5]. unfold piperead. cbn [kbind].
  rewrite (acquire_eq w i c) by done. unfold pipe_avail.
  erewrite kwait_some.
  2:{ simpl. rewrite (get_pipe_eq a pi) by done. rewrite pipe_empty_len by done.
      assert ((pipe_len pi =? 0) && negb (pi_writeopen pi =? 0) = false) as ->; [|reflexivity].
      destruct Hav as [Hav| ->]; [|by rewrite andb_false_r].
      by rewrite (proj2 (Z.eqb_neq _ _)) by lia. }
  cbn [kbind].
  destruct (piperead_loop_eq (Z.to_nat n) a (entered i (PipeLock a) w) e pi) as (-> & _ & _); [done|done|].
  set (F := upd_pipe a (skip_all (Z.to_nat n `min` length (queue pi)))).
  rewrite (wakeup_entered w i c p pr H (PipeLock a) (ChPipeW a) F) by done.
  rewrite (release_section w i c (PipeLock a) H1 (fun w => woken (ChPipeW a) (F w))) by done.
  by rewrite H2.
Qed.

(** Inside the critical section, [mykilled] reads the flag. *)
Lemma mykilled_entered e :
  mykilled (entered i (PipeLock a) w) e
  = Ret (negb (p_killed pr =? 0)) (entered i (PipeLock a) w) e.
Proof using H.
  pose proof H as [H1 H2 H3 H4 H5]. unfold mykilled. simpl.
  assert (cpu_ok (entered i (PipeLock a) w) i (cpu_push (w_if w) c)) as Hok' by by apply entered_ok.
  rewrite (myproc_eq _ i _ e Hok'). simpl. rewrite H3, (entered_settled w i c) by done. simpl.
  by rewrite (get_proc_eq _ p pr).
Qed.

Lemma pipe_release e : release (PipeLock a) (entered i (PipeLock a) w) e = Ret tt w e.
Proof using H Hl.
  pose proof H as [H1 H2 H3 H4 H5].
  rewrite (release_section w i c (PipeLock a) H1 (fun w => w)) by done. by rewrite H2.
Qed.

(** A full pipe that nobody will read, or a killed writer: an error, and nothing happens. *)
Lemma pipewrite_fails x bs e :
  pipe_len pi = PIPESIZE -> pi_readopen pi = 0 \/ p_killed pr <> 0 ->
  pipewrite a (x :: bs) w e = Ret (-1) w e.
Proof using All.
  intros Hf Hstop. pose proof H as [H1 H2 H3 H4 H5]. unfold pipewrite. cbn [kbind pipewrite_loop].
  rewrite (acquire_eq w i c) by done. unfold pipe_room. rewrite (kwait_some _ _ _ false w e); [reflexivity|].
  simpl. rewrite (get_pipe_eq a pi), pipe_full_len, Hf by done. simpl.
  destruct (Z.eqb_spec (pi_readopen pi) 0) as [E|E].
  - simpl. by rewrite pipe_release.
  - rewrite mykilled_entered. destruct Hstop as [?|Hk]; [done|].
    rewrite (proj2 (Z.eqb_neq _ _) Hk). simpl. by rewrite pipe_release.
Qed.

(** Reading from an empty pipe that may still be written to, by a killed process. *)
Lemma piperead_killed n e :
  pipe_len pi = 0 -> pi_writeopen pi <> 0 -> p_killed pr <> 0 ->
  piperead a n w e = Ret (-1, []) w e.
Proof using All.
  intros Hf Hwo Hk. pose proof H as [H1 H2 H3 H4 H5]. unfold piperead. cbn [kbind].
  rewrite (acquire_eq w i c) by done. unfold pipe_avail. rewrite (kwait_some _ _ _ false w e); [reflexivity|].
  simpl. rewrite (get_pipe_eq a pi), pipe_empty_len, Hf by done.
  rewrite (proj2 (Z.eqb_neq _ _) Hwo). simpl. rewrite mykilled_entered.
  rewrite (proj2 (Z.eqb_neq _ _) Hk). simpl. by rewrite pipe_release.
Qed.
End ops.

(** ** Properties *)

(** C26. A pipe is a bounded FIFO queue of bytes, whatever its 32-bit counters have reached:
    writing bytes that fit appends them to the queue and returns their number, writing to a
    full pipe without readers or as a killed process returns -1 and changes nothing. *)
Theorem pipewrite_fifo w i c p pr a pi bs e :
  kctx w i c p pr -> lock_free w (PipeLock a) -> w_pipes w !! a = Some pi -> pipe_ok pi ->
  (Z.of_nat (length (queue pi ++ bs)) <= PIPESIZE ->
   exists w' pi', pipewrite a bs w e = Ret (Z.of_nat (length bs)) w' e /\
     w_pipes w' !! a = Some pi' /\ pipe_ok pi' /\ queue pi' = queue pi ++ bs) /\
  (Z.of_nat (length (queue pi)) = PIPESIZE -> bs <> [] ->
   pi_readopen pi = 0 \/ p_killed pr <> 0 -> pipewrite a bs w e = Ret (-1) w e).
Proof.
  intros H Hl Ha Hok. pose proof (pipe_len_nonneg pi). split.
  - rewrite length_app, queue_length. intros Hn.
    destruct (put_all_queue bs pi) as [H1 H2]; [done|lia|].
    eexists _, (put_all bs pi). split_and!; [eapply pipewrite_eq; try done; lia| |done|done].
    simpl. by rewrite lookup_alter_eq, Ha.
  - rewrite queue_length. intros Hf Hbs Hs. destruct bs as [|x bs]; [done|].
    eapply pipewrite_fails; try done. lia.
Qed.

(** C27. Reading takes the oldest bytes: [piperead(p, addr, n)] on a pipe that holds something,
    or whose write end is closed, returns the first [n] bytes of the queue (fewer when there
    are fewer, none at end of file) and leaves the rest; on an empty pipe that may still be
    written, a killed reader gets -1 and nothing changes. *)
Theorem piperead_fifo w i c p pr a pi n e :
  kctx w i c p pr -> lock_free w (PipeLock a) -> w_pipes w !! a = Some pi -> pipe_ok pi ->
  (queue pi <> [] \/ pi_writeopen pi = 0 ->
   exists w' pi', piperead a n w e
       = Ret (Z.of_nat (length (take (Z.to_nat n) (queue pi))), take (Z.to_nat n) (queue pi)) w' e /\
     w_pipes w' !! a = Some pi' /\ pipe_ok pi' /\ queue pi' = drop (Z.to_nat n) (queue pi)) /\
  (queue pi = [] -> pi_writeopen pi <> 0 -> p_killed pr <> 0 ->
   piperead a n w e = Ret (-1, []) w e).
Proof.
  intros H Hl Ha Hok. pose proof (pipe_len_nonneg pi). pose proof (queue_length pi) as Hq. split.
  - intros Hav. destruct (piperead_loop_eq (Z.to_nat n) a w e pi) as (_ & H1 & H2); [done|done|].
    eexists _, _. split_and!; [eapply piperead_eq; try done| |exact H1|exact H2].
    + destruct Hav as [Hav|Hav]; [left|by right]. destruct (queue pi); [done|]. simpl in Hq. lia.
    + simpl. by rewrite lookup_alter_eq, Ha.
  - intros E Hwo Hk. eapply piperead_killed; try done. rewrite E in Hq. simpl in Hq. lia.
Qed.

(** A pipe whose write counter is about to wrap around. *)
Definition demo_pipe : pipe := mkPipe (replicate 512 0) (2 ^ 32 - 1) (2 ^ 32 - 1) 1 1.
Definition pipe_world : world :=
  put_lock (PipeLock KERNBASE) (mkLock 0 "pipe" None)
    (set_w_pipes (insert KERNBASE demo_pipe) ctx_world).

Lemma pipe_world_ctx : kctx pipe_world 0 ctx_cpu 1 ctx_proc.
Proof.
  destruct ctx_kctx as [H1 H2 H3 H4 H5]. split; try done.
  intros lk Hlk. destruct (H5 lk Hlk) as [n Hn]. exists n.
  change (w_locks pipe_world) with (<[PipeLock KERNBASE := mkLock 0 "pipe" None]> (w_locks ctx_world)).
  rewrite lookup_insert_ne; [done|]. by intros <-.
Qed.

Lemma pipe_world_pipe :
  lock_free pipe_world (PipeLock KERNBASE) /\ w_pipes pipe_world !! KERNBASE = Some demo_pipe /\
  pipe_ok demo_pipe.
Proof.
  split_and!; [by eexists|done|]. split_and!; try done; simpl; lia.
Qed.

Lemma pipewrite_fifo_witness :
  exists w' pi', pipewrite KERNBASE [104; 105] pipe_world [] = Ret 2 w' [] /\
    w_pipes w' !! KERNBASE = Some pi' /\ queue pi' = [104; 105].
Proof.
  destruct pipe_world_pipe as (Hl & Ha & Hok).
  destruct (pipewrite_fifo pipe_world 0 ctx_cpu 1 ctx_proc KERNBASE demo_pipe [104; 105] []
    pipe_world_ctx Hl Ha Hok) as [H _].
  destruct H as (w' & pi' & E & Hp & _ & Hq); [by vm_compute|]. exists w', pi'.
  split; [exact E|]. split; [exact Hp|exact Hq].
Defined.

Lemma piperead_fifo_witness :
  exists w', piperead KERNBASE 10
    (upd_pipe KERNBASE (pipe_put 104) pipe_world) [] = Ret (1, [104]) w' [].
Proof.
  destruct pipe_world_pipe as (Hl & Ha & Hok).
  destruct (piperead_fifo (upd_pipe KERNBASE (pipe_put 104) pipe_world) 0 ctx_cpu 1 ctx_proc
    KERNBASE (pipe_put 104 demo_pipe) 10 []) as [H _].
  - exact (kctx_frame _ _ _ _ _ pipe_world_ctx (upd_pipe KERNBASE (pipe_put 104)) _ eq_refl).
  - exact Hl.
  - by vm_compute.
  - apply pipe_put_queue; [exact Hok|by vm_compute].
  - destruct H as (w' & pi' & E & _); [left; by vm_compute|]. exists w'. exact E.
Defined.
