(* ===== verification/File.v ===== *)
(** * Open files (file.c, and pipealloc of pipe.c)

    The file table with its reference counts, and reading, writing and closing files that
    are pipes or inodes. *)

From Stdlib Require Import ZArith Lia.
From stdpp Require Import base list gmap strings numbers.
From S2P Require Import Prelude Machine Cstring Spinlock Boot Kalloc Sched Sleeplock Layout Bio Log Fs Pipe.
Local Open Scope Z_scope.
Local Open Scope kern_scope.

Definition get_file (f : nat) : KM file := fs <- kget w_files; kderef (fs !! f).

Definition fileinit : KM unit := initlock FtableLock "ftable".

Definition filealloc : KM (option nat) :=
  acquire FtableLock >>;
  fs <- kget w_files;
  match find_idx (fun f => f_ref f =? 0) fs with
  | Some f =>
    kmod (upd_file f (set_f_ref (fun _ => 1))) >>;
    release FtableLock >>;
    kret (Some f)
  | None => release FtableLock >>; kret None
  end.

Definition filedup (f : nat) : KM nat :=
  acquire FtableLock >>;
  fl <- get_file f;
  if f_ref fl <? 1 then kpanic "filedup" else
  kmod (upd_file f (set_f_ref (fun r => r + 1))) >>;
  release FtableLock >>;
  kret f.

Section file.
Context `{KernelImage} `{DiskDriver} `{DevSwitch}.

Definition fileclose (f : nat) : KM unit :=
  acquire FtableLock >>;
  fl <- get_file f;
  if f_ref fl <? 1 then kpanic "fileclose" else
  kmod (upd_file f (set_f_ref (fun r => r - 1))) >>;
  ff <- get_file f;
  if f_ref ff >? 0 then release FtableLock else
  kmod (upd_file f (set_f_ref (fun _ => 0))) >>;
  kmod (upd_file f (set_f_type (fun _ => FD_NONE))) >>;
  release FtableLock >>;
  match f_type ff with
  | FD_PIPE => pipeclose (f_pipe ff) (f_writable ff)
  | FD_INODE =>
    begin_op >>;
    ip <- kderef (f_ip ff);
    iput ip >>;
    end_op
  | FD_NONE => kret tt
  end.

(** The return value and the structure stored at st. *)
Definition filestat (f : nat) : KM (Z * option stat) :=
  fl <- get_file f;
  match f_type fl with
  | FD_INODE =>
    ilock (f_ip fl) >>;
    ip <- kderef (f_ip fl);
    st <- stati ip;
    iunlock (f_ip fl) >>;
    kret (0, Some st)
  | _ => kret (-1, None)
  end.

(** The return value and the bytes stored at addr. *)
Definition fileread (f : nat) (n : Z) : KM (Z * list Z) :=
  fl <- get_file f;
  if f_readable fl =? 0 then kret (-1, []) else
  match f_type fl with
  | FD_PIPE => piperead (f_pipe fl) n
  | FD_INODE =>
    ilock (f_ip fl) >>;
    ip <- kderef (f_ip fl);
    fl <- get_file f;
    r <- readi ip (f_off fl) (u32 n);
    kwhen (fst r >? 0) (kmod (upd_file f (set_f_off (fun o => u32 (o + fst r))))) >>;
    iunlock (f_ip fl) >>;
    kret r
  | FD_NONE => kpanic "fileread"
  end.

Definition filewrite_max : Z := ((MAXOPBLOCKS - 1 - 1 - 2) / 2) * 512.

(** [while(i < n)] of filewrite, [addr] being the bytes from [i] on; the result is the
    final [i].  [k] bounds the turns. *)
Fixpoint filewrite_loop (k : nat) (f : nat) (addr : list Z) (i n : Z) : KM Z :=
  match k with
  | O => kout
  | S k' =>
    if i <? n then
      let n1 := if n - i >? filewrite_max then filewrite_max else n - i in
      begin_op >>;
      fl <- get_file f;
      ilock (f_ip fl) >>;
      ip <- kderef (f_ip fl);
      fl <- get_file f;
      r <- writei ip (take (Z.to_nat n1) addr) (f_off fl);
      kwhen (r >? 0) (kmod (upd_file f (set_f_off (fun o => u32 (o + r))))) >>;
      iunlock (f_ip fl) >>;
      end_op >>;
      if r <? 0 then kret i else
      if negb (r =? n1) then kpanic "short filewrite" else
      filewrite_loop k' f (drop (Z.to_nat r) addr) (i + r) n
    else kret i
  end.

Definition filewrite (f : nat) (addr : list Z) : KM Z :=
  let n := Z.of_nat (length addr) in
  fl <- get_file f;
  if f_writable fl =? 0 then kret (-1) else
  match f_type fl with
  | FD_PIPE => pipewrite (f_pipe fl) addr
  | FD_INODE =>
    i <- filewrite_loop (Z.to_nat (n / filewrite_max) + 2) f addr 0 n;
    kret (if i =? n then n else -1)
  | FD_NONE => kpanic "filewrite"
  end.

(** The bytes of [data] in a fresh page: whatever the page held. *)
Definition page_bytes (w : world) (a : Z) : list Z :=
  (fun k => ldb (w_mem w) (a + Z.of_nat k)) <$> seq 0 (Z.to_nat PIPESIZE).

(** The offset of [data] in [struct pipe], after its spin lock. *)
Definition pipe_data_off : Z := 52.

(** [Some (f0, f1)] is the return of 0 with both pointers set. *)
Definition pipealloc : KM (option (nat * nat)) :=
  let bad (p : Z) (f0 f1 : option nat) :=
    kwhen (negb (p =? 0)) (kfree p) >>;
    (match f0 with Some f => fileclose f | None => kret tt end) >>;
    (match f1 with Some f => fileclose f | None => kret tt end) >>;
    kret None in
  f0 <- filealloc;
  match f0 with
  | None => bad 0 None None
  | Some g0 =>
    f1 <- filealloc;
    match f1 with
    | None => bad 0 f0 None
    | Some g1 =>
      p <- kalloc;
      if p =? 0 then bad 0 f0 f1 else
      kmod (fun w => set_w_pipes (insert p (mkPipe (page_bytes w (p + pipe_data_off)) 0 0 1 1)) w) >>;
      initlock (PipeLock p) "pipe" >>;
      kmod (upd_file g0 (fun f => mkFile FD_PIPE (f_ref f) 1 0 p (f_ip f) (f_off f))) >>;
      kmod (upd_file g1 (fun f => mkFile FD_PIPE (f_ref f) 0 1 p (f_ip f) (f_off f))) >>;
      kret (Some (g0, g1))
    end
  end.
End file.

(** ** Reference counts *)

(** The references to file [f] in the process table. *)
Definition fd_refs (w : world) (f : nat) : nat :=
  sum_list ((fun p => length (filter (fun o => o = Some f) (p_ofile p))) <$> w_procs w).

(** The file table counts the descriptors that refer to each entry. *)
Definition refs_ok (w : world) : Prop :=
  forall f fl, w_files w !! f = Some fl -> f_ref fl = Z.of_nat (fd_refs w f).
