(* ===== verification/Durable.v ===== *)
(** * Files survive crashes (fs.c over log.c and bio.c)

    The guarantees of readi and writei, and what the log adds to them: a write to a file that is
    a transaction of its own happens entirely or not at all, whenever the machine stops. *)

From Stdlib Require Import ZArith Lia.
From stdpp Require Import base list gmap strings numbers.
From S2P Require Import Prelude Machine Cstring Spinlock Boot Sched Sleeplock Layout Bio Log Bcache Crash Fs Txn Balloc Inodes Files File Fsdemo.
From stdpp Require Import list.
Local Open Scope Z_scope.
Local Open Scope kern_scope.

(** ** Disks that agree outside the log *)

Section agree.
Context (E : txenv) (L : layout E) (V R : blocks).
Hypothesis Hagree : forall m, ~ in_log (te_start E) m -> R m = V m.
Notation sb := (te_sb E).
Implicit Types (nd : inode) (k : Z).

Lemma agree_home n : home E n -> R n = V n.
Proof using Hagree. intros [_ Hn]. by apply Hagree. Qed.

Lemma agree_used b : 0 <= b < sb_size sb -> used E R b = used E V b.
Proof using Hagree L. intros Hb. unfold used. rewrite agree_home; [done|]. by apply bitmap_home, bblock_eq. Qed.

Lemma agree_dinode inum : 0 <= inum < sb_ninodes sb -> dinode_at E R inum = dinode_at E V inum.
Proof using Hagree L. intros Hi. unfold dinode_at. rewrite agree_home; [done|]. by apply iblock_facts. Qed.

Lemma agree_faddr nd k : file_ok E V nd -> faddr R nd k = faddr V nd k.
Proof using Hagree L.
  intros Hok. unfold faddr. destruct (k <? NDIRECT); [done|]. destruct (Z.eqb_spec (ind nd) 0) as [?|Hne]; [done|].
  rewrite agree_home; [done|]. apply data_home; [done|]. by apply (fo_ind _ _ _ Hok).
Qed.

Lemma agree_file nd : file_ok E V nd -> file_ok E R nd /\ contents R nd = contents V nd.
Proof using Hagree L.
  intros Hok. pose proof (dstart_pos E L) as Hd. pose proof (fo_size _ _ _ Hok) as [Hs1 Hs2]. split.
  - split; try apply Hok.
    + intros Hin. destruct (fo_ind _ _ _ Hok Hin) as [? ?]. rewrite agree_used by lia. done.
    + intros k Hk. rewrite agree_faddr by done. intros Hk0. destruct (fo_data _ _ _ Hok k Hk Hk0) as (? & ? & ?). rewrite agree_used by lia. done.
    + intros k k' Hk Hk'. rewrite !agree_faddr by done. by apply Hok.
    + split; [done|]. intros x Hx. rewrite agree_faddr by done. by apply Hs2.
  - apply bytes_ext. intros x Hx. unfold byte_at. rewrite agree_faddr by done. rewrite agree_home; [done|].
    apply data_home; [done|]. apply (fo_data _ _ _ Hok); [apply block_index; lia|apply Hs2; lia].
Qed.
End agree.

Lemma size_union_le (X Y : gset Z) : (size (X ∪ Y) <= size X + size Y)%nat.
Proof. rewrite size_union_alt. assert (size (Y ∖ X) <= size Y)%nat by (apply subseteq_size; set_solver). lia. Qed.
Lemma size_list_le (l : list Z) : (size (list_to_set l : gset Z) <= length l)%nat.
Proof.
  induction l as [|x l IH]; [done|]. cbn [list_to_set length]. pose proof (size_union_le {[x]} (list_to_set l)).
  rewrite size_singleton in *. lia.
Qed.

(** Loading an inode that is on the disk as it is in memory. *)
Lemma load_same nd nd' : nd' = set_i_size (fun _ => i_size nd') (set_i_addrs (fun _ => i_addrs nd') nd) ->
  load_dinode (inode_dinode nd') nd = nd'.
Proof. intros ->. by destruct nd. Qed.

Section durable.
Context (i : nat) (c : cpu) (p : nat) (pr : proc).
#[local] Existing Instance mem_driver.
Context `{DevSwitch}.
Context (E : txenv).
Notation sb := (te_sb E).
Notation tx := (tx i c p pr E).
Implicit Types (V : blocks) (nd : inode) (bs : list Z).

(** At the start of a transaction what is seen is what is on the disk. *)
Lemma tx_start w V ino : tx w [] V [] ino -> forall m, V m = disk_block w m.
Proof.
  intros [(D & _ & HV & HD) _ _ _ _ _ _ _] m. rewrite <-HV. unfold view. destruct (D !! m) as [d|] eqn:Hd; [|done].
  exfalso. apply (not_elem_of_nil m). apply HD. eauto.
Qed.

(** The end of a transaction. *)
Lemma tx_ending w V bs ino :
  layout E -> te_out E = 1 -> clear (te_start E) (te_disk E) -> s32 (sb_logstart (read_sb (blk (te_disk E) 1))) = te_start E ->
  tx w [] V bs ino -> bs <> [] ->
  exists D, cache i c p pr w [] D /\ u32 (ide_disksize (w_ide w)) = te_sz E /\ ending (te_start E) (te_sz E) w D bs /\ forall m, view w D m = V m.
Proof.
  intros L Ho Hcl Hsb [(D & Hc & HV & HD) _ Hl Hlg [Hnd Hh] (O1 & O2 & O3) (F1 & F2 & F3 & F4) _] Hne.
  exists D. split_and!; [done|done| |done]. pose proof (ly_facts E L) as (G1 & G2 & G3 & G4). destruct L as [L1 L2 L3 L4 L5].
  unfold dstart in *. assert (BPB = 4096) by done. split; try done.
  - unfold LOGSIZE, MAXOPBLOCKS in *. lia.
  - by rewrite O1, O2, Ho.
  - split_and!; [done|done|]. pose proof (log_holds_len _ _ _ Hlg). unfold LOGSIZE, MAXOPBLOCKS, NBUF in *. lia.
  - by rewrite F1.
  - by rewrite F1.
Qed.

(** C16. balloc returns the first free block, a block of the data, full of zeros and marked as in use;
    the other blocks and marks are as before.  bfree of the block restores the bitmap. *)
Theorem balloc_bfree w V bs ino e :
  p_state pr <> SLEEPING -> layout E -> tx w [] V bs ino -> meta_used E V -> (0 < nfree E V)%nat -> fits 3 bs [] ->
  exists f w1 V1 bs1 w2 V2 bs2, balloc 1 w e = Ret f w1 e /\ tx w1 [] V1 bs1 ino /\
    dstart E <= f /\ first_free E V 0 f /\ V1 f = zeros /\
    (forall x, 0 <= x < sb_size sb -> used E V1 x = if decide (x = f) then true else used E V x) /\
    (forall n, n <> f -> ~ bitmap_block E n -> V1 n = V n) /\
    bfree 1 f w1 e = Ret tt w2 e /\ tx w2 [] V2 bs2 ino /\ (forall x, 0 <= x < sb_size sb -> used E V2 x = used E V x).
Proof.
  intros Hrun L Ht Hm Hn Hf. destruct (nfree_first E V Hn) as [f Hff]. pose proof Hff as (Hr & Hu & _).
  assert (dstart E <= f) as Hd by (destruct (Z.le_gt_cases (dstart E) f); [done|]; rewrite Hm in Hu by lia; done).
  destruct (balloc_spec i c p pr Hrun E L w [] V bs ino f e Ht Hff Hm) as (w1 & E1 & Ht1); [constructor|constructor|unfold fits in *; lia|].
  pose proof (tx_len _ _ _ _ _ _ _ _ _ _ Ht) as Hl. pose proof (tx_len _ _ _ _ _ _ _ _ _ _ Ht1) as Hl1.
  assert (forall x, 0 <= x < sb_size sb -> used E (mark_block E V f) x = if decide (x = f) then true else used E V x) as Hus.
  { intros x Hx. apply used_take; try done. lia. }
  destruct (bfree_spec i c p pr Hrun E L w1 [] (mark_block E V f) _ ino f e Ht1) as (w2 & E2 & Ht2); [done|by rewrite Hus, decide_True|constructor| |].
  { unfold fits in *. pose proof (logged_length f (logged (BBLOCK f sb) bs)). pose proof (logged_length (BBLOCK f sb) bs). lia. }
  do 7 eexists. split_and!; [exact E1|exact Ht1|done|done|apply take_eq|done|intros n Hnf Hb; apply take_ne; [done|lia|done|done]|exact E2|exact Ht2|].
  intros x Hx. rewrite (used_bit E L bit_clear false); try done; [|intros; by apply bit_clear_used].
  destruct (decide (x = f)) as [->|Hne]; [done|]. by rewrite Hus, decide_False.
Qed.

(** C5. readi of a file returns the bytes of the file from [off] on, [n] of them or as many as
    there are; it refuses an offset beyond the end and a range that wraps around.  It changes
    nothing that can be seen. *)
Theorem readi_reads w V bs ino ip nd off n e :
  p_state pr <> SLEEPING -> layout E -> tx w [] V bs ino -> ino !! ip = Some nd -> file_ok E V nd -> i_type nd <> T_DEV ->
  (length bs < NBUF)%nat -> 0 <= off < 2 ^ 32 -> 0 <= n < 2 ^ 32 ->
  if decide (off <= i_size nd /\ off + n < 2 ^ 32) then
    let n' := Z.min n (i_size nd - off) in
    exists w', readi ip off n w e = Ret (n', range (Z.to_nat off) (Z.to_nat n') (contents V nd)) w' e /\ tx w' [] V bs ino
  else readi ip off n w e = Ret (-1, []) w e.
Proof.
  intros Hrun L Ht Hip Hok Hty Hlen Ho Hn. pose proof (readi_spec i c p pr Hrun E L w V bs ino ip nd off n e Ht Hip Hok Hty Hlen Ho Hn) as Hr.
  destruct (decide _) as [[H1 H2]|Hno]; [|done]. cbv zeta in *. by rewrite <-bytes_range by lia.
Qed.

(** C3. writei puts the bytes into the file: it refuses an offset beyond the end and a file that
    would be too long, and otherwise returns their number with the new contents, the new size and
    the inode on the disk in place, the file well-formed, every other inode as it was, every other
    file with its contents, and every block in use that is not the file's, the bitmap's or this
    inode's unchanged. *)
Theorem writei_writes w V bs ino ip nd src off e :
  let n := Z.of_nat (length src) in
  p_state pr <> SLEEPING -> layout E -> tx w [] V bs ino -> ino !! ip = Some nd -> file_ok E V nd -> meta_used E V -> inode_fits E nd ->
  i_type nd <> T_DEV -> 0 <= off < 2 ^ 32 -> n < 2 ^ 32 ->
  mapped V nd off n \/ (2 * turns off n <= nfree E V)%nat -> (cost E bs nd + turns off n + 2 < NBUF)%nat ->
  if decide (off <= i_size nd /\ off + n <= MAXFILE * BSIZE) then
    exists w' V' bs' nd', writei ip src off w e = Ret n w' e /\ tx w' [] V' bs' (<[ip := nd']> ino) /\
      wrote E V bs nd V' bs' nd' off src (turns off n)
  else writei ip src off w e = Ret (-1) w e.
Proof. intros n Hrun L Ht Hip Hok Hm Hf Hty Ho Hn Hfree Hc. by apply (writei_spec i c p pr Hrun E L w V bs ino ip nd src off e). Qed.

(** C4. What has been written is read back: after a writei that is not refused, readi of the same
    range returns the bytes written. *)
Theorem writei_readi w V bs ino ip nd src off e :
  let n := Z.of_nat (length src) in
  p_state pr <> SLEEPING -> layout E -> tx w [] V bs ino -> ino !! ip = Some nd -> file_ok E V nd -> meta_used E V -> inode_fits E nd ->
  i_type nd <> T_DEV -> 0 <= off <= i_size nd -> off + n <= MAXFILE * BSIZE ->
  mapped V nd off n \/ (2 * turns off n <= nfree E V)%nat -> (cost E bs nd + turns off n + 2 < NBUF)%nat ->
  exists w1 w2, writei ip src off w e = Ret n w1 e /\ readi ip off n w1 e = Ret (n, src) w2 e.
Proof.
  intros n Hrun L Ht Hip Hok Hm Hf Hty Ho Hmax Hfree Hc. pose proof (fo_size _ _ _ Hok) as [Hs _]. change (MAXFILE * BSIZE) with 71680 in *.
  pose proof (writei_spec i c p pr Hrun E L w V bs ino ip nd src off e Ht Hip Hok Hm Hf Hty ltac:(lia) ltac:(lia) Hfree Hc) as Hw.
  fold n in Hw. rewrite decide_True in Hw by (split; [lia|exact Hmax]). destruct Hw as (w1 & V1 & bs1 & nd1 & E1 & Ht1 & Hw).
  pose proof (wf_log _ _ _ _ _ _ _ _ _ _ Hw) as Hlog. pose proof (wf_size _ _ _ _ _ _ _ _ _ _ Hw) as Hsz. fold n in Hsz.
  assert (i_type nd1 <> T_DEV) as Hty1 by (rewrite (wf_inode _ _ _ _ _ _ _ _ _ _ Hw); done).
  pose proof (readi_spec i c p pr Hrun E L w1 V1 bs1 _ ip nd1 off n e Ht1
    ltac:(apply list_lookup_insert_eq; by eapply lookup_lt_Some) (wf_ok _ _ _ _ _ _ _ _ _ _ Hw) Hty1 ltac:(lia) ltac:(lia) ltac:(lia)) as Hr.
  rewrite decide_True in Hr by lia. cbv zeta in Hr. destruct Hr as (w2 & E2 & _). exists w1, w2. split; [done|].
  rewrite E2. replace (Z.min n (i_size nd1 - off)) with n by lia. do 2 f_equal.
  rewrite bytes_range by lia. rewrite (wf_contents _ _ _ _ _ _ _ _ _ _ Hw). unfold n, range, splice. rewrite Nat2Z.id.
  rewrite drop_app_length' by (rewrite length_take; unfold contents; rewrite bytes_length; lia). by rewrite take_app_length.
Qed.

(** At most two blocks more than those of the file when the bitmap is one block. *)
Lemma cost_small bs nd : layout E -> sb_size sb < BPB -> (cost E bs nd <= length bs + 2)%nat.
Proof.
  intros L Hs. pose proof (ly_size E L) as Hls. unfold cost.
  assert (size (bitmap_set E) <= 1)%nat as H1.
  { etrans; [apply size_list_le|]. rewrite length_seqZ, Z.div_small by lia. lia. }
  pose proof (size_list_le bs). pose proof (size_union_le (list_to_set bs ∪ bitmap_set E) (ind_set nd)).
  pose proof (size_union_le (list_to_set bs) (bitmap_set E)).
  assert (size (ind_set nd) + (if decide (ind nd = 0)%Z then 1 else 0) <= 1)%nat; [|lia].
  unfold ind_set. destruct (decide (ind nd = 0)); rewrite ?fin_sets.size_empty, ?size_singleton; lia.
Qed.

Lemma turns_max off n : 0 <= n <= filewrite_max -> (turns off n <= 4)%nat.
Proof.
  change filewrite_max with 1536. intros Hn. unfold turns, BSIZE. pose proof (Z.mod_pos_bound off 512 ltac:(lia)).
  assert ((off mod 512 + n + 512 - 1) / 512 < 5) by (apply Z.div_lt_upper_bound; lia). lia.
Qed.

(** C15. The pieces into which filewrite cuts a write fit the part of the log that begin_op sets
    aside for an operation: on a file system whose bitmap is one block, as mkfs makes it, writei
    of at most [filewrite_max] bytes with room for MAXOPBLOCKS more blocks in the log returns
    without a panic and adds no more than that many blocks to the log. *)
Theorem filewrite_piece_fits w V bs ino ip nd src off e :
  let n := Z.of_nat (length src) in
  p_state pr <> SLEEPING -> layout E -> sb_size sb < BPB ->
  tx w [] V bs ino -> ino !! ip = Some nd -> file_ok E V nd -> meta_used E V -> inode_fits E nd -> i_type nd <> T_DEV ->
  0 <= off <= i_size nd -> off + n <= MAXFILE * BSIZE -> n <= filewrite_max -> (2 * turns off n <= nfree E V)%nat ->
  lh_n (w_log w) + MAXOPBLOCKS <= LOGSIZE ->
  exists w', writei ip src off w e = Ret n w' e /\ lh_n (w_log w') <= lh_n (w_log w) + MAXOPBLOCKS /\ lh_n (w_log w') < LOGSIZE.
Proof.
  intros n Hrun L Hone Ht Hip Hok Hm Hf Hty Ho Hmax Hn Hfree Hroom. pose proof (fo_size _ _ _ Hok) as [Hs _]. change (MAXFILE * BSIZE) with 71680 in *.
  pose proof (cost_small bs nd L Hone) as Hc. pose proof (turns_max off n ltac:(lia)) as Htm.
  pose proof (tx_log _ _ _ _ _ _ _ _ _ _ Ht) as (_ & _ & Hlh & _).
  assert (length bs <= 20)%nat as Hlen by (unfold LOGSIZE, MAXOPBLOCKS in Hroom; lia).
  pose proof (writei_spec i c p pr Hrun E L w V bs ino ip nd src off e Ht Hip Hok Hm Hf Hty ltac:(lia) ltac:(lia) ltac:(by right) ltac:(fold n; unfold NBUF; lia)) as Hw.
  fold n in Hw. rewrite decide_True in Hw by (split; [lia|exact Hmax]). destruct Hw as (w1 & V1 & bs1 & nd1 & E1 & Ht1 & Hw).
  exists w1. pose proof (wf_log _ _ _ _ _ _ _ _ _ _ Hw) as Hlog. pose proof (tx_log _ _ _ _ _ _ _ _ _ _ Ht1) as (_ & _ & Hlh1 & _).
  split; [done|]. unfold LOGSIZE, MAXOPBLOCKS in *. lia.
Qed.

(** C2. A write to a file is atomic and durable.  writei of some bytes into a file, as a
    transaction of its own, returns, and so does end_op, having carried out the disk writes [ws].
    If the machine stops after any number [j] of them, and stops again any number of times while
    it recovers, then initlog at the next start ends and leaves a well-formed file, found through
    its inode on the disk, that holds what it held before or that with the new bytes in their
    place; the latter, if end_op had returned. *)
Theorem writei_atomic w V ino ip nd src off e :
  let n := Z.of_nat (length src) in
  p_state pr <> SLEEPING -> layout E -> te_out E = 1 -> clear (te_start E) (te_disk E) ->
  s32 (sb_logstart (read_sb (blk (te_disk E) 1))) = te_start E ->
  tx w [] V [] ino -> ino !! ip = Some nd -> file_ok E V nd -> meta_used E V -> inode_fits E nd -> synced E V nd ->
  i_type nd <> T_DEV -> src <> [] -> 0 <= off <= i_size nd -> off + n <= MAXFILE * BSIZE ->
  mapped V nd off n \/ (2 * turns off n <= nfree E V)%nat -> (cost E [] nd + turns off n + 2 < NBUF)%nat ->
  exists w1 w2 ws, writei ip src off w e = Ret n w1 e /\ end_op w1 e = Ret tt w2 e /\
    w_dtrace w2 = reverse ws ++ w_dtrace w /\ w_disk w2 = apply_writes ws (w_disk w) /\
    forall j d i' c' p' pr' wb tr lg e',
      crashed (te_sz E) (apply_writes (take j ws) (w_disk w)) d ->
      p_state pr' <> SLEEPING -> idle i' c' p' pr' wb ∅ d tr lg (te_sz E) -> length (lh_block lg) = Z.to_nat LOGSIZE ->
      exists wr, initlog 1 wb e' = Ret tt wr e' /\
        let R := disk_block wr in
        let nr := load_dinode (dinode_at E R (i_inum nd)) nd in
        file_ok E R nr /\
        (contents R nr = contents V nd \/ contents R nr = splice (Z.to_nat off) src (contents V nd)) /\
        ((length ws <= j)%nat -> contents R nr = splice (Z.to_nat off) src (contents V nd)).
Proof.
  intros n Hrun L Hout Hcl Hsb Ht Hip Hok Hm Hf Hsync Hty Hsrc Ho Hmax Hfree Hc.
  pose proof (fo_size _ _ _ Hok) as [Hs _]. change (MAXFILE * BSIZE) with 71680 in *.
  pose proof (writei_spec i c p pr Hrun E L w V [] ino ip nd src off e Ht Hip Hok Hm Hf Hty ltac:(lia) ltac:(lia) Hfree Hc) as Hw.
  fold n in Hw. rewrite decide_True in Hw by (split; [lia|exact Hmax]). destruct Hw as (w1 & V1 & bs1 & nd1 & E1 & Ht1 & Hw).
  destruct (tx_ending w1 V1 bs1 _ L Hout Hcl Hsb Ht1 (wf_some _ _ _ _ _ _ _ _ _ _ Hw Hsrc)) as (D & Hc1 & Hsz1 & He1 & HV1).
  destruct (commit_atomic i c p pr _ _ w1 D bs1 e Hrun Hc1 Hsz1 He1) as (w2 & ws & E2 & Etr & Ed & Hcrash).
  destruct (tx_fix _ _ _ _ _ _ _ _ _ _ Ht) as (F1 & F2 & _ & _). destruct (tx_fix _ _ _ _ _ _ _ _ _ _ Ht1) as (G1 & G2 & _ & _).
  rewrite G1, G2, <-F1, <-F2 in *. exists w1, w2, ws. split_and!; try done.
  intros j d i' c' p' pr' wb tr lg e' Hcr Hrun' Hid Hl. destruct (Hcrash j d i' c' p' pr' wb tr lg e' Hcr Hrun' Hid Hl) as (wr & Er & Hcase & Hdone).
  exists wr. split; [done|].
  assert ((forall m, ~ in_log (te_start E) m -> disk_block wr m = V1 m) ->
    let nr := load_dinode (dinode_at E (disk_block wr) (i_inum nd)) nd in
    file_ok E (disk_block wr) nr /\ contents (disk_block wr) nr = splice (Z.to_nat off) src (contents V nd)) as Hnew.
  { intros Ha. cbv zeta. rewrite (agree_dinode E L V1 _ Ha) by apply Hf. pose proof (wf_sync _ _ _ _ _ _ _ _ _ _ Hw Hsync) as Hs1.
    unfold synced in Hs1. assert (i_inum nd1 = i_inum nd) as Hi by (rewrite (wf_inode _ _ _ _ _ _ _ _ _ _ Hw); done).
    rewrite Hi in Hs1. rewrite Hs1, load_same by apply Hw. destruct (agree_file E L V1 _ Ha nd1 (wf_ok _ _ _ _ _ _ _ _ _ _ Hw)) as [? ->].
    split; [done|apply Hw]. }
  destruct Hcase as [Hold|Hall].
  - assert (forall m, ~ in_log (te_start E) m -> disk_block wr m = V m) as Ha.
    { intros m Hm'. rewrite Hold by done. rewrite (tx_start w V ino Ht m). unfold disk_block. by rewrite G1, F1. }
    cbv zeta. destruct (agree_file E L V _ Ha nd Hok) as [Hok' Hct].
    assert (load_dinode (dinode_at E (disk_block wr) (i_inum nd)) nd = nd) as Hld.
    { rewrite (agree_dinode E L V _ Ha), Hsync by apply Hf. by destruct nd. }
    rewrite Hld. split_and!; [done|by left|]. intros Hj.
    destruct Hnew as [_ Hx]; [intros m Hm'; rewrite Hdone; [apply HV1|done|done]|]. cbv zeta in Hx. by rewrite Hld in Hx.
  - destruct Hnew as [Hx1 Hx2]; [intros m Hm'; by rewrite Hall|]. cbv zeta. split_and!; [done|by right|done].
Qed.
End durable.

Lemma writei_atomic_witness :
  exists w1 w2 ws, writei (H := mem_driver) (H0 := FsDemo.no_devs) 0 FsDemo.data 3 FsDemo.start [] = Ret 700 w1 [] /\ end_op (H := mem_driver) w1 [] = Ret tt w2 [] /\
    w_disk w2 = apply_writes ws FsDemo.fs_disk /\
    exists wr, initlog (H := mem_driver) 1 (FsDemo.fs_world (demo_log 0 0 0)) [] = Ret tt wr [].
Proof.
  destruct (writei_atomic (H := FsDemo.no_devs) 0 ctx_cpu 1 ctx_proc FsDemo.env FsDemo.start FsDemo.view0 FsDemo.ino 0 FsDemo.afile FsDemo.data 3 [])
    as (w1 & w2 & ws & E1 & E2 & _ & Ed & Hcr).
  - discriminate.
  - exact FsDemo.fs_layout.
  - reflexivity.
  - exact FsDemo.fs_clear.
  - vm_compute. reflexivity.
  - exact FsDemo.fs_tx.
  - reflexivity.
  - exact FsDemo.fs_file.
  - exact FsDemo.fs_meta.
  - exact FsDemo.fs_fits.
  - exact FsDemo.fs_synced.
  - discriminate.
  - discriminate.
  - vm_compute. split; discriminate.
  - vm_compute. discriminate.
  - right. exact FsDemo.fs_room.
  - exact FsDemo.fs_cost.
  - exists w1, w2, ws. split; [exact E1|]. split; [exact E2|]. split; [exact Ed|].
    destruct (Hcr 0%nat FsDemo.fs_disk 0%nat ctx_cpu 1%nat ctx_proc (FsDemo.fs_world (demo_log 0 0 0)) [] (demo_log 0 0 0) []) as (wr & Er & _).
    + apply crashed_now.
    + discriminate.
    + split; [apply FsDemo.fs_cache|reflexivity..].
    + reflexivity.
    + exists wr. exact Er.
Defined.

Lemma readi_reads_witness : exists w', readi (H := mem_driver) (H0 := FsDemo.no_devs) 0 1 600 FsDemo.start [] = Ret (2, [105; 33]) w' [].
Proof.
  pose proof (readi_reads (H := FsDemo.no_devs) 0 ctx_cpu 1 ctx_proc FsDemo.env FsDemo.start FsDemo.view0 [] FsDemo.ino 0 FsDemo.afile 1 600 []) as Hr.
  destruct Hr as (w' & Er & _).
  - discriminate.
  - exact FsDemo.fs_layout.
  - exact FsDemo.fs_tx.
  - reflexivity.
  - exact FsDemo.fs_file.
  - discriminate.
  - apply Nat.ltb_lt. reflexivity.
  - lia.
  - lia.
  - exists w'. exact Er.
Defined.

Lemma writei_writes_witness : exists w', writei (H := mem_driver) (H0 := FsDemo.no_devs) 0 FsDemo.data 3 FsDemo.start [] = Ret 700 w' [].
Proof.
  pose proof (writei_writes (H := FsDemo.no_devs) 0 ctx_cpu 1 ctx_proc FsDemo.env FsDemo.start FsDemo.view0 [] FsDemo.ino 0 FsDemo.afile FsDemo.data 3 []) as Hr.
  cbv zeta in Hr. rewrite decide_True in Hr by (vm_compute; intuition discriminate). destruct Hr as (w' & V' & bs' & nd' & Er & _).
  - discriminate.
  - exact FsDemo.fs_layout.
  - exact FsDemo.fs_tx.
  - reflexivity.
  - exact FsDemo.fs_file.
  - exact FsDemo.fs_meta.
  - exact FsDemo.fs_fits.
  - discriminate.
  - lia.
  - reflexivity.
  - right. exact FsDemo.fs_room.
  - exact FsDemo.fs_cost.
  - exists w'. exact Er.
Defined.

Lemma writei_readi_witness : exists w1 w2,
  writei (H := mem_driver) (H0 := FsDemo.no_devs) 0 FsDemo.data 3 FsDemo.start [] = Ret 700 w1 [] /\
  readi (H := mem_driver) (H0 := FsDemo.no_devs) 0 3 700 w1 [] = Ret (700, FsDemo.data) w2 [].
Proof.
  apply (writei_readi (H := FsDemo.no_devs) 0 ctx_cpu 1 ctx_proc FsDemo.env FsDemo.start FsDemo.view0 [] FsDemo.ino 0 FsDemo.afile FsDemo.data 3 []).
  - discriminate.
  - exact FsDemo.fs_layout.
  - exact FsDemo.fs_tx.
  - reflexivity.
  - exact FsDemo.fs_file.
  - exact FsDemo.fs_meta.
  - exact FsDemo.fs_fits.
  - discriminate.
  - cbn. lia.
  - vm_compute. discriminate.
  - right. exact FsDemo.fs_room.
  - exact FsDemo.fs_cost.
Defined.

Lemma filewrite_piece_fits_witness : exists w',
  writei (H := mem_driver) (H0 := FsDemo.no_devs) 0 FsDemo.data 3 FsDemo.start [] = Ret 700 w' [] /\ lh_n (w_log w') <= 10.
Proof.
  destruct (filewrite_piece_fits (H := FsDemo.no_devs) 0 ctx_cpu 1 ctx_proc FsDemo.env FsDemo.start FsDemo.view0 [] FsDemo.ino 0 FsDemo.afile FsDemo.data 3 [])
    as (w' & Er & Hl & _).
  - discriminate.
  - exact FsDemo.fs_layout.
  - reflexivity.
  - exact FsDemo.fs_tx.
  - reflexivity.
  - exact FsDemo.fs_file.
  - exact FsDemo.fs_meta.
  - exact FsDemo.fs_fits.
  - discriminate.
  - cbn. lia.
  - vm_compute. discriminate.
  - vm_compute. discriminate.
  - exact FsDemo.fs_room.
  - vm_compute. discriminate.
  - exists w'. split; [exact Er|exact Hl].
Defined.

Lemma balloc_bfree_witness : exists f w1, balloc (H := mem_driver) 1 FsDemo.start [] = Ret f w1 [] /\ 59 <= f.
Proof.
  destruct (balloc_bfree 0 ctx_cpu 1 ctx_proc FsDemo.env FsDemo.start FsDemo.view0 [] FsDemo.ino []) as (f & w1 & V1 & bs1 & w2 & V2 & bs2 & E1 & _ & Hd & _).
  - discriminate.
  - exact FsDemo.fs_layout.
  - exact FsDemo.fs_tx.
  - exact FsDemo.fs_meta.
  - apply Nat.ltb_lt. vm_compute. reflexivity.
  - apply Nat.ltb_lt. reflexivity.
  - exists f, w1. split; [exact E1|exact Hd].
Defined.
