(* ===== verification/Mkfs.v ===== *)
(** * The program that makes the disk image (mkfs.c)

    mkfs runs on the host.  It writes zeros over the image, then the superblock, the root
    directory and the files it is given, and at the end the bitmap.  The image is a map from
    sectors to bytes; the host's files are an interface.  A call of exit or a failed assertion
    ends the run.  What the program prints is left out. *)

From Stdlib Require Import ZArith Lia.
From stdpp Require Import base list gmap strings numbers.
From S2P Require Import Prelude Machine Cstring Spinlock Boot Cprintf Sched Sleeplock Layout Bio Log Fs.
From stdpp Require Import list.
Local Open Scope Z_scope.

(** ** The host *)

(** What open, lseek, write and read of the host do: whether the image can be made, whether a
    transfer at a sector succeeds, and for each file the bytes that successive reads of at most
    BSIZE bytes return, [None] if it cannot be opened. *)
Class MkHost := {
  mh_create : bool;
  mh_write : Z -> bool;
  mh_read : Z -> bool;
  mh_file : list Z -> option (list (list Z))
}.

Module Mkfs.

Record state : Type := mkState {
  img : gmap Z (list Z);
  freeinode : Z;
  freeblock : Z;
  sb : superblock
}.

Inductive result (A : Type) : Type :=
| Done (x : A) (s : state)
| Exit (code : Z) (s : state)
| Abort (s : state).  (* a failed assertion *)
Arguments Done {A} x s.
Arguments Exit {A} code s.
Arguments Abort {A} s.

Definition M (A : Type) : Type := state -> result A.
Definition ret {A} (x : A) : M A := fun s => Done x s.
Definition bind {A B} (m : M A) (f : A -> M B) : M B := fun s =>
  match m s with Done x s => f x s | Exit n s => Exit n s | Abort s => Abort s end.
Definition exit {A} (code : Z) : M A := fun s => Exit code s.
Definition assert (b : bool) : M unit := fun s => if b then Done tt s else Abort s.
Definition get {A} (f : state -> A) : M A := fun s => Done (f s) s.
Definition modify (g : state -> state) : M unit := fun s => Done tt (g s).
Fixpoint each {A} (l : list A) (f : A -> M unit) : M unit :=
  match l with [] => ret tt | x :: l' => bind (f x) (fun _ => each l' f) end.

Declare Scope mk_scope.
Notation "x <- m ; k" := (bind m (fun x => k)) (at level 100, m at next level, k at level 200, right associativity) : mk_scope.
Notation "m >>; k" := (bind m (fun _ => k)) (at level 100, k at level 200, right associativity) : mk_scope.
Local Open Scope mk_scope.

Definition set_img (g : gmap Z (list Z) -> gmap Z (list Z)) (s : state) : state := mkState (g (img s)) (freeinode s) (freeblock s) (sb s).
Definition set_freeinode (g : Z -> Z) (s : state) : state := mkState (img s) (g (freeinode s)) (freeblock s) (sb s).
Definition set_freeblock (g : Z -> Z) (s : state) : state := mkState (img s) (freeinode s) (g (freeblock s)) (sb s).
Definition set_sb (g : superblock -> superblock) (s : state) : state := mkState (img s) (freeinode s) (freeblock s) (g (sb s)).

(** ** Constants *)

Definition NINODES : Z := 200.
Definition nbitmap : Z := FSSIZE / (BSIZE * 8) + 1.
Definition ninodeblocks : Z := NINODES / IPB + 1.
Definition nlog : Z := LOGSIZE.

(** The bytes of [x] in intel order, read as the host reads them, which is of that order too. *)
Definition xshort (x : Z) : Z := le_val (Layout.le 2 x).
Definition xint (x : Z) : Z := le_val (Layout.le 4 x).

Section mkfs.
Context `{MkHost}.

(** [lseek(fsfd, sec * BSIZE, 0)]: the position is a uint *)
Definition sector (sec : Z) : Z := u32 (sec * BSIZE) / BSIZE.

Definition wsect (sec : Z) (buf : list Z) : M unit :=
  if mh_write (sector sec) then modify (set_img (insert (sector sec) buf)) else exit 1.

Definition rsect (sec : Z) : M (list Z) :=
  im <- get img;
  match im !! sector sec with
  | Some buf => if mh_read (sector sec) then ret buf else exit 1
  | None => exit 1
  end.

Definition winode (inum : Z) (ip : dinode) : M unit :=
  s <- get sb;
  let bn := IBLOCK inum s in
  buf <- rsect bn;
  wsect bn (write_dinode (dinode_off inum) ip buf).

Definition rinode (inum : Z) : M dinode :=
  s <- get sb;
  let bn := IBLOCK inum s in
  buf <- rsect bn;
  ret (read_dinode buf (dinode_off inum)).

Definition ialloc (type : Z) : M Z :=
  inum <- get freeinode;
  modify (set_freeinode (fun n => u32 (n + 1))) >>;
  let din := mkDinode (s16 (xshort type)) 0 0 (s16 (xshort 1)) (xint 0) (replicate 13 0) in
  winode inum din >>;
  ret inum.

Definition balloc (used : Z) : M unit :=
  assert (used <? BSIZE * 8) >>;
  let buf := foldl (fun buf i => bit_set i buf) (replicate (Z.to_nat BSIZE) 0) (seqZ 0 used) in
  s <- get sb;
  wsect (sb_bmapstart s) buf.

(** [freeblock++] *)
Definition next_block : M Z :=
  b <- get freeblock;
  modify (set_freeblock (fun n => u32 (n + 1))) >>;
  ret b.

(** [din.addrs[k]] *)
Definition addr (din : dinode) (k : Z) : Z := default 0 (d_addrs din !! Z.to_nat k).
Definition set_addr (din : dinode) (k v : Z) : dinode :=
  mkDinode (d_type din) (d_major din) (d_minor din) (d_nlink din) (d_size din) (<[Z.to_nat k := v]> (d_addrs din)).

(** [if(xint(din.addrs[k]) == 0) din.addrs[k] = xint(freeblock++);] *)
Definition fill_addr (din : dinode) (k : Z) : M dinode :=
  if xint (addr din k) =? 0 then b <- next_block; ret (set_addr din k (xint b)) else ret din.

(** The block for byte [off] of the file, with the inode that may have got it. *)
Definition find_block (din : dinode) (fbn : Z) : M (dinode * Z) :=
  if fbn <? NDIRECT then
    din <- fill_addr din fbn;
    ret (din, xint (addr din fbn))
  else
    din <- fill_addr din NDIRECT;
    indirect <- rsect (xint (addr din NDIRECT));
    let at_ := (4 * Z.to_nat (fbn - NDIRECT))%nat in
    indirect <- (if Layout.get 4 indirect at_ =? 0 then
                   b <- next_block;
                   let indirect := put 4 at_ (xint b) indirect in
                   wsect (xint (addr din NDIRECT)) indirect >>;
                   ret indirect
                 else ret indirect);
    ret (din, xint (Layout.get 4 indirect at_)).

(** The loop of iappend, [p] being the bytes left; [k] bounds the turns, each of which takes at
    least one byte. *)
Fixpoint iappend_loop (k : nat) (din : dinode) (off : Z) (p : list Z) : M (dinode * Z) :=
  match k with
  | O => ret (din, off)
  | S k' =>
    match p with
    | [] => ret (din, off)
    | _ =>
      let fbn := off / BSIZE in
      assert (fbn <? MAXFILE) >>;
      r <- find_block din fbn;
      let '(din, x) := r in
      let n1 := Z.min (Z.of_nat (length p)) ((fbn + 1) * BSIZE - off) in
      buf <- rsect x;
      wsect x (splice (Z.to_nat (off - fbn * BSIZE)) (take (Z.to_nat n1) p) buf) >>;
      iappend_loop k' din (u32 (off + n1)) (drop (Z.to_nat n1) p)
    end
  end.

Definition iappend (inum : Z) (xp : list Z) : M unit :=
  din <- rinode inum;
  let off := xint (d_size din) in
  r <- iappend_loop (length xp) din off xp;
  let '(din, off) := r in
  winode inum (mkDinode (d_type din) (d_major din) (d_minor din) (d_nlink din) (xint off) (d_addrs din)).

(** A directory entry: the structure is cleared, then the name is copied. *)
Definition entry (inum : Z) (name : list Z) : list Z :=
  mk_dirent (xshort inum) (strncpy (replicate (Z.to_nat DIRSIZ) 0) name DIRSIZ).

(** One file of the command line. *)
Definition add_file (rootino : Z) (arg : list Z) : M unit :=
  assert (negb (bool_decide (47 ∈ arg))) >>;
  match mh_file arg with
  | None => exit 1
  | Some reads =>
    let name := if default 0 (head arg) =? 95 then tail arg else arg in
    inum <- ialloc T_FILE;
    iappend rootino (entry inum name) >>;
    each reads (fun buf => iappend inum buf)
  end.

Definition superblock_bytes (s : superblock) : list Z :=
  put_words 0 [sb_size s; sb_nblocks s; sb_ninodes s; sb_nlog s; sb_logstart s; sb_inodestart s; sb_bmapstart s]
    (replicate (Z.to_nat BSIZE) 0).

(** main; [argv] are the arguments after the name of the program. *)
Definition main (argv : list (list Z)) : M unit :=
  match argv with
  | [] => exit 1
  | _ :: files =>
    assert (BSIZE mod 64 =? 0) >>;
    assert (BSIZE mod 16 =? 0) >>;
    (if mh_create then ret tt else exit 1) >>;
    let nmeta := 2 + nlog + ninodeblocks + nbitmap in
    let nblocks := FSSIZE - nmeta in
    modify (set_sb (fun _ => mkSuperblock (xint FSSIZE) (xint nblocks) (xint NINODES) (xint nlog) (xint 2)
                               (xint (2 + nlog)) (xint (2 + nlog + ninodeblocks)))) >>;
    modify (set_freeblock (fun _ => u32 nmeta)) >>;
    each (seqZ 0 FSSIZE) (fun i => wsect i (replicate (Z.to_nat BSIZE) 0)) >>;
    s <- get sb;
    wsect 1 (superblock_bytes s) >>;
    rootino <- ialloc T_DIR;
    assert (rootino =? ROOTINO) >>;
    iappend rootino (entry rootino [46]) >>;
    iappend rootino (entry rootino [46; 46]) >>;
    each files (add_file rootino) >>;
    din <- rinode rootino;
    let off := xint (d_size din) in
    let off := u32 ((off / BSIZE + 1) * BSIZE) in
    winode rootino (mkDinode (d_type din) (d_major din) (d_minor din) (d_nlink din) (xint off) (d_addrs din)) >>;
    used <- get freeblock;
    balloc (s32 used) >>;
    exit 0
  end.

(** The program starts with its globals cleared but for [freeinode]. *)
Definition start : state := mkState ∅ 1 0 (mkSuperblock 0 0 0 0 0 0 0).
Definition run (argv : list (list Z)) : result unit := main argv start.
End mkfs.
End Mkfs.
