(* ===== verification/Mkfsspec.v ===== *)
(** * The image mkfs makes is a well-formed file system (mkfs.c against fs.c)

    While mkfs runs, the blocks before [freeblock] are the ones in use, although the bitmap is
    written at the end only.  Seen with that bitmap, each call of iappend does what writei of the
    kernel does at the end of a file.  The image that results is laid out as the kernel expects,
    its root directory lists the files and each file holds the bytes of the host's file. *)

From Stdlib Require Import ZArith Lia.
From stdpp Require Import base list gmap strings numbers.
From S2P Require Import Prelude Machine Cstring Spinlock Boot Cprintf Sched Sleeplock Layout Bio Log Bcache Crash Fs Txn Balloc Inodes Files Fsdemo Dirs File Durable Mkfs.
From stdpp Require Import list.
Local Open Scope Z_scope.
Import Mkfs.

(** ** The layout *)

Definition sb0 : superblock := mkSuperblock 1000 941 200 30 2 32 58.
Definition E0 : txenv := mkTxenv 2 1000 1 ∅ [] sb0.

Lemma mk_layout : layout E0.
Proof. split; vm_compute; intuition discriminate. Qed.
Lemma mk_dstart : dstart E0 = 59.
Proof. reflexivity. Qed.

(** The bitmap in which the first [fb] blocks are in use. *)
Definition bits (fb : Z) : list Z := foldl (fun buf i => bit_set i buf) (replicate (Z.to_nat BSIZE) 0) (seqZ 0 fb).
(** The blocks with that bitmap in place. *)
Definition mark (V : blocks) (fb : Z) : blocks := vput V 58 (bits fb).

Lemma bits_S fb : 0 <= fb -> bits (fb + 1) = bit_set fb (bits fb).
Proof. intros Hf. unfold bits. rewrite seqZ_app by lia. rewrite foldl_app, Z.add_0_l. done. Qed.

Lemma bits_length fb : length (bits fb) = 512%nat.
Proof.
  unfold bits. generalize (seqZ 0 fb). intros l. assert (length (replicate (Z.to_nat BSIZE) 0) = 512%nat) as H by done.
  revert H. generalize (replicate (Z.to_nat BSIZE) 0). induction l as [|x l IH]; intros buf Hb; [done|]. cbn. apply IH. by rewrite bit_set_length.
Qed.

Lemma bits_used fb b : 0 <= fb <= BPB -> 0 <= b < BPB -> bit_used (bits fb) b = (b <? fb).
Proof.
  intros Hf Hb. destruct Hf as [Hf Hmax]. revert Hmax. pattern fb. apply natlike_ind; [|clear fb Hf|done].
  - intros _. rewrite bit_used_spec. unfold bit_byte. change (bits 0) with (replicate (Z.to_nat BSIZE) 0).
    assert (default 0 (replicate (Z.to_nat BSIZE) 0 !! Z.to_nat (b / 8)) = 0) as ->.
    { destruct (_ !! _) as [x|] eqn:Hx; [|done]. by apply lookup_replicate in Hx as [-> _]. }
    rewrite Z.testbit_0_l. symmetry. apply Z.ltb_ge. lia.
  - intros fb Hf IH Hmax. unfold Z.succ. rewrite bits_S by done. unfold BPB, BSIZE in *.
    rewrite bit_set_used; [|done|lia|rewrite bits_length].
    + rewrite IH by lia. destruct (decide (b = fb)) as [->|Hne]; [symmetry; apply Z.ltb_lt; lia|].
      destruct (Z.ltb_spec b fb), (Z.ltb_spec b (fb + 1)); lia || done.
    + assert (fb / 8 < 512) by (apply Z.div_lt_upper_bound; lia). pose proof (Z.div_pos fb 8 Hf ltac:(lia)). lia.
Qed.

Section mark.
Implicit Types (V : blocks) (fb b f : Z).

Lemma mark_ne V fb b : b <> 58 -> mark V fb b = V b.
Proof. intros Hb. by apply vput_ne. Qed.

Lemma bblock0 b : 0 <= b < 1000 -> BBLOCK b sb0 = 58 /\ b mod BPB = b.
Proof.
  intros Hb. unfold BBLOCK, BPB, BSIZE. rewrite Z.div_small, Z.mod_small by lia. split; [|done]. cbn. rewrite u32_small; lia.
Qed.

Lemma used_mark V fb b : 0 <= fb <= 1000 -> 0 <= b < 1000 -> used E0 (mark V fb) b = (b <? fb).
Proof.
  intros Hf Hb. unfold used. destruct (bblock0 b Hb) as [E1 E2]. change (te_sb E0) with sb0. rewrite E1, E2. unfold mark. rewrite vput_eq.
  apply bits_used; unfold BPB, BSIZE; lia.
Qed.

(** Taking the next block is what balloc does. *)
Lemma mark_take V fb n : 59 <= fb < 1000 -> V fb = zeros -> mark V (fb + 1) n = mark_block E0 (mark V fb) fb n.
Proof.
  intros Hf Hz. unfold mark_block, zeros. change (te_sb E0) with sb0. destruct (bblock0 fb ltac:(lia)) as [-> ->].
  destruct (decide (n = fb)) as [->|Hne]; [rewrite vput_eq, mark_ne by lia; exact Hz|]. rewrite vput_ne by done.
  destruct (decide (n = 58)) as [->|Hn]; [|by rewrite vput_ne, !mark_ne by done].
  rewrite vput_eq. unfold mark. rewrite !vput_eq. apply bits_S. lia.
Qed.
End mark.

(** ** Blocks that are equal one by one *)

Section same.
Context (V R : blocks) (Hsame : forall n, R n = V n).

Lemma same_faddr nd k : faddr R nd k = faddr V nd k.
Proof using Hsame. unfold faddr. by rewrite Hsame. Qed.
Lemma same_used b : used E0 R b = used E0 V b.
Proof using Hsame. unfold used. by rewrite Hsame. Qed.
Lemma same_file nd : file_ok E0 V nd -> file_ok E0 R nd.
Proof using Hsame. intros Hok. apply (agree_file E0 mk_layout V R); [|done]. intros m _. apply Hsame. Qed.
Lemma same_grows W V0 nd0 nd : grows E0 W V0 nd0 V nd -> grows E0 W V0 nd0 R nd.
Proof using Hsame.
  intros [G1 G2 G3 G4 G5 G6 G7]. split; try done.
  - intros k Hk Hne. rewrite same_faddr. by apply G2.
  - intros k Hk H0. rewrite same_faddr. by apply G3.
  - intros b Hb Hu. rewrite same_used. by apply G6.
  - intros b H1 H2 H3 H4 H5. rewrite Hsame. by apply G7.
Qed.
Lemma same_byte nd x : byte_at R nd x = byte_at V nd x.
Proof using Hsame. unfold byte_at. by rewrite same_faddr, Hsame. Qed.
Lemma same_written V0 nd0 nd off src : written V0 nd0 V nd off src -> written V0 nd0 R nd off src.
Proof using Hsame.
  intros [W1 W2]. split.
  - intros j x Hj. rewrite same_faddr, same_byte. by apply W1.
  - intros x H1 H2 H3. rewrite same_byte. by apply W2.
Qed.
End same.

(** ** The state of mkfs *)

Section host.
Context `{MkHost}.
(** Transfers to and from the image succeed. *)
Hypothesis Hwrite : forall n, mh_write n = true.
Hypothesis Hread : forall n, mh_read n = true.
Local Open Scope mk_scope.
Implicit Types (s : state) (fb : Z) (nd : inode).

(** The image as blocks, with the bitmap in which the blocks handed out are in use. *)
Definition view (s : state) : blocks := mark (blk (img s)) (freeblock s).

Record base s : Prop := mkBase {
  bs_sb : sb s = sb0;
  bs_free : 59 <= freeblock s <= 1000;
  bs_img : forall n, 0 <= n < 1000 -> is_Some (img s !! n);
  bs_len : forall n, length (blk (img s) n) = 512%nat;
  bs_zero : forall n, freeblock s <= n < 1000 -> blk (img s) n = zeros
}.

Lemma view_len s n : base s -> length (view s n) = 512%nat.
Proof. intros Hb. unfold view, mark, vput. destruct (decide (n = 58)); [apply bits_length|apply (bs_len s Hb)]. Qed.

Lemma sector_small n : 0 <= n < 1000 -> sector n = n.
Proof. intros Hn. unfold sector, BSIZE. rewrite u32_small by lia. apply Z_div_mult_full. lia. Qed.

Lemma wsect_eq n d s : 0 <= n < 1000 -> wsect n d s = Done tt (set_img (insert n d) s).
Proof using Hwrite. intros Hn. unfold wsect. by rewrite sector_small, Hwrite. Qed.

Lemma rsect_eq n s : base s -> 0 <= n < 1000 -> rsect n s = Done (blk (img s) n) s.
Proof using Hread.
  intros Hb Hn. unfold rsect, bind, get. rewrite sector_small by done. destruct (bs_img s Hb n Hn) as [d Hd].
  unfold blk. by rewrite Hd, Hread.
Qed.

Lemma blk_set s n d m : blk (img (set_img (insert n d) s)) m = vput (blk (img s)) n d m.
Proof. cbn. rewrite blk_insert. unfold vput. destruct (decide (n = m)), (decide (m = n)); congruence || done. Qed.

Lemma view_set s n d m : n <> 58 -> view (set_img (insert n d) s) m = vput (view s) n d m.
Proof.
  intros Hn. unfold view, mark. cbn [freeblock set_img]. destruct (decide (m = 58)) as [->|Hm].
  - by rewrite vput_eq, vput_ne, vput_eq by done.
  - rewrite vput_ne by done. rewrite blk_set. unfold vput. destruct (decide (m = n)); [done|]. by rewrite decide_False.
Qed.

(** Writing a block that has been handed out, or one of the blocks before the data. *)
Lemma base_set s n d : base s -> 0 <= n < freeblock s -> length d = 512%nat -> base (set_img (insert n d) s).
Proof.
  intros [B1 B2 B3 B4 B5] Hn Hd. split; [done|done|..].
  - intros m Hm. cbn. destruct (decide (n = m)) as [->|Hne]; [rewrite lookup_insert_eq; eauto|rewrite lookup_insert_ne by done; by apply B3].
  - intros m. rewrite blk_set. unfold vput. by destruct (decide (m = n)).
  - intros m Hm. cbn [freeblock set_img] in Hm. rewrite blk_set, vput_ne by lia. by apply B5.
Qed.

Lemma xint_small x : 0 <= x < 2 ^ 32 -> xint x = x.
Proof. intros Hx. unfold xint. rewrite le_val_le. apply Z.mod_small. done. Qed.

(** [freeblock++] *)
Lemma next_eq s : base s -> freeblock s < 1000 ->
  let s' := set_freeblock (fun n => u32 (n + 1)) s in
  next_block s = Done (freeblock s) s' /\ freeblock s' = freeblock s + 1 /\ base s' /\
  (forall m, view s' m = mark_block E0 (view s) (freeblock s) m).
Proof.
  intros [B1 B2 B3 B4 B5] Hf s'. assert (freeblock s' = freeblock s + 1) as Hs' by (cbn; apply u32_small; lia).
  split_and!; [done|done|..].
  - split; [done|lia|done|done|]. intros n Hn. apply B5. lia.
  - intros m. unfold view. rewrite Hs'. apply mark_take; [lia|]. apply B5. lia.
Qed.

(** The inode in memory is the one of the file, but for the size. *)
Definition holds (din : dinode) nd : Prop :=
  d_type din = i_type nd /\ d_major din = i_major nd /\ d_minor din = i_minor nd /\ d_nlink din = i_nlink nd /\ d_addrs din = i_addrs nd.

(** The blocks of the file are those its size needs, with zeros after its end. *)
Record dense (V : blocks) nd : Prop := mkDense {
  de_data : forall k, 0 <= k < MAXFILE -> faddr V nd k <> 0 <-> k * BSIZE < i_size nd;
  de_ind : ind nd <> 0 <-> NDIRECT * BSIZE < i_size nd;
  de_tail : forall x, i_size nd <= x < MAXFILE * BSIZE -> faddr V nd (x / BSIZE) <> 0 -> byte_at V nd x = 0
}.

(** The number of blocks of a file of [n] bytes. *)
Definition nblk (n : Z) : Z := (n + BSIZE - 1) / BSIZE + (if n <=? NDIRECT * BSIZE then 0 else 1).

(** The blocks before the data do not change. *)
Definition meta_same s s' : Prop := forall n, n < 59 -> blk (img s') n = blk (img s) n.

Lemma addr_faddr V din nd k : holds din nd -> 0 <= k < NDIRECT -> addr din k = faddr V nd k.
Proof.
  intros (_ & _ & _ & _ & Ha) Hk. unfold addr, faddr. rewrite Ha. by rewrite (proj2 (Z.ltb_lt _ _)) by lia.
Qed.
Lemma addr_ind din nd : holds din nd -> addr din NDIRECT = ind nd.
Proof. intros (_ & _ & _ & _ & Ha). unfold addr, ind. by rewrite Ha. Qed.
Lemma holds_set din nd k b : holds din nd -> holds (set_addr din k b) (set_i_addrs (insert (Z.to_nat k) b) nd).
Proof. intros (H1 & H2 & H3 & H4 & H5). unfold holds, set_addr, set_i_addrs. cbn. rewrite H5. done. Qed.

Lemma view_used s b : base s -> 0 <= b < 1000 -> used E0 (view s) b = (b <? freeblock s).
Proof. intros Hb Hr. pose proof (bs_free s Hb). apply used_mark; lia. Qed.

(** A block of the data that has been handed out. *)
Lemma data_addr s nd k : base s -> file_ok E0 (view s) nd -> 0 <= k < MAXFILE -> faddr (view s) nd k <> 0 ->
  59 <= faddr (view s) nd k < freeblock s /\ faddr (view s) nd k <> ind nd.
Proof.
  intros Hb Hok Hk Hne. destruct (fo_data _ _ _ Hok k Hk Hne) as (Hr & Hu & Hi). change (dstart E0) with 59 in Hr. change (sb_size (te_sb E0)) with 1000 in Hr.
  split; [|done]. rewrite view_used in Hu by (done || lia). apply Z.ltb_lt in Hu. lia.
Qed.
Lemma ind_addr s nd : base s -> file_ok E0 (view s) nd -> ind nd <> 0 -> 59 <= ind nd < freeblock s.
Proof.
  intros Hb Hok Hne. destruct (fo_ind _ _ _ Hok Hne) as (Hr & Hu). change (dstart E0) with 59 in Hr. change (sb_size (te_sb E0)) with 1000 in Hr.
  rewrite view_used in Hu by (done || lia). apply Z.ltb_lt in Hu. lia.
Qed.

(** The next block is free, in the data, and not below the others. *)
Lemma next_free s : base s -> freeblock s < 1000 -> dstart E0 <= freeblock s < sb_size (te_sb E0) /\ used E0 (view s) (freeblock s) = false.
Proof.
  intros Hb Hf. pose proof (bs_free s Hb). split; [change (dstart E0) with 59; change (sb_size (te_sb E0)) with 1000; lia|].
  rewrite view_used by (done || lia). apply Z.ltb_ge. lia.
Qed.

(** What looking for the block of byte [off], the end of the file, gives. *)
Record found s nd s' (din' : dinode) nd' (k more : Z) : Prop := mkFound {
  fd_base : base s';
  fd_holds : holds din' nd';
  fd_ok : file_ok E0 (view s') nd';
  fd_grows : grows E0 (fun _ => False) (view s) nd (view s') nd';
  fd_data : forall j, 0 <= j < MAXFILE -> faddr (view s') nd' j <> 0 <-> faddr (view s) nd j <> 0 \/ j = k;
  fd_ind : ind nd' <> 0 <-> ind nd <> 0 \/ NDIRECT <= k;
  fd_zero : faddr (view s) nd k = 0 -> view s' (faddr (view s') nd' k) = zeros;
  fd_free : freeblock s' = freeblock s + more;
  fd_inode : freeinode s' = freeinode s;
  fd_meta : meta_same s s'
}.

Lemma found_direct s din nd k :
  base s -> file_ok E0 (view s) nd -> holds din nd -> 0 <= k < NDIRECT ->
  (faddr (view s) nd k = 0 -> freeblock s < 1000) ->
  exists s' din' nd', fill_addr din k s = Done din' s' /\ addr din' k = faddr (view s') nd' k /\ faddr (view s') nd' k <> 0 /\
    found s nd s' din' nd' k (if decide (faddr (view s) nd k = 0) then 1 else 0).
Proof.
  intros Hb Hok Hh Hk Hf. assert (0 <= k < MAXFILE) as Hk' by (change MAXFILE with 140; unfold NDIRECT in *; lia).
  pose proof (bs_free s Hb) as Hfr. unfold fill_addr. rewrite (addr_faddr (view s) din nd k Hh Hk).
  destruct (decide (faddr (view s) nd k = 0)) as [H0|Hne].
  - rewrite H0, xint_small by lia. cbn [Z.eqb]. destruct (next_eq s Hb (Hf H0)) as (E1 & Ef & Hb' & Hv).
    destruct (next_free s Hb (Hf H0)) as [Hr Hu]. set (s' := set_freeblock _ s) in *.
    destruct (take_direct E0 mk_layout (fun _ => False) (view s) nd k (freeblock s) Hok (fun n => view_len s n Hb) Hk H0 Hr Hu) as (Hok' & Hg & Ek & Ha & Hi).
    set (nd' := set_i_addrs _ nd) in *. exists s', (set_addr din k (freeblock s)), nd'. pose proof (holds_set din nd k (freeblock s) Hh) as Hh'. fold nd' in Hh'.
    split_and!; [unfold bind; rewrite E1; unfold ret; by rewrite xint_small by lia|by apply addr_faddr|rewrite (same_faddr _ _ Hv), Ek; lia|].
    split; [done|done|by apply (same_file _ _ Hv)|by apply (same_grows _ _ Hv)| | | |done|done|done].
    + intros j Hj. rewrite (same_faddr _ _ Hv), Ha by done. destruct (decide (j = k)) as [->|?]; [split; [by right|lia]|]. naive_solver.
    + rewrite Hi. split; [by left|]. intros [?|?]; [done|lia].
    + intros _. rewrite (same_faddr _ _ Hv), Ek, Hv. apply take_eq.
  - destruct (data_addr s nd k Hb Hok Hk' Hne) as [Hr _]. rewrite xint_small by lia. rewrite (proj2 (Z.eqb_neq _ _)) by done.
    exists s, din, nd. split_and!; [done|by apply addr_faddr|done|].
    split; [done|done|done|apply grows_refl| | |done|lia|done|done].
    + intros j Hj. split; [by left|]. intros [?| ->]; done.
    + split; [by left|]. intros [?|?]; [done|lia].
Qed.

(** The block of indirect entries, made if it is missing. *)
Lemma fill_ind s din nd :
  base s -> file_ok E0 (view s) nd -> holds din nd -> (ind nd = 0 -> freeblock s < 1000) ->
  exists s' din' nd', fill_addr din NDIRECT s = Done din' s' /\ ind nd' <> 0 /\ base s' /\ holds din' nd' /\ file_ok E0 (view s') nd' /\
    grows E0 (fun _ => False) (view s) nd (view s') nd' /\
    (forall j, 0 <= j < MAXFILE -> faddr (view s') nd' j = faddr (view s) nd j) /\
    freeblock s' = freeblock s + (if decide (ind nd = 0) then 1 else 0) /\ freeinode s' = freeinode s /\ meta_same s s'.
Proof.
  intros Hb Hok Hh Hf. pose proof (bs_free s Hb) as Hfr. unfold fill_addr. rewrite (addr_ind din nd Hh).
  destruct (decide (ind nd = 0)) as [H0|Hne].
  - rewrite H0, xint_small by lia. cbn [Z.eqb]. destruct (next_eq s Hb (Hf H0)) as (E1 & Ef & Hb' & Hv).
    destruct (next_free s Hb (Hf H0)) as [Hr Hu]. set (s' := set_freeblock _ s) in *.
    destruct (take_indirect E0 mk_layout (fun _ => False) (view s) nd (freeblock s) Hok (fun n => view_len s n Hb) H0 Hr Hu) as (Hok' & Hg & Hi & Ha).
    set (nd' := set_i_addrs _ nd) in *. exists s', (set_addr din NDIRECT (freeblock s)), nd'.
    split_and!; [unfold bind; rewrite E1; unfold ret; by rewrite xint_small by lia|lia|done|by apply holds_set|by apply (same_file _ _ Hv)
      |by apply (same_grows _ _ Hv)| |done|done|done].
    intros j Hj. rewrite (same_faddr _ _ Hv). by apply Ha.
  - pose proof (ind_addr s nd Hb Hok Hne) as Hr. rewrite xint_small by lia. rewrite (proj2 (Z.eqb_neq _ _)) by done.
    exists s, din, nd. split_and!; try done; [apply grows_refl|lia].
Qed.

(** The entry of block [k] in it. *)
Definition entry_code (din : dinode) (k : Z) : M (dinode * Z) :=
  indirect <- rsect (xint (addr din NDIRECT));
  let at_ := (4 * Z.to_nat (k - NDIRECT))%nat in
  indirect <- (if Layout.get 4 indirect at_ =? 0 then
                 b <- next_block;
                 let indirect := put 4 at_ (xint b) indirect in
                 wsect (xint (addr din NDIRECT)) indirect >>;
                 ret indirect
               else ret indirect);
  ret (din, xint (Layout.get 4 indirect at_)).

Lemma found_entry s din nd k :
  base s -> file_ok E0 (view s) nd -> holds din nd -> NDIRECT <= k < MAXFILE -> ind nd <> 0 ->
  (faddr (view s) nd k = 0 -> freeblock s < 1000) ->
  exists s', entry_code din k s = Done (din, faddr (view s') nd k) s' /\ faddr (view s') nd k <> 0 /\
    found s nd s' din nd k (if decide (faddr (view s) nd k = 0) then 1 else 0).
Proof using Hread Hwrite.
  intros Hb Hok Hh Hk Hi Hf. pose proof (bs_free s Hb) as Hfr. pose proof (ind_addr s nd Hb Hok Hi) as Hir.
  assert (0 <= k < MAXFILE) as Hk' by (unfold NDIRECT in *; lia).
  assert (forall V, faddr V nd k = Layout.get 4 (V (ind nd)) (4 * Z.to_nat (k - NDIRECT))) as Efa.
  { intros V. unfold faddr. rewrite (proj2 (Z.ltb_ge _ _)) by lia. by rewrite (proj2 (Z.eqb_neq _ _)). }
  assert (forall s, view s (ind nd) = blk (img s) (ind nd)) as Evi by (intros s2; apply mark_ne; lia).
  unfold entry_code. rewrite (addr_ind din nd Hh), xint_small by lia. unfold bind at 1. rewrite rsect_eq by (done || lia).
  rewrite <-Evi, <-Efa. destruct (decide (faddr (view s) nd k = 0)) as [H0|Hne].
  - rewrite H0. cbn [Z.eqb]. destruct (next_eq s Hb (Hf H0)) as (E1 & Ef & Hb1 & Hv1). destruct (next_free s Hb (Hf H0)) as [Hr Hu].
    set (s1 := set_freeblock _ s) in *.
    destruct (take_entry E0 mk_layout (fun _ => False) (view s) nd k (freeblock s) Hok (fun n => view_len s n Hb) Hk H0 Hi Hr Hu) as (Hok' & Hg & Ek & Et & Ha).
    set (d := put 4 _ (freeblock s) (view s (ind nd))) in *. set (V' := vput _ _ d) in *.
    assert (length d = 512%nat) as Hd.
    { unfold d. rewrite put_length; rewrite (view_len s _ Hb); [done|]. change MAXFILE with 140 in Hk. unfold NDIRECT in *. lia. }
    set (s2 := set_img (insert (ind nd) d) s1). assert (base s2) as Hb2 by (apply base_set; [done|lia|done]).
    assert (forall m, view s2 m = V' m) as Hv2.
    { intros m. unfold s2. rewrite view_set by lia. unfold V', vput. destruct (decide (m = ind nd)); [done|]. apply Hv1. }
    exists s2. split_and!.
    + unfold bind. rewrite E1. rewrite !xint_small by lia. fold d. rewrite wsect_eq by lia. unfold ret. fold s2.
      rewrite (same_faddr _ _ Hv2), Ek. unfold d. do 2 f_equal.
      rewrite get_put_eq by (rewrite (view_len s _ Hb); change MAXFILE with 140 in Hk; unfold NDIRECT in *; lia).
      rewrite Z.mod_small by (change (256 ^ Z.of_nat 4) with (2 ^ 32); lia). apply xint_small. lia.
    + rewrite (same_faddr _ _ Hv2), Ek. lia.
    + split; [done|done|by apply (same_file _ _ Hv2)|by apply (same_grows _ _ Hv2)| | | |done|done|].
      * intros j Hj. rewrite (same_faddr _ _ Hv2), Ha by done. destruct (decide (j = k)) as [->|?]; [split; [by right|lia]|]. naive_solver.
      * split; [by left|done].
      * intros _. rewrite (same_faddr _ _ Hv2), Ek, Hv2. unfold V'. rewrite vput_ne by lia. apply take_eq.
      * intros n Hn. unfold s2. rewrite blk_set, vput_ne by lia. done.
  - rewrite (proj2 (Z.eqb_neq _ _)) by done. destruct (data_addr s nd k Hb Hok Hk' Hne) as [Hr _].
    exists s. split_and!; [|done|].
    + unfold bind, ret. rewrite <-Efa. by rewrite xint_small by lia.
    + split; [done|done|done|apply grows_refl| | |done|lia|done|done].
      * intros j Hj. split; [by left|]. intros [?| ->]; done.
      * split; [by left|done].
Qed.

Lemma found_block s din nd k :
  base s -> file_ok E0 (view s) nd -> holds din nd -> 0 <= k < MAXFILE ->
  let more := (if decide (faddr (view s) nd k = 0) then 1 else 0) + (if decide (NDIRECT <= k /\ ind nd = 0) then 1 else 0) in
  freeblock s + more <= 1000 ->
  exists s' din' nd', find_block din k s = Done (din', faddr (view s') nd' k) s' /\ faddr (view s') nd' k <> 0 /\
    found s nd s' din' nd' k more.
Proof using Hread Hwrite.
  intros Hb Hok Hh Hk more Hroom. pose proof (bs_free s Hb) as Hfr. unfold find_block. destruct (Z.ltb_spec k NDIRECT) as [Hd|Hd].
  - unfold more in *. rewrite (decide_False (P := NDIRECT <= k /\ ind nd = 0)) in * by lia. rewrite Z.add_0_r in *.
    destruct (found_direct s din nd k Hb Hok Hh ltac:(lia)) as (s' & din' & nd' & E1 & Ea & Hne & Hfd).
    { intros H0. rewrite decide_True in Hroom by done. lia. }
    exists s', din', nd'. split_and!; [|done|done]. unfold bind. rewrite E1. unfold ret. rewrite Ea.
    destruct (data_addr s' nd' k (fd_base _ _ _ _ _ _ _ Hfd) (fd_ok _ _ _ _ _ _ _ Hfd) Hk Hne) as [Hr _].
    pose proof (bs_free s' (fd_base _ _ _ _ _ _ _ Hfd)). by rewrite xint_small by lia.
  - destruct (fill_ind s din nd Hb Hok Hh) as (s1 & din1 & nd1 & E1 & Hi1 & Hb1 & Hh1 & Hok1 & Hg1 & Ha1 & Hf1 & Hn1 & Hm1).
    { intros H0. unfold more in Hroom. rewrite (decide_True (P := NDIRECT <= k /\ ind nd = 0)) in Hroom by lia. case_decide; lia. }
    assert (freeblock s1 = freeblock s + (if decide (NDIRECT <= k /\ ind nd = 0) then 1 else 0)) as Hf1'.
    { rewrite Hf1. destruct (decide (ind nd = 0)); [rewrite decide_True by lia|rewrite decide_False by lia]; done. }
    destruct (found_entry s1 din1 nd1 k Hb1 Hok1 Hh1 ltac:(lia) Hi1) as (s2 & E2 & Hne2 & Hfd).
    { rewrite Ha1 by done. intros H0. unfold more in Hroom. rewrite decide_True in Hroom by done. lia. }
    exists s2, din1, nd1. split_and!; [|done|].
    + unfold bind at 1. rewrite E1. exact E2.
    + destruct Hfd as [F1 F2 F3 F4 F5 F6 Fz F7 F8 F9]. split; [done|done|done| | | | | |congruence|].
      * exact (grows_trans E0 mk_layout _ _ _ _ _ _ _ Hok1 F3 Hg1 F4).
      * intros j Hj. rewrite F5, Ha1 by done. done.
      * split; [|done]. intros _. right. done.
      * intros H0. apply Fz. by rewrite Ha1.
      * rewrite F7, Ha1, Hf1' by done. unfold more. lia.
      * intros n Hn. by rewrite F9, Hm1.
Qed.

(** ** iappend *)

Lemma nblk_more off n : 0 <= off -> 1 <= n <= BSIZE - off mod BSIZE ->
  nblk (off + n) = nblk off + ((if decide (off mod BSIZE = 0) then 1 else 0) + (if decide (off = NDIRECT * BSIZE) then 1 else 0)).
Proof.
  unfold nblk, NDIRECT, BSIZE. intros Ho Hn. pose proof (Z.div_mod off 512 ltac:(lia)) as Hdm. pose proof (Z.mod_pos_bound off 512 ltac:(lia)) as Hr.
  set (q := off / 512) in *. set (r := off mod 512) in *.
  assert ((off + n + 512 - 1) / 512 = q + 1) as -> by (symmetry; apply (Z.div_unique_pos _ _ _ (r + n - 1)); lia).
  destruct (decide (r = 0)) as [H0|H0].
  - assert ((off + 512 - 1) / 512 = q) as -> by (symmetry; apply (Z.div_unique_pos _ _ _ 511); lia).
    destruct (Z.leb_spec (off + n) (12 * 512)), (Z.leb_spec off (12 * 512)), (decide (off = 12 * 512)); lia.
  - assert ((off + 512 - 1) / 512 = q + 1) as -> by (symmetry; apply (Z.div_unique_pos _ _ _ (r - 1)); lia).
    destruct (Z.leb_spec (off + n) (12 * 512)), (Z.leb_spec off (12 * 512)), (decide (off = 12 * 512)); lia.
Qed.

(** The bytes [src] have been added to the end of the file. *)
Record appended s nd s' nd' (src : list Z) : Prop := mkAppended {
  ap_base : base s';
  ap_ok : file_ok E0 (view s') nd';
  ap_dense : dense (view s') nd';
  ap_size : i_size nd' = i_size nd + Z.of_nat (length src);
  ap_inode : nd' = set_i_size (fun _ => i_size nd') (set_i_addrs (fun _ => i_addrs nd') nd);
  ap_contents : contents (view s') nd' = contents (view s) nd ++ src;
  ap_free : freeblock s' = freeblock s + nblk (i_size nd') - nblk (i_size nd);
  ap_freeinode : freeinode s' = freeinode s;
  ap_meta : meta_same s s';
  ap_others : forall nd2, file_ok E0 (view s) nd2 -> apart_files (view s) nd nd2 ->
    file_ok E0 (view s') nd2 /\ (forall k, 0 <= k < MAXFILE -> faddr (view s') nd2 k = faddr (view s) nd2 k) /\
    contents (view s') nd2 = contents (view s) nd2 /\ apart_files (view s') nd' nd2 /\
    (forall x, 0 <= x < MAXFILE * BSIZE -> faddr (view s) nd2 (x / BSIZE) <> 0 -> byte_at (view s') nd2 x = byte_at (view s) nd2 x)
}.

Lemma appended_trans s1 nd1 s2 nd2 s3 nd3 src1 src2 :
  appended s1 nd1 s2 nd2 src1 -> appended s2 nd2 s3 nd3 src2 -> appended s1 nd1 s3 nd3 (src1 ++ src2).
Proof.
  intros [A1 A2 A3 A4 A5 A6 A7 A8 A9 A10] [B1 B2 B3 B4 B5 B6 B7 B8 B9 B10]. split; try done.
  - rewrite B4, A4, length_app. lia.
  - rewrite B5, A5. done.
  - rewrite B6, A6. by rewrite app_assoc.
  - lia.
  - congruence.
  - intros n Hn. by rewrite B9, A9.
  - intros nd Hok Hap. destruct (A10 nd Hok Hap) as (C1 & C2 & C3 & C4 & C5). destruct (B10 nd C1 C4) as (D1 & D2 & D3 & D4 & D5).
    split_and!; [done| |congruence|done|].
    + intros k Hk. by rewrite D2, C2.
    + intros x Hx Hne. rewrite D5, C5; [done|done|done|done|]. rewrite C2; [done|by apply block_index].
Qed.

(** One turn of the loop. *)
Lemma append_turn s din nd p :
  let off := i_size nd in let n1 := chunk (Z.of_nat (length p)) off in
  base s -> file_ok E0 (view s) nd -> dense (view s) nd -> holds din nd -> p <> [] ->
  off + Z.of_nat (length p) <= MAXFILE * BSIZE -> freeblock s + nblk (off + n1) - nblk off <= 1000 ->
  exists s' din' nd', (forall A (K : dinode -> M A), (
      r <- find_block din (off / BSIZE);
      let '(din, x) := r in
      buf <- rsect x;
      wsect x (splice (Z.to_nat (off mod BSIZE)) (take (Z.to_nat n1) p) buf) >>; K din) s = K din' s') /\
    holds din' nd' /\ appended s nd s' nd' (take (Z.to_nat n1) p).
Proof using Hread Hwrite.
  intros off n1 Hb Hok Hde Hh Hp Hmax Hroom. assert (0 < Z.of_nat (length p)) as Hpl by (destruct p; [done|cbn; lia]).
  destruct (chunk_bound (Z.of_nat (length p)) off Hpl) as [Hn1 Hn2]. fold n1 in Hn1, Hn2. set (piece := take (Z.to_nat n1) p).
  assert (Z.of_nat (length piece) = n1) as Hlen by (unfold piece; rewrite length_take; lia).
  pose proof (fo_size _ _ _ Hok) as [Hs1 Hs2]. fold off in Hs1, Hs2. pose proof (block_index off ltac:(lia)) as Hk. set (k := off / BSIZE) in *.
  pose proof (Z.div_mod off BSIZE ltac:(unfold BSIZE; lia)) as Hdm. pose proof (Z.mod_pos_bound off BSIZE ltac:(unfold BSIZE; lia)) as Hmo. fold k in Hdm.
  rewrite (nblk_more off n1) in Hroom by lia.
  assert (faddr (view s) nd k = 0 <-> off mod BSIZE = 0) as Hz.
  { pose proof (de_data _ _ Hde k Hk) as Hd. fold off in Hd. unfold BSIZE in *. destruct (decide (faddr (view s) nd k = 0)); lia. }
  assert (NDIRECT <= k /\ ind nd = 0 <-> off = NDIRECT * BSIZE) as Hzi.
  { pose proof (de_ind _ _ Hde) as Hd. fold off in Hd. unfold BSIZE, NDIRECT in *. destruct (decide (ind nd = 0)); lia. }
  destruct (found_block s din nd k Hb Hok Hh Hk) as (s1 & din1 & nd1 & E1 & Hne & Hfd).
  { rewrite (decide_ext _ _ _ _ Hz), (decide_ext _ _ _ _ Hzi). lia. }
  rewrite (decide_ext _ _ _ _ Hz), (decide_ext _ _ _ _ Hzi) in Hfd. destruct Hfd as [F1 F2 F3 F4 F5 F6 Fz F7 F8 F9].
  destruct (data_addr s1 nd1 k F1 F3 Hk Hne) as [Hr _]. set (x := faddr (view s1) nd1 k) in *.
  pose proof (bs_free s1 F1) as Hfr1. assert (view s1 x = blk (img s1) x) as Evx by (apply mark_ne; lia).
  set (s2 := set_img (insert x (splice (Z.to_nat (off mod BSIZE)) piece (view s1 x))) s1).
  destruct (put_block_ok E0 mk_layout (view s1) nd1 off piece F3 (fun n => view_len s1 n F1) ltac:(lia) Hne) as (Hok2 & Hg2 & Hw2 & Hu2 & Ha2).
  { intros Hnil. rewrite Hnil in Hlen. cbn in Hlen. lia. } { lia. }
  assert (forall m, view s2 m = put_block (view s1) nd1 off piece m) as Hv2.
  { intros m. unfold s2. rewrite view_set by lia. done. }
  assert (base s2) as Hb2.
  { apply base_set; [done|lia|]. rewrite splice_length; rewrite (view_len s1 x F1); [done|]. unfold BSIZE in *. lia. }
  pose proof (same_grows _ _ Hv2 _ _ _ _ Hg2) as Hg2'. rewrite Hlen in Hg2'.
  assert (grows E0 (touched off n1) (view s) nd (view s2) nd1) as Hg.
  { eapply (grows_trans E0 mk_layout); [exact F3|by apply (same_file _ _ Hv2)| |exact Hg2']. by apply (grows_mono E0 (fun _ => False)). }
  set (nd' := set_i_size (fun _ => off + n1) nd1).
  assert (i_size nd1 = off) as Hsz1 by (rewrite (g_same _ _ _ _ _ _ F4); done).
  assert (forall j, 0 <= j < MAXFILE -> faddr (view s2) nd1 j <> 0 <-> j * BSIZE < off + n1) as Hmap.
  { intros j Hj. rewrite (same_faddr _ _ Hv2). assert (faddr (put_block (view s1) nd1 off piece) nd1 j <> 0 <-> faddr (view s1) nd1 j <> 0) as ->.
    { by rewrite Ha2. }
    rewrite F5 by done. rewrite (de_data _ _ Hde j Hj). fold off. unfold BSIZE in *. lia. }
  exists s2, din1, nd'. split_and!.
  - intros A K. unfold bind. rewrite E1. rewrite rsect_eq by (done || lia). fold piece. rewrite <-Evx, wsect_eq by lia. done.
  - destruct F2 as (? & ? & ? & ? & ?). done.
  - pose proof (same_file _ _ Hv2 _ Hok2) as Hok2'. pose proof (same_written _ _ Hv2 _ _ _ _ _ Hw2) as Hw2'.
    split; [done| | | | | | |by rewrite <-F8| |].
    + split; try apply Hok2'. split; [cbn; lia|]. cbn [nd' i_size set_i_size]. intros y Hy. change (faddr (view s2) nd1 (y / BSIZE) <> 0).
      apply Hmap; [apply block_index; lia|]. pose proof (Z.div_mod y BSIZE ltac:(unfold BSIZE; lia)). pose proof (Z.mod_pos_bound y BSIZE ltac:(unfold BSIZE; lia)).
      unfold BSIZE in *. lia.
    + split; [exact Hmap| |].
      * change (ind nd') with (ind nd1). cbn [nd' i_size set_i_size]. rewrite F6, (de_ind _ _ Hde). fold off. unfold BSIZE, NDIRECT in *. lia.
      * cbn [nd' i_size set_i_size]. intros y Hy. change (faddr (view s2) nd1 (y / BSIZE) <> 0 -> byte_at (view s2) nd1 y = 0). intros Hyne.
        pose proof (block_index y ltac:(lia)) as Hyk. rewrite (same_faddr _ _ Hv2), Ha2 in Hyne.
        rewrite (wr_out _ _ _ _ _ _ Hw2'); [|lia|done|lia].
        destruct (decide (faddr (view s) nd (y / BSIZE) = 0)) as [Hy0|Hy0].
        -- assert (y / BSIZE = k) as Hyk' by (destruct (proj1 (F5 _ Hyk) Hyne); done). unfold byte_at. rewrite Hyk' in *. fold x. rewrite Fz by done.
           unfold zeros. destruct (_ !! _) as [z|] eqn:Hz'; [|done]. by apply lookup_replicate in Hz' as [-> _].
        -- rewrite (grows_byte E0 mk_layout (view s) nd (view s1) nd1 y Hok F4); [|lia|done]. apply (de_tail _ _ Hde); [lia|done].
    + cbn. lia.
    + unfold nd'. rewrite (g_same _ _ _ _ _ _ F4). done.
    + unfold contents. cbn [nd' i_size set_i_size]. fold off. rewrite (bytes_splice (view s) nd (view s2) nd' off (off + n1) off piece); [|lia|lia|..].
      * unfold splice. rewrite take_ge, drop_ge, app_nil_r by (rewrite bytes_length; lia). done.
      * intros j y Hj. by apply Hw2'.
      * intros y Hy Hout. change (byte_at (view s2) nd1 y = byte_at (view s) nd y). assert (faddr (view s) nd (y / BSIZE) <> 0) as Hyne by (apply Hs2; lia).
        rewrite (wr_out _ _ _ _ _ _ Hw2'); [|lia| |lia].
        -- apply (grows_byte E0 mk_layout (view s) nd (view s1) nd1 y Hok F4); [lia|done].
        -- rewrite (g_addr _ _ _ _ _ _ F4); [done|apply block_index; lia|done].
    + cbn [nd' i_size set_i_size]. fold off. rewrite (nblk_more off n1) by lia. change (freeblock s2) with (freeblock s1). lia.
    + intros n Hn. unfold s2. rewrite blk_set, vput_ne by lia. by apply F9.
    + intros nd2 Hokn Hap. exact (grows_other E0 mk_layout _ (view s) nd (view s2) nd1 nd2 Hok Hokn Hg Hap).
Qed.

Lemma appended_nil s nd : base s -> file_ok E0 (view s) nd -> dense (view s) nd -> appended s nd s nd [].
Proof.
  intros H1 H2 H3. split; try done; [cbn; lia|by destruct nd|by rewrite app_nil_r|lia].
Qed.

Lemma nblk_mono m n : 0 <= m <= n -> nblk m <= nblk n.
Proof.
  intros Hmn. unfold nblk. assert ((m + BSIZE - 1) / BSIZE <= (n + BSIZE - 1) / BSIZE) by (apply Z.div_le_mono; unfold BSIZE; lia).
  destruct (Z.leb_spec m (NDIRECT * BSIZE)), (Z.leb_spec n (NDIRECT * BSIZE)); lia.
Qed.

Lemma iappend_loop_spec f s din nd p :
  let off := i_size nd in let n := Z.of_nat (length p) in
  base s -> file_ok E0 (view s) nd -> dense (view s) nd -> holds din nd -> (length p <= f)%nat ->
  off + n <= MAXFILE * BSIZE -> freeblock s + nblk (off + n) - nblk off <= 1000 ->
  exists s' din' nd', iappend_loop f din off p s = Done (din', off + n) s' /\ holds din' nd' /\ appended s nd s' nd' p.
Proof using Hread Hwrite.
  revert s din nd p. induction f as [|f IH]; intros s din nd p off n Hb Hok Hde Hh Hf Hmax Hroom.
  { assert (p = []) as -> by (destruct p; [done|cbn in Hf; lia]). exists s, din, nd. split_and!; [unfold n; cbn; by rewrite Z.add_0_r|done|by apply appended_nil]. }
  destruct (decide (p = [])) as [->|Hp].
  { exists s, din, nd. split_and!; [unfold n; cbn; by rewrite Z.add_0_r|done|by apply appended_nil]. }
  assert (0 < n) as Hn by (unfold n; destruct p; [done|cbn; lia]). destruct (chunk_bound n off Hn) as [Hn1 Hn2].
  set (n1 := chunk n off) in *. pose proof (fo_size _ _ _ Hok) as [Hs _]. fold off in Hs.
  pose proof (nblk_mono (off + n1) (off + n) ltac:(lia)) as Hmono.
  destruct (append_turn s din nd p Hb Hok Hde Hh Hp Hmax) as (s1 & din1 & nd1 & E1 & Hh1 & Hap1). { fold off n n1. lia. }
  fold off n n1 in E1, Hap1. set (piece := take (Z.to_nat n1) p) in *.
  assert (Z.of_nat (length piece) = n1) as Hpl by (unfold piece; rewrite length_take; unfold n in *; lia).
  pose proof (ap_size _ _ _ _ _ Hap1) as Hsz1. rewrite Hpl in Hsz1. fold off in Hsz1. pose proof (ap_free _ _ _ _ _ Hap1) as Hfr1. fold off in Hfr1.
  set (rest := drop (Z.to_nat n1) p). assert (Z.of_nat (length rest) = n - n1) as Hrl by (unfold rest; rewrite length_drop; unfold n in *; lia).
  destruct (IH s1 din1 nd1 rest (ap_base _ _ _ _ _ Hap1) (ap_ok _ _ _ _ _ Hap1) (ap_dense _ _ _ _ _ Hap1) Hh1) as (s2 & din2 & nd2 & E2 & Hh2 & Hap2).
  { unfold n in *. lia. } { lia. } { rewrite Hfr1, Hsz1, Hrl. replace (off + n1 + (n - n1)) with (off + n) by lia. lia. }
  exists s2, din2, nd2. split_and!; [|done|].
  - cbn [iappend_loop]. destruct p as [|y p']; [done|]. set (p := y :: p') in *. fold n.
    change (MAXFILE * BSIZE) with 71680 in *. pose proof (block_index off ltac:(change (MAXFILE * BSIZE) with 71680; lia)) as Hk.
    unfold bind at 1, assert at 1. rewrite (proj2 (Z.ltb_lt (off / BSIZE) MAXFILE)) by lia.
    pose proof (Z.div_mod off BSIZE ltac:(unfold BSIZE; lia)) as Hdm.
    replace (off - off / BSIZE * BSIZE) with (off mod BSIZE) by (unfold BSIZE in *; lia).
    replace (Z.min n ((off / BSIZE + 1) * BSIZE - off)) with n1 by (unfold n1, chunk, BSIZE in *; lia).
    etrans; [apply (E1 _ (fun din => iappend_loop f din (u32 (off + n1)) rest))|]. rewrite u32_small by lia.
    rewrite Hsz1, Hrl in E2. rewrite E2. do 2 f_equal. lia.
  - rewrite <-(take_drop (Z.to_nat n1) p). by eapply appended_trans.
Qed.

(** ** Inodes *)

Lemma iblock0 inum : 0 <= inum < 200 -> 32 <= IBLOCK inum sb0 < 58.
Proof. intros Hi. pose proof (iblock_eq E0 mk_layout inum Hi) as [_ Hr]. exact Hr. Qed.

Lemma rinode_eq s inum : base s -> 0 <= inum < 200 -> rinode inum s = Done (dinode_at E0 (view s) inum) s.
Proof using Hread.
  intros Hb Hi. pose proof (iblock0 inum Hi) as Hr. unfold rinode, bind at 1, get at 1. rewrite (bs_sb s Hb). unfold bind. rewrite rsect_eq by (done || lia).
  unfold ret, dinode_at. change (te_sb E0) with sb0. unfold view. rewrite mark_ne by lia. done.
Qed.

Lemma winode_eq s inum d : base s -> 0 <= inum < 200 ->
  let a := IBLOCK inum sb0 in
  let s' := set_img (insert a (write_dinode (dinode_off inum) d (view s a))) s in
  winode inum d s = Done tt s' /\ (length (d_addrs d) = 13%nat -> base s').
Proof using Hread Hwrite.
  intros Hb Hi a s'. pose proof (iblock0 inum Hi) as Hr. fold a in Hr. pose proof (bs_free s Hb). split.
  - unfold winode, bind at 1, get at 1. rewrite (bs_sb s Hb). fold a. unfold bind. rewrite rsect_eq by (done || lia). rewrite wsect_eq by lia.
    unfold s'. unfold view. rewrite mark_ne by lia. done.
  - intros Hd. apply base_set; [done|lia|]. rewrite write_dinode_length; rewrite ?(view_len s a Hb); [done|apply dinode_off_bound; lia|done].
Qed.

(** Writing a block before the data keeps the files. *)
Lemma meta_put s n d nd : file_ok E0 (view s) nd -> 0 <= n < 58 ->
  let s' := set_img (insert n d) s in
  file_ok E0 (view s') nd /\ (forall k, faddr (view s') nd k = faddr (view s) nd k) /\
  (forall x, 0 <= x < MAXFILE * BSIZE -> faddr (view s) nd (x / BSIZE) <> 0 -> byte_at (view s') nd x = byte_at (view s) nd x).
Proof.
  intros Hok Hn s'. assert (forall m, view s' m = vput (view s) n d m) as Hv by (intros m; apply view_set; lia).
  destruct (file_ok_put E0 mk_layout (view s) nd n d Hok) as (H1 & H2 & H3 & H4).
  { change (dstart E0) with 59. lia. } { unfold bitmap_block. change (dstart E0) with 59. change (sb_bmapstart (te_sb E0)) with 58. lia. }
  split_and!; [by apply (same_file _ _ Hv)|intros k; by rewrite (same_faddr _ _ Hv)|].
  intros x Hx Hne. rewrite (same_byte _ _ Hv). by apply H3.
Qed.

(** A file keeps its contents, its density and its distance from others with its bytes and blocks. *)
Lemma keep_contents V V' nd : file_ok E0 V nd ->
  (forall x, 0 <= x < MAXFILE * BSIZE -> faddr V nd (x / BSIZE) <> 0 -> byte_at V' nd x = byte_at V nd x) -> contents V' nd = contents V nd.
Proof. intros Hok Hb. pose proof (fo_size _ _ _ Hok) as [H1 H2]. apply bytes_ext. intros x Hx. apply Hb; [lia|apply H2; lia]. Qed.
Lemma keep_dense V V' nd : dense V nd -> file_ok E0 V nd -> (forall k, 0 <= k < MAXFILE -> faddr V' nd k = faddr V nd k) ->
  (forall x, 0 <= x < MAXFILE * BSIZE -> faddr V nd (x / BSIZE) <> 0 -> byte_at V' nd x = byte_at V nd x) -> dense V' nd.
Proof.
  intros [D1 D2 D3] Hok Ha Hb. pose proof (fo_size _ _ _ Hok) as [H1 H2]. split; [|done|].
  - intros k Hk. rewrite Ha by done. by apply D1.
  - intros x Hx. rewrite Ha by (apply block_index; lia). intros Hne. rewrite Hb; [by apply D3|lia|done].
Qed.
Lemma keep_owns V V' nd b : (forall k, 0 <= k < MAXFILE -> faddr V' nd k = faddr V nd k) -> owns V' nd b -> owns V nd b.
Proof. intros Ha [H0 [->|(k & Hk & ->)]]; (split; [done|]); [by left|right]. exists k. split; [done|by rewrite Ha]. Qed.

(** ** The files *)

(** File [j] has the inode number [j+1]. *)
Record file_at s (j : nat) nd : Prop := mkFileAt {
  fa_ok : file_ok E0 (view s) nd;
  fa_dense : dense (view s) nd;
  fa_inum : i_inum nd = 1 + Z.of_nat j;
  fa_sync : synced E0 (view s) nd;
  fa_fits : inode_fits E0 nd
}.

Definition nblks (nds : list inode) : Z := foldr (fun nd t => nblk (i_size nd) + t) 0 nds.

Record fsinv s (nds : list inode) : Prop := mkFsinv {
  fi_base : base s;
  fi_next : freeinode s = 1 + Z.of_nat (length nds) /\ (length nds < 200)%nat;
  fi_files : forall j nd, nds !! j = Some nd -> file_at s j nd;
  fi_apart : forall j k nd nd2, nds !! j = Some nd -> nds !! k = Some nd2 -> j <> k -> apart_files (view s) nd nd2;
  fi_total : freeblock s = 59 + nblks nds;
  fi_boot : blk (img s) 1 = superblock_bytes sb0 /\ forall n, 2 <= n < 32 -> blk (img s) n = zeros
}.

Lemma nblks_insert nds j nd nd' : nds !! j = Some nd -> nblks (<[j := nd']> nds) = nblks nds + nblk (i_size nd') - nblk (i_size nd).
Proof.
  revert j. induction nds as [|x nds IH]; intros [|j] Hj; [done|done|..]; cbn in Hj.
  - simplify_eq. cbn. lia.
  - specialize (IH j Hj). change (nblks (<[S j := nd']> (x :: nds))) with (nblk (i_size x) + nblks (<[j := nd']> nds)).
    change (nblks (x :: nds)) with (nblk (i_size x) + nblks nds). lia.
Qed.
Lemma nblks_snoc nds nd : nblks (nds ++ [nd]) = nblks nds + nblk (i_size nd).
Proof. induction nds as [|x nds IH]; [cbn; lia|]. unfold nblks in *. cbn in *. lia. Qed.

(** The inode of file [j] is written: the file becomes [nd']. *)
Lemma save_files s nds j nd nd' s' src :
  fsinv s nds -> nds !! j = Some nd -> appended s nd s' nd' src ->
  i_inum nd' = i_inum nd -> inode_fits E0 nd' ->
  let s2 := set_img (insert (IBLOCK (i_inum nd') sb0) (write_dinode (dinode_off (i_inum nd')) (inode_dinode nd') (view s' (IBLOCK (i_inum nd') sb0)))) s' in
  base s2 -> fsinv s2 (<[j := nd']> nds) /\ contents (view s2) nd' = contents (view s') nd' /\
  (forall k nd2, k <> j -> nds !! k = Some nd2 -> contents (view s2) nd2 = contents (view s) nd2).
Proof.
  intros Hinv Hj Hap Hin Hfit s2 Hb2. pose proof Hinv as [I1 [I2 I3] I4 I5 I6 [I7 I8]]. destruct (I4 j nd Hj) as [Hok Hde Hnum Hsy Hft].
  destruct Hap as [A1 A2 A3 A4 A5 A6 A7 A8 A9 A10]. assert (0 <= i_inum nd' < 200) as Hir by apply Hfit.
  pose proof (iblock0 _ Hir) as Hib. set (a := IBLOCK (i_inum nd') sb0) in *.
  assert (forall m, view s2 m = save E0 (view s') nd' m) as Hv by (intros m; apply view_set; lia).
  destruct (meta_put s' a (write_dinode (dinode_off (i_inum nd')) (inode_dinode nd') (view s' a)) nd' A2 ltac:(lia)) as (B1 & B2 & B3). fold s2 in B1, B2, B3.
  pose proof (keep_contents _ _ _ A2 B3) as Hc'. pose proof (keep_dense _ _ _ A3 A2 (fun k _ => B2 k) B3) as Hd'.
  assert (synced E0 (view s2) nd') as Hs'.
  { unfold synced, dinode_at. rewrite Hv. apply (save_synced E0 mk_layout (view s') nd' A2 Hfit). intros n. by apply view_len. }
  assert (forall k nd2, k <> j -> nds !! k = Some nd2 -> file_at s2 k nd2 /\ contents (view s2) nd2 = contents (view s) nd2 /\
    apart_files (view s2) nd' nd2 /\ (forall i, 0 <= i < MAXFILE -> faddr (view s2) nd2 i = faddr (view s) nd2 i)) as Hother.
  { intros k nd2 Hkj Hk. destruct (I4 k nd2 Hk) as [Hok2 Hde2 Hnum2 Hsy2 Hft2].
    destruct (A10 nd2 Hok2 (I5 j k nd nd2 Hj Hk (not_eq_sym Hkj))) as (C1 & C2 & C3 & C4 & C5).
    destruct (meta_put s' a (write_dinode (dinode_off (i_inum nd')) (inode_dinode nd') (view s' a)) nd2 C1 ltac:(lia)) as (D1 & D2 & D3). fold s2 in D1, D2, D3.
    split_and!.
    - split; [done| |done| |done].
      + apply (keep_dense (view s')); [|done|intros i Hi; apply D2|done]. by apply (keep_dense (view s)).
      + unfold synced. rewrite <-Hsy2. transitivity (dinode_at E0 (save E0 (view s') nd') (i_inum nd2)); [unfold dinode_at; by rewrite Hv|].
        rewrite (save_other E0 mk_layout (view s') nd' (i_inum nd2) A2 Hfit (fun n => view_len s' n A1) (proj1 Hft2)) by lia.
        unfold dinode_at. change (te_sb E0) with sb0. pose proof (iblock0 (i_inum nd2) (proj1 Hft2)). unfold view. rewrite !mark_ne, A9 by lia. done.
    - by rewrite (keep_contents _ _ _ C1 D3).
    - intros b Hb1 Hb2'. apply (C4 b); [by eapply (keep_owns (view s')); [intros; apply B2|]|by eapply (keep_owns (view s')); [intros; apply D2|]].
    - intros i Hi. by rewrite D2, C2. }
  split_and!; [|done|].
  - split; [done|by rewrite length_insert; split; [cbn [freeinode s2 set_img]; congruence|]| | | |].
    + intros k nd2 Hk. destruct (decide (k = j)) as [->|Hne].
      * rewrite list_lookup_insert_eq in Hk by by eapply lookup_lt_Some. simplify_eq. split; try done. congruence.
      * rewrite list_lookup_insert_ne in Hk by done. by apply Hother.
    + intros k l nd1 nd2 Hk Hl Hkl. assert (j < length nds)%nat as Hjl by by eapply lookup_lt_Some.
      destruct (decide (k = j)) as [->|Hkj].
      * rewrite list_lookup_insert_eq in Hk by done. simplify_eq. rewrite list_lookup_insert_ne in Hl by done. by apply (Hother l).
      * rewrite list_lookup_insert_ne in Hk by done. destruct (decide (l = j)) as [->|Hlj].
        -- rewrite list_lookup_insert_eq in Hl by done. simplify_eq. destruct (Hother k nd1 Hkj Hk) as (_ & _ & Hap & _). intros b H1 H2. by apply (Hap b).
        -- rewrite list_lookup_insert_ne in Hl by done. destruct (Hother k nd1 Hkj Hk) as (_ & _ & _ & Ha1), (Hother l nd2 Hlj Hl) as (_ & _ & _ & Ha2).
           intros b H1 H2. apply (I5 k l nd1 nd2 Hk Hl Hkl b); by eapply (keep_owns (view s)).
    + rewrite (nblks_insert nds j nd nd' Hj). cbn [freeblock s2 set_img]. lia.
    + split; [unfold s2; rewrite blk_set, vput_ne by lia; rewrite A9 by lia; done|].
      intros n Hn. unfold s2. rewrite blk_set, vput_ne by lia. rewrite A9 by lia. by apply I8.
  - intros k nd2 Hkj Hk. by apply (Hother k nd2).
Qed.

(** iappend adds the bytes to the end of the file and keeps the others. *)
Lemma iappend_spec s nds j nd src :
  fsinv s nds -> nds !! j = Some nd -> i_size nd + Z.of_nat (length src) <= MAXFILE * BSIZE ->
  59 + nblks nds + nblk (i_size nd + Z.of_nat (length src)) - nblk (i_size nd) <= 1000 ->
  exists s' nd', iappend (1 + Z.of_nat j) src s = Done tt s' /\ fsinv s' (<[j := nd']> nds) /\
    i_size nd' = i_size nd + Z.of_nat (length src) /\ i_type nd' = i_type nd /\
    contents (view s') nd' = contents (view s) nd ++ src /\
    (forall k nd2, k <> j -> nds !! k = Some nd2 -> contents (view s') nd2 = contents (view s) nd2).
Proof using Hread Hwrite.
  intros Hinv Hj Hmax Hroom. pose proof Hinv as [I1 [I2 I3] I4 I5 I6 I7]. destruct (I4 j nd Hj) as [Hok Hde Hnum Hsy Hft].
  pose proof (lookup_lt_Some _ _ _ Hj) as Hjl. pose proof (fo_size _ _ _ Hok) as [Hs _]. change (MAXFILE * BSIZE) with 71680 in *.
  set (n := Z.of_nat (length src)) in *.
  assert (holds (inode_dinode nd) nd) as Hh by done.
  destruct (iappend_loop_spec (length src) s (inode_dinode nd) nd src I1 Hok Hde Hh) as (s1 & din1 & nd1 & E1 & Hh1 & Hap);
    [done|exact Hmax|fold n; lia|]. fold n in E1.
  pose proof (ap_size _ _ _ _ _ Hap) as Hsz. fold n in Hsz. pose proof (ap_inode _ _ _ _ _ Hap) as Hnd1.
  assert (i_inum nd1 = i_inum nd) as Hin by (rewrite Hnd1; done).
  assert (inode_fits E0 nd1) as Hft1 by (rewrite Hnd1; exact Hft).
  destruct (winode_eq s1 (i_inum nd1) (inode_dinode nd1) (ap_base _ _ _ _ _ Hap) (proj1 Hft1)) as [E2 Hb2].
  specialize (Hb2 (fo_addrs _ _ _ (ap_ok _ _ _ _ _ Hap))). cbv zeta in E2, Hb2. set (s2 := set_img _ s1) in *.
  destruct (save_files s nds j nd nd1 s1 src Hinv Hj Hap Hin Hft1 Hb2) as (Hinv2 & Hc2 & Ho2). fold s2 in Hinv2, Hc2, Ho2.
  exists s2, nd1. split_and!; [|done|done|by rewrite Hnd1|by rewrite Hc2, (ap_contents _ _ _ _ _ Hap)|done].
  unfold iappend. unfold bind at 1. rewrite rinode_eq by (done || lia). unfold synced in Hsy. rewrite Hnum in Hsy. rewrite Hsy.
  cbn [d_size inode_dinode]. rewrite xint_small by lia. unfold bind. rewrite E1. rewrite xint_small by lia.
  destruct Hh1 as (H1 & H2 & H3 & H4 & H5). rewrite H1, H2, H3, H4, H5, <-Hnum, <-Hin, <-Hsz. exact E2.
Qed.

(** A new inode. *)
Definition new_inode (j : nat) (type : Z) : inode := mkInode 1 (1 + Z.of_nat j) 0 0 type 0 0 1 0 (replicate 13 0).

Lemma new_faddr V j type k : faddr V (new_inode j type) k = 0.
Proof.
  unfold faddr, ind. cbn [new_inode i_addrs]. assert (forall i, default 0 (replicate 13 0 !! i) = 0) as Hd.
  { intros i. destruct (_ !! i) as [x|] eqn:Hx; [|done]. by apply lookup_replicate in Hx as [-> _]. }
  rewrite !Hd. by destruct (k <? NDIRECT).
Qed.

Lemma ialloc_spec s nds type :
  fsinv s nds -> (length nds < 199)%nat -> 0 <= type < 2 ^ 15 ->
  exists s', ialloc type s = Done (1 + Z.of_nat (length nds)) s' /\ fsinv s' (nds ++ [new_inode (length nds) type]) /\
    (forall k nd2, nds !! k = Some nd2 -> contents (view s') nd2 = contents (view s) nd2).
Proof using Hread Hwrite.
  intros Hinv Hlen Hty. pose proof Hinv as [I1 [I2 I3] I4 I5 I6 [I7 I8]]. set (j := length nds) in *. set (nd := new_inode j type).
  assert (forall V k, faddr V nd k = 0) as Hz by (intros; apply new_faddr).
  set (s1 := set_freeinode (fun n => u32 (n + 1)) s).
  assert (base s1) as Hb1 by (destruct I1 as [B1 B2 B3 B4 B5]; split; done).
  destruct (winode_eq s1 (1 + Z.of_nat j) (inode_dinode nd) Hb1 ltac:(lia)) as [E2 Hb2]. specialize (Hb2 eq_refl). cbv zeta in E2, Hb2.
  pose proof (iblock0 (1 + Z.of_nat j) ltac:(lia)) as Hib. set (a := IBLOCK (1 + Z.of_nat j) sb0) in *. set (s2 := set_img _ s1) in *.
  assert (forall m, view s2 m = save E0 (view s1) nd m) as Hv by (intros m; apply view_set; lia).
  assert (file_ok E0 (view s1) nd) as Hok.
  { split; try done.
    - intros k Hk. by rewrite Hz.
    - intros k k' Hk Hk'. by rewrite Hz.
    - split; [cbn; change (MAXFILE * BSIZE) with 71680; lia|]. cbn. lia. }
  assert (inode_fits E0 nd) as Hft.
  { unfold inode_fits. cbn [nd new_inode i_inum i_type i_major i_minor i_nlink]. change (sb_ninodes (te_sb E0)) with 200. lia. }
  assert (forall k nd2, nds !! k = Some nd2 -> file_at s2 k nd2 /\ contents (view s2) nd2 = contents (view s) nd2 /\
    (forall i, faddr (view s2) nd2 i = faddr (view s) nd2 i)) as Hother.
  { intros k nd2 Hk. destruct (I4 k nd2 Hk) as [Hok2 Hde2 Hnum2 Hsy2 Hft2]. pose proof (lookup_lt_Some _ _ _ Hk) as Hkl.
    destruct (meta_put s1 a (write_dinode (dinode_off (1 + Z.of_nat j)) (inode_dinode nd) (view s1 a)) nd2 Hok2 ltac:(lia)) as (D1 & D2 & D3). fold s2 in D1, D2, D3.
    split_and!; [|by apply (keep_contents _ _ _ Hok2 D3)|exact D2]. split; [done|by apply (keep_dense (view s1)); [..|intros i Hi; apply D2|]|done| |done].
    unfold synced. rewrite <-Hsy2. transitivity (dinode_at E0 (save E0 (view s1) nd) (i_inum nd2)); [unfold dinode_at; by rewrite Hv|].
    rewrite (save_other E0 mk_layout (view s1) nd (i_inum nd2) Hok Hft (fun n => view_len s1 n Hb1) (proj1 Hft2)); [done|]. rewrite Hnum2. cbn. lia. }
  exists s2. split_and!.
  - unfold ialloc, bind at 1, get at 1. unfold bind at 1, modify at 1. fold s1. rewrite I2. fold j.
    assert (mkDinode (s16 (xshort type)) 0 0 (s16 (xshort 1)) (xint 0) (replicate 13 0) = inode_dinode nd) as ->.
    { unfold inode_dinode. cbn [nd new_inode i_type i_major i_minor i_nlink i_size i_addrs]. unfold xshort. rewrite le_val_le.
      rewrite s16_mod by lia. done. }
    unfold bind. by rewrite E2.
  - split; [done|rewrite length_app; cbn; split; [rewrite I2, u32_small; lia|lia]| | | |].
    + intros k nd2 Hk. apply lookup_app_Some in Hk as [Hk|[Hge Hk]]; [by apply Hother|]. apply list_lookup_singleton_Some in Hk as [Hk <-].
      assert (k = j) as -> by lia. split; [|split|done| |done].
      * apply (same_file _ _ Hv). apply (file_ok_put E0 mk_layout (view s1) nd a _ Hok); [change (dstart E0) with 59; lia|].
        unfold bitmap_block. change (dstart E0) with 59. change (sb_bmapstart (te_sb E0)) with 58. lia.
      * intros k Hk'. rewrite Hz. cbn. unfold BSIZE. lia.
      * cbn. unfold NDIRECT, BSIZE. split; [done|lia].
      * intros x Hx. by rewrite Hz.
      * unfold synced, dinode_at. rewrite Hv. apply (save_synced E0 mk_layout (view s1) nd Hok Hft). intros n. by apply view_len.
    + assert (forall k nd1 b, nds !! k = Some nd1 -> owns (view s2) nd1 b -> owns (view s) nd1 b) as Hown.
      { intros k nd1 b Hk Hb. destruct (Hother k nd1 Hk) as (_ & _ & Ha). by eapply (keep_owns (view s)); [intros; apply Ha|]. }
      assert (forall b, ~ owns (view s2) nd b) as Hnone.
      { intros b [Hb0 [->|(k & Hk & ->)]]; [done|]. by rewrite Hz in Hb0. }
      intros k l nd1 nd2 Hk Hl Hkl b Hb1' Hb2'. apply lookup_app_Some in Hk as [Hk|[Hkg Hk]], Hl as [Hl|[Hlg Hl]].
      * by eapply (I5 k l nd1 nd2 Hk Hl Hkl b); eauto.
      * apply list_lookup_singleton_Some in Hl as [_ <-]. by apply (Hnone b).
      * apply list_lookup_singleton_Some in Hk as [_ <-]. by apply (Hnone b).
      * apply list_lookup_singleton_Some in Hk as [_ <-]. by apply (Hnone b).
    + rewrite nblks_snoc. cbn [freeblock s2 set_img s1 set_freeinode]. change (nblk (i_size nd)) with 0. lia.
    + split; [unfold s2; rewrite blk_set, vput_ne by lia; done|]. intros n Hn. unfold s2. rewrite blk_set, vput_ne by lia. by apply I8.
  - intros k nd2 Hk. by apply (Hother k nd2).
Qed.
End host.
