(* ===== verification/Mkimage.v ===== *)
(** * The whole run of mkfs (mkfs.c main)

    From the empty image to the finished one: the blocks are cleared, the root directory and the
    files are made one after the other, and the size of the root and the bitmap are written last. *)

From Stdlib Require Import ZArith Lia.
From stdpp Require Import base list gmap strings numbers.
From S2P Require Import Prelude Machine Cstring Spinlock Boot Cprintf Sched Sleeplock Layout Bio Log Bcache Crash Fs Txn Balloc Inodes Files Fsdemo Dirs File Durable Mkfs Mkfsspec.
From stdpp Require Import list.
Local Open Scope Z_scope.
Import Mkfs.

Lemma mkentry_length inum name : length (entry inum name) = 16%nat.
Proof. unfold entry, mk_dirent, strncpy. by rewrite length_app, le_length, strncpy_loop_length. Qed.

Lemma concat_16 (es : list (list Z)) : Forall (fun e => length e = 16%nat) es -> length (concat es) = (16 * length es)%nat.
Proof. induction 1 as [|e es He _ IH]; [done|]. cbn. rewrite length_app. lia. Qed.

Lemma range_concat (es : list (list Z)) k e : Forall (fun e => length e = 16%nat) es -> es !! k = Some e -> range (16 * k) 16 (concat es) = e.
Proof.
  intros Hes. revert k. induction Hes as [|x es Hx Hes IH]; intros k Hk; [done|]. cbn [concat]. unfold range. destruct k as [|k].
  - injection Hk as ->. rewrite Nat.mul_0_r, drop_0. rewrite take_app_le by lia. apply take_ge. lia.
  - rewrite drop_app_ge by lia. replace (16 * S k - length x)%nat with (16 * k)%nat by lia. by apply IH.
Qed.

Lemma zeros_concat m : replicate (16 * m) 0 = concat (replicate m (replicate 16 0)) :> list Z.
Proof. induction m as [|m IH]; [done|]. replace (16 * S m)%nat with (16 + 16 * m)%nat by lia. rewrite replicate_add, IH. done. Qed.

(** A directory that holds the entries one after the other. *)
Lemma dirents_concat E V nd es : file_ok E V nd -> Forall (fun e => length e = 16%nat) es -> contents V nd = concat es -> 
  i_size nd mod DIRENT = 0 /\ dirents V nd = es.
Proof.
  intros Hok Hes Hc. pose proof (fo_size _ _ _ Hok) as [Hs _].
  assert (i_size nd = 16 * Z.of_nat (length es)) as Hsz.
  { pose proof (bytes_length V nd 0 (i_size nd)) as Hl. fold (contents V nd) in Hl. rewrite Hc, concat_16 in Hl by done. lia. }
  assert (i_size nd mod DIRENT = 0) as Hmod by (rewrite Hsz; unfold DIRENT; rewrite Z.mul_comm; apply Z_mod_mult). split; [done|].
  assert (ndirents nd = length es) as Hn by (unfold ndirents, DIRENT; rewrite Hsz, Z.mul_comm, Z_div_mult_full by lia; lia).
  apply list_eq. intros k. destruct (es !! k) as [e|] eqn:Hk.
  - pose proof (lookup_lt_Some _ _ _ Hk). rewrite dirents_lookup by lia. rewrite (dirent_range E V nd k) by (done || lia). rewrite Hc. f_equal. by apply range_concat.
  - apply lookup_ge_None in Hk. apply lookup_ge_None. rewrite dirents_length. lia.
Qed.

Lemma contents_length V nd : 0 <= i_size nd -> Z.of_nat (length (contents V nd)) = i_size nd.
Proof. intros Hs. unfold contents. rewrite bytes_length. lia. Qed.

(** The blocks the files [ds] take. *)
Definition blocks_of (ds : list (list Z)) : Z := foldr (fun d t => nblk (Z.of_nat (length d)) + t) 0 ds.

Lemma blocks_of_app ds es : blocks_of (ds ++ es) = blocks_of ds + blocks_of es.
Proof. unfold blocks_of. induction ds as [|d ds IH]; cbn in *; lia. Qed.

Lemma nblk_pos n : 0 <= n -> 0 <= nblk n.
Proof. intros Hn. change 0 with (nblk 0). apply nblk_mono. lia. Qed.
Lemma blocks_of_pos ds : 0 <= blocks_of ds.
Proof. induction ds as [|d ds IH]; [done|]. pose proof (nblk_pos (Z.of_nat (length d)) ltac:(lia)). unfold blocks_of in *. cbn. lia. Qed.

Section host.
Context `{MkHost}.
Hypothesis Hwrite : forall n, mh_write n = true.
Hypothesis Hread : forall n, mh_read n = true.
Implicit Types (s : state) (nd : inode).

(** ** The empty image *)

Lemma each_wsect d l s : Forall (fun n => 0 <= n < 1000) l ->
  each l (fun i => wsect i d) s = Done tt (set_img (fun m => foldl (fun m i => <[i := d]> m) m l) s).
Proof using Hwrite.
  intros Hl. revert s. induction Hl as [|n l Hn _ IH]; intros s; [by destruct s|]. cbn [each]. unfold bind. rewrite wsect_eq by done.
  by rewrite IH.
Qed.

Lemma clear_lookup (d : list Z) l (m : gmap Z (list Z)) n :
  foldl (fun m i => <[i := d]> m) m l !! n = if decide (n ∈ l) then Some d else m !! n.
Proof.
  revert m. induction l as [|x l IH]; intros m; cbn [foldl]; [by rewrite decide_False by apply not_elem_of_nil|]. rewrite IH.
  destruct (decide (n ∈ l)) as [Hin|Hout]; [by rewrite decide_True by by right|]. destruct (decide (n = x)) as [->|Hne].
  - rewrite decide_True by left. by rewrite lookup_insert_eq.
  - rewrite decide_False by (rewrite elem_of_cons; naive_solver). by rewrite lookup_insert_ne.
Qed.

(** The state with the blocks cleared and the superblock written. *)
Definition cleared : state := mkState (<[1 := superblock_bytes sb0]> (foldl (fun m i => <[i := zeros]> m) ∅ (seqZ 0 FSSIZE))) 1 59 sb0.

Lemma cleared_blk n : blk (img cleared) n = if decide (n = 1) then superblock_bytes sb0 else zeros.
Proof.
  unfold cleared. cbn [img]. rewrite blk_insert. destruct (decide (1 = n)), (decide (n = 1)); try congruence. unfold blk. rewrite clear_lookup.
  by destruct (decide _).
Qed.

Lemma cleared_inv : fsinv cleared [].
Proof.
  split.
  - split; [reflexivity|cbn [cleared freeblock]; lia|..].
    + intros n Hn. cbn [cleared img]. destruct (decide (1 = n)) as [->|Hne]; [rewrite lookup_insert_eq; eauto|]. rewrite lookup_insert_ne by exact Hne.
      rewrite clear_lookup, decide_True by (apply elem_of_seqZ; unfold FSSIZE; lia). eauto.
    + intros n. rewrite cleared_blk. by destruct (decide _).
    + intros n Hn. cbn [cleared freeblock] in Hn. by rewrite cleared_blk, decide_False by lia.
  - split; [reflexivity|cbn; lia].
  - intros j nd Hj. discriminate Hj.
  - intros j k nd nd2 Hj. discriminate Hj.
  - reflexivity.
  - split; [by rewrite cleared_blk, decide_True|]. intros n Hn. by rewrite cleared_blk, decide_False by lia.
Qed.

(** ** Files *)

(** The pieces of a file one after the other. *)
Lemma iappend_each reads : forall s nds j nd,
  fsinv s nds -> nds !! j = Some nd -> i_size nd + Z.of_nat (length (concat reads)) <= MAXFILE * BSIZE ->
  59 + nblks nds + nblk (i_size nd + Z.of_nat (length (concat reads))) - nblk (i_size nd) <= 1000 ->
  exists s' nd', each reads (fun buf => iappend (1 + Z.of_nat j) buf) s = Done tt s' /\ fsinv s' (<[j := nd']> nds) /\
    i_type nd' = i_type nd /\ contents (view s') nd' = contents (view s) nd ++ concat reads /\
    (forall k nd2, k <> j -> nds !! k = Some nd2 -> contents (view s') nd2 = contents (view s) nd2).
Proof using Hwrite Hread.
  induction reads as [|buf reads IH]; intros s nds j nd Hinv Hj Hmax Hroom.
  - exists s, nd. rewrite list_insert_id by done. split_and!; try done. cbn. by rewrite app_nil_r.
  - cbn [concat] in *. rewrite length_app, Nat2Z.inj_add in Hmax, Hroom. pose proof (fo_size _ _ _ (fa_ok _ _ _ (fi_files _ _ Hinv j nd Hj))) as [Hs _].
    set (n1 := Z.of_nat (length buf)) in *. set (n2 := Z.of_nat (length (concat reads))) in *.
    pose proof (nblk_mono (i_size nd + n1) (i_size nd + (n1 + n2)) ltac:(lia)).
    destruct (iappend_spec Hwrite Hread s nds j nd buf Hinv Hj) as (s1 & nd1 & E1 & Hinv1 & Hs1 & Ht1 & Hc1 & Ho1); [fold n1; lia..|]. fold n1 in Hs1.
    assert (<[j := nd1]> nds !! j = Some nd1) as Hj1 by (apply list_lookup_insert_eq; by eapply lookup_lt_Some).
    destruct (IH s1 _ j nd1 Hinv1 Hj1) as (s2 & nd2 & E2 & Hinv2 & Ht2 & Hc2 & Ho2);
      [rewrite Hs1; fold n2; lia|rewrite (nblks_insert _ _ _ _ Hj), Hs1, <-(Z.add_assoc (i_size nd)); fold n2; lia|].
    exists s2, nd2. cbn [each]. unfold bind. rewrite E1. rewrite list_insert_insert_eq in Hinv2. split_and!; [done..|congruence| |].
    + by rewrite Hc2, Hc1, app_assoc.
    + intros k nd' Hk Hnd'. rewrite (Ho2 k nd' Hk) by by rewrite list_lookup_insert_ne. by apply (Ho1 k).
Qed.

(** The file holds the bytes [d]. *)
Definition stored s nd (d : list Z) : Prop := i_type nd = T_FILE /\ contents (view s) nd = d.

Lemma stored_keep s s' nds ds : Forall2 (stored s) nds ds ->
  (forall k nd, nds !! k = Some nd -> contents (view s') nd = contents (view s) nd) -> Forall2 (stored s') nds ds.
Proof.
  intros Hds Hc. apply Forall2_same_length_lookup. apply Forall2_same_length_lookup in Hds as [Hl Hds]. split; [done|]. intros k nd d Hk Hd.
  destruct (Hds k nd d Hk Hd) as [? <-]. split; [done|]. by apply (Hc k).
Qed.

(** The root directory holds the entries [es], the files made so far the bytes [ds]. *)
Definition made s (root : inode) (nds : list inode) (es ds : list (list Z)) : Prop :=
  fsinv s (root :: nds) /\ i_type root = T_DIR /\ contents (view s) root = concat es /\ Forall (fun e => length e = 16%nat) es /\
  Forall2 (stored s) nds ds.

Lemma made_size s root nds es ds : made s root nds es ds -> i_size root = 16 * Z.of_nat (length es).
Proof.
  intros (Hinv & _ & Hc & Hes & _). pose proof (fo_size _ _ _ (fa_ok _ _ _ (fi_files _ _ Hinv 0%nat root eq_refl))) as [Hs _].
  rewrite <-(contents_length (view s) root), Hc, concat_16 by (done || lia). lia.
Qed.

Lemma made_total s root nds es ds : made s root nds es ds -> nblks (root :: nds) = nblk (16 * Z.of_nat (length es)) + blocks_of ds.
Proof.
  intros Hm. rewrite <-(made_size _ _ _ _ _ Hm). destruct Hm as (Hinv & _ & _ & _ & Hds). cbn. f_equal.
  assert (Forall (fun nd => 0 <= i_size nd) nds) as Hsz.
  { apply Forall_lookup. intros k nd Hk. pose proof (fo_size _ _ _ (fa_ok _ _ _ (fi_files _ _ Hinv (S k) nd Hk))). lia. }
  clear Hinv. induction Hds as [|nd d nds ds [_ Hd] _ IH]; [done|]. apply Forall_cons in Hsz as [H0 Hsz]. cbn. rewrite IH by done.
  by rewrite <-Hd, contents_length.
Qed.

(** An entry is added to the root directory. *)
Lemma add_entry s root nds es ds e :
  made s root nds es ds -> length e = 16%nat -> (length es < 4480)%nat ->
  59 + nblk (16 * Z.of_nat (length (es ++ [e]))) + blocks_of ds <= 1000 ->
  exists s' root', iappend 1 e s = Done tt s' /\ made s' root' nds (es ++ [e]) ds.
Proof using Hwrite Hread.
  intros Hm He Hes Hroom. pose proof (made_size _ _ _ _ _ Hm) as Hsz. pose proof (made_total _ _ _ _ _ Hm) as Htot.
  destruct Hm as (Hinv & Hty & Hc & Hes16 & Hds). change (MAXFILE * BSIZE) with 71680 in *.
  assert (i_size root + Z.of_nat (length e) = 16 * Z.of_nat (length (es ++ [e]))) as Hsz' by (rewrite length_app, He, Hsz; cbn; lia).
  destruct (iappend_spec Hwrite Hread s (root :: nds) 0 root e Hinv eq_refl) as (s1 & root1 & E1 & Hinv1 & Hs1 & Ht1 & Hc1 & Ho1).
  { rewrite He, Hsz. change (MAXFILE * BSIZE) with 71680. lia. }
  { rewrite Hsz', Htot, Hsz. lia. }
  exists s1, root1. split; [done|]. split; [done|]. split_and!; [congruence| | |].
  - rewrite Hc1, Hc, concat_app. cbn [concat]. by rewrite app_nil_r.
  - apply Forall_app. by rewrite Forall_singleton.
  - apply (stored_keep s s1 nds ds Hds). intros k nd Hk. by apply (Ho1 (S k) nd).
Qed.

(** The name a file of the host gets. *)
Definition strip (arg : list Z) : list Z := if default 0 (head arg) =? 95 then tail arg else arg.

Lemma add_file_spec s root nds es ds arg reads :
  made s root nds es ds -> (length ds <= 197)%nat -> (length es < 4480)%nat -> 47 ∉ arg -> mh_file arg = Some reads ->
  Z.of_nat (length (concat reads)) <= MAXFILE * BSIZE ->
  let e := entry (2 + Z.of_nat (length ds)) (strip arg) in
  59 + nblk (16 * Z.of_nat (length (es ++ [e]))) + blocks_of (ds ++ [concat reads]) <= 1000 ->
  exists s' root' nds', add_file 1 arg s = Done tt s' /\ made s' root' nds' (es ++ [e]) (ds ++ [concat reads]).
Proof using Hwrite Hread.
  intros Hm Hlen Hes Hsl Hfile Hmax e Hroom. pose proof Hm as (Hinv & Hty & Hc & Hes16 & Hds).
  pose proof (Forall2_length _ _ _ Hds) as Hl. rewrite blocks_of_app in Hroom. change (blocks_of [concat reads]) with (nblk (Z.of_nat (length (concat reads))) + 0) in Hroom.
  pose proof (nblk_pos (Z.of_nat (length (concat reads))) ltac:(lia)) as Hp.
  destruct (ialloc_spec Hwrite Hread s (root :: nds) T_FILE Hinv) as (s1 & E1 & Hinv1 & Ho1); [cbn; lia|by vm_compute|].
  cbn [length] in E1, Hinv1. set (nd0 := new_inode (S (length nds)) T_FILE) in *.
  assert (contents (view s1) nd0 = []) as Hc0 by done.
  assert (made s1 root (nds ++ [nd0]) es (ds ++ [[]])) as Hm1.
  { split; [done|]. split_and!; [done|by rewrite (Ho1 0%nat root)|done|]. apply Forall2_app; [|by repeat constructor].
    apply (stored_keep s s1 nds ds Hds). intros k nd Hk. by apply (Ho1 (S k) nd). }
  destruct (add_entry s1 root (nds ++ [nd0]) es (ds ++ [[]]) e Hm1 (mkentry_length _ _) Hes) as (s2 & root2 & E2 & Hm2).
  { rewrite blocks_of_app. change (blocks_of [[]]) with 0. lia. }
  pose proof (made_total _ _ _ _ _ Hm2) as Htot. rewrite blocks_of_app in Htot. change (blocks_of [[]]) with 0 in Htot.
  pose proof Hm2 as (Hinv2 & Hty2 & Hc2 & Hes2 & Hds2). set (j := S (length nds)).
  assert ((root2 :: nds ++ [nd0]) !! j = Some nd0) as Hj by (apply list_lookup_middle; done).
  destruct (iappend_each reads s2 _ j nd0 Hinv2 Hj) as (s3 & nd3 & E3 & Hinv3 & Ht3 & Hc3 & Ho3); [done|cbn [nd0 new_inode i_size]; change (nblk 0) with 0; rewrite Z.add_0_l; lia|].
  apply Forall2_app_inv in Hds2 as [Hds2 _]; [|done].
  exists s3, root2, (nds ++ [nd3]). split.
  - unfold add_file, bind, assert. rewrite bool_decide_false by done. cbn [negb]. rewrite Hfile, E1. fold (strip arg).
    replace (1 + Z.of_nat (S (length nds))) with (2 + Z.of_nat (length ds)) by lia. fold e. rewrite E2.
    by replace (2 + Z.of_nat (length ds)) with (1 + Z.of_nat j) by lia.
  - split; [|split_and!; [done|by rewrite (Ho3 0%nat root2)|done|]].
    + unfold j in Hinv3.
      change (<[S (length nds) := nd3]> (root2 :: nds ++ [nd0])) with (root2 :: <[length nds := nd3]> (nds ++ [nd0])) in Hinv3. rewrite insert_app_r_alt, Nat.sub_diag in Hinv3 by done. exact Hinv3.
    + apply Forall2_app.
      * apply (stored_keep s2 s3 nds ds Hds2). intros k nd Hk. pose proof (lookup_lt_Some _ _ _ Hk).
        apply (Ho3 (S k) nd); [lia|]. change ((nds ++ [nd0]) !! k = Some nd). by rewrite lookup_app_l.
      * constructor; [|done]. split; [by rewrite Ht3|]. rewrite Hc3. done.
Qed.

(** The host has the file [arg], which holds the bytes [d]. *)
Definition host_file (arg d : list Z) : Prop :=
  47 ∉ arg /\ Z.of_nat (length d) <= MAXFILE * BSIZE /\ exists reads, mh_file arg = Some reads /\ concat reads = d.

(** The entries of the files, the first of which is file [k]. *)
Fixpoint entries (k : nat) (files : list (list Z)) : list (list Z) :=
  match files with [] => [] | f :: files' => entry (2 + Z.of_nat k) (strip f) :: entries (S k) files' end.

Lemma entries_length k files : length (entries k files) = length files.
Proof. revert k. induction files as [|f files IH]; intros k; [done|]. cbn. by rewrite IH. Qed.

Lemma add_files files : forall s root nds es ds dss,
  made s root nds es ds -> Forall2 host_file files dss -> (length es <= 2 + length ds)%nat -> (length ds + length files <= 198)%nat ->
  59 + nblk (16 * Z.of_nat (length es + length files)) + blocks_of (ds ++ dss) <= 1000 ->
  exists s' root' nds', each files (add_file 1) s = Done tt s' /\ made s' root' nds' (es ++ entries (length ds) files) (ds ++ dss).
Proof using Hwrite Hread.
  induction files as [|f files IH]; intros s root nds es ds dss Hm Hfs Hes Hlen Hroom.
  - apply Forall2_nil_inv_l in Hfs as ->. exists s, root, nds. cbn. by rewrite !app_nil_r.
  - apply Forall2_cons_inv_l in Hfs as (d & dss' & (Hsl & Hmax & reads & Hf & <-) & Hfs & ->). cbn [length] in *.
    rewrite (cons_middle _ ds dss') in Hroom |- *. rewrite app_assoc in Hroom |- *.
    pose proof (blocks_of_pos dss'). pose proof Hroom as Hroom'. rewrite blocks_of_app in Hroom'.
    pose proof (nblk_mono (16 * Z.of_nat (length es + 1)) (16 * Z.of_nat (length es + S (length files))) ltac:(lia)).
    destruct (add_file_spec s root nds es ds f reads Hm) as (s1 & root1 & nds1 & E1 & Hm1); [lia|lia|done|done|done|rewrite length_app; cbn [length]; lia|].
    destruct (IH s1 root1 nds1 _ _ dss' Hm1 Hfs) as (s2 & root2 & nds2 & E2 & Hm2).
    + rewrite !length_app. cbn. lia.
    + rewrite !length_app. cbn. lia.
    + rewrite length_app. cbn [length]. by replace (length es + 1 + length files)%nat with (length es + S (length files))%nat by lia.
    + exists s2, root2, nds2. cbn [each]. unfold bind. rewrite E1. split; [done|]. rewrite length_app in Hm2. cbn [length] in Hm2.
      rewrite Nat.add_comm in Hm2. rewrite <-app_assoc in Hm2. exact Hm2.
Qed.

(** ** The end *)

(** The size of the root is rounded up to whole blocks, unless it is that already. *)
Definition whole (n : Z) : Z := (n / BSIZE + 1) * BSIZE.

Lemma whole_bounds n : 0 <= n -> n mod BSIZE <> 0 ->
  n < whole n /\ (forall k, k * BSIZE < whole n <-> k * BSIZE < n) /\ nblk (whole n) = nblk n.
Proof.
  intros Hn Hm. unfold nblk, whole, NDIRECT, BSIZE in *. pose proof (Z.div_mod n 512 ltac:(lia)). pose proof (Z.mod_pos_bound n 512 ltac:(lia)).
  split_and!; [lia|intros k; split; intros; [|lia]|].
  - assert (k <= n / 512) by lia. nia.
  - assert ((n + 512 - 1) / 512 = n / 512 + 1) as ->.
    { symmetry. apply (Z.div_unique _ _ _ (n mod 512 - 1)); lia. }
    assert (((n / 512 + 1) * 512 + 512 - 1) / 512 = n / 512 + 1) as -> by (symmetry; apply (Z.div_unique _ _ _ 511); lia).
    f_equal. destruct (Z.leb_spec n (12 * 512)), (Z.leb_spec ((n / 512 + 1) * 512) (12 * 512)); lia.
Qed.

Lemma round_appended s nd : base s -> file_ok E0 (view s) nd -> dense (view s) nd -> whole (i_size nd) <= MAXFILE * BSIZE ->
  i_size nd mod BSIZE <> 0 ->
  appended s nd s (set_i_size (fun _ => whole (i_size nd)) nd) (replicate (Z.to_nat (whole (i_size nd) - i_size nd)) 0).
Proof.
  intros Hb Hok [D1 D2 D3] Hmax Hmod. pose proof (fo_size _ _ _ Hok) as [Hs _]. destruct (whole_bounds (i_size nd) ltac:(lia) Hmod) as (Hlt & Hk & Hn).
  set (n' := whole (i_size nd)) in *. set (nd' := set_i_size _ nd).
  assert (forall x, 0 <= x < n' -> faddr (view s) nd (x / BSIZE) <> 0) as Hmap.
  { intros x Hx. apply D1; [apply block_index; lia|]. apply Hk. unfold BSIZE in *. pose proof (Z.div_mod x 512 ltac:(lia)).
    pose proof (Z.mod_pos_bound x 512 ltac:(lia)). lia. }
  split; [done|..].
  - destruct Hok. split; try done. split; [cbn; lia|exact Hmap].
  - split.
    + intros k Hk'. cbn. rewrite Hk. by apply D1.
    + cbn. rewrite Hk. exact D2.
    + intros x Hx. cbn in Hx. apply D3. lia.
  - cbn. rewrite length_replicate. lia.
  - by destruct nd.
  - unfold contents. cbn [nd' set_i_size i_size]. replace n' with (i_size nd + (n' - i_size nd)) by lia.
    rewrite (bytes_app (view s) nd' 0) by lia. f_equal. replace (i_size nd + (n' - i_size nd) - i_size nd) with (n' - i_size nd) by lia.
    apply list_eq_Forall2, Forall2_same_length_lookup. rewrite bytes_length, length_replicate. split; [done|].
    intros k x y Hx Hy. apply lookup_replicate in Hy as [-> Hkl]. unfold bytes in Hx. rewrite list_lookup_fmap in Hx.
    destruct (seqZ _ _ !! k) as [z|] eqn:Hz; [|done]. apply lookup_seqZ in Hz as [-> _]. injection Hx as <-. rewrite Z.add_0_l.
    apply D3; [lia|]. apply Hmap. lia.
  - cbn. rewrite Hn. lia.
  - done.
  - done.
  - intros nd2 Hok2 Hap. split_and!; done.
Qed.

(** ** The image *)

(** The finished image [V]: the root directory has the entries [es] and then unused ones, the files
    [nds] hold the bytes [ds]. *)
Record image (V : blocks) (root : inode) (nds : list inode) (es ds : list (list Z)) : Prop := mkImage {
  im_super : V 1 = superblock_bytes sb0;
  im_log : forall n, 2 <= n < 32 -> V n = zeros;
  im_used : forall b, 0 <= b < 1000 -> used E0 V b = (b <? 59 + nblk (16 * Z.of_nat (length es)) + blocks_of ds);
  im_files : forall j nd, (root :: nds) !! j = Some nd -> i_inum nd = 1 + Z.of_nat j /\ file_ok E0 V nd /\ synced E0 V nd;
  im_apart : forall j k nd nd2, (root :: nds) !! j = Some nd -> (root :: nds) !! k = Some nd2 -> j <> k -> apart_files V nd nd2;
  im_root : i_type root = T_DIR /\ i_size root mod DIRENT = 0;
  im_dirents : exists m, dirents V root = es ++ replicate m (replicate 16 0);
  im_data : Forall2 (fun nd d => i_type nd = T_FILE /\ contents V nd = d) nds ds
}.

(** The root's size is fixed. *)
Lemma fix_root s root nds es ds : made s root nds es ds -> (1 <= length es <= 200)%nat -> (16 * Z.of_nat (length es)) mod BSIZE <> 0 ->
  exists s' root' m, made s' root' nds (es ++ replicate m (replicate 16 0)) ds /\ freeblock s' = freeblock s /\
    bind (rinode 1) (fun din => winode 1 (mkDinode (d_type din) (d_major din) (d_minor din) (d_nlink din)
      (xint (u32 ((xint (d_size din) / BSIZE + 1) * BSIZE))) (d_addrs din))) s = Done tt s'.
Proof using Hwrite Hread.
  intros Hm Hes Hmod. pose proof (made_size _ _ _ _ _ Hm) as Hsz. destruct Hm as (Hinv & Hty & Hc & Hes16 & Hds).
  pose proof (fi_files _ _ Hinv 0%nat root eq_refl) as [Hok Hde Hnum Hsy Hft]. pose proof (fi_base _ _ Hinv) as Hb.
  destruct (whole_bounds (i_size root) ltac:(lia) ltac:(by rewrite Hsz)) as (Hlt & _ & _).
  assert (whole (i_size root) <= 4096) as Hw.
  { unfold whole, BSIZE. assert (i_size root / 512 < 7) by (apply Z.div_lt_upper_bound; lia). lia. }
  pose proof (round_appended s root Hb Hok Hde ltac:(change (MAXFILE * BSIZE) with 71680; lia) ltac:(by rewrite Hsz)) as Hap.
  set (n := whole (i_size root)) in *. set (root' := set_i_size (fun _ => n) root) in *.
  destruct (winode_eq Hwrite Hread s 1 (inode_dinode root') Hb ltac:(lia)) as [E2 Hb2]. specialize (Hb2 (fo_addrs _ _ _ Hok)). cbv zeta in E2, Hb2.
  assert (i_inum root' = 1) as Hin by exact Hnum.
  destruct (save_files s (root :: nds) 0 root root' s _ Hinv eq_refl Hap eq_refl Hft) as (Hinv2 & Hc2 & Ho2); [by rewrite Hin|]. rewrite Hin in Hinv2, Hc2, Ho2.
  set (s2 := set_img _ s) in *.
  set (m := Z.to_nat ((n - i_size root) / 16)). assert (Z.to_nat (n - i_size root) = 16 * m)%nat as Hz.
  { unfold m, n, whole, BSIZE. rewrite Hsz. replace ((16 * Z.of_nat (length es) / 512 + 1) * 512 - 16 * Z.of_nat (length es))
      with (((16 * Z.of_nat (length es) / 512 + 1) * 32 - Z.of_nat (length es)) * 16) by lia. rewrite Z_div_mult_full by lia. lia. }
  exists s2, root', m. split; [|split; [done|]].
  - split; [done|]. split_and!; [done| | |].
    + rewrite Hc2, (ap_contents _ _ _ _ _ Hap), Hc, concat_app, <-zeros_concat, Hz. done.
    + apply Forall_app. split; [done|]. by apply Forall_replicate.
    + apply (stored_keep s s2 nds ds Hds). intros k nd Hk. by apply (Ho2 (S k) nd).
  - unfold bind. rewrite rinode_eq by (done || lia). unfold synced in Hsy. rewrite Hnum in Hsy. change (1 + Z.of_nat 0) with 1 in Hsy. rewrite Hsy.
    cbn [inode_dinode d_type d_major d_minor d_nlink d_size d_addrs]. rewrite (xint_small (i_size root)) by lia. fold (whole (i_size root)). fold n.
    assert (u32 n = n) as -> by (apply u32_small; lia). rewrite xint_small by lia. exact E2.
Qed.

(** The bitmap is written. *)
Lemma write_bitmap s root nds es ds : made s root nds es ds ->
  balloc (s32 (freeblock s)) s = Done tt (set_img (insert 58 (bits (freeblock s))) s) /\
  forall n, blk (img (set_img (insert 58 (bits (freeblock s))) s)) n = view s n.
Proof using Hwrite.
  intros (Hinv & _). pose proof (fi_base _ _ Hinv) as Hb. pose proof (bs_free s Hb) as Hf.
  assert (s32 (freeblock s) = freeblock s) as Hs by (unfold s32; rewrite Z.mod_small by lia; lia).
  rewrite Hs. split.
  - unfold balloc, bind, assert. rewrite (proj2 (Z.ltb_lt _ _)) by (unfold BSIZE; lia). unfold get. rewrite (bs_sb s Hb). apply wsect_eq; done.
  - intros n. rewrite blk_set. done.
Qed.

Lemma made_image s root nds es ds fb m V : made s root nds (es ++ replicate m (replicate 16 0)) ds ->
  (forall n, V n = view s n) -> freeblock s = fb -> fb = 59 + nblk (16 * Z.of_nat (length es)) + blocks_of ds -> image V root nds es ds.
Proof.
  intros (Hinv & Hty & Hc & Hes16 & Hds) HV <- Hfb. pose proof (fi_base _ _ Hinv) as Hb. pose proof (fi_boot _ _ Hinv) as [Hsb Hlog].
  assert (forall nd, contents V nd = contents (view s) nd) as Hcon by (intros nd; apply bytes_ext; intros; by apply same_byte).
  pose proof (fi_files _ _ Hinv 0%nat root eq_refl) as [Hok _ _ _ _].
  destruct (dirents_concat E0 V root _ (same_file (view s) V HV root Hok) Hes16) as [Hmod Hde]; [by rewrite Hcon|].
  split.
  - rewrite HV. unfold view. by rewrite mark_ne.
  - intros n Hn. rewrite HV. unfold view. rewrite mark_ne by lia. by apply Hlog.
  - intros b Hbr. rewrite (same_used (view s) V HV), view_used, Hfb by done. done.
  - intros j nd Hj. destruct (fi_files _ _ Hinv j nd Hj) as [Hok' _ Hnum Hsy _]. split_and!; [done|by apply (same_file (view s) V)|].
    unfold synced, dinode_at. rewrite HV. exact Hsy.
  - intros j k nd nd2 Hj Hk Hjk b Hb1 Hb2. apply (fi_apart _ _ Hinv j k nd nd2 Hj Hk Hjk b); (eapply keep_owns; [|done]); intros; by apply (same_faddr (view s) V).
  - done.
  - by exists m.
  - apply (Forall2_impl _ _ _ _ Hds). intros nd d [? <-]. done.
Qed.

(** The two entries every directory starts with. *)
Definition dots : list (list Z) := [entry 1 [46]; entry 1 [46; 46]].

Lemma make_root : exists s1 s2 s3 root, ialloc T_DIR cleared = Done 1 s1 /\ iappend 1 (entry 1 [46]) s1 = Done tt s2 /\
  iappend 1 (entry 1 [46; 46]) s2 = Done tt s3 /\ made s3 root [] dots [].
Proof using Hwrite Hread.
  destruct (ialloc_spec Hwrite Hread cleared [] T_DIR cleared_inv) as (s1 & E1 & Hinv1 & _); [cbn; lia|unfold T_DIR; lia|].
  assert (made s1 (new_inode 0 T_DIR) [] [] []) as Hm1 by (split; [exact Hinv1|split; [reflexivity|split; [reflexivity|split; constructor]]]).
  clear Hinv1.
  destruct (add_entry s1 _ [] [] [] (entry 1 [46]) Hm1 (mkentry_length _ _)) as (s2 & root2 & E2 & Hm2); [cbn; lia|by vm_compute|].
  destruct (add_entry s2 root2 [] _ [] (entry 1 [46; 46]) Hm2 (mkentry_length _ _)) as (s3 & root3 & E3 & Hm3); [cbn; lia|by vm_compute|].
  exists s1, s2, s3, root3. split; [exact E1|split; [exact E2|split; [exact E3|exact Hm3]]].
Qed.

Lemma start_cleared (k : M unit) :
  bind (modify (set_sb (fun _ => sb0))) (fun _ => bind (modify (set_freeblock (fun _ => 59))) (fun _ =>
  bind (each (seqZ 0 FSSIZE) (fun i => wsect i zeros)) (fun _ => bind (get sb) (fun b => bind (wsect 1 (superblock_bytes b)) (fun _ => k))))) start = k cleared.
Proof using Hwrite.
  unfold bind, modify, get. rewrite each_wsect; [|apply Forall_forall; intros n Hn; apply elem_of_seqZ in Hn; unfold FSSIZE in Hn; lia].
  rewrite (wsect_eq Hwrite 1) by lia. reflexivity.
Qed.

(** What main does after the files. *)
Definition finish : M unit :=
  bind (bind (rinode 1) (fun din => winode 1 (mkDinode (d_type din) (d_major din) (d_minor din) (d_nlink din)
      (xint (u32 ((xint (d_size din) / BSIZE + 1) * BSIZE))) (d_addrs din)))) (fun _ =>
  bind (get freeblock) (fun used => bind (balloc (s32 used)) (fun _ => exit 0))).

(** The run on a host that has the files [files], with the contents [ds], up to there. *)
Lemma run_files argv0 files ds :
  mh_create = true -> Forall2 host_file files ds -> (length files <= 198)%nat ->
  59 + nblk (16 * Z.of_nat (2 + length files)) + blocks_of ds <= 1000 ->
  exists s root nds, run (argv0 :: files) = finish s /\ made s root nds (dots ++ entries 0 files) ds.
Proof using Hwrite Hread.
  intros Hcr Hfs Hlen Hroom. destruct make_root as (s1 & s2 & s3 & root & E1 & E2 & E3 & Hm3).
  destruct (add_files files s3 root [] dots [] ds Hm3 Hfs) as (s4 & root4 & nds & E4 & Hm4); [cbn; lia|cbn; lia|exact Hroom|].
  exists s4, root4, nds. split; [|exact Hm4]. unfold run, main. rewrite Hcr.
  match goal with |- bind _ (fun _ => bind _ (fun _ => bind _ (fun _ => ?k))) _ = ?r => change (k start = r) end.
  etransitivity; [refine (start_cleared _)|]. unfold bind at 1. rewrite E1. unfold bind at 1. change (assert (1 =? ROOTINO)) with (ret tt). unfold ret at 1.
  unfold bind at 1. rewrite E2. unfold bind at 1. rewrite E3. unfold bind at 1. rewrite E4.
  unfold finish, bind. by destruct (rinode 1 s4).
Qed.

Lemma dots_entries files : length (dots ++ entries 0 files) = (2 + length files)%nat.
Proof. by rewrite length_app, entries_length. Qed.

Lemma finish_image s root nds es ds : made s root nds es ds -> (1 <= length es <= 200)%nat -> (16 * Z.of_nat (length es)) mod BSIZE <> 0 ->
  exists s' root', finish s = Exit 0 s' /\ image (blk (img s')) root' nds es ds.
Proof using Hwrite Hread.
  intros Hm Hes Hmod. pose proof (fi_total _ _ (proj1 Hm)) as Hfb. rewrite (made_total _ _ _ _ _ Hm) in Hfb.
  destruct (fix_root s root nds es ds Hm Hes Hmod) as (s5 & root5 & m & Hm5 & Hf5 & E5).
  destruct (write_bitmap s5 root5 nds _ ds Hm5) as [E6 HV]. eexists _, root5.
  split; [|apply (made_image s5 root5 nds es ds (freeblock s5) m _ Hm5 HV); [done|lia]].
  unfold finish. unfold bind at 1. rewrite E5. unfold bind, get. rewrite E6. reflexivity.
Qed.

(** When the entries end at the end of a block, the root is made a block longer than it is. *)
Lemma finish_hole s root nds es ds : made s root nds es ds -> (1 <= length es <= 200)%nat -> (16 * Z.of_nat (length es)) mod BSIZE = 0 ->
  exists s', finish s = Exit 0 s' /\ let d := dinode_at E0 (blk (img s')) 1 in
    d_size d = 16 * Z.of_nat (length es) + BSIZE /\ addr d (16 * Z.of_nat (length es) / BSIZE) = 0.
Proof using Hwrite Hread.
  intros Hm Hes Hmod. pose proof (made_size _ _ _ _ _ Hm) as Hsz. destruct Hm as (Hinv & Hty & Hc & Hes16 & Hds).
  pose proof (fi_files _ _ Hinv 0%nat root eq_refl) as [Hok Hde Hnum Hsy Hft]. pose proof (fi_base _ _ Hinv) as Hb. pose proof (bs_free s Hb) as Hfb.
  set (n := 16 * Z.of_nat (length es)) in *. pose proof (Z.div_mod n BSIZE ltac:(done)) as Hdm. rewrite Hmod in Hdm.
  assert (xint (u32 ((n / BSIZE + 1) * BSIZE)) = n + BSIZE) as Hsize.
  { replace ((n / BSIZE + 1) * BSIZE) with (n + BSIZE) by lia. unfold BSIZE in *. rewrite u32_small, xint_small by lia. done. }
  set (root' := set_i_size (fun _ => n + BSIZE) root).
  destruct (winode_eq Hwrite Hread s 1 (inode_dinode root') Hb ltac:(lia)) as [E2 Hb2]. cbv zeta in E2. set (s2 := set_img _ s) in *.
  assert (balloc (s32 (freeblock s)) s2 = Done tt (set_img (insert 58 (bits (freeblock s))) s2)) as E3.
  { assert (s32 (freeblock s) = freeblock s) as -> by (unfold s32; rewrite Z.mod_small by lia; lia).
    unfold balloc, bind, assert. rewrite (proj2 (Z.ltb_lt _ _)) by (unfold BSIZE; lia). unfold get. change (sb s2) with (sb s). rewrite (bs_sb s Hb). by apply wsect_eq. }
  eexists. split.
  - unfold finish, bind. rewrite rinode_eq by (done || lia). unfold synced in Hsy. rewrite Hnum in Hsy. change (1 + Z.of_nat 0) with 1 in Hsy. rewrite Hsy.
    cbn [inode_dinode d_type d_major d_minor d_nlink d_size d_addrs]. rewrite (xint_small (i_size root)) by (unfold n in *; lia). rewrite Hsz, Hsize.
    fold (inode_dinode root'). change (mkDinode _ _ _ _ _ _) with (inode_dinode root'). rewrite E2. unfold get. change (freeblock s2) with (freeblock s). rewrite E3. reflexivity.
  - cbv zeta. unfold dinode_at. change (te_sb E0) with sb0. rewrite blk_set, vput_ne by done. unfold s2. rewrite blk_set, vput_eq.
    rewrite read_write_dinode; [|rewrite (view_len s _ Hb); by apply dinode_off_bound|].
    + cbn [root' set_i_size inode_dinode d_size i_size]. split; [done|]. set (k := n / BSIZE) in *.
      assert (0 <= k < 7) as Hk by (unfold k, n, BSIZE in *; lia).
      destruct (decide (faddr (view s) root k = 0)) as [Hz|Hne].
      * unfold faddr in Hz. rewrite (proj2 (Z.ltb_lt _ _)) in Hz by (unfold NDIRECT; lia). exact Hz.
      * apply (de_data _ _ Hde k) in Hne; [|change MAXFILE with 140; lia]. lia.
    + destruct (inode_dinode_ok E0 mk_layout (view s) root Hok Hft) as (D1 & D2 & D3 & D4 & D5 & D6 & D7).
      repeat (split; [first [exact D1|exact D2|exact D3|exact D4|cbn [inode_dinode root' set_i_size d_size i_size]; unfold n, BSIZE; lia|exact D6]|]). exact D7.
Qed.
End host.


(** C32. When the entries of the root directory fill its blocks, mkfs still adds a block to the size of
    the root, and that block is none: the kernel would find a directory with a hole. *)
Theorem mkfs_root_hole `{MkHost} argv0 files ds :
  mh_create = true -> (forall n, mh_write n = true) -> (forall n, mh_read n = true) ->
  Forall2 host_file files ds -> (length files <= 198)%nat ->
  (16 * Z.of_nat (2 + length files)) mod BSIZE = 0 -> 59 + nblk (16 * Z.of_nat (2 + length files)) + blocks_of ds <= 1000 ->
  exists s, run (argv0 :: files) = Exit 0 s /\ let root := dinode_at E0 (blk (img s)) ROOTINO in
    d_size root = 16 * Z.of_nat (2 + length files) + BSIZE /\ addr root (16 * Z.of_nat (2 + length files) / BSIZE) = 0.
Proof.
  intros Hcr Hw Hr Hfs Hlen Hmod Hroom. destruct (run_files Hw Hr argv0 files ds Hcr Hfs Hlen Hroom) as (s & root & nds & -> & Hm).
  rewrite <-dots_entries in Hmod |- *. apply (finish_hole Hw Hr s root nds _ ds Hm); [rewrite dots_entries; lia|done].
Qed.

(** A host whose files all have the same two pieces, and one whose files are empty. *)
Definition full_host : MkHost := Build_MkHost true (fun _ => true) (fun _ => true) (fun _ => Some [replicate 512 7; [1; 2; 3]]).
Definition empty_host : MkHost := Build_MkHost true (fun _ => true) (fun _ => true) (fun _ => Some []).


Lemma mkfs_root_hole_witness : exists s, run (H := empty_host) ([105] :: replicate 30 [82]) = Exit 0 s /\
  let root := dinode_at E0 (blk (img s)) ROOTINO in d_size root = 1024 /\ addr root 1 = 0.
Proof.
  apply (mkfs_root_hole (H := empty_host) [105] (replicate 30 [82]) (replicate 30 [])); try reflexivity.
  - apply Forall2_replicate. split; [by apply (bool_decide_unpack _)|]. split; [by vm_compute|]. exists []. split; reflexivity.
  - cbn. lia.
  - by vm_compute.
Defined.
