(* ===== verification/Proc.v ===== *)
(** * Processes (proc.c)

    Creation, growth, exit, reaping and killing of processes, the niceness calls and the
    process listing. *)

From Stdlib Require Import ZArith Lia.
From stdpp Require Import base list gmap strings numbers.
From S2P Require Import Prelude Machine Cstring Spinlock Boot Kalloc Cprintf Sched Vm Sleeplock.
From S2P Require Import Layout Bio Log Fs Pipe File.
Local Open Scope Z_scope.
Local Open Scope kern_scope.

(** ** The trap frame and the context (x86.h, proc.h): offsets of their fields *)

Definition TF_SIZE : Z := 76.
Definition tf_eax : Z := 28.
Definition tf_es : Z := 40.
Definition tf_ds : Z := 44.
Definition tf_trapno : Z := 48.
Definition tf_err : Z := 52.
Definition tf_eip : Z := 56.
Definition tf_cs : Z := 60.
Definition tf_eflags : Z := 64.
Definition tf_esp : Z := 68.
Definition tf_ss : Z := 72.
Definition CTX_SIZE : Z := 20.
Definition ctx_ebp : Z := 12.
Definition ctx_eip : Z := 16.


(** A 16-bit field at a word-aligned address. *)
Definition ldh (w : world) (a : Z) : Z := u16 (ld w a).
Definition sth (a v : Z) (w : world) : world :=
  st a (Z.lor (Z.land (ld w a) 0xffff0000) (u16 v)) w.

(** [*dst = *src] of two trap frames. *)
Fixpoint copy_words (n : nat) (dst src : Z) (m : memory) : memory :=
  match n with O => m | S k => copy_words k (dst + 4) (src + 4) (stm dst (ldm m src) m) end.

(** [myproc()], dereferenced by the caller. *)
Definition curproc : KM nat := p <- myproc; kderef p.

Definition set_state (p : nat) (s : procstate) : KM unit := kmod (upd_proc p (set_p_state (fun _ => s))).

Definition pinit : KM unit := initlock PtableLock "ptable".

(** ** kill, setnice, getnice *)

Definition kill (pid : Z) : KM Z :=
  acquire PtableLock >>;
  ps <- kget w_procs;
  match find_idx (fun p => p_pid p =? pid) ps with
  | Some p =>
    kmod (upd_proc p (set_p_killed (fun _ => 1))) >>;
    pr <- get_proc p;
    kwhen (is_state (p_state pr) SLEEPING) (set_state p RUNNABLE) >>;
    release PtableLock >>;
    kret 0
  | None => release PtableLock >>; kret (-1)
  end.

Definition setnice (pid nice : Z) : KM Z :=
  if (nice <? 0) || (nice >? 39) then kret (-1) else
  acquire PtableLock >>;
  ps <- kget w_procs;
  match find_idx (fun p => (pid =? p_pid p) && negb (pid =? 0)) ps with
  | Some p =>
    kmod (upd_proc p (set_p_schedstate (set_nice (fun _ => nice)))) >>;
    release PtableLock >>;
    kret 0
  | None => release PtableLock >>; kret (-1)
  end.

Definition getnice (pid : Z) : KM Z :=
  acquire PtableLock >>;
  ps <- kget w_procs;
  match find_idx (fun p => (pid =? p_pid p) && negb (pid =? 0)) ps with
  | Some p =>
    pr <- get_proc p;
    let nice := nice (p_schedstate pr) in
    release PtableLock >>;
    kret nice
  | None => release PtableLock >>; kret (-1)
  end.

(** ** Listings *)

Definition FIELDSIZE : Z := 15.
Definition TAB2 : list Z := [9; 9].

(** The ten bytes of [result] after the call. *)
Definition strprocstate (result : list Z) (s : procstate) : list Z :=
  safestrcpy result
    (str match s with
         | UNUSED => "UNUSED" | EMBRYO => "EMBRYO" | SLEEPING => "SLEEPING"
         | RUNNABLE => "RUNNABLE" | RUNNING => "RUNNING" | ZOMBIE => "ZOMBIE"
         end) 10.

Definition cprintfpad (s : list Z) (width : Z) : KM unit :=
  let len := Z.of_nat (strlen s) in
  printk "%s" [AStr (Some s)] >>;
  kfor (seq (Z.to_nat len) (Z.to_nat (width - len))) (fun _ => printk " " []).

Definition printheader : KM unit :=
  cprintfpad (str "NAME") FIELDSIZE >>;
  cprintf (Some (str "PID" ++ TAB2)) [] >>;
  cprintfpad (str "STATE") FIELDSIZE >>;
  cprintf (Some (str "NICE" ++ TAB2)) [] >>;
  cprintf (Some [10]) [].

Definition printcontent (p : proc) : KM unit :=
  cprintfpad (p_name p) FIELDSIZE >>;
  cprintf (Some (str "%d" ++ TAB2)) [AInt (p_pid p)] >>;
  cprintfpad (strprocstate (replicate 10 0) (p_state p)) FIELDSIZE >>;
  cprintf (Some (str "%d" ++ TAB2)) [AInt (nice (p_schedstate p))] >>;
  cprintf (Some [10]) [].

Definition ps (pid : Z) : KM unit :=
  acquire PtableLock >>;
  (if pid =? 0 then
     kfor (seq 0 NPROC) (fun p =>
       kwhen (Nat.eqb p 0) printheader >>;      (* hasHeader is set by the first turn *)
       pr <- get_proc p;
       printcontent pr)
   else if pid >? 0 then
     ps <- kget w_procs;
     match find_idx (fun p => pid =? p_pid p) ps with
     | Some p => printheader >>; pr <- get_proc p; printcontent pr
     | None => kret tt
     end
   else kret tt) >>;
  release PtableLock.

(** getcallerpcs of spinlock.c: the return addresses up the %ebp chain from [v]. *)
Fixpoint caller_chain (n : nat) (m : memory) (ebp : Z) : list Z :=
  match n with
  | O => []
  | S n' => if (ebp =? 0) || (ebp <? KERNBASE) || (ebp =? 0xffffffff) then replicate n 0
            else ldm m (u32 (ebp + 4)) :: caller_chain n' m (ldm m ebp)
  end.
Definition getcallerpcs (w : world) (v : Z) : list Z := caller_chain 10 (w_mem w) (u32 (v - 8)).

Definition dump_state (s : procstate) : string :=
  match s with
  | UNUSED => "unused" | EMBRYO => "embryo" | SLEEPING => "sleep "
  | RUNNABLE => "runble" | RUNNING => "run   " | ZOMBIE => "zombie"
  end.

(** The entries of [pc] before the first zero. *)
Fixpoint until_zero (l : list Z) : list Z :=
  match l with [] => [] | x :: l' => if x =? 0 then [] else x :: until_zero l' end.

Definition procdump : KM unit :=
  kfor (seq 0 NPROC) (fun p =>
    pr <- get_proc p;
    if is_state (p_state pr) UNUSED then kret tt else
    printk "%d %s %s" [AInt (p_pid pr); AStr (Some (str (dump_state (p_state pr)))); AStr (Some (p_name pr))] >>;
    (if is_state (p_state pr) SLEEPING then
       pcs <- kget (fun w => getcallerpcs w (u32 (ld w (p_context pr + ctx_ebp) + 8)));
       kfor (until_zero pcs) (fun pc => printk " %p" [AInt pc])
     else kret tt) >>;
    cprintf (Some [10]) []).

(** ** Creation and death *)

Section proc.
Context `{KernelImage} `{DiskDriver} `{DevSwitch}.

(** The kernel stack of a new process: trap frame, return address, context. *)
Definition setup_kstack (p : nat) (kstack : Z) : KM unit :=
  let sp := kstack + KSTACKSIZE in
  let sp := sp - TF_SIZE in
  kmod (upd_proc p (set_p_tf (fun _ => sp))) >>;
  let sp := sp - 4 in
  kmod (st sp k_trapret) >>;
  let sp := sp - CTX_SIZE in
  kmod (upd_proc p (set_p_context (fun _ => sp))) >>;
  kmod (set_w_mem (memset sp 0 CTX_SIZE)) >>;
  kmod (st (sp + ctx_eip) k_forkret).

(** [nextpid++] on the largest [int] is an overflow, which C leaves undefined: the run ends
    there. *)
Definition allocproc : KM (option nat) :=
  acquire PtableLock >>;
  ps <- kget w_procs;
  match find_idx (fun p => is_state (p_state p) UNUSED) ps with
  | None => release PtableLock >>; kret None
  | Some p =>
    set_state p EMBRYO >>;
    pid <- kget w_nextpid;
    if pid =? INT_MAX then kpanic "undefined: signed overflow" else
    kmod (upd_proc p (set_p_pid (fun _ => pid))) >>;
    kmod (set_w_nextpid (fun n => n + 1)) >>;
    release PtableLock >>;
    k <- kalloc;
    kmod (upd_proc p (set_p_kstack (fun _ => k))) >>;
    if k =? 0 then set_state p UNUSED >>; kret None else
    setup_kstack p k >>;
    kret (Some p)
  end.

Definition userinit : KM unit :=
  p <- allocproc;
  kmod (set_w_initproc (fun _ => p)) >>;
  p <- kderef p;
  pgdir <- setupkvm;
  kmod (upd_proc p (set_p_pgdir (fun _ => pgdir))) >>;
  if pgdir =? 0 then kpanic "userinit: out of memory?" else
  inituvm pgdir k_initcode >>;
  kmod (upd_proc p (set_p_sz (fun _ => PGSIZE))) >>;
  pr <- get_proc p;
  let tf := p_tf pr in
  kmod (set_w_mem (memset tf 0 TF_SIZE)) >>;
  kmod (sth (tf + tf_cs) (Z.lor (Z.shiftl SEG_UCODE 3) DPL_USER)) >>;
  kmod (sth (tf + tf_ds) (Z.lor (Z.shiftl SEG_UDATA 3) DPL_USER)) >>;
  kmod (fun w => sth (tf + tf_es) (ldh w (tf + tf_ds)) w) >>;
  kmod (fun w => sth (tf + tf_ss) (ldh w (tf + tf_ds)) w) >>;
  kmod (st (tf + tf_eflags) FL_IF) >>;
  kmod (st (tf + tf_esp) PGSIZE) >>;
  kmod (st (tf + tf_eip) 0) >>;
  kmod (upd_proc p (set_p_name (fun s => safestrcpy s (str "initcode") 16))) >>;
  cwd <- namei (str "/");
  kmod (upd_proc p (set_p_cwd (fun _ => cwd))) >>;
  acquire PtableLock >>;
  set_state p RUNNABLE >>;
  release PtableLock.

Definition growproc (n : Z) : KM Z :=
  p <- curproc;
  pr <- get_proc p;
  let sz := p_sz pr in
  r <- (if n >? 0 then
          sz' <- allocuvm (p_pgdir pr) sz (u32 (sz + n));
          kret (if sz' =? 0 then None else Some sz')
        else if n <? 0 then
          sz' <- deallocuvm (p_pgdir pr) sz (u32 (sz + n));
          kret (if sz' =? 0 then None else Some sz')
        else kret (Some sz));
  match r with
  | None => kret (-1)
  | Some sz =>
    kmod (upd_proc p (set_p_sz (fun _ => sz))) >>;
    switchuvm (Some p) >>;
    kret 0
  end.

(** [for(i = 0; i < NOFILE; i++) if(curproc->ofile[i]) np->ofile[i] = filedup(...)] *)
Definition dup_files (cur np : nat) : KM unit :=
  kfor (seq 0 NOFILE) (fun i =>
    pr <- get_proc cur;
    match p_ofile pr !! i with
    | Some (Some f) =>
      f' <- filedup f;
      kmod (upd_proc np (set_p_ofile (insert i (Some f'))))
    | _ => kret tt
    end).

Definition fork : KM Z :=
  cur <- curproc;
  np <- allocproc;
  match np with
  | None => kret (-1)
  | Some np =>
    pr <- get_proc cur;
    pgdir <- copyuvm (p_pgdir pr) (p_sz pr);
    kmod (upd_proc np (set_p_pgdir (fun _ => pgdir))) >>;
    if pgdir =? 0 then
      npr <- get_proc np;
      kfree (p_kstack npr) >>;
      kmod (upd_proc np (set_p_kstack (fun _ => 0))) >>;
      set_state np UNUSED >>;
      kret (-1)
    else
    kmod (upd_proc np (set_p_sz (fun _ => p_sz pr))) >>;
    kmod (upd_proc np (set_p_parent (fun _ => Some cur))) >>;
    npr <- get_proc np;
    kmod (set_w_mem (copy_words 19 (p_tf npr) (p_tf pr))) >>;
    kmod (st (p_tf npr + tf_eax) 0) >>;
    dup_files cur np >>;
    pr <- get_proc cur;
    cwd <- kderef (p_cwd pr);
    cwd <- idup cwd;
    kmod (upd_proc np (set_p_cwd (fun _ => Some cwd))) >>;
    kmod (upd_proc np (set_p_name (fun s => safestrcpy s (p_name pr) 16))) >>;
    npr <- get_proc np;
    let pid := p_pid npr in
    acquire PtableLock >>;
    set_state np RUNNABLE >>;
    release PtableLock >>;
    kret pid
  end.

(** [for(fd = 0; fd < NOFILE; fd++) if(curproc->ofile[fd]) ...] *)
Definition close_files (cur : nat) : KM unit :=
  kfor (seq 0 NOFILE) (fun fd =>
    pr <- get_proc cur;
    match p_ofile pr !! fd with
    | Some (Some f) =>
      fileclose f >>;
      kmod (upd_proc cur (set_p_ofile (insert fd None)))
    | _ => kret tt
    end).

(** Pass abandoned children to init, one table entry at a time. *)
Definition reparent (cur : nat) : KM unit :=
  kfor (seq 0 NPROC) (fun p =>
    pr <- get_proc p;
    if bool_decide (p_parent pr = Some cur) then
      init <- kget w_initproc;
      kmod (upd_proc p (set_p_parent (fun _ => init))) >>;
      kwhen (is_state (p_state pr) ZOMBIE) (wakeup1 (ChProc <$> init))
    else kret tt).

(** The last part of exit(), from [acquire(&ptable.lock)] on. *)
Definition exit_sched (cur : nat) : KM unit :=
  acquire PtableLock >>;
  pr <- get_proc cur;
  wakeup1 (ChProc <$> p_parent pr) >>;
  reparent cur >>;
  set_state cur ZOMBIE >>;
  sched >>;
  kpanic "zombie exit".

Definition exit : KM unit :=
  p <- myproc;
  init <- kget w_initproc;
  if bool_decide (p = init) then kpanic "init exiting" else
  cur <- kderef p;
  close_files cur >>;
  begin_op >>;
  pr <- get_proc cur;
  cwd <- kderef (p_cwd pr);
  iput cwd >>;
  end_op >>;
  kmod (upd_proc cur (set_p_cwd (fun _ => None))) >>;
  exit_sched cur.

Definition is_child (cur : nat) (p : proc) : bool := bool_decide (p_parent p = Some cur).

(** The zombie at index [p] is reaped. *)
Definition reap (p : nat) : KM Z :=
  pr <- get_proc p;
  let pid := p_pid pr in
  kfree (p_kstack pr) >>;
  kmod (upd_proc p (set_p_kstack (fun _ => 0))) >>;
  freevm (p_pgdir pr) >>;
  kmod (upd_proc p (set_p_pid (fun _ => 0))) >>;
  kmod (upd_proc p (set_p_parent (fun _ => None))) >>;
  kmod (upd_proc p (set_p_name (insert 0%nat 0))) >>;
  kmod (upd_proc p (set_p_killed (fun _ => 0))) >>;
  set_state p UNUSED >>;
  release PtableLock >>;
  kret pid.

(** The scan stops at the first zombie child; otherwise [havekids] says whether any entry
    is a child. *)
Definition wait : KM Z :=
  cur <- curproc;
  acquire PtableLock >>;
  kwait (
    ps <- kget w_procs;
    match find_idx (fun p => is_child cur p && is_state (p_state p) ZOMBIE) ps with
    | Some p => pid <- reap p; kret (Some pid)
    | None =>
      let havekids := existsb (is_child cur) ps in
      stop <- (if negb havekids then kret true
               else pr <- get_proc cur; kret (negb (p_killed pr =? 0)));
      if (stop : bool) then release PtableLock >>; kret (Some (-1))
      else sleep (Some (ChProc cur)) (Some PtableLock) >>; kret None
    end).

Definition forkret : KM unit :=
  release PtableLock >>;
  f <- kget w_first;
  if negb (f =? 0) then
    kmod (set_w_first (fun _ => 0)) >>;
    iinit ROOTDEV >>;
    initlog ROOTDEV
  else kret tt.
End proc.
