(* ===== verification/Procspec.v ===== *)
(** * What the process calls do (proc.c)

    The niceness calls, kill, the process listing, the end of exit and the waiting side of
    wait, in the context of a running process. *)

From Stdlib Require Import ZArith Lia.
From stdpp Require Import base list gmap strings numbers.
From S2P Require Import Prelude Machine Cstring Spinlock Boot Kalloc Cprintf Sched Vm Sleeplock.
From S2P Require Import Vmspec Layout Bio Log Fs Pipe File Proc.
Local Open Scope Z_scope.
Local Open Scope kern_scope.

(** ** Specifications *)

(** The table entry setnice and getnice act on. *)
Definition nice_slot (pid : Z) (ps : list proc) : option nat :=
  find_idx (fun p => (pid =? p_pid p) && negb (pid =? 0)) ps.

(** What getnice answers. *)
Definition nice_of (pid : Z) (ps : list proc) : Z :=
  default (-1) (q ← nice_slot pid ps; nice ∘ p_schedstate <$> ps !! q).

(** The effect of kill on the entry it finds. *)
Definition kill_proc (p : proc) : proc :=
  let p := set_p_killed (fun _ => 1) p in
  if is_state (p_state p) SLEEPING then set_p_state (fun _ => RUNNABLE) p else p.

(** A string and the spaces after it. *)
Definition padded (s : list Z) (width : Z) : list Z :=
  cstr s ++ replicate (Z.to_nat (width - Z.of_nat (strlen s))) 32.
Definition decimal (z : Z) : list Z := print_chars (str "0123456789abcdef") (s32 z) 10 1.

Definition ps_header : list Z :=
  padded (str "NAME") FIELDSIZE ++ str "PID" ++ TAB2 ++ padded (str "STATE") FIELDSIZE
  ++ str "NICE" ++ TAB2 ++ [10].
Definition ps_row (p : proc) : list Z :=
  padded (p_name p) FIELDSIZE ++ decimal (p_pid p) ++ TAB2
  ++ padded (strprocstate (replicate 10 0) (p_state p)) FIELDSIZE
  ++ decimal (nice (p_schedstate p)) ++ TAB2 ++ [10].
(** What ps writes on the console. *)
Definition ps_text (pid : Z) (ps : list proc) : list Z :=
  if pid =? 0 then ps_header ++ mjoin (ps_row <$> ps)
  else if pid >? 0 then
    match find_idx (fun p => pid =? p_pid p) ps with
    | Some q => ps_header ++ default [] (ps_row <$> ps !! q)
    | None => []
    end
  else [].

(** The table after exit has passed the children of [cur] among the first [n] entries to
    [init]. *)
Definition orphan (cur : nat) (p : proc) : bool := bool_decide (p_parent p = Some cur).
Definition zombie_orphan (cur : nat) (p : proc) : bool := orphan cur p && is_state (p_state p) ZOMBIE.
Definition adopt (cur : nat) (init : option nat) (p : proc) : proc :=
  if orphan cur p then set_p_parent (fun _ => init) p else p.
Definition reparented (cur : nat) (init : option nat) (n : nat) (ps : list proc) : list proc :=
  let wake := if existsb (zombie_orphan cur) (take n ps) then wake_proc (ChProc <$> init) else id in
  (wake ∘ adopt cur init <$> take n ps) ++ (wake <$> drop n ps).

(** ** Changes of one entry *)

Lemma upd_proc_upd q f g w : upd_proc q f (upd_proc q g w) = upd_proc q (f ∘ g) w.
Proof. unfold upd_proc, set_w_procs. simpl. by rewrite list_alter_alter_eq. Qed.

Lemma upd_proc_ext q f g w x :
  w_procs w !! q = Some x -> f x = g x -> upd_proc q f w = upd_proc q g w.
Proof.
  intros Hq E. unfold upd_proc, set_w_procs. f_equal. apply list_alter_ext; [|done].
  intros y Hy. by simplify_eq.
Qed.

(** ** Niceness and kill *)

Section ctx.
Context (w : world) (i : nat) (c : cpu) (p : nat) (pr : proc) (H : kctx w i c p pr).

Lemma curproc_eq e : curproc w e = Ret p w e.
Proof using H.
  destruct H as [H1 H2 H3 H4 H5]. unfold curproc. simpl. by rewrite (myproc_eq w i c), H2, H3 by done.
Qed.

(** The end of a critical section on the process table. *)
Lemma ptable_release F `{!Framed F} e :
  release PtableLock (F (entered i PtableLock w)) e = Ret tt (F w) e.
Proof using H.
  destruct H as [H1 H2 H3 H4 H5]. rewrite (release_section w i c PtableLock H1 F) by auto. by rewrite H2.
Qed.

Lemma ptable_acquire e : acquire PtableLock w e = Ret tt (entered i PtableLock w) e.
Proof using H. destruct H as [H1 H2 H3 H4 H5]. apply (acquire_eq w i c); auto. Qed.

Lemma getnice_eq pid e : getnice pid w e = Ret (nice_of pid (w_procs w)) w e.
Proof using H.
  unfold getnice, nice_of, nice_slot. cbn [kbind]. rewrite ptable_acquire. cbn [kget].
  change (w_procs (entered i PtableLock w)) with (w_procs w).
  destruct (find_idx _ (w_procs w)) as [q|] eqn:E; cbn [kbind].
  - apply find_idx_Some in E as (x & Hx & _). rewrite (get_proc_eq _ q x) by done.
    rewrite (ptable_release id). simpl. by rewrite Hx.
  - by rewrite (ptable_release id).
Qed.

Lemma setnice_eq pid n e :
  setnice pid n w e =
    match (if (0 <=? n) && (n <=? 39) then nice_slot pid (w_procs w) else None) with
    | Some q => Ret 0 (upd_proc q (set_p_schedstate (set_nice (fun _ => n))) w) e
    | None => Ret (-1) w e
    end.
Proof using H.
  unfold setnice. replace ((n <? 0) || (n >? 39)) with (negb ((0 <=? n) && (n <=? 39))) by zcases.
  destruct ((0 <=? n) && (n <=? 39)); cbn [negb]; [|done].
  cbn [kbind]. rewrite ptable_acquire. cbn [kget].
  change (w_procs (entered i PtableLock w)) with (w_procs w). unfold nice_slot.
  destruct (find_idx _ (w_procs w)) as [q|] eqn:E; cbn [kbind kmod].
  - by rewrite (ptable_release (upd_proc q (set_p_schedstate (set_nice (fun _ => n))))).
  - by rewrite (ptable_release id).
Qed.

Lemma kill_eq pid e :
  kill pid w e =
    match find_idx (fun p => p_pid p =? pid) (w_procs w) with
    | Some q => Ret 0 (upd_proc q kill_proc w) e
    | None => Ret (-1) w e
    end.
Proof using H.
  unfold kill. cbn [kbind]. rewrite ptable_acquire. cbn [kget].
  change (w_procs (entered i PtableLock w)) with (w_procs w).
  destruct (find_idx _ (w_procs w)) as [q|] eqn:E; cbn [kbind kmod].
  - apply find_idx_Some in E as (x & Hx & _).
    rewrite (get_proc_eq _ q (set_p_killed (fun _ => 1) x)) by (simpl; by rewrite list_lookup_alter_eq, Hx).
    assert (kwhen (is_state (p_state (set_p_killed (fun _ => 1) x)) SLEEPING) (set_state q RUNNABLE)
      (upd_proc q (set_p_killed (fun _ => 1)) (entered i PtableLock w)) e
      = Ret tt (upd_proc q kill_proc (entered i PtableLock w)) e) as ->.
    { rewrite (upd_proc_ext q kill_proc (if is_state (p_state x) SLEEPING
        then set_p_state (fun _ => RUNNABLE) ∘ set_p_killed (fun _ => 1) else set_p_killed (fun _ => 1))
        _ x) by (done || unfold kill_proc; simpl; by case_match).
      unfold kwhen, set_state. simpl. destruct (is_state _ _); simpl; [by rewrite upd_proc_upd|done]. }
    by rewrite (ptable_release (upd_proc q kill_proc)).
  - by rewrite (ptable_release id).
Qed.
End ctx.

(** ** The listing *)

(** Routines that only write on the console. *)
Definition prints (w0 : world) (m : KM unit) (cs : list Z) : Prop :=
  forall con e, con_ok con ->
    m (set_w_con (fun _ => con) w0) e = Ret tt (set_w_con (fun _ => put_cons cs con) w0) e.

Lemma prints_bind w0 m k cs cs' :
  prints w0 m cs -> prints w0 k cs' -> prints w0 (m >>; k) (cs ++ cs').
Proof.
  intros Hm Hk con e Hc. simpl. rewrite Hm by done. rewrite Hk by by apply put_cons_ok.
  by rewrite put_cons_app.
Qed.

Lemma prints_ret w0 : prints w0 (kret tt) [].
Proof. intros con e Hc. done. Qed.

Lemma prints_for {A} w0 (f : A -> KM unit) (g : A -> list Z) (l : list A) :
  (forall x, x ∈ l -> prints w0 (f x) (g x)) -> prints w0 (kfor l f) (mjoin (g <$> l)).
Proof.
  induction l as [|x l IH]; intros Hl; [apply prints_ret|].
  cbn [kfor]. apply prints_bind; [apply Hl; by left|]. apply IH. intros y Hy. apply Hl. by right.
Qed.

Section print.
Context (w0 : world) (i : nat) (c : cpu) (Hok : cpu_ok w0 i c) (Hs : settled i w0 = w0)
  (Hl : lock_free w0 ConsLock).

Lemma cprintf_prints fmt args cs :
  format_chars fmt args = Some cs -> prints w0 (cprintf (Some fmt) args) cs.
Proof using All.
  intros Hf con e Hc. rewrite (cprintf_eq fmt args cs _ i c); [|done|done|by intros _|done].
  f_equal. unfold con_settled. destruct (_ =? 0); [done|].
  change (set_w_con (put_cons cs) (settled i (set_w_con (fun _ => con) w0)))
    with (set_w_con (fun _ => put_cons cs con) (settled i w0)).
  by rewrite Hs.
Qed.

Lemma cprintfpad_prints s n : prints w0 (cprintfpad s n) (padded s n).
Proof using All.
  unfold cprintfpad, padded, printk. apply prints_bind.
  - apply cprintf_prints. simpl. by rewrite app_nil_r.
  - rewrite Nat2Z.id.
    assert (forall a k, mjoin ((fun _ : nat => [32]) <$> seq a k) = replicate k 32) as Hr.
    { intros a k. revert a. induction k as [|k IH]; intros a; [done|]. simpl. f_equal. apply IH. }
    rewrite <-(Hr (strlen s)). apply prints_for. intros x _. by apply cprintf_prints.
Qed.

Lemma printheader_prints : prints w0 printheader ps_header.
Proof using All.
  unfold printheader, ps_header.
  apply prints_bind; [apply cprintfpad_prints|]. rewrite (assoc_L (++)).
  apply prints_bind; [by apply cprintf_prints|].
  apply prints_bind; [apply cprintfpad_prints|]. rewrite (assoc_L (++)).
  apply prints_bind; by apply cprintf_prints.
Qed.

Lemma printcontent_prints p : prints w0 (printcontent p) (ps_row p).
Proof using All.
  unfold printcontent, ps_row.
  apply prints_bind; [apply cprintfpad_prints|]. rewrite (assoc_L (++)).
  apply prints_bind; [by apply cprintf_prints|].
  apply prints_bind; [apply cprintfpad_prints|]. rewrite (assoc_L (++)).
  apply prints_bind; by apply cprintf_prints.
Qed.
End print.

Lemma lookup_all {A B} (f : A -> list B) (l k : list A) :
  mjoin ((fun p => default [] (f <$> (k ++ l) !! p)) <$> seq (length k) (length l)) = mjoin (f <$> l).
Proof.
  revert k. induction l as [|x l IH]; intros k; [done|]. cbn [length seq fmap list_fmap].
  rewrite list_lookup_middle by done. simpl. f_equal.
  specialize (IH (k ++ [x])). rewrite length_app, Nat.add_1_r, <-(assoc_L (++)) in IH. exact IH.
Qed.

Section ps.
Context (w : world) (i : nat) (c : cpu) (p : nat) (pr : proc) (H : kctx w i c p pr).
Hypotheses (Hcon : con_ok (w_con w)) (Hn : length (w_procs w) = NPROC).

Lemma listing_section m cs e :
  prints (entered i PtableLock w) m cs ->
  (acquire PtableLock >>; m >>; release PtableLock) w e = Ret tt (set_w_con (put_cons cs) w) e.
Proof using H Hcon.
  intros Hm. cbn [kbind]. rewrite (ptable_acquire w i c p pr H).
  specialize (Hm (w_con w) e Hcon).
  assert (set_w_con (fun _ => w_con w) (entered i PtableLock w) = entered i PtableLock w) as E by done.
  rewrite E in Hm. rewrite Hm.
  by rewrite (ptable_release w i c p pr H (set_w_con (fun _ => put_cons cs (w_con w)))).
Qed.

Lemma ps_eq pid e : ps pid w e = Ret tt (set_w_con (put_cons (ps_text pid (w_procs w))) w) e.
Proof using All.
  set (w1 := entered i PtableLock w).
  assert (cpu_ok w1 i (cpu_push (w_if w) c)) as H1 by (apply entered_ok; apply H).
  assert (settled i w1 = w1) as H2 by (eapply entered_settled; apply H).
  assert (lock_free w1 ConsLock) as H3 by (apply entered_other; [done|by apply H]).
  assert (forall q x, w_procs w !! q = Some x ->
    prints w1 (pr <- get_proc q; printcontent pr) (ps_row x)) as Hrow.
  { intros q x Hq con e' Hc. cbn [kbind]. rewrite (get_proc_eq _ q x) by done.
    by apply (printcontent_prints w1 i _ H1 H2 H3). }
  unfold ps. apply listing_section. unfold ps_text.
  destruct (pid =? 0); [|destruct (pid >? 0); [|apply prints_ret]].
  - assert (ps_header ++ mjoin (ps_row <$> w_procs w) = mjoin ((fun q =>
      (if Nat.eqb q 0 then ps_header else []) ++ default [] (ps_row <$> w_procs w !! q)) <$> seq 0 NPROC)) as ->.
    { pose proof (lookup_all ps_row (w_procs w) []) as Hall. rewrite <-Hall, Hn. cbn [length app].
      change (seq 0 NPROC) with (0%nat :: seq 1 63). cbn [fmap list_fmap mjoin list_join length Nat.eqb].
      rewrite <-(assoc_L (++)). by do 2 f_equal. }
    apply prints_for. intros q Hq%elem_of_seq. apply prints_bind.
    + destruct q; [apply (printheader_prints w1 i _ H1 H2 H3)|apply prints_ret].
    + destruct (lookup_lt_is_Some_2 (w_procs w) q) as [x Hx]; [lia|]. rewrite Hx. by apply Hrow.
  - intros con e' Hc. cbn [kbind kget]. change (w_procs (set_w_con _ w1)) with (w_procs w).
    destruct (find_idx _ _) as [q|] eqn:E; [|done]. apply find_idx_Some in E as (x & Hx & _).
    change (w_procs w !! q = Some x) in Hx. rewrite Hx. apply prints_bind; [apply (printheader_prints w1 i _ H1 H2 H3)|by apply Hrow|done].
Qed.
End ps.

(** ** The end of a process *)

Lemma wake_proc_parent ch x : p_parent (wake_proc ch x) = p_parent x.
Proof. unfold wake_proc. by case_match. Qed.
Lemma wake_proc_zombie ch x : is_state (p_state (wake_proc ch x)) ZOMBIE = is_state (p_state x) ZOMBIE.
Proof.
  unfold wake_proc. destruct (is_state (p_state x) SLEEPING && _) eqn:E; [|done].
  apply andb_prop in E as [E _]. apply bool_decide_eq_true in E. simpl. by rewrite E.
Qed.
Lemma wake_proc_wake ch x : wake_proc ch (wake_proc ch x) = wake_proc ch x.
Proof.
  unfold wake_proc at 2 3. destruct (is_state (p_state x) SLEEPING && _) eqn:E; unfold wake_proc; [done|].
  by rewrite E.
Qed.
Lemma wake_proc_adopt cur init ch x : wake_proc ch (adopt cur init x) = adopt cur init (wake_proc ch x).
Proof.
  unfold adopt, orphan. rewrite wake_proc_parent. destruct (bool_decide _); [|done].
  unfold wake_proc. simpl. by case_match.
Qed.

Section reparent.
Context (cur : nat) (init : option nat) (ps0 : list proc).
Let wake (n : nat) : proc -> proc :=
  if existsb (zombie_orphan cur) (take n ps0) then wake_proc (ChProc <$> init) else id.

Lemma reparented_split n x :
  ps0 !! n = Some x ->
  reparented cur init n ps0 =
    (wake n ∘ adopt cur init <$> take n ps0) ++ wake n x :: (wake n <$> drop (S n) ps0).
Proof.
  intros Hx. unfold reparented. fold (wake n). by rewrite (drop_S ps0 x n).
Qed.

Lemma reparented_next n x :
  ps0 !! n = Some x ->
  reparented cur init (S n) ps0 =
    (wake (S n) ∘ adopt cur init <$> take n ps0) ++
    wake (S n) (adopt cur init x) :: (wake (S n) <$> drop (S n) ps0).
Proof.
  intros Hx. unfold reparented. fold (wake (S n)). rewrite (take_S_r _ _ x) by done.
  rewrite fmap_app, <-(assoc_L (++)). done.
Qed.

Lemma wake_next n x :
  ps0 !! n = Some x ->
  wake (S n) = if zombie_orphan cur x then wake_proc (ChProc <$> init) else wake n.
Proof.
  intros Hx. unfold wake. rewrite (take_S_r _ _ x), existsb_app by done. simpl. rewrite orb_false_r.
  destruct (existsb _ _), (zombie_orphan cur x); done.
Qed.

Lemma wake_cases n : wake n = id \/ wake n = wake_proc (ChProc <$> init).
Proof. unfold wake. destruct (existsb _ _); auto. Qed.

(** One turn of the loop. *)
Lemma reparent_turn n w e x :
  ps0 !! n = Some x -> w_initproc w = init -> w_procs w = reparented cur init n ps0 ->
  (pr <- get_proc n;
   if bool_decide (p_parent pr = Some cur) then
     i <- kget w_initproc;
     kmod (upd_proc n (set_p_parent (fun _ => i))) >>;
     kwhen (is_state (p_state pr) ZOMBIE) (wakeup1 (ChProc <$> i))
   else kret tt) w e
  = Ret tt (set_w_procs (fun _ => reparented cur init (S n) ps0) w) e.
Proof.
  intros Hx Hi Hps. pose proof (lookup_lt_Some _ _ _ Hx) as Hlt.
  assert (length (wake n ∘ adopt cur init <$> take n ps0) = n) as Hl.
  { rewrite length_fmap, length_take. lia. }
  assert (w_procs w !! n = Some (wake n x)) as Hn.
  { rewrite Hps, (reparented_split n x) by done. by apply list_lookup_middle. }
  assert (p_parent (wake n x) = p_parent x) as Hpar.
  { destruct (wake_cases n) as [-> | ->]; [done|apply wake_proc_parent]. }
  assert (is_state (p_state (wake n x)) ZOMBIE = is_state (p_state x) ZOMBIE) as Hz.
  { destruct (wake_cases n) as [-> | ->]; [done|apply wake_proc_zombie]. }
  assert (forall l, w_procs w = l -> w = set_w_procs (fun _ => l) w) as Hw by (intros l <-; by destruct w).
  cbn [kbind]. rewrite (get_proc_eq _ n (wake n x)) by done. rewrite Hpar, Hz.
  rewrite (reparented_next n x), (wake_next n x) by done. unfold zombie_orphan.
  change (bool_decide (p_parent x = Some cur)) with (orphan cur x).
  destruct (orphan cur x) eqn:Ho; cbn [andb].
  - cbn [kget kbind kmod]. rewrite Hi.
    assert (w_procs (upd_proc n (set_p_parent (fun _ => init)) w)
      = (wake n ∘ adopt cur init <$> take n ps0) ++ wake n (adopt cur init x) ::
        (wake n <$> drop (S n) ps0)) as Hal.
    { simpl. rewrite Hps, (reparented_split n x), alter_app_r_alt, Hl, Nat.sub_diag by (done || lia).
      simpl. do 2 f_equal. unfold adopt. rewrite Ho. destruct (wake_cases n) as [-> | ->]; [done|].
      unfold wake_proc. simpl. by case_match. }
    unfold kwhen. destruct (is_state (p_state x) ZOMBIE).
    + unfold wakeup1, kmod. f_equal. unfold set_w_procs at 1. rewrite Hal.
      rewrite fmap_app, fmap_cons, <-!list_fmap_compose.
      unfold set_w_procs. simpl. f_equal. destruct (wake_cases n) as [-> | ->].
      * done.
      * f_equal; [|f_equal].
        -- apply list_fmap_ext. intros k y _. simpl. apply wake_proc_wake.
        -- apply wake_proc_wake.
        -- apply list_fmap_ext. intros k y _. simpl. apply wake_proc_wake.
    + simpl. f_equal. unfold set_w_procs, upd_proc, set_w_procs. simpl in Hal |- *. by rewrite Hal.
  - assert (adopt cur init x = x) as -> by (unfold adopt; by rewrite Ho).
    cbn [kret]. f_equal. apply Hw. by rewrite Hps, (reparented_split n x).
Qed.

Lemma reparent_loop n a w e :
  (a + n = length ps0)%nat -> w_initproc w = init -> w_procs w = reparented cur init a ps0 ->
  kfor (seq a n) (fun p =>
    pr <- get_proc p;
    if bool_decide (p_parent pr = Some cur) then
      i <- kget w_initproc;
      kmod (upd_proc p (set_p_parent (fun _ => i))) >>;
      kwhen (is_state (p_state pr) ZOMBIE) (wakeup1 (ChProc <$> i))
    else kret tt) w e
  = Ret tt (set_w_procs (fun _ => reparented cur init (length ps0) ps0) w) e.
Proof.
  revert a w. induction n as [|n IH]; intros a w Ha Hi Hps.
  - cbn [seq kfor kret]. f_equal. rewrite Nat.add_0_r in Ha. subst a. rewrite <-Hps. by destruct w.
  - destruct (lookup_lt_is_Some_2 ps0 a) as [x Hx]; [lia|].
    cbn [seq kfor]. unfold kbind at 1. rewrite (reparent_turn a w e x) by done.
    rewrite IH; [done|lia|done|done].
Qed.
End reparent.

Lemma reparented_lookup cur init ps q x :
  ps !! q = Some x ->
  reparented cur init (length ps) ps !! q =
    Some ((if existsb (zombie_orphan cur) ps then wake_proc (ChProc <$> init) else id) (adopt cur init x)).
Proof.
  intros Hx. unfold reparented. rewrite firstn_all, drop_all. simpl. rewrite app_nil_r.
  by rewrite list_lookup_fmap, Hx.
Qed.

Section exit.
Context (w : world) (i : nat) (c : cpu) (p : nat) (pr : proc) (H : kctx w i c p pr).
Hypotheses (Hncli : c_ncli c = 0) (Hn : length (w_procs w) = NPROC).

(** The process table as exit leaves it to the scheduler. *)
Definition exit_table : list proc :=
  let ps := wake_proc (ChProc <$> p_parent pr) <$> w_procs w in
  alter (set_p_state (fun _ => ZOMBIE)) p (reparented p (w_initproc w) (length ps) ps).

Lemma exit_sched_eq :
  exit_sched p w [] = Off (set_w_procs (fun _ => exit_table) (entered i PtableLock w)).
Proof using All.
  pose proof H as [H1 H2 H3 H4 H5]. unfold exit_sched. unfold kbind at 1.
  rewrite (ptable_acquire w i c p pr H). unfold kbind at 1. rewrite (get_proc_eq _ p pr) by done.
  unfold kbind at 1. unfold wakeup1, kmod at 1. unfold reparent. unfold kbind at 1.
  set (w1 := set_w_procs (fmap _) (entered i PtableLock w)).
  set (ps1 := w_procs w1).
  assert (length ps1 = NPROC) as Hl by (unfold ps1; simpl; by rewrite length_fmap).
  rewrite (reparent_loop p (w_initproc w) ps1 NPROC 0 w1) by
    (done || (unfold reparented; simpl; by rewrite drop_0, list_fmap_id)).
  unfold kbind at 1. unfold set_state, kmod at 1. unfold kbind at 1.
  set (w2 := upd_proc p _ _).
  assert (w2 = set_w_procs (fun _ => exit_table) (entered i PtableLock w)) as -> by done.
  erewrite (sched_off _ i (cpu_push (w_if w) c) p); [done| |..].
  - split_and!; [by apply entered_on; apply H1|done|rewrite cpu_push_ncli; lia|by apply entered_held|done].
  - simpl. unfold exit_table. rewrite list_lookup_alter_eq.
    erewrite reparented_lookup by (rewrite list_lookup_fmap, H4; reflexivity). reflexivity.
  - done.
Qed.
End exit.

(** ** Waiting *)

Section wait.
Context `{KI : KernelImage}.
Context (w : world) (i : nat) (c : cpu) (p : nat) (pr : proc) (H : kctx w i c p pr).
Hypothesis (Hnz : find_idx (fun x => is_child p x && is_state (p_state x) ZOMBIE) (w_procs w) = None).

Lemma wait_start e :
  wait w e = kwait (
    ps <- kget w_procs;
    match find_idx (fun x => is_child p x && is_state (p_state x) ZOMBIE) ps with
    | Some q => pid <- reap q; kret (Some pid)
    | None =>
      let havekids := existsb (is_child p) ps in
      stop <- (if negb havekids then kret true
               else pr <- get_proc p; kret (negb (p_killed pr =? 0)));
      if (stop : bool) then release PtableLock >>; kret (Some (-1))
      else sleep (Some (ChProc p)) (Some PtableLock) >>; kret None
    end) (entered i PtableLock w) e.
Proof using H.
  unfold wait. unfold kbind at 1. rewrite (curproc_eq w i c p pr H). unfold kbind at 1.
  by rewrite (ptable_acquire w i c p pr H).
Qed.

(** Without a child that has exited: an error when there is no child at all, or when the
    caller has been killed. *)
Lemma wait_fails e :
  existsb (is_child p) (w_procs w) = false \/ p_killed pr <> 0 -> wait w e = Ret (-1) w e.
Proof using All.
  intros Hstop. pose proof H as [H1 H2 H3 H4 H5]. rewrite wait_start.
  rewrite (kwait_some _ _ _ (-1) w e); [done|]. cbn [kbind kget].
  change (w_procs (entered i PtableLock w)) with (w_procs w). rewrite Hnz.
  assert (release PtableLock (entered i PtableLock w) e = Ret tt w e) as Hr
    by apply (ptable_release w i c p pr H id).
  destruct (existsb (is_child p) (w_procs w)) eqn:Ek; cbn [negb kbind kret].
  - destruct Hstop as [?|Hk]; [done|]. rewrite (get_proc_eq _ p pr) by done.
    cbn [kret]. rewrite (proj2 (Z.eqb_neq _ _) Hk). cbn [negb kbind]. by rewrite Hr.
  - by rewrite Hr.
Qed.

(** The entry of a process that sleeps in wait. *)
Definition waiting (x : proc) : proc :=
  set_p_state (fun _ => SLEEPING) (set_p_chan (fun _ => Some (ChProc p)) x).

Lemma wait_sleeps :
  c_ncli c = 0 -> existsb (is_child p) (w_procs w) = true -> p_killed pr = 0 ->
  wait w [] = Off (upd_proc p waiting (entered i PtableLock w)).
Proof using All.
  intros Hncli Hk Hkill. pose proof H as [H1 H2 H3 H4 H5]. rewrite wait_start.
  apply kwait_off. cbn [kbind kget].
  change (w_procs (entered i PtableLock w)) with (w_procs w). rewrite Hnz, Hk. cbn [negb kbind].
  rewrite (get_proc_eq _ p pr) by done. rewrite Hkill. cbn [kret negb Z.eqb kbind].
  set (w1 := entered i PtableLock w).
  assert (holds_only w1 i (cpu_push (w_if w) c) PtableLock p) as Ho.
  { split_and!; [by apply entered_on; apply H1|done|rewrite cpu_push_ncli; lia|by apply entered_held|done]. }
  unfold sleep. unfold kbind at 1. rewrite (myproc_eq w1 i (cpu_push (w_if w) c)) by by eapply holds_only_ok.
  rewrite (holds_only_settled _ _ _ _ _ Ho). change (c_proc (cpu_push (w_if w) c)) with (c_proc c).
  rewrite H3. rewrite bool_decide_eq_true_2 by done. cbn [negb kwhen kbind kret kmod].
  assert (upd_proc p (set_p_state (fun _ => SLEEPING)) (upd_proc p (set_p_chan (fun _ => Some (ChProc p))) w1)
    = upd_proc p waiting w1) as -> by by rewrite upd_proc_upd.
  erewrite (sched_off _ i (cpu_push (w_if w) c) p); [done|exact Ho| |].
  - simpl. rewrite list_lookup_alter_eq, H4. reflexivity.
  - done.
Qed.
End wait.

(** ** New processes *)

Section alloc.
Context `{KI : KernelImage}.
Context (w : world) (i : nat) (c : cpu) (H : kcpu w i c).

(** The entry of a new process with pid [n] and kernel stack [k], made from the entry [x] that
    was UNUSED. *)
Definition newborn (n k : Z) (x : proc) : proc :=
  set_p_context (fun _ => k + KSTACKSIZE - TF_SIZE - 4 - CTX_SIZE)
    (set_p_tf (fun _ => k + KSTACKSIZE - TF_SIZE)
      (set_p_kstack (fun _ => k)
        (set_p_pid (fun _ => n) (set_p_state (fun _ => EMBRYO) x)))).

(** Its kernel stack: where it returns to after its first switch, and the context that the
    switch loads. *)
Definition kstack_mem (k : Z) (m : memory) : memory :=
  let ctx := k + KSTACKSIZE - TF_SIZE - 4 - CTX_SIZE in
  stm (ctx + ctx_eip) k_forkret
    (memset ctx 0 CTX_SIZE (stm (k + KSTACKSIZE - TF_SIZE - 4) k_trapret m)).

(** The state allocproc leaves when it takes entry [q]. *)
Definition born (q : nat) : world :=
  set_w_mem (kstack_mem (w_freelist w)) (set_w_freelist (fun k => ld w k) (set_w_nextpid (fun n => n + 1)
    (upd_proc q (newborn (w_nextpid w) (w_freelist w)) w))).

Lemma allocproc_born q e :
  find_idx (fun p => is_state (p_state p) UNUSED) (w_procs w) = Some q ->
  w_nextpid w <> INT_MAX -> w_freelist w <> 0 -> allocproc w e = Ret (Some q) (born q) e.
Proof using H.
  intros Hq Hn Hk. pose proof H as [H1 H2 H5].
  unfold allocproc. unfold kbind at 1. rewrite (kcpu_acquire w i c H PtableLock) by done.
  cbn [kbind kget]. change (w_procs (entered i PtableLock w)) with (w_procs w). rewrite Hq.
  unfold set_state. cbn [kbind kmod kget].
  change (w_nextpid (upd_proc q _ (entered i PtableLock w))) with (w_nextpid w).
  rewrite (proj2 (Z.eqb_neq _ _) Hn). cbn [kbind kmod]. set (n := w_nextpid w).
  pose (F := fun v => set_w_nextpid (fun n => n + 1)
    (upd_proc q (set_p_pid (fun _ => n)) (upd_proc q (set_p_state (fun _ => EMBRYO)) v))).
  rewrite (kcpu_release w i c H PtableLock F) by done.
  assert (kmem_ok (F w) i c) as Hkm.
  { intros _. split; [by apply (framed_cpu_ok F)|]. apply (framed_lock_free F). by apply H5. }
  assert (kmem_settled i (F w) = F w) as Hks.
  { unfold kmem_settled. destruct (_ =? 0); [done|]. rewrite (framed_settled w i F). by rewrite H2. }
  rewrite (kalloc_eq (F w) i c e Hkm), Hks. change (w_freelist (F w)) with (w_freelist w).
  set (k := w_freelist w) in *. rewrite (proj2 (Z.eqb_neq _ _) Hk).
  unfold setup_kstack. cbn [kbind kmod kret]. f_equal.
  unfold alloced. change (w_freelist (F w)) with k. rewrite (proj2 (Z.eqb_neq _ _) Hk).
  assert (forall f a z v, upd_proc q f (st a z v) = st a z (upd_proc q f v)) as Hst by done.
  assert (forall f g v, upd_proc q f (set_w_freelist g v) = set_w_freelist g (upd_proc q f v)) as Hfl by done.
  assert (forall f g v, upd_proc q f (set_w_nextpid g v) = set_w_nextpid g (upd_proc q f v)) as Hnp by done.
  unfold F. rewrite !Hst, !Hfl, !Hnp, !upd_proc_upd. reflexivity.
Qed.

Lemma allocproc_eq q e :
  find_idx (fun p => is_state (p_state p) UNUSED) (w_procs w) = Some q ->
  w_nextpid w <> INT_MAX -> w_freelist w <> 0 ->
  exists w', allocproc w e = Ret (Some q) w' e /\
    w_procs w' = alter (newborn (w_nextpid w) (w_freelist w)) q (w_procs w) /\
    w_nextpid w' = w_nextpid w + 1 /\ w_freelist w' = ld w (w_freelist w) /\
    w_mem w' = kstack_mem (w_freelist w) (w_mem w).
Proof using H. intros Hq Hn Hk. exists (born q). split; [by apply allocproc_born|done]. Qed.

End alloc.

(** Changing an entry of the table keeps the context. *)
Lemma kctx_upd_proc w i c p pr q f :
  kctx w i c p pr -> exists pr', kctx (upd_proc q f w) i c p pr'.
Proof.
  intros H. exists (if decide (q = p) then f pr else pr).
  apply (kctx_frame w i c p pr H (upd_proc q f)). destruct H as [_ _ _ Hp _]. simpl.
  case_decide; [subst; by rewrite list_lookup_alter_eq, Hp|by rewrite list_lookup_alter_ne].
Qed.

(** ** Properties *)

Lemma nice_slot_None pid ps :
  nice_slot pid ps = None <-> pid = 0 \/ forall q x, ps !! q = Some x -> p_pid x <> pid.
Proof.
  unfold nice_slot. rewrite find_idx_None. split.
  - intros Hx. destruct (decide (pid = 0)) as [->|Hp]; [by left|]. right. intros q x Hq E.
    specialize (Hx x (list_elem_of_lookup_2 _ _ _ Hq)). rewrite E, Z.eqb_refl in Hx.
    by rewrite (proj2 (Z.eqb_neq pid 0) Hp) in Hx.
  - intros [-> | Hp] x Hx; [by rewrite andb_false_r|]. apply list_elem_of_lookup in Hx as [q Hq].
    apply Hp in Hq. by rewrite (proj2 (Z.eqb_neq _ _) (not_eq_sym Hq)).
Qed.

Lemma nice_slot_alter pid q n ps :
  nice_slot pid (alter (set_p_schedstate (set_nice (fun _ => n))) q ps) = nice_slot pid ps.
Proof. apply find_idx_alter. done. Qed.

(** C20. The niceness of a process is what setnice last set: setnice succeeds exactly when the value
    is between 0 and 39 and a process with that nonzero pid exists, changes nothing when it
    fails, and when it succeeds getnice of that pid answers the value and getnice of any other
    pid answers what it did before. *)
Theorem setnice_getnice w i c p pr pid n e :
  kctx w i c p pr ->
  exists r w', setnice pid n w e = Ret r w' e /\ (r = 0 \/ r = -1) /\
    (r = 0 <-> 0 <= n <= 39 /\ pid <> 0 /\ exists q x, w_procs w !! q = Some x /\ p_pid x = pid) /\
    (r = -1 -> w' = w) /\
    (r = 0 -> getnice pid w' e = Ret n w' e /\
       forall pid', pid' <> pid -> exists v,
         getnice pid' w e = Ret v w e /\ getnice pid' w' e = Ret v w' e).
Proof.
  intros H. rewrite (setnice_eq w i c p pr H).
  destruct ((0 <=? n) && (n <=? 39)) eqn:En; [|exists (-1), w; split_and!; auto; [split; [done|zcases]|done]].
  destruct (nice_slot pid (w_procs w)) as [q|] eqn:E.
  2: { exists (-1), w. split_and!; auto; [|done]. split; [done|]. intros (_ & Hp & q & x & Hq & Hx).
       apply nice_slot_None in E as [?|E]; [done|]. by apply E in Hq. }
  set (f := set_p_schedstate (set_nice (fun _ => n))). exists 0, (upd_proc q f w).
  pose proof E as (x & Hx & Hpx & _)%find_idx_Some. apply andb_prop in Hpx as [Hpx%Z.eqb_eq Hp0].
  split_and!; [done|by left| |done|].
  { split; [|done]. intros _. split; [zcases|]. split; [|by eauto]. intros ->. done. }
  intros _.
  destruct (kctx_upd_proc w i c p pr q f H) as [pr' Hk].
  split.
  - rewrite (getnice_eq _ i c p pr' Hk). unfold nice_of, f. simpl. rewrite nice_slot_alter, E. simpl.
    by rewrite list_lookup_alter_eq, Hx.
  - intros pid' Hne. eexists. split; [apply (getnice_eq w i c p pr H)|].
    rewrite (getnice_eq _ i c p pr' Hk). f_equal. unfold nice_of, f. simpl. rewrite nice_slot_alter.
    destruct (nice_slot pid' (w_procs w)) as [q'|] eqn:E'; [|done]. simpl.
    apply find_idx_Some in E' as (x' & Hx' & Hpx' & _). apply andb_prop in Hpx' as [Hpx'%Z.eqb_eq _].
    rewrite list_lookup_alter_ne; [done|]. intros ->. congruence.
Qed.

Lemma setnice_getnice_witness :
  exists w', setnice 1 7 ctx_world [] = Ret 0 w' [] /\ getnice 1 w' [] = Ret 7 w' [].
Proof.
  destruct (setnice_getnice ctx_world 0 ctx_cpu 1 ctx_proc 1 7 [] ctx_kctx)
    as (r & w' & E & Hr & Hiff & _ & Hget).
  assert (r = 0) as ->.
  { apply Hiff. split; [lia|]. split; [lia|]. exists 1%nat, ctx_proc. split; reflexivity. }
  exists w'. split; [exact E|]. by apply Hget.
Defined.

(** kill marks exactly one process: it succeeds exactly when some entry of the table has that
    pid; the first such entry is marked killed and is not left sleeping, and every other entry
    is as before. *)
Theorem kill_marks w i c p pr pid e :
  kctx w i c p pr ->
  exists r w', kill pid w e = Ret r w' e /\
    (r = 0 \/ r = -1 /\ w' = w) /\
    (r = 0 <-> exists q x, w_procs w !! q = Some x /\ p_pid x = pid) /\
    (r = 0 -> exists q x x', w_procs w !! q = Some x /\ p_pid x = pid /\ w_procs w' !! q = Some x' /\
       p_killed x' = 1 /\ p_state x' = (if decide (p_state x = SLEEPING) then RUNNABLE else p_state x) /\
       forall q', q' <> q -> w_procs w' !! q' = w_procs w !! q').
Proof.
  intros H. rewrite (kill_eq w i c p pr H).
  destruct (find_idx _ (w_procs w)) as [q|] eqn:E.
  - exists 0, (upd_proc q kill_proc w). apply find_idx_Some in E as (x & Hx & Hp%Z.eqb_eq & _).
    split_and!; [done|by left|split; [intros _; by exists q, x|done]|]. intros _. exists q, x, (kill_proc x).
    split_and!; [done|done|simpl; by rewrite list_lookup_alter_eq, Hx|unfold kill_proc; by case_match| |].
    + unfold kill_proc, is_state. simpl. case_bool_decide; case_decide; simpl; congruence.
    + intros q' Hq. simpl. by rewrite list_lookup_alter_ne.
  - exists (-1), w. split_and!; [done|by right| |done]. split; [done|].
    intros (q & x & Hq & Hx). rewrite find_idx_None in E.
    specialize (E x (list_elem_of_lookup_2 _ _ _ Hq)). by rewrite Hx, Z.eqb_refl in E.
Qed.

Lemma kill_marks_witness :
  exists w', kill 1 ctx_world [] = Ret 0 w' [] /\
    exists q x', w_procs w' !! q = Some x' /\ p_killed x' = 1.
Proof.
  destruct (kill_marks ctx_world 0 ctx_cpu 1 ctx_proc 1 [] ctx_kctx) as (r & w' & E & _ & Hiff & Hm).
  assert (r = 0) as -> by (apply Hiff; exists 1%nat, ctx_proc; split; reflexivity).
  exists w'. split; [exact E|]. destruct (Hm eq_refl) as (q & x & x' & _ & _ & Hq & Hk & _).
  exists q, x'. split; [exact Hq|exact Hk].
Defined.

(** C21. kill(0) does not fail although no process has pid 0: it finds the first entry that was never
    used or has been reaped, and the next process created in that entry is born killed. *)
Theorem kill_zero_marks_unborn `{KI : KernelImage} w i c p pr q x e :
  kctx w i c p pr -> w_procs w !! q = Some x -> p_state x = UNUSED ->
  find_idx (fun p => p_pid p =? 0) (w_procs w) = Some q ->
  find_idx (fun p => is_state (p_state p) UNUSED) (w_procs w) = Some q ->
  w_nextpid w <> INT_MAX -> w_freelist w <> 0 ->
  exists w1 w2 x', kill 0 w e = Ret 0 w1 e /\ allocproc w1 e = Ret (Some q) w2 e /\
    w_procs w2 !! q = Some x' /\ p_pid x' = w_nextpid w /\ p_killed x' = 1.
Proof.
  intros H Hx Hs Hkq Haq Hn Hf. rewrite (kill_eq w i c p pr H), Hkq.
  destruct (kctx_upd_proc w i c p pr q kill_proc H) as [pr' Hk].
  destruct (allocproc_eq _ i c (kctx_kcpu _ _ _ _ _ Hk) q e) as (w2 & E & Hps & _); [|done|done|].
  { simpl. rewrite find_idx_alter; [done|]. intros y Hy.
    assert (y = x) as -> by congruence. unfold kill_proc. simpl.
    rewrite Hs. simpl. by rewrite Hs. }
  exists (upd_proc q kill_proc w), w2, (newborn (w_nextpid w) (w_freelist w) (kill_proc x)).
  split_and!; [done|done| |done|].
  - rewrite Hps. simpl. by rewrite !list_lookup_alter_eq, Hx.
  - unfold kill_proc. simpl. by rewrite Hs.
Qed.

Lemma kill_zero_marks_unborn_witness :
  exists w1 w2 x', kill 0 (set_w_freelist (fun _ => 0x80200000) ctx_world) [] = Ret 0 w1 [] /\
    @allocproc demo_image w1 [] = Ret (Some 0%nat) w2 [] /\
    w_procs w2 !! 0%nat = Some x' /\ p_pid x' = 1 /\ p_killed x' = 1.
Proof.
  apply (@kill_zero_marks_unborn demo_image (set_w_freelist (fun _ => 0x80200000) ctx_world) 0 ctx_cpu
    1 ctx_proc 0 zero_proc []); [|reflexivity|reflexivity|reflexivity|reflexivity|discriminate|discriminate].
  apply (kctx_frame ctx_world 0 ctx_cpu 1 ctx_proc ctx_kctx (set_w_freelist (fun _ => 0x80200000))). reflexivity.
Defined.

Lemma padded_bytes s n : bytes s -> bytes (padded s n).
Proof.
  intros Hs. apply Forall_app. split; [by apply Forall_take|]. by apply Forall_replicate.
Qed.

Lemma decimal_bytes z : bytes (decimal z).
Proof. apply print_chars_bytes; [lia|]. unfold s32. pose proof (Z.mod_pos_bound (z + 2 ^ 31) (2 ^ 32)). lia. Qed.

Lemma ps_header_bytes : bytes ps_header.
Proof. apply (bool_decide_unpack _). by vm_compute. Qed.

Lemma ps_row_bytes x : bytes (p_name x) -> bytes (ps_row x).
Proof.
  intros Hx. unfold ps_row, bytes. rewrite !Forall_app. split_and!; try apply decimal_bytes.
  - by apply padded_bytes.
  - by repeat constructor.
  - apply padded_bytes, (bool_decide_unpack _). destruct (p_state x); by vm_compute.
  - by repeat constructor.
  - by repeat constructor.
Qed.

Lemma ps_text_bytes pid ps : Forall (fun x => bytes (p_name x)) ps -> bytes (ps_text pid ps).
Proof.
  intros Hps. unfold ps_text. destruct (pid =? 0); [|destruct (pid >? 0); [|constructor]].
  - apply Forall_app. split; [apply ps_header_bytes|]. apply Forall_join, Forall_fmap.
    revert Hps. apply Forall_impl. apply ps_row_bytes.
  - destruct (find_idx _ ps) as [q|] eqn:E; [|constructor]. apply find_idx_Some in E as (x & Hx & _).
    apply Forall_app. split; [apply ps_header_bytes|]. rewrite Hx. apply ps_row_bytes.
    exact (Forall_lookup_1 _ _ _ _ Hps Hx).
Qed.

(** C22. ps writes the listing on the serial line and does nothing else: for pid 0 the header and one
    row for each of the NPROC entries, used or not; for the pid of an entry the header and the
    row of the first such entry; otherwise nothing. *)
Theorem ps_prints w i c p pr pid e :
  kctx w i c p pr -> con_ok (w_con w) -> cn_uart (w_con w) <> 0 -> length (w_procs w) = NPROC ->
  Forall (fun x => bytes (p_name x)) (w_procs w) ->
  exists con, ps pid w e = Ret tt (set_w_con (fun _ => con) w) e /\
    cn_serial con = cn_serial (w_con w) ++ ps_text pid (w_procs w).
Proof.
  intros H Hc Hu Hn Hb. exists (put_cons (ps_text pid (w_procs w)) (w_con w)).
  split; [by apply (ps_eq w i c p pr H)|]. apply put_cons_serial; [done|by apply ps_text_bytes].
Qed.

Lemma ps_prints_witness :
  let w := set_w_con (set_cn_uart (fun _ => 1)) ctx_world in
  exists con, ps 1 w [] = Ret tt (set_w_con (fun _ => con) w) [] /\
    cn_serial con = [] ++ ps_header ++ replicate 15 32 ++ [49; 9; 9] ++ str "RUNNING" ++ replicate 8 32
      ++ [48; 9; 9; 10].
Proof.
  destruct (ps_prints (set_w_con (set_cn_uart (fun _ => 1)) ctx_world) 0 ctx_cpu 1 ctx_proc 1 [])
    as (con & E & Hcon).
  - apply (kctx_frame ctx_world 0 ctx_cpu 1 ctx_proc ctx_kctx (set_w_con (set_cn_uart (fun _ => 1)))).
    reflexivity.
  - split; [reflexivity|]. split; [simpl; lia|reflexivity].
  - discriminate.
  - reflexivity.
  - apply (bool_decide_unpack _). vm_compute. reflexivity.
  - exists con. split; [exact E|]. rewrite Hcon. vm_compute. reflexivity.
Defined.

(** The state of an entry after the wakeups of exit. *)
Lemma wake_proc_fields ch x :
  p_pid (wake_proc ch x) = p_pid x /\ p_killed (wake_proc ch x) = p_killed x /\
  p_chan (wake_proc ch x) = p_chan x /\
  (p_state (wake_proc ch x) = p_state x \/ p_state x = SLEEPING /\ p_state (wake_proc ch x) = RUNNABLE) /\
  (p_state x = SLEEPING -> p_chan x = ch -> p_state (wake_proc ch x) = RUNNABLE).
Proof.
  unfold wake_proc, is_state. destruct (bool_decide_reflect (p_state x = SLEEPING)) as [Hs|Hs]; simpl;
    [|naive_solver]. destruct (bool_decide_reflect (p_chan x = ch)); simpl; naive_solver.
Qed.

Lemma adopt_fields cur init x :
  p_pid (adopt cur init x) = p_pid x /\ p_killed (adopt cur init x) = p_killed x /\
  p_chan (adopt cur init x) = p_chan x /\ p_state (adopt cur init x) = p_state x /\
  p_parent (adopt cur init x) = (if decide (p_parent x = Some cur) then init else p_parent x).
Proof. unfold adopt, orphan. case_bool_decide; case_decide; done. Qed.


(** Process 1's parent, process 2, sleeps in wait. *)
Definition exit_demo : world :=
  upd_proc 2 (fun x => set_p_pid (fun _ => 2) (set_p_chan (fun _ => Some (ChProc 2))
                         (set_p_state (fun _ => SLEEPING) x)))
    (upd_proc 1 (set_p_parent (fun _ => Some 2%nat)) ctx_world).

Lemma exit_demo_kctx :
  kctx exit_demo 0 ctx_cpu 1 (set_p_parent (fun _ => Some 2%nat) ctx_proc).
Proof.
  apply (kctx_frame ctx_world 0 ctx_cpu 1 ctx_proc ctx_kctx (fun w =>
    upd_proc 2 (fun x => set_p_pid (fun _ => 2) (set_p_chan (fun _ => Some (ChProc 2))
      (set_p_state (fun _ => SLEEPING) x))) (upd_proc 1 (set_p_parent (fun _ => Some 2%nat)) w))).
  reflexivity.
Qed.


(** wait when no child has exited: it fails at once, changing nothing, if there is no child at
    all or the caller has been killed; otherwise the caller is asleep on its own entry, which is
    the channel exit wakes, and the CPU is with the scheduler. *)
Theorem wait_without_zombie `{KI : KernelImage} w i c p pr :
  kctx w i c p pr -> c_ncli c = 0 ->
  (forall q x, w_procs w !! q = Some x -> p_parent x = Some p -> p_state x <> ZOMBIE) ->
  ((forall q x, w_procs w !! q = Some x -> p_parent x <> Some p) \/ p_killed pr <> 0 ->
   forall e, wait w e = Ret (-1) w e) /\
  (p_killed pr = 0 -> (exists q x, w_procs w !! q = Some x /\ p_parent x = Some p) ->
   exists w', wait w [] = Off w' /\ holds_only w' i (cpu_push (w_if w) c) PtableLock p /\
     w_procs w' = alter (fun x => set_p_state (fun _ => SLEEPING) (set_p_chan (fun _ => Some (ChProc p)) x))
                    p (w_procs w)).
Proof.
  intros H Hncli Hnz.
  assert (find_idx (fun x => is_child p x && is_state (p_state x) ZOMBIE) (w_procs w) = None) as Hf.
  { apply find_idx_None. intros x [q Hq]%list_elem_of_lookup. unfold is_child, is_state.
    destruct (bool_decide_reflect (p_parent x = Some p)) as [Hp|]; [|done].
    rewrite bool_decide_eq_false_2; [done|]. by eapply Hnz. }
  split.
  - intros Hstop e. apply (wait_fails w i c p pr H Hf). destruct Hstop as [Hc|]; [left|by right].
    apply not_true_iff_false. intros (x & Hx & Hp)%existsb_exists. apply list_elem_of_In in Hx.
    apply list_elem_of_lookup in Hx as [q Hq]. apply (Hc q x Hq). by apply bool_decide_eq_true in Hp.
  - intros Hk (q & x & Hq & Hp). eexists. split; [apply (wait_sleeps w i c p pr H Hf Hncli); [|done]|].
    { apply existsb_exists. exists x. split; [by eapply list_elem_of_In, list_elem_of_lookup_2|].
      by apply bool_decide_eq_true. }
    pose proof H as [H1 H2 H3 H4 H5]. split; [|done].
    split_and!; [by apply entered_on; apply H1|done|rewrite cpu_push_ncli; lia|by apply entered_held|done].
Qed.

(** Process 1 has the running child 2. *)
Definition wait_demo : world :=
  upd_proc 2 (fun x => set_p_parent (fun _ => Some 1%nat) (set_p_state (fun _ => RUNNABLE) x)) ctx_world.

Lemma wait_without_zombie_witness :
  (@wait demo_image exit_demo [] = Ret (-1) exit_demo []) /\
  exists w', @wait demo_image wait_demo [] = Off w' /\ p_state <$> w_procs w' !! 1%nat = Some SLEEPING.
Proof.
  split.
  - apply (@wait_without_zombie demo_image exit_demo 0 ctx_cpu 1 _ exit_demo_kctx); [reflexivity| |left].
    + intros q x Hq Hp. assert (Forall (fun x => p_parent x <> Some 1%nat) (w_procs exit_demo)) as HF.
      { apply (bool_decide_unpack _). vm_compute. reflexivity. }
      destruct (Forall_lookup_1 _ _ _ _ HF Hq Hp).
    + intros q x Hq. assert (Forall (fun x => p_parent x <> Some 1%nat) (w_procs exit_demo)) as HF.
      { apply (bool_decide_unpack _). vm_compute. reflexivity. }
      exact (Forall_lookup_1 _ _ _ _ HF Hq).
  - destruct (@wait_without_zombie demo_image wait_demo 0 ctx_cpu 1 ctx_proc) as [_ Hsleep].
    + apply (kctx_frame ctx_world 0 ctx_cpu 1 ctx_proc ctx_kctx (upd_proc 2 (fun x =>
        set_p_parent (fun _ => Some 1%nat) (set_p_state (fun _ => RUNNABLE) x)))). reflexivity.
    + reflexivity.
    + intros q x Hq _. assert (Forall (fun x => p_state x <> ZOMBIE) (w_procs wait_demo)) as HF.
      { apply (bool_decide_unpack _). vm_compute. reflexivity. }
      exact (Forall_lookup_1 _ _ _ _ HF Hq).
    + destruct Hsleep as (w' & E & _ & Hps); [reflexivity| |].
      { exists 2%nat. eexists. split; reflexivity. }
      exists w'. split; [exact E|]. rewrite Hps. reflexivity.
Defined.

Lemma kstack_words `{KI : KernelImage} k m :
  k mod PGSIZE = 0 ->
  ldm (kstack_mem k m) (k + KSTACKSIZE - TF_SIZE - 4) = u32 k_trapret /\
  ldm (kstack_mem k m) (k + KSTACKSIZE - TF_SIZE - 4 - CTX_SIZE + ctx_eip) = u32 k_forkret /\
  (forall a, a < k \/ k + KSTACKSIZE <= a -> ldm (kstack_mem k m) a = ldm m a).
Proof.
  intros Hk. unfold kstack_mem, KSTACKSIZE, TF_SIZE, CTX_SIZE, ctx_eip.
  assert (memset (k + 4096 - 76 - 4 - 20) 0 20 (stm (k + 4096 - 76 - 4) k_trapret m)
    = stosl (k + 3996) 0 5 (stm (k + 4016) k_trapret m)) as ->.
  { replace (k + 4096 - 76 - 4 - 20) with (k + 3996) by lia. replace (k + 4096 - 76 - 4) with (k + 4016) by lia.
    unfold memset.
    assert ((k + 3996) mod 4 = 0) as Hm.
    { unfold PGSIZE in Hk. apply Z.mod_divide in Hk as [z ->]; [|lia].
      replace (z * 4096 + 3996) with ((z * 1024 + 999) * 4) by lia. apply Z.mod_mul. lia. }
    rewrite Hm. reflexivity. }
  replace (k + 4096 - 76 - 4 - 20 + 16) with (k + 4012) by lia.
  replace (k + 4096 - 76 - 4) with (k + 4016) by lia.
  assert (forall a, a <> k + 4012 -> a < k + 3996 \/ k + 4016 <= a ->
    ldm (stm (k + 4012) k_forkret (stosl (k + 3996) 0 5 (stm (k + 4016) k_trapret m))) a =
    ldm (stm (k + 4016) k_trapret m) a) as Hout.
  { intros a Ha Hr. rewrite ldm_stm_ne by lia. unfold ldm. rewrite stosl_outside; [done|lia]. }
  split_and!.
  - rewrite Hout by lia. apply ldm_stm_eq.
  - apply ldm_stm_eq.
  - intros a Ha. rewrite Hout, ldm_stm_ne by lia. done.
Qed.

(** C19. A new process: allocproc takes the first UNUSED entry and the first free page, gives the
    entry the next pid, and sets up the page as its kernel stack so that the first switch to it
    enters forkret and returns to trapret; other entries and the rest of memory are untouched.
    The entry keeps the niceness, and the killed flag, of whatever used it before. *)
Theorem allocproc_new `{KI : KernelImage} w i c p pr q x l e :
  kctx w i c p pr -> is_freelist w (w_freelist w :: l) -> w_nextpid w <> INT_MAX ->
  find_idx (fun p => is_state (p_state p) UNUSED) (w_procs w) = Some q -> w_procs w !! q = Some x ->
  exists w' x', allocproc w e = Ret (Some q) w' e /\ w_procs w' = <[q := x']> (w_procs w) /\
    p_state x' = EMBRYO /\ p_pid x' = w_nextpid w /\ w_nextpid w' = w_nextpid w + 1 /\
    p_kstack x' = w_freelist w /\ p_context x' = p_tf x' - 4 - CTX_SIZE /\
    p_tf x' = p_kstack x' + KSTACKSIZE - TF_SIZE /\
    ld w' (p_context x' + ctx_eip) = u32 k_forkret /\ ld w' (p_tf x' - 4) = u32 k_trapret /\
    (forall a, a < p_kstack x' \/ p_kstack x' + KSTACKSIZE <= a -> ld w' a = ld w a) /\
    p_schedstate x' = p_schedstate x /\ p_killed x' = p_killed x.
Proof.
  intros H [Hc Hnd] Hn Hq Hx. destruct Hc as (_ & Hpage & _).
  assert (w_freelist w <> 0) as Hk.
  { destruct Hpage as (_ & _ & Hr). unfold KERNBASE in Hr. lia. }
  destruct (allocproc_eq w i c (kctx_kcpu _ _ _ _ _ H) q e Hq Hn Hk) as (w' & E & Hps & Hnext & Hfl & Hmem).
  exists w', (newborn (w_nextpid w) (w_freelist w) x).
  destruct (kstack_words (w_freelist w) (w_mem w)) as (K1 & K2 & K3); [apply Hpage|].
  split; [exact E|]. split.
  { rewrite Hps. apply list_eq. intros j. destruct (decide (q = j)) as [<-|].
    - rewrite list_lookup_alter_eq, list_lookup_insert_eq by by eapply lookup_lt_Some. by rewrite Hx.
    - by rewrite list_lookup_alter_ne, list_lookup_insert_ne. }
  unfold ld. rewrite Hmem. split_and!; try done.
Qed.

(** Entry 0 is UNUSED but was left with a niceness of 5; one page is free. *)
Definition alloc_demo : world :=
  upd_proc 0 (set_p_schedstate (set_nice (fun _ => 5)))
    (set_w_mem (insert demo_page 0) (set_w_freelist (fun _ => demo_page) ctx_world)).

Lemma allocproc_new_witness :
  exists w' x', @allocproc demo_image alloc_demo [] = Ret (Some 0%nat) w' [] /\
    w_procs w' !! 0%nat = Some x' /\ p_state x' = EMBRYO /\ nice (p_schedstate x') = 5.
Proof.
  destruct (@allocproc_new demo_image alloc_demo 0 ctx_cpu 1 ctx_proc 0
    (set_p_schedstate (set_nice (fun _ => 5)) zero_proc) [] []) as (w' & x' & E & Hps & Hst & _ & _ & _ & _ & _ & _ & _ & _ & Hn & _).
  - apply (kctx_frame ctx_world 0 ctx_cpu 1 ctx_proc ctx_kctx (fun w => upd_proc 0 (set_p_schedstate (set_nice (fun _ => 5)))
      (set_w_mem (insert demo_page 0) (set_w_freelist (fun _ => demo_page) w)))). reflexivity.
  - split; [|apply NoDup_singleton]. split; [reflexivity|]. split; [by vm_compute|]. reflexivity.
  - discriminate.
  - reflexivity.
  - reflexivity.
  - exists w', x'. split; [exact E|]. split; [rewrite Hps; reflexivity|]. split; [exact Hst|]. rewrite Hn. reflexivity.
Defined.
