(* ===== verification/Procmem.v ===== *)
(** * The memory of a process (proc.c growproc and fork with vm.c)

    The address space of a process is in order when every page below its size is mapped and none
    above.  growproc keeps that, and fork gives the child one that holds the same bytes. *)

From Stdlib Require Import ZArith Lia.
From stdpp Require Import base list gmap strings numbers.
From S2P Require Import Prelude Machine Cstring Spinlock Boot Kalloc Cprintf Sched Vm Vmspec Aspace Vmcopy Userspace Sleeplock.
From S2P Require Import Layout Bio Log Fs Pipe File Proc Procspec.
From stdpp Require Import list.
Local Open Scope Z_scope.
Local Open Scope kern_scope.

(** ** The user memory of a process *)

Record umem `{KernelImage} (w : world) (pgdir sz : Z) (pts : gmap Z Z) (um : gmap Z (Z * Z)) (us l : list Z) : Prop := mkUmem {
  um_space : aspace w pgdir pts um us l;
  um_size : 0 <= sz < KERNBASE;
  um_dom : forall n, is_Some (um !! n) <-> 0 <= n < npages sz
}.

(** The pages mapped before and after hold the same words. *)
Definition kept (um um' : gmap Z (Z * Z)) (w w' : world) : Prop :=
  forall n x, um !! n = Some x -> um' !! n = Some x -> forall b, x.1 <= b < x.1 + PGSIZE -> ldm (w_mem w') b = ldm (w_mem w) b.

Lemma kept_frame `{KernelImage} w w' pgdir pts um um' us l : aspace w pgdir pts um us l ->
  (exists ps, mem_frame ps (w_mem w) (w_mem w') /\ Forall (fun q => q mod PGSIZE = 0) ps /\ forall n x, um !! n = Some x -> um' !! n = Some x -> x.1 ∉ ps) ->
  kept um um' w w'.
Proof.
  intros Has (ps & Hf & Hps & Hno) n [p f] Hx Hx' b Hb. destruct (aspace_page _ _ _ _ _ _ _ _ _ Has Hx) as (Hp & _).
  apply (mem_frame_page ps _ _ p b Hf Hps (page_ok_mod p Hp)); [by apply (Hno n (p, f))|done].
Qed.

Section grow.
Context `{KernelImage} (w : world) (i : nat) (c : cpu) (p : nat) (pr : proc) (H0 : kctx w i c p pr).

Lemma kctx_kmem : kmem_ok w i c.
Proof using H0. intros _. split; [apply H0|]. by apply (kctx_free _ _ _ _ _ H0). Qed.

(** Steps on memory and the console keep the context of the process. *)
Lemma kctx_mem_con w' : mem_con i w w' -> kctx w' i c p pr /\ w_procs w' = w_procs w.
Proof using H0.
  intros [g (m & f & Hw)].
  assert (w' = set_w_mem (fun _ => m) (set_w_freelist (fun _ => f) (set_w_con g w))) as ->.
  { destruct Hw as [->| ->]; [done|]. do 2 f_equal. rewrite (framed_settled w i (set_w_con g)). by rewrite (kctx_settled _ _ _ _ _ H0). }
  split; [|done]. apply (kctx_frame w i c p pr H0 (fun w => set_w_mem (fun _ => m) (set_w_freelist (fun _ => f) (set_w_con g w)))). apply H0.
Qed.

(** The end of growproc. *)
Lemma set_size sz e : p_kstack pr <> 0 -> p_pgdir pr <> 0 ->
  exists w', (kmod (upd_proc p (set_p_sz (fun _ => sz))) >>; switchuvm (Some p) >>; kret 0) w e = Ret 0 w' e /\
    w_procs w' !! p = Some (set_p_sz (fun _ => sz) pr) /\ w_mem w' = w_mem w /\ w_freelist w' = w_freelist w.
Proof using H0.
  intros Hk Hd. set (w1 := upd_proc p (set_p_sz (fun _ => sz)) w). destruct H0 as [K1 K2 K3 K4 K5].
  assert (w_procs w1 !! p = Some (set_p_sz (fun _ => sz) pr)) as Hp by (unfold w1; cbn; by rewrite list_lookup_alter_eq, K4).
  assert (cpu_ok w1 i c) as Hok by exact (framed_cpu_ok (upd_proc p (set_p_sz (fun _ => sz))) w i c K1).
  exists (loaded i (set_p_sz (fun _ => sz) pr) (settled i w1)). cbn [kbind kmod]. fold w1.
  rewrite (switchuvm_eq w1 i c p _ e Hok Hp) by done. split; [done|]. done.
Qed.

Lemma umem_ext w1 w2 pgdir sz pts um us l : w_mem w2 = w_mem w1 -> w_freelist w2 = w_freelist w1 -> umem w1 pgdir sz pts um us l -> umem w2 pgdir sz pts um us l.
Proof. intros Hm Hf [U1 U2 U3]. split; [|done|done]. by apply (aspace_ext w1). Qed.

(** What growproc leaves: the result [r], the new size, the same pages where both sizes have them. *)
Definition grow_result (um : gmap Z (Z * Z)) (us l : list Z) (n r : Z) (w' : world) : Prop :=
  exists pr' pts' um' l', w_procs w' !! p = Some pr' /\ p_pgdir pr' = p_pgdir pr /\ umem w' (p_pgdir pr) (p_sz pr') pts' um' us l' /\ kept um um' w w' /\
    (forall k, 0 <= k < npages (Z.min (p_sz pr) (p_sz pr')) -> um' !! k = um !! k) /\
    ((r = 0 /\ p_sz pr' = if p_sz pr + n <? 0 then p_sz pr else p_sz pr + n) \/
     (r = -1 /\ p_sz pr' = p_sz pr /\ (KERNBASE <= p_sz pr + n \/ Z.of_nat (length l) <= npages (p_sz pr + n) - npages (p_sz pr) + 1024))).

Lemma umem_alloc pts um us l newsz w' pts' l' new : umem w (p_pgdir pr) (p_sz pr) pts um us l -> p_sz pr <= newsz < KERNBASE ->
  grown i w (p_pgdir pr) pts um us l (npages (p_sz pr)) (npages newsz) w' pts' l' new ->
  umem w' (p_pgdir pr) newsz pts' (new ∪ um) us l' /\ kept um (new ∪ um) w w' /\ forall k, 0 <= k < npages (p_sz pr) -> (new ∪ um) !! k = um !! k.
Proof.
  intros [U1 U2 U3] Hsz [G1 G2 G3 G4 G5 G6 G7]. pose proof (npages_bounds (p_sz pr)). pose proof (npages_bounds newsz). split; [split; [done|lia|]|split].
  - intros k. rewrite <-not_eq_None_Some. rewrite lookup_union_None. split.
    + intros Hk. destruct (new !! k) as [x|] eqn:Hx; [destruct (G2 k x Hx) as [? _]; lia|]. destruct (um !! k) as [x|] eqn:Hu; [|tauto].
      assert (0 <= k < npages (p_sz pr)) by (apply U3; by rewrite Hu). lia.
    + intros Hk [Hn Hu]. destruct (Z_lt_ge_dec k (npages (p_sz pr))) as [Hlt|Hge].
      * assert (is_Some (um !! k)) as [x Hx] by (apply U3; lia). congruence.
      * destruct (G3 k ltac:(lia)) as [x Hx]. congruence.
  - apply (kept_frame w w' (p_pgdir pr) pts um (new ∪ um) us l U1). exists (table_pages (p_pgdir pr) pts l). split; [exact G5|].
    split; [exact (table_pages_ok _ _ _ _ _ (as_inv _ _ _ _ _ _ U1))|]. intros k [q f] Hx _. destruct (used_not_table _ _ _ _ _ q (as_inv _ _ _ _ _ _ U1)); [|done].
    apply elem_of_app. left. apply pages_elem. eauto.
  - intros k Hk. destruct (new !! k) as [x|] eqn:Hx; [destruct (G2 k x Hx) as [? _]; lia|]. by apply lookup_union_r.
Qed.

Lemma umem_same pts um us l w' pts' l' : umem w (p_pgdir pr) (p_sz pr) pts um us l -> aspace w' (p_pgdir pr) pts' um us l' ->
  mem_frame (p_pgdir pr :: vals pts ++ l) (w_mem w) (w_mem w') -> umem w' (p_pgdir pr) (p_sz pr) pts' um us l' /\ kept um um w w'.
Proof.
  intros [U1 U2 U3] Has Hf. split; [by split|]. apply (kept_frame w w' (p_pgdir pr) pts um um us l U1). exists (table_pages (p_pgdir pr) pts l). split; [exact Hf|].
  split; [exact (table_pages_ok _ _ _ _ _ (as_inv _ _ _ _ _ _ U1))|]. intros k [q f] Hx _. destruct (used_not_table _ _ _ _ _ q (as_inv _ _ _ _ _ _ U1)); [|done].
  apply elem_of_app. left. apply pages_elem. eauto.
Qed.

Lemma umem_dealloc pts um us l newsz w' l' : umem w (p_pgdir pr) (p_sz pr) pts um us l -> 0 <= newsz < p_sz pr ->
  dealloced i w (p_pgdir pr) pts um us l (npages newsz) (p_sz pr) w' l' ->
  let um' := cut (npages newsz) (p_sz pr) um in
  umem w' (p_pgdir pr) newsz pts um' us l' /\ kept um um' w w' /\ forall k, 0 <= k < npages newsz -> um' !! k = um !! k.
Proof.
  intros [U1 U2 U3] Hsz [D1 D2 D3 D4 D5] um'. pose proof (npages_bounds (p_sz pr)). pose proof (npages_bounds newsz).
  assert (forall k, 0 <= k < npages newsz -> um' !! k = um !! k) as Hlow.
  { intros k Hk. unfold um'. rewrite cut_lookup. by rewrite decide_False by lia. }
  split; [split; [done|lia|]|split; [|done]].
  - intros k. unfold um'. rewrite cut_lookup. destruct (decide (npages newsz <= k /\ 4096 * k < p_sz pr)) as [Hk|Hk].
    + split; [by intros [? ?]|lia].
    + rewrite U3. lia.
  - apply (kept_frame w w' (p_pgdir pr) pts um um' us l U1). exists (vals pts ++ pages (dropped (npages newsz) (p_sz pr) um)). split; [exact D4|].
    pose proof (as_inv _ _ _ _ _ _ U1) as Hinv. split.
    + apply Forall_app. split.
      * pose proof (table_pages_ok _ _ _ _ _ Hinv) as Ht. unfold table_pages in Ht. rewrite Forall_cons, Forall_app in Ht. tauto.
      * apply Forall_forall. intros q Hq. apply pages_elem in Hq as (k & f & Hk). rewrite dropped_lookup in Hk. destruct (decide _); [|done].
        destruct (aspace_page _ _ _ _ _ _ _ _ _ U1 Hk) as (Hq & _). by apply page_ok_mod.
    + intros k [q f] Hx Hx' Hin. apply elem_of_app in Hin as [Hin|Hin].
      * destruct (used_not_table _ _ _ _ _ q Hinv) as [_ Hn]; [apply elem_of_app; left; apply pages_elem; eauto|]. apply Hn. right. apply elem_of_app. by left.
      * apply pages_elem in Hin as (k' & f' & Hk'). rewrite dropped_lookup in Hk'. destruct (decide _) as [Hr|]; [|done].
        assert (k = k') as <-.
        { destruct (decide (k = k')) as [|Hne]; [done|]. exfalso. destruct Hinv as (_ & _ & Hnd & _). apply NoDup_cons in Hnd as [_ Hnd]. apply NoDup_app in Hnd as (_ & _ & Hnd).
          rewrite <-app_assoc in Hnd. apply NoDup_app in Hnd as (Hnd & _). rewrite (pages_delete um k q f Hx) in Hnd. apply NoDup_cons in Hnd as [Hnd _]. apply Hnd.
          apply pages_elem. exists k', f'. by rewrite lookup_delete_ne. }
        unfold um' in Hx'. rewrite cut_lookup, decide_True in Hx' by done. done.
Qed.

(** growproc after the sizes have been worked out, [r] being the new size. *)
Lemma grow_start n e : growproc n w e =
  (r <- (if n >? 0 then sz' <- allocuvm (p_pgdir pr) (p_sz pr) (u32 (p_sz pr + n)); kret (if sz' =? 0 then None else Some sz')
         else if n <? 0 then sz' <- deallocuvm (p_pgdir pr) (p_sz pr) (u32 (p_sz pr + n)); kret (if sz' =? 0 then None else Some sz')
         else kret (Some (p_sz pr)));
   match r with
   | None => kret (-1)
   | Some sz => kmod (upd_proc p (set_p_sz (fun _ => sz))) >>; switchuvm (Some p) >>; kret 0
   end) w e.
Proof using H0.
  unfold growproc. unfold kbind at 1. rewrite (curproc_eq w i c p pr H0). unfold kbind at 1. rewrite (get_proc_eq w p pr) by apply H0. done.
Qed.
End grow.

Section growproc.
Context `{KernelImage} (w : world) (i : nat) (c : cpu) (p : nat) (pr : proc) (pts : gmap Z Z) (um : gmap Z (Z * Z)) (us l : list Z) (e : sched_env world).
Hypotheses (H0 : kctx w i c p pr) (Hum : umem w (p_pgdir pr) (p_sz pr) pts um us l) (Hend : KERNBASE < k_end) (Hkst : p_kstack pr <> 0).

Lemma pgdir_nz : p_pgdir pr <> 0.
Proof using Hum.
  destruct Hum as [[(_ & _ & _ & Hpg) _ _] _ _]. apply Forall_cons in Hpg as [(_ & _ & Hr) _]. unfold KERNBASE in Hr. lia.
Qed.

(** The size is set at the end, the memory being as [umem] says. *)
Lemma grow_end n w1 sz pts' um' l' : mem_con i w w1 -> umem w1 (p_pgdir pr) sz pts' um' us l' -> kept um um' w w1 ->
  (forall k, 0 <= k < npages (Z.min (p_sz pr) sz) -> um' !! k = um !! k) -> sz = (if p_sz pr + n <? 0 then p_sz pr else p_sz pr + n) ->
  exists w', (kmod (upd_proc p (set_p_sz (fun _ => sz))) >>; switchuvm (Some p) >>; kret 0) w1 e = Ret 0 w' e /\ grow_result w p pr um us l n 0 w'.
Proof using H0 Hkst Hum.
  intros Hmc Hu Hk Hlow Hsz. destruct (kctx_mem_con w i c p pr H0 w1 Hmc) as [H1 _].
  destruct (set_size w1 i c p pr H1 sz e Hkst pgdir_nz) as (w' & E & Hp & Hm & Hf). exists w'. split; [exact E|].
  exists (set_p_sz (fun _ => sz) pr), pts', um', l'. split; [done|]. split; [done|]. split; [by apply (umem_ext w1)|]. split; [|split; [done|by left]].
  intros k x Hx Hx' b Hb. rewrite Hm. by apply (Hk k x).
Qed.

Lemma growproc_up n : printable i w -> 0 < n < 2 ^ 31 -> exists r w', growproc n w e = Ret r w' e /\ grow_result w p pr um us l n r w'.
Proof using All.
  intros Hpr Hn. pose proof (um_size _ _ _ _ _ _ _ Hum) as Hsz. unfold KERNBASE in Hsz. rewrite (grow_start w i c p pr H0). rewrite Z.gtb_ltb, (proj2 (Z.ltb_lt _ _)) by lia.
  rewrite u32_small by lia. destruct (Z_lt_ge_dec (p_sz pr + n) KERNBASE) as [Hlt|Hge].
  - destruct (allocuvm_spec i w (p_pgdir pr) pts um us l (p_sz pr) (p_sz pr + n) c e Hend (um_space _ _ _ _ _ _ _ Hum) (kctx_kmem w i c p pr H0) Hpr) as (r & w1 & E1 & pts' & l' & Hc & Hf & _ & Hr); [lia|lia| |].
    { intros k Hk. destruct (um !! k) as [x|] eqn:Hx; [|done]. assert (0 <= k < npages (p_sz pr)) by (apply (um_dom _ _ _ _ _ _ _ Hum); by rewrite Hx). lia. }
    cbn [kbind]. rewrite E1. destruct Hr as [(new & -> & Hg)|(-> & Has & Hpg & Hlen)].
    + rewrite (proj2 (Z.eqb_neq _ _)) by lia. cbn [kret].
      destruct (umem_alloc w i pr pts um us l (p_sz pr + n) w1 pts' l' new Hum ltac:(lia) Hg) as (Hu & Hk & Hlow).
      destruct (grow_end n w1 (p_sz pr + n) pts' (new ∪ um) l' Hc Hu Hk) as (w' & E2 & Hres); [intros k Hkr; apply Hlow; by rewrite Z.min_l in Hkr by lia|by rewrite (proj2 (Z.ltb_ge _ _)) by lia|].
      exists 0, w'. split; [exact E2|done].
    + cbn [Z.eqb kret]. exists (-1), w1. split; [done|]. destruct (kctx_mem_con w i c p pr H0 w1 Hc) as [H1 _].
      destruct (umem_same w pr pts um us l w1 pts' l' Hum Has Hf) as [Hu Hk]. exists pr, pts', um, l'. split; [apply H1|]. split; [done|]. split; [done|]. split; [done|]. split; [done|].
      right. split; [done|]. split; [done|]. by right.
  - unfold allocuvm. rewrite Z.geb_leb, (proj2 (Z.leb_le _ _)) by lia. cbn [kbind kret Z.eqb]. exists (-1), w. split; [done|]. exists pr, pts, um, l.
    split; [apply H0|]. split; [done|]. split; [done|]. split; [by intros k x|]. split; [done|]. right. split; [done|]. split; [done|]. left. lia.
Qed.

Lemma growproc_down n : 0 < p_sz pr -> - 2 ^ 31 <= n < 0 -> p_sz pr + n <> 0 -> exists w', growproc n w e = Ret 0 w' e /\ grow_result w p pr um us l n 0 w'.
Proof using All.
  intros Hps Hn Hnz. pose proof (um_size _ _ _ _ _ _ _ Hum) as Hsz. pose proof Hsz as Hsz'. unfold KERNBASE in Hsz. rewrite (grow_start w i c p pr H0).
  rewrite Z.gtb_ltb, (proj2 (Z.ltb_ge _ _)), (proj2 (Z.ltb_lt _ _)) by lia. destruct (Z_lt_ge_dec (p_sz pr + n) 0) as [Hneg|Hpos].
  - assert (u32 (p_sz pr + n) = p_sz pr + n + 2 ^ 32) as -> by (unfold u32; symmetry; apply (Z.mod_unique _ _ (-1)); lia).
    unfold deallocuvm. rewrite Z.geb_leb, (proj2 (Z.leb_le _ _)) by lia. cbn [kbind kret]. rewrite (proj2 (Z.eqb_neq (p_sz pr) 0)) by lia.
    destruct (grow_end n w (p_sz pr) pts um l) as (w' & E2 & Hres); [apply mem_only_con, mem_only_refl|done|by intros k x|done|by rewrite (proj2 (Z.ltb_lt _ _)) by lia|].
    exists w'. split; [exact E2|done].
  - rewrite u32_small by lia.
    destruct (deallocuvm_spec i (p_pgdir pr) pts us e w um l c (p_sz pr) (p_sz pr + n) Hend (um_space _ _ _ _ _ _ _ Hum) (kctx_kmem w i c p pr H0)) as (w1 & l' & E1 & Hd); [lia|lia|].
    destruct (umem_dealloc w i pr pts um us l (p_sz pr + n) w1 l' Hum ltac:(lia) Hd) as (Hu & Hk & Hlow).
    cbn [kbind]. rewrite E1, (proj2 (Z.eqb_neq _ _)) by lia. cbn [kret].
    destruct (grow_end n w1 (p_sz pr + n) pts _ l' (mem_only_con i _ _ (dl_only _ _ _ _ _ _ _ _ _ _ _ Hd)) Hu Hk) as (w' & E2 & Hres); [intros k Hkr; apply Hlow; by rewrite Z.min_r in Hkr by lia|by rewrite (proj2 (Z.ltb_ge _ _)) by lia|].
    exists w'. split; [exact E2|done].
Qed.

Lemma growproc_spec n : printable i w -> 0 < p_sz pr -> - 2 ^ 31 <= n < 2 ^ 31 -> p_sz pr + n <> 0 ->
  exists r w', growproc n w e = Ret r w' e /\ grow_result w p pr um us l n r w'.
Proof using All.
  intros Hpr Hps Hn Hnz. destruct (Z.lt_total n 0) as [Hlt|[->|Hgt]].
  - destruct (growproc_down n Hps ltac:(lia) Hnz) as (w' & E & Hres). by exists 0, w'.
  - rewrite (grow_start w i c p pr H0). cbn [Z.gtb Z.ltb Z.compare kbind kret].
    destruct (grow_end 0 w (p_sz pr) pts um l) as (w' & E2 & Hres); [apply mem_only_con, mem_only_refl|done|by intros k x|done|rewrite (proj2 (Z.ltb_ge _ _)) by lia; lia|].
    exists 0, w'. split; [exact E2|done].
  - apply growproc_up; [done|lia].
Qed.

Lemma growproc_all : 0 < p_sz pr -> exists w' l', growproc (- p_sz pr) w e = Ret (-1) w' e /\
  w_procs w' = w_procs w /\ aspace w' (p_pgdir pr) pts ∅ us l'.
Proof using All.
  intros Hps. pose proof (um_size _ _ _ _ _ _ _ Hum) as Hsz. rewrite (grow_start w i c p pr H0).
  rewrite Z.gtb_ltb, (proj2 (Z.ltb_ge _ _)), (proj2 (Z.ltb_lt _ _)) by lia. replace (u32 (p_sz pr + - p_sz pr)) with 0 by (rewrite Z.add_opp_diag_r; done).
  destruct (deallocuvm_spec i (p_pgdir pr) pts us e w um l c (p_sz pr) 0 Hend (um_space _ _ _ _ _ _ _ Hum) (kctx_kmem w i c p pr H0)) as (w1 & l' & E1 & [D1 D2 _ _ _]); [lia|lia|].
  cbn [kbind]. rewrite E1. cbn [Z.eqb kret]. exists w1, l'. split; [done|]. split; [apply (kctx_mem_con w i c p pr H0), mem_only_con, D2|].
  assert (cut (npages 0) (p_sz pr) um = ∅) as <-; [|done]. apply map_eq. intros k. rewrite cut_lookup, lookup_empty. change (npages 0) with 0. pose proof (npages_bounds (p_sz pr)).
  destruct (decide (0 <= k /\ 4096 * k < p_sz pr)) as [|Hk]; [done|]. destruct (um !! k) as [x|] eqn:Hx; [|done].
  assert (0 <= k < npages (p_sz pr)) by (apply (um_dom _ _ _ _ _ _ _ Hum); by rewrite Hx). lia.
Qed.


(** C31. When [n] is exactly the size of the process taken away, growproc has unmapped and freed every
    page and yet returns -1 and leaves the size: it takes the new size 0 that deallocuvm returns
    for a failure. *)
Theorem growproc_to_zero : 0 < p_sz pr ->
  exists w' l', growproc (- p_sz pr) w e = Ret (-1) w' e /\ w_procs w' = w_procs w /\ aspace w' (p_pgdir pr) pts ∅ us l' /\
    forall n, 0 <= n < 2 ^ 19 -> pte (w_mem w') pts n = 0.
Proof using All.
  intros Hps. destruct (growproc_all Hps) as (w' & l' & E & Hp & Has). exists w', l'. split; [done|]. split; [done|]. split; [done|].
  intros n Hn. rewrite (as_ent _ _ _ _ _ _ Has n Hn). unfold uent. by rewrite lookup_empty.
Qed.
End growproc.

(** ** The statements on an example *)

Definition sp_proc : proc :=
  set_p_sz (fun _ => 4096) (set_p_pgdir (fun _ => sp_dir) (set_p_kstack (fun _ => sp_kstack) (set_p_tf (fun _ => sp_kstack + 4020) ctx_proc))).
Definition sp_ctx : world := sp_world (upd_proc 1 (fun _ => sp_proc) ctx_world).

Lemma kctx_replace w i c p pr x M f : kctx w i c p pr -> kctx (set_w_mem M (set_w_freelist f (upd_proc p (fun _ => x) w))) i c p x.
Proof.
  intros Hk. apply (kctx_frame w i c p pr Hk (fun w => set_w_mem M (set_w_freelist f (upd_proc p (fun _ => x) w)))).
  cbn. rewrite list_lookup_alter_eq, (kctx_proc _ _ _ _ _ Hk). done.
Qed.

Lemma sp_kctx : kctx sp_ctx 0 ctx_cpu 1 sp_proc.
Proof. exact (kctx_replace ctx_world 0 ctx_cpu 1 ctx_proc sp_proc _ _ ctx_kctx). Qed.

Lemma sp_umem : @umem demo_image sp_ctx sp_dir 4096 sp_pts sp_um [sp_kstack] (page_range sp_free sp_count).
Proof. split; [apply sp_aspace|unfold KERNBASE; lia|exact sp_dom]. Qed.


Lemma growproc_to_zero_witness :
  exists w', @growproc demo_image (-4096) sp_ctx [] = Ret (-1) w' [] /\ p_sz <$> w_procs w' !! 1%nat = Some 4096.
Proof.
  destruct (@growproc_to_zero demo_image sp_ctx 0 ctx_cpu 1 sp_proc sp_pts sp_um [sp_kstack] (page_range sp_free sp_count) [] sp_kctx sp_umem eq_refl)
    as (w' & l' & E & Hp & _).
  - discriminate.
  - reflexivity.
  - exists w'. split; [exact E|]. rewrite Hp. reflexivity.
Defined.
