(* ===== verification/Fork.v ===== *)
(** * fork (proc.c)

    The child of a fork is a process of its own with the same memory, the same open files and the
    same registers but for the one that holds the result. *)

From Stdlib Require Import ZArith Lia.
From stdpp Require Import base list gmap strings numbers.
From S2P Require Import Prelude Machine Cstring Spinlock Boot Kalloc Cprintf Sched Vm Vmspec Aspace Vmcopy Userspace Sleeplock.
From S2P Require Import Layout Bio Log Fs Pipe File Proc Procspec Procmem.
From stdpp Require Import list.
Local Open Scope Z_scope.
Local Open Scope kern_scope.

(** ** Open files *)

Section dup.
Context (w : world) (i : nat) (c : cpu) (p : nat) (pr : proc) (H : kctx w i c p pr).

Lemma lock_section lk F `{!Framed F} e : static_lock lk = true ->
  acquire lk w e = Ret tt (entered i lk w) e /\ release lk (F (entered i lk w)) e = Ret tt (F w) e.
Proof using H.
  intros Hl. destruct H as [H1 H2 H3 H4 H5]. split; [apply (acquire_eq w i c); auto|].
  rewrite (release_section w i c lk H1 F) by auto. by rewrite H2.
Qed.

Lemma filedup_eq f fl e : w_files w !! f = Some fl -> 1 <= f_ref fl ->
  filedup f w e = Ret f (upd_file f (set_f_ref (fun r => r + 1)) w) e.
Proof using H.
  intros Hf Hr. destruct (lock_section FtableLock (upd_file f (set_f_ref (fun r => r + 1))) e eq_refl) as [Ea Er].
  unfold filedup. cbn [kbind]. rewrite Ea. unfold get_file. cbn [kbind kget]. change (w_files (entered i FtableLock w)) with (w_files w). rewrite Hf. cbn [kderef kret kbind].
  rewrite (proj2 (Z.ltb_ge _ _)) by lia. cbn [kbind kmod]. by rewrite Er.
Qed.

Lemma idup_eq ip e : idup ip w e = Ret ip (upd_inode ip (set_i_ref (fun r => r + 1)) w) e.
Proof using H.
  destruct (lock_section IcacheLock (upd_inode ip (set_i_ref (fun r => r + 1))) e eq_refl) as [Ea Er].
  unfold idup. cbn [kbind]. rewrite Ea. cbn [kbind kmod]. by rewrite Er.
Qed.
End dup.

(** The files of the child after the entries [js] were copied, and the reference counts. *)
Definition dup_ofile (ofs : list (option nat)) (js : list nat) (l : list (option nat)) : list (option nat) :=
  foldl (fun l j => match ofs !! j with Some (Some f) => <[j := Some f]> l | _ => l end) l js.
Definition dup_refs (ofs : list (option nat)) (js : list nat) (fs : list file) : list file :=
  foldl (fun fs j => match ofs !! j with Some (Some f) => alter (set_f_ref (fun r => r + 1)) f fs | _ => fs end) fs js.

(** Every open file of the table [ofs] has a reference. *)
Definition open_ok (ofs : list (option nat)) (fs : list file) : Prop :=
  forall j f, ofs !! j = Some (Some f) -> exists fl, fs !! f = Some fl /\ 1 <= f_ref fl.

Lemma open_ok_alter ofs fs f : open_ok ofs fs -> open_ok ofs (alter (set_f_ref (fun r => r + 1)) f fs).
Proof.
  intros Ho j g Hj. destruct (Ho j g Hj) as (fl & Hg & Hr). destruct (decide (f = g)) as [->|Hne].
  - rewrite list_lookup_alter_eq, Hg. eexists. split; [done|]. cbn. lia.
  - rewrite list_lookup_alter_ne by done. eauto.
Qed.

Lemma dup_ofile_length ofs js l : length (dup_ofile ofs js l) = length l.
Proof.
  unfold dup_ofile. revert l. induction js as [|j js IH]; intros l; cbn [foldl]; [done|]. rewrite IH. destruct (ofs !! j) as [[f|]|]; [apply length_insert|done|done].
Qed.

Lemma dup_ofile_lookup ofs js l k : dup_ofile ofs js l !! k =
  match ofs !! k with Some (Some f) => if decide (k ∈ js /\ (k < length l)%nat) then Some (Some f) else l !! k | _ => l !! k end.
Proof.
  revert l. induction js as [|j js IH]; intros l.
  - change (dup_ofile ofs [] l) with l. destruct (ofs !! k) as [[f|]|]; [|done|done]. rewrite decide_False; [done|]. by intros [?%not_elem_of_nil _].
  - change (dup_ofile ofs (j :: js) l) with (dup_ofile ofs js (match ofs !! j with Some (Some f) => <[j := Some f]> l | _ => l end)). rewrite IH.
    assert (length (match ofs !! j with Some (Some f) => <[j := Some f]> l | _ => l end) = length l) as -> by (destruct (ofs !! j) as [[f|]|]; [apply length_insert|done|done]).
    destruct (decide (j = k)) as [->|Hne].
    + destruct (ofs !! k) as [[f|]|]; [|done|done]. destruct (decide (k < length l)%nat) as [Hk|Hk].
      * rewrite (decide_True (P := k ∈ k :: js /\ _)) by (split; [left|done]). destruct (decide _); [done|]. by apply list_lookup_insert_eq.
      * rewrite !decide_False by (intros [_ ?]; done). by rewrite list_insert_ge by lia.
    + assert (forall y, match ofs !! j with Some (Some f) => <[j := Some f]> l | _ => l end !! k = y <-> l !! k = y) as Hl.
      { intros y. destruct (ofs !! j) as [[f|]|]; [by rewrite list_lookup_insert_ne|done|done]. }
      destruct (ofs !! k) as [[f|]|]; [|by apply Hl|by apply Hl]. destruct (decide (k ∈ js /\ _)) as [[H1 H2]|H1].
      * rewrite decide_True; [done|]. split; [by right|done].
      * rewrite decide_False; [by apply Hl|]. intros [[?|?]%elem_of_cons ?]; [done|by apply H1].
Qed.

(** A child whose entry had no open files gets those of the parent. *)
(** Each file has one more reference for every descriptor that names it. *)
Lemma dup_refs_lookup ofs f js : forall fs, dup_refs ofs js fs !! f =
  set_f_ref (fun r => r + Z.of_nat (length (filter (fun j => ofs !! j = Some (Some f)) js))) <$> fs !! f.
Proof.
  induction js as [|j js IH]; intros fs.
  - change (dup_refs ofs [] fs) with fs. destruct (fs !! f) as [[]|]; [|done]. unfold set_f_ref. cbn. do 2 f_equal. lia.
  - unfold dup_refs in *. cbn [foldl]. rewrite IH, filter_cons. destruct (ofs !! j) as [[g|]|] eqn:Hj.
    + destruct (decide (g = f)) as [->|Hne].
      * rewrite decide_True, list_lookup_alter_eq by done. destruct (fs !! f) as [[]|]; [|done]. unfold set_f_ref. cbn. do 2 f_equal. lia.
      * rewrite decide_False by congruence. by rewrite list_lookup_alter_ne.
    + by rewrite decide_False.
    + by rewrite decide_False.
Qed.

Lemma dup_ofile_all ofs : length ofs = NOFILE -> dup_ofile ofs (seq 0 NOFILE) (replicate NOFILE None) = ofs.
Proof.
  intros Hl. apply list_eq. intros k. rewrite dup_ofile_lookup, length_replicate. destruct (ofs !! k) as [[f|]|] eqn:Hk.
  - pose proof (lookup_lt_Some _ _ _ Hk). rewrite decide_True; [done|]. split; [apply elem_of_seq; lia|lia].
  - pose proof (lookup_lt_Some _ _ _ Hk). apply lookup_replicate. split; [done|lia].
  - apply lookup_ge_None in Hk. apply lookup_ge_None. rewrite length_replicate. lia.
Qed.

Lemma dup_loop i c p pr q e js : p <> q -> forall w,
  kctx w i c p pr -> open_ok (p_ofile pr) (w_files w) ->
  kfor js (fun j => pr <- get_proc p; match p_ofile pr !! j with
    | Some (Some f) => f' <- filedup f; kmod (upd_proc q (set_p_ofile (insert j (Some f'))))
    | _ => kret tt end) w e =
  Ret tt (upd_proc q (set_p_ofile (dup_ofile (p_ofile pr) js)) (set_w_files (dup_refs (p_ofile pr) js) w)) e.
Proof.
  intros Hpq. induction js as [|j js IH]; intros w Hk Ho; cbn [kfor].
  - cbn [kret]. f_equal. symmetry. transitivity (set_w_files (dup_refs (p_ofile pr) []) w); [|by destruct w].
    unfold upd_proc, set_w_procs. rewrite list_alter_id by by intros []. by destruct w.
  - cbn [kbind]. rewrite (get_proc_eq w p pr) by apply Hk. unfold dup_ofile, dup_refs. cbn [foldl].
    destruct (p_ofile pr !! j) as [[f|]|] eqn:Hj; [|exact (IH w Hk Ho)|exact (IH w Hk Ho)].
    destruct (Ho j f Hj) as (fl & Hf & Hr). cbn [kbind]. rewrite (filedup_eq w i c p pr Hk f fl e Hf Hr). cbn [kmod].
    set (w1 := upd_proc q _ _). assert (kctx w1 i c p pr) as Hk1.
    { apply (kctx_frame w i c p pr Hk (fun w => upd_proc q (set_p_ofile (insert j (Some f))) (upd_file f (set_f_ref (fun r => r + 1)) w))).
      cbn. rewrite list_lookup_alter_ne by done. apply Hk. }
    rewrite (IH w1 Hk1 (open_ok_alter _ _ f Ho)). f_equal.
    transitivity (upd_proc q (set_p_ofile (dup_ofile (p_ofile pr) js)) (upd_proc q (set_p_ofile (insert j (Some f)))
      (set_w_files (dup_refs (p_ofile pr) js) (upd_file f (set_f_ref (fun r => r + 1)) w)))); [done|]. rewrite upd_proc_upd. done.
Qed.

(** ** The end of fork *)

(** fork after the memory has been copied. *)
Definition fork_rest (cur np : nat) (pr : proc) (pgdir : Z) : KM Z :=
  kmod (upd_proc np (set_p_sz (fun _ => p_sz pr))) >>;
  kmod (upd_proc np (set_p_parent (fun _ => Some cur))) >>;
  npr <- get_proc np;
  kmod (set_w_mem (copy_words 19 (p_tf npr) (p_tf pr))) >>;
  kmod (st (p_tf npr + tf_eax) 0) >>;
  dup_files cur np >>;
  pr <- get_proc cur;
  cwd <- kderef (p_cwd pr);
  cwd <- idup cwd;
  kmod (upd_proc np (set_p_cwd (fun _ => Some cwd))) >>;
  kmod (upd_proc np (set_p_name (fun s => safestrcpy s (p_name pr) 16))) >>;
  npr <- get_proc np;
  let pid := p_pid npr in
  acquire PtableLock >>;
  set_state np RUNNABLE >>;
  release PtableLock >>;
  kret pid.

(** The child's entry, made from the one allocproc left. *)
Definition forked (cur : nat) (pr : proc) (ip : nat) (x : proc) : proc :=
  set_p_state (fun _ => RUNNABLE) (set_p_name (fun s => safestrcpy s (p_name pr) 16) (set_p_cwd (fun _ => Some ip)
    (set_p_ofile (dup_ofile (p_ofile pr) (seq 0 NOFILE)) (set_p_parent (fun _ => Some cur) (set_p_sz (fun _ => p_sz pr) x))))).

(** Its trap frame, at [t], made from the parent's, at [s]. *)
Definition forked_tf (t s : Z) (m : memory) : memory := stm (t + tf_eax) 0 (copy_words 19 t s m).

(** The words of a copy, the frames being apart. *)
Lemma copy_words_out k b : forall t s m, (forall j, 0 <= j < Z.of_nat k -> b <> t + 4 * j) -> ldm (copy_words k t s m) b = ldm m b.
Proof.
  induction k as [|k IH]; intros t s m Hb; [done|]. cbn [copy_words]. rewrite IH.
  - apply ldm_stm_ne. specialize (Hb 0 ltac:(lia)). lia.
  - intros j Hj. specialize (Hb (j + 1) ltac:(lia)). lia.
Qed.

Lemma copy_words_in k : forall t s m j, t + 4 * Z.of_nat k <= s \/ s + 4 * Z.of_nat k <= t -> 0 <= j < Z.of_nat k ->
  ldm (copy_words k t s m) (t + 4 * j) = u32 (ldm m (s + 4 * j)).
Proof.
  induction k as [|k IH]; intros t s m j Hap Hj; [lia|]. cbn [copy_words]. destruct (decide (j = 0)) as [->|Hne].
  - rewrite copy_words_out by lia. replace (t + 4 * 0) with t by lia. rewrite ldm_stm_eq. by replace (s + 4 * 0) with s by lia.
  - replace (t + 4 * j) with (t + 4 + 4 * (j - 1)) by lia. rewrite IH by lia. f_equal. rewrite ldm_stm_ne by lia. f_equal. lia.
Qed.
#[local] Opaque copy_words dup_ofile dup_refs.

(** Changes of the child's entry, of memory, of the files and of the inodes. *)
Section frames.
Context (w : world) (i : nat) (c : cpu) (p q : nat) (pr : proc) (Hk : kctx w i c p pr) (Hpq : p <> q).
Context (f : proc -> proc) (M : memory -> memory) (Fl : list file -> list file) (In : list inode -> list inode).

Lemma kctx_child1 : kctx (upd_proc q f (set_w_mem M w)) i c p pr.
Proof using Hk Hpq. apply (kctx_frame w i c p pr Hk (fun v => upd_proc q f (set_w_mem M v))). cbn. rewrite list_lookup_alter_ne by done. apply Hk. Qed.
Lemma kctx_child2 : kctx (upd_proc q f (set_w_files Fl (set_w_mem M w))) i c p pr.
Proof using Hk Hpq. apply (kctx_frame w i c p pr Hk (fun v => upd_proc q f (set_w_files Fl (set_w_mem M v)))). cbn. rewrite list_lookup_alter_ne by done. apply Hk. Qed.
Lemma kctx_child3 : kctx (upd_proc q f (set_w_inodes In (set_w_files Fl (set_w_mem M w)))) i c p pr.
Proof using Hk Hpq. apply (kctx_frame w i c p pr Hk (fun v => upd_proc q f (set_w_inodes In (set_w_files Fl (set_w_mem M v))))). cbn. rewrite list_lookup_alter_ne by done. apply Hk. Qed.
Lemma get_child v x e : w_procs v !! q = Some x -> get_proc q (upd_proc q f v) e = Ret (f x) (upd_proc q f v) e.
Proof. intros Hx. apply get_proc_eq. cbn. by rewrite list_lookup_alter_eq, Hx. Qed.
Lemma files_proc v : set_w_files Fl (upd_proc q f v) = upd_proc q f (set_w_files Fl v).
Proof. done. Qed.
Lemma inodes_proc v : set_w_inodes In (upd_proc q f v) = upd_proc q f (set_w_inodes In v).
Proof. done. Qed.
End frames.

Lemma fork_rest_eq w i c p pr q x ip pgdir e : kctx w i c p pr -> p <> q -> w_procs w !! q = Some x -> p_cwd pr = Some ip -> open_ok (p_ofile pr) (w_files w) ->
  exists w', fork_rest p q pr pgdir w e = Ret (p_pid x) w' e /\ w_procs w' = alter (forked p pr ip) q (w_procs w) /\
    w_mem w' = forked_tf (p_tf x) (p_tf pr) (w_mem w) /\ w_freelist w' = w_freelist w /\
    w_files w' = dup_refs (p_ofile pr) (seq 0 NOFILE) (w_files w) /\ w_inodes w' = alter (set_i_ref (fun r => r + 1)) ip (w_inodes w).
Proof.
  intros Hk Hpq Hx Hcwd Ho. set (ofs := p_ofile pr) in *. set (M := forked_tf (p_tf x) (p_tf pr)).
  set (Fl := dup_refs ofs (seq 0 NOFILE)). set (In := alter (set_i_ref (fun r => r + 1)) ip : list inode -> list inode).
  set (f1 := set_p_parent (fun _ => Some p) ∘ set_p_sz (fun _ => p_sz pr)). set (f2 := set_p_ofile (dup_ofile ofs (seq 0 NOFILE)) ∘ f1).
  set (f3 := (set_p_name (fun s => safestrcpy s (p_name pr) 16) ∘ set_p_cwd (fun _ => Some ip)) ∘ f2).
  pose proof (kctx_child1 w i c p q pr Hk Hpq f1 M) as Hk1. pose proof (kctx_child2 w i c p q pr Hk Hpq f2 M Fl) as Hk2.
  pose proof (kctx_child3 w i c p q pr Hk Hpq f3 M Fl In) as Hk3. set (w1 := upd_proc q f1 _) in *. set (w2 := upd_proc q f2 _) in *. set (w3 := upd_proc q f3 _) in *.
  destruct (lock_section w3 i c p pr Hk3 PtableLock (upd_proc q (set_p_state (fun _ => RUNNABLE))) e eq_refl) as [Ea Er].
  exists (upd_proc q (set_p_state (fun _ => RUNNABLE)) w3). split.
  - unfold fork_rest. unfold kbind at 1. cbn [kmod]. unfold kbind at 1. cbn [kmod]. rewrite upd_proc_upd. fold f1.
    unfold kbind at 1. rewrite (get_child q f1 w x e Hx). unfold kbind at 1. cbn [kmod]. unfold kbind at 1. cbn [kmod].
    change (st (p_tf (f1 x) + tf_eax) 0 _) with w1. unfold kbind at 1, dup_files. rewrite (dup_loop i c p pr q e (seq 0 NOFILE) Hpq w1 Hk1 Ho). fold ofs.
    assert (upd_proc q (set_p_ofile (dup_ofile ofs (seq 0 NOFILE))) (set_w_files Fl w1) = w2) as Hw2.
    { unfold w1, w2. by rewrite files_proc, upd_proc_upd. }
    fold Fl. rewrite Hw2.
    unfold kbind at 1. rewrite (get_proc_eq w2 p pr) by apply Hk2. unfold kbind at 1. rewrite Hcwd. cbn [kderef kret].
    unfold kbind at 1. rewrite (idup_eq w2 i c p pr Hk2). unfold kbind at 1. cbn [kmod]. unfold kbind at 1. cbn [kmod].
    assert (upd_proc q (set_p_name (fun s => safestrcpy s (p_name pr) 16)) (upd_proc q (set_p_cwd (fun _ => Some ip)) (upd_inode ip (set_i_ref (fun r => r + 1)) w2)) = w3) as Hw3.
    { unfold upd_inode, w2. fold In. rewrite (inodes_proc q f2 In). rewrite upd_proc_upd. rewrite upd_proc_upd. fold f3. reflexivity. }
    rewrite Hw3. unfold kbind at 1. unfold w3 at 1. rewrite (get_child q f3 (set_w_inodes In (set_w_files Fl (set_w_mem M w))) x e Hx). fold w3. cbv zeta.
    unfold kbind at 1. rewrite Ea. unfold set_state. unfold kbind at 1. cbn [kmod]. unfold kbind at 1. rewrite Er. reflexivity.
  - split; [|repeat split]. unfold w3. rewrite upd_proc_upd. reflexivity.
Qed.

(** ** fork *)

Lemma alter_put {A} (f : A -> A) q y (l : list A) : alter f q (<[q := y]> l) = <[q := f y]> l.
Proof.
  apply list_eq. intros j. destruct (decide (q = j)) as [<-|Hne]; [|by rewrite list_lookup_alter_ne, !list_lookup_insert_ne].
  rewrite list_lookup_alter_eq. destruct (decide (q < length l)%nat) as [Hl|Hl]; [by rewrite !list_lookup_insert_eq|].
  rewrite !list_insert_ge by lia. by rewrite lookup_ge_None_2 by lia.
Qed.

Section fork.
Context `{KernelImage} (i : nat).

(** A page in use elsewhere is written. *)
Lemma aspace_write w pgdir pts um us l q g : aspace w pgdir pts um us l -> q ∈ us -> mem_frame [q] (w_mem w) (g (w_mem w)) ->
  aspace (set_w_mem g w) pgdir pts um us l.
Proof.
  intros [Hinv Hum Hent] Hq Hf. destruct (pt_inv_page_write w pgdir pts _ l q g Hinv) as [Hinv' Hp]; [apply elem_of_app; by right|done|].
  split; [done|done|]. intros n Hn. change (w_mem (set_w_mem g w)) with (g (w_mem w)). rewrite Hp. by apply Hent.
Qed.

(** The kernel stack of a new process, and the trap frame of a child in it. *)
Lemma kstack_frame k m : k mod PGSIZE = 0 -> mem_frame [k] m (kstack_mem k m).
Proof.
  intros Hk b Hb. specialize (Hb k ltac:(by left)). destruct (kstack_words k m Hk) as (_ & _ & Hw). apply Hw. exact Hb.
Qed.

Lemma forked_frame k s m : mem_frame [k] m (forked_tf (k + KSTACKSIZE - TF_SIZE) s m).
Proof.
  intros b Hb. specialize (Hb k ltac:(by left)). unfold forked_tf, KSTACKSIZE, TF_SIZE, tf_eax, PGSIZE in *. rewrite ldm_stm_ne by lia. apply copy_words_out. lia.
Qed.

Lemma forked_words t s m j : t + 76 <= s \/ s + 76 <= t -> 0 <= j < 19 ->
  ldm (forked_tf t s m) (t + 4 * j) = if j =? 7 then 0 else u32 (ldm m (s + 4 * j)).
Proof.
  intros Hap Hj. unfold forked_tf, tf_eax. destruct (Z.eqb_spec j 7) as [->|Hne].
  - change (t + 4 * 7) with (t + 28). by rewrite ldm_stm_eq.
  - rewrite ldm_stm_ne by lia. apply copy_words_in; lia.
Qed.

(** The parent after allocproc. *)
Lemma born_aspace w pgdir pts um us k l q : aspace w pgdir pts um us (k :: l) -> w_freelist w = k /\ page_ok k /\ aspace (born w q) pgdir pts um (k :: us) l.
Proof.
  intros [Hinv Hum Hent]. pose proof Hinv as (_ & [(Hk & Hok & Hc) Hnd] & _). split; [done|]. split; [done|].
  assert (Hinv' : pt_inv (set_w_freelist (fun _ => ldm (w_mem w) k) w) pgdir pts (pages um ++ k :: us) l).
  { eapply pt_inv_perm; [apply Permutation_middle|]. destruct (pt_inv_alloc i w pgdir pts _ k l Hinv) as (H1 & _ & H3 & H4).
    rewrite alloced_mem, kmem_settled_mem in H1. split; [done|]. split; [|done]. apply NoDup_cons in Hnd as [_ Hnd]. by split. }
  assert (aspace (set_w_freelist (fun _ => ldm (w_mem w) k) w) pgdir pts um (k :: us) l) as Has by by split.
  apply (aspace_write _ _ _ _ _ _ k (kstack_mem k)) in Has; [|left|apply kstack_frame; by apply page_ok_mod].
  revert Has. apply aspace_ext; cbn; [by rewrite Hk|by rewrite Hk].
Qed.

Context (w : world) (c : cpu) (p q : nat) (pr x : proc) (ip : nat) (pts : gmap Z Z) (um : gmap Z (Z * Z)) (us l : list Z) (k : Z) (e : sched_env world).
Hypotheses (Hctx : kctx w i c p pr) (Hrun : p_state pr = RUNNING) (Himg : image_ok)
  (Hmem : umem w (p_pgdir pr) (p_sz pr) pts um us (k :: l)) (Hroom : npages (p_sz pr) + 1026 < Z.of_nat (length l))
  (Hq : find_idx (fun p => is_state (p_state p) UNUSED) (w_procs w) = Some q) (Hx : w_procs w !! q = Some x)
  (Hpid : w_nextpid w <> INT_MAX) (Hofs : open_ok (p_ofile pr) (w_files w)) (Hcwd : p_cwd pr = Some ip).

Lemma child_apart : p <> q.
Proof using Hctx Hrun Hq Hx.
  intros <-. rewrite (kctx_proc _ _ _ _ _ Hctx) in Hx. injection Hx as <-. apply find_idx_Some in Hq as (y & Hy & Hst & _).
  rewrite (kctx_proc _ _ _ _ _ Hctx) in Hy. injection Hy as <-. by rewrite Hrun in Hst.
Qed.

Lemma kctx_born : kctx (born w q) i c p pr.
Proof using Hctx Hrun Hq Hx.
  assert (forall M z f, kctx (set_w_mem M (set_w_freelist (fun _ => z) (set_w_nextpid (fun n => n + 1) (upd_proc q f w)))) i c p pr) as Hgen.
  { intros M z f. apply (kctx_frame w i c p pr Hctx (fun v => set_w_mem M (set_w_freelist (fun _ => z) (set_w_nextpid (fun n => n + 1) (upd_proc q f v))))).
    cbn. rewrite list_lookup_alter_ne by (symmetry; apply child_apart). apply Hctx. }
  assert (forall g v, set_w_freelist g v = set_w_freelist (fun _ => g (w_freelist v)) v) as Hfl by done. unfold born. rewrite Hfl. apply Hgen.
Qed.

Lemma fork_memory : exists w2 d dpts dum l', copyuvm (p_pgdir pr) (p_sz pr) (born w q) e = Ret d w2 e /\ d <> 0 /\
  copied i (born w q) (p_pgdir pr) pts um (k :: us) l d (npages (p_sz pr)) w2 dpts l' dum.
Proof using All.
  destruct (born_aspace w (p_pgdir pr) pts um us k l q (um_space _ _ _ _ _ _ _ Hmem)) as (_ & _ & Has).
  destruct (copyuvm_spec i (born w q) (p_pgdir pr) pts um (k :: us) l (p_sz pr) c e Himg Has (kctx_kmem _ i c p pr kctx_born)) as (d & w2 & E & _ & _ & Hr);
    [pose proof (um_size _ _ _ _ _ _ _ Hmem); lia|apply Hmem|].
  destruct Hr as [(Hd & dpts & dum & l' & Hc)|(_ & l' & _ & _ & Hlen)]; [|lia]. by exists w2, d, dpts, dum, l'.
Qed.

(** What fork returns, and the state it leaves, in terms of the copy of the memory. *)
Lemma fork_state w2 d dpts dum l' : copyuvm (p_pgdir pr) (p_sz pr) (born w q) e = Ret d w2 e -> d <> 0 ->
  copied i (born w q) (p_pgdir pr) pts um (k :: us) l d (npages (p_sz pr)) w2 dpts l' dum ->
  let child := forked p pr ip (set_p_pgdir (fun _ => d) (newborn (w_nextpid w) k x)) in
  exists w', fork w e = Ret (w_nextpid w) w' e /\ w_procs w' = <[q := child]> (w_procs w) /\
    w_mem w' = forked_tf (p_tf child) (p_tf pr) (w_mem w2) /\ w_freelist w' = w_freelist w2 /\
    w_files w' = dup_refs (p_ofile pr) (seq 0 NOFILE) (w_files w).
Proof using All.
  intros E Hd Hc child. pose proof child_apart as Hpq. pose proof kctx_born as Hk1.
  destruct (born_aspace w (p_pgdir pr) pts um us k l q (um_space _ _ _ _ _ _ _ Hmem)) as (Hk & Hkok & _).
  assert (w_freelist w <> 0) as Hk0 by (rewrite Hk; destruct Hkok as (_ & _ & ?); unfold KERNBASE in *; lia).
  destruct (kctx_mem_con (born w q) i c p pr Hk1 w2 (mem_only_con i _ _ (cp_only _ _ _ _ _ _ _ _ _ _ _ _ _ Hc))) as [Hk2 Hps2].
  assert (w_files w2 = w_files w) as Hf2 by (destruct (cp_only _ _ _ _ _ _ _ _ _ _ _ _ _ Hc) as (m & f & [->| ->]); done).
  set (y := newborn (w_nextpid w) k x). assert (w_procs (born w q) = <[q := y]> (w_procs w)) as Hps1.
  { cbn. rewrite Hk. apply list_eq. intros j. destruct (decide (q = j)) as [<-|Hne].
    - rewrite list_lookup_alter_eq, list_lookup_insert_eq, Hx by by eapply lookup_lt_Some. done.
    - by rewrite list_lookup_alter_ne, list_lookup_insert_ne. }
  set (w3 := upd_proc q (set_p_pgdir (fun _ => d)) w2).
  assert (w_procs w3 = <[q := set_p_pgdir (fun _ => d) y]> (w_procs w)) as Hps3.
  { cbn. rewrite Hps2, Hps1, alter_put. done. }
  assert (kctx w3 i c p pr) as Hk3.
  { apply (kctx_frame w2 i c p pr Hk2 (upd_proc q (set_p_pgdir (fun _ => d)))). fold w3. rewrite Hps3, list_lookup_insert_ne by done. apply Hctx. }
  destruct (fork_rest_eq w3 i c p pr q (set_p_pgdir (fun _ => d) y) ip d e Hk3 Hpq) as (w' & E' & Hps' & Hm' & Hfl' & Hf' & _).
  { rewrite Hps3. apply list_lookup_insert_eq. by eapply lookup_lt_Some. }
  { done. }
  { change (w_files w3) with (w_files w2). by rewrite Hf2. }
  exists w'. split; [|split; [|split; [exact Hm'|split; [exact Hfl'|]]]].
  - unfold fork. unfold kbind at 1. rewrite (curproc_eq w i c p pr Hctx). unfold kbind at 1. rewrite (allocproc_born w i c (kctx_kcpu _ _ _ _ _ Hctx) q e Hq Hpid Hk0).
    unfold kbind at 1. rewrite (get_proc_eq (born w q) p pr) by apply Hk1. unfold kbind at 1. rewrite E. unfold kbind at 1. cbn [kmod]. fold w3.
    rewrite (proj2 (Z.eqb_neq d 0) Hd). exact E'.
  - rewrite Hps', Hps3, alter_put. done.
  - rewrite Hf'. change (w_files w3) with (w_files w2). by rewrite Hf2.
Qed.

(** The memory after fork. *)
Section after.
Context (w2 w' : world) (d : Z) (dpts : gmap Z Z) (dum : gmap Z (Z * Z)) (l' : list Z).
Hypotheses (Hc : copied i (born w q) (p_pgdir pr) pts um (k :: us) l d (npages (p_sz pr)) w2 dpts l' dum)
  (Hm : w_mem w' = forked_tf (k + KSTACKSIZE - TF_SIZE) (p_tf pr) (w_mem w2)) (Hfl : w_freelist w' = w_freelist w2).

Lemma fork_kstack : page_ok k /\ k ∉ pages um /\ k ∉ us.
Proof using i q Hmem.
  destruct (born_aspace w (p_pgdir pr) pts um us k l q (um_space _ _ _ _ _ _ _ Hmem)) as (_ & Hk & _). split; [done|].
  destruct (as_inv _ _ _ _ _ _ (um_space _ _ _ _ _ _ _ Hmem)) as (_ & _ & Hnd & _). apply NoDup_cons in Hnd as [_ Hnd]. apply NoDup_app in Hnd as (_ & _ & Hnd).
  apply NoDup_app in Hnd as (_ & Hnd & _). split; intros Hin; (apply (Hnd k); [apply elem_of_app; tauto|left]).
Qed.

Lemma fork_frames : mem_frame [k] (w_mem w) (w_mem (born w q)) /\ mem_frame l (w_mem (born w q)) (w_mem w2) /\ mem_frame [k] (w_mem w2) (w_mem w').
Proof using i q Hmem Hc Hm.
  destruct fork_kstack as (Hk & _). destruct (born_aspace w (p_pgdir pr) pts um us k l q (um_space _ _ _ _ _ _ _ Hmem)) as (Hf & _).
  split; [cbn; rewrite Hf; apply kstack_frame; by apply page_ok_mod|]. split; [apply Hc|]. rewrite Hm. apply forked_frame.
Qed.

(** A page in use before is the same after. *)
Lemma fork_page P b : P ∈ pages um ++ us -> P <= b < P + PGSIZE -> ldm (w_mem w') b = ldm (w_mem w) b /\ ldm (w_mem w2) b = ldm (w_mem w) b /\ ldm (w_mem (born w q)) b = ldm (w_mem w) b.
Proof using i q Hmem Hc Hm.
  intros HP Hb. destruct fork_frames as (F1 & F2 & F3). destruct fork_kstack as (Hk & _). pose proof (as_inv _ _ _ _ _ _ (um_space _ _ _ _ _ _ _ Hmem)) as Hinv.
  destruct (used_not_table _ _ _ _ _ P Hinv HP) as [HPok HPt]. pose proof (table_pages_ok _ _ _ _ _ Hinv) as Ht. unfold table_pages in *.
  rewrite !Forall_cons, !Forall_app, !Forall_cons in Ht. rewrite !elem_of_cons, !elem_of_app, !elem_of_cons in HPt.
  assert (forall m m', mem_frame [k] m m' -> ldm m' b = ldm m b) as Hk1.
  { intros m m' Hf. apply (mem_frame_page [k] m m' P b Hf); [apply Forall_singleton; tauto|by apply page_ok_mod|rewrite list_elem_of_singleton; tauto|done]. }
  assert (ldm (w_mem w2) b = ldm (w_mem (born w q)) b) as E2 by (apply (mem_frame_page l _ _ P b F2); [tauto|by apply page_ok_mod|tauto|done]).
  rewrite (Hk1 _ _ F3), E2, (Hk1 _ _ F1). done.
Qed.

Lemma fork_spaces : aspace w' d dpts dum (all_pages (p_pgdir pr) pts um (k :: us)) l' /\ aspace w' (p_pgdir pr) pts um (k :: us ++ d :: vals dpts ++ pages dum) l'.
Proof using All.
  destruct fork_frames as (F1 & F2 & F3). rewrite Hm in F3.
  destruct (born_aspace w (p_pgdir pr) pts um us k l q (um_space _ _ _ _ _ _ _ Hmem)) as (_ & _ & Has1).
  pose proof (copied_parent i (born w q) (p_pgdir pr) pts um (k :: us) l d Has1 _ w2 dpts l' dum Hc) as Hp2.
  pose proof (cp_space _ _ _ _ _ _ _ _ _ _ _ _ _ Hc) as Hc2.
  apply (aspace_write _ _ _ _ _ _ k (forked_tf (k + KSTACKSIZE - TF_SIZE) (p_tf pr))) in Hc2; [|unfold all_pages; rewrite elem_of_cons, !elem_of_app, elem_of_cons; auto|exact F3].
  apply (aspace_write _ _ _ _ _ _ k (forked_tf (k + KSTACKSIZE - TF_SIZE) (p_tf pr))) in Hp2; [|left|exact F3].
  split; [revert Hc2|revert Hp2]; apply aspace_ext; done.
Qed.

Lemma fork_page_copied n a f : um !! n = Some (a, f) -> exists b, dum !! n = Some (b, f) /\ a <> b /\ page_copy (w_mem w') b (w_mem w) a.
Proof using All.
  intros Ha. assert (0 <= n < npages (p_sz pr)) as Hn by (apply (um_dom _ _ _ _ _ _ _ Hmem); by rewrite Ha).
  destruct (cp_data _ _ _ _ _ _ _ _ _ _ _ _ _ Hc n a f Hn Ha) as (b & Hb & Hcp). exists b. split; [done|].
  destruct fork_spaces as [Hs1 Hs2]. destruct (aspace_page _ _ _ _ _ _ _ _ _ Hs1 Hb) as (Hbok & _). destruct (aspace_page _ _ _ _ _ _ _ _ _ Hs2 Ha) as (Haok & _).
  assert (b ∈ pages dum) as Hbp by (apply pages_elem; eauto). assert (a ∈ pages um) as Hap by (apply pages_elem; eauto).
  destruct (as_inv _ _ _ _ _ _ Hs2) as (_ & _ & Hnd & _). apply NoDup_cons in Hnd as [_ Hnd]. apply NoDup_app in Hnd as (_ & _ & Hnd).
  apply NoDup_app in Hnd as (Hnd & _ & _). apply NoDup_app in Hnd as (_ & Hd1 & Hnd). apply NoDup_cons in Hnd as [Hkb _].
  rewrite elem_of_app, elem_of_cons, elem_of_app in Hkb. split.
  - intros ->. apply (Hd1 b Hap). rewrite elem_of_cons, elem_of_app, elem_of_cons, elem_of_app. auto.
  - intros o Ho. destruct fork_frames as (F1 & F2 & F3). transitivity (ldb (w_mem w2) (b + o)).
    + apply ldb_same; [by apply page_ok_mod|done|]. intros z Hz. destruct fork_kstack as (Hk & _). apply (mem_frame_page [k] _ _ b z F3); [apply page_ok_all; by constructor|by apply page_ok_mod| |done].
      rewrite list_elem_of_singleton. intros ->. tauto.
    + rewrite Hcp by done. apply ldb_same; [by apply page_ok_mod|done|]. intros z Hz. apply (fork_page a z); [apply elem_of_app; by left|done].
Qed.

Lemma fork_dom : forall n, is_Some (dum !! n) <-> 0 <= n < npages (p_sz pr).
Proof using i q Hc Hmem.
  intros n. split; [intros [y Hy]; by apply (cp_dom _ _ _ _ _ _ _ _ _ _ _ _ _ Hc n y)|]. intros Hn. destruct (proj2 (um_dom _ _ _ _ _ _ _ Hmem n) Hn) as [[a f] Ha].
  destruct (cp_data _ _ _ _ _ _ _ _ _ _ _ _ _ Hc n a f Hn Ha) as (b & Hb & _). by rewrite Hb.
Qed.

Lemma fork_frame_words j : p_kstack pr ∈ us -> p_tf pr = p_kstack pr + KSTACKSIZE - TF_SIZE -> 0 <= j < 19 ->
  ld w' (k + KSTACKSIZE - TF_SIZE + 4 * j) = if j =? 7 then 0 else u32 (ld w (p_tf pr + 4 * j)).
Proof using All.
  intros HP Htf Hj. change (ld w') with (ldm (w_mem w')). change (ld w) with (ldm (w_mem w)). rewrite Hm. assert (p_kstack pr ∈ pages um ++ us) as HP' by (apply elem_of_app; by right).
  destruct (used_not_table _ _ _ _ _ _ (as_inv _ _ _ _ _ _ (um_space _ _ _ _ _ _ _ Hmem)) HP') as [HPok _]. destruct fork_kstack as (Hk & _ & Hku).
  assert (k <> p_kstack pr) as Hne by (intros ->; done).
  pose proof (page_apart _ _ (page_ok_mod _ Hk) (page_ok_mod _ HPok) Hne) as H1. pose proof (page_apart _ _ (page_ok_mod _ HPok) (page_ok_mod _ Hk) ltac:(done)) as H2.
  rewrite forked_words by (unfold KSTACKSIZE, TF_SIZE, PGSIZE in *; lia). destruct (j =? 7); [done|]. f_equal.
  apply (fork_page (p_kstack pr)); [done|]. unfold KSTACKSIZE, TF_SIZE, PGSIZE in *. lia.
Qed.
End after.

(** C10. fork gives a new process: the entry of the table that was free is RUNNABLE with the next pid,
    the caller is its parent and the other entries are as they were; it has an address space of its
    own of the same size, in which every page holds the bytes of the caller's page but is another
    page; its registers are the caller's but for %eax, which is 0, so that fork returns 0 in it;
    it has the same open files and the same current directory, and every open file has one more
    reference for each descriptor.  The memory of the caller is as it was, and fork returns the
    child's pid to it. *)
Theorem fork_copies_process : p_kstack pr ∈ us -> p_tf pr = p_kstack pr + KSTACKSIZE - TF_SIZE ->
  p_ofile x = replicate NOFILE None -> length (p_ofile pr) = NOFILE ->
  exists w' child dpts dum l', fork w e = Ret (w_nextpid w) w' e /\ w_procs w' = <[q := child]> (w_procs w) /\
    (p_state child = RUNNABLE /\ p_pid child = w_nextpid w /\ p_parent child = Some p /\ p_sz child = p_sz pr /\
     p_ofile child = p_ofile pr /\ p_cwd child = p_cwd pr) /\
    umem w' (p_pgdir child) (p_sz child) dpts dum (all_pages (p_pgdir pr) pts um (k :: us)) l' /\
    umem w' (p_pgdir pr) (p_sz pr) pts um (k :: us ++ p_pgdir child :: vals dpts ++ pages dum) l' /\ kept um um w w' /\
    (forall n a f, um !! n = Some (a, f) -> exists b, dum !! n = Some (b, f) /\ a <> b /\ page_copy (w_mem w') b (w_mem w) a) /\
    (forall j, 0 <= j < 19 -> ld w' (p_tf child + 4 * j) = if j =? 7 then 0 else u32 (ld w (p_tf pr + 4 * j))) /\
    (forall f fl, w_files w !! f = Some fl -> w_files w' !! f =
       Some (set_f_ref (fun r => r + Z.of_nat (length (filter (fun j => p_ofile pr !! j = Some (Some f)) (seq 0 NOFILE)))) fl)).
Proof using All.
  intros HP Htf Hofx Hlen. destruct fork_memory as (w2 & d & dpts & dum & l' & E & Hd & Hc). destruct (fork_state w2 d dpts dum l' E Hd Hc) as (w' & E' & Hps & Hm & Hfl & Hfs).
  set (child := forked p pr ip (set_p_pgdir (fun _ => d) (newborn (w_nextpid w) k x))) in *. change (p_tf child) with (k + KSTACKSIZE - TF_SIZE) in Hm.
  exists w', child, dpts, dum, l'. destruct (fork_spaces w2 w' d dpts dum l' Hc Hm Hfl) as [Hs1 Hs2].
  split; [exact E'|]. split; [exact Hps|]. split.
  { split_and!; [done..| |done]. change (p_ofile child) with (dup_ofile (p_ofile pr) (seq 0 NOFILE) (p_ofile x)). rewrite Hofx. by apply dup_ofile_all. }
  split; [split; [exact Hs1|apply Hmem|exact (fork_dom w2 d dpts dum l' Hc)]|]. split; [split; [exact Hs2|apply Hmem|apply Hmem]|]. split.
  { intros n y Hy _ b Hb. apply (fork_page w2 w' d dpts dum l' Hc Hm y.1 b); [|done]. apply elem_of_app. left. apply pages_elem. exists n, y.2. by destruct y. }
  split; [exact (fork_page_copied w2 w' d dpts dum l' Hc Hm Hfl)|]. split; [intros j Hj; exact (fork_frame_words w2 w' d dpts dum l' Hc Hm Hfl j HP Htf Hj)|].
  intros f fl Hf. by rewrite Hfs, dup_refs_lookup, Hf.
Qed.
End fork.

(** ** The statement on an example: a process with one page and one open file. *)

Definition fork_proc : proc := set_p_cwd (fun _ => Some 0%nat) (set_p_ofile (insert 2%nat (Some 3%nat)) sp_proc).
Definition fork_demo : world := set_w_files (alter (set_f_ref (fun _ => 1)) 3%nat) (sp_world (upd_proc 1 (fun _ => fork_proc) ctx_world)).

Lemma kctx_files w i c p pr g : kctx w i c p pr -> kctx (set_w_files g w) i c p pr.
Proof. intros Hk. apply (kctx_frame w i c p pr Hk (set_w_files g)). apply Hk. Qed.

Lemma fork_demo_kctx : kctx fork_demo 0 ctx_cpu 1 fork_proc.
Proof. apply kctx_files. exact (kctx_replace ctx_world 0 ctx_cpu 1 ctx_proc fork_proc _ _ ctx_kctx). Qed.

Lemma fork_demo_umem : @umem demo_image fork_demo sp_dir 4096 sp_pts sp_um [sp_kstack] (sp_free :: page_range (sp_free + PGSIZE) (Z.to_nat 2999)).
Proof.
  rewrite <-sp_pages. split; [|unfold KERNBASE; lia|exact sp_dom].
  exact (aspace_ext (sp_world (upd_proc 1 (fun _ => fork_proc) ctx_world)) fork_demo _ _ _ _ _ eq_refl eq_refl (sp_aspace _)).
Qed.

Lemma fork_demo_files : open_ok (p_ofile fork_proc) (w_files fork_demo).
Proof.
  intros j f Hj. destruct (decide (j = 2%nat)) as [->|Hne]; [injection Hj as <-; eexists; split; [reflexivity|done]|].
  change (p_ofile fork_proc) with (<[2%nat := Some 3%nat]> (replicate NOFILE (None : option nat))) in Hj.
  rewrite list_lookup_insert_ne in Hj by done. apply lookup_replicate in Hj as [? _]. done.
Qed.

Lemma fork_copies_process_witness :
  exists w' child fl, @fork demo_image fork_demo [] = Ret 1 w' [] /\ w_procs w' !! 0%nat = Some child /\ p_ofile child = p_ofile fork_proc /\
    w_files w' !! 3%nat = Some fl /\ f_ref fl = 2.
Proof.
  destruct (@fork_copies_process demo_image 0 fork_demo ctx_cpu 1 0 fork_proc zero_proc 0 sp_pts sp_um [sp_kstack]
    (page_range (sp_free + PGSIZE) (Z.to_nat 2999)) sp_free [] fork_demo_kctx eq_refl sp_image fork_demo_umem) as (w' & child & dpts & dum & l' & E & Hps & (_ & _ & _ & _ & Hof & _) & _ & _ & _ & _ & _ & Hfs).
  - unfold page_range. rewrite length_fmap, length_seq. change (npages (p_sz fork_proc)) with 1. lia.
  - reflexivity.
  - reflexivity.
  - discriminate.
  - exact fork_demo_files.
  - reflexivity.
  - left.
  - reflexivity.
  - reflexivity.
  - reflexivity.
  - exists w', child. eexists. split; [exact E|]. split; [rewrite Hps; reflexivity|]. split; [exact Hof|]. split; [apply Hfs; reflexivity|reflexivity].
Defined.
