(* ===== verification/Userinit.v ===== *)
(** * The first process (proc.c userinit, vm.c inituvm)

    userinit makes the process that runs initcode: the bytes of initcode, followed by zeros, are its
    only page, its registers are those of a program that starts at address 0 with its stack at the
    end of the page, and its current directory is the root. *)

From Stdlib Require Import ZArith Lia.
From stdpp Require Import base list gmap strings numbers.
From S2P Require Import Prelude Machine Cstring Spinlock Boot Kalloc Cprintf Sched Vm Vmspec Aspace Vmcopy Userspace Sleeplock.
From S2P Require Import Layout Bio Log Fs Pipe File Proc Procspec Procmem Fork.
From stdpp Require Import list.
Local Open Scope Z_scope.
Local Open Scope kern_scope.

Section init.
Context `{KernelImage} (i : nat).
Implicit Types (w : world) (pts : gmap Z Z) (us l : list Z).

(** ** The page of initcode *)

Lemma put_bytes_frame p bs : p mod PGSIZE = 0 -> forall a m, p <= a -> a + Z.of_nat (length bs) <= p + PGSIZE -> mem_frame [p] m (put_bytes a bs m).
Proof.
  intros Hp. induction bs as [|b bs IH]; intros a m Ha Hl; cbn [put_bytes length] in *; [apply mem_frame_refl|].
  eapply mem_frame_trans; [|apply IH; lia]. unfold stb. apply mem_frame_stm. pose proof (wordaddr_page p (a - p) Hp ltac:(lia)) as Hw.
  by replace (p + (a - p)) with a in Hw by lia.
Qed.

(** A write to a page of the address space or to another page in use. *)
Lemma aspace_poke w pgdir pts um us l q g : aspace w pgdir pts um us l -> q ∈ pages um ++ us -> mem_frame [q] (w_mem w) (g (w_mem w)) ->
  aspace (set_w_mem g w) pgdir pts um us l.
Proof.
  intros [Hinv Hum Hent] Hq Hf. destruct (pt_inv_page_write w pgdir pts _ l q g Hinv Hq Hf) as [Hinv' Hp].
  split; [done|done|]. intros n Hn. change (w_mem (set_w_mem g w)) with (g (w_mem w)). rewrite Hp. by apply Hent.
Qed.

(** The bytes of a page that holds [bs] and then zeros. *)
Definition holds_bytes (m : memory) (p : Z) (bs : list Z) : Prop := forall j, 0 <= j < PGSIZE -> ldb m (p + j) = u8 (default 0 (bs !! Z.to_nat j)).

Lemma put_holds m m0 p bs : p mod PGSIZE = 0 -> zero_page m0 p -> (forall b, p <= b < p + PGSIZE -> ldm m b = ldm m0 b) -> holds_bytes (put_bytes p bs m) p bs.
Proof.
  intros Hp Hz Hm j Hj. rewrite ldb_put_bytes, decide_True by lia. replace (p + j - p) with j by lia. destruct (bs !! Z.to_nat j) as [b|]; [done|]. cbn [default].
  rewrite (ldb_same m0 m p j Hp Hj Hm). unfold ldb. rewrite Hz; [by rewrite Z.shiftr_0_l|by apply wordaddr_page|].
  unfold wordaddr. rewrite Zminus_mod, Zmod_mod, Z.sub_diag. done.
Qed.

Lemma inituvm_spec w d pts us q l bs c e : aspace w d pts ∅ us (q :: l) -> kmem_ok w i c -> Z.of_nat (length bs) < PGSIZE -> (1024 < length l)%nat ->
  exists w' pts' l', inituvm d bs w e = Ret tt w' e /\ mem_only i w w' /\ aspace w' d pts' {[0 := (q, 7)]} us l' /\ holds_bytes (w_mem w') q bs /\
    mem_frame (d :: vals pts ++ q :: l) (w_mem w) (w_mem w').
Proof.
  intros Has Hok Hlen Hl. unfold inituvm. rewrite Z.geb_leb, (proj2 (Z.leb_gt _ _)) by lia. set (g := memset q 0 PGSIZE).
  assert (page_ok q) as Hq. { destruct (as_inv _ _ _ _ _ _ Has) as (_ & [(_ & Hq & _) _] & _). done. } pose proof (page_ok_mod q Hq) as Hqm.
  destruct (take_page i w d pts ∅ us q l c e g Has Hok) as (w1 & E1 & Hm1 & Ho1 & Has1 & _ & Hnin & _); [intros m; by apply memset_frame|].
  cbn [kbind]. rewrite E1. cbn [kbind kmod]. fold g. set (w2 := set_w_mem g w1) in *. destruct (mem_only_ok i _ _ c Ho1 Hok) as [c2 Hok2].
  destruct (map_user i w2 d pts ∅ us l c2 0 q (Z.lor PTE_W PTE_U) e Has1 Hok2) as (r & w3 & pts3 & l3 & E3 & [M1 M2 M3] & _ & Hr); [lia|done|done|].
  destruct Hr as [[-> Has3]|(_ & Has3 & ->)].
  2:{ exfalso. destruct (as_inv _ _ _ _ _ _ Has3) as ([Hk _] & _). pose proof (tables_few pts3 Hk). apply Permutation_length in M2. rewrite !length_app in M2. cbn in M2. lia. }
  rewrite Z.mul_0_r in E3. rewrite E3. assert (q ∉ table_pages d pts l) as Hqt by (unfold table_pages; clear -Hnin; set_solver).
  assert (forall b, q <= b < q + PGSIZE -> ldm (w_mem w3) b = ldm (w_mem w2) b) as Hsame.
  { intros b Hb. apply (mem_frame_page _ _ _ q b M3); [apply (table_pages_ok w2 d pts (pages ∅ ++ q :: us)), Has1|done|exact Hqt|done]. }
  assert (mem_frame [q] (w_mem w3) (put_bytes q bs (w_mem w3))) as Hf4 by (apply put_bytes_frame; [done|lia|lia]).
  exists (set_w_mem (put_bytes q bs) w3), pts3, l3. split; [done|]. split; [eapply mem_only_trans; [exact Ho1|]; eapply mem_only_trans; [exact M1|apply mem_only_mem]|].
  split; [|split].
  - apply (aspace_poke w3 d pts3 _ us l3 q); [exact Has3| |exact Hf4]. apply elem_of_app. left. apply pages_elem. by exists 0, 7.
  - apply (put_holds (w_mem w3) (w_mem w2)); [done| |done]. intros b Hb Hb4. cbn. rewrite Hm1. by apply ldm_memset0.
  - eapply mem_frame_trans; [|eapply mem_frame_trans; [eapply mem_frame_mono; [|exact M3]|eapply mem_frame_mono; [|exact Hf4]]].
    + rewrite <-Hm1. eapply mem_frame_mono; [|apply memset_frame; done]. intros p ->%list_elem_of_singleton. rewrite elem_of_cons, elem_of_app, elem_of_cons. auto.
    + intros p. unfold table_pages. rewrite !elem_of_cons, !elem_of_app, elem_of_cons. tauto.
    + intros p ->%list_elem_of_singleton. rewrite elem_of_cons, elem_of_app, elem_of_cons. auto.
Qed.

(** ** The registers *)

Definition sthm (a v : Z) (m : memory) : memory := stm a (Z.lor (Z.land (ldm m a) 0xffff0000) (u16 v)) m.

(** The trap frame userinit builds at [tf]. *)
Definition first_tf (tf : Z) (m : memory) : memory :=
  let m := memset tf 0 TF_SIZE m in
  let m := sthm (tf + tf_cs) (Z.lor (Z.shiftl SEG_UCODE 3) DPL_USER) m in
  let m := sthm (tf + tf_ds) (Z.lor (Z.shiftl SEG_UDATA 3) DPL_USER) m in
  let m := sthm (tf + tf_es) (u16 (ldm m (tf + tf_ds))) m in
  let m := sthm (tf + tf_ss) (u16 (ldm m (tf + tf_ds))) m in
  let m := stm (tf + tf_eflags) FL_IF m in
  let m := stm (tf + tf_esp) PGSIZE m in
  stm (tf + tf_eip) 0 m.

Lemma tf_cleared k m : k mod PGSIZE = 0 -> memset (k + KSTACKSIZE - TF_SIZE) 0 TF_SIZE m = stosl (k + KSTACKSIZE - TF_SIZE) 0 19 m.
Proof.
  intros Hk. unfold memset. assert ((k + KSTACKSIZE - TF_SIZE) mod 4 = 0) as ->; [|done]. unfold PGSIZE, KSTACKSIZE, TF_SIZE in *.
  apply Z.mod_divide in Hk as [z ->]; [|lia]. replace (z * 4096 + 4096 - 76) with ((z * 1024 + 1005) * 4) by lia. apply Z.mod_mul. lia.
Qed.

Lemma first_tf_frame k m : k mod PGSIZE = 0 -> mem_frame [k] m (first_tf (k + KSTACKSIZE - TF_SIZE) m).
Proof.
  intros Hk. unfold first_tf, sthm. rewrite tf_cleared by done. unfold tf_cs, tf_ds, tf_es, tf_ss, tf_eflags, tf_esp, tf_eip, KSTACKSIZE, TF_SIZE.
  intros b Hb. specialize (Hb k ltac:(by left)). unfold PGSIZE in Hb. rewrite !ldm_stm_ne by lia. unfold ldm. rewrite stosl_outside; [done|lia].
Qed.

Lemma first_tf_below k m b : k mod PGSIZE = 0 -> b < k + KSTACKSIZE - TF_SIZE -> ldm (first_tf (k + KSTACKSIZE - TF_SIZE) m) b = ldm m b.
Proof.
  intros Hk Hb. unfold first_tf, sthm. rewrite tf_cleared by done. unfold tf_cs, tf_ds, tf_es, tf_ss, tf_eflags, tf_esp, tf_eip.
  rewrite !ldm_stm_ne by lia. unfold ldm. rewrite stosl_outside; [done|lia].
Qed.

(** Flat user segments, interrupts on, the stack at the end of the page, the start at 0. *)
Lemma first_tf_words k m : k mod PGSIZE = 0 -> let tf := k + KSTACKSIZE - TF_SIZE in let m' := first_tf tf m in
  ldm m' (tf + tf_cs) = 27 /\ ldm m' (tf + tf_ds) = 35 /\ ldm m' (tf + tf_es) = 35 /\ ldm m' (tf + tf_ss) = 35 /\
  ldm m' (tf + tf_eflags) = FL_IF /\ ldm m' (tf + tf_esp) = PGSIZE /\ ldm m' (tf + tf_eip) = 0.
Proof.
  intros Hk tf m'. unfold m', first_tf. set (m0 := memset tf 0 TF_SIZE m).
  assert (forall j : nat, (j < 19)%nat -> ldm m0 (tf + 4 * Z.of_nat j) = 0) as H0.
  { intros j Hj. unfold m0, tf. rewrite tf_cleared by done. unfold ldm. by rewrite stosl_inside. }
  pose proof (H0 15%nat ltac:(lia)) as Hcs. pose proof (H0 11%nat ltac:(lia)) as Hds. pose proof (H0 10%nat ltac:(lia)) as Hes. pose proof (H0 18%nat ltac:(lia)) as Hss. clearbody m0.
  change (4 * Z.of_nat 15) with 60 in Hcs. change (4 * Z.of_nat 11) with 44 in Hds. change (4 * Z.of_nat 10) with 40 in Hes. change (4 * Z.of_nat 18) with 72 in Hss.
  unfold sthm, tf_cs, tf_ds, tf_es, tf_ss, tf_eflags, tf_esp, tf_eip.
  assert (forall a b v m, ldm (stm a v m) b = if decide (a = b) then u32 v else ldm m b) as Hst by (intros a b v m1; case_decide as E; [rewrite E; apply ldm_stm_eq|by apply ldm_stm_ne]).
  rewrite !Hst. repeat first [rewrite decide_True by lia | rewrite decide_False by lia]. rewrite Hcs, Hds, Hes, Hss. split_and!; reflexivity.
Qed.
End init.

(** ** The current directory *)

Section root.
Context `{DiskDriver} `{DevSwitch} (w : world) (i : nat) (c : cpu) (Hk : kcpu w i c).

(** An entry of the inode cache taken for an inode that is not in it. *)
Definition got (dev inum : Z) (ip : nat) (v : world) : world :=
  upd_inode ip (set_i_valid (fun _ => 0)) (upd_inode ip (set_i_ref (fun _ => 1)) (upd_inode ip (set_i_inum (fun _ => inum)) (upd_inode ip (set_i_dev (fun _ => dev)) v))).

Lemma iget_new dev inum ip e :
  find_idx (fun ip => (i_ref ip >? 0) && (i_dev ip =? dev) && (i_inum ip =? inum)) (w_inodes w) = None ->
  find_idx (fun ip => i_ref ip =? 0) (w_inodes w) = Some ip -> iget dev inum w e = Ret ip (got dev inum ip w) e.
Proof using Hk.
  intros H1 H2. unfold iget. cbn [kbind]. rewrite (kcpu_acquire w i c Hk IcacheLock) by done. cbn [kget].
  change (w_inodes (entered i IcacheLock w)) with (w_inodes w). rewrite H1, H2. cbn [kbind kmod].
  change (upd_inode ip (set_i_valid (fun _ => 0)) (upd_inode ip (set_i_ref (fun _ => 1)) (upd_inode ip (set_i_inum (fun _ => inum)) (upd_inode ip (set_i_dev (fun _ => dev)) (entered i IcacheLock w)))))
    with (got dev inum ip (entered i IcacheLock w)).
  rewrite (kcpu_release w i c Hk IcacheLock (got dev inum ip)) by done. done.
Qed.

(** The name of the root needs no directory. *)
Lemma namei_root ip e :
  find_idx (fun ip => (i_ref ip >? 0) && (i_dev ip =? ROOTDEV) && (i_inum ip =? ROOTINO)) (w_inodes w) = None ->
  find_idx (fun ip => i_ref ip =? 0) (w_inodes w) = Some ip -> namei (str "/") w e = Ret (Some ip) (got ROOTDEV ROOTINO ip w) e.
Proof using Hk.
  intros H1 H2. unfold namei, namex. change (default 0 (head (str "/")) =? 47) with true. cbn [kbind]. rewrite (iget_new _ _ ip e H1 H2).
  change (length (str "/") + 1)%nat with 2%nat. cbn [namex_loop]. change (skipelem (str "/") (replicate (Z.to_nat DIRSIZ) 0)) with (@None (list Z * list Z)). done.
Qed.
End root.

(** Steps on memory do nothing else, outside critical sections. *)
Lemma kcpu_only w w' i c : kcpu w i c -> mem_only i w w' -> exists m f, w' = set_w_mem (fun _ => m) (set_w_freelist (fun _ => f) w).
Proof. intros Hk (m & f & Hw). exists m, f. destruct Hw as [->| ->]; [done|]. by rewrite (kcpu_settled _ _ _ Hk). Qed.

Lemma kcpu_kmem w i c : kcpu w i c -> kmem_ok w i c.
Proof. intros Hk _. split; [apply Hk|]. by apply (kcpu_free _ _ _ Hk). Qed.

Section userinit.
Context `{KernelImage} `{DiskDriver} `{DevSwitch}.

(** The kernel stack of the new process is taken from the free pages. *)
Lemma born_held w us k l q : held w us (k :: l) -> w_freelist w = k /\ page_ok k /\ held (born w q) (k :: us) l.
Proof.
  intros ([(Hk & Hok & Hc) Hnd] & Hdis & Hpg). split; [done|]. split; [done|]. pose proof (page_ok_mod k Hok) as Hkm. apply NoDup_cons in Hnd as [Hkl Hnd].
  assert (is_freelist (set_w_freelist (fun _ => ldm (w_mem w) k) w) l) as Hfl by by split.
  split; [|split; [|by constructor]].
  - apply (freelist_frame (set_w_freelist (fun _ => ldm (w_mem w) k) w) (born w q) l [k]); [done|cbn; by rewrite Hk| | |].
    + cbn. rewrite Hk. by apply kstack_frame.
    + apply page_ok_all. by constructor.
    + intros p ->%list_elem_of_singleton. done.
  - cbn [app]. by rewrite Permutation_middle.
Qed.

(** The entry of the first process. *)
Definition first_proc (pid k d : Z) (ip : nat) (x : proc) : proc :=
  set_p_state (fun _ => RUNNABLE) (set_p_cwd (fun _ => Some ip) (set_p_name (fun s => safestrcpy s (str "initcode") 16)
    (set_p_sz (fun _ => PGSIZE) (set_p_pgdir (fun _ => d) (newborn pid k x))))).

Lemma one_page pg n : is_Some (({[0 := (pg, 7)]} : gmap Z (Z * Z)) !! n) <-> 0 <= n < npages PGSIZE.
Proof.
  change (npages PGSIZE) with 1. destruct (decide (n = 0)) as [->|Hne].
  - rewrite lookup_singleton_eq. split; [lia|done].
  - rewrite lookup_singleton_ne by done. split; [by intros []|lia].
Qed.

Section first.
Context (w : world) (i : nat) (c : cpu) (q ip : nat) (x : proc) (us l : list Z) (k : Z) (e : sched_env world).
Hypotheses (Hk : kcpu w i c) (Himg : image_ok) (Hheld : held w us (k :: l)) (Hroom : (2100 <= length l)%nat)
  (Hq : find_idx (fun p => is_state (p_state p) UNUSED) (w_procs w) = Some q) (Hx : w_procs w !! q = Some x) (Hpid : w_nextpid w <> INT_MAX)
  (Hcode : Z.of_nat (length k_initcode) < PGSIZE)
  (Hroot : find_idx (fun ip => (i_ref ip >? 0) && (i_dev ip =? ROOTDEV) && (i_inum ip =? ROOTINO)) (w_inodes w) = None)
  (Hfree : find_idx (fun ip => i_ref ip =? 0) (w_inodes w) = Some ip).

(** The state after allocproc. *)
Definition first_born : world := set_w_initproc (fun _ => Some q) (born w q).

Lemma first_alloc : allocproc w e = Ret (Some q) (born w q) e.
Proof using All.
  destruct (born_held w us k l q Hheld) as (Hfl & Hok & _). apply (allocproc_born w i c Hk q e Hq Hpid). rewrite Hfl. destruct Hok as (_ & _ & ?). unfold KERNBASE in *. lia.
Qed.

Lemma first_born_kcpu : kcpu first_born i c.
Proof using All.
  assert (forall M z f v, kcpu (set_w_initproc v (set_w_mem M (set_w_freelist (fun _ => z) (set_w_nextpid (fun n => n + 1) (upd_proc q f w))))) i c) as Hgen.
  { intros M z f v. apply (kcpu_frame w i c Hk (fun w => set_w_initproc v (set_w_mem M (set_w_freelist (fun _ => z) (set_w_nextpid (fun n => n + 1) (upd_proc q f w)))))). }
  assert (forall g v, set_w_freelist g v = set_w_freelist (fun _ => g (w_freelist v)) v) as Hf by done. unfold first_born, born. rewrite Hf. apply Hgen.
Qed.

Lemma first_born_held : held first_born (k :: us) l.
Proof using All. destruct (born_held w us k l q Hheld) as (_ & _ & H3). exact H3. Qed.

(** Its page directory and its page. *)
Lemma first_memory : exists d m2 f2 pg m4 f4 pts l', let w2 := set_w_mem (fun _ => m2) (set_w_freelist (fun _ => f2) first_born) in
  let w3 := upd_proc q (set_p_pgdir (fun _ => d)) w2 in let w4 := set_w_mem (fun _ => m4) (set_w_freelist (fun _ => f4) w3) in
  setupkvm first_born e = Ret d w2 e /\ d <> 0 /\ inituvm d k_initcode w3 e = Ret tt w4 e /\
  aspace w4 d pts {[0 := (pg, 7)]} (k :: us) l' /\ holds_bytes m4 pg k_initcode /\
  (forall b, k <= b < k + PGSIZE -> ldm m4 b = ldm (w_mem (born w q)) b).
Proof using All.
  pose proof first_born_kcpu as Hk1. pose proof first_born_held as Hh1. destruct (born_held w us k l q Hheld) as (_ & Hkok & _). pose proof (page_ok_mod k Hkok) as Hkm.
  assert (k ∉ l) as Hkl. { destruct Hheld as (_ & Hnd & _). apply NoDup_app in Hnd as (_ & _ & Hnd). by apply NoDup_cons in Hnd as [? _]. }
  assert (Forall (fun p => p mod PGSIZE = 0) l) as Hlp. { destruct Hh1 as ([Hc _] & _). apply page_ok_all, Forall_forall. intros p Hp. by eapply chain_pages. }
  destruct (setupkvm_spec i first_born (k :: us) l c e Himg Hh1 (kcpu_kmem _ i c Hk1)) as (d & w2 & E2 & Ho2 & Hf2 & [(pts & l2 & Hd & Has2 & Hl2 & _)|(_ & l2 & _ & _ & ?)]); [|lia].
  destruct (kcpu_only first_born w2 i c Hk1 Ho2) as (m2 & f2 & ->). set (w2 := set_w_mem (fun _ => m2) _) in *. set (w3 := upd_proc q (set_p_pgdir (fun _ => d)) w2).
  assert (kcpu w3 i c) as Hk3 by exact (kcpu_frame first_born i c Hk1 (fun w => upd_proc q (set_p_pgdir (fun _ => d)) (set_w_mem (fun _ => m2) (set_w_freelist (fun _ => f2) w)))).
  pose proof (tables_few pts ltac:(destruct (as_inv _ _ _ _ _ _ Has2) as ([? _] & _); done)) as Htf. pose proof (Permutation_length Hl2) as Hlen. cbn [length] in Hlen. rewrite length_app in Hlen.
  destruct l2 as [|pg l3]; [cbn in Hlen; lia|]. cbn [length] in Hlen.
  assert (aspace w3 d pts ∅ (k :: us) (pg :: l3)) as Has3 by exact (aspace_ext w2 w3 _ _ _ _ _ eq_refl eq_refl Has2).
  destruct (inituvm_spec i w3 d pts (k :: us) pg l3 k_initcode c e Has3 (kcpu_kmem _ i c Hk3) Hcode) as (w4 & pts4 & l4 & E4 & Ho4 & Has4 & Hb & Hf4); [lia|].
  destruct (kcpu_only w3 w4 i c Hk3 Ho4) as (m4 & f4 & ->). exists d, m2, f2, pg, m4, f4, pts4, l4. split; [exact E2|]. split; [done|]. split; [exact E4|]. split; [exact Has4|]. split; [exact Hb|].
  assert (forall m m', mem_frame l m m' -> forall b, k <= b < k + PGSIZE -> ldm m' b = ldm m b) as Hkeep by (intros m m' Hf b Hb'; by apply (mem_frame_page l m m' k b Hf)).
  intros b Hb'. rewrite (Hkeep m2 m4); [|apply (mem_frame_mono (d :: vals pts ++ pg :: l3)); [intros p; by rewrite Hl2|exact Hf4]|done]. by apply (Hkeep (w_mem (born w q)) m2).
Qed.

Lemma tf_writes {A} v tf (rest : KM A) : (kmod (set_w_mem (memset tf 0 TF_SIZE)) >>;
  kmod (sth (tf + tf_cs) (Z.lor (Z.shiftl SEG_UCODE 3) DPL_USER)) >>; kmod (sth (tf + tf_ds) (Z.lor (Z.shiftl SEG_UDATA 3) DPL_USER)) >>;
  kmod (fun w => sth (tf + tf_es) (ldh w (tf + tf_ds)) w) >>; kmod (fun w => sth (tf + tf_ss) (ldh w (tf + tf_ds)) w) >>;
  kmod (st (tf + tf_eflags) FL_IF) >>; kmod (st (tf + tf_esp) PGSIZE) >>; kmod (st (tf + tf_eip) 0) >>; rest) v e = rest (set_w_mem (first_tf tf) v) e.
Proof. reflexivity. Qed.

Lemma alter_at {A} (f : A -> A) j (xs : list A) y : xs !! j = Some y -> alter f j xs = <[j := f y]> xs.
Proof.
  intros Hy. apply list_eq. intros n. destruct (decide (j = n)) as [<-|Hne].
  - rewrite list_lookup_alter_eq, list_lookup_insert_eq, Hy by by eapply lookup_lt_Some. done.
  - by rewrite list_lookup_alter_ne, list_lookup_insert_ne.
Qed.

(** What userinit does, given the memory it gets. *)
Lemma userinit_eq d m2 f2 m4 f4 : let w2 := set_w_mem (fun _ => m2) (set_w_freelist (fun _ => f2) first_born) in
  let w3 := upd_proc q (set_p_pgdir (fun _ => d)) w2 in let w4 := set_w_mem (fun _ => m4) (set_w_freelist (fun _ => f4) w3) in
  setupkvm first_born e = Ret d w2 e -> d <> 0 -> inituvm d k_initcode w3 e = Ret tt w4 e ->
  exists w', userinit w e = Ret tt w' e /\ w_procs w' = <[q := first_proc (w_nextpid w) k d ip x]> (w_procs w) /\ w_initproc w' = Some q /\
    w_mem w' = first_tf (k + KSTACKSIZE - TF_SIZE) m4 /\ w_freelist w' = f4 /\ w_inodes w' = w_inodes (got ROOTDEV ROOTINO ip w) /\ kcpu w' i c /\
    w_con w' = w_con w /\ w_idt w' = w_idt w /\ w_bufs w' = w_bufs w /\ w_uselock w' = w_uselock w /\ w_if w' = w_if w.
Proof using All.
  intros w2 w3 w4 E2 Hd E4. pose proof first_born_kcpu as Hk1. destruct (born_held w us k l q Hheld) as (Hfl & _ & _).
  set (w5 := upd_proc q (set_p_sz (fun _ => PGSIZE)) w4). set (tf := k + KSTACKSIZE - TF_SIZE).
  set (w7 := upd_proc q (set_p_name (fun s => safestrcpy s (str "initcode") 16)) (set_w_mem (first_tf tf) w5)).
  set (w9 := upd_proc q (set_p_cwd (fun _ => Some ip)) (got ROOTDEV ROOTINO ip w7)). set (y := set_p_sz (fun _ => PGSIZE) (set_p_pgdir (fun _ => d) (newborn (w_nextpid w) k x))).
  assert (w_procs w5 = <[q := y]> (w_procs w)) as Hps5 by (cbn; rewrite Hfl, (alter_at _ _ _ x Hx), !alter_put; done).
  assert (kcpu w7 i c) as Hk7 by exact (kcpu_frame first_born i c Hk1 (fun v => upd_proc q (set_p_name (fun s => safestrcpy s (str "initcode") 16)) (set_w_mem (first_tf tf)
    (upd_proc q (set_p_sz (fun _ => PGSIZE)) (set_w_mem (fun _ => m4) (set_w_freelist (fun _ => f4) (upd_proc q (set_p_pgdir (fun _ => d)) (set_w_mem (fun _ => m2) (set_w_freelist (fun _ => f2) v))))))))).
  assert (kcpu w9 i c) as Hk9 by exact (kcpu_frame w7 i c Hk7 (fun v => upd_proc q (set_p_cwd (fun _ => Some ip)) (got ROOTDEV ROOTINO ip v))).
  exists (upd_proc q (set_p_state (fun _ => RUNNABLE)) w9). split; [|split; [|split_and!]].
  - unfold userinit. unfold kbind at 1. rewrite first_alloc. unfold kbind at 1. cbn [kmod]. fold first_born. unfold kderef. unfold kbind at 1. cbn [kret]. unfold kbind at 1. rewrite E2.
    unfold kbind at 1. cbn [kmod]. fold w3. rewrite (proj2 (Z.eqb_neq d 0) Hd). unfold kbind at 1. rewrite E4. unfold kbind at 1. cbn [kmod]. fold w5. unfold kbind at 1.
    rewrite (get_proc_eq w5 q y) by (rewrite Hps5; apply list_lookup_insert_eq; by eapply lookup_lt_Some). change (p_tf y) with tf. rewrite tf_writes. unfold kbind at 1. cbn [kmod]. fold w7.
    unfold kbind at 1. rewrite (namei_root w7 i c Hk7 ip e Hroot Hfree). unfold kbind at 1. cbn [kmod]. fold w9. unfold kbind at 1. rewrite (kcpu_acquire w9 i c Hk9 PtableLock) by done.
    unfold set_state. unfold kbind at 1. cbn [kmod]. by rewrite (kcpu_release w9 i c Hk9 PtableLock (upd_proc q (set_p_state (fun _ => RUNNABLE)))).
  - change (w_procs (upd_proc q (set_p_state (fun _ => RUNNABLE)) w9)) with (alter (set_p_state (fun _ => RUNNABLE)) q (alter (set_p_cwd (fun _ => Some ip)) q
      (alter (set_p_name (fun s => safestrcpy s (str "initcode") 16)) q (w_procs w5)))). rewrite Hps5, !alter_put. done.
  - done.
  - done.
  - done.
  - done.
  - exact (kcpu_frame w9 i c Hk9 (upd_proc q (set_p_state (fun _ => RUNNABLE)))).
  - done.
  - done.
  - done.
  - done.
  - done.
Qed.

(** The first process, in [w'], made from the free page [k] and the pages after it. *)
Definition first_made (w' : world) : Prop := exists pr pts pg l', w_procs w' = <[q := pr]> (w_procs w) /\ w_initproc w' = Some q /\
  (p_state pr = RUNNABLE /\ p_pid pr = w_nextpid w /\ p_sz pr = PGSIZE /\ p_cwd pr = Some ip) /\
  umem w' (p_pgdir pr) (p_sz pr) pts {[0 := (pg, 7)]} (k :: us) l' /\ holds_bytes (w_mem w') pg k_initcode /\
  (ld w' (p_tf pr + tf_eip) = 0 /\ ld w' (p_tf pr + tf_esp) = PGSIZE /\ ld w' (p_tf pr + tf_eflags) = FL_IF /\ ld w' (p_tf pr + tf_cs) = 27 /\
   ld w' (p_tf pr + tf_ds) = 35 /\ ld w' (p_tf pr + tf_es) = 35 /\ ld w' (p_tf pr + tf_ss) = 35) /\
  (ld w' (p_context pr + ctx_eip) = u32 k_forkret /\ ld w' (p_context pr + CTX_SIZE) = u32 k_trapret) /\
  exists nd, w_inodes w' !! ip = Some nd /\ i_dev nd = ROOTDEV /\ i_inum nd = ROOTINO /\ i_ref nd = 1.

Lemma first_made_ext w1 w2 : w_procs w2 = w_procs w1 -> w_initproc w2 = w_initproc w1 -> w_mem w2 = w_mem w1 -> w_freelist w2 = w_freelist w1 ->
  w_inodes w2 = w_inodes w1 -> first_made w1 -> first_made w2.
Proof.
  intros Hp Hi Hm Hf Hn (pr & pts & pg & l' & Ha1 & Ha2 & Ha3 & [Hu1 Hu2 Hu3] & Ha5). exists pr, pts, pg, l'. unfold ld in *. rewrite Hp, Hi, Hm, Hn.
  split; [done|]. split; [done|]. split; [done|]. split; [|done]. split; [by eapply aspace_ext|done|done].
Qed.

Lemma userinit_makes : exists w', userinit w e = Ret tt w' e /\ first_made w' /\ kcpu w' i c /\
  w_con w' = w_con w /\ w_idt w' = w_idt w /\ w_bufs w' = w_bufs w /\ w_uselock w' = w_uselock w /\ w_if w' = w_if w.
Proof using All.
  destruct first_memory as (d & m2 & f2 & pg & m4 & f4 & pts & l' & E2 & Hd & E4 & Has & Hb & Hks). destruct (userinit_eq d m2 f2 m4 f4 E2 Hd E4) as (w' & E & Hps & Hini & Hm & Hfl & Hin & Hk' & Hrest).
  destruct (born_held w us k l q Hheld) as (Hfl0 & Hkok & _). pose proof (page_ok_mod k Hkok) as Hkm. set (tf := k + KSTACKSIZE - TF_SIZE) in *.
  pose proof (first_tf_frame k m4 Hkm) as Hf. fold tf in Hf. match type of Has with aspace ?v _ _ _ _ _ => set (w4 := v) in * end.
  exists w'. split; [exact E|]. split; [|split; [exact Hk'|exact Hrest]]. exists (first_proc (w_nextpid w) k d ip x), pts, pg, l'. split; [exact Hps|]. split; [exact Hini|]. split; [done|].
  assert (aspace w' d pts {[0 := (pg, 7)]} (k :: us) l') as Has'.
  { apply (aspace_poke w4 d pts _ (k :: us) l' k (first_tf tf)) in Has; [|apply elem_of_app; right; left|exact Hf]. revert Has. apply aspace_ext; [exact Hm|exact Hfl]. }
  split; [split; [exact Has'|done|exact (one_page pg)]|]. split.
  { rewrite Hm. intros j Hj. rewrite <-Hb by done. destruct (aspace_page _ _ _ _ _ _ 0 pg 7 Has' eq_refl) as (Hpg & _). apply ldb_same; [by apply page_ok_mod|done|]. intros b Hb'.
    apply (mem_frame_page [k] _ _ pg b Hf); [apply page_ok_all; by constructor|by apply page_ok_mod| |done]. intros ->%list_elem_of_singleton.
    destruct (as_inv _ _ _ _ _ _ Has') as (_ & _ & Hnd & _). apply NoDup_cons in Hnd as [_ Hnd]. apply NoDup_app in Hnd as (_ & _ & Hnd). apply NoDup_app in Hnd as (Hnd & _ & _).
    apply NoDup_app in Hnd as (_ & Hnd & _). apply (Hnd k); [apply pages_elem; by exists 0, 7|left]. }
  assert (forall a, ld w' a = ldm (first_tf tf m4) a) as Hld by (intros a; unfold ld; by rewrite Hm). rewrite !Hld. change (p_tf (first_proc (w_nextpid w) k d ip x)) with tf. change (p_context (first_proc (w_nextpid w) k d ip x)) with (tf - 4 - CTX_SIZE).
  destruct (first_tf_words k m4 Hkm) as (W1 & W2 & W3 & W4 & W5 & W6 & W7). split; [by split_and!|]. split.
  - destruct (kstack_words k (w_mem w) Hkm) as (K1 & K2 & _). unfold ctx_eip, CTX_SIZE in *.
    unfold tf. rewrite !first_tf_below by (try done; lia). unfold KSTACKSIZE, TF_SIZE in *. rewrite !Hks by (unfold PGSIZE; lia). cbn [born w_mem set_w_mem]. rewrite Hfl0. split; [exact K2|].
    rewrite <-K1. f_equal. lia.
  - rewrite Hin. apply find_idx_Some in Hfree as (nd & Hnd & _). eexists. split; [cbn; rewrite !list_lookup_alter_eq, Hnd; done|]. done.
Qed.

(** C11. userinit makes the first process in the entry of the table that is free, with the next pid,
    RUNNABLE and as [initproc]: its memory is one page, mapped at 0, that holds initcode followed by
    zeros; its registers start it at address 0 in user mode with interrupts on and its stack at the
    end of the page; its kernel stack starts it in forkret, which returns to trapret; its current
    directory is the root.  Nothing else of the process table changes. *)
Theorem userinit_first : exists w', userinit w e = Ret tt w' e /\ first_made w'.
Proof using All. destruct userinit_makes as (w' & E & Hf & _). by exists w'. Qed.
End first.
End userinit.

(** ** The statement on an example *)

#[local] Existing Instance demo_image.
#[local] Existing Instance memide.
Definition no_devices : DevSwitch := {| dev_read _ := None; dev_write _ := None |}.

Lemma userinit_first_witness : exists w' pr, @userinit demo_image memide no_devices sp_ctx [] = Ret tt w' [] /\ w_procs w' !! 0%nat = Some pr /\ p_state pr = RUNNABLE /\ w_initproc w' = Some 0%nat.
Proof.
  destruct (@userinit_first demo_image memide no_devices sp_ctx 0 ctx_cpu 0 0 zero_proc (all_pages sp_dir sp_pts sp_um [sp_kstack])
    (page_range (sp_free + PGSIZE) (Z.to_nat 2999)) sp_free []) as (w' & E & pr & pts & pg & l' & Hps & Hi & (Hst & _) & _).
  - exact (kctx_kcpu _ _ _ _ _ sp_kctx).
  - exact sp_image.
  - rewrite <-sp_pages. apply aspace_held, sp_aspace.
  - unfold page_range. rewrite length_fmap, length_seq. lia.
  - reflexivity.
  - reflexivity.
  - discriminate.
  - reflexivity.
  - reflexivity.
  - reflexivity.
  - exists w', pr. split; [exact E|]. split; [rewrite Hps; reflexivity|]. split; [exact Hst|exact Hi].
Defined.
