(* ===== verification/Exec.v ===== *)
(** * Loading programs (exec.c, elf.h, loaduvm of vm.c) *)

From Stdlib Require Import ZArith Lia.
From stdpp Require Import base list gmap strings numbers.
From S2P Require Import Prelude Machine Cstring Spinlock Boot Kalloc Cprintf Sched Vm Sleeplock.
From S2P Require Import Layout Bio Log Fs Pipe File Proc.
Local Open Scope Z_scope.
Local Open Scope kern_scope.

(** ** elf.h *)

Definition ELF_MAGIC : Z := 0x464C457F.
Definition ELF_PROG_LOAD : Z := 1.
(** [struct elfhdr]: the fields exec uses *)
Definition ELFHDR : Z := 52.
Definition elf_magic (l : list Z) : Z := get 4 l 0.
Definition elf_entry (l : list Z) : Z := get 4 l 24.
Definition elf_phoff (l : list Z) : Z := get 4 l 28.
Definition elf_phnum (l : list Z) : Z := get 2 l 44.
(** [struct proghdr] *)
Definition PROGHDR : Z := 32.
Definition ph_type (l : list Z) : Z := get 4 l 0.
Definition ph_off (l : list Z) : Z := get 4 l 4.
Definition ph_vaddr (l : list Z) : Z := get 4 l 8.
Definition ph_filesz (l : list Z) : Z := get 4 l 16.
Definition ph_memsz (l : list Z) : Z := get 4 l 20.

(** The part of a path after the last slash. *)
Fixpoint last_elem (last s : list Z) : list Z :=
  match s with
  | [] => last
  | c :: s' => if c =? 0 then last else last_elem (if c =? 47 then s' else last) s'
  end.

Section exec.
Context `{KernelImage} `{DiskDriver} `{DevSwitch}.

(** The loop of loaduvm; [k] bounds the turns. *)
Fixpoint loaduvm_loop (k : nat) (pgdir addr : Z) (ip : nat) (offset sz i : Z) : KM Z :=
  match k with
  | O => kout
  | S k' =>
    if i <? sz then
      pte <- walkpgdir pgdir (u32 (addr + i)) false;
      if pte =? 0 then kpanic "loaduvm: address should exist" else
      v <- kget (fun w => ld w pte);
      let pa := PTE_ADDR v in
      let n := if sz - i <? PGSIZE then sz - i else PGSIZE in
      r <- readi ip (u32 (offset + i)) n;
      kmod (set_w_mem (put_bytes (P2V pa) (snd r))) >>;
      if negb (u32 (fst r) =? n) then kret (-1)
      else loaduvm_loop k' pgdir addr ip offset sz (u32 (i + PGSIZE))
    else kret 0
  end.

Definition loaduvm (pgdir addr : Z) (ip : nat) (offset sz : Z) : KM Z :=
  if negb (addr mod PGSIZE =? 0) then kpanic "loaduvm: addr must be page aligned" else
  loaduvm_loop (Z.to_nat (sz / PGSIZE) + 2) pgdir addr ip offset sz 0.

(** [bad:] *)
Definition exec_bad (pgdir : Z) (ip : option nat) : KM Z :=
  kwhen (negb (pgdir =? 0)) (freevm pgdir) >>;
  (match ip with
   | Some ip => iunlockput ip >>; end_op
   | None => kret tt
   end) >>;
  kret (-1).

(** The loop over the program headers: the size reached, or [None] at [goto bad]; [n] is
    the number of headers left. *)
Fixpoint exec_load (n : nat) (pgdir : Z) (ip : nat) (off sz : Z) : KM (option Z) :=
  match n with
  | O => kret (Some sz)
  | S n' =>
    r <- readi ip (u32 off) PROGHDR;
    let '(cnt, ph) := r in
    if negb (cnt =? PROGHDR) then kret None else
    if negb (ph_type ph =? ELF_PROG_LOAD) then exec_load n' pgdir ip (off + PROGHDR) sz else
    if ph_memsz ph <? ph_filesz ph then kret None else
    if u32 (ph_vaddr ph + ph_memsz ph) <? ph_vaddr ph then kret None else
    sz <- allocuvm pgdir sz (u32 (ph_vaddr ph + ph_memsz ph));
    if sz =? 0 then kret None else
    if negb (ph_vaddr ph mod PGSIZE =? 0) then kret None else
    r <- loaduvm pgdir (ph_vaddr ph) ip (ph_off ph) (ph_filesz ph);
    if r <? 0 then kret None else exec_load n' pgdir ip (off + PROGHDR) sz
  end.

(** The loop that pushes the argument strings: the stack pointer and the words
    [ustack[3..]], or [None] at [goto bad]. *)
Fixpoint exec_args (argv : list (list Z)) (argc : Z) (pgdir sp : Z) (ustack : list Z)
  : KM (option (Z * list Z)) :=
  match argv with
  | [] => kret (Some (sp, ustack))
  | arg :: argv' =>
    if argc >=? MAXARG then kret None else
    let len := Z.of_nat (strlen arg) in
    let sp := Z.land (u32 (sp - (len + 1))) (u32 (Z.lnot 3)) in
    r <- copyout pgdir sp (cstr arg ++ [0]);
    if r <? 0 then kret None else exec_args argv' (argc + 1) pgdir sp (ustack ++ [sp])
  end.

(** The words of the stack frame as bytes. *)
Definition words_bytes (ws : list Z) : list Z := ws ≫= le 4.

(** From the program size on: the stack, the arguments and the switch to the new image. *)
Definition exec_stack (cur : nat) (path : list Z) (argv : list (list Z)) (elf : list Z) (pgdir sz : Z)
  : KM Z :=
  let sz := PGROUNDUP sz in
  sz <- allocuvm pgdir sz (u32 (sz + 2 * PGSIZE));
  if sz =? 0 then exec_bad pgdir None else
  clearpteu pgdir (u32 (sz - 2 * PGSIZE)) >>;
  r <- exec_args argv 0 pgdir sz [];
  match r with
  | None => exec_bad pgdir None
  | Some (sp, args) =>
    let argc := Z.of_nat (length args) in
    let ustack := [0xffffffff; argc; u32 (sp - (argc + 1) * 4)] ++ args ++ [0] in
    let sp := u32 (sp - (3 + argc + 1) * 4) in
    r <- copyout pgdir sp (words_bytes ustack);
    if r <? 0 then exec_bad pgdir None else
    kmod (upd_proc cur (set_p_name (fun s => safestrcpy s (last_elem path path) 16))) >>;
    pr <- get_proc cur;
    let oldpgdir := p_pgdir pr in
    kmod (upd_proc cur (set_p_pgdir (fun _ => pgdir))) >>;
    kmod (upd_proc cur (set_p_sz (fun _ => sz))) >>;
    kmod (st (p_tf pr + tf_eip) (elf_entry elf)) >>;
    kmod (st (p_tf pr + tf_esp) sp) >>;
    switchuvm (Some cur) >>;
    freevm oldpgdir >>;
    kret 0
  end.

Definition exec (path : list Z) (argv : list (list Z)) : KM Z :=
  cur <- curproc;
  begin_op >>;
  ip <- namei path;
  match ip with
  | None => end_op >>; printkn "exec: fail" [] >>; kret (-1)
  | Some ip =>
    ilock (Some ip) >>;
    r <- readi ip 0 ELFHDR;
    let '(cnt, elf) := r in
    if negb (cnt =? ELFHDR) then exec_bad 0 (Some ip) else
    if negb (elf_magic elf =? ELF_MAGIC) then exec_bad 0 (Some ip) else
    pgdir <- setupkvm;
    if pgdir =? 0 then exec_bad 0 (Some ip) else
    r <- exec_load (Z.to_nat (elf_phnum elf)) pgdir ip (elf_phoff elf) 0;
    match r with
    | None => exec_bad pgdir (Some ip)
    | Some sz =>
      iunlockput ip >>;
      end_op >>;
      exec_stack cur path argv elf pgdir sz
    end
  end.
End exec.
