(* ===== verification/Args.v ===== *)
(** * System call arguments (syscall.c)

    User memory as the kernel reaches it, through the page table in %cr3, and the
    functions that fetch and check system call arguments. *)

From Stdlib Require Import ZArith Lia.
From stdpp Require Import base list gmap strings numbers.
From S2P Require Import Prelude Machine Cstring Spinlock Boot Kalloc Cprintf Sched Vm Sleeplock.
From S2P Require Import Layout Bio Log Fs Pipe File Proc.
Local Open Scope Z_scope.
Local Open Scope kern_scope.

(** ** User memory *)

(** The entry the hardware finds for [va], 0 when there is none. *)
Definition hw_pte (w : world) (va : Z) : Z :=
  let pde := ld w (P2V (w_cr3 w) + 4 * PDX va) in
  if has pde PTE_P then ld w (P2V (PTE_ADDR pde) + 4 * PTX va) else 0.

(** The kernel address of the byte at user address [va]; a missing page, or a read-only one
    for a write, traps. *)
Definition translate (w : world) (va : Z) (write : bool) : option Z :=
  let e := hw_pte w va in
  if has e PTE_P && (negb write || has e PTE_W) then Some (P2V (PTE_ADDR e) + va mod PGSIZE)
  else None.

Definition uldb (va : Z) : KM Z :=
  fun w e => match translate w va false with
             | Some a => Ret (ldb (w_mem w) a) w e
             | None => Panic "trap" w
             end.
Definition ustb (va v : Z) : KM unit :=
  fun w e => match translate w va true with
             | Some a => Ret tt (set_w_mem (stb a v) w) e
             | None => Panic "trap" w
             end.

Fixpoint uload (n : nat) (va : Z) : KM (list Z) :=
  match n with
  | O => kret []
  | S n' => b <- uldb va; r <- uload n' (u32 (va + 1)); kret (b :: r)
  end.
Fixpoint ustore (va : Z) (bs : list Z) : KM unit :=
  match bs with
  | [] => kret tt
  | b :: bs' => ustb va b >>; ustore (u32 (va + 1)) bs'
  end.

(** [*(int* )addr] *)
Definition uld32 (va : Z) : KM Z := bs <- uload 4 va; kret (s32 (le_val bs)).

(** ** Arguments *)

(** [None] is the return of -1; [Some v] the return of 0 with [v] stored. *)
Definition fetchint (addr : Z) : KM (option Z) :=
  p <- curproc;
  pr <- get_proc p;
  if (addr >=? p_sz pr) || (u32 (addr + 4) >? p_sz pr) then kret None else
  v <- uld32 addr;
  kret (Some v).

(** The loop of fetchstr: the bytes before the NUL; [n] is [ep - s]. *)
Fixpoint fetchstr_loop (n : nat) (s : Z) : KM (option (list Z)) :=
  match n with
  | O => kret None
  | S n' =>
    c <- uldb s;
    if c =? 0 then kret (Some []) else
    r <- fetchstr_loop n' (u32 (s + 1));
    kret (cons c <$> r)
  end.

(** [None] is the return of -1; otherwise the string [*pp] points to, whose length is the
    return value. *)
Definition fetchstr (addr : Z) : KM (option (list Z)) :=
  p <- curproc;
  pr <- get_proc p;
  if addr >=? p_sz pr then kret None else
  fetchstr_loop (Z.to_nat (p_sz pr - addr)) addr.

Definition argint (n : Z) : KM (option Z) :=
  p <- curproc;
  pr <- get_proc p;
  esp <- kget (fun w => ld w (p_tf pr + tf_esp));
  fetchint (u32 (esp + 4 + 4 * n)).

Definition argptr (n size : Z) : KM (option Z) :=
  p <- curproc;
  r <- argint n;
  match r with
  | None => kret None
  | Some i =>
    pr <- get_proc p;
    if (size <? 0) || (u32 i >=? p_sz pr) || (u32 (u32 i + size) >? p_sz pr) then kret None
    else kret (Some (u32 i))
  end.

Definition argstr (n : Z) : KM (option (list Z)) :=
  r <- argint n;
  match r with
  | None => kret None
  | Some addr => fetchstr (u32 addr)
  end.
