(* ===== verification/Sysfile.v ===== *)
(** * File system calls (sysfile.c) *)

From Stdlib Require Import ZArith Lia.
From stdpp Require Import base list gmap strings numbers.
From S2P Require Import Prelude Machine Cstring Spinlock Boot Kalloc Cprintf Sched Vm Sleeplock.
From S2P Require Import Layout Bio Log Fs Pipe File Proc Exec Args.
Local Open Scope Z_scope.
Local Open Scope kern_scope.

(** [ip->nlink += d], a short *)
Definition add_nlink (ip : nat) (d : Z) : KM unit :=
  kmod (upd_inode ip (set_i_nlink (fun n => s16 (n + d)))).

(** The descriptor and the file, [None] when -1 is returned. *)
Definition argfd (n : Z) : KM (option (Z * nat)) :=
  r <- argint n;
  match r with
  | None => kret None
  | Some fd =>
    if (fd <? 0) || (fd >=? Z.of_nat NOFILE) then kret None else
    p <- curproc;
    pr <- get_proc p;
    match p_ofile pr !! Z.to_nat fd with
    | Some (Some f) => kret (Some (fd, f))
    | _ => kret None
    end
  end.

Definition fdalloc (f : nat) : KM Z :=
  p <- curproc;
  pr <- get_proc p;
  match find_idx (fun o => bool_decide (o = None)) (take NOFILE (p_ofile pr)) with
  | Some fd => kmod (upd_proc p (set_p_ofile (insert fd (Some f)))) >>; kret (Z.of_nat fd)
  | None => kret (-1)
  end.

Definition set_ofile (fd : Z) (o : option nat) : KM unit :=
  p <- curproc; kmod (upd_proc p (set_p_ofile (insert (Z.to_nat fd) o))).

Definition sys_dup : KM Z :=
  r <- argfd 0;
  match r with
  | None => kret (-1)
  | Some (_, f) =>
    fd <- fdalloc f;
    if fd <? 0 then kret (-1) else
    filedup f >>; kret fd
  end.

Section sysfile.
Context `{KernelImage} `{DiskDriver} `{DevSwitch}.

Definition sys_read : KM Z :=
  r <- argfd 0;
  match r with
  | None => kret (-1)
  | Some (_, f) =>
    n <- argint 2;
    match n with
    | None => kret (-1)
    | Some n =>
      p <- argptr 1 n;
      match p with
      | None => kret (-1)
      | Some p => r <- fileread f n; ustore p (snd r) >>; kret (fst r)
      end
    end
  end.

Definition sys_write : KM Z :=
  r <- argfd 0;
  match r with
  | None => kret (-1)
  | Some (_, f) =>
    n <- argint 2;
    match n with
    | None => kret (-1)
    | Some n =>
      p <- argptr 1 n;
      match p with
      | None => kret (-1)
      | Some p => bs <- uload (Z.to_nat n) p; filewrite f bs
      end
    end
  end.

Definition sys_close : KM Z :=
  r <- argfd 0;
  match r with
  | None => kret (-1)
  | Some (fd, f) => set_ofile fd None >>; fileclose f >>; kret 0
  end.

(** The fields of [struct stat] at user address [a]. *)
Definition put_stat (a : Z) (st : stat) : KM unit :=
  ustore a (le 2 (st_type st)) >>;
  ustore (u32 (a + 4)) (le 4 (st_dev st)) >>;
  ustore (u32 (a + 8)) (le 4 (st_ino st)) >>;
  ustore (u32 (a + 12)) (le 2 (st_nlink st)) >>;
  ustore (u32 (a + 16)) (le 4 (st_size st)).
Definition STAT_SIZE : Z := 20.

Definition sys_fstat : KM Z :=
  r <- argfd 0;
  match r with
  | None => kret (-1)
  | Some (_, f) =>
    p <- argptr 1 STAT_SIZE;
    match p with
    | None => kret (-1)
    | Some p =>
      r <- filestat f;
      (match snd r with Some st => put_stat p st | None => kret tt end) >>;
      kret (fst r)
    end
  end.

(** A local [char name[DIRSIZ]]. *)
Definition name_buf : list Z := replicate (Z.to_nat DIRSIZ) 0.

(** [bad:] of sys_link *)
Definition link_bad (ip : nat) : KM Z :=
  ilock (Some ip) >>;
  add_nlink ip (-1) >>;
  iupdate ip >>;
  iunlockput ip >>;
  end_op >>;
  kret (-1).

Definition sys_link : KM Z :=
  old <- argstr 0;
  match old with
  | None => kret (-1)
  | Some old =>
    new <- argstr 1;
    match new with
    | None => kret (-1)
    | Some new =>
      begin_op >>;
      ip <- namei old;
      match ip with
      | None => end_op >>; kret (-1)
      | Some ip =>
        ilock (Some ip) >>;
        i <- get_inode ip;
        if i_type i =? T_DIR then iunlockput ip >>; end_op >>; kret (-1) else
        add_nlink ip 1 >>;
        iupdate ip >>;
        iunlock (Some ip) >>;
        r <- nameiparent new name_buf;
        let '(dp, name) := r in
        match dp with
        | None => link_bad ip
        | Some dp =>
          ilock (Some dp) >>;
          d <- get_inode dp;
          i <- get_inode ip;
          r <- (if negb (i_dev d =? i_dev i) then kret (-1) else dirlink dp name (i_inum i));
          if r <? 0 then iunlockput dp >>; link_bad ip else
          iunlockput dp >>;
          iput ip >>;
          end_op >>;
          kret 0
        end
      end
    end
  end.

(** The loop of isdirempty; [k] bounds the turns. *)
Fixpoint isdirempty_loop (k : nat) (dp : nat) (off : Z) : KM bool :=
  match k with
  | O => kout
  | S k' =>
    i <- get_inode dp;
    if u32 off <? i_size i then
      r <- readi dp (u32 off) DIRENT;
      if negb (fst r =? DIRENT) then kpanic "isdirempty: readi" else
      if negb (de_inum (snd r) =? 0) then kret false else isdirempty_loop k' dp (s32 (off + DIRENT))
    else kret true
  end.
Definition isdirempty (dp : nat) : KM bool :=
  i <- get_inode dp;
  isdirempty_loop (Z.to_nat (i_size i / DIRENT) + 2) dp (2 * DIRENT).

(** [bad:] of sys_unlink *)
Definition unlink_bad (dp : nat) : KM Z := iunlockput dp >>; end_op >>; kret (-1).

Definition sys_unlink : KM Z :=
  path <- argstr 0;
  match path with
  | None => kret (-1)
  | Some path =>
    begin_op >>;
    r <- nameiparent path name_buf;
    let '(dp, name) := r in
    match dp with
    | None => end_op >>; kret (-1)
    | Some dp =>
      ilock (Some dp) >>;
      if (namecmp name (str ".") =? 0) || (namecmp name (str "..") =? 0) then unlink_bad dp else
      r <- dirlookup dp name;
      match r with
      | None => unlink_bad dp
      | Some (ip, off) =>
        ilock (Some ip) >>;
        i <- get_inode ip;
        if i_nlink i <? 1 then kpanic "unlink: nlink < 1" else
        full <- (if i_type i =? T_DIR then em <- isdirempty ip; kret (negb em) else kret false);
        if (full : bool) then iunlockput ip >>; unlink_bad dp else
        r <- writei dp (replicate (Z.to_nat DIRENT) 0) off;
        if negb (r =? DIRENT) then kpanic "unlink: writei" else
        i <- get_inode ip;
        kwhen (i_type i =? T_DIR) (add_nlink dp (-1) >>; iupdate dp) >>;
        iunlockput dp >>;
        add_nlink ip (-1) >>;
        iupdate ip >>;
        iunlockput ip >>;
        end_op >>;
        kret 0
      end
    end
  end.

Definition create (path : list Z) (type major minor : Z) : KM (option nat) :=
  r <- nameiparent path name_buf;
  let '(dp, name) := r in
  match dp with
  | None => kret None
  | Some dp =>
    ilock (Some dp) >>;
    r <- dirlookup dp name;
    match r with
    | Some (ip, _) =>
      iunlockput dp >>;
      ilock (Some ip) >>;
      i <- get_inode ip;
      if (type =? T_FILE) && (i_type i =? T_FILE) then kret (Some ip)
      else iunlockput ip >>; kret None
    | None =>
      d <- get_inode dp;
      ip <- ialloc (i_dev d) type;
      ilock (Some ip) >>;
      kmod (upd_inode ip (set_i_major (fun _ => major))) >>;
      kmod (upd_inode ip (set_i_minor (fun _ => minor))) >>;
      kmod (upd_inode ip (set_i_nlink (fun _ => 1))) >>;
      iupdate ip >>;
      kwhen (type =? T_DIR)
        (add_nlink dp 1 >>;
         iupdate dp >>;
         i <- get_inode ip;
         r <- dirlink ip (str ".") (i_inum i);
         if r <? 0 then kpanic "create dots" else
         d <- get_inode dp;
         r <- dirlink ip (str "..") (i_inum d);
         if r <? 0 then kpanic "create dots" else kret tt) >>;
      i <- get_inode ip;
      r <- dirlink dp name (i_inum i);
      if r <? 0 then kpanic "create: dirlink" else
      iunlockput dp >>;
      kret (Some ip)
    end
  end.

(** The inode sys_open opens, locked; [None] when it returns -1 at once. *)
Definition open_inode (path : list Z) (omode : Z) : KM (option nat) :=
  if flag omode O_CREATE then
    ip <- create path T_FILE 0 0;
    match ip with
    | None => end_op >>; kret None
    | Some ip => kret (Some ip)
    end
  else
    ip <- namei path;
    match ip with
    | None => end_op >>; kret None
    | Some ip =>
      ilock (Some ip) >>;
      i <- get_inode ip;
      if (i_type i =? T_DIR) && negb (omode =? O_RDONLY)
      then iunlockput ip >>; end_op >>; kret None
      else kret (Some ip)
    end.

Definition sys_open : KM Z :=
  path <- argstr 0;
  match path with
  | None => kret (-1)
  | Some path =>
    omode <- argint 1;
    match omode with
    | None => kret (-1)
    | Some omode =>
      begin_op >>;
      ip <- open_inode path omode;
      match ip with
      | None => kret (-1)
      | Some ip =>
        let fail (f : option nat) :=
          (match f with Some f => fileclose f | None => kret tt end) >>;
          iunlockput ip >>; end_op >>; kret (-1) in
        f <- filealloc;
        match f with
        | None => fail None
        | Some g =>
          fd <- fdalloc g;
          if fd <? 0 then fail f else
          iunlock (Some ip) >>;
          end_op >>;
          kmod (upd_file g (fun fl => mkFile FD_INODE (f_ref fl)
            (if flag omode O_WRONLY then 0 else 1)
            (if flag omode O_WRONLY || flag omode O_RDWR then 1 else 0)
            (f_pipe fl) (Some ip) 0)) >>;
          kret fd
        end
      end
    end
  end.

Definition sys_mkdir : KM Z :=
  begin_op >>;
  path <- argstr 0;
  ip <- (match path with None => kret None | Some path => create path T_DIR 0 0 end);
  match ip with
  | None => end_op >>; kret (-1)
  | Some ip => iunlockput ip >>; end_op >>; kret 0
  end.

Definition sys_mknod : KM Z :=
  begin_op >>;
  path <- argstr 0;
  ip <- (match path with
         | None => kret None
         | Some path =>
           major <- argint 1;
           match major with
           | None => kret None
           | Some major =>
             minor <- argint 2;
             match minor with
             | None => kret None
             | Some minor => create path T_DEV (s16 major) (s16 minor)
             end
           end
         end);
  match ip with
  | None => end_op >>; kret (-1)
  | Some ip => iunlockput ip >>; end_op >>; kret 0
  end.

Definition sys_chdir : KM Z :=
  cur <- curproc;
  begin_op >>;
  path <- argstr 0;
  ip <- (match path with None => kret None | Some path => namei path end);
  match ip with
  | None => end_op >>; kret (-1)
  | Some ip =>
    ilock (Some ip) >>;
    i <- get_inode ip;
    if negb (i_type i =? T_DIR) then iunlockput ip >>; end_op >>; kret (-1) else
    iunlock (Some ip) >>;
    pr <- get_proc cur;
    cwd <- kderef (p_cwd pr);
    iput cwd >>;
    end_op >>;
    kmod (upd_proc cur (set_p_cwd (fun _ => Some ip))) >>;
    kret 0
  end.

(** The loop of sys_exec: the argument strings, or [None] when it returns -1; [n] is
    [NELEM(argv) - i]. *)
Fixpoint exec_argv (n : nat) (uargv i : Z) : KM (option (list (list Z))) :=
  match n with
  | O => kret None
  | S n' =>
    uarg <- fetchint (u32 (uargv + 4 * i));
    match uarg with
    | None => kret None
    | Some uarg =>
      if uarg =? 0 then kret (Some []) else
      s <- fetchstr (u32 uarg);
      match s with
      | None => kret None
      | Some s => r <- exec_argv n' uargv (i + 1); kret (cons s <$> r)
      end
    end
  end.

Definition sys_exec : KM Z :=
  path <- argstr 0;
  match path with
  | None => kret (-1)
  | Some path =>
    uargv <- argint 1;
    match uargv with
    | None => kret (-1)
    | Some uargv =>
      argv <- exec_argv (Z.to_nat MAXARG) (u32 uargv) 0;
      match argv with
      | None => kret (-1)
      | Some argv => exec path argv
      end
    end
  end.

Definition sys_pipe : KM Z :=
  fd <- argptr 0 8;
  match fd with
  | None => kret (-1)
  | Some fd =>
    r <- pipealloc;
    match r with
    | None => kret (-1)
    | Some (rf, wf) =>
      let fail := fileclose rf >>; fileclose wf >>; kret (-1) in
      fd0 <- fdalloc rf;
      if fd0 <? 0 then fail else
      fd1 <- fdalloc wf;
      if fd1 <? 0 then set_ofile fd0 None >>; fail else
      ustore fd (le 4 fd0) >>;
      ustore (u32 (fd + 4)) (le 4 fd1) >>;
      kret 0
    end
  end.
End sysfile.
