(* ===== verification/Kbd.v ===== *)
(** * The keyboard (kbd.c, kbd.h) *)

From Stdlib Require Import ZArith Lia.
From stdpp Require Import base list gmap strings numbers.
From S2P Require Import Prelude Machine Cstring.
Local Open Scope Z_scope.
Local Open Scope kern_scope.

Definition SHIFT : Z := 1.
Definition CTL : Z := 2.
Definition ALT : Z := 4.
Definition CAPSLOCK : Z := 8.
Definition NUMLOCK : Z := 16.
Definition SCROLLLOCK : Z := 32.
Definition E0ESC : Z := 64.

(** A table of 256 bytes: the first entries in order, then those given by index. *)
Definition table (first : list Z) (rest : list (nat * Z)) : list Z :=
  foldl (fun t kv => <[fst kv := snd kv]> t) (first ++ replicate (256 - length first) 0) rest.

Definition shiftcode : list Z :=
  table [] [(0x1D%nat, CTL); (0x2A%nat, SHIFT); (0x36%nat, SHIFT); (0x38%nat, ALT); (0x9D%nat, CTL);
            (0xB8%nat, ALT)].
Definition togglecode : list Z :=
  table [] [(0x3A%nat, CAPSLOCK); (0x45%nat, NUMLOCK); (0x46%nat, SCROLLLOCK)].

(** The entries all three character maps share: KP_Enter, KP_Div and the special keys. *)
Definition specials (enter div : Z) : list (nat * Z) :=
  [(0x9C%nat, enter); (0xB5%nat, div);
   (0xC8%nat, 0xE2); (0xD0%nat, 0xE3); (0xC9%nat, 0xE6); (0xD1%nat, 0xE7); (0xCB%nat, 0xE4);
   (0xCD%nat, 0xE5); (0x97%nat, 0xE0); (0xCF%nat, 0xE1); (0xD2%nat, 0xE8); (0xD3%nat, 0xE9)].

Definition keypad : list Z := str "789-456+1230.".

Definition normalmap : list Z :=
  table ([0; 0x1B] ++ str "1234567890-=" ++ [8; 9] ++ str "qwertyuiop[]" ++ [10; 0] ++
         str "asdfghjkl;'`" ++ [0] ++ str "\zxcvbnm,./" ++ [0] ++ str "*" ++ [0; 32] ++
         replicate 13 0 ++ keypad ++ replicate 4 0)
    (specials 10 47).
Definition shiftmap : list Z :=
  table ([0; 27] ++ str "!@#$%^&*()_+" ++ [8; 9] ++ str "QWERTYUIOP{}" ++ [10; 0] ++
         str "ASDFGHJKL:" ++ [34] ++ str "~" ++ [0] ++ str "|ZXCVBNM<>?" ++ [0] ++ str "*" ++ [0; 32] ++
         replicate 13 0 ++ keypad ++ replicate 4 0)
    (specials 10 47).
(** C(x) *)
Definition ctl (s : string) : list Z := (fun c => c - 64) <$> str s.
Definition ctlmap : list Z :=
  table (replicate 16 0 ++ ctl "QWERTYUIOP" ++ [0; 0; 13; 0] ++ ctl "ASDFGHJKL" ++ [0; 0; 0; 0] ++
         ctl "\ZXCVBNM" ++ [0; 0] ++ [u8 (47 - 64)] ++ [0; 0])
    (specials 13 (u8 (47 - 64))).

Definition charcode : list (list Z) := [normalmap; shiftmap; ctlmap; ctlmap].

Definition tab (t : list Z) (i : Z) : Z := default 0 (t !! Z.to_nat i).

(** [if(shift & CAPSLOCK)] swap the case of a letter. *)
Definition caps (shift c : Z) : Z :=
  if Z.land shift CAPSLOCK =? 0 then c else
  if (97 <=? c) && (c <=? 122) then c + (65 - 97) else
  if (65 <=? c) && (c <=? 90) then c + (97 - 65) else c.

(** The body of kbdgetc for the scan code [data] read from the port: the new [shift] and the
    return value. *)
Definition kbd_step (shift data : Z) : Z * Z :=
  if data =? 0xE0 then (Z.lor shift E0ESC, 0) else
  if negb (Z.land data 0x80 =? 0) then
    let data := if Z.land shift E0ESC =? 0 then Z.land data 0x7F else data in
    (Z.land shift (u32 (Z.lnot (Z.lor (tab shiftcode data) E0ESC))), 0)
  else
    let '(shift, data) :=
      if Z.land shift E0ESC =? 0 then (shift, data)
      else (Z.land shift (u32 (Z.lnot E0ESC)), Z.lor data 0x80) in
    let shift := Z.lor shift (tab shiftcode data) in
    let shift := Z.lxor shift (tab togglecode data) in
    let c := tab (default [] (charcode !! Z.to_nat (Z.land shift (Z.lor CTL SHIFT)))) data in
    (shift, caps shift c).

Definition kbdgetc : KM Z :=
  q <- kget w_kbdq;
  match q with
  | [] => kret (-1)
  | data :: q' =>
    kmod (set_w_kbdq (fun _ => q')) >>;
    sh <- kget w_shift;
    let '(sh', c) := kbd_step sh data in
    kmod (set_w_shift (fun _ => sh')) >>;
    kret c
  end.
