(* ===== verification/Console.v ===== *)
(** * Console input (console.c, uartgetc of uart.c)

    Line editing in [consoleintr], and [consoleread] and [consolewrite] behind the device
    switch. *)

From Stdlib Require Import ZArith Lia.
From stdpp Require Import base list gmap strings numbers.
From S2P Require Import Prelude Machine Cstring Spinlock Boot Kalloc Cprintf Sched Vm Sleeplock.
From S2P Require Import Layout Bio Log Fs Pipe File Proc Kbd.
Local Open Scope Z_scope.
Local Open Scope kern_scope.

Definition INPUT_BUF : Z := 128.
Definition CONSOLE : Z := 1.

Definition get_input : KM inputbuf := kget w_input.
Definition upd_input (g : inputbuf -> inputbuf) : KM unit := kmod (set_w_input g).

(** [input.buf[k % INPUT_BUF]] *)
Definition in_at (b : inputbuf) (k : Z) : Z := default 0 (in_buf b !! Z.to_nat (u32 k mod INPUT_BUF)).

(** [input.buf[input.e++ % INPUT_BUF] = c] *)
Definition in_put (c : Z) (b : inputbuf) : inputbuf :=
  set_in_e (fun e => u32 (e + 1)) (set_in_buf (insert (Z.to_nat (in_e b mod INPUT_BUF)) (u8 c)) b).

(** C('U'): erase the line; [n] bounds the turns. *)
Fixpoint kill_line (n : nat) : KM unit :=
  match n with
  | O => kout
  | S n' =>
    b <- get_input;
    if negb (in_e b =? in_w b) && negb (in_at b (in_e b - 1) =? 10) then
      upd_input (set_in_e (fun e => u32 (e - 1))) >>;
      consputc BACKSPACE >>;
      kill_line n'
    else kret tt
  end.

(** One character: the [switch] of consoleintr.  True is [doprocdump = 1]. *)
Definition console_char (c : Z) : KM bool :=
  if c =? 16 (* C('P') *) then kret true
  else if c =? 21 (* C('U') *) then kill_line (Z.to_nat INPUT_BUF + 1) >>; kret false
  else if (c =? 8) || (c =? 127) then
    b <- get_input;
    kwhen (negb (in_e b =? in_w b))
      (upd_input (set_in_e (fun e => u32 (e - 1))) >>; consputc BACKSPACE) >>;
    kret false
  else
    b <- get_input;
    (if negb (c =? 0) && (u32 (in_e b - in_r b) <? INPUT_BUF) then
       let c := if c =? 13 then 10 else c in
       upd_input (in_put c) >>;
       consputc c >>;
       b <- get_input;
       if (c =? 10) || (c =? 4) || (in_e b =? u32 (in_r b + INPUT_BUF)) then
         upd_input (set_in_w (fun _ => in_e b)) >>;
         wakeup (Some ChInput)
       else kret tt
     else kret tt) >>;
    kret false.

(** The loop over the characters [getc] delivers; [n] bounds the turns. *)
Fixpoint consoleintr_loop (n : nat) (getc : KM Z) (dump : bool) : KM bool :=
  match n with
  | O => kout
  | S n' =>
    c <- getc;
    if c >=? 0 then d <- console_char c; consoleintr_loop n' getc (dump || d)
    else kret dump
  end.

Definition consoleintr (n : nat) (getc : KM Z) : KM unit :=
  acquire ConsLock >>;
  dump <- consoleintr_loop n getc false;
  release ConsLock >>;
  if (dump : bool) then procdump else kret tt.

Definition kbdintr : KM unit := q <- kget w_kbdq; consoleintr (length q + 1) kbdgetc.

Definition uartgetc : KM Z :=
  u <- kget (fun w => cn_uart (w_con w));
  if u =? 0 then kret (-1) else
  q <- kget w_rxq;
  match q with
  | [] => kret (-1)
  | c :: q' => kmod (set_w_rxq (fun _ => q')) >>; kret c
  end.

Definition uartintr : KM unit := q <- kget w_rxq; consoleintr (length q + 1) uartgetc.

(** The wait of consoleread: false when the process has been killed. *)
Definition input_avail : KM bool :=
  kwait (b <- get_input;
         if in_r b =? in_w b then
           k <- mykilled;
           if (k : bool) then kret (Some false)
           else sleep (Some ChInput) (Some ConsLock) >>; kret None
         else kret (Some true)).

(** [while(n > 0)] of consoleread: whether it ran to its end, and the bytes stored. *)
Fixpoint consoleread_loop (n : nat) (first : bool) : KM (bool * list Z) :=
  match n with
  | O => kret (true, [])
  | S n' =>
    ok <- input_avail;
    if negb ok then kret (false, []) else
    b <- get_input;
    let c := in_at b (in_r b) in
    upd_input (set_in_r (fun r => u32 (r + 1))) >>;
    if c =? 4 (* C('D') *) then
      kwhen (negb first) (upd_input (set_in_r (fun r => u32 (r - 1)))) >>;
      kret (true, [])
    else if c =? 10 then kret (true, [c])
    else
      r <- consoleread_loop n' false;
      kret (fst r, c :: snd r)
  end.

Section console.
Context `{DiskDriver}.

Definition consoleread (ip : nat) (n : Z) : KM (Z * list Z) :=
  iunlock (Some ip) >>;
  acquire ConsLock >>;
  r <- consoleread_loop (Z.to_nat n) true;
  release ConsLock >>;
  ilock (Some ip) >>;
  kret (if fst r then Z.of_nat (length (snd r)) else -1, snd r).

Definition consolewrite (ip : nat) (buf : list Z) : KM Z :=
  iunlock (Some ip) >>;
  acquire ConsLock >>;
  kfor buf (fun c => consputc (Z.land c 0xff)) >>;
  release ConsLock >>;
  ilock (Some ip) >>;
  kret (Z.of_nat (length buf)).

(** The device switch after consoleinit. *)
Definition console_devsw : DevSwitch := {|
  dev_read m := if m =? CONSOLE then Some consoleread else None;
  dev_write m := if m =? CONSOLE then Some consolewrite else None
|}.
End console.

Definition consoleinit : KM unit :=
  initlock ConsLock "console" >>;
  upd_con (set_cn_locking (fun _ => 1)).
