(* ===== verification/Syscall.v ===== *)
(** * Process system calls, dispatch and traps (sysproc.c, syscall.c, trap.c) *)

From Stdlib Require Import ZArith Lia.
From stdpp Require Import base list gmap strings numbers.
From S2P Require Import Prelude Machine Cstring Spinlock Boot Kalloc Cprintf Sched Vm Sleeplock.
From S2P Require Import Layout Bio Log Fs Pipe File Proc Exec Args Sysfile Kbd Console.
Local Open Scope Z_scope.
Local Open Scope kern_scope.

(** ** sysproc.c *)

Definition sys_kill : KM Z :=
  pid <- argint 0;
  match pid with None => kret (-1) | Some pid => kill pid end.

Definition sys_getpid : KM Z := p <- curproc; pr <- get_proc p; kret (p_pid pr).

(** The loop of sys_sleep: false when the process has been killed. *)
Definition sleep_loop (ticks0 n : Z) : KM bool :=
  kwait (t <- kget w_ticks;
         if u32 (t - ticks0) <? u32 n then
           k <- mykilled;
           if (k : bool) then kret (Some false)
           else sleep (Some ChTicks) (Some TicksLock) >>; kret None
         else kret (Some true)).

Definition sys_sleep : KM Z :=
  n <- argint 0;
  match n with
  | None => kret (-1)
  | Some n =>
    acquire TicksLock >>;
    ticks0 <- kget w_ticks;
    ok <- sleep_loop ticks0 n;
    release TicksLock >>;
    kret (if ok : bool then 0 else -1)
  end.

Definition sys_uptime : KM Z :=
  acquire TicksLock >>;
  t <- kget w_ticks;
  release TicksLock >>;
  kret (s32 t).

Definition sys_setnice : KM Z :=
  pid <- argint 0;
  match pid with
  | None => kret (-1)
  | Some pid =>
    nice <- argint 1;
    match nice with None => kret (-1) | Some nice => setnice pid nice end
  end.

Definition sys_getnice : KM Z :=
  pid <- argint 0;
  match pid with None => kret (-1) | Some pid => getnice pid end.

Definition sys_ps : KM unit :=
  pid <- argint 0;
  match pid with None => kret tt | Some pid => ps pid end.

(** ** traps.h *)

Definition T_SYSCALL : Z := 64.
Definition T_IRQ0 : Z := 32.
Definition IRQ_TIMER : Z := 0.
Definition IRQ_KBD : Z := 1.
Definition IRQ_COM1 : Z := 4.
Definition IRQ_IDE : Z := 14.
Definition IRQ_SPURIOUS : Z := 31.

Section syscall.
Context `{KernelImage} `{DiskDriver} `{DevSwitch}.
(** What a call of the [void] function sys_ps leaves in %eax, which its caller takes for the
    return value. *)
Context (ps_eax : world -> Z).

Definition sys_fork : KM Z := fork.
Definition sys_exit : KM Z := exit >>; kret 0.
Definition sys_wait : KM Z := wait.

Definition sys_sbrk : KM Z :=
  n <- argint 0;
  match n with
  | None => kret (-1)
  | Some n =>
    p <- curproc;
    pr <- get_proc p;
    let addr := s32 (p_sz pr) in
    r <- growproc n;
    if r <? 0 then kret (-1) else kret addr
  end.

(** [syscalls[]], numbered by syscall.h. *)
Definition syscalls (num : Z) : option (KM Z) :=
  match num with
  | 1 => Some sys_fork | 2 => Some sys_exit | 3 => Some sys_wait | 4 => Some sys_pipe
  | 5 => Some sys_read | 6 => Some sys_kill | 7 => Some sys_exec | 8 => Some sys_fstat
  | 9 => Some sys_chdir | 10 => Some sys_dup | 11 => Some sys_getpid | 12 => Some sys_sbrk
  | 13 => Some sys_sleep | 14 => Some sys_uptime | 15 => Some sys_open | 16 => Some sys_write
  | 17 => Some sys_mknod | 18 => Some sys_unlink | 19 => Some sys_link | 20 => Some sys_mkdir
  | 21 => Some sys_close | 22 => Some sys_setnice | 23 => Some sys_getnice
  | 24 => Some (sys_ps >>; kget ps_eax)
  | _ => None
  end.
Definition NSYSCALLS : Z := 25.

Definition syscall : KM unit :=
  cur <- curproc;
  pr <- get_proc cur;
  num <- kget (fun w => s32 (ld w (p_tf pr + tf_eax)));
  match (if (num >? 0) && (num <? NSYSCALLS) then syscalls num else None) with
  | Some f =>
    r <- f;
    pr <- get_proc cur;
    kmod (st (p_tf pr + tf_eax) r)
  | None =>
    printkn "%d %s: unknown sys call %d" [AInt (p_pid pr); AStr (Some (p_name pr)); AInt num] >>;
    kmod (st (p_tf pr + tf_eax) (-1))
  end.

(** [if(myproc()->killed) exit();] *)
Definition exit_if_killed : KM unit :=
  k <- mykilled; if (k : bool) then exit else kret tt.

(** [if(myproc() && myproc()->killed && (tf->cs&3) == DPL_USER) exit();] *)
Definition exit_if_killed_user (tf : Z) : KM unit :=
  p <- myproc;
  match p with
  | None => kret tt
  | Some _ =>
    k <- mykilled;
    cs <- kget (fun w => ldh w (tf + tf_cs));
    if (k : bool) && (Z.land cs 3 =? DPL_USER) then exit else kret tt
  end.

(** The [switch] of trap, with the interrupt controller's acknowledgements left out. *)
Definition trap_switch (tf trapno : Z) : KM unit :=
  if trapno =? T_IRQ0 + IRQ_TIMER then
    id <- cpuid;
    kwhen (id =? 0)
      (acquire TicksLock >>;
       kmod (set_w_ticks (fun t => u32 (t + 1))) >>;
       wakeup (Some ChTicks) >>;
       release TicksLock)
  else if trapno =? T_IRQ0 + IRQ_IDE then ideintr
  else if trapno =? T_IRQ0 + IRQ_IDE + 1 then kret tt
  else if trapno =? T_IRQ0 + IRQ_KBD then kbdintr
  else if trapno =? T_IRQ0 + IRQ_COM1 then uartintr
  else if (trapno =? T_IRQ0 + 7) || (trapno =? T_IRQ0 + IRQ_SPURIOUS) then
    id <- cpuid;
    w <- kget (fun w => w);
    printkn "cpu%d: spurious interrupt at %x:%x"
      [AInt id; AInt (ldh w (tf + tf_cs)); AInt (ld w (tf + tf_eip))]
  else
    p <- myproc;
    w <- kget (fun w => w);
    if bool_decide (p = None) || (Z.land (ldh w (tf + tf_cs)) 3 =? 0) then
      id <- cpuid;
      printkn "unexpected trap %d from cpu %d eip %x (cr2=0x%x)"
        [AInt trapno; AInt id; AInt (ld w (tf + tf_eip)); AInt (w_cr2 w)] >>;
      kpanic "trap"
    else
      cur <- curproc;
      pr <- get_proc cur;
      id <- cpuid;
      printkn "pid %d %s: trap %d err %d on cpu %d eip 0x%x addr 0x%x--kill proc"
        [AInt (p_pid pr); AStr (Some (p_name pr)); AInt trapno; AInt (ld w (tf + tf_err)); AInt id;
         AInt (ld w (tf + tf_eip)); AInt (w_cr2 w)] >>;
      kmod (upd_proc cur (set_p_killed (fun _ => 1))).

Definition trap (tf : Z) : KM unit :=
  trapno <- kget (fun w => ld w (tf + tf_trapno));
  if trapno =? T_SYSCALL then
    exit_if_killed >>;
    cur <- curproc;
    kmod (upd_proc cur (set_p_tf (fun _ => tf))) >>;
    syscall >>;
    exit_if_killed
  else
    trap_switch tf trapno >>;
    exit_if_killed_user tf >>;
    p <- myproc;
    (match p with
     | Some p =>
       pr <- get_proc p;
       kwhen (is_state (p_state pr) RUNNING && (trapno =? T_IRQ0 + IRQ_TIMER)) yield
     | None => kret tt
     end) >>;
    exit_if_killed_user tf.
End syscall.

(** ** The interrupt descriptor table *)

Definition STS_IG32 : Z := 0xE.
Definition STS_TG32 : Z := 0xF.

Definition SETGATE (istrap sel off d : Z) : gatedesc :=
  mkGatedesc (Z.land off 0xffff) (u16 sel) 0 0
    (if istrap =? 0 then STS_IG32 else STS_TG32) 0 d 1 (Z.shiftr off 16).

(** [vectors] are the entry points that vectors.pl generates. *)
Definition tvinit (vectors : Z -> Z) : KM unit :=
  kfor (seq 0 256) (fun i =>
    kmod (set_w_idt (insert i (SETGATE 0 (Z.shiftl SEG_KCODE 3) (vectors (Z.of_nat i)) 0)))) >>;
  kmod (set_w_idt (insert (Z.to_nat T_SYSCALL)
    (SETGATE 1 (Z.shiftl SEG_KCODE 3) (vectors T_SYSCALL) DPL_USER))) >>;
  initlock TicksLock "time".
