(* ===== verification/Invariant.v ===== *)
(** * The invariant of the kernel's tables

    [kinv] is what every routine of the kernel keeps true of the process table, the console
    input buffer, the pipes and the file table, whatever the other processes, CPUs and devices
    do at the points where the routine gives up control, as long as they keep it too.  The
    lemmas follow the call graph from the lock operations up to [trap]. *)

From Stdlib Require Import ZArith Lia.
From stdpp Require Import base list gmap strings numbers.
From S2P Require Import Prelude Machine Cstring Spinlock Boot Kalloc Cprintf Sched Vm Sleeplock.
From S2P Require Import Layout Bio Log Fs Pipe File Proc Exec Args Sysfile Kbd Console Syscall.
Local Open Scope Z_scope.
Local Open Scope kern_scope.

(** ** The invariant *)

(** An entry of the process table, [next] being the next process id to give out: its pid has
    been given out, its niceness is in range, its arrays have their size. *)
Definition proc_ok (next : Z) (pr : proc) : Prop :=
  0 <= p_pid pr < next /\ 0 <= nice (p_schedstate pr) <= 39 /\
  length (p_ofile pr) = NOFILE /\ length (p_name pr) = 16%nat.

(** No two entries have the same nonzero pid. *)
Definition pids_distinct (ps : list proc) : Prop :=
  forall i j p q, ps !! i = Some p -> ps !! j = Some q -> p_pid p = p_pid q -> p_pid p <> 0 -> i = j.

Definition table_ok (ps : list proc) (next : Z) : Prop :=
  length ps = NPROC /\ 0 < next <= INT_MAX /\ Forall (proc_ok next) ps /\ pids_distinct ps.

(** The indices of the console input buffer, which run modulo 2^32: r, then w, then e, at most
    INPUT_BUF apart. *)
Definition input_ok (b : inputbuf) : Prop :=
  length (in_buf b) = Z.to_nat INPUT_BUF /\
  0 <= in_r b < 2 ^ 32 /\ 0 <= in_w b < 2 ^ 32 /\ 0 <= in_e b < 2 ^ 32 /\
  u32 (in_w b - in_r b) <= u32 (in_e b - in_r b) <= INPUT_BUF.

Definition kinv (w : world) : Prop :=
  table_ok (w_procs w) (w_nextpid w) /\ input_ok (w_input w) /\
  map_Forall (fun _ => pipe_ok) (w_pipes w) /\
  (length (w_files w) = NFILE /\ Forall (fun f => 0 <= f_ref f) (w_files w)).

(** ** Assignments that keep it *)

(** A change of one entry that keeps its pid, or gives it up. *)
Definition proc_step (f : proc -> proc) : Prop :=
  forall n pr, proc_ok n pr -> proc_ok n (f pr) /\ (p_pid (f pr) = p_pid pr \/ p_pid (f pr) = 0).

Lemma table_ok_alter ps n k f : proc_step f -> table_ok ps n -> table_ok (alter f k ps) n.
Proof.
  intros Hf (Hl & Hn & Hps & Hd). split_and!; try (lia || done).
  - by rewrite length_alter.
  - apply Forall_alter; [done|]. intros pr _ Hpr. by apply Hf.
  - intros i j p q Hi Hj Hpq Hp.
    assert (forall i p, alter f k ps !! i = Some p -> exists p0, ps !! i = Some p0 /\
      (p_pid p = p_pid p0 \/ p_pid p = 0)) as Ha.
    { intros i0 p0 H0. destruct (decide (k = i0)) as [<-|].
      - rewrite list_lookup_alter_eq in H0. apply fmap_Some in H0 as (x & Hx & ->).
        exists x. split; [done|]. eapply Forall_lookup_1 in Hx; [|done]. by apply (Hf n).
      - rewrite list_lookup_alter_ne in H0 by done. exists p0. auto. }
    apply Ha in Hi as (p0 & Hi & [Ep|Ep]); [|done]. apply Ha in Hj as (q0 & Hj & [Eq|Eq]); [|congruence].
    eapply Hd; [done|done|congruence|congruence].
Qed.

Lemma table_ok_fmap ps n f :
  (forall n pr, proc_ok n pr -> proc_ok n (f pr)) -> (forall pr, p_pid (f pr) = p_pid pr) ->
  table_ok ps n -> table_ok (f <$> ps) n.
Proof.
  intros Hf Hpid (Hl & Hn & Hps & Hd). split_and!; try (lia || done).
  - by rewrite length_fmap.
  - apply Forall_fmap. revert Hps. apply Forall_impl. auto.
  - intros i j p q Hi Hj. rewrite list_lookup_fmap in Hi, Hj.
    apply fmap_Some in Hi as (p0 & Hi & ->). apply fmap_Some in Hj as (q0 & Hj & ->).
    rewrite !Hpid. by apply Hd.
Qed.

Lemma kinv_upd_proc k f w : proc_step f -> kinv w -> kinv (upd_proc k f w).
Proof. intros Hf (Hp & Hi & Hpi & Hfi). split; [by apply table_ok_alter|done]. Qed.

Lemma kinv_upd_file k f w :
  (forall fl, 0 <= f_ref fl -> 0 <= f_ref (f fl)) -> kinv w -> kinv (upd_file k f w).
Proof.
  intros Hf (Hp & Hi & Hpi & Hl & Hr). do 3 (split; [done|]). split; simpl.
  - by rewrite length_alter.
  - apply Forall_alter; [done|]. intros x _. apply Hf.
Qed.

Lemma kinv_upd_pipe a f w :
  (forall pi, w_pipes w !! a = Some pi -> pipe_ok pi -> pipe_ok (f pi)) -> kinv w -> kinv (upd_pipe a f w).
Proof.
  intros Hf (Hp & Hi & Hpi & Hfi). split; [done|]. split; [done|]. split; [|done]. simpl.
  intros b pi Hb. destruct (decide (a = b)) as [<-|].
  - rewrite lookup_alter_eq in Hb. apply fmap_Some in Hb as (x & Hx & ->). apply Hf; [done|]. by eapply Hpi.
  - rewrite lookup_alter_ne in Hb by done. by eapply Hpi.
Qed.

Lemma kinv_input g w : input_ok (g (w_input w)) -> kinv w -> kinv (set_w_input g w).
Proof. intros Hg (Hp & Hi & Hpi & Hfi). split; [done|by split]. Qed.

Lemma wake_proc_ok ch n pr : proc_ok n pr -> proc_ok n (wake_proc ch pr).
Proof. unfold wake_proc. by case_match. Qed.
Lemma wake_proc_pid ch pr : p_pid (wake_proc ch pr) = p_pid pr.
Proof. unfold wake_proc. by case_match. Qed.

(** The fields whose assignment is a [proc_step]. *)
Ltac proc_step := intros ? ? ?; split; [assumption || done|left; reflexivity].

Lemma step_state s : proc_step (set_p_state s). Proof. proc_step. Qed.
Lemma step_chan c : proc_step (set_p_chan c). Proof. proc_step. Qed.
Lemma step_killed k : proc_step (set_p_killed k). Proof. proc_step. Qed.
Lemma step_sz k : proc_step (set_p_sz k). Proof. proc_step. Qed.
Lemma step_pgdir k : proc_step (set_p_pgdir k). Proof. proc_step. Qed.
Lemma step_kstack k : proc_step (set_p_kstack k). Proof. proc_step. Qed.
Lemma step_parent k : proc_step (set_p_parent k). Proof. proc_step. Qed.
Lemma step_tf k : proc_step (set_p_tf k). Proof. proc_step. Qed.
Lemma step_context k : proc_step (set_p_context k). Proof. proc_step. Qed.
Lemma step_cwd k : proc_step (set_p_cwd k). Proof. proc_step. Qed.
Lemma step_ofile k x : proc_step (set_p_ofile (insert k x)).
Proof. intros n pr H. split; [|by left]. unfold proc_ok in *. simpl. by rewrite length_insert. Qed.
Lemma step_name g :
  (forall s, length s = 16%nat -> length (g s) = 16%nat) -> proc_step (set_p_name g).
Proof. intros Hg n pr (H1 & H2 & H3 & H4). split; [|by left]. unfold proc_ok. simpl. auto. Qed.
Lemma step_nice v : 0 <= v <= 39 -> proc_step (set_p_schedstate (set_nice (fun _ => v))).
Proof. intros Hv n pr (H1 & H2 & H3 & H4). split; [|by left]. unfold proc_ok. simpl. auto. Qed.
Lemma step_pid0 : proc_step (set_p_pid (fun _ => 0)).
Proof.
  intros n pr (H1 & H2 & H3 & H4). split; [|by right]. unfold proc_ok. simpl.
  split; [lia|auto].
Qed.

Create HintDb kinv discriminated.
#[export] Hint Resolve kinv_upd_proc step_state step_chan step_killed step_sz step_pgdir step_kstack
  step_parent step_tf step_context step_cwd step_ofile step_pid0 : kinv.

Ltac to_keeps := cbv beta; try lazymatch goal with |- triple ?I ?I ?m _ => change (keeps I m) end.
Ltac kinv_tac := to_keeps; keeps_tac; try solve [auto with kinv nocore].

(** ** Locks, allocator, console output, scheduling *)

Section low.
Context `{KernelImage}.

Lemma keeps_kderef {A} (o : option A) : keeps kinv (kderef o).
Proof. unfold kderef. keeps_tac. Qed.
#[local] Hint Resolve keeps_kderef : keeps.
Lemma keeps_get_proc p : keeps kinv (get_proc p). Proof. unfold get_proc. kinv_tac. Qed.
Lemma keeps_mycpu : keeps kinv mycpu. Proof. unfold mycpu. kinv_tac. Qed.
#[local] Hint Resolve keeps_get_proc keeps_mycpu : keeps.
Lemma keeps_get_cpu i : keeps kinv (get_cpu i). Proof. unfold get_cpu. kinv_tac. Qed.
Lemma keeps_cpuid : keeps kinv cpuid. Proof. unfold cpuid. kinv_tac. Qed.
#[local] Hint Resolve keeps_get_cpu keeps_cpuid : keeps.
Lemma keeps_pushcli : keeps kinv pushcli. Proof. unfold pushcli. kinv_tac. Qed.
Lemma keeps_popcli : keeps kinv popcli. Proof. unfold popcli. kinv_tac. Qed.
#[local] Hint Resolve keeps_pushcli keeps_popcli : keeps.
Lemma keeps_myproc : keeps kinv myproc. Proof. unfold myproc. kinv_tac. Qed.
Lemma keeps_initlock lk s : keeps kinv (initlock lk s). Proof. unfold initlock. kinv_tac. Qed.
Lemma keeps_holding lk : keeps kinv (holding lk). Proof. unfold holding. kinv_tac. Qed.
Lemma keeps_spin lk : keeps kinv (spin lk).
Proof.
  intros w e. revert w. induction e as [|f e IH]; intros w Hw He; cbn [spin];
    destruct (_ =? 0); try done.
  inversion_clear He as [|? ? Hf He']. by apply IH; [apply Hf|].
Qed.
#[local] Hint Resolve keeps_myproc keeps_initlock keeps_holding keeps_spin : keeps.
Lemma keeps_acquire lk : keeps kinv (acquire lk). Proof. unfold acquire. kinv_tac. Qed.
Lemma keeps_release lk : keeps kinv (release lk). Proof. unfold release. kinv_tac. Qed.
#[local] Hint Resolve keeps_acquire keeps_release : keeps.
Lemma keeps_kfree v : keeps kinv (kfree v). Proof. unfold kfree, kmem_acquire, kmem_release. kinv_tac. Qed.
Lemma keeps_kalloc : keeps kinv kalloc. Proof. unfold kalloc, kmem_acquire, kmem_release. kinv_tac. Qed.
#[local] Hint Resolve keeps_kfree keeps_kalloc : keeps.
Lemma keeps_uartputc c : keeps kinv (uartputc c). Proof. unfold uartputc, upd_con. kinv_tac. Qed.
Lemma keeps_cgaputc c : keeps kinv (cgaputc c). Proof. unfold cgaputc, upd_con. kinv_tac. Qed.
#[local] Hint Resolve keeps_uartputc keeps_cgaputc : keeps.
Lemma keeps_consputc c : keeps kinv (consputc c). Proof. unfold consputc. kinv_tac. Qed.
#[local] Hint Resolve keeps_consputc : keeps.
Lemma keeps_printint x b s : keeps kinv (printint x b s). Proof. unfold printint. kinv_tac. Qed.
#[local] Hint Resolve keeps_printint : keeps.
Lemma keeps_cprintf_loop fmt args : keeps kinv (cprintf_loop fmt args).
Proof.
  revert args. induction fmt as [fmt IH] using (induction_ltof1 _ (@length Z)); unfold ltof in IH.
  intros args. destruct fmt as [|c [|d fmt]]; cbn [cprintf_loop]; unfold arg_int, arg_str; keeps_tac;
    apply IH; simpl; lia.
Qed.
#[local] Hint Resolve keeps_cprintf_loop : keeps.
Lemma keeps_cprintf fmt args : keeps kinv (cprintf fmt args). Proof. unfold cprintf. kinv_tac. Qed.
#[local] Hint Resolve keeps_cprintf : keeps.
Lemma keeps_printk s args : keeps kinv (printk s args). Proof. unfold printk. kinv_tac. Qed.
Lemma keeps_printkn s args : keeps kinv (printkn s args). Proof. unfold printkn. kinv_tac. Qed.
Lemma keeps_sched : keeps kinv sched. Proof. unfold sched, swtch. kinv_tac. Qed.
#[local] Hint Resolve keeps_printk keeps_printkn keeps_sched : keeps.
Lemma keeps_yield_cpu : keeps kinv yield. Proof. unfold yield. kinv_tac. Qed.
Lemma keeps_sleep ch lk : keeps kinv (sleep ch lk). Proof. unfold sleep. kinv_tac. Qed.
Lemma keeps_wakeup1 ch : keeps kinv (wakeup1 ch).
Proof.
  apply keeps_mod. intros w (Hp & Hr). split; [|done]. simpl.
  apply table_ok_fmap; [apply wake_proc_ok|apply wake_proc_pid|done].
Qed.
#[local] Hint Resolve keeps_yield_cpu keeps_sleep keeps_wakeup1 : keeps.
Lemma keeps_wakeup ch : keeps kinv (wakeup ch). Proof. unfold wakeup. kinv_tac. Qed.
Lemma keeps_switchkvm : keeps kinv switchkvm. Proof. unfold switchkvm, lcr3. kinv_tac. Qed.
Lemma keeps_switchuvm p : keeps kinv (switchuvm p). Proof. unfold switchuvm, lcr3, ltr. kinv_tac. Qed.
#[local] Hint Resolve keeps_wakeup keeps_switchkvm keeps_switchuvm : keeps.
Lemma keeps_sched_pass c : keeps kinv (sched_pass c). Proof. unfold sched_pass, sched_slot, swtch. kinv_tac. Qed.

(** ** Page tables *)

Lemma keeps_walkpgdir d a b : keeps kinv (walkpgdir d a b). Proof. unfold walkpgdir. kinv_tac. Qed.
#[local] Hint Resolve keeps_walkpgdir : keeps.
Lemma keeps_mappages_loop n d a l pa p : keeps kinv (mappages_loop n d a l pa p).
Proof. revert a pa. induction n; intros; cbn [mappages_loop]; kinv_tac. Qed.
#[local] Hint Resolve keeps_mappages_loop : keeps.
Lemma keeps_mappages d va s pa p : keeps kinv (mappages d va s pa p). Proof. unfold mappages. kinv_tac. Qed.
#[local] Hint Resolve keeps_mappages : keeps.
Lemma keeps_deallocuvm_loop n d a s : keeps kinv (deallocuvm_loop n d a s).
Proof. revert a. induction n; intros; cbn [deallocuvm_loop]; kinv_tac. Qed.
#[local] Hint Resolve keeps_deallocuvm_loop : keeps.
Lemma keeps_deallocuvm d a b : keeps kinv (deallocuvm d a b). Proof. unfold deallocuvm. kinv_tac. Qed.
#[local] Hint Resolve keeps_deallocuvm : keeps.
Lemma keeps_freevm d : keeps kinv (freevm d). Proof. unfold freevm. kinv_tac. Qed.
#[local] Hint Resolve keeps_freevm : keeps.
Lemma keeps_kmap_loop ks d : keeps kinv (kmap_loop ks d).
Proof. induction ks as [|[[[a b] c] p] ks IH]; cbn [kmap_loop]; kinv_tac. Qed.
#[local] Hint Resolve keeps_kmap_loop : keeps.
Lemma keeps_setupkvm : keeps kinv setupkvm. Proof. unfold setupkvm. kinv_tac. Qed.
#[local] Hint Resolve keeps_setupkvm : keeps.
Lemma keeps_inituvm d l : keeps kinv (inituvm d l). Proof. unfold inituvm. kinv_tac. Qed.
Lemma keeps_allocuvm_loop n d a o s : keeps kinv (allocuvm_loop n d a o s).
Proof. revert a. induction n; intros; cbn [allocuvm_loop]; kinv_tac. Qed.
#[local] Hint Resolve keeps_inituvm keeps_allocuvm_loop : keeps.
Lemma keeps_allocuvm d o s : keeps kinv (allocuvm d o s). Proof. unfold allocuvm. kinv_tac. Qed.
Lemma keeps_clearpteu d a : keeps kinv (clearpteu d a). Proof. unfold clearpteu. kinv_tac. Qed.
Lemma keeps_copyuvm_loop n d e i s : keeps kinv (copyuvm_loop n d e i s).
Proof. revert i. induction n; intros; cbn [copyuvm_loop]; kinv_tac. Qed.
#[local] Hint Resolve keeps_allocuvm keeps_clearpteu keeps_copyuvm_loop : keeps.
Lemma keeps_copyuvm d s : keeps kinv (copyuvm d s). Proof. unfold copyuvm. kinv_tac. Qed.
Lemma keeps_uva2ka d a : keeps kinv (uva2ka d a). Proof. unfold uva2ka. kinv_tac. Qed.
#[local] Hint Resolve keeps_copyuvm keeps_uva2ka : keeps.
Lemma keeps_copyout_loop k d a l : keeps kinv (copyout_loop k d a l).
Proof. revert a l. induction k; intros a l; cbn [copyout_loop]; kinv_tac. Qed.
#[local] Hint Resolve keeps_copyout_loop : keeps.
Lemma keeps_copyout d a l : keeps kinv (copyout d a l). Proof. unfold copyout. kinv_tac. Qed.
End low.
#[export] Hint Resolve keeps_kderef keeps_get_proc keeps_mycpu keeps_get_cpu keeps_cpuid keeps_pushcli
  keeps_popcli keeps_myproc keeps_initlock keeps_holding keeps_acquire keeps_release keeps_kfree
  keeps_kalloc keeps_uartputc keeps_consputc keeps_cprintf keeps_printk keeps_printkn keeps_sched
  keeps_yield_cpu keeps_sleep keeps_wakeup1 keeps_wakeup keeps_switchuvm keeps_walkpgdir keeps_deallocuvm
  keeps_freevm keeps_setupkvm keeps_inituvm keeps_allocuvm keeps_clearpteu keeps_copyuvm
  keeps_copyout : keeps.

(** ** Sleep locks and the disk drivers *)

Lemma keeps_mypid : keeps kinv mypid. Proof. unfold mypid. kinv_tac. Qed.
#[export] Hint Resolve keeps_mypid : keeps.
Lemma keeps_initsleeplock s n : keeps kinv (initsleeplock s n). Proof. unfold initsleeplock. kinv_tac. Qed.
Lemma keeps_acquiresleep s : keeps kinv (acquiresleep s). Proof. unfold acquiresleep. kinv_tac. Qed.
Lemma keeps_releasesleep s : keeps kinv (releasesleep s). Proof. unfold releasesleep. kinv_tac. Qed.
Lemma keeps_holdingsleep s : keeps kinv (holdingsleep s). Proof. unfold holdingsleep. kinv_tac. Qed.
Lemma keeps_get_buf b : keeps kinv (get_buf b). Proof. unfold get_buf. kinv_tac. Qed.
Lemma keeps_mykilled : keeps kinv mykilled. Proof. unfold mykilled. kinv_tac. Qed.
#[export] Hint Resolve keeps_initsleeplock keeps_acquiresleep keeps_releasesleep keeps_holdingsleep
  keeps_get_buf keeps_mykilled : keeps.
Lemma keeps_iderw_mem b : keeps kinv (iderw_mem b). Proof. unfold iderw_mem. kinv_tac. Qed.
Lemma keeps_idewait c : keeps kinv (idewait c). Proof. unfold idewait. kinv_tac. Qed.
#[export] Hint Resolve keeps_idewait : keeps.
Lemma keeps_idestart b : keeps kinv (idestart b). Proof. unfold idestart, upd_ide. kinv_tac. Qed.
#[export] Hint Resolve keeps_idestart : keeps.
Lemma keeps_ideintr : keeps kinv ideintr. Proof. unfold ideintr, upd_ide. kinv_tac. Qed.
Lemma keeps_ide_last n q : keeps kinv (ide_last n q).
Proof. revert q. induction n; intros; cbn [ide_last]; kinv_tac. Qed.
#[export] Hint Resolve keeps_ideintr keeps_ide_last : keeps.
Lemma keeps_iderw_ide b : keeps kinv (iderw_ide b). Proof. unfold iderw_ide, upd_ide. kinv_tac. Qed.

(** ** What the kernel asks of the driver and of the devices *)

Class DriverKeeps (D : DiskDriver) : Prop := driver_keeps : forall b, keeps kinv (iderw b).
#[export] Instance memide_keeps : DriverKeeps memide := keeps_iderw_mem.
#[export] Instance ide_keeps : DriverKeeps ide := keeps_iderw_ide.

Class DevsKeep (V : DevSwitch) : Prop := {
  dev_read_keeps : forall m f ip n, dev_read m = Some f -> keeps kinv (f ip n);
  dev_write_keeps : forall m f ip l, dev_write m = Some f -> keeps kinv (f ip l)
}.
#[export] Hint Extern 1 (keeps kinv (iderw _)) => apply driver_keeps : keeps.

(** ** Buffers, log, files on disk *)

Section disk.
Context `{KernelImage} `{!DiskDriver} `{!DriverKeeps _}.

Lemma keeps_bscan n nx P b : keeps kinv (bscan n nx P b).
Proof. revert b. induction n; intros; cbn [bscan]; kinv_tac. Qed.
#[local] Hint Resolve keeps_bscan : keeps.
Lemma keeps_bget d b : keeps kinv (bget d b). Proof. unfold bget. kinv_tac. Qed.
#[local] Hint Resolve keeps_bget : keeps.
Lemma keeps_bread d b : keeps kinv (bread d b). Proof. unfold bread. kinv_tac. Qed.
Lemma keeps_bwrite b : keeps kinv (bwrite b). Proof. unfold bwrite. kinv_tac. Qed.
Lemma keeps_bmove b : keeps kinv (bmove b). Proof. unfold bmove. kinv_tac. Qed.
#[local] Hint Resolve keeps_bmove : keeps.
Lemma keeps_brelse b : keeps kinv (brelse b). Proof. unfold brelse. kinv_tac. Qed.
#[local] Hint Resolve keeps_bread keeps_bwrite keeps_brelse : keeps.
Lemma keeps_readsb d : keeps kinv (readsb d). Proof. unfold readsb. kinv_tac. Qed.
#[local] Hint Resolve keeps_readsb : keeps.
Lemma keeps_get_lh_block i : keeps kinv (get_lh_block i). Proof. unfold get_lh_block, get_log. kinv_tac. Qed.
Lemma keeps_put_lh_block i v : keeps kinv (put_lh_block i v). Proof. unfold put_lh_block, upd_log. kinv_tac. Qed.
#[local] Hint Resolve keeps_get_lh_block keeps_put_lh_block : keeps.
Ltac log_tac := unfold get_log, upd_log, put_data; kinv_tac.
Lemma keeps_install_trans : keeps kinv install_trans. Proof. unfold install_trans. log_tac. Qed.
Lemma keeps_read_head : keeps kinv read_head. Proof. unfold read_head. log_tac. Qed.
Lemma keeps_write_head : keeps kinv write_head. Proof. unfold write_head. log_tac. Qed.
#[local] Hint Resolve keeps_install_trans keeps_read_head keeps_write_head : keeps.
Lemma keeps_recover_from_log : keeps kinv recover_from_log. Proof. unfold recover_from_log. log_tac. Qed.
#[local] Hint Resolve keeps_recover_from_log : keeps.
Lemma keeps_initlog d : keeps kinv (initlog d). Proof. unfold initlog. log_tac. Qed.
Lemma keeps_begin_op : keeps kinv begin_op. Proof. unfold begin_op. log_tac. Qed.
Lemma keeps_write_log : keeps kinv write_log. Proof. unfold write_log. log_tac. Qed.
#[local] Hint Resolve keeps_write_log : keeps.
Lemma keeps_commit : keeps kinv commit. Proof. unfold commit. log_tac. Qed.
#[local] Hint Resolve keeps_commit : keeps.
Lemma keeps_end_op : keeps kinv end_op. Proof. unfold end_op. log_tac. Qed.
Lemma keeps_log_write b : keeps kinv (log_write b). Proof. unfold log_write. log_tac. Qed.
#[local] Hint Resolve keeps_initlog keeps_begin_op keeps_end_op keeps_log_write : keeps.

Ltac fs_tac := unfold get_sb, upd_data, put_addr; kinv_tac.
Lemma keeps_get_inode i : keeps kinv (get_inode i). Proof. unfold get_inode. kinv_tac. Qed.
#[local] Hint Resolve keeps_get_inode : keeps.
Lemma keeps_bzero d b : keeps kinv (bzero d b). Proof. unfold bzero. fs_tac. Qed.
#[local] Hint Resolve keeps_bzero : keeps.
Lemma keeps_balloc_loop n d b : keeps kinv (balloc_loop n d b).
Proof. revert b. induction n; intros; cbn [balloc_loop]; fs_tac. Qed.
#[local] Hint Resolve keeps_balloc_loop : keeps.
Lemma keeps_balloc d : keeps kinv (balloc d). Proof. unfold balloc. fs_tac. Qed.
Lemma keeps_bfree d b : keeps kinv (bfree d b). Proof. unfold bfree. fs_tac. Qed.
Lemma keeps_iinit d : keeps kinv (iinit d). Proof. unfold iinit. fs_tac. Qed.
Lemma keeps_iget d n : keeps kinv (iget d n). Proof. unfold iget. fs_tac. Qed.
#[local] Hint Resolve keeps_balloc keeps_bfree keeps_iinit keeps_iget : keeps.
Lemma keeps_ialloc_loop n d t i : keeps kinv (ialloc_loop n d t i).
Proof. revert i. induction n; intros; cbn [ialloc_loop]; fs_tac. Qed.
#[local] Hint Resolve keeps_ialloc_loop : keeps.
Lemma keeps_ialloc d t : keeps kinv (ialloc d t). Proof. unfold ialloc. fs_tac. Qed.
Lemma keeps_iupdate i : keeps kinv (iupdate i). Proof. unfold iupdate. fs_tac. Qed.
Lemma keeps_idup i : keeps kinv (idup i). Proof. unfold idup. fs_tac. Qed.
Lemma keeps_ilock i : keeps kinv (ilock i). Proof. unfold ilock. fs_tac. Qed.
Lemma keeps_iunlock i : keeps kinv (iunlock i). Proof. unfold iunlock. fs_tac. Qed.
#[local] Hint Resolve keeps_ialloc keeps_iupdate keeps_idup keeps_ilock keeps_iunlock : keeps.
Lemma keeps_itrunc i : keeps kinv (itrunc i). Proof. unfold itrunc. fs_tac. Qed.
#[local] Hint Resolve keeps_itrunc : keeps.
Lemma keeps_iput i : keeps kinv (iput i). Proof. unfold iput. fs_tac. Qed.
#[local] Hint Resolve keeps_iput : keeps.
Lemma keeps_iunlockput i : keeps kinv (iunlockput i). Proof. unfold iunlockput. fs_tac. Qed.
Lemma keeps_bmap i b : keeps kinv (bmap i b). Proof. unfold bmap. fs_tac. Qed.
Lemma keeps_stati i : keeps kinv (stati i). Proof. unfold stati. fs_tac. Qed.
#[local] Hint Resolve keeps_iunlockput keeps_bmap keeps_stati : keeps.
Lemma keeps_readi_loop k i o l : keeps kinv (readi_loop k i o l).
Proof. revert o l. induction k; intros; cbn [readi_loop]; fs_tac. Qed.
Lemma keeps_writei_loop k i s o l : keeps kinv (writei_loop k i s o l).
Proof. revert s o l. induction k; intros; cbn [writei_loop]; fs_tac. Qed.
#[local] Hint Resolve keeps_readi_loop keeps_writei_loop : keeps.

Context `{!DevSwitch} `{!DevsKeep _}.
Lemma keeps_readi i o n : keeps kinv (readi i o n).
Proof. unfold readi. fs_tac. by eapply dev_read_keeps. Qed.
Lemma keeps_writei i s o : keeps kinv (writei i s o).
Proof. unfold writei. fs_tac. by eapply dev_write_keeps. Qed.
#[local] Hint Resolve keeps_readi keeps_writei : keeps.
Lemma keeps_dirlookup_loop k d n o : keeps kinv (dirlookup_loop k d n o).
Proof. revert o. induction k; intros; cbn [dirlookup_loop]; fs_tac. Qed.
#[local] Hint Resolve keeps_dirlookup_loop : keeps.
Lemma keeps_dirlookup d n : keeps kinv (dirlookup d n). Proof. unfold dirlookup. fs_tac. Qed.
Lemma keeps_dirlink_loop k d o : keeps kinv (dirlink_loop k d o).
Proof. revert o. induction k; intros; cbn [dirlink_loop]; fs_tac. Qed.
#[local] Hint Resolve keeps_dirlookup keeps_dirlink_loop : keeps.
Lemma keeps_dirlink d n i : keeps kinv (dirlink d n i). Proof. unfold dirlink. fs_tac. Qed.
Lemma keeps_namex_loop k i p b n : keeps kinv (namex_loop k i p b n).
Proof. revert i p n. induction k; intros; cbn [namex_loop]; fs_tac. Qed.
#[local] Hint Resolve keeps_dirlink keeps_namex_loop : keeps.
Lemma keeps_namex p b n : keeps kinv (namex p b n). Proof. unfold namex. fs_tac. Qed.
#[local] Hint Resolve keeps_namex : keeps.
Lemma keeps_namei p : keeps kinv (namei p). Proof. unfold namei. fs_tac. Qed.
Lemma keeps_nameiparent p n : keeps kinv (nameiparent p n). Proof. unfold nameiparent. fs_tac. Qed.
End disk.
#[export] Hint Resolve keeps_readsb keeps_initlog keeps_begin_op keeps_end_op keeps_get_inode keeps_iinit
  keeps_ialloc keeps_iupdate keeps_idup keeps_ilock keeps_iunlock keeps_iput keeps_iunlockput keeps_stati
  keeps_readi keeps_writei keeps_dirlookup keeps_dirlink keeps_namei keeps_nameiparent keeps_iget : keeps.

(** ** Pipes and the file table *)

Lemma triple_get_pipe p :
  triple kinv kinv (get_pipe p) (fun pi w => kinv w /\ w_pipes w !! p = Some pi).
Proof.
  unfold get_pipe. intros w e Hw He. simpl. destruct (w_pipes w !! p) eqn:E; simpl; auto.
Qed.

Lemma triple_get_file f :
  triple kinv kinv (get_file f) (fun fl w => kinv w /\ w_files w !! f = Some fl).
Proof.
  unfold get_file. intros w e Hw He. simpl. destruct (w_files w !! f) eqn:E; simpl; auto.
Qed.

Lemma triple_keeps {A} (P : world -> Prop) (m : KM A) (Q : A -> world -> Prop) :
  keeps kinv m -> (forall w, P w -> kinv w) -> (forall a w, kinv w -> Q a w) -> triple kinv P m Q.
Proof. intros Hm HP HQ. by eapply triple_conseq. Qed.

Lemma keeps_get_pipe p : keeps kinv (get_pipe p). Proof. unfold get_pipe. kinv_tac. Qed.
Lemma keeps_get_file f : keeps kinv (get_file f). Proof. unfold get_file. kinv_tac. Qed.
#[export] Hint Resolve keeps_get_pipe keeps_get_file : keeps.

Definition has_room (p : Z) (ok : bool) (w : world) : Prop :=
  kinv w /\ (ok = true -> exists pi, w_pipes w !! p = Some pi /\ pipe_full pi = false).

Lemma triple_pipe_room p : triple kinv kinv (pipe_room p) (has_room p).
Proof.
  apply triple_wait. eapply triple_bind; [apply triple_get_pipe|]. intros pi. simpl.
  destruct (pipe_full pi) eqn:Hf.
  - apply (triple_bind _ _ (fun _ => kinv)).
    + apply triple_weaken; [kinv_tac|by intros w []].
    + intros [|].
      * eapply triple_bind; [apply keeps_release|]. intros ?. apply triple_ret. by split.
      * do 2 (eapply triple_bind; [first [apply keeps_wakeup|apply keeps_sleep]|]; intros ?).
        by apply triple_ret.
  - apply triple_ret. intros w [Hw Hp]. split; [done|]. eauto.
Qed.

Lemma keeps_pipewrite_loop p l : keeps kinv (pipewrite_loop p l).
Proof.
  induction l as [|c l IH]; cbn [pipewrite_loop]; [kinv_tac|].
  eapply triple_bind; [apply triple_pipe_room|]. intros [|]; [|apply triple_ret; by intros w []].
  apply (triple_bind _ _ (fun _ => kinv)); [|by intros ?].
  apply triple_mod. intros w [Hw Hr]. destruct (Hr eq_refl) as (pi & Hp & Hf).
  apply kinv_upd_pipe; [|done]. intros pi' Hp' Hok. simplify_eq.
  rewrite pipe_full_len in Hf by done. apply Z.eqb_neq in Hf.
  apply pipe_put_queue; [done|]. destruct Hok as (_ & _ & _ & ?). lia.
Qed.

Lemma keeps_piperead_loop n p : keeps kinv (piperead_loop n p).
Proof.
  induction n as [|n IH]; cbn [piperead_loop]; [kinv_tac|].
  eapply triple_bind; [apply triple_get_pipe|]. intros pi. simpl.
  destruct (pipe_empty pi) eqn:He; [apply triple_ret; by intros w []|].
  apply (triple_bind _ _ (fun _ => kinv)).
  - apply triple_mod. intros w [Hw Hp]. apply kinv_upd_pipe; [|done].
    intros pi' Hp' Hok. simplify_eq. rewrite pipe_empty_len in He by done. apply Z.eqb_neq in He.
    apply pipe_get_queue; [done|]. pose proof (pipe_len_nonneg pi). lia.
  - intros ?. kinv_tac.
Qed.
#[export] Hint Resolve keeps_pipewrite_loop keeps_piperead_loop : keeps.
Lemma keeps_pipewrite p l : keeps kinv (pipewrite p l). Proof. unfold pipewrite. kinv_tac. Qed.
Lemma keeps_piperead p n : keeps kinv (piperead p n). Proof. unfold piperead, pipe_avail. kinv_tac. Qed.
#[export] Hint Resolve keeps_pipewrite keeps_piperead : keeps.

Lemma kinv_close_pipe p f w :
  (forall pi, pipe_ok pi -> pipe_ok (f pi)) -> kinv w -> kinv (upd_pipe p f w).
Proof. intros Hf. apply kinv_upd_pipe. auto. Qed.
Lemma kinv_delete_pipe p w : kinv w -> kinv (set_w_pipes (delete p) w).
Proof.
  intros (Hp & Hi & Hpi & Hfi). split; [done|]. split; [done|]. split; [|done].
  by apply map_Forall_delete.
Qed.

Lemma keeps_filealloc : keeps kinv filealloc.
Proof. unfold filealloc. kinv_tac. by apply kinv_upd_file. Qed.

Lemma keeps_filedup f : keeps kinv (filedup f).
Proof. unfold filedup. kinv_tac. apply kinv_upd_file; [|done]. simpl. lia. Qed.
#[export] Hint Resolve keeps_filealloc keeps_filedup : keeps.

Section files.
Context `{KernelImage} `{!DiskDriver} `{!DriverKeeps _} `{!DevSwitch} `{!DevsKeep _}.

Lemma keeps_pipeclose p b : keeps kinv (pipeclose p b).
Proof. unfold pipeclose. kinv_tac; [by apply kinv_close_pipe ..|by apply kinv_delete_pipe]. Qed.
#[local] Hint Resolve keeps_pipeclose : keeps.

Lemma keeps_fileclose f : keeps kinv (fileclose f).
Proof.
  unfold fileclose. apply keeps_bind; [kinv_tac|]. intros ?.
  eapply triple_bind; [apply triple_get_file|]. intros fl. simpl.
  destruct (Z.ltb_spec (f_ref fl) 1); [apply triple_panic; by intros w []|].
  apply (triple_bind _ _ (fun _ => kinv)).
  - apply triple_mod. intros w [(Hp & Hi & Hpi & Hl & Hr) Hf]. do 3 (split; [done|]).
    split; simpl; [by rewrite length_alter|]. apply Forall_alter; [done|].
    intros x Hx _. simplify_eq. simpl. lia.
  - intros ?. kinv_tac; by apply kinv_upd_file.
Qed.
Lemma keeps_filestat f : keeps kinv (filestat f). Proof. unfold filestat. kinv_tac. Qed.
Lemma keeps_fileread f n : keeps kinv (fileread f n).
Proof. unfold fileread. kinv_tac. by apply kinv_upd_file. Qed.
Lemma keeps_filewrite_loop k f l i n : keeps kinv (filewrite_loop k f l i n).
Proof.
  revert l i. induction k; intros; cbn [filewrite_loop]; kinv_tac. by apply kinv_upd_file.
Qed.
#[local] Hint Resolve keeps_filewrite_loop : keeps.
Lemma keeps_filewrite f l : keeps kinv (filewrite f l). Proof. unfold filewrite. kinv_tac. Qed.
#[local] Hint Resolve keeps_fileclose keeps_filestat keeps_fileread keeps_filewrite : keeps.

Lemma fresh_pipe_ok w a : pipe_ok (mkPipe (page_bytes w a) 0 0 1 1).
Proof.
  split; [|done]. cbn [pi_data]. unfold page_bytes. by rewrite length_fmap, length_seq.
Qed.
Lemma kinv_fresh_pipe p a w :
  kinv w -> kinv (set_w_pipes (insert p (mkPipe (page_bytes w a) 0 0 1 1)) w).
Proof.
  intros (Hp & Hi & Hpi & Hfi). split; [done|]. split; [done|]. split; [|done].
  apply map_Forall_insert_2; [apply fresh_pipe_ok|done].
Qed.
Lemma keeps_pipealloc : keeps kinv pipealloc.
Proof.
  unfold pipealloc. kinv_tac; [by apply kinv_fresh_pipe|by apply kinv_upd_file ..].
Qed.
End files.
#[export] Hint Resolve keeps_fileclose keeps_filestat keeps_fileread keeps_filewrite keeps_pipealloc : keeps.

(** ** The console input buffer *)

Lemma input_ok_back b :
  input_ok b -> in_e b <> in_w b -> input_ok (set_in_e (fun e => u32 (e - 1)) b).
Proof.
  intros (Hl & Hr & Hw & He & Ho) Hne. pose proof (u32_bound (in_w b - in_r b)).
  assert (u32 (in_w b - in_r b) <> u32 (in_e b - in_r b)) as Hd.
  { intros E. apply Hne. symmetry. by apply (u32_sub_inj _ _ (in_r b)). }
  unfold input_ok. simpl. pose proof (u32_bound (in_e b - 1)).
  rewrite u32_sub_l. replace (in_e b - 1 - in_r b) with (in_e b - in_r b - 1) by lia.
  rewrite (u32_pred (in_e b - in_r b)) by lia. split_and!; (done || lia).
Qed.

Lemma input_ok_put c b :
  input_ok b -> u32 (in_e b - in_r b) < INPUT_BUF -> input_ok (in_put c b).
Proof.
  intros (Hl & Hr & Hw & He & Ho) Hlt. unfold input_ok, in_put, INPUT_BUF in *. simpl.
  rewrite length_insert, u32_sub_l.
  replace (in_e b + 1 - in_r b) with (in_e b - in_r b + 1) by lia.
  rewrite (u32_succ (in_e b - in_r b)) by lia. pose proof (u32_bound (in_e b + 1)). split_and!; (done || lia).
Qed.

Lemma input_ok_line b : input_ok b -> input_ok (set_in_w (fun _ => in_e b) b).
Proof. intros (Hl & Hr & Hw & He & Ho). unfold input_ok. simpl. split_and!; (done || lia). Qed.

(** Reading takes a byte, and puts it back. *)
Lemma input_ok_read b :
  input_ok b -> in_r b <> in_w b ->
  let b' := set_in_r (fun r => u32 (r + 1)) b in
  input_ok b' /\ u32 (in_e b' - in_r b') < INPUT_BUF.
Proof.
  intros (Hl & Hr & Hw & He & Ho) Hne b'.
  assert (0 < u32 (in_w b - in_r b)).
  { pose proof (u32_bound (in_w b - in_r b)). destruct (decide (u32 (in_w b - in_r b) = 0)) as [E|]; [|lia].
    destruct Hne. symmetry. apply (u32_sub_inj _ _ (in_r b)); [done|done|]. by rewrite E, Z.sub_diag. }
  unfold input_ok, b'. simpl. pose proof (u32_bound (in_r b + 1)).
  rewrite !u32_sub_r. replace (in_w b - (in_r b + 1)) with (in_w b - in_r b - 1) by lia.
  replace (in_e b - (in_r b + 1)) with (in_e b - in_r b - 1) by lia.
  rewrite (u32_pred (in_w b - in_r b)), (u32_pred (in_e b - in_r b)) by lia. split_and!; (done || lia).
Qed.

Lemma input_ok_unread b :
  input_ok b -> u32 (in_e b - in_r b) < INPUT_BUF -> input_ok (set_in_r (fun r => u32 (r - 1)) b).
Proof.
  intros (Hl & Hr & Hw & He & Ho) Hlt. unfold input_ok, INPUT_BUF in *. simpl.
  pose proof (u32_bound (in_r b - 1)). rewrite !u32_sub_r.
  replace (in_w b - (in_r b - 1)) with (in_w b - in_r b + 1) by lia.
  replace (in_e b - (in_r b - 1)) with (in_e b - in_r b + 1) by lia.
  rewrite (u32_succ (in_w b - in_r b)), (u32_succ (in_e b - in_r b)) by lia. split_and!; (done || lia).
Qed.

Lemma keeps_in_e b :
  in_e b <> in_w b ->
  triple kinv (fun w => kinv w /\ b = w_input w) (upd_input (set_in_e (fun e => u32 (e - 1)))) (fun _ => kinv).
Proof.
  intros Hne. apply triple_mod. intros w [Hw ->]. apply kinv_input; [|done].
  apply input_ok_back; [by apply Hw|done].
Qed.

Lemma keeps_kill_line n : keeps kinv (kill_line n).
Proof.
  induction n as [|n IH]; cbn [kill_line]; [kinv_tac|].
  eapply triple_bind; [apply triple_get|]. intros b. simpl.
  destruct (Z.eqb_spec (in_e b) (in_w b)); simpl; [apply triple_ret; by intros w []|].
  destruct (_ =? 10); simpl; [apply triple_ret; by intros w []|].
  eapply triple_bind; [by apply keeps_in_e|]. intros ?. kinv_tac.
Qed.
#[export] Hint Resolve keeps_kill_line : keeps.

Lemma keeps_console_char c : keeps kinv (console_char c).
Proof.
  unfold console_char. destruct (c =? 16); [kinv_tac|]. destruct (c =? 21); [kinv_tac|].
  destruct ((c =? 8) || (c =? 127)); eapply triple_bind; [apply triple_get| |apply triple_get|];
    intros b; (apply (triple_bind _ _ (fun _ => kinv)); [|intros ?; kinv_tac]).
  - unfold kwhen. destruct (Z.eqb_spec (in_e b) (in_w b)); simpl; [apply triple_ret; by intros w []|].
    eapply triple_bind; [by apply keeps_in_e|]. intros ?. kinv_tac.
  - destruct (negb (c =? 0) && _) eqn:Hc; [|apply triple_ret; by intros w []].
    apply andb_prop in Hc as [_ Hc%Z.ltb_lt]. cbv zeta.
    apply (triple_bind _ _ (fun _ => kinv)).
    { apply triple_mod. intros w [Hw ->]. apply kinv_input; [|done]. apply input_ok_put; [apply Hw|done]. }
    intros ?. apply (triple_bind _ _ (fun _ => kinv)); [kinv_tac|]. intros ?.
    eapply triple_bind; [apply triple_get|]. intros b'. destruct (_ || _); [|apply triple_ret; by intros w []].
    apply (triple_bind _ _ (fun _ => kinv)); [|intros ?; kinv_tac].
    apply triple_mod. intros w [Hw ->]. apply kinv_input; [|done]. by apply input_ok_line, Hw.
Qed.
#[export] Hint Resolve keeps_console_char : keeps.

Lemma keeps_kbdgetc : keeps kinv kbdgetc. Proof. unfold kbdgetc. kinv_tac. Qed.
Lemma keeps_uartgetc : keeps kinv uartgetc. Proof. unfold uartgetc. kinv_tac. Qed.
Lemma keeps_procdump : keeps kinv procdump. Proof. unfold procdump. kinv_tac. Qed.
#[export] Hint Resolve keeps_kbdgetc keeps_uartgetc keeps_procdump : keeps.
Lemma keeps_consoleintr_loop n g d : keeps kinv g -> keeps kinv (consoleintr_loop n g d).
Proof. intros Hg. revert d. induction n; intros; cbn [consoleintr_loop]; kinv_tac. Qed.
#[export] Hint Resolve keeps_consoleintr_loop : keeps.
Lemma keeps_consoleintr n g : keeps kinv g -> keeps kinv (consoleintr n g).
Proof. intros Hg. unfold consoleintr. kinv_tac. Qed.
#[export] Hint Resolve keeps_consoleintr : keeps.
Lemma keeps_kbdintr : keeps kinv kbdintr. Proof. unfold kbdintr. kinv_tac. Qed.
Lemma keeps_uartintr : keeps kinv uartintr. Proof. unfold uartintr. kinv_tac. Qed.

Definition has_input (ok : bool) (w : world) : Prop :=
  kinv w /\ (ok = true -> in_r (w_input w) <> in_w (w_input w)).

Lemma triple_input_avail : triple kinv kinv input_avail has_input.
Proof.
  apply triple_wait. eapply triple_bind; [apply triple_get|]. intros b.
  destruct (Z.eqb_spec (in_r b) (in_w b)) as [E|E].
  - apply (triple_bind _ _ (fun _ => kinv)); [apply triple_weaken; [kinv_tac|by intros w []]|].
    intros [|]; [by apply triple_ret|].
    eapply triple_bind; [apply keeps_sleep|]. intros ?. by apply triple_ret.
  - apply triple_ret. intros w [Hw ->]. by split.
Qed.

Lemma keeps_consoleread_loop n f : keeps kinv (consoleread_loop n f).
Proof.
  revert f. induction n as [|n IH]; intros f; cbn [consoleread_loop]; [kinv_tac|].
  eapply triple_bind; [apply triple_input_avail|]. intros ok.
  destruct ok; simpl; [|apply triple_ret; by intros w []].
  eapply triple_bind; [apply triple_get|]. intros b. cbv zeta.
  apply (triple_bind _ _ (fun _ w => kinv w /\ u32 (in_e (w_input w) - in_r (w_input w)) < INPUT_BUF)).
  { apply triple_mod. intros w [[Hw Hne] ->]. specialize (Hne eq_refl).
    destruct (input_ok_read (w_input w)) as [H1 H2]; [apply Hw|done|].
    split; [by apply kinv_input|done]. }
  intros ?. destruct (_ =? 4).
  - apply (triple_bind _ _ (fun _ => kinv)); [|intros ?; kinv_tac].
    destruct f; simpl; [apply triple_ret; by intros w []|].
    apply triple_mod. intros w [Hw Hlt]. apply kinv_input; [|done]. apply input_ok_unread; [apply Hw|done].
  - apply triple_weaken; [kinv_tac|by intros w []].
Qed.
#[export] Hint Resolve keeps_kbdintr keeps_uartintr keeps_consoleread_loop : keeps.

#[export] Instance console_keeps `{!DiskDriver} `{!DriverKeeps _} : DevsKeep console_devsw.
Proof.
  split; intros m f ip x; simpl; (destruct (m =? CONSOLE); [|done]); intros [= <-].
  - unfold consoleread. kinv_tac.
  - unfold consolewrite. kinv_tac.
Qed.

(** ** Processes *)

Lemma keeps_curproc : keeps kinv curproc. Proof. unfold curproc. kinv_tac. Qed.
Lemma keeps_set_state p s : keeps kinv (set_state p s). Proof. unfold set_state. kinv_tac. Qed.
#[export] Hint Resolve keeps_curproc keeps_set_state : keeps.
Lemma keeps_kill pid : keeps kinv (kill pid). Proof. unfold kill. kinv_tac. Qed.
Lemma keeps_setnice pid n : keeps kinv (setnice pid n).
Proof.
  unfold setnice. kinv_tac. apply kinv_upd_proc; [|done]. apply step_nice. zcases.
Qed.
Lemma keeps_getnice pid : keeps kinv (getnice pid). Proof. unfold getnice. kinv_tac. Qed.
Lemma keeps_cprintfpad s n : keeps kinv (cprintfpad s n). Proof. unfold cprintfpad. kinv_tac. Qed.
#[export] Hint Resolve keeps_kill keeps_setnice keeps_getnice keeps_cprintfpad : keeps.
Lemma keeps_printheader : keeps kinv printheader. Proof. unfold printheader. kinv_tac. Qed.
Lemma keeps_printcontent p : keeps kinv (printcontent p). Proof. unfold printcontent. kinv_tac. Qed.
#[export] Hint Resolve keeps_printheader keeps_printcontent : keeps.
Lemma keeps_ps pid : keeps kinv (ps pid). Proof. unfold ps. kinv_tac. Qed.
#[export] Hint Resolve keeps_ps : keeps.

(** A fresh pid is different from all the others. *)
Lemma kinv_newpid p w :
  w_nextpid w <> INT_MAX -> kinv w ->
  kinv (set_w_nextpid (fun n => n + 1) (upd_proc p (set_p_pid (fun _ => w_nextpid w)) w)).
Proof.
  intros Hn ((Hl & Hx & Hps & Hd) & Hr). split; [|done]. simpl. set (n := w_nextpid w) in *.
  assert (forall j q, alter (set_p_pid (fun _ => n)) p (w_procs w) !! j = Some q ->
    (j = p /\ p_pid q = n) \/ (j <> p /\ w_procs w !! j = Some q /\ 0 <= p_pid q < n)) as Ha.
  { intros j q Hj. destruct (decide (p = j)) as [<-|].
    - left. rewrite list_lookup_alter_eq in Hj. by apply fmap_Some in Hj as (x & _ & ->).
    - right. rewrite list_lookup_alter_ne in Hj by done. split; [done|]. split; [done|].
      pose proof (Forall_lookup_1 _ _ _ _ Hps Hj) as Hq. apply Hq. }
  split; [|split; [lia|split]].
  - by rewrite length_alter.
  - apply Forall_alter.
    + revert Hps. apply Forall_impl. intros q (H1 & H2). split; [lia|done].
    + intros q _ (H1 & H2). split; simpl; [lia|done].
  - intros i j a b Hi Hj Hab Hnz. apply Ha in Hi, Hj.
    destruct Hi as [[-> Ei]|(Hni & Hi & Ei)], Hj as [[-> Ej]|(Hnj & Hj & Ej)]; try lia.
    by eapply Hd.
Qed.

Lemma step_copy_name t : proc_step (set_p_name (fun s => safestrcpy s t 16)).
Proof. apply step_name. intros s Hs. unfold safestrcpy. change (16 <=? 0) with false. cbn iota. by rewrite safestrcpy_loop_length. Qed.
Lemma step_clear_name : proc_step (set_p_name (insert 0%nat 0)).
Proof. apply step_name. intros s Hs. by rewrite length_insert. Qed.
#[export] Hint Resolve step_copy_name step_clear_name : kinv.

Section processes.
Context `{KernelImage} `{!DiskDriver} `{!DriverKeeps _} `{!DevSwitch} `{!DevsKeep _}.

Lemma keeps_setup_kstack p k : keeps kinv (setup_kstack p k). Proof. unfold setup_kstack. kinv_tac. Qed.
#[local] Hint Resolve keeps_setup_kstack : keeps.

Lemma keeps_allocproc : keeps kinv allocproc.
Proof.
  unfold allocproc. apply keeps_bind; [kinv_tac|]. intros ?.
  apply keeps_bind; [kinv_tac|]. intros ps. destruct (find_idx _ ps) as [p|]; [|kinv_tac].
  apply keeps_bind; [kinv_tac|]. intros ?.
  eapply triple_bind; [apply triple_get|]. intros pid.
  destruct (Z.eqb_spec pid INT_MAX); [apply triple_panic; by intros w []|].
  apply (triple_bind _ _ (fun _ w => kinv (set_w_nextpid (fun n => n + 1) w))).
  { apply triple_mod. intros w [Hw ->]. by apply kinv_newpid. }
  intros ?. apply (triple_bind _ _ (fun _ => kinv)); [by apply triple_mod|]. intros ?. kinv_tac.
Qed.
#[local] Hint Resolve keeps_allocproc : keeps.

Lemma keeps_userinit : keeps kinv userinit. Proof. unfold userinit. kinv_tac. Qed.
Lemma keeps_growproc n : keeps kinv (growproc n). Proof. unfold growproc. kinv_tac. Qed.
Lemma keeps_dup_files a b : keeps kinv (dup_files a b). Proof. unfold dup_files. kinv_tac. Qed.
#[local] Hint Resolve keeps_dup_files : keeps.
Lemma keeps_fork : keeps kinv fork. Proof. unfold fork. kinv_tac. Qed.
Lemma keeps_close_files a : keeps kinv (close_files a). Proof. unfold close_files. kinv_tac. Qed.
Lemma keeps_reparent a : keeps kinv (reparent a). Proof. unfold reparent. kinv_tac. Qed.
#[local] Hint Resolve keeps_close_files keeps_reparent : keeps.
Lemma keeps_exit : keeps kinv exit. Proof. unfold exit, exit_sched. kinv_tac. Qed.
Lemma keeps_reap p : keeps kinv (reap p). Proof. unfold reap. kinv_tac. Qed.
#[local] Hint Resolve keeps_reap : keeps.
Lemma keeps_wait_proc : keeps kinv wait. Proof. unfold wait. kinv_tac. Qed.
Lemma keeps_forkret : keeps kinv forkret. Proof. unfold forkret. kinv_tac. Qed.
#[local] Hint Resolve keeps_growproc keeps_fork keeps_exit keeps_wait_proc : keeps.

Lemma keeps_loaduvm_loop k d a i o s j : keeps kinv (loaduvm_loop k d a i o s j).
Proof. revert j. induction k; intros; cbn [loaduvm_loop]; kinv_tac. Qed.
#[local] Hint Resolve keeps_loaduvm_loop : keeps.
Lemma keeps_loaduvm d a i o s : keeps kinv (loaduvm d a i o s). Proof. unfold loaduvm. kinv_tac. Qed.
Lemma keeps_exec_bad d i : keeps kinv (exec_bad d i). Proof. unfold exec_bad. kinv_tac. Qed.
#[local] Hint Resolve keeps_loaduvm keeps_exec_bad : keeps.
Lemma keeps_exec_load n d i o s : keeps kinv (exec_load n d i o s).
Proof. revert o s. induction n; intros; cbn [exec_load]; kinv_tac. Qed.
Lemma keeps_exec_args l a d s u : keeps kinv (exec_args l a d s u).
Proof. revert a s u. induction l; intros; cbn [exec_args]; kinv_tac. Qed.
#[local] Hint Resolve keeps_exec_load keeps_exec_args : keeps.
Lemma keeps_exec_stack c p a e d s : keeps kinv (exec_stack c p a e d s).
Proof. unfold exec_stack. kinv_tac. Qed.
#[local] Hint Resolve keeps_exec_stack : keeps.
Lemma keeps_exec p a : keeps kinv (exec p a). Proof. unfold exec. kinv_tac. Qed.
#[local] Hint Resolve keeps_exec : keeps.

(** ** System calls *)

Lemma keeps_uldb a : keeps kinv (uldb a).
Proof. intros w e Hw He. unfold uldb. by destruct (translate _ _ _). Qed.
Lemma keeps_ustb a v : keeps kinv (ustb a v).
Proof. intros w e Hw He. unfold ustb. by destruct (translate _ _ _). Qed.
#[local] Hint Resolve keeps_uldb keeps_ustb : keeps.
Lemma keeps_uload n a : keeps kinv (uload n a).
Proof. revert a. induction n; intros; cbn [uload]; kinv_tac. Qed.
Lemma keeps_ustore a l : keeps kinv (ustore a l).
Proof. revert a. induction l; intros; cbn [ustore]; kinv_tac. Qed.
#[local] Hint Resolve keeps_uload keeps_ustore : keeps.
Lemma keeps_fetchint a : keeps kinv (fetchint a). Proof. unfold fetchint, uld32. kinv_tac. Qed.
Lemma keeps_fetchstr_loop n a : keeps kinv (fetchstr_loop n a).
Proof. revert a. induction n; intros; cbn [fetchstr_loop]; kinv_tac. Qed.
#[local] Hint Resolve keeps_fetchint keeps_fetchstr_loop : keeps.
Lemma keeps_fetchstr a : keeps kinv (fetchstr a). Proof. unfold fetchstr. kinv_tac. Qed.
Lemma keeps_argint n : keeps kinv (argint n). Proof. unfold argint. kinv_tac. Qed.
#[local] Hint Resolve keeps_fetchstr keeps_argint : keeps.
Lemma keeps_argptr n s : keeps kinv (argptr n s). Proof. unfold argptr. kinv_tac. Qed.
Lemma keeps_argstr n : keeps kinv (argstr n). Proof. unfold argstr. kinv_tac. Qed.
Lemma keeps_argfd n : keeps kinv (argfd n). Proof. unfold argfd. kinv_tac. Qed.
Lemma keeps_fdalloc n : keeps kinv (fdalloc n). Proof. unfold fdalloc. kinv_tac. Qed.
Lemma keeps_set_ofile n o : keeps kinv (set_ofile n o). Proof. unfold set_ofile. kinv_tac. Qed.
Lemma keeps_add_nlink i d : keeps kinv (add_nlink i d). Proof. unfold add_nlink. kinv_tac. Qed.
Lemma keeps_put_stat a s : keeps kinv (put_stat a s). Proof. unfold put_stat. kinv_tac. Qed.
#[local] Hint Resolve keeps_argptr keeps_argstr keeps_argfd keeps_fdalloc keeps_set_ofile keeps_add_nlink
  keeps_put_stat : keeps.
Lemma keeps_link_bad i : keeps kinv (link_bad i). Proof. unfold link_bad. kinv_tac. Qed.
Lemma keeps_isdirempty_loop k d o : keeps kinv (isdirempty_loop k d o).
Proof. revert o. induction k; intros; cbn [isdirempty_loop]; kinv_tac. Qed.
#[local] Hint Resolve keeps_link_bad keeps_isdirempty_loop : keeps.
Lemma keeps_isdirempty d : keeps kinv (isdirempty d). Proof. unfold isdirempty. kinv_tac. Qed.
Lemma keeps_unlink_bad d : keeps kinv (unlink_bad d). Proof. unfold unlink_bad. kinv_tac. Qed.
Lemma keeps_create p t a b : keeps kinv (create p t a b). Proof. unfold create. kinv_tac. Qed.
#[local] Hint Resolve keeps_isdirempty keeps_unlink_bad keeps_create : keeps.
Lemma keeps_open_inode p m : keeps kinv (open_inode p m). Proof. unfold open_inode. kinv_tac. Qed.
Lemma keeps_exec_argv n a i : keeps kinv (exec_argv n a i).
Proof. revert i. induction n; intros; cbn [exec_argv]; kinv_tac. Qed.
#[local] Hint Resolve keeps_open_inode keeps_exec_argv : keeps.
Lemma keeps_sys_read : keeps kinv sys_read. Proof. unfold sys_read. kinv_tac. Qed.
Lemma keeps_sys_write : keeps kinv sys_write. Proof. unfold sys_write. kinv_tac. Qed.
Lemma keeps_sys_close : keeps kinv sys_close. Proof. unfold sys_close. kinv_tac. Qed.
Lemma keeps_sys_fstat : keeps kinv sys_fstat. Proof. unfold sys_fstat. kinv_tac. Qed.
Lemma keeps_sys_link : keeps kinv sys_link. Proof. unfold sys_link. kinv_tac. Qed.
Lemma keeps_sys_unlink : keeps kinv sys_unlink. Proof. unfold sys_unlink. kinv_tac. Qed.
Lemma keeps_sys_open : keeps kinv sys_open.
Proof. unfold sys_open. kinv_tac. by apply kinv_upd_file. Qed.
Lemma keeps_sys_mkdir : keeps kinv sys_mkdir. Proof. unfold sys_mkdir. kinv_tac. Qed.
Lemma keeps_sys_mknod : keeps kinv sys_mknod. Proof. unfold sys_mknod. kinv_tac. Qed.
Lemma keeps_sys_chdir : keeps kinv sys_chdir. Proof. unfold sys_chdir. kinv_tac. Qed.
Lemma keeps_sys_exec : keeps kinv sys_exec. Proof. unfold sys_exec. kinv_tac. Qed.
Lemma keeps_sys_pipe : keeps kinv sys_pipe. Proof. unfold sys_pipe. kinv_tac. Qed.
Lemma keeps_sys_dup : keeps kinv sys_dup. Proof. unfold sys_dup. kinv_tac. Qed.
#[local] Hint Resolve keeps_sys_read keeps_sys_write keeps_sys_close keeps_sys_fstat keeps_sys_link
  keeps_sys_unlink keeps_sys_open keeps_sys_mkdir keeps_sys_mknod keeps_sys_chdir keeps_sys_exec
  keeps_sys_pipe keeps_sys_dup : keeps.

Lemma keeps_syscalls eax num f : syscalls eax num = Some f -> keeps kinv f.
Proof.
  unfold syscalls, sys_fork, sys_exit, sys_wait, sys_kill, sys_getpid, sys_sbrk, sys_sleep, sleep_loop,
    sys_uptime, sys_setnice, sys_getnice, sys_ps.
  intros Hf. repeat (case_match; try done); simplify_eq; kinv_tac.
Qed.

Lemma keeps_syscall eax : keeps kinv (syscall eax).
Proof.
  unfold syscall. kinv_tac.
  match goal with E : (if _ then _ else None) = Some _ |- _ => destruct (_ && _) in E; [|done] end.
  by eapply keeps_syscalls.
Qed.
#[local] Hint Resolve keeps_syscall : keeps.

Lemma keeps_trap_switch tf n : keeps kinv (trap_switch tf n). Proof. unfold trap_switch. kinv_tac. Qed.
#[local] Hint Resolve keeps_trap_switch : keeps.

Lemma keeps_trap eax tf : keeps kinv (trap eax tf).
Proof. unfold trap, exit_if_killed, exit_if_killed_user. kinv_tac. Qed.
End processes.

(** ** The whole kernel *)

Lemma boot_kinv : kinv boot_world.
Proof.
  split; [|split; [|split]].
  - split; [done|]. split; [done|]. split.
    + apply Forall_replicate. repeat split; simpl; lia.
    + intros i j p q Hi Hj _ Hp. apply lookup_replicate in Hi as [-> _]. done.
  - repeat split; done.
  - apply map_Forall_empty.
  - split; [done|]. apply Forall_replicate. done.
Qed.


(** Process 1 has called getpid: the trap frame at [demo_tf] says so. *)
Definition demo_tf : Z := 0x8dffffb4.
Definition demo_call : world :=
  st (demo_tf + tf_trapno) T_SYSCALL (st (demo_tf + tf_eax) 11
    (set_w_cpus (fun _ => [ctx_cpu])
      (set_w_nextpid (fun n => n + 1) (upd_proc 1 (set_p_pid (fun _ => 1))
        (upd_proc 1 (set_p_state (fun _ => RUNNING)) boot_world))))).

