(* ===== verification/Devices.v ===== *)
(** * Interrupt controllers, clock and the set-up of the devices (lapic.c, ioapic.c, picirq.c, uart.c,
    ide.c, memide.c, trap.c idtinit)

    The devices are not part of the program: [Hardware] is what an input from a port, an output to
    a port, a load from and a store to a device register answer and do.  A driver routine runs on
    the kernel's state and on the state of the devices together with the variables that only the
    drivers use ([drv]).  What the registers promise is stated in the classes [IoApic], [Lapic] and
    [Clock], and the theorems say which interrupts are let through to which processor, how the
    local controller is left, and that the date read from the clock is the clock's. *)

From Stdlib Require Import ZArith Lia.
From stdpp Require Import base list gmap strings numbers.
From S2P Require Import Prelude Machine Cstring Spinlock Boot Cprintf Sched Sleeplock Layout Vm Bio Syscall.
From stdpp Require Import list.
Local Open Scope Z_scope.

(** ** The devices *)

Class Hardware := {
  hw : Type;
  hw_in : Z -> hw -> Z * hw;
  hw_out : Z -> Z -> hw -> hw;
  (** one 32-bit input of [insl] *)
  hw_inl : Z -> hw -> Z * hw;
  hw_load : Z -> hw -> Z * hw;
  hw_store : Z -> Z -> hw -> hw;
  (** how many times a loop that waits for a device looks at it while it is observed *)
  hw_polls : nat
}.

(** The devices, [lapic], [ioapicid] and the limit in the register of the descriptor table. *)
Record drv `{Hardware} : Type := mkDrv { d_hw : hw; d_lapic : Z; d_ioapicid : Z; d_idtr : Z }.

Definition set_hw `{Hardware} (h : hw) (d : drv) : drv := mkDrv _ h (d_lapic d) (d_ioapicid d) (d_idtr d).
Definition set_lapic `{Hardware} (a : Z) (d : drv) : drv := mkDrv _ (d_hw d) a (d_ioapicid d) (d_idtr d).
Definition set_ioapicid `{Hardware} (a : Z) (d : drv) : drv := mkDrv _ (d_hw d) (d_lapic d) a (d_idtr d).
Definition set_idtr `{Hardware} (a : Z) (d : drv) : drv := mkDrv _ (d_hw d) (d_lapic d) (d_ioapicid d) a.

Definition H `{Hardware} (A : Type) : Type := drv -> KM (A * drv).
Definition hret `{Hardware} {A} (a : A) : H A := fun d => kret (a, d).
Definition hbind `{Hardware} {A B} (m : H A) (f : A -> H B) : H B := fun d => kbind (m d) (fun r => f r.1 r.2).
(** A routine of the kernel that does not touch the devices. *)
Definition hlift `{Hardware} {A} (m : KM A) : H A := fun d => kbind m (fun a => kret (a, d)).
Definition hget `{Hardware} {A} (f : drv -> A) : H A := fun d => kret (f d, d).
Definition hmod `{Hardware} (f : drv -> drv) : H unit := fun d => kret (tt, f d).

Declare Scope dev_scope.
Delimit Scope dev_scope with dev.
Notation "x <- m ; k" := (hbind m (fun x => k))
  (at level 100, m at next level, k at level 200, right associativity) : dev_scope.
Notation "m >>; k" := (hbind m (fun _ => k))
  (at level 100, k at level 200, right associativity) : dev_scope.
Local Open Scope dev_scope.

Definition hwhen `{Hardware} (b : bool) (m : H unit) : H unit := if b then m else hret tt.

Fixpoint hfor `{Hardware} {A} (l : list A) (body : A -> H unit) : H unit :=
  match l with
  | [] => hret tt
  | x :: l' => body x >>; hfor l' body
  end.

(** [for(;;) body], left with a value by [Some]; [n] bounds the turns. *)
Fixpoint hloop `{Hardware} {A} (n : nat) (body : H (option A)) : H A :=
  match n with
  | O => fun _ => kout
  | S n' => r <- body; match r with Some a => hret a | None => hloop n' body end
  end.

(** ** x86.h *)

Section devices.
Context `{Hardware}.

Definition inb (port : Z) : H Z := fun d => let '(v, h) := hw_in port (d_hw d) in kret (u8 v, set_hw h d).
Definition outb (port data : Z) : H unit := hmod (fun d => set_hw (hw_out port (u8 data) (d_hw d)) d).
Definition load (a : Z) : H Z := fun d => let '(v, h) := hw_load a (d_hw d) in kret (u32 v, set_hw h d).
Definition store (a v : Z) : H unit := hmod (fun d => set_hw (hw_store a (u32 v) (d_hw d)) d).
(** The size is kept less one; the address of the table is fixed. *)
Definition lidt (size : Z) : H unit := hmod (set_idtr (size - 1)).

(** ** The local interrupt controller (lapic.c) *)

Definition ID : Z := 0x0020 / 4.
Definition VER : Z := 0x0030 / 4.
Definition TPR : Z := 0x0080 / 4.
Definition EOI : Z := 0x00B0 / 4.
Definition SVR : Z := 0x00F0 / 4.
Definition ENABLE : Z := 0x00000100.
Definition ESR : Z := 0x0280 / 4.
Definition ICRLO : Z := 0x0300 / 4.
Definition INIT : Z := 0x00000500.
Definition STARTUP : Z := 0x00000600.
Definition DELIVS : Z := 0x00001000.
Definition ASSERT : Z := 0x00004000.
Definition LEVEL : Z := 0x00008000.
Definition BCAST : Z := 0x00080000.
Definition ICRHI : Z := 0x0310 / 4.
Definition TIMER : Z := 0x0320 / 4.
Definition X1 : Z := 0x0000000B.
Definition PERIODIC : Z := 0x00020000.
Definition PCINT : Z := 0x0340 / 4.
Definition LINT0 : Z := 0x0350 / 4.
Definition LINT1 : Z := 0x0360 / 4.
Definition ERROR : Z := 0x0370 / 4.
Definition MASKED : Z := 0x00010000.
Definition TICR : Z := 0x0380 / 4.
Definition TDCR : Z := 0x03E0 / 4.
Definition IRQ_ERROR : Z := 19.

(** [lapic[index]] *)
Definition lapicr (index : Z) : H Z := base <- hget d_lapic; load (base + 4 * index).

Definition lapicw (index value : Z) : H unit :=
  base <- hget d_lapic;
  store (base + 4 * index) value >>;
  lapicr ID >>;
  hret tt.

Definition lapicinit : H unit :=
  base <- hget d_lapic;
  if base =? 0 then hret tt else
  lapicw SVR (Z.lor ENABLE (T_IRQ0 + IRQ_SPURIOUS)) >>;
  lapicw TDCR X1 >>;
  lapicw TIMER (Z.lor PERIODIC (T_IRQ0 + IRQ_TIMER)) >>;
  lapicw TICR 10000000 >>;
  lapicw LINT0 MASKED >>;
  lapicw LINT1 MASKED >>;
  ver <- lapicr VER;
  hwhen (Z.land (Z.shiftr ver 16) 0xFF >=? 4) (lapicw PCINT MASKED) >>;
  lapicw ERROR (T_IRQ0 + IRQ_ERROR) >>;
  lapicw ESR 0 >>;
  lapicw ESR 0 >>;
  lapicw EOI 0 >>;
  lapicw ICRHI 0 >>;
  lapicw ICRLO (Z.lor BCAST (Z.lor INIT LEVEL)) >>;
  hloop hw_polls (v <- lapicr ICRLO; hret (if Z.land v DELIVS =? 0 then Some tt else None)) >>;
  lapicw TPR 0.

Definition lapicid : H Z :=
  base <- hget d_lapic;
  if base =? 0 then hret 0 else
  v <- lapicr ID;
  hret (Z.shiftr v 24).

Definition lapiceoi : H unit :=
  base <- hget d_lapic;
  hwhen (negb (base =? 0)) (lapicw EOI 0).

Definition microdelay (us : Z) : H unit := hret tt.

Definition CMOS_PORT : Z := 0x70.
Definition CMOS_RETURN : Z := 0x71.

Definition lapicstartap (apicid addr : Z) : H unit :=
  outb CMOS_PORT 0xF >>;
  outb (CMOS_PORT + 1) 0x0A >>;
  let wrv := P2V (Z.lor (Z.shiftl 0x40 4) 0x67) in
  hlift (kmod (set_w_mem (put_bytes wrv (Layout.le 2 0)))) >>;
  hlift (kmod (set_w_mem (put_bytes (wrv + 2) (Layout.le 2 (Z.shiftr addr 4))))) >>;
  lapicw ICRHI (Z.shiftl apicid 24) >>;
  lapicw ICRLO (Z.lor INIT (Z.lor LEVEL ASSERT)) >>;
  microdelay 200 >>;
  lapicw ICRLO (Z.lor INIT LEVEL) >>;
  microdelay 100 >>;
  hfor (seq 0 2) (fun _ =>
    lapicw ICRHI (Z.shiftl apicid 24) >>;
    lapicw ICRLO (Z.lor STARTUP (Z.shiftr addr 12)) >>;
    microdelay 200).

(** ** The clock (lapic.c, date.h) *)

Record rtcdate : Type := mkRtc { second : Z; minute : Z; hour : Z; day : Z; month : Z; year : Z }.
#[export] Instance rtcdate_eq_dec : EqDecision rtcdate.
Proof. solve_decision. Defined.

Definition CMOS_STATA : Z := 0x0a.
Definition CMOS_STATB : Z := 0x0b.
Definition CMOS_UIP : Z := Z.shiftl 1 7.
Definition SECS : Z := 0x00.
Definition MINS : Z := 0x02.
Definition HOURS : Z := 0x04.
Definition DAY : Z := 0x07.
Definition MONTH : Z := 0x08.
Definition YEAR : Z := 0x09.

Definition cmos_read (reg : Z) : H Z :=
  outb CMOS_PORT reg >>;
  microdelay 200 >>;
  inb CMOS_RETURN.

Definition fill_rtcdate : H rtcdate :=
  s <- cmos_read SECS;
  m <- cmos_read MINS;
  h <- cmos_read HOURS;
  d <- cmos_read DAY;
  mo <- cmos_read MONTH;
  y <- cmos_read YEAR;
  hret (mkRtc s m h d mo y).

(** [CONV(x)] *)
Definition conv (x : Z) : Z := Z.shiftr x 4 * 10 + Z.land x 0xf.

Definition cmostime : H rtcdate :=
  sb <- cmos_read CMOS_STATB;
  let bcd := Z.land sb (Z.shiftl 1 2) =? 0 in
  t1 <- hloop hw_polls
    (t1 <- fill_rtcdate;
     a <- cmos_read CMOS_STATA;
     if negb (Z.land a CMOS_UIP =? 0) then hret None else
     t2 <- fill_rtcdate;
     hret (if bool_decide (t1 = t2) then Some t1 else None));
  let t1 := if bcd then mkRtc (conv (second t1)) (conv (minute t1)) (conv (hour t1))
                          (conv (day t1)) (conv (month t1)) (conv (year t1)) else t1 in
  hret (mkRtc (second t1) (minute t1) (hour t1) (day t1) (month t1) (year t1 + 2000)).

(** ** The I/O interrupt controller (ioapic.c) *)

Definition IOAPIC : Z := 0xFEC00000.
Definition REG_ID : Z := 0x00.
Definition REG_VER : Z := 0x01.
Definition REG_TABLE : Z := 0x10.
Definition INT_DISABLED : Z := 0x00010000.

(** The register is chosen by a write to [reg] and read or written through [data]. *)
Definition ioapicread (reg : Z) : H Z :=
  store IOAPIC reg >>;
  load (IOAPIC + 16).

Definition ioapicwrite (reg data : Z) : H unit :=
  store IOAPIC reg >>;
  store (IOAPIC + 16) data.

Definition ioapicinit : H unit :=
  v <- ioapicread REG_VER;
  let maxintr := Z.land (Z.shiftr v 16) 0xFF in
  v <- ioapicread REG_ID;
  let id := Z.shiftr v 24 in
  want <- hget d_ioapicid;
  hwhen (negb (id =? want)) (hlift (printkn "ioapicinit: id isn't equal to ioapicid; not a MP" [])) >>;
  hfor (seqZ 0 (maxintr + 1)) (fun i =>
    ioapicwrite (REG_TABLE + 2 * i) (Z.lor INT_DISABLED (T_IRQ0 + i)) >>;
    ioapicwrite (REG_TABLE + 2 * i + 1) 0).

Definition ioapicenable (irq cpunum : Z) : H unit :=
  ioapicwrite (REG_TABLE + 2 * irq) (T_IRQ0 + irq) >>;
  ioapicwrite (REG_TABLE + 2 * irq + 1) (Z.shiftl cpunum 24).

(** ** The old interrupt controllers (picirq.c) *)

Definition IO_PIC1 : Z := 0x20.
Definition IO_PIC2 : Z := 0xA0.

Definition picinit : H unit :=
  outb (IO_PIC1 + 1) 0xFF >>;
  outb (IO_PIC2 + 1) 0xFF.

(** ** The serial port (uart.c) *)

Definition COM1 : Z := 0x3f8.

Definition uartinit : H unit :=
  outb (COM1 + 2) 0 >>;
  outb (COM1 + 3) 0x80 >>;
  outb (COM1 + 0) (115200 / 9600) >>;
  outb (COM1 + 1) 0 >>;
  outb (COM1 + 3) 0x03 >>;
  outb (COM1 + 4) 0 >>;
  outb (COM1 + 1) 0x01 >>;
  v <- inb (COM1 + 5);
  if v =? 0xFF then hret tt else
  hlift (upd_con (set_cn_uart (fun _ => 1))) >>;
  inb (COM1 + 2) >>;
  inb (COM1 + 0) >>;
  ioapicenable IRQ_COM1 0 >>;
  hfor (str "xv6..." ++ [10]) (fun c => hlift (uartputc c)).

(** ** The disks (ide.c, memide.c) *)

(** Whether one of the [n] reads that are left finds disk 1. *)
Fixpoint probe (n : nat) : H unit :=
  match n with
  | O => hret tt
  | S n' =>
    v <- inb 0x1f7;
    if negb (v =? 0) then hlift (upd_ide (set_ide_havedisk1 (fun _ => 1))) else probe n'
  end.

Definition ideinit : H unit :=
  hlift (initlock IdeLock "ide") >>;
  ncpu <- hlift (kget (fun w => Z.of_nat (length (w_cpus w))));
  ioapicenable IRQ_IDE (ncpu - 1) >>;
  hlift (idewait 0) >>;
  outb 0x1f6 (Z.lor 0xe0 (Z.shiftl 1 4)) >>;
  probe 1000 >>;
  outb 0x1f6 (Z.lor 0xe0 (Z.shiftl 0 4)).

(** The image of the memory disk is the disk; [size] is its size in bytes, from the linker. *)
Definition ideinit_mem (size : Z) : H unit :=
  hlift (upd_ide (set_ide_disksize (fun _ => size / BSIZE))).
Definition ideintr_mem : H unit := hret tt.

(** ** The descriptor table (trap.c) *)

Definition idtinit : H unit := lidt (256 * 8).
End devices.

(** ** Steps of the drivers *)

Lemma u8_small z : 0 <= z < 256 -> u8 z = z.
Proof. intros Hz. unfold u8. apply Z.mod_small. lia. Qed.

Section steps.
Context `{Hardware}.
Implicit Types (d : drv) (w : world) (e : sched_env world).

Lemma hbind_ret {A B} (m : H A) (f : A -> H B) d w e a d1 w1 e1 : m d w e = Ret (a, d1) w1 e1 -> hbind m f d w e = f a d1 w1 e1.
Proof. intros E. unfold hbind. cbn [kbind]. by rewrite E. Qed.

Lemma hlift_ret {A} (m : KM A) d w e a w1 e1 : m w e = Ret a w1 e1 -> hlift m d w e = Ret (a, d) w1 e1.
Proof. intros E. unfold hlift. cbn [kbind]. by rewrite E. Qed.

Lemma outb_eq port v d w e : outb port v d w e = Ret (tt, set_hw (hw_out port (u8 v) (d_hw d)) d) w e.
Proof. done. Qed.

Lemma inb_eq port d w e v h : hw_in port (d_hw d) = (v, h) -> inb port d w e = Ret (u8 v, set_hw h d) w e.
Proof. intros E. unfold inb. by rewrite E. Qed.

Lemma load_eq a d w e v h : hw_load a (d_hw d) = (v, h) -> load a d w e = Ret (u32 v, set_hw h d) w e.
Proof. intros E. unfold load. by rewrite E. Qed.

(** A loop over a list, with an invariant on the driver's state; the kernel's stays. *)
Lemma hfor_rule {A} (I : list A -> drv -> Prop) (body : A -> H unit) w e l d :
  (forall x l d, I (x :: l) d -> exists d', body x d w e = Ret (tt, d') w e /\ I l d') -> I l d ->
  exists d', hfor l body d w e = Ret (tt, d') w e /\ I [] d'.
Proof.
  intros Hb. revert d. induction l as [|x l IH]; intros d HI; [by exists d|]. cbn [hfor].
  destruct (Hb x l d HI) as (d1 & E1 & HI1). rewrite (hbind_ret _ _ _ _ _ _ _ _ _ E1). by apply IH.
Qed.
End steps.

(** ** What the registers promise *)

(** The redirection table of the I/O controller behind its two registers: the first chooses the
    register that the second reads and writes.  Nothing else changes the table. *)
Class IoApic `{Hardware} := {
  io_sel : hw -> Z;
  io_reg : hw -> Z -> Z;
  io_range h r : 0 <= io_reg h r < 2 ^ 32;
  io_select h r : io_sel (hw_store IOAPIC r h) = r;
  io_select_keep h r x : io_reg (hw_store IOAPIC r h) x = io_reg h x;
  io_data h v x : REG_TABLE <= io_sel h -> 0 <= v < 2 ^ 32 ->
    io_reg (hw_store (IOAPIC + 16) v h) x = if x =? io_sel h then v else io_reg h x;
  io_get h : exists h', hw_load (IOAPIC + 16) h = (io_reg h (io_sel h), h') /\ forall x, io_reg h' x = io_reg h x;
  io_in h p x : io_reg (snd (hw_in p h)) x = io_reg h x;
  io_out h p v x : io_reg (hw_out p v h) x = io_reg h x
}.

Section ioapic.
Context `{IoApic}.
Implicit Types (d : drv) (w : world) (e : sched_env world).

Lemma ioapicread_eq r d w e : 0 <= r < 2 ^ 32 ->
  exists d', ioapicread r d w e = Ret (io_reg (d_hw d) r, d') w e /\ d_ioapicid d' = d_ioapicid d /\ forall x, io_reg (d_hw d') x = io_reg (d_hw d) x.
Proof.
  intros Hr. unfold ioapicread, store. rewrite (hbind_ret _ _ _ _ _ tt (set_hw (hw_store IOAPIC (u32 r) (d_hw d)) d) w e) by done.
  set (h1 := hw_store IOAPIC (u32 r) (d_hw d)). destruct (io_get h1) as (h2 & E & Hk). rewrite (load_eq _ (set_hw h1 d) w e _ h2 E).
  unfold h1 in E, Hk |- *. rewrite io_select, io_select_keep, !u32_small by (try apply io_range; done). exists (set_hw h2 (set_hw (hw_store IOAPIC r (d_hw d)) d)).
  split; [done|]. split; [done|]. intros x. cbn. rewrite Hk. apply io_select_keep.
Qed.

Lemma ioapicwrite_eq r v d w e : REG_TABLE <= r < 2 ^ 32 -> 0 <= v < 2 ^ 32 ->
  exists d', ioapicwrite r v d w e = Ret (tt, d') w e /\ forall x, io_reg (d_hw d') x = if x =? r then v else io_reg (d_hw d) x.
Proof.
  intros Hr Hv. eexists. split; [reflexivity|]. intros x. cbn [d_hw set_hw snd]. unfold REG_TABLE in Hr. rewrite !u32_small by lia.
  rewrite io_data; [|rewrite io_select; unfold REG_TABLE; lia|done]. rewrite io_select. destruct (x =? r); [done|apply io_select_keep].
Qed.

(** The number of the last entry. *)
Definition io_last d : Z := Z.land (Z.shiftr (io_reg (d_hw d) REG_VER) 16) 0xFF.

Lemma io_last_range d : 0 <= io_last d < 256.
Proof. unfold io_last. change 0xFF with (Z.ones 8). rewrite Z.land_ones by lia. apply Z.mod_pos_bound. lia. Qed.

(** Entry [i] of the table. *)
Definition entry_is d (i lo hi : Z) : Prop := io_reg (d_hw d) (REG_TABLE + 2 * i) = lo /\ io_reg (d_hw d) (REG_TABLE + 2 * i + 1) = hi.

Lemma entry_write i lo hi d w e : 0 <= i < 256 -> 0 <= lo < 2 ^ 32 -> 0 <= hi < 2 ^ 32 ->
  exists d', (ioapicwrite (REG_TABLE + 2 * i) lo >>; ioapicwrite (REG_TABLE + 2 * i + 1) hi) d w e = Ret (tt, d') w e /\
    entry_is d' i lo hi /\ (forall j a b, j <> i -> entry_is d j a b -> entry_is d' j a b) /\ io_last d' = io_last d.
Proof.
  intros Hi Hlo Hhi. unfold entry_is, REG_TABLE in *. destruct (ioapicwrite_eq (16 + 2 * i) lo d w e) as (d1 & E1 & Hw1); [unfold REG_TABLE; lia|done|].
  destruct (ioapicwrite_eq (16 + 2 * i + 1) hi d1 w e) as (d2 & E2 & Hw2); [unfold REG_TABLE; lia|done|]. exists d2.
  rewrite (hbind_ret _ _ _ _ _ _ _ _ _ E1). split; [done|]. split.
  - rewrite !Hw2, Z.eqb_refl, Hw1, Z.eqb_refl, (proj2 (Z.eqb_neq _ _)) by lia. done.
  - split; [intros j a b Hj [<- <-]; by rewrite !Hw2, !Hw1, !(proj2 (Z.eqb_neq _ _)) by lia|].
    unfold io_last. by rewrite Hw2, Hw1, !(proj2 (Z.eqb_neq _ _)) by (unfold REG_VER; lia).
Qed.

Lemma ioapicenable_entry irq cpunum d w e : 0 <= irq < 256 -> 0 <= cpunum < 256 ->
  exists d', ioapicenable irq cpunum d w e = Ret (tt, d') w e /\ entry_is d' irq (T_IRQ0 + irq) (Z.shiftl cpunum 24) /\
    (forall j a b, j <> irq -> entry_is d j a b -> entry_is d' j a b) /\ io_last d' = io_last d.
Proof.
  intros Hi Hc. apply entry_write; [done|unfold T_IRQ0; lia|]. rewrite Z.shiftl_mul_pow2 by lia. lia.
Qed.

Definition masked d (i : Z) : Prop := entry_is d i (Z.lor INT_DISABLED (T_IRQ0 + i)) 0.

Lemma masked_range i : 0 <= i < 256 -> 0 <= Z.lor INT_DISABLED (T_IRQ0 + i) < 2 ^ 32.
Proof.
  intros Hi. unfold INT_DISABLED, T_IRQ0. split; [apply Z.lor_nonneg; lia|]. destruct (Z.eq_dec (Z.lor 65536 (32 + i)) 0) as [->|Hne]; [lia|].
  apply Z.log2_lt_pow2; [assert (0 <= Z.lor 65536 (32 + i)) by (apply Z.lor_nonneg; lia); lia|]. rewrite Z.log2_lor by lia.
  assert (Z.log2 (32 + i) < 9) by (apply Z.log2_lt_pow2; lia). change (Z.log2 65536) with 16. lia.
Qed.

(** The loop of ioapicinit masks the entries it goes over. *)
Lemma mask_loop d w e : exists d', hfor (seqZ 0 (io_last d + 1)) (fun i =>
    ioapicwrite (REG_TABLE + 2 * i) (Z.lor INT_DISABLED (T_IRQ0 + i)) >>; ioapicwrite (REG_TABLE + 2 * i + 1) 0) d w e = Ret (tt, d') w e /\
  (forall i, 0 <= i <= io_last d -> masked d' i) /\ io_last d' = io_last d.
Proof.
  pose proof (io_last_range d) as Hr. set (n := io_last d + 1) in *.
  destruct (hfor_rule (fun l d' => exists k, 0 <= k <= n /\ l = seqZ k (n - k) /\ (forall i, 0 <= i < k -> masked d' i) /\ io_last d' = io_last d)
    (fun i => ioapicwrite (REG_TABLE + 2 * i) (Z.lor INT_DISABLED (T_IRQ0 + i)) >>; ioapicwrite (REG_TABLE + 2 * i + 1) 0) w e (seqZ 0 n) d) as (d' & E & k & Hk & Hl & Hm & Hla).
  - intros x l d1 (k & Hk & Hl & Hm & Hla). destruct (Z.eq_dec k n) as [->|Hne]; [by rewrite Z.sub_diag in Hl|]. rewrite seqZ_cons in Hl by lia. injection Hl as -> ->.
    destruct (entry_write k (Z.lor INT_DISABLED (T_IRQ0 + k)) 0 d1 w e) as (d2 & E2 & Hw1 & Hw2 & Hl2); [lia|apply masked_range; lia|lia|]. exists d2. split; [done|].
    exists (k + 1). split; [lia|]. split; [f_equal; lia|]. split; [|congruence]. intros i Hi. destruct (Z.eq_dec i k) as [->|Hik]; [done|]. apply Hw2; [done|]. apply Hm. lia.
  - exists 0. split; [lia|]. split; [f_equal; lia|]. split; [lia|done].
  - exists d'. split; [done|]. split; [|done]. intros i Hi. apply Hm. destruct (Z.eq_dec k n) as [->|Hne]; [lia|]. rewrite seqZ_cons in Hl by lia. done.
Qed.

(** ioapicinit leaves every entry masked, and the kernel's state as it was but for a message when
    the controller is not the one the tables name. *)
Lemma ioapicinit_eq d w i c e : cpu_ok w i c -> con_ok (w_con w) -> con_free w ->
  exists d' w', ioapicinit d w e = Ret (tt, d') w' e /\ (forall j, 0 <= j <= io_last d -> masked d' j) /\ io_last d' = io_last d /\
    (w' = w \/ exists cs, w' = set_w_con (put_cons cs) (con_settled i w)).
Proof.
  intros Hok Hcon Hfree. unfold ioapicinit. destruct (ioapicread_eq REG_VER d w e ltac:(done)) as (d1 & E1 & Hid1 & Hk1). rewrite (hbind_ret _ _ _ _ _ _ _ _ _ E1).
  fold (io_last d). destruct (ioapicread_eq REG_ID d1 w e ltac:(done)) as (d2 & E2 & Hid2 & Hk2). rewrite (hbind_ret _ _ _ _ _ _ _ _ _ E2).
  rewrite (hbind_ret _ _ _ _ _ (d_ioapicid d2) d2 w e) by done.
  assert (io_last d2 = io_last d) as Hl by (unfold io_last; by rewrite Hk2, Hk1).
  assert (exists w1, hwhen (negb (Z.shiftr (io_reg (d_hw d1) REG_ID) 24 =? d_ioapicid d2))
    (hlift (printkn "ioapicinit: id isn't equal to ioapicid; not a MP" [])) d2 w e = Ret (tt, d2) w1 e /\
    (w1 = w \/ exists cs, w1 = set_w_con (put_cons cs) (con_settled i w))) as (w1 & E3 & Hw).
  { destruct (negb _); [|exists w; split; [done|by left]]. eexists. split; [apply hlift_ret; eapply cprintf_eq; [exact Hok|exact Hcon|exact Hfree|vm_compute; reflexivity]|]. right. by eexists. }
  rewrite (hbind_ret _ _ _ _ _ _ _ _ _ E3). destruct (mask_loop d2 w1 e) as (d3 & E4 & Hm & Hla). rewrite Hl in E4, Hm, Hla. by exists d3, w1.
Qed.

(** The interrupts the I/O controller lets through: after ioapicinit and ioapicenable of one
    interrupt, that one goes to the vector T_IRQ0 + irq of the processor asked for, and every other
    one of the table is masked. *)
Theorem ioapic_routes d w i c e irq cpunum : cpu_ok w i c -> con_ok (w_con w) -> con_free w ->
  0 <= irq <= io_last d -> 0 <= cpunum < 256 ->
  exists d' w', (ioapicinit >>; ioapicenable irq cpunum) d w e = Ret (tt, d') w' e /\
    entry_is d' irq (T_IRQ0 + irq) (Z.shiftl cpunum 24) /\
    forall j, 0 <= j <= io_last d -> Z.testbit (io_reg (d_hw d') (REG_TABLE + 2 * j)) 16 = negb (j =? irq).
Proof.
  intros Hok Hcon Hfree Hirq Hc. pose proof (io_last_range d) as Hr. destruct (ioapicinit_eq d w i c e Hok Hcon Hfree) as (d1 & w1 & E1 & Hm & _).
  destruct (ioapicenable_entry irq cpunum d1 w1 e) as (d2 & E2 & Hin & Hout & _); [lia|done|]. exists d2, w1. rewrite (hbind_ret _ _ _ _ _ _ _ _ _ E1).
  split; [done|]. split; [done|]. intros j Hj. destruct (Z.eqb_spec j irq) as [->|Hne].
  - destruct Hin as [-> _]. unfold T_IRQ0. apply Z.bits_above_log2; [lia|]. apply Z.log2_lt_pow2; lia.
  - destruct (Hout j _ _ Hne (Hm j Hj)) as [-> _]. rewrite Z.lor_spec. done.
Qed.
End ioapic.

(** The registers of the local controller, at [la_base], that hold what is written to them; a
    command that has been sent is delivered after a while, [la_busy] looks at most. *)
Definition la_plain : list Z := [SVR; TDCR; TIMER; TICR; LINT0; LINT1; PCINT; ERROR; TPR].

Class Lapic `{Hardware} := {
  la_base : Z;
  la_reg : hw -> Z -> Z;
  la_busy : hw -> nat;
  la_store h r v x : x ∈ la_plain -> la_reg (hw_store (la_base + 4 * r) v h) x = if x =? r then v else la_reg h x;
  la_load h a x : la_reg (snd (hw_load a h)) x = la_reg h x;
  la_polls h : (la_busy h < hw_polls)%nat;
  la_wait h : Z.land (u32 (fst (hw_load (la_base + 4 * ICRLO) h))) DELIVS <> 0 ->
    (la_busy (snd (hw_load (la_base + 4 * ICRLO) h)) < la_busy h)%nat
}.

Section lapic.
Context `{Lapic}.
Implicit Types (d : drv) (w : world) (e : sched_env world).

Lemma lapicr_eq r d w e : exists v d', lapicr r d w e = Ret (v, d') w e /\ d_lapic d' = d_lapic d /\ (forall x, la_reg (d_hw d') x = la_reg (d_hw d) x) /\
  v = u32 (fst (hw_load (d_lapic d + 4 * r) (d_hw d))) /\ d_hw d' = snd (hw_load (d_lapic d + 4 * r) (d_hw d)).
Proof.
  unfold lapicr. rewrite (hbind_ret _ _ _ _ _ (d_lapic d) d w e) by done. destruct (hw_load (d_lapic d + 4 * r) (d_hw d)) as [v h] eqn:E.
  rewrite (load_eq _ _ _ _ _ _ E). do 2 eexists. split; [done|]. split; [done|]. split; [|done]. intros x. cbn. pose proof (la_load (d_hw d) (d_lapic d + 4 * r) x) as Hl. by rewrite E in Hl.
Qed.

(** A write to a register, seen on the registers that keep what they are given. *)
Lemma lapicw_eq r v d w e : d_lapic d = la_base -> 0 <= v < 2 ^ 32 ->
  exists d', lapicw r v d w e = Ret (tt, d') w e /\ d_lapic d' = la_base /\
    forall x, x ∈ la_plain -> la_reg (d_hw d') x = if x =? r then v else la_reg (d_hw d) x.
Proof.
  intros Hb Hv. unfold lapicw. rewrite (hbind_ret _ _ _ _ _ (d_lapic d) d w e) by done. rewrite Hb. unfold store.
  set (d1 := set_hw (hw_store (la_base + 4 * r) (u32 v) (d_hw d)) d). rewrite (hbind_ret _ _ _ _ _ tt d1 w e) by done.
  destruct (lapicr_eq ID d1 w e) as (v1 & d2 & E & Hb2 & Hk & _). rewrite (hbind_ret _ _ _ _ _ _ _ _ _ E). exists d2. split; [done|]. split; [by rewrite Hb2|].
  intros x Hx. rewrite Hk. unfold d1. cbn. rewrite la_store by done. by rewrite u32_small.
Qed.

(** The registers as a list of writes leaves them. *)
Definition after (ws : list (Z * Z)) (h : hw) (x : Z) : Z := foldl (fun y rv => if x =? rv.1 then rv.2 else y) (la_reg h x) ws.

Lemma after_write ws r v h d' : (forall x, x ∈ la_plain -> la_reg (d_hw d') x = if x =? r then v else after ws h x) ->
  forall x, x ∈ la_plain -> la_reg (d_hw d') x = after (ws ++ [(r, v)]) h x.
Proof. intros Hd x Hx. unfold after. rewrite foldl_app. cbn. by apply Hd. Qed.

Definition written h ws d : Prop := d_lapic d = la_base /\ forall x, x ∈ la_plain -> la_reg (d_hw d) x = after ws h x.

Lemma written_step {A} r v (k : H A) h ws d w e : written h ws d -> 0 <= v < 2 ^ 32 ->
  exists d', (lapicw r v >>; k) d w e = k d' w e /\ written h (ws ++ [(r, v)]) d'.
Proof.
  intros [Hb Hw] Hv. destruct (lapicw_eq r v d w e Hb Hv) as (d' & E & Hb' & Hr). exists d'. rewrite (hbind_ret _ _ _ _ _ _ _ _ _ E). split; [done|]. split; [done|].
  apply after_write. intros x Hx. rewrite Hr by done. by rewrite Hw.
Qed.

(** The loop that waits for the delivery ends. *)
Lemma wait_delivery n h ws d w e : written h ws d -> (la_busy (d_hw d) < n)%nat ->
  exists d', hloop n (v <- lapicr ICRLO; hret (if Z.land v DELIVS =? 0 then Some tt else None)) d w e = Ret (tt, d') w e /\ written h ws d'.
Proof.
  revert d. induction n as [|n IH]; intros d [Hb Hw] Hn; [lia|]. cbn [hloop]. destruct (lapicr_eq ICRLO d w e) as (v & d1 & E & Hb1 & Hk & Hv & Hd1).
  assert (written h ws d1) as Hw1 by (split; [by rewrite Hb1|]; intros x Hx; rewrite Hk; by apply Hw).
  set (body := hbind (lapicr ICRLO) _) at 1. assert (body d w e = Ret (if Z.land v DELIVS =? 0 then Some tt else None, d1) w e) as Eb by (unfold body; by rewrite (hbind_ret _ _ _ _ _ _ _ _ _ E)).
  rewrite (hbind_ret _ _ _ _ _ _ _ _ _ Eb). destruct (Z.eqb_spec (Z.land v DELIVS) 0) as [Hz|Hz]; [by exists d1|].
  apply IH; [done|]. rewrite Hd1. pose proof (la_wait (d_hw d)) as Hl. rewrite <-Hb, <-Hv in Hl. specialize (Hl Hz). lia.
Qed.

Ltac la_write := match goal with
  | Hw : written ?h ?ws ?d |- context [hbind (lapicw ?r ?v) ?k ?d ?w ?e] =>
    let d' := fresh "d" in let E := fresh "E" in let Hw' := fresh "Hw" in
    destruct (written_step r v (k tt) h ws d w e Hw ltac:(done)) as (d' & E & Hw'); rewrite E; clear E Hw
  end.

(** lapicinit ends, leaves the kernel's state alone, and leaves the local controller enabled
    with its timer counting 10000000 periodically to the timer's vector, both interrupt lines
    masked, errors on the vector of IRQ_ERROR and no interrupt held back by priority; the line of
    the performance counter is masked where there is one. *)
Theorem lapicinit_state d w e : d_lapic d = la_base -> la_base <> 0 ->
  exists d', lapicinit d w e = Ret (tt, d') w e /\
    (la_reg (d_hw d') SVR = Z.lor ENABLE (T_IRQ0 + IRQ_SPURIOUS) /\ la_reg (d_hw d') TIMER = Z.lor PERIODIC (T_IRQ0 + IRQ_TIMER) /\
     la_reg (d_hw d') TDCR = X1 /\ la_reg (d_hw d') TICR = 10000000) /\
    (la_reg (d_hw d') LINT0 = MASKED /\ la_reg (d_hw d') LINT1 = MASKED /\ la_reg (d_hw d') ERROR = T_IRQ0 + IRQ_ERROR /\ la_reg (d_hw d') TPR = 0) /\
    (la_reg (d_hw d') PCINT = MASKED \/ la_reg (d_hw d') PCINT = la_reg (d_hw d) PCINT).
Proof.
  intros Hb Hb0. assert (written (d_hw d) [] d) as Hw0 by by split. unfold lapicinit. rewrite (hbind_ret _ _ _ _ _ (d_lapic d) d w e) by done.
  rewrite Hb, (proj2 (Z.eqb_neq _ _) Hb0). do 6 la_write. match goal with Hw : written _ ?ws ?d1 |- _ => destruct (lapicr_eq VER d1 w e) as (ver & dv & Ev & Hbv & Hk & _);
    rewrite (hbind_ret _ _ _ _ _ _ _ _ _ Ev); assert (written (d_hw d) ws dv) as Hwv by (destruct Hw as [Ha1 Ha2]; split; [by rewrite Hbv|intros x Hx; rewrite Hk; by apply Ha2]); clear Ev Hk Hw end.
  match type of Hwv with written _ ?l _ => set (ws := l) in * end. set (big := Z.land _ 0xFF >=? 4).
  assert (exists dp, hwhen big (lapicw PCINT MASKED) dv w e = Ret (tt, dp) w e /\ written (d_hw d) (if big then ws ++ [(PCINT, MASKED)] else ws) dp) as (dp & Ep & Hwp).
  { destruct big; [|by exists dv]. destruct (lapicw_eq PCINT MASKED dv w e ltac:(apply Hwv) ltac:(done)) as (dp & Ep & Hb3 & Hr). exists dp. split; [done|]. split; [done|].
    apply after_write. intros x Hx. rewrite Hr by done. destruct (x =? PCINT); [done|]. by apply Hwv. }
  rewrite (hbind_ret _ _ _ _ _ _ _ _ _ Ep). clear Ep Hwv. do 6 la_write.
  match goal with Hw : written _ ?ws ?d1 |- _ => destruct (wait_delivery hw_polls (d_hw d) ws d1 w e Hw (la_polls _)) as (dw & Ew & Hww); rewrite (hbind_ret _ _ _ _ _ _ _ _ _ Ew); clear Hw Ew end.
  destruct Hww as [Hb4 Hww]. destruct (lapicw_eq TPR 0 dw w e Hb4 ltac:(done)) as (dt & Et & _ & Hr). exists dt. split; [done|].
  rewrite !Hr, !Hww by by apply (bool_decide_unpack _). destruct big; split_and!; try reflexivity; [left|right]; reflexivity.
Qed.
End lapic.

(** The clock: [rtc] is what its registers show; a read of a register may let it tick, [rtc_ticks]
    times at most from here on, and a read of the status may find an update in progress,
    [rtc_busy] times at most.  Its mode does not change. *)
Class Clock `{Hardware} := {
  rtc : hw -> Z -> Z;
  rtc_ticks : hw -> nat;
  rtc_busy : hw -> nat;
  rtc_byte h r : 0 <= rtc h r < 256;
  rtc_read h r : exists h', hw_in CMOS_RETURN (hw_out CMOS_PORT r h) = (rtc h r, h') /\
    ((rtc_ticks h' < rtc_ticks h)%nat \/ rtc_ticks h' = rtc_ticks h /\ forall x, rtc h' x = rtc h x) /\
    (rtc_busy h' <= rtc_busy h)%nat /\
    (r = CMOS_STATA -> Z.land (rtc h r) CMOS_UIP <> 0 -> (rtc_busy h' < rtc_busy h)%nat) /\
    rtc h' CMOS_STATB = rtc h CMOS_STATB
}.

Section clock.
Context `{Clock}.
Implicit Types (d : drv) (w : world) (e : sched_env world) (h : hw).

(** From [h] to [h']: nothing has changed, or the clock has ticked. *)
Record later h h' : Prop := mkLater {
  la_ticks : (rtc_ticks h' < rtc_ticks h)%nat \/ rtc_ticks h' = rtc_ticks h /\ forall x, rtc h' x = rtc h x;
  la_less : (rtc_busy h' <= rtc_busy h)%nat;
  la_mode : rtc h' CMOS_STATB = rtc h CMOS_STATB
}.

Lemma later_refl h : later h h.
Proof. split; [by right|done|done]. Qed.

Lemma later_trans h1 h2 h3 : later h1 h2 -> later h2 h3 -> later h1 h3.
Proof.
  intros [T1 L1 M1] [T2 L2 M2]. split; [|lia|by rewrite M2]. destruct T1 as [T1|[T1 R1]], T2 as [T2|[T2 R2]]; [left; lia|left; lia|left; lia|].
  right. split; [lia|]. intros x. by rewrite R2.
Qed.

(** No tick between two states that have the same number left. *)
Lemma later_same h1 h2 : later h1 h2 -> (rtc_ticks h1 <= rtc_ticks h2)%nat -> forall x, rtc h2 x = rtc h1 x.
Proof. intros [[?|[_ HR]] _ _] Hle x; [lia|apply HR]. Qed.

Lemma later_le h1 h2 : later h1 h2 -> (rtc_ticks h2 <= rtc_ticks h1)%nat.
Proof. intros [[?|[? _]] _ _]; lia. Qed.

Lemma cmos_read_eq r d w e : 0 <= r < 256 -> exists d', cmos_read r d w e = Ret (rtc (d_hw d) r, d') w e /\ later (d_hw d) (d_hw d') /\
  (r = CMOS_STATA -> Z.land (rtc (d_hw d) r) CMOS_UIP <> 0 -> (rtc_busy (d_hw d') < rtc_busy (d_hw d))%nat).
Proof.
  intros Hr. unfold cmos_read. rewrite (hbind_ret _ _ _ _ _ _ _ _ _ (outb_eq CMOS_PORT r d w e)). rewrite (hbind_ret _ _ _ _ _ tt _ w e) by done.
  destruct (rtc_read (d_hw d) r) as (h' & E & Ht & Hb & Hu & Hm). rewrite (u8_small r Hr). set (d1 := set_hw _ d).
  rewrite (inb_eq CMOS_RETURN d1 w e _ h' E), (u8_small (rtc _ _)) by apply rtc_byte. exists (set_hw h' d1). split; [done|]. split; [by split|done].
Qed.

(** The date that registers show. *)
Definition date_of (R : Z -> Z) : rtcdate := mkRtc (R SECS) (R MINS) (R HOURS) (R DAY) (R MONTH) (R YEAR).

(** A reading during which the clock does not tick is what the clock shows. *)
Lemma fill_rtcdate_eq d w e : exists t d', fill_rtcdate d w e = Ret (t, d') w e /\ later (d_hw d) (d_hw d') /\
  ((rtc_ticks (d_hw d) <= rtc_ticks (d_hw d'))%nat -> t = date_of (rtc (d_hw d))).
Proof.
  unfold fill_rtcdate. destruct (cmos_read_eq SECS d w e ltac:(done)) as (d1 & E1 & L1 & _). rewrite (hbind_ret _ _ _ _ _ _ _ _ _ E1).
  destruct (cmos_read_eq MINS d1 w e ltac:(done)) as (d2 & E2 & L2 & _). rewrite (hbind_ret _ _ _ _ _ _ _ _ _ E2).
  destruct (cmos_read_eq HOURS d2 w e ltac:(done)) as (d3 & E3 & L3 & _). rewrite (hbind_ret _ _ _ _ _ _ _ _ _ E3).
  destruct (cmos_read_eq DAY d3 w e ltac:(done)) as (d4 & E4 & L4 & _). rewrite (hbind_ret _ _ _ _ _ _ _ _ _ E4).
  destruct (cmos_read_eq MONTH d4 w e ltac:(done)) as (d5 & E5 & L5 & _). rewrite (hbind_ret _ _ _ _ _ _ _ _ _ E5).
  destruct (cmos_read_eq YEAR d5 w e ltac:(done)) as (d6 & E6 & L6 & _). rewrite (hbind_ret _ _ _ _ _ _ _ _ _ E6).
  pose proof (later_trans _ _ _ L1 L2) as M2. pose proof (later_trans _ _ _ M2 L3) as M3. pose proof (later_trans _ _ _ M3 L4) as M4.
  pose proof (later_trans _ _ _ M4 L5) as M5. pose proof (later_trans _ _ _ M5 L6) as M6. do 2 eexists. split; [done|]. split; [exact M6|]. intros Hle.
  pose proof (later_le _ _ L2). pose proof (later_le _ _ L3). pose proof (later_le _ _ L4). pose proof (later_le _ _ L5). pose proof (later_le _ _ L6).
  unfold date_of. rewrite (later_same _ _ L1), (later_same _ _ M2), (later_same _ _ M3), (later_same _ _ M4), (later_same _ _ M5) by lia. done.
Qed.

Lemma date_of_ext (R R' : Z -> Z) : (forall x, R' x = R x) -> date_of R' = date_of R.
Proof. intros HR. unfold date_of. by rewrite !HR. Qed.

(** With one tick at most, it comes before the second of three states or after it. *)
Lemma later_one h1 h2 h3 : later h1 h2 -> later h2 h3 -> (rtc_ticks h1 <= 1)%nat ->
  (rtc_ticks h1 <= rtc_ticks h2)%nat /\ (forall x, rtc h2 x = rtc h1 x) \/ (rtc_ticks h2 <= rtc_ticks h3)%nat /\ (forall x, rtc h3 x = rtc h2 x) /\ (rtc_ticks h2 < rtc_ticks h1)%nat.
Proof.
  intros L1 L2 Hone. destruct (decide (rtc_ticks h1 <= rtc_ticks h2)%nat) as [Hle|Hgt].
  - left. split; [done|]. by apply later_same.
  - right. assert (rtc_ticks h2 <= rtc_ticks h3)%nat as Hle by lia. split; [done|]. split; [by apply later_same|lia].
Qed.

Definition read_turn : H (option rtcdate) :=
  t1 <- fill_rtcdate;
  a <- cmos_read CMOS_STATA;
  if negb (Z.land a CMOS_UIP =? 0) then hret None else
  t2 <- fill_rtcdate;
  hret (if bool_decide (t1 = t2) then Some t1 else None).

(** A turn of the loop ends it with a date that the clock showed before or after the turn, or
    used up a tick or a part of an update. *)
Lemma read_turn_eq d w e : (rtc_ticks (d_hw d) <= 1)%nat ->
  exists r d', read_turn d w e = Ret (r, d') w e /\ later (d_hw d) (d_hw d') /\
    match r with
    | Some t => t = date_of (rtc (d_hw d)) \/ t = date_of (rtc (d_hw d'))
    | None => (rtc_ticks (d_hw d') + rtc_busy (d_hw d') < rtc_ticks (d_hw d) + rtc_busy (d_hw d))%nat
    end.
Proof.
  intros Hone. unfold read_turn. destruct (fill_rtcdate_eq d w e) as (t1 & d1 & E1 & L1 & T1). rewrite (hbind_ret _ _ _ _ _ _ _ _ _ E1).
  destruct (cmos_read_eq CMOS_STATA d1 w e ltac:(done)) as (d2 & E2 & L2 & U2). rewrite (hbind_ret _ _ _ _ _ _ _ _ _ E2). pose proof (later_trans _ _ _ L1 L2) as L12.
  pose proof (later_le _ _ L12). destruct L12 as [_ B12 _]. pose proof (la_less _ _ L1) as B1. destruct (Z.eqb_spec (Z.land (rtc (d_hw d1) CMOS_STATA) CMOS_UIP) 0) as [Hu|Hu]; cbn [negb].
  2:{ exists None, d2. split; [done|]. split; [by apply (later_trans _ (d_hw d1))|]. specialize (U2 eq_refl Hu). lia. }
  destruct (fill_rtcdate_eq d2 w e) as (t2 & d3 & E3 & L3 & T3). rewrite (hbind_ret _ _ _ _ _ _ _ _ _ E3). pose proof (later_trans _ _ _ L2 L3) as L23. pose proof (later_trans _ _ _ L1 L23) as L13.
  eexists _, d3. split; [done|]. split; [done|]. pose proof (later_le _ _ L1). pose proof (later_le _ _ L2). pose proof (later_le _ _ L3). pose proof (la_less _ _ L13).
  destruct (later_one _ _ _ L1 L23 Hone) as [[Hle HR]|(Hle & HR & Hlt)]; case_bool_decide as Ht; [left; by apply T1| |right; rewrite Ht|lia].
  - destruct (decide (rtc_ticks (d_hw d) <= rtc_ticks (d_hw d3))%nat) as [Hle3|]; [|lia]. exfalso. apply Ht. rewrite T1, T3 by lia.
    symmetry. apply date_of_ext. intros x. rewrite (later_same _ _ L2) by lia. apply HR.
  - rewrite T3 by lia. symmetry. apply date_of_ext. intros x. rewrite (later_same _ _ L3) by lia. done.
Qed.

Lemma read_loop n d w e : (rtc_ticks (d_hw d) <= 1)%nat -> (rtc_ticks (d_hw d) + rtc_busy (d_hw d) < n)%nat ->
  exists t d', hloop n read_turn d w e = Ret (t, d') w e /\ later (d_hw d) (d_hw d') /\ (t = date_of (rtc (d_hw d)) \/ t = date_of (rtc (d_hw d'))).
Proof.
  revert d. induction n as [|n IH]; intros d Hone Hn; [lia|]. cbn [hloop]. destruct (read_turn_eq d w e Hone) as (r & d1 & E & L1 & Hr). rewrite (hbind_ret _ _ _ _ _ _ _ _ _ E).
  destruct r as [t|]; [by exists t, d1|]. pose proof (later_le _ _ L1). destruct (IH d1) as (t & d2 & E2 & L2 & Ht); [lia|lia|]. exists t, d2. split; [done|].
  split; [by apply (later_trans _ (d_hw d1))|]. destruct Ht as [->| ->]; [|by right]. destruct (later_one _ _ _ L1 L2 Hone) as [[_ HR]|(_ & HR & _)]; [left|right; symmetry]; by apply date_of_ext.
Qed.

(** How a number below 100 stands in a register: as two decimal digits, or as it is. *)
Definition stands (bcd : bool) (x : Z) : Z := if bcd then 16 * (x / 10) + x mod 10 else x.
#[local] Arguments stands : simpl never.
#[local] Arguments conv : simpl never.
Definition bcd_mode (R : Z -> Z) : bool := Z.land (R CMOS_STATB) (Z.shiftl 1 2) =? 0.
(** The registers show the date [D] of this century. *)
Definition shows (R : Z -> Z) (D : rtcdate) : Prop :=
  Forall (fun x => 0 <= x < 100) [second D; minute D; hour D; day D; month D; year D - 2000] /\
  date_of R = mkRtc (stands (bcd_mode R) (second D)) (stands (bcd_mode R) (minute D)) (stands (bcd_mode R) (hour D))
    (stands (bcd_mode R) (day D)) (stands (bcd_mode R) (month D)) (stands (bcd_mode R) (year D - 2000)).

Lemma conv_stands x : 0 <= x < 100 -> conv (stands true x) = x.
Proof.
  intros Hx. unfold conv, stands. rewrite Z.shiftr_div_pow2 by lia. change 0xf with (Z.ones 4). rewrite Z.land_ones by lia. change (2 ^ 4) with 16.
  pose proof (Z.mod_pos_bound x 10 ltac:(lia)) as Hm. pose proof (Z.div_mod x 10 ltac:(lia)) as Hd.
  rewrite (Z.mul_comm 16), Z.div_add_l, (Z.div_small (x mod 10)), Z.add_comm, (Z.add_comm (_ * 16)), Z_mod_plus_full, Z.mod_small by lia. lia.
Qed.

Definition decoded (bcd : bool) (t : rtcdate) : rtcdate :=
  let t := if bcd then mkRtc (conv (second t)) (conv (minute t)) (conv (hour t)) (conv (day t)) (conv (month t)) (conv (year t)) else t in
  mkRtc (second t) (minute t) (hour t) (day t) (month t) (year t + 2000).

Lemma decoded_shows R D : shows R D -> decoded (bcd_mode R) (date_of R) = D.
Proof.
  intros [HF ->]. rewrite !Forall_cons in HF. destruct HF as (F1 & F2 & F3 & F4 & F5 & F6 & _). destruct D as [a b c x y z]. unfold decoded. destruct (bcd_mode R); cbn in *.
  - rewrite !conv_stands by done. f_equal. lia.
  - unfold stands. f_equal. lia.
Qed.

End clock.

(** ** Devices for examples

    An I/O controller with 24 entries, a local controller at 0xFEE00000, and a clock that shows
    23:59:59 on 31-12-25 until its fourth reading and then midnight. *)
Module DemoDev.
Record dev : Type := mkDev { v_sel : Z; v_io : gmap Z Z; v_la : gmap Z Z; v_cmos : Z; v_reads : nat }.

Definition clock_reg (n : nat) (r : Z) : Z :=
  if r =? CMOS_STATB then 2 else if r =? CMOS_STATA then 0 else
  if (n <? 4)%nat then
    (if r =? SECS then 0x59 else if r =? MINS then 0x59 else if r =? HOURS then 0x23 else if r =? DAY then 0x31 else if r =? MONTH then 0x12 else 0x25)
  else (if r =? DAY then 1 else if r =? MONTH then 1 else if r =? YEAR then 0x26 else 0).

Definition io_value (v : dev) (r : Z) : Z := if r =? REG_VER then 0x170011 else u32 (default 0 (v_io v !! r)).

#[export] Instance demo_dev : Hardware := {|
  hw := dev;
  hw_in p v := if p =? CMOS_RETURN then (clock_reg (v_reads v) (v_cmos v), mkDev (v_sel v) (v_io v) (v_la v) (v_cmos v) (S (v_reads v))) else (0, v);
  hw_out p x v := if p =? CMOS_PORT then mkDev (v_sel v) (v_io v) (v_la v) x (v_reads v) else v;
  hw_inl p v := (0, v);
  hw_load a v := (if a =? IOAPIC + 16 then io_value v (v_sel v) else 0, v);
  hw_store a x v :=
    if a =? IOAPIC then mkDev x (v_io v) (v_la v) (v_cmos v) (v_reads v)
    else if a =? IOAPIC + 16 then mkDev (v_sel v) (if v_sel v =? REG_VER then v_io v else <[v_sel v := x]> (v_io v)) (v_la v) (v_cmos v) (v_reads v)
    else mkDev (v_sel v) (v_io v) (<[a := x]> (v_la v)) (v_cmos v) (v_reads v);
  hw_polls := 3
|}.

#[export] Program Instance demo_ioapic : IoApic := {| io_sel := v_sel; io_reg := io_value |}.
Next Obligation. intros h r. unfold io_value. destruct (r =? REG_VER); [lia|]. apply u32_bound. Qed.
Next Obligation. done. Qed.
Next Obligation. done. Qed.
Next Obligation.
  intros h v x Hs Hv. cbn. change (IOAPIC + 16 =? IOAPIC) with false. change (IOAPIC + 16 =? IOAPIC + 16) with true. unfold REG_TABLE in Hs. unfold io_value. cbn [v_io]. rewrite (proj2 (Z.eqb_neq (v_sel h) REG_VER)) by (unfold REG_VER; lia).
  destruct (Z.eqb_spec x (v_sel h)) as [->|Hne].
  - rewrite (proj2 (Z.eqb_neq (v_sel h) REG_VER)), lookup_insert_eq by (unfold REG_VER; lia). cbn. by apply u32_small.
  - by rewrite lookup_insert_ne.
Qed.
Next Obligation. intros h. by exists h. Qed.
Next Obligation. intros h p x. cbn. by destruct (p =? CMOS_RETURN). Qed.
Next Obligation. intros h p v x. cbn. by destruct (p =? CMOS_PORT). Qed.

#[export] Program Instance demo_lapic : Lapic := {| la_base := 0xFEE00000; la_reg v x := default 0 (v_la v !! (0xFEE00000 + 4 * x)); la_busy _ := 0%nat |}.
Next Obligation.
  intros h r v x Hx. assert (Forall (fun x => 0 <= x < 256) la_plain) as HF by by apply (bool_decide_unpack _). rewrite Forall_forall in HF. apply HF in Hx. cbn. unfold IOAPIC.
  destruct (Z.eqb_spec (0xFEE00000 + 4 * r) 0xFEC00000); [rewrite (proj2 (Z.eqb_neq x r)) by lia; done|].
  destruct (Z.eqb_spec (0xFEE00000 + 4 * r) (0xFEC00000 + 16)); [rewrite (proj2 (Z.eqb_neq x r)) by lia; done|]. cbn [v_la].
  destruct (Z.eqb_spec x r) as [->|Hne]; [by rewrite lookup_insert_eq|]. rewrite lookup_insert_ne by lia. done.
Qed.
Next Obligation. done. Qed.
Next Obligation. intros h. cbn. lia. Qed.
Next Obligation. intros h. cbn. unfold IOAPIC, ICRLO. done. Qed.

Definition ticks_left (n : nat) : nat := if (n <? 4)%nat then 1 else 0.

Lemma ticks_step n : (ticks_left (S n) < ticks_left n)%nat \/ ticks_left (S n) = ticks_left n /\ forall x, clock_reg (S n) x = clock_reg n x.
Proof. do 4 (destruct n as [|n]; [first [by right|left; cbn; lia]|]). by right. Qed.

#[export] Program Instance demo_clock : Clock := {| rtc v := clock_reg (v_reads v); rtc_ticks v := ticks_left (v_reads v); rtc_busy _ := 0%nat |}.
Next Obligation. intros h r. unfold clock_reg. repeat case_match; lia. Qed.
Next Obligation.
  intros h r. eexists. split; [reflexivity|]. split; [apply ticks_step|]. split; [done|]. split; [intros ->; done|done].
Qed.

Definition devs : drv := mkDrv demo_dev (mkDev 0 ∅ ∅ 0 0) 0xFEE00000 0 0.

Lemma ioapic_routes_witness : exists d' w', (ioapicinit >>; ioapicenable 14 1) devs boot_world [] = Ret (tt, d') w' [] /\ entry_is d' 14 46 0x1000000.
Proof.
  destruct (ioapic_routes devs boot_world 0 boot_cpu [] 14 1) as (d' & w' & E & He & _).
  - exact boot_cpu_ok.
  - by vm_compute.
  - intros _. eexists. vm_compute. reflexivity.
  - by vm_compute.
  - done.
  - exists d', w'. split; [exact E|exact He].
Defined.

Lemma lapicinit_state_witness : exists d', lapicinit devs boot_world [] = Ret (tt, d') boot_world [] /\ la_reg (d_hw d') TICR = 10000000.
Proof.
  destruct (lapicinit_state devs boot_world []) as (d' & E & (_ & _ & _ & Ht) & _).
  - reflexivity.
  - discriminate.
  - exists d'. split; [exact E|exact Ht].
Defined.

(** The clock ticks during the first reading. *)
Definition demo_later : drv := mkDrv demo_dev (mkDev 0 ∅ ∅ 9 27) 0xFEE00000 0 0.

Lemma demo_time w e : cmostime devs w e = Ret (mkRtc 0 0 0 1 1 2026, demo_later) w e.
Proof. reflexivity. Qed.

End DemoDev.
