(* ===== verification/Mp.v ===== *)
(** * Detection of the processors (mp.c)

    The search for the multiprocessor tables that the BIOS leaves in memory and the scan of
    the configuration table.  [table_entries] is the sequence of entries a table is meant to
    describe; [scan_reads_table] shows that the scan finds the processors of any such table,
    at most NCPU of them, and that it ends.  An entry of a type the code does not know is met
    again and again: [scan_stuck]. *)

From Stdlib Require Import ZArith Lia.
From stdpp Require Import base list gmap strings numbers.
From S2P Require Import Prelude Machine Cstring.
Local Open Scope Z_scope.

(** ** mp.h *)

Definition MP_SIZE : Z := 16.
Definition mp_physaddr : Z := 4.
Definition mp_imcrp : Z := 12.
Definition MPCONF_SIZE : Z := 44.
Definition mpconf_length : Z := 4.
Definition mpconf_version : Z := 6.
Definition mpconf_lapicaddr : Z := 36.
Definition MPPROC_SIZE : Z := 20.
Definition MPIOAPIC_SIZE : Z := 8.
Definition MPPROC : Z := 0.
Definition MPBUS : Z := 1.
Definition MPIOAPIC : Z := 2.
Definition MPIOINTR : Z := 3.
Definition MPLINTR : Z := 4.

(** ** mp.c *)

(** Little-endian fields of the tables, which need not be aligned. *)
Definition ld16 (m : memory) (a : Z) : Z := ldb m a + 256 * ldb m (a + 1).
Definition ld32 (m : memory) (a : Z) : Z := ld16 m a + 65536 * ld16 m (a + 2).

Definition sum (m : memory) (addr : Z) (len : nat) : Z :=
  u8 (fold_left (fun s i => s32 (s + ldb m (addr + Z.of_nat i))) (seq 0 len) 0).

(** [memcmp(p, s, strlen(s)) == 0] *)
Definition sig_is (m : memory) (p : Z) (s : list Z) : bool :=
  bool_decide ((fun i => ldb m (p + Z.of_nat i)) <$> seq 0 (length s) = s).

(** [n] bounds the turns; the loop makes [len / MP_SIZE] of them. *)
Fixpoint mpsearch1_loop (n : nat) (m : memory) (p e : Z) : option Z :=
  match n with
  | O => None
  | S n' =>
    if p <? e then
      if sig_is m p (str "_MP_") && (sum m p (Z.to_nat MP_SIZE) =? 0) then Some p
      else mpsearch1_loop n' m (p + MP_SIZE) e
    else None
  end.
Definition mpsearch1 (m : memory) (a len : Z) : option Z :=
  let addr := P2V a in
  mpsearch1_loop (S (Z.to_nat (len / MP_SIZE))) m addr (addr + len).

Definition mpsearch (m : memory) : option Z :=
  let bda := P2V 0x400 in
  let p := Z.shiftl (Z.lor (Z.shiftl (ldb m (bda + 0x0F)) 8) (ldb m (bda + 0x0E))) 4 in
  let first :=
    if negb (p =? 0) then mpsearch1 m p 1024
    else
      let p := Z.lor (Z.shiftl (ldb m (bda + 0x14)) 8) (ldb m (bda + 0x13)) * 1024 in
      mpsearch1 m (u32 (p - 1024)) 1024 in
  match first with Some mp => Some mp | None => mpsearch1 m 0xF0000 0x10000 end.

(** The address of the configuration table and of the floating pointer structure. *)
Definition mpconfig (m : memory) : option (Z * Z) :=
  match mpsearch m with
  | None => None
  | Some mp =>
    if ld32 m (mp + mp_physaddr) =? 0 then None else
    let conf := P2V (ld32 m (mp + mp_physaddr)) in
    if negb (sig_is m conf (str "PCMP")) then None else
    let version := ldb m (conf + mpconf_version) in
    if negb (version =? 1) && negb (version =? 4) then None else
    if negb (sum m conf (Z.to_nat (ld16 m (conf + mpconf_length))) =? 0) then None
    else Some (conf, mp)
  end.

(** What mpinit sets: the APIC ids of [cpus[0..ncpu)], [ioapicid] and [ismp]. *)
Record mpstate : Type := mkMp { mp_cpus : list Z; mp_ioapicid : Z; mp_ismp : bool }.

Definition add_cpu (apicid : Z) (s : mpstate) : mpstate :=
  if bool_decide (length (mp_cpus s) < NCPU)%nat
  then mkMp (mp_cpus s ++ [apicid]) (mp_ioapicid s) (mp_ismp s) else s.

(** One turn of the loop: the [switch] on the type of the entry at [p].  The [break] of the
    default case leaves the [switch] only, so that [p] stays where it is. *)
Definition mp_turn (m : memory) (p : Z) (s : mpstate) : Z * mpstate :=
  let ty := ldb m p in
  if ty =? MPPROC then (p + MPPROC_SIZE, add_cpu (ldb m (p + 1)) s)
  else if ty =? MPIOAPIC then (p + MPIOAPIC_SIZE, mkMp (mp_cpus s) (ldb m (p + 1)) (mp_ismp s))
  else if (ty =? MPBUS) || (ty =? MPIOINTR) || (ty =? MPLINTR) then (p + 8, s)
  else (p, mkMp (mp_cpus s) (mp_ioapicid s) false).

(** [None]: the loop is still running after [n] turns. *)
Fixpoint mp_scan (n : nat) (m : memory) (p e : Z) (s : mpstate) : option mpstate :=
  if p <? e then
    match n with
    | O => None
    | S n' => let '(p', s') := mp_turn m p s in mp_scan n' m p' e s'
    end
  else Some s.

Inductive mpresult : Type :=
| MpPanic (msg : string)
| MpRuns                                    (* still in the loop *)
| MpFound (s : mpstate) (lapic : Z) (imcr : bool).

(** mpinit with at most [n] turns of its loop; [imcr]: whether it masks the external
    interrupts through the IMCR. *)
Definition mpinit (n : nat) (m : memory) : mpresult :=
  match mpconfig m with
  | None => MpPanic "Expect to run on an SMP"
  | Some (conf, mp) =>
    let lapic := ld32 m (conf + mpconf_lapicaddr) in
    match mp_scan n m (conf + MPCONF_SIZE) (conf + ld16 m (conf + mpconf_length)) (mkMp [] 0 true) with
    | None => MpRuns
    | Some s =>
      if negb (mp_ismp s) then MpPanic "Didn't find a suitable machine"
      else MpFound s lapic (negb (ldb m (mp + mp_imcrp) =? 0))
    end
  end.

(** ** The tables the scan reads *)

(** An entry of a configuration table: a processor, an I/O APIC, or one of the three kinds
    the kernel skips, with the bytes it does not look at. *)
Inductive mpentry : Type :=
| EProc (apicid : Z) (rest : list Z)
| EIoapic (apicno : Z) (rest : list Z)
| ESkip (kind : Z) (rest : list Z).

Definition entry_ok (x : mpentry) : Prop :=
  match x with
  | EProc _ r => length r = 18%nat
  | EIoapic _ r => length r = 6%nat
  | ESkip k r => (k = MPBUS \/ k = MPIOINTR \/ k = MPLINTR) /\ length r = 7%nat
  end.
Definition entry_bytes (x : mpentry) : list Z :=
  match x with
  | EProc a r => MPPROC :: a :: r
  | EIoapic a r => MPIOAPIC :: a :: r
  | ESkip k r => k :: r
  end.
Definition table_entries (xs : list mpentry) : list Z := mjoin (entry_bytes <$> xs).

(** The bytes from [p] on are [bs]. *)
Definition holds_bytes (m : memory) (p : Z) (bs : list Z) : Prop :=
  forall i b, bs !! i = Some b -> ldb m (p + Z.of_nat i) = b.

Definition table_cpus (xs : list mpentry) : list Z :=
  omap (fun x => match x with EProc a _ => Some a | _ => None end) xs.
Definition table_ioapic (xs : list mpentry) (d : Z) : Z :=
  foldl (fun d x => match x with EIoapic a _ => a | _ => d end) d xs.

Lemma holds_bytes_app m p l k :
  holds_bytes m p (l ++ k) -> holds_bytes m p l /\ holds_bytes m (p + Z.of_nat (length l)) k.
Proof.
  intros H. split; intros i b Hi.
  - apply H. by apply lookup_app_l_Some.
  - rewrite <-Z.add_assoc, <-Nat2Z.inj_add. apply H. rewrite lookup_app_r by lia.
    by replace (length l + i - length l)%nat with i by lia.
Qed.

(** A turn moves past the entry it reads and records it. *)
Lemma mp_turn_entry m p x s :
  entry_ok x -> holds_bytes m p (entry_bytes x) ->
  mp_turn m p s =
    (p + Z.of_nat (length (entry_bytes x)),
     match x with
     | EProc a _ => add_cpu a s
     | EIoapic a _ => mkMp (mp_cpus s) a (mp_ismp s)
     | ESkip _ _ => s
     end).
Proof.
  intros Hok Hb. unfold mp_turn.
  destruct x as [a r|a r|k r]; simpl in Hok, Hb |- *;
    pose proof (Hb 0%nat _ eq_refl) as H0; rewrite Z.add_0_r in H0; rewrite H0.
  - pose proof (Hb 1%nat _ eq_refl) as H1. change (Z.of_nat 1) with 1 in H1. simpl. by rewrite H1, Hok.
  - pose proof (Hb 1%nat _ eq_refl) as H1. change (Z.of_nat 1) with 1 in H1. simpl. by rewrite H1, Hok.
  - destruct Hok as [[-> | [-> | ->]] ->]; done.
Qed.

Lemma entry_length x : entry_ok x -> (8 <= length (entry_bytes x))%nat.
Proof. destruct x; simpl; [intros ->|intros ->|intros [_ ->]]; lia. Qed.

Lemma add_cpu_take a s :
  add_cpu a s = mkMp (take NCPU (mp_cpus s ++ [a])) (mp_ioapicid s) (mp_ismp s) \/
  (NCPU < length (mp_cpus s))%nat.
Proof.
  unfold add_cpu. case_bool_decide.
  - left. by rewrite take_ge by (rewrite length_app; simpl; lia).
  - destruct (decide (length (mp_cpus s) = NCPU)); [left|right; lia].
    rewrite <-e, take_app_length. by destruct s.
Qed.

Lemma take_app_take {A} n (l k : list A) : take n (take n l ++ k) = take n (l ++ k).
Proof.
  rewrite !take_app, take_take, Nat.min_id, length_take.
  destruct (decide (n <= length l)%nat).
  - by rewrite Nat.min_l, (proj2 (Nat.sub_0_le n (length l))), Nat.sub_diag by lia.
  - by rewrite Nat.min_r by lia.
Qed.

Lemma mp_scan_entries xs m p s n :
  Forall entry_ok xs -> holds_bytes m p (table_entries xs) ->
  (length (mp_cpus s) <= NCPU)%nat -> (length xs <= n)%nat ->
  mp_scan n m p (p + Z.of_nat (length (table_entries xs))) s =
    Some (mkMp (take NCPU (mp_cpus s ++ table_cpus xs)) (table_ioapic xs (mp_ioapicid s)) (mp_ismp s)).
Proof.
  intros Hok. revert p s n. induction Hok as [|x xs Hx _ IH]; intros p s n Hb Hs Hn.
  { simpl. rewrite Z.add_0_r, app_nil_r, take_ge by done. destruct n; simpl; rewrite Z.ltb_irrefl; by destruct s. }
  destruct n as [|n]; simpl in Hn; [lia|].
  change (table_entries (x :: xs)) with (entry_bytes x ++ table_entries xs) in *.
  apply holds_bytes_app in Hb as [H1 H2]. pose proof (entry_length x Hx).
  cbn [mp_scan]. rewrite length_app, (proj2 (Z.ltb_lt _ _)) by lia.
  rewrite (mp_turn_entry _ _ x) by done.
  replace (p + Z.of_nat (length (entry_bytes x) + length (table_entries xs)))
    with (p + Z.of_nat (length (entry_bytes x)) + Z.of_nat (length (table_entries xs))) by lia.
  rewrite IH; [|done| |lia]; clear IH.
  2: { destruct x; simpl; [|done|done]. unfold add_cpu. case_bool_decide; [|done].
       simpl. rewrite length_app. simpl. lia. }
  destruct x as [a r|a r|k r]; simpl; [|done|done].
  destruct (add_cpu_take a s) as [-> | ?]; [|lia]. simpl.
  by rewrite take_app_take, <-app_assoc.
Qed.

(** The scan of mpinit reads a configuration table: on any sequence of well-formed
    entries it ends within one turn per entry, the processors it records are the first NCPU
    processor entries in order, the I/O APIC id is that of the last I/O APIC entry, and the
    machine counts as a multiprocessor. *)
Theorem scan_reads_table xs m p n :
  Forall entry_ok xs -> holds_bytes m p (table_entries xs) -> (length xs <= n)%nat ->
  mp_scan n m p (p + Z.of_nat (length (table_entries xs))) (mkMp [] 0 true) =
    Some (mkMp (take NCPU (table_cpus xs)) (table_ioapic xs 0) true).
Proof. intros. by rewrite mp_scan_entries by (done || simpl; lia). Qed.

Definition demo_table : list mpentry :=
  [EProc 0 (replicate 18 0); EProc 4 (replicate 18 1); EIoapic 2 (replicate 6 0); ESkip MPBUS (replicate 7 3)].
Definition demo_table_mem : memory :=
  foldr (fun '(i, b) m => stb (0x9fc00 + Z.of_nat i) b m) ∅
    (imap pair (table_entries demo_table)).

Lemma scan_reads_table_witness :
  mp_scan 4 demo_table_mem 0x9fc00 (0x9fc00 + 56) (mkMp [] 0 true) = Some (mkMp [0; 4] 2 true).
Proof.
  apply (scan_reads_table demo_table demo_table_mem 0x9fc00 4).
  - repeat constructor.
  - intros i b Hi.
    assert (Forall (fun '(i, b) => ldb demo_table_mem (0x9fc00 + Z.of_nat i) = b)
              (imap pair (table_entries demo_table))) as HF.
    { apply (bool_decide_unpack _). vm_compute. reflexivity. }
    rewrite Forall_lookup in HF. apply (HF i (i, b)). by rewrite list_lookup_imap, Hi.
  - simpl. lia.
Defined.

(** C30. An entry of an unknown type inside the table keeps mpinit in its loop for ever: after
    any number of turns the loop still runs, so that the panic that should report an
    unsuitable machine is not reached. *)
Theorem scan_stuck m p e s n :
  MPLINTR < ldb m p -> p < e -> mp_scan n m p e s = None.
Proof.
  intros Hty Hp. revert s. induction n as [|n IH]; intros s; cbn [mp_scan];
    rewrite (proj2 (Z.ltb_lt _ _)) by done; [done|].
  unfold mp_turn, MPPROC, MPIOAPIC, MPBUS, MPIOINTR, MPLINTR in *.
  rewrite !(proj2 (Z.eqb_neq (ldb m p) _)) by lia. apply IH.
Qed.

Lemma scan_stuck_witness :
  mp_scan 1000 (stb 0x9fc00 0x80 ∅) 0x9fc00 0x9fc08 (mkMp [] 0 true) = None.
Proof. apply scan_stuck; [vm_compute; reflexivity | lia]. Defined.

(** ** Where the tables are *)

(** The first area mpsearch looks at. *)
Definition first_area (m : memory) : Z :=
  let bda := P2V 0x400 in
  let p := Z.shiftl (Z.lor (Z.shiftl (ldb m (bda + 0x0F)) 8) (ldb m (bda + 0x0E))) 4 in
  if negb (p =? 0) then p else u32 (Z.lor (Z.shiftl (ldb m (bda + 0x14)) 8) (ldb m (bda + 0x13)) * 1024 - 1024).

(** The areas that are searched are below 1 MB and the configuration table is below [lim]. *)
Definition tables_below (lim : Z) (m : memory) : Prop := 0 <= first_area m <= 0x100000 - 1024 /\
  forall conf mp, mpconfig m = Some (conf, mp) -> conf + Z.max MPCONF_SIZE (ld16 m (conf + mpconf_length)) < lim.

Section agree.
Context (lim : Z) (m m0 : memory) (Hlim : P2V 0x100000 <= lim) (Hm : forall b, b < lim -> ldm m b = ldm m0 b).

Lemma ldb_agree a : a < lim -> ldb m a = ldb m0 a.
Proof using Hm. intros Ha. unfold ldb. rewrite Hm; [done|]. unfold wordaddr. pose proof (Z.mod_pos_bound a 4 ltac:(lia)). lia. Qed.

Lemma ld16_agree a : a + 1 < lim -> ld16 m a = ld16 m0 a.
Proof using Hm. intros Ha. unfold ld16. by rewrite !ldb_agree by lia. Qed.

Lemma ld32_agree a : a + 3 < lim -> ld32 m a = ld32 m0 a.
Proof using Hm. intros Ha. unfold ld32. by rewrite !ld16_agree by lia. Qed.

Lemma sum_agree a n : a + Z.of_nat n <= lim -> sum m a n = sum m0 a n.
Proof using Hm.
  intros Ha. unfold sum. f_equal. generalize 0 as z. assert (Forall (fun i => a + Z.of_nat i < lim) (seq 0 n)) as HF by (apply Forall_seq; lia).
  induction HF as [|i l Hi _ IH]; intros z; [done|]. cbn [fold_left]. rewrite ldb_agree by done. apply IH.
Qed.

Lemma sig_agree a l : a + Z.of_nat (length l) <= lim -> sig_is m a l = sig_is m0 a l.
Proof using Hm.
  intros Ha. unfold sig_is. assert ((fun i => ldb m (a + Z.of_nat i)) <$> seq 0 (length l) = (fun i => ldb m0 (a + Z.of_nat i)) <$> seq 0 (length l)) as ->; [|done].
  apply list_fmap_ext. intros k i Hi. apply lookup_seq in Hi as [-> Hk]. apply ldb_agree. lia.
Qed.

Lemma search_agree n : forall p e, (e - p) mod MP_SIZE = 0 -> e <= lim -> mpsearch1_loop n m p e = mpsearch1_loop n m0 p e.
Proof using Hm.
  induction n as [|n IH]; intros p e He Hl; [done|]. cbn [mpsearch1_loop]. unfold MP_SIZE in *. destruct (Z.ltb_spec p e) as [Hp|]; [|done].
  assert (p + 16 <= e) as Hp16 by (apply Z.mod_divide in He as [z Hz]; lia). rewrite (sig_agree p (str "_MP_")), sum_agree by (cbn; lia).
  destruct (_ && _); [done|]. apply IH; [|done]. replace (e - (p + 16)) with (e - p + (-1) * 16) by lia. by rewrite Z.mod_add.
Qed.

Lemma search_found n : forall p e r, (e - p) mod MP_SIZE = 0 -> mpsearch1_loop n m0 p e = Some r -> r + MP_SIZE <= e.
Proof.
  induction n as [|n IH]; intros p e r He; [done|]. cbn [mpsearch1_loop]. unfold MP_SIZE in *. destruct (Z.ltb_spec p e) as [Hp|]; [|done].
  assert (p + 16 <= e) as Hp16 by (apply Z.mod_divide in He as [z Hz]; lia). destruct (_ && _); [by intros [= <-]|]. apply IH. replace (e - (p + 16)) with (e - p + (-1) * 16) by lia. by rewrite Z.mod_add.
Qed.

Lemma P2V_low a : 0 <= a <= 0x100000 -> P2V a = a + KERNBASE.
Proof. intros Ha. unfold P2V. apply u32_small. unfold KERNBASE. lia. Qed.

Lemma area_agree a len : 0 <= a -> a + len <= 0x100000 -> 0 <= len -> len mod MP_SIZE = 0 -> mpsearch1 m a len = mpsearch1 m0 a len /\
  forall r, mpsearch1 m0 a len = Some r -> r + MP_SIZE <= lim.
Proof using Hm Hlim.
  intros Ha Hl Hn Hmod. unfold mpsearch1. rewrite (P2V_low 0x100000) in Hlim by lia. rewrite P2V_low by lia. assert ((a + KERNBASE + len - (a + KERNBASE)) mod MP_SIZE = 0) as He by (rewrite <-Hmod; f_equal; lia).
  split; [apply search_agree; [done|lia]|]. intros r Hr. apply search_found in Hr; [|done]. lia.
Qed.

Lemma mpsearch_first m1 : mpsearch m1 = match mpsearch1 m1 (first_area m1) 1024 with Some mp => Some mp | None => mpsearch1 m1 0xF0000 0x10000 end.
Proof. unfold mpsearch, first_area. by destruct (negb _). Qed.

Lemma mpsearch_agree : 0 <= first_area m0 <= 0x100000 - 1024 -> mpsearch m = mpsearch m0 /\ forall r, mpsearch m0 = Some r -> r + MP_SIZE <= lim.
Proof using Hm Hlim.
  intros Hf. pose proof Hlim as Hl2. rewrite (P2V_low 0x100000) in Hl2 by lia. assert (first_area m = first_area m0) as Ea by (unfold first_area; rewrite (P2V_low 0x400) by lia; by rewrite !ldb_agree by lia).
  rewrite !mpsearch_first, Ea. destruct (area_agree (first_area m0) 1024) as [-> H1]; [lia|lia|lia|done|]. destruct (area_agree 0xF0000 0x10000) as [-> H2]; [lia|lia|lia|done|].
  split; [done|]. intros r. destruct (mpsearch1 m0 (first_area m0) 1024) as [x|]; [intros [= ->]; by apply H1|apply H2].
Qed.

Lemma scan_agree e : e < lim -> forall n p s, mp_scan n m p e s = mp_scan n m0 p e s.
Proof using Hm.
  intros He. induction n as [|n IH]; intros p s; cbn [mp_scan]; [done|]. destruct (Z.ltb_spec p e) as [Hp|]; [|done]. unfold mp_turn. rewrite !ldb_agree by lia. destruct (_ : Z * mpstate). apply IH.
Qed.

(** mpinit reads the tables and nothing else. *)
Lemma mpinit_agree n s lapic imcr : tables_below lim m0 -> mpinit n m0 = MpFound s lapic imcr -> mpinit n m = MpFound s lapic imcr.
Proof using Hm Hlim.
  intros [Hf Hc] E. destruct (mpsearch_agree Hf) as [Hs Hmp]. assert (mpconfig m = mpconfig m0 /\ forall conf mp, mpconfig m0 = Some (conf, mp) -> mp + MP_SIZE <= lim) as [Hcfg Hp].
  { unfold mpinit in E. destruct (mpconfig m0) as [[conf mp]|] eqn:Ec; [|done]. specialize (Hc conf mp eq_refl). unfold mpconfig in Ec |- *. rewrite Hs. destruct (mpsearch m0) as [r|]; [|done].
    specialize (Hmp r eq_refl). unfold MP_SIZE, mp_physaddr, MPCONF_SIZE, mpconf_version, mpconf_length in *. rewrite ld32_agree by lia. destruct (_ =? 0); [done|].
    set (cf := P2V (ld32 m0 (r + 4))) in *. destruct (sig_is m0 cf (str "PCMP")) eqn:Esig; cbn [negb] in Ec; [|done].
    destruct (negb (ldb m0 (cf + 6) =? 1) && negb (ldb m0 (cf + 6) =? 4)) eqn:Ev; [done|]. destruct (negb (sum m0 cf _ =? 0)) eqn:Esum; [done|]. injection Ec as <- <-.
    rewrite sig_agree, Esig by (cbn; lia). cbn [negb]. rewrite ldb_agree, Ev by lia. rewrite ld16_agree by lia. rewrite sum_agree, Esum by lia. split; [done|]. by intros ? ? [= <- <-]. }
  unfold mpinit in *. rewrite Hcfg. destruct (mpconfig m0) as [[conf mp]|] eqn:Ec; [|done]. specialize (Hc conf mp eq_refl). specialize (Hp conf mp eq_refl).
  unfold MP_SIZE, MPCONF_SIZE, mpconf_lapicaddr, mpconf_length, mp_imcrp in *. rewrite ld32_agree, ld16_agree, ldb_agree by lia. by rewrite scan_agree by lia.
Qed.
End agree.
