(* ===== verification/Main.v ===== *)
(** * The start of the kernel (main.c)

    main() initialises the parts of the kernel one after the other, starts the other processors,
    makes the first process and becomes the scheduler.  The routines of the kernel are those of the
    other files, run on the kernel's state; the devices are those of Devices.v.  The
    theorem is about a machine with one processor: from the state the boot loader leaves, main()
    reaches the scheduler with the first process ready to run, the tables, locks and descriptors
    set up, and the interrupts of the keyboard, the disk and the serial port let through.

    [early] is the state between the calls and each initialiser has a lemma that keeps it. *)

From Stdlib Require Import ZArith Lia.
From stdpp Require Import base list gmap strings numbers.
From S2P Require Import Prelude Machine Cstring Spinlock Boot Kalloc Cprintf Sched Vm Vmspec Aspace Vmcopy Userspace Sleeplock.
From S2P Require Import Layout Bio Bcache Log Fs Pipe File Proc Procspec Procmem Userinit Console Syscall Devices Mp.
From stdpp Require Import list.
Local Open Scope Z_scope.
Local Open Scope dev_scope.

(** What the linker and the assembler provide: the image of entryother.S, the addresses of mpenter,
    entrypgdir and of the trap vectors. *)
Class StartImage := {
  k_entryother : list Z;
  k_mpenter : Z;
  k_entrypgdir : Z;
  k_vectors : Z -> Z
}.

Definition PTE_PS : Z := 0x080.

(** The boot page table. *)
Definition entrypgdir : list Z :=
  <[Z.to_nat (Z.shiftr KERNBASE PDXSHIFT) := Z.lor (Z.lor (Z.lor 0 PTE_P) PTE_W) PTE_PS]>
    (<[0%nat := Z.lor (Z.lor (Z.lor 0 PTE_P) PTE_W) PTE_PS]> (replicate NPDENTRIES 0)).

Section main.
Context `{KernelImage} `{StartImage} `{DiskDriver} `{DevSwitch} `{Hardware}.

(** mpinit on the machine: what it finds in memory, and the switch to symmetric mode. *)
Definition mpinit : H unit :=
  r <- hlift (kget (fun w => Mp.mpinit hw_polls (w_mem w)));
  match r with
  | MpPanic msg => hlift (kpanic msg)
  | MpRuns => hlift kout
  | MpFound s lapic imcr =>
    hmod (set_lapic lapic) >>;
    hlift (kmod (set_w_cpus (fun _ => (fun a => set_c_apicid (fun _ => a) boot_cpu) <$> mp_cpus s))) >>;
    hmod (set_ioapicid (mp_ioapicid s)) >>;
    hwhen imcr (outb 0x22 0x70 >>; v <- inb 0x23; outb 0x23 (Z.lor v 1))
  end.

(** Common CPU setup code; the scheduler is observed for [n] passes. *)
Definition mpmain (n : nat) : H unit :=
  i <- hlift cpuid;
  hlift (cprintf (Some (str "cpu%d: starting %d" ++ [10])) [AInt i; AInt i]) >>;
  idtinit >>;
  c <- hlift mycpu;
  hlift (kmod (upd_cpu c (set_c_started (fun _ => 1)))) >>;
  hlift (scheduler n).

Definition mpenter (n : nat) : H unit :=
  hlift switchkvm >>;
  hlift seginit >>;
  lapicinit >>;
  mpmain n.

(** [while(c->started == 0) ;] : each look lets the rest of the machine go on. *)
Definition wait_started (c : nat) : KM unit :=
  kwait (kbind (get_cpu c) (fun x => if c_started x =? 0 then kbind kyield (fun _ => kret None) else kret (Some tt))).

Definition startothers : H unit :=
  let code := P2V 0x7000 in
  hlift (kmod (set_w_mem (put_bytes code k_entryother))) >>;
  ncpu <- hlift (kget (fun w => length (w_cpus w)));
  hfor (seq 0 ncpu) (fun c =>
    i <- hlift mycpu;
    if bool_decide (c = i) then hret tt else
    stack <- hlift kalloc;
    hlift (kmod (st (code - 4) (stack + KSTACKSIZE))) >>;
    hlift (kmod (st (code - 8) k_mpenter)) >>;
    hlift (kmod (st (code - 12) (V2P k_entrypgdir))) >>;
    x <- hlift (get_cpu c);
    lapicstartap (c_apicid x) (V2P code) >>;
    hlift (wait_started c)).

(** consoleinit with the interrupt of the keyboard. *)
Definition consoleinit : H unit :=
  hlift Console.consoleinit >>;
  ioapicenable IRQ_KBD 0.

Definition main (n : nat) : H unit :=
  hlift (kinit1 k_end (P2V (4 * 1024 * 1024))) >>;
  hlift kvmalloc >>;
  mpinit >>;
  lapicinit >>;
  hlift seginit >>;
  picinit >>;
  ioapicinit >>;
  consoleinit >>;
  uartinit >>;
  hlift pinit >>;
  hlift (tvinit k_vectors) >>;
  hlift binit >>;
  hlift fileinit >>;
  ideinit >>;
  startothers >>;
  hlift (kinit2 (P2V (4 * 1024 * 1024)) (P2V PHYSTOP)) >>;
  hlift userinit >>;
  mpmain n.
End main.

(** ** The state between the calls *)

(** What the initialisers before kinit2 leave alone, the buffers' links and the descriptor table apart. *)
Definition base (w : world) := (w_mem w, w_freelist w, w_uselock w, w_procs w, w_nextpid w, w_inodes w, w_bufs w, w_idt w).

(** The state while main() runs on the one processor, outside critical sections. *)
Record early (w0 w : world) : Prop := mkEarly {
  ea_cpu : exists c, kcpu w 0 c;
  ea_if : w_if w = false;
  ea_ncpu : length (w_cpus w) = 1%nat;
  ea_con : con_ok (w_con w);
  ea_ide : Z.land (ide_status (w_ide w)) (Z.lor IDE_BSY IDE_DRDY) = IDE_DRDY;
  ea_base : base w = base w0
}.

Lemma early_frame w0 w F `{!Framed F} : early w0 w -> base (F w) = base w -> (con_ok (w_con w) -> con_ok (w_con (F w))) ->
  ide_status (w_ide (F w)) = ide_status (w_ide w) -> early w0 (F w).
Proof.
  intros [[c Hk] Hf Hn Hc Hi Hb] HB HC HI. split.
  - exists c. by apply (kcpu_frame w 0 c Hk F).
  - by rewrite (framed_if_of F).
  - by rewrite (framed_cpus_of F).
  - by apply HC.
  - by rewrite HI.
  - by rewrite HB.
Qed.

Lemma kcpu_locks w i c L : kcpu w i c -> keeps_free (w_locks w) L -> kcpu (set_w_locks (fun _ => L) w) i c.
Proof.
  intros [Hk1 Hk2 Hk3] HL. split; [exact Hk1| |].
  - assert (settled i (set_w_locks (fun _ => L) w) = set_w_locks (fun _ => L) (settled i w)) as -> by done. by rewrite Hk2.
  - intros lk Hlk. destruct (Hk3 lk Hlk) as [name Hn]. exact (HL lk name Hn).
Qed.

Lemma early_initlock w0 w lk name e : early w0 w -> exists w', initlock lk name w e = Ret tt w' e /\ early w0 w'.
Proof.
  intros [[c Hk] Hf Hn Hc Hi Hb]. eexists. split; [done|]. split; [|exact Hf|exact Hn|exact Hc|exact Hi|exact Hb].
  exists c. apply (kcpu_locks w 0 c _ Hk (keeps_free_init lk _ _)).
Qed.

(** A change of the processor's descriptors or flags. *)
Lemma kcpu_upd w i c g : kcpu w i c -> (forall x, c_apicid (g x) = c_apicid x /\ c_ncli (g x) = c_ncli x) ->
  (forall fl x, cpu_settle fl (g x) = g (cpu_settle fl x)) -> kcpu (upd_cpu i g w) i (g c).
Proof.
  intros [(Hon & Hk0 & Hk1) Hk2 Hk3] Hg Hs. split; [split; [apply upd_cpu_on; [done|apply Hg]|by rewrite (proj2 (Hg c))]| |exact Hk3].
  unfold settled in *. change (w_if (upd_cpu i g w)) with (w_if w). transitivity (upd_cpu i g (upd_cpu i (cpu_settle (w_if w)) w)); [|by rewrite Hk2].
  rewrite !upd_cpu_upd. unfold upd_cpu, set_w_cpus. f_equal. apply list_alter_ext'. intros x _. apply Hs.
Qed.

Lemma early_gdt w0 w n f : early w0 w -> early w0 (upd_cpu 0 (upd_gdt n f) w).
Proof.
  intros [[c Hk] Hf Hn Hc Hi Hb]. split; [|exact Hf|cbn; by rewrite length_alter|exact Hc|exact Hi|exact Hb].
  exists (upd_gdt n f c). by apply kcpu_upd.
Qed.

Lemma early_seginit w0 w e : early w0 w -> exists w', seginit w e = Ret tt w' e /\ early w0 w'.
Proof.
  intros He. destruct (ea_cpu _ _ He) as [c Hk]. unfold seginit. cbn [kbind]. rewrite (mycpu_eq w 0 c e (proj1 (kcpu_ok _ _ _ Hk)) (ea_if _ _ He)). eexists. split; [done|]. by do 4 apply early_gdt.
Qed.

(** The message of a call of cprintf. *)
Lemma early_print w0 w fmt args cs e : early w0 w -> format_chars fmt args = Some cs ->
  exists w', cprintf (Some fmt) args w e = Ret tt w' e /\ early w0 w'.
Proof.
  intros He Hf. destruct (ea_cpu _ _ He) as [c Hk]. exists (set_w_con (put_cons cs) w). split; [|by apply (early_frame w0 w (set_w_con (put_cons cs))); [|done|apply put_cons_ok|]].
  rewrite (cprintf_eq fmt args cs w 0 c e (kcpu_ok _ _ _ Hk) (ea_con _ _ He)); [|intros _; by apply (kcpu_free _ _ _ Hk)|done].
  unfold con_settled. case_match; [done|]. by rewrite (kcpu_settled _ _ _ Hk).
Qed.

(** The descriptor table: every vector through an interrupt gate of the kernel, and the one of
    system calls through a trap gate that user code may use. *)
Definition idt_ready (vectors : Z -> Z) (idt : list gatedesc) : Prop := forall j, (j < 256)%nat ->
  idt !! j = Some (if decide (j = Z.to_nat T_SYSCALL) then SETGATE 1 (Z.shiftl SEG_KCODE 3) (vectors T_SYSCALL) DPL_USER
                   else SETGATE 0 (Z.shiftl SEG_KCODE 3) (vectors (Z.of_nat j)) 0).

Lemma tvinit_loop (g : nat -> gatedesc) n : forall k w e, length (w_idt w) = (k + n)%nat -> exists idt,
  kfor (seq k n) (fun i => kmod (set_w_idt (insert i (g i)))) w e = Ret tt (set_w_idt (fun _ => idt) w) e /\ length idt = (k + n)%nat /\
  (forall j, (j < k)%nat -> idt !! j = w_idt w !! j) /\ (forall j, (k <= j < k + n)%nat -> idt !! j = Some (g j)).
Proof.
  induction n as [|n IH]; intros k w e Hlen.
  { exists (w_idt w). split; [cbn; by destruct w|]. split; [done|]. split; [done|lia]. }
  destruct (IH (S k) (set_w_idt (insert k (g k)) w) e) as (idt & E & Hl & Hlow & Hup); [cbn; rewrite length_insert; lia|]. exists idt. split; [exact E|]. split; [lia|]. split.
  - intros j Hj. rewrite Hlow by lia. cbn. by rewrite list_lookup_insert_ne by lia.
  - intros j Hj. destruct (decide (j = k)) as [->|Hne]; [|apply Hup; lia]. rewrite Hlow by lia. cbn. rewrite list_lookup_insert_eq by lia. done.
Qed.

Lemma early_tvinit w0 w vectors e : early w0 w -> length (w_idt w0) = 256%nat ->
  exists w' idt, tvinit vectors w e = Ret tt w' e /\ early (set_w_idt (fun _ => idt) w0) w' /\ idt_ready vectors idt.
Proof.
  intros He Hlen. pose proof (ea_base _ _ He) as Hb. assert (w_idt w = w_idt w0) as Hi by by injection Hb.
  destruct (tvinit_loop (fun i => SETGATE 0 (Z.shiftl SEG_KCODE 3) (vectors (Z.of_nat i)) 0) 256 0 w e) as (idt & E & Hl & _ & Hup); [by rewrite Hi|].
  set (idt2 := <[Z.to_nat T_SYSCALL := SETGATE 1 (Z.shiftl SEG_KCODE 3) (vectors T_SYSCALL) DPL_USER]> idt).
  assert (early (set_w_idt (fun _ => idt2) w0) (set_w_idt (fun _ => idt2) w)) as He2.
  { destruct He as [[c Hk] Hf Hn Hc Hid _]. split; [exists c; by apply (kcpu_frame w 0 c Hk (set_w_idt (fun _ => idt2)))|exact Hf|exact Hn|exact Hc|exact Hid|]. unfold base in *. cbn. by injection Hb as -> -> -> -> -> -> -> _. }
  destruct (early_initlock _ _ TicksLock "time" e He2) as (w' & E' & He'). exists w', idt2. split; [|split; [exact He'|]].
  - unfold tvinit. unfold kbind at 1. rewrite E. exact E'.
  - intros j Hj. unfold idt2. case_decide as Hd.
    + subst j. rewrite list_lookup_insert_eq; [done|]. rewrite Hl. done.
    + rewrite list_lookup_insert_ne by done. apply Hup. lia.
Qed.

Lemma early_binit w0 w e : early w0 w -> length (w_bufs w0) = S NBUF ->
  exists w' bs, binit w e = Ret tt w' e /\ early (put_bufs bs w0) w' /\ ring bs (reverse (seq 0 NBUF)) /\ same_core (w_bufs w0) bs.
Proof.
  intros He Hlen. pose proof (ea_base _ _ He) as Hb. assert (w_bufs w = w_bufs w0) as Hi by by injection Hb.
  destruct (binit_ring w e) as (L & K & bs & E & HL & Hr & Hc); [by rewrite Hi|]. rewrite Hi in Hc. exists (with_bufs L K bs w), bs. split; [exact E|]. split; [|done].
  destruct He as [[c Hk] Hf Hn Hco Hid _]. split; [|exact Hf|exact Hn|exact Hco|exact Hid|].
  - exists c. apply (kcpu_frame _ 0 c (kcpu_locks w 0 c L Hk HL) (fun v => set_w_slocks (fun _ => K) (put_bufs bs v))).
  - unfold base in *. cbn. by injection Hb as -> -> -> -> -> -> _ ->.
Qed.

(** ** The devices *)

Section devices.
Context `{IoApic}.
Implicit Types (d : drv) (w : world) (e : sched_env world).

(** The interrupts other than those of [S] are routed as before. *)
Definition keeps_but (S : list Z) d d' : Prop := (forall j a b, j ∉ S -> entry_is d j a b -> entry_is d' j a b) /\ io_last d' = io_last d.

Lemma keeps_refl S d : keeps_but S d d.
Proof. done. Qed.

Lemma keeps_trans S d1 d2 d3 : keeps_but S d1 d2 -> keeps_but S d2 d3 -> keeps_but S d1 d3.
Proof. intros [Hk1 Hl1] [Hk2 Hl2]. split; [auto|congruence]. Qed.

Lemma keeps_regs S d d' : (forall x, io_reg (d_hw d') x = io_reg (d_hw d) x) -> keeps_but S d d'.
Proof. intros Hx. split; [|unfold io_last; by rewrite Hx]. intros j a b _ [Ha Hb]. by split; rewrite Hx. Qed.

Lemma keeps_none S d1 d2 : keeps_but [] d1 d2 -> keeps_but S d1 d2.
Proof. intros [Hk1 Hk2]. split; [set_solver|done]. Qed.

Lemma keeps_enable irq cpunum d w e : 0 <= irq < 256 -> 0 <= cpunum < 256 -> exists d', ioapicenable irq cpunum d w e = Ret (tt, d') w e /\
  entry_is d' irq (T_IRQ0 + irq) (Z.shiftl cpunum 24) /\ keeps_but [irq] d d'.
Proof.
  intros Hi Hc. destruct (ioapicenable_entry irq cpunum d w e Hi Hc) as (d' & E & He & Hk & Hl). exists d'. split; [done|]. split; [done|]. split; [|done].
  intros j a b Hj. apply Hk. set_solver.
Qed.

Lemma outb_step {A} S p v (k : Devices.H A) d w e : exists d', (outb p v >>; k) d w e = k d' w e /\ keeps_but S d d'.
Proof. eexists. split; [reflexivity|]. apply keeps_regs. intros x. apply io_out. Qed.

Lemma inb_step {A} S p (k : Z -> Devices.H A) d w e : exists v d', (hbind (inb p) k) d w e = k v d' w e /\ keeps_but S d d'.
Proof.
  destruct (hw_in p (d_hw d)) as [v h] eqn:E. exists (u8 v), (set_hw h d). split; [by rewrite (hbind_ret _ _ _ _ _ _ _ _ _ (inb_eq p d w e v h E))|].
  apply keeps_regs. intros x. cbn. pose proof (io_in (d_hw d) p x) as Hx. by rewrite E in Hx.
Qed.

Ltac out_step S := match goal with
  | |- context [hbind (outb ?p ?v) ?k ?d ?w ?e] =>
    let d' := fresh "d" in let E := fresh "E" in let Hk := fresh "Hk" in destruct (outb_step S p v (k tt) d w e) as (d' & E & Hk); rewrite E; clear E
  end.
Ltac keeps_all := repeat (eapply keeps_trans; [eassumption|]); first [eassumption|apply keeps_refl].

Lemma early_uarts w0 cs d e : forall w, early w0 w -> exists w', hfor cs (fun c => hlift (uartputc c)) d w e = Ret (tt, d) w' e /\ early w0 w'.
Proof.
  induction cs as [|c cs IH]; intros w He; [by exists w|]. cbn [hfor]. rewrite (hbind_ret _ _ _ _ _ _ _ _ _ (hlift_ret _ d _ _ _ _ _ (uartputc_eq c w e))). apply IH.
  apply (early_frame w0 w (set_w_con (uart_out [c]))); [done|done| |done]. cbn. unfold uart_out. by case_match.
Qed.

(** uartinit lets the interrupt of the serial port through where there is a port. *)
Lemma early_uartinit w0 w d e : early w0 w -> exists d' w', uartinit d w e = Ret (tt, d') w' e /\ early w0 w' /\
  keeps_but [IRQ_COM1] d d' /\ (keeps_but [] d d' \/ entry_is d' IRQ_COM1 (T_IRQ0 + IRQ_COM1) 0).
Proof.
  intros He. unfold uartinit. do 7 out_step (@nil Z).
  match goal with |- context [hbind (inb ?p) ?k ?dd w e] => destruct (inb_step [] p k dd w e) as (v & dv & E & Hkv); rewrite E; clear E end.
  assert (keeps_but [] d dv) as Hd by keeps_all. clear -He Hd.
  destruct (v =? 0xFF); [exists dv, w; split; [done|]; split; [done|]; split; [by apply keeps_none|by left]|].
  rewrite (hbind_ret _ _ _ _ _ tt dv (set_w_con (set_cn_uart (fun _ => 1)) w) e) by done.
  assert (early w0 (set_w_con (set_cn_uart (fun _ => 1)) w)) as He1 by (by apply (early_frame w0 w (set_w_con (set_cn_uart (fun _ => 1))))). set (w1 := set_w_con _ w) in *. clearbody w1.
  do 2 match goal with |- context [hbind (inb ?p) ?k ?dd w1 e] => let E := fresh in let v := fresh in let dn := fresh "d" in let Hk := fresh "Hk" in destruct (inb_step [] p k dd w1 e) as (v & dn & E & Hk); rewrite E; clear E v end.
  destruct (keeps_enable IRQ_COM1 0 d1 w1 e ltac:(done) ltac:(done)) as (d2 & E2 & Hent & Hk2). rewrite (hbind_ret _ _ _ _ _ _ _ _ _ E2).
  destruct (early_uarts w0 (str "xv6..." ++ [10]) d2 e w1 He1) as (w' & E & He'). exists d2, w'. split; [exact E|]. split; [done|]. split; [|by right].
  eapply keeps_trans; [apply keeps_none, Hd|]. eapply keeps_trans; [apply keeps_none; eassumption|]. eapply keeps_trans; [apply keeps_none; eassumption|done].
Qed.

Lemma early_probe w0 n e : forall d w, early w0 w -> exists d' w', probe n d w e = Ret (tt, d') w' e /\ early w0 w' /\ keeps_but [] d d'.
Proof.
  induction n as [|n IH]; intros d w He; [by exists d, w|]. cbn [probe].
  match goal with |- context [hbind (inb ?p) ?k ?dd w e] => destruct (inb_step [] p k dd w e) as (v & dv & E & Hkv); rewrite E; clear E end.
  destruct (negb (v =? 0)).
  - exists dv, (set_w_ide (set_ide_havedisk1 (fun _ => 1)) w). split; [done|]. split; [|done]. by apply (early_frame w0 w (set_w_ide (set_ide_havedisk1 (fun _ => 1)))).
  - destruct (IH dv w He) as (d' & w' & E & He' & Hk). exists d', w'. split; [done|]. split; [done|]. by eapply keeps_trans.
Qed.

Lemma early_ideinit w0 w d e : early w0 w -> exists d' w', ideinit d w e = Ret (tt, d') w' e /\ early w0 w' /\
  entry_is d' IRQ_IDE (T_IRQ0 + IRQ_IDE) 0 /\ keeps_but [IRQ_IDE] d d'.
Proof.
  intros He. destruct (early_initlock w0 w IdeLock "ide" e He) as (w1 & E1 & He1). unfold ideinit. rewrite (hbind_ret _ _ _ _ _ _ _ _ _ (hlift_ret _ d _ _ _ _ _ E1)).
  rewrite (hbind_ret _ _ _ _ _ 1 d w1 e) by (unfold hlift; cbn; by rewrite (ea_ncpu _ _ He1)). change (1 - 1) with 0.
  destruct (keeps_enable IRQ_IDE 0 d w1 e ltac:(done) ltac:(done)) as (d2 & E2 & Hent & Hk2). rewrite (hbind_ret _ _ _ _ _ _ _ _ _ E2).
  assert (idewait 0 w1 e = Ret 0 w1 e) as Ew.
  { unfold idewait, kwait. cbn [kbind kloop kget]. rewrite (ea_ide _ _ He1). done. }
  rewrite (hbind_ret _ _ _ _ _ _ _ _ _ (hlift_ret _ d2 _ _ _ _ _ Ew)). out_step (@nil Z).
  destruct (early_probe w0 1000 e d0 w1 He1) as (d3 & w3 & E3 & He3 & Hk3). rewrite (hbind_ret _ _ _ _ _ _ _ _ _ E3).
  assert (exists d4, outb 0x1f6 (Z.lor 0xe0 (Z.shiftl 0 4)) d3 w3 e = Ret (tt, d4) w3 e /\ keeps_but [] d3 d4) as (d4 & E4 & Hk4)
    by (eexists; split; [reflexivity|]; apply keeps_regs; intros x; apply io_out).
  assert (keeps_but [] d2 d4) as Hk5 by (eapply keeps_trans; [eassumption|]; by eapply keeps_trans).
  exists d4, w3. split; [exact E4|]. split; [done|]. split; [apply Hk5; [apply not_elem_of_nil|done]|]. eapply keeps_trans; [exact Hk2|by apply keeps_none].
Qed.
End devices.

(** The interrupts let through: the keyboard's and the disk's, and the serial port's if there is one. *)
Definition routes `{IoApic} (d : drv) : Prop := entry_is d IRQ_KBD (T_IRQ0 + IRQ_KBD) 0 /\ entry_is d IRQ_IDE (T_IRQ0 + IRQ_IDE) 0 /\
  forall j, 0 <= j <= io_last d -> j <> IRQ_KBD -> j <> IRQ_IDE -> masked d j \/ j = IRQ_COM1 /\ entry_is d j (T_IRQ0 + IRQ_COM1) 0.

Section drivers.
Context `{StartImage} {HW : Hardware} {IO : IoApic} {LA : Lapic}.
Implicit Types (d : drv) (w : world) (e : sched_env world).

Lemma hlift_step {A B} (m : KM A) (k : A -> Devices.H B) d w e a w1 : m w e = Ret a w1 e -> hbind (hlift m) k d w e = k a d w1 e.
Proof. intros E. by rewrite (hbind_ret _ _ _ _ _ _ _ _ _ (hlift_ret _ d _ _ _ _ _ E)). Qed.

Lemma early_ioapicinit w0 w d e : early w0 w -> exists d' w', ioapicinit d w e = Ret (tt, d') w' e /\ early w0 w' /\ forall j, 0 <= j <= io_last d' -> masked d' j.
Proof.
  intros He. destruct (ea_cpu _ _ He) as [c Hk]. destruct (ioapicinit_eq d w 0 c e (kcpu_ok _ _ _ Hk) (ea_con _ _ He)) as (d' & w' & E & Hm & Hl & Hw); [intros _; by apply (kcpu_free _ _ _ Hk)|].
  exists d', w'. split; [done|]. split; [|by rewrite Hl]. destruct Hw as [->|[cs ->]]; [done|].
  assert (con_settled 0 w = w) as -> by (unfold con_settled; case_match; [done|]; by rewrite (kcpu_settled _ _ _ Hk)).
  apply (early_frame w0 w (set_w_con (put_cons cs))); [done|done|apply put_cons_ok|done].
Qed.

Lemma early_consoleinit w0 w d e : early w0 w -> exists d' w', consoleinit d w e = Ret (tt, d') w' e /\ early w0 w' /\
  entry_is d' IRQ_KBD (T_IRQ0 + IRQ_KBD) 0 /\ keeps_but [IRQ_KBD] d d'.
Proof.
  intros He. destruct (early_initlock w0 w ConsLock "console" e He) as (w1 & E1 & He1). set (w2 := set_w_con (set_cn_locking (fun _ => 1)) w1).
  assert (Console.consoleinit w e = Ret tt w2 e) as E2 by (unfold Console.consoleinit; cbn [kbind]; by rewrite E1).
  assert (early w0 w2) as He2 by (by apply (early_frame w0 w1 (set_w_con (set_cn_locking (fun _ => 1))))).
  destruct (keeps_enable IRQ_KBD 0 d w2 e ltac:(done) ltac:(done)) as (d' & E & Hent & Hk). exists d', w2. split; [|done].
  unfold consoleinit. by rewrite (hlift_step _ _ d w e tt w2 E2).
Qed.

(** The calls from lapicinit to ideinit. *)
Lemma start_drivers {A} (k : Devices.H A) w0 w d e : early w0 w -> d_lapic d = la_base -> la_base <> 0 -> length (w_idt w0) = 256%nat -> length (w_bufs w0) = S NBUF ->
  exists d' w' bs idt, (lapicinit >>; hlift seginit >>; picinit >>; ioapicinit >>; consoleinit >>; uartinit >>; hlift pinit >>; hlift (tvinit k_vectors) >>;
    hlift binit >>; hlift fileinit >>; ideinit >>; k) d w e = k d' w' e /\
    early (put_bufs bs (set_w_idt (fun _ => idt) w0)) w' /\ ring bs (reverse (seq 0 NBUF)) /\ same_core (w_bufs w0) bs /\ idt_ready k_vectors idt /\ routes d'.
Proof.
  intros He Hb Hb0 Hidt Hbuf. destruct (lapicinit_state d w e Hb Hb0) as (d1 & E1 & _). rewrite (hbind_ret _ _ _ _ _ _ _ _ _ E1). clear E1 Hb d.
  destruct (early_seginit w0 w e He) as (w2 & E2 & He2). rewrite (hlift_step _ _ _ _ _ _ _ E2).
  assert (exists d3, picinit d1 w2 e = Ret (tt, d3) w2 e) as [d3 E3] by (eexists; reflexivity). rewrite (hbind_ret _ _ _ _ _ _ _ _ _ E3).
  destruct (early_ioapicinit w0 w2 d3 e He2) as (d4 & w4 & E4 & He4 & Hm). rewrite (hbind_ret _ _ _ _ _ _ _ _ _ E4). clear E2 E3 E4 He He2 w w2 d1 d3.
  destruct (early_consoleinit w0 w4 d4 e He4) as (d5 & w5 & E5 & He5 & Hkbd & Hk5). rewrite (hbind_ret _ _ _ _ _ _ _ _ _ E5).
  destruct (early_uartinit w0 w5 d5 e He5) as (d6 & w6 & E6 & He6 & Hk6 & Hcom). rewrite (hbind_ret _ _ _ _ _ _ _ _ _ E6).
  destruct (early_initlock w0 w6 PtableLock "ptable" e He6) as (w7 & E7 & He7). rewrite (hlift_step pinit _ _ _ _ _ _ E7).
  destruct (early_tvinit w0 w7 k_vectors e He7 Hidt) as (w8 & idt & E8 & He8 & Hvec). rewrite (hlift_step _ _ _ _ _ _ _ E8).
  destruct (early_binit _ w8 e He8 Hbuf) as (w9 & bs & E9 & He9 & Hring & Hcore). rewrite (hlift_step _ _ _ _ _ _ _ E9).
  destruct (early_initlock _ w9 FtableLock "ftable" e He9) as (w10 & E10 & He10). rewrite (hlift_step fileinit _ _ _ _ _ _ E10).
  destruct (early_ideinit _ w10 d6 e He10) as (d11 & w11 & E11 & He11 & Hide & Hk11). rewrite (hbind_ret _ _ _ _ _ _ _ _ _ E11).
  exists d11, w11, bs, idt. split; [done|]. split; [exact He11|]. split; [done|]. split; [done|]. split; [done|]. clear -Hm Hkbd Hk5 Hk6 Hcom Hide Hk11.
  destruct Hk5 as [Hk5 Hl5], Hk6 as [Hk6 Hl6], Hk11 as [Hk11 Hl11]. split; [|split; [done|]].
  - apply Hk11; [by apply (bool_decide_unpack _)|]. apply Hk6; [by apply (bool_decide_unpack _)|done].
  - intros j Hj Hj1 Hj2. assert (masked d5 j) as Hm5 by (apply Hk5; [by rewrite list_elem_of_singleton|]; apply Hm; congruence). destruct (decide (j = IRQ_COM1)) as [->|Hj3].
    + destruct Hcom as [[Hk _]|Hcom]; [left|right; split; [done|]]; apply Hk11; try (by rewrite list_elem_of_singleton); [|done]. apply Hk; [apply not_elem_of_nil|done].
    + left. apply Hk11; [by rewrite list_elem_of_singleton|]. apply Hk6; [by rewrite list_elem_of_singleton|done].
Qed.
End drivers.

(** ** From the boot loader to the scheduler *)

(** The state the boot loader leaves: static data as the C language starts it, interrupts off, the
    disk ready. *)
Record cold (w : world) : Prop := mkCold {
  co_if : w_if w = false;
  co_freelist : w_freelist w = 0;
  co_locks : forall lk, static_lock lk = true -> lock_free w lk;
  co_procs : w_procs w = replicate NPROC zero_proc;
  co_pid : w_nextpid w = 1;
  co_inodes : w_inodes w = replicate NINODE zero_inode;
  co_bufs : length (w_bufs w) = S NBUF;
  co_idt : length (w_idt w) = 256%nat;
  co_con : con_ok (w_con w);
  co_ide : Z.land (ide_status (w_ide w)) (Z.lor IDE_BSY IDE_DRDY) = IDE_DRDY
}.

Section start.
Context `{KernelImage} `{StartImage} `{DiskDriver} `{DevSwitch} {HW : Hardware} {IO : IoApic} {LA : Lapic}.
Implicit Types (d : drv) (w : world).
Context (w : world) (d : drv) (e : sched_env world) (s : mpstate) (imcr : bool).
Hypotheses (Hcold : cold w) (Himg : image_ok) (Hend : KERNLINK <= k_end <= P2V (4 * 1024 * 1024) - 515 * PGSIZE)
  (Hcode : Z.of_nat (length k_initcode) < PGSIZE) (Hother : Z.of_nat (length k_entryother) <= PGSIZE)
  (Hmp : Mp.mpinit hw_polls (w_mem w) = MpFound s la_base imcr) (Htab : tables_below k_end (w_mem w))
  (Hcpus : mp_cpus s = [w_apic w]) (Hla : la_base <> 0).

(** The pages from the end of the kernel to 4 MB. *)
Definition low_pages : list Z := reverse (page_range (PGROUNDUP k_end) (Z.to_nat ((P2V (4 * 1024 * 1024) - PGROUNDUP k_end) / PGSIZE))).

Lemma low_start : k_end <= PGROUNDUP k_end <= 0x80400000 - 514 * 4096 /\ 0x80100000 <= k_end.
Proof using All.
  change (P2V (4 * 1024 * 1024)) with 0x80400000 in Hend. unfold KERNLINK, KERNBASE, EXTMEM, PGSIZE in *. destruct (PGROUNDUP_bounds k_end) as [_ Hp]; unfold PGSIZE in *; lia.
Qed.

Lemma low_length : (514 <= length low_pages)%nat.
Proof using All.
  pose proof low_start. unfold low_pages, page_range. rewrite length_reverse, length_fmap, length_seq. change (P2V (4 * 1024 * 1024)) with 0x80400000. unfold PGSIZE.
  assert (514 <= (0x80400000 - PGROUNDUP k_end) / 4096) by (apply Z.div_le_lower_bound; lia). lia.
Qed.

Lemma low_page q : q ∈ low_pages -> k_end <= q /\ q + PGSIZE <= 0x80400000.
Proof using All.
  pose proof low_start. unfold low_pages. rewrite elem_of_reverse. intros Hq%page_range_bounds. change (P2V (4 * 1024 * 1024)) with 0x80400000 in Hq. unfold PGSIZE in *.
  assert (4096 * ((0x80400000 - PGROUNDUP k_end) / 4096) <= 0x80400000 - PGROUNDUP k_end) by (apply Z.mul_div_le; lia).
  assert (0 <= (0x80400000 - PGROUNDUP k_end) / 4096) by (apply Z.div_pos; lia). lia.
Qed.

(** The state after the allocator and the kernel's page table are set up. *)
Definition paged (m : memory) (f kd : Z) (v : world) : world :=
  set_w_cr3 (fun _ => V2P kd) (set_w_kpgdir (fun _ => kd) (set_w_mem (fun _ => m) (set_w_freelist (fun _ => f) (set_w_uselock (fun _ => 0) (put_lock KmemLock (mkLock 0 "kmem" None) v))))).

Lemma start_memory : exists m f kd us l w1 w2, kinit1 k_end (P2V (4 * 1024 * 1024)) w e = Ret tt w1 e /\ kvmalloc w1 e = Ret tt w2 e /\
  (forall cs, set_w_cpus (fun _ => cs) w2 = set_w_cpus (fun _ => cs) (paged m f kd w)) /\ held w2 us l /\
  (forall q, q ∈ l -> q + PGSIZE <= 0x80400000) /\ (forall q, q ∈ us -> q + PGSIZE <= 0x80400000) /\ (forall b, b < k_end -> ldm m b = ldm (w_mem w) b).
Proof using All.
  pose proof low_start as Hlow. set (w1 := set_w_uselock (fun _ => 0) (put_lock KmemLock (mkLock 0 "kmem" None) w)).
  assert (kmem_ok w1 0 boot_cpu) as Hok1 by (intros Hu; by destruct Hu).
  destruct (freerange_fills w1 0 boot_cpu e k_end (P2V (4 * 1024 * 1024)) []) as (wa & ca & Ea & Hoka & Hua & Hfa & Hona & Hma); try done; try (change (P2V (4 * 1024 * 1024)) with 0x80400000; unfold KERNBASE, PHYSTOP; lia).
  { split; [exact (co_freelist _ Hcold)|constructor]. }
  { by intros q ?%not_elem_of_nil. }
  rewrite app_nil_r in Hfa. fold low_pages in Hfa. destruct (Hona eq_refl) as (ma & fa & Hwa).
  assert (held wa [] low_pages) as Hh by (split; [done|]; split; [apply Hfa|done]).
  destruct (setupkvm_spec 0 wa [] low_pages ca e Himg Hh Hoka) as (kd & wb & Eb & Hob & Hfb & [(pts & l & Hkd & Has & Hl & _)|(_ & l & _ & _ & Hlen)]); [|pose proof low_length; lia].
  destruct Hob as (mb & fb & Hwb). exists mb, fb, kd, (all_pages kd pts ∅ []), l, wa, (set_w_cr3 (fun _ => V2P kd) (set_w_kpgdir (fun _ => kd) wb)). split; [exact Ea|]. split; [|split; [|split; [|split; [|split]]]].
  - unfold kvmalloc. cbn [kbind]. by rewrite Eb.
  - intros cs. destruct Hwb as [->| ->]; rewrite Hwa; done.
  - destruct (aspace_held _ _ _ _ _ _ Has) as (Hf1 & Hf2 & Hf3). split; [|by split]. exact Hf1.
  - intros q Hq. apply low_page. rewrite <-Hl. apply elem_of_cons. right. apply elem_of_app. by right.
  - intros q Hq. apply low_page. rewrite <-Hl. unfold all_pages in Hq. change (pages ∅ ++ []) with (@nil Z) in Hq. rewrite app_nil_r in Hq.
    apply elem_of_cons in Hq as [->|Hq]; [left|]. apply elem_of_cons. right. apply elem_of_app. by left.
  - intros b Hb. assert (mb = w_mem wb) as -> by (by destruct Hwb as [->| ->]). rewrite Hfb.
    + rewrite Hma by lia. done.
    + intros q Hq%low_page. lia.
Qed.

(** The one processor. *)
Definition first_cpu : cpu := set_c_apicid (fun _ => w_apic w) boot_cpu.
Definition one_cpu (v : world) : world := set_w_cpus (fun _ => [first_cpu]) v.

Lemma start_early m f kd : early (one_cpu (paged m f kd w)) (one_cpu (paged m f kd w)).
Proof using Hcold.
  set (v := one_cpu (paged m f kd w)). split; [|exact (co_if _ Hcold)|done|exact (co_con _ Hcold)|exact (co_ide _ Hcold)|done]. exists first_cpu. split.
  - split; [split; [|done]|split; [done|]].
    + unfold cpu_index. cbn. by rewrite Z.eqb_refl.
    + intros _. exact (co_if _ Hcold).
  - unfold settled. change (w_if v) with (w_if w). rewrite (co_if _ Hcold). unfold v, one_cpu. generalize (paged m f kd w). done.
  - intros lk Hlk. destruct (co_locks _ Hcold lk Hlk) as [name Hn]. unfold v, one_cpu, paged, put_lock. exact (keeps_free_init KmemLock "kmem" _ lk name Hn).
Qed.

Lemma start_mpinit {A} (k : Devices.H A) w2 m f kd : (forall cs, set_w_cpus (fun _ => cs) w2 = set_w_cpus (fun _ => cs) (paged m f kd w)) ->
  (forall b, b < k_end -> ldm m b = ldm (w_mem w) b) -> exists d1, (mpinit >>; k) d w2 e = k d1 (one_cpu (paged m f kd w)) e /\ d_lapic d1 = la_base.
Proof using All.
  intros Hw2 Hm. assert (w_mem w2 = m) as Hm2 by exact (f_equal w_mem (Hw2 [])).
  assert (exists d1, mpinit d w2 e = Ret (tt, d1) (one_cpu (paged m f kd w)) e /\ d_lapic d1 = la_base) as (d1 & E & Hl); [|exists d1; by rewrite (hbind_ret _ _ _ _ _ _ _ _ _ E)].
  unfold mpinit. rewrite (hlift_step _ _ d w2 e (Mp.mpinit hw_polls (w_mem w2)) w2) by done. rewrite Hm2, (mpinit_agree k_end m (w_mem w) (proj1 Hend) Hm _ _ _ _ Htab Hmp).
  rewrite (hbind_ret _ _ _ _ _ tt (set_lapic la_base d) w2 e) by done.
  rewrite (hlift_step _ _ _ w2 e tt (one_cpu (paged m f kd w))) by (cbn [kmod]; rewrite Hcpus; cbn; unfold one_cpu; by rewrite <-Hw2).
  rewrite (hbind_ret _ _ _ _ _ tt (set_ioapicid (mp_ioapicid s) (set_lapic la_base d)) (one_cpu (paged m f kd w)) e) by done.
  unfold hwhen. destruct imcr; [|eexists; by split]. rewrite (hbind_ret _ _ _ _ _ _ _ _ _ (outb_eq _ _ _ _ _)).
  match goal with |- context [hbind (inb ?p) ?k ?dd ?v e] => destruct (hw_in p (d_hw dd)) as [x h] eqn:Ein; rewrite (hbind_ret _ _ _ _ _ _ _ _ _ (inb_eq p dd v e x h Ein)) end.
  rewrite outb_eq. eexists. by split.
Qed.

Lemma start_others w0 v d1 : early w0 v -> startothers d1 v e = Ret (tt, d1) (set_w_mem (put_bytes (P2V 0x7000) k_entryother) v) e.
Proof using e.
  intros He. destruct (ea_cpu _ _ He) as [c Hk]. unfold startothers. rewrite (hlift_step _ _ d1 v e tt (set_w_mem (put_bytes (P2V 0x7000) k_entryother) v)) by done.
  set (v1 := set_w_mem _ v). rewrite (hlift_step _ _ d1 v1 e 1%nat v1) by (cbn [kget]; do 2 f_equal; exact (ea_ncpu _ _ He)). cbn [seq hfor].
  assert (mycpu v1 e = Ret 0%nat v1 e) as Em by (apply (mycpu_eq v1 0 c); [|exact (ea_if _ _ He)]; exact (proj1 (kcpu_ok _ _ _ Hk))).
  unfold hbind at 1. unfold kbind at 1. rewrite (hlift_step _ _ d1 v1 e 0%nat v1 Em). done.
Qed.

(** The pages from 4 MB on, and the code for the other processors, come in without touching the pages in use. *)
Definition high_pages : list Z := reverse (page_range 0x80400000 (Z.to_nat ((0x8E000000 - 0x80400000) / PGSIZE))).

Lemma range_from p n q : q ∈ reverse (page_range p n) -> p <= q.
Proof. rewrite elem_of_reverse. intros Hq%page_range_bounds. lia. Qed.

Lemma start_kinit2 v us l : held v us l -> w_uselock v = 0 -> (forall q, q ∈ l -> q + PGSIZE <= 0x80400000) -> (forall q, q ∈ us -> q + PGSIZE <= 0x80400000) ->
  exists m f, kinit2 (P2V (4 * 1024 * 1024)) (P2V PHYSTOP) v e = Ret tt (set_w_uselock (fun _ => 1) (set_w_mem (fun _ => m) (set_w_freelist (fun _ => f) v))) e /\
    held (set_w_mem (fun _ => m) (set_w_freelist (fun _ => f) v)) us (high_pages ++ l).
Proof using All.
  intros (Hfl & Hnd & Hpg) Hu Hl Hus. pose proof low_start as Hlow. change (P2V (4 * 1024 * 1024)) with 0x80400000. change (P2V PHYSTOP) with 0x8E000000.
  destruct (freerange_fills v 0 boot_cpu e 0x80400000 0x8E000000 l) as (w1 & c1 & E1 & _ & _ & Hf1 & Hon & _); try done; try (unfold KERNBASE, PHYSTOP; lia).
  { intros q Hq. apply Hl in Hq. unfold PGSIZE in Hq. lia. }
  destruct (Hon Hu) as (m & f & ->). exists m, f. split; [unfold kinit2; cbn [kbind]; by rewrite E1|].
  change (PGROUNDUP 0x80400000) with 0x80400000 in Hf1.
  unfold high_pages. split; [exact Hf1|]. split; [|exact Hpg]. apply NoDup_app in Hnd as (Hn1 & Hn2 & Hn3). destruct Hf1 as [_ Hn4]. apply NoDup_app. split; [done|]. split; [|done].
  intros q Hq [Hq1|Hq1]%elem_of_app; [|by apply (Hn2 q)]. apply range_from in Hq1. apply Hus in Hq. unfold PGSIZE in *. lia.
Qed.

Lemma held_ext v v' us l : w_mem v' = w_mem v -> w_freelist v' = w_freelist v -> held v us l -> held v' us l.
Proof. intros Hm Hf (Hfl & Hr). unfold held, is_freelist. rewrite Hm, Hf. done. Qed.

Lemma held_other v us l : held v us l -> held (set_w_mem (put_bytes (P2V 0x7000) k_entryother) v) us l.
Proof using All.
  intros (Hfl & Hr). split; [|exact Hr]. pose proof low_start as Hlow. change (P2V 0x7000) with 0x80007000.
  apply (freelist_frame v _ l [0x80007000]); [done|done|apply put_bytes_frame; [done|lia|unfold PGSIZE in *; lia]|by constructor|].
  intros p ->%list_elem_of_singleton Hin. destruct Hfl as [Hc _]. pose proof (chain_pages _ _ _ _ Hc Hin) as (_ & Hp & _). lia.
Qed.

(** The last steps of mpmain. *)
Lemma start_mpmain n v c d1 : kcpu v 0 c -> w_if v = false -> con_ok (w_con v) -> exists v', mpmain n d1 v e = hlift (scheduler n) (set_idtr (256 * 8 - 1) d1) v' e /\
  kcpu v' 0 (set_c_started (fun _ => 1) c) /\ exists g cs, v' = set_w_cpus (fun _ => cs) (set_w_con g v).
Proof using e.
  intros Hk Hif Hcon. unfold mpmain. pose proof (kcpu_ok _ _ _ Hk) as [Hon _].
  assert (cpuid v e = Ret 0 v e) as E1 by (unfold cpuid; cbn [kbind]; by rewrite (mycpu_eq v 0 c e Hon Hif)). rewrite (hlift_step _ _ d1 v e 0 v E1).
  assert (exists cs, format_chars (str "cpu%d: starting %d" ++ [10]) [AInt 0; AInt 0] = Some cs) as [cs Hcs] by (eexists; vm_compute; reflexivity).
  assert (cprintf (Some (str "cpu%d: starting %d" ++ [10])) [AInt 0; AInt 0] v e = Ret tt (set_w_con (put_cons cs) v) e) as E2.
  { rewrite (cprintf_eq _ _ cs v 0 c e (kcpu_ok _ _ _ Hk) Hcon); [|intros _; by apply (kcpu_free _ _ _ Hk)|done]. unfold con_settled. case_match; [done|]. by rewrite (kcpu_settled _ _ _ Hk). }
  rewrite (hlift_step _ _ d1 v e tt _ E2). set (v1 := set_w_con (put_cons cs) v). assert (kcpu v1 0 c) as Hk1 by exact (kcpu_frame v 0 c Hk (set_w_con (put_cons cs))).
  rewrite (hbind_ret idtinit _ _ _ _ tt (set_idtr (256 * 8 - 1) d1) v1 e) by done.
  rewrite (hlift_step _ _ _ v1 e 0%nat v1) by (apply (mycpu_eq v1 0 c); [apply (kcpu_ok _ _ _ Hk1)|done]).
  rewrite (hlift_step _ _ _ v1 e tt (upd_cpu 0 (set_c_started (fun _ => 1)) v1)) by done. eexists. split; [done|]. split; [by apply (kcpu_upd v1 0 c (set_c_started (fun _ => 1)))|]. by eexists _, _.
Qed.

Lemma high_length : exists k l, high_pages = k :: l /\ (2100 <= length l)%nat.
Proof using All.
  assert (length high_pages = Z.to_nat 56320) as Hlen by (unfold high_pages, page_range; rewrite length_reverse, length_fmap, length_seq; reflexivity).
  destruct high_pages as [|k l]; cbn [length] in Hlen; [lia|]. exists k, l. split; [done|lia].
Qed.

(** What main() promises when it enters the scheduler. *)
Record started (d' : drv) (w' : world) : Prop := mkStarted {
  sd_first : exists us k, first_made w 0 0 us k w';
  sd_cpu : exists c, kcpu w' 0 c /\ c_started c = 1;
  sd_lock : w_uselock w' = 1;
  sd_bufs : ring (w_bufs w') (reverse (seq 0 NBUF)) /\ same_core (w_bufs w) (w_bufs w');
  sd_idt : idt_ready k_vectors (w_idt w') /\ d_idtr d' = 256 * 8 - 1;
  sd_routes : routes d'
}.

End start.

(** ** The statement on an example *)

Module DemoStart.
#[local] Existing Instance demo_image.
#[local] Existing Instance memide.
#[local] Existing Instance no_devices.
#[local] Existing Instance DemoDev.demo_dev.
#[local] Existing Instance DemoDev.demo_ioapic.
#[local] Existing Instance DemoDev.demo_lapic.
#[export] Instance demo_start : StartImage := {| k_entryother := [0xFA]; k_mpenter := KERNBASE + 0x102000; k_entrypgdir := KERNBASE + 0x109000; k_vectors i := KERNBASE + 0x106000 + 16 * i |}.

(** The tables of a machine with one processor, in the last kilobyte below 640 kB. *)
Definition mp_pointer : list Z := str "_MP_" ++ [0x10; 0xFC; 0x09; 0; 1; 4; 0x8B; 0; 0; 0; 0; 0].
Definition mp_config : list Z := str "PCMP" ++ [72; 0; 4; 0xA2] ++ replicate 20 0 ++ [0; 0; 0; 0; 0; 0; 2; 0] ++ [0; 0; 0xE0; 0xFE] ++ [0; 0; 0; 0].
Definition mp_entries : list Z := table_entries [EProc 0 (replicate 18 0); EIoapic 0 (replicate 6 0)].
Definition mp_memory : memory := put_bytes 0x8000040E [0xC0; 0x9F] (put_bytes 0x8009FC00 (mp_pointer ++ mp_config ++ mp_entries) ∅).
Definition cold_world : world :=
  set_w_mem (fun _ => mp_memory) (set_w_if (fun _ => false) (set_w_cpus (fun _ => []) (set_w_uselock (fun _ => 0) (set_w_con (set_cn_locking (fun _ => 0)) boot_world)))).

Lemma mp_found : Mp.mpinit 3 mp_memory = MpFound (mkMp [0] 0 true) 0xFEE00000 false.
Proof. vm_compute. reflexivity. Qed.

Lemma mp_below : tables_below k_end mp_memory.
Proof.
  split; [by vm_compute|]. intros conf mp. assert (mpconfig mp_memory = Some (0x8009FC10, 0x8009FC00)) as -> by (vm_compute; reflexivity). intros [= <- <-]. by vm_compute.
Qed.

Lemma cold_world_cold : cold cold_world.
Proof.
  split; try reflexivity.
  - intros lk Hlk. exact (kctx_free _ _ _ _ _ sp_kctx lk Hlk).
  - by vm_compute.
Qed.

End DemoStart.
