(* ===== verification/User.v ===== *)
(** * User programs and the system calls they make (user.h, usys.S)

    A user program is an interaction tree whose events are the system calls of user.h and a few
    instructions.  The kernel is an interface: a state and what each call answers and does to it
    ([Sys]); the promises of read, write, open and close that the programs rely on are the class
    [Streams].  [runs m s o s'] says that program [m], started in kernel state [s], ends in [s'],
    having returned [Some a] or exited ([None]). *)

From Stdlib Require Import ZArith Lia.
From stdpp Require Import base list gmap strings numbers.
From S2P Require Import Prelude Machine Cstring.
From ITree Require Import ITree ITreeFacts Events.State Events.StateFacts.
Local Open Scope Z_scope.

(** [struct stat] as fstat fills it in. *)
Record ustat : Type := mkUstat { us_type : Z; us_dev : Z; us_ino : Z; us_nlink : Z; us_size : Z }.

(** The system calls, with the type of their answer: the value returned and what is stored in
    the caller's memory.  A string argument is its bytes before the NUL.  [exit] is not among
    them: it ends the program. *)
Variant sysE : Type -> Type :=
| Fork : sysE Z
| Wait : sysE Z
| Pipe : sysE (Z * (Z * Z))
| Write (fd : Z) (bs : list Z) : sysE Z
| Read (fd n : Z) : sysE (Z * list Z)
| Close (fd : Z) : sysE Z
| Kill (pid : Z) : sysE Z
| Exec (path : list Z) (argv : list (list Z)) : sysE Z
| Open (path : list Z) (mode : Z) : sysE Z
| Mknod (path : list Z) (major minor : Z) : sysE Z
| Unlink (path : list Z) : sysE Z
| Fstat (fd : Z) : sysE (Z * ustat)
| Link (old new : list Z) : sysE Z
| Mkdir (path : list Z) : sysE Z
| Chdir (path : list Z) : sysE Z
| Dup (fd : Z) : sysE Z
| Getpid : sysE Z
| Sbrk (n : Z) : sysE Z
| Sleep (n : Z) : sysE Z
| Uptime : sysE Z
| Setnice (pid nice : Z) : sysE Z
| Getnice (pid : Z) : sysE Z
| Ps (pid : Z) : sysE Z
(** Instructions with which the tests of the kernel try what a program may not do: a load and a
    store of a byte through a pointer, input and output of a port, the trap of a system call with
    the stack pointer moved to [esp], and link with a made-up pointer for its second name. *)
| Peek (a : Z) : sysE Z
| Poke (a v : Z) : sysE Z
| Inport (port : Z) : sysE Z
| Outport (port v : Z) : sysE Z
| Trapcall (num esp : Z) : sysE Z
| Linkat (old : list Z) (p : Z) : sysE Z.

(** ** Programs *)

(** A program that returns [Some a], or calls exit and ends with [None]. *)
Definition U (A : Type) : Type := itree sysE (option A).
Definition uret {A} (a : A) : U A := Ret (Some a).
Definition uexit {A} : U A := Ret None.
Definition ubind {A B} (m : U A) (k : A -> U B) : U B :=
  ITree.bind m (fun o => match o with Some a => k a | None => Ret None end).
Definition ucall {A} (e : sysE A) : U A := ITree.bind (ITree.trigger e) (fun a => Ret (Some a)).

(** A loop: the body continues with [inl] and ends the loop with [inr]. *)
Definition uloop {I A} (body : I -> U (I + A)) : I -> U A :=
  ITree.iter (fun i => ITree.bind (body i) (fun o =>
    Ret match o with
        | None => inr None
        | Some (inl i') => inl i'
        | Some (inr a) => inr (Some a)
        end)).

Declare Scope user_scope.
Delimit Scope user_scope with user.
Notation "'let*' x := m 'in' k" := (ubind m (fun x => k))
  (at level 200, x name, k at level 200) : user_scope.
Notation "'do*' m 'in' k" := (ubind m (fun _ => k)) (at level 200, k at level 200) : user_scope.
Local Open Scope user_scope.

(** [for(x in l) body(x)] *)
Fixpoint ufor {A} (l : list A) (body : A -> U unit) : U unit :=
  match l with
  | [] => uret tt
  | x :: l' => do* body x in ufor l' body
  end.

(** ** The kernel as the programs see it *)

Class Sys := {
  sys_state : Type;
  sys : forall T, sysE T -> sys_state -> sys_state * T
}.
Arguments sys {_} [T] e s.

Definition sys_handler `{Sys} : forall T, sysE T -> sys_state -> itree void1 (sys_state * T) :=
  fun T e s => Ret (sys e s).

Definition runs `{Sys} {A} (m : U A) (s : sys_state) (o : option A) (s' : sys_state) : Prop :=
  interp_state (M := itree void1) sys_handler m s ≈ Ret (s', o).

Section runs.
Context `{Sys}.
Implicit Types (s : sys_state).

Lemma runs_ret {A} (a : A) s : runs (uret a) s (Some a) s.
Proof. unfold runs, uret. by rewrite interp_state_ret. Qed.

Lemma runs_exit {A} s : runs (A := A) uexit s None s.
Proof. unfold runs, uexit. by rewrite interp_state_ret. Qed.

Lemma runs_bind {A B} (m : U A) (k : A -> U B) s a s1 o s2 :
  runs m s (Some a) s1 -> runs (k a) s1 o s2 -> runs (ubind m k) s o s2.
Proof.
  unfold runs, ubind. intros Hm Hk. rewrite interp_state_bind, Hm, bind_ret_l. exact Hk.
Qed.

Lemma runs_bind_exit {A B} (m : U A) (k : A -> U B) s s1 :
  runs m s None s1 -> runs (ubind m k) s None s1.
Proof.
  unfold runs, ubind. intros Hm. rewrite interp_state_bind, Hm, bind_ret_l.
  cbn [snd fst]. by rewrite interp_state_ret.
Qed.

Lemma runs_ucall {A} (e : sysE A) s s' a : sys e s = (s', a) -> runs (ucall e) s (Some a) s'.
Proof.
  intros He. unfold runs, ucall. rewrite interp_state_bind, interp_state_trigger.
  unfold sys_handler. rewrite He, bind_ret_l. cbn [snd fst]. by rewrite interp_state_ret.
Qed.

Lemma runs_loop {I A} (body : I -> U (I + A)) i s r s1 o s2 :
  runs (body i) s r s1 ->
  match r with
  | None => o = None /\ s2 = s1
  | Some (inr a) => o = Some a /\ s2 = s1
  | Some (inl i') => runs (uloop body i') s1 o s2
  end ->
  runs (uloop body i) s o s2.
Proof.
  unfold runs, uloop. intros Hb Hr. rewrite unfold_iter, interp_state_bind, interp_state_bind, Hb.
  rewrite bind_ret_l. cbn [fst snd]. rewrite interp_state_ret, bind_ret_l. cbn [fst snd].
  destruct r as [[i'|a]|].
  - rewrite interp_state_tau, tau_eutt. exact Hr.
  - destruct Hr as [-> ->]. by rewrite interp_state_ret.
  - destruct Hr as [-> ->]. by rewrite interp_state_ret.
Qed.

Lemma runs_bind_inv {A B} (m : U A) (k : A -> U B) s o s2 :
  runs (ubind m k) s o s2 ->
  exists r s1, runs m s r s1 /\ match r with Some a => runs (k a) s1 o s2 | None => o = None /\ s2 = s1 end.
Proof.
  unfold runs, ubind. rewrite interp_state_bind. intros Hb. apply eutt_inv_bind_ret in Hb as ([s1 r] & Hm & Hk).
  exists r, s1. split; [exact Hm|]. cbn [fst snd] in Hk. destruct r as [a|]; [exact Hk|].
  rewrite interp_state_ret in Hk. apply eutt_inv_Ret in Hk. by simplify_eq.
Qed.

(** A program ends in one way only. *)
Lemma runs_det {A} (m : U A) s o1 s1 o2 s2 : runs m s o1 s1 -> runs m s o2 s2 -> o1 = o2 /\ s1 = s2.
Proof.
  unfold runs. intros H1 H2. rewrite H1 in H2. apply eutt_inv_Ret in H2. by simplify_eq.
Qed.
End runs.

(** ** What the programs rely on *)

(** Open files as streams of bytes: [input fd] is what reading [fd] still delivers, in pieces
    the kernel chooses, [output fd] what has been written to it, [contents path] the bytes of a
    file that can be opened for reading. *)
Class Streams `{Sys} := {
  input : Z -> sys_state -> list Z;
  output : Z -> sys_state -> list Z;
  contents : list Z -> sys_state -> option (list Z);
  (** read returns the next bytes of the stream, at most [n], and none only at its end *)
  read_law fd n s : 0 < n ->
    exists bs s', sys (Read fd n) s = (s', (Z.of_nat (length bs), bs)) /\
      Z.of_nat (length bs) <= n /\ input fd s = bs ++ input fd s' /\
      (bs = [] -> input fd s = []) /\
      (forall g, g <> fd -> input g s' = input g s) /\
      (forall g, output g s' = output g s) /\ (forall p, contents p s' = contents p s);
  (** write appends all its bytes *)
  write_law fd bs s : fd = 1 \/ fd = 2 ->
    exists s', sys (Write fd bs) s = (s', Z.of_nat (length bs)) /\
      output fd s' = output fd s ++ bs /\
      (forall g, g <> fd -> output g s' = output g s) /\
      (forall g, input g s' = input g s) /\ (forall p, contents p s' = contents p s);
  (** open for reading gives a stream of the file's bytes, or fails and does nothing *)
  open_law path s :
    exists fd s', sys (Open path 0) s = (s', fd) /\
      match contents path s with
      | Some bs => 0 <= fd /\ input fd s' = bs
      | None => fd < 0
      end /\
      (forall g, output g s' = output g s) /\ (forall p, contents p s' = contents p s);
  close_law fd s :
    exists s' r, sys (Close fd) s = (s', r) /\
      (forall g, output g s' = output g s) /\ (forall p, contents p s' = contents p s)
}.

(** The files are as they were and [bs] has been appended to the output of [fd]. *)
Definition wrote `{Streams} (fd : Z) (bs : list Z) (s s' : sys_state) : Prop :=
  output fd s' = output fd s ++ bs /\ (forall g, g <> fd -> output g s' = output g s) /\
  (forall p, contents p s' = contents p s).

Section streams.
Context `{Streams}.

Lemma wrote_nil fd s s' :
  (forall g, output g s' = output g s) -> (forall p, contents p s' = contents p s) -> wrote fd [] s s'.
Proof. intros Ho Hc. unfold wrote. rewrite app_nil_r. auto. Qed.

Lemma wrote_refl fd s : wrote fd [] s s.
Proof. by apply wrote_nil. Qed.

Lemma wrote_trans fd bs bs' s1 s2 s3 :
  wrote fd bs s1 s2 -> wrote fd bs' s2 s3 -> wrote fd (bs ++ bs') s1 s3.
Proof.
  intros (H1 & H2 & H3) (H4 & H5 & H6). unfold wrote. rewrite H4, H1, (assoc_L (++)).
  split_and!; [done| |].
  - intros g Hg. by rewrite H5, H2.
  - intros p. by rewrite H6, H3.
Qed.

(** Writing leaves every input alone. *)
Definition same_input (s s' : sys_state) : Prop := forall g, input g s' = input g s.

Lemma runs_write fd bs s :
  fd = 1 \/ fd = 2 ->
  exists s', runs (ucall (Write fd bs)) s (Some (Z.of_nat (length bs))) s' /\
    wrote fd bs s s' /\ same_input s s'.
Proof.
  intros Hfd. destruct (write_law fd bs s Hfd) as (s' & E & H1 & H2 & H3 & H4).
  exists s'. split; [by apply runs_ucall|]. by repeat split.
Qed.
End streams.

(** ** A kernel for examples

    The bytes of an open file arrive in the pieces given; a read takes at most one piece. *)
Module Demo.
Record kern : Type := mkKern {
  k_in : gmap Z (list (list Z));
  k_out : gmap Z (list Z);
  k_files : gmap (list Z) (list (list Z));
  k_next : nat
}.

(** The first piece that is not empty, cut at [n] bytes, and the rest. *)
Fixpoint next_piece (n : nat) (ps : list (list Z)) : list Z * list (list Z) :=
  match ps with
  | [] => ([], [])
  | p :: ps' => match p with
                | [] => next_piece n ps'
                | _ => (take n p, drop n p :: ps')
                end
  end.

Definition answer {T} (e : sysE T) (k : kern) : kern * T :=
  match e in sysE T return kern * T with
  | Read fd n =>
    let '(bs, rest) := next_piece (Z.to_nat n) (default [] (k_in k !! fd)) in
    (mkKern (<[fd := rest]> (k_in k)) (k_out k) (k_files k) (k_next k), (Z.of_nat (length bs), bs))
  | Write fd bs =>
    (mkKern (k_in k) (<[fd := default [] (k_out k !! fd) ++ bs]> (k_out k)) (k_files k) (k_next k),
     Z.of_nat (length bs))
  | Open path _ =>
    match k_files k !! path with
    | Some ps =>
      (mkKern (<[Z.of_nat (k_next k) := ps]> (k_in k)) (k_out k) (k_files k) (S (k_next k)),
       Z.of_nat (k_next k))
    | None => (k, -1)
    end
  | Fstat _ => (k, (-1, mkUstat 0 0 0 0 0))
  | Pipe => (k, (-1, (0, 0)))
  | _ => (k, -1)
  end.

#[export] Instance demo_sys : Sys := {| sys_state := kern; sys T e k := answer e k |}.

Lemma next_piece_spec n ps :
  (0 < n)%nat ->
  let '(bs, rest) := next_piece n ps in
  (length bs <= n)%nat /\ concat ps = bs ++ concat rest /\ (bs = [] -> concat ps = []).
Proof.
  intros Hn. induction ps as [|p ps IH]; [simpl; repeat split; lia|].
  destruct p as [|c p]; [exact IH|]. cbn [next_piece concat]. split_and!.
  - rewrite length_take. lia.
  - by rewrite (assoc_L (++)), take_drop.
  - destruct n; [lia|]. done.
Qed.

#[export] Program Instance demo_streams : Streams := {|
  input fd k := concat (default [] (k_in k !! fd));
  output fd k := default [] (k_out k !! fd);
  contents path k := concat (A := Z) <$> k_files k !! path
|}.
Next Obligation.
  intros fd n k Hn. simpl. pose proof (next_piece_spec (Z.to_nat n) (default [] (k_in k !! fd)) ltac:(lia)) as Hp.
  destruct (next_piece _ _) as [bs rest]. destruct Hp as (H1 & H2 & H3). do 2 eexists. split; [done|].
  cbn [k_in k_out k_files]. rewrite lookup_insert_eq. split_and!; try done; [lia|].
  intros g Hg. by rewrite lookup_insert_ne.
Qed.
Next Obligation.
  intros fd bs k _. simpl. eexists. split; [done|]. cbn [k_in k_out k_files].
  rewrite lookup_insert_eq. split_and!; try done. intros g Hg. by rewrite lookup_insert_ne.
Qed.
Next Obligation.
  intros path k. simpl. destruct (k_files k !! path) as [ps|]; simpl; do 2 eexists; (split; [done|]).
  - cbn [k_in k_out k_files]. rewrite lookup_insert_eq. split_and!; try done. lia.
  - split_and!; try done.
Qed.
Next Obligation. intros fd k. simpl. by do 2 eexists. Qed.

(** Nothing is open but standard input, which delivers [ps]; [files] can be opened. *)
Definition start (ps : list (list Z)) (files : gmap (list Z) (list (list Z))) : @sys_state demo_sys :=
  mkKern {[0 := ps]} ∅ files 3.
End Demo.

Lemma length_positive {A} (l : list A) : l <> [] -> (Z.of_nat (length l) >? 0) = true.
Proof. intros Hl. destruct l; [done|]. apply Z.gtb_lt. simpl. lia. Qed.

(** ** Loops that read a stream to its end

    [I st bs s]: the loop is at [st], having read [bs]; a turn whose read returns something
    reads on, and the one at the end of the stream leaves the loop with [Q]. *)
Section drain.
Context `{Streams} {St A : Type} (body : St -> U (St + A)) (fd n : Z)
  (I : St -> list Z -> sys_state -> Prop) (Q : A -> list Z -> sys_state -> Prop).
Hypothesis Hn : 0 < n.
Hypothesis Hstep : forall st seen s bs s1,
  I st seen s -> bs <> [] -> sys (Read fd n) s = (s1, (Z.of_nat (length bs), bs)) ->
  wrote 1 [] s s1 -> Z.of_nat (length bs) <= n -> input fd s = bs ++ input fd s1 ->
  exists st' s2, runs (body st) s (Some (inl st')) s2 /\ I st' (seen ++ bs) s2 /\
    input fd s2 = input fd s1.
Hypothesis Hend : forall st seen s s1,
  I st seen s -> sys (Read fd n) s = (s1, (0, [])) -> wrote 1 [] s s1 ->
  exists a s2, runs (body st) s (Some (inr a)) s2 /\ Q a seen s2.

Lemma drain st seen s :
  I st seen s ->
  exists a s', runs (uloop body st) s (Some a) s' /\ Q a (seen ++ input fd s) s'.
Proof using Hn Hstep Hend.
  remember (length (input fd s)) as k eqn:Hk. revert st seen s Hk.
  induction (lt_wf k) as [k _ IH]. intros st seen s Hk HI.
  destruct (read_law fd n s Hn) as (bs & s1 & E & H1 & H2 & H3 & _ & H4 & H5).
  assert (wrote 1 [] s s1) as Hw by by apply wrote_nil. destruct bs as [|b bs].
  - destruct (Hend st seen s s1 HI E Hw) as (a & s2 & R & HQ). exists a, s2. split.
    + by eapply runs_loop.
    + by rewrite H3, app_nil_r.
  - destruct (Hstep st seen s (b :: bs) s1 HI) as (st' & s2 & R & HI' & Hin); try done.
    destruct (IH (length (input fd s2))) with (st := st') (seen := seen ++ b :: bs) (s := s2)
      as (a & s3 & R' & HQ); [|done|done|].
    + rewrite Hk, Hin, H2, length_app. simpl. lia.
    + exists a, s3. split; [by eapply runs_loop|].
      by rewrite H2, (assoc_L (++)), <-Hin.
Qed.
End drain.
