(* ===== verification/Ulib.v ===== *)
(** * The library of the user programs (ulib.c, printf.c)

    Strings are byte lists, read as NUL past their end; a destination array is the list of its
    bytes and a pointer into it an offset. *)

From Stdlib Require Import ZArith Lia.
From stdpp Require Import base list gmap strings numbers.
From S2P Require Import Prelude Machine Cstring Cprintf Layout User.
From ITree Require Import ITree.
Local Open Scope Z_scope.
Local Open Scope user_scope.

(** ** ulib.c *)

(** [strcpy(s, t)], the array [s] after the call. *)
Fixpoint strcpy (s t : list Z) : list Z :=
  match s with
  | [] => []
  | _ :: s' => let c := default 0 (head t) in c :: (if c =? 0 then s' else strcpy s' (tail t))
  end.

Fixpoint strcmp (p q : list Z) : Z :=
  let b := default 0 (head q) in
  match p with
  | [] => 0 - u8 b
  | a :: p' => if negb (a =? 0) && (a =? b) then strcmp p' (tail q) else u8 a - u8 b
  end.

Fixpoint ulib_strlen (s : list Z) : nat :=
  match s with
  | [] => 0
  | c :: s' => if c =? 0 then 0%nat else S (ulib_strlen s')
  end.

(** [memset(buf + off, c, n)] *)
Definition ulib_memset (off : nat) (c : Z) (n : nat) (buf : list Z) : list Z :=
  splice off (replicate n (u8 c)) buf.

(** The offset of the first [c] of the string; [None] is the null pointer. *)
Fixpoint strchr (s : list Z) (c : Z) : option nat :=
  match s with
  | [] => None
  | x :: s' => if x =? 0 then None else if x =? c then Some 0%nat else S <$> strchr s' c
  end.

(** The loop of gets when [n] more bytes fit; the bytes stored before the NUL. *)
Fixpoint gets_loop (n : nat) : U (list Z) :=
  match n with
  | O => uret []
  | S n' =>
    let* r := ucall (Read 0 1) in
    if fst r <? 1 then uret [] else
    let c := default 0 (head (snd r)) in
    if (c =? 10) || (c =? 13) then uret [c] else
    let* l := gets_loop n' in
    uret (c :: l)
  end.

Definition gets (max : nat) : U (list Z) := gets_loop (max - 1).

Definition stat (n : list Z) : U (Z * ustat) :=
  let* fd := ucall (Open n 0) in
  if fd <? 0 then uret (-1, mkUstat 0 0 0 0 0) else
  let* r := ucall (Fstat fd) in
  do* ucall (Close fd) in
  uret r.

(** [while('0' <= *s && *s <= '9') n = n*10 + *s++ - '0';] *)
Fixpoint atoi_loop (n : Z) (s : list Z) : Z :=
  match s with
  | [] => n
  | c :: s' => if (48 <=? c) && (c <=? 57) then atoi_loop (s32 (n * 10 + c - 48)) s' else n
  end.
Definition atoi (s : list Z) : Z := atoi_loop 0 s.

(** [while(n-- > 0) *dst++ = *src++;] within one array. *)
Fixpoint ulib_memmove (dst src n : nat) (buf : list Z) : list Z :=
  match n with
  | O => buf
  | S n' => ulib_memmove (S dst) (S src) n' (<[dst := default 0 (buf !! src)]> buf)
  end.

(** ** printf.c *)

Definition putc (fd c : Z) : U unit := do* ucall (Write fd [u8 c]) in uret tt.
Definition puts (fd : Z) (cs : list Z) : U unit := ufor cs (putc fd).

Definition uprintint (fd xx base sgn : Z) : U unit :=
  puts fd (print_chars (str "0123456789ABCDEF") xx base sgn).

(** The loop over the format, [pct] being [state == '%']; the program ends where an argument
    the format asks for is missing. *)
Fixpoint printf_loop (fd : Z) (fmt : list Z) (args : list parg) (pct : bool) : U unit :=
  match fmt with
  | [] => uret tt
  | c :: fmt' =>
    if c =? 0 then uret tt else
    if negb pct then
      if c =? 37 then printf_loop fd fmt' args true
      else do* putc fd c in printf_loop fd fmt' args false
    else if c =? 100 then
      match args with
      | AInt z :: args' => do* uprintint fd (s32 z) 10 1 in printf_loop fd fmt' args' false
      | _ => uexit
      end
    else if (c =? 120) || (c =? 112) then
      match args with
      | AInt z :: args' => do* uprintint fd (s32 z) 16 0 in printf_loop fd fmt' args' false
      | _ => uexit
      end
    else if c =? 115 then
      match args with
      | AStr p :: args' =>
        do* puts fd (cstr (default (str "(null)") p)) in printf_loop fd fmt' args' false
      | _ => uexit
      end
    else if c =? 99 then
      match args with
      | AInt z :: args' => do* putc fd z in printf_loop fd fmt' args' false
      | _ => uexit
      end
    else if c =? 37 then do* putc fd c in printf_loop fd fmt' args false
    else do* putc fd 37 in do* putc fd c in printf_loop fd fmt' args false
  end.

Definition printf (fd : Z) (fmt : list Z) (args : list parg) : U unit := printf_loop fd fmt args false.
(** A call with a literal format, and one whose format ends in a newline. *)
Definition uprint (fd : Z) (fmt : string) (args : list parg) : U unit := printf fd (str fmt) args.
Definition uprintn (fd : Z) (fmt : string) (args : list parg) : U unit :=
  printf fd (str fmt ++ [10]) args.

(** The characters a call of printf writes; [None] when an argument is missing. *)
Fixpoint uformat (fmt : list Z) (args : list parg) (pct : bool) : option (list Z) :=
  match fmt with
  | [] => Some []
  | c :: fmt' =>
    if c =? 0 then Some [] else
    if negb pct then
      if c =? 37 then uformat fmt' args true else cons (u8 c) <$> uformat fmt' args false
    else if c =? 100 then
      match args with
      | AInt z :: args' =>
        app (u8 <$> print_chars (str "0123456789ABCDEF") (s32 z) 10 1) <$> uformat fmt' args' false
      | _ => None
      end
    else if (c =? 120) || (c =? 112) then
      match args with
      | AInt z :: args' =>
        app (u8 <$> print_chars (str "0123456789ABCDEF") (s32 z) 16 0) <$> uformat fmt' args' false
      | _ => None
      end
    else if c =? 115 then
      match args with
      | AStr p :: args' =>
        app (u8 <$> cstr (default (str "(null)") p)) <$> uformat fmt' args' false
      | _ => None
      end
    else if c =? 99 then
      match args with
      | AInt z :: args' => cons (u8 z) <$> uformat fmt' args' false
      | _ => None
      end
    else app (if c =? 37 then [u8 c] else [37; u8 c]) <$> uformat fmt' args false
  end.

(** Text of a format that is copied as it is. *)
Definition plain (l : list Z) : bool := forallb (fun c => (0 <? c) && (c <? 256) && negb (c =? 37)) l.

Lemma uformat_plain l fmt args :
  plain l = true -> uformat (l ++ fmt) args false = app l <$> uformat fmt args false.
Proof.
  induction l as [|c l IH]; cbn [plain forallb app].
  - intros _. by destruct (uformat fmt args false).
  - intros [[[H1%Z.ltb_lt H2%Z.ltb_lt]%andb_prop H3%negb_true_iff]%andb_prop Hl]%andb_prop.
    cbn [uformat negb]. rewrite (proj2 (Z.eqb_neq c 0)), H3, IH by (done || lia).
    destruct (uformat fmt args false); [|done]. cbn [fmap option_fmap option_map app].
    do 2 f_equal. apply Z.mod_small. lia.
Qed.

Lemma uformat_s fmt p args :
  uformat (37 :: 115 :: fmt) (AStr p :: args) false
  = app (u8 <$> cstr (default (str "(null)") p)) <$> uformat fmt args false.
Proof. reflexivity. Qed.

Lemma uformat_d fmt z args :
  uformat (37 :: 100 :: fmt) (AInt z :: args) false
  = app (u8 <$> print_chars (str "0123456789ABCDEF") (s32 z) 10 1) <$> uformat fmt args false.
Proof. reflexivity. Qed.

(** ** What the calls do *)

Section output.
Context `{Streams} (fd : Z) (Hfd : fd = 1 \/ fd = 2).

(** The program writes [bs] to [fd] and returns. *)
Definition writes {A} (m : U A) (a : A) (bs : list Z) : Prop :=
  forall s, exists s', runs m s (Some a) s' /\ wrote fd bs s s' /\ same_input s s'.

Lemma writes_ret {A} (a : A) : writes (uret a) a [].
Proof. intros s. exists s. split; [apply runs_ret|]. by split; [apply wrote_refl|]. Qed.

Lemma writes_bind {A B} (m : U A) (k : A -> U B) a b bs bs' :
  writes m a bs -> writes (k a) b bs' -> writes (ubind m k) b (bs ++ bs').
Proof.
  intros Hm Hk s. destruct (Hm s) as (s1 & R1 & W1 & I1). destruct (Hk s1) as (s2 & R2 & W2 & I2).
  exists s2. split; [by eapply runs_bind|]. split; [by eapply wrote_trans|].
  intros g. by rewrite I2, I1.
Qed.

Lemma writes_putc c : writes (putc fd c) tt [u8 c].
Proof using Hfd.
  intros s. destruct (runs_write fd [u8 c] s Hfd) as (s' & R & W & I).
  exists s'. split; [|done]. eapply runs_bind; [exact R|apply runs_ret].
Qed.

Lemma writes_puts cs : writes (puts fd cs) tt (u8 <$> cs).
Proof using Hfd.
  induction cs as [|c cs IH]; [apply writes_ret|].
  change (u8 <$> c :: cs) with ([u8 c] ++ (u8 <$> cs)).
  eapply writes_bind; [apply writes_putc|exact IH].
Qed.

Lemma printf_loop_writes fmt args pct cs :
  uformat fmt args pct = Some cs -> writes (printf_loop fd fmt args pct) tt cs.
Proof using Hfd.
  revert args pct cs. induction fmt as [|c fmt IH]; intros args pct cs; cbn [uformat printf_loop].
  { intros [= <-]. apply writes_ret. }
  destruct (c =? 0); [intros [= <-]; apply writes_ret|].
  assert (forall m bs args', writes m tt bs ->
    app bs <$> uformat fmt args' false = Some cs ->
    writes (do* m in printf_loop fd fmt args' false) tt cs) as Hstep.
  { intros m bs args' Hm (cs' & Hcs & ->)%fmap_Some. eapply writes_bind; [exact Hm|by apply IH]. }
  destruct pct; cbn [negb].
  2:{ destruct (c =? 37); [apply IH|]. apply (Hstep _ [u8 c]), writes_putc. }
  destruct (c =? 100); [|destruct ((c =? 120) || (c =? 112)); [|destruct (c =? 115); [|destruct (c =? 99)]]].
  - destruct args as [|[z|] args]; try done. apply Hstep, writes_puts.
  - destruct args as [|[z|] args]; try done. apply Hstep, writes_puts.
  - destruct args as [|[z|p] args]; try done. apply Hstep, writes_puts.
  - destruct args as [|[z|] args]; try done. apply (Hstep _ [u8 z]), writes_putc.
  - destruct (c =? 37); [apply Hstep, writes_putc|].
    intros (cs' & Hcs & ->)%fmap_Some. change ([37; u8 c] ++ cs') with ([u8 37] ++ [u8 c] ++ cs').
    eapply writes_bind; [apply writes_putc|]. eapply writes_bind; [apply writes_putc|by apply IH].
Qed.

Lemma printf_writes fmt args cs : uformat fmt args false = Some cs -> writes (printf fd fmt args) tt cs.
Proof using Hfd. apply printf_loop_writes. Qed.
End output.

(** ** Numbers as text *)

Definition is_digit (d : Z) : Prop := 0 <= d < 10.

Lemma digit_char d :
  is_digit d -> default 0 (str "0123456789ABCDEF" !! Z.to_nat d) = 48 + d.
Proof.
  intros [H1 H2].
  assert (d = 0 \/ d = 1 \/ d = 2 \/ d = 3 \/ d = 4 \/ d = 5 \/ d = 6 \/ d = 7 \/ d = 8 \/ d = 9) as Hd by lia.
  by repeat destruct Hd as [->|Hd]; subst.
Qed.

Lemma atoi_loop_app n l1 l2 :
  Forall (fun c => 48 <= c <= 57) l1 -> atoi_loop n (l1 ++ l2) = atoi_loop (atoi_loop n l1) l2.
Proof.
  intros Hl. revert n. induction Hl as [|c l1 Hc _ IH]; intros n; [done|]. cbn [app atoi_loop].
  rewrite (proj2 (Z.leb_le 48 c)), (proj2 (Z.leb_le c 57)) by lia. apply IH.
Qed.

(** A number written with its digits, most significant first, reads back. *)
Lemma atoi_digits ds :
  Forall is_digit ds -> value 10 ds <= INT_MAX -> atoi ((fun d => 48 + d) <$> reverse ds) = value 10 ds.
Proof.
  induction 1 as [|d ds [Hd1 Hd2] Hds IH]; [done|]. cbn [value]. intros Hv.
  assert (0 <= value 10 ds) as H0.
  { clear -Hds. induction Hds as [|d ds [? ?] _ IH]; [done|]. cbn [value]. lia. }
  rewrite reverse_cons, fmap_app. unfold atoi in *. rewrite atoi_loop_app.
  - rewrite IH by lia. cbn [fmap list_fmap atoi_loop].
    rewrite (proj2 (Z.leb_le 48 _)), (proj2 (Z.leb_le _ 57)) by lia. cbn [andb].
    unfold INT_MAX in Hv. rewrite s32_small; lia.
  - apply Forall_fmap. apply Forall_reverse. revert Hds. apply Forall_impl. intros x [? ?]. simpl. lia.
Qed.

Lemma atoi_print_chars z :
  0 <= z <= INT_MAX -> atoi (print_chars (str "0123456789ABCDEF") z 10 1) = z /\
    bytes (print_chars (str "0123456789ABCDEF") z 10 1).
Proof.
  unfold INT_MAX. intros Hz. unfold print_chars, print_abs.
  rewrite (proj2 (Z.ltb_ge z 0)) by lia. cbn [negb andb]. rewrite andb_false_r, app_nil_r.
  rewrite u32_small by lia.
  destruct (digit_loop_value 32 z 10) as (Hv & Hd & _); [lia| |lia|].
  { assert (10 ^ Z.of_nat 32 = 100000000000000000000000000000000) as -> by reflexivity. lia. }
  set (ds := digit_loop 32 z 10) in *.
  assert (reverse ((fun d => default 0 (str "0123456789ABCDEF" !! Z.to_nat d)) <$> ds)
    = (fun d => 48 + d) <$> reverse ds) as ->.
  { rewrite fmap_reverse. f_equal. apply list_fmap_ext. intros k d Hk. apply digit_char.
    by apply (Forall_lookup_1 _ _ _ _ Hd Hk). }
  split; [rewrite atoi_digits; [done|exact Hd|unfold INT_MAX; lia]|].
  apply Forall_fmap, Forall_reverse. revert Hd. apply Forall_impl. intros d ?. simpl. lia.
Qed.

Lemma bytes_u8 l : bytes l -> u8 <$> l = l.
Proof.
  induction 1 as [|c l Hc _ IH]; [done|]. cbn [fmap list_fmap]. f_equal; [|exact IH].
  by apply Z.mod_small.
Qed.

(** ** Properties *)

(** printf writes a number with %d such that atoi reads it back, and writes nothing else. *)
Theorem printf_atoi `{Streams} z fd s :
  0 <= z <= INT_MAX -> fd = 1 \/ fd = 2 ->
  exists s' cs, runs (uprint fd "%d" [AInt z]) s (Some tt) s' /\ wrote fd cs s s' /\ atoi cs = z.
Proof.
  intros Hz Hfd. destruct (atoi_print_chars z Hz) as [Ha Hb].
  destruct (printf_writes fd Hfd (str "%d") [AInt z] (print_chars (str "0123456789ABCDEF") z 10 1))
    with (s := s) as (s' & R & W & _).
  - cbn -[print_chars]. rewrite s32_small by (unfold INT_MAX in Hz; lia).
    by rewrite app_nil_r, bytes_u8.
  - by exists s', (print_chars (str "0123456789ABCDEF") z 10 1).
Qed.

Import Demo.

Lemma printf_atoi_witness :
  exists s' cs, runs (uprint 1 "%d" [AInt 2147483647]) (start [] ∅) (Some tt) s' /\
    output 1 s' = cs /\ atoi cs = 2147483647.
Proof.
  destruct (printf_atoi 2147483647 1 (start [] ∅)) as (s' & cs & R & (W & _) & E).
  - by vm_compute.
  - by left.
  - exists s', cs. split; [exact R|]. split; [exact W|exact E].
Defined.
