(* ===== verification/Uprogs.v ===== *)
(** * The small user programs (cat.c, echo.c, wc.c, kill.c, ln.c, mkdir.c, rm.c, ls.c, init.c,
    zombie.c)

    [argv] is the list of the arguments, the program's name first.  The theorems say what cat,
    echo and wc write, whatever pieces their input arrives in. *)

From Stdlib Require Import ZArith Lia.
From stdpp Require Import base list gmap strings numbers.
From ITree Require Import ITree.
From S2P Require Import Prelude Machine Cstring Cprintf Layout User Ulib.
Local Open Scope Z_scope.
Local Open Scope user_scope.

(** ** cat.c *)

Definition cat (fd : Z) : U unit :=
  let* n := uloop (fun _ : unit =>
    let* r := ucall (Read fd 512) in
    let '(n, buf) := r in
    if n >? 0 then
      let* m := ucall (Write 1 (take (Z.to_nat n) buf)) in
      if negb (m =? n) then do* uprintn 1 "cat: write error" [] in uexit
      else uret (inl tt)
    else uret (inr n)) tt in
  if n <? 0 then do* uprintn 1 "cat: read error" [] in uexit else uret tt.

Definition cat_main (argv : list (list Z)) : U unit :=
  if Z.of_nat (length argv) <=? 1 then do* cat 0 in uexit else
  do* ufor (tail argv) (fun arg =>
    let* fd := ucall (Open arg 0) in
    if fd <? 0 then do* uprintn 1 "cat: cannot open %s" [AStr (Some arg)] in uexit else
    do* cat fd in
    do* ucall (Close fd) in
    uret tt) in
  uexit.

(** ** echo.c *)

(** The loop from argument [arg] on. *)
Fixpoint echo_loop (args : list (list Z)) : U unit :=
  match args with
  | [] => uret tt
  | arg :: args' =>
    do* uprint 1 "%s%s" [AStr (Some arg); AStr (Some (match args' with [] => [10] | _ => [32] end))] in
    echo_loop args'
  end.
Definition echo_main (argv : list (list Z)) : U unit := do* echo_loop (tail argv) in uexit.

(** ** wc.c *)

Record wcstate : Type := mkWc { wc_l : Z; wc_w : Z; wc_c : Z; wc_inword : bool }.

(** One turn of the inner loop. *)
Definition wc_byte (st : wcstate) (b : Z) : wcstate :=
  let c := s32 (wc_c st + 1) in
  let l := if b =? 10 then s32 (wc_l st + 1) else wc_l st in
  match strchr [32; 13; 9; 10; 11] b with
  | Some _ => mkWc l (wc_w st) c false
  | None => if wc_inword st then mkWc l (wc_w st) c true else mkWc l (s32 (wc_w st + 1)) c true
  end.

Definition wc (fd : Z) (name : list Z) : U unit :=
  let* r := uloop (fun st : wcstate =>
    let* r := ucall (Read fd 512) in
    let '(n, buf) := r in
    if n >? 0 then uret (inl (foldl wc_byte st (take (Z.to_nat n) buf))) else uret (inr (n, st)))
    (mkWc 0 0 0 false) in
  let '(n, st) := r in
  if n <? 0 then do* uprintn 1 "wc: read error" [] in uexit else
  uprintn 1 "%d %d %d %s" [AInt (wc_l st); AInt (wc_w st); AInt (wc_c st); AStr (Some name)].

Definition wc_main (argv : list (list Z)) : U unit :=
  if Z.of_nat (length argv) <=? 1 then do* wc 0 [] in uexit else
  do* ufor (tail argv) (fun arg =>
    let* fd := ucall (Open arg 0) in
    if fd <? 0 then do* uprintn 1 "wc: cannot open %s" [AStr (Some arg)] in uexit else
    do* wc fd arg in
    do* ucall (Close fd) in
    uret tt) in
  uexit.

(** ** kill.c, ln.c, mkdir.c, rm.c, zombie.c *)

Definition kill_main (argv : list (list Z)) : U unit :=
  if Z.of_nat (length argv) <? 2 then do* uprintn 2 "usage: kill pid..." [] in uexit else
  do* ufor (tail argv) (fun arg => do* ucall (Kill (atoi arg)) in uret tt) in
  uexit.

Definition ln_main (argv : list (list Z)) : U unit :=
  match argv with
  | [_; old; new] =>
    let* r := ucall (Link old new) in
    do* (if r <? 0 then uprintn 2 "link %s %s: failed" [AStr (Some old); AStr (Some new)] else uret tt) in
    uexit
  | _ => do* uprintn 2 "Usage: ln old new" [] in uexit
  end.

(** The loop of mkdir and rm: [op] on each argument up to the first failure. *)
Fixpoint each_arg (op : list Z -> sysE Z) (msg : string) (args : list (list Z)) : U unit :=
  match args with
  | [] => uret tt
  | arg :: args' =>
    let* r := ucall (op arg) in
    if r <? 0 then uprintn 2 msg [AStr (Some arg)] else each_arg op msg args'
  end.

Definition mkdir_main (argv : list (list Z)) : U unit :=
  if Z.of_nat (length argv) <? 2 then do* uprintn 2 "Usage: mkdir files..." [] in uexit else
  do* each_arg Mkdir "mkdir: %s failed to create" (tail argv) in uexit.

Definition rm_main (argv : list (list Z)) : U unit :=
  if Z.of_nat (length argv) <? 2 then do* uprintn 2 "Usage: rm files..." [] in uexit else
  do* each_arg Unlink "rm: %s failed to delete" (tail argv) in uexit.

Definition zombie_main : U unit :=
  let* pid := ucall Fork in
  do* (if pid >? 0 then do* ucall (Sleep 5) in uret tt else uret tt) in
  uexit.

(** ** ls.c *)

(** The part of the path after its last slash: the loop goes down from the end [p] of the
    path, [n] bytes being left. *)
Fixpoint last_slash (path : list Z) (p : nat) : list Z :=
  match path !! p with
  | Some 47 => drop (S p) path
  | _ => match p with O => path | S p' => last_slash path p' end
  end.

Definition fmtname (path : list Z) : list Z :=
  let path := cstr path in
  let p := last_slash path (length path) in
  if Z.of_nat (length p) >=? DIRSIZ then p
  else p ++ replicate (Z.to_nat DIRSIZ - length p) 32.

(** The line of one file. *)
Definition ls_line (path : list Z) (st : ustat) : U unit :=
  uprintn 1 "%s %d %d %d" [AStr (Some (fmtname path)); AInt (us_type st); AInt (us_ino st); AInt (us_size st)].

(** The body of the loop over the entries of a directory; [buf] is the path of the directory
    and a slash. *)
Definition ls_entry (fd : Z) (buf : list Z) : U (unit + unit) :=
  let* r := ucall (Read fd 16) in
  let '(n, de) := r in
  if negb (n =? 16) then uret (inr tt) else
  if de_inum de =? 0 then uret (inl tt) else
  let buf := buf ++ de_name de in
  let* r := stat (cstr buf) in
  do* (if fst r <? 0 then uprintn 1 "ls: cannot stat %s" [AStr (Some buf)] else ls_line buf (snd r)) in
  uret (inl tt).

Definition ls (path : list Z) : U unit :=
  let* fd := ucall (Open path 0) in
  if fd <? 0 then uprintn 2 "ls: cannot open %s" [AStr (Some path)] else
  let* r := ucall (Fstat fd) in
  if fst r <? 0 then
    do* uprintn 2 "ls: cannot stat %s" [AStr (Some path)] in
    do* ucall (Close fd) in uret tt
  else
  let st := snd r in
  do* (if us_type st =? T_FILE then ls_line path st
       else if us_type st =? T_DIR then
         if Z.of_nat (length path) + 1 + DIRSIZ + 1 >? 512 then uprintn 1 "ls: path too long" []
         else uloop (fun _ => ls_entry fd (path ++ [47])) tt
       else uret tt) in
  do* ucall (Close fd) in
  uret tt.

Definition ls_main (argv : list (list Z)) : U unit :=
  if Z.of_nat (length argv) <? 2 then do* ls (str ".") in uexit else
  do* ufor (tail argv) ls in uexit.

(** ** init.c *)

(** [while((wpid=wait()) >= 0 && wpid != pid) printf(1, "zombie!\n");] *)
Definition init_wait (pid : Z) : U unit :=
  uloop (fun _ : unit =>
    let* wpid := ucall Wait in
    if (wpid >=? 0) && negb (wpid =? pid) then do* uprintn 1 "zombie!" [] in uret (inl tt)
    else uret (inr tt)) tt.

(** One turn of the loop that starts the shell. *)
Definition init_turn : U unit :=
  do* uprintn 1 "init: starting sh" [] in
  let* pid := ucall Fork in
  if pid <? 0 then do* uprintn 1 "init: fork failed" [] in uexit else
  if pid =? 0 then
    do* ucall (Exec (str "sh") [str "sh"]) in
    do* uprintn 1 "init: exec sh failed" [] in
    uexit
  else init_wait pid.

Definition init_main : U unit :=
  let* fd := ucall (Open (str "console") O_RDWR) in
  do* (if fd <? 0 then
         do* ucall (Mknod (str "console") 1 1) in
         do* ucall (Open (str "console") O_RDWR) in uret tt
       else uret tt) in
  do* ucall (Dup 0) in
  do* ucall (Dup 0) in
  uloop (fun _ : unit => do* init_turn in uret (inl tt)) tt.

(** ** What the programs write *)

(** A path or argument: bytes, none of them NUL. *)
Definition arg_ok (a : list Z) : Prop := Forall (fun c => 0 < c < 256) a.

Lemma arg_cstr a : arg_ok a -> u8 <$> cstr a = a.
Proof.
  unfold cstr. induction 1 as [|c a Hc _ IH]; [done|]. cbn [strlen].
  rewrite (proj2 (Z.eqb_neq c 0)) by lia. cbn [take fmap list_fmap]. f_equal; [|exact IH].
  apply Z.mod_small. lia.
Qed.

(** The number in decimal. *)
Definition dec (z : Z) : list Z := u8 <$> print_chars (str "0123456789ABCDEF") (s32 z) 10 1.

Section programs.
Context `{Streams}.

(** cat copies the stream. *)
Lemma cat_eq fd s :
  exists s', runs (cat fd) s (Some tt) s' /\ wrote 1 (input fd s) s s'.
Proof.
  destruct (drain (fun _ : unit =>
    let* r := ucall (Read fd 512) in
    let '(n, buf) := r in
    if n >? 0 then
      let* m := ucall (Write 1 (take (Z.to_nat n) buf)) in
      if negb (m =? n) then do* uprintn 1 "cat: write error" [] in uexit
      else uret (inl tt)
    else uret (inr n)) fd 512 (fun _ seen t => wrote 1 seen s t) (fun n seen t => n = 0 /\ wrote 1 seen s t))
    with (st := tt) (seen := @nil Z) (s := s) as (n & s1 & R & -> & W).
  - lia.
  - intros [] seen t bs t1 HI Hbs E Hw Hlen Hin.
    destruct (runs_write 1 bs t1 ltac:(by left)) as (t2 & R & W & Hi). exists tt, t2. split_and!.
    + eapply runs_bind; [by apply runs_ucall|]. cbn beta iota.
      rewrite length_positive by done. rewrite Nat2Z.id, take_ge by lia. eapply runs_bind; [exact R|]. rewrite Z.eqb_refl. apply runs_ret.
    + rewrite <-(app_nil_l bs). by eapply wrote_trans, wrote_trans.
    + apply Hi.
  - intros [] seen t t1 HI E Hw. exists 0, t1. split_and!; [|done|].
    + eapply runs_bind; [by apply runs_ucall|]. apply runs_ret.
    + rewrite <-(app_nil_r seen). by eapply wrote_trans.
  - apply wrote_refl.
  - exists s1. split; [|done]. eapply runs_bind; [exact R|]. apply runs_ret.
Qed.
(** The files named by the arguments, up to the first that cannot be opened: [out] is what the
    program writes for one, [err] the message. *)
Fixpoint files_text (out : list Z -> list Z -> list Z) (err : list Z -> list Z)
    (args : list (list Z)) (s : sys_state) : list Z :=
  match args with
  | [] => []
  | arg :: args' =>
    match contents arg s with
    | Some bs => out arg bs ++ files_text out err args' s
    | None => err arg
    end
  end.

Lemma files_text_wrote out err args fd bs s s' :
  wrote fd bs s s' -> files_text out err args s' = files_text out err args s.
Proof.
  intros (_ & _ & Hc). induction args as [|a args IH]; [done|]. cbn [files_text].
  by rewrite Hc, IH.
Qed.

Lemma files_loop (run : Z -> list Z -> U unit) out msg err args s :
  (forall fd a s, arg_ok a ->
    exists s', runs (run fd a) s (Some tt) s' /\ wrote 1 (out a (input fd s)) s s') ->
  (forall a, arg_ok a -> uformat (str msg ++ [10]) [AStr (Some a)] false = Some (err a)) ->
  Forall arg_ok args ->
  exists o s', runs (ufor args (fun arg =>
      let* fd := ucall (Open arg 0) in
      if fd <? 0 then do* uprintn 1 msg [AStr (Some arg)] in uexit else
      do* run fd arg in
      do* ucall (Close fd) in
      uret tt)) s o s' /\ wrote 1 (files_text out err args s) s s'.
Proof.
  intros Hrun Herr Hargs. revert s. induction Hargs as [|a args Ha _ IH]; intros s.
  { exists (Some tt), s. split; [apply runs_ret|apply wrote_refl]. }
  destruct (open_law a s) as (fd & s1 & Eo & Hfd & Ho & Hc).
  assert (wrote 1 [] s s1) as W1 by by apply wrote_nil.
  cbn [files_text ufor]. destruct (contents a s) as [bs|].
  - destruct Hfd as [Hfd Hin]. destruct (Hrun fd a s1 Ha) as (s2 & R2 & W2). rewrite Hin in W2.
    destruct (close_law fd s2) as (s3 & r & Ec & Ho3 & Hc3).
    assert (wrote 1 [] s2 s3) as W3 by by apply wrote_nil.
    destruct (IH s3) as (o & s4 & R4 & W4).
    assert (wrote 1 (out a bs) s s3) as W.
    { rewrite <-(app_nil_l (out a bs)), <-(app_nil_r (out a bs)), (assoc_L (++)).
      by eapply wrote_trans, W3; eapply wrote_trans. }
    rewrite (files_text_wrote _ _ _ _ _ _ _ W) in W4.
    exists o, s4. split; [|by eapply wrote_trans].
    eapply runs_bind; [|exact R4].
    eapply runs_bind; [by apply runs_ucall|]. rewrite (proj2 (Z.ltb_ge fd 0)) by done.
    eapply runs_bind; [exact R2|]. eapply runs_bind; [by apply runs_ucall|apply runs_ret].
  - destruct (printf_writes 1 ltac:(by left) (str msg ++ [10]) [AStr (Some a)] (err a) (Herr a Ha) s1)
      as (s2 & R2 & W2 & _).
    exists None, s2. split; [|by eapply (wrote_trans _ [])].
    apply runs_bind_exit. eapply runs_bind; [by apply runs_ucall|].
    rewrite (proj2 (Z.ltb_lt fd 0)) by done. eapply runs_bind; [exact R2|apply runs_exit].
Qed.

(** "prog: cannot open arg" *)
Definition cannot_open (prog : string) (arg : list Z) : list Z :=
  str prog ++ str ": cannot open " ++ arg ++ [10].

Lemma cannot_open_text prog msg arg :
  str msg = str prog ++ str ": cannot open " ++ [37; 115] -> plain (str prog) = true -> arg_ok arg ->
  uformat (str msg ++ [10]) [AStr (Some arg)] false = Some (cannot_open prog arg).
Proof.
  intros -> Hp Ha. rewrite <-!(assoc_L (++)). rewrite !uformat_plain by done.
  change ([37; 115] ++ [10]) with [37; 115; 10]. rewrite uformat_s. cbn [default].
  by rewrite arg_cstr.
Qed.

Lemma exits_after {A} (m : U A) o s s' : runs m s o s' -> runs (do* m in uexit (A := unit)) s None s'.
Proof.
  intros R. destruct o; [eapply runs_bind; [exact R|apply runs_exit]|by apply runs_bind_exit].
Qed.
End programs.

(** ** Properties *)

(** cat writes the contents of the files it is given one after the other, or of its standard
    input when it is given none, whatever pieces the bytes arrive in; at a file that cannot be
    opened it stops with a message. *)
Theorem cat_copies `{Streams} prog args s :
  Forall arg_ok args ->
  exists s', runs (cat_main (prog :: args)) s None s' /\
    wrote 1 (match args with
             | [] => input 0 s
             | _ => files_text (fun _ bs => bs) (cannot_open "cat") args s
             end) s s'.
Proof.
  intros Hargs. destruct args as [|a args].
  - destruct (cat_eq 0 s) as (s' & R & W). exists s'. split; [|exact W]. by eapply exits_after.
  - destruct (files_loop (fun fd _ => cat fd) (fun _ bs => bs) "cat: cannot open %s" (cannot_open "cat")
      (a :: args) s) as (o & s' & R & W); [|  |exact Hargs|].
    + intros fd b t _. apply cat_eq.
    + intros b Hb. apply (cannot_open_text "cat"); [reflexivity|done|done].
    + exists s'. split; [|exact W].
      unfold cat_main. rewrite (proj2 (Z.leb_gt _ 1)) by (simpl; lia). by eapply exits_after.
Qed.

Import Demo.

Lemma cat_copies_witness :
  exists s', runs (cat_main [str "cat"; str "a"; str "b"; str "c"])
      (start [] {[str "a" := [[104]; [105; 10]]; str "c" := []]}) None s' /\
    output 1 s' = [104; 105; 10] ++ str "cat: cannot open b" ++ [10].
Proof.
  destruct (cat_copies (str "cat") [str "a"; str "b"; str "c"]
    (start [] {[str "a" := [[104]; [105; 10]]; str "c" := []]})) as (s' & R & W & _).
  - repeat constructor; by vm_compute.
  - exists s'. split; [exact R|]. rewrite W. reflexivity.
Defined.

(** *** echo *)

Fixpoint echo_text (args : list (list Z)) : list Z :=
  match args with
  | [] => []
  | [arg] => arg ++ [10]
  | arg :: args' => arg ++ [32] ++ echo_text args'
  end.

(** echo writes its arguments with one space between them and a newline at the end. *)
Theorem echo_joins `{Streams} prog args s :
  Forall arg_ok args ->
  exists s', runs (echo_main (prog :: args)) s None s' /\ wrote 1 (echo_text args) s s'.
Proof.
  intros Hargs.
  assert (writes 1 (echo_loop args) tt (echo_text args)) as HW.
  { induction Hargs as [|a args Ha _ IH]; [apply writes_ret|].
    assert (forall b, arg_ok b -> writes 1 (uprint 1 "%s%s" [AStr (Some a); AStr (Some b)]) tt (a ++ b)) as Hp.
    { intros b Hb. apply printf_writes; [by left|].
      change (str "%s%s") with [37; 115; 37; 115]. rewrite !uformat_s. cbn [default].
      rewrite !arg_cstr by done. cbn. by rewrite app_nil_r. }
    destruct args as [|a' args].
    - cbn [echo_text]. rewrite <-(app_nil_r (a ++ [10])). eapply writes_bind; [|apply writes_ret].
      apply Hp. by repeat constructor.
    - change (echo_text (a :: a' :: args)) with (a ++ [32] ++ echo_text (a' :: args)).
      rewrite (assoc_L (++)). eapply writes_bind; [|exact IH]. apply Hp. by repeat constructor. }
  destruct (HW s) as (s' & R & W & _). exists s'. split; [|exact W]. by eapply exits_after.
Qed.

Lemma echo_joins_witness :
  exists s', runs (echo_main [str "echo"; str "hello"; str "world"]) (start [] ∅) None s' /\
    output 1 s' = str "hello world" ++ [10].
Proof.
  destruct (echo_joins (str "echo") [str "hello"; str "world"] (start [] ∅)) as (s' & R & W & _).
  - repeat constructor; by vm_compute.
  - exists s'. split; [exact R|]. rewrite W. reflexivity.
Defined.

(** *** wc *)

Definition is_space (b : Z) : bool := bool_decide (b ∈ [32; 13; 9; 10; 11]).
Definition lines (l : list Z) : Z := Z.of_nat (length (filter (fun b => b = 10) l)).
(** A word starts at a byte that is not a space and follows a space, or begins the text. *)
Fixpoint words_after (prev : Z) (l : list Z) : Z :=
  match l with
  | [] => 0
  | b :: l' => (if is_space prev && negb (is_space b) then 1 else 0) + words_after b l'
  end.
Definition words (l : list Z) : Z := words_after 32 l.

Lemma wc_space b : match strchr [32; 13; 9; 10; 11] b with Some _ => true | None => false end = is_space b.
Proof.
  unfold is_space. case_bool_decide as Hb.
  - repeat (apply elem_of_cons in Hb as [->|Hb]; [done|]). by apply not_elem_of_nil in Hb.
  - cbn [strchr]. rewrite (proj2 (Z.eqb_neq 32 b)), (proj2 (Z.eqb_neq 13 b)), (proj2 (Z.eqb_neq 9 b)),
      (proj2 (Z.eqb_neq 10 b)), (proj2 (Z.eqb_neq 11 b)) by (intros <-; apply Hb; set_solver). done.
Qed.

Lemma wc_fold l prev a w c :
  0 <= a <= c -> 0 <= w <= c -> c + Z.of_nat (length l) <= INT_MAX ->
  exists b, foldl wc_byte (mkWc a w c (negb (is_space prev))) l
  = mkWc (a + lines l) (w + words_after prev l) (c + Z.of_nat (length l)) b.
Proof.
  unfold INT_MAX. revert prev a w c. induction l as [|x l IH]; intros prev a w c Ha Hw Hc.
  { exists (negb (is_space prev)). change (lines []) with 0. cbn [foldl words_after length]. f_equal; lia. }
  cbn [length] in Hc. cbn [foldl].
  assert (wc_byte (mkWc a w c (negb (is_space prev))) x
    = mkWc (a + lines [x]) (w + (if is_space prev && negb (is_space x) then 1 else 0)) (c + 1)
        (negb (is_space x))) as ->.
  { unfold wc_byte. cbn [wc_l wc_w wc_c wc_inword]. rewrite !s32_small by lia.
    pose proof (wc_space x) as Hs.
    assert ((if x =? 10 then a + 1 else a) = a + lines [x]) as ->.
    { unfold lines. rewrite filter_cons. destruct (Z.eqb_spec x 10) as [->|].
      - rewrite decide_True by done. done.
      - rewrite decide_False by done. cbn. lia. }
    destruct (strchr _ x); rewrite <-Hs; [by rewrite andb_false_r, Z.add_0_r|].
    destruct (is_space prev); cbn [negb andb]; [done|]. by rewrite Z.add_0_r. }
  assert (lines (x :: l) = lines [x] + lines l) as Hlines.
  { unfold lines. rewrite !filter_cons. destruct (decide (x = 10)); cbn; lia. }
  assert (0 <= lines [x] <= 1) by (unfold lines; rewrite filter_cons; case_decide; cbn; lia).
  destruct (IH x (a + lines [x]) (w + (if is_space prev && negb (is_space x) then 1 else 0)) (c + 1))
    as [b ->]; [lia|case_match; lia|lia|].
  exists b. cbn [words_after length]. rewrite Hlines. f_equal; lia.
Qed.

Definition wc_text (name bs : list Z) : list Z :=
  dec (lines bs) ++ [32] ++ dec (words bs) ++ [32] ++ dec (Z.of_nat (length bs)) ++ [32] ++ name ++ [10].

Lemma wc_eq `{Streams} fd name s :
  arg_ok name -> Z.of_nat (length (input fd s)) <= INT_MAX ->
  exists s', runs (wc fd name) s (Some tt) s' /\ wrote 1 (wc_text name (input fd s)) s s'.
Proof.
  intros Hname Hlen.
  destruct (drain (fun st : wcstate =>
    let* r := ucall (Read fd 512) in
    let '(n, buf) := r in
    if n >? 0 then uret (inl (foldl wc_byte st (take (Z.to_nat n) buf))) else uret (inr (n, st)))
    fd 512 (fun st seen t => st = foldl wc_byte (mkWc 0 0 0 false) seen /\ wrote 1 [] s t)
    (fun r seen t => r = (0, foldl wc_byte (mkWc 0 0 0 false) seen) /\ wrote 1 [] s t))
    with (st := mkWc 0 0 0 false) (seen := @nil Z) (s := s) as (r & s1 & R & -> & W).
  - lia.
  - intros st seen t bs t1 [-> HI] Hbs E Hw Hl Hin. eexists _, t1. split_and!; [| | |done].
    + eapply runs_bind; [by apply runs_ucall|]. cbn beta iota. rewrite length_positive by done.
      rewrite Nat2Z.id, take_ge by lia. apply runs_ret.
    + by rewrite foldl_app.
    + by eapply (wrote_trans _ [] []).
  - intros st seen t t1 [-> HI] E Hw. eexists _, t1. split_and!; [|done|].
    + eapply runs_bind; [by apply runs_ucall|]. apply runs_ret.
    + by eapply (wrote_trans _ [] []).
  - split; [done|apply wrote_refl].
  - rewrite app_nil_l in *.
    destruct (wc_fold (input fd s) 32 0 0 0) as [b Hb]; [lia|lia|lia|].
    change (negb (is_space 32)) with false in Hb.
    destruct (printf_writes 1 ltac:(by left) (str "%d %d %d %s" ++ [10])
      [AInt (lines (input fd s)); AInt (words (input fd s)); AInt (Z.of_nat (length (input fd s)));
       AStr (Some name)] (wc_text name (input fd s))) with (s := s1) as (s2 & R2 & W2 & _).
    + change (str "%d %d %d %s" ++ [10]) with (37 :: 100 :: [32] ++ 37 :: 100 :: [32] ++ 37 :: 100 :: [32] ++ 37 :: 115 :: [10]).
      rewrite uformat_d, uformat_plain, uformat_d, uformat_plain, uformat_d, uformat_plain, uformat_s by done.
      cbn [default]. rewrite arg_cstr by done. done.
    + exists s2. split; [|by eapply (wrote_trans _ [])]. eapply runs_bind; [exact R|].
      cbn beta iota. rewrite Hb. exact R2.
Qed.

(** wc writes the number of lines, words and bytes of its standard input, however the input
    is cut into pieces. *)
Theorem wc_counts `{Streams} prog s :
  Z.of_nat (length (input 0 s)) <= INT_MAX ->
  exists s', runs (wc_main [prog]) s None s' /\ wrote 1 (wc_text [] (input 0 s)) s s'.
Proof.
  intros Hlen. destruct (wc_eq 0 [] s) as (s' & R & W); [by constructor|done|].
  exists s'. split; [|exact W]. by eapply exits_after.
Qed.

Lemma wc_counts_witness :
  exists s', runs (wc_main [str "wc"]) (start [str "two wo"; str "rds" ++ [10]] ∅) None s' /\
    output 1 s' = str "1 2 10 " ++ [10].
Proof.
  destruct (wc_counts (str "wc") (start [str "two wo"; str "rds" ++ [10]] ∅)) as (s' & R & W & _).
  - by vm_compute.
  - exists s'. split; [exact R|]. rewrite W. reflexivity.
Defined.
