(* ===== verification/Grep.v ===== *)
(** * grep (grep.c)

    The pattern matcher of Kernighan and Pike against the language its pattern denotes, and the
    loop that cuts the input into lines. *)

From Stdlib Require Import ZArith Lia.
From stdpp Require Import base list gmap strings numbers.
From ITree Require Import ITree.
From S2P Require Import Prelude Machine Cstring Cprintf Layout User Ulib Uprogs.
Local Open Scope Z_scope.
Local Open Scope user_scope.

(** ** The matcher *)

(** [*text], with the NUL past the end. *)
Definition ch (text : list Z) : Z := default 0 (head text).

(** matchstar, [here] being [matchhere(re, .)] *)
Fixpoint matchstar (here : list Z -> bool) (c : Z) (text : list Z) : bool :=
  if here text then true else
  match text with
  | [] => false
  | t :: text' => if negb (t =? 0) && ((t =? c) || (c =? 46)) then matchstar here c text' else false
  end.

Fixpoint matchhere (re text : list Z) {struct re} : bool :=
  match re with
  | [] => true
  | r :: re1 =>
    if r =? 0 then true else
    match re1 with
    | 42 :: re2 => matchstar (matchhere re2) r text
    | _ =>
      if (r =? 36) && (ch re1 =? 0) then ch text =? 0 else
      if negb (ch text =? 0) && ((r =? 46) || (r =? ch text)) then matchhere re1 (tail text)
      else false
    end
  end.

(** The do loop of match. *)
Fixpoint match_loop (re text : list Z) : bool :=
  if matchhere re text then true else
  match text with
  | [] => false
  | t :: text' => if t =? 0 then false else match_loop re text'
  end.

Definition rematch (re text : list Z) : bool :=
  match re with
  | 94 :: re' => matchhere re' text
  | _ => match_loop re text
  end.

(** ** grep *)

Definition GREPBUF : Z := 1024.

(** The inner loop from [p] on, [l] being the bytes from there to the end of the data; the
    bytes after the last newline. *)
Definition grep_lines (pattern : list Z) : list Z -> U (list Z) :=
  uloop (fun l =>
    match strchr l 10 with
    | None => uret (inr l)
    | Some q =>
      do* (if rematch pattern (take q l) then
             do* ucall (Write 1 (take (S q) l)) in uret tt
           else uret tt) in
      uret (inl (drop (S q) l))
    end).

(** The loop of grep: the state is [buf[0..m)]. *)
Definition grep (pattern : list Z) (fd : Z) : U unit :=
  uloop (fun buf =>
    let* r := ucall (Read fd (GREPBUF - Z.of_nat (length buf) - 1)) in
    let '(n, bs) := r in
    if n >? 0 then
      let buf := buf ++ take (Z.to_nat n) bs in
      let* p := grep_lines pattern buf in
      uret (inl (if bool_decide (length p = length buf) then [] else p))
    else uret (inr tt)) [].

Definition grep_main (argv : list (list Z)) : U unit :=
  match argv with
  | _ :: pattern :: files =>
    match files with
    | [] => do* grep pattern 0 in uexit
    | _ =>
      do* ufor files (fun arg =>
        let* fd := ucall (Open arg 0) in
        if fd <? 0 then do* uprintn 1 "grep: cannot open %s" [AStr (Some arg)] in uexit else
        do* grep pattern fd in
        do* ucall (Close fd) in
        uret tt) in
      uexit
    end
  | _ => do* uprintn 2 "usage: grep pattern [file ...]" [] in uexit
  end.

(** ** The language of a pattern *)

Inductive atom : Type := Lit (c : Z) | AnyChar.
Inductive item : Type := One (a : atom) | Many (a : atom).

(** A pattern: the items, and whether the match ends at the end of the text. *)
Definition to_atom (r : Z) : atom := if r =? 46 then AnyChar else Lit r.
Fixpoint to_items (re : list Z) : list item * bool :=
  match re with
  | [] => ([], false)
  | r :: re1 =>
    match re1 with
    | 42 :: re2 => let '(its, d) := to_items re2 in (Many (to_atom r) :: its, d)
    | _ => if (r =? 36) && bool_decide (re1 = []) then ([], true)
           else let '(its, d) := to_items re1 in (One (to_atom r) :: its, d)
    end
  end.

Definition atom_lang (a : atom) (c : Z) : Prop := match a with Lit x => x = c | AnyChar => True end.
Definition item_lang (i : item) (s : list Z) : Prop :=
  match i with
  | One a => exists c, s = [c] /\ atom_lang a c
  | Many a => Forall (atom_lang a) s
  end.
(** A string the items denote one after the other. *)
Inductive items_lang : list item -> list Z -> Prop :=
| lang_nil : items_lang [] []
| lang_cons i its s1 s2 : item_lang i s1 -> items_lang its s2 -> items_lang (i :: its) (s1 ++ s2).

(** The text starts with a string of the pattern. *)
Definition starts (p : list item * bool) (text : list Z) : Prop :=
  exists s rest, text = s ++ rest /\ items_lang (fst p) s /\ (snd p = true -> rest = []).

Definition no_nul (l : list Z) : Prop := Forall (fun c => c <> 0) l.

Lemma no_nul_ch l : no_nul l -> ch l = 0 -> l = [].
Proof. intros Hl. destruct Hl; cbn; [done|congruence]. Qed.

Lemma to_atom_match r c : atom_lang (to_atom r) c <-> (r =? 46) || (r =? c) = true.
Proof.
  unfold to_atom. destruct (r =? 46); [done|]. cbn. by rewrite Z.eqb_eq.
Qed.

Lemma matchstar_spec here c text :
  no_nul text ->
  matchstar here c text = true <->
  exists s rest, text = s ++ rest /\ Forall (atom_lang (to_atom c)) s /\ here rest = true.
Proof.
  intros Htext. induction Htext as [|t text Ht Htext IH]; cbn [matchstar].
  - destruct (here []) eqn:E; split; try done.
    + intros _. by exists [], [].
    + intros (s & rest & Hs & _ & Hr). symmetry in Hs. apply app_eq_nil in Hs as [-> ->]. congruence.
  - destruct (here (t :: text)) eqn:E.
    { split; [|done]. intros _. by exists [], (t :: text). }
    rewrite (proj2 (Z.eqb_neq t 0)) by done. cbn [negb andb].
    assert ((t =? c) || (c =? 46) = (c =? 46) || (c =? t)) as -> by (rewrite orb_comm; f_equal; apply Z.eqb_sym).
    destruct ((c =? 46) || (c =? t)) eqn:Ec.
    + rewrite IH. split.
      * intros (s & rest & -> & Hs & Hr). exists (t :: s), rest. split_and!; [done| |done].
        constructor; [by apply to_atom_match|done].
      * intros (s & rest & Hs & Hl & Hr). destruct s as [|t' s]; cbn in Hs; [subst; congruence|].
        simplify_eq. inversion_clear Hl. by exists s, rest.
    + split; [done|]. intros (s & rest & Hs & Hl & Hr).
      destruct s as [|t' s]; cbn in Hs; [subst; congruence|]. simplify_eq.
      inversion_clear Hl as [|? ? Ha]. apply to_atom_match in Ha. congruence.
Qed.

Lemma starts_many a its d text :
  starts (Many a :: its, d) text <->
  exists s rest, text = s ++ rest /\ Forall (atom_lang a) s /\ starts (its, d) rest.
Proof.
  split.
  - intros (s & rest & -> & Hl & Hd). inversion Hl as [|? ? s1 s2 H1 H2]; subst.
    exists s1, (s2 ++ rest). split_and!; [by rewrite (assoc_L (++))|done|]. by exists s2, rest.
  - intros (s1 & rest & -> & Hs & (s2 & rest' & -> & Hl & Hd)).
    exists (s1 ++ s2), rest'. split_and!; [by rewrite (assoc_L (++))| |done]. by apply lang_cons.
Qed.

Lemma starts_one a its d text :
  starts (One a :: its, d) text <->
  exists c rest, text = c :: rest /\ atom_lang a c /\ starts (its, d) rest.
Proof.
  split.
  - intros (s & rest & -> & Hl & Hd). cbn in Hl. inversion Hl as [|? ? s1 s2 Hc1 H2]; subst. destruct Hc1 as (c & -> & Hc).
    exists c, (s2 ++ rest). split_and!; [done|done|]. by exists s2, rest.
  - intros (c & rest & -> & Hc & (s2 & rest' & -> & Hl & Hd)).
    exists ([c] ++ s2), rest'. split_and!; [done| |done]. apply lang_cons; [by exists c|done].
Qed.

Lemma matchhere_spec re text :
  no_nul re -> no_nul text -> matchhere re text = true <-> starts (to_items re) text.
Proof.
  remember (length re) as n eqn:Hn. revert re Hn text. induction (lt_wf n) as [n _ IH].
  intros re -> text Hre Htext. destruct re as [|r re1].
  { split; [|done]. intros _. exists [], text. split_and!; [done|constructor|done]. }
  inversion_clear Hre as [|? ? Hr Hre1].
  assert (forall re, (length re < length (r :: re1))%nat -> no_nul re -> forall text, no_nul text ->
    matchhere re text = true <-> starts (to_items re) text) as IH' by (intros; by eapply IH).
  destruct (decide (ch re1 = 42)) as [Hstar|Hstar].
  - destruct re1 as [|x re2]; [done|]. cbn in Hstar. subst x. inversion_clear Hre1 as [|? ? _ Hre2].
    cbn [matchhere to_items]. rewrite (proj2 (Z.eqb_neq r 0)) by done.
    destruct (to_items re2) as [its d] eqn:E. rewrite starts_many, matchstar_spec by done.
    apply exist_proper; intros s. apply exist_proper; intros rest.
    split; intros (-> & H1 & H2); (split_and!; [done|done|]); apply Forall_app in Htext as [_ Hrest];
      specialize (IH' re2 ltac:(cbn; lia) Hre2 rest Hrest); rewrite E in IH'; tauto.
  - assert (matchhere (r :: re1) text
      = if (r =? 36) && (ch re1 =? 0) then ch text =? 0 else
        if negb (ch text =? 0) && ((r =? 46) || (r =? ch text)) then matchhere re1 (tail text) else false) as ->.
    { cbn [matchhere]. rewrite (proj2 (Z.eqb_neq r 0)) by done. destruct re1 as [|x re2]; [done|].
      cbn in Hstar. by repeat case_match; subst. }
    assert (to_items (r :: re1) = if (r =? 36) && bool_decide (re1 = []) then ([], true)
      else let '(its, d) := to_items re1 in (One (to_atom r) :: its, d)) as ->.
    { cbn [to_items]. destruct re1 as [|x re2]; [done|]. cbn in Hstar. by repeat case_match; subst. }
    assert ((ch re1 =? 0) = bool_decide (re1 = [])) as ->.
    { case_bool_decide as H1; [by subst|]. apply Z.eqb_neq. intros H0. by apply H1, no_nul_ch. }
    destruct ((r =? 36) && bool_decide (re1 = [])).
    + rewrite Z.eqb_eq. split.
      * intros ->%no_nul_ch; [|done]. exists [], []. split_and!; [done|constructor|done].
      * intros (s & rest & -> & Hl & Hd). inversion Hl. by rewrite Hd.
    + destruct (to_items re1) as [its d] eqn:E. rewrite starts_one. destruct text as [|t text].
      { cbn. split; [done|]. by intros (? & ? & ? & _). }
      inversion_clear Htext as [|? ? Ht Htext']. change (ch (t :: text)) with t. cbn [tail].
      rewrite (proj2 (Z.eqb_neq t 0)) by done. cbn [negb andb].
      specialize (IH' re1 ltac:(cbn; lia) Hre1 text Htext'). rewrite E in IH'.
      destruct ((r =? 46) || (r =? t)) eqn:Er.
      * rewrite IH'. split; [intros Hs; exists t, text; split_and!; [done|by apply to_atom_match|done]|].
        intros (c & rest & [= <- <-] & _ & Hs). done.
      * split; [done|]. intros (c & rest & [= <- <-] & Hc & _). apply to_atom_match in Hc. congruence.
Qed.

Lemma match_loop_spec re text :
  no_nul re -> no_nul text ->
  match_loop re text = true <-> exists before after, text = before ++ after /\ starts (to_items re) after.
Proof.
  intros Hre Htext. induction Htext as [|t text Ht Htext IH]; cbn [match_loop].
  - destruct (matchhere re []) eqn:E.
    + apply matchhere_spec in E; [|done|constructor]. split; [|done]. intros _. by exists [], [].
    + split; [done|]. intros (b & a & Hb & Hs). symmetry in Hb. apply app_eq_nil in Hb as [-> ->].
      apply matchhere_spec in Hs; [congruence|done|constructor].
  - destruct (matchhere re (t :: text)) eqn:E.
    + apply matchhere_spec in E; [|done|by constructor]. split; [|done]. intros _. by exists [], (t :: text).
    + rewrite (proj2 (Z.eqb_neq t 0)), IH by done. split.
      * intros (b & a & -> & Hs). by exists (t :: b), a.
      * intros (b & a & Hb & Hs). destruct b as [|t' b]; cbn in Hb.
        { subst a. apply matchhere_spec in Hs; [congruence|done|by constructor]. }
        simplify_eq. by exists b, a.
Qed.

(** ** Lines *)

(** The complete lines of a text, without their newlines, and what follows the last one. *)
Fixpoint split_lines (l : list Z) : list (list Z) * list Z :=
  match l with
  | [] => ([], [])
  | c :: l' =>
    let '(ls, r) := split_lines l' in
    if c =? 10 then ([] :: ls, r)
    else match ls with [] => ([], c :: r) | x :: ls' => ((c :: x) :: ls', r) end
  end.

(** The lines that match, with their newlines. *)
Definition grep_text (re text : list Z) : list Z :=
  concat ((fun l => l ++ [10]) <$> filter (fun l => rematch re l = true) (fst (split_lines text))).

Definition no_nl (l : list Z) : Prop := Forall (fun c => c <> 10) l.

Lemma split_no_nl l : no_nl l -> split_lines l = ([], l).
Proof.
  induction 1 as [|c l Hc _ IH]; [done|]. cbn [split_lines]. rewrite IH.
  by rewrite (proj2 (Z.eqb_neq c 10)).
Qed.

Lemma split_line l t :
  no_nl l -> split_lines (l ++ 10 :: t) = (l :: fst (split_lines t), snd (split_lines t)).
Proof.
  induction 1 as [|c l Hc _ IH]; cbn [app split_lines].
  - by destruct (split_lines t).
  - rewrite IH. by rewrite (proj2 (Z.eqb_neq c 10)).
Qed.

Lemma split_app b t :
  split_lines (b ++ t)
  = (fst (split_lines b) ++ fst (split_lines (snd (split_lines b) ++ t)),
     snd (split_lines (snd (split_lines b) ++ t))).
Proof.
  induction b as [|c b IH]; cbn [app split_lines fst snd]; [by destruct (split_lines t)|].
  rewrite IH. destruct (split_lines b) as [ls r]. cbn [fst snd].
  destruct (c =? 10) eqn:Ec; [done|]. destruct ls as [|x ls]; [|done].
  cbn [fst snd app split_lines]. rewrite Ec. destruct (split_lines (r ++ t)) as [[|x ls] r']; done.
Qed.

Lemma split_rest_no_nl l : no_nl (snd (split_lines l)).
Proof.
  induction l as [|c l IH]; cbn [split_lines]; [constructor|].
  destruct (split_lines l) as [[|x ls] r]; destruct (Z.eqb_spec c 10); try done; cbn in *. by constructor.
Qed.

Lemma split_rest_length l :
  (length (snd (split_lines l)) <= length l)%nat /\
  (length (snd (split_lines l)) = length l <-> fst (split_lines l) = []).
Proof.
  induction l as [|c l [IH1 IH2]]; cbn [split_lines]; [done|].
  destruct (split_lines l) as [[|x ls] r]; destruct (c =? 10); cbn in *; split; try lia; split; try done; try lia.
  - intros _. f_equal. by apply IH2.
Qed.

Lemma split_none l : fst (split_lines l) = [] -> snd (split_lines l) = l /\ no_nl l.
Proof.
  induction l as [|c l IH]; cbn [split_lines]; [by repeat constructor|].
  destruct (split_lines l) as [[|x ls] r]; destruct (Z.eqb_spec c 10); cbn in *; try done.
  intros _. destruct (IH eq_refl) as [-> H]. split; [done|by constructor].
Qed.

Lemma grep_text_app re b t :
  grep_text re (b ++ t) = grep_text re b ++ grep_text re (snd (split_lines b) ++ t).
Proof.
  unfold grep_text. rewrite split_app. cbn [fst]. rewrite list.filter_app, fmap_app. apply concat_app.
Qed.

Lemma strchr_line l : no_nul l ->
  match strchr l 10 with
  | None => no_nl l
  | Some q => exists a b, l = a ++ 10 :: b /\ length a = q /\ no_nl a
  end.
Proof.
  induction 1 as [|c l Hc _ IH]; cbn [strchr]; [constructor|].
  rewrite (proj2 (Z.eqb_neq c 0)) by done. destruct (Z.eqb_spec c 10) as [->|Hn].
  - exists [], l. by repeat constructor.
  - destruct (strchr l 10) as [q|]; cbn.
    + destruct IH as (a & b & -> & <- & Ha). exists (c :: a), b. split_and!; [done|done|by constructor].
    + by constructor.
Qed.

(** ** Files that are read in full *)

(** [whole fd]: reading [fd] returns as many bytes as are asked for and left, as it does for a
    file of the file system. *)
Class FullReads `{Streams} := {
  whole : Z -> sys_state -> Prop;
  whole_read fd n s : 0 < n -> whole fd s ->
    snd (snd (sys (Read fd n) s)) = take (Z.to_nat n) (input fd s) /\
    whole fd (fst (sys (Read fd n) s));
  whole_write fd g bs s : whole fd s -> whole fd (fst (sys (Write g bs) s))
}.

Section grep.
Context {SY : Sys} {ST : Streams} {FR : FullReads} (pattern : list Z) (fd : Z).

Lemma grep_lines_eq l s :
  no_nul l -> whole fd s ->
  exists s', runs (grep_lines pattern l) s (Some (snd (split_lines l))) s' /\
    wrote 1 (grep_text pattern l) s s' /\ same_input s s' /\ whole fd s'.
Proof.
  remember (length l) as n eqn:Hn. revert l Hn s. induction (lt_wf n) as [n _ IH].
  intros l -> s Hl Hw. pose proof (strchr_line l Hl) as Hs. unfold grep_lines.
  destruct (strchr l 10) as [q|] eqn:E.
  - destruct Hs as (a & b & -> & <- & Ha).
    apply Forall_app in Hl as [Hla Hlb]. inversion_clear Hlb as [|? ? _ Hlb'].
    assert (exists s1, runs (if rematch pattern a then do* ucall (Write 1 (a ++ [10])) in uret tt else uret tt)
      s (Some tt) s1 /\ wrote 1 (if rematch pattern a then a ++ [10] else []) s s1 /\
      same_input s s1 /\ whole fd s1) as (s1 & R1 & W1 & I1 & F1).
    { destruct (rematch pattern a); [|exists s; split; [apply runs_ret|]; by split; [apply wrote_refl|]].
      destruct (write_law 1 (a ++ [10]) s ltac:(by left)) as (s1 & E1 & H1 & H2 & H3 & H4).
      exists s1. split; [eapply runs_bind; [by apply runs_ucall|apply runs_ret]|].
      split; [done|]. split; [done|]. pose proof (whole_write fd 1 (a ++ [10]) s Hw) as Hf. by rewrite E1 in Hf. }
    destruct (IH (length b)) with (l := b) (s := s1) as (s2 & R2 & W2 & I2 & F2);
      [rewrite length_app; cbn; lia|done|done|done|].
    exists s2. rewrite split_line by done. cbn [snd]. split_and!.
    + eapply runs_loop.
      { rewrite E, take_app_length. rewrite take_app_ge by lia.
        replace (S (length a) - length a)%nat with 1%nat by lia. cbn [take].
        eapply runs_bind; [exact R1|apply runs_ret]. }
      cbn beta iota. rewrite drop_app_ge by lia.
      replace (S (length a) - length a)%nat with 1%nat by lia. exact R2.
    + assert (grep_text pattern (a ++ 10 :: b)
        = (if rematch pattern a then a ++ [10] else []) ++ grep_text pattern b) as ->; [|by eapply wrote_trans].
      unfold grep_text. rewrite split_line by done. cbn [fst]. rewrite filter_cons.
      destruct (rematch pattern a); [rewrite decide_True by done|rewrite decide_False by done]; done.
    + intros g. by rewrite I2, I1.
    + done.
  - exists s. rewrite split_no_nl by done. cbn [snd]. split_and!; [| |done|done].
    + eapply runs_loop; [rewrite E; apply runs_ret|done].
    + unfold grep_text. rewrite split_no_nl by done. apply wrote_refl.
Qed.

(** Every complete line fits the buffer with its newline. *)
Definition short_lines (l : list Z) : Prop :=
  Forall (fun x => Z.of_nat (length x) < GREPBUF - 1) (fst (split_lines l)).

(** After a full buffer without newline no complete line follows. *)
Lemma long_line b t :
  no_nl b -> GREPBUF - 1 <= Z.of_nat (length b) -> short_lines (b ++ t) -> no_nl t.
Proof.
  intros Hb Hlen Hs. destruct (fst (split_lines t)) as [|x ls] eqn:E.
  { by apply split_none. }
  exfalso. assert (exists x' ls', fst (split_lines (b ++ t)) = x' :: ls' /\ (length b <= length x')%nat)
    as (x' & ls' & E' & Hx').
  { clear Hs Hlen. induction Hb as [|c b Hc _ IH]; [exists x, ls; split; [done|cbn; lia]|].
    destruct IH as (x' & ls' & E' & Hx'). cbn [app split_lines].
    destruct (split_lines (b ++ t)) as [ls0 r0]. cbn in E'. subst ls0.
    rewrite (proj2 (Z.eqb_neq c 10)) by done. eexists _, ls'. split; [done|]. cbn. lia. }
  unfold short_lines in Hs. rewrite E' in Hs. inversion_clear Hs. lia.
Qed.

Lemma grep_loop_eq buf s :
  no_nl buf -> Z.of_nat (length buf) < GREPBUF - 1 -> no_nul (buf ++ input fd s) -> whole fd s ->
  short_lines (buf ++ input fd s) ->
  exists s', runs (uloop (fun buf =>
    let* r := ucall (Read fd (GREPBUF - Z.of_nat (length buf) - 1)) in
    let '(n, bs) := r in
    if n >? 0 then
      let buf := buf ++ take (Z.to_nat n) bs in
      let* p := grep_lines pattern buf in
      uret (inl (if bool_decide (length p = length buf) then [] else p))
    else uret (inr tt)) buf) s (Some tt) s' /\ wrote 1 (grep_text pattern (buf ++ input fd s)) s s'.
Proof.
  remember (length (input fd s)) as k eqn:Hk. revert buf s Hk. induction (lt_wf k) as [k _ IH].
  intros buf s -> Hbuf Hlen Hnul Hwhole Hshort.
  set (n := GREPBUF - Z.of_nat (length buf) - 1) in *. assert (0 < n) as Hn by lia.
  destruct (read_law fd n s Hn) as (bs & s1 & E & H1 & H2 & H3 & _ & H4 & H5).
  destruct (whole_read fd n s Hn Hwhole) as [Hfull Hw1]. rewrite E in Hfull, Hw1. cbn in Hfull, Hw1.
  assert (wrote 1 [] s s1) as W1 by by apply wrote_nil.
  destruct (decide (bs = [])) as [->|Hbs].
  { exists s1. rewrite H3, app_nil_r by done. split.
    - eapply runs_loop; [eapply runs_bind; [by apply runs_ucall|apply runs_ret]|done].
    - unfold grep_text. by rewrite split_no_nl. }
  set (b := buf ++ bs). rewrite H2, (assoc_L (++)) in Hnul, Hshort |- *. fold b in Hnul, Hshort |- *.
  apply Forall_app in Hnul as Hnul'. destruct Hnul' as [Hnb Hnt].
  destruct (grep_lines_eq b s1 Hnb Hw1) as (s2 & R2 & W2 & I2 & F2).
  set (new := if bool_decide (length (snd (split_lines b)) = length b) then [] else snd (split_lines b)).
  assert (no_nl new) as Hnew by (unfold new; case_bool_decide; [constructor|apply split_rest_no_nl]).
  assert (grep_text pattern (b ++ input fd s1) = grep_text pattern b ++ grep_text pattern (new ++ input fd s1) /\
    Z.of_nat (length new) < GREPBUF - 1 /\ no_nul (new ++ input fd s1) /\ short_lines (new ++ input fd s1))
    as (Et & Hl2 & Hn2 & Hs2).
  { rewrite grep_text_app. unfold new. pose proof (split_rest_length b) as [Hr1 Hr2].
    case_bool_decide as Hcase.
    - apply Hr2 in Hcase. destruct (split_none b Hcase) as [-> Hb]. cbn [app length].
      assert (no_nl (input fd s1)) as Ht.
      { destruct (decide (input fd s1 = [])) as [->|Hne]; [constructor|].
        eapply long_line; [exact Hb| |exact Hshort].
        assert (length bs = Z.to_nat n) as Hbl.
        { rewrite Hfull, length_take, H2, length_app. destruct (input fd s1); [done|]. cbn.
          assert (length bs = length (take (Z.to_nat n) (input fd s))) as HH by by rewrite <-Hfull.
          rewrite length_take, H2, length_app in HH. cbn in HH. lia. }
        unfold b. rewrite length_app. lia. }
      assert (forall l, no_nl l -> grep_text pattern l = [] /\ short_lines l) as Hnil.
      { intros l Hl. unfold grep_text, short_lines. rewrite split_no_nl by done. by repeat constructor. }
      split_and!; [|lia|done|by apply Hnil].
      f_equal. rewrite (proj1 (Hnil _ Ht)). apply Hnil. by apply Forall_app.
    - split_and!; [done| | |].
      + assert (length b <= Z.to_nat (GREPBUF - 1))%nat by (unfold b; rewrite length_app; lia). lia.
      + apply Forall_app. split; [|done]. clear -Hnb.
        induction Hnb as [|c l Hc _ IH]; cbn [split_lines]; [constructor|].
        destruct (split_lines l) as [[|x ls] r]; destruct (c =? 10); cbn in *; try done. by constructor.
      + unfold short_lines in Hshort |- *. rewrite split_app in Hshort. cbn [fst] in Hshort.
        by apply Forall_app in Hshort as [_ ?]. }
  destruct (IH (length (input fd s2))) with (buf := new) (s := s2) as (s3 & R3 & W3); try done.
  - rewrite I2, H2, length_app. destruct bs; [done|]. cbn. lia.
  - by rewrite I2.
  - by rewrite I2.
  - exists s3. rewrite Et. rewrite I2 in W3. split.
    + eapply runs_loop.
      { eapply runs_bind; [by apply runs_ucall|]. cbn beta iota zeta.
        rewrite length_positive by done. rewrite Nat2Z.id, take_ge by lia.
        eapply runs_bind; [exact R2|]. apply runs_ret. }
      exact R3.
    + eapply wrote_trans; [|exact W3]. by eapply (wrote_trans _ []).
Qed.
End grep.

Import Demo.

#[local] Program Instance demo_full : @FullReads demo_sys demo_streams := {|
  whole fd k := (length (default [] (k_in k !! fd)) <= 1)%nat
|}.
Next Obligation.
  intros fd n k Hn Hk. cbn in Hk |- *. destruct (default [] (k_in k !! fd)) as [|p [|p2 ps]]; cbn in Hk; [| |lia].
  - cbn. rewrite lookup_insert_eq. split; [by rewrite take_nil|done].
  - destruct p as [|c p]; cbn; rewrite lookup_insert_eq, ?app_nil_r; cbn; (split; [|lia]); [by rewrite take_nil|done].
Qed.
Next Obligation. intros fd g bs k Hk. exact Hk. Qed.

(** ** Properties *)

(** C37. The matcher is right: [match] finds the pattern exactly when some part of the text is in
    the language the pattern denotes, a part at the start of the text if the pattern starts
    with a caret, at its end if it ends with a dollar sign. *)
Theorem match_spec re text :
  no_nul re -> no_nul text ->
  rematch re text = true <->
  match re with
  | 94 :: re' => starts (to_items re') text
  | _ => exists before after, text = before ++ after /\ starts (to_items re) after
  end.
Proof.
  intros Hre Htext. destruct re as [|r re]; [by apply match_loop_spec|].
  destruct (decide (r = 94)) as [->|Hr].
  - inversion_clear Hre. by apply matchhere_spec.
  - assert (rematch (r :: re) text = match_loop (r :: re) text) as ->.
    { cbn [rematch]. by repeat case_match; subst. }
    rewrite match_loop_spec by done. by repeat case_match; subst.
Qed.

(** A pattern with a star and both anchors, and a text it matches. *)
Lemma match_spec_witness :
  rematch (str "^a.*c$") (str "abbc") = true /\ starts (to_items (str "a.*c$")) (str "abbc").
Proof.
  split; [reflexivity|]. apply (match_spec (str "^a.*c$") (str "abbc")).
  - repeat constructor; discriminate.
  - repeat constructor; discriminate.
  - reflexivity.
Defined.

(** grep writes the lines of a file that match, in order, with their newlines: the file is one
    whose reads return what is asked for, without NUL bytes, and whose lines fit the buffer.
    Text after the last newline is not searched. *)
Theorem grep_prints `{FullReads} pattern fd s :
  whole fd s -> no_nul (input fd s) -> short_lines (input fd s) ->
  exists s', runs (grep pattern fd) s (Some tt) s' /\ wrote 1 (grep_text pattern (input fd s)) s s'.
Proof.
  intros Hw Hn Hs. apply (grep_loop_eq pattern fd [] s); try done; constructor.
Qed.

Lemma grep_prints_witness :
  exists s', runs (grep (str "^a.*c$") 0) (start [str "abc" ++ [10] ++ str "xyz" ++ [10] ++ str "ac" ++ [10]] ∅)
      (Some tt) s' /\
    output 1 s' = str "abc" ++ [10] ++ str "ac" ++ [10].
Proof.
  destruct (grep_prints (str "^a.*c$") 0 (start [str "abc" ++ [10] ++ str "xyz" ++ [10] ++ str "ac" ++ [10]] ∅))
    as (s' & R & W & _).
  - exact (le_n 1).
  - repeat constructor; discriminate.
  - repeat constructor.
  - exists s'. split; [exact R|]. rewrite W. reflexivity.
Defined.

