(* ===== verification/Umalloc.v ===== *)
(** * The allocator of the user library (umalloc.c)

    Kernighan and Ritchie's allocator: the free blocks form a ring, in order of their addresses,
    that starts at the static header [base].  A header is two words, the pointer [s.ptr] and the
    size [s.size] in units of a header.  [heap_ok h fl] says that the heap holds the ring of the
    free blocks [fl]; the theorems say that malloc and free move exactly one block between the
    free addresses and the caller's. *)

From Stdlib Require Import ZArith Lia Sorted.
From ITree Require Import ITree.
From stdpp Require Import base list gmap strings numbers sorting.
From S2P Require Import Prelude Machine Cstring Vmspec User.
Local Open Scope Z_scope.
Local Open Scope user_scope.

(** The memory of the process and the variable [freep], 0 when null. *)
Record uheap : Type := mkHeap { uh_mem : memory; uh_freep : Z }.

(** [sizeof(Header)] *)
Definition HDR : Z := 8.

(** The fields of the header at [a]. *)
Definition hptr (m : memory) (a : Z) : Z := ldm m a.
Definition hsize (m : memory) (a : Z) : Z := ldm m (a + 4).
Definition set_hptr (a v : Z) (m : memory) : memory := stm a v m.
Definition set_hsize (a v : Z) (m : memory) : memory := stm (a + 4) v m.

(** [a + n] for a header pointer *)
Definition hadd (a n : Z) : Z := u32 (a + HDR * n).

Section umalloc.
(** The address of the static variable [base]. *)
Context (base : Z).

(** One turn of the loop of free. *)
Definition free_turn (m : memory) (bp p : Z) : U (Z + Z) :=
  if (bp >? p) && (bp <? hptr m p) then uret (inr p) else
  if (p >=? hptr m p) && ((bp >? p) || (bp <? hptr m p)) then uret (inr p) else
  uret (inl (hptr m p)).

(** The block at [bp] joined with the next one, or linked to it. *)
Definition join_next (bp p : Z) (m : memory) : memory :=
  if hadd bp (hsize m bp) =? hptr m p then
    let m := set_hsize bp (hsize m bp + hsize m (hptr m p)) m in
    set_hptr bp (hptr m (hptr m p)) m
  else set_hptr bp (hptr m p) m.

(** The block at [p] joined with the one at [bp], or linked to it. *)
Definition join_prev (bp p : Z) (m : memory) : memory :=
  if hadd p (hsize m p) =? bp then
    let m := set_hsize p (hsize m p + hsize m bp) m in
    set_hptr p (hptr m bp) m
  else set_hptr p bp m.

Definition free (ap : Z) (h : uheap) : U uheap :=
  let bp := u32 (ap - HDR) in
  let* p := uloop (free_turn (uh_mem h) bp) (uh_freep h) in
  uret (mkHeap (join_prev bp p (join_next bp p (uh_mem h))) p).

(** [None] is the null pointer. *)
Definition morecore (nu : Z) (h : uheap) : U (option Z * uheap) :=
  let nu := if nu <? 4096 then 4096 else nu in
  let* p := ucall (Sbrk (s32 (nu * HDR))) in
  if p =? -1 then uret (None, h) else
  let h := mkHeap (set_hsize p nu (uh_mem h)) (uh_freep h) in
  let* h := free (hadd p 1) h in
  uret (Some (uh_freep h), h).

(** The block at [p], after [prevp], is large enough: what malloc does with it. *)
Definition take_block (nunits prevp p : Z) (h : uheap) : Z * uheap :=
  let m := uh_mem h in
  if hsize m p =? nunits then
    (hadd p 1, mkHeap (set_hptr prevp (hptr m p) m) prevp)
  else
    let m := set_hsize p (hsize m p - nunits) m in
    let p := hadd p (hsize m p) in
    let m := set_hsize p nunits m in
    (hadd p 1, mkHeap m prevp).

(** One turn of the loop of malloc at [prevp] and [p]. *)
Definition malloc_turn (nunits : Z) (st : Z * Z * uheap) : U (Z * Z * uheap + Z * uheap) :=
  let '(prevp, p, h) := st in
  if hsize (uh_mem h) p >=? nunits then uret (inr (take_block nunits prevp p h)) else
  if p =? uh_freep h then
    let* r := morecore nunits h in
    match r with
    | (None, h) => uret (inr (0, h))
    | (Some p, h) => uret (inl (p, hptr (uh_mem h) p, h))
    end
  else uret (inl (p, hptr (uh_mem h) p, h)).

Definition units (nbytes : Z) : Z := u32 (u32 (nbytes + HDR - 1) / HDR + 1).

Definition malloc (nbytes : Z) (h : uheap) : U (Z * uheap) :=
  let nunits := units nbytes in
  let h := if uh_freep h =? 0
           then mkHeap (set_hsize base 0 (set_hptr base base (uh_mem h))) base
           else h in
  uloop (malloc_turn nunits) (uh_freep h, hptr (uh_mem h) (uh_freep h), h).

(** ** The ring of free blocks *)

(** A block: its address and its size in units. *)
Abbreviation block := (Z * Z)%type.

(** The address of the first block, or [stop]. *)
Definition first (L : list block) (stop : Z) : Z := match L with [] => stop | x :: _ => fst x end.

(** The headers of [L] link each block to the next and the last one to [stop]. *)
Fixpoint chain (m : memory) (L : list block) (stop : Z) : Prop :=
  match L with
  | [] => True
  | x :: L' => hptr m (fst x) = first L' stop /\ hsize m (fst x) = snd x /\ chain m L' stop
  end.

(** The blocks lie in order above [lo] with something in between, and end at [hi] or below. *)
Fixpoint apart (lo : Z) (L : list block) (hi : Z) : Prop :=
  match L with
  | [] => lo <= hi
  | x :: L' => lo < fst x /\ 1 <= snd x /\ apart (fst x + HDR * snd x) L' hi
  end.

(** Some block holds address [x]. *)
Definition held (L : list block) (x : Z) : Prop :=
  exists a n, (a, n) ∈ L /\ a <= x < a + HDR * n.

(** The heap holds the free blocks [fl], all above [base] and below [hi]. *)
Record heap_ok (h : uheap) (fl : list block) (hi : Z) : Prop := {
  ok_base : 0 < base;
  ok_hi : base + 8 <= hi <= 2 ^ 31;
  ok_apart : apart (base + 7) fl hi;
  ok_chain : chain (uh_mem h) ((base, 0) :: fl) base;
  ok_freep : uh_freep h ∈ ((base, 0) :: fl).*1
}.

Lemma chain_app m A B stop :
  chain m (A ++ B) stop <-> chain m A (first B stop) /\ chain m B stop.
Proof.
  induction A as [|x A IH]; cbn [app chain]; [tauto|]. rewrite IH.
  assert (first (A ++ B) stop = first A (first B stop)) as -> by by destruct A.
  tauto.
Qed.

Lemma apart_le lo L hi : apart lo L hi -> lo <= hi.
Proof.
  revert lo. induction L as [|x L IH]; intros lo; cbn [apart]; [done|].
  intros (H1 & H2 & H3%IH). unfold HDR in *. lia.
Qed.

(** Where the blocks end. *)
Fixpoint end_of (lo : Z) (L : list block) : Z :=
  match L with [] => lo | x :: L' => end_of (fst x + HDR * snd x) L' end.

Lemma apart_app lo A B hi :
  apart lo (A ++ B) hi <-> apart lo A (end_of lo A) /\ apart (end_of lo A) B hi.
Proof.
  revert lo. induction A as [|x A IH]; intros lo; cbn [app apart end_of].
  - split; [intros H; split; [lia|done]|by intros [_ H]].
  - rewrite IH. tauto.
Qed.

Lemma end_of_app lo A B : end_of lo (A ++ B) = end_of (end_of lo A) B.
Proof. revert lo. induction A; intros lo; [done|]. apply IHA. Qed.

Lemma apart_elem lo L hi a n :
  apart lo L hi -> (a, n) ∈ L -> lo < a /\ 1 <= n /\ a + HDR * n <= hi.
Proof.
  revert lo. induction L as [|[b k] L IH]; intros lo; [by intros _ ?%not_elem_of_nil|].
  cbn [apart fst snd]. intros (H1 & H2 & H3) [[= -> ->]|Hin]%elem_of_cons.
  - apply apart_le in H3. done.
  - destruct (IH _ H3 Hin) as (H4 & H5 & H6). unfold HDR in *. lia.
Qed.

Lemma apart_mono lo lo' L hi : apart lo L hi -> lo' <= lo -> apart lo' L hi.
Proof. destruct L as [|x L]; cbn [apart]; [lia|]. intros (H1 & H2 & H3) Hlo. split_and!; [lia|done|done]. Qed.

(** A word that no header of [L] contains. *)
Definition clear_of (L : list block) (a : Z) : Prop :=
  forall x, x ∈ L -> a <> fst x /\ a <> fst x + 4.

Lemma chain_frame m m' L stop :
  (forall x, x ∈ L -> ldm m' (fst x) = ldm m (fst x) /\ ldm m' (fst x + 4) = ldm m (fst x + 4)) ->
  chain m L stop -> chain m' L stop.
Proof.
  intros Hm. induction L as [|x L IH]; cbn [chain]; [done|]. intros (H1 & H2 & H3).
  destruct (Hm x) as [E1 E2]; [by left|]. unfold hptr, hsize in *. rewrite E1, E2. split_and!; [done|done|].
  apply IH; [|done]. intros y Hy. apply Hm. by right.
Qed.

Lemma chain_stm m a v L stop : clear_of L a -> chain m L stop -> chain (stm a v m) L stop.
Proof.
  intros Ha. apply chain_frame. intros x Hx. destruct (Ha x Hx). by rewrite !ldm_stm_ne.
Qed.
Lemma apart_sorted lo L hi : apart lo L hi -> StronglySorted Z.lt (lo :: L.*1).
Proof.
  revert lo. induction L as [|[a n] L IH]; intros lo H; [by repeat constructor|].
  destruct H as (H1 & H2 & H3). cbn [fst snd] in *. apply IH in H3.
  inversion_clear H3 as [|? ? H4 H5]. cbn [fmap list_fmap fst].
  constructor; [constructor; [done|]|constructor; [done|]].
  - eapply Forall_impl; [exact H5|]. unfold HDR. lia.
  - eapply Forall_impl; [exact H5|]. unfold HDR. lia.
Qed.

Lemma ring_sorted fl hi : apart (base + 7) fl hi -> StronglySorted Z.lt (((base, 0) :: fl).*1).
Proof.
  intros H%apart_sorted. inversion_clear H as [|? ? H1 H2]. constructor; [done|].
  eapply Forall_impl; [exact H2|]. intros x Hx. cbn in *. lia.
Qed.

(** The part of the ring below an address that is in no block, and the part above. *)
Lemma split_at lo fl hi bp n :
  apart lo fl hi -> lo < bp -> 1 <= n -> bp + HDR * n <= hi ->
  (forall x, bp <= x < bp + HDR * n -> ~ held fl x) ->
  exists pre post, fl = pre ++ post /\ (lo < bp /\ end_of (lo + 1) pre <= bp) /\
    bp + HDR * n <= first post hi.
Proof.
  intros Ha Hlo Hn Hhi Hd. revert lo Ha Hlo. induction fl as [|[a k] fl IH]; intros lo Ha Hlo.
  { exists [], []. cbn. split_and!; [done|lia|lia|done]. }
  destruct Ha as (H1 & H2 & H3). cbn [fst snd] in *. unfold HDR in *.
  destruct (decide (bp < a)) as [Hlt|Hge].
  - exists [], ((a, k) :: fl). cbn. split_and!; [done|lia|lia|].
    destruct (decide (bp + 8 * n <= a)); [done|]. exfalso. apply (Hd a); [lia|].
    exists a, k. split; [by left|]. unfold HDR. lia.
  - assert (a + 8 * k <= bp) as Hab.
    { destruct (decide (a + 8 * k <= bp)); [done|]. exfalso. apply (Hd bp); [lia|].
      exists a, k. split; [by left|]. unfold HDR. lia. }
    destruct (decide (bp = a + 8 * k)) as [->|Hne].
    + exists [(a, k)], fl. cbn. split_and!; [done|lia|unfold HDR; lia|].
      destruct fl as [|[b j] fl]; cbn in *; [lia|]. destruct H3 as (H4 & H5 & H6).
      destruct (decide (a + 8 * k + 8 * n <= b)); [done|]. exfalso. apply (Hd b); [lia|].
      exists b, j. split; [by right; left|]. unfold HDR. lia.
    + destruct (IH) with (lo := a + 8 * k) as (pre & post & -> & [H4 H5] & H6); [|done|lia|].
      { intros x Hx Hh. apply (Hd x Hx). destruct Hh as (b & j & Hb & Hr). exists b, j. split; [by right|done]. }
      exists ((a, k) :: pre), post. split_and!; [done|lia| |done].
      cbn [end_of fst snd]. unfold HDR. destruct pre; [cbn; lia|done].
Qed.

(** *** The loop of free *)

Section search.
Context `{Sys} (m : memory) (pre post : list block) (hi bp : Z) (s : sys_state).
Context (A : list block) (p np : Z).
Hypotheses (Hap : apart (base + 7) (pre ++ post) hi)
  (Hch : chain m ((base, 0) :: pre ++ post) base)
  (Hlo : end_of (base + 8) pre <= bp) (Hup : bp < first post hi)
  (Hp : (base, 0) :: pre = A ++ [(p, np)]).

Lemma end_of_ge lo L hi' a n : apart lo L hi' -> (a, n) ∈ L -> a + HDR * n <= end_of lo L.
Proof.
  revert lo. induction L as [|[b k] L IH]; intros lo; [by intros _ ?%not_elem_of_nil|].
  intros (H1 & H2 & H3) [[= -> ->]|Hin]%elem_of_cons; cbn [end_of fst snd] in *.
  - clear -H3. revert H3. generalize (b + HDR * k). clear. revert hi'. 
    induction L as [|[c j] L IH]; intros hi' lo; cbn [end_of apart fst snd]; [lia|].
    intros (H1 & H2 & H3). unfold HDR in *. specialize (IH _ _ H3). lia.
  - by apply IH.
Qed.

Lemma pre_below x : x ∈ (base, 0) :: pre -> base <= fst x < bp.
Proof using All.
  intros [->|Hx]%elem_of_cons.
  - cbn. split; [lia|]. apply apart_app in Hap as [Hpre _].
    destruct pre as [|y pre']; [cbn in Hlo; lia|].
    pose proof (apart_elem _ _ _ (fst y) (snd y) Hpre) as Hy. pose proof (end_of_ge _ _ _ (fst y) (snd y) Hpre) as Hy2.
    rewrite <-surjective_pairing in Hy, Hy2. destruct Hy as (H1 & H2 & _); [by left|].
    specialize (Hy2 ltac:(by left)). unfold HDR in *. cbn [end_of] in *. lia.
  - apply apart_app in Hap as [Hpre _]. destruct x as [a n].
    pose proof (apart_elem _ _ _ a n Hpre Hx) as (H1 & H2 & _).
    pose proof (end_of_ge _ _ _ a n Hpre Hx) as H3. unfold HDR in *. cbn [fst].
    destruct pre as [|y pre']; [by apply not_elem_of_nil in Hx|]. cbn [end_of] in *. lia.
Qed.

Lemma post_above x : x ∈ post -> bp < fst x.
Proof using All.
  intros Hx. apply apart_app in Hap as [_ Hpost]. apply apart_sorted in Hpost.
  destruct post as [|y post']; [by apply not_elem_of_nil in Hx|]. cbn [first] in Hup.
  apply elem_of_cons in Hx as [->|Hx]; [done|]. inversion_clear Hpost as [|? ? H1 _].
  inversion_clear H1 as [|? ? _ H2]. rewrite Forall_forall in H2.
  assert (fst y < fst x); [|lia]. apply H2, list_elem_of_fmap. by exists x.
Qed.

Lemma free_loop_up M x B : (base, 0) :: pre = B ++ x :: M ->
  runs (uloop (free_turn m bp) (fst x)) s (Some p) s.
Proof using All.
  revert x B. induction M as [|y M IH]; intros x B HB.
  - assert (x = (p, np)) as ->.
    { rewrite Hp in HB. apply app_inj_tail in HB as [_ <-]. done. }
    eapply (runs_loop _ _ _ (Some (inr p))); [|done]. unfold free_turn. cbn [fst].
    assert (hptr m p = first post base) as ->.
    { rewrite app_comm_cons, Hp, chain_app, <-(app_nil_l [(p, np)]), app_nil_l in Hch.
      destruct Hch as [H1 _]. rewrite chain_app in H1. cbn in H1. tauto. }
    assert (base <= p < bp) as Hpb. { apply (pre_below (p, np)). rewrite Hp. set_solver. }
    destruct post as [|y post']; cbn [first] in *.
    + rewrite (proj2 (Z.gtb_lt bp p)) by lia. rewrite (proj2 (Z.ltb_ge bp base)) by lia. cbn [andb orb].
      rewrite Z.geb_leb, (proj2 (Z.leb_le base p)) by lia. apply runs_ret.
    + rewrite (proj2 (Z.gtb_lt bp p)), (proj2 (Z.ltb_lt bp (fst y))) by lia. apply runs_ret.
  - assert (hptr m (fst x) = fst y) as Hxy.
    { rewrite app_comm_cons, HB, <-app_assoc, chain_app in Hch. cbn in Hch. tauto. }
    assert (base <= fst y < bp) as Hy by (apply pre_below; rewrite HB; set_solver).
    assert (fst x < fst y) as Hlt.
    { pose proof (ring_sorted _ _ Hap) as Hs. rewrite app_comm_cons, HB, <-app_assoc, fmap_app in Hs.
      apply StronglySorted_app in Hs as (_ & _ & Hs). cbn in Hs. inversion_clear Hs as [|? ? _ H2].
      by inversion_clear H2. }
    eapply (runs_loop _ _ _ (Some (inl (fst y)))).
    + unfold free_turn. rewrite Hxy. rewrite (proj2 (Z.ltb_ge bp (fst y))) by lia.
      rewrite andb_false_r. rewrite Z.geb_leb, (proj2 (Z.leb_gt (fst y) (fst x))) by lia. apply runs_ret.
    + apply (IH y (B ++ [x])). by rewrite <-app_assoc.
Qed.

Lemma free_loop_down M x B : post = B ++ x :: M ->
  runs (uloop (free_turn m bp) (fst x)) s (Some p) s.
Proof using All.
  revert x B. induction M as [|y M IH]; intros x B HB;
    (assert (bp < fst x) as Hx by (apply post_above; rewrite HB; set_solver)).
  - assert (hptr m (fst x) = base) as Hxy.
    { rewrite app_comm_cons, chain_app, HB, chain_app in Hch. cbn in Hch. tauto. }
    assert (base < bp) as Hb by (apply (pre_below (base, 0)); by left).
    eapply (runs_loop _ _ _ (Some (inl base))).
    + unfold free_turn. rewrite Hxy, Z.gtb_ltb, (proj2 (Z.ltb_ge (fst x) bp)), (proj2 (Z.ltb_ge bp base)) by lia.
      cbn [andb orb]. rewrite andb_false_r. apply runs_ret.
    + by apply (free_loop_up pre (base, 0) []).
  - assert (hptr m (fst x) = fst y) as Hxy.
    { rewrite app_comm_cons, chain_app, HB, chain_app in Hch. cbn in Hch. tauto. }
    assert (fst x < fst y) as Hlt.
    { pose proof (ring_sorted _ _ Hap) as Hs. rewrite app_comm_cons, HB, (assoc_L (++)), fmap_app in Hs.
      apply StronglySorted_app in Hs as (_ & _ & Hs). cbn in Hs. inversion_clear Hs as [|? ? _ H2].
      by inversion_clear H2. }
    eapply (runs_loop _ _ _ (Some (inl (fst y)))).
    + unfold free_turn. rewrite Hxy, Z.gtb_ltb, (proj2 (Z.ltb_ge (fst x) bp)) by lia. cbn [andb orb].
      rewrite Z.geb_leb, (proj2 (Z.leb_gt (fst y) (fst x))) by lia. apply runs_ret.
    + apply (IH y (B ++ [x])). by rewrite <-app_assoc.
Qed.

Lemma free_loop f : f ∈ ((base, 0) :: pre ++ post).*1 ->
  runs (uloop (free_turn m bp) f) s (Some p) s.
Proof using All.
  intros (x & -> & Hx)%list_elem_of_fmap. rewrite app_comm_cons in Hx. apply elem_of_app in Hx as [Hx|Hx].
  - apply list_elem_of_split in Hx as (B & M & HB). by eapply free_loop_up.
  - apply list_elem_of_split in Hx as (B & M & HB). by eapply free_loop_down.
Qed.

(** *** The joins *)

Context (n : Z).
Hypotheses (Hn : 1 <= n) (Hsz : hsize m bp = n) (Hend : bp + HDR * n <= first post hi)
  (Hb0 : 0 < base) (Hhi : hi <= 2 ^ 31).

Definition joined_post : list block * Z :=
  match post with
  | (a, k) :: post' => if bp + HDR * n =? a then (post', n + k) else (post, n)
  | [] => ([], n)
  end.

Lemma ring_clear x : x ∈ (base, 0) :: pre ++ post -> fst x + 8 <= bp \/ bp + 8 <= fst x.
Proof using All.
  rewrite app_comm_cons. intros [Hx|Hx]%elem_of_app.
  - left. apply apart_app in Hap as [Hpre _]. apply elem_of_cons in Hx as [->|Hx].
    + cbn. destruct pre as [|y pre']; [exact Hlo|].
      pose proof (apart_elem _ _ _ (fst y) (snd y) Hpre) as Hy.
      pose proof (end_of_ge _ _ _ (fst y) (snd y) Hpre) as Hy2.
      rewrite <-surjective_pairing in Hy, Hy2. destruct Hy as (H1 & H2 & _); [by left|].
      specialize (Hy2 ltac:(by left)). unfold HDR in *. cbn [end_of] in *. lia.
    + destruct x as [a k]. pose proof (apart_elem _ _ _ a k Hpre Hx) as (H1 & H2 & _).
      pose proof (end_of_ge _ _ _ a k Hpre Hx) as H3. unfold HDR in *. cbn [fst].
      destruct pre as [|y pre']; [by apply not_elem_of_nil in Hx|]. cbn [end_of] in *. lia.
  - right. apply apart_app in Hap as [_ Hpost]. apply apart_sorted in Hpost.
    destruct post as [|y post']; [by apply not_elem_of_nil in Hx|]. cbn [first] in Hend.
    assert (fst y <= fst x).
    { apply elem_of_cons in Hx as [->|Hx]; [done|]. inversion_clear Hpost as [|? ? H1 _].
      inversion_clear H1 as [|? ? _ H2]. rewrite Forall_forall in H2.
      assert (fst y < fst x); [|lia]. apply H2, list_elem_of_fmap. by exists x. }
    unfold HDR in *. lia.
Qed.

Lemma first_bound : bp + HDR * n <= 2 ^ 31.
Proof using All.
  destruct post as [|y post'] eqn:E; cbn [first] in Hend; [lia|].
  apply apart_app in Hap as [_ Hpost]. destruct y as [a k].
  pose proof (apart_elem _ _ _ a k Hpost ltac:(by left)) as (H1 & H2 & H3). unfold HDR in *. cbn in *. lia.
Qed.

Lemma join_next_eq :
  let m1 := join_next bp p m in
  chain m1 ((base, 0) :: pre ++ post) base /\
  hptr m1 bp = first (fst joined_post) base /\ hsize m1 bp = snd joined_post /\
  (forall a, a <> bp -> a <> bp + 4 -> ldm m1 a = ldm m a).
Proof using All.
  pose proof first_bound as Hfb. pose proof ring_clear as Hrc.
  assert (base < bp) as Hbb by (apply (pre_below (base, 0)); by left). unfold HDR in *.
  assert (forall v m0, chain m0 ((base, 0) :: pre ++ post) base -> chain (set_hptr bp v m0) ((base, 0) :: pre ++ post) base) as F1.
  { intros v m0. apply chain_stm. intros x Hx. pose proof (Hrc x Hx). lia. }
  assert (forall v m0, chain m0 ((base, 0) :: pre ++ post) base -> chain (set_hsize bp v m0) ((base, 0) :: pre ++ post) base) as F2.
  { intros v m0. apply chain_stm. intros x Hx. pose proof (Hrc x Hx). lia. }
  assert (forall m0, chain m0 ((base, 0) :: pre ++ post) base -> hptr m0 p = first post base) as Hnx.
  { intros m0 Hc. rewrite app_comm_cons, Hp, chain_app in Hc. destruct Hc as [H1 _].
    rewrite chain_app in H1. cbn in H1. tauto. }
  unfold join_next, joined_post. rewrite Hsz, (Hnx m Hch). unfold hadd. rewrite u32_small by (unfold HDR; lia).
  destruct post as [|[a k] post'] eqn:Epost; cbn [first fst snd].
  - rewrite (proj2 (Z.eqb_neq _ base)) by (unfold HDR; lia). split_and!.
    + by apply F1.
    + unfold hptr, set_hptr. rewrite ldm_stm_eq. apply u32_small. lia.
    + unfold hsize, set_hptr in *. by rewrite ldm_stm_ne by lia.
    + intros a H1 H2. by apply ldm_stm_ne.
  - assert (bp < a /\ a + 8 * k <= hi /\ 1 <= k) as (Hba & Hak & Hk).
    { apply apart_app in Hap as [_ Hpost].
      pose proof (apart_elem _ _ _ a k Hpost ltac:(by left)) as (H1 & H2 & H3). unfold HDR in *. cbn in *. lia. }
    destruct (Z.eqb_spec (bp + HDR * n) a) as [Ea|Ea]; cbn [fst snd].
    + set (m0 := set_hsize bp (n + hsize m a) m).
      assert (chain m0 ((base, 0) :: pre ++ (a, k) :: post') base) as Hc0 by by apply F2.
      rewrite (Hnx m0 Hc0). cbn [first fst].
      assert (forall m0, chain m0 ((base, 0) :: pre ++ (a, k) :: post') base ->
        hptr m0 a = first post' base /\ hsize m0 a = k) as Ha.
      { intros m0' Hc. rewrite app_comm_cons, chain_app in Hc. cbn in Hc. tauto. }
      destruct (Ha m0 Hc0) as [-> _]. destruct (Ha m Hch) as [_ Hka].
      assert (0 <= first post' base < 2 ^ 32) as Hf.
      { destruct post' as [|[b j] post'']; cbn [first fst]; [lia|]. apply apart_app in Hap as [_ Hpost].
        pose proof (apart_elem _ _ _ b j Hpost ltac:(by right; left)) as (H1 & H2 & H3).
        destruct Hpost as (H4 & H5 & H6 & _). unfold HDR in *. cbn in *. lia. }
      split_and!.
      * by apply F1.
      * unfold hptr, set_hptr. rewrite ldm_stm_eq. by apply u32_small.
      * unfold hsize at 1. unfold set_hptr, m0, set_hsize. rewrite ldm_stm_ne, ldm_stm_eq by lia.
        rewrite Hka. apply u32_small. unfold HDR in *. lia.
      * intros b H1 H2. unfold set_hptr, m0, set_hsize. by rewrite !ldm_stm_ne.
    + split_and!.
      * by apply F1.
      * unfold hptr, set_hptr. rewrite ldm_stm_eq. cbn [first fst]. apply u32_small. lia.
      * unfold hsize, set_hptr in *. by rewrite ldm_stm_ne by lia.
      * intros b H1 H2. by apply ldm_stm_ne.
Qed.

(** The blocks below, with the freed one, and what join_prev makes of the headers. *)
Definition joined_blocks : list block :=
  if p + HDR * np =? bp then [(p, np + snd joined_post)] else [(p, np); (bp, snd joined_post)].

Lemma p_facts : base <= p /\ 0 <= np /\ p + HDR * np <= bp /\ p + 8 <= bp /\
  (p, np) ∈ (base, 0) :: pre /\ (np = 0 -> p = base) /\ end_of (base + 8) pre = Z.max (base + 8) (p + HDR * np).
Proof using All.
  assert ((p, np) ∈ (base, 0) :: pre) as Hin by (rewrite Hp; set_solver).
  assert (p + 8 <= bp \/ bp + 8 <= p) as Hc.
  { apply (ring_clear (p, np)). rewrite app_comm_cons. apply elem_of_app. by left. }
  pose proof (pre_below (p, np) Hin) as Hpb. cbn [fst] in Hpb.
  assert (end_of (base + 8) pre = Z.max (base + 8) (p + HDR * np) /\ 0 <= np /\ (np = 0 -> p = base)) as (E & H0 & H1).
  { destruct A as [|y A'].
    - cbn in Hp. assert (pre = []) as -> by congruence. assert (p = base /\ np = 0) as [-> ->] by (split; congruence).
      cbn. unfold HDR. split_and!; lia.
    - assert (pre = A' ++ [(p, np)]) as Hpre by (cbn in Hp; congruence).
      apply apart_app in Hap as [Hap1 _]. rewrite Hpre in Hap1 |- *.
      destruct (apart_elem _ _ _ p np Hap1) as (H2 & H3 & _); [set_solver|].
      rewrite end_of_app. cbn [end_of fst snd]. unfold HDR. split_and!; lia. }
  split_and!; [lia|done|lia|lia|done|done|done].
Qed.

Lemma joined_post_bound :
  1 <= n <= snd joined_post /\ bp + HDR * snd joined_post <= hi /\
  apart (bp + HDR * snd joined_post) (fst joined_post) hi /\
  fst joined_post ⊆ post /\
  (forall x, held (fst joined_post) x \/ bp <= x < bp + HDR * snd joined_post <->
             held post x \/ bp <= x < bp + HDR * n).
Proof using All.
  apply apart_app in Hap as [_ Hpost]. unfold joined_post. destruct post as [|[a k] post'].
  { cbn in *. split_and!; try done; lia. }
  cbn [first fst] in *. destruct Hpost as (H1 & H2 & H3). cbn [fst snd] in *.
  pose proof (apart_le _ _ _ H3) as H4. unfold HDR in *.
  destruct (Z.eqb_spec (bp + 8 * n) a) as [Ea|Ea]; cbn [fst snd].
  - replace (bp + 8 * (n + k)) with (a + 8 * k) by lia. split_and!; [lia|lia|lia|done|set_solver|].
    intros x. split.
    + intros [(b & j & Hb & Hr)|Hr]; [left; exists b, j; split; [by right|done]|].
      destruct (decide (x < a)); [right; lia|]. left. exists a, k. split; [by left|]. unfold HDR. lia.
    + intros [(b & j & [[= -> ->]|Hb]%elem_of_cons & Hr)|Hr]; [|left; by exists b, j|]; right; unfold HDR in *; lia.
  - split_and!; [lia|lia|lia| |done|done]. cbn. split_and!; [lia|done|done].
Qed.

Lemma join_prev_eq :
  let m2 := join_prev bp p (join_next bp p m) in
  chain m2 (A ++ joined_blocks ++ fst joined_post) base /\
  (forall a, a <> bp -> a <> bp + 4 -> a <> p -> a <> p + 4 -> ldm m2 a = ldm m a).
Proof using All.
  pose proof first_bound as Hfb. pose proof p_facts as (P1 & P2 & P3 & P4 & P5 & P6 & P7).
  pose proof joined_post_bound as (J1 & J2 & _ & J4 & _). pose proof ring_clear as Hrc.
  destruct join_next_eq as (C1 & C2 & C3 & C4). set (m1 := join_next bp p m) in *.
  pose proof (ring_sorted _ _ Hap) as Hsort.
  assert (forall x, x ∈ A \/ x ∈ post -> fst x + 8 <= p \/ p + 8 <= fst x) as Hfar.
  { intros x [Hx|Hx].
    - left. destruct A as [|y A']; [by apply not_elem_of_nil in Hx|].
      assert ((base, 0) = y /\ pre = A' ++ [(p, np)]) as [<- Hpre] by (cbn in Hp; split; congruence).
      pose proof Hap as Hap'. apply apart_app in Hap' as [Hap1 _]. rewrite Hpre in Hap1.
      apply apart_app in Hap1 as [Hap1 Hap2]. destruct Hap2 as (Hap2 & _). cbn [fst] in Hap2.
      apply elem_of_cons in Hx as [->|Hx].
      + cbn. pose proof (apart_le _ _ _ Hap1). lia.
      + destruct x as [a k]. pose proof (apart_elem _ _ _ a k Hap1 Hx) as (H1 & H2 & H3).
        unfold HDR in *. cbn. lia.
    - right. pose proof (post_above x Hx). lia. }
  assert (chain m1 A p /\ hptr m1 p = first post base /\ hsize m1 p = np /\ chain m1 post base) as (CA & CP & CS & CB).
  { rewrite app_comm_cons, Hp, <-app_assoc, chain_app in C1. cbn in C1. tauto. }
  assert (forall v m0, chain m0 A p -> chain (set_hptr p v m0) A p) as FA.
  { intros v m0. apply chain_stm. intros x Hx. destruct (Hfar x ltac:(by left)); lia. }
  assert (forall v m0, chain m0 A p -> chain (set_hsize p v m0) A p) as FA2.
  { intros v m0. apply chain_stm. intros x Hx. destruct (Hfar x ltac:(by left)); lia. }
  assert (forall v m0, chain m0 (fst joined_post) base -> chain (set_hptr p v m0) (fst joined_post) base) as FB.
  { intros v m0. apply chain_stm. intros x Hx. destruct (Hfar x ltac:(right; by apply J4)); lia. }
  assert (forall v m0, chain m0 (fst joined_post) base -> chain (set_hsize p v m0) (fst joined_post) base) as FB2.
  { intros v m0. apply chain_stm. intros x Hx. destruct (Hfar x ltac:(right; by apply J4)); lia. }
  assert (chain m1 (fst joined_post) base) as CJ.
  { clear -CB. unfold joined_post. destruct post as [|[a k] post']; [done|]. cbn in CB.
    destruct (_ =? _); cbn; tauto. }
  assert (0 <= first (fst joined_post) base < 2 ^ 32) as Hf.
  { destruct (fst joined_post) as [|[b j] L] eqn:E; cbn [first fst]; [unfold HDR in Hfb; lia|].
    assert ((b, j) ∈ post) as Hb by (apply J4; left). pose proof (post_above (b, j) Hb). cbn in *.
    apply apart_app in Hap as [_ Hpost]. pose proof (apart_elem _ _ _ b j Hpost Hb) as (H2 & H3 & H4).
    unfold HDR in *. lia. }
  unfold join_prev, joined_blocks. unfold hadd. rewrite CS, u32_small by (unfold HDR in *; lia).
  destruct (Z.eqb_spec (p + HDR * np) bp) as [Eb|Eb].
  - set (m0 := set_hsize p (np + hsize m1 bp) m1).
    assert (hptr m0 bp = first (fst joined_post) base) as ->.
    { unfold m0, set_hsize, hptr. rewrite ldm_stm_ne by lia. exact C2. }
    split.
    + rewrite chain_app. cbn [app chain first fst snd]. split_and!.
      * apply FA. by apply FA2.
      * unfold hptr, set_hptr. rewrite ldm_stm_eq. by apply u32_small.
      * unfold hsize at 1. unfold set_hptr, m0, set_hsize. rewrite ldm_stm_ne, ldm_stm_eq, C3 by lia.
        apply u32_small. unfold HDR in *. lia.
      * apply FB. by apply FB2.
    + intros a H1 H2 H3 H4. unfold set_hptr, m0, set_hsize. rewrite !ldm_stm_ne by done. by apply C4.
  - split.
    + rewrite chain_app. cbn [app chain first fst snd]. split_and!.
      * by apply FA.
      * unfold hptr, set_hptr. rewrite ldm_stm_eq. apply u32_small. unfold HDR in *. lia.
      * unfold hsize, set_hptr in *. by rewrite ldm_stm_ne by lia.
      * unfold hptr, set_hptr in *. by rewrite ldm_stm_ne by lia.
      * unfold hsize, set_hptr in *. by rewrite ldm_stm_ne by lia.
      * by apply FB.
    + intros a H1 H2 H3 H4. unfold set_hptr. rewrite !ldm_stm_ne by done. by apply C4.
Qed.

Lemma held_app L1 L2 x : held (L1 ++ L2) x <-> held L1 x \/ held L2 x.
Proof.
  unfold held. setoid_rewrite elem_of_app. split.
  - intros (a & k & [H1|H1] & H2); [left|right]; by exists a, k.
  - intros [(a & k & H1 & H2)|(a & k & H1 & H2)]; exists a, k; auto.
Qed.

Lemma held_one a k x : held [(a, k)] x <-> a <= x < a + HDR * k.
Proof.
  unfold held. split; [|intros H1; exists a, k; split; [by left|done]].
  by intros (b & j & [= -> ->]%list_elem_of_singleton & H1).
Qed.

(** The new ring. *)
Lemma joined_ring :
  exists fl', A ++ joined_blocks ++ fst joined_post = (base, 0) :: fl' /\
    apart (base + 7) fl' hi /\
    (forall x, held fl' x <-> held (pre ++ post) x \/ bp <= x < bp + HDR * n) /\
    (exists a k, (a, k) ∈ fl' /\ n <= k) /\ p ∈ ((base, 0) :: fl').*1 /\
    (forall x, x = bp \/ x = bp + 4 \/ x = p \/ x = p + 4 -> held fl' x \/ base <= x < base + 8).
Proof using All.
  pose proof p_facts as (P1 & P2 & P3 & P4 & P5 & P6 & P7).
  pose proof joined_post_bound as (J1 & J2 & J3 & J4 & J5). set (post' := fst joined_post) in *.
  set (n' := snd joined_post) in *. unfold joined_blocks. fold n'.
  apply apart_app in Hap as [Hpre _].
  destruct A as [|y A'].
  - assert (pre = [] /\ p = base /\ np = 0) as (Epre & Ep & Enp) by (cbn in Hp; split_and!; congruence).
    rewrite Epre, Ep, Enp in *. rewrite (proj2 (Z.eqb_neq _ bp)) by (unfold HDR; lia).
    exists ((bp, n') :: post'). cbn [app]. split_and!.
    + done.
    + cbn. split_and!; [lia|lia|done].
    + intros x. change ((bp, n') :: post') with ([(bp, n')] ++ post'). rewrite held_app, held_one.
      specialize (J5 x). tauto.
    + exists bp, n'. split; [by left|lia].
    + by left.
    + intros x Hx. change ((bp, n') :: post') with ([(bp, n')] ++ post'). rewrite held_app, held_one.
      unfold HDR in *. lia.
  - assert ((base, 0) = y /\ pre = A' ++ [(p, np)]) as [<- Epre] by (cbn in Hp; split; congruence).
    rewrite Epre in Hpre |- *. apply apart_app in Hpre as [Ha1 Ha2]. destruct Ha2 as (Ha2 & Ha3 & _).
    cbn [fst snd] in *. destruct (Z.eqb_spec (p + HDR * np) bp) as [Eb|Eb].
    + exists (A' ++ [(p, np + n')] ++ post'). split_and!.
      * done.
      * rewrite apart_app. split; [done|]. cbn. split_and!; [done|lia|].
        by replace (p + HDR * (np + n')) with (bp + HDR * n') by (unfold HDR in *; lia).
      * intros x. rewrite !held_app, !held_one. specialize (J5 x). unfold HDR in *.
        assert (p <= x < p + 8 * (np + n') <-> p <= x < p + 8 * np \/ bp <= x < bp + 8 * n') as -> by lia.
        tauto.
      * exists p, (np + n'). split; [set_solver|lia].
      * rewrite fmap_cons, !fmap_app. set_solver.
      * intros x Hx. left. rewrite !held_app, held_one. right. left. unfold HDR in *. lia.
    + exists (A' ++ [(p, np); (bp, n')] ++ post'). split_and!.
      * done.
      * rewrite apart_app. split; [done|]. cbn. split_and!; [done|lia|lia|lia|done].
      * intros x. change [(p, np); (bp, n')] with ([(p, np)] ++ [(bp, n')]).
        rewrite !held_app, !held_one. specialize (J5 x). tauto.
      * exists bp, n'. split; [set_solver|lia].
      * rewrite fmap_cons, !fmap_app. set_solver.
      * intros x Hx. left. change [(p, np); (bp, n')] with ([(p, np)] ++ [(bp, n')]).
        rewrite !held_app, !held_one. unfold HDR in *. lia.
Qed.
End search.

(** What free does: the block [n] units long at [bp] joins the free ones. *)
Lemma free_eq `{Sys} h fl hi bp n s :
  heap_ok h fl hi -> hsize (uh_mem h) bp = n -> 1 <= n -> base + 8 <= bp -> bp + HDR * n <= hi ->
  (forall x, bp <= x < bp + HDR * n -> ~ held fl x) ->
  exists h' fl', runs (free (bp + HDR) h) s (Some h') s /\ heap_ok h' fl' hi /\
    (forall x, held fl' x <-> held fl x \/ bp <= x < bp + HDR * n) /\
    (exists a k, (a, k) ∈ fl' /\ n <= k) /\
    (forall x, ~ held fl' x -> ~ base <= x < base + 8 -> ldm (uh_mem h') x = ldm (uh_mem h) x).
Proof.
  intros [B1 [_ B2] B3 B4 B5] Hsz Hn Hlo Hup Hd.
  destruct (split_at (base + 7) fl hi bp n) as (pre & post & -> & [_ S1] & S2); try done; [lia|].
  replace (base + 7 + 1) with (base + 8) in S1 by lia.
  destruct (exists_last (l := (base, 0) :: pre)) as (A & [p np] & Hp); [done|].
  assert (bp < first post hi) as Hup' by (unfold HDR in *; lia).
  destruct (joined_ring (uh_mem h) pre post hi bp s A p np B3 B4 S1 Hup' Hp n Hn Hsz S2 B1 B2)
    as (fl' & Hr & R1 & R2 & R3 & R4 & R5).
  destruct (join_prev_eq (uh_mem h) pre post hi bp s A p np B3 B4 S1 Hup' Hp n Hn Hsz S2 B1 B2) as [C1 C2].
  assert (u32 (bp + HDR - HDR) = bp) as Ebp. { replace (bp + HDR - HDR) with bp by lia. apply u32_small. unfold HDR in *. lia. }
  eexists _, fl'. split; [|split; [|split; [exact R2|split; [exact R3|]]]].
  - unfold free. rewrite Ebp. eapply runs_bind; [|apply runs_ret].
    exact (free_loop (uh_mem h) pre post hi bp s A p np B3 B4 S1 Hup' Hp _ B5).
  - split; cbn [uh_mem uh_freep]; try done; [unfold HDR in *; lia|]. by rewrite <-Hr.
  - intros x Hx Hb. cbn [uh_mem]. apply C2; intros Ex; (destruct (R5 x); [by auto|by apply Hx|by apply Hb]).
Qed.

(** *** The search of malloc *)

Section find.
Context `{Sys} (h : uheap) (fl : list block) (hi nunits : Z) (s : sys_state).
Hypotheses (Hok : heap_ok h fl hi) (Hnu : 1 <= nunits).
Local Abbreviation m := (uh_mem h).
(** The loop of malloc behind [prevp]. *)
Local Abbreviation walk prevp := (uloop (malloc_turn nunits) (prevp, hptr m prevp, h)).

Lemma next_of B x y C : (base, 0) :: fl = B ++ x :: y :: C -> hptr m (fst x) = fst y /\ hsize m (fst y) = snd y.
Proof using Hok.
  intros E. pose proof (ok_chain _ _ _ Hok) as Hc. rewrite E, chain_app in Hc. cbn in Hc. tauto.
Qed.

(** The loop goes through [M]: it takes a block of it or comes out at its end. *)
Lemma scan M B x C :
  (base, 0) :: fl = B ++ x :: M ++ C -> (forall y, y ∈ M -> fst y <> uh_freep h) ->
  (exists M1 y M2 Q q, M = M1 ++ y :: M2 /\ nunits <= snd y /\ x :: M1 = Q ++ [q] /\
    runs (walk (fst x)) s (Some (take_block nunits (fst q) (fst y) h)) s) \/
  ((forall y, y ∈ M -> snd y < nunits) /\ exists Q z, x :: M = Q ++ [z] /\
    forall o s', runs (walk (fst z)) s o s' -> runs (walk (fst x)) s o s').
Proof using Hok.
  revert B x. induction M as [|y M IH]; intros B x E Hf.
  { right. split; [by intros y ?%not_elem_of_nil|]. by exists [], x. }
  destruct (next_of B x y (M ++ C) E) as [Hxy Hy].
  destruct (decide (nunits <= snd y)) as [Hfit|Hfit].
  - left. exists [], y, M, [], x. split_and!; try done.
    rewrite Hxy. eapply (runs_loop _ _ _ (Some (inr _))); [|done].
    unfold malloc_turn. rewrite Hy, Z.geb_leb, (proj2 (Z.leb_le nunits _)) by done. apply runs_ret.
  - assert (forall o s', runs (walk (fst y)) s o s' -> runs (walk (fst x)) s o s') as Hstep.
    { intros o s' R. rewrite Hxy. eapply (runs_loop _ _ _ (Some (inl _))); [|exact R].
      unfold malloc_turn. rewrite Hy, Z.geb_leb, (proj2 (Z.leb_gt nunits _)) by lia.
      rewrite (proj2 (Z.eqb_neq (fst y) _)) by (apply Hf; by left). apply runs_ret. }
    destruct (IH (B ++ [x]) y) as [(M1 & y' & M2 & Q & q & -> & H1 & H2 & H3)|(H1 & Q & z & H2 & H3)].
    + by rewrite <-app_assoc.
    + intros z Hz. apply Hf. by right.
    + left. exists (y :: M1), y', M2, (x :: Q), q. split_and!; [done|done| |by apply Hstep].
      by rewrite H2.
    + right. split; [intros y' [->|Hy']%elem_of_cons; [lia|by apply H1]|].
      exists (x :: Q), z. split; [by rewrite H2|]. intros o s' R. by apply Hstep, H3.
Qed.

Lemma ring_nodup : NoDup (((base, 0) :: fl).*1).
Proof using Hok.
  pose proof (ring_sorted _ _ (ok_apart _ _ _ Hok)) as Hs. remember (((base, 0) :: fl).*1) as l eqn:El. clear El.
  induction Hs as [|a l _ IH Ha]; constructor; [|done].
  intros Hin. rewrite Forall_forall in Ha. specialize (Ha a Hin). lia.
Qed.

(** A block that is found, with the block before it. *)
Definition found (pre : list block) (a k : Z) (post : list block) (q : Z) : Prop :=
  fl = pre ++ (a, k) :: post /\ nunits <= k /\ exists Q nq, (base, 0) :: pre = Q ++ [(q, nq)].

Lemma find_block :
  (exists pre a k post q, found pre a k post q /\
    runs (walk (uh_freep h)) s (Some (take_block nunits q a h)) s) \/
  ((forall a k, (a, k) ∈ fl -> k < nunits) /\
   exists prevp, hsize m (uh_freep h) < nunits /\
     forall o s', runs (uloop (malloc_turn nunits) (prevp, uh_freep h, h)) s o s' ->
       runs (walk (uh_freep h)) s o s').
Proof using Hok Hnu.
  pose proof (ok_chain _ _ _ Hok) as Hc. pose proof ring_nodup as Hnd.
  pose proof (ok_freep _ _ _ Hok) as Hin. apply list_elem_of_fmap in Hin as (f & Ef & Hin).
  apply list_elem_of_split in Hin as (B & C & E). rewrite Ef. rewrite E, fmap_app in Hnd. cbn in Hnd.
  apply NoDup_app in Hnd as (Hnd1 & Hnd2 & Hnd3). apply NoDup_cons in Hnd3 as [Hnd3 Hnd4].
  assert (hsize m (fst f) = snd f) as Hfs by (rewrite E, chain_app in Hc; cbn in Hc; tauto).
  destruct (scan C B f []) as [(M1 & y & M2 & Q & q & EC & H1 & H2 & R)|(HC & Q & z & Ez & R)].
  { by rewrite app_nil_r. }
  { intros y Hy Hn. apply Hnd3. rewrite <-Ef, <-Hn. by apply (list_elem_of_fmap_2 fst). }
  { left. destruct y as [a k], q as [q nq]. destruct B as [|b B'].
    - cbn in E. assert (f = (base, 0) /\ fl = C) as [-> Efl] by (split; congruence).
      exists M1, a, k, M2, q. split; [|exact R]. split_and!; [by rewrite Efl|done|]. by exists Q, nq.
    - assert (b = (base, 0) /\ fl = B' ++ f :: C) as [-> Efl] by (cbn in E; split; congruence).
      exists (B' ++ f :: M1), a, k, M2, q. split; [|exact R]. split_and!; [by rewrite Efl, EC, <-app_assoc|done|].
      exists ((base, 0) :: B' ++ Q), nq. cbn. by rewrite H2, app_assoc. }
  assert (hptr m (fst z) = base) as Hz.
  { rewrite E, chain_app, Ez, chain_app in Hc. cbn in Hc. tauto. }
  assert (hsize m base = 0) as Hbs by (cbn in Hc; tauto).
  destruct B as [|b B'].
  { cbn in E. assert (f = (base, 0) /\ fl = C) as [-> Efl] by (split; congruence). right.
    split; [intros a k Hak; rewrite Efl in Hak; exact (HC _ Hak)|]. exists (fst z). cbn [fst]. split; [lia|]. intros o s' R'. apply R.
    by rewrite Hz. }
  assert (b = (base, 0) /\ fl = B' ++ f :: C) as [-> Efl] by (cbn in E; split; congruence).
  assert (base <> fst f) as Hbf. { intros Hbf. apply (Hnd2 base); [by left|]. rewrite Hbf. by left. }
  assert (forall o s', runs (walk base) s o s' -> runs (walk (fst f)) s o s') as Hwrap.
  { intros o s' R'. apply R. rewrite Hz. eapply (runs_loop _ _ _ (Some (inl _))); [|exact R'].
    unfold malloc_turn. rewrite Hbs, Z.geb_leb, (proj2 (Z.leb_gt nunits 0)) by lia.
    rewrite (proj2 (Z.eqb_neq base _)) by (by rewrite Ef). apply runs_ret. }
  destruct (scan B' [] (base, 0) (f :: C)) as [(M1 & y & M2 & Q' & q & EB & H1 & H2 & R')|(HB & Q' & z' & Ez' & R')].
  { done. }
  { intros y Hy Hn. apply (Hnd2 (fst y)); [right; by apply (list_elem_of_fmap_2 fst)|]. rewrite Hn, Ef. by left. }
  { left. destruct y as [a k], q as [q nq]. exists M1, a, k, (M2 ++ f :: C), q. split; [|by apply Hwrap].
    split_and!; [by rewrite Efl, EB, <-app_assoc|done|]. by exists Q', nq. }
  destruct (decide (nunits <= snd f)) as [Hfit|Hfit].
  - left. destruct f as [a k], z' as [q nq]. exists B', a, k, C, q. split.
    { split_and!; [done|done|]. by exists Q', nq. }
    apply Hwrap, R'. cbn [fst snd] in *.
    assert (hptr m q = a) as Hq. { rewrite E, Ez', <-app_assoc, chain_app in Hc. cbn in Hc. tauto. }
    rewrite Hq. eapply (runs_loop _ _ _ (Some (inr _))); [|done].
    unfold malloc_turn. rewrite Hfs, Z.geb_leb, (proj2 (Z.leb_le nunits _)) by done. apply runs_ret.
  - right. split.
    + intros a k. rewrite Efl. intros [Hak|[<-|Hak]%elem_of_cons]%elem_of_app; [exact (HB _ Hak)|cbn in *; lia|exact (HC _ Hak)].
    + exists (fst z'). split; [lia|]. intros o s' R''. apply Hwrap, R'.
      assert (hptr m (fst z') = fst f) as ->.
      { rewrite E, Ez', <-app_assoc, chain_app in Hc. cbn in Hc. tauto. }
      exact R''.
Qed.
End find.

(** *** Taking a block *)

Section take.
Context (h : uheap) (hi : Z) (pre : list block) (a k : Z) (post Q : list block) (q nq : Z).
Hypotheses (Hok : heap_ok h (pre ++ (a, k) :: post) hi) (EQ : (base, 0) :: pre = Q ++ [(q, nq)]).

Lemma take_links :
  chain (uh_mem h) Q q /\ hptr (uh_mem h) q = a /\ hsize (uh_mem h) q = nq /\
  hptr (uh_mem h) a = first post base /\ hsize (uh_mem h) a = k /\ chain (uh_mem h) post base.
Proof using Hok EQ.
  pose proof (ok_chain _ _ _ Hok) as Hc. rewrite app_comm_cons, EQ, <-app_assoc, chain_app in Hc. exact Hc.
Qed.

Lemma take_apart :
  apart (base + 7) pre (end_of (base + 7) pre) /\ end_of (base + 7) pre < a /\
  apart (a + HDR * k) post hi /\ base + 7 <= end_of (base + 7) pre /\ a + HDR * k <= hi.
Proof using Hok.
  pose proof (ok_apart _ _ _ Hok) as Hap. apply apart_app in Hap as [Hpre (M1 & M2 & M3)].
  pose proof (apart_le _ _ _ M3). pose proof (apart_le _ _ _ Hpre). by split_and!.
Qed.

Lemma take_above x : x ∈ post -> a + HDR * k < fst x.
Proof using Hok.
  destruct take_apart as (_ & _ & M3 & _). destruct x as [c j]. intros Hx. by apply (apart_elem _ _ _ c j M3).
Qed.

Lemma take_below x : x ∈ Q -> fst x + 8 <= q.
Proof using Hok EQ.
  destruct take_apart as (Hpre & _). intros Hx.
  assert (exists Q', Q = (base, 0) :: Q' /\ pre = Q' ++ [(q, nq)]) as (Q' & EQ1 & EQ2).
  { destruct Q as [|y Q']; [by apply not_elem_of_nil in Hx|]. exists Q'. cbn in EQ. split; congruence. }
  rewrite EQ2 in Hpre. rewrite EQ1 in Hx.
  apply apart_app in Hpre as [Hp1 Hp2]. destruct Hp2 as (Hp2 & _). cbn [fst] in Hp2.
  pose proof (apart_le _ _ _ Hp1). apply elem_of_cons in Hx as [->|Hx]; [cbn; lia|]. destruct x as [c j].
  pose proof (apart_elem _ _ _ c j Hp1 Hx) as (H1 & H2 & H3). unfold HDR in *. cbn. lia.
Qed.

Lemma take_q : base <= q /\ q + 8 <= a /\ q ∈ ((base, 0) :: pre).*1 /\ (~ base <= q < base + 8 -> held pre q).
Proof using Hok EQ.
  destruct take_apart as (Hpre & M1 & _ & M5 & _).
  assert ((q, nq) ∈ (base, 0) :: pre) as Hq by (rewrite EQ; set_solver).
  assert (q ∈ ((base, 0) :: pre).*1) as Hqin by (by apply (list_elem_of_fmap_2 fst _ (q, nq))).
  apply elem_of_cons in Hq as [[= -> ->]|Hq]; [split_and!; [lia|lia|done|lia]|].
  pose proof (apart_elem _ _ _ q nq Hpre Hq) as (H1 & H2 & H3). unfold HDR in *.
  split_and!; [lia|lia|done|]. intros _. exists q, nq. split; [done|]. unfold HDR. lia.
Qed.

Lemma take_held x :
  (held (pre ++ (a, k) :: post) x <-> held pre x \/ (a <= x < a + HDR * k) \/ held post x) /\
  (held pre x -> x < a) /\ (held post x -> a + HDR * k < x).
Proof using Hok.
  destruct take_apart as (Hpre & M1 & M3 & _). split_and!.
  - change ((a, k) :: post) with ([(a, k)] ++ post). by rewrite !held_app, held_one.
  - intros (c & j & Hc & Hr). pose proof (apart_elem _ _ _ c j Hpre Hc). lia.
  - intros (c & j & Hc & Hr). pose proof (take_above _ Hc). cbn in *. lia.
Qed.

Context (nunits : Z) (Hnu : 1 <= nunits <= k).

(** The block is as large as needed: it leaves the ring. *)
Lemma take_whole : k = nunits ->
  let h' := mkHeap (set_hptr q (hptr (uh_mem h) a) (uh_mem h)) q in
  heap_ok h' (pre ++ post) hi /\ hsize (uh_mem h') a = nunits /\
  (forall x, ~ base <= x < base + 8 -> ~ held pre x -> ldm (uh_mem h') x = ldm (uh_mem h) x).
Proof using All.
  intros <-. destruct take_links as (C1 & C2 & C3 & C4 & C5 & C6).
  destruct take_apart as (Hpre & M1 & M3 & M5 & M4). destruct take_q as (Hq1 & Hq2 & Hq3 & Hq4).
  destruct Hok as [B1 [B2 B3] B4 B5 B6]. split_and!.
  - split; cbn [uh_mem uh_freep]; [done|done| | |].
    + apply apart_app. split; [done|]. eapply apart_mono; [exact M3|]. unfold HDR in *. lia.
    + rewrite app_comm_cons, EQ, <-app_assoc, chain_app. cbn [app chain first fst snd].
      unfold set_hptr, hptr at 1, hsize at 1. rewrite C4, ldm_stm_eq, ldm_stm_ne by lia. split_and!.
      * apply chain_stm; [|done]. intros x Hx. pose proof (take_below x Hx). lia.
      * apply u32_small. destruct post as [|[c j] post']; cbn [first fst]; [lia|].
        pose proof (apart_elem _ _ _ c j M3 ltac:(by left)) as (H1 & H2 & H3). unfold HDR in *. lia.
      * exact C3.
      * apply chain_stm; [|done]. intros x Hx. pose proof (take_above x Hx). unfold HDR in *. lia.
    + rewrite app_comm_cons, fmap_app. apply elem_of_app. by left.
  - cbn [uh_mem]. unfold set_hptr, hsize in *. rewrite ldm_stm_ne by lia. exact C5.
  - intros x Hb Hx. cbn [uh_mem]. apply ldm_stm_ne. intros <-. by apply Hx, Hq4.
Qed.

(** The block is larger: its upper end is cut off. *)
Lemma take_part : nunits < k ->
  let b := a + HDR * (k - nunits) in
  let h' := mkHeap (set_hsize b nunits (set_hsize a (k - nunits) (uh_mem h))) q in
  heap_ok h' (pre ++ (a, k - nunits) :: post) hi /\ hsize (uh_mem h') b = nunits.
Proof using All.
  intros Hlt b h'. destruct take_links as (C1 & C2 & C3 & C4 & C5 & C6).
  destruct take_apart as (Hpre & M1 & M3 & M5 & M4). destruct take_q as (Hq1 & Hq2 & Hq3 & _).
  pose proof (ok_base _ _ _ Hok) as B1. pose proof (ok_hi _ _ _ Hok) as [_ B3].
  assert (a + 8 <= b /\ b + HDR * nunits = a + HDR * k) as [Hab Hbk].
  { unfold b, HDR. lia. }
  assert (forall x : block, fst x + 8 <= a \/ a + HDR * k < fst x ->
    ldm (uh_mem h') (fst x) = ldm (uh_mem h) (fst x) /\
    ldm (uh_mem h') (fst x + 4) = ldm (uh_mem h) (fst x + 4)) as Hfr.
  { intros x Hx. unfold h', set_hsize. cbn [uh_mem]. unfold HDR in *. rewrite !ldm_stm_ne by lia. done. }
  destruct (Hfr (q, nq)) as [Fq1 Fq2]; [cbn; lia|]. cbn [fst] in Fq1, Fq2.
  split; [split|].
  - apply Hok.
  - apply Hok.
  - apply apart_app. split; [done|]. cbn [apart fst snd]. split_and!; [done|lia|].
    eapply apart_mono; [exact M3|]. unfold b, HDR in *. lia.
  - rewrite app_comm_cons, EQ, <-app_assoc, chain_app. cbn [app chain first fst snd].
    unfold hptr at 1, hsize at 1. rewrite Fq1, Fq2. split_and!; [|exact C2|exact C3| | |].
    + eapply chain_frame; [|exact C1]. intros x Hx. apply Hfr. pose proof (take_below x Hx). lia.
    + unfold h', hptr, set_hsize. cbn [uh_mem]. rewrite !ldm_stm_ne by lia. exact C4.
    + unfold h', hsize, set_hsize. cbn [uh_mem]. rewrite ldm_stm_ne, ldm_stm_eq by lia.
      apply u32_small. unfold HDR in *. lia.
    + eapply chain_frame; [|exact C6]. intros x Hx. apply Hfr. right. by apply take_above.
  - unfold h'. cbn [uh_freep]. rewrite app_comm_cons, fmap_app. apply elem_of_app. by left.
  - unfold h', hsize, set_hsize. cbn [uh_mem]. rewrite ldm_stm_eq. apply u32_small. unfold HDR in *. lia.
Qed.
End take.

(** What malloc does with the block it finds: [b] is the block the caller gets. *)
Lemma take_block_eq h fl hi nunits pre a k post q :
  heap_ok h fl hi -> 1 <= nunits -> found fl nunits pre a k post q ->
  exists b h' fl', take_block nunits q a h = (b + HDR, h') /\ heap_ok h' fl' hi /\
    a <= b /\ b + HDR * nunits <= a + HDR * k /\ hsize (uh_mem h') b = nunits /\
    (forall x, held fl' x <-> held fl x /\ ~ b <= x < b + HDR * nunits) /\
    (forall x, ~ held fl x -> ~ base <= x < base + 8 -> ldm (uh_mem h') x = ldm (uh_mem h) x).
Proof.
  intros Hok Hnu (-> & Hk & Q & nq & EQ).
  destruct (take_links h hi pre a k post Q q nq Hok EQ) as (_ & _ & _ & _ & C5 & _).
  destruct (take_apart h hi pre a k post Hok) as (_ & M1 & _ & M5 & M4).
  pose proof (take_held h hi pre a k post Hok) as Hh. pose proof (ok_hi _ _ _ Hok) as [_ B3].
  pose proof (ok_base _ _ _ Hok) as B1.
  unfold take_block. rewrite C5. destruct (Z.eqb_spec k nunits) as [Ek|Hne].
  - destruct (take_whole h hi pre a k post Q q nq Hok EQ nunits ltac:(lia) Ek) as (T1 & T2 & T3).
    eexists a, _, (pre ++ post). split.
    { unfold hadd. rewrite u32_small by (unfold HDR in *; lia). reflexivity. }
    split_and!; [exact T1|lia|lia|exact T2| |].
    + intros x. specialize (Hh x). rewrite held_app. subst k. unfold HDR in *. intuition lia.
    + intros x Hx Hb. apply T3; [done|]. intros Hx'. apply Hx, Hh. by left.
  - destruct (take_part h hi pre a k post Q q nq Hok EQ nunits ltac:(lia) ltac:(lia)) as (T1 & T2).
    set (b := a + HDR * (k - nunits)) in *.
    assert (hsize (set_hsize a (k - nunits) (uh_mem h)) a = k - nunits) as ->.
    { unfold hsize, set_hsize. rewrite ldm_stm_eq. apply u32_small. unfold HDR in *. lia. }
    assert (hadd a (k - nunits) = b) as -> by (apply u32_small; unfold b, HDR in *; lia).
    eexists b, _, (pre ++ (a, k - nunits) :: post). split.
    { unfold hadd. rewrite u32_small by (unfold b, HDR in *; lia). reflexivity. }
    split_and!; [exact T1|unfold b, HDR; lia|unfold b, HDR; lia|exact T2| |].
    + intros x. destruct (Hh x) as (Hx1 & Hx2 & Hx3). rewrite Hx1.
      change ((a, k - nunits) :: post) with ([(a, k - nunits)] ++ post).
      rewrite !held_app, held_one. clear -Hx2 Hx3 Hne Hk Hnu. unfold b, HDR in *. intuition lia.
    + intros x Hx Hb. specialize (Hh x). cbn [uh_mem]. unfold set_hsize.
      rewrite !ldm_stm_ne; [done| |]; intros <-; apply Hx, Hh; right; left; unfold b, HDR in *; lia.
Qed.

(** *** The system call *)

(** [sbrk] moves the end of the process's memory up, below the kernel, or fails and does
    nothing. *)
Class Brk `{Sys} := {
  brk : sys_state -> Z;
  sbrk_law n s : 0 < n ->
    exists s' r, sys (Sbrk n) s = (s', r) /\
      ((r = -1 /\ brk s' = brk s) \/ (r = brk s /\ brk s' = brk s + n /\ brk s' <= 2 ^ 31))
}.

Lemma heap_ok_grow h fl hi hi' : heap_ok h fl hi -> hi <= hi' <= 2 ^ 31 -> heap_ok h fl hi'.
Proof.
  intros [B1 [B2 B3] B4 B5 B6] Hhi. split; [done|lia| |done|done].
  clear -B4 Hhi. revert B4. generalize (base + 7). induction fl as [|x fl IH]; intros lo; cbn; [lia|].
  intros (H1 & H2 & H3). auto.
Qed.

Lemma held_below h fl hi x : heap_ok h fl hi -> held fl x -> base + 8 <= x < hi.
Proof.
  intros [B1 [B2 B3] B4 B5 B6] (a & k & Ha & Hr). pose proof (apart_elem _ _ _ a k B4 Ha). lia.
Qed.

(** More memory: the ring gains the new block. *)
Lemma morecore_eq `{Brk} h fl nu s :
  heap_ok h fl (brk s) -> 1 <= nu < 2 ^ 28 ->
  exists s', (runs (morecore nu h) s (Some (None, h)) s' /\ brk s' = brk s) \/
    exists h' fl', runs (morecore nu h) s (Some (Some (uh_freep h'), h')) s' /\
      heap_ok h' fl' (brk s') /\ brk s <= brk s' /\
      (forall x, held fl' x <-> held fl x \/ brk s <= x < brk s') /\
      (exists a k, (a, k) ∈ fl' /\ nu <= k) /\
      (forall x, x < brk s -> ~ held fl x -> ~ base <= x < base + 8 -> ldm (uh_mem h') x = ldm (uh_mem h) x).
Proof.
  intros Hok Hnu. unfold morecore. set (n := if nu <? 4096 then 4096 else nu).
  assert (nu <= n < 2 ^ 28 /\ 4096 <= n) as [Hn1 Hn2] by (unfold n; destruct (Z.ltb_spec nu 4096); lia).
  assert (s32 (n * HDR) = n * HDR) as -> by (apply s32_small; unfold HDR; lia).
  destruct (sbrk_law (n * HDR) s) as (s1 & r & E & Hr); [unfold HDR; lia|]. exists s1.
  pose proof (ok_base _ _ _ Hok) as B1. pose proof (ok_hi _ _ _ Hok) as B2.
  destruct Hr as [[-> Hb]|(-> & Hb & Hmax)].
  { left. split; [|done]. eapply runs_bind; [by apply runs_ucall|]. apply runs_ret. }
  right. set (h1 := mkHeap (set_hsize (brk s) n (uh_mem h)) (uh_freep h)).
  assert (heap_ok h1 fl (brk s1)) as Hok1.
  { assert (heap_ok h fl (brk s1)) as Hok1 by (eapply heap_ok_grow; [exact Hok|unfold HDR in *; lia]).
    destruct Hok1 as [C1 C2 C3 C4 C5]. split; try done. apply chain_stm; [|done].
    intros x Hx. apply elem_of_cons in Hx as [->|Hx]; [cbn; lia|].
    destruct x as [a k]. pose proof (apart_elem _ _ _ a k (ok_apart _ _ _ Hok) Hx). unfold HDR in *. cbn. lia. }
  destruct (free_eq h1 fl (brk s1) (brk s) n s1 Hok1) as (h' & fl' & R & F1 & F2 & F3 & F4).
  - unfold h1, hsize, set_hsize. cbn [uh_mem]. rewrite ldm_stm_eq. apply u32_small. lia.
  - lia.
  - lia.
  - rewrite Hb. unfold HDR. lia.
  - intros x Hx Hh. pose proof (held_below _ _ _ _ Hok Hh). lia.
  - exists h', fl'. split_and!.
    + eapply runs_bind; [by apply runs_ucall|]. cbn beta iota zeta.
      rewrite (proj2 (Z.eqb_neq (brk s) (-1))) by lia. fold h1.
      assert (hadd (brk s) 1 = brk s + HDR) as -> by (apply u32_small; unfold HDR in *; lia).
      eapply runs_bind; [exact R|apply runs_ret].
    + done.
    + unfold HDR in *. lia.
    + intros x. rewrite F2, Hb. unfold HDR. replace (brk s + n * 8) with (brk s + 8 * n) by lia. done.
    + destruct F3 as (a & k & Ha & Hk). exists a, k. split; [done|lia].
    + intros x Hx Hh Hxb. rewrite F4; [|intros [?|?]%F2; [done|lia]|done]. apply ldm_stm_ne. lia.
Qed.

(** A heap on which malloc may be called: not used yet, or holding the ring of [fl]. *)
Definition heap_wf (h : uheap) (fl : list block) (hi : Z) : Prop :=
  (uh_freep h = 0 /\ fl = [] /\ 0 < base /\ base + 8 <= hi <= 2 ^ 31) \/ heap_ok h fl hi.

(** What a successful call of malloc for [n] units does to the free blocks [fl]: the caller
    gets the [n] units from [b] on, all of them free or new before. *)
Record gets_block `{Brk} (h : uheap) (fl : list block) (s : sys_state) (n b : Z)
    (h' : uheap) (fl' : list block) (s' : sys_state) : Prop := {
  gb_ok : heap_ok h' fl' (brk s');
  gb_brk : brk s <= brk s';
  gb_size : hsize (uh_mem h') b = n;
  gb_free : forall x, b <= x < b + HDR * n -> held fl x \/ brk s <= x < brk s';
  gb_held : forall x, held fl' x <->
    (held fl x \/ brk s <= x < brk s') /\ ~ b <= x < b + HDR * n;
  gb_mem : forall x, x < brk s -> ~ held fl x -> ~ base <= x < base + 8 ->
    ldm (uh_mem h') x = ldm (uh_mem h) x
}.

Lemma found_gets `{Brk} h fl s nunits pre a k post q :
  heap_ok h fl (brk s) -> 1 <= nunits -> found fl nunits pre a k post q ->
  exists b h' fl', take_block nunits q a h = (b + HDR, h') /\ gets_block h fl s nunits b h' fl' s.
Proof.
  intros Hok Hnu Hf. destruct (take_block_eq h fl _ nunits pre a k post q Hok Hnu Hf)
    as (b & h' & fl' & E & T1 & T2 & T3 & T4 & T5 & T6).
  exists b, h', fl'. split; [done|]. split; [done|lia|done| | |].
  - intros x Hx. left. destruct Hf as (-> & _). exists a, k. split; [set_solver|]. lia.
  - intros x. rewrite T5. intuition lia.
  - intros x _. apply T6.
Qed.

Lemma malloc_loop `{Brk} h fl nunits s :
  heap_ok h fl (brk s) -> 1 <= nunits < 2 ^ 28 ->
  exists r h' s', runs (uloop (malloc_turn nunits) (uh_freep h, hptr (uh_mem h) (uh_freep h), h)) s
      (Some (r, h')) s' /\
    ((r = 0 /\ h' = h /\ brk s' = brk s) \/
     exists b fl', r = b + HDR /\ gets_block h fl s nunits b h' fl' s').
Proof.
  intros Hok Hnu.
  destruct (find_block h fl (brk s) nunits s Hok ltac:(lia))
    as [(pre & a & k & post & q & Hf & R)|(Hnone & prevp & Hsz & R)].
  { destruct (found_gets h fl s nunits pre a k post q Hok ltac:(lia) Hf) as (b & h' & fl' & E & G).
    rewrite E in R. exists (b + HDR), h', s. split; [exact R|]. right. by exists b, fl'. }
  destruct (morecore_eq h fl nunits s Hok Hnu) as (s1 & [[R1 Hb]|(h1 & fl1 & R1 & M1 & M2 & M3 & M4 & M5)]).
  { exists 0, h, s1. split; [|by left]. apply R. eapply (runs_loop _ _ _ (Some (inr (0, h)))); [|done].
    unfold malloc_turn. rewrite Z.geb_leb, (proj2 (Z.leb_gt nunits _)), Z.eqb_refl by lia.
    eapply runs_bind; [exact R1|apply runs_ret]. }
  destruct (find_block h1 fl1 (brk s1) nunits s1 M1 ltac:(lia))
    as [(pre & a & k & post & q & Hf & R2)|(Hnone1 & _)].
  2:{ destruct M4 as (a & k & Ha & Hk). specialize (Hnone1 a k Ha). lia. }
  destruct (found_gets h1 fl1 s1 nunits pre a k post q M1 ltac:(lia) Hf) as (b & h2 & fl2 & E & G).
  rewrite E in R2. exists (b + HDR), h2, s1. split.
  - apply R. eapply (runs_loop _ _ _ (Some (inl _))); [|exact R2].
    unfold malloc_turn. rewrite Z.geb_leb, (proj2 (Z.leb_gt nunits _)), Z.eqb_refl by lia.
    eapply runs_bind; [exact R1|apply runs_ret].
  - right. exists b, fl2. split; [done|]. destruct G as [G1 G2 G3 G4 G5 G6]. split; [done|lia|done| | |].
    + intros x Hx. rewrite <-M3. destruct (G4 x Hx); [done|lia].
    + intros x. rewrite G5, M3. intuition lia.
    + intros x Hx Hh Hb. rewrite G6, M5; [done|done|done|done|lia| |done]. intros [?|?]%M3; [done|lia].
Qed.

Lemma units_bound n : 0 <= n < 2 ^ 31 - 16 -> units n = (n + 7) / 8 + 1 /\ 1 <= units n < 2 ^ 28 /\ n <= HDR * (units n - 1).
Proof.
  intros Hn. unfold units, HDR. rewrite (u32_small (n + 8 - 1)) by lia. replace (n + 8 - 1) with (n + 7) by lia.
  pose proof (Z.div_mod (n + 7) 8). pose proof (Z.mod_pos_bound (n + 7) 8).
  rewrite u32_small by lia. lia.
Qed.
End umalloc.

Lemma malloc_eq `{Brk} base h fl nbytes s :
  heap_wf base h fl (brk s) -> 0 <= nbytes < 2 ^ 31 - 16 ->
  exists r h' s', runs (malloc base nbytes h) s (Some (r, h')) s' /\
    ((r = 0 /\ heap_wf base h' fl (brk s') /\ brk s' = brk s) \/
     exists b fl', r = b + HDR /\ nbytes <= HDR * (units nbytes - 1) /\
       gets_block base h fl s (units nbytes) b h' fl' s').
Proof.
  intros Hwf Hn. destruct (units_bound nbytes Hn) as (_ & Hu1 & Hu2).
  assert (exists h0, (if uh_freep h =? 0
      then mkHeap (set_hsize base 0 (set_hptr base base (uh_mem h))) base else h) = h0 /\
    heap_ok base h0 fl (brk s) /\
    (forall x, ~ base <= x < base + 8 -> ldm (uh_mem h0) x = ldm (uh_mem h) x)) as (h0 & E0 & Hok & Hm).
  { destruct Hwf as [(Hf & -> & Hb0 & Hb)|Hok].
    - rewrite Hf. eexists. split; [reflexivity|]. split.
      + split; [done|done|cbn; lia| |by left]. cbn. unfold hptr, hsize, set_hptr, set_hsize.
        rewrite ldm_stm_ne, !ldm_stm_eq by lia. split_and!; [apply u32_small; lia|done|done].
      + intros x Hx. cbn. unfold set_hptr, set_hsize. by rewrite !ldm_stm_ne by lia.
    - assert (uh_freep h =? 0 = false) as ->.
      { apply Z.eqb_neq. pose proof (ok_freep _ _ _ _ Hok) as Hin. pose proof (ok_base _ _ _ _ Hok).
        apply list_elem_of_fmap in Hin as ([a k] & -> & [[= -> ->]|Hin]%elem_of_cons); [cbn; lia|].
        pose proof (apart_elem _ _ _ a k (ok_apart _ _ _ _ Hok) Hin). cbn. lia. }
      by exists h. }
  destruct (malloc_loop base h0 fl (units nbytes) s Hok Hu1) as (r & h' & s' & R & Hr).
  exists r, h', s'. split; [unfold malloc; rewrite E0; exact R|].
  destruct Hr as [(-> & -> & Hb)|(b & fl' & -> & G)].
  - left. split_and!; [done| |done]. right. by rewrite Hb.
  - right. exists b, fl'. split_and!; [done|done|]. destruct G as [G1 G2 G3 G4 G5 G6]. split; try done.
    intros x H1 H2 H3. by rewrite G6, Hm.
Qed.

(** ** Properties *)


(** C40. What malloc gave, free takes back: after a successful malloc, free of the block makes free
    exactly the addresses that were free before, and those the kernel added. *)
Theorem malloc_free `{Brk} base h fl nbytes s r h1 s1 :
  heap_wf base h fl (brk s) -> 0 <= nbytes < 2 ^ 31 - 16 ->
  runs (malloc base nbytes h) s (Some (r, h1)) s1 -> r <> 0 ->
  exists h2 fl2, runs (free r h1) s1 (Some h2) s1 /\ heap_ok base h2 fl2 (brk s1) /\
    (forall x, held fl2 x <-> held fl x \/ brk s <= x < brk s1).
Proof.
  intros Hwf Hn R Hr. destruct (units_bound nbytes Hn) as (_ & Hu1 & _).
  destruct (malloc_eq base h fl nbytes s Hwf Hn) as (r' & h' & s' & R' & Hr').
  destruct (runs_det _ _ _ _ _ _ R R') as [[= <- <-] <-].
  destruct Hr' as [(-> & _)|(b & fl' & -> & _ & [G1 G2 G3 G4 G5 G6])]; [done|].
  assert (base + 8 <= b /\ b + HDR * units nbytes <= brk s1) as [Hb1 Hb2].
  { assert (forall x, held fl x \/ brk s <= x < brk s1 -> base + 8 <= x < brk s1) as Hin.
    { intros x Hx. destruct Hwf as [(_ & -> & _ & Hb)|Hok].
      - destruct Hx as [(a & k & Ha%not_elem_of_nil & _)|Hx]; [done|lia].
      - destruct Hx as [Hx|Hx]; [pose proof (held_below _ _ _ _ _ Hok Hx); lia|].
        pose proof (ok_hi _ _ _ _ Hok). lia. }
    unfold HDR in *. pose proof (Hin b (G4 b ltac:(lia))).
    pose proof (Hin _ (G4 (b + 8 * units nbytes - 1) ltac:(lia))). lia. }
  destruct (free_eq base h1 fl' (brk s1) b (units nbytes) s1 G1 G3) as (h2 & fl2 & R2 & F1 & F2 & _);
    [lia|done|done| |].
  - intros x Hx Hh. apply G5 in Hh. tauto.
  - exists h2, fl2. split_and!; [done|done|]. intros x. rewrite F2, G5.
    destruct (decide (b <= x < b + HDR * units nbytes)) as [Hx|Hx]; [|tauto].
    specialize (G4 x Hx). tauto.
Qed.

(** A kernel that gives memory from its break on, up to the limit. *)
Definition brk_answer {T} (e : sysE T) (k : Z) : Z * T :=
  match e in sysE T return Z * T with
  | Sbrk n => if k + n <=? 2 ^ 31 then (k + n, k) else (k, -1)
  | Read _ _ => (k, (-1, []))
  | Fstat _ => (k, (-1, mkUstat 0 0 0 0 0))
  | Pipe => (k, (-1, (0, 0)))
  | _ => (k, -1)
  end.
#[local] Instance brk_sys : Sys := {| sys_state := Z; sys T e k := brk_answer e k |}.
#[local] Program Instance brk_brk : Brk := {| brk k := k |}.
Next Obligation.
  intros n k Hn. cbn [sys brk_sys brk_answer]. destruct (Z.leb_spec (k + n) (2 ^ 31)); do 2 eexists; (split; [done|]); [right|left]; lia.
Qed.

(** An unused heap of a process whose memory ends at 16384, its static header at 8000. *)
Definition demo_uheap : uheap := mkHeap ∅ 0.

Lemma demo_uheap_wf : heap_wf 8000 demo_uheap [] (@brk brk_sys brk_brk 16384).
Proof. left. repeat split; cbn; lia. Qed.


(** The first call: the kernel adds 4096 units, the upper 14 of which are the block. *)
Lemma demo_malloc :
  exists h, @runs brk_sys _ (malloc 8000 100 demo_uheap) 16384 (Some (49048, h)) 49152.
Proof.
  eexists. unfold malloc. eapply (runs_loop _ _ _ (Some (inl _))).
  - cbn. eapply runs_bind.
    + unfold morecore. eapply runs_bind; [by apply runs_ucall|]. cbn. unfold free.
      eapply runs_bind; [eapply runs_bind|]; [|apply runs_ret|apply runs_ret].
      eapply (runs_loop _ _ _ (Some (inr _))); [apply runs_ret|done].
    + apply runs_ret.
  - eapply (runs_loop _ _ _ (Some (inr _))); [apply runs_ret|]. split; [|reflexivity]. reflexivity.
Qed.

Lemma malloc_free_witness :
  exists h h2 fl2, @runs brk_sys _ (malloc 8000 100 demo_uheap) 16384 (Some (49048, h)) 49152 /\
    @runs brk_sys _ (free 49048 h) 49152 (Some h2) 49152 /\ held fl2 49040.
Proof.
  destruct demo_malloc as [h R].
  destruct (@malloc_free brk_sys brk_brk 8000 demo_uheap [] 100 16384 49048 h 49152 demo_uheap_wf)
    as (h2 & fl2 & R2 & _ & Hh); [lia|exact R|discriminate|].
  exists h, h2, fl2. split; [exact R|]. split; [exact R2|]. apply Hh. right. cbn. lia.
Defined.
