(* ===== verification/Sh.v ===== *)
(** * The shell (sh.c)

    The parser works on one line; a pointer into the line is the list of the bytes from it to
    the end [es] of the line, so that [*s] is the head, 0 at the end.  A word is the pair of
    pointers to its start and its end.  The trees the parser builds hold words until
    [nulterminate] has put the NULs into the line and the words can be read as strings.
    Memory for the nodes is taken to be available. *)

From Stdlib Require Import ZArith Lia.
From ITree Require Import ITree.
From stdpp Require Import base list gmap strings numbers.
From S2P Require Import Prelude Machine Cstring Cprintf Layout User Ulib.
Local Open Scope Z_scope.
Local Open Scope user_scope.

(** ** Commands *)

Definition MAXARGS : nat := 10.

(** [struct cmd] and its kinds; [W] is the type of the words. *)
Inductive cmd (W : Type) : Type :=
| EXEC (argv : list W)
| REDIR (c : cmd W) (file : W) (mode fd : Z)
| PIPE (left right : cmd W)
| LIST (left right : cmd W)
| BACK (c : cmd W).
Arguments EXEC {W} argv.
Arguments REDIR {W} c file mode fd.
Arguments PIPE {W} left right.
Arguments LIST {W} left right.
Arguments BACK {W} c.

Fixpoint cmd_map {V W} (f : V -> W) (c : cmd V) : cmd W :=
  match c with
  | EXEC argv => EXEC (f <$> argv)
  | REDIR c file mode fd => REDIR (cmd_map f c) (f file) mode fd
  | PIPE l r => PIPE (cmd_map f l) (cmd_map f r)
  | LIST l r => LIST (cmd_map f l) (cmd_map f r)
  | BACK c => BACK (cmd_map f c)
  end.

(** A word of the line: the pointers [q] and [eq]. *)
Definition word : Type := list Z * list Z.

(** ** Tokens *)

Definition whitespace : list Z := [32; 9; 13; 10; 11].
Definition symbols : list Z := str "<|>&;()".

(** [strchr(set, c)] as a test, and [*s] *)
Definition among (set : list Z) (c : Z) : bool :=
  match strchr set c with Some _ => true | None => false end.
Definition deref (s : list Z) : Z := default 0 (head s).

(** [while(s < es && strchr(whitespace, *s)) s++;] *)
Fixpoint skip_ws (s : list Z) : list Z :=
  match s with c :: s' => if among whitespace c then skip_ws s' else s | [] => [] end.
(** [while(s < es && !strchr(whitespace, *s) && !strchr(symbols, *s)) s++;] *)
Fixpoint skip_word (s : list Z) : list Z :=
  match s with
  | c :: s' => if negb (among whitespace c) && negb (among symbols c) then skip_word s' else s
  | [] => []
  end.

(** The switch of gettoken: the token at [s] and its end. *)
Definition token_at (s : list Z) : Z * list Z :=
  let c := deref s in
  if c =? 0 then (0, s)
  else if among (str "|();&<") c then (c, tail s)
  else if c =? 62 then (if deref (tail s) =? 62 then (43, tail (tail s)) else (62, tail s))
  else (97, skip_word s).

(** The token, the pointers to its start and its end, and [*ps]. *)
Definition gettoken (ps : list Z) : Z * word * list Z :=
  let s := skip_ws ps in
  let '(ret, e) := token_at s in
  (ret, (s, e), skip_ws e).

Definition peek (ps toks : list Z) : bool * list Z :=
  let s := skip_ws ps in (negb (deref s =? 0) && among toks (deref s), s).

(** ** The parser *)

(** A parse succeeds, or ends in a call of panic; [PFuel] is a parse that has not ended yet. *)
Inductive pres (A : Type) : Type := POk (a : A) | PPanic (msg : string) | PFuel.
Arguments POk {A} a.
Arguments PPanic {A} msg.
Arguments PFuel {A}.
Definition pbind {A B} (m : pres A) (k : A -> pres B) : pres B :=
  match m with POk a => k a | PPanic s => PPanic s | PFuel => PFuel end.
Notation "'plet' x := m 'in' k" := (pbind m (fun x => k))
  (at level 200, x pattern, k at level 200) : user_scope.

(** [parseredirs]: the redirections, in order; they are put around the command afterwards,
    since parseexec goes on filling the command's arguments in. *)
Definition redir : Type := word * Z * Z.
Fixpoint parseredirs (n : nat) (ps : list Z) : pres (list redir * list Z) :=
  match n with
  | O => PFuel
  | S n' =>
    let '(b, ps) := peek ps (str "<>") in
    if (b : bool) then
      let '(tok, _, ps) := gettoken ps in
      let '(t, w, ps) := gettoken ps in
      if negb (t =? 97) then PPanic "missing file for redirection" else
      let r := if tok =? 60 then (w, O_RDONLY, 0) else (w, Z.lor O_WRONLY O_CREATE, 1) in
      plet (rs, ps) := parseredirs n' ps in
      POk (r :: rs, ps)
    else POk ([], ps)
  end.
Definition add_redirs (c : cmd word) (rs : list redir) : cmd word :=
  foldl (fun c '(w, mode, fd) => REDIR c w mode fd) c rs.

(** The loop of parseexec: the arguments and the redirections among them. *)
Fixpoint parseargs (n argc : nat) (ps : list Z) : pres (list word * list redir * list Z) :=
  match n with
  | O => PFuel
  | S n' =>
    let '(b, ps) := peek ps (str "|)&;") in
    if (b : bool) then POk ([], [], ps) else
    let '(tok, w, ps) := gettoken ps in
    if tok =? 0 then POk ([], [], ps) else
    if negb (tok =? 97) then PPanic "syntax" else
    if bool_decide (MAXARGS <= S argc)%nat then PPanic "too many args" else
    plet (rs, ps) := parseredirs n' ps in
    plet (ws, rs', ps) := parseargs n' (S argc) ps in
    POk (w :: ws, rs ++ rs', ps)
  end.

(** [while(peek(ps, es, "&")){ gettoken(ps, es, 0, 0); cmd = backcmd(cmd); }] *)
Fixpoint parseback (n : nat) (c : cmd word) (ps : list Z) : pres (cmd word * list Z) :=
  match n with
  | O => PFuel
  | S n' =>
    let '(b, ps) := peek ps (str "&") in
    if (b : bool) then parseback n' (BACK c) (snd (gettoken ps)) else POk (c, ps)
  end.

Fixpoint parseline (n : nat) (ps : list Z) {struct n} : pres (cmd word * list Z) :=
  match n with
  | O => PFuel
  | S n' =>
    plet (c, ps) := parsepipe n' ps in
    plet (c, ps) := parseback n' c ps in
    let '(b, ps) := peek ps (str ";") in
    if (b : bool) then
      plet (c', ps) := parseline n' (snd (gettoken ps)) in
      POk (LIST c c', ps)
    else POk (c, ps)
  end
with parsepipe (n : nat) (ps : list Z) {struct n} : pres (cmd word * list Z) :=
  match n with
  | O => PFuel
  | S n' =>
    plet (c, ps) := parseexec n' ps in
    let '(b, ps) := peek ps (str "|") in
    if (b : bool) then
      plet (c', ps) := parsepipe n' (snd (gettoken ps)) in
      POk (PIPE c c', ps)
    else POk (c, ps)
  end
with parseexec (n : nat) (ps : list Z) {struct n} : pres (cmd word * list Z) :=
  match n with
  | O => PFuel
  | S n' =>
    let '(b, ps) := peek ps (str "(") in
    if (b : bool) then parseblock n' ps else
    plet (rs, ps) := parseredirs n' ps in
    plet (ws, rs', ps) := parseargs n' 0 ps in
    POk (add_redirs (EXEC ws) (rs ++ rs'), ps)
  end
with parseblock (n : nat) (ps : list Z) {struct n} : pres (cmd word * list Z) :=
  match n with
  | O => PFuel
  | S n' =>
    let '(b, ps) := peek ps (str "(") in
    if negb b then PPanic "parseblock" else
    plet (c, ps) := parseline n' (snd (gettoken ps)) in
    let '(b, ps) := peek ps (str ")") in
    if negb b then PPanic "syntax - missing )" else
    plet (rs, ps) := parseredirs n' (snd (gettoken ps)) in
    POk (add_redirs c rs, ps)
  end.

(** Enough turns for a line of [n] bytes: [parse_terminates]. *)
Definition parse_fuel (n : nat) : nat := 4 * n + 4.

(** parsecmd before nulterminate; the leftovers are printed by the caller. *)
Definition parse (s : list Z) : pres (cmd word * list Z) :=
  plet (c, ps) := parseline (parse_fuel (length s)) s in
  POk (c, snd (peek ps [])).

(** ** nulterminate *)

(** [*p = 0] for the pointer [p] into a line whose bytes up to [es] were [line]. *)
Definition put_nul (line : list Z) (p : list Z) (buf : list Z) : list Z :=
  <[(length line - length p)%nat := 0]> buf.

Fixpoint nulterminate (line : list Z) (c : cmd word) (buf : list Z) : list Z :=
  match c with
  | EXEC argv => foldl (fun buf w => put_nul line (snd w) buf) buf argv
  | REDIR c file _ _ => put_nul line (snd file) (nulterminate line c buf)
  | PIPE l r | LIST l r => nulterminate line r (nulterminate line l buf)
  | BACK c => nulterminate line c buf
  end.

(** The string a pointer into the line designates in the buffer. *)
Definition string_at (line buf : list Z) (p : list Z) : list Z :=
  cstr (drop (length line - length p) buf).

(** The tree with its words as strings. *)
Definition parsed (line : list Z) (c : cmd word) : cmd (list Z) :=
  let buf := nulterminate line c (line ++ [0]) in
  cmd_map (fun w => string_at line buf (fst w)) c.

Definition panic {A} (s : string) : U A := do* uprintn 2 "%s" [AStr (Some (str s))] in uexit.

Definition parsecmd (s : list Z) : U (cmd (list Z)) :=
  let line := cstr s in
  match parse line with
  | POk (c, ps) =>
    match ps with
    | [] => uret (parsed line c)
    | _ => do* uprintn 2 "leftovers: %s" [AStr (Some ps)] in panic "syntax"
    end
  | PPanic m => panic m
  | PFuel => uloop (fun _ : unit => uret (inl tt)) tt
  end.

(** ** Running commands *)

Definition fork1 : U Z :=
  let* pid := ucall Fork in
  if pid =? -1 then panic "fork" else uret pid.

Fixpoint runcmd (c : cmd (list Z)) : U unit :=
  match c with
  | EXEC argv =>
    match argv with
    | [] => uexit
    | prog :: _ =>
      do* ucall (Exec prog argv) in
      do* uprintn 2 "exec %s failed" [AStr (Some prog)] in
      uexit
    end
  | REDIR c file mode fd =>
    do* ucall (Close fd) in
    let* r := ucall (Open file mode) in
    if r <? 0 then do* uprintn 2 "open %s failed" [AStr (Some file)] in uexit else
    do* runcmd c in
    uexit
  | LIST c1 c2 =>
    let* pid := fork1 in
    do* (if pid =? 0 then runcmd c1 else uret tt) in
    do* ucall Wait in
    do* runcmd c2 in
    uexit
  | PIPE c1 c2 =>
    let* r := ucall Pipe in
    let '(r, (p0, p1)) := r in
    if r <? 0 then panic "pipe" else
    let* pid := fork1 in
    do* (if pid =? 0 then
           do* ucall (Close 1) in
           do* ucall (Dup p1) in
           do* ucall (Close p0) in
           do* ucall (Close p1) in
           runcmd c1
         else uret tt) in
    let* pid := fork1 in
    do* (if pid =? 0 then
           do* ucall (Close 0) in
           do* ucall (Dup p0) in
           do* ucall (Close p0) in
           do* ucall (Close p1) in
           runcmd c2
         else uret tt) in
    do* ucall (Close p0) in
    do* ucall (Close p1) in
    do* ucall Wait in
    do* ucall Wait in
    uexit
  | BACK c =>
    let* pid := fork1 in
    do* (if pid =? 0 then runcmd c else uret tt) in
    uexit
  end.

(** ** The main loop *)

(** The bytes of the line read, none at the end of the input. *)
Definition getcmd (nbuf : nat) : U (list Z) := do* uprint 2 "$ " [] in gets nbuf.

(** [while((fd = open("console", O_RDWR)) >= 0) if(fd >= 3){ close(fd); break; }] *)
Definition open_console : U unit :=
  uloop (fun _ : unit =>
    let* fd := ucall (Open (str "console") O_RDWR) in
    if fd >=? 0 then
      if fd >=? 3 then do* ucall (Close fd) in uret (inr tt) else uret (inl tt)
    else uret (inr tt)) tt.

(** One turn of the loop over the commands. *)
Definition sh_turn : U (unit + unit) :=
  let* buf := getcmd 100 in
  if deref buf =? 0 then uret (inr tt) else
  match buf with
  | 99 :: 100 :: 32 :: dir =>
    let dir := cstr (take (strlen dir - 1) dir) in
    let* r := ucall (Chdir dir) in
    do* (if r <? 0 then uprintn 2 "cannot cd %s" [AStr (Some dir)] else uret tt) in
    uret (inl tt)
  | _ =>
    let* pid := fork1 in
    do* (if pid =? 0 then let* c := parsecmd buf in runcmd c else uret tt) in
    do* ucall Wait in
    uret (inl tt)
  end.

Definition sh_main : U unit :=
  do* open_console in
  do* printf 2 (str "Student ID: 2025318314" ++ [10] ++
                str "Name: Christian Magnus Engebretsen Heimvik" ++ [10]) [] in
  do* uprintn 2 "======Any message======" [] in
  do* uprintn 2 "Hello world" [] in
  do* uloop (fun _ => sh_turn) tt in
  uexit.

(** ** Termination of the parser *)

Section fuel.
(** The parse ends, with no more of the line left than there was. *)
Definition ends {A} (m : pres (A * list Z)) (l : list Z) : Prop :=
  match m with POk (_, l') => (length l' <= length l)%nat | PPanic _ => True | PFuel => False end.

Lemma ends_bind {A B} (m : pres (A * list Z)) (k : A * list Z -> pres (B * list Z)) l :
  ends m l -> (forall a l', (length l' <= length l)%nat -> ends (k (a, l')) l') -> ends (pbind m k) l.
Proof.
  destruct m as [[a l']| |]; cbn; [|done|done]. intros Hl Hk. specialize (Hk a l' Hl).
  unfold ends in *. destruct (k (a, l')) as [[b l2]| |]; [lia|done|done].
Qed.

Lemma ends_le {A} (m : pres (A * list Z)) l l' : ends m l -> (length l <= length l')%nat -> ends m l'.
Proof. unfold ends. destruct m as [[a l2]| |]; [lia|done|done]. Qed.

Lemma skip_ws_le l : (length (skip_ws l) <= length l)%nat.
Proof. induction l as [|c l IH]; cbn; [done|]. destruct (among whitespace c); cbn; lia. Qed.

Lemma skip_word_le l : (length (skip_word l) <= length l)%nat.
Proof. induction l as [|c l IH]; cbn; [done|]. destruct (_ && _); cbn; lia. Qed.

Lemma skip_ws_head l c : deref (skip_ws l) = c -> c <> 0 -> among whitespace c = false.
Proof.
  intros <-. induction l as [|x l IH]; cbn; [done|]. destruct (among whitespace x) eqn:E; [done|]. by cbn.
Qed.

Lemma among_spec set c : Forall (fun x => x <> 0) set -> among set c = true <-> c ∈ set.
Proof.
  unfold among. induction 1 as [|x set Hx _ IH]; cbn [strchr]; [by rewrite elem_of_nil|].
  rewrite (proj2 (Z.eqb_neq x 0)) by done. rewrite elem_of_cons. destruct (Z.eqb_spec x c) as [->|Hne]; [tauto|].
  destruct (strchr set c); cbn; [tauto|]. split; [done|]. intros [->|Hin]; [done|]. by apply IH.
Qed.

(** A character that ends no token starts a word. *)
Lemma word_start c : among (str "|();&<") c = false -> c <> 62 -> among symbols c = false.
Proof.
  intros Hc H62. apply not_true_iff_false in Hc. apply not_true_iff_false. intros Hs. apply Hc.
  apply among_spec in Hs; [|by repeat constructor]. apply among_spec; [by repeat constructor|].
  revert Hs. change symbols with [60; 124; 62; 38; 59; 40; 41].
  change (str "|();&<") with [124; 40; 41; 59; 38; 60]. rewrite !elem_of_cons. tauto.
Qed.

Lemma token_at_le s : (length (snd (token_at s)) <= length s)%nat.
Proof.
  unfold token_at. destruct s as [|c s]; [done|]. change (deref (c :: s)) with c. cbn [tail].
  pose proof (skip_word_le (c :: s)). destruct s as [|c' s]; repeat case_match; cbn in *; lia.
Qed.

Lemma token_at_lt s :
  among whitespace (deref s) = false -> fst (token_at s) <> 0 -> (length (snd (token_at s)) < length s)%nat.
Proof.
  unfold token_at. destruct s as [|c s]; [done|]. change (deref (c :: s)) with c. cbn [tail]. intros Hw.
  destruct (c =? 0); [done|]. destruct (among (str "|();&<") c) eqn:E1; [cbn; lia|].
  destruct (Z.eqb_spec c 62) as [E2|E2]; [destruct s as [|c' s]; case_match; cbn; lia|].
  intros _. cbn. rewrite Hw, word_start by done. cbn. pose proof (skip_word_le s). lia.
Qed.

Lemma gettoken_le l : (length (snd (gettoken l)) <= length l)%nat.
Proof.
  unfold gettoken. pose proof (token_at_le (skip_ws l)). pose proof (skip_ws_le l).
  destruct (token_at (skip_ws l)) as [ret e]. cbn in *. pose proof (skip_ws_le e). lia.
Qed.

Lemma gettoken_lt l : fst (fst (gettoken l)) <> 0 -> (length (snd (gettoken l)) < length l)%nat.
Proof.
  unfold gettoken. pose proof (token_at_lt (skip_ws l)) as Hl. pose proof (skip_ws_le l).
  pose proof (skip_ws_head l (deref (skip_ws l)) eq_refl) as Hh.
  destruct (decide (deref (skip_ws l) = 0)) as [H0|H0].
  { unfold token_at. by rewrite H0. }
  specialize (Hl (Hh H0)). destruct (token_at (skip_ws l)) as [ret e]. cbn in *. intros Hr.
  specialize (Hl Hr). pose proof (skip_ws_le e). lia.
Qed.

Lemma gettoken_tok l : fst (fst (gettoken l)) = 0 <-> deref (skip_ws l) = 0.
Proof.
  unfold gettoken, token_at. repeat case_match; cbn; simplify_eq; split; intros; try done; try lia.
  all: by apply Z.eqb_eq.
Qed.

Lemma peek_lt l toks l' : peek l toks = (true, l') ->
  (length l' <= length l)%nat /\ (length (snd (gettoken l')) < length l)%nat.
Proof.
  unfold peek. intros [= Hb <-]. apply andb_prop in Hb as [H0%negb_true_iff%Z.eqb_neq _].
  pose proof (skip_ws_le l). split; [done|].
  assert (length (snd (gettoken (skip_ws l))) < length (skip_ws l))%nat; [|lia].
  apply gettoken_lt. rewrite gettoken_tok. intros H1. apply H0.
  assert (skip_ws (skip_ws l) = skip_ws l) as <-; [|done].
  clear. induction l as [|c l IH]; cbn; [done|]. destruct (among whitespace c) eqn:E; [done|]. cbn. by rewrite E.
Qed.

Lemma peek_le l toks : (length (snd (peek l toks)) <= length l)%nat.
Proof. apply skip_ws_le. Qed.

Lemma parseredirs_ends n l : (length l < n)%nat -> ends (parseredirs n l) l.
Proof.
  revert l. induction n as [|n IH]; intros l Hn; [lia|]. cbn [parseredirs].
  pose proof (peek_le l (str "<>")) as Hle. destruct (peek l (str "<>")) as [[] l1] eqn:E; [|exact Hle].
  apply peek_lt in E as [_ E]. destruct (gettoken l1) as [[tok w1] l2]. cbn in E.
  pose proof (gettoken_le l2) as E2. destruct (gettoken l2) as [[t w] l3]. cbn in E2.
  destruct (negb (t =? 97)); [done|]. eapply (ends_le _ l3); [|lia].
  apply ends_bind; [apply IH; lia|]. intros rs l4 Hl4. cbn. lia.
Qed.

Lemma parseargs_ends n argc l : (length l < n)%nat -> ends (parseargs n argc l) l.
Proof.
  revert argc l. induction n as [|n IH]; intros argc l Hn; [lia|]. cbn [parseargs].
  pose proof (peek_le l (str "|)&;")) as Hle. destruct (peek l (str "|)&;")) as [[] l1]; [exact Hle|]. cbn in Hle.
  pose proof (gettoken_le l1) as H1. pose proof (gettoken_lt l1) as H2.
  destruct (gettoken l1) as [[tok w] l2]. cbn in H1, H2.
  destruct (Z.eqb_spec tok 0) as [->|Htok]; [cbn; lia|]. specialize (H2 Htok).
  destruct (negb (tok =? 97)); [done|]. destruct (bool_decide _); [done|].
  apply (ends_le _ l2); [|lia]. apply ends_bind; [apply parseredirs_ends; lia|].
  intros rs l3 Hl3. apply ends_bind; [apply IH; lia|]. intros [ws rs'] l4 Hl4. cbn. lia.
Qed.

Lemma parseback_ends n c l : (length l < n)%nat -> ends (parseback n c l) l.
Proof.
  revert c l. induction n as [|n IH]; intros c l Hn; [lia|]. cbn [parseback].
  pose proof (peek_le l (str "&")) as Hle. destruct (peek l (str "&")) as [[] l1] eqn:E; [|exact Hle].
  apply peek_lt in E as [_ E]. eapply ends_le; [apply IH; lia|lia].
Qed.

Lemma parser_ends n l :
  ((4 * length l + 4 <= n)%nat -> ends (parseline n l) l) /\
  ((4 * length l + 3 <= n)%nat -> ends (parsepipe n l) l) /\
  ((4 * length l + 2 <= n)%nat -> ends (parseexec n l) l) /\
  ((4 * length l + 1 <= n)%nat -> ends (parseblock n l) l).
Proof.
  revert l. induction n as [|n IH]; intros l; [split_and!; lia|]. split_and!; intros Hn.
  - cbn [parseline]. apply ends_bind; [apply IH; lia|]. intros c l1 H1.
    apply ends_bind; [apply parseback_ends; lia|]. intros c' l2 H2.
    pose proof (peek_le l2 (str ";")) as Hle. destruct (peek l2 (str ";")) as [[] l3] eqn:E; [|exact Hle].
    apply peek_lt in E as [_ E]. eapply (ends_le _ (snd (gettoken l3))); [|lia].
    apply ends_bind; [apply IH; lia|]. intros c2 l4 H4. cbn. lia.
  - cbn [parsepipe]. apply ends_bind; [apply IH; lia|]. intros c l1 H1.
    pose proof (peek_le l1 (str "|")) as Hle. destruct (peek l1 (str "|")) as [[] l3] eqn:E; [|exact Hle].
    apply peek_lt in E as [_ E]. eapply (ends_le _ (snd (gettoken l3))); [|lia].
    apply ends_bind; [apply IH; lia|]. intros c2 l4 H4. cbn. lia.
  - cbn [parseexec]. pose proof (peek_le l (str "(")) as Hle.
    destruct (peek l (str "(")) as [[] l1] eqn:E; cbn in Hle; apply (ends_le _ l1); try lia.
    + apply IH. lia.
    + apply ends_bind; [apply parseredirs_ends; lia|]. intros rs l2 H2.
      apply ends_bind; [apply parseargs_ends; lia|]. intros [ws rs'] l3 H3. cbn. lia.
  - cbn [parseblock]. pose proof (peek_le l (str "(")) as Hle.
    destruct (peek l (str "(")) as [[] l1] eqn:E; [|done]. apply peek_lt in E as [_ E]. cbn [negb].
    eapply (ends_le _ (snd (gettoken l1))); [|lia]. apply ends_bind; [apply IH; lia|]. intros c l2 H2.
    destruct (peek l2 (str ")")) as [[] l3] eqn:E3; [|done]. apply peek_lt in E3 as [_ E3]. cbn [negb].
    eapply (ends_le _ (snd (gettoken l3))); [|lia].
    apply ends_bind; [apply parseredirs_ends; lia|]. intros rs l4 H4. cbn. lia.
Qed.
End fuel.

(** ** Printing commands *)

Definition word_char (c : Z) : Prop := c <> 0 /\ among whitespace c = false /\ among symbols c = false.
Definition word_ok (w : list Z) : Prop := w <> [] /\ Forall word_char w.
Definition redir_ok (mode fd : Z) : Prop :=
  (mode = O_RDONLY /\ fd = 0) \/ (mode = Z.lor O_WRONLY O_CREATE /\ fd = 1).

(** A command the shell's syntax can express. *)
Fixpoint cmd_ok (c : cmd (list Z)) : Prop :=
  match c with
  | EXEC argv => (length argv < MAXARGS)%nat /\ Forall word_ok argv
  | REDIR c file mode fd => cmd_ok c /\ word_ok file /\ redir_ok mode fd
  | PIPE l r | LIST l r => cmd_ok l /\ cmd_ok r
  | BACK c => cmd_ok c
  end.

Definition paren (b : bool) (s : list Z) : list Z := if b then [40] ++ s ++ [41] else s.
Definition show_words (ws : list (list Z)) : list Z := concat ((fun w => w ++ [32]) <$> ws).
Definition show_redir (r : list Z * Z * Z) : list Z :=
  let '(f, mode, _) := r in [if mode =? O_RDONLY then 60 else 62] ++ f ++ [32].
Definition show_redirs (rs : list (list Z * Z * Z)) : list Z := concat (show_redir <$> rs).

(** The text of a command, in parentheses where level [lvl] of the grammar asks for them:
    0 a simple command or a block, 1 a pipe, 2 background commands, 3 a list. *)
Fixpoint show (lvl : nat) (c : cmd (list Z)) : list Z :=
  match c with
  | EXEC argv => show_words argv
  | REDIR c file mode fd => show 0 c ++ show_redir (file, mode, fd)
  | PIPE l r => paren (lvl <? 1)%nat (show 0 l ++ [124] ++ show 1 r)
  | BACK c => paren (lvl <? 2)%nat (show 2 c ++ [38])
  | LIST l r => paren (lvl <? 3)%nat (show 2 l ++ [59] ++ show 3 r)
  end.

(** The text of a word of the line. *)
Definition txt (w : word) : list Z := take (length (fst w) - length (snd w)) (fst w).

(** ** Tokens of a text *)

Lemma skip_ws_idemp l : skip_ws (skip_ws l) = skip_ws l.
Proof. induction l as [|c l IH]; cbn; [done|]. destruct (among whitespace c) eqn:E; [done|]. cbn. by rewrite E. Qed.

Lemma peek_skip l toks : peek (skip_ws l) toks = peek l toks.
Proof. unfold peek. by rewrite skip_ws_idemp. Qed.
Lemma gettoken_skip l : gettoken (skip_ws l) = gettoken l.
Proof. unfold gettoken. by rewrite skip_ws_idemp. Qed.

Lemma word_char_skip c l : word_char c -> skip_ws (c :: l) = c :: l.
Proof. intros (_ & Hw & _). cbn. by rewrite Hw. Qed.

Lemma skip_word_app w l : Forall word_char w -> skip_word (w ++ 32 :: l) = 32 :: l.
Proof. induction 1 as [|c w (_ & Hw & Hs) _ IH]; [done|]. cbn [app skip_word]. by rewrite Hw, Hs. Qed.

Lemma word_char_tok c : word_char c ->
  c =? 0 = false /\ among (str "|();&<") c = false /\ c =? 62 = false.
Proof.
  intros (H0 & Hw & Hs). apply not_true_iff_false in Hs.
  assert (forall set, Forall (fun x => x <> 0) set -> set ⊆ symbols -> among set c = false) as Hset.
  { intros set Hz Hsub. apply not_true_iff_false. intros Hc. apply Hs.
    apply among_spec; [by repeat constructor|]. apply Hsub. by apply among_spec. }
  split_and!; [by apply Z.eqb_neq|apply Hset; [by repeat constructor|]|].
  - change symbols with [60; 124; 62; 38; 59; 40; 41]. change (str "|();&<") with [124; 40; 41; 59; 38; 60].
    intros x. rewrite !elem_of_cons. tauto.
  - apply Z.eqb_neq. intros ->. by apply Hs.
Qed.

Lemma gettoken_word w l : word_ok w -> gettoken (w ++ 32 :: l) = (97, (w ++ 32 :: l, 32 :: l), skip_ws l).
Proof.
  intros [Hne Hw]. destruct w as [|c w]; [done|]. inversion Hw as [|? ? Hc Hw']; subst.
  unfold gettoken. cbn [app]. rewrite word_char_skip by done. unfold token_at. change (deref (c :: w ++ 32 :: l)) with c.
  destruct (word_char_tok c Hc) as (-> & -> & ->).
  change (c :: w ++ 32 :: l) with ((c :: w) ++ 32 :: l). rewrite skip_word_app by done. done.
Qed.

Lemma peek_word w l toks : word_ok w -> Forall (fun x => x <> 0) toks -> toks ⊆ symbols ->
  peek (w ++ l) toks = (false, w ++ l).
Proof.
  intros [Hne Hw] Hz Hsub. destruct w as [|c w]; [done|]. inversion Hw as [|? ? Hc Hw']; subst.
  unfold peek. cbn [app]. rewrite word_char_skip by done. change (deref (c :: w ++ l)) with c.
  destruct Hc as (H0 & _ & Hs). f_equal. apply andb_false_iff. right. apply not_true_iff_false. intros Hc.
  apply not_true_iff_false in Hs. apply Hs. apply among_spec; [by repeat constructor|]. apply Hsub. by apply among_spec.
Qed.

Lemma txt_word w l : txt (w ++ l, l) = w.
Proof.
  unfold txt. cbn [fst snd]. rewrite length_app. replace (length w + length l - length l)%nat with (length w) by lia.
  apply take_app_length.
Qed.

(** What may follow a text of a level: the end of the line or one of a few symbols. *)
Definition stops (lvl : nat) : list Z :=
  match lvl with 0%nat => [0; 41; 59; 38; 124] | 1%nat => [0; 41; 59; 38] | 2%nat => [0; 41; 59] | _ => [0; 41] end.
Definition stop (lvl : nat) (rest : list Z) : Prop := deref (skip_ws rest) ∈ stops lvl.

Lemma stop_up lvl rest : stop (S lvl) rest -> stop lvl rest.
Proof. unfold stop. destruct lvl as [|[|[|lvl]]]; cbn [stops]; set_solver. Qed.

Lemma stop_skip lvl rest : stop lvl (skip_ws rest) <-> stop lvl rest.
Proof. unfold stop. by rewrite skip_ws_idemp. Qed.

Lemma peek_stop rest toks :
  Forall (fun x => x <> 0) toks -> deref (skip_ws rest) ∉ toks -> peek rest toks = (false, skip_ws rest).
Proof.
  intros Hz Hn. unfold peek. f_equal. apply andb_false_iff. right. apply not_true_iff_false. intros Hc.
  by apply among_spec in Hc.
Qed.

Lemma peek_sym c l toks : c <> 0 -> among whitespace c = false -> c ∈ toks -> Forall (fun x => x <> 0) toks ->
  peek (c :: l) toks = (true, c :: l).
Proof.
  intros H0 Hw Hin Hz. unfold peek. cbn [skip_ws]. rewrite Hw. change (deref (c :: l)) with c.
  rewrite (proj2 (Z.eqb_neq c 0)), (proj2 (among_spec toks c Hz)) by done. done.
Qed.

(** ** Parsing what was printed *)

(** Membership in a concrete list. *)
Ltac in_list := apply (bool_decide_unpack _); vm_compute; exact I.

(** From some number of turns on the parse gives [r]. *)
Definition settles {A} (F : nat -> pres A) (r : A) : Prop := exists N, forall n, (N <= n)%nat -> F n = POk r.

Lemma settles_S {A} (F : nat -> pres A) r : settles (fun n => F (S n)) r -> settles F r.
Proof. intros [N H]. exists (S N). intros [|n] Hn; [lia|]. apply H. lia. Qed.

Lemma settles_bind {A B} (F : nat -> pres A) (K : nat -> A -> pres B) a b :
  settles F a -> settles (fun n => K n a) b -> settles (fun n => pbind (F n) (K n)) b.
Proof.
  intros [N1 H1] [N2 H2]. exists (N1 `max` N2)%nat. intros n Hn. rewrite H1 by lia. apply H2. lia.
Qed.

Lemma settles_const {A} (a : A) : settles (fun _ => POk a) a.
Proof. by exists 0%nat. Qed.

Definition redir_txt (r : redir) : list Z * Z * Z := let '(w, mode, fd) := r in (txt w, mode, fd).

Definition redirs_ok (rs : list (list Z * Z * Z)) : Prop :=
  Forall (fun '(f, mode, fd) => word_ok f /\ redir_ok mode fd) rs.

Lemma parseredirs_shown rs rest :
  redirs_ok rs -> deref (skip_ws rest) ∉ [60; 62] ->
  exists rs', settles (fun n => parseredirs n (show_redirs rs ++ rest)) (rs', skip_ws rest) /\
    redir_txt <$> rs' = rs.
Proof.
  intros Hrs Hrest. induction Hrs as [|[[f mode] fd] rs [Hf Hr] Hrs IH].
  { exists []. split; [|done]. apply settles_S. cbn [parseredirs]. rewrite peek_stop by (done || by repeat constructor).
    apply settles_const. }
  destruct IH as (rs' & IH & <-).
  set (l := show_redirs (redir_txt <$> rs') ++ rest) in *.
  assert (show_redirs ((f, mode, fd) :: (redir_txt <$> rs')) ++ rest
    = (if mode =? O_RDONLY then 60 else 62) :: f ++ 32 :: l) as ->.
  { unfold show_redirs. cbn [fmap list_fmap concat show_redir]. unfold l, show_redirs. by rewrite <-!app_assoc. }
  remember (if mode =? O_RDONLY then 60 else 62) as c eqn:Ec.
  exists ((f ++ 32 :: l, 32 :: l, mode, fd) :: rs'). split; [|rewrite fmap_cons; cbn [redir_txt]; by rewrite txt_word].
  apply settles_S. cbn [parseredirs].
  assert (c = 60 \/ c = 62) as Hc by (subst c; case_match; auto).
  rewrite peek_sym; [|lia|destruct Hc as [-> | ->]; done|destruct Hc as [-> | ->]; in_list|by repeat constructor].
  assert (gettoken (c :: f ++ 32 :: l) = (c, (c :: f ++ 32 :: l, f ++ 32 :: l), skip_ws (f ++ 32 :: l))) as ->.
  { unfold gettoken, token_at. destruct Hc as [-> | ->]; [done|].
    destruct Hf as [Hne Hw]. destruct f as [|x f]; [done|]. inversion Hw as [|? ? Hx _]; subst.
    cbn [skip_ws]. change (among whitespace 62) with false. cbn [tail app]. change (deref (62 :: x :: f ++ 32 :: l)) with 62.
    change (deref (x :: f ++ 32 :: l)) with x. destruct (word_char_tok x Hx) as (_ & _ & ->). done. }
  rewrite gettoken_skip, gettoken_word by done. cbn [negb Z.eqb Pos.eqb].
  assert (forall w : word, (if c =? 60 then (w, O_RDONLY, 0) else (w, Z.lor O_WRONLY O_CREATE, 1)) = (w, mode, fd)) as ->.
  { subst c. destruct Hr as [[-> ->]|[-> ->]]; done. }
  apply (settles_bind _ _ (rs', skip_ws rest)); [|apply settles_const].
  destruct IH as [N IH]. exists (S N). intros [|n] Hn; [lia|]. rewrite <-(IH (S n)) by lia.
  cbn [parseredirs]. by rewrite peek_skip.
Qed.

Lemma parseargs_stop argc rest :
  stop 0 rest -> settles (fun n => parseargs n argc rest) ([], [], skip_ws rest).
Proof.
  intros Hs. apply settles_S. cbn [parseargs]. destruct (decide (deref (skip_ws rest) = 0)) as [H0|H0].
  - rewrite peek_stop; [|by repeat constructor|rewrite H0; apply (bool_decide_unpack _); vm_compute; exact I].
    assert (gettoken (skip_ws rest) = (0, (skip_ws rest, skip_ws rest), skip_ws rest)) as ->; [|apply settles_const].
    rewrite gettoken_skip. unfold gettoken, token_at. rewrite H0. cbn. by rewrite skip_ws_idemp.
  - assert (peek rest (str "|)&;") = (true, skip_ws rest)) as ->; [|apply settles_const].
    unfold peek. rewrite (proj2 (Z.eqb_neq _ 0)) by done. cbn [negb andb]. f_equal.
    apply among_spec; [by repeat constructor|]. unfold stop in Hs. cbn [stops] in Hs.
    change (str "|)&;") with [124; 41; 38; 59]. rewrite !elem_of_cons in *. tauto.
Qed.

Lemma parseargs_shown ws rs rest argc :
  Forall word_ok ws -> redirs_ok rs -> stop 0 rest -> (argc + length ws < MAXARGS)%nat -> ws <> [] ->
  exists ws' rs', settles (fun n => parseargs n argc (show_words ws ++ show_redirs rs ++ rest))
    (ws', rs', skip_ws rest) /\ txt <$> ws' = ws /\ redir_txt <$> rs' = rs.
Proof.
  intros Hws Hrs Hstop. revert argc. induction Hws as [|w ws Hw Hws IH]; intros argc Hargc Hne; [done|].
  assert (deref (skip_ws rest) ∉ [60; 62]) as Hnr.
  { unfold stop in Hstop. cbn [stops] in Hstop. intros Hin. rewrite !elem_of_cons in Hin.
    destruct Hin as [Hin|[Hin|[]%elem_of_nil]]; rewrite Hin in Hstop; revert Hstop; in_list. }
  set (l := show_words ws ++ show_redirs rs ++ rest) in *.
  assert (show_words (w :: ws) ++ show_redirs rs ++ rest = w ++ 32 :: l) as ->.
  { unfold show_words. cbn [fmap list_fmap concat]. unfold l, show_words. by rewrite <-!app_assoc. }
  assert (exists rs1 l1 ws' rs', settles (fun n => parseredirs n l) (rs1, l1) /\
      settles (fun n => parseargs n (S argc) l1) (ws', rs', skip_ws rest) /\
      txt <$> ws' = ws /\ redir_txt <$> (rs1 ++ rs') = rs) as (rs1 & l1 & ws' & rs' & S1 & S2 & E1 & E2).
  { destruct ws as [|w2 ws].
    - destruct (parseredirs_shown rs rest Hrs Hnr) as (rs1 & S1 & E1).
      exists rs1, (skip_ws rest), [], []. rewrite app_nil_r. split_and!; [exact S1| |done|done].
      pose proof (parseargs_stop (S argc) (skip_ws rest)) as Hp. rewrite skip_ws_idemp in Hp.
      by apply Hp, stop_skip.
    - destruct (IH (S argc)) as (ws' & rs' & S2 & E1 & E2); [cbn in *; lia|done|].
      exists [], l, ws', rs'. split_and!; [|done|done|done].
      assert (exists l', l = w2 ++ 32 :: l') as [l' Hl'].
      { eexists. unfold l, show_words. cbn [fmap list_fmap concat]. by rewrite <-!app_assoc. }
      apply settles_S. cbn [parseredirs]. inversion_clear Hws as [|? ? Hw2 _].
      rewrite Hl', peek_word; [apply settles_const|done|by repeat constructor|].
      intros x. change (str "<>") with [60; 62]. change symbols with [60; 124; 62; 38; 59; 40; 41].
      rewrite !elem_of_cons. tauto. }
  exists ((w ++ 32 :: l, 32 :: l) :: ws'), (rs1 ++ rs'). split_and!; [|by rewrite fmap_cons, txt_word, E1|done].
  apply settles_S. cbn [parseargs]. rewrite peek_word; [|done|by repeat constructor|].
  2:{ intros x. change (str "|)&;") with [124; 41; 38; 59]. change symbols with [60; 124; 62; 38; 59; 40; 41].
      rewrite !elem_of_cons. tauto. }
  rewrite gettoken_word by done. cbn [negb Z.eqb Pos.eqb].
  rewrite bool_decide_false by (unfold MAXARGS in *; cbn in Hargc; lia).
  apply (settles_bind _ _ (rs1, l1)).
  { destruct S1 as [N S1]. exists (S N). intros [|n] Hn; [lia|]. rewrite <-(S1 (S n)) by lia.
    cbn [parseredirs]. by rewrite peek_skip. }
  apply (settles_bind _ _ (ws', rs', skip_ws rest)); [exact S2|apply settles_const].
Qed.

Definition with_redirs (c : cmd (list Z)) (rs : list (list Z * Z * Z)) : cmd (list Z) :=
  foldl (fun c '(f, mode, fd) => REDIR c f mode fd) c rs.

Lemma add_redirs_map c rs : cmd_map txt (add_redirs c rs) = with_redirs (cmd_map txt c) (redir_txt <$> rs).
Proof.
  revert c. induction rs as [|[[w mode] fd] rs IH]; intros c; [done|]. cbn [add_redirs foldl]. apply IH.
Qed.

Lemma parseexec_skip n l : parseexec n (skip_ws l) = parseexec n l.
Proof. destruct n; [done|]. cbn [parseexec]. by rewrite peek_skip. Qed.
Lemma parsepipe_skip n l : parsepipe n (skip_ws l) = parsepipe n l.
Proof. destruct n; [done|]. cbn [parsepipe]. by rewrite parseexec_skip. Qed.
Lemma parseline_skip n l : parseline n (skip_ws l) = parseline n l.
Proof. destruct n; [done|]. cbn [parseline]. by rewrite parsepipe_skip. Qed.

(** The parser of each level gives the command back and stops before the rest. *)
Definition at_exec (c : cmd (list Z)) : Prop := forall rs rest, redirs_ok rs -> stop 0 rest ->
  exists t, settles (fun n => parseexec n (show 0 c ++ show_redirs rs ++ rest)) (t, skip_ws rest) /\
    cmd_map txt t = with_redirs c rs.
Definition at_pipe (c : cmd (list Z)) : Prop := forall rest, stop 1 rest ->
  exists t, settles (fun n => parsepipe n (show 1 c ++ rest)) (t, skip_ws rest) /\ cmd_map txt t = c.
Definition parseback_of (n : nat) (l : list Z) : pres (cmd word * list Z) :=
  plet (c, ps) := parsepipe n l in parseback n c ps.
Definition at_back (c : cmd (list Z)) : Prop := forall k rest, stop 2 rest ->
  exists t, settles (fun n => parseback_of n (show 2 c ++ replicate k 38 ++ rest)) (t, skip_ws rest) /\
    cmd_map txt t = Nat.iter k BACK c.
Definition at_line (c : cmd (list Z)) : Prop := forall rest, stop 3 rest ->
  exists t, settles (fun n => parseline n (show 3 c ++ rest)) (t, skip_ws rest) /\ cmd_map txt t = c.

Lemma stop_not lvl rest (toks : list Z) : stop lvl rest -> (forall x, x ∈ stops lvl -> x ∉ toks) -> deref (skip_ws rest) ∉ toks.
Proof. unfold stop. auto. Qed.

(** A symbol that the parser takes: [peek] sees it and [gettoken] goes past it. *)
Lemma take_symbol c l toks :
  c ∈ [124; 40; 41; 59; 38] -> c ∈ toks -> Forall (fun x => x <> 0) toks ->
  peek (c :: l) toks = (true, c :: l) /\ snd (gettoken (c :: l)) = skip_ws l.
Proof.
  intros Hc Hin Hz.
  assert (c <> 0 /\ among whitespace c = false /\ among (str "|();&<") c = true) as (H0 & Hw & Ht).
  { rewrite !elem_of_cons in Hc. by repeat destruct Hc as [->|Hc]; try apply elem_of_nil in Hc. }
  split; [by apply peek_sym|]. unfold gettoken. cbn [skip_ws]. rewrite Hw. unfold token_at.
  change (deref (c :: l)) with c. rewrite (proj2 (Z.eqb_neq c 0)), Ht by done. done.
Qed.

Lemma exec_pipe c : show 1 c = show 0 c -> at_exec c -> at_pipe c.
Proof.
  intros Hs He rest Hstop. destruct (He [] rest) as (t & St & Et); [constructor|by apply stop_up|].
  exists t. split; [|exact Et]. apply settles_S. cbn [parsepipe]. rewrite Hs.
  apply (settles_bind _ _ (t, skip_ws rest)); [exact St|]. cbn beta iota.
  rewrite peek_skip, peek_stop; [apply settles_const|by repeat constructor|].
  eapply stop_not; [exact Hstop|]. cbn [stops]. intros x Hx Hin. apply list_elem_of_singleton in Hin as ->.
  revert Hx. in_list.
Qed.

Lemma parseback_many c k rest : stop 2 rest ->
  settles (fun n => parseback n c (replicate k 38 ++ rest)) (Nat.iter k BACK c, skip_ws rest).
Proof.
  intros Hstop. revert c. induction k as [|k IH]; intros c; apply settles_S; cbn [parseback replicate app].
  - rewrite peek_stop; [apply settles_const|by repeat constructor|].
    eapply stop_not; [exact Hstop|]. cbn [stops]. intros x Hx Hin. apply list_elem_of_singleton in Hin as ->.
    revert Hx. in_list.
  - destruct (take_symbol 38 (replicate k 38 ++ rest) (str "&")) as [-> ->]; [in_list|in_list|by repeat constructor|].
    destruct (IH (BACK c)) as [N HN]. exists (S N). intros [|n] Hn; [lia|].
    rewrite Nat.iter_succ_r, <-(HN (S n)) by lia. cbn [parseback]. by rewrite peek_skip.
Qed.

Lemma pipe_back c : show 2 c = show 1 c -> at_pipe c -> at_back c.
Proof.
  intros Hs Hp k rest Hstop. destruct (Hp (replicate k 38 ++ rest)) as (t & St & Et).
  { destruct k as [|k]; [by apply stop_up|]. unfold stop. cbn. in_list. }
  exists (Nat.iter k BACK t). split; [|clear -Et; induction k as [|k IH]; [exact Et|]; rewrite !Nat.iter_succ; cbn [cmd_map]; by rewrite IH].
  unfold parseback_of. rewrite Hs. eapply (settles_bind _ _ (t, skip_ws (replicate k 38 ++ rest))); [exact St|].
  destruct (parseback_many t k rest Hstop) as [N HN]. exists (S N). intros [|n] Hn; [lia|].
  rewrite <-(HN (S n)) by lia. cbn [parseback]. by rewrite peek_skip.
Qed.

Lemma back_line c : show 3 c = show 2 c -> at_back c -> at_line c.
Proof.
  intros Hs Hb rest Hstop. destruct (Hb 0%nat rest) as (t & St & Et); [by apply stop_up|].
  exists t. split; [|exact Et]. apply settles_S.
  assert (settles (fun n => plet (c, ps) := parseback_of n (show 3 c ++ rest) in
    let '(b, ps) := peek ps (str ";") in
    if (b : bool) then plet (c', ps) := parseline n (snd (gettoken ps)) in POk (LIST c c', ps)
    else POk (c, ps)) (t, skip_ws rest)) as HS.
  { rewrite Hs. apply (settles_bind _ _ (t, skip_ws rest)); [exact St|]. cbn beta iota.
    rewrite peek_skip, peek_stop; [apply settles_const|by repeat constructor|].
    eapply stop_not; [exact Hstop|]. cbn [stops]. intros x Hx Hin. apply list_elem_of_singleton in Hin as ->.
    revert Hx. in_list. }
  destruct HS as [N HN]. exists N. intros n Hn. rewrite <-(HN n Hn). cbn [parseline]. unfold parseback_of.
  by destruct (parsepipe n (show 3 c ++ rest)) as [[? ?]| |].
Qed.

(** A block, its redirections after the parenthesis. *)
Lemma line_block c body : body = [40] ++ show 3 c ++ [41] -> at_line c ->
  forall rs rest, redirs_ok rs -> stop 0 rest ->
  exists t, settles (fun n => parseexec n (body ++ show_redirs rs ++ rest)) (t, skip_ws rest) /\
    cmd_map txt t = with_redirs c rs.
Proof.
  intros -> Hl rs rest Hrs Hstop. set (tl := show_redirs rs ++ rest).
  destruct (Hl (41 :: tl)) as (t & St & Et); [unfold stop; cbn; in_list|].
  destruct (parseredirs_shown rs rest Hrs) as (rs' & Sr & Er).
  { eapply stop_not; [exact Hstop|]. cbn [stops]. intros x. rewrite !elem_of_cons, elem_of_nil. lia. }
  exists (add_redirs t rs'). split; [|by rewrite add_redirs_map, Et, Er].
  assert (([40] ++ show 3 c ++ [41]) ++ tl = 40 :: show 3 c ++ 41 :: tl) as -> by by rewrite <-!app_assoc.
  destruct (take_symbol 40 (show 3 c ++ 41 :: tl) (str "(")) as [Hp Hg]; [in_list|in_list|by repeat constructor|].
  destruct (take_symbol 41 tl (str ")")) as [Hp' Hg']; [in_list|in_list|by repeat constructor|].
  apply settles_S. cbn [parseexec]. rewrite Hp. apply settles_S. cbn [parseblock]. rewrite Hp, Hg. cbn [negb].
  apply (settles_bind _ _ (t, 41 :: tl)).
  { destruct St as [N St]. exists N. intros n Hn. rewrite parseline_skip. by apply St. }
  rewrite Hp', Hg'. cbn [negb]. apply (settles_bind _ _ (rs', skip_ws rest)); [|apply settles_const].
  destruct Sr as [N Sr]. exists (S N). intros [|n] Hn; [lia|]. rewrite <-(Sr (S n)) by lia.
  cbn [parseredirs]. by rewrite peek_skip.
Qed.

Lemma exec_shown argv : cmd_ok (EXEC argv) -> at_exec (EXEC argv).
Proof.
  intros [Hlen Hws] rs rest Hrs Hstop. cbn [show].
  assert (deref (skip_ws rest) ∉ [60; 62]) as Hnr.
  { eapply stop_not; [exact Hstop|]. cbn [stops]. intros x. rewrite !elem_of_cons, elem_of_nil. lia. }
  destruct argv as [|w argv].
  - destruct (parseredirs_shown rs rest Hrs Hnr) as (rs' & Sr & Er).
    exists (add_redirs (EXEC []) rs'). split; [|by rewrite add_redirs_map, Er]. cbn [show_words fmap list_fmap concat app].
    apply settles_S. cbn [parseexec].
    assert (fst (peek (show_redirs rs ++ rest) (str "(")) = false) as Hp.
    { destruct Hrs as [|[[f mode] fd] rs _ _].
      - cbn [show_redirs fmap list_fmap concat app]. rewrite peek_stop; [done|by repeat constructor|].
        eapply stop_not; [exact Hstop|]. cbn [stops]. change (str "(") with [40]. intros x.
        rewrite !elem_of_cons, elem_of_nil. lia.
      - unfold show_redirs. cbn [fmap list_fmap concat show_redir app]. by destruct (mode =? O_RDONLY). }
    destruct (peek (show_redirs rs ++ rest) (str "(")) as [b l] eqn:Ep. cbn in Hp. subst b.
    assert (l = skip_ws (show_redirs rs ++ rest)) as -> by by injection Ep.
    apply (settles_bind _ _ (rs', skip_ws rest)).
    { destruct Sr as [N Sr]. exists (S N). intros [|n] Hn; [lia|]. rewrite <-(Sr (S n)) by lia.
      cbn [parseredirs]. by rewrite peek_skip. }
    apply (settles_bind _ _ ([], [], skip_ws rest)); [|rewrite app_nil_r; apply settles_const].
    pose proof (parseargs_stop 0 (skip_ws rest)) as Ha. rewrite skip_ws_idemp in Ha. by apply Ha, stop_skip.
  - destruct (parseargs_shown (w :: argv) rs rest 0) as (ws' & rs' & Sa & Ea & Er); [done..|].
    exists (add_redirs (EXEC ws') rs'). split; [|by rewrite add_redirs_map, Er; cbn [cmd_map]; rewrite Ea].
    assert (exists l', show_words (w :: argv) ++ show_redirs rs ++ rest = w ++ l') as [l' El].
    { eexists. unfold show_words. cbn [fmap list_fmap concat]. by rewrite <-!app_assoc. }
    rewrite El in *. inversion_clear Hws as [|? ? Hw _].
    apply settles_S. cbn [parseexec]. rewrite peek_word; [|done|by repeat constructor|].
    2:{ intros x. change (str "(") with [40]. change symbols with [60; 124; 62; 38; 59; 40; 41].
        rewrite !elem_of_cons, elem_of_nil. tauto. }
    apply (settles_bind _ _ ([], w ++ l')).
    + apply settles_S. cbn [parseredirs]. rewrite peek_word; [apply settles_const|done|by repeat constructor|].
      intros x. change (str "<>") with [60; 62]. change symbols with [60; 124; 62; 38; 59; 40; 41].
      rewrite !elem_of_cons. tauto.
    + apply (settles_bind _ _ (ws', rs', skip_ws rest)); [exact Sa|apply settles_const].
Qed.

Lemma redir_shown c f mode fd : cmd_ok (REDIR c f mode fd) -> at_exec c -> at_exec (REDIR c f mode fd).
Proof.
  intros (_ & Hf & Hr) Hc rs rest Hrs Hstop.
  destruct (Hc ((f, mode, fd) :: rs) rest) as (t & St & Et); [by constructor|done|].
  exists t. split; [|exact Et]. cbn [show]. unfold show_redirs in *. cbn [fmap list_fmap concat] in St.
  by rewrite <-app_assoc in St |- *.
Qed.

Lemma pipe_shown l r : at_exec l -> at_pipe r -> at_pipe (PIPE l r).
Proof.
  intros Hl Hr rest Hstop. destruct (Hr rest Hstop) as (tr & Sr & Er).
  destruct (Hl [] (124 :: show 1 r ++ rest)) as (tl & Sl & El); [constructor|unfold stop; cbn; in_list|].
  exists (PIPE tl tr). split; [|cbn [cmd_map]; by rewrite El, Er].
  cbn [show Nat.ltb Nat.leb paren]. rewrite <-!app_assoc. cbn [app].
  apply settles_S. cbn [parsepipe]. apply (settles_bind _ _ (tl, 124 :: show 1 r ++ rest)); [exact Sl|].
  destruct (take_symbol 124 (show 1 r ++ rest) (str "|")) as [-> ->]; [in_list|in_list|by repeat constructor|].
  apply (settles_bind _ _ (tr, skip_ws rest)); [|apply settles_const].
  destruct Sr as [N Sr]. exists N. intros n Hn. rewrite parsepipe_skip. by apply Sr.
Qed.

Lemma back_shown c : at_back c -> at_back (BACK c).
Proof.
  intros Hc k rest Hstop. destruct (Hc (S k) rest Hstop) as (t & St & Et).
  exists t. split; [|by rewrite Et, Nat.iter_succ_r]. cbn [show Nat.ltb Nat.leb paren]. by rewrite <-app_assoc.
Qed.

Lemma list_shown l r : at_back l -> at_line r -> at_line (LIST l r).
Proof.
  intros Hl Hr rest Hstop. destruct (Hr rest Hstop) as (tr & Sr & Er).
  destruct (Hl 0%nat (59 :: show 3 r ++ rest)) as (tl & Sl & El); [unfold stop; cbn; in_list|].
  exists (LIST tl tr). split; [|cbn [cmd_map]; by rewrite El, Er].
  cbn [show Nat.ltb Nat.leb paren]. rewrite <-!app_assoc. cbn [app replicate] in *.
  apply settles_S. cbn [parseline].
  destruct (take_symbol 59 (show 3 r ++ rest) (str ";")) as [Hp Hg]; [in_list|in_list|by repeat constructor|].
  destruct Sl as [N Sl], Sr as [M Sr]. exists (N `max` M)%nat. intros n Hn. specialize (Sl n ltac:(lia)).
  unfold parseback_of in Sl. destruct (parsepipe n _) as [[c1 ps1]| |]; [|done|done]. cbn [pbind] in *.
  rewrite Sl. cbn [pbind]. change (skip_ws (59 :: show 3 r ++ rest)) with (59 :: show 3 r ++ rest).
  rewrite Hp, Hg, parseline_skip, (Sr n) by lia. done.
Qed.

(** Every level of the grammar reads back what was printed for it. *)
Lemma shown c : cmd_ok c -> at_exec c /\ at_pipe c /\ at_back c /\ at_line c.
Proof.
  induction c as [argv|c IH f mode fd|l IHl r IHr|l IHl r IHr|c IH]; intros Hok.
  - pose proof (exec_shown argv Hok) as He. pose proof (exec_pipe (EXEC argv) eq_refl He) as Hp.
    pose proof (pipe_back (EXEC argv) eq_refl Hp) as Hb. eauto using back_line.
  - pose proof (redir_shown c f mode fd Hok (proj1 (IH (proj1 Hok)))) as He.
    pose proof (exec_pipe (REDIR c f mode fd) eq_refl He) as Hp.
    pose proof (pipe_back (REDIR c f mode fd) eq_refl Hp) as Hb. eauto using back_line.
  - destruct (IHl (proj1 Hok)) as (Hl & _), (IHr (proj2 Hok)) as (_ & Hr & _).
    pose proof (pipe_shown l r Hl Hr) as Hp. pose proof (pipe_back (PIPE l r) eq_refl Hp) as Hb.
    pose proof (back_line (PIPE l r) eq_refl Hb) as Hline. split_and!; [|done..].
    exact (line_block (PIPE l r) _ eq_refl Hline).
  - destruct (IHl (proj1 Hok)) as (_ & _ & Hl & _), (IHr (proj2 Hok)) as (_ & _ & _ & Hr).
    pose proof (list_shown l r Hl Hr) as Hline.
    pose proof (line_block (LIST l r) _ eq_refl Hline : at_exec (LIST l r)) as He.
    pose proof (exec_pipe (LIST l r) eq_refl He) as Hp. pose proof (pipe_back (LIST l r) eq_refl Hp) as Hb. done.
  - pose proof (back_shown c (proj1 (proj2 (proj2 (IH Hok))))) as Hb.
    pose proof (back_line (BACK c) eq_refl Hb) as Hline.
    pose proof (line_block (BACK c) _ eq_refl Hline : at_exec (BACK c)) as He.
    pose proof (exec_pipe (BACK c) eq_refl He) as Hp. done.
Qed.

(** ** More turns do not change a parse that has ended *)

Section mono.
Definition below {A} (m m' : pres A) : Prop := m = PFuel \/ m = m'.

Lemma below_refl {A} (m : pres A) : below m m.
Proof. by right. Qed.
Lemma below_bind {A B} (m m' : pres A) (k k' : A -> pres B) :
  below m m' -> (forall a, below (k a) (k' a)) -> below (pbind m k) (pbind m' k').
Proof. intros [->|<-] Hk; [by left|]. destruct m as [a| |]; [apply Hk|by right|by right]. Qed.

#[local] Hint Resolve below_refl below_bind : core.

Lemma parseredirs_more n l : below (parseredirs n l) (parseredirs (S n) l).
Proof.
  revert l. induction n as [|n IH]; intros l; [by left|]. remember (S n) as m. rewrite Heqm at 1. cbn [parseredirs].
  destruct (peek l (str "<>")) as [[] l1]; [|auto]. destruct (gettoken l1) as [[tok w1] l2].
  destruct (gettoken l2) as [[t w] l3]. destruct (negb (t =? 97)); [auto|]. subst m. apply below_bind; [auto|].
  intros [rs l4]. auto.
Qed.

Lemma parseargs_more n argc l : below (parseargs n argc l) (parseargs (S n) argc l).
Proof.
  revert argc l. induction n as [|n IH]; intros argc l; [by left|]. remember (S n) as m. rewrite Heqm at 1.
  cbn [parseargs]. destruct (peek l (str "|)&;")) as [[] l1]; [auto|].
  destruct (gettoken l1) as [[tok w] l2]. destruct (tok =? 0); [auto|]. destruct (negb (tok =? 97)); [auto|].
  destruct (bool_decide _); [auto|]. subst m. apply below_bind; [apply parseredirs_more|]. intros [rs l3].
  apply below_bind; [auto|]. intros [[ws rs'] l4]. auto.
Qed.

Lemma parseback_more n c l : below (parseback n c l) (parseback (S n) c l).
Proof.
  revert c l. induction n as [|n IH]; intros c l; [by left|]. remember (S n) as m. rewrite Heqm at 1.
  cbn [parseback]. destruct (peek l (str "&")) as [[] l1]; [|auto]. subst m. auto.
Qed.

Lemma parser_more n l :
  below (parseline n l) (parseline (S n) l) /\ below (parsepipe n l) (parsepipe (S n) l) /\
  below (parseexec n l) (parseexec (S n) l) /\ below (parseblock n l) (parseblock (S n) l).
Proof.
  revert l. induction n as [|n IH]; intros l; [by split_and!; left|]. remember (S n) as m. rewrite Heqm at 1 3 5 7.
  split_and!.
  - cbn [parseline]. subst m. apply below_bind; [apply IH|]. intros [c l1].
    apply below_bind; [apply parseback_more|]. intros [c' l2]. destruct (peek l2 (str ";")) as [[] l3]; [|auto].
    apply below_bind; [apply IH|]. intros [c2 l4]. auto.
  - cbn [parsepipe]. subst m. apply below_bind; [apply IH|]. intros [c l1].
    destruct (peek l1 (str "|")) as [[] l3]; [|auto]. apply below_bind; [apply IH|]. intros [c2 l4]. auto.
  - cbn [parseexec]. destruct (peek l (str "(")) as [[] l1]; subst m; [apply IH|].
    apply below_bind; [apply parseredirs_more|]. intros [rs l2].
    apply below_bind; [apply parseargs_more|]. intros [[ws rs'] l3]. auto.
  - cbn [parseblock]. destruct (peek l (str "(")) as [[] l1]; [|auto]. cbn [negb]. subst m.
    apply below_bind; [apply IH|]. intros [c l2]. destruct (peek l2 (str ")")) as [[] l3]; [|auto]. cbn [negb].
    apply below_bind; [apply parseredirs_more|]. intros [rs l4]. auto.
Qed.

Lemma parseline_settles l r :
  settles (fun n => parseline n l) r -> parseline (parse_fuel (length l)) l = POk r.
Proof.
  intros [N HN].
  pose proof (proj1 (parser_ends (parse_fuel (length l)) l)) as He. unfold parse_fuel in *. specialize (He ltac:(lia)).
  set (f := (4 * length l + 4)%nat) in *.
  assert (forall k, parseline (k + f) l = parseline f l) as Hk; [|rewrite <-(Hk N); apply HN; lia].
  induction k as [|k IH]; [done|]. destruct (proj1 (parser_more (k + f) l)) as [H|H]; [|by rewrite <-IH, H].
  rewrite IH in H. by rewrite H in He.
Qed.
End mono.

(** ** The words of the tree and nulterminate *)

Section words.
Variable line : list Z.

(** A word of the line: a run of word characters that no word character follows. *)
Definition word_in (w : word) : Prop :=
  fst w `suffix_of` line /\ exists t, fst w = t ++ snd w /\ Forall word_char t /\ ~ word_char (deref (snd w)).

Fixpoint tree_words (c : cmd word) : list word :=
  match c with
  | EXEC argv => argv
  | REDIR c f _ _ => tree_words c ++ [f]
  | PIPE l r | LIST l r => tree_words l ++ tree_words r
  | BACK c => tree_words c
  end.

(** What a parse gives: a value with [P], and a position in the line. *)
Definition gives {A} (P : A -> Prop) (m : pres (A * list Z)) : Prop :=
  match m with POk (a, l) => P a /\ l `suffix_of` line | _ => True end.

Lemma gives_bind {A B} (P : A -> Prop) (Q : B -> Prop) (m : pres (A * list Z)) k :
  gives P m -> (forall a l, P a -> l `suffix_of` line -> gives Q (k (a, l))) -> gives Q (pbind m k).
Proof. destruct m as [[a l]| |]; cbn; [|done|done]. intros [Ha Hl] Hk. auto. Qed.

Lemma skip_ws_suffix l : skip_ws l `suffix_of` l.
Proof.
  induction l as [|c l IH]; cbn; [done|]. destruct (among whitespace c); [|done]. by apply suffix_cons_r.
Qed.

Lemma skip_word_suffix l : exists t, l = t ++ skip_word l /\ ~ word_char (deref (skip_word l)) /\
  (Forall (fun c => c <> 0) l -> Forall word_char t).
Proof.
  induction l as [|c l (t & Ht & Hn & Hw)]; cbn [skip_word].
  { exists []. split_and!; [done| |by constructor]. by intros [H _]. }
  destruct (among whitespace c) eqn:E1; cbn [negb andb].
  { exists []. split_and!; [done| |by constructor]. intros (_ & H & _). change (among whitespace c = false) in H. congruence. }
  destruct (among symbols c) eqn:E2; cbn [negb andb].
  { exists []. split_and!; [done| |by constructor]. intros (_ & _ & H). change (among symbols c = false) in H. congruence. }
  exists (c :: t). split_and!; [cbn; by f_equal|done|]. inversion_clear 1. constructor; [done|auto].
Qed.

Hypothesis nonzero : Forall (fun c => c <> 0) line.

Lemma suffix_nonzero l : l `suffix_of` line -> Forall (fun c => c <> 0) l.
Proof. intros [p ->]. by apply Forall_app in nonzero as [_ ?]. Qed.

Lemma tail_suffix (l : list Z) : tail l `suffix_of` l.
Proof. destruct l; cbn; [done|]. by apply suffix_cons_r. Qed.

Lemma gettoken_word_in l tok w l' :
  l `suffix_of` line -> gettoken l = (tok, w, l') -> l' `suffix_of` line /\ (tok = 97 -> word_in w).
Proof.
  intros Hl. unfold gettoken. assert (skip_ws l `suffix_of` line) as Hs by (etrans; [apply skip_ws_suffix|done]).
  destruct (token_at (skip_ws l)) as [ret e] eqn:Et. intros [= <- <- <-].
  assert (e `suffix_of` skip_ws l /\ (ret = 97 -> word_in (skip_ws l, e))) as [He Hw].
  { unfold token_at in Et. destruct (deref (skip_ws l) =? 0); [simplify_eq; by split|].
    destruct (among (str "|();&<") (deref (skip_ws l))) eqn:Ea.
    { simplify_eq. split; [apply tail_suffix|]. intros H. by rewrite H in Ea. }
    destruct (deref (skip_ws l) =? 62).
    { destruct (deref (tail (skip_ws l)) =? 62); simplify_eq; split; try done; [|apply tail_suffix].
      etrans; apply tail_suffix. }
    simplify_eq. destruct (skip_word_suffix (skip_ws l)) as (t & Ht & Hn & Hw). split; [by exists t|]. intros _.
    split; [exact Hs|]. exists t. cbn [fst snd]. auto using suffix_nonzero. }
  split; [|exact Hw]. etrans; [apply skip_ws_suffix|]. by etrans.
Qed.

Lemma peek_suffix l toks b l' : l `suffix_of` line -> peek l toks = (b, l') -> l' `suffix_of` line.
Proof. intros Hl [= _ <-]. etrans; [apply skip_ws_suffix|done]. Qed.

Lemma gettoken_suffix l : l `suffix_of` line -> snd (gettoken l) `suffix_of` line.
Proof. intros Hl. destruct (gettoken l) as [[tok w] l'] eqn:E. by eapply gettoken_word_in. Qed.

Definition redirs_in (rs : list redir) : Prop := Forall (fun '(w, _, _) => word_in w) rs.
Definition tree_in (c : cmd word) : Prop := Forall word_in (tree_words c).

Lemma parseredirs_gives n l : l `suffix_of` line -> gives redirs_in (parseredirs n l).
Proof.
  revert l. induction n as [|n IH]; intros l Hl; [done|]. cbn [parseredirs].
  destruct (peek l (str "<>")) as [b l1] eqn:E1. apply peek_suffix in E1; [|done].
  destruct b; [|split; [constructor|done]].
  destruct (gettoken l1) as [[tok w1] l2] eqn:E2. apply gettoken_word_in in E2 as [E2 _]; [|done].
  destruct (gettoken l2) as [[t w] l3] eqn:E3. apply gettoken_word_in in E3 as [E3 Hw]; [|done].
  destruct (Z.eqb_spec t 97) as [Ht|]; [|done]. cbn [negb]. eapply gives_bind; [apply IH; exact E3|].
  intros rs l4 Hrs Hl4. split; [|done]. constructor; [|done]. destruct (tok =? 60); auto.
Qed.

Lemma parseargs_gives n argc l : l `suffix_of` line ->
  gives (fun '(ws, rs) => Forall word_in ws /\ redirs_in rs) (parseargs n argc l).
Proof.
  revert argc l. induction n as [|n IH]; intros argc l Hl; [done|]. cbn [parseargs].
  destruct (peek l (str "|)&;")) as [b l1] eqn:E1. apply peek_suffix in E1; [|done].
  assert (Forall word_in [] /\ redirs_in []) as Hnil by by split; constructor.
  destruct b; [by split|]. destruct (gettoken l1) as [[tok w] l2] eqn:E2. apply gettoken_word_in in E2 as [E2 Hw]; [|done].
  destruct (tok =? 0); [by split|]. destruct (Z.eqb_spec tok 97) as [Ht|]; [|done]. cbn [negb].
  destruct (bool_decide _); [done|]. eapply gives_bind; [apply parseredirs_gives; exact E2|].
  intros rs l3 Hrs Hl3. eapply gives_bind; [apply IH; exact Hl3|]. intros [ws rs'] l4 [Hws Hrs'] Hl4.
  split; [|done]. split; [constructor; auto|]. by apply Forall_app.
Qed.

Lemma parseback_gives n c l : tree_in c -> l `suffix_of` line -> gives tree_in (parseback n c l).
Proof.
  revert c l. induction n as [|n IH]; intros c l Hc Hl; [done|]. cbn [parseback].
  destruct (peek l (str "&")) as [b l1] eqn:E1. apply peek_suffix in E1; [|done].
  destruct b; [|done]. apply IH; [exact Hc|]. by apply gettoken_suffix.
Qed.

Lemma add_redirs_in c rs : tree_in c -> redirs_in rs -> tree_in (add_redirs c rs).
Proof.
  intros Hc Hrs. revert c Hc. induction Hrs as [|[[w mode] fd] rs Hw Hrs IH]; intros c Hc; [done|].
  apply (IH (REDIR c w mode fd)). apply Forall_app. split; [done|]. by constructor.
Qed.

Lemma parser_gives n l : l `suffix_of` line ->
  gives tree_in (parseline n l) /\ gives tree_in (parsepipe n l) /\
  gives tree_in (parseexec n l) /\ gives tree_in (parseblock n l).
Proof.
  revert l. induction n as [|n IH]; intros l Hl; [by split_and!|]. split_and!.
  - cbn [parseline]. eapply gives_bind; [by apply IH|]. intros c l1 Hc H1.
    eapply gives_bind; [by apply parseback_gives|]. intros c' l2 Hc' H2.
    destruct (peek l2 (str ";")) as [b l3] eqn:E. apply peek_suffix in E; [|done]. destruct b; [|done].
    eapply gives_bind; [by apply IH, gettoken_suffix|]. intros c2 l4 Hc2 H4. split; [|done]. by apply Forall_app.
  - cbn [parsepipe]. eapply gives_bind; [by apply IH|]. intros c l1 Hc H1.
    destruct (peek l1 (str "|")) as [b l3] eqn:E. apply peek_suffix in E; [|done]. destruct b; [|done].
    eapply gives_bind; [by apply IH, gettoken_suffix|]. intros c2 l4 Hc2 H4. split; [|done]. by apply Forall_app.
  - cbn [parseexec]. destruct (peek l (str "(")) as [b l1] eqn:E. apply peek_suffix in E; [|done].
    destruct b; [by apply IH|]. eapply gives_bind; [by apply parseredirs_gives|]. intros rs l2 Hrs H2.
    eapply gives_bind; [by apply parseargs_gives|]. intros [ws rs'] l3 [Hws Hrs'] H3. split; [|done].
    apply add_redirs_in; [exact Hws|]. by apply Forall_app.
  - cbn [parseblock]. destruct (peek l (str "(")) as [b l1] eqn:E. apply peek_suffix in E; [|done].
    destruct b; [|done]. cbn [negb]. eapply gives_bind; [by apply IH, gettoken_suffix|]. intros c l2 Hc H2.
    destruct (peek l2 (str ")")) as [b l3] eqn:E3. apply peek_suffix in E3; [|done]. destruct b; [|done]. cbn [negb].
    eapply gives_bind; [by apply parseredirs_gives, gettoken_suffix|]. intros rs l4 Hrs H4. split; [|done].
    by apply add_redirs_in.
Qed.

Lemma parse_gives c ps : parse line = POk (c, ps) -> tree_in c.
Proof.
  unfold parse. pose proof (proj1 (parser_gives (parse_fuel (length line)) line ltac:(done))) as Hg.
  destruct (parseline _ line) as [[c' l]| |]; cbn; [|done|done]. intros [= <- _]. by apply Hg.
Qed.

(** nulterminate writes a NUL at the end of each word of the tree and nothing else. *)
Definition put_nuls (ws : list word) (buf : list Z) : list Z := foldl (fun buf w => put_nul line (snd w) buf) buf ws.

Lemma nulterminate_eq c buf : nulterminate line c buf = put_nuls (tree_words c) buf.
Proof.
  unfold put_nuls. revert buf. induction c as [argv|c IH f mode fd|l IHl r IHr|l IHl r IHr|c IH]; intros buf;
    cbn [nulterminate tree_words]; rewrite ?foldl_app; [done| | | |by apply IH].
  - by rewrite IH.
  - by rewrite IHr, IHl.
  - by rewrite IHr, IHl.
Qed.

Lemma put_nuls_length ws buf : length (put_nuls ws buf) = length buf.
Proof.
  unfold put_nuls. revert buf. induction ws as [|w ws IH]; intros buf; [done|]. cbn [foldl]. rewrite IH.
  apply length_insert.
Qed.

Lemma put_nuls_keep ws buf i :
  Forall (fun w => (length line - length (snd w))%nat <> i) ws -> put_nuls ws buf !! i = buf !! i.
Proof.
  unfold put_nuls. intros Hws. revert buf. induction Hws as [|w ws Hw _ IH]; intros buf; [done|]. cbn [foldl].
  rewrite IH. by apply list_lookup_insert_ne.
Qed.

Lemma put_nuls_zero ws buf i : buf !! i = Some 0 -> put_nuls ws buf !! i = Some 0.
Proof.
  unfold put_nuls. revert buf. induction ws as [|w ws IH]; intros buf Hi; [done|]. cbn [foldl]. apply IH.
  unfold put_nul. destruct (decide (i = (length line - length (snd w))%nat)) as [->|Hne].
  - apply list_lookup_insert_eq. by eapply lookup_lt_Some.
  - by rewrite list_lookup_insert_ne.
Qed.

Lemma put_nuls_end ws buf w : w ∈ ws -> (length line < length buf)%nat ->
  put_nuls ws buf !! (length line - length (snd w))%nat = Some 0.
Proof.
  unfold put_nuls. revert buf. induction ws as [|w' ws IH]; intros buf Hw Hlen; [by apply elem_of_nil in Hw|].
  cbn [foldl]. apply elem_of_cons in Hw as [<-|Hw].
  - apply put_nuls_zero. apply list_lookup_insert_eq. lia.
  - apply IH; [done|]. unfold put_nul. by rewrite length_insert.
Qed.

Lemma cstr_stop t l : Forall (fun c => c <> 0) t -> cstr (t ++ 0 :: l) = t.
Proof.
  unfold cstr. induction 1 as [|c t Hc _ IH]; [done|]. cbn [app strlen]. rewrite (proj2 (Z.eqb_neq c 0)) by done.
  cbn [take]. by rewrite IH.
Qed.

(** No word of the tree ends inside a word. *)
Lemma ends_outside p t e w j :
  line = p ++ t ++ e -> Forall word_char t -> word_in w -> (j < length t)%nat ->
  (length line - length (snd w))%nat <> (length p + j)%nat.
Proof.
  intros Hline Ht (Hs & t2 & Hf & _ & Hend) Hj Heq. apply Hend. destruct Hs as [q Hq]. rewrite Hf in Hq.
  assert (line !! (length p + j)%nat = t !! j) as H1.
  { rewrite Hline, lookup_app_r by lia. rewrite lookup_app_l by lia. f_equal. lia. }
  destruct (lookup_lt_is_Some_2 t j Hj) as [c Hc]. assert (word_char c) as Hw.
  { eapply Forall_lookup_1; [exact Ht|exact Hc]. }
  assert (head (snd w) = Some c) as Hh; [|unfold deref; by rewrite Hh].
  rewrite head_lookup, <-Hc, <-H1, Hq, app_assoc, lookup_app_r; rewrite Hq, !length_app in Heq; rewrite length_app.
  - f_equal. lia.
  - lia.
Qed.

Lemma string_at_word c w : tree_in c -> w ∈ tree_words c ->
  string_at line (nulterminate line c (line ++ [0])) (fst w) = txt w.
Proof.
  intros Hc Hw. pose proof (proj1 (list.Forall_forall _ _) Hc w Hw) as ([p Hp] & t & Hf & Ht & _).
  unfold string_at, txt. rewrite nulterminate_eq. set (buf := put_nuls _ _).
  rewrite Hf in Hp |- *. rewrite length_app, Nat.add_sub, take_app_length.
  assert (buf !! (length p + length t)%nat = Some 0) as Hz.
  { replace (length p + length t)%nat with (length line - length (snd w))%nat by (rewrite Hp, !length_app; lia).
    apply put_nuls_end; [done|]. rewrite length_app. cbn. lia. }
  replace (length line - (length t + length (snd w)))%nat with (length p) by (rewrite Hp, !length_app; lia).
  assert (exists l, drop (length p) buf = t ++ 0 :: l) as [l ->].
  2:{ apply cstr_stop. eapply list.Forall_impl; [exact Ht|]. by intros ? []. }
  exists (drop (S (length t)) (drop (length p) buf)).
  rewrite <-(take_drop (length t) (drop (length p) buf)) at 1. f_equal.
  - apply list_eq. intros j. destruct (decide (j < length t)%nat) as [Hj|Hj].
    2:{ rewrite (proj2 (lookup_ge_None t j)) by lia. apply lookup_ge_None. rewrite length_take. lia. }
    rewrite lookup_take_lt by lia. rewrite lookup_drop. unfold buf. rewrite put_nuls_keep.
    + rewrite Hp, <-!app_assoc, lookup_app_r, Nat.add_sub' by lia. rewrite lookup_app_l by lia. done.
    + eapply list.Forall_impl; [exact Hc|]. intros w2 Hw2. by eapply ends_outside.
  - rewrite <-lookup_drop in Hz. by rewrite (drop_S _ 0 _ Hz).
Qed.

Lemma parsed_words c : tree_in c -> parsed line c = cmd_map txt c.
Proof.
  intros Hc. unfold parsed. set (buf := nulterminate _ _ _).
  assert (forall w, w ∈ tree_words c -> string_at line buf (fst w) = txt w) as Hw by (intros w; by apply string_at_word).
  clearbody buf. clear Hc. induction c as [argv|c IH f mode fd|l IHl r IHr|l IHl r IHr|c IH]; cbn [cmd_map].
  - f_equal. apply list_fmap_ext. intros i w Hi. apply Hw. by eapply list_elem_of_lookup_2.
  - rewrite IH, Hw; [done| |]; intros; [|apply Hw]; apply elem_of_app; [right; by apply list_elem_of_singleton|by left].
  - rewrite IHl, IHr; [done| |]; intros; apply Hw, elem_of_app; auto.
  - rewrite IHl, IHr; [done| |]; intros; apply Hw, elem_of_app; auto.
  - by rewrite IH.
Qed.
End words.

(** ** Running a command *)

Section running.
Context {SY : Sys}.

(** Whatever the kernel answers, the program does not return. *)
Definition exits {A} (m : U A) : Prop := forall s o s', runs m s o s' -> o = None.

Lemma exits_uexit {A} : exits (A := A) uexit.
Proof. intros s o s' H. by eapply runs_det in H as [<- _]; [|apply runs_exit]. Qed.

Lemma exits_bind {A B} (m : U A) (k : A -> U B) : (forall a, exits (k a)) -> exits (ubind m k).
Proof. intros Hk s o s' H. apply runs_bind_inv in H as ([a|] & s1 & _ & H); [by eapply Hk|by destruct H]. Qed.

Lemma exits_panic {A} msg : exits (A := A) (panic msg).
Proof. apply exits_bind. intros _. apply exits_uexit. Qed.

Lemma runcmd_exits c : exits (runcmd c).
Proof.
  pose proof (@exits_uexit unit) as Hex. pose proof (@exits_panic unit) as Hp.
  destruct c as [[|prog argv]|c f mode fd|c1 c2|c1 c2|c]; cbn [runcmd]; auto;
    repeat (apply exits_bind; intros); repeat case_match; repeat (apply exits_bind; intros); auto.
Qed.
End running.

(** What the shell relies on in the kernel's table of open files.  [ends_of r w]: the read and the
    write end of one pipe. *)
Class FdTable {SY : Sys} := {
  ofile : Type;
  ends_of : ofile -> ofile -> Prop;
  fds : sys_state -> gmap Z ofile;
  close_fd fd s : fds (fst (sys (Close fd) s)) = delete fd (fds s);
  (** dup gives the lowest free descriptor *)
  dup_fd fd s f new : fds s !! fd = Some f -> new = 0 \/ new = 1 -> fds s !! new = None ->
    (forall g, 0 <= g < new -> is_Some (fds s !! g)) ->
    fds (fst (sys (Dup fd) s)) = <[new := f]> (fds s);
  pipe_fd s s' p0 p1 : sys User.Pipe s = (s', (0, (p0, p1))) ->
    exists r w, ends_of r w /\ fds s !! p0 = None /\ fds s !! p1 = None /\ p0 <> p1 /\
      fds s' = <[p1 := w]> (<[p0 := r]> (fds s));
  fork_fd s : fds (fst (sys Fork s)) = fds s;
  wait_fd s : fds (fst (sys Wait s)) = fds s
}.

Section plumbing.
Context {SY : Sys} {FT : FdTable}.

Lemma runs_call {A B} (e : sysE A) (k : A -> U B) s o s' :
  runs (k (snd (sys e s))) (fst (sys e s)) o s' -> runs (let* a := ucall e in k a) s o s'.
Proof. apply runs_bind, runs_ucall. by destruct (sys e s). Qed.

Lemma runs_fork1 {B} (k : Z -> U B) s o s' :
  0 <= snd (sys Fork s) -> runs (k (snd (sys Fork s))) (fst (sys Fork s)) o s' -> runs (let* pid := fork1 in k pid) s o s'.
Proof.
  intros Hpid Hk. eapply runs_bind; [|exact Hk]. unfold fork1. apply runs_call.
  rewrite (proj2 (Z.eqb_neq _ _)) by lia. apply runs_ret.
Qed.

(** The descriptors of a child that puts [fd], an end of the pipe, in place of [new]. *)
Lemma child_fds (m : gmap Z ofile) p0 p1 r w new f :
  m !! p0 = None -> m !! p1 = None -> is_Some (m !! new) ->
  delete p1 (delete p0 (<[new := f]> (delete new (<[p1 := w]> (<[p0 := r]> m))))) = <[new := f]> m.
Proof.
  intros H0 H1 [x Hx]. apply map_eq. intros i.
  destruct (decide (i = p1)) as [->|]; [rewrite lookup_delete_eq, lookup_insert_ne by congruence; congruence|].
  rewrite lookup_delete_ne by done.
  destruct (decide (i = p0)) as [->|]; [rewrite lookup_delete_eq, lookup_insert_ne by congruence; congruence|].
  rewrite lookup_delete_ne by done.
  destruct (decide (i = new)) as [->|]; [by rewrite !lookup_insert_eq|].
  by rewrite !lookup_insert_ne, lookup_delete_ne, !lookup_insert_ne by done.
Qed.

Lemma parent_fds (m : gmap Z ofile) p0 p1 r w :
  m !! p0 = None -> m !! p1 = None -> delete p1 (delete p0 (<[p1 := w]> (<[p0 := r]> m))) = m.
Proof.
  intros H0 H1. apply map_eq. intros i.
  destruct (decide (i = p1)) as [->|]; [by rewrite lookup_delete_eq|]. rewrite lookup_delete_ne by done.
  destruct (decide (i = p0)) as [->|]; [by rewrite lookup_delete_eq|].
  by rewrite lookup_delete_ne, !lookup_insert_ne.
Qed.

(** A child closes [new], dups the end [fd] of the pipe there and closes both ends. *)
Lemma runs_child c m p0 p1 r w new fd f s o s' :
  fds s = <[p1 := w]> (<[p0 := r]> m) -> m !! p0 = None -> m !! p1 = None -> p0 <> p1 ->
  is_Some (m !! 0) -> is_Some (m !! 1) -> (new = 0 \/ new = 1) -> fds s !! fd = Some f -> fd <> new ->
  exists t, fds t = <[new := f]> m /\
    (runs (runcmd c) t o s' ->
     runs (do* ucall (Close new) in do* ucall (Dup fd) in do* ucall (Close p0) in do* ucall (Close p1) in runcmd c) s o s').
Proof.
  intros Es H0 H1 Hne Hm0 Hm1 Hnew Hfd Hfn. eexists. split; [|intros Hc; do 4 apply runs_call; exact Hc].
  rewrite !close_fd. erewrite (dup_fd fd _ f new); [rewrite close_fd, Es; apply child_fds| | | |]; try done.
  - by destruct Hnew as [-> | ->].
  - by rewrite close_fd, lookup_delete_ne.
  - by rewrite close_fd, lookup_delete_eq.
  - intros g Hg. assert (g = 0) as -> by lia. assert (new = 1) as -> by lia.
    rewrite close_fd, lookup_delete_ne, Es, !lookup_insert_ne; try done; intros ->; destruct Hm0; congruence.
Qed.
End plumbing.

(** A table of 16 descriptors for examples; fork answers what it is told to. *)
Module FdDemo.
Record fdk : Type := mkFdk { k_fds : gmap Z nat; k_pipes : nat; k_forks : list Z }.
Definition lowest (m : gmap Z nat) : option Z := snd <$> list_find (fun g => m !! g = None) (seqZ 0 16).
Definition answer {T} (e : sysE T) (k : fdk) : fdk * T :=
  match e in sysE T return fdk * T with
  | Close fd => (mkFdk (delete fd (k_fds k)) (k_pipes k) (k_forks k), 0)
  | Dup fd =>
    match k_fds k !! fd, lowest (k_fds k) with
    | Some f, Some new => (mkFdk (<[new := f]> (k_fds k)) (k_pipes k) (k_forks k), new)
    | _, _ => (k, -1)
    end
  | User.Pipe =>
    let r := (100 + 2 * k_pipes k)%nat in
    match lowest (k_fds k) with
    | Some p0 =>
      match lowest (<[p0 := r]> (k_fds k)) with
      | Some p1 => (mkFdk (<[p1 := S r]> (<[p0 := r]> (k_fds k))) (S (k_pipes k)) (k_forks k), (0, (p0, p1)))
      | None => (k, (-1, (0, 0)))
      end
    | None => (k, (-1, (0, 0)))
    end
  | Fork => (mkFdk (k_fds k) (k_pipes k) (tail (k_forks k)), default (-1) (head (k_forks k)))
  | Read _ _ => (k, (-1, []))
  | Fstat _ => (k, (-1, mkUstat 0 0 0 0 0))
  | _ => (k, -1)
  end.

#[local] Instance fd_sys : Sys := {| sys_state := fdk; sys T e k := answer e k |}.

Lemma lowest_free m g : lowest m = Some g -> m !! g = None.
Proof.
  unfold lowest. destruct (list_find _ _) as [[i x]|] eqn:E; cbn; [|done]. intros [= <-].
  by apply list_find_Some in E as (_ & H & _).
Qed.

Lemma lowest_first m g : m !! g = None -> g = 0 \/ g = 1 -> (forall h, 0 <= h < g -> is_Some (m !! h)) -> lowest m = Some g.
Proof.
  intros Hg [-> | ->] Hlow; unfold lowest; cbn [seqZ list_find].
  - change (seqZ 0 16) with (0 :: seqZ 1 15). cbn [list_find]. by rewrite decide_True.
  - change (seqZ 0 16) with (0 :: 1 :: seqZ 2 14). cbn [list_find]. rewrite decide_False, decide_True; try done.
    destruct (Hlow 0 ltac:(lia)) as [x ->]. done.
Qed.

#[local] Program Instance fd_table : FdTable := {|
  ofile := nat;
  ends_of r w := w = S r;
  fds := k_fds
|}.
Next Obligation. done. Qed.
Next Obligation.
  intros fd s f new Hf Hnew Hfree Hlow. simpl. by rewrite Hf, (lowest_first _ new).
Qed.
Next Obligation.
  intros s s' p0 p1. simpl. destruct (lowest (k_fds s)) as [q0|] eqn:E0; [|done].
  destruct (lowest (<[q0 := _]> (k_fds s))) as [q1|] eqn:E1; [|done]. intros [= <- <- <-].
  apply lowest_free in E0, E1. do 2 eexists. split; [reflexivity|].
  assert (q0 <> q1) as Hne by (intros ->; by rewrite lookup_insert_eq in E1).
  rewrite lookup_insert_ne in E1 by done. done.
Qed.
Next Obligation. done. Qed.
Next Obligation. done. Qed.

(** The console on descriptors 0, 1 and 2. *)
Definition console (forks : list Z) : @sys_state fd_sys :=
  mkFdk {[0 := 1%nat; 1 := 1%nat; 2 := 1%nat]} 0 forks.
End FdDemo.

(** ** The properties *)

(** C34. The shell's parser ends on every line: its recursive calls and its loops all consume
    some of the line, so that [parse_fuel] turns are enough. *)
Theorem parse_terminates (line : list Z) : parse line <> PFuel.
Proof.
  unfold parse. pose proof (proj1 (parser_ends (parse_fuel (length line)) line)) as He.
  unfold parse_fuel in *. specialize (He ltac:(lia)). by destruct (parseline _ line) as [[c l]| |].
Qed.

Lemma show_nonzero lvl c : cmd_ok c -> Forall (fun x => x <> 0) (show lvl c).
Proof.
  assert (forall w, word_ok w -> Forall (fun x => x <> 0) w) as Hword.
  { intros w [_ Hw]. eapply list.Forall_impl; [exact Hw|]. by intros ? []. }
  assert (forall b s, Forall (fun x => x <> 0) s -> Forall (fun x => x <> 0) (paren b s)) as Hparen.
  { intros [] s Hs; [|done]. apply Forall_app. split; [by repeat constructor|]. apply Forall_app. by repeat constructor. }
  assert (forall l r (c : Z), Forall (fun x => x <> 0) l -> Forall (fun x => x <> 0) r -> c <> 0 ->
    Forall (fun x => x <> 0) (l ++ [c] ++ r)) as Happ.
  { intros l r x Hl Hr Hx. apply Forall_app. split; [done|]. by constructor. }
  revert lvl. induction c as [argv|c IH f mode fd|l IHl r IHr|l IHl r IHr|c IH]; intros lvl; cbn [show cmd_ok].
  - intros [_ Hws]. unfold show_words. induction Hws as [|w ws Hw _ IHw]; [constructor|].
    cbn [fmap list_fmap concat]. rewrite <-app_assoc. apply (Happ w _ 32); [by apply Hword|exact IHw|lia].
  - intros (Hc & Hf & _). apply Forall_app. split; [by apply IH|]. cbn [show_redir].
    constructor; [by case_match|]. apply Forall_app. split; [by apply Hword|by repeat constructor].
  - intros [Hl Hr]. apply Hparen, Happ; [by apply IHl|by apply IHr|lia].
  - intros [Hl Hr]. apply Hparen, Happ; [by apply IHl|by apply IHr|lia].
  - intros Hc. apply Hparen. apply Forall_app. split; [by apply IH|by repeat constructor].
Qed.

Lemma skip_ws_all ws : Forall (fun c => c ∈ whitespace) ws -> skip_ws ws = [].
Proof.
  induction 1 as [|c ws Hc _ IH]; [done|]. cbn [skip_ws].
  rewrite (proj2 (among_spec whitespace c ltac:(by repeat constructor)) Hc). exact IH.
Qed.

(** C33. parsecmd reads back every command that the shell's syntax can express: printed with its
    parentheses, followed by white space and a NUL, the line is parsed to the command itself,
    each word of it a NUL-terminated string of the buffer. *)
Theorem parsecmd_show (c : cmd (list Z)) (ws junk : list Z) :
  cmd_ok c -> Forall (fun x => x ∈ whitespace) ws -> parsecmd (show 3 c ++ ws ++ 0 :: junk) = uret c.
Proof.
  intros Hc Hws. unfold parsecmd.
  assert (Forall (fun x => x <> 0) (show 3 c ++ ws)) as Hz.
  { apply Forall_app. split; [by apply show_nonzero|]. eapply list.Forall_impl; [exact Hws|]. intros x Hx ->. revert Hx.
    in_list. }
  rewrite app_assoc, cstr_stop by done. set (line := show 3 c ++ ws) in *.
  destruct (proj2 (proj2 (proj2 (shown c Hc))) ws) as (t & St & Et).
  { unfold stop. rewrite skip_ws_all by done. in_list. }
  assert (parse line = POk (t, [])) as Hp.
  { unfold parse. rewrite (parseline_settles line _ St), skip_ws_all by done. done. }
  rewrite Hp. f_equal. rewrite <-Et. apply parsed_words. by eapply parse_gives.
Qed.

Lemma parsecmd_show_witness :
  parsecmd (str "(cat <in | wc & ; echo done ;echo)>out" ++ [10; 0]) =
  uret (REDIR (LIST (BACK (PIPE (REDIR (EXEC [str "cat"]) (str "in") 0 0) (EXEC [str "wc"])))
         (LIST (EXEC [str "echo"; str "done"]) (EXEC [str "echo"]))) (str "out") 513 1) /\
  parsecmd (show 3 (PIPE (EXEC [str "cat"; str "a"]) (BACK (EXEC [str "wc"]))) ++ [10] ++ 0 :: [65]) =
  uret (PIPE (EXEC [str "cat"; str "a"]) (BACK (EXEC [str "wc"]))).
Proof.
  split; [vm_compute; reflexivity|]. apply parsecmd_show.
  - split; (split; [unfold MAXARGS; cbn; lia|]);
      repeat (apply List.Forall_cons || apply List.Forall_nil); (split; [discriminate|]);
      repeat (apply List.Forall_cons || apply List.Forall_nil); repeat split; (discriminate || reflexivity).
  - apply List.Forall_cons; [in_list|apply List.Forall_nil].
Defined.



(** runcmd does not return to the shell's loop, whatever the command and whatever the kernel
    answers: the child that runs a command ends in exit. *)
Theorem runcmd_never_returns {SY : Sys} (c : cmd (list Z)) s o s' : runs (runcmd c) s o s' -> o = None.
Proof. apply runcmd_exits. Qed.

Lemma runcmd_never_returns_witness :
  runs (H := FdDemo.fd_sys) (runcmd (EXEC [])) (FdDemo.console []) None (FdDemo.console []) /\ @None unit = None.
Proof.
  assert (runs (H := FdDemo.fd_sys) (runcmd (EXEC [])) (FdDemo.console []) None (FdDemo.console [])) as H
    by apply runs_exit.
  split; [exact H|]. exact (runcmd_never_returns (SY := FdDemo.fd_sys) (EXEC []) _ _ _ H).
Defined.

(** C36. A pipeline: the first child runs its command with the write end of a new pipe as
    descriptor 1 and every other descriptor as it was, the second with the read end as
    descriptor 0, neither with any other end of the pipe open; the parent closes both ends and
    exits after waiting twice. *)
Theorem runcmd_pipe {SY : Sys} {FT : FdTable} (c1 c2 : cmd (list Z)) s s1 p0 p1 :
  sys User.Pipe s = (s1, (0, (p0, p1))) -> is_Some (fds s !! 0) -> is_Some (fds s !! 1) -> 0 <= snd (sys Fork s1) ->
  exists r w, ends_of r w /\
  let pid1 := snd (sys Fork s1) in let s2 := fst (sys Fork s1) in
  let pid2 := snd (sys Fork s2) in
  (pid1 = 0 -> forall o s', exists t, fds t = <[1 := w]> (fds s) /\
     (runs (runcmd c1) t o s' -> runs (runcmd (PIPE c1 c2)) s o s')) /\
  (0 < pid1 -> pid2 = 0 -> forall o s', exists t, fds t = <[0 := r]> (fds s) /\
     (runs (runcmd c2) t o s' -> runs (runcmd (PIPE c1 c2)) s o s')) /\
  (0 < pid1 -> 0 < pid2 -> exists s', fds s' = fds s /\ runs (runcmd (PIPE c1 c2)) s None s').
Proof.
  intros Hp H0 H1 Hf. destruct (pipe_fd s s1 p0 p1 Hp) as (r & w & Hrw & F0 & F1 & Hne & Es1).
  exists r, w. split; [done|]. intros pid1 s2 pid2.
  assert (p0 <> 0 /\ p0 <> 1 /\ p1 <> 0 /\ p1 <> 1) as (N1 & N2 & N3 & N4).
  { destruct H0 as [? H0], H1 as [? H1]. repeat split; intros ->; congruence. }
  assert (fds s2 = fds s1) as Es2 by apply fork_fd. split_and!.
  - intros Hpid o s'.
    destruct (runs_child c1 (fds s) p0 p1 r w 1 p1 w s2 o s') as (t & Et & Ht); try done; auto.
    { by rewrite Es2. } { by rewrite Es2, Es1, lookup_insert_eq. }
    exists t. split; [exact Et|]. intros Hc. cbn [runcmd]. apply runs_call. rewrite Hp. cbn [fst snd].
    apply runs_fork1; [done|]. fold pid1 s2. rewrite Hpid. pose proof (runcmd_exits _ _ _ _ Hc) as ->. by apply runs_bind_exit, Ht.
  - intros Hpid Hpid2 o s'. assert (fds (fst (sys Fork s2)) = fds s1) as Es3 by (by rewrite fork_fd).
    destruct (runs_child c2 (fds s) p0 p1 r w 0 p0 r (fst (sys Fork s2)) o s') as (t & Et & Ht); try done; auto.
    { by rewrite Es3. } { by rewrite Es3, Es1, lookup_insert_ne, lookup_insert_eq. }
    exists t. split; [exact Et|]. intros Hc. cbn [runcmd]. apply runs_call. rewrite Hp. cbn [fst snd].
    apply runs_fork1; [done|]. fold pid1 s2. rewrite (proj2 (Z.eqb_neq pid1 0)) by lia.
    eapply runs_bind; [apply runs_ret|]. apply runs_fork1; [fold pid2; lia|]. fold pid2. rewrite Hpid2.
    pose proof (runcmd_exits _ _ _ _ Hc) as ->. by apply runs_bind_exit, Ht.
  - intros Hpid Hpid2. eexists. split.
    2:{ cbn [runcmd]. apply runs_call. rewrite Hp. cbn [fst snd].
        apply runs_fork1; [done|]. fold pid1 s2. rewrite (proj2 (Z.eqb_neq pid1 0)) by lia.
        eapply runs_bind; [apply runs_ret|]. apply runs_fork1; [fold pid2; lia|]. fold pid2.
        rewrite (proj2 (Z.eqb_neq pid2 0)) by lia. eapply runs_bind; [apply runs_ret|].
        do 4 apply runs_call. apply runs_exit. }
    rewrite !wait_fd, !close_fd, fork_fd, Es2, Es1. by apply parent_fds.
Qed.

Lemma runcmd_pipe_witness :
  exists r w, w = S r /\ exists s',
    FdDemo.k_fds s' = FdDemo.k_fds (FdDemo.console [7; 8]) /\
    runs (H := FdDemo.fd_sys) (runcmd (PIPE (EXEC [str "ls"]) (EXEC [str "wc"]))) (FdDemo.console [7; 8]) None s'.
Proof.
  destruct (runcmd_pipe (SY := FdDemo.fd_sys) (FT := FdDemo.fd_table) (EXEC [str "ls"]) (EXEC [str "wc"])
    (FdDemo.console [7; 8]) (fst (sys (Sys := FdDemo.fd_sys) User.Pipe (FdDemo.console [7; 8]))) 3 4)
    as (r & w & Hrw & _ & _ & Hparent).
  - vm_compute. reflexivity.
  - exists 1%nat. vm_compute. reflexivity.
  - exists 1%nat. vm_compute. reflexivity.
  - vm_compute. discriminate.
  - exists r, w. split; [exact Hrw|]. apply Hparent; vm_compute; reflexivity.
Defined.
