(* ===== verification/Usertests.v ===== *)
(** * The tests of the kernel (usertests.c)

    Every test is a user program.  [buf] is the global buffer that the tests share; a test that
    reads into it returns it.  Pointers that a test makes up are addresses, used by the events for
    loads and stores.  What the tests find when they run on the kernel is in Testrun.v. *)

From Stdlib Require Import ZArith Lia.
From stdpp Require Import base list gmap strings numbers.
From S2P Require Import Prelude Machine Cstring Cprintf Layout Fs Sysfile User Ulib Umalloc.
From stdpp Require Import list.
From ITree Require Import ITree.
Local Open Scope Z_scope.
Local Open Scope user_scope.

Definition BUFSIZE : Z := 8192.
Definition stdout : Z := 1.

(** [printf(stdout, msg)] with a newline, and the same followed by exit when the test has failed. *)
Definition say (msg : string) : U unit := uprintn stdout msg [].
Definition fail {A} (msg : string) : U A := do* say msg in uexit.
Definition failif (bad : bool) (msg : string) : U unit := if bad then fail msg else uret tt.

(** [read(fd, buf, n)]: the value and the buffer after it. *)
Definition read_buf (fd n : Z) (buf : list Z) : U (Z * list Z) :=
  let* r := ucall (Read fd n) in
  uret (fst r, splice 0 (snd r) buf).

(** [buf[i]] of an array of [char] *)
Definition at_ (buf : list Z) (i : nat) : Z := default 0 (buf !! i).

(** A name of two characters. *)
Definition name2 (a b : Z) : list Z := cstr [u8 a; u8 b].

(** ** Inodes of removed directories *)

Definition iputtest : U unit :=
  do* say "iput test" in
  let* r := ucall (Mkdir (str "iputdir")) in
  do* failif (r <? 0) "mkdir failed" in
  let* r := ucall (Chdir (str "iputdir")) in
  do* failif (r <? 0) "chdir iputdir failed" in
  let* r := ucall (Unlink (str "../iputdir")) in
  do* failif (r <? 0) "unlink ../iputdir failed" in
  let* r := ucall (Chdir (str "/")) in
  do* failif (r <? 0) "chdir / failed" in
  say "iput test ok".

Definition exitiputtest : U unit :=
  do* say "exitiput test" in
  let* pid := ucall Fork in
  do* failif (pid <? 0) "fork failed" in
  if pid =? 0 then
    let* r := ucall (Mkdir (str "iputdir")) in
    do* failif (r <? 0) "mkdir failed" in
    let* r := ucall (Chdir (str "iputdir")) in
    do* failif (r <? 0) "child chdir failed" in
    let* r := ucall (Unlink (str "../iputdir")) in
    do* failif (r <? 0) "unlink ../iputdir failed" in
    uexit
  else
    do* ucall Wait in
    say "exitiput test ok".

Definition openiputtest : U unit :=
  do* say "openiput test" in
  let* r := ucall (Mkdir (str "oidir")) in
  do* failif (r <? 0) "mkdir oidir failed" in
  let* pid := ucall Fork in
  do* failif (pid <? 0) "fork failed" in
  if pid =? 0 then
    let* fd := ucall (Open (str "oidir") O_RDWR) in
    do* failif (fd >=? 0) "open directory for write succeeded" in
    uexit
  else
    do* ucall (Sleep 1) in
    let* r := ucall (Unlink (str "oidir")) in
    do* failif (negb (r =? 0)) "unlink failed" in
    do* ucall Wait in
    say "openiput test ok".

(** ** Simple file system tests *)

Definition opentest : U unit :=
  do* say "open test" in
  let* fd := ucall (Open (str "echo") 0) in
  do* failif (fd <? 0) "open echo failed!" in
  do* ucall (Close fd) in
  let* fd := ucall (Open (str "doesnotexist") 0) in
  do* failif (fd >=? 0) "open doesnotexist succeeded!" in
  say "open test ok".

Definition writetest (buf : list Z) : U (list Z) :=
  do* say "small file test" in
  let* fd := ucall (Open (str "small") (Z.lor O_CREATE O_RDWR)) in
  do* (if fd >=? 0 then say "creat small succeeded; ok" else fail "error: creat small failed!") in
  do* ufor (seqZ 0 100) (fun i =>
    let* r := ucall (Write fd (str "aaaaaaaaaa")) in
    do* (if negb (r =? 10) then do* uprintn stdout "error: write aa %d new file failed" [AInt i] in uexit else uret tt) in
    let* r := ucall (Write fd (str "bbbbbbbbbb")) in
    if negb (r =? 10) then do* uprintn stdout "error: write bb %d new file failed" [AInt i] in uexit else uret tt) in
  do* say "writes ok" in
  do* ucall (Close fd) in
  let* fd := ucall (Open (str "small") O_RDONLY) in
  do* (if fd >=? 0 then say "open small succeeded ok" else fail "error: open small failed!") in
  let* r := read_buf fd 2000 buf in
  let '(i, buf) := r in
  do* (if i =? 2000 then say "read succeeded ok" else fail "read failed") in
  do* ucall (Close fd) in
  let* r := ucall (Unlink (str "small")) in
  do* failif (r <? 0) "unlink small failed" in
  do* say "small file test ok" in
  uret buf.

(** The first int of the buffer. *)
Definition int0 (buf : list Z) : Z := s32 (Layout.get 4 buf 0).

(** [for(;;)] of writetest1: block [n] is next. *)
Definition big_read (fd : Z) (st : Z * list Z) : U (Z * list Z + list Z) :=
  let '(n, buf) := st in
  let* r := read_buf fd 512 buf in
  let '(i, buf) := r in
  if i =? 0 then
    if n =? MAXFILE - 1 then do* uprint stdout "read only %d blocks from big" [AInt n] in uexit
    else uret (inr buf)
  else if negb (i =? 512) then do* uprintn stdout "read failed %d" [AInt i] in uexit
  else if negb (int0 buf =? n) then do* uprintn stdout "read content of block %d is %d" [AInt n; AInt (int0 buf)] in uexit
  else uret (inl (n + 1, buf)).

Fixpoint big_write (fd : Z) (ks : list Z) (buf : list Z) : U (list Z) :=
  match ks with
  | [] => uret buf
  | i :: ks' =>
    let buf := put 4 0 i buf in
    let* r := ucall (Write fd (take 512 buf)) in
    do* failif (negb (r =? 512)) "error: write big file failed" in
    big_write fd ks' buf
  end.

Definition writetest1 (buf : list Z) : U (list Z) :=
  do* say "big files test" in
  let* fd := ucall (Open (str "big") (Z.lor O_CREATE O_RDWR)) in
  do* failif (fd <? 0) "error: creat big failed!" in
  let* buf := big_write fd (seqZ 0 MAXFILE) buf in
  do* ucall (Close fd) in
  let* fd := ucall (Open (str "big") O_RDONLY) in
  do* failif (fd <? 0) "error: open big failed!" in
  let* buf := uloop (big_read fd) (0, buf) in
  do* ucall (Close fd) in
  let* r := ucall (Unlink (str "big")) in
  do* failif (r <? 0) "unlink big failed" in
  do* say "big files ok" in
  uret buf.

Definition createtest : U unit :=
  do* say "many creates, followed by unlink test" in
  do* ufor (seqZ 0 52) (fun i =>
    let* fd := ucall (Open (name2 97 (48 + i)) (Z.lor O_CREATE O_RDWR)) in
    do* ucall (Close fd) in uret tt) in
  do* ufor (seqZ 0 52) (fun i => do* ucall (Unlink (name2 97 (48 + i))) in uret tt) in
  say "many creates, followed by unlink; ok".

Definition dirtest : U unit :=
  do* say "mkdir test" in
  let* r := ucall (Mkdir (str "dir0")) in
  do* failif (r <? 0) "mkdir failed" in
  let* r := ucall (Chdir (str "dir0")) in
  do* failif (r <? 0) "chdir dir0 failed" in
  let* r := ucall (Chdir (str "..")) in
  do* failif (r <? 0) "chdir .. failed" in
  let* r := ucall (Unlink (str "dir0")) in
  do* failif (r <? 0) "unlink dir0 failed" in
  say "mkdir test ok".

Definition echoargv : list (list Z) := [str "echo"; str "ALL"; str "TESTS"; str "PASSED"].

Definition exectest : U unit :=
  do* say "exec test" in
  let* r := ucall (Exec (str "echo") echoargv) in
  failif (r <? 0) "exec echo failed".

(** ** Processes and pipes *)

(** [for(;;) ;] *)
Definition forever {A} : U A := uloop (fun _ : unit => uret (inl tt)) tt.

(** The child of pipe1 writes [n] more pieces, starting with the byte [seq]. *)
Fixpoint pipe1_write (n : nat) (fd seq : Z) (buf : list Z) : U unit :=
  match n with
  | O => uret tt
  | S n' =>
    let buf := splice 0 (u8 <$> seqZ seq 1033) buf in
    let* r := ucall (Write fd (take 1033 buf)) in
    do* failif (negb (r =? 1033)) "pipe1 oops 1" in
    pipe1_write n' fd (seq + 1033) buf
  end.

(** [while((n = read(fds[0], buf, cc)) > 0)]: left with the total, or with [None] by the return. *)
Definition pipe1_read (fd : Z) (st : Z * Z * Z * list Z) : U (Z * Z * Z * list Z + option Z * list Z) :=
  let '(seq, total, cc, buf) := st in
  let* r := read_buf fd cc buf in
  let '(n, buf) := r in
  if n >? 0 then
    if negb (bool_decide ((fun b => Z.land b 0xff) <$> take (Z.to_nat n) buf = (fun s => Z.land s 0xff) <$> seqZ seq n)) then
      do* say "pipe1 oops 2" in uret (inr (None, buf))
    else
      let cc := cc * 2 in
      uret (inl (seq + n, total + n, (if cc >? BUFSIZE then BUFSIZE else cc), buf))
  else uret (inr (Some total, buf)).

Definition pipe1 (buf : list Z) : U (list Z) :=
  let* r := ucall Pipe in
  let '(r, (fd0, fd1)) := r in
  do* failif (negb (r =? 0)) "pipe() failed" in
  let* pid := ucall Fork in
  if pid =? 0 then
    do* ucall (Close fd0) in
    do* pipe1_write 5 fd1 0 buf in
    uexit
  else if pid >? 0 then
    do* ucall (Close fd1) in
    let* r := uloop (pipe1_read fd0) (0, 0, 1, buf) in
    match r with
    | (None, buf) => uret buf
    | (Some total, buf) =>
      do* (if negb (total =? 5 * 1033) then do* uprintn 1 "pipe1 oops 3 total %d" [AInt total] in uexit else uret tt) in
      do* ucall (Close fd0) in
      do* ucall Wait in
      do* say "pipe1 ok" in
      uret buf
    end
  else fail "fork() failed".

Definition preempt (buf : list Z) : U (list Z) :=
  do* uprint 1 "preempt: " [] in
  let* pid1 := ucall Fork in
  do* (if pid1 =? 0 then forever else uret tt) in
  let* pid2 := ucall Fork in
  do* (if pid2 =? 0 then forever else uret tt) in
  let* r := ucall Pipe in
  let '(_, (pfd0, pfd1)) := r in
  let* pid3 := ucall Fork in
  do* (if pid3 =? 0 then
         do* ucall (Close pfd0) in
         let* r := ucall (Write pfd1 (str "x")) in
         do* (if negb (r =? 1) then uprint 1 "preempt write error" [] else uret tt) in
         do* ucall (Close pfd1) in
         forever
       else uret tt) in
  do* ucall (Close pfd1) in
  let* r := read_buf pfd0 BUFSIZE buf in
  let '(n, buf) := r in
  if negb (n =? 1) then do* uprint 1 "preempt read error" [] in uret buf else
  do* ucall (Close pfd0) in
  do* uprint 1 "kill... " [] in
  do* ucall (Kill pid1) in
  do* ucall (Kill pid2) in
  do* ucall (Kill pid3) in
  do* uprint 1 "wait... " [] in
  do* ucall Wait in
  do* ucall Wait in
  do* ucall Wait in
  do* say "preempt ok" in
  uret buf.

(** [n] turns are left; a return leaves the test. *)
Fixpoint exitwait_loop (n : nat) : U unit :=
  match n with
  | O => say "exitwait ok"
  | S n' =>
    let* pid := ucall Fork in
    if pid <? 0 then say "fork failed" else
    if negb (pid =? 0) then
      let* r := ucall Wait in
      if negb (r =? pid) then say "wait wrong pid" else exitwait_loop n'
    else uexit
  end.
Definition exitwait : U unit := exitwait_loop 100.

(** The loops of mem: allocate until there is no more, each block holding the address of the one
    before; and free them all. *)
Definition mem_take (base : Z) (st : Z * uheap) : U (Z * uheap + Z * uheap) :=
  let '(m1, h) := st in
  let* r := malloc base 10001 h in
  let '(m2, h) := r in
  if negb (m2 =? 0) then uret (inl (m2, mkHeap (stm m2 m1 (uh_mem h)) (uh_freep h))) else uret (inr (m1, h)).
Definition mem_give (st : Z * uheap) : U (Z * uheap + uheap) :=
  let '(m1, h) := st in
  if m1 =? 0 then uret (inr h) else
  let m2 := ldm (uh_mem h) m1 in
  let* h := free m1 h in
  uret (inl (m2, h)).

(** [base] is the address of a variable of malloc. *)
Definition mem (base : Z) : U unit :=
  do* say "mem test" in
  let* ppid := ucall Getpid in
  let* pid := ucall Fork in
  if pid =? 0 then
    let* r := uloop (mem_take base) (0, mkHeap ∅ 0) in
    let* h := uloop mem_give r in
    let* r := malloc base (1024 * 20) h in
    let '(m1, h) := r in
    do* (if m1 =? 0 then do* say "couldn't allocate mem?!!" in do* ucall (Kill ppid) in uexit else uret tt) in
    do* free m1 h in
    do* say "mem ok" in
    uexit
  else do* ucall Wait in uret tt.

(** ** More file system tests *)

(** [for(i = 0; i < 1000; i++)]; a failed write leaves the loop. *)
Fixpoint shared_write (n : nat) (fd c : Z) : U unit :=
  match n with
  | O => uret tt
  | S n' =>
    let* r := ucall (Write fd (replicate 10 c)) in
    if negb (r =? 10) then say "fstests: write sharedfd failed" else shared_write n' fd c
  end.

Definition count (c : Z) (l : list Z) : Z := Z.of_nat (length (filter (fun x => x = c) l)).

Definition shared_read (fd : Z) (st : Z * Z * list Z) : U (Z * Z * list Z + Z * Z) :=
  let '(nc, np, buf) := st in
  let* r := read_buf fd 10 buf in
  let '(n, buf) := r in
  if n >? 0 then uret (inl (nc + count 99 buf, np + count 112 buf, buf)) else uret (inr (nc, np)).

Definition sharedfd : U unit :=
  do* say "sharedfd test" in
  do* ucall (Unlink (str "sharedfd")) in
  let* fd := ucall (Open (str "sharedfd") (Z.lor O_CREATE O_RDWR)) in
  if fd <? 0 then uprint 1 "fstests: cannot open sharedfd for writing" [] else
  let* pid := ucall Fork in
  let c := if pid =? 0 then 99 else 112 in
  do* shared_write 1000 fd c in
  do* (if pid =? 0 then uexit else do* ucall Wait in uret tt) in
  do* ucall (Close fd) in
  let* fd := ucall (Open (str "sharedfd") 0) in
  if fd <? 0 then say "fstests: cannot open sharedfd for reading" else
  let* r := uloop (shared_read fd) (0, 0, replicate 10 c) in
  let '(nc, np) := r in
  do* ucall (Close fd) in
  do* ucall (Unlink (str "sharedfd")) in
  if (nc =? 10000) && (np =? 10000) then say "sharedfd ok"
  else do* uprintn 1 "sharedfd oops %d %d" [AInt nc; AInt np] in uexit.

Definition fname (i : Z) : list Z := name2 102 (48 + i).

(** The child of fourfiles for file [pi]. *)
Definition four_child (pi : Z) : U unit :=
  let* fd := ucall (Open (fname pi) (Z.lor O_CREATE O_RDWR)) in
  do* failif (fd <? 0) "create failed" in
  do* ufor (seqZ 0 12) (fun _ =>
    let* n := ucall (Write fd (replicate 500 (48 + pi))) in
    if negb (n =? 500) then do* uprintn 1 "write failed %d" [AInt n] in uexit else uret tt) in
  uexit.

Definition four_read (fd i : Z) (st : Z * list Z) : U (Z * list Z + Z * list Z) :=
  let '(total, buf) := st in
  let* r := read_buf fd BUFSIZE buf in
  let '(n, buf) := r in
  if n >? 0 then
    do* failif (negb (forallb (Z.eqb (48 + i)) (take (Z.to_nat n) buf))) "wrong char" in
    uret (inl (total + n, buf))
  else uret (inr (total, buf)).

Fixpoint four_check (ks : list Z) (buf : list Z) : U (list Z) :=
  match ks with
  | [] => uret buf
  | i :: ks' =>
    let* fd := ucall (Open (fname i) 0) in
    let* r := uloop (four_read fd i) (0, buf) in
    let '(total, buf) := r in
    do* ucall (Close fd) in
    do* (if negb (total =? 12 * 500) then do* uprintn 1 "wrong length %d" [AInt total] in uexit else uret tt) in
    do* ucall (Unlink (fname i)) in
    four_check ks' buf
  end.

Definition fourfiles (buf : list Z) : U (list Z) :=
  do* say "fourfiles test" in
  do* ufor (seqZ 0 4) (fun pi =>
    do* ucall (Unlink (fname pi)) in
    let* pid := ucall Fork in
    do* failif (pid <? 0) "fork failed" in
    if pid =? 0 then four_child pi else uret tt) in
  do* ufor (seqZ 0 4) (fun _ => do* ucall Wait in uret tt) in
  let* buf := four_check (seqZ 0 2) buf in
  do* say "fourfiles ok" in
  uret buf.

Definition CD_N : Z := 20.

Definition cd_child (pi : Z) : U unit :=
  do* ufor (seqZ 0 CD_N) (fun i =>
    let* fd := ucall (Open (name2 (112 + pi) (48 + i)) (Z.lor O_CREATE O_RDWR)) in
    do* failif (fd <? 0) "create failed" in
    do* ucall (Close fd) in
    if (i >? 0) && (i mod 2 =? 0) then
      let* r := ucall (Unlink (name2 (112 + pi) (48 + i / 2))) in
      failif (r <? 0) "unlink failed"
    else uret tt) in
  uexit.

Definition cd_check (i pi : Z) : U unit :=
  let name := name2 (112 + pi) (48 + i) in
  let* fd := ucall (Open name 0) in
  do* (if ((i =? 0) || (i >=? CD_N / 2)) && (fd <? 0) then
         do* uprintn 1 "oops createdelete %s didn't exist" [AStr (Some name)] in uexit
       else if ((i >=? 1) && (i <? CD_N / 2)) && (fd >=? 0) then
         do* uprintn 1 "oops createdelete %s did exist" [AStr (Some name)] in uexit
       else uret tt) in
  if fd >=? 0 then do* ucall (Close fd) in uret tt else uret tt.

(** The names that the last loops of createdelete remove. *)
Definition cd_unlink : U unit :=
  ufor (seqZ 0 CD_N) (fun i => ufor (seqZ 0 4) (fun _ => do* ucall (Unlink (name2 (112 + i) (48 + i))) in uret tt)).

Definition createdelete : U unit :=
  do* say "createdelete test" in
  do* ufor (seqZ 0 4) (fun pi =>
    let* pid := ucall Fork in
    do* failif (pid <? 0) "fork failed" in
    if pid =? 0 then cd_child pi else uret tt) in
  do* ufor (seqZ 0 4) (fun _ => do* ucall Wait in uret tt) in
  do* ufor (seqZ 0 CD_N) (fun i => ufor (seqZ 0 4) (cd_check i)) in
  do* cd_unlink in
  say "createdelete ok".

Definition unlinkread (buf : list Z) : U (list Z) :=
  do* say "unlinkread test" in
  let* fd := ucall (Open (str "unlinkread") (Z.lor O_CREATE O_RDWR)) in
  do* failif (fd <? 0) "create unlinkread failed" in
  do* ucall (Write fd (str "hello")) in
  do* ucall (Close fd) in
  let* fd := ucall (Open (str "unlinkread") O_RDWR) in
  do* failif (fd <? 0) "open unlinkread failed" in
  let* r := ucall (Unlink (str "unlinkread")) in
  do* failif (negb (r =? 0)) "unlink unlinkread failed" in
  let* fd1 := ucall (Open (str "unlinkread") (Z.lor O_CREATE O_RDWR)) in
  do* ucall (Write fd1 (str "yyy")) in
  do* ucall (Close fd1) in
  let* r := read_buf fd BUFSIZE buf in
  let '(n, buf) := r in
  do* (if negb (n =? 5) then do* uprint 1 "unlinkread read failed" [] in uexit else uret tt) in
  do* failif (negb (at_ buf 0 =? 104)) "unlinkread wrong data" in
  let* r := ucall (Write fd (take 10 buf)) in
  do* failif (negb (r =? 10)) "unlinkread write failed" in
  do* ucall (Close fd) in
  do* ucall (Unlink (str "unlinkread")) in
  do* say "unlinkread ok" in
  uret buf.

Definition linktest (buf : list Z) : U (list Z) :=
  do* say "linktest" in
  do* ucall (Unlink (str "lf1")) in
  do* ucall (Unlink (str "lf2")) in
  let* fd := ucall (Open (str "lf1") (Z.lor O_CREATE O_RDWR)) in
  do* failif (fd <? 0) "create lf1 failed" in
  let* r := ucall (Write fd (str "hello")) in
  do* failif (negb (r =? 5)) "write lf1 failed" in
  do* ucall (Close fd) in
  let* r := ucall (Link (str "lf1") (str "lf2")) in
  do* failif (r <? 0) "link lf1 lf2 failed" in
  do* ucall (Unlink (str "lf1")) in
  let* r := ucall (Open (str "lf1") 0) in
  do* failif (r >=? 0) "unlinked lf1 but it is still there!" in
  let* fd := ucall (Open (str "lf2") 0) in
  do* failif (fd <? 0) "open lf2 failed" in
  let* r := read_buf fd BUFSIZE buf in
  let '(n, buf) := r in
  do* failif (negb (n =? 5)) "read lf2 failed" in
  do* ucall (Close fd) in
  let* r := ucall (Link (str "lf2") (str "lf2")) in
  do* failif (r >=? 0) "link lf2 lf2 succeeded! oops" in
  do* ucall (Unlink (str "lf2")) in
  let* r := ucall (Link (str "lf2") (str "lf1")) in
  do* failif (r >=? 0) "link non-existant succeeded! oops" in
  let* r := ucall (Link (str ".") (str "lf1")) in
  do* failif (r >=? 0) "link . lf1 succeeded! oops" in
  do* say "linktest ok" in
  uret buf.

(** The file of turn [i] of concreate. *)
Definition cfile (i : Z) : list Z := name2 67 (48 + i).

(** The scan of the directory: [fa] marks the files seen, [n] counts them, [de] is the entry. *)
Definition con_scan (fd : Z) (st : list Z * Z * list Z) : U (list Z * Z * list Z + Z) :=
  let '(fa, n, de) := st in
  let* r := read_buf fd 16 de in
  let '(cc, de) := r in
  if negb (cc >? 0) then uret (inr n) else
  if de_inum de =? 0 then uret (inl (fa, n, de)) else
  let name := de_name de in
  if (at_ name 0 =? 67) && (at_ name 2 =? 0) then
    let i := at_ name 1 - 48 in
    if (i <? 0) || (i >=? 40) then do* uprintn 1 "concreate weird file %s" [AStr (Some name)] in uexit else
    if negb (at_ fa (Z.to_nat i) =? 0) then do* uprintn 1 "concreate duplicate file %s" [AStr (Some name)] in uexit else
    uret (inl (<[Z.to_nat i := 1]> fa, n + 1, de))
  else uret (inl (fa, n, de)).

Definition con_make (i : Z) : U unit :=
  let file := cfile i in
  do* ucall (Unlink file) in
  let* pid := ucall Fork in
  do* (if negb (pid =? 0) && (i mod 3 =? 1) then do* ucall (Link (str "C0") file) in uret tt
       else if (pid =? 0) && (i mod 5 =? 1) then do* ucall (Link (str "C0") file) in uret tt
       else
         let* fd := ucall (Open file (Z.lor O_CREATE O_RDWR)) in
         do* (if fd <? 0 then do* uprintn 1 "concreate create %s failed" [AStr (Some file)] in uexit else uret tt) in
         do* ucall (Close fd) in uret tt) in
  if pid =? 0 then uexit else do* ucall Wait in uret tt.

Definition con_remove (i : Z) : U unit :=
  let file := cfile i in
  let* pid := ucall Fork in
  do* failif (pid <? 0) "fork failed" in
  do* (if ((i mod 3 =? 0) && (pid =? 0)) || ((i mod 3 =? 1) && negb (pid =? 0)) then
         ufor (seqZ 0 4) (fun _ => let* fd := ucall (Open file 0) in do* ucall (Close fd) in uret tt)
       else ufor (seqZ 0 4) (fun _ => do* ucall (Unlink file) in uret tt)) in
  if pid =? 0 then uexit else do* ucall Wait in uret tt.

Definition concreate : U unit :=
  do* say "concreate test" in
  do* ufor (seqZ 0 40) con_make in
  let* fd := ucall (Open (str ".") 0) in
  let* n := uloop (con_scan fd) (replicate 40 0, 0, replicate 16 0) in
  do* ucall (Close fd) in
  do* failif (negb (n =? 40)) "concreate not enough files in directory listing" in
  do* ufor (seqZ 0 40) con_remove in
  say "concreate ok".

(** [n] turns of linkunlink are left; [x] is the state of its generator. *)
Fixpoint linkunlink_loop (n : nat) (x : Z) : U unit :=
  match n with
  | O => uret tt
  | S n' =>
    let x := u32 (x * 1103515245 + 12345) in
    do* (if x mod 3 =? 0 then let* fd := ucall (Open (str "x") (Z.lor O_RDWR O_CREATE)) in do* ucall (Close fd) in uret tt
         else if x mod 3 =? 1 then do* ucall (Link (str "cat") (str "x")) in uret tt
         else do* ucall (Unlink (str "x")) in uret tt) in
    linkunlink_loop n' x
  end.

Definition linkunlink : U unit :=
  do* say "linkunlink test" in
  do* ucall (Unlink (str "x")) in
  let* pid := ucall Fork in
  do* failif (pid <? 0) "fork failed" in
  do* linkunlink_loop 100 (if negb (pid =? 0) then 1 else 97) in
  do* (if negb (pid =? 0) then do* ucall Wait in uret tt else uexit) in
  say "linkunlink ok".

Definition bdname (i : Z) : list Z := cstr [120; 48 + i / 64; 48 + i mod 64].

Definition bigdir : U unit :=
  do* say "bigdir test" in
  do* ucall (Unlink (str "bd")) in
  let* fd := ucall (Open (str "bd") O_CREATE) in
  do* failif (fd <? 0) "bigdir create failed" in
  do* ucall (Close fd) in
  do* ufor (seqZ 0 500) (fun i =>
    let* r := ucall (Link (str "bd") (bdname i)) in
    failif (negb (r =? 0)) "bigdir link failed") in
  do* ucall (Unlink (str "bd")) in
  do* ufor (seqZ 0 500) (fun i =>
    let* r := ucall (Unlink (bdname i)) in
    if negb (r =? 0) then do* uprint 1 "bigdir unlink failed" [] in uexit else uret tt) in
  say "bigdir ok".

(** [if(call != 0){ printf(msg); exit(); }], and with [== 0] and [>= 0] instead. *)
Definition expect0 (e : sysE Z) (msg : string) : U unit := let* r := ucall e in failif (negb (r =? 0)) msg.
Definition refuse0 (e : sysE Z) (msg : string) : U unit := let* r := ucall e in failif (r =? 0) msg.
Definition refuse (e : sysE Z) (msg : string) : U unit := let* r := ucall e in failif (r >=? 0) msg.

Definition subdir (buf : list Z) : U (list Z) :=
  do* say "subdir test" in
  do* ucall (Unlink (str "ff")) in
  do* expect0 (Mkdir (str "dd")) "subdir mkdir dd failed" in
  let* fd := ucall (Open (str "dd/ff") (Z.lor O_CREATE O_RDWR)) in
  do* failif (fd <? 0) "create dd/ff failed" in
  do* ucall (Write fd (str "ff")) in
  do* ucall (Close fd) in
  do* refuse (Unlink (str "dd")) "unlink dd (non-empty dir) succeeded!" in
  do* expect0 (Mkdir (str "/dd/dd")) "subdir mkdir dd/dd failed" in
  let* fd := ucall (Open (str "dd/dd/ff") (Z.lor O_CREATE O_RDWR)) in
  do* failif (fd <? 0) "create dd/dd/ff failed" in
  do* ucall (Write fd (str "FF")) in
  do* ucall (Close fd) in
  let* fd := ucall (Open (str "dd/dd/../ff") 0) in
  do* failif (fd <? 0) "open dd/dd/../ff failed" in
  let* r := read_buf fd BUFSIZE buf in
  let '(cc, buf) := r in
  do* failif (negb (cc =? 2) || negb (at_ buf 0 =? 102)) "dd/dd/../ff wrong content" in
  do* ucall (Close fd) in
  do* expect0 (Link (str "dd/dd/ff") (str "dd/dd/ffff")) "link dd/dd/ff dd/dd/ffff failed" in
  do* expect0 (Unlink (str "dd/dd/ff")) "unlink dd/dd/ff failed" in
  do* refuse (Open (str "dd/dd/ff") O_RDONLY) "open (unlinked) dd/dd/ff succeeded" in
  do* expect0 (Chdir (str "dd")) "chdir dd failed" in
  do* expect0 (Chdir (str "dd/../../dd")) "chdir dd/../../dd failed" in
  do* expect0 (Chdir (str "dd/../../../dd")) "chdir dd/../../dd failed" in
  do* expect0 (Chdir (str "./..")) "chdir ./.. failed" in
  let* fd := ucall (Open (str "dd/dd/ffff") 0) in
  do* failif (fd <? 0) "open dd/dd/ffff failed" in
  let* r := read_buf fd BUFSIZE buf in
  let '(cc, buf) := r in
  do* failif (negb (cc =? 2)) "read dd/dd/ffff wrong len" in
  do* ucall (Close fd) in
  do* refuse (Open (str "dd/dd/ff") O_RDONLY) "open (unlinked) dd/dd/ff succeeded!" in
  do* refuse (Open (str "dd/ff/ff") (Z.lor O_CREATE O_RDWR)) "create dd/ff/ff succeeded!" in
  do* refuse (Open (str "dd/xx/ff") (Z.lor O_CREATE O_RDWR)) "create dd/xx/ff succeeded!" in
  do* refuse (Open (str "dd") O_CREATE) "create dd succeeded!" in
  do* refuse (Open (str "dd") O_RDWR) "open dd rdwr succeeded!" in
  do* refuse (Open (str "dd") O_WRONLY) "open dd wronly succeeded!" in
  do* refuse0 (Link (str "dd/ff/ff") (str "dd/dd/xx")) "link dd/ff/ff dd/dd/xx succeeded!" in
  do* refuse0 (Link (str "dd/xx/ff") (str "dd/dd/xx")) "link dd/xx/ff dd/dd/xx succeeded!" in
  do* refuse0 (Link (str "dd/ff") (str "dd/dd/ffff")) "link dd/ff dd/dd/ffff succeeded!" in
  do* refuse0 (Mkdir (str "dd/ff/ff")) "mkdir dd/ff/ff succeeded!" in
  do* refuse0 (Mkdir (str "dd/xx/ff")) "mkdir dd/xx/ff succeeded!" in
  do* refuse0 (Mkdir (str "dd/dd/ffff")) "mkdir dd/dd/ffff succeeded!" in
  do* refuse0 (Unlink (str "dd/xx/ff")) "unlink dd/xx/ff succeeded!" in
  do* refuse0 (Unlink (str "dd/ff/ff")) "unlink dd/ff/ff succeeded!" in
  do* refuse0 (Chdir (str "dd/ff")) "chdir dd/ff succeeded!" in
  do* refuse0 (Chdir (str "dd/xx")) "chdir dd/xx succeeded!" in
  do* expect0 (Unlink (str "dd/dd/ffff")) "unlink dd/dd/ff failed" in
  do* expect0 (Unlink (str "dd/ff")) "unlink dd/ff failed" in
  do* refuse0 (Unlink (str "dd")) "unlink non-empty dd succeeded!" in
  let* r := ucall (Unlink (str "dd/dd")) in
  do* failif (r <? 0) "unlink dd/dd failed" in
  let* r := ucall (Unlink (str "dd")) in
  do* failif (r <? 0) "unlink dd failed" in
  do* say "subdir ok" in
  uret buf.

(** The sizes [499, 499 + 471, ...] below [12 * 512]. *)
Definition bigwrite_sizes : list Z := (fun k => 499 + 471 * k) <$> seqZ 0 12.

Definition bigwrite (buf : list Z) : U unit :=
  do* say "bigwrite test" in
  do* ucall (Unlink (str "bigwrite")) in
  do* ufor bigwrite_sizes (fun sz =>
    let* fd := ucall (Open (str "bigwrite") (Z.lor O_CREATE O_RDWR)) in
    do* failif (fd <? 0) "cannot create bigwrite" in
    do* ufor (seqZ 0 2) (fun _ =>
      let* cc := ucall (Write fd (take (Z.to_nat sz) buf)) in
      if negb (cc =? sz) then do* uprintn 1 "write(%d) ret %d" [AInt sz; AInt cc] in uexit else uret tt) in
    do* ucall (Close fd) in
    do* ucall (Unlink (str "bigwrite")) in uret tt) in
  say "bigwrite ok".

(** The loops of bigfile: piece [i] is written; piece [i] of half the size is read. *)
Fixpoint bigfile_write (fd : Z) (ks : list Z) (buf : list Z) : U (list Z) :=
  match ks with
  | [] => uret buf
  | i :: ks' =>
    let buf := splice 0 (replicate 600 (u8 i)) buf in
    let* r := ucall (Write fd (take 600 buf)) in
    do* failif (negb (r =? 600)) "write bigfile failed" in
    bigfile_write fd ks' buf
  end.

Definition bigfile_read (fd : Z) (st : Z * Z * list Z) : U (Z * Z * list Z + Z * list Z) :=
  let '(i, total, buf) := st in
  let* r := read_buf fd 300 buf in
  let '(cc, buf) := r in
  do* failif (cc <? 0) "read bigfile failed" in
  if cc =? 0 then uret (inr (total, buf)) else
  do* failif (negb (cc =? 300)) "short read bigfile" in
  do* failif (negb (at_ buf 0 =? i / 2) || negb (at_ buf 299 =? i / 2)) "read bigfile wrong data" in
  uret (inl (i + 1, total + cc, buf)).

Definition bigfile (buf : list Z) : U (list Z) :=
  do* say "bigfile test" in
  do* ucall (Unlink (str "bigfile")) in
  let* fd := ucall (Open (str "bigfile") (Z.lor O_CREATE O_RDWR)) in
  do* (if fd <? 0 then do* uprint 1 "cannot create bigfile" [] in uexit else uret tt) in
  let* buf := bigfile_write fd (seqZ 0 20) buf in
  do* ucall (Close fd) in
  let* fd := ucall (Open (str "bigfile") 0) in
  do* failif (fd <? 0) "cannot open bigfile" in
  let* r := uloop (bigfile_read fd) (0, 0, buf) in
  let '(total, buf) := r in
  do* ucall (Close fd) in
  do* failif (negb (total =? 20 * 600)) "read bigfile wrong total" in
  do* ucall (Unlink (str "bigfile")) in
  do* say "bigfile test ok" in
  uret buf.

Definition fourteen : U unit :=
  do* say "fourteen test" in
  do* expect0 (Mkdir (str "12345678901234")) "mkdir 12345678901234 failed" in
  do* expect0 (Mkdir (str "12345678901234/123456789012345")) "mkdir 12345678901234/123456789012345 failed" in
  let* fd := ucall (Open (str "123456789012345/123456789012345/123456789012345") O_CREATE) in
  do* failif (fd <? 0) "create 123456789012345/123456789012345/123456789012345 failed" in
  do* ucall (Close fd) in
  let* fd := ucall (Open (str "12345678901234/12345678901234/12345678901234") 0) in
  do* failif (fd <? 0) "open 12345678901234/12345678901234/12345678901234 failed" in
  do* ucall (Close fd) in
  do* refuse0 (Mkdir (str "12345678901234/12345678901234")) "mkdir 12345678901234/12345678901234 succeeded!" in
  do* refuse0 (Mkdir (str "123456789012345/12345678901234")) "mkdir 12345678901234/123456789012345 succeeded!" in
  say "fourteen ok".

Definition rmdot : U unit :=
  do* say "rmdot test" in
  do* expect0 (Mkdir (str "dots")) "mkdir dots failed" in
  do* expect0 (Chdir (str "dots")) "chdir dots failed" in
  do* refuse0 (Unlink (str ".")) "rm . worked!" in
  do* refuse0 (Unlink (str "..")) "rm .. worked!" in
  do* expect0 (Chdir (str "/")) "chdir / failed" in
  do* refuse0 (Unlink (str "dots/.")) "unlink dots/. worked!" in
  do* refuse0 (Unlink (str "dots/..")) "unlink dots/.. worked!" in
  do* expect0 (Unlink (str "dots")) "unlink dots failed!" in
  say "rmdot ok".

Definition dirfile : U unit :=
  do* say "dir vs file" in
  let* fd := ucall (Open (str "dirfile") O_CREATE) in
  do* failif (fd <? 0) "create dirfile failed" in
  do* ucall (Close fd) in
  do* refuse0 (Chdir (str "dirfile")) "chdir dirfile succeeded!" in
  do* refuse (Open (str "dirfile/xx") 0) "create dirfile/xx succeeded!" in
  do* refuse (Open (str "dirfile/xx") O_CREATE) "create dirfile/xx succeeded!" in
  do* refuse0 (Mkdir (str "dirfile/xx")) "mkdir dirfile/xx succeeded!" in
  do* refuse0 (Unlink (str "dirfile/xx")) "unlink dirfile/xx succeeded!" in
  do* refuse0 (Link (str "README") (str "dirfile/xx")) "link to dirfile/xx succeeded!" in
  do* expect0 (Unlink (str "dirfile")) "unlink dirfile failed!" in
  do* refuse (Open (str ".") O_RDWR) "open . for writing succeeded!" in
  let* fd := ucall (Open (str ".") 0) in
  let* r := ucall (Write fd (str "x")) in
  do* failif (r >? 0) "write . succeeded!" in
  do* ucall (Close fd) in
  say "dir vs file OK".

Definition close_if (fd : Z) : U unit := if fd >=? 0 then do* ucall (Close fd) in uret tt else uret tt.

Definition iref : U unit :=
  do* say "empty file name" in
  do* ufor (seqZ 0 (50 + 1)) (fun _ =>
    do* expect0 (Mkdir (str "irefd")) "mkdir irefd failed" in
    do* expect0 (Chdir (str "irefd")) "chdir irefd failed" in
    do* ucall (Mkdir []) in
    do* ucall (Link (str "README") []) in
    let* fd := ucall (Open [] O_CREATE) in
    do* close_if fd in
    let* fd := ucall (Open (str "xx") O_CREATE) in
    do* close_if fd in
    do* ucall (Unlink (str "xx")) in uret tt) in
  do* ucall (Chdir (str "/")) in
  say "empty file name OK".

(** ** The limits of processes and memory *)

(** [for(n=0; n<1000; n++)] with [k] turns left: the value of [n] at its end. *)
Fixpoint forktest_loop (k : nat) (n : Z) : U Z :=
  match k with
  | O => uret n
  | S k' =>
    let* pid := ucall Fork in
    if pid <? 0 then uret n else
    if pid =? 0 then uexit else forktest_loop k' (n + 1)
  end.

Definition forktest : U unit :=
  do* say "fork test" in
  let* n := forktest_loop 1000 0 in
  do* failif (n =? 1000) "fork claimed to work 1000 times!" in
  do* ufor (seqZ 0 n) (fun _ => let* r := ucall Wait in failif (r <? 0) "wait stopped early") in
  let* r := ucall Wait in
  do* failif (negb (r =? -1)) "wait got too many" in
  say "fork test OK".

Definition BIG : Z := 100 * 1024 * 1024.

(** [for(i = 0; i < 5000; i++)]: the address expected next. *)
Fixpoint sbrk_bytes (n : nat) (i a : Z) : U Z :=
  match n with
  | O => uret a
  | S n' =>
    let* b := ucall (Sbrk 1) in
    do* (if negb (b =? a) then do* uprintn stdout "sbrk test failed %d %x %x" [AInt i; AInt a; AInt b] in uexit else uret tt) in
    do* ucall (Poke b 1) in
    sbrk_bytes n' (i + 1) (b + 1)
  end.

(** Reading the kernel's memory at [a] in a child. *)
Definition sbrk_kernel (a : Z) : U unit :=
  let* ppid := ucall Getpid in
  let* pid := ucall Fork in
  do* failif (pid <? 0) "fork failed" in
  if pid =? 0 then
    let* c := ucall (Peek a) in
    do* uprintn stdout "oops could read %x = %x" [AInt a; AInt c] in
    do* ucall (Kill ppid) in
    uexit
  else do* ucall Wait in uret tt.

(** The children that fill the memory, [n] of them still to be made: their pids. *)
Fixpoint sbrk_fill (n : nat) (fd0 fd1 : Z) : U (list Z) :=
  match n with
  | O => uret []
  | S n' =>
    let* pid := ucall Fork in
    do* (if pid =? 0 then
           let* top := ucall (Sbrk 0) in
           do* ucall (Sbrk (s32 (BIG - u32 top))) in
           do* ucall (Write fd1 (str "x")) in
           uloop (fun _ : unit => do* ucall (Sleep 1000) in uret (inl tt)) tt
         else uret tt) in
    do* (if negb (pid =? -1) then do* ucall (Read fd0 1) in uret tt else uret tt) in
    let* pids := sbrk_fill n' fd0 fd1 in
    uret (pid :: pids)
  end.

Definition sbrktest : U unit :=
  do* say "sbrk test" in
  let* oldbrk := ucall (Sbrk 0) in
  let* a := ucall (Sbrk 0) in
  let* a := sbrk_bytes 5000 0 a in
  let* pid := ucall Fork in
  do* failif (pid <? 0) "sbrk test fork failed" in
  do* ucall (Sbrk 1) in
  let* c := ucall (Sbrk 1) in
  do* failif (negb (c =? a + 1)) "sbrk test failed post-fork" in
  do* (if pid =? 0 then uexit else uret tt) in
  do* ucall Wait in
  let* a := ucall (Sbrk 0) in
  let* p := ucall (Sbrk (s32 (u32 (BIG - u32 a)))) in
  do* failif (negb (p =? a)) "sbrk test failed to grow big address space; enough phys mem?" in
  let lastaddr := BIG - 1 in
  do* ucall (Poke lastaddr 99) in
  let* a := ucall (Sbrk 0) in
  let* c := ucall (Sbrk (-4096)) in
  do* failif (u32 c =? 0xffffffff) "sbrk could not deallocate" in
  let* c := ucall (Sbrk 0) in
  do* (if negb (c =? a - 4096) then do* uprintn stdout "sbrk deallocation produced wrong address, a %x c %x" [AInt a; AInt c] in uexit else uret tt) in
  let* a := ucall (Sbrk 0) in
  let* c := ucall (Sbrk 4096) in
  let* ok := (if negb (c =? a) then uret false else let* b := ucall (Sbrk 0) in uret (b =? a + 4096)) in
  do* (if negb ok then do* uprintn stdout "sbrk re-allocation failed, a %x c %x" [AInt a; AInt c] in uexit else uret tt) in
  let* v := ucall (Peek lastaddr) in
  do* failif (v =? 99) "sbrk de-allocation didn't really deallocate" in
  let* a := ucall (Sbrk 0) in
  let* top := ucall (Sbrk 0) in
  let* c := ucall (Sbrk (- (top - oldbrk))) in
  do* (if negb (c =? a) then do* uprintn stdout "sbrk downsize failed, a %x c %x" [AInt a; AInt c] in uexit else uret tt) in
  do* ufor ((fun k => KERNBASE + 50000 * k) <$> seqZ 0 40) sbrk_kernel in
  let* r := ucall Pipe in
  let '(r, (fd0, fd1)) := r in
  do* failif (negb (r =? 0)) "pipe() failed" in
  let* pids := sbrk_fill 10 fd0 fd1 in
  let* c := ucall (Sbrk 4096) in
  do* ufor pids (fun pid => if pid =? -1 then uret tt else do* ucall (Kill pid) in do* ucall Wait in uret tt) in
  do* failif (u32 c =? 0xffffffff) "failed sbrk leaked memory" in
  let* top := ucall (Sbrk 0) in
  do* (if u32 top >? u32 oldbrk then let* top := ucall (Sbrk 0) in do* ucall (Sbrk (- (top - oldbrk))) in uret tt else uret tt) in
  say "sbrk test OK".

(** A system call whose argument is at the address [p]. *)
Definition validateint (p : Z) : U unit := do* ucall (Trapcall 13 p) in uret tt.

Definition validatetest : U unit :=
  do* say "validate test" in
  let hi := 1100 * 1024 in
  do* ufor ((fun k => 4096 * k) <$> seqZ 0 (hi / 4096 + 1)) (fun p =>
    let* pid := ucall Fork in
    do* (if pid =? 0 then do* validateint p in uexit else uret tt) in
    do* ucall (Sleep 0) in
    do* ucall (Sleep 0) in
    do* ucall (Kill pid) in
    do* ucall Wait in
    let* r := ucall (Linkat (str "nosuchfile") p) in
    failif (negb (r =? -1)) "link should not succeed") in
  say "validate ok".

(** [uninit] is the array as the program finds it. *)
Definition bsstest (uninit : list Z) : U unit :=
  do* say "bss test" in
  do* ufor uninit (fun c => failif (negb (c =? 0)) "bss test failed") in
  say "bss test ok".

Definition bigarg : list Z := str "bigargs test: failed" ++ [10] ++ replicate 199 32.

Definition bigargtest : U unit :=
  do* ucall (Unlink (str "bigarg-ok")) in
  let* pid := ucall Fork in
  do* (if pid =? 0 then
         do* say "bigarg test" in
         do* ucall (Exec (str "echo") (replicate (Z.to_nat MAXARG - 1) bigarg)) in
         do* say "bigarg test ok" in
         let* fd := ucall (Open (str "bigarg-ok") O_CREATE) in
         do* ucall (Close fd) in
         uexit
       else failif (pid <? 0) "bigargtest: fork failed") in
  do* ucall Wait in
  let* fd := ucall (Open (str "bigarg-ok") 0) in
  do* failif (fd <? 0) "bigarg test failed!" in
  do* ucall (Close fd) in
  do* ucall (Unlink (str "bigarg-ok")) in
  uret tt.

(** ** Running out of blocks, and forbidden instructions *)

(** The name of file [n] of fsfull. *)
Definition ffname (n : Z) : list Z :=
  cstr (u8 <$> [102; 48 + n / 1000; 48 + (n mod 1000) / 100; 48 + (n mod 100) / 10; 48 + n mod 10]).

(** [while(1)]: the bytes written before a write is short. *)
Definition fsfull_write (fd : Z) (buf : list Z) (total : Z) : U (Z + Z) :=
  let* cc := ucall (Write fd (take 512 buf)) in
  if cc <? 512 then uret (inr total) else uret (inl (total + cc)).

Definition fsfull_turn (buf : list Z) (nfiles : Z) : U (Z + Z) :=
  let name := ffname nfiles in
  do* uprintn 1 "writing %s" [AStr (Some name)] in
  let* fd := ucall (Open name (Z.lor O_CREATE O_RDWR)) in
  if fd <? 0 then do* uprintn 1 "open %s failed" [AStr (Some name)] in uret (inr nfiles) else
  let* total := uloop (fsfull_write fd buf) 0 in
  do* uprintn 1 "wrote %d bytes" [AInt total] in
  do* ucall (Close fd) in
  if total =? 0 then uret (inr nfiles) else uret (inl (nfiles + 1)).

Definition fsfull (buf : list Z) : U unit :=
  do* say "fsfull test" in
  let* nfiles := uloop (fsfull_turn buf) 0 in
  do* ufor (reverse (seqZ 0 (nfiles + 1))) (fun n => do* ucall (Unlink (ffname n)) in uret tt) in
  say "fsfull test finished".

Definition uio : U unit :=
  do* say "uio test" in
  let* pid := ucall Fork in
  do* (if pid =? 0 then
         do* ucall (Outport 0x70 0x09) in
         do* ucall (Inport 0x71) in
         do* say "uio: uio succeeded; test FAILED" in
         uexit
       else failif (pid <? 0) "fork failed") in
  do* ucall Wait in
  say "uio test done".

(** The address that is passed to read plays no part: the size is refused first. *)
Definition argptest : U unit :=
  let* fd := ucall (Open (str "init") O_RDONLY) in
  do* (if fd <? 0 then do* uprintn 2 "open failed" [] in uexit else uret tt) in
  do* ucall (Sbrk 0) in
  do* ucall (Read fd (-1)) in
  do* ucall (Close fd) in
  say "arg test passed".

(** The generator, as its state after the call, which is also the value returned. *)
Definition rand (randstate : Z) : Z := u32 (randstate * 1664525 + 1013904223).

(** ** The whole program *)

Definition usertests_main (base : Z) : U unit :=
  let buf := replicate (Z.to_nat BUFSIZE) 0 in
  do* say "usertests starting" in
  let* r := ucall (Open (str "usertests.ran") 0) in
  do* failif (r >=? 0) "already ran user tests -- rebuild fs.img" in
  let* fd := ucall (Open (str "usertests.ran") O_CREATE) in
  do* ucall (Close fd) in
  do* argptest in
  do* createdelete in
  do* linkunlink in
  do* concreate in
  let* buf := fourfiles buf in
  do* sharedfd in
  do* bigargtest in
  do* bigwrite buf in
  do* bigargtest in
  do* bsstest (replicate (Z.to_nat 10000) 0) in
  do* sbrktest in
  do* validatetest in
  do* opentest in
  let* buf := writetest buf in
  let* buf := writetest1 buf in
  do* createtest in
  do* openiputtest in
  do* exitiputtest in
  do* iputtest in
  do* mem base in
  let* buf := pipe1 buf in
  let* buf := preempt buf in
  do* exitwait in
  do* rmdot in
  do* fourteen in
  let* buf := bigfile buf in
  let* buf := subdir buf in
  let* buf := linktest buf in
  let* buf := unlinkread buf in
  do* dirfile in
  do* iref in
  do* forktest in
  do* bigdir in
  do* uio in
  do* exectest in
  uexit.

(** ** forktest.c *)

(** printf of this program writes the string as it is. *)
Definition ft_printf (s : string) : U unit := do* ucall (Write 1 (str s ++ [10])) in uret tt.
Definition ft_fail {A} (s : string) : U A := do* ft_printf s in uexit.

Definition ft_forktest : U unit :=
  do* ft_printf "fork test" in
  let* n := forktest_loop 1000 0 in
  do* (if n =? 1000 then ft_fail "fork claimed to work N times!" else uret tt) in
  do* ufor (seqZ 0 n) (fun _ => let* r := ucall Wait in if r <? 0 then ft_fail "wait stopped early" else uret tt) in
  let* r := ucall Wait in
  do* (if negb (r =? -1) then ft_fail "wait got too many" else uret tt) in
  ft_printf "fork test OK".

Definition forktest_main : U unit := do* ft_forktest in uexit.

(** ** stressfs.c *)

(** [for(i = 0; i < 4; i++) if(fork() > 0) break;] *)
Fixpoint stress_fork (k : nat) (i : Z) : U Z :=
  match k with
  | O => uret i
  | S k' => let* pid := ucall Fork in if pid >? 0 then uret i else stress_fork k' (i + 1)
  end.

Definition stressfs_main : U unit :=
  let data := replicate 512 97 in
  do* say "stressfs starting" in
  let* i := stress_fork 4 0 in
  do* uprintn 1 "write %d" [AInt i] in
  let path := str "stressfs" ++ [u8 (48 + i)] in
  let* fd := ucall (Open path (Z.lor O_CREATE O_RDWR)) in
  do* ufor (seqZ 0 20) (fun _ => do* ucall (Write fd data) in uret tt) in
  do* ucall (Close fd) in
  do* say "read" in
  let* fd := ucall (Open path O_RDONLY) in
  do* ufor (seqZ 0 20) (fun _ => do* ucall (Read fd 512) in uret tt) in
  do* ucall (Close fd) in
  do* ucall Wait in
  uexit.

(** ** udevtests.c *)

(** The niceness tried on process [i]. *)
Definition nice_for (i : Z) : Z := if i =? 2 then 100 else if i =? 3 then -13 else 21.

Definition testsyscalls : U unit :=
  do* printf 1 ([10] ++ str "PS TEST" ++ [10]) [] in
  do* ufor (seqZ 0 5) (fun i =>
    do* uprintn 1 "Doing ps(%d)" [AInt i; AInt i] in
    do* ucall (Ps i) in uret tt) in
  do* printf 1 ([10] ++ str "SETNICE TEST" ++ [10]) [] in
  do* ufor (seqZ 0 6) (fun i =>
    do* uprintn 1 "Setting nice of PID %d to %d" [AInt i; AInt (nice_for i)] in
    let* r := ucall (Setnice i (nice_for i)) in
    uprintn 1 "Returns:%d" [AInt r]) in
  do* printf 1 ([10] ++ str "GETNICE TEST" ++ [10]) [] in
  do* ufor (seqZ 0 6) (fun i =>
    do* uprintn 1 "Getting nice of PID %d " [AInt i] in
    let* r := ucall (Getnice i) in
    uprintn 1 "Returns:%d" [AInt r]) in
  do* ucall (Ps 0) in
  uprintn 1 "DONE" [].

Definition udevtests_main : U unit := do* testsyscalls in uexit.
