(* ===== verification/Testrun.v ===== *)
(** * Running programs on the kernel

    A user process on the kernel: its system calls put their arguments into its memory, trap, and
    take the result from its registers, so that every call goes through the page tables, trap(),
    syscall() and the routine of the call, down to the buffer cache, the log and the disk.  The
    disk is the image that mkfs makes.  The programs are the tests that come with the kernel. *)

From Stdlib Require Import ZArith Lia.
From stdpp Require Import base list gmap strings numbers.
From S2P Require Import Prelude Machine Cstring Spinlock Boot Kalloc Cprintf Sched Vm Sleeplock.
From S2P Require Import Layout Bio Log Fs Pipe File Mkfs Proc Exec Args Sysfile Kbd Console Syscall User Ulib Usertests.
From stdpp Require Import list.
From ITree Require Import ITree ITreeFacts Events.State Events.StateFacts.
Local Open Scope Z_scope.

(** ** Execution of a program *)

Section steps.
Context `{Sys}.

(** [n] bounds the steps. *)
Fixpoint steps {A} (n : nat) (m : U A) (s : sys_state) : option (option A * sys_state) :=
  match n with
  | O => None
  | S n' =>
    match observe m with
    | RetF o => Some (o, s)
    | TauF m' => steps n' m' s
    | VisF e k => let '(s', a) := sys e s in steps n' (k a) s'
    end
  end.

Lemma steps_runs {A} n (m : U A) s o s' : steps n m s = Some (o, s') -> runs m s o s'.
Proof.
  revert m s. induction n as [|n IH]; intros m s; [done|]. cbn [steps]. unfold runs. destruct (observe m) as [r|m'|X e k] eqn:Eo; intros E; rewrite (itree_eta m), Eo.
  - injection E as <- <-. by rewrite interp_state_ret.
  - rewrite interp_state_tau, tau_eutt. by apply IH.
  - rewrite interp_state_vis. unfold sys_handler at 1. destruct (sys e s) as [s1 a]. rewrite bind_ret_l. cbn [fst snd]. rewrite tau_eutt. by apply IH.
Qed.
End steps.

Local Open Scope kern_scope.

(** ** The process *)

(** Its page directory, its page table, its pages and its kernel stack. *)
Definition UDIR : Z := KERNBASE + 0x200000.
Definition UTAB : Z := KERNBASE + 0x201000.
Definition UPAGE : Z := KERNBASE + 0x210000.
Definition KSTK : Z := KERNBASE + 0x220000.
Definition TF : Z := KSTK + KSTACKSIZE - TF_SIZE.

(** Where the process puts strings, the data it reads and writes, and its stack. *)
Definition USTR : Z := 0x1000.
Definition USTR2 : Z := 0x1800.
Definition UDATA : Z := 0x2000.
Definition USTACK : Z := 0x5F00.

Section calls.
Context `{KernelImage} `{DiskDriver} `{DevSwitch}.

(** The trap of a system call, the arguments being on the stack behind the return address. *)
Definition call (num : Z) (args : list Z) : KM Z :=
  ustore USTACK (concat (Layout.le 4 <$> (0 :: args))) >>;
  kmod (st (TF + tf_eax) num) >>;
  kmod (st (TF + tf_esp) USTACK) >>;
  kmod (st (TF + tf_trapno) T_SYSCALL) >>;
  kmod (sth (TF + tf_cs) (Z.lor (Z.shiftl SEG_UCODE 3) DPL_USER)) >>;
  trap (fun _ => 0) TF >>;
  kget (fun w => s32 (ld w (TF + tf_eax))).

Definition put_str (a : Z) (s : list Z) : KM Z := ustore a (s ++ [0]) >>; kret a.

(** The system calls by their numbers in syscall.h.  The instructions that are no calls, exec and the
    calls that wait for another process are not among them. *)
Definition kcall {T} (e : sysE T) : KM T :=
  match e in sysE T return KM T with
  | Open path mode => a <- put_str USTR path; call 15 [a; mode]
  | Close fd => call 21 [fd]
  | Read fd n => r <- call 5 [fd; UDATA; n]; bs <- uload (Z.to_nat r) UDATA; kret (r, bs)
  | Write fd bs => ustore UDATA bs >>; call 16 [fd; UDATA; Z.of_nat (length bs)]
  | Unlink path => a <- put_str USTR path; call 18 [a]
  | Link old new => a <- put_str USTR old; b <- put_str USTR2 new; call 19 [a; b]
  | Mkdir path => a <- put_str USTR path; call 20 [a]
  | Chdir path => a <- put_str USTR path; call 9 [a]
  | Mknod path major minor => a <- put_str USTR path; call 17 [a; major; minor]
  | Dup fd => call 10 [fd]
  | Fstat fd =>
    r <- call 8 [fd; UDATA];
    bs <- uload (Z.to_nat STAT_SIZE) UDATA;
    kret (r, mkUstat (s16 (Layout.get 2 bs 0)) (s32 (Layout.get 4 bs 4)) (Layout.get 4 bs 8) (s16 (Layout.get 2 bs 12)) (Layout.get 4 bs 16))
  | Getpid => call 11 []
  | Sbrk n => call 12 [n]
  | Uptime => call 14 []
  | Kill pid => call 6 [pid]
  | Setnice pid nice => call 22 [pid; nice]
  | Getnice pid => call 23 [pid]
  | Ps pid => call 24 [pid]
  | Pipe => kret (-1, (0, 0))
  | _ => kret (-1)
  end.

(** [None]: the kernel has panicked, or the call does not end. *)
Definition kernel {T} (e : sysE T) (w : option world) : option world * T :=
  let none := match e in sysE T return T with
              | Read _ _ => (-1, [])
              | Fstat _ => (-1, mkUstat 0 0 0 0 0)
              | Pipe => (-1, (0, 0))
              | _ => -1
              end in
  match w with
  | None => (None, none)
  | Some w => match kcall e w [] with Prelude.Ret a w' _ => (Some w', a) | _ => (None, none) end
  end.

#[export] Instance kernel_sys : Sys := {| sys_state := option world; sys T e w := kernel e w |}.
End calls.

(** ** The machine *)

(** The image that mkfs makes of four files. *)
Definition mk_host : MkHost := {| mh_create := true; mh_write _ := true; mh_read _ := true; mh_file a := Some [a ++ [10]] |}.
Definition mk_files : list (list Z) := [str "fs.img"; str "README"; str "_cat"; str "_echo"; str "_init"].
Definition image_of (r : Mkfs.result unit) : gmap Z (list Z) := match r with Mkfs.Exit _ s => Mkfs.img s | _ => ∅ end.
Definition fs_image : gmap Z (list Z) := image_of (@Mkfs.run mk_host mk_files).

Definition user_memory : memory :=
  foldr (fun i m => stm (UTAB + 4 * i) (Z.lor (V2P (UPAGE + PGSIZE * i)) 7) m) (stm UDIR (Z.lor (V2P UTAB) 7) ∅) (seqZ 0 6).
Definition user_proc : proc :=
  mkProc (6 * PGSIZE) UDIR KSTK RUNNING 1 (mkCfs 0 0 0 0) None TF 0 None 0 (replicate NOFILE None) None (strncpy (replicate 16 0) (str "usertests") 16).
Definition machine : world :=
  set_w_disk (fun _ => fs_image)
    (set_w_cpus (fun _ => [set_c_proc (fun _ => Some 0%nat) boot_cpu])
      (set_w_procs (fun _ => user_proc :: replicate (NPROC - 1) zero_proc)
        (set_w_mem (fun _ => user_memory) (set_w_cr3 (fun _ => V2P UDIR) (set_w_con (set_cn_uart (fun _ => 1)) boot_world))))).

#[local] Existing Instance demo_image.
#[local] Existing Instance memide.
#[local] Instance console_switch : DevSwitch := console_devsw.

(** What the kernel does before the first process runs, and the process's current directory. *)
Definition start_kernel : KM unit :=
  binit >>;
  iinit ROOTDEV >>;
  initlog ROOTDEV >>;
  ip <- namei (str "/");
  kmod (upd_proc 0 (set_p_cwd (fun _ => ip))).

Definition ended {A} (r : outcome world A) : option world := match r with Prelude.Ret _ w _ => Some w | _ => None end.
Definition booted : option world := ended (start_kernel machine []).

Local Open Scope user_scope.

(** As init does it: standard input, output and error are the console. *)
Definition console_first : U unit :=
  do* ucall (Mknod (str "console") 1 1) in
  do* ucall (Open (str "console") O_RDWR) in
  do* ucall (Dup 0) in
  do* ucall (Dup 0) in
  uret tt.

Definition STEPS : nat := Z.to_nat 1000000.

(** What is on the serial line when the program has returned. *)
Definition printed {A} (r : option (option A * option world)) : option (list Z) :=
  match r with Some (Some _, Some w) => Some (cn_serial (w_con w)) | _ => None end.
Definition shows {A} (m : U A) : option (list Z) := printed (steps STEPS (do* console_first in m) booted).

(** A run of a program on the kernel that is started, with the console as its files 0, 1 and 2. *)
Definition runs_on_kernel {A} (m : U A) (a : A) (w : world) : Prop :=
  runs (H := kernel_sys) (do* console_first in m) booted (Some a) (Some w).

(** A run that prints is a run of the program on the kernel, which does not panic. *)
Lemma printed_runs {A} n (m : U A) (s : option world) out : printed (steps (H := kernel_sys) n m s) = Some out ->
  exists a w, runs (H := kernel_sys) m s (Some a) (Some w) /\ cn_serial (w_con w) = out.
Proof.
  destruct (steps (H := kernel_sys) n m s) as [[[a|] [w|]]|] eqn:E; cbn [printed]; try done. intros [= <-]. exists a, w. split; [|done]. exact (steps_runs _ _ _ _ _ E).
Qed.

Lemma shows_runs {A} (m : U A) out : shows m = Some out -> exists a w, runs_on_kernel m a w /\ cn_serial (w_con w) = out.
Proof. exact (printed_runs STEPS _ booted out). Qed.

(** ** The tests *)

(** Ten tests of usertests.c that need no second process: nine in the order in which main runs them,
    and dirtest, which main does not run. *)
Definition file_tests : U unit :=
  let buf := replicate (Z.to_nat BUFSIZE) 0 in
  do* argptest in
  do* opentest in
  do* iputtest in
  do* rmdot in
  do* fourteen in
  let* buf := subdir buf in
  let* buf := linktest buf in
  let* buf := unlinkread buf in
  do* dirfile in
  dirtest.

Definition text_lines (l : list string) : list Z := concat ((fun s => str s ++ [10]) <$> l).

